(* ===== verification/_CoqProject ===== *)
-Q . S2P
Prelude.v
Memory.v
CString.v
PageAlloc.v
Pmm.v
Heap.v
HeapRep.v
HeapOps.v
HeapAlloc.v
HeapProps.v
HeapSpec.v
Ring.v
Process.v
ProcessProps.v
Sched.v
SchedProps.v
Pipe.v
PipeProps.v
Message.v
MessageProps.v
Vmm.v
VmmProps.v
VmmSpaces.v
Sha256.v
Netbuf.v
Net.v
Checksum.v
Packets.v
ArpProps.v
Hosts.v
IpText.v
Acl.v
Random.v
AuthSha.v
Auth.v
AuthProps.v
AuthSpec.v
Chain.v
Tcp.v
TcpRing.v
TcpInv.v
TcpLife.v
TcpSafe.v
TcpStates.v
TcpConn.v
TcpData.v
Udp.v
UdpProps.v
Dns.v
DnsProps.v
Block.v
VfsBase.v
Fat.v
FatTable.v
FatAlloc.v
FatFile.v
FatWrite.v
FatName.v
FatDir.v
FatDirProps.v
FatDelete.v
FatSync.v
VfsPath.v
Vfs.v
VfsOps.v
FatVfs.v
VfsInv.v
VfsFile.v
FatDemo.v
Dhcp.v
DhcpProps.v
Socket.v
SocketProps.v
Vga.v
Editor.v
EditorProps.v
Terminal.v
TerminalProps.v
Rtc.v
Keyboard.v
