(* ===== verification/Prelude.v ===== *)
(** * AAAos: a verification library of the kernel and its services

    AAAos is a small operating system for x86-64: a kernel with physical and virtual
    memory management, a heap, processes, a scheduler, pipes and message passing; a
    network stack; users, permissions and cryptography; drivers, a file system, a window
    system and applications. This library models the parts below as executable
    definitions translated from the C sources under src/, and proves what each part
    promises to the others.

    ** Conventions

    A C integer of width w is a [Z] in its range, and every operation that can leave it is
    followed by the wrap of its type ([u8], [u16], [u32], [u64]). Byte-addressed memory is
    a function ([Memory.mem]); an array or table is a function from indices ([Ring.upd]
    updates it) or, where its lemmas help, a list; a pointer to a structure of a static
    table is its index, NULL is 0 or [None]. Global variables are the fields of a record
    that is passed along; a function returns its state and its result, [None] or a
    negative code for failure. Loops are structural recursions, [for_range], or take a
    bound, and the theorems show that the bound is never reached. Output with kprintf is
    left out: it changes no state. Claims are the theorems whose comment starts with an
    identifier C1, C2, ...; a theorem called X_witness applies X to a concrete input.

    ** Files, in the order they build on each other

    - Prelude: machine integers (kernel/include/types.h), counted loops, tactics, the hint
      database [word], arrays; Memory: bytes and words in memory and in
      lists of bytes; Ring: circular arrays
      and updates of tables.
    - CString (lib/libc/string.c): memset, memcpy, memmove, memcmp, strlen, strcpy,
      strcat, strcmp, strncmp, strchr, strrchr, strstr and their kin over memory.
    - PageAlloc: the interface [PageAllocator] with its laws [PageAllocatorLaws], against
      which the heap, the process manager, the page tables and the network buffers are
      proved; Pmm (kernel/mm/pmm.c): the bitmap allocator that implements it, with the
      initialisation from the boot memory map.
    - Heap (kernel/mm/heap.c): block headers in memory, the address-ordered free list,
      split, coalesce, growth, kmalloc, kfree, krealloc, kcalloc, kmalloc_aligned,
      validation. HeapRep: the representation invariant, a tiling of the heap by blocks
      with the free list through them; HeapOps, HeapAlloc, HeapProps: the operations keep
      it; HeapSpec: the contracts over the set of live allocations.
    - Process (kernel/proc/process.c): the process table, creation with kernel stack and
      initial context, exit with reparenting; ProcessProps: isolation and the
      contracts. Sched (kernel/sched/scheduler.c): ready queue, tick, switch, yield;
      SchedProps: the queue is a list, scheduling is round robin.
    - Pipe (kernel/ipc/pipe.c): circular buffers, blocking calls as the sections between
      waits, wait queues; PipeProps: a pipe is a byte stream under every interleaving.
      Message (kernel/ipc/message.c): mailboxes over a shared pool, MessageProps: mail is
      delivered once and in order.
    - Vmm (kernel/mm/vmm.c): four-level page tables in memory, map, unmap, translation,
      the TLB invalidations; VmmProps: the tables refine a map from pages to entries;
      VmmSpaces: address spaces.
    - Sha256 (security/crypto/sha256.c): the incremental interface computes
      FIPS 180-4. Random (security/crypto/random.c): xorshift128+, splitmix64, byte and
      range requests. Acl (security/acl/acl.c): permissions of file nodes.
    - Netbuf (net/core/netbuf.c): packet buffers. Net: Ethernet, ARP and IPv4
      (net/ethernet, net/arp, net/ip) over one state; Checksum: the Internet checksum;
      Packets: what is read is what was written; ArpProps: the cache; Hosts: two machines
      exchanging frames, and sending from a buffer; IpText: addresses as text.
    - AuthSha (the second SHA-256, inside security/auth/auth.c), Auth (users, sessions,
      groups), AuthProps (the operations keep the tables well formed), AuthSpec (histories,
      login, deletion, password hashes, new accounts, membership).
    - Chain: linked lists through pointer fields and the loops that walk them, and
      the interface [KernelHeap] with its laws, implemented by the heap of Heap, for components
      that keep their structures on it. Tcp (net/tcp/tcp.c): ring buffers, sequence
      numbers, segments, the socket list, the calls, tcp_receive with its state machine,
      the timer. TcpRing: buffers, sequence order, segments on the wire; TcpInv,
      TcpLife, TcpSafe: the memory invariant, runs and the timer; TcpStates: the
      state diagram; TcpConn: the handshake of two hosts; TcpData: the stream,
      binding, and two example hosts. Udp (net/udp/udp.c): sockets, their queues and
      the datagrams; UdpProps: the sockets are mailboxes. Dns (net/dns/dns.c): host names
      and their compressed form, queries, responses, the cache; DnsProps: names round-trip,
      responses are parsed safely, the cache is a map. Dhcp (net/dhcp/dhcp.c): messages,
      options, the client, its timer and the configuration loop; DhcpProps: the handshake
      and the lease. Socket (net/socket/socket.c): the BSD interface over TCP and IP;
      SocketProps: ports, descriptors and receive buffers.
    - Block: the interface [BlockDevice]
      with its laws [BlockDeviceLaws], and a disk in memory that implements it. Fat
      (fs/fat32/fat32.c): the boot sector, FSInfo, the table with its cache, clusters,
      chains, files, sync, mounting; FatName: short names; FatDir: directories. FatTable:
      the volume refines a table and the contents of its clusters; FatAlloc,
      FatFile, FatWrite, FatDirProps, FatDelete, FatSync: the operations on it.
    - VfsBase, VfsPath, Vfs, VfsOps (fs/vfs/vfs.c): paths, the tables, and the calls over
      the operations of a file system; FatVfs: the operations of FAT32. VfsInv: who
      holds which node of the pool, and which mount a path belongs to; VfsFile: an open file is
      a sequence of bytes; FatDemo: a volume of four clusters, an open file on it, and runs of
      calls from an empty state.
    - Vga (kernel/vga.c): the text screen and formatted printing on it. Editor
      (apps/text_editor/editor.c): lines in heap blocks, the text and its cursor, files,
      search, the keys, the screen; EditorProps: the editor is a text with a position,
      every key keeps it well formed, what is written to a file is read back. Terminal
      (apps/terminal/terminal.c): the screen of cells, escape sequences, scrollback, the
      typed line, drawing, resizing; TerminalProps: the screen keeps its shape, lines that
      scroll off are kept while there are blocks for them, cursor addresses are printed and parsed alike.
    - Rtc (drivers/timer/rtc.c): the clock's registers, the calendar, Unix time, text.
      Keyboard (drivers/input/keyboard.c): scan codes, modifiers and LEDs, characters, the
      ring of events.

    ** What the theorems show

    - Memory: pages are handed out once and the first fitting run is found; the heap's
      outstanding pointers are exactly its live, disjoint, aligned allocations after any
      history, and each operation leaves the bytes of the others alone; mapping and
      unmapping change one page of the translation and invalidate it.
    - Processes and communication: live processes have distinct ids and disjoint stacks;
      the scheduler shares time in turns of ten ticks; pipes and mailboxes are FIFO, for
      every interleaving of their callers.
    - Network: a datagram to an unknown neighbour triggers address resolution and is then
      delivered exactly, the checksum is RFC 1071's and detects a changed byte, cache and
      buffers keep their invariants, address text is parsed as specified. TCP keeps its
      lists and blocks intact in every run of callers that pass only sockets in the list, moves along the arcs of RFC 793, connects
      two hosts, and hands the application a prefix of the peer's stream whatever the
      network does to the segments. UDP sockets are mailboxes, and what is sent is what
      is received. Host names survive encoding with compression, a response of any
      content is read only inside its bytes and gives its first address, the DNS cache is a
      map that gives up its oldest entry. A DHCP offer is answered by
      the REQUEST of the standard, byte by byte, an acknowledgement binds the client to the lease of
      that message field by field, and the interface is configured with the valid lease in every run. Sockets never share a port,
      and a datagram socket is a queue of bytes.
    - Files: a FAT32 volume is a table of chains and the contents of clusters; allocation,
      writing, creating, deleting and remounting do what they promise on it and change
      nothing else; a name is found again in any case. Through the virtual file system an
      open file behaves as a sequence of bytes with a position, paths resolve to lists of
      names and to the longest mount point, and in every sequence of calls no open file, open
      directory or mount point refers to a free node, as long as nothing is unmounted while a
      directory is open.
    - Text: printing on the text screen is defined exactly for complete formats with fitting
      arguments and widths, and then nothing is written outside the screen; the keys of the
      editor do to its lines what they do to a plain text with a position when the heap serves
      them, a key has no defined result exactly when it overruns the message of a prompt, and
      the bytes of a saved text are read back as its lines; nothing that is printed on a
      terminal leaves its screen, its scrollback is the list of the last thousand lines for
      which there were blocks.
    - Time: the day of the week is what counting days gives, Unix time converts both ways,
      the clock is read as it was set in all its modes.
    - Keyboard: for every interleaving the ring is a queue of at most 255 events, the
      modifiers are the keys that are held according to the bytes received, the LEDs those of the
      locks, letters follow Shift and Caps Lock.
    - Security: both hash implementations compute SHA-256, passwords round-trip, logins
      and deletions do what they promise over tables that stay well formed, access is
      granted by the owner, group, other rule, random ranges are even.
    - Theorems that are not claims record faults of the code, such as
      [HeapSpec.heap_hands_out_foreign_page], [PipeProps.pipe_stale_writer_leaks],
      [SchedProps.process_current_stale_after_switch], [Hosts.ip_send_buf_retry_nests],
      [Netbuf.netbuf_reset_escapes], [AuthSpec.auth_automatic_uid_collides],
      [UdpProps.udp_ephemeral_wraps], [DnsProps.dns_id_ignored], [DhcpProps.dhcp_reads_past_packet],
      [SocketProps.socket_reopened_lost], [SocketProps.socket_close_destroys_twice], [FatAlloc.fat_alloc_past_end], [FatAlloc.fat_alloc_full_hangs],
      [FatSync.fat_truncate_loses_cluster], [VfsFile.fat_write_leaves_entry],
      [FatDemo.vfs_unmount_frees_held_node],
      [Vga.vga_width_overflows], [EditorProps.prompt_overruns_message],
      [EditorProps.long_join_loses], [EditorProps.down_skips_line],
      [TerminalProps.typed_line_takes_stale_byte], [TerminalProps.wider_screen_overruns],
      [Rtc.rtc_sets_february_31] and [Keyboard.arrow_key_types_digit].

    ** Bounds

    A walk over heap blocks takes one step more than the heap can have blocks; the loop of
    a blocking pipe write takes at most three rounds between waits; heap_validate stops
    after 10000 blocks by itself; reparenting visits the 32 child slots; the folding loop of the
    checksum ends after two rounds ([FOLD_ROUNDS] is 3); sha256_update takes len / 64
    whole blocks. A walk over a linked list of heap blocks takes at most [ADDRESSES], 2^64,
    steps, and the search for an ephemeral port 65536. The loops of the
    file system over clusters and components take at most 2^64 rounds ([Chain.loop]), and
    the theorems show that they end long before. The rejection loop of random_range has no bound in the code: its
    theorem says that it returns as soon as one draw is below the limit.

    ** Parameters

    What a network card's eth_hw_send returns ([hw_result]), what icmp_receive returns
    ([icmp_result]; the sources only declare it), the contents of memory
    fresh from the heap ([fresh]), what uninitialised stack memory holds
    ([stack], [stack_ctx]), what the timer reads ([Random.random_seed_from_time]), the block
    device of a volume ([BlockDevice]; a device is mounted once at a time), the
    operations of file systems by address ([ops_at]), what carries a DNS query
    ([Dns.resolve_with]; the source has a stub), what happens between the rounds of
    dhcp_configure ([env]), the calls of the file system that the editor makes
    ([FileStore]; nothing is assumed of them but the bytes that one open gets), the
    answers of the keyboard controller, what the compositor and the frame buffer tell the terminal, and what the
    clock's registers hold when they are read.

    ** Not modelled

    The other device drivers, descriptor tables, interrupt controllers and the boot loaders, whose
    behaviour is the hardware's; printing on the serial port; the window system, which
    draws. System calls, the ELF loader and the shell are not modelled yet. *)
From stdpp Require Export base list numbers tactics relations.
From Stdlib Require Export ZArith Lia ZifyBool.
Open Scope Z_scope.

(** ** Machine integers

    A C unsigned integer of width [w] is a [Z] in [0 .. 2^w-1]; every operation
    that can leave that range is followed by the wrap of its type. *)

(** [uint8_t] *)
Definition u8 (z : Z) : Z := z mod 2 ^ 8.
(** [uint16_t] *)
Definition u16 (z : Z) : Z := z mod 2 ^ 16.
(** [uint32_t] *)
Definition u32 (z : Z) : Z := z mod 2 ^ 32.
(** [uint64_t], [size_t], [virtaddr_t], [physaddr_t] *)
Definition u64 (z : Z) : Z := z mod 2 ^ 64.

Definition UINT32_MAX : Z := 2 ^ 32 - 1.
Definition SIZE_MAX : Z := 2 ^ 64 - 1.
Definition NULL : Z := 0.
Definition PAGE_SIZE : Z := 4096.
Definition KB : Z := 1024.
Definition MB : Z := 1024 * KB.
Definition GB : Z := 1024 * MB.

(** [BIT(n)] is [1ULL << n]. *)
Definition BIT (n : Z) : Z := Z.shiftl 1 n.

(** [ALIGN_UP] and friends, at 64 bits. [~(align - 1)] is sign-extended to 64
    bits in the source; [Z.lnot] is that mask with unboundedly many ones. *)
Definition ALIGN_UP (x align : Z) : Z :=
  Z.land (u64 (x + (align - 1))) (Z.lnot (align - 1)).
Definition ALIGN_DOWN (x align : Z) : Z := Z.land x (Z.lnot (align - 1)).
Definition IS_ALIGNED (x align : Z) : bool := Z.land x (align - 1) =? 0.

(** ** Counted loops

    [iter_up n i f s] runs [f i], [f (i+1)], ... [n] times;
    [for_range lo hi f s] is [for (i = lo; i < hi; i++) s = f(i, s)]. *)
Fixpoint iter_up {S : Type} (n : nat) (i : Z) (f : Z -> S -> S) (s : S) : S :=
  match n with
  | O => s
  | S n' => iter_up n' (i + 1) f (f i s)
  end.

Definition for_range {S : Type} (lo hi : Z) (f : Z -> S -> S) (s : S) : S :=
  iter_up (Z.to_nat (hi - lo)) lo f s.

(** A loop whose body may leave it early: [inl] continues, [inr] is a
    [break] (or a [return]) with the value it leaves with. *)
Fixpoint iter_brk {S R : Type} (n : nat) (i : Z) (f : Z -> S -> S + R) (s : S)
  : S + R :=
  match n with
  | O => inl s
  | S n' => match f i s with
            | inl s' => iter_brk n' (i + 1) f s'
            | inr r => inr r
            end
  end.

(** ** Tactics *)

(** Turns the boolean comparisons of the context into propositions. *)
Ltac zbool :=
  repeat match goal with
  | H : (_ =? _) = true |- _ => apply Z.eqb_eq in H
  | H : (_ =? _) = false |- _ => apply Z.eqb_neq in H
  | H : (_ <? _) = true |- _ => apply Z.ltb_lt in H
  | H : (_ <? _) = false |- _ => apply Z.ltb_ge in H
  | H : (_ <=? _) = true |- _ => apply Z.leb_le in H
  | H : (_ <=? _) = false |- _ => apply Z.leb_gt in H
  | H : negb _ = true |- _ => apply negb_true_iff in H
  | H : negb _ = false |- _ => apply negb_false_iff in H
  | H : (_ && _) = true |- _ => apply andb_true_iff in H as [? ?]
  | H : (_ || _) = false |- _ => apply orb_false_iff in H as [? ?]
  end.

(** Splits on the condition of the first [if] of the goal. *)
Ltac case_if :=
  match goal with
  | |- context [if ?b then _ else _] =>
      lazymatch b with
      | context [if _ then _ else _] => fail
      | _ => let E := fresh "E" in destruct b eqn:E; zbool
      end
  end.

(** The same in a hypothesis. *)
Ltac case_if_in H :=
  match type of H with
  | context [if ?b then _ else _] =>
      lazymatch b with
      | context [if _ then _ else _] => fail
      | _ => let E := fresh "E" in destruct b eqn:E; zbool
      end
  end.

(** Linear arithmetic with division and remainder by constants. *)
Ltac dlia := Z.div_mod_to_equations; lia.

(** Linear arithmetic on goals between booleans. *)
Ltac blia := cbn [andb orb negb]; lia.

(** Decides an equality of integers bit by bit. *)
Ltac bitwise :=
  apply Z.bits_inj'; let k := fresh "k" in let Hk := fresh "Hk" in intros k Hk.

(** ** Machine-integer lemmas *)

Create HintDb word.

Lemma u8_range z : 0 <= u8 z < 256.
Proof. apply Z.mod_pos_bound. lia. Qed.
Lemma u16_range z : 0 <= u16 z < 2 ^ 16.
Proof. apply Z.mod_pos_bound. lia. Qed.
Lemma u32_range z : 0 <= u32 z < 2 ^ 32.
Proof. apply Z.mod_pos_bound. lia. Qed.
Lemma u64_range z : 0 <= u64 z < 2 ^ 64.
Proof. apply Z.mod_pos_bound. lia. Qed.
#[export] Hint Resolve u8_range u16_range u32_range u64_range : word.

Lemma u8_id z : 0 <= z < 256 -> u8 z = z.
Proof. intros. apply Z.mod_small. lia. Qed.
Lemma u16_id z : 0 <= z < 2 ^ 16 -> u16 z = z.
Proof. intros. apply Z.mod_small. lia. Qed.
Lemma u32_id z : 0 <= z < 2 ^ 32 -> u32 z = z.
Proof. intros. apply Z.mod_small. lia. Qed.
Lemma u64_id z : 0 <= z < 2 ^ 64 -> u64 z = z.
Proof. intros. apply Z.mod_small. lia. Qed.

Lemma testbit_wrap w z k :
  0 <= w -> 0 <= k -> Z.testbit (z mod 2 ^ w) k = (k <? w) && Z.testbit z k.
Proof.
  intros Hw Hk. destruct (k <? w) eqn:E; zbool.
  - rewrite Z.mod_pow2_bits_low by lia. reflexivity.
  - rewrite Z.mod_pow2_bits_high by lia. reflexivity.
Qed.

Lemma land_pow2_testbit x k :
  0 <= k -> (Z.land x (Z.shiftl 1 k) =? 0) = negb (Z.testbit x k).
Proof.
  intros Hk. rewrite Z.shiftl_1_l. destruct (Z.testbit x k) eqn:E; simpl.
  - apply Z.eqb_neq. intros H.
    assert (Z.testbit (Z.land x (2 ^ k)) k = false) by (rewrite H; apply Z.bits_0).
    rewrite Z.land_spec, E, Z.pow2_bits_true in * by lia. discriminate.
  - apply Z.eqb_eq. bitwise. rewrite Z.land_spec, Z.bits_0.
    destruct (Z.eq_dec k k0) as [->|]; [by rewrite E|].
    rewrite Z.pow2_bits_false by done. apply andb_false_r.
Qed.

Lemma ALIGN_DOWN_pow2 x k :
  0 <= k -> ALIGN_DOWN x (2 ^ k) = x - x mod 2 ^ k.
Proof.
  intros Hk. unfold ALIGN_DOWN.
  replace (2 ^ k - 1) with (Z.ones k) by (rewrite Z.ones_equiv; lia).
  rewrite <- Z.ldiff_land, Z.ldiff_ones_r by lia.
  rewrite Z.shiftl_mul_pow2, Z.shiftr_div_pow2 by lia.
  pose proof (Z.div_mod x (2 ^ k)). lia.
Qed.

Lemma ALIGN_UP_pow2 x k :
  0 <= k -> 0 <= x -> x + (2 ^ k - 1) < 2 ^ 64 ->
  ALIGN_UP x (2 ^ k) = (x + (2 ^ k - 1)) - (x + (2 ^ k - 1)) mod 2 ^ k.
Proof.
  intros Hk Hx Hb. unfold ALIGN_UP.
  rewrite u64_id by (pose proof (Z.pow_pos_nonneg 2 k); lia).
  change (ALIGN_DOWN (x + (2 ^ k - 1)) (2 ^ k) =
          x + (2 ^ k - 1) - (x + (2 ^ k - 1)) mod 2 ^ k).
  by apply ALIGN_DOWN_pow2.
Qed.

Lemma IS_ALIGNED_pow2 x k :
  0 <= k -> IS_ALIGNED x (2 ^ k) = (x mod 2 ^ k =? 0).
Proof.
  intros Hk. unfold IS_ALIGNED.
  replace (2 ^ k - 1) with (Z.ones k) by (rewrite Z.ones_equiv; lia).
  by rewrite Z.land_ones by lia.
Qed.

(** A pair given by its second component. *)
Lemma pair_snd {A B : Type} (c : A * B) (b : B) : snd c = b -> c = (fst c, b).
Proof. intros <-. by destruct c. Qed.

(** ** Arrays

    An array is the function from its indices to its elements;
    [data_list n k d] lists [d k], ..., [d (k + n - 1)]. *)
Fixpoint data_list (n : nat) (k : Z) (d : Z -> Z) : list Z :=
  match n with O => [] | S n' => d k :: data_list n' (k + 1) d end.

Lemma length_data_list n k d : length (data_list n k d) = n.
Proof. revert k. induction n as [|n IH]; intros k; simpl; auto. Qed.

Lemma data_list_ext n k d d' :
  (forall j, k <= j < k + Z.of_nat n -> d' j = d j) -> data_list n k d' = data_list n k d.
Proof.
  revert k. induction n as [|n IH]; intros k He; simpl; [done|]. rewrite He by lia. f_equal.
  apply IH. intros j Hj. apply He. lia.
Qed.

Lemma data_list_take n k d j : (j <= n)%nat -> data_list j k d = take j (data_list n k d).
Proof.
  revert k j. induction n as [|n IH]; intros k [|j] Hj; simpl; [done|lia|done|]. f_equal. apply IH. lia.
Qed.

(** ** Loop rules *)

Lemma iter_up_ind {S} (P : Z -> S -> Prop) (f : Z -> S -> S) n i s :
  P i s ->
  (forall j s, i <= j < i + Z.of_nat n -> P j s -> P (j + 1) (f j s)) ->
  P (i + Z.of_nat n) (iter_up n i f s).
Proof.
  revert i s. induction n as [|n IH]; intros i s H0 Hs; simpl.
  - by rewrite Z.add_0_r.
  - replace (i + Z.of_nat (Datatypes.S n)) with ((i + 1) + Z.of_nat n) by lia.
    apply IH.
    + apply Hs; [lia|done].
    + intros j s' Hj. apply Hs. lia.
Qed.

Lemma for_range_ind {S} (P : Z -> S -> Prop) (f : Z -> S -> S) lo hi s :
  lo <= hi -> P lo s ->
  (forall j s, lo <= j < hi -> P j s -> P (j + 1) (f j s)) ->
  P hi (for_range lo hi f s).
Proof.
  intros Hle H0 Hs. unfold for_range.
  replace hi with (lo + Z.of_nat (Z.to_nat (hi - lo))) at 1 by lia.
  apply iter_up_ind; [done|]. intros j s' Hj. apply Hs. lia.
Qed.

Lemma for_range_empty {S} (f : Z -> S -> S) lo hi s :
  hi <= lo -> for_range lo hi f s = s.
Proof. intros. unfold for_range. by replace (Z.to_nat (hi - lo)) with O by lia. Qed.

(** A relation kept by every iteration is kept by the whole loop. *)
Lemma for_range_rel {S} (R : S -> Prop) (f : Z -> S -> S) lo hi s :
  R s -> (forall j s, lo <= j < hi -> R s -> R (f j s)) -> R (for_range lo hi f s).
Proof.
  intros H0 Hs. destruct (Z.le_gt_cases lo hi).
  - by apply (for_range_ind (fun _ => R)).
  - by rewrite for_range_empty by lia.
Qed.
