(* ===== verification/Memory.v ===== *)
(** * The flat, identity-mapped memory every component reads and writes *)
From S2P Require Import Prelude.
(** Memory is total: every address holds a byte. The kernel identity-maps the
    memory it uses, so an address is the same number to every component, and a
    read of address 0 reads the byte stored there. *)
Definition mem := Z -> Z.

Definition store8 (m : mem) (a v : Z) : mem :=
  fun x => if x =? a then u8 v else m x.

Definition load8 (m : mem) (a : Z) : Z := u8 (m a).

(** Little-endian access of [n] bytes. *)
Fixpoint load (n : nat) (m : mem) (a : Z) : Z :=
  match n with
  | O => 0
  | S n' => load8 m a + 256 * load n' m (a + 1)
  end.

Fixpoint store (n : nat) (m : mem) (a v : Z) : mem :=
  match n with
  | O => m
  | S n' => store n' (store8 m a v) (a + 1) (v / 256)
  end.

Abbreviation load16 := (load 2).
Abbreviation load32 := (load 4).
Abbreviation load64 := (load 8).
Abbreviation store16 := (store 2).
Abbreviation store32 := (store 4).
Abbreviation store64 := (store 8).

(** Two memories that hold the same bytes in [a .. a+n-1]. *)
Definition agree (m m' : mem) (a n : Z) : Prop :=
  forall x, a <= x < a + n -> m x = m' x.

(** The bytes [a .. a+n-1] of memory as a list. *)
Fixpoint bytes_at (m : mem) (a : Z) (n : nat) : list Z :=
  match n with
  | O => []
  | S n' => load8 m a :: bytes_at m (a + 1) n'
  end.

Lemma store8_same m a v : store8 m a v a = u8 v.
Proof. unfold store8. by rewrite Z.eqb_refl. Qed.

Lemma store8_other m a v x : x <> a -> store8 m a v x = m x.
Proof. intros. unfold store8. case_if; congruence. Qed.

Lemma load8_range m a : 0 <= load8 m a < 256.
Proof. apply u8_range. Qed.

Lemma store_other n m a v x :
  x < a \/ a + Z.of_nat n <= x -> store n m a v x = m x.
Proof.
  revert m a v. induction n as [|n IH]; intros m a v H; simpl; [done|].
  rewrite IH by lia. apply store8_other. lia.
Qed.

Lemma load_agree n m m' a :
  agree m m' a (Z.of_nat n) -> load n m a = load n m' a.
Proof.
  revert a. induction n as [|n IH]; intros a H; simpl; [done|].
  unfold load8. rewrite (H a) by lia. f_equal. f_equal. apply IH.
  intros x Hx. apply H. lia.
Qed.

Lemma load_store_other n k m a v b :
  b + Z.of_nat n <= a \/ a + Z.of_nat k <= b ->
  load n (store k m a v) b = load n m b.
Proof. intros H. apply load_agree. intros x Hx. apply store_other. lia. Qed.

Lemma load_range n m a : 0 <= load n m a < 2 ^ (8 * Z.of_nat n).
Proof.
  revert a. induction n as [|n IH]; intros a; [simpl; lia|].
  cbn [load]. specialize (IH (a + 1)). pose proof (load8_range m a).
  replace (8 * Z.of_nat (S n)) with (8 + 8 * Z.of_nat n) by lia.
  rewrite Z.pow_add_r by lia. change (2 ^ 8) with 256. nia.
Qed.

Lemma load_store_mod n m a v :
  load n (store n m a v) a = v mod 2 ^ (8 * Z.of_nat n).
Proof.
  revert m a v. induction n as [|n IH]; intros m a v.
  - simpl. by rewrite Z.mod_1_r.
  - cbn [load store]. rewrite IH. unfold load8.
    rewrite store_other by lia. rewrite store8_same.
    replace (8 * Z.of_nat (S n)) with (8 + 8 * Z.of_nat n) by lia.
    rewrite Z.pow_add_r by lia. change (2 ^ 8) with 256.
    pose proof (Z.pow_pos_nonneg 2 (8 * Z.of_nat n)).
    rewrite Z.rem_mul_r by lia. f_equal. unfold u8. change (2 ^ 8) with 256.
    by rewrite Z.mod_mod by lia.
Qed.

Lemma load64_store64 m a v : 0 <= v < 2 ^ 64 -> load64 (store64 m a v) a = v.
Proof. intros. rewrite load_store_mod. by apply Z.mod_small. Qed.

Lemma load32_store32 m a v : 0 <= v < 2 ^ 32 -> load32 (store32 m a v) a = v.
Proof. intros. rewrite load_store_mod. by apply Z.mod_small. Qed.

Lemma load64_range m a : 0 <= load64 m a < 2 ^ 64.
Proof. apply (load_range 8). Qed.
Lemma load32_range m a : 0 <= load32 m a < 2 ^ 32.
Proof. apply (load_range 4). Qed.
#[export] Hint Resolve load64_range load32_range : word.

Lemma length_bytes_at m a n : length (bytes_at m a n) = n.
Proof. revert a. induction n as [|n IH]; intros a; simpl; auto. Qed.

Lemma lookup_bytes_at m a n i :
  (i < n)%nat -> bytes_at m a n !! i = Some (load8 m (a + Z.of_nat i)).
Proof.
  revert a i. induction n as [|n IH]; intros a i Hi; [lia|].
  destruct i as [|i]; cbn [bytes_at lookup list_lookup].
  - by rewrite Z.add_0_r.
  - change ((load8 m a :: bytes_at m (a + 1) n) !! S i) with (bytes_at m (a + 1) n !! i).
    rewrite IH by lia. do 2 f_equal. lia.
Qed.

Lemma bytes_at_agree m m' a n :
  agree m m' a (Z.of_nat n) -> bytes_at m a n = bytes_at m' a n.
Proof.
  revert a. induction n as [|n IH]; intros a H; simpl; [done|].
  unfold load8. rewrite (H a) by lia. f_equal. apply IH. intros x Hx. apply H. lia.
Qed.

(** ** Byte loops

    [while (n > 0) { *d++ = *s++; n--; }], its backward form, and
    [while (n > 0) { *d++ = byte; n--; }]: the memory routines of the C library
    and the private copies other components keep are these loops. *)
Fixpoint copy_fwd (n : nat) (m : mem) (d s : Z) : mem :=
  match n with
  | O => m
  | S n' => copy_fwd n' (store8 m d (load8 m s)) (d + 1) (s + 1)
  end.

Fixpoint copy_bwd (n : nat) (m : mem) (d s : Z) : mem :=
  match n with
  | O => m
  | S n' => copy_bwd n' (store8 m (d - 1) (load8 m (s - 1))) (d - 1) (s - 1)
  end.

Fixpoint fill (n : nat) (m : mem) (d v : Z) : mem :=
  match n with
  | O => m
  | S n' => fill n' (store8 m d v) (d + 1) v
  end.

(** Writing a list of bytes at consecutive addresses. *)
Fixpoint write_bytes (m : mem) (a : Z) (l : list Z) : mem :=
  match l with
  | [] => m
  | b :: l' => write_bytes (store8 m a b) (a + 1) l'
  end.

Lemma load8_store8_same m a v : load8 (store8 m a v) a = u8 v.
Proof. unfold load8. rewrite store8_same. apply u8_id, u8_range. Qed.

Lemma load8_store8_other m a v x : x <> a -> load8 (store8 m a v) x = load8 m x.
Proof. intros. unfold load8. by rewrite store8_other. Qed.

Lemma u8_load8 m a : u8 (load8 m a) = load8 m a.
Proof. apply u8_id, load8_range. Qed.

Lemma copy_fwd_other n m d s x :
  x < d \/ d + Z.of_nat n <= x -> copy_fwd n m d s x = m x.
Proof.
  revert m d s. induction n as [|n IH]; intros m d s H; simpl; [done|].
  rewrite IH by lia. apply store8_other. lia.
Qed.

Lemma copy_bwd_other n m d s x :
  x < d - Z.of_nat n \/ d <= x -> copy_bwd n m d s x = m x.
Proof.
  revert m d s. induction n as [|n IH]; intros m d s H; simpl; [done|].
  rewrite IH by lia. apply store8_other. lia.
Qed.

(** The forward copy is right unless the destination lies inside the source. *)
Lemma copy_fwd_load n m d s i :
  d <= s \/ s + Z.of_nat n <= d -> 0 <= i < Z.of_nat n ->
  load8 (copy_fwd n m d s) (d + i) = load8 m (s + i).
Proof.
  revert m d s i. induction n as [|n IH]; intros m d s i Hd Hi; [lia|].
  cbn [copy_fwd]. destruct (Z.eq_dec i 0) as [->|Hne].
  - unfold load8 at 1. rewrite copy_fwd_other by lia. rewrite !Z.add_0_r.
    rewrite store8_same. rewrite u8_load8. apply u8_load8.
  - replace (d + i) with (d + 1 + (i - 1)) by lia. rewrite IH by lia.
    rewrite load8_store8_other by lia. f_equal. lia.
Qed.

(** The backward copy is right unless the source lies inside the destination. *)
Lemma copy_bwd_load n m d s i :
  s <= d -> 0 <= i < Z.of_nat n ->
  load8 (copy_bwd n m (d + Z.of_nat n) (s + Z.of_nat n)) (d + i) = load8 m (s + i).
Proof.
  revert m i. induction n as [|n IH]; intros m i Hd Hi; [lia|].
  cbn [copy_bwd].
  replace (d + Z.of_nat (S n) - 1) with (d + Z.of_nat n) by lia.
  replace (s + Z.of_nat (S n) - 1) with (s + Z.of_nat n) by lia.
  destruct (Z.eq_dec i (Z.of_nat n)) as [->|Hne].
  - unfold load8 at 1. rewrite copy_bwd_other by lia.
    rewrite store8_same. rewrite u8_load8. apply u8_load8.
  - rewrite IH by lia. apply load8_store8_other. lia.
Qed.

Lemma fill_other n m d v x :
  x < d \/ d + Z.of_nat n <= x -> fill n m d v x = m x.
Proof.
  revert m d. induction n as [|n IH]; intros m d H; simpl; [done|].
  rewrite IH by lia. apply store8_other. lia.
Qed.

Lemma fill_same n m d v x :
  d <= x < d + Z.of_nat n -> fill n m d v x = u8 v.
Proof.
  revert m d. induction n as [|n IH]; intros m d H; simpl; [lia|].
  destruct (Z.eq_dec x d) as [->|]; [|apply IH; lia].
  rewrite fill_other by lia. apply store8_same.
Qed.

Lemma load_fill_0 n k m d a :
  d <= a -> a + Z.of_nat k <= d + Z.of_nat n -> load k (fill n m d 0) a = 0.
Proof.
  revert a. induction k as [|k IH]; intros a H1 H2; cbn [load]; [done|].
  rewrite IH by lia. unfold load8. rewrite fill_same by lia. reflexivity.
Qed.

Lemma write_bytes_other l m a x :
  x < a \/ a + Z.of_nat (length l) <= x -> write_bytes m a l x = m x.
Proof.
  revert m a. induction l as [|b l IH]; intros m a H; simpl in *; [done|].
  rewrite IH by lia. apply store8_other. lia.
Qed.

Lemma bytes_at_write l m a :
  Forall (fun b => 0 <= b < 256) l -> bytes_at (write_bytes m a l) a (length l) = l.
Proof.
  revert m a. induction l as [|b l IH]; intros m a H; simpl; [done|].
  inversion H; subst. rewrite IH by done. f_equal. unfold load8.
  rewrite write_bytes_other by lia. rewrite store8_same. rewrite !u8_id; auto using u8_range.
Qed.

Lemma bytes_at_app m a n k :
  bytes_at m a (n + k) = bytes_at m a n ++ bytes_at m (a + Z.of_nat n) k.
Proof.
  revert a. induction n as [|n IH]; intros a; simpl.
  - by rewrite Z.add_0_r.
  - rewrite IH. do 2 f_equal. f_equal. lia.
Qed.

Lemma bytes_at_ext m m' a b n :
  (forall i, 0 <= i < Z.of_nat n -> load8 m (a + i) = load8 m' (b + i)) ->
  bytes_at m a n = bytes_at m' b n.
Proof.
  revert a b. induction n as [|n IH]; intros a b H; simpl; [done|]. f_equal.
  - specialize (H 0). rewrite !Z.add_0_r in H. apply H. lia.
  - apply IH. intros i Hi. specialize (H (i + 1)).
    replace (a + 1 + i) with (a + (i + 1)) by lia.
    replace (b + 1 + i) with (b + (i + 1)) by lia. apply H. lia.
Qed.

Lemma bytes_at_range m a n : Forall (fun b => 0 <= b < 256) (bytes_at m a n).
Proof.
  revert a. induction n as [|n IH]; intros a; simpl; constructor; auto using load8_range.
Qed.

#[global] Arguments load : simpl never.
#[global] Arguments store : simpl never.

(** ** Byte strings

    Bytes, fields of more than one byte stored least significant byte first as the
    machine does, and replacing a piece of a byte string: shared by the packets of the
    network stack and the sectors of the file system. *)

Definition is_byte (b : Z) : Prop := 0 <= b < 256.
Definition bytes (l : list Z) : Prop := Forall is_byte l.

(** The bytes of a field, and a field of a byte string. *)
Definition le16 (x : Z) : list Z := [u8 x; u8 (Z.shiftr x 8)].
Definition le32 (x : Z) : list Z := [u8 x; u8 (Z.shiftr x 8); u8 (Z.shiftr x 16); u8 (Z.shiftr x 24)].
Definition byte_at (l : list Z) (i : nat) : Z := nth i l 0.
Definition get16 (l : list Z) (i : nat) : Z := byte_at l i + 256 * byte_at l (i + 1).
Definition get32 (l : list Z) (i : nat) : Z := get16 l i + 65536 * get16 l (i + 2).

Lemma byte_at_lookup l i x : l !! i = Some x -> byte_at l i = x.
Proof. intros H. unfold byte_at. by rewrite (nth_lookup_Some _ _ _ _ H). Qed.
Lemma byte_at_byte l i : bytes l -> is_byte (byte_at l i).
Proof.
  intros Hb. unfold byte_at. destruct (Nat.lt_ge_cases i (length l)) as [Hi|Hi].
  - apply Forall_nth; [done|lia].
  - rewrite nth_overflow by lia. unfold is_byte. lia.
Qed.

Lemma le16_val v : 0 <= v < 65536 -> u8 v + 256 * u8 (Z.shiftr v 8) = v.
Proof. intros Hv. unfold u8. rewrite Z.shiftr_div_pow2 by lia. dlia. Qed.
Lemma le32_val v : 0 <= v < 2 ^ 32 ->
  u8 v + 256 * u8 (Z.shiftr v 8) + 65536 * (u8 (Z.shiftr v 16) + 256 * u8 (Z.shiftr v 24)) = v.
Proof. intros Hv. unfold u8. rewrite !Z.shiftr_div_pow2 by lia. dlia. Qed.

Lemma le16_bytes v : bytes (le16 v).
Proof. repeat constructor; apply u8_range. Qed.
Lemma le32_bytes v : bytes (le32 v).
Proof. repeat constructor; apply u8_range. Qed.
#[export] Hint Resolve le16_bytes le32_bytes : word.

(** ** Replacing a piece *)

(** [l] with the bytes of [d] stored from position [n] on. *)
Definition splice (n : nat) (d l : list Z) : list Z := take n l ++ d ++ drop (n + length d) l.

Lemma splice_length n d l : (n + length d <= length l)%nat -> length (splice n d l) = length l.
Proof. intros H. unfold splice. rewrite !length_app, length_take, length_drop. lia. Qed.

Lemma splice_splice n d e l : (n + length e <= length l)%nat -> length d = length e -> splice n d (splice n e l) = splice n d l.
Proof.
  intros Hl Hd. unfold splice. rewrite take_app_le by (rewrite length_take; lia). rewrite take_take, Nat.min_id. do 2 f_equal.
  rewrite drop_app_ge, drop_app_ge by (rewrite ?length_take; lia). rewrite length_take, drop_drop. f_equal. lia.
Qed.
Lemma splice_bytes n d l : bytes d -> bytes l -> bytes (splice n d l).
Proof. intros Hd Hl. unfold splice, bytes. rewrite !Forall_app. auto using Forall_take, Forall_drop. Qed.

Lemma splice_lookup_in n d l i : (n + length d <= length l)%nat -> (n <= i < n + length d)%nat ->
  splice n d l !! i = d !! (i - n)%nat.
Proof.
  intros Hl Hi. unfold splice. rewrite lookup_app_r by (rewrite length_take; lia). rewrite length_take.
  rewrite lookup_app_l by lia. f_equal. lia.
Qed.
Lemma splice_lookup_out n d l i : (n + length d <= length l)%nat -> ~ (n <= i < n + length d)%nat ->
  splice n d l !! i = l !! i.
Proof.
  intros Hl Hi. unfold splice. destruct (Nat.lt_ge_cases i n).
  - rewrite lookup_app_l by (rewrite length_take; lia). by rewrite lookup_take_lt.
  - rewrite lookup_app_r by (rewrite length_take; lia). rewrite length_take, lookup_app_r by lia.
    rewrite lookup_drop. f_equal. lia.
Qed.

(** Reading the piece back, and a piece beside it. *)
Lemma splice_read n d l : (n + length d <= length l)%nat -> take (length d) (drop n (splice n d l)) = d.
Proof.
  intros H. unfold splice. rewrite drop_app_ge by (rewrite length_take; lia). rewrite length_take.
  replace (n - n `min` length l)%nat with 0%nat by lia. rewrite drop_0. by rewrite take_app_length.
Qed.
Lemma splice_read_before n d l i k : (n + length d <= length l)%nat -> (i + k <= n)%nat ->
  take k (drop i (splice n d l)) = take k (drop i l).
Proof.
  intros Hl Hi. apply list_eq. intros j. rewrite !lookup_take. case_decide; [|done].
  rewrite !lookup_drop. apply splice_lookup_out; lia.
Qed.
Lemma splice_read_after n d l i k : (n + length d <= length l)%nat -> (n + length d <= i)%nat ->
  take k (drop i (splice n d l)) = take k (drop i l).
Proof.
  intros Hl Hi. apply list_eq. intros j. rewrite !lookup_take. case_decide; [|done].
  rewrite !lookup_drop. apply splice_lookup_out; lia.
Qed.

Lemma byte_at_splice_in n d l i : (n + length d <= length l)%nat -> (n <= i < n + length d)%nat ->
  byte_at (splice n d l) i = byte_at d (i - n).
Proof. intros Hl Hi. unfold byte_at. rewrite !nth_lookup. by rewrite splice_lookup_in. Qed.
Lemma byte_at_splice_out n d l i : (n + length d <= length l)%nat -> ~ (n <= i < n + length d)%nat ->
  byte_at (splice n d l) i = byte_at l i.
Proof. intros Hl Hi. unfold byte_at. rewrite !nth_lookup. by rewrite splice_lookup_out. Qed.

(** A word that was stored, and a word elsewhere. *)
Lemma get32_splice_same n v l : (n + 4 <= length l)%nat -> 0 <= v < 2 ^ 32 -> get32 (splice n (le32 v) l) n = v.
Proof.
  intros Hl Hv. unfold get32, get16. rewrite !byte_at_splice_in by (simpl; lia).
  replace (n - n)%nat with 0%nat by lia. replace (n + 1 - n)%nat with 1%nat by lia.
  replace (n + 2 - n)%nat with 2%nat by lia. replace (n + 2 + 1 - n)%nat with 3%nat by lia. by apply le32_val.
Qed.
Lemma get32_splice_other n m v l : (n + 4 <= length l)%nat -> (m + 4 <= n \/ n + 4 <= m)%nat ->
  get32 (splice n (le32 v) l) m = get32 l m.
Proof. intros Hl Hm. unfold get32, get16. rewrite !byte_at_splice_out by (simpl; lia). done. Qed.

Lemma get16_range l i : bytes l -> 0 <= get16 l i < 2 ^ 16.
Proof. intros Hb. pose proof (byte_at_byte l i Hb). pose proof (byte_at_byte l (i + 1) Hb). unfold is_byte, get16 in *. lia. Qed.
Lemma get32_range l i : bytes l -> 0 <= get32 l i < 2 ^ 32.
Proof. intros Hb. pose proof (get16_range l i Hb). pose proof (get16_range l (i + 2) Hb). unfold get32. lia. Qed.

Lemma get16_splice_same n v l : (n + 2 <= length l)%nat -> 0 <= v < 2 ^ 16 -> get16 (splice n (le16 v) l) n = v.
Proof.
  intros Hl Hv. unfold get16. rewrite !byte_at_splice_in by (simpl; lia).
  replace (n - n)%nat with 0%nat by lia. replace (n + 1 - n)%nat with 1%nat by lia. by apply le16_val.
Qed.
(** Fields beside a piece that was replaced. *)
Lemma get16_splice_other n d m l : (n + length d <= length l)%nat -> (m + 2 <= n \/ n + length d <= m)%nat ->
  get16 (splice n d l) m = get16 l m.
Proof. intros Hl Hm. unfold get16. by rewrite !byte_at_splice_out by lia. Qed.
Lemma get32_splice_out n d m l : (n + length d <= length l)%nat -> (m + 4 <= n \/ n + length d <= m)%nat ->
  get32 (splice n d l) m = get32 l m.
Proof. intros Hl Hm. unfold get32. by rewrite !get16_splice_other by lia. Qed.
