(* ===== verification/CString.v ===== *)
(** * The freestanding C library (lib/libc/string.c)

    Every routine works on the flat memory of [Memory]. A routine that scans
    until it meets a terminator takes a bound on its iterations and answers
    [None] past it; the theorems give the bound from the strings in memory. *)
From S2P Require Import Prelude Memory.

(** [cstr m a l]: at [a], memory holds the non-zero bytes [l] and a terminator. *)
Fixpoint cstr (m : mem) (a : Z) (l : list Z) : Prop :=
  match l with
  | [] => load8 m a = 0
  | b :: r => load8 m a = b /\ b <> 0 /\ cstr m (a + 1) r
  end.

(** ** Strings *)

(** [while ( *s) s++; return s - str;] *)
Fixpoint strlen_loop (fuel : nat) (m : mem) (str s : Z) : option Z :=
  match fuel with
  | O => None
  | S f => if load8 m s =? 0 then Some (s - str) else strlen_loop f m str (s + 1)
  end.
Definition strlen (fuel : nat) (m : mem) (str : Z) : option Z :=
  strlen_loop fuel m str str.

Fixpoint strcmp (fuel : nat) (m : mem) (s1 s2 : Z) : option Z :=
  match fuel with
  | O => None
  | S f =>
      if negb (load8 m s1 =? 0) && (load8 m s1 =? load8 m s2)
      then strcmp f m (s1 + 1) (s2 + 1)
      else Some (load8 m s1 - load8 m s2)
  end.

(** [k] is [n - 1], the iterations the loop condition [n > 1] leaves. *)
Fixpoint strncmp_loop (k : nat) (m : mem) (s1 s2 : Z) : Z :=
  match k with
  | O => load8 m s1 - load8 m s2
  | S k' =>
      if negb (load8 m s1 =? 0) && (load8 m s1 =? load8 m s2)
      then strncmp_loop k' m (s1 + 1) (s2 + 1)
      else load8 m s1 - load8 m s2
  end.
Definition strncmp (m : mem) (s1 s2 n : Z) : Z :=
  if n =? 0 then 0 else strncmp_loop (Z.to_nat (n - 1)) m s1 s2.

(** [while (( *d++ = *src++)) {}] *)
Fixpoint strcpy_loop (fuel : nat) (m : mem) (d src : Z) : option mem :=
  match fuel with
  | O => None
  | S f =>
      let b := load8 m src in
      let m' := store8 m d b in
      if b =? 0 then Some m' else strcpy_loop f m' (d + 1) (src + 1)
  end.
Definition strcpy (fuel : nat) (m : mem) (dest src : Z) : option (mem * Z) :=
  m' ← strcpy_loop fuel m dest src; Some (m', dest).

(** Copies while [n > 0 && *src]; then pads the [n] bytes left with zeros. *)
Fixpoint strncpy_loop (n : nat) (m : mem) (d src : Z) : mem :=
  match n with
  | O => m
  | S n' =>
      if load8 m src =? 0 then fill n m d 0
      else strncpy_loop n' (store8 m d (load8 m src)) (d + 1) (src + 1)
  end.
Definition strncpy (m : mem) (dest src n : Z) : mem * Z :=
  (strncpy_loop (Z.to_nat n) m dest src, dest).

Definition strcat (fuel : nat) (m : mem) (dest src : Z) : option (mem * Z) :=
  n ← strlen_loop fuel m dest dest;
  m' ← strcpy_loop fuel m (dest + n) src; Some (m', dest).

Fixpoint strchr_loop (fuel : nat) (m : mem) (str ch : Z) : option Z :=
  match fuel with
  | O => None
  | S f =>
      if load8 m str =? 0 then Some (if ch =? 0 then str else NULL)
      else if load8 m str =? ch then Some str
      else strchr_loop f m (str + 1) ch
  end.
Definition strchr (fuel : nat) (m : mem) (str c : Z) : option Z :=
  strchr_loop fuel m str (u8 c).

Fixpoint strrchr_loop (fuel : nat) (m : mem) (str ch last : Z) : option Z :=
  match fuel with
  | O => None
  | S f =>
      if load8 m str =? 0 then Some (if ch =? 0 then str else last)
      else strrchr_loop f m (str + 1) ch (if load8 m str =? ch then str else last)
  end.
Definition strrchr (fuel : nat) (m : mem) (str c : Z) : option Z :=
  strrchr_loop fuel m str (u8 c) NULL.

(** [while ( *h && *n && ( *h == *n)) { h++; n++; }]; true when it stops at the
    end of the needle. *)
Fixpoint strstr_match (fuel : nat) (m : mem) (h n : Z) : option bool :=
  match fuel with
  | O => None
  | S f =>
      if negb (load8 m h =? 0) && negb (load8 m n =? 0) && (load8 m h =? load8 m n)
      then strstr_match f m (h + 1) (n + 1)
      else Some (load8 m n =? 0)
  end.
Fixpoint strstr_loop (fuel : nat) (m : mem) (haystack needle : Z) : option Z :=
  match fuel with
  | O => None
  | S f =>
      if load8 m haystack =? 0 then Some NULL
      else b ← strstr_match fuel m haystack needle;
           if (b : bool) then Some haystack else strstr_loop f m (haystack + 1) needle
  end.
Definition strstr (fuel : nat) (m : mem) (haystack needle : Z) : option Z :=
  if load8 m needle =? 0 then Some haystack
  else strstr_loop fuel m haystack needle.

(** ** Memory *)

Definition memset (m : mem) (dest c n : Z) : mem * Z :=
  (fill (Z.to_nat n) m dest (u8 c), dest).

Definition memcpy (m : mem) (dest src n : Z) : mem * Z :=
  (copy_fwd (Z.to_nat n) m dest src, dest).

Definition memmove (m : mem) (dest src n : Z) : mem * Z :=
  if (n =? 0) || (dest =? src) then (m, dest)
  else if (dest <? src) || (src + n <=? dest)
  then (copy_fwd (Z.to_nat n) m dest src, dest)
  else (copy_bwd (Z.to_nat n) m (dest + n) (src + n), dest).

Fixpoint memcmp_loop (n : nat) (m : mem) (p1 p2 : Z) : Z :=
  match n with
  | O => 0
  | S n' =>
      if negb (load8 m p1 =? load8 m p2) then load8 m p1 - load8 m p2
      else memcmp_loop n' m (p1 + 1) (p2 + 1)
  end.
Definition memcmp (m : mem) (s1 s2 n : Z) : Z := memcmp_loop (Z.to_nat n) m s1 s2.

(** ** Lemmas *)

(** [first_diff l1 l2]: the bytes at the first place the two terminated strings
    differ, (0, 0) when they are equal. *)
Fixpoint first_diff (l1 l2 : list Z) : Z * Z :=
  match l1, l2 with
  | x :: r1, y :: r2 => if x =? y then first_diff r1 r2 else (x, y)
  | _, _ => (hd 0 l1, hd 0 l2)
  end.

Lemma cstr_hd m a l : cstr m a l -> load8 m a = hd 0 l.
Proof. destruct l; simpl; [done|]. by intros [-> _]. Qed.

Lemma cstr_nonzero m a l : cstr m a l -> Forall (fun b => 0 < b < 256) l.
Proof.
  revert a. induction l as [|b l IH]; intros a H; simpl in H; constructor.
  - destruct H as (<- & ? & H). pose proof (load8_range m a). lia.
  - destruct H as (_ & _ & H). eauto.
Qed.

Lemma cstr_agree m m' a l :
  agree m m' a (Z.of_nat (length l) + 1) -> cstr m a l -> cstr m' a l.
Proof.
  revert a. induction l as [|b l IH]; intros a Hag H; simpl in *.
  - unfold load8 in *. rewrite <- (Hag a) by lia. done.
  - destruct H as (H1 & H2 & H3). repeat split; [|done|].
    + unfold load8 in *. rewrite <- (Hag a) by lia. done.
    + apply IH; [|done]. intros x Hx. apply Hag. lia.
Qed.

Lemma strlen_loop_ok m str s l fuel :
  cstr m s l -> (length l < fuel)%nat ->
  strlen_loop fuel m str s = Some (s - str + Z.of_nat (length l)).
Proof.
  revert s fuel. induction l as [|b l IH]; intros s [|f] H Hf; simpl in *; try lia.
  - rewrite H. simpl. f_equal. lia.
  - destruct H as (-> & Hb & H). destruct (b =? 0) eqn:E; zbool; [done|].
    rewrite (IH (s + 1)) by (done || lia). f_equal. lia.
Qed.

Lemma strcmp_ok m s1 s2 l1 l2 fuel :
  cstr m s1 l1 -> cstr m s2 l2 -> (length l1 < fuel)%nat ->
  strcmp fuel m s1 s2 = Some (fst (first_diff l1 l2) - snd (first_diff l1 l2)).
Proof.
  revert s1 s2 l2 fuel.
  induction l1 as [|x l1 IH]; intros s1 s2 l2 [|f] H1 H2 Hf; simpl in *; try lia.
  - rewrite H1, (cstr_hd _ _ _ H2). simpl. done.
  - destruct H1 as (-> & Hx & H1). destruct (x =? 0) eqn:E; zbool; [done|]. simpl.
    destruct l2 as [|y l2]; simpl in *.
    + rewrite H2. destruct (x =? 0) eqn:E2; zbool; done.
    + destruct H2 as (-> & Hy & H2). destruct (x =? y); [|done].
      apply IH; auto. lia.
Qed.

Lemma first_diff_eq l1 l2 :
  Forall (fun b => 0 < b < 256) l1 -> Forall (fun b => 0 < b < 256) l2 ->
  fst (first_diff l1 l2) = snd (first_diff l1 l2) -> l1 = l2.
Proof.
  revert l2. induction l1 as [|x l1 IH]; intros [|y l2] H1 H2; simpl; intros E.
  - done.
  - inversion H2; subst. simpl in *. lia.
  - inversion H1; subst. simpl in *. lia.
  - inversion H1; inversion H2; subst. case_if_in E.
    + f_equal; [done|]. by apply IH.
    + simpl in *. done.
Qed.

Lemma first_diff_refl l : fst (first_diff l l) = snd (first_diff l l).
Proof. induction l; simpl; [done|]. by rewrite Z.eqb_refl. Qed.

(** Dictionary order on byte strings: a proper prefix, or the smaller byte at
    the first difference. *)
Definition str_lt (l1 l2 : list Z) : Prop :=
  exists p r1 r2, l1 = p ++ r1 /\ l2 = p ++ r2 /\
    match r1, r2 with
    | [], _ :: _ => True
    | x :: _, y :: _ => x < y
    | _, _ => False
    end.

Lemma first_diff_lt l1 l2 :
  Forall (fun b => 0 < b < 256) l1 -> Forall (fun b => 0 < b < 256) l2 ->
  fst (first_diff l1 l2) < snd (first_diff l1 l2) -> str_lt l1 l2.
Proof.
  revert l2. induction l1 as [|x l1 IH]; intros [|y l2] H1 H2; simpl; intros E.
  - lia.
  - by exists [], [], (y :: l2).
  - inversion H1; subst. lia.
  - inversion H1; inversion H2; subst. case_if_in E.
    + subst. destruct (IH l2) as (p & r1 & r2 & -> & -> & Hr); [done..|].
      by exists (y :: p), r1, r2.
    + by exists [], (x :: l1), (y :: l2).
Qed.

Lemma str_lt_first_diff l1 l2 :
  Forall (fun b => 0 < b < 256) l2 -> str_lt l1 l2 ->
  fst (first_diff l1 l2) < snd (first_diff l1 l2).
Proof.
  intros H2 (p & r1 & r2 & -> & -> & Hr). induction p as [|x p IH]; simpl in *.
  - destruct r1 as [|x r1], r2 as [|y r2]; simpl in *; try done.
    + inversion H2; subst. lia.
    + destruct (x =? y) eqn:E; zbool; simpl; lia.
  - rewrite Z.eqb_refl. apply IH. by inversion H2.
Qed.

Lemma strcpy_loop_ok m d s l fuel :
  cstr m s l -> (length l < fuel)%nat ->
  d + Z.of_nat (length l) < s \/ s + Z.of_nat (length l) < d ->
  exists m', strcpy_loop fuel m d s = Some m' /\ cstr m' d l /\
    (forall x, x < d \/ d + Z.of_nat (length l) < x -> m' x = m x).
Proof.
  revert m d s fuel. induction l as [|b l IH]; intros m d s [|f] H Hf Hd; simpl in *; try lia.
  - rewrite H. simpl. eexists. split; [done|]. split.
    + apply load8_store8_same.
    + intros x Hx. apply store8_other. lia.
  - destruct H as (Hb & Hnz & H). rewrite Hb. destruct (b =? 0) eqn:E; zbool; [done|].
    destruct (IH (store8 m d b) (d + 1) (s + 1) f) as (m' & -> & Hc & Ho); [|lia|lia|].
    + eapply cstr_agree; [|exact H]. intros x Hx. symmetry. apply store8_other. lia.
    + exists m'. split; [done|]. split.
      * split; [|done]. unfold load8. rewrite Ho by lia. rewrite store8_same.
        rewrite <- Hb. rewrite u8_load8. apply u8_load8.
      * intros x Hx. rewrite Ho by lia. apply store8_other. lia.
Qed.

Lemma strstr_match_ok m h n lh ln fuel :
  cstr m h lh -> cstr m n ln -> (length lh < fuel)%nat ->
  strstr_match fuel m h n = Some (bool_decide (ln `prefix_of` lh)).
Proof.
  revert h n ln fuel.
  induction lh as [|x lh IH]; intros h n ln [|f] Hh Hn Hf; simpl in *; try lia.
  - rewrite Hh. simpl. rewrite (cstr_hd _ _ _ Hn). f_equal. destruct ln as [|y ln]; simpl.
    + done.
    + simpl in Hn. destruct Hn as (_ & Hy & _). by apply Z.eqb_neq.
  - destruct Hh as (-> & Hx & Hh). rewrite (proj2 (Z.eqb_neq x 0)) by done. simpl.
    destruct ln as [|y ln]; simpl in *.
    + by rewrite Hn.
    + destruct Hn as (-> & Hy & Hn). rewrite (proj2 (Z.eqb_neq y 0)) by done. simpl.
      destruct (x =? y) eqn:E; zbool.
      * subst y. rewrite (IH _ _ ln) by (done || lia). f_equal.
        apply bool_decide_ext. split; [apply prefix_cons | apply prefix_cons_inv_2].
      * rewrite bool_decide_eq_false_2; [done|]. intros Hp.
        apply prefix_cons_inv_1 in Hp. congruence.
Qed.

Lemma strstr_loop_ok m h n lh ln fuel :
  cstr m h lh -> cstr m n ln -> ln <> [] -> (length lh < fuel)%nat ->
  exists r, strstr_loop fuel m h n = Some r /\
    ((exists i, (i <= length lh)%nat /\ r = h + Z.of_nat i /\ ln `prefix_of` drop i lh /\
        forall j, (j < i)%nat -> ~ ln `prefix_of` drop j lh) \/
     (r = NULL /\ forall j, ~ ln `prefix_of` drop j lh)).
Proof.
  intros Hh Hn Hne. revert h fuel Hh.
  induction lh as [|x lh IH]; intros h fuel Hh Hf.
  - destruct fuel as [|f]; simpl in Hf; [lia|]. cbn [strstr_loop]. simpl in Hh.
    rewrite Hh. simpl. exists NULL. split; [done|]. right. split; [done|].
    intros j Hp. rewrite drop_nil in Hp. destruct ln; [done|].
    by apply prefix_nil_not in Hp.
  - destruct fuel as [|f]; simpl in Hf; [lia|]. cbn [strstr_loop].
    rewrite (strstr_match_ok m h n (x :: lh) ln) by (done || (simpl; lia)).
    simpl in Hh. destruct Hh as (Hx & Hxn & Hh). rewrite Hx.
    rewrite (proj2 (Z.eqb_neq x 0)) by done. simpl.
    case_bool_decide as Hp.
    + exists h. split; [done|]. left. exists 0%nat. simpl. split; [lia|].
      split; [lia|]. split; [done|]. lia.
    + destruct (IH (h + 1) f Hh) as (r & -> & Hr); [lia|]. exists r. split; [done|].
      destruct Hr as [(i & Hi & -> & Hpi & Hmin) | [-> Hno]].
      * left. exists (S i). simpl. split; [lia|]. split; [lia|]. split; [done|].
        intros [|j] Hj; simpl; [done|]. apply Hmin. lia.
      * right. split; [done|]. intros [|j]; simpl; auto.
Qed.

Lemma memcmp_loop_zero n m p1 p2 :
  memcmp_loop n m p1 p2 = 0 <-> bytes_at m p1 n = bytes_at m p2 n.
Proof.
  revert p1 p2. induction n as [|n IH]; intros p1 p2; simpl; [done|].
  destruct (load8 m p1 =? load8 m p2) eqn:E; zbool; simpl.
  - rewrite IH, E. split; [intros ->; done | by intros [=]].
  - split; [lia|]. intros [= ? ?]. done.
Qed.

(** ** Properties *)

(** whatever the overlap of the two areas, [memmove] leaves at [dest] the
    [n] bytes that were at [src], changes no other byte, and returns [dest]. *)
Theorem memmove_correct (m : mem) (dest src n : Z) (Hn : 0 <= n) :
  let m' := fst (memmove m dest src n) in
  snd (memmove m dest src n) = dest /\
  bytes_at m' dest (Z.to_nat n) = bytes_at m src (Z.to_nat n) /\
  forall x, x < dest \/ dest + n <= x -> m' x = m x.
Proof.
  unfold memmove. destruct (n =? 0) eqn:E0; zbool.
  { subst n. simpl. auto. }
  destruct (dest =? src) eqn:E1; zbool; simpl.
  { subst src. auto. }
  case_if; simpl; (split; [done|]; split).
  - apply bytes_at_ext. intros i Hi. apply copy_fwd_load; [|done].
    apply orb_true_iff in E as [E|E]; zbool; lia.
  - intros x Hx. apply copy_fwd_other. lia.
  - apply bytes_at_ext. intros i Hi.
    replace n with (Z.of_nat (Z.to_nat n)) at 2 3 by lia.
    apply copy_bwd_load; lia.
  - intros x Hx. apply copy_bwd_other. lia.
Qed.

(** A 3-byte move up by one inside a 4-byte area: the backward branch. *)
Lemma memmove_correct_witness :
  let m := write_bytes (fun _ => 0) 100 [1; 2; 3; 4] in
  bytes_at (fst (memmove m 101 100 3)) 100 4 = [1; 1; 2; 3] /\
  bytes_at (fst (memmove m 101 100 3)) 101 3 = bytes_at m 100 3.
Proof.
  split; [reflexivity|].
  exact (proj1 (proj2 (memmove_correct (write_bytes (fun _ => 0) 100 [1; 2; 3; 4]) 101 100 3
                         ltac:(lia)))).
Defined.

(** on two C strings [strcmp] returns, within as many iterations as the first
    string has bytes plus one, a number that is 0 exactly when the strings are
    equal, negative exactly when the first comes first in dictionary order and
    positive exactly when the second does. *)
Theorem strcmp_orders (m : mem) (s1 s2 : Z) (l1 l2 : list Z) (fuel : nat)
  (H1 : cstr m s1 l1) (H2 : cstr m s2 l2) (Hf : (length l1 < fuel)%nat) :
  exists r, strcmp fuel m s1 s2 = Some r /\
    (r = 0 <-> l1 = l2) /\ (r < 0 <-> str_lt l1 l2) /\ (r > 0 <-> str_lt l2 l1).
Proof.
  rewrite (strcmp_ok _ _ _ _ _ _ H1 H2 Hf). eexists. split; [done|].
  apply cstr_nonzero in H1, H2. rename H1 into P1, H2 into P2.
  assert (Hsym : first_diff l2 l1 = (snd (first_diff l1 l2), fst (first_diff l1 l2))).
  { clear. revert l2. induction l1 as [|x l1 IH]; intros [|y l2]; simpl; try done.
    rewrite Z.eqb_sym. destruct (x =? y); auto. }
  split; [|split].
  - split; [intros; apply first_diff_eq; auto; lia|].
    intros ->. pose proof (first_diff_refl l2). lia.
  - split; [intros; apply first_diff_lt; auto; lia|].
    intros H%str_lt_first_diff; [lia|done].
  - split.
    + intros H. apply first_diff_lt; auto. rewrite Hsym. simpl. lia.
    + intros H%str_lt_first_diff; [|done]. rewrite Hsym in H. simpl in H. lia.
Qed.

Lemma strcmp_orders_witness :
  let m := write_bytes (fun _ => 0) 100 [97; 98; 0; 97; 99; 0] in
  strcmp 3 m 100 103 = Some (-1) /\
  exists r, strcmp 3 m 100 103 = Some r /\
    (r = 0 <-> [97; 98] = [97; 99]) /\ (r < 0 <-> str_lt [97; 98] [97; 99]) /\
    (r > 0 <-> str_lt [97; 99] [97; 98]).
Proof.
  split; [reflexivity|].
  apply (strcmp_orders (write_bytes (fun _ => 0) 100 [97; 98; 0; 97; 99; 0]) 100 103
           [97; 98] [97; 99] 3); [repeat split; discriminate.. | simpl; lia].
Defined.

(** on two C strings [strstr] returns the address of the first place of the
    haystack where the needle starts, and NULL when there is none. *)
Theorem strstr_first (m : mem) (h n : Z) (lh ln : list Z) (fuel : nat)
  (Hh : cstr m h lh) (Hn : cstr m n ln) (Hf : (length lh < fuel)%nat) :
  exists r, strstr fuel m h n = Some r /\
    ((exists i, (i <= length lh)%nat /\ r = h + Z.of_nat i /\ ln `prefix_of` drop i lh /\
        forall j, (j < i)%nat -> ~ ln `prefix_of` drop j lh) \/
     (r = NULL /\ forall j, ~ ln `prefix_of` drop j lh)).
Proof.
  unfold strstr. destruct ln as [|y ln].
  - simpl in Hn. rewrite Hn. simpl. exists h. split; [done|]. left. exists 0%nat.
    split; [lia|]. split; [lia|]. split; [apply prefix_nil|]. lia.
  - simpl in Hn. destruct Hn as (Hy & Hy0 & Hn). rewrite Hy.
    rewrite (proj2 (Z.eqb_neq y 0)) by done.
    apply strstr_loop_ok; auto. simpl. auto.
Qed.

Lemma strstr_first_witness :
  let m := write_bytes (fun _ => 0) 100 [97; 98; 97; 99; 0; 97; 99; 0] in
  strstr 5 m 100 105 = Some 102 /\
  exists r, strstr 5 m 100 105 = Some r /\
    ((exists i, (i <= 4)%nat /\ r = 100 + Z.of_nat i /\
        [97; 99] `prefix_of` drop i [97; 98; 97; 99] /\
        forall j, (j < i)%nat -> ~ [97; 99] `prefix_of` drop j [97; 98; 97; 99]) \/
     (r = NULL /\ forall j, ~ [97; 99] `prefix_of` drop j [97; 98; 97; 99])).
Proof.
  split; [reflexivity|].
  apply (strstr_first (write_bytes (fun _ => 0) 100 [97; 98; 97; 99; 0; 97; 99; 0]) 100 105
           [97; 98; 97; 99] [97; 99] 5); [repeat split; discriminate.. | simpl; lia].
Defined.
