(* ===== verification/PageAlloc.v ===== *)
(** * The interface of the page allocator

    The heap, the virtual memory manager, the process manager and the network
    buffers call the physical memory manager through two operations. The class
    names them and what the callers rely on; [Pmm] gives the instance. *)
From S2P Require Import Prelude.

Class PageAllocator (S : Type) := {
  (** [pmm_alloc_pages(count)]: the address, 0 on failure, and the new state. *)
  pa_alloc : Z -> S -> Z * S;
  (** [pmm_free_pages(addr, count)]. *)
  pa_free : Z -> Z -> S -> S;
  (** Page frame [p] is marked used. *)
  pa_used : S -> Z -> bool;
  (** Page frame [p] is below the allocator's page count. *)
  pa_managed : S -> Z -> bool;
  (** The allocator's own invariant. *)
  pa_wf : S -> Prop;
}.

(** Page [p] belongs to the [n] pages from address [a]. *)
Definition in_pages (a n p : Z) : bool := (a / PAGE_SIZE <=? p) && (p <? a / PAGE_SIZE + n).

Class PageAllocatorLaws (S : Type) `{PageAllocator S} := {
  (** A failed allocation changes nothing. *)
  pa_alloc_fail s n s' : pa_wf s -> 0 <= n -> pa_alloc n s = (0, s') -> s' = s;
  (** A successful one returns whole pages that were free, marks them used, and
      marks no other page. *)
  pa_alloc_ok s n a s' :
    pa_wf s -> 0 <= n -> pa_alloc n s = (a, s') -> a <> 0 ->
    pa_wf s' /\ 0 < n /\ 0 < a /\ a mod PAGE_SIZE = 0 /\ a + n * PAGE_SIZE <= 4 * GB /\
    (forall p, in_pages a n p = true ->
       pa_managed s p = true /\ pa_used s p = false) /\
    (forall p, pa_used s' p = pa_used s p || in_pages a n p) /\
    (forall p, pa_managed s' p = pa_managed s p);
  (** One page is refused only when every page is in use. *)
  pa_alloc_complete s s' :
    pa_wf s -> pa_alloc 1 s = (0, s') -> forall p, 0 <= p -> pa_managed s p = true -> pa_used s p = true;
  (** Freeing the null address does nothing. *)
  pa_free_null s n : pa_free 0 n s = s;
  (** Freeing marks the managed pages of the range free, and only them. *)
  pa_free_ok s a n :
    pa_wf s -> 0 < a < 2 ^ 64 -> a mod PAGE_SIZE = 0 -> 0 <= n ->
    pa_wf (pa_free a n s) /\
    (forall p, 0 <= p -> pa_used (pa_free a n s) p =
       pa_used s p && negb (in_pages a n p && pa_managed s p)) /\
    (forall p, pa_managed (pa_free a n s) p = pa_managed s p);
}.
