(* ===== verification/Pmm.v ===== *)
(** * The physical memory manager (kernel/mm/pmm.c, pmm.h, kernel/include/boot.h)

    One bit of [pmm_bitmap] per 4 KB page frame, 1 when the page is used. The
    functions take the spinlock on entry and release it on return, so each call
    is one atomic step on the state below. *)
From S2P Require Import Prelude Memory PageAlloc.

(** ** Boot information *)

Definition BOOT_MAGIC : Z := 0xAAAB007.
Definition MEMORY_TYPE_USABLE : Z := 1.

Record memory_map_entry := mk_entry {
  me_base : Z;
  me_length : Z;
  me_type : Z;
}.

(** The fields [pmm_init] reads of [boot_info_t]. *)
Record boot_info := mk_boot_info {
  bi_magic : Z;
  bi_mem_map_addr : Z;
  bi_mem_map_count : Z;
}.

(** [info != NULL && info->magic == BOOT_MAGIC] *)
Definition boot_info_valid (info : option boot_info) : bool :=
  match info with
  | Some bi => bi_magic bi =? BOOT_MAGIC
  | None => false
  end.

(** [entries[i]] of the packed 24-byte entries at [addr]. *)
Definition read_entry (m : mem) (addr i : Z) : memory_map_entry :=
  mk_entry (load64 m (addr + 24 * i)) (load64 m (addr + 24 * i + 8))
           (load32 m (addr + 24 * i + 16)).

(** ** State *)

Definition PMM_PAGE_SIZE : Z := 4096.
Definition PMM_MAX_MEMORY : Z := 4 * GB.
Definition PMM_MAX_PAGES : Z := PMM_MAX_MEMORY / PMM_PAGE_SIZE.
Definition PMM_BITMAP_SIZE : Z := PMM_MAX_PAGES / 8.

Definition PMM_ADDR_TO_PFN (addr : Z) : Z := Z.shiftr addr 12.
Definition PMM_PFN_TO_ADDR (pfn : Z) : Z := u64 (Z.shiftl pfn 12).

Record pmm := mk_pmm {
  pmm_bitmap : Z -> Z;
  pmm_total_pages : Z;
  pmm_used_pages : Z;
}.

(** ** Bitmap operations *)

Definition bitmap_set (bm : Z -> Z) (bit : Z) : Z -> Z := fun i =>
  if i =? bit / 8 then u8 (Z.lor (bm i) (Z.shiftl 1 (bit mod 8))) else bm i.
Definition bitmap_clear (bm : Z -> Z) (bit : Z) : Z -> Z := fun i =>
  if i =? bit / 8 then u8 (Z.land (bm i) (Z.lnot (Z.shiftl 1 (bit mod 8)))) else bm i.
Definition bitmap_test (bm : Z -> Z) (bit : Z) : bool :=
  negb (Z.land (bm (bit / 8)) (Z.shiftl 1 (bit mod 8)) =? 0).

(** [bitmap_set(page); pmm_used_pages++;] *)
Definition mark_used (page : Z) (s : pmm) : pmm :=
  mk_pmm (bitmap_set (pmm_bitmap s) page) (pmm_total_pages s) (u64 (pmm_used_pages s + 1)).
(** [bitmap_clear(page); pmm_used_pages--;] *)
Definition mark_free (page : Z) (s : pmm) : pmm :=
  mk_pmm (bitmap_clear (pmm_bitmap s) page) (pmm_total_pages s) (u64 (pmm_used_pages s - 1)).

(** The loop of [find_free_pages] with [n] iterations left. *)
Fixpoint find_loop (n : nat) (i : Z) (bm : Z -> Z) (count consecutive start : Z) : Z :=
  match n with
  | O => SIZE_MAX
  | S n' =>
      if negb (bitmap_test bm i) then
        let start' := if consecutive =? 0 then i else start in
        if count <=? consecutive + 1 then start'
        else find_loop n' (i + 1) bm count (consecutive + 1) start'
      else find_loop n' (i + 1) bm count 0 start
  end.
Definition find_free_pages (s : pmm) (count : Z) : Z :=
  find_loop (Z.to_nat (pmm_total_pages s)) 0 (pmm_bitmap s) count 0 0.

(** ** Operations *)

Definition pmm_alloc_pages (count : Z) (s : pmm) : Z * pmm :=
  if count =? 0 then (0, s)
  else
    let start := find_free_pages s count in
    if start =? SIZE_MAX then (0, s)
    else
      let s' := for_range 0 count (fun i => mark_used (start + i)) s in
      (PMM_PFN_TO_ADDR start, s').

(** One iteration of the loop of [pmm_free_pages]: a double free is skipped, the
    first page past the end stops the loop. *)
Definition free_one (start i : Z) (s : pmm) : pmm + pmm :=
  let page := u64 (start + i) in
  if pmm_total_pages s <=? page then inr s
  else if negb (bitmap_test (pmm_bitmap s) page) then inl s
  else inl (mark_free page s).
Definition brk_state {S : Type} (r : S + S) : S :=
  match r with inl s => s | inr s => s end.
Definition pmm_free_pages (addr count : Z) (s : pmm) : pmm :=
  if (addr =? 0) || (count =? 0) then s
  else if negb (IS_ALIGNED addr PMM_PAGE_SIZE) then s
  else brk_state (iter_brk (Z.to_nat count) 0 (free_one (PMM_ADDR_TO_PFN addr)) s).

Definition pmm_get_total_pages (s : pmm) : Z := pmm_total_pages s.
Definition pmm_get_free_pages (s : pmm) : Z := u64 (pmm_total_pages s - pmm_used_pages s).
Definition pmm_get_used_pages (s : pmm) : Z := pmm_used_pages s.

(** One iteration of the loop of [pmm_reserve_range], for [a = start + k * 4096]. *)
Definition reserve_one (start_addr k : Z) (s : pmm) : pmm + pmm :=
  let page := PMM_ADDR_TO_PFN (start_addr + k * PMM_PAGE_SIZE) in
  if pmm_total_pages s <=? page then inr s
  else if negb (bitmap_test (pmm_bitmap s) page) then inl (mark_used page s)
  else inl s.
Definition pmm_reserve_range (addr size : Z) (s : pmm) : pmm :=
  if size =? 0 then s
  else
    let start_addr := ALIGN_DOWN addr PMM_PAGE_SIZE in
    let end_addr := ALIGN_UP (u64 (addr + size)) PMM_PAGE_SIZE in
    brk_state (iter_brk (Z.to_nat ((end_addr - start_addr) / PMM_PAGE_SIZE)) 0
                 (reserve_one start_addr) s).

Definition pmm_is_page_free (addr : Z) (s : pmm) : bool :=
  if negb (IS_ALIGNED addr PMM_PAGE_SIZE) then false
  else
    let page := PMM_ADDR_TO_PFN addr in
    if pmm_total_pages s <=? page then false
    else negb (bitmap_test (pmm_bitmap s) page).

(** ** Initialisation *)

(** The page range of one map entry after alignment, the 1 MB floor and the cap;
    [None] for an entry the loop skips. *)
Definition entry_pages (e : memory_map_entry) : option (Z * Z) :=
  if negb (me_type e =? MEMORY_TYPE_USABLE) then None
  else
    let start_addr := ALIGN_UP (me_base e) PMM_PAGE_SIZE in
    let end_addr := ALIGN_DOWN (u64 (me_base e + me_length e)) PMM_PAGE_SIZE in
    if end_addr <=? start_addr then None
    else
      let start_addr := if start_addr <? 0x100000 then 0x100000 else start_addr in
      if end_addr <=? start_addr then None
      else
        let end_addr := if PMM_MAX_MEMORY <? end_addr then PMM_MAX_MEMORY else end_addr in
        Some (PMM_ADDR_TO_PFN start_addr, PMM_ADDR_TO_PFN end_addr).

(** [if (!bitmap_test(page)) continue; bitmap_clear(page); pmm_used_pages--;] *)
Definition free_if_used (page : Z) (s : pmm) : pmm :=
  if negb (bitmap_test (pmm_bitmap s) page) then s else mark_free page s.

(** One iteration over the memory map: the highest address and the state. *)
Definition init_entry (e : memory_map_entry) (hs : Z * pmm) : Z * pmm :=
  let '(highest, s) := hs in
  let end_ := u64 (me_base e + me_length e) in
  let highest := if highest <? end_ then end_ else highest in
  match entry_pages e with
  | None => (highest, s)
  | Some (start_page, end_page) => (highest, for_range start_page end_page free_if_used s)
  end.

(** The state with every page marked used. *)
Definition pmm_all_used (s : pmm) : pmm :=
  mk_pmm (fun i => if (0 <=? i) && (i <? PMM_BITMAP_SIZE) then 0xFF else pmm_bitmap s i)
         (pmm_total_pages s) PMM_MAX_PAGES.

Definition set_total (n : Z) (s : pmm) : pmm :=
  mk_pmm (pmm_bitmap s) n (pmm_used_pages s).

(** [pmm_init(boot_info)]: the number it returns and the state it leaves. *)
Definition pmm_init (m : mem) (info : option boot_info) (s0 : pmm) : Z * pmm :=
  let s := pmm_all_used s0 in
  let default :=
    let s := set_total (PMM_ADDR_TO_PFN 0x1000000)
               (for_range (PMM_ADDR_TO_PFN 0x100000)
                  (Z.min (PMM_ADDR_TO_PFN 0x1000000) PMM_MAX_PAGES) mark_free s) in
    (pmm_get_free_pages s, s) in
  match info with
  | Some bi =>
      if negb (boot_info_valid info) || (bi_mem_map_count bi =? 0) then default
      else
        let '(highest, s) :=
          for_range 0 (bi_mem_map_count bi)
            (fun i => init_entry (read_entry m (bi_mem_map_addr bi) i)) (0, s) in
        let s := set_total (PMM_ADDR_TO_PFN (Z.min highest PMM_MAX_MEMORY)) s in
        (pmm_get_free_pages s, s)
  | None => default
  end.

(** ** Bitmap lemmas *)

Lemma bitmap_test_bit bm p : bitmap_test bm p = Z.testbit (bm (p / 8)) (p mod 8).
Proof.
  unfold bitmap_test. rewrite land_pow2_testbit by (apply Z.mod_pos_bound; lia).
  apply negb_involutive.
Qed.

Lemma shiftl_1_bit j k : 0 <= j -> 0 <= k -> Z.testbit (Z.shiftl 1 j) k = (j =? k).
Proof. intros. rewrite Z.shiftl_1_l. by apply Z.pow2_bits_eqb. Qed.

Lemma same_bit p q : p / 8 = q / 8 -> (q mod 8 =? p mod 8) = (p =? q).
Proof.
  intros H. pose proof (Z.div_mod p 8). pose proof (Z.div_mod q 8).
  destruct (p =? q) eqn:E; zbool; [by subst; apply Z.eqb_eq | apply Z.eqb_neq; lia].
Qed.

Lemma bitmap_test_set bm q p :
  bitmap_test (bitmap_set bm q) p = (p =? q) || bitmap_test bm p.
Proof.
  rewrite !bitmap_test_bit. unfold bitmap_set.
  pose proof (Z.mod_pos_bound p 8). pose proof (Z.mod_pos_bound q 8).
  destruct (p / 8 =? q / 8) eqn:E; zbool.
  - unfold u8. rewrite testbit_wrap, Z.lor_spec, shiftl_1_bit, same_bit by lia.
    rewrite (proj2 (Z.ltb_lt _ _)) by lia. simpl. apply orb_comm.
  - rewrite (proj2 (Z.eqb_neq p q)) by congruence. done.
Qed.

Lemma bitmap_test_clear bm q p :
  bitmap_test (bitmap_clear bm q) p = negb (p =? q) && bitmap_test bm p.
Proof.
  rewrite !bitmap_test_bit. unfold bitmap_clear.
  pose proof (Z.mod_pos_bound p 8). pose proof (Z.mod_pos_bound q 8).
  destruct (p / 8 =? q / 8) eqn:E; zbool.
  - unfold u8. rewrite testbit_wrap, Z.land_spec, Z.lnot_spec, shiftl_1_bit, same_bit by lia.
    rewrite (proj2 (Z.ltb_lt _ _)) by lia. simpl. apply andb_comm.
  - rewrite (proj2 (Z.eqb_neq p q)) by congruence. done.
Qed.

(** The page [p] is marked used. *)
Definition page_used (s : pmm) (p : Z) : bool := bitmap_test (pmm_bitmap s) p.

(** Used pages among the first [n]. *)
Fixpoint nset (bm : Z -> Z) (n : nat) : Z :=
  match n with
  | O => 0
  | S k => nset bm k + (if bitmap_test bm (Z.of_nat k) then 1 else 0)
  end.

Lemma nset_range bm n : 0 <= nset bm n <= Z.of_nat n.
Proof. induction n as [|n IH]; simpl nset; [lia|]. case_if; lia. Qed.

Lemma nset_ext bm bm' n :
  (forall p, 0 <= p < Z.of_nat n -> bitmap_test bm p = bitmap_test bm' p) ->
  nset bm n = nset bm' n.
Proof.
  induction n as [|n IH]; intros H; simpl nset; [done|].
  rewrite IH by (intros; apply H; lia). by rewrite H by lia.
Qed.

Lemma nset_set bm q n :
  0 <= q < Z.of_nat n -> bitmap_test bm q = false ->
  nset (bitmap_set bm q) n = nset bm n + 1.
Proof.
  induction n as [|n IH]; intros Hq Hf; simpl nset; [lia|].
  rewrite bitmap_test_set. destruct (Z.of_nat n =? q) eqn:E; zbool.
  - rewrite E, Hf. simpl. rewrite (nset_ext (bitmap_set bm q) bm); [lia|].
    intros p Hp. rewrite bitmap_test_set, (proj2 (Z.eqb_neq p q)) by lia. done.
  - rewrite IH by (done || lia). simpl. lia.
Qed.

Lemma nset_clear bm q n :
  0 <= q < Z.of_nat n -> bitmap_test bm q = true ->
  nset (bitmap_clear bm q) n = nset bm n - 1.
Proof.
  induction n as [|n IH]; intros Hq Hf; simpl nset; [lia|].
  rewrite bitmap_test_clear. destruct (Z.of_nat n =? q) eqn:E; zbool.
  - rewrite E, Hf. simpl. rewrite (nset_ext (bitmap_clear bm q) bm); [lia|].
    intros p Hp. rewrite bitmap_test_clear, (proj2 (Z.eqb_neq p q)) by lia. done.
  - rewrite IH by (done || lia). simpl. lia.
Qed.

(** ** The invariant *)

(** The number of bits of the bitmap as a [nat] that nothing unfolds. *)
Lemma max_pages_sig : { n : nat | Z.of_nat n = 1048576 }.
Proof. exists (Z.to_nat 1048576). apply Z2Nat.id. done. Qed.
Definition max_pages : nat := proj1_sig max_pages_sig.
Lemma max_pages_val : Z.of_nat max_pages = 1048576.
Proof. exact (proj2_sig max_pages_sig). Qed.
Lemma PMM_MAX_PAGES_val : PMM_MAX_PAGES = 1048576.
Proof. reflexivity. Qed.

(** The counter is the number of used pages of the whole bitmap, page 0 is used
    (so that 0 is never an allocated address) and so is every page past the end. *)
Record pmm_wf (s : pmm) : Prop := {
  wf_total : 0 <= pmm_total_pages s <= PMM_MAX_PAGES;
  wf_used : pmm_used_pages s = nset (pmm_bitmap s) max_pages;
  wf_page0 : page_used s 0 = true;
  wf_past : forall p, pmm_total_pages s <= p < PMM_MAX_PAGES -> page_used s p = true;
}.

(** The effect of one mark on the invariant and on the pages. *)
Lemma mark_used_spec s q :
  pmm_wf s -> 0 <= q < PMM_MAX_PAGES -> page_used s q = false ->
  pmm_wf (mark_used q s) /\ forall p, page_used (mark_used q s) p = (p =? q) || page_used s p.
Proof.
  intros [H1 H2 H3 H4] Hq Hf.
  assert (Hp : forall p, page_used (mark_used q s) p = (p =? q) || page_used s p)
    by (intros; apply bitmap_test_set).
  split; [|done]. split; simpl; try done.
  - pose proof max_pages_val. rewrite PMM_MAX_PAGES_val in *.
    rewrite nset_set by (done || lia). rewrite <- H2, u64_id; [done|].
    pose proof (nset_range (pmm_bitmap s) max_pages). lia.
  - rewrite Hp, H3. apply orb_true_r.
  - intros p Hp'. rewrite Hp, H4 by done. apply orb_true_r.
Qed.

Lemma nset_pos bm q n : 0 <= q < Z.of_nat n -> bitmap_test bm q = true -> 0 < nset bm n.
Proof.
  induction n as [|n IH]; intros Hq Ht; simpl nset; [lia|].
  pose proof (nset_range bm n). destruct (Z.eq_dec q (Z.of_nat n)) as [->|].
  - rewrite Ht. lia.
  - specialize (IH ltac:(lia) Ht). case_if; lia.
Qed.

Lemma mark_free_spec s q :
  pmm_wf s -> 0 < q < pmm_total_pages s -> page_used s q = true ->
  pmm_wf (mark_free q s) /\
  forall p, page_used (mark_free q s) p = negb (p =? q) && page_used s p.
Proof.
  intros [H1 H2 H3 H4] Hq Hf.
  assert (Hp : forall p, page_used (mark_free q s) p = negb (p =? q) && page_used s p)
    by (intros; apply bitmap_test_clear).
  split; [|done]. split; simpl; try done.
  - pose proof max_pages_val. rewrite PMM_MAX_PAGES_val in *.
    rewrite nset_clear by (done || lia). rewrite <- H2, u64_id; [done|].
    pose proof (nset_range (pmm_bitmap s) max_pages).
    pose proof (nset_pos (pmm_bitmap s) q max_pages ltac:(lia) Hf). lia.
  - rewrite Hp, H3, (proj2 (Z.eqb_neq 0 q)) by lia. done.
  - intros p Hp'. rewrite Hp, H4, (proj2 (Z.eqb_neq p q)) by (done || lia). done.
Qed.

(** ** The search *)

(** Some page of [r .. r+count-1] is used. *)
Definition blocked (bm : Z -> Z) (count r : Z) : Prop :=
  exists p, r <= p < r + count /\ bitmap_test bm p = true.

Lemma find_loop_spec n i bm count consecutive start :
  0 < count -> 0 <= consecutive < count -> consecutive <= i ->
  (consecutive <> 0 -> start = i - consecutive) ->
  (forall p, i - consecutive <= p < i -> bitmap_test bm p = false) ->
  (forall r, 0 <= r < i - consecutive -> blocked bm count r) ->
  let res := find_loop n i bm count consecutive start in
  (0 <= res /\ res + count <= i + Z.of_nat n /\
   (forall p, res <= p < res + count -> bitmap_test bm p = false) /\
   (forall r, 0 <= r < res -> blocked bm count r)) \/
  (res = SIZE_MAX /\ forall r, 0 <= r -> r + count <= i + Z.of_nat n -> blocked bm count r).
Proof.
  revert i consecutive start. induction n as [|n IH]; intros i c st Hc Hcons Hi Hst Hfree Hbl.
  - right. split; [done|]. intros r Hr Hb. apply Hbl. lia.
  - cbn [find_loop]. destruct (bitmap_test bm i) eqn:Et; simpl.
    + specialize (IH (i + 1) 0 st Hc ltac:(lia) ltac:(lia) ltac:(done)).
      replace (i + Z.of_nat (S n)) with (i + 1 + Z.of_nat n) by lia. apply IH.
      * intros p Hp. lia.
      * intros r Hr. destruct (Z.lt_ge_cases r (i - c)); [apply Hbl; lia|].
        exists i. split; [lia|done].
    + assert (Hst' : (if c =? 0 then i else st) = i - c) by (case_if; [lia|auto]).
      assert (Hfree' : forall p, i - c <= p < i + 1 -> bitmap_test bm p = false).
      { intros p Hp. destruct (Z.eq_dec p i) as [->|]; [done|]. apply Hfree. lia. }
      case_if.
      * left. rewrite Hst'. replace count with (c + 1) in * by lia.
        split; [lia|]. split; [lia|]. split; [intros p Hp; apply Hfree'; lia|done].
      * specialize (IH (i + 1) (c + 1) (if c =? 0 then i else st) Hc ltac:(lia) ltac:(lia)).
        replace (i + Z.of_nat (S n)) with (i + 1 + Z.of_nat n) by lia.
        apply IH; replace (i + 1 - (c + 1)) with (i - c) by lia; auto.
Qed.

Lemma find_free_pages_spec s count :
  0 < count -> 0 <= pmm_total_pages s <= PMM_MAX_PAGES ->
  let res := find_free_pages s count in
  (0 <= res /\ res + count <= pmm_total_pages s /\
   (forall p, res <= p < res + count -> page_used s p = false) /\
   (forall r, 0 <= r < res -> blocked (pmm_bitmap s) count r)) \/
  (res = SIZE_MAX /\
   forall r, 0 <= r -> r + count <= pmm_total_pages s -> blocked (pmm_bitmap s) count r).
Proof.
  intros Hc Ht. unfold find_free_pages.
  pose proof (find_loop_spec (Z.to_nat (pmm_total_pages s)) 0 (pmm_bitmap s) count 0 0
    Hc ltac:(lia) ltac:(lia) ltac:(done) ltac:(intros; lia) ltac:(intros; lia)) as H.
  cbv zeta in *. replace (0 + Z.of_nat (Z.to_nat (pmm_total_pages s)))
    with (pmm_total_pages s) in H by lia. exact H.
Qed.

(** ** Loops over pages *)

Lemma mark_used_loop s start count :
  pmm_wf s -> 0 <= start -> 0 <= count -> start + count <= PMM_MAX_PAGES ->
  (forall p, start <= p < start + count -> page_used s p = false) ->
  let s' := for_range 0 count (fun i => mark_used (start + i)) s in
  pmm_wf s' /\ pmm_total_pages s' = pmm_total_pages s /\
  (forall p, page_used s' p = page_used s p || ((start <=? p) && (p <? start + count))).
Proof.
  intros Hwf Hs Hc Hb Hf.
  apply (for_range_ind (fun i s' => pmm_wf s' /\ pmm_total_pages s' = pmm_total_pages s /\
    forall p, page_used s' p = page_used s p || ((start <=? p) && (p <? start + i)))); [done| |].
  - split; [done|]. split; [done|]. intros p.
    rewrite (proj2 (andb_false_iff _ _)); [by rewrite orb_false_r|].
    destruct (start <=? p) eqn:E; zbool; [right; apply Z.ltb_ge; lia | by left].
  - intros j s' Hj (IH1 & IH2 & IH3).
    destruct (mark_used_spec s' (start + j)) as [Hw Hp]; [done|lia| |].
    + rewrite IH3, Hf by lia. apply andb_false_iff. right. apply Z.ltb_ge. lia.
    + split; [done|]. split; [done|]. intros p. rewrite Hp, IH3.
      destruct (page_used s p); simpl; [by rewrite orb_true_r|]. lia.
Qed.

(** [iter_brk] with [free_one] frees exactly the managed pages of the range. *)
Lemma free_loop n i start s :
  pmm_wf s -> 0 < start -> 0 <= i -> start + i < 2 ^ 53 ->
  let s' := brk_state (iter_brk n i (free_one start) s) in
  pmm_wf s' /\ pmm_total_pages s' = pmm_total_pages s /\
  (forall p, page_used s' p = page_used s p &&
     negb ((start + i <=? p) && (p <? start + i + Z.of_nat n) && (p <? pmm_total_pages s))).
Proof.
  revert i s. induction n as [|n IH]; intros i s Hwf Hs Hi Hb.
  - simpl. split; [done|]. split; [done|]. intros p. destruct (page_used s p); blia.
  - cbn [iter_brk]. pose proof (wf_total _ Hwf) as Ht. rewrite PMM_MAX_PAGES_val in Ht.
    assert (Hone : free_one start i s =
      if pmm_total_pages s <=? start + i then inr s
      else if negb (page_used s (start + i)) then inl s else inl (mark_free (start + i) s))
      by (unfold free_one; by rewrite u64_id by lia).
    rewrite Hone. clear Hone.
    destruct (pmm_total_pages s <=? start + i) eqn:E; zbool.
    { simpl. split; [done|]. split; [done|]. intros p. destruct (page_used s p); blia. }
    destruct (page_used s (start + i)) eqn:Eu; simpl.
    + destruct (mark_free_spec s (start + i)) as [Hw Hp]; [done|lia|done|].
      destruct (IH (i + 1) (mark_free (start + i) s)) as (H1 & H2 & H3); [done|lia..|].
      split; [done|]. split; [done|]. intros p. rewrite H3, Hp. simpl.
      destruct (page_used s p); blia.
    + destruct (IH (i + 1) s) as (H1 & H2 & H3); [done|lia..|].
      split; [done|]. split; [done|]. intros p. rewrite H3.
      destruct (Z.eq_dec p (start + i)) as [->|]; [rewrite Eu; blia|].
      destruct (page_used s p); blia.
Qed.

Lemma reserve_loop n k sp s :
  pmm_wf s -> 0 <= sp -> 0 <= k ->
  let s' := brk_state (iter_brk n k (reserve_one (sp * PMM_PAGE_SIZE)) s) in
  pmm_wf s' /\ pmm_total_pages s' = pmm_total_pages s /\
  (forall p, page_used s' p = page_used s p ||
     ((sp + k <=? p) && (p <? sp + k + Z.of_nat n) && (p <? pmm_total_pages s))).
Proof.
  revert k s. induction n as [|n IH]; intros k s Hwf Hs Hk.
  - simpl. split; [done|]. split; [done|]. intros p. destruct (page_used s p); blia.
  - cbn [iter_brk]. pose proof (wf_total _ Hwf) as Ht.
    assert (Hone : reserve_one (sp * PMM_PAGE_SIZE) k s =
      if pmm_total_pages s <=? sp + k then inr s
      else if negb (page_used s (sp + k)) then inl (mark_used (sp + k) s) else inl s).
    { unfold reserve_one, PMM_ADDR_TO_PFN. rewrite Z.shiftr_div_pow2 by lia.
      by replace ((sp * PMM_PAGE_SIZE + k * PMM_PAGE_SIZE) / 2 ^ 12) with (sp + k)
        by (unfold PMM_PAGE_SIZE; dlia). }
    rewrite Hone. clear Hone.
    destruct (pmm_total_pages s <=? sp + k) eqn:E; zbool.
    { simpl. split; [done|]. split; [done|]. intros p. destruct (page_used s p); blia. }
    destruct (page_used s (sp + k)) eqn:Eu; simpl.
    + destruct (IH (k + 1) s) as (H1 & H2 & H3); [done|lia..|].
      split; [done|]. split; [done|]. intros p. rewrite H3.
      destruct (Z.eq_dec p (sp + k)) as [->|]; [rewrite Eu; blia|].
      destruct (page_used s p); blia.
    + destruct (mark_used_spec s (sp + k)) as [Hw Hp]; [done|lia|done|].
      destruct (IH (k + 1) (mark_used (sp + k) s)) as (H1 & H2 & H3); [done|lia..|].
      split; [done|]. split; [done|]. intros p. rewrite H3, Hp. simpl.
      destruct (page_used s p); blia.
Qed.

Lemma pfn_addr p : 0 <= p < 2 ^ 52 -> PMM_PFN_TO_ADDR p = p * PMM_PAGE_SIZE.
Proof.
  intros. unfold PMM_PFN_TO_ADDR, PMM_PAGE_SIZE. rewrite Z.shiftl_mul_pow2 by lia.
  apply u64_id. lia.
Qed.
Lemma addr_pfn a : PMM_ADDR_TO_PFN a = a / PAGE_SIZE.
Proof. unfold PMM_ADDR_TO_PFN. by rewrite Z.shiftr_div_pow2. Qed.
Lemma is_aligned_page a : IS_ALIGNED a PMM_PAGE_SIZE = (a mod PAGE_SIZE =? 0).
Proof. apply (IS_ALIGNED_pow2 a 12). lia. Qed.

(** ** The operations meet the allocator interface *)

Lemma alloc_spec s n a s' :
  pmm_wf s -> 0 <= n -> pmm_alloc_pages n s = (a, s') ->
  (a = 0 /\ s' = s /\
   (0 < n -> forall r, 0 <= r -> r + n <= pmm_total_pages s -> blocked (pmm_bitmap s) n r)) \/
  (exists r, a = r * PAGE_SIZE /\ 0 < n /\ 0 < r /\ r + n <= pmm_total_pages s /\
   pmm_wf s' /\ pmm_total_pages s' = pmm_total_pages s /\
   (forall p, r <= p < r + n -> page_used s p = false) /\
   (forall q, 0 <= q < r -> blocked (pmm_bitmap s) n q) /\
   (forall p, page_used s' p = page_used s p || ((r <=? p) && (p <? r + n)))).
Proof.
  intros Hwf Hn. unfold pmm_alloc_pages. destruct (n =? 0) eqn:E0; zbool.
  { intros [= <- <-]. left. split; [done|]. split; [done|]. lia. }
  pose proof (wf_total _ Hwf) as Ht. rewrite PMM_MAX_PAGES_val in Ht.
  destruct (find_free_pages_spec s n ltac:(lia) (wf_total _ Hwf)) as [(H1 & H2 & H3 & H4)|[H1 H2]].
  - set (r := find_free_pages s n) in *.
    rewrite (proj2 (Z.eqb_neq r SIZE_MAX)) by (unfold SIZE_MAX; lia).
    intros [= <- <-]. right. exists r.
    assert (r <> 0).
    { intros ->. pose proof (wf_page0 _ Hwf). rewrite H3 in * by lia. done. }
    rewrite pfn_addr by lia.
    destruct (mark_used_loop s r n) as (W1 & W2 & W3); auto; [rewrite PMM_MAX_PAGES_val; lia|].
    split; [done|]. repeat (split; [lia || done|]). done.
  - rewrite H1, Z.eqb_refl. intros [= <- <-]. left. auto.
Qed.

Lemma free_spec s a n :
  pmm_wf s -> 0 < a < 2 ^ 64 -> a mod PAGE_SIZE = 0 -> 0 <= n ->
  let s' := pmm_free_pages a n s in
  pmm_wf s' /\ pmm_total_pages s' = pmm_total_pages s /\
  (forall p, page_used s' p = page_used s p &&
     negb ((a / PAGE_SIZE <=? p) && (p <? a / PAGE_SIZE + n) && (p <? pmm_total_pages s))).
Proof.
  intros Hwf Ha Hal Hn. unfold pmm_free_pages. rewrite is_aligned_page, Hal.
  rewrite (proj2 (Z.eqb_neq a 0)) by lia. simpl. destruct (n =? 0) eqn:E0; zbool.
  - split; [done|]. split; [done|]. intros p. subst n. destruct (page_used s p); blia.
  - rewrite addr_pfn. assert (Hpos : 0 < a / PAGE_SIZE < 2 ^ 52) by (unfold PAGE_SIZE in *; dlia).
    destruct (free_loop (Z.to_nat n) 0 (a / PAGE_SIZE) s) as (H1 & H2 & H3); [done|lia..|].
    split; [done|]. split; [done|]. intros p. rewrite H3.
    rewrite Z.add_0_r, Z2Nat.id by lia. done.
Qed.

Lemma reserve_spec s a size :
  pmm_wf s -> 0 <= a -> 0 < size -> a + size + 4095 < 2 ^ 64 ->
  let s' := pmm_reserve_range a size s in
  pmm_wf s' /\ pmm_total_pages s' = pmm_total_pages s /\
  (forall p, page_used s' p = page_used s p ||
     ((a / PAGE_SIZE <=? p) && (p <=? (a + size - 1) / PAGE_SIZE) &&
      (p <? pmm_total_pages s))).
Proof.
  intros Hwf Ha Hsz Hb. unfold pmm_reserve_range.
  rewrite (proj2 (Z.eqb_neq size 0)) by lia. rewrite u64_id by lia.
  change PMM_PAGE_SIZE with (2 ^ 12). rewrite ALIGN_DOWN_pow2, ALIGN_UP_pow2 by lia.
  replace (a - a mod 2 ^ 12) with (a / PAGE_SIZE * PMM_PAGE_SIZE)
    by (unfold PAGE_SIZE, PMM_PAGE_SIZE; dlia).
  destruct (reserve_loop
    (Z.to_nat ((a + size + (2 ^ 12 - 1) - (a + size + (2 ^ 12 - 1)) mod 2 ^ 12 -
       a / PAGE_SIZE * PMM_PAGE_SIZE) / 2 ^ 12)) 0 (a / PAGE_SIZE) s) as (H1 & H2 & H3);
    [done|unfold PAGE_SIZE; dlia|lia|].
  split; [done|]. split; [done|]. intros p. rewrite H3. f_equal. f_equal. f_equal; [f_equal; lia|].
  unfold PAGE_SIZE, PMM_PAGE_SIZE. rewrite Z2Nat.id by dlia.
  assert (forall x y, (x < y <-> x <= y - 1)) as Hlt by lia.
  apply eq_true_iff_eq. rewrite Z.ltb_lt, Z.leb_le. dlia.
Qed.

#[export] Instance pmm_allocator : PageAllocator pmm := {
  pa_alloc := pmm_alloc_pages;
  pa_free := pmm_free_pages;
  pa_used := page_used;
  pa_managed s p := p <? pmm_total_pages s;
  pa_wf := pmm_wf;
}.

#[export] Instance pmm_allocator_laws : PageAllocatorLaws pmm.
Proof.
  split; simpl.
  - intros s n s' Hwf Hn H. destruct (alloc_spec s n 0 s' Hwf Hn H)
      as [(_ & -> & _)|(r & Hr & ? & ? & _)]; [done|]. unfold PAGE_SIZE in *. lia.
  - intros s n a s' Hwf Hn H Ha.
    destruct (alloc_spec s n a s' Hwf Hn H) as [(-> & _)|(r & -> & H1 & H2 & H3 & H4 & H5 & H6 & H7 & H8)];
      [done|].
    pose proof (wf_total _ Hwf) as Ht. rewrite PMM_MAX_PAGES_val in Ht.
    unfold in_pages, GB, MB, KB, PAGE_SIZE in *. rewrite Z.div_mul, Z.mod_mul by lia.
    repeat (split; [done || lia|]). split; [|split].
    + intros p Hp. split; [lia|]. apply H6. lia.
    + done.
    + intros p. by rewrite H5.
  - intros s s' Hwf H p Hp Hm. destruct (alloc_spec s 1 0 s' Hwf ltac:(lia) H)
      as [(_ & _ & Hb)|(r & Hr & ? & ? & _)]; [|unfold PAGE_SIZE in *; lia].
    destruct (Hb ltac:(lia) p Hp ltac:(lia)) as (q & Hq & E). by replace p with q by lia.
  - done.
  - intros s a n Hwf Ha Hal Hn.
    destruct (free_spec s a n Hwf Ha Hal Hn) as (H1 & H2 & H3).
    split; [done|]. split; [intros p _; apply H3|]. intros p. by rewrite H2.
Qed.

(** ** Initialisation *)

(** The counter agrees with the bitmap. *)
Definition counted (s : pmm) : Prop := pmm_used_pages s = nset (pmm_bitmap s) max_pages.

Lemma mark_free_counted s q :
  counted s -> 0 <= q < PMM_MAX_PAGES -> page_used s q = true -> counted (mark_free q s).
Proof.
  unfold counted. intros H Hq Hu. simpl. pose proof max_pages_val.
  rewrite PMM_MAX_PAGES_val in Hq.
  pose proof (nset_range (pmm_bitmap s) max_pages).
  pose proof (nset_pos (pmm_bitmap s) q max_pages ltac:(lia) Hu).
  rewrite nset_clear by (done || lia). rewrite <- H, u64_id; lia.
Qed.

Lemma free_range_loop s lo hi :
  counted s -> 0 <= lo -> hi <= PMM_MAX_PAGES ->
  let s' := for_range lo hi free_if_used s in
  counted s' /\ pmm_total_pages s' = pmm_total_pages s /\
  (forall p, page_used s' p = page_used s p && negb ((lo <=? p) && (p <? hi))).
Proof.
  intros Hc Hlo Hhi. destruct (Z.le_gt_cases lo hi) as [Hle|Hgt].
  2: { rewrite for_range_empty by lia. split; [done|]. split; [done|].
       intros p. destruct (page_used s p); blia. }
  apply (for_range_ind (fun i s' => counted s' /\ pmm_total_pages s' = pmm_total_pages s /\
    forall p, page_used s' p = page_used s p && negb ((lo <=? p) && (p <? i)))); [done| |].
  - split; [done|]. split; [done|]. intros p. destruct (page_used s p); blia.
  - intros j s' Hj (I1 & I2 & I3). unfold free_if_used.
    change (bitmap_test (pmm_bitmap s') j) with (page_used s' j).
    destruct (page_used s' j) eqn:Eu; simpl.
    + split; [apply mark_free_counted; auto; lia|]. split; [done|].
      intros p. change (page_used (mark_free j s') p)
        with (bitmap_test (bitmap_clear (pmm_bitmap s') j) p).
      rewrite bitmap_test_clear. change (bitmap_test (pmm_bitmap s') p) with (page_used s' p).
      rewrite I3. destruct (page_used s p); blia.
    + split; [done|]. split; [done|]. intros p. rewrite I3.
      destruct (Z.eq_dec p j) as [->|]; [|destruct (page_used s p); blia].
      rewrite I3 in Eu. destruct (page_used s j); revert Eu; blia.
Qed.

(** Whole pages of a usable map entry, above 1 MB. *)
Definition entry_covers (e : memory_map_entry) (p : Z) : Prop :=
  me_type e = MEMORY_TYPE_USABLE /\ 256 <= p /\
  me_base e <= p * PAGE_SIZE /\ (p + 1) * PAGE_SIZE <= me_base e + me_length e.

(** An entry that ends, rounded up, below 2^64. *)
Definition entry_fits (e : memory_map_entry) : Prop :=
  0 <= me_base e /\ 0 <= me_length e /\ me_base e + me_length e + 4095 < 2 ^ 64.

Lemma entry_pages_spec e :
  entry_fits e ->
  match entry_pages e with
  | Some (lo, hi) => 256 <= lo /\ hi <= PMM_MAX_PAGES /\
      hi * PAGE_SIZE <= me_base e + me_length e /\
      (forall p, 0 <= p < PMM_MAX_PAGES -> lo <= p < hi <-> entry_covers e p)
  | None => forall p, ~ entry_covers e p
  end.
Proof.
  intros (Hb & Hl & Hf). unfold entry_pages, entry_covers. rewrite PMM_MAX_PAGES_val.
  unfold MEMORY_TYPE_USABLE. destruct (me_type e =? 1) eqn:Et; zbool; simpl; [|lia].
  change PMM_PAGE_SIZE with (2 ^ 12). rewrite ALIGN_UP_pow2, ALIGN_DOWN_pow2 by lia.
  rewrite u64_id by lia. unfold PAGE_SIZE.
  change (2 ^ 12) with 4096. change PMM_MAX_MEMORY with 4294967296.
  set (b := me_base e) in *. set (en := b + me_length e) in *.
  assert (Hs : exists k, b + (4096 - 1) - (b + (4096 - 1)) mod 4096 = 4096 * k /\
            4096 * (k - 1) < b <= 4096 * k) by (exists ((b + 4095) / 4096); dlia).
  assert (He : exists k, en - en mod 4096 = 4096 * k /\ 4096 * k <= en < 4096 * (k + 1))
    by (exists (en / 4096); dlia).
  destruct Hs as (ks & -> & Hks), He as (ke & -> & Hke).
  destruct (4096 * ke <=? 4096 * ks) eqn:E1; zbool; [lia|].
  set (st := if 4096 * ks <? 1048576 then 1048576 else 4096 * ks).
  assert (Hst : exists k, st = 4096 * k /\ k = Z.max 256 ks)
    by (exists (Z.max 256 ks); unfold st; case_if; lia).
  destruct Hst as (kst & -> & Hkst).
  destruct (4096 * ke <=? 4096 * kst) eqn:E2; zbool; [lia|].
  set (et := if 4294967296 <? 4096 * ke then 4294967296 else 4096 * ke).
  assert (Het : exists k, et = 4096 * k /\ k = Z.min 1048576 ke)
    by (exists (Z.min 1048576 ke); unfold et; case_if; lia).
  destruct Het as (ket & -> & Hket).
  rewrite !addr_pfn. unfold PAGE_SIZE.
  replace (4096 * kst / 4096) with kst by dlia. replace (4096 * ket / 4096) with ket by dlia.
  split; [lia|]. split; [lia|]. split; [lia|]. intros p Hp. lia.
Qed.

Lemma nset_full bm n :
  (forall p, 0 <= p < Z.of_nat n -> bitmap_test bm p = true) -> nset bm n = Z.of_nat n.
Proof.
  induction n as [|n IH]; intros H; simpl nset; [done|].
  rewrite IH by (intros; apply H; lia). rewrite H by lia. lia.
Qed.

Lemma all_used_spec s0 :
  counted (pmm_all_used s0) /\
  forall p, 0 <= p < PMM_MAX_PAGES -> page_used (pmm_all_used s0) p = true.
Proof.
  assert (H : forall p, 0 <= p < PMM_MAX_PAGES -> page_used (pmm_all_used s0) p = true).
  { intros p Hp. unfold page_used. rewrite bitmap_test_bit. cbn [pmm_all_used pmm_bitmap].
    change PMM_BITMAP_SIZE with 131072. rewrite PMM_MAX_PAGES_val in Hp.
    replace ((0 <=? p / 8) && (p / 8 <? 131072)) with true
      by (symmetry; apply andb_true_iff; split; [apply Z.leb_le|apply Z.ltb_lt]; dlia).
    change 255 with (Z.ones 8). apply Z.ones_spec_low. apply Z.mod_pos_bound. lia. }
  split; [|done]. unfold counted. simpl. rewrite nset_full.
  - pose proof max_pages_val. rewrite PMM_MAX_PAGES_val. lia.
  - intros p Hp. apply H. pose proof max_pages_val. rewrite PMM_MAX_PAGES_val. lia.
Qed.

(** The loop over the map entries: the free pages are those an entry covers, and
    they all end at or below the highest address seen. *)
Lemma init_loop (es : Z -> memory_map_entry) n s0 :
  0 <= n -> (forall i, 0 <= i < n -> entry_fits (es i)) ->
  let r := for_range 0 n (fun i => init_entry (es i)) (0, pmm_all_used s0) in
  0 <= fst r /\ counted (snd r) /\
  (forall p, 0 <= p < PMM_MAX_PAGES -> page_used (snd r) p = false ->
     256 <= p /\ (p + 1) * PAGE_SIZE <= fst r) /\
  (forall p, 0 <= p < PMM_MAX_PAGES ->
     page_used (snd r) p = false <-> exists i, 0 <= i < n /\ entry_covers (es i) p).
Proof.
  intros Hn Hfit. destruct (all_used_spec s0) as [Hc0 Hu0].
  apply (for_range_ind (fun k r => 0 <= fst r /\ counted (snd r) /\
    (forall p, 0 <= p < PMM_MAX_PAGES -> page_used (snd r) p = false ->
       256 <= p /\ (p + 1) * PAGE_SIZE <= fst r) /\
    (forall p, 0 <= p < PMM_MAX_PAGES ->
       page_used (snd r) p = false <-> exists i, 0 <= i < k /\ entry_covers (es i) p))); [done| |].
  - simpl. split; [lia|]. split; [done|].
    split; [intros p Hp; by rewrite Hu0|]. intros p Hp. rewrite Hu0 by done.
    split; [done|]. intros (i & Hi & _). lia.
  - intros k [h s] Hk (H1 & H2 & H3 & H4). simpl in *. specialize (Hfit k Hk).
    pose proof (entry_pages_spec (es k) Hfit) as Hep. unfold init_entry.
    destruct Hfit as (F1 & F2 & F3). rewrite u64_id by lia.
    set (h' := if h <? me_base (es k) + me_length (es k)
               then me_base (es k) + me_length (es k) else h).
    assert (Hh : h <= h' /\ me_base (es k) + me_length (es k) <= h')
      by (unfold h'; case_if; lia).
    destruct (entry_pages (es k)) as [[lo hi]|]; cbn [fst snd].
    + destruct Hep as (E1 & E2 & E3 & E4).
      destruct (free_range_loop s lo hi H2 ltac:(lia) E2) as (R1 & R2 & R3).
      split; [lia|]. split; [done|]. split.
      * intros p Hp Hf. rewrite R3 in Hf. destruct (page_used s p) eqn:Eu.
        -- cbn [andb] in Hf. assert (lo <= p < hi) by lia. unfold PAGE_SIZE in *. lia.
        -- destruct (H3 p Hp Eu). lia.
      * intros p Hp. rewrite R3, andb_false_iff, H4 by done. split.
        -- intros [(i & Hi & Hc)|Hin]; [exists i; split; [lia|done]|].
           exists k. split; [lia|]. apply E4; [done|]. lia.
        -- intros (i & Hi & Hc). destruct (Z.eq_dec i k) as [->|].
           ++ right. apply E4 in Hc; [|done]. lia.
           ++ left. exists i. split; [lia|done].
    + split; [lia|]. split; [done|]. split.
      * intros p Hp Hf. destruct (H3 p Hp Hf). lia.
      * intros p Hp. rewrite H4 by done. split.
        -- intros (i & Hi & Hc). exists i. split; [lia|done].
        -- intros (i & Hi & Hc). destruct (Z.eq_dec i k) as [->|]; [by destruct (Hep p)|].
           exists i. split; [lia|done].
Qed.

Lemma pmm_init_spec m bi s0 :
  bi_magic bi = BOOT_MAGIC -> 0 < bi_mem_map_count bi ->
  (forall i, 0 <= i < bi_mem_map_count bi -> entry_fits (read_entry m (bi_mem_map_addr bi) i)) ->
  let s := snd (pmm_init m (Some bi) s0) in
  pmm_wf s /\
  (forall p, 0 <= p < PMM_MAX_PAGES -> page_used s p = false <->
     exists i, 0 <= i < bi_mem_map_count bi /\
       entry_covers (read_entry m (bi_mem_map_addr bi) i) p).
Proof.
  intros Hm Hn Hfit. unfold pmm_init. cbn [boot_info_valid].
  rewrite Hm, Z.eqb_refl, (proj2 (Z.eqb_neq (bi_mem_map_count bi) 0)) by lia.
  cbn [negb orb].
  pose proof (init_loop (fun i => read_entry m (bi_mem_map_addr bi) i) (bi_mem_map_count bi) s0
    ltac:(lia) Hfit) as H.
  cbv zeta in *. destruct (for_range 0 _ _ _) as [h s]. simpl in *.
  destruct H as (H1 & H2 & H3 & H4). split; [|done].
  rewrite PMM_MAX_PAGES_val in *.
  assert (Ht : 0 <= PMM_ADDR_TO_PFN (h `min` PMM_MAX_MEMORY) <= 1048576 /\
    PMM_ADDR_TO_PFN (h `min` PMM_MAX_MEMORY) = (h `min` 4294967296) / 4096).
  { rewrite addr_pfn. unfold PAGE_SIZE. change PMM_MAX_MEMORY with 4294967296. dlia. }
  split; simpl.
  - rewrite PMM_MAX_PAGES_val. lia.
  - done.
  - destruct (page_used s 0) eqn:E; [done|]. destruct (H3 0 ltac:(lia) E). lia.
  - intros p Hp. rewrite PMM_MAX_PAGES_val in Hp. change (page_used s p = true).
    destruct (page_used s p) eqn:E; [done|].
    destruct (H3 p ltac:(lia) E) as [_ H]. unfold PAGE_SIZE in H.
    destruct Ht as [_ Ht]. rewrite Ht in Hp. dlia.
Qed.

Lemma mark_free_range s lo hi :
  counted s -> 0 <= lo <= hi -> hi <= PMM_MAX_PAGES ->
  (forall p, lo <= p < hi -> page_used s p = true) ->
  let s' := for_range lo hi mark_free s in
  counted s' /\ pmm_used_pages s' = pmm_used_pages s - (hi - lo) /\
  (forall p, page_used s' p = page_used s p && negb ((lo <=? p) && (p <? hi))).
Proof.
  intros Hc Hlo Hhi Hu.
  apply (for_range_ind (fun i s' => counted s' /\
    pmm_used_pages s' = pmm_used_pages s - (i - lo) /\
    forall p, page_used s' p = page_used s p && negb ((lo <=? p) && (p <? i)))); [lia| |].
  - split; [done|]. split; [lia|]. intros p. destruct (page_used s p); blia.
  - intros j s' Hj (I1 & I2 & I3).
    assert (Huj : page_used s' j = true) by (rewrite I3, Hu by lia; blia).
    pose proof (mark_free_counted s' j I1 ltac:(lia) Huj) as Hc'.
    split; [done|]. split.
    + pose proof (nset_range (pmm_bitmap s') max_pages) as Hr.
      pose proof max_pages_val. rewrite PMM_MAX_PAGES_val in *.
      pose proof (nset_pos (pmm_bitmap s') j max_pages ltac:(lia) Huj).
      unfold counted in *. simpl. rewrite u64_id; lia.
    + intros p. change (page_used (mark_free j s') p)
        with (bitmap_test (bitmap_clear (pmm_bitmap s') j) p).
      rewrite bitmap_test_clear. change (bitmap_test (pmm_bitmap s') p) with (page_used s' p).
      rewrite I3. destruct (page_used s p); blia.
Qed.

(** ** Clients and their pages

    A ledger keeps the allocations the clients hold: what [pmm_alloc_pages]
    returned and has not been given back whole to [pmm_free_pages]. *)
Inductive ledger_step : pmm * list (Z * Z) -> pmm * list (Z * Z) -> Prop :=
  | ledger_alloc s L n a s' :
      0 <= n -> pmm_alloc_pages n s = (a, s') -> a <> 0 ->
      ledger_step (s, L) (s', (a, n) :: L)
  | ledger_alloc_fail s L n s' :
      0 <= n -> pmm_alloc_pages n s = (0, s') -> ledger_step (s, L) (s', L)
  | ledger_free s L1 a n L2 :
      ledger_step (s, L1 ++ (a, n) :: L2) (pmm_free_pages a n s, L1 ++ L2)
  | ledger_reserve s L a size :
      0 <= a -> ledger_step (s, L) (pmm_reserve_range a size s, L).

(** How many of the allocations own page [p]. *)
Fixpoint owners (L : list (Z * Z)) (p : Z) : Z :=
  match L with
  | [] => 0
  | (a, n) :: L' => (if in_pages a n p then 1 else 0) + owners L' p
  end.

Lemma owners_app L1 L2 p : owners (L1 ++ L2) p = owners L1 p + owners L2 p.
Proof. induction L1 as [|[a n] L1 IH]; simpl; lia. Qed.

Lemma owners_nonneg L p : 0 <= owners L p.
Proof. induction L as [|[a n] L IH]; simpl; [lia|]. case_if; lia. Qed.

Record ledger_ok (sl : pmm * list (Z * Z)) : Prop := {
  lk_wf : pmm_wf (fst sl);
  lk_shape : forall a n, (a, n) ∈ snd sl ->
    0 < a < 2 ^ 64 /\ a mod PAGE_SIZE = 0 /\ 0 < n;
  lk_one : forall p, owners (snd sl) p <= 1;
  lk_used : forall p, 0 < owners (snd sl) p ->
    page_used (fst sl) p = true /\ p < pmm_total_pages (fst sl);
}.

Lemma reserve_wf s a size :
  pmm_wf s -> 0 <= a ->
  let s' := pmm_reserve_range a size s in
  pmm_wf s' /\ pmm_total_pages s' = pmm_total_pages s /\
  forall p, page_used s p = true -> page_used s' p = true.
Proof.
  intros Hwf Ha. unfold pmm_reserve_range. case_if; [done|].
  assert (Hd : ALIGN_DOWN a PMM_PAGE_SIZE = a / PAGE_SIZE * PMM_PAGE_SIZE).
  { change PMM_PAGE_SIZE with (2 ^ 12) at 1. rewrite ALIGN_DOWN_pow2 by lia.
    unfold PAGE_SIZE, PMM_PAGE_SIZE. dlia. }
  rewrite Hd.
  match goal with |- context [iter_brk ?n 0 _ _] =>
    destruct (reserve_loop n 0 (a / PAGE_SIZE) s) as (H1 & H2 & H3);
      [done|unfold PAGE_SIZE; dlia|lia|] end.
  split; [done|]. split; [done|]. intros p Hp. by rewrite H3, Hp.
Qed.

Lemma ledger_step_ok sl sl' : ledger_ok sl -> ledger_step sl sl' -> ledger_ok sl'.
Proof.
  intros [W Sh One Us] Hst. destruct Hst as [s L n a s' Hn Ha Hne|s L n s' Hn Ha|s L1 a n L2|s L a sz Ha];
    simpl in *.
  - destruct (alloc_spec s n a s' W Hn Ha)
      as [(-> & _)|(r & -> & H1 & H2 & H3 & H4 & H5 & H6 & H7 & H8)]; [done|].
    pose proof (wf_total _ W) as Ht. rewrite PMM_MAX_PAGES_val in Ht.
    assert (Hin : forall p, in_pages (r * PAGE_SIZE) n p = (r <=? p) && (p <? r + n))
      by (intros; unfold in_pages, PAGE_SIZE; by rewrite Z.div_mul by lia).
    split; simpl.
    + done.
    + intros a' n' [[= -> ->]|Hin']%elem_of_cons; [|by apply Sh].
      unfold PAGE_SIZE. rewrite Z.mod_mul by lia. lia.
    + intros p. rewrite Hin. case_if; [|apply One].
      destruct (Z.lt_ge_cases 0 (owners L p)) as [Hp|Hp]; [|lia].
      destruct (Us p Hp) as [Hu _]. rewrite H6 in Hu by lia. done.
    + intros p. rewrite Hin, H8, H5. case_if; [intros _; split; [blia|lia]|].
      intros Hp. destruct (Us p Hp) as [-> ?]. split; [done|lia].
  - destruct (alloc_spec s n 0 s' W Hn Ha)
      as [(_ & -> & _)|(r & Hr & H1 & H2 & _)]; [by split|]. unfold PAGE_SIZE in *. lia.
  - destruct (Sh a n) as (S1 & S2 & S3); [apply elem_of_app; right; left|].
    destruct (free_spec s a n W S1 S2 ltac:(lia)) as (H1 & H2 & H3).
    assert (Hsplit : forall p, owners (L1 ++ (a, n) :: L2) p =
      owners (L1 ++ L2) p + if in_pages a n p then 1 else 0)
      by (intros; rewrite !owners_app; simpl; lia).
    split; simpl.
    + done.
    + intros a' n' Hin. apply Sh. rewrite elem_of_app in *. rewrite elem_of_cons. tauto.
    + intros p. specialize (One p). rewrite Hsplit in One. case_if_in One; lia.
    + intros p Hp. specialize (One p). specialize (Us p). rewrite Hsplit in *.
      unfold in_pages in *. rewrite H2, H3. destruct (Us ltac:(case_if; lia)) as [Hu Ht].
      split; [|done]. rewrite Hu. case_if_in One; lia.
  - destruct (reserve_wf s a sz W Ha) as (H1 & H2 & H3). split; simpl; auto.
    intros p Hp. destruct (Us p Hp). rewrite H2. auto.
Qed.

(** ** Properties *)

(** on a well-formed state [pmm_alloc_pages(count)], [count > 0], is first
    fit: either it returns 0, changes nothing, and no [count] consecutive managed
    pages are free; or it returns the address of the lowest such run, which was
    free, does not contain page 0, and is marked used with no other page touched. *)
Theorem pmm_alloc_first_fit (s : pmm) (count : Z) (Hwf : pmm_wf s) (Hc : 0 < count) :
  let '(a, s') := pmm_alloc_pages count s in
  (a = 0 /\ s' = s /\
   forall r, 0 <= r -> r + count <= pmm_total_pages s -> blocked (pmm_bitmap s) count r) \/
  (exists r, a = r * PAGE_SIZE /\ 0 < r /\ r + count <= pmm_total_pages s /\ pmm_wf s' /\
   (forall p, r <= p < r + count -> page_used s p = false) /\
   (forall q, 0 <= q < r -> blocked (pmm_bitmap s) count q) /\
   (forall p, page_used s' p = page_used s p || ((r <=? p) && (p <? r + count)))).
Proof.
  destruct (pmm_alloc_pages count s) as [a s'] eqn:E.
  destruct (alloc_spec s count a s' Hwf ltac:(lia) E)
    as [(H1 & H2 & H3)|(r & H1 & H2 & H3 & H4 & H5 & H6 & H7 & H8 & H9)].
  - left. auto.
  - right. exists r. auto 10.
Qed.

(** C12: whatever sequence of allocations, frees of held allocations and
    reservations follows the boot, no page frame belongs to two held allocations,
    every held page is marked used and managed, and the used-page counter is the
    number of used pages of the bitmap. *)
Theorem pmm_no_page_shared (m : mem) (bi : boot_info) (s0 s : pmm) (L : list (Z * Z))
  (Hm : bi_magic bi = BOOT_MAGIC) (Hn : 0 < bi_mem_map_count bi)
  (Hfit : forall i, 0 <= i < bi_mem_map_count bi ->
     entry_fits (read_entry m (bi_mem_map_addr bi) i))
  (Hr : rtc ledger_step (snd (pmm_init m (Some bi) s0), []) (s, L)) :
  (forall p, owners L p <= 1) /\
  (forall p, 0 < owners L p -> page_used s p = true /\ p < pmm_total_pages s) /\
  pmm_get_used_pages s = nset (pmm_bitmap s) max_pages.
Proof.
  assert (H : ledger_ok (s, L)).
  { remember (s, L) as sl. clear Heqsl.
    apply (rtc_ind_r (fun sl => ledger_ok sl)) with (3 := Hr).
    - destruct (pmm_init_spec m bi s0 Hm Hn Hfit) as [Hw _].
      split; simpl; [done| |intros; lia|intros; lia]. intros a n Hin. by apply not_elem_of_nil in Hin.
    - intros y z _ Hyz Hy. by apply (ledger_step_ok y). }
  destruct H as [W _ H1 H2]. simpl in *. split; [done|]. split; [done|]. apply (wf_used _ W).
Qed.

(** a page block that is allocated and freed again leaves every page frame,
    the counter and the page count as they were. *)
Theorem pmm_alloc_free_roundtrip (s s' : pmm) (count a : Z)
  (Hwf : pmm_wf s) (Hc : 0 <= count) (Ha : pmm_alloc_pages count s = (a, s')) :
  let s2 := pmm_free_pages a count s' in
  (forall p, page_used s2 p = page_used s p) /\
  pmm_get_used_pages s2 = pmm_get_used_pages s /\
  pmm_get_total_pages s2 = pmm_get_total_pages s.
Proof.
  destruct (alloc_spec s count a s' Hwf Hc Ha)
    as [(-> & -> & _)|(r & -> & H1 & H2 & H3 & H4 & H5 & H6 & H7 & H8)].
  - unfold pmm_free_pages. simpl. auto.
  - pose proof (wf_total _ Hwf) as Ht. rewrite PMM_MAX_PAGES_val in Ht.
    destruct (free_spec s' (r * PAGE_SIZE) count H4) as (F1 & F2 & F3);
      [unfold PAGE_SIZE; lia|unfold PAGE_SIZE; by rewrite Z.mod_mul|lia|].
    unfold PAGE_SIZE in F3. rewrite Z.div_mul in F3 by lia. fold PAGE_SIZE in F3.
    assert (Hsame : forall p, page_used (pmm_free_pages (r * PAGE_SIZE) count s') p = page_used s p).
    { intros p. rewrite F3, H8, H5. destruct ((r <=? p) && (p <? r + count)) eqn:E.
      - rewrite H6 by lia. blia.
      - destruct (page_used s p); blia. }
    split; [done|]. unfold pmm_get_used_pages, pmm_get_total_pages.
    split; [|congruence]. rewrite (wf_used _ F1), (wf_used _ Hwf). apply nset_ext.
    intros p _. apply Hsame.
Qed.

(** after [pmm_init] with a valid memory map, the free pages are exactly the
    whole 4 KB pages at or above 1 MB and below 4 GB of the map's usable entries,
    and the state is well-formed. *)
Theorem pmm_init_frees_usable (m : mem) (bi : boot_info) (s0 : pmm)
  (Hm : bi_magic bi = BOOT_MAGIC) (Hn : 0 < bi_mem_map_count bi)
  (Hfit : forall i, 0 <= i < bi_mem_map_count bi ->
     entry_fits (read_entry m (bi_mem_map_addr bi) i)) :
  let s := snd (pmm_init m (Some bi) s0) in
  pmm_wf s /\
  forall p, 0 <= p < PMM_MAX_PAGES -> page_used s p = false <->
    exists i, 0 <= i < bi_mem_map_count bi /\
      entry_covers (read_entry m (bi_mem_map_addr bi) i) p.
Proof. by apply pmm_init_spec. Qed.

(** with no boot information 3840 pages are free after [pmm_init], but the
    count it returns, and [pmm_get_free_pages] reports, is 2^64 - 1040640: the
    counter of used pages covers all 4 GB of the bitmap while the total covers
    16 MB, and their difference wraps around. *)
Theorem pmm_default_free_count_wraps (m : mem) (s0 : pmm) :
  let '(r, s) := pmm_init m None s0 in
  r = 2 ^ 64 - 1040640 /\ pmm_get_free_pages s = r /\
  forall p, 0 <= p < PMM_MAX_PAGES -> page_used s p = false <-> 256 <= p < 4096.
Proof.
  destruct (all_used_spec s0) as [Hc Hu]. unfold pmm_init.
  assert (E1 : PMM_ADDR_TO_PFN 0x100000 = 256) by reflexivity.
  assert (E2 : PMM_ADDR_TO_PFN 0x1000000 `min` PMM_MAX_PAGES = 4096) by reflexivity.
  rewrite E1, E2. clear E1 E2.
  destruct (mark_free_range (pmm_all_used s0) 256 4096 Hc ltac:(lia)
    ltac:(rewrite PMM_MAX_PAGES_val; lia)) as (H1 & H2 & H3).
  { intros p Hp. apply Hu. rewrite PMM_MAX_PAGES_val. lia. }
  cbv zeta in *. generalize dependent (for_range 256 4096 mark_free (pmm_all_used s0)).
  intros s H1 H2 H3.
  assert (Hf : pmm_get_free_pages (set_total (PMM_ADDR_TO_PFN 0x1000000) s) = 2 ^ 64 - 1040640).
  { unfold pmm_get_free_pages. simpl. rewrite H2. reflexivity. }
  split; [done|]. split; [done|]. intros p Hp. change (page_used (set_total _ s) p) with (page_used s p).
  rewrite H3, Hu by done. lia.
Qed.

(** ** A small machine: three usable pages from 1 MB *)

Definition demo_mem : mem :=
  store32 (store64 (store64 (fun _ => 0) 0 0x100000) 8 0x3000) 16 MEMORY_TYPE_USABLE.
Definition demo_info : boot_info := mk_boot_info BOOT_MAGIC 0 1.
Definition demo_pmm : pmm := snd (pmm_init demo_mem (Some demo_info) (mk_pmm (fun _ => 0) 0 0)).

Lemma demo_fits i :
  0 <= i < bi_mem_map_count demo_info ->
  entry_fits (read_entry demo_mem (bi_mem_map_addr demo_info) i).
Proof.
  simpl. intros Hi. replace i with 0 by lia. unfold entry_fits.
  change (me_base (read_entry demo_mem 0 0)) with 0x100000.
  change (me_length (read_entry demo_mem 0 0)) with 0x3000. lia.
Qed.

Lemma demo_wf : pmm_wf demo_pmm.
Proof. apply pmm_init_spec; [reflexivity|simpl; lia|apply demo_fits]. Qed.

(** 24 usable pages from 1 MB. *)
Definition big_mem : mem :=
  store32 (store64 (store64 (fun _ => 0) 0 0x100000) 8 0x18000) 16 MEMORY_TYPE_USABLE.
Definition big_pmm : pmm := snd (pmm_init big_mem (Some demo_info) (mk_pmm (fun _ => 0) 0 0)).

Lemma big_wf : pa_wf big_pmm.
Proof.
  apply pmm_init_spec; [reflexivity|simpl; lia|]. simpl. intros i Hi. replace i with 0 by lia.
  unfold entry_fits. change (me_base (read_entry big_mem 0 0)) with 0x100000.
  change (me_length (read_entry big_mem 0 0)) with 0x18000. lia.
Qed.

Lemma pmm_alloc_first_fit_witness :
  pmm_wf demo_pmm /\ fst (pmm_alloc_pages 2 demo_pmm) = 0x100000 /\
  (let '(a, s') := pmm_alloc_pages 2 demo_pmm in
   (a = 0 /\ s' = demo_pmm /\
    forall r, 0 <= r -> r + 2 <= pmm_total_pages demo_pmm ->
      blocked (pmm_bitmap demo_pmm) 2 r) \/
   (exists r, a = r * PAGE_SIZE /\ 0 < r /\ r + 2 <= pmm_total_pages demo_pmm /\ pmm_wf s' /\
    (forall p, r <= p < r + 2 -> page_used demo_pmm p = false) /\
    (forall q, 0 <= q < r -> blocked (pmm_bitmap demo_pmm) 2 q) /\
    (forall p, page_used s' p = page_used demo_pmm p || ((r <=? p) && (p <? r + 2))))).
Proof.
  split; [apply demo_wf|]. split; [vm_compute; reflexivity|].
  apply (pmm_alloc_first_fit demo_pmm 2); [apply demo_wf|lia].
Defined.

(** Two allocations, then the first one is given back. *)
Lemma pmm_no_page_shared_witness :
  exists s, rtc ledger_step (demo_pmm, []) (s, [(0x102000, 1)]) /\
    (forall p, owners [(0x102000, 1)] p <= 1) /\
    (forall p, 0 < owners [(0x102000, 1)] p -> page_used s p = true /\ p < pmm_total_pages s) /\
    pmm_get_used_pages s = nset (pmm_bitmap s) max_pages.
Proof.
  set (s1 := snd (pmm_alloc_pages 2 demo_pmm)).
  set (s2 := snd (pmm_alloc_pages 1 s1)).
  assert (E1 : pmm_alloc_pages 2 demo_pmm = (0x100000, s1)).
  { unfold s1. rewrite (surjective_pairing (pmm_alloc_pages 2 demo_pmm)) at 1.
    by f_equal. }
  assert (E2 : pmm_alloc_pages 1 s1 = (0x102000, s2)).
  { unfold s2. rewrite (surjective_pairing (pmm_alloc_pages 1 s1)) at 1.
    by f_equal. }
  exists (pmm_free_pages 0x100000 2 s2).
  assert (Hr : rtc ledger_step (demo_pmm, []) (pmm_free_pages 0x100000 2 s2, [(0x102000, 1)])).
  { eapply rtc_l; [apply (ledger_alloc _ _ 2 _ _ ltac:(lia) E1); lia|].
    eapply rtc_l; [apply (ledger_alloc _ _ 1 _ _ ltac:(lia) E2); lia|].
    apply rtc_once. apply (ledger_free s2 [(0x102000, 1)] 0x100000 2 []). }
  split; [exact Hr|].
  exact (pmm_no_page_shared demo_mem demo_info (mk_pmm (fun _ => 0) 0 0) _ _
           eq_refl ltac:(simpl; lia) demo_fits Hr).
Defined.

Lemma pmm_alloc_free_roundtrip_witness :
  let s' := snd (pmm_alloc_pages 2 demo_pmm) in
  pmm_wf demo_pmm /\
  pmm_get_used_pages (pmm_free_pages 0x100000 2 s') = pmm_get_used_pages demo_pmm.
Proof.
  split; [apply demo_wf|].
  apply (pmm_alloc_free_roundtrip demo_pmm (snd (pmm_alloc_pages 2 demo_pmm)) 2 0x100000
           demo_wf ltac:(lia)).
  rewrite (surjective_pairing (pmm_alloc_pages 2 demo_pmm)) at 1. by f_equal.
Defined.

Lemma pmm_init_frees_usable_witness :
  page_used demo_pmm 257 = false /\ page_used demo_pmm 259 = true /\
  (page_used demo_pmm 257 = false <->
   exists i, 0 <= i < 1 /\ entry_covers (read_entry demo_mem 0 i) 257).
Proof.
  split; [vm_compute; reflexivity|]. split; [vm_compute; reflexivity|].
  apply (pmm_init_frees_usable demo_mem demo_info (mk_pmm (fun _ => 0) 0 0) eq_refl
           ltac:(simpl; lia) demo_fits). rewrite PMM_MAX_PAGES_val. lia.
Defined.
