(* ===== verification/Heap.v ===== *)
(** * The kernel heap (kernel/mm/heap.c, heap.h): data and operations

    Block headers live in the flat memory: [heap_block_t] is packed, so a header
    at [b] has [size] at [b], [next] at [b+8], [prev] at [b+16], [magic] at [b+24]
    and [flags] at [b+28]. Loops over the free list and over the blocks carry a
    bound on their iterations, the number of 64-byte blocks the heap can hold;
    [None] means the bound was hit. The lock makes every call one atomic step. *)
From S2P Require Import Prelude Memory PageAlloc.

Definition HEAP_MIN_BLOCK_SIZE : Z := 32.
Definition HEAP_ALIGNMENT : Z := 16.
Definition HEAP_EXPAND_SIZE : Z := 64 * KB.
Definition HEAP_MAX_SIZE : Z := 16 * MB.
Definition BLOCK_FLAG_USED : Z := 1.
Definition HEAP_BLOCK_MAGIC : Z := 0xDEADBEEF.
Definition HEAP_BLOCK_FREE_MAGIC : Z := 0xFEEDFACE.
Definition sizeof_heap_block : Z := 32.

(** ** Header fields *)

Definition hdr_size (m : mem) (b : Z) : Z := load64 m b.
Definition hdr_next (m : mem) (b : Z) : Z := load64 m (b + 8).
Definition hdr_prev (m : mem) (b : Z) : Z := load64 m (b + 16).
Definition hdr_magic (m : mem) (b : Z) : Z := load32 m (b + 24).
Definition hdr_flags (m : mem) (b : Z) : Z := load32 m (b + 28).

Definition set_hsize (m : mem) (b v : Z) : mem := store64 m b v.
Definition set_hnext (m : mem) (b v : Z) : mem := store64 m (b + 8) v.
Definition set_hprev (m : mem) (b v : Z) : mem := store64 m (b + 16) v.
Definition set_hmagic (m : mem) (b v : Z) : mem := store32 m (b + 24) v.
Definition set_hflags (m : mem) (b v : Z) : mem := store32 m (b + 28) v.

Definition block_get_size (m : mem) (b : Z) : Z :=
  Z.land (hdr_size m b) (Z.lnot (HEAP_ALIGNMENT - 1)).
Definition block_is_used (m : mem) (b : Z) : bool :=
  negb (Z.land (hdr_flags m b) BLOCK_FLAG_USED =? 0).
Definition block_set_used (m : mem) (b : Z) : mem :=
  let m := set_hflags m b (Z.lor (hdr_flags m b) BLOCK_FLAG_USED) in
  set_hmagic m b HEAP_BLOCK_MAGIC.
Definition block_set_free (m : mem) (b : Z) : mem :=
  let m := set_hflags m b (Z.land (hdr_flags m b) (Z.lnot BLOCK_FLAG_USED)) in
  set_hmagic m b HEAP_BLOCK_FREE_MAGIC.
Definition align_size (size : Z) : Z := ALIGN_UP size HEAP_ALIGNMENT.
Definition block_to_data (b : Z) : Z := u64 (b + sizeof_heap_block).
Definition data_to_block (ptr : Z) : Z := u64 (ptr - sizeof_heap_block).
Definition heap_memset (m : mem) (dest val count : Z) : mem := fill (Z.to_nat count) m dest val.
Definition heap_memcpy (m : mem) (dest src count : Z) : mem :=
  copy_fwd (Z.to_nat count) m dest src.

(** ** State *)

Record heap_stats := mk_stats {
  st_total_size : Z;
  st_used_size : Z;
  st_free_size : Z;
  st_block_count : Z;
  st_free_block_count : Z;
  st_alloc_count : Z;
  st_free_count : Z;
  st_expand_count : Z;
}.

Record heap (S : Type) := mk_heap {
  h_mem : mem;
  heap_start : Z;
  heap_end : Z;
  heap_max : Z;
  free_list : Z;
  heap_initialized : bool;
  h_stats : heap_stats;
  h_pa : S;
}.
Arguments mk_heap {S}.
Arguments h_mem {S}.
Arguments heap_start {S}.
Arguments heap_end {S}.
Arguments heap_max {S}.
Arguments free_list {S}.
Arguments heap_initialized {S}.
Arguments h_stats {S}.
Arguments h_pa {S}.

Section Heap.
Context {S : Type} `{PageAllocator S}.

Definition with_mem (m : mem) (h : heap S) : heap S :=
  mk_heap m (heap_start h) (heap_end h) (heap_max h) (free_list h) (heap_initialized h)
    (h_stats h) (h_pa h).
Definition with_free_list (p : Z) (h : heap S) : heap S :=
  mk_heap (h_mem h) (heap_start h) (heap_end h) (heap_max h) p (heap_initialized h)
    (h_stats h) (h_pa h).
Definition with_stats (st : heap_stats) (h : heap S) : heap S :=
  mk_heap (h_mem h) (heap_start h) (heap_end h) (heap_max h) (free_list h)
    (heap_initialized h) st (h_pa h).
Definition with_pa (s : S) (h : heap S) : heap S :=
  mk_heap (h_mem h) (heap_start h) (heap_end h) (heap_max h) (free_list h)
    (heap_initialized h) (h_stats h) s.
Definition with_end (e : Z) (h : heap S) : heap S :=
  mk_heap (h_mem h) (heap_start h) e (heap_max h) (free_list h) (heap_initialized h)
    (h_stats h) (h_pa h).

(** [heap_stats.free_block_count += d], [heap_stats.block_count += d] *)
Definition add_free_blocks (d : Z) (h : heap S) : heap S :=
  let st := h_stats h in
  with_stats (mk_stats (st_total_size st) (st_used_size st) (st_free_size st)
    (st_block_count st) (u64 (st_free_block_count st + d)) (st_alloc_count st)
    (st_free_count st) (st_expand_count st)) h.
Definition add_blocks (d : Z) (h : heap S) : heap S :=
  let st := h_stats h in
  with_stats (mk_stats (st_total_size st) (st_used_size st) (st_free_size st)
    (u64 (st_block_count st + d)) (st_free_block_count st) (st_alloc_count st)
    (st_free_count st) (st_expand_count st)) h.
(** [used_size += u; free_size += f] *)
Definition add_sizes (u f : Z) (h : heap S) : heap S :=
  let st := h_stats h in
  with_stats (mk_stats (st_total_size st) (u64 (st_used_size st + u))
    (u64 (st_free_size st + f)) (st_block_count st) (st_free_block_count st)
    (st_alloc_count st) (st_free_count st) (st_expand_count st)) h.
Definition count_alloc (h : heap S) : heap S :=
  let st := h_stats h in
  with_stats (mk_stats (st_total_size st) (st_used_size st) (st_free_size st)
    (st_block_count st) (st_free_block_count st) (u64 (st_alloc_count st + 1))
    (st_free_count st) (st_expand_count st)) h.
Definition count_free (h : heap S) : heap S :=
  let st := h_stats h in
  with_stats (mk_stats (st_total_size st) (st_used_size st) (st_free_size st)
    (st_block_count st) (st_free_block_count st) (st_alloc_count st)
    (u64 (st_free_count st + 1)) (st_expand_count st)) h.
(** [total_size += n; free_size += n; block_count++; expand_count++;] *)
Definition count_expand (n : Z) (h : heap S) : heap S :=
  let st := h_stats h in
  with_stats (mk_stats (u64 (st_total_size st + n)) (st_used_size st)
    (u64 (st_free_size st + n)) (u64 (st_block_count st + 1)) (st_free_block_count st)
    (st_alloc_count st) (st_free_count st) (u64 (st_expand_count st + 1))) h.

(** The bound on walks over blocks: a block takes at least 64 bytes. *)
Definition walk_bound (h : heap S) : nat :=
  Datatypes.S (Z.to_nat ((heap_end h - heap_start h) / 64)).

(** [NULL] past the end of the heap. *)
Definition block_get_next_physical (h : heap S) (b : Z) : Z :=
  let next := u64 (b + block_get_size (h_mem h) b) in
  if heap_end h <=? next then NULL else next.

(** ** The free list *)

(** [while (current->next != NULL && current->next < block) current = current->next;] *)
Fixpoint find_insert (fuel : nat) (m : mem) (current block : Z) : option Z :=
  match fuel with
  | O => None
  | Datatypes.S f =>
      if negb (hdr_next m current =? NULL) && (hdr_next m current <? block)
      then find_insert f m (hdr_next m current) block
      else Some current
  end.

Definition free_list_add (h : heap S) (block : Z) : option (heap S) :=
  let h := with_mem (block_set_free (h_mem h) block) h in
  if free_list h =? NULL then
    let h := with_free_list block h in
    Some (add_free_blocks 1 (with_mem (set_hnext (h_mem h) block NULL) h))
  else if block <? free_list h then
    let h := with_mem (set_hnext (h_mem h) block (free_list h)) h in
    Some (add_free_blocks 1 (with_free_list block h))
  else
    current ← find_insert (walk_bound h) (h_mem h) (free_list h) block;
    let m := set_hnext (h_mem h) block (hdr_next (h_mem h) current) in
    let m := set_hnext m current block in
    Some (add_free_blocks 1 (with_mem m h)).

(** [while (current->next != NULL && current->next != block) current = current->next;] *)
Fixpoint find_pred (fuel : nat) (m : mem) (current block : Z) : option Z :=
  match fuel with
  | O => None
  | Datatypes.S f =>
      if negb (hdr_next m current =? NULL) && negb (hdr_next m current =? block)
      then find_pred f m (hdr_next m current) block
      else Some current
  end.

Definition free_list_remove (h : heap S) (block : Z) : option (heap S) :=
  if free_list h =? NULL then Some h
  else if free_list h =? block then
    let h := with_free_list (hdr_next (h_mem h) block) h in
    Some (add_free_blocks (-1) (with_mem (set_hnext (h_mem h) block NULL) h))
  else
    current ← find_pred (walk_bound h) (h_mem h) (free_list h) block;
    if hdr_next (h_mem h) current =? block then
      let m := set_hnext (h_mem h) current (hdr_next (h_mem h) block) in
      let m := set_hnext m block NULL in
      Some (add_free_blocks (-1) (with_mem m h))
    else Some h.

(** ** Coalescing, search and split *)

(** [if (after != NULL) after->prev = block;] *)
Definition fix_prev (h : heap S) (after block : Z) : heap S :=
  if after =? NULL then h else with_mem (set_hprev (h_mem h) after block) h.

(** The first half of [coalesce_blocks]: the next block in memory. *)
Definition coalesce_next (h : heap S) (block : Z) : option (heap S) :=
  let next := block_get_next_physical h block in
  if negb (next =? NULL) && negb (block_is_used (h_mem h) next) then
    h ← free_list_remove h next;
    let sz := u64 (block_get_size (h_mem h) block + block_get_size (h_mem h) next) in
    let h := with_mem (set_hsize (h_mem h) block sz) h in
    Some (fix_prev h (block_get_next_physical h block) block)
  else Some h.

(** The second half: the previous block. *)
Definition coalesce_prev (h : heap S) (block : Z) : option (heap S) :=
  let prev := hdr_prev (h_mem h) block in
  if negb (prev =? NULL) && negb (block_is_used (h_mem h) prev) then
    h ← free_list_remove h block;
    let sz := u64 (block_get_size (h_mem h) prev + block_get_size (h_mem h) block) in
    let h := with_mem (set_hsize (h_mem h) prev sz) h in
    Some (fix_prev h (block_get_next_physical h prev) prev)
  else Some h.

Definition coalesce_blocks (h : heap S) (block : Z) : option (heap S) :=
  if (block =? NULL) || block_is_used (h_mem h) block then Some h
  else h ← coalesce_next h block; coalesce_prev h block.

(** First fit along the free list. *)
Fixpoint find_free_loop (fuel : nat) (m : mem) (current size : Z) : option Z :=
  match fuel with
  | O => None
  | Datatypes.S f =>
      if current =? NULL then Some NULL
      else if size <=? block_get_size m current then Some current
      else find_free_loop f m (hdr_next m current) size
  end.
Definition find_free_block (h : heap S) (size : Z) : option Z :=
  find_free_loop (walk_bound h) (h_mem h) (free_list h) size.

Definition split_block (h : heap S) (block size : Z) : option (heap S) :=
  let block_size := block_get_size (h_mem h) block in
  let remaining := u64 (block_size - size) in
  let min_split := sizeof_heap_block + HEAP_MIN_BLOCK_SIZE in
  if remaining <? min_split then Some h
  else
    let new_block := u64 (block + size) in
    let m := set_hsize (h_mem h) new_block remaining in
    let m := set_hprev m new_block block in
    let m := set_hnext m new_block NULL in
    let m := set_hflags m new_block 0 in
    let m := block_set_free m new_block in
    let m := set_hsize m block size in
    let h := with_mem m h in
    let h := fix_prev h (block_get_next_physical h new_block) new_block in
    h ← free_list_add h new_block;
    Some (add_blocks 1 h).

(** ** Growth *)

(** [while (current != NULL)] walk to the last block before [heap_end]. *)
Fixpoint find_last (fuel : nat) (h : heap S) (current : Z) : option Z :=
  match fuel with
  | O => None
  | Datatypes.S f =>
      if current =? NULL then Some NULL
      else
        let next_phys := block_get_next_physical h current in
        if (next_phys =? NULL) || (heap_end h <=? next_phys) then Some current
        else find_last f h next_phys
  end.

Definition heap_expand (h : heap S) (min_size : Z) : option (heap S * bool) :=
  let expand_size := ALIGN_UP (Z.max min_size HEAP_EXPAND_SIZE) PAGE_SIZE in
  if heap_max h <? u64 (heap_end h + expand_size) then Some (h, false)
  else
    let pages_needed := expand_size / PAGE_SIZE in
    let '(phys, pa) := pa_alloc pages_needed (h_pa h) in
    let h := with_pa pa h in
    if phys =? 0 then Some (h, false)
    else
      let new_block := heap_end h in
      let m := set_hsize (h_mem h) new_block expand_size in
      let m := set_hnext m new_block NULL in
      let m := set_hflags m new_block 0 in
      let h := with_mem m h in
      prev_block ← find_last (walk_bound h) h (heap_start h);
      let m := set_hprev (h_mem h) new_block prev_block in
      let m := block_set_free m new_block in
      let h := with_end (u64 (heap_end h + expand_size)) (with_mem m h) in
      let h := count_expand expand_size h in
      h ← free_list_add h new_block;
      h ← coalesce_blocks h new_block;
      Some (h, true).

Definition heap_init (h : heap S) (start initial_size : Z) : heap S * bool :=
  if heap_initialized h then (h, false)
  else
    let initial_size := ALIGN_UP initial_size PAGE_SIZE in
    let initial_size := if initial_size <? PAGE_SIZE then PAGE_SIZE else initial_size in
    let pages := initial_size / PAGE_SIZE in
    let '(phys, pa) := pa_alloc pages (h_pa h) in
    if phys =? 0 then (with_pa pa h, false)
    else
      let m := heap_memset (h_mem h) phys 0 initial_size in
      let m := set_hsize m phys initial_size in
      let m := set_hnext m phys NULL in
      let m := set_hprev m phys NULL in
      let m := set_hflags m phys 0 in
      let m := block_set_free m phys in
      let st := mk_stats initial_size 0 (u64 (initial_size - sizeof_heap_block)) 1 1 0 0 0 in
      (mk_heap m phys (u64 (phys + initial_size)) (u64 (phys + HEAP_MAX_SIZE)) phys true st pa,
       true).

(** ** Allocation and release *)

Definition request_size (size : Z) : Z :=
  align_size (u64 (sizeof_heap_block + Z.max size HEAP_MIN_BLOCK_SIZE)).

(** [kmalloc] once a block is found: unlink, split, mark, count. *)
Definition take_block (h : heap S) (block actual_size : Z) : option (heap S * Z) :=
  h ← free_list_remove h block;
  h ← split_block h block actual_size;
  let h := with_mem (block_set_used (h_mem h) block) h in
  let block_size := block_get_size (h_mem h) block in
  Some (count_alloc (add_sizes block_size (- block_size) h), block_to_data block).

Definition kmalloc (h : heap S) (size : Z) : option (heap S * Z) :=
  if negb (heap_initialized h) then Some (h, NULL)
  else if size =? 0 then Some (h, NULL)
  else
    let actual_size := request_size size in
    block ← find_free_block h actual_size;
    if block =? NULL then
      r ← heap_expand h actual_size;
      let '(h, ok) := r : heap S * bool in
      if negb ok then Some (h, NULL)
      else
        block ← find_free_block h actual_size;
        if block =? NULL then Some (h, NULL) else take_block h block actual_size
    else take_block h block actual_size.

Definition kfree (h : heap S) (ptr : Z) : option (heap S) :=
  if ptr =? NULL then Some h
  else if negb (heap_initialized h) then Some h
  else
    let block := data_to_block ptr in
    if negb (hdr_magic (h_mem h) block =? HEAP_BLOCK_MAGIC) then Some h
    else if negb (block_is_used (h_mem h) block) then Some h
    else if (block <? heap_start h) || (heap_end h <=? block) then Some h
    else
      let block_size := block_get_size (h_mem h) block in
      let h := with_mem (block_set_free (h_mem h) block) h in
      h ← free_list_add h block;
      let h := count_free (add_sizes (- block_size) block_size h) in
      coalesce_blocks h block.

Definition kmalloc_aligned (h : heap S) (size alignment : Z) : option (heap S * Z) :=
  if negb (heap_initialized h) || (size =? 0) then Some (h, NULL)
  else if negb (Z.land alignment (u64 (alignment - 1)) =? 0) then Some (h, NULL)
  else
    let extra := u64 (alignment + 8) in
    r ← kmalloc h (u64 (size + extra));
    let '(h, ptr) := r : heap S * Z in
    if ptr =? NULL then Some (h, NULL)
    else
      let aligned := ALIGN_UP (u64 (ptr + 8)) alignment in
      Some (with_mem (store64 (h_mem h) (aligned - 8) ptr) h, aligned).

Definition kfree_aligned (h : heap S) (ptr : Z) : option (heap S) :=
  if ptr =? NULL then Some h else kfree h (load64 (h_mem h) (ptr - 8)).

Definition kcalloc (h : heap S) (count size : Z) : option (heap S * Z) :=
  if negb (count =? 0) && (SIZE_MAX / count <? size) then Some (h, NULL)
  else
    let total := u64 (count * size) in
    r ← kmalloc h total;
    let '(h, ptr) := r : heap S * Z in
    if negb (ptr =? NULL) then Some (with_mem (heap_memset (h_mem h) ptr 0 total) h, ptr)
    else Some (h, ptr).

(** The in-place growth of [krealloc] into the free block [next]. *)
Definition grow_in_place (h : heap S) (block next combined actual_new_size : Z)
  : option (heap S) :=
  h ← free_list_remove h next;
  let h := with_mem (set_hsize (h_mem h) block combined) h in
  let h := add_sizes 0 (- block_get_size (h_mem h) next) h in
  let h := add_blocks (-1) h in
  let h := fix_prev h (block_get_next_physical h block) block in
  split_block h block actual_new_size.

(** The copying path of [krealloc]. *)
Definition realloc_move (h : heap S) (ptr current_size new_size : Z) : option (heap S * Z) :=
  r ← kmalloc h new_size;
  let '(h, new_ptr) := r : heap S * Z in
  if new_ptr =? NULL then Some (h, NULL)
  else
    let h := with_mem (heap_memcpy (h_mem h) new_ptr ptr current_size) h in
    h ← kfree h ptr;
    Some (h, new_ptr).

Definition krealloc (h : heap S) (ptr new_size : Z) : option (heap S * Z) :=
  if ptr =? NULL then kmalloc h new_size
  else if new_size =? 0 then (h ← kfree h ptr; Some (h, NULL))
  else if negb (heap_initialized h) then Some (h, NULL)
  else
    let block := data_to_block ptr in
    if negb (hdr_magic (h_mem h) block =? HEAP_BLOCK_MAGIC)
       || negb (block_is_used (h_mem h) block) then Some (h, NULL)
    else
      let current_size := u64 (block_get_size (h_mem h) block - sizeof_heap_block) in
      let actual_new_size := request_size new_size in
      if new_size <=? current_size then Some (h, ptr)
      else
        let next := block_get_next_physical h block in
        let combined := u64 (block_get_size (h_mem h) block + block_get_size (h_mem h) next) in
        if negb (next =? NULL) && negb (block_is_used (h_mem h) next)
           && (actual_new_size <=? combined)
        then (h ← grow_in_place h block next combined actual_new_size; Some (h, ptr))
        else realloc_move h ptr current_size new_size.

Definition heap_get_stats (h : heap S) : heap_stats := h_stats h.

(** ** Validation *)

(** One block of the walk of [heap_validate]. The accumulated state is the flag,
    the previous block, the sizes added and the blocks counted; the walk goes on
    while [block < heap_end], where the NULL that ends the blocks counts as 0. *)
Fixpoint validate_walk (fuel : nat) (h : heap S) (valid : bool) (block prev total count : Z)
  : option (bool * Z) :=
  match fuel with
  | O => None
  | Datatypes.S f =>
      if block <? heap_end h then
        let m := h_mem h in
        let magic := if block_is_used m block then HEAP_BLOCK_MAGIC
                     else HEAP_BLOCK_FREE_MAGIC in
        let valid := if hdr_magic m block =? magic then valid else false in
        let valid := if hdr_prev m block =? prev then valid else false in
        let block_size := block_get_size m block in
        if (block_size <? sizeof_heap_block) || (u64 (heap_end h - block) <? block_size)
        then Some (false, total)
        else
          let total := u64 (total + block_size) in
          let count := u64 (count + 1) in
          if 10000 <? count then Some (false, total)
          else validate_walk f h valid (block_get_next_physical h block) block total count
      else Some (valid, total)
  end.

(** The walk stops by itself after 10001 blocks. *)
Definition heap_validate (h : heap S) : option bool :=
  if negb (heap_initialized h) then Some false
  else
    r ← validate_walk (Z.to_nat 10002) h true (heap_start h) NULL 0 0;
    let '(valid, total) := r : bool * Z in
    Some (if total =? u64 (heap_end h - heap_start h) then valid else false).
End Heap.
