(* ===== verification/HeapRep.v ===== *)
(** * The representation of the heap in memory

    What the bytes of the heap mean: a list of blocks that tile the heap, and the
    free blocks linked in address order. The lemmas say what each header write
    does to both. *)
From S2P Require Import Prelude Memory PageAlloc Heap.

(** ** Header fields under header writes *)

(** Two headers that do not overlap. *)
Definition sep (b b' : Z) : Prop := b + 32 <= b' \/ b' + 32 <= b.

(** The fields other than [next]. *)
Definition core (m : mem) (b : Z) : Z * Z * Z * Z :=
  (hdr_size m b, hdr_prev m b, hdr_magic m b, hdr_flags m b).

(** Evaluates the fields of a header after one field write. *)
Ltac fields :=
  unfold core, hdr_size, hdr_next, hdr_prev, hdr_magic, hdr_flags, set_hsize, set_hnext,
    set_hprev, set_hmagic, set_hflags, sep in *;
  repeat first [rewrite load64_store64 by lia | rewrite load32_store32 by lia
               | rewrite load_store_other by lia]; try done.

Lemma core_set_next m b v b' : b' = b \/ sep b b' -> core (set_hnext m b v) b' = core m b'.
Proof. intros [->|Hs]; fields. Qed.
Lemma next_set_next m b v : 0 <= v < 2 ^ 64 -> hdr_next (set_hnext m b v) b = v.
Proof. intros. fields. Qed.
Lemma next_set_next_other m b v b' : sep b b' -> hdr_next (set_hnext m b v) b' = hdr_next m b'.
Proof. intros. fields. Qed.

Lemma core_set_size m b v sz pr mg fl :
  0 <= v < 2 ^ 64 -> core m b = (sz, pr, mg, fl) -> core (set_hsize m b v) b = (v, pr, mg, fl).
Proof. intros Hv [= <- <- <- <-]. fields. Qed.
Lemma core_set_prev m b v sz pr mg fl :
  0 <= v < 2 ^ 64 -> core m b = (sz, pr, mg, fl) -> core (set_hprev m b v) b = (sz, v, mg, fl).
Proof. intros Hv [= <- <- <- <-]. fields. Qed.
Lemma core_set_flags m b v sz pr mg fl :
  0 <= v < 2 ^ 32 -> core m b = (sz, pr, mg, fl) -> core (set_hflags m b v) b = (sz, pr, mg, v).
Proof. intros Hv [= <- <- <- <-]. fields. Qed.
Lemma core_set_magic m b v sz pr mg fl :
  0 <= v < 2 ^ 32 -> core m b = (sz, pr, mg, fl) -> core (set_hmagic m b v) b = (sz, pr, v, fl).
Proof. intros Hv [= <- <- <- <-]. fields. Qed.

Lemma next_set_size m b v b' : b' = b \/ sep b b' -> hdr_next (set_hsize m b v) b' = hdr_next m b'.
Proof. intros [->|Hs]; fields. Qed.
Lemma next_set_prev m b v b' : b' = b \/ sep b b' -> hdr_next (set_hprev m b v) b' = hdr_next m b'.
Proof. intros [->|Hs]; fields. Qed.
Lemma next_set_flags m b v b' : b' = b \/ sep b b' -> hdr_next (set_hflags m b v) b' = hdr_next m b'.
Proof. intros [->|Hs]; fields. Qed.
Lemma next_set_magic m b v b' : b' = b \/ sep b b' -> hdr_next (set_hmagic m b v) b' = hdr_next m b'.
Proof. intros [->|Hs]; fields. Qed.

Lemma core_set_used m b sz pr mg :
  core m b = (sz, pr, mg, 0) -> core (block_set_used m b) b = (sz, pr, HEAP_BLOCK_MAGIC, 1).
Proof.
  intros Hc. unfold block_set_used. replace (hdr_flags m b) with 0 by (unfold core in Hc; congruence).
  eapply core_set_magic; [unfold HEAP_BLOCK_MAGIC; lia|].
  eapply core_set_flags; [unfold BLOCK_FLAG_USED; simpl; lia|done].
Qed.

Lemma core_set_free m b sz pr mg fl :
  (fl = 0 \/ fl = 1) -> core m b = (sz, pr, mg, fl) ->
  core (block_set_free m b) b = (sz, pr, HEAP_BLOCK_FREE_MAGIC, 0).
Proof.
  intros Hfl Hc. unfold block_set_free. replace (hdr_flags m b) with fl by (unfold core in Hc; congruence).
  eapply core_set_magic; [unfold HEAP_BLOCK_FREE_MAGIC; lia|].
  replace (Z.land fl (Z.lnot BLOCK_FLAG_USED)) with 0 by (destruct Hfl as [->| ->]; reflexivity).
  eapply core_set_flags; [lia|done].
Qed.

Lemma next_set_used m b b' : b' = b \/ sep b b' -> hdr_next (block_set_used m b) b' = hdr_next m b'.
Proof. intros. unfold block_set_used. by rewrite next_set_magic, next_set_flags. Qed.
Lemma next_set_free m b b' : b' = b \/ sep b b' -> hdr_next (block_set_free m b) b' = hdr_next m b'.
Proof. intros. unfold block_set_free. by rewrite next_set_magic, next_set_flags. Qed.

(** ** Frames: memory changed only inside the headers [hs] *)

Definition frame (hs : list Z) (m m' : mem) : Prop :=
  forall x, (forall b, b ∈ hs -> x < b \/ b + 32 <= x) -> m' x = m x.

Lemma frame_refl hs m : frame hs m m.
Proof. intros x _. done. Qed.
Lemma frame_trans hs m1 m2 m3 : frame hs m1 m2 -> frame hs m2 m3 -> frame hs m1 m3.
Proof. intros H1 H2 x Hx. rewrite H2, H1; auto. Qed.
Lemma frame_mono hs hs' m m' : hs ⊆ hs' -> frame hs m m' -> frame hs' m m'.
Proof. intros Hs H x Hx. apply H. intros b Hb. apply Hx. set_solver. Qed.

Lemma frame_store k hs m b o v :
  b ∈ hs -> 0 <= o -> o + Z.of_nat k <= 32 -> frame hs m (store k m (b + o) v).
Proof. intros Hb Ho Hk x Hx. apply store_other. specialize (Hx b Hb). lia. Qed.

Lemma frame_set_size hs m b v : b ∈ hs -> frame hs m (set_hsize m b v).
Proof.
  intros. unfold set_hsize. replace b with (b + 0) at 1 by lia. by apply frame_store.
Qed.
Lemma frame_set_next hs m b v : b ∈ hs -> frame hs m (set_hnext m b v).
Proof. intros. by apply frame_store. Qed.
Lemma frame_set_prev hs m b v : b ∈ hs -> frame hs m (set_hprev m b v).
Proof. intros. by apply frame_store. Qed.
Lemma frame_set_flags hs m b v : b ∈ hs -> frame hs m (set_hflags m b v).
Proof. intros. by apply frame_store. Qed.
Lemma frame_set_magic hs m b v : b ∈ hs -> frame hs m (set_hmagic m b v).
Proof. intros. by apply frame_store. Qed.
Lemma frame_set_used hs m b : b ∈ hs -> frame hs m (block_set_used m b).
Proof. intros. eapply frame_trans; [by apply frame_set_flags|by apply frame_set_magic]. Qed.
Lemma frame_set_free hs m b : b ∈ hs -> frame hs m (block_set_free m b).
Proof. intros. eapply frame_trans; [by apply frame_set_flags|by apply frame_set_magic]. Qed.

Create HintDb heap.
#[export] Hint Resolve frame_refl frame_set_size frame_set_next frame_set_prev
  frame_set_flags frame_set_magic frame_set_used frame_set_free : heap.

Lemma frame_load hs n m m' b o :
  frame hs m m' -> (forall b', b' ∈ hs -> sep b' b) -> 0 <= o -> o + Z.of_nat n <= 32 ->
  load n m' (b + o) = load n m (b + o).
Proof.
  intros Hf Hs Ho Hn. apply load_agree. intros x Hx. apply Hf.
  intros b' Hb'. specialize (Hs b' Hb'). unfold sep in Hs. lia.
Qed.

Lemma frame_core hs m m' b :
  frame hs m m' -> (forall b', b' ∈ hs -> sep b' b) -> core m' b = core m b.
Proof.
  intros Hf Hs. unfold core, hdr_size, hdr_prev, hdr_magic, hdr_flags.
  rewrite !(frame_load hs _ m m' b) by (done || lia).
  pose proof (frame_load hs 8 m m' b 0 Hf Hs ltac:(lia) ltac:(simpl; lia)) as E.
  rewrite Z.add_0_r in E. by rewrite E.
Qed.
Lemma frame_next hs m m' b :
  frame hs m m' -> (forall b', b' ∈ hs -> sep b' b) -> hdr_next m' b = hdr_next m b.
Proof. intros Hf Hs. unfold hdr_next. by apply (frame_load hs). Qed.

(** ** Blocks *)

(** A block: its size with the header, and whether it is used. *)
Definition bmagic (u : bool) : Z := if u then HEAP_BLOCK_MAGIC else HEAP_BLOCK_FREE_MAGIC.
Definition bflag (u : bool) : Z := if u then 1 else 0.

(** The blocks [bs] lie one after the other from [a], the first with [prev]. *)
Fixpoint blocks (m : mem) (prev a : Z) (bs : list (Z * bool)) : Prop :=
  match bs with
  | [] => True
  | (sz, u) :: r => core m a = (sz, prev, bmagic u, bflag u) /\ blocks m a (a + sz) r
  end.

Fixpoint total (bs : list (Z * bool)) : Z :=
  match bs with [] => 0 | (sz, _) :: r => sz + total r end.
Fixpoint addrs (a : Z) (bs : list (Z * bool)) : list Z :=
  match bs with [] => [] | (sz, _) :: r => a :: addrs (a + sz) r end.
(** The addresses of the free blocks. *)
Fixpoint frees (a : Z) (bs : list (Z * bool)) : list Z :=
  match bs with
  | [] => []
  | (sz, u) :: r => (if u : bool then [] else [a]) ++ frees (a + sz) r
  end.
(** The address of the last block, [prev] when there is none. *)
Fixpoint last_addr (prev a : Z) (bs : list (Z * bool)) : Z :=
  match bs with [] => prev | (sz, _) :: r => last_addr a (a + sz) r end.

Definition size_ok (x : Z * bool) : Prop := 64 <= fst x /\ fst x mod 16 = 0.

Lemma total_app l r : total (l ++ r) = total l + total r.
Proof. induction l as [|[sz u] l IH]; simpl; lia. Qed.
Lemma addrs_app a l r : addrs a (l ++ r) = addrs a l ++ addrs (a + total l) r.
Proof.
  revert a. induction l as [|[sz u] l IH]; intros a; simpl; [by rewrite Z.add_0_r|].
  rewrite IH. do 2 f_equal. f_equal. lia.
Qed.
Lemma frees_app a l r : frees a (l ++ r) = frees a l ++ frees (a + total l) r.
Proof.
  revert a. induction l as [|[sz u] l IH]; intros a; simpl; [by rewrite Z.add_0_r|].
  rewrite IH, <- app_assoc. do 3 f_equal. lia.
Qed.
Lemma last_addr_app prev a l r :
  last_addr prev a (l ++ r) = last_addr (last_addr prev a l) (a + total l) r.
Proof.
  revert prev a. induction l as [|[sz u] l IH]; intros prev a; simpl; [by rewrite Z.add_0_r|].
  rewrite IH. f_equal. lia.
Qed.
Lemma blocks_app m prev a l r :
  blocks m prev a (l ++ r) <-> blocks m prev a l /\ blocks m (last_addr prev a l) (a + total l) r.
Proof.
  revert prev a. induction l as [|[sz u] l IH]; intros prev a; simpl.
  - rewrite Z.add_0_r. tauto.
  - rewrite IH. replace (a + sz + total l) with (a + (sz + total l)) by lia. tauto.
Qed.

Lemma blocks_ext m m' prev a bs :
  (forall b, b ∈ addrs a bs -> core m' b = core m b) ->
  blocks m prev a bs -> blocks m' prev a bs.
Proof.
  revert prev a. induction bs as [|[sz u] bs IH]; intros prev a He Hb; simpl in *; [done|].
  destruct Hb as [Hc Hb]. split.
  - rewrite He by left. done.
  - apply IH; [|done]. intros b Hin. apply He. by right.
Qed.

Lemma total_nonneg bs : Forall size_ok bs -> 0 <= total bs.
Proof. induction 1 as [|[sz u] bs [H1 _] _ IH]; simpl in *; lia. Qed.

Lemma addrs_bound a bs b :
  Forall size_ok bs -> b ∈ addrs a bs -> a <= b /\ b + 64 <= a + total bs.
Proof.
  intros Hs. revert a. induction Hs as [|[sz u] bs [H1 _] Hs IH]; intros a Hin; simpl in *.
  - by apply not_elem_of_nil in Hin.
  - pose proof (total_nonneg bs Hs). apply elem_of_cons in Hin as [->|Hin]; [lia|].
    apply IH in Hin. lia.
Qed.

Lemma frees_addrs a bs : frees a bs ⊆ addrs a bs.
Proof.
  revert a. induction bs as [|[sz u] bs IH]; intros a; simpl; [done|].
  intros x. rewrite elem_of_app, elem_of_cons. specialize (IH (a + sz)).
  destruct u; simpl; set_solver.
Qed.

Lemma addrs_sep a bs b b' :
  Forall size_ok bs -> b ∈ addrs a bs -> b' ∈ addrs a bs -> b = b' \/ sep b b'.
Proof.
  intros Hs. revert a. induction Hs as [|[sz u] bs [H1 H2] Hs IH]; intros a Hb Hb'; simpl in *.
  - by apply not_elem_of_nil in Hb.
  - apply elem_of_cons in Hb. apply elem_of_cons in Hb'.
    destruct Hb as [->|Hb], Hb' as [->|Hb']; [by left| | |by eapply IH].
    + apply addrs_bound in Hb'; [|done]. right. unfold sep. lia.
    + apply addrs_bound in Hb; [|done]. right. unfold sep. lia.
Qed.

(** Every address of the second list lies above every address of the first. *)
Lemma frees_order a l sz u r x y :
  Forall size_ok (l ++ (sz, u) :: r) ->
  x ∈ frees a l -> y ∈ frees (a + total l + sz) r ->
  x < a + total l /\ a + total l < y.
Proof.
  intros [Hl Hr]%Forall_app Hx Hy. inversion Hr as [|? ? [H1 _] Hr']; subst; simpl in *.
  apply frees_addrs, addrs_bound in Hx; [|done].
  apply frees_addrs, addrs_bound in Hy; [|done]. lia.
Qed.

(** ** Linked lists through [next] *)

Fixpoint seg (m : mem) (p : Z) (l : list Z) (q : Z) : Prop :=
  match l with
  | [] => p = q
  | x :: r => p = x /\ seg m (hdr_next m x) r q
  end.

Lemma seg_app m p l1 l2 q : seg m p (l1 ++ l2) q <-> exists r, seg m p l1 r /\ seg m r l2 q.
Proof.
  revert p. induction l1 as [|x l1 IH]; intros p; simpl.
  - split; [eauto|]. by intros (r & -> & ?).
  - rewrite IH. split.
    + intros (-> & r & ? & ?). eauto.
    + intros (r & (-> & ?) & ?). eauto.
Qed.

Lemma seg_ext m m' p l q :
  (forall b, b ∈ l -> hdr_next m' b = hdr_next m b) -> seg m p l q -> seg m' p l q.
Proof.
  revert p. induction l as [|x l IH]; intros p He Hs; simpl in *; [done|].
  destruct Hs as [-> Hs]. split; [done|]. rewrite He by left. apply IH; [|done].
  intros b Hb. apply He. by right.
Qed.

(** Headers pairwise apart. *)
Definition apart (l : list Z) : Prop :=
  NoDup l /\ forall x y, x ∈ l -> y ∈ l -> x = y \/ sep x y.

Lemma apart_sub l l' : apart l -> NoDup l' -> l' ⊆ l -> apart l'.
Proof. intros [_ H] Hn Hs. split; [done|]. intros x y Hx Hy. apply H; by apply Hs. Qed.

Lemma seg_last m p l c q :
  seg m p (l ++ [c]) q -> hdr_next m c = q.
Proof. intros (r & _ & -> & E)%seg_app. done. Qed.

(** Writing [next] of the last node redirects the end of the segment. *)
Lemma seg_set_last m p l c q v :
  apart (l ++ [c]) -> 0 <= v < 2 ^ 64 ->
  seg m p (l ++ [c]) q -> seg (set_hnext m c v) p (l ++ [c]) v.
Proof.
  intros [Hn Ha] Hv (r & H1 & -> & _)%seg_app. apply seg_app. exists c. split.
  - eapply seg_ext; [|exact H1]. intros b Hb. apply next_set_next_other.
    destruct (Ha c b) as [->|?]; [set_solver|set_solver| |done].
    apply NoDup_app in Hn as (_ & Hn & _). exfalso. apply (Hn b Hb). by left.
  - simpl. split; [done|]. by apply next_set_next.
Qed.

Lemma find_pred_ok fuel m cur P b F2 :
  seg m cur (P ++ b :: F2) 0 -> P <> [] -> (length P <= fuel)%nat ->
  b ∉ P -> 0 ∉ P -> b <> 0 ->
  exists P' c, P = P' ++ [c] /\ find_pred fuel m cur b = Some c.
Proof.
  revert fuel cur. induction P as [|x P IH]; intros fuel cur Hs Hne Hf Hb H0 Hb0; [done|].
  simpl in Hs. destruct Hs as [-> Hs]. destruct fuel as [|fuel]; simpl in Hf; [lia|].
  cbn [find_pred]. destruct P as [|y P].
  - simpl in Hs. destruct Hs as [-> _]. exists [], x. split; [done|].
    by rewrite (Z.eqb_refl b), andb_false_r.
  - pose proof Hs as Hs'. simpl in Hs'. destruct Hs' as [E _]. rewrite E.
    apply not_elem_of_cons in Hb as [_ Hb], H0 as [_ H0].
    assert (y <> 0 /\ y <> b) as [N1 N2] by set_solver.
    unfold NULL. rewrite (proj2 (Z.eqb_neq y 0)), (proj2 (Z.eqb_neq y b)) by done. simpl.
    rewrite E in Hs. destruct (IH fuel y Hs) as (P' & c & EP & ->); [done|lia|done..|].
    exists (x :: P'), c. by rewrite EP.
Qed.

Lemma find_insert_ok fuel m cur P b F2 :
  seg m cur (P ++ F2) 0 -> P <> [] -> (length P <= fuel)%nat ->
  (forall x, x ∈ P -> 0 < x < b) -> (forall x, x ∈ F2 -> b < x) ->
  exists P' c, P = P' ++ [c] /\ find_insert fuel m cur b = Some c.
Proof.
  revert fuel cur. induction P as [|x P IH]; intros fuel cur Hs Hne Hf HP HF; [done|].
  simpl in Hs. destruct Hs as [-> Hs]. destruct fuel as [|fuel]; simpl in Hf; [lia|].
  cbn [find_insert]. destruct P as [|y P].
  - exists [], x. split; [done|]. simpl in Hs. destruct F2 as [|y F2]; simpl in Hs.
    + by rewrite Hs.
    + destruct Hs as [-> _]. specialize (HF y ltac:(left)).
      rewrite (proj2 (Z.ltb_ge y b)) by lia. by rewrite andb_false_r.
  - pose proof Hs as Hs'. simpl in Hs'. destruct Hs' as [E _]. rewrite E.
    assert (0 < y < b) by (apply HP; right; left).
    unfold NULL. rewrite (proj2 (Z.eqb_neq y 0)), (proj2 (Z.ltb_lt y b)) by lia. simpl.
    rewrite E in Hs. destruct (IH fuel y Hs) as (P' & c & EP & ->); [done|lia| |done|].
    { intros z Hz. apply HP. by right. }
    exists (x :: P'), c. by rewrite EP.
Qed.

(** ** The state *)

Section Rep.
Context {S : Type} `{PageAllocator S}.
Implicit Types h : heap S.

(** [bs] are the blocks of the heap and [F] the blocks linked in its free list. *)
Record rep h (bs : list (Z * bool)) (F : list Z) : Prop := {
  rp_start : 0 < heap_start h;
  rp_align : heap_start h mod 16 = 0;
  rp_end : heap_end h < 2 ^ 63;
  rp_total : heap_start h + total bs = heap_end h;
  rp_sizes : Forall size_ok bs;
  rp_blocks : blocks (h_mem h) 0 (heap_start h) bs;
  rp_seg : seg (h_mem h) (free_list h) F 0;
  rp_sub : F ⊆ addrs (heap_start h) bs;
  rp_nodup : NoDup F;
}.

(** A used block: its address and its size. *)
Definition used_in (start : Z) (bs : list (Z * bool)) (a sz : Z) : Prop :=
  exists l r, bs = l ++ (sz, true) :: r /\ a = start + total l.

(** A step that neither creates nor destroys a used block and leaves the bytes
    of the used blocks alone. *)
Record quiet h (bs : list (Z * bool)) h' (bs' : list (Z * bool)) : Prop := {
  q_start : heap_start h' = heap_start h;
  q_max : heap_max h' = heap_max h;
  q_init : heap_initialized h' = heap_initialized h;
  q_pa : pa_wf (h_pa h) -> pa_wf (h_pa h');
  q_used : forall a sz, used_in (heap_start h) bs a sz <-> used_in (heap_start h) bs' a sz;
  q_bytes : forall a sz, used_in (heap_start h) bs a sz ->
    agree (h_mem h) (h_mem h') (a + 32) (sz - 32);
}.

Lemma quiet_refl h bs : quiet h bs h bs.
Proof. split; try done; tauto. Qed.

Lemma quiet_trans h1 b1 h2 b2 h3 b3 : quiet h1 b1 h2 b2 -> quiet h2 b2 h3 b3 -> quiet h1 b1 h3 b3.
Proof.
  intros [A1 A2 A3 A6 A4 A5] [B1 B2 B3 B6 B4 B5]. rewrite A1 in *. split; try congruence; [auto| |].
  - intros a sz. by rewrite A4.
  - intros a sz Hu x Hx. rewrite (A5 a sz Hu x Hx). apply (B5 a sz); [by apply A4|done].
Qed.

Lemma length_addrs a bs : length (addrs a bs) = length bs.
Proof. revert a. induction bs as [|[sz u] bs IH]; intros a; simpl; auto. Qed.

Lemma length_total bs : Forall size_ok bs -> 64 * Z.of_nat (length bs) <= total bs.
Proof. induction 1 as [|[sz u] bs [H1 _] _ IH]; simpl in *; lia. Qed.

Lemma rep_bound h bs F b :
  rep h bs F -> b ∈ addrs (heap_start h) bs ->
  0 < b /\ heap_start h <= b /\ b + 64 <= heap_end h /\ b < 2 ^ 63.
Proof.
  intros [] Hb. apply addrs_bound in Hb; [|done]. lia.
Qed.

Lemma rep_apart h bs F : rep h bs F -> apart F.
Proof.
  intros []. split; [done|]. intros x y Hx Hy. eapply addrs_sep; [done| |]; by apply rp_sub0.
Qed.

Lemma rep_sep h bs F b b' :
  rep h bs F -> b ∈ addrs (heap_start h) bs -> b' ∈ addrs (heap_start h) bs -> b = b' \/ sep b b'.
Proof. intros [] Hb Hb'. by eapply addrs_sep. Qed.

Lemma rep_fuel h bs F : rep h bs F -> (length F < walk_bound h)%nat.
Proof.
  intros Hr. destruct Hr. unfold walk_bound.
  assert (length F <= length bs)%nat.
  { rewrite <- (length_addrs (heap_start h)). apply submseteq_length.
    by apply NoDup_submseteq. }
  pose proof (length_total bs rp_sizes0).
  assert (Z.of_nat (length bs) <= (heap_end h - heap_start h) / 64) by dlia. lia.
Qed.

(** The header of a block given by its position. *)
Lemma rep_core h l sz u r F :
  rep h (l ++ (sz, u) :: r) F ->
  core (h_mem h) (heap_start h + total l) =
    (sz, last_addr 0 (heap_start h) l, bmagic u, bflag u).
Proof. intros []. apply blocks_app in rp_blocks0 as [_ [Hc _]]. done. Qed.

Lemma in_addrs a l sz u r : a + total l ∈ addrs a (l ++ (sz, u) :: r).
Proof. rewrite addrs_app. apply elem_of_app. right. simpl. left. Qed.

Lemma get_size_ok sz : sz mod 16 = 0 -> Z.land sz (Z.lnot (HEAP_ALIGNMENT - 1)) = sz.
Proof.
  intros Hm. change (ALIGN_DOWN sz (2 ^ 4) = sz). rewrite ALIGN_DOWN_pow2 by lia.
  change (2 ^ 4) with 16. lia.
Qed.

Lemma rep_fields h l sz u r F :
  rep h (l ++ (sz, u) :: r) F ->
  let b := heap_start h + total l in
  block_get_size (h_mem h) b = sz /\ hdr_prev (h_mem h) b = last_addr 0 (heap_start h) l /\
  hdr_magic (h_mem h) b = bmagic u /\ block_is_used (h_mem h) b = u /\
  64 <= sz /\ sz mod 16 = 0 /\ 0 < b /\ b + sz <= heap_end h.
Proof.
  intros Hr. pose proof (rep_core _ _ _ _ _ _ Hr) as Hc. unfold core in Hc.
  injection Hc as H1 H2 H3 H4. destruct Hr.
  apply Forall_app in rp_sizes0 as [Sl Sr]. apply Forall_cons in Sr as [[H5 H6] Sr'].
  simpl in H5, H6. rewrite total_app in rp_total0. simpl in rp_total0.
  pose proof (total_nonneg l Sl). pose proof (total_nonneg r Sr').
  unfold block_get_size, block_is_used. rewrite H1, H4, get_size_ok by done.
  repeat (split; [done || lia || by destruct u|]). lia.
Qed.

(** Payload of a used block is apart from every header of the heap. *)
Lemma used_payload start bs a sz b x :
  Forall size_ok bs -> used_in start bs a sz -> b ∈ addrs start bs ->
  a + 32 <= x < a + sz -> x < b \/ b + 32 <= x.
Proof.
  intros Hs (l & r & -> & ->) Hb Hx. apply Forall_app in Hs as [Sl Sr].
  inversion Sr as [|? ? [H5 _] Sr']; subst; simpl in *.
  rewrite addrs_app in Hb. apply elem_of_app in Hb as [Hb|Hb].
  - apply addrs_bound in Hb; [|done]. lia.
  - simpl in Hb. apply elem_of_cons in Hb as [->|Hb]; [lia|].
    apply addrs_bound in Hb; [|done]. lia.
Qed.

(** A frame over the headers of two block lists with the same used blocks is quiet. *)
Lemma quiet_frame h bs h' bs' :
  Forall size_ok bs -> Forall size_ok bs' ->
  heap_start h' = heap_start h -> heap_max h' = heap_max h ->
  heap_initialized h' = heap_initialized h -> h_pa h' = h_pa h ->
  (forall a sz, used_in (heap_start h) bs a sz <-> used_in (heap_start h) bs' a sz) ->
  frame (addrs (heap_start h) bs ++ addrs (heap_start h) bs') (h_mem h) (h_mem h') ->
  quiet h bs h' bs'.
Proof.
  intros S1 S2 E1 E2 E3 E4 Hu Hf. split; auto; [by rewrite E4|]. intros a sz Ha x Hx. symmetry. apply Hf.
  intros b [Hb|Hb]%elem_of_app.
  - eapply (used_payload _ bs); eauto. lia.
  - eapply (used_payload _ bs'); [done|by apply Hu|done|lia].
Qed.

Lemma quiet_same h bs h' :
  Forall size_ok bs -> heap_start h' = heap_start h -> heap_max h' = heap_max h ->
  heap_initialized h' = heap_initialized h -> h_pa h' = h_pa h ->
  frame (addrs (heap_start h) bs) (h_mem h) (h_mem h') -> quiet h bs h' bs.
Proof.
  intros. apply quiet_frame; auto. eapply frame_mono; [|done].
  intros x Hx. apply elem_of_app. by left.
Qed.

(** A step that writes only into the headers [hs] and the free-list head. *)
Record touches (hs : list Z) h h' : Prop := {
  t_start : heap_start h' = heap_start h;
  t_end : heap_end h' = heap_end h;
  t_max : heap_max h' = heap_max h;
  t_init : heap_initialized h' = heap_initialized h;
  t_pa : h_pa h' = h_pa h;
  t_frame : frame hs (h_mem h) (h_mem h');
}.

Lemma touches_trans hs h1 h2 h3 : touches hs h1 h2 -> touches hs h2 h3 -> touches hs h1 h3.
Proof. intros [] []. split; try congruence. by eapply frame_trans. Qed.
Lemma touches_mono hs hs' h h' : hs ⊆ hs' -> touches hs h h' -> touches hs' h h'.
Proof. intros Hs []. split; auto. by eapply frame_mono. Qed.
Lemma touches_mem hs h m' : frame hs (h_mem h) m' -> touches hs h (with_mem m' h).
Proof. by split. Qed.

Lemma quiet_touches h bs h' bs' :
  Forall size_ok bs -> Forall size_ok bs' ->
  (forall a sz, used_in (heap_start h) bs a sz <-> used_in (heap_start h) bs' a sz) ->
  touches (addrs (heap_start h) bs ++ addrs (heap_start h) bs') h h' -> quiet h bs h' bs'.
Proof. intros S1 S2 Hu []. by apply quiet_frame. Qed.

Lemma quiet_touched h bs h' :
  Forall size_ok bs -> touches (addrs (heap_start h) bs) h h' -> quiet h bs h' bs.
Proof. intros S1 []. by apply quiet_same. Qed.

(** Used blocks of a list with one position singled out. *)
Lemma used_in_split start l x r a sz :
  used_in start (l ++ x :: r) a sz <->
  used_in start l a sz \/ (x = (sz, true) /\ a = start + total l) \/
  used_in (start + total l + fst x) r a sz.
Proof.
  split.
  - intros (l1 & r1 & E & ->). apply app_eq_inv in E as [(k & E1 & E2)|(k & E1 & E2)].
    + destruct k as [|y k]; simpl in E2.
      * injection E2 as <- <-. rewrite app_nil_r in E1. subst. right. left. done.
      * injection E2 as <- ->. subst l. left. by exists l1, k.
    + destruct k as [|y k]; simpl in E2.
      * injection E2 as -> ->. rewrite app_nil_r in E1. subst. right. left. done.
      * injection E2 as <- E2. right. right. exists k, r1. split; [done|].
        rewrite E1, total_app. destruct x as [xs xu]. simpl. lia.
  - intros [(l1 & r1 & -> & ->)|[[-> ->]|(l1 & r1 & -> & ->)]].
    + exists l1, (r1 ++ x :: r). by rewrite <- app_assoc.
    + by exists l, r.
    + exists (l ++ x :: l1), r1. rewrite <- app_assoc. split; [done|].
      rewrite total_app. destruct x as [xs xu]. simpl. lia.
Qed.

(** Changing the header at one position. *)
Lemma blocks_upd m m' prev a l sz u u' r :
  Forall size_ok (l ++ (sz, u) :: r) ->
  blocks m prev a (l ++ (sz, u) :: r) ->
  (forall b, b ∈ addrs a (l ++ (sz, u) :: r) -> sep (a + total l) b -> core m' b = core m b) ->
  core m' (a + total l) = (sz, last_addr prev a l, bmagic u', bflag u') ->
  blocks m' prev a (l ++ (sz, u') :: r).
Proof.
  intros Hs Hb He Hc. apply blocks_app in Hb as [Hl [_ Hr]]. apply blocks_app.
  apply Forall_app in Hs as [Sl Sr]. apply Forall_cons in Sr as [[S1 _] Sr]. simpl in S1.
  rewrite addrs_app in He. simpl in He. split.
  - eapply blocks_ext; [|exact Hl]. intros b Hin. apply He; [apply elem_of_app; by left|].
    apply addrs_bound in Hin; [|done]. unfold sep. lia.
  - simpl. split; [done|]. eapply blocks_ext; [|exact Hr]. intros b Hin.
    apply He; [apply elem_of_app; right; by right|].
    apply addrs_bound in Hin; [|done]. unfold sep. lia.
Qed.

Lemma frame_core_at b m m' b' : frame [b] m m' -> sep b b' -> core m' b' = core m b'.
Proof.
  intros Hf Hs. apply (frame_core [b]); [done|]. intros x Hx. apply list_elem_of_singleton in Hx.
  by subst.
Qed.

Lemma blocks_set_next m prev a bs c v :
  Forall size_ok bs -> c ∈ addrs a bs -> blocks m prev a bs -> blocks (set_hnext m c v) prev a bs.
Proof.
  intros Hs Hc Hb. eapply blocks_ext; [|exact Hb]. intros b Hin. apply core_set_next.
  destruct (addrs_sep a bs c b) as [->|]; auto.
Qed.
End Rep.
