(* ===== verification/HeapOps.v ===== *)
(** * What each internal operation of the heap does to its blocks and free list *)
From S2P Require Import Prelude Memory PageAlloc Heap HeapRep.

Section Ops.
Context {S : Type} `{PageAllocator S}.
Implicit Types h : heap S.

(** Membership of a header address in the blocks of the heap. *)
Ltac in_list := rewrite ?addrs_app; simpl; rewrite ?elem_of_app, ?elem_of_cons; auto 10.

Lemma remove_ok h bs F1 b F2 :
  rep h bs (F1 ++ b :: F2) ->
  exists h', free_list_remove h b = Some h' /\ rep h' bs (F1 ++ F2) /\
    touches (addrs (heap_start h) bs) h h'.
Proof.
  intros Hr. pose proof (rep_apart _ _ _ Hr) as [_ Hap]. pose proof (rep_fuel _ _ _ Hr) as Hfuel.
  assert (Hpos : forall x, x ∈ F1 ++ b :: F2 -> 0 < x < 2 ^ 63).
  { intros x Hx. destruct (rep_bound _ _ _ x Hr); [by apply (rp_sub _ _ _ Hr)|]. lia. }
  destruct Hr as [R1 R2 R3 R4 R5 R6 R7 R8 R9].
  assert (Hb : 0 < b < 2 ^ 63) by (apply Hpos; set_solver).
  assert (HnF : NoDup (F1 ++ F2)) by (by apply NoDup_app in R9 as (?&?&[??]%NoDup_cons); apply NoDup_app; set_solver).
  unfold free_list_remove, NULL. destruct F1 as [|f F1'] eqn:EF.
  - simpl in R7. destruct R7 as [E1 R7]. rewrite E1.
    rewrite (proj2 (Z.eqb_neq b 0)), Z.eqb_refl by lia.
    eexists. split; [done|]. split.
    + split; simpl; auto.
      * apply blocks_set_next; auto. apply R8. simpl. left.
      * eapply seg_ext; [|exact R7]. intros x Hx. apply next_set_next_other.
        destruct (Hap b x) as [->|?]; [set_solver..| |done].
        apply NoDup_cons in R9 as [R9 _]. done.
      * set_solver.
    + split; simpl; auto. apply frame_set_next. set_solver.
  - rewrite <- EF in *. assert (Efl : free_list h = f) by (rewrite EF in R7; by destruct R7).
    assert (f <> b).
    { rewrite EF in R9. apply NoDup_cons in R9 as [R9 _]. intros ->. apply R9. set_solver. }
    assert (0 < f) by (apply Hpos; rewrite EF; left).
    rewrite Efl. rewrite (proj2 (Z.eqb_neq f 0)), (proj2 (Z.eqb_neq f b)) by lia.
    rewrite Efl in R7.
    destruct (find_pred_ok (walk_bound h) (h_mem h) f F1 b F2) as (P & c & EP & Hfind);
      [done|by rewrite EF|rewrite length_app in Hfuel; lia| | |lia|].
    { apply NoDup_app in R9 as (_ & R9 & _). intros Hin. apply (R9 b Hin). left. }
    { intros Hin. assert (0 < 0) by (apply Hpos; set_solver). lia. }
    rewrite Hfind. simpl. clear Hfind EF.
    assert (Hc : c ∈ F1 ++ b :: F2) by (rewrite EP; set_solver).
    assert (Hbin : b ∈ F1 ++ b :: F2) by set_solver.
    apply seg_app in R7 as (q & Sg1 & -> & Sg2).
    assert (Enx : hdr_next (h_mem h) c = b) by (rewrite EP in Sg1; by eapply seg_last).
    rewrite Enx, Z.eqb_refl.
    assert (Hcb : sep c b).
    { destruct (Hap c b) as [->|]; auto. exfalso. apply NoDup_app in R9 as (_ & R9 & _).
      apply (R9 b); [rewrite EP|]; set_solver. }
    assert (Hnb : 0 <= hdr_next (h_mem h) b < 2 ^ 64) by apply load64_range.
    eexists. split; [done|]. split.
    + split; simpl; auto.
      * apply blocks_set_next; auto. apply blocks_set_next; auto.
      * rewrite Efl. apply seg_app. exists (hdr_next (h_mem h) b). split.
        -- eapply seg_ext.
           2: { rewrite EP. eapply (seg_set_last (h_mem h)); [|done|rewrite <- EP; exact Sg1].
                rewrite <- EP. eapply (apart_sub (F1 ++ b :: F2)); [by split| |set_solver].
                by apply NoDup_app in R9 as [R9 _]. }
           intros x Hx. apply next_set_next_other.
           destruct (Hap b x) as [->|?]; [set_solver..| |done].
           exfalso. apply NoDup_app in R9 as (_ & R9 & _). apply (R9 x Hx). left.
        -- eapply seg_ext; [|exact Sg2]. intros x Hx.
           rewrite !next_set_next_other; [done| |].
           ++ destruct (Hap c x) as [->|?]; [set_solver..| |done]. exfalso.
              apply NoDup_app in R9 as (_ & R9 & _). apply (R9 x); [rewrite EP|]; set_solver.
           ++ destruct (Hap b x) as [->|?]; [set_solver..| |done].
              by apply NoDup_app in R9 as (_ & _ & [R9 _]%NoDup_cons).
      * set_solver.
    + split; simpl; auto.
      eapply frame_trans; apply frame_set_next; set_solver.
Qed.

(** ** Marking a block *)

Lemma addrs_flag a l sz u u' r : addrs a (l ++ (sz, u) :: r) = addrs a (l ++ (sz, u') :: r).
Proof. by rewrite !addrs_app. Qed.
Lemma sizes_flag l sz u u' r :
  Forall size_ok (l ++ (sz, u) :: r) -> Forall size_ok (l ++ (sz, u') :: r).
Proof. rewrite !Forall_app, !Forall_cons. unfold size_ok. simpl. tauto. Qed.
Lemma total_flag l sz u u' r : total (l ++ (sz, u) :: r) = total (l ++ (sz, u') :: r).
Proof. by rewrite !total_app. Qed.

(** A write inside the header at one position that leaves [next] alone and sets
    the header to used or free. *)
Lemma mark_ok h l sz u u' r F m' :
  rep h (l ++ (sz, u) :: r) F ->
  frame [heap_start h + total l] (h_mem h) m' ->
  core m' (heap_start h + total l) = (sz, last_addr 0 (heap_start h) l, bmagic u', bflag u') ->
  hdr_next m' (heap_start h + total l) = hdr_next (h_mem h) (heap_start h + total l) ->
  rep (with_mem m' h) (l ++ (sz, u') :: r) F.
Proof.
  intros Hr Hf Hc Hn.
  destruct Hr as [R1 R2 R3 R4 R5 R6 R7 R8 R9].
  assert (Hin : heap_start h + total l ∈ addrs (heap_start h) (l ++ (sz, u) :: r)) by apply in_addrs.
  split; simpl; auto.
  - by rewrite (total_flag l sz u' u).
  - by eapply sizes_flag.
  - eapply blocks_upd; eauto. intros b Hb Hs. by eapply frame_core_at.
  - eapply seg_ext; [|exact R7]. intros b Hb. apply R8 in Hb.
    destruct (addrs_sep _ _ _ _ R5 Hin Hb) as [<-|Hs]; [done|].
    apply (frame_next [heap_start h + total l]); [done|].
    intros x Hx%list_elem_of_singleton. by subst.
  - by rewrite (addrs_flag _ l sz u' u).
Qed.

Lemma set_used_ok h l sz r F :
  rep h (l ++ (sz, false) :: r) F ->
  rep (with_mem (block_set_used (h_mem h) (heap_start h + total l)) h) (l ++ (sz, true) :: r) F.
Proof.
  intros Hr. eapply mark_ok; [done|apply frame_set_used; left| |apply next_set_used; by left].
  eapply core_set_used. exact (rep_core _ _ _ _ _ _ Hr).
Qed.

Lemma set_free_ok h l sz u r F :
  rep h (l ++ (sz, u) :: r) F ->
  rep (with_mem (block_set_free (h_mem h) (heap_start h + total l)) h) (l ++ (sz, false) :: r) F.
Proof.
  intros Hr. eapply mark_ok; [done|apply frame_set_free; left| |apply next_set_free; by left].
  eapply core_set_free; [|exact (rep_core _ _ _ _ _ _ Hr)]. destruct u; simpl; auto.
Qed.

(** ** Insertion into the free list *)

(** The state with block [b] linked in: its memory, its list head. *)
Lemma rep_link h bs F1 b F2 m' p :
  rep h bs (F1 ++ F2) -> b ∈ addrs (heap_start h) bs -> b ∉ F1 ++ F2 ->
  blocks m' 0 (heap_start h) bs -> seg m' p (F1 ++ b :: F2) 0 ->
  rep (with_free_list p (with_mem m' h)) bs (F1 ++ b :: F2).
Proof.
  intros [R1 R2 R3 R4 R5 R6 R7 R8 R9] Hb Hn Hbl Hs. split; simpl; auto.
  - set_solver.
  - apply NoDup_app in R9 as (N1 & N2 & N3). apply NoDup_app.
    split; [done|]. split; [set_solver|]. apply NoDup_cons. set_solver.
Qed.

Lemma rep_stats h bs F st : rep h bs F -> rep (with_stats st h) bs F.
Proof. intros []. by split. Qed.
Lemma quiet_stats h bs h' bs' st : quiet h bs h' bs' -> quiet h bs (with_stats st h') bs'.
Proof. intros []. by split. Qed.

Lemma add_linked h bs F1 b F2 :
  rep h bs (F1 ++ F2) -> b ∈ addrs (heap_start h) bs -> b ∉ F1 ++ F2 ->
  (forall x, x ∈ F1 -> x < b) -> (forall x, x ∈ F2 -> b < x) ->
  core (block_set_free (h_mem h) b) b = core (h_mem h) b ->
  exists h', free_list_add h b = Some h' /\ rep h' bs (F1 ++ b :: F2) /\
    touches (addrs (heap_start h) bs) h h'.
Proof.
  intros Hr Hb Hnb H1 H2 Hcb. pose proof (rep_apart _ _ _ Hr) as [_ Hap].
  pose proof (rep_fuel _ _ _ Hr) as Hfuel.
  assert (Hpos : forall x, x ∈ F1 ++ F2 -> 0 < x < 2 ^ 63).
  { intros x Hx. destruct (rep_bound _ _ _ x Hr); [by apply (rp_sub _ _ _ Hr)|]. lia. }
  destruct (rep_bound _ _ _ b Hr Hb) as (Hb1 & _ & _ & Hb2).
  set (m1 := block_set_free (h_mem h) b).
  assert (Hbsep : forall x, x ∈ addrs (heap_start h) bs -> x = b \/ sep b x).
  { intros x Hx. destruct (rep_sep _ _ _ b x Hr Hb Hx); auto. }
  assert (Hbl1 : blocks m1 0 (heap_start h) bs).
  { eapply blocks_ext; [|apply (rp_blocks _ _ _ Hr)]. intros x Hx.
    destruct (Hbsep x Hx) as [->|Hs]; [done|].
    apply (frame_core_at b); [apply frame_set_free; left|done]. }
  assert (Hsg1 : seg m1 (free_list h) (F1 ++ F2) 0).
  { eapply seg_ext; [|apply (rp_seg _ _ _ Hr)]. intros x Hx. apply next_set_free.
    apply Hbsep. by apply (rp_sub _ _ _ Hr). }
  assert (Hfr1 : frame (addrs (heap_start h) bs) (h_mem h) m1) by by apply frame_set_free.
  pose proof (rp_sizes _ _ _ Hr) as Hsz. pose proof (rp_sub _ _ _ Hr) as Hsub.
  unfold free_list_add, NULL. cbn [with_mem free_list h_mem with_free_list]. fold m1.
  destruct F1 as [|f F1'] eqn:EF; [destruct F2 as [|f F2'] eqn:EF2|].
  - simpl in Hsg1. rewrite Hsg1. simpl. eexists. split; [done|]. split.
    + apply rep_stats. apply (rep_link h bs [] b [] (set_hnext m1 b 0) b); auto.
      * by apply blocks_set_next.
      * cbn [app seg]. split; [done|]. by rewrite next_set_next by lia.
    + split; simpl; auto.
      eapply frame_trans; [done|by apply frame_set_next].
  - pose proof Hsg1 as [Efl _]. simpl in Efl. rewrite Efl in *.
    assert (0 < f < 2 ^ 63) by (apply Hpos; left). specialize (H2 f ltac:(left)).
    rewrite (proj2 (Z.eqb_neq f 0)), (proj2 (Z.ltb_lt b f)) by lia.
    eexists. split; [done|]. split.
    + apply rep_stats. apply (rep_link h bs [] b (f :: F2') (set_hnext m1 b f) b); auto.
      * by apply blocks_set_next.
      * simpl app. cbn [seg]. split; [done|]. rewrite next_set_next by lia.
        apply (seg_ext m1 _ f (f :: F2')); [|exact Hsg1]. intros x Hx. apply next_set_next_other.
        destruct (Hbsep x) as [->|]; [set_solver| |done]. by destruct Hnb.
    + split; simpl; auto.
      eapply frame_trans; [done|by apply frame_set_next].
  - rewrite <- EF in *.
    assert (Efl : free_list h = f) by (rewrite EF in Hsg1; by destruct Hsg1).
    assert (0 < f < 2 ^ 63) by (apply Hpos; rewrite EF; left).
    assert (f < b) by (apply H1; rewrite EF; left).
    rewrite Efl in *. rewrite (proj2 (Z.eqb_neq f 0)), (proj2 (Z.ltb_ge b f)) by lia.
    destruct (find_insert_ok (walk_bound h) m1 f F1 b F2) as (P & c & EP & Hfind);
      [done|by rewrite EF|rewrite length_app in Hfuel; lia| |done|].
    { intros x Hx. split; [apply Hpos; set_solver|by apply H1]. }
    change (walk_bound (with_mem m1 h)) with (walk_bound h).
    rewrite Hfind. simpl. clear Hfind EF.
    assert (Hc : c ∈ F1 ++ F2) by (rewrite EP; set_solver).
    apply seg_app in Hsg1 as (q & Sg1 & Sg2).
    assert (Enx : hdr_next m1 c = q) by (rewrite EP in Sg1; by eapply seg_last).
    rewrite Enx.
    assert (Hcb' : sep c b).
    { destruct (Hbsep c) as [->|]; [by apply Hsub|by destruct Hnb|unfold sep in *; lia]. }
    assert (Hq : 0 <= q < 2 ^ 64) by (rewrite <- Enx; apply load64_range).
    pose proof (rp_nodup _ _ _ Hr) as Hnd.
    eexists. split; [done|]. split.
    + apply rep_stats.
      apply (rep_link h bs F1 b F2 (set_hnext (set_hnext m1 b q) c b) (free_list h)); auto.
      * apply blocks_set_next; auto. by apply blocks_set_next.
      * rewrite Efl. apply seg_app. exists b. split.
        -- rewrite EP. eapply seg_set_last; [|lia|].
           ++ rewrite <- EP. eapply (apart_sub (F1 ++ F2)); [by split| |set_solver].
              by apply NoDup_app in Hnd as [? _].
           ++ rewrite <- EP. eapply (seg_ext m1); [|exact Sg1]. intros x Hx.
              apply next_set_next_other. destruct (Hbsep x) as [->|]; [set_solver| |done].
              exfalso. set_solver.
        -- cbn [seg]. split; [done|]. rewrite next_set_next_other by done.
           rewrite next_set_next by done. eapply (seg_ext m1); [|exact Sg2]. intros x Hx.
           rewrite !next_set_next_other; [done| |].
           ++ destruct (Hbsep x) as [->|]; [set_solver| |done]. exfalso. set_solver.
           ++ destruct (Hap c x) as [->|]; [set_solver..| |done]. exfalso.
              apply NoDup_app in Hnd as (_ & Hnd & _). apply (Hnd x); [rewrite EP|]; set_solver.
    + split; simpl; auto.
      eapply frame_trans; [done|]. eapply frame_trans; apply frame_set_next; auto.
Qed.

Lemma add_ok h l sz r F1 F2 :
  rep h (l ++ (sz, false) :: r) (F1 ++ F2) ->
  let b := heap_start h + total l in
  b ∉ F1 ++ F2 -> (forall x, x ∈ F1 -> x < b) -> (forall x, x ∈ F2 -> b < x) ->
  exists h', free_list_add h b = Some h' /\
    rep h' (l ++ (sz, false) :: r) (F1 ++ b :: F2) /\
    touches (addrs (heap_start h) (l ++ (sz, false) :: r)) h h'.
Proof.
  intros Hr b Hn H1 H2. apply add_linked; auto; [apply in_addrs|].
  pose proof (rep_core _ _ _ _ _ _ Hr) as Hc. unfold b. rewrite Hc.
  eapply core_set_free; [|done]. by left.
Qed.

(** ** Rewriting [prev] of the block after a change of size *)

Lemma with_mem_id h : with_mem (h_mem h) h = h.
Proof. by destruct h. Qed.

(** After the block at [b] got size [sz], [fix_prev] gives the blocks [r] behind it
    the predecessor [p']. *)
Lemma fix_prev_ok h b sz r p p' :
  hdr_size (h_mem h) b = sz -> sz mod 16 = 0 -> 0 < b + sz ->
  b + sz + total r = heap_end h -> heap_end h < 2 ^ 63 ->
  Forall size_ok r -> blocks (h_mem h) p (b + sz) r -> 0 <= p' < 2 ^ 64 ->
  exists m', fix_prev h (block_get_next_physical h b) p' = with_mem m' h /\
    frame (addrs (b + sz) r) (h_mem h) m' /\ blocks m' p' (b + sz) r /\
    (forall x, x = b + sz \/ sep (b + sz) x -> hdr_next m' x = hdr_next (h_mem h) x).
Proof.
  intros Hsz Hal Hpos Htot Hend Hok Hb Hp'. unfold block_get_next_physical, block_get_size.
  pose proof (total_nonneg r Hok). rewrite Hsz, get_size_ok, u64_id by (done || lia).
  destruct r as [|[s2 u2] r]; simpl in Htot.
  - rewrite (proj2 (Z.leb_le (heap_end h) (b + sz))) by lia. exists (h_mem h).
    split; [by rewrite with_mem_id|]. split; [apply frame_refl|]. done.
  - apply Forall_cons in Hok as [[Hs2 _] Hok]. simpl in Hs2.
    pose proof (total_nonneg r Hok).
    rewrite (proj2 (Z.leb_gt (heap_end h) (b + sz))) by lia.
    unfold fix_prev, NULL. rewrite (proj2 (Z.eqb_neq (b + sz) 0)) by lia.
    exists (set_hprev (h_mem h) (b + sz) p'). split; [done|].
    split; [apply frame_set_prev; left|]. destruct Hb as [Hc Hb]. split.
    + split; [by eapply core_set_prev|]. eapply blocks_ext; [|exact Hb].
      intros x Hx. apply (frame_core_at (b + sz)); [apply frame_set_prev; left|].
      apply addrs_bound in Hx; [|done]. unfold sep. lia.
    + intros x Hx. by apply next_set_prev.
Qed.

(** ** Merging two neighbours *)

Lemma addrs_merge a l s1 u1 s2 u2 r u :
  addrs a (l ++ (s1 + s2, u) :: r) ⊆ addrs a (l ++ (s1, u1) :: (s2, u2) :: r).
Proof.
  rewrite !addrs_app. simpl. rewrite Z.add_assoc. intros x.
  rewrite !elem_of_app, !elem_of_cons. tauto.
Qed.

Lemma merge_ok h l s1 u s2 u2 r F :
  rep h (l ++ (s1, u) :: (s2, u2) :: r) F ->
  heap_start h + total l + s1 ∉ F ->
  let b := heap_start h + total l in
  let h1 := with_mem (set_hsize (h_mem h) b (s1 + s2)) h in
  exists m', fix_prev h1 (block_get_next_physical h1 b) b = with_mem m' h /\
    rep (with_mem m' h) (l ++ (s1 + s2, u) :: r) F /\
    frame (addrs (heap_start h) (l ++ (s1, u) :: (s2, u2) :: r)) (h_mem h) m'.
Proof.
  intros Hr Hnot b h1. pose proof (rep_core _ _ _ _ _ _ Hr) as Hc.
  pose proof (rep_fields _ _ _ _ _ _ Hr) as (_ & _ & _ & _ & _ & _ & Hb0 & Hbe). fold b in Hb0, Hbe, Hc.
  destruct Hr as [R1 R2 R3 R4 R5 R6 R7 R8 R9].
  pose proof R5 as R5'. rewrite Forall_app, !Forall_cons in R5'.
  destruct R5' as (Sl & [A1 A2] & [B1 B2] & Sr). simpl in A1, A2, B1, B2.
  rewrite total_app in R4. simpl in R4.
  pose proof (total_nonneg l Sl). pose proof (total_nonneg r Sr).
  apply blocks_app in R6 as [Bl [_ [_ Br]]]. fold b in Br.
  assert (Hfr : frame [b] (h_mem h) (set_hsize (h_mem h) b (s1 + s2))) by (apply frame_set_size; left).
  destruct (fix_prev_ok h1 b (s1 + s2) r (b + s1) b) as (m' & E & Hf & Hbl & Hnx); simpl; try lia; auto.
  { unfold h1. simpl. assert (Hsz : core (set_hsize (h_mem h) b (s1 + s2)) b = (s1 + s2, last_addr 0 (heap_start h) l, bmagic u, bflag u))
      by (eapply core_set_size; [lia|exact Hc]). by injection Hsz. }
  { dlia. }
  { rewrite Z.add_assoc. eapply blocks_ext; [|exact Br]. intros x Hx.
    apply (frame_core_at b); [done|]. apply addrs_bound in Hx; [|done]. unfold sep. lia. }
  assert (Hmid : forall x, (forall y, y ∈ addrs (b + (s1 + s2)) r -> sep y x) -> core m' x = core (set_hsize (h_mem h) b (s1 + s2)) x).
  { intros x Hx. by apply (frame_core (addrs (b + (s1 + s2)) r)). }
  exists m'. split; [exact E|]. split.
  - split; simpl; auto.
    + rewrite total_app. simpl. lia.
    + rewrite Forall_app, Forall_cons. split; [done|]. split; [|done]. split; simpl; [lia|dlia].
    + apply blocks_app. split; [|split; [|exact Hbl]].
      * eapply blocks_ext; [|exact Bl]. intros x Hx. apply addrs_bound in Hx; [|done]. fold b in Hx.
        rewrite Hmid; [apply (frame_core_at b); [done|]; unfold sep; lia|].
        intros y Hy. apply addrs_bound in Hy; [|done]. unfold sep. lia.
      * fold b. rewrite Hmid; [eapply core_set_size; [lia|exact Hc]|].
        intros y Hy. apply addrs_bound in Hy; [|done]. unfold sep. lia.
    + eapply seg_ext; [|exact R7]. intros x Hx. pose proof (R8 x Hx) as Hin.
      assert (x = b \/ sep b x).
      { destruct (addrs_sep (heap_start h) _ b x R5) as [->|]; auto. apply in_addrs. }
      rewrite Hnx; [by apply next_set_size|].
      rewrite addrs_app in Hin. simpl in Hin. rewrite elem_of_app, !elem_of_cons in Hin. fold b in Hin.
      destruct Hin as [Hin|[->|[->|Hin]]]; [|unfold sep; lia|done|].
      * apply addrs_bound in Hin; [|done]. unfold sep. lia.
      * destruct r as [|[s3 u3] r]; [by apply not_elem_of_nil in Hin|].
        simpl in Hin. apply Forall_cons in Sr as [[C1 _] Sr]. simpl in C1.
        apply elem_of_cons in Hin as [->|Hin]; [left; lia|].
        apply addrs_bound in Hin; [|done]. unfold sep. lia.
    + intros x Hx. pose proof (R8 x Hx) as Hin. rewrite addrs_app in *. simpl in *.
      rewrite elem_of_app, !elem_of_cons in *. fold b in Hin |- *. rewrite Z.add_assoc.
      destruct Hin as [|[|[->|]]]; auto. by destruct Hnot.
  - eapply frame_trans.
    + eapply frame_mono; [|exact Hfr]. intros x ->%list_elem_of_singleton. apply in_addrs.
    + eapply frame_mono; [|exact Hf]. intros x Hx. rewrite addrs_app. simpl.
      rewrite elem_of_app, !elem_of_cons. fold b. rewrite <- Z.add_assoc. auto.
Qed.

(** ** Coalescing *)

(** The heap holds the blocks [bs], and its free list is exactly the free ones. *)
Definition inv h (bs : list (Z * bool)) : Prop := rep h bs (frees (heap_start h) bs).

Lemma next_physical_ok h l s u r F :
  rep h (l ++ (s, u) :: r) F ->
  block_get_next_physical h (heap_start h + total l) =
    match r with [] => NULL | _ => heap_start h + total l + s end.
Proof.
  intros Hr. pose proof (rep_fields _ _ _ _ _ _ Hr) as (Hs & _ & _ & _ & H1 & H2 & H3 & H4).
  unfold block_get_next_physical. rewrite Hs. destruct Hr as [R1 R2 R3 R4 R5 _ _ _ _].
  rewrite u64_id by lia. rewrite total_app in R4. simpl in R4.
  rewrite Forall_app, Forall_cons in R5. destruct R5 as (_ & _ & Sr). destruct r as [|[s2 u2] r].
  - simpl in R4. by rewrite (proj2 (Z.leb_le _ _)) by lia.
  - apply Forall_cons in Sr as [[B1 _] Sr]. simpl in B1, R4. pose proof (total_nonneg r Sr).
    by rewrite (proj2 (Z.leb_gt _ _)) by lia.
Qed.

Lemma used_in_cons start x r a sz :
  used_in start (x :: r) a sz <-> (x = (sz, true) /\ a = start) \/ used_in (start + fst x) r a sz.
Proof.
  rewrite (used_in_split start [] x r). simpl. rewrite Z.add_0_r. split; [|tauto].
  intros [(l1 & r1 & E & _)|]; [by destruct l1|done].
Qed.

Lemma used_in_merge start l s1 s2 r a sz :
  used_in start (l ++ (s1, false) :: (s2, false) :: r) a sz <->
  used_in start (l ++ (s1 + s2, false) :: r) a sz.
Proof.
  rewrite !used_in_split, used_in_cons. simpl. rewrite Z.add_assoc. naive_solver.
Qed.

Lemma merge_quiet h h' m' l s1 s2 r F :
  rep h (l ++ (s1, false) :: (s2, false) :: r) F ->
  rep (with_mem m' h) (l ++ (s1 + s2, false) :: r) F ->
  frame (addrs (heap_start h) (l ++ (s1, false) :: (s2, false) :: r)) (h_mem h) m' ->
  h' = with_mem m' h ->
  quiet h (l ++ (s1, false) :: (s2, false) :: r) h' (l ++ (s1 + s2, false) :: r).
Proof.
  intros [] [] Hf ->. apply quiet_frame; auto; [intros; apply used_in_merge|].
  eapply frame_mono; [|exact Hf]. intros x Hx. apply elem_of_app. by left.
Qed.

(** Unlinking the second of two free neighbours and adding their sizes. *)
Lemma absorb_ok h l s1 s2 r :
  inv h (l ++ (s1, false) :: (s2, false) :: r) ->
  let b := heap_start h + total l in
  exists h1 h2, free_list_remove h (b + s1) = Some h1 /\
    block_get_size (h_mem h1) b = s1 /\ block_get_size (h_mem h1) (b + s1) = s2 /\
    u64 (s1 + s2) = s1 + s2 /\
    (let h' := with_mem (set_hsize (h_mem h1) b (s1 + s2)) h1 in
     fix_prev h' (block_get_next_physical h' b) b = h2) /\
    inv h2 (l ++ (s1 + s2, false) :: r) /\ heap_end h2 = heap_end h /\
    quiet h (l ++ (s1, false) :: (s2, false) :: r) h2 (l ++ (s1 + s2, false) :: r).
Proof.
  intros Hi b. unfold inv in Hi. rewrite frees_app in Hi. simpl in Hi. fold b in Hi.
  pose proof Hi as Hi'.
  replace (frees (heap_start h) l ++ b :: b + s1 :: frees (b + s1 + s2) r)
    with ((frees (heap_start h) l ++ [b]) ++ (b + s1) :: frees (b + s1 + s2) r) in Hi'
    by (by rewrite <- app_assoc).
  destruct (remove_ok _ _ _ _ _ Hi') as (h1 & E & Hr1 & Ht1). exists h1.
  pose proof (quiet_touched _ _ _ (rp_sizes _ _ _ Hi) Ht1) as Hq1.
  pose proof (q_start _ _ _ _ Hq1) as Es. pose proof (rp_total _ _ _ Hi') as T0.
  pose proof (rp_total _ _ _ Hr1) as T1. pose proof (rp_end _ _ _ Hr1) as T2.
  pose proof Hr1 as Hr2. replace (l ++ (s1, false) :: (s2, false) :: r)
    with ((l ++ [(s1, false)]) ++ (s2, false) :: r) in Hr2 by (by rewrite <- app_assoc).
  pose proof (rep_fields _ _ _ _ _ _ Hr1) as (F1 & _ & _ & _ & F2 & _ & F3 & F4).
  pose proof (rep_fields _ _ _ _ _ _ Hr2) as (G1 & _ & _ & _ & G2 & _ & G3 & G4).
  rewrite total_app in G1, G3, G4. simpl in G1, G3, G4. rewrite Es in *. fold b in F1, F3, F4.
  replace (heap_start h + (total l + (s1 + 0))) with (b + s1) in * by (unfold b; lia).
  destruct (merge_ok h1 l s1 false s2 false r _ Hr1) as (m' & Em & Hrm & Hfm).
  { rewrite Es. fold b. pose proof (rp_nodup _ _ _ Hi') as Hn. apply NoDup_app in Hn as (_ & N1 & N2).
    apply NoDup_cons in N2 as [N2 _]. intros [Hx|Hx]%elem_of_app; [|done]. apply (N1 _ Hx). left. }
  rewrite Es in Em. fold b in Em. exists (with_mem m' h1).
  repeat (split; [done|]). split; [rewrite u64_id; lia|]. split; [done|]. split; [|split].
  - unfold inv. simpl. rewrite Es, frees_app. simpl. fold b.
    rewrite <- app_assoc in Hrm. by rewrite Z.add_assoc.
  - simpl. lia.
  - eapply quiet_trans; [exact Hq1|]. by eapply merge_quiet.
Qed.

Lemma coalesce_next_ok h l s r :
  inv h (l ++ (s, false) :: r) ->
  exists h' s' r', coalesce_next h (heap_start h + total l) = Some h' /\
    inv h' (l ++ (s', false) :: r') /\ s <= s' /\ heap_end h' = heap_end h /\
    quiet h (l ++ (s, false) :: r) h' (l ++ (s', false) :: r').
Proof.
  intros Hi. unfold coalesce_next. rewrite (next_physical_ok _ _ _ _ _ _ Hi).
  pose proof (rep_fields _ _ _ _ _ _ Hi) as (_ & _ & _ & _ & B1 & _ & B3 & _).
  assert (Hid : exists h' s' r', Some h = Some h' /\ inv h' (l ++ (s', false) :: r') /\ s <= s' /\
    heap_end h' = heap_end h /\ quiet h (l ++ (s, false) :: r) h' (l ++ (s', false) :: r')).
  { exists h, s, r. split; [done|]. split; [done|]. split; [lia|]. split; [done|apply quiet_refl]. }
  destruct r as [|[s2 u2] r]; [done|].
  pose proof Hi as Hi2. unfold inv in Hi2. replace (l ++ (s, false) :: (s2, u2) :: r)
    with ((l ++ [(s, false)]) ++ (s2, u2) :: r) in Hi2 by (by rewrite <- app_assoc).
  pose proof (rep_fields _ _ _ _ _ _ Hi2) as (_ & _ & _ & G1 & G2 & _).
  rewrite total_app in G1. simpl in G1.
  replace (heap_start h + (total l + (s + 0))) with (heap_start h + total l + s) in G1 by lia.
  unfold NULL. rewrite (proj2 (Z.eqb_neq _ 0)), G1 by lia. destruct u2; [done|]. simpl.
  destruct (absorb_ok _ _ _ _ _ Hi) as (h1 & h2 & E1 & E2 & E3 & E4 & E5 & Hi' & He & Hq).
  rewrite E1. simpl. rewrite E2, E3, E4. simpl in E5. rewrite E5. exists h2, (s + s2), r.
  split; [done|]. split; [done|]. split; [lia|]. done.
Qed.

Lemma last_addr_snoc p a l s u : last_addr p a (l ++ [(s, u)]) = a + total l.
Proof. by rewrite last_addr_app. Qed.

Lemma coalesce_prev_ok h l s r :
  inv h (l ++ (s, false) :: r) ->
  exists h' l' s', coalesce_prev h (heap_start h + total l) = Some h' /\
    inv h' (l' ++ (s', false) :: r) /\ s <= s' /\ heap_end h' = heap_end h /\
    quiet h (l ++ (s, false) :: r) h' (l' ++ (s', false) :: r).
Proof.
  intros Hi. unfold coalesce_prev.
  assert (Hid : exists h' l' s', Some h = Some h' /\ inv h' (l' ++ (s', false) :: r) /\ s <= s' /\
    heap_end h' = heap_end h /\ quiet h (l ++ (s, false) :: r) h' (l' ++ (s', false) :: r)).
  { exists h, l, s. split; [done|]. split; [done|]. split; [lia|]. split; [done|apply quiet_refl]. }
  pose proof (rep_fields _ _ _ _ _ _ Hi) as (B0 & B1 & _ & B2 & B3 & _ & B4 & _).
  rewrite B1. destruct l as [|[s0 u0] l] using rev_ind; [done|]. clear IHl.
  rewrite last_addr_snoc. rewrite <- app_assoc in Hi, Hid |- *. simpl in Hi, Hid |- *.
  rewrite total_app. simpl.
  pose proof (rep_fields _ _ _ _ _ _ Hi) as (C0 & _ & _ & C2 & C3 & _ & C4 & _).
  unfold NULL. rewrite (proj2 (Z.eqb_neq _ 0)), C2 by lia. destruct u0; [done|]. simpl.
  destruct (absorb_ok _ _ _ _ _ Hi) as (h1 & h2 & E1 & E2 & E3 & E4 & E5 & Hi' & He & Hq).
  replace (heap_start h + (total l + (s0 + 0))) with (heap_start h + total l + s0) by lia.
  rewrite E1. simpl. rewrite E2, E3, E4. simpl in E5. rewrite E5. exists h2, l, (s0 + s).
  split; [done|]. split; [done|]. split; [lia|]. done.
Qed.

Lemma coalesce_ok h l s r :
  inv h (l ++ (s, false) :: r) ->
  exists h' l' s' r', coalesce_blocks h (heap_start h + total l) = Some h' /\
    inv h' (l' ++ (s', false) :: r') /\ s <= s' /\ heap_end h' = heap_end h /\
    quiet h (l ++ (s, false) :: r) h' (l' ++ (s', false) :: r').
Proof.
  intros Hi. unfold coalesce_blocks.
  pose proof (rep_fields _ _ _ _ _ _ Hi) as (_ & _ & _ & B2 & _ & _ & B4 & _).
  unfold NULL. rewrite (proj2 (Z.eqb_neq _ 0)), B2 by lia. simpl.
  destruct (coalesce_next_ok _ _ _ _ Hi) as (h1 & s1 & r1 & -> & Hi1 & Hs1 & He1 & Hq1). simpl.
  rewrite <- (q_start _ _ _ _ Hq1).
  destruct (coalesce_prev_ok _ _ _ _ Hi1) as (h2 & l2 & s2 & -> & Hi2 & Hs2 & He2 & Hq2).
  exists h2, l2, s2, r1. split; [done|]. split; [done|]. split; [lia|]. split; [congruence|].
  by eapply quiet_trans.
Qed.

(** ** Splitting *)

(** A fresh free header written at [nb]. *)
Definition new_header (m : mem) (nb sz prev : Z) : mem :=
  block_set_free (set_hflags (set_hnext (set_hprev (set_hsize m nb sz) nb prev) nb NULL) nb 0) nb.

Lemma new_header_core m nb sz prev :
  0 <= sz < 2 ^ 64 -> 0 <= prev < 2 ^ 64 ->
  core (new_header m nb sz prev) nb = (sz, prev, HEAP_BLOCK_FREE_MAGIC, 0).
Proof.
  intros. destruct (core m nb) as [[[x1 x2] x3] x4] eqn:E. unfold new_header.
  eapply core_set_free; [by left|]. eapply core_set_flags; [lia|].
  rewrite core_set_next by by left. eapply core_set_prev; [done|]. by eapply core_set_size.
Qed.

Lemma new_header_frame m nb sz prev : frame [nb] m (new_header m nb sz prev).
Proof.
  unfold new_header. eapply frame_trans; [apply frame_set_size; left|].
  eapply frame_trans; [apply frame_set_prev; left|].
  eapply frame_trans; [apply frame_set_next; left|].
  eapply frame_trans; [apply frame_set_flags; left|]. apply frame_set_free; left.
Qed.

Lemma frame_next_at b m m' b' : frame [b] m m' -> sep b b' -> hdr_next m' b' = hdr_next m b'.
Proof.
  intros Hf Hs. apply (frame_next [b]); [done|]. intros x ->%list_elem_of_singleton. done.
Qed.

Lemma carve_ok h l s u r F size :
  rep h (l ++ (s, u) :: r) F -> 64 <= size -> size mod 16 = 0 -> 64 <= s - size ->
  let b := heap_start h + total l in
  let h1 := with_mem (set_hsize (new_header (h_mem h) (b + size) (s - size) b) b size) h in
  exists m', fix_prev h1 (block_get_next_physical h1 (b + size)) (b + size) = with_mem m' h /\
    rep (with_mem m' h) (l ++ (size, u) :: (s - size, false) :: r) F /\
    frame (addrs (heap_start h) (l ++ (size, u) :: (s - size, false) :: r)) (h_mem h) m'.
Proof.
  intros Hr H1 H2 H3 b h1. pose proof (rep_core _ _ _ _ _ _ Hr) as Hc.
  pose proof (rep_fields _ _ _ _ _ _ Hr) as (_ & _ & _ & _ & B3 & B4 & B5 & B6). fold b in Hc, B5, B6.
  destruct Hr as [R1 R2 R3 R4 R5 R6 R7 R8 R9]. pose proof R5 as R5'.
  rewrite Forall_app, Forall_cons in R5'. destruct R5' as (Sl & _ & Sr).
  rewrite total_app in R4. simpl in R4. pose proof (total_nonneg l Sl). pose proof (total_nonneg r Sr).
  apply blocks_app in R6 as [Bl [_ Br]]. fold b in Br.
  pose proof (new_header_core (h_mem h) (b + size) (s - size) b ltac:(lia) ltac:(lia)) as Hcn.
  pose proof (new_header_frame (h_mem h) (b + size) (s - size) b) as Hfn.
  set (m5 := new_header (h_mem h) (b + size) (s - size) b) in *.
  set (m6 := set_hsize m5 b size) in *.
  assert (Hf6 : frame [b] m5 m6) by (apply frame_set_size; left).
  assert (Hother : forall x, sep b x -> sep (b + size) x -> core m6 x = core (h_mem h) x).
  { intros x X1 X2. rewrite (frame_core_at b m5 m6) by done. by apply (frame_core_at (b + size)). }
  assert (Hcb : core m6 b = (size, last_addr 0 (heap_start h) l, bmagic u, bflag u)).
  { eapply core_set_size; [lia|]. rewrite <- Hc. apply (frame_core_at (b + size)); [done|].
    unfold sep. lia. }
  assert (Hcn6 : core m6 (b + size) = (s - size, b, bmagic false, bflag false)).
  { rewrite (frame_core_at b m5 m6) by (done || unfold sep; lia). exact Hcn. }
  destruct (fix_prev_ok h1 (b + size) (s - size) r b (b + size)) as (m' & E & Hf & Hbl & Hnx);
    simpl; fold m5 m6; try lia; auto.
  { injection Hcn6; auto. }
  { dlia. }
  { replace (b + size + (s - size)) with (b + s) by lia. eapply blocks_ext; [|exact Br].
    intros x Hx. apply addrs_bound in Hx; [|done]. apply Hother; unfold sep; lia. }
  replace (b + size + (s - size)) with (b + s) in * by lia.
  simpl in Hf, Hnx. fold m5 m6 in Hf, Hnx.
  assert (Hm' : forall x, x < b + s - 32 -> core m' x = core m6 x).
  { intros x Hx. apply (frame_core (addrs (b + s) r)); [done|]. intros y Hy.
    apply addrs_bound in Hy; [|done]. unfold sep. lia. }
  exists m'. split; [exact E|]. split; [split; simpl; auto|].
  - rewrite total_app. simpl. lia.
  - rewrite Forall_app, !Forall_cons. split; [done|]. unfold size_ok. simpl. repeat split; auto; dlia.
  - apply blocks_app. simpl. fold b. split; [|split; [|split]].
    + eapply blocks_ext; [|exact Bl]. intros x Hx. apply addrs_bound in Hx; [|done]. fold b in Hx.
      rewrite Hm' by lia. apply Hother; unfold sep; lia.
    + by rewrite Hm' by lia.
    + by rewrite Hm' by lia.
    + by replace (b + size + (s - size)) with (b + s) by lia.
  - eapply seg_ext; [|exact R7]. intros x Hx. pose proof (R8 x Hx) as Hin.
    rewrite addrs_app in Hin. simpl in Hin. rewrite elem_of_app, elem_of_cons in Hin. fold b in Hin.
    assert (Hcase : (x = b \/ sep b x) /\ sep (b + size) x /\ (x = b + s \/ sep (b + s) x)).
    { destruct Hin as [Hin|[->|Hin]].
      - apply addrs_bound in Hin; [|done]. unfold sep. lia.
      - unfold sep. lia.
      - destruct r as [|[s3 u3] r]; [by apply not_elem_of_nil in Hin|]. simpl in Hin.
        apply Forall_cons in Sr as [[C1 _] Sr]. simpl in C1.
        apply elem_of_cons in Hin as [->|Hin]; [unfold sep; lia|].
        apply addrs_bound in Hin; [|done]. unfold sep. lia. }
    destruct Hcase as (X1 & X2 & X3). rewrite Hnx by done. unfold m6. rewrite next_set_size by done.
    by apply (frame_next_at (b + size)).
  - intros x Hx. pose proof (R8 x Hx) as Hin. rewrite addrs_app in *. simpl in *.
    rewrite elem_of_app, !elem_of_cons in *. fold b in Hin |- *.
    replace (b + size + (s - size)) with (b + s) by lia. tauto.
  - rewrite addrs_app. simpl. fold b. replace (b + size + (s - size)) with (b + s) by lia.
    eapply frame_trans; [eapply frame_mono; [|exact Hfn]|];
      [intros x ->%list_elem_of_singleton; rewrite elem_of_app, !elem_of_cons; auto|].
    eapply frame_trans; [eapply frame_mono; [|exact Hf6]|];
      [intros x ->%list_elem_of_singleton; rewrite elem_of_app, !elem_of_cons; auto|].
    eapply frame_mono; [|exact Hf]. intros x Hx. rewrite elem_of_app, !elem_of_cons. auto.
Qed.
End Ops.
