(* ===== verification/HeapAlloc.v ===== *)
(** * Allocation, release and growth of the heap *)
From S2P Require Import Prelude Memory PageAlloc Heap HeapRep HeapOps.

Section Alloc.
Context {S : Type} `{PageAllocator S}.
Implicit Types h : heap S.

(** ** Splitting a block that is not linked *)

(** The free blocks with the block between [l] and [r] left out. *)
Definition others (start : Z) (l : list (Z * bool)) (s : Z) (r : list (Z * bool)) : list Z :=
  frees start l ++ frees (start + total l + s) r.

Lemma split_unfold h b size :
  split_block h b size =
    let rem := u64 (block_get_size (h_mem h) b - size) in
    if rem <? 64 then Some h
    else
      let nb := u64 (b + size) in
      let h1 := with_mem (set_hsize (new_header (h_mem h) nb rem b) b size) h in
      h2 ← free_list_add (fix_prev h1 (block_get_next_physical h1 nb) nb) nb;
      Some (add_blocks 1 h2).
Proof. done. Qed.

Lemma used_in_flag start l s r s' r' a sz :
  (forall a sz, used_in (start + total l + s) r a sz <-> used_in (start + total l + s') r' a sz) ->
  used_in start (l ++ (s, false) :: r) a sz <-> used_in start (l ++ (s', false) :: r') a sz.
Proof. intros E. rewrite !used_in_split. simpl. rewrite E. naive_solver. Qed.

Lemma addrs_flags a l s u r : addrs a (l ++ (s, u) :: r) = addrs a (l ++ (s, false) :: r).
Proof. apply addrs_flag. Qed.

(** [split_block] on an unlinked block: the block keeps at least [size] bytes, the
    other used blocks stay, and the payload up to [size] stays. *)
Lemma split_ok h l s u r size :
  rep h (l ++ (s, u) :: r) (others (heap_start h) l s r) ->
  64 <= size <= s -> size mod 16 = 0 ->
  let b := heap_start h + total l in
  exists h' s' r', split_block h b size = Some h' /\
    rep h' (l ++ (s', u) :: r') (others (heap_start h) l s' r') /\
    size <= s' < size + 64 /\ s' <= s /\ heap_end h' = heap_end h /\
    quiet h (l ++ (s, false) :: r) h' (l ++ (s', false) :: r') /\
    agree (h_mem h) (h_mem h') (b + 32) (size - 32).
Proof.
  intros Hr H1 H2 b. rewrite split_unfold.
  pose proof (rep_fields _ _ _ _ _ _ Hr) as (B0 & _ & _ & _ & B3 & B4 & B5 & B6). fold b in B0, B5, B6.
  pose proof (rp_end _ _ _ Hr) as Hend. rewrite B0, !u64_id by lia. cbv zeta.
  destruct (s - size <? 64) eqn:E64; zbool.
  { exists h, s, r. split; [done|]. split; [done|]. split; [lia|]. split; [lia|]. split; [done|].
    split; [apply quiet_refl|done]. }
  destruct (carve_ok h l s u r _ size Hr) as (m' & Ef & Hr' & Hf); [lia..|].
  fold b in Ef, Hr', Hf. rewrite Ef. set (bs := l ++ (size, u) :: (s - size, false) :: r) in *.
  assert (Ebs : bs = (l ++ [(size, u)]) ++ (s - size, false) :: r) by (unfold bs; by rewrite <- app_assoc).
  pose proof (rp_sizes _ _ _ Hr') as Ss. pose proof (rp_sizes _ _ _ Hr) as S0. rewrite Ebs in Hr'.
  assert (Enb : heap_start h + total (l ++ [(size, u)]) = b + size)
    by (rewrite total_app; simpl; unfold b; lia).
  assert (Hlo : forall x, x ∈ frees (heap_start h) l -> x < b).
  { intros x Hx. rewrite Forall_app in S0. apply frees_addrs, addrs_bound in Hx; [unfold b; lia|tauto]. }
  assert (Hhi : forall x, x ∈ frees (b + s) r -> b + size < x).
  { intros x Hx. rewrite Forall_app, Forall_cons in S0. apply frees_addrs, addrs_bound in Hx; [lia|tauto]. }
  unfold others in Hr'. fold b in Hr'.
  destruct (add_ok (with_mem m' h) (l ++ [(size, u)]) (s - size) r (frees (heap_start h) l) (frees (b + s) r))
    as (h2 & E2 & Hr2 & Ht2); simpl; rewrite ?Enb; auto.
  { intros [Hx|Hx]%elem_of_app; [apply Hlo in Hx|apply Hhi in Hx]; lia. }
  { intros x Hx%Hlo. lia. }
  simpl in E2, Hr2, Ht2. rewrite Enb in E2, Hr2. rewrite E2. simpl. rewrite <- Ebs in Hr2, Ht2.
  assert (Ht : touches (addrs (heap_start h) bs) h h2)
    by (eapply touches_trans; [by apply touches_mem|done]).
  exists (add_blocks 1 h2), size, ((s - size, false) :: r). split; [done|].
  split; [|split; [lia|split; [lia|split; [by apply Ht|split]]]].
  - apply rep_stats. unfold others. simpl. fold b.
    by replace (b + size + (s - size)) with (b + s) by lia.
  - apply quiet_stats, quiet_touches; [by eapply sizes_flag..| |].
    + intros a sz. apply used_in_flag. clear a sz. intros a sz. rewrite used_in_cons. simpl. fold b.
      replace (b + size + (s - size)) with (b + s) by lia. naive_solver.
    + eapply touches_mono; [|exact Ht]. unfold bs. intros x Hx. rewrite addrs_flags in Hx.
      apply elem_of_app. by right.
  - intros x Hx. symmetry. apply (t_frame _ _ _ Ht). intros y Hy. unfold bs in Hy.
    rewrite addrs_flag with (u' := true) in Hy.
    eapply (used_payload (heap_start h)); [|exists l, ((s - size, false) :: r); done|exact Hy|fold b; lia].
    by eapply sizes_flag.
Qed.

(** ** The search *)

Lemma find_free_loop_ok fuel m cur F size :
  seg m cur F 0 -> (length F < fuel)%nat -> 0 ∉ F ->
  (exists F1 x F2, F = F1 ++ x :: F2 /\ find_free_loop fuel m cur size = Some x /\
     size <= block_get_size m x /\ Forall (fun y => block_get_size m y < size) F1) \/
  (find_free_loop fuel m cur size = Some NULL /\ Forall (fun y => block_get_size m y < size) F).
Proof.
  revert fuel cur. induction F as [|x F IH]; intros fuel cur Hs Hf H0; (destruct fuel as [|fuel]; [simpl in Hf; lia|]).
  - simpl in Hs. subst. right. split; [done|constructor].
  - simpl in Hs. destruct Hs as [-> Hs]. apply not_elem_of_cons in H0 as [H0 H0'].
    cbn [find_free_loop]. unfold NULL. rewrite (proj2 (Z.eqb_neq x 0)) by congruence.
    destruct (size <=? block_get_size m x) eqn:E; zbool.
    + left. exists [], x, F. split; [done|]. split; [done|]. split; [done|constructor].
    + destruct (IH fuel _ Hs) as [(F1 & y & F2 & -> & -> & Hy & H1)|[-> H1]]; [simpl in Hf; lia|done| |].
      * left. exists (x :: F1), y, F2. split; [done|]. split; [done|]. split; [done|]. by constructor.
      * right. split; [done|]. by constructor.
Qed.

Lemma frees_split a bs F1 x F2 :
  frees a bs = F1 ++ x :: F2 ->
  exists l s r, bs = l ++ (s, false) :: r /\ x = a + total l /\ F1 = frees a l /\ F2 = frees (x + s) r.
Proof.
  revert a F1. induction bs as [|[s u] bs IH]; intros a F1 E; simpl in E; [by destruct F1|].
  assert (Hrec : forall F1', frees (a + s) bs = F1' ++ x :: F2 ->
    F1 = (if u then [] else [a]) ++ F1' ->
    exists l s0 r, (s, u) :: bs = l ++ (s0, false) :: r /\ x = a + total l /\ F1 = frees a l /\
      F2 = frees (x + s0) r).
  { intros F1' E' ->. destruct (IH _ _ E') as (l & s' & r & -> & -> & -> & ->).
    exists ((s, u) :: l), s', r. simpl. split; [done|]. split; [lia|]. split; done. }
  destruct u; simpl in E.
  - by apply (Hrec F1).
  - destruct F1 as [|y F1]; simpl in E; injection E as <- E.
    + exists [], s, bs. simpl. rewrite Z.add_0_r. by subst.
    + by apply (Hrec F1).
Qed.

(** The first block of the list that is large enough, or [NULL] when there is none. *)
Lemma find_free_ok h bs size :
  inv h bs ->
  (exists l s r, bs = l ++ (s, false) :: r /\
     find_free_block h size = Some (heap_start h + total l) /\ size <= s /\
     (forall s1, (s1, false) ∈ l -> s1 < size)) \/
  (find_free_block h size = Some NULL /\ forall s1, (s1, false) ∈ bs -> s1 < size).
Proof.
  intros Hi. unfold find_free_block.
  assert (Hsz : forall l s r, bs = l ++ (s, false) :: r -> block_get_size (h_mem h) (heap_start h + total l) = s
    /\ heap_start h + total l ∈ frees (heap_start h) bs).
  { intros l s r ->. split; [by apply (rep_fields _ _ _ _ _ _ Hi)|]. rewrite frees_app. set_solver. }
  assert (Hsmall : forall l s1 k, bs = l ++ k -> (s1, false) ∈ l ->
    Forall (fun y => block_get_size (h_mem h) y < size) (frees (heap_start h) l) -> s1 < size).
  { intros l s1 k E (l1 & l2 & ->)%list_elem_of_split HF. rewrite Forall_forall in HF.
    rewrite <- app_assoc in E. simpl in E. destruct (Hsz _ _ _ E) as [<- _]. apply HF.
    rewrite frees_app. set_solver. }
  destruct (find_free_loop_ok (walk_bound h) (h_mem h) (free_list h) (frees (heap_start h) bs) size)
    as [(F1 & x & F2 & E & -> & Hx & HF)|[-> HF]].
  - apply Hi.
  - eapply rep_fuel. exact Hi.
  - intros Hin. apply (rp_sub _ _ _ Hi) in Hin. apply (rep_bound _ _ _ _ Hi) in Hin. lia.
  - destruct (frees_split _ _ _ _ _ E) as (l & s & r & Eb & -> & -> & ->). left. exists l, s, r.
    split; [done|]. split; [done|]. destruct (Hsz _ _ _ Eb) as [Es _]. split; [lia|].
    intros s1 Hin. by eapply Hsmall.
  - right. split; [done|]. intros s1 Hin. eapply (Hsmall bs s1 []); [by rewrite app_nil_r|done|done].
Qed.

(** ** Taking a block *)

Lemma touch_quiet h l s u r m' :
  Forall size_ok (l ++ (s, u) :: r) -> frame [heap_start h + total l] (h_mem h) m' ->
  quiet h (l ++ (s, false) :: r) (with_mem m' h) (l ++ (s, false) :: r).
Proof.
  intros Hs Hf. apply quiet_touched; [by eapply sizes_flag|]. apply touches_mem.
  eapply frame_mono; [|exact Hf]. intros x ->%list_elem_of_singleton. apply in_addrs.
Qed.

Lemma take_ok h l s r size :
  inv h (l ++ (s, false) :: r) -> 64 <= size <= s -> size mod 16 = 0 ->
  let b := heap_start h + total l in
  exists h' s' r', take_block h b size = Some (h', b + 32) /\
    inv h' (l ++ (s', true) :: r') /\ size <= s' < size + 64 /\ heap_end h' = heap_end h /\
    quiet h (l ++ (s, false) :: r) h' (l ++ (s', false) :: r').
Proof.
  intros Hi H1 H2 b. unfold take_block. unfold inv in Hi. rewrite frees_app in Hi. simpl in Hi.
  destruct (remove_ok _ _ _ _ _ Hi) as (h1 & E1 & Hr1 & Ht1). fold b in E1. rewrite E1. simpl.
  pose proof (quiet_touched _ _ _ (rp_sizes _ _ _ Hi) Ht1) as Hq1.
  pose proof (t_start _ _ _ Ht1) as Es.
  assert (Hr1' : rep h1 (l ++ (s, false) :: r) (others (heap_start h1) l s r))
    by (unfold others; by rewrite Es).
  destruct (split_ok h1 l s false r size Hr1') as (h2 & s' & r' & E2 & Hr2 & Hs & Hs' & He & Hq2 & _);
    [done..|].
  rewrite Es in E2. fold b in E2. rewrite E2. simpl. clear E1 E2.
  pose proof (q_start _ _ _ _ Hq2) as Es2. rewrite Es in Es2.
  pose proof (set_used_ok _ _ _ _ _ Hr2) as Hr3. rewrite Es2 in Hr3. fold b in Hr3.
  assert (Hq3 : quiet h2 (l ++ (s', false) :: r')
    (with_mem (block_set_used (h_mem h2) b) h2) (l ++ (s', false) :: r')).
  { eapply touch_quiet; [apply Hr2|]. rewrite Es2. apply frame_set_used. left. }
  pose proof (rep_fields _ _ _ _ _ _ Hr3) as (_ & _ & _ & _ & _ & _ & Hb0 & Hb1).
  pose proof (rp_end _ _ _ Hr3) as Hend. simpl in Hb0, Hb1, Hend. rewrite Es2 in Hb0, Hb1. fold b in Hb0, Hb1.
  eexists _, s', r'. split; [unfold block_to_data, sizeof_heap_block; rewrite u64_id by lia; done|].
  split; [|split; [done|split]].
  - apply rep_stats, rep_stats. simpl. rewrite frees_app. simpl. rewrite Es2.
    rewrite Es in Hr3. exact Hr3.
  - simpl. rewrite He. apply Ht1.
  - apply quiet_stats, quiet_stats. eapply quiet_trans; [exact Hq1|].
    eapply quiet_trans; [exact Hq2|exact Hq3].
Qed.

(** ** Growth *)

Lemma find_last_ok fuel h F l s u r :
  rep h (l ++ (s, u) :: r) F -> (length r < fuel)%nat ->
  find_last fuel h (heap_start h + total l) =
    Some (last_addr (heap_start h + total l) (heap_start h + total l + s) r).
Proof.
  revert fuel l s u. induction r as [|[s2 u2] r IH]; intros fuel l s u Hr Hf;
    (destruct fuel as [|fuel]; [simpl in Hf; lia|]); cbn [find_last].
  all: pose proof (rep_fields _ _ _ _ _ _ Hr) as (_ & _ & _ & _ & B3 & _ & B5 & B6).
  all: rewrite (next_physical_ok _ _ _ _ _ _ Hr); unfold NULL;
    rewrite (proj2 (Z.eqb_neq (heap_start h + total l) 0)) by lia; cbv zeta.
  - done.
  - replace (l ++ (s, u) :: (s2, u2) :: r) with ((l ++ [(s, u)]) ++ (s2, u2) :: r) in Hr
      by (by rewrite <- app_assoc).
    pose proof (rep_fields _ _ _ _ _ _ Hr) as (_ & _ & _ & _ & C3 & _ & C5 & C6).
    specialize (IH fuel (l ++ [(s, u)]) s2 u2 Hr ltac:(simpl in Hf; lia)).
    rewrite total_app in *. simpl in *.
    replace (heap_start h + (total l + (s + 0))) with (heap_start h + total l + s) in * by lia.
    rewrite (proj2 (Z.eqb_neq _ 0)), (proj2 (Z.leb_gt _ _)) by lia. exact IH.
Qed.

Lemma rep_frame_end h bs F m' :
  rep h bs F -> frame [heap_end h] (h_mem h) m' -> rep (with_mem m' h) bs F.
Proof.
  intros Hr Hf. assert (Hsep : forall x, x ∈ addrs (heap_start h) bs -> sep (heap_end h) x).
  { intros x Hx. apply (rep_bound _ _ _ _ Hr) in Hx. unfold sep. lia. }
  destruct Hr as [R1 R2 R3 R4 R5 R6 R7 R8 R9]. split; simpl; auto.
  - eapply blocks_ext; [|exact R6]. intros x Hx. apply (frame_core_at (heap_end h)); auto.
  - eapply seg_ext; [|exact R7]. intros x Hx. apply (frame_next_at (heap_end h)); auto.
Qed.

(** One free block appended behind the end of the heap, not linked yet. *)
Lemma extend_ok h bs F m' e :
  rep h bs F -> frame [heap_end h] (h_mem h) m' ->
  core m' (heap_end h) = (e, last_addr 0 (heap_start h) bs, bmagic false, bflag false) ->
  64 <= e -> e mod 16 = 0 -> heap_end h + e < 2 ^ 63 ->
  rep (with_end (heap_end h + e) (with_mem m' h)) (bs ++ [(e, false)]) F.
Proof.
  intros Hr Hf Hc H1 H2 H3. pose proof (rep_frame_end _ _ _ _ Hr Hf) as Hr'.
  destruct Hr' as [R1 R2 R3 R4 R5 R6 R7 R8 R9]. simpl in *. split; simpl; auto.
  - rewrite total_app. simpl. lia.
  - rewrite Forall_app, Forall_singleton. done.
  - apply blocks_app. split; [done|]. rewrite R4. done.
  - intros x Hx. rewrite addrs_app. apply elem_of_app. left. by apply R8.
Qed.

Lemma quiet_extend h bs F m' e :
  rep h bs F -> frame [heap_end h] (h_mem h) m' ->
  quiet h bs (with_end (heap_end h + e) (with_mem m' h)) (bs ++ [(e, false)]).
Proof.
  intros Hr Hf. split; simpl; auto.
  - intros a sz. rewrite (used_in_split _ bs). split; [by left|].
    intros [|[[]|(l & r & E & _)]]; [done..|by destruct l].
  - intros a sz (l & r & -> & ->) x Hx. symmetry. apply Hf. intros y ->%list_elem_of_singleton.
    apply rep_fields in Hr. lia.
Qed.

Lemma last_addr_cons_snoc p a bs :
  bs <> [] -> exists l s u, bs = l ++ [(s, u)] /\ last_addr p a bs = a + total l.
Proof.
  intros Hn. destruct bs as [|[s u] l] using rev_ind; [done|]. exists l, s, u.
  split; [done|]. apply last_addr_snoc.
Qed.

Lemma expand_size_ok x :
  65536 <= x < 2 ^ 64 ->
  let e := ALIGN_UP x PAGE_SIZE in
  e mod 4096 = 0 /\ (e = 0 \/ x <= e) /\ 0 <= e < 2 ^ 64.
Proof.
  intros Hx. unfold ALIGN_UP. change (Z.land ?y (Z.lnot (PAGE_SIZE - 1))) with (ALIGN_DOWN y (2 ^ 12)).
  cbv zeta. rewrite ALIGN_DOWN_pow2 by lia. unfold u64. change PAGE_SIZE with 4096.
  change (2 ^ 12) with 4096. change (2 ^ 64) with 18446744073709551616 in *. split; [|split]; dlia.
Qed.

(** The state in which [heap_expand] links the new block. *)
Lemma expand_header m b e p :
  0 <= e < 2 ^ 64 -> 0 <= p < 2 ^ 64 ->
  let m1 := set_hflags (set_hnext (set_hsize m b e) b NULL) b 0 in
  frame [b] m m1 /\ frame [b] m (block_set_free (set_hprev m1 b p) b) /\
  core (block_set_free (set_hprev m1 b p) b) b = (e, p, bmagic false, bflag false).
Proof.
  intros He Hp m1. assert (F1 : frame [b] m m1).
  { eapply frame_trans; [apply frame_set_size; left|].
    eapply frame_trans; [apply frame_set_next; left|]. apply frame_set_flags; left. }
  split; [done|]. split.
  - eapply frame_trans; [exact F1|]. eapply frame_trans; [apply frame_set_prev; left|].
    apply frame_set_free; left.
  - destruct (core m b) as [[[x1 x2] x3] x4] eqn:E.
    eapply core_set_free; [by left|]. eapply core_set_prev; [done|].
    eapply core_set_flags; [lia|]. rewrite core_set_next by by left. by eapply core_set_size.
Qed.

(** The blocks behind a walk from the start of the heap. *)
Lemma find_last_start h bs F :
  rep h bs F -> bs <> [] ->
  find_last (walk_bound h) h (heap_start h) = Some (last_addr 0 (heap_start h) bs).
Proof.
  intros Hr Hne. destruct bs as [|[s u] r]; [done|].
  assert (Hl : (length r < walk_bound h)%nat).
  { destruct Hr as [_ _ _ R4 R5 _ _ _ _]. pose proof (length_total _ R5) as Hl. simpl in Hl.
    unfold walk_bound. simpl in R4.
    assert (Z.of_nat (length r) <= (heap_end h - heap_start h) / 64) by dlia. lia. }
  pose proof (find_last_ok _ h F [] s u r Hr Hl) as E. simpl in E. rewrite Z.add_0_r in E. exact E.
Qed.

Context `{!PageAllocatorLaws S}.

(** The part of [heap_expand] after the pages were obtained. *)
Lemma grow_ok h bs e :
  inv h bs -> bs <> [] -> 64 <= e -> e mod 16 = 0 -> heap_end h + e < 2 ^ 63 ->
  let m := set_hflags (set_hnext (set_hsize (h_mem h) (heap_end h) e) (heap_end h) NULL) (heap_end h) 0 in
  exists p h1 h2 l s r, find_last (walk_bound h) (with_mem m h) (heap_start h) = Some p /\
    free_list_add (count_expand e (with_end (heap_end h + e)
      (with_mem (block_set_free (set_hprev m (heap_end h) p) (heap_end h)) h))) (heap_end h) = Some h1 /\
    coalesce_blocks h1 (heap_end h) = Some h2 /\
    inv h2 (l ++ (s, false) :: r) /\ e <= s /\ heap_end h2 = heap_end h + e /\
    quiet h bs h2 (l ++ (s, false) :: r).
Proof.
  intros Hi Hne H1 H2 H3 m.
  assert (Hp : 0 <= last_addr 0 (heap_start h) bs < 2 ^ 64).
  { destruct (last_addr_cons_snoc 0 (heap_start h) bs Hne) as (l & s & u & -> & ->).
    pose proof (rep_fields _ _ _ _ _ _ Hi) as (_ & _ & _ & _ & ? & _ & ? & ?).
    pose proof (rp_end _ _ _ Hi). lia. }
  pose proof (rp_start _ _ _ Hi) as Hst. pose proof (rp_total _ _ _ Hi) as Htot.
  pose proof (total_nonneg _ (rp_sizes _ _ _ Hi)) as Hnn.
  destruct (expand_header (h_mem h) (heap_end h) e _ ltac:(lia) Hp) as (Fm & Fm' & Hc).
  fold m in Fm, Fm', Hc. set (p := last_addr 0 (heap_start h) bs) in *.
  assert (Hfl : find_last (walk_bound h) (with_mem m h) (heap_start h) = Some p).
  { exact (find_last_start (with_mem m h) bs _ (rep_frame_end _ _ _ _ Hi Fm) Hne). }
  exists p. rewrite Hfl. clear Hfl.
  set (m' := block_set_free (set_hprev m (heap_end h) p) (heap_end h)) in *.
  pose proof (extend_ok _ _ _ _ _ Hi Fm' Hc H1 H2 H3) as Hr1.
  pose proof (quiet_extend _ _ _ _ e Hi Fm') as Hq1.
  set (h0 := with_end (heap_end h + e) (with_mem m' h)) in *.
  apply (rep_stats _ _ _ (h_stats (count_expand e h0))) in Hr1.
  apply (quiet_stats _ _ _ _ (h_stats (count_expand e h0))) in Hq1.
  change (with_stats (h_stats (count_expand e h0)) h0) with (count_expand e h0) in *.
  destruct (add_ok (count_expand e h0) bs e [] (frees (heap_start h) bs) []) as (h1 & E1 & Hr2 & Ht2);
    simpl; rewrite ?app_nil_r, ?Htot; auto.
  { intros Hx%frees_addrs. apply (rep_bound _ _ _ _ Hi) in Hx. lia. }
  { intros x Hx%frees_addrs. apply (rep_bound _ _ _ _ Hi) in Hx. lia. }
  { set_solver. }
  simpl in E1, Hr2, Ht2. rewrite Htot in E1, Hr2. exists h1. rewrite E1.
  pose proof (t_start _ _ _ Ht2) as Es. simpl in Es.
  destruct (coalesce_ok h1 bs e []) as (h2 & l & s & r & E2 & Hi2 & Hs2 & He2 & Hq2).
  { unfold inv. rewrite Es, frees_app. simpl. by rewrite Htot. }
  rewrite Es, Htot in E2. exists h2, l, s, r. split; [done|]. split; [done|]. split; [done|].
  split; [done|]. split; [lia|]. split; [rewrite He2; apply Ht2|].
  eapply quiet_trans; [exact Hq1|]. eapply quiet_trans; [|exact Hq2].
  apply quiet_touched; [apply Hr1|exact Ht2].
Qed.

Lemma inv_pa s h bs : inv h bs -> inv (with_pa s h) bs.
Proof. intros []. by split. Qed.
Lemma with_pa_id h : with_pa (h_pa h) h = h.
Proof. by destruct h. Qed.

(** [heap_expand]: either it fails and changes nothing, or the heap has a free
    block of at least [min_size] bytes afterwards. *)
Lemma expand_ok h bs min_size :
  inv h bs -> bs <> [] -> pa_wf (h_pa h) -> heap_max h < 2 ^ 63 -> 0 <= min_size < 2 ^ 64 ->
  heap_expand h min_size = Some (h, false) \/
  exists h' l s r, heap_expand h min_size = Some (h', true) /\
    inv h' (l ++ (s, false) :: r) /\ min_size <= s /\ pa_wf (h_pa h') /\ heap_end h' <= heap_max h /\
    quiet h bs h' (l ++ (s, false) :: r).
Proof.
  intros Hi Hne Hpa Hmax Hmin. unfold heap_expand.
  assert (Hmax' : 65536 <= Z.max min_size HEAP_EXPAND_SIZE < 2 ^ 64)
    by (unfold HEAP_EXPAND_SIZE, KB; lia).
  pose proof (expand_size_ok _ Hmax') as (E1 & E2 & E3). cbv zeta in E1, E2, E3.
  set (e := ALIGN_UP (Z.max min_size HEAP_EXPAND_SIZE) PAGE_SIZE) in *. cbv zeta.
  destruct (heap_max h <? u64 (heap_end h + e)) eqn:Em; zbool; [by left|].
  destruct (pa_alloc (e / PAGE_SIZE) (h_pa h)) as [phys pa] eqn:Ea.
  assert (Hn : 0 <= e / PAGE_SIZE) by (apply Z.div_pos; unfold PAGE_SIZE; lia).
  destruct (phys =? 0) eqn:Ep; zbool.
  { left. subst phys. apply pa_alloc_fail in Ea; [|done..]. subst pa. by rewrite with_pa_id. }
  right. destruct (pa_alloc_ok _ _ _ _ Hpa Hn Ea Ep) as (Hwf & Hn0 & Hph & _ & Hsz & _).
  assert (He : e = e / PAGE_SIZE * PAGE_SIZE) by (unfold PAGE_SIZE in *; dlia).
  rewrite <- He in Hsz. unfold GB, MB, KB in Hsz.
  assert (e <> 0) by (intros E0; rewrite E0 in Hn0; done).
  pose proof (rp_end _ _ _ Hi) as Hend. pose proof (rp_start _ _ _ Hi) as Hst.
  pose proof (rp_total _ _ _ Hi) as Htot. pose proof (total_nonneg _ (rp_sizes _ _ _ Hi)) as Hnn.
  assert (Ew : u64 (heap_end h + e) = heap_end h + e) by (apply u64_id; lia).
  rewrite Ew in Em. apply (inv_pa pa) in Hi. set (h0 := with_pa pa h) in *.
  destruct (grow_ok h0 bs e Hi Hne) as (p & h1 & h2 & l & s & r & G1 & G2 & G3 & G4 & G5 & G6 & Hq);
    [lia|dlia|simpl; lia|].
  exists h2, l, s, r. split.
  - match type of G1 with ?x = _ =>
      match goal with |- (?y ≫= _) = _ => change y with x end end.
    rewrite G1. cbn [mbind option_bind]. cbv zeta.
    match goal with |- context [with_end (u64 ?z)] => change z with (heap_end h + e) end.
    rewrite Ew. match type of G2 with ?x = _ =>
      match goal with |- (?y ≫= _) = _ => change y with x end end.
    rewrite G2. cbn [mbind option_bind]. by rewrite G3.
  - simpl in G6. split; [done|]. split; [lia|]. split; [by apply (q_pa _ _ _ _ Hq)|]. split; [lia|].
    destruct Hq as [Q1 Q2 Q3 Q4 Q5 Q6]. split; auto.
Qed.
End Alloc.
