(* ===== verification/HeapProps.v ===== *)
(** * The contract of the heap

    The abstract state of the heap is its set of live allocations: [live h p n]
    says that [p] was handed out and owns the [n] bytes from [p]. The theorems say
    what [heap_init], [kmalloc], [kfree], [kcalloc] and [krealloc] do to that set
    and to the bytes of the live allocations, for any page allocator that satisfies
    its laws, and that every loop ends within its bound. *)
From S2P Require Import Prelude Memory PageAlloc Heap HeapRep HeapOps HeapAlloc.

Section Contract.
Context {S : Type} `{PageAllocator S}.
Implicit Types h : heap S.

(** The heap is initialised and its blocks and free list are intact. *)
Record wf h : Prop := {
  wf_init : heap_initialized h = true;
  wf_pa : pa_wf (h_pa h);
  wf_max : heap_max h < 2 ^ 63;
  wf_inv : exists bs, bs <> [] /\ inv h bs;
}.

(** [p] is an allocation of [n] bytes. *)
Definition live h (p n : Z) : Prop :=
  exists bs, inv h bs /\ used_in (heap_start h) bs (p - 32) (n + 32).

Lemma blocks_unique m p p' a bs bs' :
  Forall size_ok bs -> Forall size_ok bs' -> total bs = total bs' ->
  blocks m p a bs -> blocks m p' a bs' -> bs = bs'.
Proof.
  intros Hs. revert p p' a bs'. induction Hs as [|[s u] bs [H1 _] Hs IH]; intros p p' a bs' Hs' Ht Hb Hb'.
  - destruct Hs' as [|[s' u'] bs' [H1' _] Hs']; [done|]. pose proof (total_nonneg _ Hs'). simpl in *. lia.
  - destruct Hs' as [|[s' u'] bs' [H1' _] Hs']; [pose proof (total_nonneg _ Hs); simpl in *; lia|].
    simpl in *. destruct Hb as [Hc Hb], Hb' as [Hc' Hb']. rewrite Hc in Hc'.
    injection Hc' as <- _ _ Hf. f_equal; [|eapply IH; [done|lia|done|done]].
    f_equal. destruct u, u'; simpl in Hf; congruence.
Qed.

Lemma inv_unique h bs bs' : inv h bs -> inv h bs' -> bs = bs'.
Proof. intros [] []. eapply blocks_unique; eauto. lia. Qed.

Lemma live_used h bs p n : inv h bs -> live h p n <-> used_in (heap_start h) bs (p - 32) (n + 32).
Proof.
  intros Hi. split; [|by exists bs]. intros (bs' & Hi' & Hu). by rewrite (inv_unique _ _ _ Hi Hi').
Qed.

Lemma used_in_true start l s r a sz :
  used_in start (l ++ (s, true) :: r) a sz <->
  used_in start (l ++ (s, false) :: r) a sz \/ (a = start + total l /\ sz = s).
Proof. rewrite !used_in_split. simpl. naive_solver. Qed.

Lemma used_in_bound start bs a sz :
  Forall size_ok bs -> used_in start bs a sz ->
  start <= a /\ a + sz <= start + total bs /\ 64 <= sz /\ sz mod 16 = 0.
Proof.
  intros Hs (l & r & -> & ->). rewrite Forall_app, Forall_cons in Hs. destruct Hs as (Sl & [H1 H2] & Sr).
  rewrite total_app. simpl in *. pose proof (total_nonneg l Sl). pose proof (total_nonneg r Sr). lia.
Qed.

Lemma used_in_disjoint start bs a sz a' sz' :
  Forall size_ok bs -> used_in start bs a sz -> used_in start bs a' sz' ->
  (a = a' /\ sz = sz') \/ a + sz <= a' \/ a' + sz' <= a.
Proof.
  intros Hs (l & r & -> & ->) Hu. rewrite used_in_split in Hu. simpl in Hu.
  rewrite Forall_app, Forall_cons in Hs. destruct Hs as (Sl & _ & Sr).
  destruct Hu as [Hu|[[[= <-] ->]|Hu]]; [|by left|].
  - apply used_in_bound in Hu; [lia|done].
  - apply used_in_bound in Hu; [lia|done].
Qed.

(** The block found by an allocation is not used yet. *)
Lemma free_not_used start l s r sz :
  Forall size_ok (l ++ (s, false) :: r) -> ~ used_in start (l ++ (s, false) :: r) (start + total l) sz.
Proof.
  intros Hs. rewrite used_in_split. simpl. rewrite Forall_app, Forall_cons in Hs.
  destruct Hs as (Sl & [H1 _] & Sr). simpl in H1. intros [Hu|[[]|Hu]]; [|done|];
    apply used_in_bound in Hu; [lia|done|lia|done].
Qed.

(** ** Sizes *)

Lemma total_mod bs : Forall size_ok bs -> total bs mod 16 = 0.
Proof. induction 1 as [|[s u] bs [_ Hs] _ IH]; simpl in *; [done|dlia]. Qed.

Lemma align16_ok x : 0 <= x -> x + 15 < 2 ^ 64 ->
  align_size x mod 16 = 0 /\ x <= align_size x < x + 16.
Proof.
  intros H0 H1. unfold align_size. change HEAP_ALIGNMENT with (2 ^ 4).
  rewrite ALIGN_UP_pow2 by lia. change (2 ^ 4) with 16. dlia.
Qed.

Lemma request_size_ok size :
  0 < size <= 2 ^ 64 - 64 ->
  request_size size mod 16 = 0 /\ 64 <= request_size size < 2 ^ 64 /\
  size + 32 <= request_size size < Z.max size 32 + 48.
Proof.
  intros Hs. unfold request_size, sizeof_heap_block, HEAP_MIN_BLOCK_SIZE.
  rewrite u64_id by lia. destruct (align16_ok (32 + Z.max size 32)); lia.
Qed.

Context `{!PageAllocatorLaws S}.

(** ** kmalloc *)

(** What a successful allocation of [size] bytes at [p] means. *)
Record allocated h h' (p size : Z) : Prop := {
  al_wf : wf h';
  al_ptr : p <> NULL /\ p mod 16 = 0;
  al_fresh : forall k, ~ live h p k;
  al_live : exists n, size <= n < Z.max size 32 + 80 /\
    forall q k, live h' q k <-> live h q k \/ (q = p /\ k = n);
  al_bytes : forall q k, live h q k -> agree (h_mem h) (h_mem h') q k;
}.

Lemma allocated_after h h1 h' p size :
  wf h1 -> (forall q k, live h1 q k <-> live h q k) ->
  (forall q k, live h q k -> agree (h_mem h) (h_mem h1) q k) ->
  allocated h1 h' p size -> allocated h h' p size.
Proof.
  intros Hw Hl Hb [A1 A2 A3 A4 A5]. split; auto.
  - intros k Hk. apply (A3 k). by apply Hl.
  - destruct A4 as (n & Hn & A4). exists n. split; [done|]. intros q k. by rewrite A4, Hl.
  - intros q k Hk x Hx. rewrite (Hb q k Hk x Hx). apply (A5 q k); [by apply Hl|done].
Qed.

Lemma quiet_live h bs h' bs' :
  inv h bs -> inv h' bs' -> quiet h bs h' bs' ->
  (forall q k, live h' q k <-> live h q k) /\
  (forall q k, live h q k -> agree (h_mem h) (h_mem h') q k).
Proof.
  intros Hi Hi' Hq. split.
  - intros q k. rewrite (live_used _ _ _ _ Hi), (live_used _ _ _ _ Hi').
    rewrite (q_start _ _ _ _ Hq). symmetry. apply Hq.
  - intros q k Hl. apply (live_used _ _ _ _ Hi) in Hl. apply (q_bytes _ _ _ _ Hq) in Hl.
    intros x Hx. apply Hl. lia.
Qed.

Lemma take_allocated h l s r size :
  wf h -> inv h (l ++ (s, false) :: r) -> 0 < size <= 2 ^ 64 - 64 -> request_size size <= s ->
  exists h', take_block h (heap_start h + total l) (request_size size) =
      Some (h', heap_start h + total l + 32) /\
    allocated h h' (heap_start h + total l + 32) size.
Proof.
  intros Hw Hi Hsz Hle. destruct (request_size_ok size Hsz) as (R1 & R2 & R3).
  destruct (take_ok h l s r (request_size size) Hi) as (h' & s' & r' & E & Hi' & Hs' & He & Hq); [lia..|].
  exists h'. split; [exact E|]. pose proof (rep_fields _ _ _ _ _ _ Hi) as (_ & _ & _ & _ & B3 & B4 & B5 & _).
  pose proof (q_start _ _ _ _ Hq) as Es. split.
  - destruct Hw as [W1 W2 W3 _]. split; [by rewrite (q_init _ _ _ _ Hq)|by apply (q_pa _ _ _ _ Hq)
      |by rewrite (q_max _ _ _ _ Hq)|]. exists (l ++ (s', true) :: r'). split; [by destruct l|done].
  - split; [unfold NULL; lia|]. pose proof (rp_align _ _ _ Hi) as Ha.
    assert (Ht : total l mod 16 = 0)
      by (apply total_mod; pose proof (rp_sizes _ _ _ Hi) as Hs; by apply Forall_app in Hs as [? _]).
    dlia.
  - intros k Hk. apply (live_used _ _ _ _ Hi) in Hk.
    replace (heap_start h + total l + 32 - 32) with (heap_start h + total l) in Hk by lia.
    by eapply free_not_used, Hk; apply Hi.
  - exists (s' - 32). split; [lia|]. intros q k. rewrite (live_used _ _ _ _ Hi), (live_used _ _ _ _ Hi').
    rewrite Es, used_in_true, <- (q_used _ _ _ _ Hq). split; (intros [|[]]; [by left|right; lia]).
  - intros q k Hl. apply (live_used _ _ _ _ Hi) in Hl. apply (q_bytes _ _ _ _ Hq) in Hl.
    intros x Hx. apply Hl. lia.
Qed.

Lemma kmalloc_sound h size :
  wf h -> 0 < size <= 2 ^ 64 - 64 ->
  kmalloc h size = Some (h, NULL) \/
  exists h' p, kmalloc h size = Some (h', p) /\ allocated h h' p size.
Proof.
  intros Hw Hsz. destruct (request_size_ok size Hsz) as (R1 & R2 & R3).
  destruct (wf_inv _ Hw) as (bs & Hne & Hi). unfold kmalloc. rewrite (wf_init _ Hw). simpl.
  rewrite (proj2 (Z.eqb_neq size 0)) by lia.
  assert (Hnz : forall h1 l s r, inv h1 (l ++ (s, false) :: r) -> (heap_start h1 + total l =? NULL) = false).
  { intros h1 l s r Hi1. apply Z.eqb_neq. apply rep_fields in Hi1. unfold NULL. lia. }
  destruct (find_free_ok h bs (request_size size) Hi) as [(l & s & r & -> & -> & Hle & _)|[-> _]]; simpl.
  - rewrite (Hnz _ _ _ _ Hi). right. destruct (take_allocated h l s r size Hw Hi Hsz Hle) as (h' & E & Ha).
    eauto.
  - destruct (expand_ok h bs (request_size size) Hi Hne (wf_pa _ Hw) (wf_max _ Hw)) as
      [->|(h1 & l & s & r & -> & Hi1 & Hle & Hpa1 & Hend & Hq)]; [lia|by left|]. simpl. right.
    assert (Hw1 : wf h1).
    { split; [rewrite (q_init _ _ _ _ Hq); apply Hw|done|rewrite (q_max _ _ _ _ Hq); apply Hw|].
      eexists. split; [|exact Hi1]. by destruct l. }
    destruct (find_free_ok h1 _ (request_size size) Hi1) as [(l2 & s2 & r2 & E2 & -> & Hle2 & _)|[_ Hall]].
    + simpl. rewrite E2 in *. rewrite (Hnz _ _ _ _ Hi1).
      destruct (take_allocated h1 l2 s2 r2 size Hw1 Hi1 Hsz Hle2) as (h' & E & Ha).
      exists h', (heap_start h1 + total l2 + 32). split; [exact E|].
      destruct (quiet_live _ _ _ _ Hi Hi1 Hq). by eapply allocated_after.
    + specialize (Hall s ltac:(set_solver)). lia.
Qed.

Lemma kmalloc_nonnull h h' p size :
  wf h -> 0 < size <= 2 ^ 64 - 64 -> kmalloc h size = Some (h', p) -> p <> NULL ->
  allocated h h' p size.
Proof.
  intros Hw Hs E Hp. destruct (kmalloc_sound h size Hw Hs) as [E'|(h1 & q & E' & Ha)];
    rewrite E' in E; injection E as <- <-; done.
Qed.

(** ** kfree *)

(** The allocation [p] is gone and nothing else changed. *)
Record released h h' (p : Z) : Prop := {
  re_wf : wf h';
  re_live : forall q k, live h' q k <-> live h q k /\ q <> p;
  re_bytes : forall q k, live h' q k -> agree (h_mem h) (h_mem h') q k;
}.

(** Marking a used block free and linking it. *)
Lemma link_freed h l s r :
  inv h (l ++ (s, true) :: r) ->
  let b := heap_start h + total l in
  exists h1, free_list_add (with_mem (block_set_free (h_mem h) b) h) b = Some h1 /\
    inv h1 (l ++ (s, false) :: r) /\ heap_end h1 = heap_end h /\
    quiet h (l ++ (s, false) :: r) h1 (l ++ (s, false) :: r).
Proof.
  intros Hi b. unfold inv in Hi. rewrite frees_app in Hi. simpl in Hi. fold b in Hi.
  pose proof (rp_sizes _ _ _ Hi) as Hs. pose proof Hs as Hs'. rewrite Forall_app, Forall_cons in Hs'.
  destruct Hs' as (Sl & [H1 _] & Sr). simpl in H1.
  pose proof (set_free_ok _ _ _ _ _ _ Hi) as Hr0. fold b in Hr0.
  assert (Hlo : forall x, x ∈ frees (heap_start h) l -> x < b)
    by (intros x Hx%frees_addrs; apply addrs_bound in Hx; [unfold b; lia|done]).
  assert (Hhi : forall x, x ∈ frees (b + s) r -> b < x)
    by (intros x Hx%frees_addrs; apply addrs_bound in Hx; [lia|done]).
  destruct (add_ok _ _ _ _ _ _ Hr0) as (h1 & E1 & Hr1 & Ht1); simpl; fold b; auto.
  { intros [Hx%Hlo|Hx%Hhi]%elem_of_app; lia. }
  simpl in E1, Hr1, Ht1. fold b in E1, Hr1. exists h1. split; [exact E1|].
  split; [|split; [apply Ht1|]].
  - unfold inv. rewrite (t_start _ _ _ Ht1). simpl. rewrite frees_app. exact Hr1.
  - eapply quiet_trans; [eapply touch_quiet; [exact Hs|apply frame_set_free; left]|].
    apply quiet_touched; [apply Hr0|exact Ht1].
Qed.

Lemma kfree_sound h p n :
  wf h -> live h p n -> exists h', kfree h p = Some h' /\ released h h' p.
Proof.
  intros Hw (bs & Hi & (l & r & -> & Hp)). set (b := heap_start h + total l) in *.
  pose proof (rep_fields _ _ _ _ _ _ Hi) as (B0 & _ & B1 & B2 & B3 & _ & B5 & B6).
  fold b in B0, B1, B2, B5, B6. pose proof (rp_end _ _ _ Hi) as Hend.
  pose proof (total_nonneg l ltac:(pose proof (rp_sizes _ _ _ Hi) as X; by apply Forall_app in X as [? _])).
  unfold kfree. unfold NULL. rewrite (proj2 (Z.eqb_neq p 0)), (wf_init _ Hw) by lia.
  unfold data_to_block, sizeof_heap_block. rewrite u64_id by lia. rewrite Hp, B1, B2, B0. simpl.
  rewrite (proj2 (Z.ltb_ge b (heap_start h))), (proj2 (Z.leb_gt (heap_end h) b)) by (unfold b in *; lia). simpl.
  destruct (link_freed _ _ _ _ Hi) as (h1 & E1 & Hi1 & He1 & Hq1). fold b in E1. rewrite E1. simpl.
  set (h1' := count_free _).
  assert (Hi1' : inv h1' (l ++ (n + 32, false) :: r)) by (by apply rep_stats, rep_stats).
  assert (Hq1' : quiet h (l ++ (n + 32, false) :: r) h1' (l ++ (n + 32, false) :: r))
    by (by apply quiet_stats, quiet_stats).
  destruct (coalesce_ok _ _ _ _ Hi1') as (h2 & l2 & s2 & r2 & E2 & Hi2 & _ & He2 & Hq2).
  rewrite (q_start _ _ _ _ Hq1') in E2. fold b in E2. exists h2. split; [exact E2|].
  pose proof (quiet_trans _ _ _ _ _ _ Hq1' Hq2) as Hq. split.
  - destruct Hw as [W1 W2 W3 _]. split; [by rewrite (q_init _ _ _ _ Hq)|by apply (q_pa _ _ _ _ Hq)
      |by rewrite (q_max _ _ _ _ Hq)|]. eexists. split; [|exact Hi2]. by destruct l2.
  - intros q k. rewrite (live_used _ _ _ _ Hi), (live_used _ _ _ _ Hi2), (q_start _ _ _ _ Hq).
    rewrite <- (q_used _ _ _ _ Hq), used_in_true. split.
    + intros Hu. split; [by left|]. intros ->. rewrite Hp in Hu.
      eapply free_not_used, Hu. eapply sizes_flag, Hi.
    + intros [[Hu|[E _]] Hne]; [done|]. fold b in E. lia.
  - intros q k Hl. apply (live_used _ _ _ _ Hi2) in Hl. rewrite (q_start _ _ _ _ Hq) in Hl.
    apply (q_used _ _ _ _ Hq), (q_bytes _ _ _ _ Hq) in Hl. intros x Hx. apply Hl. lia.
Qed.

(** ** Writes of the owner of an allocation *)

(** The memory changed only inside the [n] bytes from [p]. *)
Definition inside (p n : Z) (m m' : mem) : Prop := forall x, x < p \/ p + n <= x -> m' x = m x.

Lemma inside_header p n m m' b :
  inside p n m m' -> b + 32 <= p \/ p + n <= b -> core m' b = core m b /\ hdr_next m' b = hdr_next m b.
Proof.
  intros Hin Hb. assert (Hl : forall k o, 0 <= o -> o + Z.of_nat k <= 32 -> load k m' (b + o) = load k m (b + o)).
  { intros k o Ho Hk. apply load_agree. intros x Hx. apply Hin. lia. }
  unfold core, hdr_size, hdr_next, hdr_prev, hdr_magic, hdr_flags. rewrite !Hl by lia.
  pose proof (Hl 8%nat 0 ltac:(lia) ltac:(simpl; lia)) as E. rewrite Z.add_0_r in E. by rewrite E.
Qed.

Lemma inv_inside h bs p n m' :
  inv h bs -> used_in (heap_start h) bs (p - 32) (n + 32) -> inside p n (h_mem h) m' ->
  inv (with_mem m' h) bs.
Proof.
  intros Hi Hu Hin. assert (Hh : forall b, b ∈ addrs (heap_start h) bs ->
    core m' b = core (h_mem h) b /\ hdr_next m' b = hdr_next (h_mem h) b).
  { intros b Hb. eapply inside_header; [exact Hin|]. pose proof (rp_sizes _ _ _ Hi) as Hs.
    destruct (Z.le_gt_cases (b + 32) p); [by left|]. right.
    destruct (Z.le_gt_cases (p + n) b); [done|exfalso].
    destruct Hu as (l & r & -> & E). rewrite Forall_app, Forall_cons in Hs.
    destruct Hs as (Sl & _ & Sr). rewrite addrs_app, elem_of_app in Hb. simpl in Hb.
    rewrite elem_of_cons in Hb. destruct Hb as [Hb|[->|Hb]]; [|lia|];
      apply addrs_bound in Hb; [lia|done|lia|done]. }
  destruct Hi as [R1 R2 R3 R4 R5 R6 R7 R8 R9]. split; simpl; auto.
  - eapply blocks_ext; [|exact R6]. intros b Hb. by apply Hh.
  - eapply seg_ext; [|exact R7]. intros b Hb. apply Hh. by apply R8.
Qed.

Lemma live_disjoint h p n q k :
  live h p n -> live h q k -> (p = q /\ n = k) \/ p + n + 32 <= q \/ q + k + 32 <= p.
Proof.
  intros (bs & Hi & Hu) Hl. apply (live_used _ _ _ _ Hi) in Hl.
  destruct (used_in_disjoint _ _ _ _ _ _ (rp_sizes _ _ _ Hi) Hu Hl); lia.
Qed.

Lemma live_bound h p n :
  live h p n -> heap_start h + 32 <= p /\ p + n <= heap_end h /\ 32 <= n /\ 0 < p /\ p + n < 2 ^ 63.
Proof.
  intros (bs & Hi & Hu). pose proof (used_in_bound _ _ _ _ (rp_sizes _ _ _ Hi) Hu).
  pose proof (rp_total _ _ _ Hi). pose proof (rp_start _ _ _ Hi). pose proof (rp_end _ _ _ Hi). lia.
Qed.

Lemma client_write h p n m' :
  wf h -> live h p n -> inside p n (h_mem h) m' ->
  wf (with_mem m' h) /\ (forall q k, live (with_mem m' h) q k <-> live h q k) /\
  (forall q k, live h q k -> q <> p -> agree (h_mem h) m' q k).
Proof.
  intros Hw Hl Hin. destruct Hw as [W1 W2 W3 (bs & Hne & Hi)].
  pose proof (proj1 (live_used _ _ _ _ Hi) Hl) as Hu.
  pose proof (inv_inside _ _ _ _ _ Hi Hu Hin) as Hi'. split; [|split].
  - split; auto. by exists bs.
  - intros q k. by rewrite (live_used _ _ _ _ Hi), (live_used _ _ _ _ Hi').
  - intros q k Hq Hne' x Hx. symmetry. apply Hin. destruct (live_disjoint _ _ _ _ _ Hl Hq); lia.
Qed.

Lemma fill_inside m p n v : 0 <= n -> inside p n m (heap_memset m p v n).
Proof. intros Hn x Hx. apply fill_other. lia. Qed.
Lemma copy_inside m d s n : 0 <= n -> inside d n m (heap_memcpy m d s n).
Proof. intros Hn x Hx. apply copy_fwd_other. lia. Qed.
Lemma inside_mono p n p' n' m m' :
  p' <= p -> p + n <= p' + n' -> inside p n m m' -> inside p' n' m m'.
Proof. intros H1 H2 Hin x Hx. apply Hin. lia. Qed.

(** A write of the owner into a fresh allocation keeps the allocation's contract. *)
Lemma allocated_write h h' p size m' :
  allocated h h' p size -> inside p size (h_mem h') m' -> 0 <= size ->
  allocated h (with_mem m' h') p size.
Proof.
  intros [A1 A2 A3 (n & Hn & A4) A5] Hin Hs.
  assert (Hl : live h' p n) by (apply A4; by right).
  assert (Hin' : inside p n (h_mem h') m') by (eapply inside_mono; [| |exact Hin]; lia).
  destruct (client_write h' p n m' A1 Hl Hin') as (C1 & C2 & C3). split; auto.
  - exists n. split; [done|]. intros q k. by rewrite C2, A4.
  - intros q k Hq x Hx. rewrite (A5 q k Hq x Hx). apply (C3 q k); [apply A4; by left| |done].
    intros ->. by apply (A3 k).
Qed.

(** ** heap_init *)

Lemma heap_init_sound h start initial_size :
  heap_initialized h = false -> pa_wf (h_pa h) -> 0 <= initial_size ->
  heap_init h start initial_size = (h, false) \/
  exists h', heap_init h start initial_size = (h', true) /\ wf h' /\
    (forall p n, ~ live h' p n) /\ PAGE_SIZE <= heap_end h' - heap_start h' /\
    heap_start h' mod PAGE_SIZE = 0 /\ heap_max h' = heap_start h' + HEAP_MAX_SIZE /\
    (forall p, in_pages (heap_start h') ((heap_end h' - heap_start h') / PAGE_SIZE) p = true ->
       pa_used (h_pa h) p = false /\ pa_used (h_pa h') p = true).
Proof.
  intros Hini Hpa Hsz. unfold heap_init. rewrite Hini. cbv zeta.
  set (e := if ALIGN_UP initial_size PAGE_SIZE <? PAGE_SIZE then PAGE_SIZE else ALIGN_UP initial_size PAGE_SIZE).
  assert (He : e mod PAGE_SIZE = 0 /\ PAGE_SIZE <= e).
  { unfold e. case_if; [done|]. split; [|lia]. unfold ALIGN_UP. unfold PAGE_SIZE.
    change (Z.land ?y (Z.lnot (4096 - 1))) with (ALIGN_DOWN y (2 ^ 12)).
    rewrite ALIGN_DOWN_pow2 by lia. change (2 ^ 12) with 4096. dlia. }
  destruct He as [He1 He2]. unfold PAGE_SIZE in He1, He2.
  destruct (pa_alloc (e / PAGE_SIZE) (h_pa h)) as [phys pa] eqn:Ea.
  assert (Hn : 0 <= e / PAGE_SIZE) by (apply Z.div_pos; unfold PAGE_SIZE; lia).
  destruct (phys =? 0) eqn:Ep; zbool.
  { left. subst phys. apply pa_alloc_fail in Ea; [|done..]. subst pa. by rewrite with_pa_id. }
  right. destruct (pa_alloc_ok _ _ _ _ Hpa Hn Ea Ep) as (Hwf & Hn0 & Hph & Hal & Hle & Hfree & Hused & _).
  assert (Ed : e / PAGE_SIZE * PAGE_SIZE = e) by (unfold PAGE_SIZE in *; dlia).
  rewrite Ed in Hle. unfold GB, MB, KB in Hle. unfold PAGE_SIZE in Hal.
  rewrite !u64_id by (unfold HEAP_MAX_SIZE, MB, KB; lia).
  match goal with |- context [block_set_free ?m0 phys] => set (m := block_set_free m0 phys) end.
  assert (Hc : core m phys = (e, 0, bmagic false, bflag false)).
  { unfold m. destruct (core (heap_memset (h_mem h) phys 0 e) phys) as [[[x1 x2] x3] x4] eqn:E.
    eapply core_set_free; [left; reflexivity|]. eapply core_set_flags; [lia|]. eapply core_set_prev; [unfold NULL; lia|].
    rewrite core_set_next by by left. eapply core_set_size; [lia|exact E]. }
  assert (Hx : hdr_next m phys = 0).
  { unfold m. rewrite next_set_free, next_set_flags, next_set_prev by by left. by apply next_set_next. }
  assert (Hinv : forall st, inv (mk_heap m phys (phys + e) (phys + HEAP_MAX_SIZE) phys true st pa) [(e, false)]).
  { intros st. split; simpl; auto; try lia; try done.
    - dlia.
    - apply Forall_singleton. split; simpl; [lia|dlia].
    - apply NoDup_singleton. }
  eexists. split; [done|]. split; [|split]; simpl.
  - split; simpl; auto; [unfold HEAP_MAX_SIZE, MB, KB; lia|]. eexists. split; [|apply Hinv]. done.
  - intros p n (bs & Hi & Hu). rewrite (inv_unique _ _ _ Hi (Hinv _)) in Hu.
    rewrite used_in_cons in Hu. destruct Hu as [[]|(l & r & El & _)]; [done|by destruct l].
  - unfold PAGE_SIZE in *. split; [lia|]. split; [done|]. split; [done|].
    replace (phys + e - phys) with e by lia. intros p Hp. split; [by apply Hfree|].
    rewrite Hused, Hp. apply orb_true_r.
Qed.

(** ** krealloc *)

(** The allocation [p] was replaced by one at [q] of at least [size] bytes that
    starts with the first [keep] bytes of the old one. *)
Record resized h h' (p q size keep : Z) : Prop := {
  rs_wf : wf h';
  rs_ptr : q <> NULL;
  rs_live : exists n, size <= n /\
    forall x k, live h' x k <-> (live h x k /\ x <> p) \/ (x = q /\ k = n);
  rs_kept : forall i, 0 <= i < keep -> load8 (h_mem h') (q + i) = load8 (h_mem h) (p + i);
  rs_bytes : forall x k, live h x k -> x <> p -> agree (h_mem h) (h_mem h') x k;
}.

Lemma realloc_move_sound h p n size :
  wf h -> live h p n -> n < size <= 2 ^ 64 - 64 ->
  realloc_move h p n size = Some (h, NULL) \/
  exists h' q, realloc_move h p n size = Some (h', q) /\ resized h h' p q size n.
Proof.
  intros Hw Hl Hs. pose proof (live_bound _ _ _ Hl) as (_ & _ & Hn & Hp0 & _). unfold realloc_move.
  destruct (kmalloc_sound h size Hw) as [->|(h1 & q & -> & Ha)]; [lia|by left|]. right. simpl.
  rewrite (proj2 (Z.eqb_neq q NULL)) by apply Ha.
  pose proof (al_bytes _ _ _ _ Ha p n Hl) as Hag.
  assert (Ha' : allocated h (with_mem (heap_memcpy (h_mem h1) q p n) h1) q size).
  { apply allocated_write; [done| |lia]. eapply inside_mono; [| |apply copy_inside]; lia. }
  set (h2 := with_mem _ h1) in *. destruct Ha as [_ _ Hfresh (k1 & Hk1 & Hl1) _].
  pose proof Ha' as [A1 A2 A3 (k2 & Hk2 & A4) A5].
  assert (Hl2 : live h2 p n) by (apply A4; by left).
  assert (Hq2 : live h2 q k2) by (apply A4; by right).
  assert (Hdis : p + n <= q \/ q + k2 <= p).
  { destruct (live_disjoint _ _ _ _ _ Hl2 Hq2) as [[-> _]|]; [by destruct (A3 n)|lia]. }
  destruct (kfree_sound h2 p n A1 Hl2) as (h3 & -> & [B1 B2 B3]). simpl. exists h3, q.
  assert (q <> p) by (intros ->; by destruct (A3 n)).
  assert (Hq3 : live h3 q k2) by (by apply B2).
  split; [done|]. split; [done|apply A2| | |].
  - exists k2. split; [lia|]. intros x k. rewrite B2, A4. split; [|naive_solver].
    intros [[|[-> ->]] ?]; auto.
  - intros i Hi. unfold load8. rewrite <- (B3 q k2 Hq3 (q + i)) by lia. simpl.
    change (load8 (heap_memcpy (h_mem h1) q p n) (q + i) = load8 (h_mem h) (p + i)).
    unfold heap_memcpy. rewrite copy_fwd_load by lia. unfold load8. by rewrite Hag by lia.
  - intros x k Hx Hne y Hy. rewrite (A5 x k Hx y Hy). apply (B3 x k); [|done].
    apply B2. split; [apply A4; by left|done].
Qed.

Lemma grow_in_place_sound h l s1 s2 r size :
  wf h -> inv h (l ++ (s1, true) :: (s2, false) :: r) -> 64 <= size <= s1 + s2 -> s1 <= size ->
  size mod 16 = 0 ->
  let b := heap_start h + total l in
  exists h', grow_in_place h b (b + s1) (s1 + s2) size = Some h' /\
    resized h h' (b + 32) (b + 32) (size - 32) (s1 - 32).
Proof.
  intros Hw Hi Hs Hs1 Hal b. unfold inv in Hi. rewrite frees_app in Hi. simpl in Hi. fold b in Hi.
  pose proof (rep_fields _ _ _ _ _ _ Hi) as (_ & _ & _ & _ & B3 & _ & B5 & B6). fold b in B5, B6.
  unfold grow_in_place. destruct (remove_ok _ _ _ _ _ Hi) as (h1 & E1 & Hr1 & Ht1). rewrite E1. simpl.
  pose proof (t_start _ _ _ Ht1) as Es. pose proof (rp_sizes _ _ _ Hi) as Hsz.
  destruct (merge_ok h1 l s1 true s2 false r _ Hr1) as (m' & Em & Hrm & Hfm).
  { rewrite Es. fold b. pose proof (rp_nodup _ _ _ Hi) as Hnd. apply NoDup_app in Hnd as (_ & N1 & N2).
    apply NoDup_cons in N2 as [N2 _]. intros [Hx|Hx]%elem_of_app; [|done]. apply (N1 _ Hx). left. }
  rewrite Es in Em, Hfm. fold b in Em.
  set (st := h_stats (add_blocks (-1) (add_sizes 0
    (- block_get_size (set_hsize (h_mem h1) b (s1 + s2)) (b + s1)) h1))).
  assert (Em' : forall x, fix_prev (with_stats st (with_mem (set_hsize (h_mem h1) b (s1 + s2)) h1))
      (block_get_next_physical (with_mem (set_hsize (h_mem h1) b (s1 + s2)) h1) b) x =
    with_stats st (fix_prev (with_mem (set_hsize (h_mem h1) b (s1 + s2)) h1)
      (block_get_next_physical (with_mem (set_hsize (h_mem h1) b (s1 + s2)) h1) b) x)).
  { intros x. unfold fix_prev. by destruct (_ =? NULL). }
  specialize (Em' b). rewrite Em in Em'.
  match goal with |- context [split_block ?x b size] => change x with
    (fix_prev (with_stats st (with_mem (set_hsize (h_mem h1) b (s1 + s2)) h1))
      (block_get_next_physical (with_mem (set_hsize (h_mem h1) b (s1 + s2)) h1) b) b) end.
  rewrite Em'. set (h2 := with_stats st (with_mem m' h1)).
  assert (Hr2 : rep h2 (l ++ (s1 + s2, true) :: r) (others (heap_start h2) l (s1 + s2) r)).
  { apply rep_stats. unfold others. simpl. rewrite Es. fold b. by rewrite Z.add_assoc. }
  destruct (split_ok h2 l (s1 + s2) true r size Hr2) as (h3 & s' & r' & E3 & Hr3 & Hs' & Hs2 & He3 & Hq3 & Hag3);
    [lia|done|]. simpl in E3, Hag3. rewrite Es in E3, Hag3. fold b in E3, Hag3. exists h3. split; [exact E3|].
  assert (Ht : touches (addrs (heap_start h) (l ++ (s1, true) :: (s2, false) :: r)) h h2)
    by (eapply touches_trans; [exact Ht1|]; by split).
  assert (Hpay : agree (h_mem h) (h_mem h2) (b + 32) (s1 - 32)).
  { intros x Hx. symmetry. apply (t_frame _ _ _ Ht). intros y Hy.
    eapply used_payload; [exact Hsz|exists l, ((s2, false) :: r); done|exact Hy|fold b; lia]. }
  assert (Hq2 : quiet h (l ++ (s1, false) :: (s2, false) :: r) h2 (l ++ (s1 + s2, false) :: r)).
  { apply quiet_touches; [by eapply sizes_flag|eapply sizes_flag, Hr2|intros; apply used_in_merge|].
    eapply touches_mono; [|exact Ht]. intros x Hx. apply elem_of_app. left. by rewrite <- (addrs_flags _ _ _ true). }
  pose proof (quiet_trans _ _ _ _ _ _ Hq2 Hq3) as Hq. pose proof (q_start _ _ _ _ Hq) as Es3.
  assert (Hi3 : inv h3 (l ++ (s', true) :: r')).
  { unfold inv. rewrite Es3, frees_app. simpl. unfold others in Hr3. simpl in Hr3. by rewrite Es in Hr3. }
  assert (Hi0 : inv h (l ++ (s1, true) :: (s2, false) :: r)) by (unfold inv; by rewrite frees_app).
  assert (Hother : forall x k, live h x k /\ x <> b + 32 <->
    used_in (heap_start h) (l ++ (s1, false) :: (s2, false) :: r) (x - 32) (k + 32)).
  { intros x k. rewrite (live_used _ _ _ _ Hi0), used_in_true. fold b. split; [intros [[|[]]]; [done|lia]|].
    intros Hu. split; [by left|]. intros ->. replace (b + 32 - 32) with b in Hu by lia.
    eapply free_not_used, Hu. by eapply sizes_flag. }
  split; [|unfold NULL; lia| | |].
  - destruct Hw as [W1 W2 W3 _]. split; [by rewrite (q_init _ _ _ _ Hq)|by apply (q_pa _ _ _ _ Hq)
      |by rewrite (q_max _ _ _ _ Hq)|]. eexists. split; [|exact Hi3]. by destruct l.
  - exists (s' - 32). split; [lia|]. intros x k.
    rewrite Hother, (live_used _ _ _ _ Hi3), Es3, used_in_true, <- (q_used _ _ _ _ Hq). fold b.
    split; (intros [|[]]; [by left|right; lia]).
  - intros i Hii. unfold load8. rewrite <- Hag3 by lia. by rewrite <- Hpay by lia.
  - intros x k Hx Hne y Hy. apply (q_bytes _ _ _ _ Hq (x - 32) (k + 32)); [by apply Hother|lia].
Qed.

Lemma live_size h p n k : live h p n -> live h p k -> k = n.
Proof. intros H1 H2. pose proof (live_bound _ _ _ H1). pose proof (live_bound _ _ _ H2).
  destruct (live_disjoint _ _ _ _ _ H1 H2); lia. Qed.

Lemma resized_same h p n size keep :
  wf h -> live h p n -> size <= n -> resized h h p p size keep.
Proof.
  intros Hw Hl Hs. pose proof (live_bound _ _ _ Hl). split; auto; [unfold NULL; lia| |done].
  exists n. split; [done|]. intros x k. split.
  - intros Hx. destruct (decide (x = p)) as [->|]; [right|by left]. split; [done|]. by eapply live_size.
  - intros [[]|[-> ->]]; done.
Qed.

Lemma resized_weaken h h' p q size keep size' keep' :
  resized h h' p q size keep -> size' <= size -> keep' <= keep -> resized h h' p q size' keep'.
Proof.
  intros [A1 A2 (n & Hn & A3) A4 A5] H1 H2. split; auto.
  - exists n. split; [lia|done].
  - intros i Hi. apply A4. lia.
Qed.

(** The checks [krealloc] makes on a live allocation all pass. *)
Lemma krealloc_unfold h p n size :
  wf h -> live h p n -> 0 < size ->
  krealloc h p size =
    if size <=? n then Some (h, p)
    else
      let b := p - 32 in
      let next := block_get_next_physical h b in
      let combined := u64 (n + 32 + block_get_size (h_mem h) next) in
      if negb (next =? NULL) && negb (block_is_used (h_mem h) next) && (request_size size <=? combined)
      then (h ← grow_in_place h b next combined (request_size size); Some (h, p))
      else realloc_move h p n size.
Proof.
  intros Hw (bs & Hi & l & r & -> & Ep) Hs.
  pose proof (rep_fields _ _ _ _ _ _ Hi) as (B0 & _ & B1 & B2 & B3 & _ & B5 & B6).
  pose proof (rp_end _ _ _ Hi) as Hend. rewrite <- Ep in *.
  unfold krealloc, NULL. rewrite (proj2 (Z.eqb_neq p 0)), (proj2 (Z.eqb_neq size 0)) by lia.
  rewrite (wf_init _ Hw). unfold data_to_block, sizeof_heap_block. rewrite u64_id by lia.
  rewrite B0, B1, B2. simpl. rewrite u64_id by lia. by replace (n + 32 - 32) with n by lia.
Qed.

Lemma krealloc_sound h p n size :
  wf h -> live h p n -> 0 < size <= 2 ^ 64 - 64 ->
  krealloc h p size = Some (h, NULL) \/
  exists h' q, krealloc h p size = Some (h', q) /\ resized h h' p q size (Z.min n size).
Proof.
  intros Hw Hl Hs. rewrite (krealloc_unfold _ _ _ _ Hw Hl) by lia.
  destruct (size <=? n) eqn:Esz; zbool.
  { right. exists h, p. split; [done|]. by eapply resized_same. }
  assert (Hmove : realloc_move h p n size = Some (h, NULL) \/
    exists h' q, realloc_move h p n size = Some (h', q) /\ resized h h' p q size (Z.min n size)).
  { destruct (realloc_move_sound h p n size Hw Hl) as [->|(h' & q & -> & Hr)]; [lia|by left|].
    right. exists h', q. split; [done|]. eapply resized_weaken; [exact Hr|lia|lia]. }
  destruct Hl as (bs & Hi & l & r & -> & Ep). rewrite Ep. cbv zeta.
  rewrite (next_physical_ok _ _ _ _ _ _ Hi). destruct r as [|[s2 u2] r]; [done|].
  pose proof Hi as Hi2. unfold inv in Hi2. replace (l ++ (n + 32, true) :: (s2, u2) :: r)
    with ((l ++ [(n + 32, true)]) ++ (s2, u2) :: r) in Hi2 by (by rewrite <- app_assoc).
  pose proof (rep_fields _ _ _ _ _ _ Hi2) as (G0 & _ & _ & G1 & G2 & _ & G3 & G4).
  pose proof (rp_end _ _ _ Hi) as Hend. rewrite total_app in G0, G1, G3, G4. simpl in G0, G1, G3, G4.
  pose proof (rep_fields _ _ _ _ _ _ Hi) as (_ & _ & _ & _ & B3 & _ & B5 & B6).
  replace (heap_start h + (total l + (n + 32 + 0))) with (heap_start h + total l + (n + 32)) in * by lia.
  rewrite G0, G1, u64_id by lia. destruct u2; [by rewrite andb_false_r|]. cbn [negb].
  destruct (request_size size <=? n + 32 + s2) eqn:Er; zbool; [|by rewrite andb_false_r].
  unfold NULL in *. rewrite (proj2 (Z.eqb_neq _ 0)) by lia. cbn [negb andb]. right.
  destruct (request_size_ok size Hs) as (R1 & R2 & R3).
  destruct (grow_in_place_sound h l (n + 32) s2 r (request_size size) Hw Hi) as (h' & -> & Hr); [lia..|].
  exists h', p. simpl. split; [done|]. replace (heap_start h + total l + 32) with p in Hr by lia.
  eapply resized_weaken; [exact Hr|lia|lia].
Qed.

(** ** Aligned allocation *)

Lemma kmalloc_aligned_sound h size k :
  wf h -> 0 < size -> 0 <= k -> size + 2 ^ k + 8 <= 2 ^ 64 - 64 ->
  kmalloc_aligned h size (2 ^ k) = Some (h, NULL) \/
  exists h' a p n, kmalloc_aligned h size (2 ^ k) = Some (h', a) /\
    allocated h h' p (size + (2 ^ k + 8)) /\ live h' p n /\
    a mod 2 ^ k = 0 /\ p + 8 <= a /\ a + size <= p + n /\ load64 (h_mem h') (a - 8) = p.
Proof.
  intros Hw Hs Hk Hb. pose proof (Z.pow_pos_nonneg 2 k) as Hpow.
  unfold kmalloc_aligned. rewrite (wf_init _ Hw), (proj2 (Z.eqb_neq size 0)) by lia. simpl.
  assert (Hand : Z.land (2 ^ k) (u64 (2 ^ k - 1)) = 0).
  { rewrite u64_id by lia. replace (2 ^ k - 1) with (Z.ones k) by (rewrite Z.ones_equiv; lia).
    rewrite Z.land_ones by lia. by apply Z.mod_same; lia. }
  rewrite Hand. simpl. rewrite !u64_id by (rewrite ?u64_id; lia).
  destruct (kmalloc_sound h (size + (2 ^ k + 8)) Hw) as [->|(h' & p & -> & Ha)]; [lia|by left|].
  simpl. pose proof (al_live _ _ _ _ Ha) as (n & Hn & Hl).
  assert (Hlp : live h' p n) by (apply Hl; by right).
  pose proof (live_bound _ _ _ Hlp) as (_ & _ & _ & Hp0 & Hp1).
  unfold NULL. rewrite (proj2 (Z.eqb_neq p 0)) by lia. right.
  rewrite u64_id, ALIGN_UP_pow2 by lia.
  pose proof (Z.mod_pos_bound (p + 8 + (2 ^ k - 1)) (2 ^ k) ltac:(lia)) as Hmod.
  set (y := p + 8 + (2 ^ k - 1)) in *. set (a := y - y mod 2 ^ k).
  assert (Hin : inside p (size + (2 ^ k + 8)) (h_mem h') (store64 (h_mem h') (a - 8) p)).
  { intros x Hx. apply store_other. simpl. lia. }
  pose proof (allocated_write _ _ _ _ _ Ha Hin ltac:(lia)) as Ha'.
  destruct (client_write h' p n (store64 (h_mem h') (a - 8) p)) as (_ & C2 & _); [apply Ha|done| |].
  { eapply inside_mono; [| |exact Hin]; lia. }
  eexists _, a, p, n. split; [done|]. split; [exact Ha'|]. split; [by apply C2|].
  split; [unfold a; rewrite Zminus_mod_idemp_r, Z.sub_diag; apply Z.mod_0_l; lia|].
  split; [lia|]. split; [lia|]. simpl. apply load64_store64. lia.
Qed.

(** ** kcalloc *)

Lemma kcalloc_sound h count size :
  wf h -> 0 < count < 2 ^ 64 -> 0 < size < 2 ^ 64 -> count * size <= 2 ^ 64 - 64 ->
  kcalloc h count size = Some (h, NULL) \/
  exists h' p, kcalloc h count size = Some (h', p) /\ allocated h h' p (count * size) /\
    forall i, 0 <= i < count * size -> load8 (h_mem h') (p + i) = 0.
Proof.
  intros Hw Hc Hs Hb. unfold kcalloc.
  assert (Hov : (SIZE_MAX / count <? size) = false).
  { apply Z.ltb_ge. apply Z.div_le_lower_bound; unfold SIZE_MAX; lia. }
  rewrite Hov, andb_false_r, u64_id by nia.
  destruct (kmalloc_sound h (count * size) Hw) as [->|(h' & p & -> & Ha)]; [nia|by left|].
  right. simpl. rewrite (proj2 (Z.eqb_neq p NULL)) by apply Ha. simpl. eexists _, p. split; [done|].
  split; [apply allocated_write; [done|apply fill_inside; nia|nia]|].
  intros i Hi. simpl. unfold heap_memset, load8. rewrite fill_same by lia. done.
Qed.

Lemma kcalloc_overflow h count size :
  0 < count -> 0 <= size -> 2 ^ 64 <= count * size -> kcalloc h count size = Some (h, NULL).
Proof.
  intros Hc Hs Ho. unfold kcalloc. rewrite (proj2 (Z.eqb_neq count 0)) by lia.
  assert (Hlt : SIZE_MAX / count < size) by (apply Z.div_lt_upper_bound; unfold SIZE_MAX; lia).
  by rewrite (proj2 (Z.ltb_lt _ _) Hlt).
Qed.
End Contract.
