(* ===== verification/HeapSpec.v ===== *)
(** * Theorems of the heap (kernel/mm/heap.c)

    The contract of each public operation, the behaviour of whole sequences of
    calls by well-behaved clients, and what three corner cases of the code do. *)
From S2P Require Import Prelude Memory PageAlloc Pmm Heap HeapRep HeapOps HeapAlloc HeapProps.

(** ** Sequences of calls *)

Section History.
Context {S : Type} `{PageAllocator S}.

(** One event in the life of the heap: a call by a client that respects the
    interface, a write of a client into its own allocation, or a step of another
    user of the page allocator. The ledger holds the pointers handed out. *)
Inductive heap_step : heap S * list Z -> heap S * list Z -> Prop :=
| step_malloc h h' L size p :
    0 < size <= 2 ^ 64 - 64 -> kmalloc h size = Some (h', p) -> p <> NULL ->
    heap_step (h, L) (h', p :: L)
| step_malloc_fail h h' L size :
    0 < size <= 2 ^ 64 - 64 -> kmalloc h size = Some (h', NULL) -> heap_step (h, L) (h', L)
| step_free h h' L p :
    p ∈ L -> kfree h p = Some h' -> heap_step (h, L) (h', filter (.≠ p) L)
| step_realloc h h' L p q size :
    p ∈ L -> 0 < size <= 2 ^ 64 - 64 -> krealloc h p size = Some (h', q) -> q <> NULL ->
    heap_step (h, L) (h', q :: filter (.≠ p) L)
| step_write h L p n m' :
    p ∈ L -> live h p n -> inside p n (h_mem h) m' -> heap_step (h, L) (with_mem m' h, L)
| step_pages h L s' : pa_wf s' -> heap_step (h, L) (with_pa s' h, L).

(** The ledger is the set of live allocations. *)
Definition accounted (x : heap S * list Z) : Prop :=
  wf (fst x) /\ forall p, p ∈ snd x <-> exists n, live (fst x) p n.

Context `{!PageAllocatorLaws S}.

Lemma accounted_malloc h h' L size p :
  accounted (h, L) -> 0 < size <= 2 ^ 64 - 64 -> kmalloc h size = Some (h', p) ->
  accounted (h', if p =? NULL then L else p :: L).
Proof.
  intros [Hw HL] Hs E. simpl in *. destruct (kmalloc_sound h size Hw Hs) as [E'|(h1 & q & E' & Ha)].
  - rewrite E' in E. injection E as <- <-. done.
  - rewrite E' in E. injection E as -> ->. rewrite (proj2 (Z.eqb_neq p NULL)) by apply Ha.
    split; [apply Ha|]. simpl. destruct (al_live _ _ _ _ Ha) as (n & _ & Hl). intros q.
    rewrite elem_of_cons, HL. split.
    + intros [->|[k Hk]]; [exists n; apply Hl; by right|exists k; apply Hl; by left].
    + intros [k [Hk|[-> _]]%Hl]; eauto.
Qed.

Lemma accounted_free h h' L p :
  accounted (h, L) -> p ∈ L -> kfree h p = Some h' -> accounted (h', filter (.≠ p) L).
Proof.
  intros [Hw HL] Hp E. simpl in *. apply HL in Hp as [n Hn].
  destruct (kfree_sound h p n Hw Hn) as (h1 & E' & [R1 R2 _]). rewrite E' in E. injection E as ->.
  split; [done|]. simpl. intros q. rewrite list_elem_of_filter, HL. split.
  - intros (Hne & k & Hk). exists k. by apply R2.
  - intros [k [Hk Hne]%R2]. eauto.
Qed.

Lemma accounted_realloc h h' L p q size :
  accounted (h, L) -> p ∈ L -> 0 < size <= 2 ^ 64 - 64 -> krealloc h p size = Some (h', q) ->
  q <> NULL -> accounted (h', q :: filter (.≠ p) L).
Proof.
  intros [Hw HL] Hp Hs E Hq. simpl in *. apply HL in Hp as [n Hn].
  destruct (krealloc_sound h p n size Hw Hn Hs) as [E'|(h1 & q' & E' & [R1 R2 (k' & Hk' & R3) _ _])];
    rewrite E' in E; injection E as -> <-; [done|].
  split; [done|]. simpl. intros x. rewrite elem_of_cons, list_elem_of_filter, HL. split.
  - intros [->|(Hne & k & Hk)]; [exists k'; apply R3; by right|exists k; apply R3; by left].
  - intros [k [[Hk Hne]|[-> _]]%R3]; [right|left]; eauto.
Qed.

Lemma accounted_step x y : heap_step x y -> accounted x -> accounted y.
Proof.
  intros Hs Hx. destruct Hs.
  - pose proof (accounted_malloc _ _ _ _ _ Hx H0 H1) as Ha. by rewrite (proj2 (Z.eqb_neq p NULL)) in Ha.
  - exact (accounted_malloc _ _ _ _ _ Hx H0 H1).
  - by eapply accounted_free.
  - by eapply accounted_realloc.
  - destruct Hx as [Hw HL]. destruct (client_write h p n m' Hw) as (C1 & C2 & _); [done..|].
    split; [done|]. simpl in *. intros q. rewrite HL. split; intros [k Hk]; exists k; by apply C2.
  - destruct Hx as [Hw HL]. split; simpl in *.
    + destruct Hw as [W1 W2 W3 (bs & Hne & Hi)]. split; auto. exists bs. split; [done|]. by apply inv_pa.
    + intros q. rewrite HL. split; intros (k & bs & Hi & Hu); exists k, bs; (split; [|done]);
        destruct Hi; by split.
Qed.
End History.

(** ** A heap on a small machine *)

(** Before and after [heap_init] with one page. *)
Definition raw_heap : heap pmm :=
  mk_heap (fun _ => 0) 0 0 0 0 false (mk_stats 0 0 0 0 0 0 0 0) big_pmm.
Definition demo_heap : heap pmm := fst (heap_init raw_heap 0 4096).
(** After [kmalloc(100)]. *)
Definition demo_heap1 : heap pmm :=
  match kmalloc demo_heap 100 with Some (h, _) => h | None => demo_heap end.

Lemma demo_heap_ok : wf demo_heap /\ forall p n, ~ live demo_heap p n.
Proof.
  destruct (heap_init_sound raw_heap 0 4096 eq_refl big_wf ltac:(lia)) as [E|(h' & E & Hw & Hl & _)].
  - exfalso. apply (f_equal snd) in E. vm_compute in E. discriminate.
  - unfold demo_heap. rewrite E. exact (conj Hw Hl).
Qed.

Lemma demo_kmalloc : kmalloc demo_heap 100 = Some (demo_heap1, 0x100020).
Proof.
  unfold demo_heap1. destruct (kmalloc demo_heap 100) as [[h p]|] eqn:E.
  - apply (f_equal (fmap snd)) in E. vm_compute in E. injection E as <-. done.
  - apply (f_equal (fmap snd)) in E. vm_compute in E. discriminate.
Qed.

Lemma demo_allocated : allocated demo_heap demo_heap1 0x100020 100.
Proof.
  apply kmalloc_nonnull; [apply demo_heap_ok|lia|exact demo_kmalloc|unfold NULL; lia].
Qed.

Lemma demo_live : exists n, 100 <= n /\ live demo_heap1 0x100020 n.
Proof.
  destruct (al_live _ _ _ _ demo_allocated) as (n & Hn & Hl). exists n. split; [lia|].
  apply Hl. by right.
Qed.

(** ** Contracts *)

Section Theorems.
Context {S : Type} `{PageAllocatorLaws S}.
Implicit Types h : heap S.

(** On an intact heap and any request that leaves room for a header, [kmalloc] ends; it
    returns NULL and changes nothing, or a non-null 16-byte-aligned pointer that was
    not live before, owning at least [size] bytes, such that the live allocations are
    the old ones and this one, none of the old ones changes a byte, and the heap is
    intact again. *)
Theorem kmalloc_contract h size :
  wf h -> 0 < size <= 2 ^ 64 - 64 ->
  kmalloc h size = Some (h, NULL) \/
  exists h' p n, kmalloc h size = Some (h', p) /\ wf h' /\ p <> NULL /\ p mod 16 = 0 /\
    size <= n < Z.max size 32 + 80 /\ (forall k, ~ live h p k) /\
    (forall q k, live h' q k <-> live h q k \/ (q = p /\ k = n)) /\
    (forall q k, live h q k -> agree (h_mem h) (h_mem h') q k).
Proof.
  intros Hw Hs. destruct (kmalloc_sound h size Hw Hs) as [->|(h' & p & -> & [A1 [A2 A2'] A3 (n & Hn & A4) A5])];
    [by left|]. right. exists h', p, n. done.
Qed.

(** On an intact heap [kfree] of a live pointer ends and removes exactly that allocation:
    the heap stays intact, every other allocation stays live with the same size and
    the same bytes. *)
Theorem kfree_contract h p n :
  wf h -> live h p n ->
  exists h', kfree h p = Some h' /\ wf h' /\
    (forall q k, live h' q k <-> live h q k /\ q <> p) /\
    (forall q k, live h' q k -> agree (h_mem h) (h_mem h') q k).
Proof. intros Hw Hl. destruct (kfree_sound h p n Hw Hl) as (h' & -> & []). by exists h'. Qed.

(** [krealloc] of a live pointer to a nonzero size ends; it fails without any
    change, or returns an allocation of at least the new size that replaces the old
    one and starts with the old contents up to the smaller of the two sizes, whether
    the block was large enough, grew into the next one or was moved; other
    allocations keep their place, size and bytes. *)
Theorem krealloc_contract h p n size :
  wf h -> live h p n -> 0 < size <= 2 ^ 64 - 64 ->
  krealloc h p size = Some (h, NULL) \/
  exists h' q k', krealloc h p size = Some (h', q) /\ wf h' /\ q <> NULL /\ size <= k' /\
    (forall x k, live h' x k <-> (live h x k /\ x <> p) \/ (x = q /\ k = k')) /\
    (forall i, 0 <= i < Z.min n size -> load8 (h_mem h') (q + i) = load8 (h_mem h) (p + i)) /\
    (forall x k, live h x k -> x <> p -> agree (h_mem h) (h_mem h') x k).
Proof.
  intros Hw Hl Hs. destruct (krealloc_sound h p n size Hw Hl Hs) as [->|(h' & q & -> & [A1 A2 (k & Hk & A3) A4 A5])];
    [by left|]. right. by exists h', q, k.
Qed.

(** [kcalloc] returns NULL when [count * size] does not fit in 64 bits, and
    otherwise behaves as an allocation of the product whose bytes all read 0. *)
Theorem kcalloc_contract h count size :
  wf h -> 0 < count < 2 ^ 64 -> 0 < size < 2 ^ 64 ->
  (2 ^ 64 <= count * size -> kcalloc h count size = Some (h, NULL)) /\
  (count * size <= 2 ^ 64 - 64 ->
   kcalloc h count size = Some (h, NULL) \/
   exists h' p, kcalloc h count size = Some (h', p) /\ allocated h h' p (count * size) /\
     forall i, 0 <= i < count * size -> load8 (h_mem h') (p + i) = 0).
Proof.
  intros Hw Hc Hs. split; intros Hb; [apply kcalloc_overflow; lia|by apply kcalloc_sound].
Qed.

(** Two live allocations never share a byte, header included, and every live
    allocation lies inside the heap. *)
Theorem live_regions_disjoint h p n q k :
  live h p n -> live h q k ->
  (p = q /\ n = k \/ p + n + 32 <= q \/ q + k + 32 <= p) /\
  heap_start h + 32 <= p /\ p + n <= heap_end h.
Proof.
  intros Hp Hq. split; [by apply (live_disjoint h)|]. pose proof (live_bound _ _ _ Hp). lia.
Qed.

(** After [kmalloc] returned [p], the owner may write its bytes in any way and
    [kfree(p)] still restores the set of live allocations that preceded the call. *)
Theorem kmalloc_write_kfree_roundtrip h h1 p size m' :
  wf h -> 0 < size <= 2 ^ 64 - 64 -> kmalloc h size = Some (h1, p) -> p <> NULL ->
  inside p size (h_mem h1) m' ->
  exists h2, kfree (with_mem m' h1) p = Some h2 /\ wf h2 /\
    (forall q k, live h2 q k <-> live h q k) /\
    (forall q k, live h q k -> agree (h_mem h) (h_mem h2) q k).
Proof.
  intros Hw Hs E Hp Hin. pose proof (kmalloc_nonnull _ _ _ _ Hw Hs E Hp) as Ha.
  pose proof (allocated_write _ _ _ _ _ Ha Hin ltac:(lia)) as [A1 _ A3 (n & _ & A4) A5].
  destruct (kfree_sound _ p n A1) as (h2 & -> & [B1 B2 B3]); [apply A4; by right|].
  assert (Hlive : forall q k, live h2 q k <-> live h q k).
  { intros q k. rewrite B2, A4. split; [intros [[|[-> _]] ?]; done|].
    intros Hq. split; [by left|]. intros ->. by apply (A3 k). }
  exists h2. split; [done|]. split; [done|]. split; [done|].
  intros q k Hq x Hx. rewrite (A5 q k Hq x Hx). apply (B3 q k); [by apply Hlive|done].
Qed.

(** [kmalloc_aligned] with a power of two returns NULL without a change, or an
    address with that alignment inside a fresh allocation that has room for [size]
    bytes from there; as long as the owner writes only those bytes,
    [kfree_aligned] of the address releases the allocation. *)
Theorem kmalloc_aligned_roundtrip h size k :
  wf h -> 0 < size -> 0 <= k -> size + 2 ^ k + 8 <= 2 ^ 64 - 64 ->
  kmalloc_aligned h size (2 ^ k) = Some (h, NULL) \/
  exists h1 a p, kmalloc_aligned h size (2 ^ k) = Some (h1, a) /\ a mod 2 ^ k = 0 /\
    allocated h h1 p (size + (2 ^ k + 8)) /\
    forall m', inside a size (h_mem h1) m' ->
      exists h2, kfree_aligned (with_mem m' h1) a = Some h2 /\ wf h2 /\
        forall q n, live h2 q n <-> live h q n.
Proof.
  intros Hw Hs Hk Hb. destruct (kmalloc_aligned_sound h size k Hw Hs Hk Hb) as
    [->|(h1 & a & p & n & -> & Ha & Hl & Hm & H1 & H2 & H3)]; [by left|].
  right. exists h1, a, p. split; [done|]. split; [done|]. split; [done|]. intros m' Hin.
  pose proof (live_bound _ _ _ Hl). unfold kfree_aligned, NULL. rewrite (proj2 (Z.eqb_neq a 0)) by lia.
  assert (E : load64 m' (a - 8) = p).
  { rewrite <- H3. apply load_agree. intros x Hx. apply Hin. simpl in Hx. lia. }
  simpl. rewrite E.
  destruct (client_write h1 p n m') as (C1 & C2 & _); [apply Ha|done| |].
  { eapply inside_mono; [| |exact Hin]; lia. }
  destruct (kfree_sound (with_mem m' h1) p n C1) as (h2 & -> & [B1 B2 _]); [by apply C2|].
  exists h2. split; [done|]. split; [done|]. intros q j. rewrite B2, C2.
  destruct (al_live _ _ _ _ Ha) as (n' & _ & Hl'). rewrite Hl'. split.
  - intros [[|[-> _]] ?]; done.
  - intros Hq. split; [by left|]. intros ->. by apply (al_fresh _ _ _ _ Ha j).
Qed.

(** [heap_init] on an uninitialised heap fails without a change, or builds an
    intact heap with no live allocation on page-aligned memory whose pages were free
    in the page allocator and are marked used afterwards. *)
Theorem heap_init_contract h start initial_size :
  heap_initialized h = false -> pa_wf (h_pa h) -> 0 <= initial_size ->
  heap_init h start initial_size = (h, false) \/
  exists h', heap_init h start initial_size = (h', true) /\ wf h' /\
    (forall p n, ~ live h' p n) /\ PAGE_SIZE <= heap_end h' - heap_start h' /\
    heap_start h' mod PAGE_SIZE = 0 /\ heap_max h' = heap_start h' + HEAP_MAX_SIZE /\
    (forall p, in_pages (heap_start h') ((heap_end h' - heap_start h') / PAGE_SIZE) p = true ->
       pa_used (h_pa h) p = false /\ pa_used (h_pa h') p = true).
Proof. apply heap_init_sound. Qed.

(** C1: After any sequence of kmalloc, kfree, krealloc calls, client writes and
    page-allocator activity from a fresh heap, the heap is intact, the pointers
    handed out and not released are exactly the live allocations, and a further
    [kfree] of any of them ends. *)
Theorem heap_history_accounted h0 h L :
  wf h0 -> (forall p n, ~ live h0 p n) -> rtc heap_step (h0, []) (h, L) ->
  wf h /\ (forall p, p ∈ L <-> exists n, live h p n) /\
  forall p, p ∈ L -> exists h', kfree h p = Some h'.
Proof.
  intros Hw Hnl Hr. assert (Ha : accounted (h, L)).
  { refine (rtc_ind_r (fun x => accounted x) (h0, []) _ _ _ Hr).
    - split; [done|]. simpl. intros p. split; [by intros ?%not_elem_of_nil|]. intros [n Hn]. by destruct (Hnl p n).
    - intros y z _ Hs Hy. by eapply accounted_step. }
  destruct Ha as [Hw' HL]. simpl in *. split; [done|]. split; [done|].
  intros p [n Hn]%HL. destruct (kfree_sound h p n Hw' Hn) as (h' & -> & _). by exists h'.
Qed.
End Theorems.

(** ** Corner cases *)

Section Validate.
Context {S : Type} `{PageAllocator S}.
Implicit Types h : heap S.

(** The walk of [heap_validate] over the blocks from a position on. *)
Lemma validate_walk_fails fuel h F l s u r v prev tot cnt :
  rep h (l ++ (s, u) :: r) F -> block_get_size (h_mem h) 0 < 32 ->
  0 <= cnt <= 10000 -> 10002 <= Z.of_nat fuel + cnt ->
  exists t, validate_walk fuel h v (heap_start h + total l) prev tot cnt = Some (false, t).
Proof.
  intros Hr H0. revert fuel l s u v prev tot cnt Hr.
  induction r as [|[s2 u2] r IH]; intros fuel l s u v prev tot cnt Hr Hc Hf;
    (destruct fuel as [|fuel]; [lia|]); cbn [validate_walk].
  all: pose proof (rep_fields _ _ _ _ _ _ Hr) as (B0 & _ & _ & _ & B3 & _ & B5 & B6).
  all: pose proof (rp_end _ _ _ Hr) as Hend; unfold sizeof_heap_block.
  all: rewrite (proj2 (Z.ltb_lt (heap_start h + total l) (heap_end h))) by lia; rewrite B0.
  all: rewrite (proj2 (Z.ltb_ge s 32)), (u64_id (heap_end h - _)) by lia.
  all: rewrite (proj2 (Z.ltb_ge (heap_end h - (heap_start h + total l)) s)) by lia; cbn [orb].
  all: rewrite (u64_id (cnt + 1)) by lia; destruct (10000 <? cnt + 1) eqn:Ec; zbool; [by eexists|].
  all: rewrite (next_physical_ok _ _ _ _ _ _ Hr).
  - destruct fuel as [|fuel]; [lia|]. cbn [validate_walk]. unfold NULL.
    rewrite (proj2 (Z.ltb_lt 0 (heap_end h))), (proj2 (Z.ltb_lt (block_get_size _ 0) sizeof_heap_block))
      by (unfold sizeof_heap_block; lia). by eexists.
  - replace (l ++ (s, u) :: (s2, u2) :: r) with ((l ++ [(s, u)]) ++ (s2, u2) :: r) in Hr
      by (by rewrite <- app_assoc).
    replace (heap_start h + total l + s) with (heap_start h + total (l ++ [(s, u)]))
      by (rewrite total_app; simpl; lia).
    eapply IH; [exact Hr|lia|lia].
Qed.

(** [heap_validate] reports every intact heap as damaged unless address 0 happens
    to hold a plausible block header: the walk does not stop at the NULL that follows
    the last block, because [(virtaddr_t)NULL < heap_end], and checks a header
    at address 0. *)
Theorem heap_validate_rejects_intact h :
  wf h -> block_get_size (h_mem h) 0 < 32 -> heap_validate h = Some false.
Proof.
  intros Hw H0. destruct (wf_inv _ Hw) as (bs & Hne & Hi). destruct bs as [|[s u] r]; [done|].
  unfold heap_validate. rewrite (wf_init _ Hw). cbn [negb].
  destruct (validate_walk_fails (Z.to_nat 10002) h _ [] s u r true NULL 0 0 Hi H0) as [t E]; [lia|lia|].
  simpl total in E. rewrite Z.add_0_r in E. rewrite E. simpl. by case_if.
Qed.
End Validate.

(** [kmalloc(SIZE_MAX)] succeeds on a fresh heap: header plus size wraps to
    31 and is rounded to 32, so the block returned is a bare header and the
    caller owns no byte of the 2^64 - 1 it asked for. *)
Theorem kmalloc_size_overflow :
  exists h, kmalloc demo_heap SIZE_MAX = Some (h, 0x100020) /\
    block_get_size (h_mem h) (0x100020 - 32) = 32.
Proof.
  assert (E : fmap (fun r : heap pmm * Z => (snd r, block_get_size (h_mem (fst r)) (0x100020 - 32)))
    (kmalloc demo_heap SIZE_MAX) = Some (0x100020, 32)) by (vm_compute; reflexivity).
  destruct (kmalloc demo_heap SIZE_MAX) as [[h p]|]; [|discriminate].
  simpl in E. injection E as -> E. by exists h.
Qed.

(** When another user of the page allocator holds the page behind the heap,
    [heap_expand] gets its pages elsewhere but still appends the address range
    behind [heap_end], and [kmalloc] hands out that page: the bytes of the new
    allocation include page 0x101000, which the other user owns. *)
Theorem heap_hands_out_foreign_page :
  exists s' h n, pmm_alloc_pages 1 (h_pa demo_heap) = (0x101000, s') /\
    kmalloc (with_pa s' demo_heap) 5000 = Some (h, 0x100020) /\
    live h 0x100020 n /\ 0x100020 < 0x101000 < 0x100020 + n.
Proof.
  destruct (pmm_alloc_pages 1 (h_pa demo_heap)) as [a s'] eqn:E1.
  assert (Ea : a = 0x101000).
  { transitivity (fst (pmm_alloc_pages 1 (h_pa demo_heap))); [by rewrite E1|]. vm_compute. reflexivity. }
  assert (Es : s' = snd (pmm_alloc_pages 1 (h_pa demo_heap))) by (rewrite E1; reflexivity).
  destruct demo_heap_ok as [Hw _].
  assert (Hwf : wf (with_pa s' demo_heap)).
  { assert (Hs' : pa_wf s').
    { eapply (pa_alloc_ok (h_pa demo_heap) 1 a s'); [apply Hw|lia|exact E1|lia]. }
    destruct Hw as [W1 W2 W3 (bs & Hne & Hi)]. split; [exact W1|exact Hs'|exact W3|].
    exists bs. split; [exact Hne|]. by apply inv_pa. }
  assert (Hp : fmap snd (kmalloc (with_pa s' demo_heap) 5000) = Some 0x100020).
  { rewrite Es. vm_compute. reflexivity. }
  destruct (kmalloc (with_pa s' demo_heap) 5000) as [[h p]|] eqn:E2; [|discriminate].
  simpl in Hp. injection Hp as ->.
  pose proof (kmalloc_nonnull (with_pa s' demo_heap) h 0x100020 5000 Hwf ltac:(lia) E2 ltac:(unfold NULL; lia)) as Ha.
  destruct (al_live _ _ _ _ Ha) as (n & Hn & Hl).
  exists s', h, n. rewrite Ea. split; [reflexivity|]. split; [exact E2|]. split; [apply Hl; right; split; reflexivity|lia].
Qed.

(** ** Witnesses *)

Lemma kmalloc_contract_witness :
  wf demo_heap /\
  exists h' p n, kmalloc demo_heap 100 = Some (h', p) /\ live h' p n /\ 100 <= n.
Proof.
  pose proof demo_heap_ok as [Hw Hl]. split; [exact Hw|].
  destruct (kmalloc_contract demo_heap 100 Hw ltac:(lia)) as [E|(h' & p & n & E & _ & _ & _ & Hn & _ & Hlv & _)].
  - exfalso. rewrite demo_kmalloc in E. apply (f_equal (fmap snd)) in E. simpl in E. discriminate.
  - exists h', p, n. split; [exact E|]. split; [apply Hlv; right; split; reflexivity|lia].
Defined.

Lemma kfree_contract_witness :
  wf demo_heap1 /\ exists h', kfree demo_heap1 0x100020 = Some h' /\ wf h'.
Proof.
  pose proof (al_wf _ _ _ _ demo_allocated) as Hw. split; [exact Hw|].
  destruct demo_live as (n & _ & Hl).
  destruct (kfree_contract demo_heap1 0x100020 n Hw Hl) as (h' & E & Hw' & _). exists h'. split; [exact E|exact Hw'].
Defined.

Lemma krealloc_contract_witness :
  wf demo_heap1 /\ exists h' q, krealloc demo_heap1 0x100020 200 = Some (h', q) /\ wf h'.
Proof.
  pose proof (al_wf _ _ _ _ demo_allocated) as Hw. split; [exact Hw|].
  destruct demo_live as (n & _ & Hl).
  destruct (krealloc_contract demo_heap1 0x100020 n 200 Hw Hl ltac:(lia)) as [E|(h' & q & k & E & Hw' & _)].
  - exists demo_heap1, NULL. split; [exact E|exact Hw].
  - exists h', q. split; [exact E|exact Hw'].
Defined.

Lemma kcalloc_contract_witness :
  wf demo_heap /\ kcalloc demo_heap (2 ^ 40) (2 ^ 40) = Some (demo_heap, NULL).
Proof.
  pose proof demo_heap_ok as [Hw _]. split; [exact Hw|].
  apply (proj1 (kcalloc_contract demo_heap (2 ^ 40) (2 ^ 40) Hw ltac:(lia) ltac:(lia))). lia.
Defined.

Lemma live_regions_disjoint_witness :
  exists n, live demo_heap1 0x100020 n /\ 0x100020 + n <= heap_end demo_heap1.
Proof.
  destruct demo_live as (n & _ & Hl). exists n. split; [exact Hl|].
  apply (live_regions_disjoint demo_heap1 0x100020 n 0x100020 n Hl Hl).
Defined.

Lemma kmalloc_write_kfree_roundtrip_witness :
  wf demo_heap /\ kmalloc demo_heap 100 = Some (demo_heap1, 0x100020) /\
  exists h2, kfree (with_mem (fill 100 (h_mem demo_heap1) 0x100020 7) demo_heap1) 0x100020 = Some h2 /\ wf h2.
Proof.
  pose proof demo_heap_ok as [Hw _]. split; [exact Hw|]. split; [exact demo_kmalloc|].
  destruct (kmalloc_write_kfree_roundtrip demo_heap demo_heap1 0x100020 100
    (fill 100 (h_mem demo_heap1) 0x100020 7) Hw ltac:(lia) demo_kmalloc ltac:(unfold NULL; lia))
    as (h2 & E & Hw2 & _); [|exists h2; split; [exact E|exact Hw2]].
  apply (fill_inside _ _ 100 7). lia.
Defined.

Lemma kmalloc_aligned_roundtrip_witness :
  wf demo_heap /\ exists h1 a, kmalloc_aligned demo_heap 100 64 = Some (h1, a) /\ a mod 64 = 0.
Proof.
  pose proof demo_heap_ok as [Hw _]. split; [exact Hw|].
  destruct (kmalloc_aligned_roundtrip demo_heap 100 6 Hw ltac:(lia) ltac:(lia) ltac:(lia))
    as [E|(h1 & a & p & E & Ha & _)].
  - exists demo_heap, NULL. split; [exact E|reflexivity].
  - exists h1, a. split; [exact E|exact Ha].
Defined.

Lemma heap_init_contract_witness :
  heap_initialized raw_heap = false /\ exists h', heap_init raw_heap 0 4096 = (h', true) /\ wf h'.
Proof.
  split; [reflexivity|].
  destruct (heap_init_contract raw_heap 0 4096 eq_refl big_wf ltac:(lia)) as [E|(h' & E & Hw & _)].
  - exfalso. apply (f_equal snd) in E. vm_compute in E. discriminate.
  - exists h'. split; [exact E|exact Hw].
Defined.

Lemma heap_history_accounted_witness :
  exists h' L, rtc heap_step (demo_heap, []) (h', L) /\ wf h' /\ L = [0x100020].
Proof.
  pose proof demo_heap_ok as [Hw Hl].
  assert (Hr : rtc heap_step (demo_heap, []) (demo_heap1, [0x100020])).
  { apply rtc_once. eapply step_malloc; [|exact demo_kmalloc|unfold NULL]; lia. }
  exists demo_heap1, [0x100020]. split; [exact Hr|]. split; [|reflexivity].
  apply (heap_history_accounted demo_heap demo_heap1 [0x100020] Hw Hl Hr).
Defined.

Lemma heap_validate_rejects_intact_witness : wf demo_heap /\ heap_validate demo_heap = Some false.
Proof.
  pose proof demo_heap_ok as [Hw _]. split; [exact Hw|].
  apply (heap_validate_rejects_intact demo_heap Hw). vm_compute. reflexivity.
Defined.
