(* ===== verification/Ring.v ===== *)
(** * Arrays updated in place and circular buffers

    The pipe buffer and the ready queue are arrays with a read index, a write index
    and a count. [ring f cap pos n] is the list of the [n] elements from [pos] on,
    wrapping at [cap]; the lemmas say what a write at the write index and an advance
    of the read index do to that list. *)
From S2P Require Import Prelude.

Section Ring.
Context {A : Type}.
Implicit Types f : Z -> A.

(** [a[i] = v] *)
Definition upd f (i : Z) (v : A) : Z -> A := fun x => if x =? i then v else f x.

Lemma upd_same f i v : upd f i v i = v.
Proof. unfold upd. by rewrite Z.eqb_refl. Qed.
Lemma upd_other f i v x : x <> i -> upd f i v x = f x.
Proof. intros Hx. unfold upd. by rewrite (proj2 (Z.eqb_neq x i)). Qed.

Fixpoint ring f (cap pos : Z) (n : nat) : list A :=
  match n with
  | O => []
  | S n' => f pos :: ring f cap ((pos + 1) mod cap) n'
  end.

Lemma length_ring f cap pos n : length (ring f cap pos n) = n.
Proof. revert pos. induction n as [|n IH]; intros pos; simpl; auto. Qed.

Context (cap : Z) (Hcap : 0 < cap).

Lemma mod_succ x k : ((x mod cap) + k) mod cap = (x + k) mod cap.
Proof. by rewrite Zplus_mod_idemp_l. Qed.

Lemma ring_app f pos n m :
  0 <= pos < cap -> ring f cap pos (n + m) = ring f cap pos n ++ ring f cap ((pos + Z.of_nat n) mod cap) m.
Proof.
  revert pos. induction n as [|n IH]; intros pos Hp; simpl.
  - rewrite Z.add_0_r, Z.mod_small by done. done.
  - f_equal. rewrite IH by (apply Z.mod_pos_bound; lia). f_equal.
    rewrite mod_succ. f_equal. f_equal. lia.
Qed.

Lemma ring_lookup f pos n i :
  0 <= pos < cap -> (i < n)%nat -> ring f cap pos n !! i = Some (f ((pos + Z.of_nat i) mod cap)).
Proof.
  revert pos i. induction n as [|n IH]; intros pos i Hp Hi; [lia|].
  destruct i as [|i]; simpl.
  - rewrite Z.add_0_r, Z.mod_small by done. done.
  - rewrite IH by (try apply Z.mod_pos_bound; lia). do 2 f_equal. rewrite mod_succ. f_equal. lia.
Qed.

Lemma ring_ext f g pos n :
  0 <= pos < cap -> (forall i, 0 <= i < Z.of_nat n -> g ((pos + i) mod cap) = f ((pos + i) mod cap)) ->
  ring g cap pos n = ring f cap pos n.
Proof.
  intros Hp He. apply list_eq. intros i. destruct (decide (i < n)%nat).
  - rewrite !ring_lookup by lia. f_equal. apply He. lia.
  - rewrite !lookup_ge_None_2 by (rewrite length_ring; lia). done.
Qed.

(** Two positions less than a round apart are different slots. *)
Lemma slot_neq pos i j :
  0 <= i < cap -> 0 <= j < cap -> i <> j -> (pos + i) mod cap <> (pos + j) mod cap.
Proof.
  intros Hi Hj Hne E. apply Hne.
  assert (Hd : (pos + i - (pos + j)) mod cap = 0)
    by (rewrite Zminus_mod, E, Z.sub_diag; apply Z.mod_0_l; lia).
  replace (pos + i - (pos + j)) with (i - j) in Hd by lia.
  apply Z.mod_divide in Hd as [q Hq]; [|lia]. assert (q = 0) by nia. nia.
Qed.

(** Writing the slot behind the last element appends it. *)
Lemma ring_push f pos n v :
  0 <= pos < cap -> Z.of_nat n < cap ->
  ring (upd f ((pos + Z.of_nat n) mod cap) v) cap pos (S n) = ring f cap pos n ++ [v].
Proof.
  intros Hp Hn. replace (S n) with (n + 1)%nat by lia. rewrite ring_app by done. f_equal.
  - apply ring_ext; [done|]. intros i Hi. apply upd_other. apply slot_neq; lia.
  - simpl. by rewrite upd_same.
Qed.

(** Dropping [k] elements from the front. *)
Lemma ring_drop f pos n k :
  0 <= pos < cap -> (k <= n)%nat ->
  ring f cap ((pos + Z.of_nat k) mod cap) (n - k) = drop k (ring f cap pos n).
Proof.
  intros Hp Hk. replace n with (k + (n - k))%nat at 2 by lia. rewrite ring_app by done.
  rewrite drop_app_length'; [done|]. by rewrite length_ring.
Qed.
Lemma ring_take f pos n k :
  0 <= pos < cap -> (k <= n)%nat -> ring f cap pos k = take k (ring f cap pos n).
Proof.
  intros Hp Hk. replace n with (k + (n - k))%nat by lia. rewrite ring_app by done.
  rewrite take_app_length'; [done|]. by rewrite length_ring.
Qed.
End Ring.
