(* ===== verification/Process.v ===== *)
(** * Processes (kernel/proc/process.c, process.h): data and operations

    A [process_t *] is the number of its slot in [process_table] plus one, so that 0
    is NULL; [process_table] maps it to the PCB. Kernel stacks come from the page
    allocator, through its interface. Each function holds the process lock for its
    whole body and is one step. *)
From S2P Require Import Prelude Memory PageAlloc Ring.

Definition PROCESS_NAME_MAX : Z := 64.
Definition PROCESS_MAX_COUNT : Z := 256.
Definition PROCESS_KERNEL_STACK_SIZE : Z := 16 * KB.
Definition PROCESS_MAX_CHILDREN : Z := 32.
Definition PID_INVALID : Z := 0.
Definition PID_IDLE : Z := 1.
Definition PRIORITY_IDLE : Z := 0.
Definition PRIORITY_DEFAULT : Z := 5.
Definition PROCESS_FLAG_KERNEL : Z := BIT 0.

Inductive process_state :=
| PROCESS_STATE_INVALID
| PROCESS_STATE_READY
| PROCESS_STATE_RUNNING
| PROCESS_STATE_BLOCKED
| PROCESS_STATE_TERMINATED.

#[export] Instance process_state_eq : EqDecision process_state.
Proof. solve_decision. Defined.

Record cpu_context := mk_context {
  r15 : Z; r14 : Z; r13 : Z; r12 : Z; r11 : Z; r10 : Z; r9 : Z; r8 : Z;
  rbp : Z; rdi : Z; rsi : Z; rdx : Z; rcx : Z; rbx : Z; rax : Z;
  rip : Z; cs : Z; rflags : Z; rsp : Z; ss : Z;
}.

Record pcb := mk_pcb {
  pid : Z;
  name : Z -> Z;
  state : process_state;
  exit_status : Z;
  priority : Z;
  time_slice : Z;
  total_ticks : Z;
  context : cpu_context;
  page_table : Z;
  kernel_stack : Z;
  kernel_stack_base : Z;
  parent : Z;
  children : Z -> Z;
  child_count : Z;
  pflags : Z;
}.

Definition zero_context : cpu_context :=
  mk_context 0 0 0 0 0 0 0 0 0 0 0 0 0 0 0 0 0 0 0 0.
(** The PCB after [alloc_pcb] zeroed it. *)
Definition zero_pcb : pcb :=
  mk_pcb 0 (fun _ => 0) PROCESS_STATE_INVALID 0 0 0 0 zero_context 0 0 0 0 (fun _ => 0) 0 0.

(** Field updates. *)
Definition set_pid (v : Z) (p : pcb) : pcb :=
  mk_pcb v (name p) (state p) (exit_status p) (priority p) (time_slice p) (total_ticks p)
    (context p) (page_table p) (kernel_stack p) (kernel_stack_base p) (parent p) (children p)
    (child_count p) (pflags p).
Definition set_state (v : process_state) (p : pcb) : pcb :=
  mk_pcb (pid p) (name p) v (exit_status p) (priority p) (time_slice p) (total_ticks p)
    (context p) (page_table p) (kernel_stack p) (kernel_stack_base p) (parent p) (children p)
    (child_count p) (pflags p).
Definition set_exit_status (v : Z) (p : pcb) : pcb :=
  mk_pcb (pid p) (name p) (state p) v (priority p) (time_slice p) (total_ticks p)
    (context p) (page_table p) (kernel_stack p) (kernel_stack_base p) (parent p) (children p)
    (child_count p) (pflags p).
Definition set_priority_flags (v fl : Z) (p : pcb) : pcb :=
  mk_pcb (pid p) (name p) (state p) (exit_status p) v (time_slice p) (total_ticks p)
    (context p) (page_table p) (kernel_stack p) (kernel_stack_base p) (parent p) (children p)
    (child_count p) fl.
Definition set_time_slice (v : Z) (p : pcb) : pcb :=
  mk_pcb (pid p) (name p) (state p) (exit_status p) (priority p) v (total_ticks p)
    (context p) (page_table p) (kernel_stack p) (kernel_stack_base p) (parent p) (children p)
    (child_count p) (pflags p).
Definition set_total_ticks (v : Z) (p : pcb) : pcb :=
  mk_pcb (pid p) (name p) (state p) (exit_status p) (priority p) (time_slice p) v
    (context p) (page_table p) (kernel_stack p) (kernel_stack_base p) (parent p) (children p)
    (child_count p) (pflags p).
Definition set_stack (top base : Z) (p : pcb) : pcb :=
  mk_pcb (pid p) (name p) (state p) (exit_status p) (priority p) (time_slice p) (total_ticks p)
    (context p) (page_table p) top base (parent p) (children p) (child_count p) (pflags p).
Definition set_parent (v : Z) (p : pcb) : pcb :=
  mk_pcb (pid p) (name p) (state p) (exit_status p) (priority p) (time_slice p) (total_ticks p)
    (context p) (page_table p) (kernel_stack p) (kernel_stack_base p) v (children p)
    (child_count p) (pflags p).
Definition set_children (ch : Z -> Z) (n : Z) (p : pcb) : pcb :=
  mk_pcb (pid p) (name p) (state p) (exit_status p) (priority p) (time_slice p) (total_ticks p)
    (context p) (page_table p) (kernel_stack p) (kernel_stack_base p) (parent p) ch n (pflags p).

(** The process table, the current process, the next PID, the CR3 register, and
    the state of the page allocator. *)
Record procs (S : Type) := mk_procs {
  process_table : Z -> pcb;
  current_process : Z;
  next_pid : Z;
  cr3 : Z;
  pr_pa : S;
}.
Arguments mk_procs {S}.
Arguments process_table {S}.
Arguments current_process {S}.
Arguments next_pid {S}.
Arguments cr3 {S}.
Arguments pr_pa {S}.

Section Process.
Context {S : Type} `{PageAllocator S}.
Implicit Types s : procs S.

Definition with_table (t : Z -> pcb) s : procs S :=
  mk_procs t (current_process s) (next_pid s) (cr3 s) (pr_pa s).
Definition with_current (p : Z) s : procs S :=
  mk_procs (process_table s) p (next_pid s) (cr3 s) (pr_pa s).
Definition with_next_pid (n : Z) s : procs S :=
  mk_procs (process_table s) (current_process s) n (cr3 s) (pr_pa s).
Definition with_pages (pa : S) s : procs S :=
  mk_procs (process_table s) (current_process s) (next_pid s) (cr3 s) pa.
(** [*p = f( *p )] *)
Definition modify (p : Z) (f : pcb -> pcb) s : procs S :=
  with_table (upd (process_table s) p (f (process_table s p))) s.

(** [for (i = 0; i < max - 1 && src[i] != 0; i++) dest[i] = src[i]; dest[i] = 0;]
    from the copied characters on; [n] is what remains of [max - 1]. *)
Fixpoint kstrcpy_loop (n : nat) (i : Z) (m : mem) (src : Z) (dest : Z -> Z) : Z -> Z :=
  match n with
  | O => upd dest i 0
  | Datatypes.S n' =>
      if load8 m (src + i) =? 0 then upd dest i 0
      else kstrcpy_loop n' (i + 1) m src (upd dest i (load8 m (src + i)))
  end.
Definition kstrcpy (m : mem) (dest : Z -> Z) (src max : Z) : Z -> Z :=
  kstrcpy_loop (Z.to_nat (max - 1)) 0 m src dest.

(** The first slot from [i] on whose PCB satisfies [test], 0 when none does. *)
Fixpoint find_slot (n : nat) (p : Z) (test : pcb -> bool) (t : Z -> pcb) : Z :=
  match n with
  | O => NULL
  | Datatypes.S n' => if test (t p) then p else find_slot n' (p + 1) test t
  end.

Definition is_state (st : process_state) (p : pcb) : bool := bool_decide (state p = st).

Definition alloc_pcb s : procs S * Z :=
  let p := find_slot (Z.to_nat PROCESS_MAX_COUNT) 1 (is_state PROCESS_STATE_INVALID)
             (process_table s) in
  if p =? NULL then (s, NULL) else (modify p (fun _ => zero_pcb) s, p).

Definition free_pcb (p : Z) s : procs S :=
  if p =? NULL then s
  else modify p (fun b => set_pid PID_INVALID (set_state PROCESS_STATE_INVALID b)) s.

Definition process_get_current s : Z := current_process s.

Definition process_get_by_pid (n : Z) s : Z :=
  if n =? PID_INVALID then NULL
  else find_slot (Z.to_nat PROCESS_MAX_COUNT) 1
         (fun b => negb (is_state PROCESS_STATE_INVALID b) && (pid b =? n)) (process_table s).

Definition process_set_state (p : Z) (st : process_state) s : procs S :=
  if p =? NULL then s
  else
    let s := modify p (set_state st) s in
    if bool_decide (st = PROCESS_STATE_RUNNING) then
      let c := current_process s in
      let s := if negb (c =? NULL) && negb (c =? p)
                  && is_state PROCESS_STATE_RUNNING (process_table s c)
               then modify c (set_state PROCESS_STATE_READY) s else s in
      with_current p s
    else s.

Fixpoint count_slots (n : nat) (p : Z) (test : pcb -> bool) (t : Z -> pcb) : Z :=
  match n with
  | O => 0
  | Datatypes.S n' => (if test (t p) then 1 else 0) + count_slots n' (p + 1) test t
  end.
Definition process_get_count s : Z :=
  count_slots (Z.to_nat PROCESS_MAX_COUNT) 1
    (fun b => negb (is_state PROCESS_STATE_INVALID b)) (process_table s).
Definition process_count_by_state (st : process_state) s : Z :=
  count_slots (Z.to_nat PROCESS_MAX_COUNT) 1 (is_state st) (process_table s).

(** ** Creation *)

(** The initial CPU context: everything zero but these five. *)
Definition initial_context (entry stack_top : Z) : cpu_context :=
  mk_context 0 0 0 0 0 0 0 0 0 0 0 0 0 0 0 entry 0x08 0x202 stack_top 0x10.

(** The fields [process_create] fills in before it asks for a stack. *)
Definition named_pcb (m : mem) (name_ptr new_pid : Z) (b : pcb) : pcb :=
  mk_pcb new_pid (kstrcpy m (name b) name_ptr PROCESS_NAME_MAX) PROCESS_STATE_READY 0
    PRIORITY_DEFAULT 0 0 (context b) (page_table b) (kernel_stack b) (kernel_stack_base b)
    (parent b) (children b) (child_count b) (pflags b).

(** The rest, once it has one at [stack]. *)
Definition filled_pcb (entry stack cr3 cur : Z) (b : pcb) : pcb :=
  let top := u64 (stack + PROCESS_KERNEL_STACK_SIZE) in
  mk_pcb (pid b) (name b) (state b) (exit_status b) (priority b) (time_slice b) (total_ticks b)
    (initial_context entry (u64 (top - 8))) cr3 top stack cur (children b) 0 PROCESS_FLAG_KERNEL.

(** [if (parent && parent->child_count < MAX) parent->children[parent->child_count++] = p;] *)
Definition add_child (par p : Z) s : procs S :=
  let b := process_table s par in
  if child_count b <? PROCESS_MAX_CHILDREN
  then modify par (fun b => set_children (upd (children b) (child_count b) p) (child_count b + 1) b) s
  else s.

Definition process_create (m : mem) (name_ptr entry : Z) s : procs S * Z :=
  if (name_ptr =? NULL) || (entry =? NULL) then (s, NULL)
  else
    let '(s, p) := alloc_pcb s in
    if p =? NULL then (s, NULL)
    else
      let s := modify p (named_pcb m name_ptr (next_pid s)) s in
      let s := with_next_pid (u32 (next_pid s + 1)) s in
      let '(stack, pa) := pa_alloc (PROCESS_KERNEL_STACK_SIZE / PAGE_SIZE) (pr_pa s) in
      let s := with_pages pa s in
      if stack =? 0 then (free_pcb p s, NULL)
      else
        let s := modify p (filled_pcb entry stack (cr3 s) (current_process s)) s in
        let s := if current_process s =? NULL then s else add_child (current_process s) p s in
        (s, p).

(** ** Termination *)

(** One child of the exiting process [c] handed to the idle process. *)
Definition reparent (c idle i : Z) s : procs S :=
  let child := children (process_table s c) i in
  let s := if negb (child =? NULL)
              && (child_count (process_table s idle) <? PROCESS_MAX_CHILDREN)
           then add_child idle child (modify child (set_parent idle) s) else s in
  modify c (fun b => set_children (upd (children b) i NULL) (child_count b) b) s.

(** [for (i = 0; i < current_process->child_count; i++)]: the count is read again
    in every iteration. *)
Fixpoint reparent_loop (fuel : nat) (c idle i : Z) s : procs S :=
  match fuel with
  | O => s
  | Datatypes.S f =>
      if i <? child_count (process_table s c)
      then reparent_loop f c idle (i + 1) (reparent c idle i s)
      else s
  end.

Definition reparent_children (c : Z) s : procs S :=
  if 0 <? child_count (process_table s c) then
    let idle := process_get_by_pid PID_IDLE s in
    let s := if idle =? NULL then s
             else reparent_loop (Z.to_nat PROCESS_MAX_CHILDREN) c idle 0 s in
    modify c (fun b => set_children (children b) 0 b) s
  else s.

(** [for (j = i; j < n - 1; j++) a[j] = a[j + 1];] *)
Fixpoint shift_down (k : nat) (j : Z) (a : Z -> Z) : Z -> Z :=
  match k with
  | O => a
  | Datatypes.S k' => shift_down k' (j + 1) (upd a j (a (j + 1)))
  end.

(** The index of [c] among the first children, from [i] on. *)
Fixpoint find_child (k : nat) (i : Z) (a : Z -> Z) (c : Z) : option Z :=
  match k with
  | O => None
  | Datatypes.S k' => if a i =? c then Some i else find_child k' (i + 1) a c
  end.

Definition remove_child (c : Z) (b : pcb) : pcb :=
  match find_child (Z.to_nat (child_count b)) 0 (children b) c with
  | None => b
  | Some i =>
      let n := child_count b in
      let a := shift_down (Z.to_nat (n - 1 - i)) i (children b) in
      set_children (upd a (n - 1) NULL) (n - 1) b
  end.

(** [process_exit] up to the final halt; it does not return. *)
Definition process_exit (status : Z) s : procs S :=
  let c := current_process s in
  if c =? NULL then s
  else
    let s := modify c (fun b => set_state PROCESS_STATE_TERMINATED (set_exit_status status b)) s in
    let s := reparent_children c s in
    let par := parent (process_table s c) in
    let s := if par =? NULL then s else modify par (remove_child c) s in
    let base := kernel_stack_base (process_table s c) in
    let s := if base =? 0 then s
             else modify c (set_stack 0 0)
                    (with_pages (pa_free base (PROCESS_KERNEL_STACK_SIZE / PAGE_SIZE) (pr_pa s)) s) in
    with_current NULL (free_pcb c s).

(** ** Initialisation *)

(** [idle_entry] is the address of [idle_process_entry], [idle_name] of the string. *)
Definition process_init (m : mem) (idle_name idle_entry : Z) s : procs S :=
  let s := for_range 1 (PROCESS_MAX_COUNT + 1)
    (fun p s => modify p (fun b => set_pid PID_INVALID (set_state PROCESS_STATE_INVALID b)) s) s in
  let '(s, idle) := process_create m idle_name idle_entry s in
  if idle =? NULL then s
  else
    let s := modify idle (fun b => set_priority_flags PRIORITY_IDLE
               (Z.lor (pflags b) PROCESS_FLAG_KERNEL) b) s in
    let s := with_current idle s in
    process_set_state idle PROCESS_STATE_RUNNING s.
End Process.
