(* ===== verification/ProcessProps.v ===== *)
(** * Theorems of the process table (kernel/proc/process.c)

    The invariant: live processes have distinct PIDs below [next_pid], and each
    owns the pages of its kernel stack. Creation, termination and state changes
    preserve it, so PIDs identify processes and stacks never overlap. *)
From S2P Require Import Prelude Memory PageAlloc Pmm Ring Process.
Section Props.
Context {S : Type} `{PageAllocator S}.
Implicit Types s : procs S.

(** ** Searching the table *)

Lemma find_slot_spec n p test t :
  0 < p ->
  (find_slot n p test t = NULL /\ forall q, p <= q < p + Z.of_nat n -> test (t q) = false) \/
  (exists q, find_slot n p test t = q /\ p <= q < p + Z.of_nat n /\ test (t q) = true /\
     forall r, p <= r < q -> test (t r) = false).
Proof.
  revert p. induction n as [|n IH]; intros p Hp; cbn [find_slot].
  - left. split; [done|]. intros q Hq. lia.
  - destruct (test (t p)) eqn:E.
    + right. exists p. split; [done|]. split; [lia|]. split; [done|]. intros r Hr. lia.
    + destruct (IH (p + 1) ltac:(lia)) as [[E1 E2]|(q & E1 & Hq & E2 & E3)].
      * left. split; [done|]. intros q Hq. destruct (decide (q = p)) as [->|]; [done|]. apply E2. lia.
      * right. exists q. split; [done|]. split; [lia|]. split; [done|].
        intros r Hr. destruct (decide (r = p)) as [->|]; [done|]. apply E3. lia.
Qed.

(** A slot that holds a process. *)
Definition alive s (p : Z) : Prop :=
  1 <= p <= PROCESS_MAX_COUNT /\ state (process_table s p) <> PROCESS_STATE_INVALID.

Lemma is_state_spec st b : is_state st b = true <-> state b = st.
Proof. unfold is_state. by rewrite bool_decide_eq_true. Qed.

Lemma alloc_pcb_spec s :
  (alloc_pcb s = (s, NULL) /\ forall p, 1 <= p <= PROCESS_MAX_COUNT -> alive s p) \/
  (exists p, alloc_pcb s = (modify p (fun _ => zero_pcb) s, p) /\ 1 <= p <= PROCESS_MAX_COUNT /\
     ~ alive s p).
Proof.
  unfold alloc_pcb. destruct (find_slot_spec (Z.to_nat PROCESS_MAX_COUNT) 1
    (is_state PROCESS_STATE_INVALID) (process_table s) ltac:(lia)) as [[-> Hn]|(p & -> & Hp & Ht & _)].
  - left. split; [done|]. intros p Hp. split; [done|]. intros E.
    apply is_state_spec in E. rewrite Hn in E; [done|]. unfold PROCESS_MAX_COUNT in *. lia.
  - right. exists p. unfold NULL, PROCESS_MAX_COUNT in *. rewrite (proj2 (Z.eqb_neq p 0)) by lia.
    split; [done|]. split; [lia|]. intros [_ Hs]. by apply Hs, is_state_spec.
Qed.

(** ** The invariant *)

Definition stack_pages : Z := PROCESS_KERNEL_STACK_SIZE / PAGE_SIZE.

(** Page [q] belongs to the kernel stack of [p]. *)
Definition stack_page s (p q : Z) : Prop :=
  let base := kernel_stack_base (process_table s p) in
  base <> 0 /\ in_pages base stack_pages q = true.

Record wf s : Prop := {
  w_pa : pa_wf (pr_pa s);
  w_next : 0 < next_pid s;
  w_pid : forall p, alive s p -> 0 < pid (process_table s p) < next_pid s;
  w_distinct : forall p q, alive s p -> alive s q ->
    pid (process_table s p) = pid (process_table s q) -> p = q;
  w_base : forall p, alive s p -> 0 <= kernel_stack_base (process_table s p) < 2 ^ 64 /\
    kernel_stack_base (process_table s p) mod PAGE_SIZE = 0;
  w_owned : forall p q, alive s p -> stack_page s p q ->
    pa_managed (pr_pa s) q = true /\ pa_used (pr_pa s) q = true;
  w_disjoint : forall p p' q, alive s p -> alive s p' -> stack_page s p q -> stack_page s p' q -> p = p';
  w_current : current_process s = NULL \/ alive s (current_process s);
}.

(** The fields the invariant reads are the same in every slot. *)
Definition same_ids s s' : Prop :=
  pr_pa s' = pr_pa s /\ next_pid s' = next_pid s /\
  forall p, pid (process_table s' p) = pid (process_table s p) /\
    (state (process_table s' p) = PROCESS_STATE_INVALID <-> state (process_table s p) = PROCESS_STATE_INVALID) /\
    kernel_stack_base (process_table s' p) = kernel_stack_base (process_table s p).

#[export] Instance same_ids_preorder : PreOrder same_ids.
Proof.
  split.
  - intros s. split; [done|]. split; [done|]. intros p. tauto.
  - intros s1 s2 s3 (A1 & A2 & A3) (B1 & B2 & B3). split; [congruence|]. split; [congruence|].
    intros p. destruct (A3 p) as (? & ? & ?), (B3 p) as (? & ? & ?). split; [congruence|].
    split; [tauto|congruence].
Qed.

Lemma same_ids_modify p f s :
  (forall b, pid (f b) = pid b /\ (state (f b) = PROCESS_STATE_INVALID <-> state b = PROCESS_STATE_INVALID) /\
     kernel_stack_base (f b) = kernel_stack_base b) ->
  same_ids s (modify p f s).
Proof.
  intros Hf. split; [done|]. split; [done|]. intros q. simpl. destruct (decide (q = p)) as [->|].
  - rewrite upd_same. apply Hf.
  - rewrite upd_other by done. tauto.
Qed.

Lemma same_ids_alive s s' p : same_ids s s' -> alive s' p <-> alive s p.
Proof. intros (_ & _ & He). unfold alive. destruct (He p) as (_ & Hs & _). by rewrite Hs. Qed.

Lemma same_ids_wf s s' :
  same_ids s s' -> (current_process s' = NULL \/ alive s (current_process s')) -> wf s -> wf s'.
Proof.
  intros Hi Hc [W1 W2 W3 W4 W5 W6 W7 W8]. pose proof Hi as (E1 & E2 & He).
  assert (Hst : forall p q, stack_page s' p q <-> stack_page s p q).
  { intros p q. unfold stack_page. destruct (He p) as (_ & _ & ->). done. }
  split.
  - by rewrite E1.
  - by rewrite E2.
  - intros p Hp%(same_ids_alive _ _ _ Hi). rewrite E2. destruct (He p) as (-> & _). auto.
  - intros p q Hp%(same_ids_alive _ _ _ Hi) Hq%(same_ids_alive _ _ _ Hi).
    destruct (He p) as (-> & _), (He q) as (-> & _). auto.
  - intros p Hp%(same_ids_alive _ _ _ Hi). destruct (He p) as (_ & _ & ->). auto.
  - intros p q Hp%(same_ids_alive _ _ _ Hi). rewrite Hst, E1. by apply W6.
  - intros p p' q Hp%(same_ids_alive _ _ _ Hi) Hp'%(same_ids_alive _ _ _ Hi). rewrite !Hst. by apply W7.
  - destruct Hc as [|Hc]; [by left|right]. by apply (same_ids_alive _ _ _ Hi).
Qed.

(** ** State changes *)

Lemma same_ids_set_state s p st :
  state (process_table s p) <> PROCESS_STATE_INVALID -> st <> PROCESS_STATE_INVALID ->
  same_ids s (modify p (set_state st) s).
Proof.
  intros Hp Hst. split; [done|]. split; [done|]. intros q. simpl. destruct (decide (q = p)) as [->|].
  - rewrite upd_same. simpl. tauto.
  - rewrite upd_other by done. tauto.
Qed.

Lemma same_ids_set_current s p : same_ids s (with_current p s).
Proof. split; [done|]. split; [done|]. tauto. Qed.

Lemma same_ids_process_set_state s p st :
  alive s p -> st <> PROCESS_STATE_INVALID -> same_ids s (process_set_state p st s).
Proof.
  intros [_ Hp] Hst. unfold process_set_state. case_if; [reflexivity|].
  case_bool_decide; [|by apply same_ids_set_state].
  etransitivity; [by apply (same_ids_set_state s p st)|].
  etransitivity; [|apply same_ids_set_current].
  match goal with |- same_ids _ (if ?b then _ else _) => destruct b eqn:Ec end; [|reflexivity].
  apply andb_true_iff in Ec as [_ Ec]. apply is_state_spec in Ec.
  apply same_ids_set_state; [by rewrite Ec|done].
Qed.

Lemma set_state_current s p st :
  current_process (process_set_state p st s) = current_process s \/
  current_process (process_set_state p st s) = p.
Proof.
  unfold process_set_state. case_if; [by left|]. case_bool_decide; [by right|by left].
Qed.

Lemma set_state_wf s p st :
  wf s -> alive s p -> st <> PROCESS_STATE_INVALID -> wf (process_set_state p st s).
Proof.
  intros Hw Hp Hst. eapply same_ids_wf; [by apply same_ids_process_set_state| |exact Hw].
  destruct (set_state_current s p st) as [-> | ->]; [apply Hw|by right].
Qed.

(** ** Creation *)

Lemma same_ids_add_child par p s : same_ids s (add_child par p s).
Proof. unfold add_child. case_if; [|reflexivity]. apply same_ids_modify. done. Qed.

Context `{!PageAllocatorLaws S}.

Lemma stack_pages_val : stack_pages = 4.
Proof. reflexivity. Qed.

(** A process put into a free slot with a fresh PID and fresh stack pages. *)
Lemma install_wf s s' p stack pa :
  wf s -> 1 <= p <= PROCESS_MAX_COUNT -> ~ alive s p -> pa_alloc 4 (pr_pa s) = (stack, pa) -> stack <> 0 ->
  pr_pa s' = pa -> next_pid s' = next_pid s + 1 -> current_process s' = current_process s ->
  (forall q, q <> p -> process_table s' q = process_table s q) ->
  pid (process_table s' p) = next_pid s -> state (process_table s' p) <> PROCESS_STATE_INVALID ->
  kernel_stack_base (process_table s' p) = stack -> wf s'.
Proof.
  intros [W1 W2 W3 W4 W5 W6 W7 W8] Hp Hnp Ha Hst E1 E2 E3 E4 E5 E6 E7.
  destruct (pa_alloc_ok _ 4 _ _ W1 ltac:(lia) Ha Hst) as (P1 & _ & P3 & P4 & P5 & P6 & P7 & P8).
  unfold GB, MB, KB, PAGE_SIZE in P5.
  assert (Hal : forall q, alive s' q -> q <> p -> alive s q).
  { intros q [Hq1 Hq2] Hne. split; [done|]. by rewrite <- E4. }
  assert (Hsp : forall q x, q <> p -> stack_page s' q x -> stack_page s q x).
  { intros q x Hne. unfold stack_page. by rewrite E4. }
  assert (Hfresh : forall x, stack_page s' p x -> pa_used (pr_pa s) x = false).
  { intros x [_ Hx]. rewrite E7, stack_pages_val in Hx. by apply P6 in Hx as [_ ?]. }
  split.
  - by rewrite E1.
  - lia.
  - intros q Hq. rewrite E2. destruct (decide (q = p)) as [->|Hne]; [lia|].
    rewrite E4 by done. specialize (W3 q (Hal q Hq Hne)). lia.
  - intros q r Hq Hr Eq. destruct (decide (q = p)) as [->|Hne], (decide (r = p)) as [->|Hne'].
    + done.
    + rewrite E5, E4 in Eq by done. specialize (W3 r (Hal r Hr Hne')). lia.
    + rewrite E5, E4 in Eq by done. specialize (W3 q (Hal q Hq Hne)). lia.
    + rewrite !E4 in Eq by done. apply W4; auto.
  - intros q Hq. destruct (decide (q = p)) as [->|Hne]; [rewrite E7; split; [lia|done]|].
    rewrite E4 by done. apply W5. auto.
  - intros q x Hq Hx. rewrite E1, P7, P8. destruct (decide (q = p)) as [->|Hne].
    + destruct Hx as [_ Hx]. rewrite E7, stack_pages_val in Hx. rewrite Hx. split; [by apply P6|apply orb_true_r].
    + destruct (W6 q x (Hal q Hq Hne) (Hsp q x Hne Hx)) as [-> ->]. done.
  - intros q r x Hq Hr Hqx Hrx. destruct (decide (q = p)) as [->|Hne], (decide (r = p)) as [->|Hne'].
    + done.
    + destruct (W6 r x (Hal r Hr Hne') (Hsp r x Hne' Hrx)) as [_ Hu]. rewrite (Hfresh x Hqx) in Hu. done.
    + destruct (W6 q x (Hal q Hq Hne) (Hsp q x Hne Hqx)) as [_ Hu]. rewrite (Hfresh x Hrx) in Hu. done.
    + eapply W7; eauto.
  - rewrite E3. destruct W8 as [|[Hc1 Hc2]]; [by left|right]. split; [done|].
    destruct (decide (current_process s = p)) as [->|]; [done|]. by rewrite E4.
Qed.

(** A slot that is free before and after may hold anything. *)
Lemma scribble_wf s s' p :
  wf s -> ~ alive s p -> state (process_table s' p) = PROCESS_STATE_INVALID ->
  (forall q, q <> p -> process_table s' q = process_table s q) ->
  pr_pa s' = pr_pa s -> next_pid s <= next_pid s' -> current_process s' = current_process s ->
  wf s' /\ forall q, alive s' q <-> alive s q.
Proof.
  intros Hw Hnp Hinv Ht Hpa Hnx Hc.
  assert (Hne : forall q, alive s q -> q <> p) by (intros q Hq ->; done).
  assert (Hal : forall q, alive s' q <-> alive s q).
  { intros q. destruct (decide (q = p)) as [->|Hq]; [|unfold alive; by rewrite Ht].
    split; [by intros [_ ?]|done]. }
  assert (Hsp : forall q x, q <> p -> stack_page s' q x <-> stack_page s q x).
  { intros q x Hq. unfold stack_page. by rewrite Ht. }
  split; [|done]. destruct Hw as [W1 W2 W3 W4 W5 W6 W7 W8]. split.
  - by rewrite Hpa.
  - lia.
  - intros q Hq%Hal. rewrite Ht by auto. specialize (W3 q Hq). lia.
  - intros q r Hq%Hal Hr%Hal. rewrite !Ht by auto. auto.
  - intros q Hq%Hal. rewrite Ht by auto. auto.
  - intros q x Hq%Hal Hx. apply Hsp in Hx; [|auto]. rewrite Hpa. by apply (W6 q).
  - intros q r x Hq%Hal Hr%Hal Hx Hy. apply Hsp in Hx, Hy; [|auto..]. by apply (W7 q r x).
  - rewrite Hc. destruct W8; [by left|right]. by apply Hal.
Qed.

Lemma modify_table p f s q :
  process_table (modify p f s) q = if decide (q = p) then f (process_table s p) else process_table s q.
Proof.
  simpl. destruct (decide (q = p)) as [->|]; [by rewrite upd_same|by rewrite upd_other].
Qed.

(** What [process_create] does, on every path. *)
Lemma process_create_spec m name_ptr entry s :
  wf s -> next_pid s < 2 ^ 32 - 1 -> name_ptr <> NULL -> entry <> NULL ->
  (exists s', process_create m name_ptr entry s = (s', NULL) /\ wf s' /\ pr_pa s' = pr_pa s /\
     (forall q, alive s' q <-> alive s q) /\
     (forall q, alive s q -> process_table s' q = process_table s q)) \/
  (exists s' p, process_create m name_ptr entry s = (s', p) /\ wf s' /\
     1 <= p <= PROCESS_MAX_COUNT /\ ~ alive s p /\
     (forall q, alive s' q <-> alive s q \/ q = p) /\
     (forall q, alive s q -> pid (process_table s' q) = pid (process_table s q) /\
        (state (process_table s' q) = PROCESS_STATE_INVALID <-> state (process_table s q) = PROCESS_STATE_INVALID)) /\
     pid (process_table s' p) = next_pid s /\ next_pid s' = next_pid s + 1 /\
     kernel_stack_base (process_table s' p) <> 0 /\
     pa_alloc stack_pages (pr_pa s) = (kernel_stack_base (process_table s' p), pr_pa s') /\
     rip (context (process_table s' p)) = entry /\
     rsp (context (process_table s' p)) = kernel_stack_base (process_table s' p) + PROCESS_KERNEL_STACK_SIZE - 8).
Proof.
  intros Hw Hpid Hn He. unfold process_create.
  rewrite (proj2 (Z.eqb_neq name_ptr NULL)), (proj2 (Z.eqb_neq entry NULL)) by done. cbn [orb].
  destruct (alloc_pcb_spec s) as [[-> Hfull]|(p & -> & Hp & Hnp)].
  { left. exists s. simpl. split; [done|]. split; [done|]. split; [done|]. split; [done|]. done. }
  unfold NULL. rewrite (proj2 (Z.eqb_neq p 0)) by lia. cbv zeta.
  set (s1 := with_next_pid _ (modify p (named_pcb _ _ _) _)).
  assert (Hnx : next_pid s1 = next_pid s + 1).
  { unfold s1. simpl. apply u32_id. pose proof (w_next _ Hw). lia. }
  assert (T1 : forall q, q <> p -> process_table s1 q = process_table s q).
  { intros q Hq. unfold s1. simpl. by rewrite !upd_other. }
  assert (P1 : pid (process_table s1 p) = next_pid s /\ state (process_table s1 p) = PROCESS_STATE_READY).
  { unfold s1. simpl. rewrite upd_same. done. }
  change (PROCESS_KERNEL_STACK_SIZE / PAGE_SIZE) with stack_pages.
  change (pr_pa s1) with (pr_pa s). destruct (pa_alloc stack_pages (pr_pa s)) as [stack pa] eqn:Ea.
  rewrite stack_pages_val in Ea. destruct (stack =? 0) eqn:Est; zbool.
  - left. subst stack. apply pa_alloc_fail in Ea; [|apply Hw|lia]. subst pa. eexists. split; [done|].
    set (s2 := free_pcb p _). assert (T2 : forall q, q <> p -> process_table s2 q = process_table s q).
    { intros q Hq. unfold s2, free_pcb, NULL. rewrite (proj2 (Z.eqb_neq p 0)) by lia. simpl.
      rewrite upd_other by done. by apply T1. }
    assert (Hs2 : state (process_table s2 p) = PROCESS_STATE_INVALID /\ pr_pa s2 = pr_pa s /\
      next_pid s2 = next_pid s1 /\ current_process s2 = current_process s).
    { unfold s2, free_pcb, NULL. rewrite (proj2 (Z.eqb_neq p 0)) by lia. simpl. by rewrite upd_same. }
    destruct Hs2 as (I1 & I2 & I3 & I4).
    destruct (scribble_wf s s2 p) as [Hw2 Ha2]; [done..|lia|done|].
    split; [done|]. split; [done|]. split; [done|]. intros q Hq. apply T2. by intros ->.
  - right. set (s3 := modify p _ (with_pages pa s1)).
    assert (T3 : forall q, q <> p -> process_table s3 q = process_table s q).
    { intros q Hq. unfold s3. simpl. rewrite upd_other by done. by apply T1. }
    assert (P3 : process_table s3 p = filled_pcb entry stack (cr3 s) (current_process s) (process_table s1 p)).
    { unfold s3. simpl. by rewrite upd_same. }
    assert (W3 : wf s3).
    { eapply (install_wf s s3 p stack pa); [done..| | | | | | |];
        [reflexivity|exact Hnx|reflexivity|exact T3| | |]; rewrite P3; [apply P1| |done].
      change (state (process_table s1 p) <> PROCESS_STATE_INVALID). destruct P1 as [_ ->]. done. }
    set (s4 := if current_process s3 =? 0 then s3 else add_child (current_process s3) p s3).
    assert (I4 : same_ids s3 s4) by (unfold s4; case_if; [reflexivity|apply same_ids_add_child]).
    assert (C4 : current_process s4 = current_process s3)
      by (unfold s4, add_child; case_if; [done|]; by case_if).
    assert (X4 : context (process_table s4 p) = context (process_table s3 p)).
    { unfold s4, add_child. case_if; [done|]. case_if; [|done]. rewrite modify_table.
      by destruct (decide (p = current_process s3)) as [<-|]. }
    pose proof I4 as (J1 & J2 & J3). destruct (J3 p) as (K1 & K2 & K3). rewrite P3 in K1, K3. simpl in K1, K3.
    exists s4, p. split; [done|]. split.
    { eapply same_ids_wf; [exact I4|rewrite C4; apply W3|exact W3]. }
    split; [done|]. split; [done|]. split; [|split; [|split; [|split; [|split; [|split; [|split]]]]]].
    + intros q. rewrite (same_ids_alive _ _ _ I4). destruct (decide (q = p)) as [->|Hq].
      * split; [by right|]. intros _. split; [done|]. rewrite P3.
        change (state (process_table s1 p) <> PROCESS_STATE_INVALID). by destruct P1 as [_ ->].
      * unfold alive. rewrite T3 by done. naive_solver.
    + intros q Hq. assert (q <> p) by (intros ->; done). destruct (J3 q) as (L1 & L2 & _).
      rewrite T3 in L1, L2 by done. done.
    + rewrite K1. apply P1.
    + by rewrite J2.
    + by rewrite K3.
    + rewrite K3, J1. done.
    + by rewrite X4, P3.
    + rewrite X4, P3, K3. simpl.
      destruct (pa_alloc_ok _ 4 _ _ (w_pa _ Hw) ltac:(lia) Ea Est) as (_ & _ & Q1 & _ & Q2 & _).
      unfold GB, MB, KB, PAGE_SIZE in Q2. unfold PROCESS_KERNEL_STACK_SIZE, KB.
      rewrite (u64_id (stack + _)) by lia. rewrite u64_id by lia. done.
Qed.

(** ** Termination *)

Lemma same_ids_reparent c idle i s : same_ids s (reparent c idle i s).
Proof.
  unfold reparent. etransitivity; [|by apply same_ids_modify].
  match goal with |- same_ids _ (if ?b then _ else _) => destruct b end; [|reflexivity].
  etransitivity; [|apply same_ids_add_child]. by apply same_ids_modify.
Qed.

Lemma same_ids_reparent_children c s : same_ids s (reparent_children c s).
Proof.
  unfold reparent_children. case_if; [|reflexivity]. etransitivity; [|by apply same_ids_modify].
  case_if; [reflexivity|]. generalize 0 as i. generalize (Z.to_nat PROCESS_MAX_CHILDREN) as fuel.
  intros fuel. clear E0. generalize (process_get_by_pid PID_IDLE s) as idle. clear E. intros idle.
  revert s. induction fuel as [|fuel IH]; intros s i; cbn [reparent_loop]; [reflexivity|].
  case_if; [|reflexivity]. etransitivity; [apply (same_ids_reparent c idle i)|apply IH].
Qed.

Lemma remove_child_ids c b :
  pid (remove_child c b) = pid b /\ state (remove_child c b) = state b /\
  kernel_stack_base (remove_child c b) = kernel_stack_base b.
Proof. unfold remove_child. by destruct (find_child _ _ _ _). Qed.

Lemma current_modify p f s : current_process (modify p f s) = current_process s.
Proof. done. Qed.

(** Clearing the slot of a process and giving up its pages. *)
Lemma uninstall_wf s s' c :
  wf s -> alive s c -> (forall q, q <> c -> process_table s' q = process_table s q) ->
  state (process_table s' c) = PROCESS_STATE_INVALID -> pa_wf (pr_pa s') ->
  (forall x, pa_managed (pr_pa s') x = pa_managed (pr_pa s) x) ->
  (forall x, 0 <= x -> ~ stack_page s c x -> pa_used (pr_pa s') x = pa_used (pr_pa s) x) ->
  next_pid s' = next_pid s -> current_process s' = NULL ->
  wf s' /\ forall q, alive s' q <-> alive s q /\ q <> c.
Proof.
  intros [W1 W2 W3 W4 W5 W6 W7 W8] Hc Ht Hinv Hpa Hman Huse Hnx Hcur.
  assert (Hal : forall q, alive s' q <-> alive s q /\ q <> c).
  { intros q. destruct (decide (q = c)) as [->|Hq]; [split; [by intros [_ ?]|naive_solver]|].
    unfold alive. rewrite Ht by done. naive_solver. }
  assert (Hsp : forall q x, q <> c -> stack_page s' q x <-> stack_page s q x)
    by (intros q x Hq; unfold stack_page; by rewrite Ht).
  split; [|done]. split.
  - done.
  - lia.
  - intros q [Hq Hne]%Hal. rewrite Ht, Hnx by done. auto.
  - intros q r [Hq Hne]%Hal [Hr Hne']%Hal. rewrite !Ht by done. auto.
  - intros q [Hq Hne]%Hal. rewrite Ht by done. auto.
  - intros q x [Hq Hne]%Hal Hx. apply Hsp in Hx; [|done]. destruct (W6 q x Hq Hx) as [M U].
    rewrite Hman. split; [done|]. rewrite Huse; [done| |].
    + destruct Hx as [Hx1 Hx2]. destruct (W5 q Hq). unfold in_pages in Hx2.
      pose proof (Z.div_pos (kernel_stack_base (process_table s q)) PAGE_SIZE). unfold PAGE_SIZE in *. lia.
    + intros Hcx. apply Hne. by apply (W7 q c x).
  - intros q r x [Hq Hne]%Hal [Hr Hne']%Hal Hx Hy. apply Hsp in Hx, Hy; [|done..]. by apply (W7 q r x).
  - by left.
Qed.

(** The part of [process_exit] that rewires the process tree. *)
Definition detach (status : Z) (c : Z) s : procs S :=
  let s := modify c (fun b => set_state PROCESS_STATE_TERMINATED (set_exit_status status b)) s in
  let s := reparent_children c s in
  let par := parent (process_table s c) in
  if par =? NULL then s else modify par (remove_child c) s.

Lemma same_ids_detach status c s : alive s c -> same_ids s (detach status c s).
Proof.
  intros [_ Hc]. unfold detach. cbv zeta. set (s1 := modify c _ s).
  transitivity s1; [|transitivity (reparent_children c s1); [apply same_ids_reparent_children|]].
  - split; [done|]. split; [done|]. intros q. unfold s1. rewrite modify_table.
    destruct (decide (q = c)) as [->|]; simpl; [|tauto]. split; [done|]. split; [|done]. split; done.
  - case_if; [reflexivity|]. apply same_ids_modify. intros b.
    destruct (remove_child_ids c b) as (-> & -> & ->). done.
Qed.

Lemma reparent_children_current c s : current_process (reparent_children c s) = current_process s.
Proof.
  unfold reparent_children. case_if; [|done]. rewrite current_modify. case_if; [done|].
  generalize 0 as i. generalize (Z.to_nat PROCESS_MAX_CHILDREN) as fuel.
  intros fuel. clear E0. generalize (process_get_by_pid PID_IDLE s) as idle. clear E. intros idle.
  revert s. induction fuel as [|fuel IH]; intros s i; cbn [reparent_loop]; [done|].
  case_if; [|done]. rewrite IH. unfold reparent, add_child. rewrite current_modify.
  repeat case_if; done.
Qed.

Lemma detach_current status c s : current_process (detach status c s) = current_process s.
Proof.
  unfold detach. cbv zeta. case_if; rewrite ?current_modify, reparent_children_current; done.
Qed.

Lemma process_exit_spec status s :
  wf s -> current_process s <> NULL ->
  let c := current_process s in
  let s' := process_exit status s in
  wf s' /\ current_process s' = NULL /\ (forall q, alive s' q <-> alive s q /\ q <> c) /\
  (forall q, alive s' q -> pid (process_table s' q) = pid (process_table s q) /\
     kernel_stack_base (process_table s' q) = kernel_stack_base (process_table s q)) /\
  (forall x, 0 <= x -> pa_used (pr_pa s') x = true <-> pa_used (pr_pa s) x = true /\ ~ stack_page s c x).
Proof.
  intros Hw Hcur c s'. destruct (w_current _ Hw) as [|Hc]; [done|]. fold c in Hc.
  pose proof (same_ids_detach status c s Hc) as Hi. pose proof (detach_current status c s) as Hcd.
  assert (E : s' = with_current NULL (free_pcb c (
    let s3 := detach status c s in
    let base := kernel_stack_base (process_table s3 c) in
    if base =? 0 then s3 else modify c (set_stack 0 0) (with_pages (pa_free base stack_pages (pr_pa s3)) s3)))).
  { unfold s', process_exit. fold c. rewrite (proj2 (Z.eqb_neq c NULL)) by done. done. }
  clearbody s'. subst s'. set (s3 := detach status c s) in *.
  assert (W3 : wf s3) by (eapply same_ids_wf; [exact Hi|rewrite Hcd; by right|exact Hw]).
  assert (Hc3 : alive s3 c) by by apply (same_ids_alive _ _ _ Hi).
  pose proof Hi as (J1 & J2 & J3). destruct (w_base _ W3 c Hc3) as [Hb1 Hb2].
  cbv zeta. set (s4 := if _ =? 0 then _ else _).
  assert (H4 : (forall q, q <> c -> process_table s4 q = process_table s3 q) /\ next_pid s4 = next_pid s3 /\
    pa_wf (pr_pa s4) /\ (forall x, pa_managed (pr_pa s4) x = pa_managed (pr_pa s3) x) /\
    forall x, 0 <= x -> pa_used (pr_pa s4) x = true <-> pa_used (pr_pa s3) x = true /\ ~ stack_page s3 c x).
  { unfold s4. case_if.
    - split; [done|]. split; [done|]. split; [apply W3|]. split; [done|].
      intros x Hx. unfold stack_page. naive_solver.
    - destruct (pa_free_ok (pr_pa s3) (kernel_stack_base (process_table s3 c)) stack_pages)
        as (F1 & F2 & F3); [apply W3|lia|done|by rewrite stack_pages_val|].
      split; [intros q Hq; rewrite modify_table; by destruct (decide (q = c))|].
      split; [done|]. split; [done|]. split; [done|]. intros x Hx. simpl. rewrite F2 by done.
      rewrite andb_true_iff, negb_true_iff, andb_false_iff. unfold stack_page. split.
      + intros [Hu [Hn|Hm]]; (split; [done|]); intros [_ Hin]; [congruence|].
        destruct (w_owned _ W3 c x Hc3) as [Hm' _]; [by split|]. congruence.
      + intros [Hu Hn]. split; [done|]. left. apply not_true_iff_false. naive_solver. }
  destruct H4 as (T4 & N4 & P4 & M4 & U4).
  set (s5 := with_current NULL (free_pcb c s4)).
  assert (T5 : forall q, q <> c -> process_table s5 q = process_table s3 q).
  { intros q Hq. unfold s5, free_pcb. rewrite (proj2 (Z.eqb_neq c NULL)) by done.
    change (process_table (modify c (fun b => set_pid PID_INVALID (set_state PROCESS_STATE_INVALID b)) s4) q
      = process_table s3 q). rewrite modify_table. destruct (decide (q = c)); [done|]. by apply T4. }
  assert (F5 : pr_pa s5 = pr_pa s4 /\ next_pid s5 = next_pid s4 /\
    state (process_table s5 c) = PROCESS_STATE_INVALID).
  { unfold s5, free_pcb. rewrite (proj2 (Z.eqb_neq c NULL)) by done. simpl. by rewrite upd_same. }
  destruct F5 as (F5 & F6 & F7).
  assert (Hsp : forall x, stack_page s3 c x <-> stack_page s c x).
  { intros x. unfold stack_page. by destruct (J3 c) as (_ & _ & ->). }
  destruct (uninstall_wf s3 s5 c W3 Hc3 T5 F7) as [W5 A5]; [by rewrite F5|intros x; by rewrite F5| |congruence|done|].
  { intros x Hx Hn. rewrite F5. destruct (pa_used (pr_pa s3) x) eqn:Eu.
    - apply U4; done.
    - apply not_true_iff_false. intros [E _]%U4; [congruence|done]. }
  split; [done|]. split; [done|]. split; [|split].
  - intros q. by rewrite A5, (same_ids_alive _ _ _ Hi).
  - intros q [Hq Hne]%A5. rewrite T5 by done. destruct (J3 q) as (-> & _ & ->). done.
  - intros x Hx. by rewrite F5, U4, Hsp, J1.
Qed.

(** ** Lookup *)

Lemma get_by_pid_ok s p : wf s -> alive s p -> process_get_by_pid (pid (process_table s p)) s = p.
Proof.
  intros Hw Hp. pose proof (w_pid _ Hw p Hp) as Hpid. unfold process_get_by_pid, PID_INVALID.
  rewrite (proj2 (Z.eqb_neq _ 0)) by lia.
  assert (Htest : forall q, 1 <= q <= PROCESS_MAX_COUNT ->
    negb (is_state PROCESS_STATE_INVALID (process_table s q)) && (pid (process_table s q) =? pid (process_table s p)) = true
    <-> q = p).
  { intros q Hq. rewrite andb_true_iff, negb_true_iff, Z.eqb_eq. split.
    - intros [Hs He]. apply (w_distinct _ Hw); [|done|done]. split; [done|].
      intros E%is_state_spec. congruence.
    - intros ->. split; [|done]. apply not_true_iff_false. rewrite is_state_spec. apply Hp. }
  destruct (find_slot_spec (Z.to_nat PROCESS_MAX_COUNT) 1 (fun b => negb (is_state PROCESS_STATE_INVALID b)
    && (pid b =? pid (process_table s p))) (process_table s) ltac:(lia)) as [[_ Hn]|(q & -> & Hq & Ht & _)].
  - destruct Hp as [Hp _]. specialize (Hn p). unfold PROCESS_MAX_COUNT in *.
    rewrite (proj2 (Htest p Hp)) in Hn by done. specialize (Hn ltac:(lia)). done.
  - apply Htest; [|exact Ht]. unfold PROCESS_MAX_COUNT in *. lia.
Qed.

(** ** Initialisation *)

Lemma clear_table_spec s :
  let s' := for_range 1 (PROCESS_MAX_COUNT + 1)
    (fun p s => modify p (fun b => set_pid PID_INVALID (set_state PROCESS_STATE_INVALID b)) s) s in
  (forall p, ~ alive s' p) /\ next_pid s' = next_pid s /\ pr_pa s' = pr_pa s /\
  current_process s' = current_process s.
Proof.
  set (f := fun (p : Z) s => _). cbv zeta.
  assert (HI : (forall p, 1 <= p < PROCESS_MAX_COUNT + 1 ->
      state (process_table (for_range 1 (PROCESS_MAX_COUNT + 1) f s) p) = PROCESS_STATE_INVALID) /\
    next_pid (for_range 1 (PROCESS_MAX_COUNT + 1) f s) = next_pid s /\
    pr_pa (for_range 1 (PROCESS_MAX_COUNT + 1) f s) = pr_pa s /\
    current_process (for_range 1 (PROCESS_MAX_COUNT + 1) f s) = current_process s).
  { apply (for_range_ind (fun i s' => (forall p, 1 <= p < i -> state (process_table s' p) = PROCESS_STATE_INVALID) /\
      next_pid s' = next_pid s /\ pr_pa s' = pr_pa s /\ current_process s' = current_process s)).
    - unfold PROCESS_MAX_COUNT. lia.
    - split; [intros; lia|done].
    - intros j s' Hj (I1 & I2 & I3 & I4). split; [|done]. intros p Hp. unfold f. rewrite modify_table.
      destruct (decide (p = j)) as [->|]; [done|]. apply I1. lia. }
  destruct HI as (I1 & I2 & I3 & I4). split; [|done]. intros p [Hp Hs]. apply Hs, I1. lia.
Qed.

Lemma empty_wf s :
  (forall p, ~ alive s p) -> pa_wf (pr_pa s) -> 0 < next_pid s -> current_process s = NULL -> wf s.
Proof.
  intros Hn Hpa Hnx Hc. split; try done.
  - intros p Hp. by destruct (Hn p).
  - intros p q Hp. by destruct (Hn p).
  - intros p Hp. by destruct (Hn p).
  - intros p q Hp. by destruct (Hn p).
  - intros p p' q Hp. by destruct (Hn p).
  - by left.
Qed.

Lemma process_init_spec m idle_name idle_entry s :
  pa_wf (pr_pa s) -> next_pid s = PID_IDLE -> current_process s = NULL ->
  idle_name <> NULL -> idle_entry <> NULL ->
  let s' := process_init m idle_name idle_entry s in
  wf s' /\ (forall p, alive s' p -> p = current_process s' /\ pid (process_table s' p) = PID_IDLE /\
    state (process_table s' p) = PROCESS_STATE_RUNNING).
Proof.
  intros Hpa Hnx Hc H1 H2. unfold process_init.
  destruct (clear_table_spec s) as (C1 & C2 & C3 & C4). cbv zeta in C1, C2, C3, C4.
  set (s0 := for_range _ _ _ s) in *. cbv zeta.
  assert (W0 : wf s0) by (apply empty_wf; [done|by rewrite C3|rewrite C2, Hnx; unfold PID_IDLE; lia|by rewrite C4]).
  destruct (process_create_spec m idle_name idle_entry s0 W0) as
    [(s1 & -> & W1 & _ & A1 & _)|(s1 & p & -> & W1 & Hp & _ & A1 & _ & Ppid & _)]; [rewrite C2, Hnx; unfold PID_IDLE; lia|done..| |].
  - simpl. split; [done|]. intros p Hp%A1. by destruct (C1 p).
  - unfold NULL. rewrite (proj2 (Z.eqb_neq p 0)) by lia.
    set (s2 := with_current p _). assert (I2 : same_ids s1 s2).
    { unfold s2. etransitivity; [|apply same_ids_set_current]. by apply same_ids_modify. }
    assert (Ap : alive s1 p) by (apply A1; by right).
    assert (W2 : wf s2) by (eapply same_ids_wf; [exact I2|by right|exact W1]).
    assert (Ap2 : alive s2 p) by by apply (same_ids_alive _ _ _ I2).
    split; [by apply set_state_wf|]. pose proof (same_ids_process_set_state s2 p PROCESS_STATE_RUNNING Ap2 ltac:(done)) as I3.
    intros q Hq%(same_ids_alive _ _ _ I3)%(same_ids_alive _ _ _ I2)%A1.
    destruct Hq as [Hq| ->]; [by destruct (C1 q)|].
    destruct I3 as (_ & _ & J3), I2 as (_ & _ & J2). destruct (J3 p) as (-> & _), (J2 p) as (-> & _).
    rewrite Ppid, C2, Hnx. unfold process_set_state, NULL. rewrite (proj2 (Z.eqb_neq p 0)) by lia.
    rewrite bool_decide_true by done. cbv zeta. split; [done|]. split; [done|].
    rewrite Z.eqb_refl. simpl. rewrite !andb_false_r. simpl. rewrite upd_same. done.
Qed.

(** ** Histories *)

(** A call of the process manager, or activity of other users of the page allocator
    that leaves the pages in use alone. *)
Inductive proc_step : procs S -> procs S -> Prop :=
| step_create m n e s s' p :
    n <> NULL -> e <> NULL -> next_pid s < 2 ^ 32 - 1 ->
    process_create m n e s = (s', p) -> proc_step s s'
| step_exit status s : current_process s <> NULL -> proc_step s (process_exit status s)
| step_set_state s p st :
    alive s p -> st <> PROCESS_STATE_INVALID -> proc_step s (process_set_state p st s)
| step_pages s pa' :
    pa_wf pa' ->
    (forall p q, alive s p -> stack_page s p q -> pa_managed pa' q = true /\ pa_used pa' q = true) ->
    proc_step s (with_pages pa' s).

Lemma proc_step_wf s s' : proc_step s s' -> wf s -> wf s'.
Proof.
  intros Hs Hw. destruct Hs as [m n e s s' p Hn He Hp E|status s Hc|s p st Hp Hst|s pa' Hpa Hown].
  - destruct (process_create_spec m n e s Hw Hp Hn He) as [(s1 & E' & W1 & _)|(s1 & q & E' & W1 & _)];
      rewrite E' in E; injection E as <- _; done.
  - by apply process_exit_spec.
  - by apply set_state_wf.
  - destruct Hw as [W1 W2 W3 W4 W5 W6 W7 W8]. split; auto.
Qed.
End Props.

(** ** Theorems *)

Section Theorems.
Context {S : Type} `{PageAllocatorLaws S}.
Implicit Types s : procs S.

(** [process_create] with a name and an entry point either returns NULL and leaves
    every live process and the page allocator as they were, or takes a free slot,
    gives it a PID no live process has, under which [process_get_by_pid] finds it,
    a fresh four-page stack from the page allocator and a context that starts at the
    entry point with the stack pointer just below the top of that stack; the live
    processes are the old ones and the new one, and the table invariant holds. *)
Theorem process_create_contract m name_ptr entry s :
  wf s -> next_pid s < 2 ^ 32 - 1 -> name_ptr <> NULL -> entry <> NULL ->
  (exists s', process_create m name_ptr entry s = (s', NULL) /\ wf s' /\ pr_pa s' = pr_pa s /\
     (forall q, alive s' q <-> alive s q) /\
     (forall q, alive s q -> process_table s' q = process_table s q)) \/
  (exists s' p, process_create m name_ptr entry s = (s', p) /\ wf s' /\ ~ alive s p /\
     (forall q, alive s' q <-> alive s q \/ q = p) /\
     (forall q, alive s q -> pid (process_table s q) <> pid (process_table s' p)) /\
     process_get_by_pid (pid (process_table s' p)) s' = p /\
     (forall x, stack_page s' p x -> pa_used (pr_pa s) x = false /\ pa_used (pr_pa s') x = true) /\
     rip (context (process_table s' p)) = entry /\
     rsp (context (process_table s' p)) =
       kernel_stack_base (process_table s' p) + PROCESS_KERNEL_STACK_SIZE - 8).
Proof.
  intros Hw Hp Hn He. destruct (process_create_spec m name_ptr entry s Hw Hp Hn He) as
    [?|(s' & p & -> & W & Hr & Hnp & A & Hpid & Ppid & _ & Hb & Ea & X1 & X2)]; [by left|right].
  assert (Ap : alive s' p) by (apply A; by right).
  exists s', p. split; [done|]. split; [done|]. split; [done|]. split; [done|].
  split; [|split; [by apply get_by_pid_ok|split; [|done]]].
  - intros q Hq. rewrite Ppid. pose proof (w_pid _ Hw q Hq). lia.
  - intros x Hx. split; [|by apply (w_owned _ W p)].
    destruct (pa_alloc_ok _ stack_pages _ _ (w_pa _ Hw) ltac:(by rewrite stack_pages_val) Ea Hb) as (_ & _ & _ & _ & _ & Q & _).
    destruct Hx as [_ Hx]. by apply Q.
Qed.

(** [process_exit] of the current process frees its slot and exactly its stack
    pages: every other process stays alive with its PID and stack, every page that is
    not part of the stack keeps its status, there is no current process, and the
    table invariant holds. *)
Theorem process_exit_contract status s :
  wf s -> current_process s <> NULL ->
  let c := current_process s in
  let s' := process_exit status s in
  wf s' /\ current_process s' = NULL /\ (forall q, alive s' q <-> alive s q /\ q <> c) /\
  (forall q, alive s' q -> pid (process_table s' q) = pid (process_table s q) /\
     kernel_stack_base (process_table s' q) = kernel_stack_base (process_table s q)) /\
  (forall x, 0 <= x -> pa_used (pr_pa s') x = true <-> pa_used (pr_pa s) x = true /\ ~ stack_page s c x).
Proof. apply process_exit_spec. Qed.

(** C16: In every state reachable from [process_init] by creations, exits, state changes
    and page-allocator activity that respects pages in use, two live processes have
    different PIDs and no stack page in common, every live process is found by
    its PID, and its stack pages are marked used. *)
Theorem process_isolation m idle_name idle_entry s0 s :
  pa_wf (pr_pa s0) -> next_pid s0 = PID_IDLE -> current_process s0 = NULL ->
  idle_name <> NULL -> idle_entry <> NULL ->
  rtc proc_step (process_init m idle_name idle_entry s0) s ->
  (forall p, alive s p -> process_get_by_pid (pid (process_table s p)) s = p /\
     forall x, stack_page s p x -> pa_used (pr_pa s) x = true) /\
  (forall p q, alive s p -> alive s q -> p <> q ->
     pid (process_table s p) <> pid (process_table s q) /\
     forall x, stack_page s p x -> ~ stack_page s q x).
Proof.
  intros H1 H2 H3 H4 H5 Hr. assert (Hw : wf s).
  { refine (rtc_ind_r wf (process_init m idle_name idle_entry s0) _ _ _ Hr).
    - by apply process_init_spec.
    - intros y z _ Hs Hy. by eapply proc_step_wf. }
  split.
  - intros p Hp. split; [by apply get_by_pid_ok|]. intros x Hx. by apply (w_owned _ Hw p).
  - intros p q Hp Hq Hne. split.
    + intros E. by apply Hne, (w_distinct _ Hw).
    + intros x Hx Hy. by apply Hne, (w_disjoint _ Hw p q x).
Qed.

(** A process that is created, becomes the running process and exits gives
    back exactly the pages it took: every page has the status it had before. *)
Theorem process_create_exit_pages m name_ptr entry s s1 p status :
  wf s -> next_pid s < 2 ^ 32 - 1 -> name_ptr <> NULL -> entry <> NULL ->
  process_create m name_ptr entry s = (s1, p) -> p <> NULL ->
  let s2 := process_set_state p PROCESS_STATE_RUNNING s1 in
  forall x, 0 <= x -> pa_used (pr_pa (process_exit status s2)) x = pa_used (pr_pa s) x.
Proof.
  intros Hw Hpid Hn He E Hp s2 x Hx.
  destruct (process_create_spec m name_ptr entry s Hw Hpid Hn He) as
    [(s' & E' & _)|(s' & p' & E' & W & Hr & Hnp & A & _ & _ & _ & Hb & Ea & _)];
    rewrite E' in E; injection E as <- <-; [done|].
  assert (Ap : alive s' p') by (apply A; by right).
  pose proof (same_ids_process_set_state s' p' PROCESS_STATE_RUNNING Ap ltac:(done)) as Hi. fold s2 in Hi.
  assert (W2 : wf s2) by by apply set_state_wf.
  assert (C2 : current_process s2 = p').
  { unfold s2, process_set_state. rewrite (proj2 (Z.eqb_neq p' NULL)) by done. by rewrite bool_decide_true. }
  destruct (process_exit_spec status s2 W2 ltac:(by rewrite C2)) as (_ & _ & _ & _ & Hu).
  specialize (Hu x Hx). rewrite C2 in Hu. destruct Hi as (J1 & _ & J3). rewrite J1 in Hu.
  destruct (pa_alloc_ok _ stack_pages _ _ (w_pa _ Hw) ltac:(by rewrite stack_pages_val) Ea Hb) as (_ & _ & _ & _ & _ & Q1 & Q2 & _).
  unfold stack_page in Hu. destruct (J3 p') as (_ & _ & Eb). rewrite Eb, Q2, orb_true_iff in Hu.
  apply eq_true_iff_eq. rewrite Hu. specialize (Q1 x).
  destruct (in_pages (kernel_stack_base (process_table s' p')) stack_pages x); [|naive_solver].
  destruct (Q1 eq_refl) as [_ ->]. naive_solver.
Qed.
End Theorems.

(** ** A small machine *)

Definition raw_procs : procs pmm := mk_procs (fun _ => zero_pcb) NULL PID_IDLE 0x1000 big_pmm.
(** After [process_init] with the name at 0x5000 (empty) and the entry at 0x2000. *)
Definition demo_procs : procs pmm := process_init (fun _ => 0) 0x5000 0x2000 raw_procs.

Lemma demo_procs_ok : wf demo_procs /\ next_pid demo_procs = 2 /\ current_process demo_procs = 1.
Proof.
  split; [|split; vm_compute; reflexivity].
  apply (process_init_spec (fun _ => 0) 0x5000 0x2000 raw_procs);
    [exact big_wf|reflexivity|reflexivity|unfold NULL; lia|unfold NULL; lia].
Qed.

Definition demo_created : procs pmm * Z := process_create (fun _ => 0) 0x5000 0x3000 demo_procs.
Lemma demo_created_ptr : snd (process_create (fun _ => 0) 0x5000 0x3000 demo_procs) = 2.
Proof. vm_compute. reflexivity. Qed.

Lemma process_create_contract_witness :
  wf demo_procs /\ next_pid demo_procs < 2 ^ 32 - 1 /\
  exists s' p, process_create (fun _ => 0) 0x5000 0x3000 demo_procs = (s', p) /\ p <> NULL /\
    process_get_by_pid (pid (process_table s' p)) s' = p.
Proof.
  destruct demo_procs_ok as (Hw & Hn & _). split; [exact Hw|]. split; [rewrite Hn; lia|].
  pose proof demo_created_ptr as P.
  destruct (process_create_contract (fun _ => 0) 0x5000 0x3000 demo_procs Hw ltac:(rewrite Hn; lia)
    ltac:(unfold NULL; lia) ltac:(unfold NULL; lia)) as [(s' & E & _)|(s' & p & E & _ & _ & _ & _ & G & _)].
  - exfalso. rewrite E in P. discriminate P.
  - exists s', p. split; [exact E|]. rewrite E in P. simpl in P. subst p. split; [unfold NULL; lia|exact G].
Defined.

Lemma process_exit_contract_witness :
  wf demo_procs /\ current_process demo_procs = 1 /\ wf (process_exit 0 demo_procs).
Proof.
  destruct demo_procs_ok as (Hw & _ & Hc). split; [exact Hw|]. split; [exact Hc|].
  apply (process_exit_contract 0 demo_procs Hw). rewrite Hc. unfold NULL. lia.
Defined.

Lemma process_isolation_witness :
  alive demo_procs 1 /\ process_get_by_pid (pid (process_table demo_procs 1)) demo_procs = 1.
Proof.
  assert (Ha : alive demo_procs 1).
  { destruct demo_procs_ok as (Hw & _ & Hc). destruct (w_current _ Hw) as [E|E]; rewrite Hc in E; [discriminate|exact E]. }
  split; [exact Ha|].
  apply (process_isolation (fun _ => 0) 0x5000 0x2000 raw_procs demo_procs big_wf eq_refl eq_refl
    ltac:(unfold NULL; lia) ltac:(unfold NULL; lia) (rtc_refl _ _)). exact Ha.
Defined.

Lemma process_create_exit_pages_witness :
  pa_used (pr_pa (process_exit 7 (process_set_state 2 PROCESS_STATE_RUNNING (fst demo_created)))) 260 =
  pa_used (pr_pa demo_procs) 260.
Proof.
  destruct demo_procs_ok as (Hw & Hn & _).
  apply (process_create_exit_pages (fun _ => 0) 0x5000 0x3000 demo_procs (fst demo_created) 2 7 Hw
    ltac:(rewrite Hn; lia) ltac:(unfold NULL; lia) ltac:(unfold NULL; lia)).
  - rewrite <- demo_created_ptr. apply surjective_pairing.
  - unfold NULL. lia.
  - lia.
Defined.

(** ** The interface of the process manager, and wait queues

    Pipes and messages reach processes through four functions of process.c. The
    class names them with what the callers rely on; [Process] gives the instance.
    The arrays of waiting processes, which pipe.c and message.c both keep, are here
    too. *)

Class ProcessOps (W : Type) := {
  (** [process_get_current()], 0 when there is none. *)
  po_current : W -> Z;
  (** [process_get_by_pid(pid)], 0 when there is none. *)
  po_by_pid : Z -> W -> Z;
  (** [p->pid] and [p->state]. *)
  po_pid : Z -> W -> Z;
  po_state : Z -> W -> process_state;
  (** [process_set_state(p, st)] *)
  po_set_state : Z -> process_state -> W -> W;
}.

(** A change to READY or BLOCKED sets that state, and changes no PID, no other
    state and not the current process. *)
Class ProcessLaws (W : Type) `{ProcessOps W} := {
  po_set_same p st w :
    p <> NULL -> st = PROCESS_STATE_READY \/ st = PROCESS_STATE_BLOCKED ->
    po_state p (po_set_state p st w) = st;
  po_set_other p q st w :
    q <> p -> st = PROCESS_STATE_READY \/ st = PROCESS_STATE_BLOCKED ->
    po_state q (po_set_state p st w) = po_state q w;
  po_set_pid p q st w : po_pid q (po_set_state p st w) = po_pid q w;
  po_set_current p st w :
    st = PROCESS_STATE_READY \/ st = PROCESS_STATE_BLOCKED ->
    po_current (po_set_state p st w) = po_current w;
}.

#[export] Instance procs_ops {S : Type} : ProcessOps (procs S) := {
  po_current := process_get_current;
  po_by_pid := process_get_by_pid;
  po_pid p w := pid (process_table w p);
  po_state p w := state (process_table w p);
  po_set_state := process_set_state;
}.

#[export] Instance procs_laws {S : Type} : ProcessLaws (procs S).
Proof.
  assert (Hm : forall (p q : Z) f (w : procs S), process_table (modify p f w) q =
    if decide (q = p) then f (process_table w p) else process_table w q) by (intros; apply modify_table).
  split; cbn [po_state po_set_state po_pid po_current procs_ops]; unfold process_set_state, process_get_current.
  - intros p st w Hp Hst. rewrite (proj2 (Z.eqb_neq p NULL)) by done.
    rewrite bool_decide_false by naive_solver. rewrite Hm. by rewrite decide_True.
  - intros p q st w Hq Hst. case_if; [done|]. rewrite bool_decide_false by naive_solver.
    rewrite Hm. by rewrite decide_False.
  - intros p q st w. case_if; [done|].
    assert (H1 : forall (p q : Z) st (w : procs S),
      pid (process_table (modify p (set_state st) w) q) = pid (process_table w q)).
    { intros. rewrite Hm. by case_decide; subst. }
    case_bool_decide; [|apply H1]. case_if; [|apply H1].
    change (pid (process_table (modify (current_process (modify p (set_state st) w)) (set_state PROCESS_STATE_READY)
      (modify p (set_state st) w)) q) = pid (process_table w q)). by rewrite !H1.
  - intros p st w Hst. case_if; [done|]. by rewrite bool_decide_false by naive_solver.
Qed.

(** ** Wait queues *)

Definition MAX_WAITERS : Z := 8.

(** [struct process *waiters[8]; uint32_t waiter_count;] *)
Record wait_queue := mk_wait {
  wq_procs : Z -> Z;
  wq_count : Z;
}.

Section Wait.
Context {W : Type} `{ProcessOps W}.

(** The current process is appended, if there is room, and blocked. *)
Definition wait_block (q : wait_queue) (w : W) : wait_queue * W :=
  let c := po_current w in
  if c =? NULL then (q, w)
  else if wq_count q <? MAX_WAITERS
  then (mk_wait (upd (wq_procs q) (wq_count q) c) (wq_count q + 1),
        po_set_state c PROCESS_STATE_BLOCKED w)
  else (q, w).

(** The first waiter is taken off, the others move up, and it becomes ready. *)
Definition wait_wake (q : wait_queue) (w : W) : wait_queue * W :=
  if 0 <? wq_count q then
    let p := wq_procs q 0 in
    let a := shift_down (Z.to_nat (wq_count q - 1)) 0 (wq_procs q) in
    (mk_wait (upd a (wq_count q - 1) NULL) (wq_count q - 1),
     if p =? NULL then w else po_set_state p PROCESS_STATE_READY w)
  else (q, w).

(** [while (count > 0) wake one;] at most [n] times. *)
Fixpoint wait_wake_all (n : nat) (q : wait_queue) (w : W) : wait_queue * W :=
  match n with
  | O => (q, w)
  | S n' => if 0 <? wq_count q then let '(q, w) := wait_wake q w in wait_wake_all n' q w else (q, w)
  end.

(** The waiting processes in order. *)
Fixpoint waiters_from (i : Z) (n : nat) (a : Z -> Z) : list Z :=
  match n with O => [] | S n' => a i :: waiters_from (i + 1) n' a end.
Definition waiting (q : wait_queue) : list Z := waiters_from 0 (Z.to_nat (wq_count q)) (wq_procs q).
Definition wait_ok (q : wait_queue) : Prop := 0 <= wq_count q <= MAX_WAITERS.

Lemma waiters_from_ext i n a b :
  (forall j, i <= j < i + Z.of_nat n -> b j = a j) -> waiters_from i n b = waiters_from i n a.
Proof.
  revert i. induction n as [|n IH]; intros i He; simpl; [done|].
  rewrite He by lia. f_equal. apply IH. intros j Hj. apply He. lia.
Qed.

Lemma waiters_from_snoc i n a :
  waiters_from i (S n) a = waiters_from i n a ++ [a (i + Z.of_nat n)].
Proof.
  revert i. induction n as [|n IH]; intros i; [simpl; by rewrite Z.add_0_r|].
  change (waiters_from i (S (S n)) a) with (a i :: waiters_from (i + 1) (S n) a).
  rewrite IH. cbn [waiters_from app]. do 4 f_equal. lia.
Qed.

Lemma shift_down_at k j a x :
  shift_down k j a x = if (j <=? x) && (x <? j + Z.of_nat k) then a (x + 1) else a x.
Proof.
  revert j a. induction k as [|k IH]; intros j a; cbn [shift_down].
  - destruct ((j <=? x) && (x <? j + Z.of_nat 0)) eqn:E; [zbool; lia|done].
  - rewrite IH. destruct (decide (x = j)) as [->|Hne].
    + replace ((j + 1 <=? j) && (j <? j + 1 + Z.of_nat k)) with false by lia.
      replace ((j <=? j) && (j <? j + Z.of_nat (S k))) with true by lia. apply upd_same.
    + replace ((j <=? x) && (x <? j + Z.of_nat (S k))) with ((j + 1 <=? x) && (x <? j + 1 + Z.of_nat k)) by lia.
      destruct ((j + 1 <=? x) && (x <? j + 1 + Z.of_nat k)) eqn:E; apply upd_other; zbool; lia.
Qed.

Lemma waiters_shift i n a b : (forall j, i <= j < i + Z.of_nat n -> b j = a (j + 1)) ->
  waiters_from i n b = waiters_from (i + 1) n a.
Proof.
  revert i. induction n as [|n IH]; intros i He; simpl; [done|].
  rewrite He by lia. f_equal. apply IH. intros j Hj. apply He. lia.
Qed.

Lemma wait_block_spec q w :
  wait_ok q -> po_current w <> NULL ->
  let '(q', w') := wait_block q w in
  wait_ok q' /\
  if wq_count q <? MAX_WAITERS
  then waiting q' = waiting q ++ [po_current w] /\ w' = po_set_state (po_current w) PROCESS_STATE_BLOCKED w
  else q' = q /\ w' = w.
Proof.
  intros Hq Hc. unfold wait_block, wait_ok in *. rewrite (proj2 (Z.eqb_neq _ NULL)) by done.
  destruct (wq_count q <? MAX_WAITERS) eqn:E; zbool; [|done]. split; [simpl; lia|]. split; [|done].
  unfold waiting. simpl. replace (Z.to_nat (wq_count q + 1)) with (S (Z.to_nat (wq_count q))) by lia.
  rewrite waiters_from_snoc, Z2Nat.id, Z.add_0_l, upd_same by lia. f_equal.
  apply waiters_from_ext. intros j Hj. apply upd_other. lia.
Qed.

Lemma wait_wake_spec q w :
  wait_ok q ->
  let '(q', w') := wait_wake q w in
  wait_ok q' /\
  match waiting q with
  | [] => q' = q /\ w' = w
  | p :: r => waiting q' = r /\ w' = if p =? NULL then w else po_set_state p PROCESS_STATE_READY w
  end.
Proof.
  intros Hq. unfold wait_wake, wait_ok in *. destruct (0 <? wq_count q) eqn:E; zbool.
  - split; [simpl; lia|]. unfold waiting. simpl.
    replace (Z.to_nat (wq_count q)) with (S (Z.to_nat (wq_count q - 1))) by lia. cbn [waiters_from].
    split; [|done]. apply waiters_shift. intros j Hj.
    rewrite upd_other by lia. rewrite shift_down_at.
    replace ((0 <=? j) && (j <? 0 + Z.of_nat (Z.to_nat (wq_count q - 1)))) with true by lia. done.
  - split; [done|]. unfold waiting. by replace (Z.to_nat (wq_count q)) with O by lia.
Qed.
End Wait.
