(* ===== verification/Sched.v ===== *)
(** * The scheduler (kernel/sched/scheduler.c, scheduler.h): data and operations

    The ready queue is a circular array of process pointers. [scheduler_schedule]
    ends in the context switch, which is assembly: the model returns which switch it
    asks for. Port writes of the initialisation are returned as a list. The
    scheduler keeps its own current process beside the one of process.c. *)
From S2P Require Import Prelude Memory PageAlloc Ring Process.

Definition SCHEDULER_TIME_SLICE : Z := 10.
Definition SCHEDULER_MAX_QUEUE_SIZE : Z := 256.
Definition SCHEDULER_TICK_FREQUENCY : Z := 100.
Definition PIT_BASE_FREQUENCY : Z := 1193182.
Definition PIT_DIVISOR : Z := PIT_BASE_FREQUENCY / SCHEDULER_TICK_FREQUENCY.
Definition PIT_CHANNEL0_DATA : Z := 0x40.
Definition PIT_COMMAND : Z := 0x43.

Record scheduler_stats := mk_sched_stats {
  ss_total_ticks : Z;
  context_switches : Z;
  idle_ticks : Z;
  processes_scheduled : Z;
}.

Record sched (S : Type) := mk_sched {
  ready_queue : Z -> Z;
  queue_head : Z;
  queue_tail : Z;
  queue_count : Z;
  sc_current : Z;
  scheduler_running : bool;
  need_reschedule : bool;
  sc_stats : scheduler_stats;
  sc_procs : procs S;
}.
Arguments mk_sched {S}.
Arguments ready_queue {S}.
Arguments queue_head {S}.
Arguments queue_tail {S}.
Arguments queue_count {S}.
Arguments sc_current {S}.
Arguments scheduler_running {S}.
Arguments need_reschedule {S}.
Arguments sc_stats {S}.
Arguments sc_procs {S}.

(** How [scheduler_schedule] ends: the machine halts, the same process goes on, or
    [context_switch] is called from the first process (0: none) to the second. *)
Inductive outcome :=
| Halt
| Stay (p : Z)
| Switch (old new : Z).

Section Sched.
Context {S : Type} `{PageAllocator S}.
Implicit Types s : sched S.

Definition with_queue (q : Z -> Z) (hd tl n : Z) s : sched S :=
  mk_sched q hd tl n (sc_current s) (scheduler_running s) (need_reschedule s) (sc_stats s) (sc_procs s).
Definition with_procs (p : procs S) s : sched S :=
  mk_sched (ready_queue s) (queue_head s) (queue_tail s) (queue_count s) (sc_current s)
    (scheduler_running s) (need_reschedule s) (sc_stats s) p.
Definition with_sc_current (p : Z) s : sched S :=
  mk_sched (ready_queue s) (queue_head s) (queue_tail s) (queue_count s) p
    (scheduler_running s) (need_reschedule s) (sc_stats s) (sc_procs s).
Definition with_flags (running need : bool) s : sched S :=
  mk_sched (ready_queue s) (queue_head s) (queue_tail s) (queue_count s) (sc_current s)
    running need (sc_stats s) (sc_procs s).
Definition with_sc_stats (st : scheduler_stats) s : sched S :=
  mk_sched (ready_queue s) (queue_head s) (queue_tail s) (queue_count s) (sc_current s)
    (scheduler_running s) (need_reschedule s) st (sc_procs s).

Definition proc_of s (p : Z) : pcb := process_table (sc_procs s) p.
(** [*p = f( *p )] *)
Definition modify_proc (p : Z) (f : pcb -> pcb) s : sched S := with_procs (modify p f (sc_procs s)) s.

Definition queue_empty s : bool := queue_count s =? 0.
Definition queue_full s : bool := SCHEDULER_MAX_QUEUE_SIZE <=? queue_count s.

Definition queue_enqueue (p : Z) s : sched S * bool :=
  if queue_full s || (p =? NULL) then (s, false)
  else (with_queue (upd (ready_queue s) (queue_tail s) p) (queue_head s)
          ((queue_tail s + 1) mod SCHEDULER_MAX_QUEUE_SIZE) (queue_count s + 1) s, true).

Definition queue_dequeue s : sched S * Z :=
  if queue_empty s then (s, NULL)
  else (with_queue (upd (ready_queue s) (queue_head s) NULL)
          ((queue_head s + 1) mod SCHEDULER_MAX_QUEUE_SIZE) (queue_tail s) (queue_count s - 1) s,
        ready_queue s (queue_head s)).

(** [ready_queue[current] = ready_queue[next]; current = next; next = (next + 1) % MAX;] *)
Fixpoint shift_queue (k : nat) (current : Z) (q : Z -> Z) : Z -> Z :=
  match k with
  | O => q
  | Datatypes.S k' =>
      let next := (current + 1) mod SCHEDULER_MAX_QUEUE_SIZE in
      shift_queue k' next (upd q current (q next))
  end.

(** The search of [queue_remove] from the [i]-th element, in slot [idx]; [k] is how
    many elements are left. *)
Fixpoint remove_loop (k : nat) (i idx : Z) (p : Z) s : sched S * bool :=
  match k with
  | O => (s, false)
  | Datatypes.S k' =>
      if ready_queue s idx =? p then
        let q := shift_queue (Z.to_nat (queue_count s - 1 - i)) idx (ready_queue s) in
        let tail := (queue_tail s + SCHEDULER_MAX_QUEUE_SIZE - 1) mod SCHEDULER_MAX_QUEUE_SIZE in
        (with_queue (upd q tail NULL) (queue_head s) tail (queue_count s - 1) s, true)
      else remove_loop k' (i + 1) ((idx + 1) mod SCHEDULER_MAX_QUEUE_SIZE) p s
  end.
Definition queue_remove (p : Z) s : sched S * bool :=
  if queue_empty s || (p =? NULL) then (s, false)
  else remove_loop (Z.to_nat (queue_count s)) 0 (queue_head s) p s.

Definition queue_peek s : Z := if queue_empty s then NULL else ready_queue s (queue_head s).

(** ** Initialisation *)

(** The port writes of [pit_init]: mode 3 on channel 0, then the divisor. *)
Definition pit_init : list (Z * Z) :=
  let divisor := u16 PIT_DIVISOR in
  [(PIT_COMMAND, Z.lor (Z.lor 0x00 0x30) 0x06);
   (PIT_CHANNEL0_DATA, Z.land divisor 0xFF);
   (PIT_CHANNEL0_DATA, Z.land (Z.shiftr divisor 8) 0xFF)].
(** [timer_irq_enable] when the master PIC mask reads [mask]. *)
Definition timer_irq_enable (mask : Z) : list (Z * Z) := [(0x21, u8 (Z.land mask (Z.lnot 0x01)))].

Definition scheduler_init (mask : Z) s : sched S * list (Z * Z) :=
  let s := for_range 0 SCHEDULER_MAX_QUEUE_SIZE
    (fun i s => with_queue (upd (ready_queue s) i NULL) (queue_head s) (queue_tail s) (queue_count s) s) s in
  let s := with_queue (ready_queue s) 0 0 0 s in
  let s := with_sc_stats (mk_sched_stats 0 0 0 0) s in
  let idle := process_get_by_pid PID_IDLE (sc_procs s) in
  let s := if idle =? NULL then s
           else
             let s := modify_proc idle (set_time_slice SCHEDULER_TIME_SLICE) (with_sc_current idle s) in
             with_procs (process_set_state idle PROCESS_STATE_RUNNING (sc_procs s)) s in
  (with_flags true (need_reschedule s) s, pit_init ++ timer_irq_enable mask).

(** ** Scheduling *)

Definition scheduler_add (p : Z) s : sched S * bool :=
  if p =? NULL then (s, false)
  else if negb (is_state PROCESS_STATE_READY (proc_of s p)) then (s, false)
  else if queue_full s then (s, false)
  else
    let s := if time_slice (proc_of s p) =? 0
             then modify_proc p (set_time_slice SCHEDULER_TIME_SLICE) s else s in
    let '(s, r) := queue_enqueue p s in
    let st := sc_stats s in
    (if r : bool then with_sc_stats (mk_sched_stats (ss_total_ticks st) (context_switches st) (idle_ticks st)
                              (u64 (processes_scheduled st + 1))) s else s, r).

Definition scheduler_remove (p : Z) s : sched S * bool :=
  if p =? NULL then (s, false) else queue_remove p s.

(** The current process, if still running, goes to the back of the queue. *)
Definition requeue_current s : sched S :=
  let old := sc_current s in
  if negb (old =? NULL) && is_state PROCESS_STATE_RUNNING (proc_of s old)
  then fst (queue_enqueue old (modify_proc old (set_state PROCESS_STATE_READY) s))
  else s.

Definition scheduler_schedule s : sched S * outcome :=
  let old := sc_current s in
  let s := requeue_current s in
  let '(s, new) := queue_dequeue s in
  let new := if new =? NULL then process_get_by_pid PID_IDLE (sc_procs s) else new in
  if new =? NULL then (s, Halt)
  else
    let s := modify_proc new (fun b => set_time_slice SCHEDULER_TIME_SLICE
                                         (set_state PROCESS_STATE_RUNNING b)) s in
    if new =? old then (s, Stay new)
    else
      let st := sc_stats s in
      let s := with_sc_stats (mk_sched_stats (ss_total_ticks st) (u64 (context_switches st + 1))
                                (idle_ticks st) (processes_scheduled st)) (with_sc_current new s) in
      (s, Switch old new).

(** The bookkeeping of a timer tick before the decision to reschedule. *)
Definition account_tick s : sched S :=
  let c := sc_current s in
  let s := modify_proc c (fun b => set_total_ticks (u64 (total_ticks b + 1)) b) s in
  let st := sc_stats s in
  let s := if pid (proc_of s c) =? PID_IDLE
           then with_sc_stats (mk_sched_stats (ss_total_ticks st) (context_switches st)
                                 (u64 (idle_ticks st + 1)) (processes_scheduled st)) s
           else s in
  if 0 <? time_slice (proc_of s c)
  then modify_proc c (fun b => set_time_slice (time_slice b - 1) b) s else s.

Definition scheduler_tick s : sched S * option outcome :=
  let st := sc_stats s in
  let s := with_sc_stats (mk_sched_stats (u64 (ss_total_ticks st + 1)) (context_switches st)
                            (idle_ticks st) (processes_scheduled st)) s in
  let c := sc_current s in
  if negb (scheduler_running s) || (c =? NULL) then (s, None)
  else
    let s := account_tick s in
    let s := if time_slice (proc_of s c) =? 0 then
               if 0 <? queue_count s then with_flags (scheduler_running s) true s
               else modify_proc c (set_time_slice SCHEDULER_TIME_SLICE) s
             else s in
    if need_reschedule s then
      let s := with_flags (scheduler_running s) false s in
      let '(s, o) := scheduler_schedule s in (s, Some o)
    else (s, None).

Definition scheduler_yield s : sched S * option outcome :=
  if negb (scheduler_running s) then (s, None)
  else
    let c := sc_current s in
    let s := if c =? NULL then s else modify_proc c (set_time_slice 0) s in
    let '(s, o) := scheduler_schedule s in (s, Some o).

Definition scheduler_get_current s : Z := sc_current s.
Definition scheduler_set_time_slice (p ticks : Z) s : sched S :=
  if p =? NULL then s else modify_proc p (set_time_slice ticks) s.
Definition scheduler_get_stats s : scheduler_stats := sc_stats s.
Definition scheduler_is_running s : bool := scheduler_running s.
End Sched.
