(* ===== verification/SchedProps.v ===== *)
(** * Theorems of the scheduler (kernel/sched/scheduler.c)

    The ready queue refines a list, and rescheduling rotates the cycle formed by the
    current process and the queue. *)
From S2P Require Import Prelude Memory PageAlloc Pmm Ring Process Sched ProcessProps.

Section Props.
Context {S : Type} `{PageAllocator S}.
Implicit Types s : sched S.

(** The abstract queue. *)
Definition queue_list s : list Z :=
  ring (ready_queue s) SCHEDULER_MAX_QUEUE_SIZE (queue_head s) (Z.to_nat (queue_count s)).

Record queue_ok s : Prop := {
  qo_head : 0 <= queue_head s < SCHEDULER_MAX_QUEUE_SIZE;
  qo_count : 0 <= queue_count s <= SCHEDULER_MAX_QUEUE_SIZE;
  qo_tail : queue_tail s = (queue_head s + queue_count s) mod SCHEDULER_MAX_QUEUE_SIZE;
}.

Lemma length_queue_list s : queue_ok s -> Z.of_nat (length (queue_list s)) = queue_count s.
Proof. intros []. unfold queue_list. rewrite length_ring. lia. Qed.

(** ** The queue operations on the list *)

Lemma enqueue_list s p :
  queue_ok s -> p <> NULL ->
  let '(s', r) := queue_enqueue p s in
  queue_ok s' /\
  if queue_count s <? SCHEDULER_MAX_QUEUE_SIZE
  then r = true /\ queue_list s' = queue_list s ++ [p] else r = false /\ s' = s.
Proof.
  intros [Q1 Q2 Q3] Hp. unfold queue_enqueue, queue_full. rewrite (proj2 (Z.eqb_neq p NULL)) by done.
  rewrite orb_false_r. unfold SCHEDULER_MAX_QUEUE_SIZE in *. destruct (256 <=? queue_count s) eqn:E; zbool.
  - split; [by split|]. by rewrite (proj2 (Z.ltb_ge (queue_count s) 256)) by lia.
  - rewrite (proj2 (Z.ltb_lt (queue_count s) 256)) by lia. split; [|split; [done|]].
    + split; simpl; unfold SCHEDULER_MAX_QUEUE_SIZE; [done|lia|]. rewrite Q3, Zplus_mod_idemp_l. f_equal. lia.
    + unfold queue_list. simpl. unfold SCHEDULER_MAX_QUEUE_SIZE.
      replace (Z.to_nat (queue_count s + 1)) with (Datatypes.S (Z.to_nat (queue_count s))) by lia.
      rewrite Q3. rewrite <- (Z2Nat.id (queue_count s)) at 1 by lia. rewrite ring_push by lia. done.
Qed.

Lemma dequeue_list s :
  queue_ok s ->
  let '(s', p) := queue_dequeue s in
  queue_ok s' /\ sc_procs s' = sc_procs s /\ sc_current s' = sc_current s /\
  match queue_list s with
  | [] => s' = s /\ p = NULL
  | x :: r => p = x /\ queue_list s' = r
  end.
Proof.
  intros [Q1 Q2 Q3]. unfold queue_dequeue, queue_empty. unfold SCHEDULER_MAX_QUEUE_SIZE in *.
  destruct (queue_count s =? 0) eqn:E; zbool.
  - split; [by split|]. split; [done|]. split; [done|]. unfold queue_list. by rewrite E.
  - split; [|split; [done|split; [done|]]].
    + split; simpl; unfold SCHEDULER_MAX_QUEUE_SIZE; [apply Z.mod_pos_bound; lia|lia|].
      rewrite Q3, Zplus_mod_idemp_l. f_equal. lia.
    + unfold queue_list. simpl. unfold SCHEDULER_MAX_QUEUE_SIZE.
      replace (Z.to_nat (queue_count s)) with (Datatypes.S (Z.to_nat (queue_count s - 1))) by lia.
      cbn [ring]. split; [done|]. apply ring_ext; [lia|apply Z.mod_pos_bound; lia|].
      intros i Hi. apply upd_other. rewrite Zplus_mod_idemp_l.
      rewrite <- (Z.mod_small (queue_head s) 256) at 2 by lia.
      rewrite <- (Z.add_0_r (queue_head s)) at 2. rewrite <- Z.add_assoc. apply slot_neq; lia.
Qed.

(** The slot of the [i]-th element. *)
Definition slot s (i : Z) : Z := (queue_head s + i) mod SCHEDULER_MAX_QUEUE_SIZE.

Lemma shift_queue_at s k i q j :
  0 <= i -> i + Z.of_nat k < SCHEDULER_MAX_QUEUE_SIZE -> 0 <= j < SCHEDULER_MAX_QUEUE_SIZE ->
  shift_queue k (slot s i) q (slot s j) =
    if (i <=? j) && (j <? i + Z.of_nat k) then q (slot s (j + 1)) else q (slot s j).
Proof.
  unfold slot. revert i q. induction k as [|k IH]; intros i q Hi Hk Hj; cbn [shift_queue].
  - rewrite Z.add_0_r. destruct ((i <=? j) && (j <? i)) eqn:E; [zbool; lia|done].
  - assert (En : ((queue_head s + i) mod SCHEDULER_MAX_QUEUE_SIZE + 1) mod SCHEDULER_MAX_QUEUE_SIZE
      = (queue_head s + (i + 1)) mod SCHEDULER_MAX_QUEUE_SIZE) by (rewrite Zplus_mod_idemp_l; f_equal; lia).
    cbv zeta. rewrite En, IH by lia. unfold SCHEDULER_MAX_QUEUE_SIZE in *.
    assert (Hu : forall x, 0 <= x < 256 -> x <> i ->
      upd q ((queue_head s + i) mod 256) (q ((queue_head s + (i + 1)) mod 256)) ((queue_head s + x) mod 256)
      = q ((queue_head s + x) mod 256)).
    { intros x Hx Hne. apply upd_other. apply slot_neq; lia. }
    destruct (decide (j = i)) as [->|Hne].
    + rewrite (proj2 (Z.leb_gt (i + 1) i)), (proj2 (Z.leb_le i i)) by lia.
      rewrite (proj2 (Z.ltb_lt i (i + Z.of_nat (Datatypes.S k)))) by lia. cbn [andb]. by rewrite upd_same.
    + replace (i <=? j) with (i + 1 <=? j) by lia.
      replace (j <? i + Z.of_nat (Datatypes.S k)) with (j <? i + 1 + Z.of_nat k) by lia.
      destruct ((i + 1 <=? j) && (j <? i + 1 + Z.of_nat k)) eqn:E; zbool; rewrite Hu by lia; done.
Qed.

Lemma queue_list_lookup s i :
  queue_ok s -> 0 <= i < queue_count s -> queue_list s !! Z.to_nat i = Some (ready_queue s (slot s i)).
Proof.
  intros [Q1 Q2 Q3] Hi. unfold queue_list, slot, SCHEDULER_MAX_QUEUE_SIZE in *.
  rewrite ring_lookup by lia. by rewrite Z2Nat.id by lia.
Qed.

(** Removing the [i]-th element. *)
Lemma remove_at s i :
  queue_ok s -> 0 <= i < queue_count s ->
  let tail := (queue_tail s + SCHEDULER_MAX_QUEUE_SIZE - 1) mod SCHEDULER_MAX_QUEUE_SIZE in
  let q := upd (shift_queue (Z.to_nat (queue_count s - 1 - i)) (slot s i) (ready_queue s)) tail NULL in
  let s' := with_queue q (queue_head s) tail (queue_count s - 1) s in
  queue_ok s' /\ queue_list s' = take (Z.to_nat i) (queue_list s) ++ drop (Z.to_nat i + 1) (queue_list s).
Proof.
  intros Hq Hi tail q s'. pose proof Hq as [Q1 Q2 Q3].
  assert (Et : tail = slot s (queue_count s - 1)).
  { unfold tail, slot. rewrite Q3. unfold SCHEDULER_MAX_QUEUE_SIZE.
    replace ((queue_head s + queue_count s) mod 256 + 256 - 1)
      with ((queue_head s + queue_count s) mod 256 + 255) by lia.
    rewrite Zplus_mod_idemp_l. replace (queue_head s + queue_count s + 255)
      with (queue_head s + (queue_count s - 1) + 1 * 256) by lia. by rewrite Z.mod_add by lia. }
  clearbody tail. subst tail.
  assert (Hq' : queue_ok s') by (split; [done|simpl; lia|done]).
  split; [done|]. pose proof (length_queue_list s Hq) as Hlen. pose proof (length_queue_list s' Hq') as Hlen'.
  apply list_eq. intros k. destruct (decide (Z.of_nat k < queue_count s - 1)) as [Hk|Hk].
  - rewrite <- (Nat2Z.id k) at 1. rewrite (queue_list_lookup s') by (done || (simpl; lia)).
    change (slot s' (Z.of_nat k)) with (slot s (Z.of_nat k)). change (ready_queue s') with q. unfold q.
    unfold SCHEDULER_MAX_QUEUE_SIZE in *. rewrite upd_other by (unfold slot; apply slot_neq; unfold SCHEDULER_MAX_QUEUE_SIZE; lia).
    rewrite shift_queue_at by (unfold SCHEDULER_MAX_QUEUE_SIZE; lia).
    destruct (decide (Z.of_nat k < i)) as [Hki|Hki].
    + rewrite (proj2 (Z.leb_gt i (Z.of_nat k))) by lia. cbn [andb].
      rewrite lookup_app_l by (rewrite length_take; lia). rewrite lookup_take_lt by lia.
      rewrite <- (Nat2Z.id k) at 2. by rewrite (queue_list_lookup s) by (done || lia).
    + rewrite (proj2 (Z.leb_le i (Z.of_nat k))), (proj2 (Z.ltb_lt (Z.of_nat k) _)) by lia. cbn [andb].
      rewrite lookup_app_r by (rewrite length_take; lia). rewrite length_take, lookup_drop.
      rewrite <- (queue_list_lookup s) by (done || lia). f_equal. lia.
  - rewrite !lookup_ge_None_2; [done| |].
    + rewrite length_app, length_take, length_drop. lia.
    + simpl in Hlen'. lia.
Qed.

Lemma remove_loop_spec s k i p :
  queue_ok s -> 0 <= i -> i + Z.of_nat k = queue_count s ->
  (forall j, 0 <= j < i -> ready_queue s (slot s j) <> p) ->
  let '(s', r) := remove_loop k i (slot s i) p s in
  queue_ok s' /\ sc_procs s' = sc_procs s /\ sc_current s' = sc_current s /\
  ((r = true /\ exists l1 l2, queue_list s = l1 ++ (p :: l2) /\ (p ∉ l1) /\ queue_list s' = l1 ++ l2) \/
   (r = false /\ s' = s /\ p ∉ queue_list s)).
Proof.
  intros Hq. revert i. induction k as [|k IH]; intros i Hi Hk Hno; cbn [remove_loop].
  - split; [done|]. split; [done|]. split; [done|]. right. split; [done|]. split; [done|].
    intros (j & Hj)%list_elem_of_lookup. pose proof (lookup_lt_Some _ _ _ Hj) as Hl.
    pose proof (length_queue_list s Hq). rewrite <- (Nat2Z.id j) in Hj.
    rewrite queue_list_lookup in Hj by (done || lia). injection Hj as Hj.
    by apply (Hno (Z.of_nat j)); [lia|].
  - destruct (ready_queue s (slot s i) =? p) eqn:E; zbool.
    + destruct (remove_at s i Hq ltac:(lia)) as [Hq' Hl]. cbv zeta in Hq', Hl.
      split; [exact Hq'|]. split; [done|]. split; [done|]. left. split; [done|].
      exists (take (Z.to_nat i) (queue_list s)), (drop (Z.to_nat i + 1) (queue_list s)). split; [|split; [|exact Hl]].
      * rewrite <- (take_drop (Z.to_nat i) (queue_list s)) at 1. f_equal.
        rewrite (drop_S _ p) by (rewrite queue_list_lookup by (done || lia); by rewrite E).
        by rewrite Nat.add_1_r.
      * intros (j & Hj)%list_elem_of_lookup. apply lookup_take_Some in Hj as [Hj Hlt].
        rewrite <- (Nat2Z.id j) in Hj. rewrite queue_list_lookup in Hj by (done || lia).
        injection Hj as Hj. by apply (Hno (Z.of_nat j)); [lia|].
    + replace ((slot s i + 1) mod SCHEDULER_MAX_QUEUE_SIZE) with (slot s (i + 1))
        by (unfold slot; rewrite Zplus_mod_idemp_l; f_equal; lia).
      apply IH; [lia|lia|]. intros j Hj. destruct (decide (j = i)) as [->|]; [done|]. apply Hno. lia.
Qed.

Lemma remove_list s p :
  queue_ok s -> p <> NULL ->
  let '(s', r) := queue_remove p s in
  queue_ok s' /\ sc_procs s' = sc_procs s /\ sc_current s' = sc_current s /\
  ((r = true /\ exists l1 l2, queue_list s = l1 ++ (p :: l2) /\ (p ∉ l1) /\ queue_list s' = l1 ++ l2) \/
   (r = false /\ s' = s /\ p ∉ queue_list s)).
Proof.
  intros Hq Hp. unfold queue_remove, queue_empty. rewrite (proj2 (Z.eqb_neq p NULL)) by done.
  rewrite orb_false_r. destruct (queue_count s =? 0) eqn:E; zbool.
  - split; [done|]. split; [done|]. split; [done|]. right. split; [done|]. split; [done|].
    unfold queue_list. rewrite E. apply not_elem_of_nil.
  - pose proof Hq as [Q1 Q2 Q3]. replace (queue_head s) with (slot s 0)
      by (unfold slot, SCHEDULER_MAX_QUEUE_SIZE in *; rewrite Z.add_0_r; apply Z.mod_small; lia).
    apply remove_loop_spec; [done|lia|lia|]. intros j Hj. lia.
Qed.

Lemma enqueue_fields s p :
  let s' := fst (queue_enqueue p s) in
  sc_procs s' = sc_procs s /\ sc_current s' = sc_current s /\
  scheduler_running s' = scheduler_running s /\ need_reschedule s' = need_reschedule s.
Proof. unfold queue_enqueue. by case_if. Qed.
Lemma dequeue_fields s :
  scheduler_running (fst (queue_dequeue s)) = scheduler_running s /\
  need_reschedule (fst (queue_dequeue s)) = need_reschedule s.
Proof. unfold queue_dequeue. by case_if. Qed.

(** ** Round robin *)

(** The processes that share the CPU, in the order in which they get it: the current
    one, which is running, then the queue. *)
Record cycle s (L : list Z) : Prop := {
  cy_list : sc_current s :: queue_list s = L;
  cy_queue : queue_ok s;
  cy_nodup : NoDup L;
  cy_ptrs : Forall (fun p => p <> NULL) L;
  cy_running : state (proc_of s (sc_current s)) = PROCESS_STATE_RUNNING;
  cy_room : queue_count s < SCHEDULER_MAX_QUEUE_SIZE;
}.

(** [requeue_current] on such a state. *)
Lemma requeue_cycle s c l :
  cycle s (c :: l) ->
  let s1 := requeue_current s in
  queue_ok s1 /\ queue_list s1 = l ++ [c] /\ sc_current s1 = c /\
  sc_procs s1 = modify c (set_state PROCESS_STATE_READY) (sc_procs s) /\
  scheduler_running s1 = scheduler_running s /\ need_reschedule s1 = need_reschedule s.
Proof.
  intros [C1 C2 C3 C4 C5 C6]. injection C1 as Ec El. apply Forall_cons in C4 as [Hc _].
  unfold requeue_current. rewrite Ec in *. rewrite (proj2 (Z.eqb_neq c NULL)) by done.
  unfold is_state. rewrite C5, bool_decide_true by done. cbn [negb andb].
  set (s0 := modify_proc c _ s). assert (Hq0 : queue_ok s0) by (destruct C2; by split).
  pose proof (enqueue_list s0 c Hq0 Hc) as Hen. pose proof (enqueue_fields s0 c) as (F1 & F2 & F3 & F4).
  destruct (queue_enqueue c s0) as [s1 r]. simpl in *. destruct Hen as [Hq1 Hen].
  rewrite (proj2 (Z.ltb_lt (queue_count s) _)) in Hen by done. destruct Hen as [_ Hl].
  split; [done|]. split; [rewrite Hl; unfold s0; by rewrite <- El|]. split; [by rewrite F2|].
  split; [by rewrite F1|]. by rewrite F3, F4.
Qed.

(** One call of [scheduler_schedule] rotates the cycle. *)
Lemma schedule_cycle s c l :
  cycle s (c :: l) ->
  let s' := fst (scheduler_schedule s) in
  cycle s' (l ++ [c]) /\
  snd (scheduler_schedule s) = match l with [] => Stay c | p :: _ => Switch c p end /\
  time_slice (proc_of s' (sc_current s')) = SCHEDULER_TIME_SLICE /\
  scheduler_running s' = scheduler_running s /\ need_reschedule s' = need_reschedule s /\
  current_process (sc_procs s') = current_process (sc_procs s).
Proof.
  intros Hcy. pose proof (requeue_cycle s c l Hcy) as (Q1 & L1 & S1 & P1 & F1 & F2). cbv zeta in *.
  destruct Hcy as [C1 C2 C3 C4 C5 C6]. injection C1 as Ec El.
  pose proof (length_queue_list s C2) as Hlen. rewrite El in Hlen.
  unfold scheduler_schedule. set (s1 := requeue_current s) in *. cbv zeta.
  pose proof (dequeue_list s1 Q1) as Hde. pose proof (dequeue_fields s1) as [G1 G2].
  destruct (queue_dequeue s1) as [s2 new]. simpl in G1, G2. destruct Hde as (Q2 & P2 & S2 & Hde).
  rewrite L1 in Hde. rewrite Forall_cons in C4. destruct C4 as [Hc Hl].
  destruct l as [|p l]; simpl in Hde; destruct Hde as [-> L2].
  - rewrite (proj2 (Z.eqb_neq c NULL)), Ec, Z.eqb_refl by done. rewrite (proj2 (Z.eqb_neq c NULL)) by done.
    cbn [fst snd]. split; [|split; [done|]].
    + split; simpl.
      * rewrite S2, S1. f_equal. exact L2.
      * destruct Q2. by split.
      * apply NoDup_singleton.
      * by repeat constructor.
      * unfold proc_of. simpl. rewrite S2, S1, upd_same. done.
      * pose proof (length_queue_list s2 Q2) as Hl2. rewrite L2 in Hl2. simpl in Hl2.
        unfold SCHEDULER_MAX_QUEUE_SIZE. lia.
    + unfold proc_of. simpl. rewrite S2, S1, upd_same, G1, G2, P2, P1. done.
  - apply Forall_cons in Hl as [Hp Hl]. apply NoDup_cons in C3 as [Hcl Hnd].
    rewrite (proj2 (Z.eqb_neq p NULL)), Ec by done.
    rewrite (proj2 (Z.eqb_neq p NULL)), (proj2 (Z.eqb_neq p c)) by (try done; set_solver).
    cbn [fst snd]. split; [|split; [done|]].
    + split; simpl.
      * f_equal. exact L2.
      * destruct Q2. by split.
      * apply NoDup_cons in Hnd as [Hpl Hnd]. apply NoDup_cons. split; [set_solver|].
        apply NoDup_app. split; [done|]. split; [set_solver|apply NoDup_singleton].
      * apply Forall_cons. split; [done|]. apply Forall_app. split; [done|by repeat constructor].
      * unfold proc_of. simpl. rewrite upd_same. done.
      * pose proof (length_queue_list s2 Q2) as Hl2. rewrite L2, length_app in Hl2. simpl in Hl2, Hlen. lia.
    + unfold proc_of. simpl. rewrite upd_same, G1, G2, P2, P1. done.
Qed.

(** The list turned left [n] times. *)
Fixpoint rotate_by (n : nat) (L : list Z) : list Z :=
  match n, L with
  | Datatypes.S n', x :: r => rotate_by n' (r ++ [x])
  | _, _ => L
  end.

Lemma rotate_by_take n L : (n <= length L)%nat -> rotate_by n L = drop n L ++ take n L.
Proof.
  revert L. induction n as [|n IH]; intros L Hn; [by rewrite app_nil_r|].
  destruct L as [|x r]; [done|]. cbn [rotate_by]. simpl in Hn.
  rewrite IH by (rewrite length_app; simpl; lia). simpl.
  rewrite drop_app_le, take_app_le by lia. by rewrite <- app_assoc.
Qed.

(** [n] consecutive calls of [scheduler_schedule]. *)
Fixpoint schedules (n : nat) s : sched S :=
  match n with O => s | Datatypes.S n' => schedules n' (fst (scheduler_schedule s)) end.

Lemma schedules_cycle n s L : cycle s L -> L <> [] -> cycle (schedules n s) (rotate_by n L).
Proof.
  revert s L. induction n as [|n IH]; intros s L Hc Hne; [done|]. destruct L as [|c l]; [done|].
  cbn [schedules rotate_by]. destruct (schedule_cycle s c l Hc) as (Hc' & _).
  apply IH; [done|]. by destruct l.
Qed.

(** ** Time slices *)

Lemma modify_proc_same s p f : proc_of (modify_proc p f s) p = f (proc_of s p).
Proof. unfold proc_of. simpl. by rewrite upd_same. Qed.

Lemma cycle_modify s L f :
  cycle s L -> (forall b, state (f b) = state b) -> cycle (modify_proc (sc_current s) f s) L.
Proof.
  intros [C1 C2 C3 C4 C5 C6] Hf. split; auto.
  - destruct C2. by split.
  - change (state (proc_of (modify_proc (sc_current s) f s) (sc_current s)) = PROCESS_STATE_RUNNING).
    by rewrite modify_proc_same, Hf.
Qed.
Lemma cycle_stats s L st : cycle s L -> cycle (with_sc_stats st s) L.
Proof. intros [C1 [] C3 C4 C5 C6]. split; auto. by split. Qed.
Lemma cycle_flags s L a b : cycle s L -> cycle (with_flags a b s) L.
Proof. intros [C1 [] C3 C4 C5 C6]. split; auto. by split. Qed.

(** The state a timer tick leaves before it decides whether to reschedule. *)
Lemma account_tick_cycle s L :
  cycle s L ->
  let s' := account_tick s in
  cycle s' L /\ sc_current s' = sc_current s /\ scheduler_running s' = scheduler_running s /\
  need_reschedule s' = need_reschedule s /\ queue_count s' = queue_count s /\
  time_slice (proc_of s' (sc_current s)) = Z.max 0 (time_slice (proc_of s (sc_current s)) - 1)
  \/ time_slice (proc_of s (sc_current s)) < 0.
Proof.
  intros Hc. destruct (Z.lt_ge_cases (time_slice (proc_of s (sc_current s))) 0) as [Hn|Hn]; [by right|left].
  unfold account_tick. cbv zeta.
  set (s1 := modify_proc (sc_current s) _ s).
  assert (C1 : cycle s1 L) by (apply cycle_modify; done).
  set (s2 := if _ =? PID_IDLE then _ else s1).
  assert (H2 : cycle s2 L /\ sc_current s2 = sc_current s /\ scheduler_running s2 = scheduler_running s /\
    need_reschedule s2 = need_reschedule s /\ queue_count s2 = queue_count s /\ sc_procs s2 = sc_procs s1).
  { unfold s2. case_if; [|done]. split; [by apply cycle_stats|done]. }
  destruct H2 as (C2 & E1 & E2 & E3 & E4 & E5).
  assert (Ets : time_slice (proc_of s2 (sc_current s)) = time_slice (proc_of s (sc_current s))).
  { unfold proc_of at 1. rewrite E5. fold (proc_of s1 (sc_current s)). unfold s1. by rewrite modify_proc_same. }
  rewrite Ets. case_if.
  - rewrite <- E1. split; [apply cycle_modify; done|]. split; [done|]. split; [done|]. split; [done|].
    split; [done|]. rewrite modify_proc_same. simpl. rewrite E1, Ets. lia.
  - repeat (split; [done|]). rewrite Ets. lia.
Qed.

(** A tick with [n] ticks of the slice left. *)
Lemma tick_cycle s c p r n :
  cycle s (c :: p :: r) -> scheduler_running s = true -> need_reschedule s = false ->
  time_slice (proc_of s c) = n -> 0 < n ->
  let s' := fst (scheduler_tick s) in
  scheduler_running s' = true /\ need_reschedule s' = false /\
  if n =? 1 then
    snd (scheduler_tick s) = Some (Switch c p) /\ cycle s' (p :: r ++ [c]) /\
    time_slice (proc_of s' p) = SCHEDULER_TIME_SLICE
  else
    snd (scheduler_tick s) = None /\ cycle s' (c :: p :: r) /\ time_slice (proc_of s' c) = n - 1.
Proof.
  intros Hc Hrun Hneed Hts Hn. unfold scheduler_tick. cbv zeta.
  set (s0 := with_sc_stats _ s). assert (C0 : cycle s0 (c :: p :: r)) by by apply cycle_stats.
  assert (Ec : sc_current s = c) by (pose proof (cy_list _ _ Hc) as E; by injection E).
  assert (Hcn : c <> NULL) by (pose proof (cy_ptrs _ _ Hc) as Hp; by apply Forall_cons in Hp as [? _]).
  change (scheduler_running s0) with (scheduler_running s). change (sc_current s0) with (sc_current s).
  rewrite Hrun, Ec, (proj2 (Z.eqb_neq c NULL)) by done. cbn [negb orb].
  destruct (account_tick_cycle s0 _ C0) as [(C1 & D1 & D2 & D3 & D4 & D5)|D];
    [|change (time_slice (proc_of s (sc_current s)) < 0) in D; rewrite Ec in D; lia].
  change (sc_current s0) with (sc_current s) in *. change (scheduler_running s0) with (scheduler_running s) in D2.
  change (need_reschedule s0) with (need_reschedule s) in D3.
  change (time_slice (proc_of s0 (sc_current s))) with (time_slice (proc_of s (sc_current s))) in D5.
  rewrite Ec, Hts in D5. rewrite Ec in D1. rewrite Hrun in D2. rewrite Hneed in D3.
  set (s1 := account_tick s0) in *. rewrite D5.
  assert (Hqc : (0 <? queue_count s1) = true).
  { apply Z.ltb_lt. pose proof (length_queue_list _ (cy_queue _ _ C1)) as Hl.
    pose proof (cy_list _ _ C1) as El. injection El as _ El. rewrite El in Hl. simpl in Hl. lia. }
  destruct (n =? 1) eqn:En; zbool.
  - replace (Z.max 0 (n - 1)) with 0 by lia. rewrite Z.eqb_refl, (proj2 (Z.ltb_lt _ _) Hqc).
    set (s2 := with_flags _ false (with_flags _ true s1)).
    assert (C2 : cycle s2 (c :: p :: r)) by (by apply cycle_flags, cycle_flags).
    destruct (schedule_cycle s2 c (p :: r) C2) as (C3 & O3 & T3 & R3 & N3 & _). cbv zeta in *.
    change (need_reschedule (with_flags (scheduler_running s1) true s1)) with true. cbv iota.
    fold s2. destruct (scheduler_schedule s2) as [s3 o]. cbn [fst snd] in *.
    assert (E3 : sc_current s3 = p) by (pose proof (cy_list _ _ C3) as E; by injection E).
    split; [rewrite R3; exact D2|]. split; [rewrite N3; done|]. split; [by rewrite O3|].
    split; [exact C3|]. by rewrite <- E3.
  - rewrite (proj2 (Z.eqb_neq (Z.max 0 (n - 1)) 0)) by lia. rewrite D3. cbn [fst snd].
    repeat (split; [done|]). rewrite D5. lia.
Qed.

Fixpoint ticks (n : nat) s : sched S :=
  match n with O => s | Datatypes.S n' => ticks n' (fst (scheduler_tick s)) end.

Lemma ticks_add a b s : ticks (a + b) s = ticks b (ticks a s).
Proof. revert s. induction a as [|a IH]; intros s; simpl; auto. Qed.

(** Within a slice nothing changes hands; its last tick rotates. *)
Lemma ticks_slice k s c p r :
  cycle s (c :: p :: r) -> scheduler_running s = true -> need_reschedule s = false ->
  time_slice (proc_of s c) = Z.of_nat k + 1 ->
  (forall t, (t <= k)%nat -> sc_current (ticks t s) = c) /\
  let s' := ticks (Datatypes.S k) s in
  cycle s' (p :: r ++ [c]) /\ scheduler_running s' = true /\ need_reschedule s' = false /\
  time_slice (proc_of s' p) = SCHEDULER_TIME_SLICE.
Proof.
  revert s. induction k as [|k IH]; intros s Hc Hr Hn Ht.
  - destruct (tick_cycle s c p r 1 Hc Hr Hn) as (R & N & T); [rewrite Ht; lia|lia|].
    rewrite Z.eqb_refl in T. destruct T as (_ & C & T). split; [|done].
    intros t Hle. replace t with O by lia. pose proof (cy_list _ _ Hc) as E. by injection E.
  - destruct (tick_cycle s c p r (Z.of_nat k + 2) Hc Hr Hn) as (R & N & T); [rewrite Ht; lia|lia|].
    rewrite (proj2 (Z.eqb_neq _ 1)) in T by lia. destruct T as (_ & C & T).
    destruct (IH _ C R N) as [I1 I2]; [rewrite T; lia|]. split; [|exact I2].
    intros [|t] Hle; [pose proof (cy_list _ _ Hc) as E; by injection E|]. apply I1. lia.
Qed.

Lemma rotate_by_lookup n L i :
  (i < length L)%nat -> rotate_by n L !! i = L !! ((i + n) mod length L)%nat.
Proof.
  revert L. induction n as [|n IH]; intros L Hi.
  - simpl. rewrite Nat.add_0_r, Nat.mod_small by done. by destruct L.
  - destruct L as [|x r]; [simpl in Hi; lia|]. cbn [rotate_by].
    assert (Hlen : length (r ++ [x]) = length (x :: r)) by (rewrite length_app; simpl; lia).
    rewrite IH, Hlen by (rewrite Hlen; done).
    set (m := length (x :: r)) in *. assert (Hm : (m <> 0)%nat) by done.
    pose proof (Nat.mod_upper_bound (i + n) m Hm) as Hb.
    replace (i + Datatypes.S n)%nat with (i + n + 1)%nat by lia.
    rewrite <- (Nat.Div0.add_mod_idemp_l (i + n) 1 m).
    assert (Em : length r = (m - 1)%nat) by (unfold m; simpl; lia).
    destruct (decide ((i + n) mod m < m - 1)%nat).
    + rewrite (Nat.mod_small ((i + n) mod m + 1)) by lia. rewrite lookup_app_l by lia.
      by rewrite Nat.add_1_r.
    + replace ((i + n) mod m)%nat with (m - 1)%nat by lia.
      replace ((m - 1 + 1) mod m)%nat with O by (replace (m - 1 + 1)%nat with m by lia; by rewrite Nat.Div0.mod_same).
      rewrite lookup_app_r by lia. by replace (m - 1 - length r)%nat with O by lia.
Qed.

(** [k] full slices, each of [m + 1] ticks, rotate [k] times. *)
Lemma ticks_slices m k s L :
  Z.of_nat m + 1 = SCHEDULER_TIME_SLICE ->
  cycle s L -> (2 <= length L)%nat -> scheduler_running s = true -> need_reschedule s = false ->
  time_slice (proc_of s (sc_current s)) = SCHEDULER_TIME_SLICE ->
  let s' := ticks (k * Datatypes.S m) s in
  cycle s' (rotate_by k L) /\ scheduler_running s' = true /\ need_reschedule s' = false /\
  time_slice (proc_of s' (sc_current s')) = SCHEDULER_TIME_SLICE.
Proof.
  intros Hm. revert s L. induction k as [|k IH]; intros s L Hc Hl Hr Hn Ht; [done|].
  destruct L as [|c [|p r]]; [simpl in Hl; lia..|]. cbv zeta.
  replace (Datatypes.S k * Datatypes.S m)%nat with (Datatypes.S m + k * Datatypes.S m)%nat by lia.
  rewrite ticks_add. assert (Ec : sc_current s = c) by (pose proof (cy_list _ _ Hc) as E; by injection E).
  rewrite Ec in Ht. destruct (ticks_slice m s c p r Hc Hr Hn) as [_ (C & R & N & T)]; [congruence|].
  cbn [rotate_by]. apply IH; [done|simpl; rewrite length_app; simpl; lia|done|done|].
  assert (Ep : sc_current (ticks (Datatypes.S m) s) = p) by (pose proof (cy_list _ _ C) as E; by injection E).
  by rewrite Ep.
Qed.

(** Who runs [j] ticks into the [k]-th slice. *)
Lemma ticks_current m k j s L :
  Z.of_nat m + 1 = SCHEDULER_TIME_SLICE -> (j <= m)%nat ->
  cycle s L -> (2 <= length L)%nat -> scheduler_running s = true -> need_reschedule s = false ->
  time_slice (proc_of s (sc_current s)) = SCHEDULER_TIME_SLICE ->
  L !! (k mod length L)%nat = Some (sc_current (ticks (k * Datatypes.S m + j) s)).
Proof.
  intros Hm Hj Hc Hl Hr Hn Ht. destruct (ticks_slices m k s L Hm Hc Hl Hr Hn Ht) as (C & R & N & T).
  rewrite ticks_add. set (s1 := ticks (k * Datatypes.S m) s) in *.
  assert (Hlen : (length (rotate_by k L) = length L)%nat).
  { clear. revert L. induction k as [|k IH]; intros L; [by destruct L|]. destruct L as [|x r]; [done|].
    cbn [rotate_by]. rewrite IH, length_app. simpl. lia. }
  pose proof (rotate_by_lookup k L 0 ltac:(lia)) as Hlk. rewrite Nat.add_0_l in Hlk. rewrite <- Hlk.
  destruct (rotate_by k L) as [|c [|p r]]; [simpl in Hlen; lia..|]. simpl. f_equal.
  assert (Ec : sc_current s1 = c) by (pose proof (cy_list _ _ C) as E; by injection E). rewrite Ec in T.
  destruct (ticks_slice m s1 c p r C R N) as [I _]; [congruence|]. symmetry. by apply I.
Qed.
End Props.

(** ** Theorems *)

Section Theorems.
Context {S : Type} `{PageAllocator S}.
Implicit Types s : sched S.

(** The circular ready queue is a list: enqueueing appends unless 256 processes
    wait, dequeueing takes the head and returns NULL on an empty queue, and removal
    deletes the first occurrence and keeps the order of the rest; the index
    invariant is preserved by all three. *)
Theorem ready_queue_refines_list s p :
  queue_ok s -> p <> NULL ->
  (let '(s', r) := queue_enqueue p s in queue_ok s' /\
     if queue_count s <? SCHEDULER_MAX_QUEUE_SIZE
     then r = true /\ queue_list s' = queue_list s ++ [p] else r = false /\ s' = s) /\
  (let '(s', x) := queue_dequeue s in queue_ok s' /\
     match queue_list s with
     | [] => s' = s /\ x = NULL
     | y :: l => x = y /\ queue_list s' = l
     end) /\
  (let '(s', r) := queue_remove p s in queue_ok s' /\
     ((r = true /\ exists l1 l2, queue_list s = l1 ++ (p :: l2) /\ (p ∉ l1) /\ queue_list s' = l1 ++ l2) \/
      (r = false /\ s' = s /\ p ∉ queue_list s))).
Proof.
  intros Hq Hp. split; [by apply enqueue_list|]. split.
  - pose proof (dequeue_list s Hq) as Hd. destruct (queue_dequeue s). tauto.
  - pose proof (remove_list s p Hq Hp) as Hr. destruct (queue_remove p s). tauto.
Qed.

(** C17: Round robin: when the running process and the queue form the cycle [L], the
    [k]-th call of [scheduler_schedule] gives the CPU to the [k]-th process of the
    cycle, and after as many calls as there are processes the order is [L] again. *)
Theorem schedule_round_robin s L k :
  cycle s L -> (k <= length L)%nat -> L <> [] ->
  cycle (schedules k s) (drop k L ++ take k L).
Proof. intros Hc Hk Hne. rewrite <- rotate_by_take by done. by apply schedules_cycle. Qed.

(** Preemption: with at least two processes and a fresh slice, the process that
    runs after [t] timer ticks is the one at position [t / 10] (cyclically) of the
    cycle, so every process runs exactly ten ticks per round. *)
Theorem tick_time_sharing s L t :
  cycle s L -> (2 <= length L)%nat -> scheduler_running s = true -> need_reschedule s = false ->
  time_slice (proc_of s (sc_current s)) = SCHEDULER_TIME_SLICE ->
  L !! ((t / 10) mod length L)%nat = Some (sc_current (ticks t s)).
Proof.
  intros Hc Hl Hr Hn Ht. pose proof (Nat.div_mod_eq t 10) as E.
  pose proof (Nat.mod_upper_bound t 10 ltac:(lia)) as Hm.
  pose proof (ticks_current 9 (t / 10) (t mod 10) s L eq_refl ltac:(lia) Hc Hl Hr Hn Ht) as Hg.
  replace (t / 10 * 10 + t mod 10)%nat with t in Hg by lia. exact Hg.
Qed.

(** The process manager does not learn of context switches: when the scheduler
    switches from [c] to [p], [process_get_current] still answers [c]. *)
Theorem process_current_stale_after_switch s c p r :
  cycle s (c :: p :: r) -> process_get_current (sc_procs s) = c ->
  let s' := fst (scheduler_schedule s) in
  snd (scheduler_schedule s) = Switch c p /\ scheduler_get_current s' = p /\
  process_get_current (sc_procs s') = c /\ p <> c.
Proof.
  intros Hc Hcur. destruct (schedule_cycle s c (p :: r) Hc) as (C & O & _ & _ & _ & P). cbv zeta in *.
  split; [exact O|]. split; [pose proof (cy_list _ _ C) as E; by injection E|].
  split; [unfold process_get_current in *; by rewrite P|].
  pose proof (cy_nodup _ _ Hc) as Hn. apply NoDup_cons in Hn as [Hn _]. set_solver.
Qed.
End Theorems.

(** ** Two processes on a small machine *)

Definition demo_sched : sched pmm :=
  let s := mk_sched (fun _ => 0) 0 0 0 NULL false false (mk_sched_stats 0 0 0 0) (fst demo_created) in
  fst (scheduler_add 2 (fst (scheduler_init 0xFF s))).

Lemma demo_cycle : cycle demo_sched [1; 2].
Proof.
  split.
  - vm_compute. reflexivity.
  - split; [vm_compute; split; congruence..|vm_compute; reflexivity].
  - repeat constructor; set_solver.
  - repeat constructor; unfold NULL; lia.
  - vm_compute. reflexivity.
  - vm_compute. reflexivity.
Qed.

Lemma ready_queue_refines_list_witness :
  queue_list demo_sched = [2] /\ queue_list (fst (queue_enqueue 7 demo_sched)) = [2; 7].
Proof.
  assert (E : queue_list demo_sched = [2]) by (pose proof (cy_list _ _ demo_cycle) as C; congruence).
  split; [exact E|].
  destruct (ready_queue_refines_list demo_sched 7 (cy_queue _ _ demo_cycle) ltac:(unfold NULL; lia)) as [H1 _].
  destruct (queue_enqueue 7 demo_sched) as [s' r]. destruct H1 as [_ H1].
  replace (queue_count demo_sched <? SCHEDULER_MAX_QUEUE_SIZE) with true in H1 by (vm_compute; reflexivity).
  destruct H1 as [_ H1]. cbn [fst]. rewrite H1, E. reflexivity.
Defined.

Lemma schedule_round_robin_witness : cycle demo_sched [1; 2] /\ cycle (schedules 1 demo_sched) [2; 1].
Proof.
  split; [exact demo_cycle|].
  apply (schedule_round_robin demo_sched [1; 2] 1 demo_cycle ltac:(simpl; lia) ltac:(discriminate)).
Defined.

Lemma tick_time_sharing_witness : Some (sc_current (ticks 25 demo_sched)) = Some 1.
Proof.
  symmetry. apply (tick_time_sharing demo_sched [1; 2] 25 demo_cycle ltac:(simpl; lia));
    vm_compute; reflexivity.
Defined.

Lemma process_current_stale_after_switch_witness :
  process_get_current (sc_procs demo_sched) = 1 /\
  scheduler_get_current (fst (scheduler_schedule demo_sched)) = 2 /\
  process_get_current (sc_procs (fst (scheduler_schedule demo_sched))) = 1.
Proof.
  assert (E : process_get_current (sc_procs demo_sched) = 1) by (vm_compute; reflexivity).
  split; [exact E|].
  destruct (process_current_stale_after_switch demo_sched 1 2 [] demo_cycle E) as (_ & H1 & H2 & _).
  split; [exact H1|exact H2].
Defined.
