(* ===== verification/Pipe.v ===== *)
(** * Pipes (kernel/ipc/pipe.c, pipe.h): data and operations

    A [pipe_t *] is the index of its slot in [pipe_table], [-1] standing for NULL.
    A call runs in sections: from taking the pipe's lock to releasing it. A blocking
    call that finds nothing to do ends its section with [Blocked] and runs another
    section later ([read_section], [write_section]); between two sections any other
    call may run. User buffers are in the flat memory. *)
From S2P Require Import Prelude Memory PageAlloc Ring Process ProcessProps.

Definition PIPE_BUFFER_SIZE : Z := 4096.
Definition PIPE_MAX_COUNT : Z := 128.
Definition PIPE_FLAG_READ_OPEN : Z := BIT 0.
Definition PIPE_FLAG_WRITE_OPEN : Z := BIT 1.
Definition PIPE_SUCCESS : Z := 0.
Definition PIPE_ERR_INVALID : Z := -2.
Definition PIPE_ERR_CLOSED : Z := -3.
Definition PIPE_ERR_WOULDBLOCK : Z := -6.
Definition PIPE_ERR_MAX_PIPES : Z := -7.
Definition NO_PIPE : Z := -1.

Definition FD_TO_PIPE_INDEX (fd : Z) : Z := Z.quot fd 2.
Definition FD_IS_READ_END (fd : Z) : bool := Z.rem fd 2 =? 0.
Definition PIPE_TO_READ_FD (idx : Z) : Z := idx * 2.
Definition PIPE_TO_WRITE_FD (idx : Z) : Z := idx * 2 + 1.

Record pipe := mk_pipe {
  p_buffer : Z -> Z;
  read_pos : Z;
  write_pos : Z;
  p_count : Z;
  p_flags : Z;
  p_id : Z;
  p_readers : Z;
  p_writers : Z;
  read_waiters : wait_queue;
  write_waiters : wait_queue;
}.

Record pipes (W : Type) := mk_pipes {
  pipe_table : Z -> pipe;
  next_pipe_id : Z;
  total_pipes_created : Z;
  total_bytes_transferred : Z;
  pi_mem : mem;
  pi_procs : W;
}.
Arguments mk_pipes {W}.
Arguments pipe_table {W}.
Arguments next_pipe_id {W}.
Arguments total_pipes_created {W}.
Arguments total_bytes_transferred {W}.
Arguments pi_mem {W}.
Arguments pi_procs {W}.

(** How a section of a read ends: with the return value of the call, or waiting.
    A waiting write remembers how much it has written. *)
Inductive read_result := RDone (r : Z) | RBlocked.
Inductive write_result := WDone (r : Z) | WBlocked (written : Z).

Section Pipe.
Context {W : Type} `{ProcessOps W}.
Implicit Types s : pipes W.

Definition set_pipe (i : Z) (p : pipe) s : pipes W :=
  mk_pipes (upd (pipe_table s) i p) (next_pipe_id s) (total_pipes_created s)
    (total_bytes_transferred s) (pi_mem s) (pi_procs s).
Definition with_memory (m : mem) s : pipes W :=
  mk_pipes (pipe_table s) (next_pipe_id s) (total_pipes_created s)
    (total_bytes_transferred s) m (pi_procs s).
Definition with_world (w : W) s : pipes W :=
  mk_pipes (pipe_table s) (next_pipe_id s) (total_pipes_created s)
    (total_bytes_transferred s) (pi_mem s) w.
Definition add_transferred (n : Z) s : pipes W :=
  mk_pipes (pipe_table s) (next_pipe_id s) (total_pipes_created s)
    (u64 (total_bytes_transferred s + n)) (pi_mem s) (pi_procs s).

Definition set_flags (fl : Z) (p : pipe) : pipe :=
  mk_pipe (p_buffer p) (read_pos p) (write_pos p) (p_count p) fl (p_id p) (p_readers p)
    (p_writers p) (read_waiters p) (write_waiters p).
Definition set_id (id : Z) (p : pipe) : pipe :=
  mk_pipe (p_buffer p) (read_pos p) (write_pos p) (p_count p) (p_flags p) id (p_readers p)
    (p_writers p) (read_waiters p) (write_waiters p).
Definition set_refs (rd wr : Z) (p : pipe) : pipe :=
  mk_pipe (p_buffer p) (read_pos p) (write_pos p) (p_count p) (p_flags p) (p_id p) rd wr
    (read_waiters p) (write_waiters p).
Definition set_waiters (rq wq : wait_queue) (p : pipe) : pipe :=
  mk_pipe (p_buffer p) (read_pos p) (write_pos p) (p_count p) (p_flags p) (p_id p) (p_readers p)
    (p_writers p) rq wq.
Definition set_ring (b : Z -> Z) (rp wp n : Z) (p : pipe) : pipe :=
  mk_pipe b rp wp n (p_flags p) (p_id p) (p_readers p) (p_writers p) (read_waiters p) (write_waiters p).

Definition read_open (p : pipe) : bool := negb (Z.land (p_flags p) PIPE_FLAG_READ_OPEN =? 0).
Definition write_open (p : pipe) : bool := negb (Z.land (p_flags p) PIPE_FLAG_WRITE_OPEN =? 0).

(** ** Waiting *)

Definition pipe_block_reader (i : Z) s : pipes W :=
  let p := pipe_table s i in
  let '(q, w) := wait_block (read_waiters p) (pi_procs s) in
  with_world w (set_pipe i (set_waiters q (write_waiters p) p) s).
Definition pipe_block_writer (i : Z) s : pipes W :=
  let p := pipe_table s i in
  let '(q, w) := wait_block (write_waiters p) (pi_procs s) in
  with_world w (set_pipe i (set_waiters (read_waiters p) q p) s).
Definition pipe_wake_reader (i : Z) s : pipes W :=
  let p := pipe_table s i in
  let '(q, w) := wait_wake (read_waiters p) (pi_procs s) in
  with_world w (set_pipe i (set_waiters q (write_waiters p) p) s).
Definition pipe_wake_writer (i : Z) s : pipes W :=
  let p := pipe_table s i in
  let '(q, w) := wait_wake (write_waiters p) (pi_procs s) in
  with_world w (set_pipe i (set_waiters (read_waiters p) q p) s).
Definition pipe_wake_all_readers (i : Z) s : pipes W :=
  let p := pipe_table s i in
  let '(q, w) := wait_wake_all (Z.to_nat (wq_count (read_waiters p))) (read_waiters p) (pi_procs s) in
  with_world w (set_pipe i (set_waiters q (write_waiters p) p) s).
Definition pipe_wake_all_writers (i : Z) s : pipes W :=
  let p := pipe_table s i in
  let '(q, w) := wait_wake_all (Z.to_nat (wq_count (write_waiters p))) (write_waiters p) (pi_procs s) in
  with_world w (set_pipe i (set_waiters (read_waiters p) q p) s).

(** ** Creation *)

Definition reset_pipe (p : pipe) : pipe :=
  mk_pipe (p_buffer p) 0 0 0 0 0 0 0 (mk_wait (wq_procs (read_waiters p)) 0)
    (mk_wait (wq_procs (write_waiters p)) 0).
Definition pipe_init s : pipes W :=
  for_range 0 PIPE_MAX_COUNT (fun i s => set_pipe i (reset_pipe (pipe_table s i)) s) s.

Fixpoint find_pipe (n : nat) (i : Z) (t : Z -> pipe) : Z :=
  match n with
  | O => NO_PIPE
  | S n' => if p_flags (t i) =? 0 then i else find_pipe n' (i + 1) t
  end.
Definition pipe_alloc s : Z := find_pipe (Z.to_nat PIPE_MAX_COUNT) 0 (pipe_table s).

(** [pipe_create]: the state and either the two descriptors or an error. *)
Definition pipe_create s : pipes W * (Z * Z + Z) :=
  let idx := pipe_alloc s in
  if idx =? NO_PIPE then (s, inr PIPE_ERR_MAX_PIPES)
  else
    let p := mk_pipe (fun _ => 0) 0 0 0 (Z.lor PIPE_FLAG_READ_OPEN PIPE_FLAG_WRITE_OPEN)
               (next_pipe_id s) 1 1 (mk_wait (fun _ => NULL) 0) (mk_wait (fun _ => NULL) 0) in
    (mk_pipes (upd (pipe_table s) idx p) (u32 (next_pipe_id s + 1)) (u64 (total_pipes_created s + 1))
       (total_bytes_transferred s) (pi_mem s) (pi_procs s),
     inl (PIPE_TO_READ_FD idx, PIPE_TO_WRITE_FD idx)).

Definition pipe_get (fd : Z) s : Z :=
  if fd <? 0 then NO_PIPE
  else
    let idx := FD_TO_PIPE_INDEX fd in
    if PIPE_MAX_COUNT <=? idx then NO_PIPE
    else if p_flags (pipe_table s idx) =? 0 then NO_PIPE else idx.

(** ** Transfer *)

(** [dest[k++] = buffer[read_pos]; read_pos = (read_pos + 1) % SIZE;], [n] times. *)
Fixpoint copy_out (n : nat) (b : Z -> Z) (rp : Z) (m : mem) (dest : Z) : mem * Z :=
  match n with
  | O => (m, rp)
  | S n' => copy_out n' b ((rp + 1) mod PIPE_BUFFER_SIZE) (store8 m dest (b rp)) (dest + 1)
  end.
(** [buffer[write_pos] = src[k++]; write_pos = (write_pos + 1) % SIZE;], [n] times. *)
Fixpoint copy_in (n : nat) (b : Z -> Z) (wp : Z) (m : mem) (src : Z) : (Z -> Z) * Z :=
  match n with
  | O => (b, wp)
  | S n' => copy_in n' (upd b wp (load8 m src)) ((wp + 1) mod PIPE_BUFFER_SIZE) m (src + 1)
  end.

(** Take at most [count] bytes out, and wake a writer. *)
Definition take_bytes (i buf count : Z) s : pipes W * Z :=
  let p := pipe_table s i in
  let to_read := Z.min count (p_count p) in
  let '(m, rp) := copy_out (Z.to_nat to_read) (p_buffer p) (read_pos p) (pi_mem s) buf in
  let p := set_ring (p_buffer p) rp (write_pos p) (p_count p - to_read) p in
  let s := add_transferred to_read (with_memory m (set_pipe i p s)) in
  (pipe_wake_writer i s, to_read).

(** Put [n] bytes from [src] in. *)
Definition put_bytes (i src n : Z) s : pipes W :=
  let p := pipe_table s i in
  let '(b, wp) := copy_in (Z.to_nat n) (p_buffer p) (write_pos p) (pi_mem s) src in
  set_pipe i (set_ring b (read_pos p) wp (p_count p + n) p) s.

(** A section of [pipe_read] from the test of its waiting loop on. *)
Definition read_section (i buf count : Z) s : pipes W * read_result :=
  let p := pipe_table s i in
  if p_count p =? 0 then
    if negb (write_open p) then (s, RDone 0) else (pipe_block_reader i s, RBlocked)
  else let '(s, n) := take_bytes i buf count s in (s, RDone n).

(** The first section of [pipe_read]. *)
Definition pipe_read (i buf count : Z) s : pipes W * read_result :=
  if (i =? NO_PIPE) || (buf =? NULL) then (s, RDone PIPE_ERR_INVALID)
  else if count =? 0 then (s, RDone 0)
  else if negb (read_open (pipe_table s i)) then (s, RDone PIPE_ERR_CLOSED)
  else read_section i buf count s.

(** A section of [pipe_write] from its outer loop on, with [written] bytes done.
    Within one section the loop fills the buffer at most once, so a bound of three
    iterations is enough. *)
Fixpoint write_loop (fuel : nat) (i buf count written : Z) s : option (pipes W * write_result) :=
  match fuel with
  | O => None
  | S f =>
      if written <? count then
        let p := pipe_table s i in
        if p_count p =? PIPE_BUFFER_SIZE then
          if negb (read_open p)
          then Some (s, WDone (if 0 <? written then written else PIPE_ERR_CLOSED))
          else Some (pipe_block_writer i s, WBlocked written)
        else
          let space := PIPE_BUFFER_SIZE - p_count p in
          let to_write := Z.min (count - written) space in
          let s := put_bytes i (buf + written) to_write s in
          write_loop f i buf count (written + to_write) (pipe_wake_reader i s)
      else Some (add_transferred written s, WDone written)
  end.
Definition write_section (i buf count written : Z) s : option (pipes W * write_result) :=
  write_loop 3 i buf count written s.

(** The first section of [pipe_write]. *)
Definition pipe_write (i buf count : Z) s : option (pipes W * write_result) :=
  if (i =? NO_PIPE) || (buf =? NULL) then Some (s, WDone PIPE_ERR_INVALID)
  else if count =? 0 then Some (s, WDone 0)
  else if negb (write_open (pipe_table s i)) then Some (s, WDone PIPE_ERR_CLOSED)
  else if negb (read_open (pipe_table s i)) then Some (s, WDone PIPE_ERR_CLOSED)
  else write_section i buf count 0 s.

Definition pipe_try_read (i buf count : Z) s : pipes W * Z :=
  if (i =? NO_PIPE) || (buf =? NULL) then (s, PIPE_ERR_INVALID)
  else if count =? 0 then (s, 0)
  else
    let p := pipe_table s i in
    if negb (read_open p) then (s, PIPE_ERR_CLOSED)
    else if p_count p =? 0 then (s, if negb (write_open p) then 0 else PIPE_ERR_WOULDBLOCK)
    else take_bytes i buf count s.

Definition pipe_try_write (i buf count : Z) s : pipes W * Z :=
  if (i =? NO_PIPE) || (buf =? NULL) then (s, PIPE_ERR_INVALID)
  else if count =? 0 then (s, 0)
  else
    let p := pipe_table s i in
    if negb (write_open p) then (s, PIPE_ERR_CLOSED)
    else if negb (read_open p) then (s, PIPE_ERR_CLOSED)
    else if p_count p =? PIPE_BUFFER_SIZE then (s, PIPE_ERR_WOULDBLOCK)
    else
      let space := PIPE_BUFFER_SIZE - p_count p in
      let to_write := Z.min count space in
      let s := add_transferred to_write (put_bytes i buf to_write s) in
      (pipe_wake_reader i s, to_write).

(** ** Closing *)

Definition pipe_close (i : Z) s : pipes W * Z :=
  if i =? NO_PIPE then (s, PIPE_ERR_INVALID)
  else
    let s := pipe_wake_all_writers i (pipe_wake_all_readers i s) in
    (set_pipe i (set_refs 0 0 (set_flags 0 (pipe_table s i))) s, PIPE_SUCCESS).

(** One end loses a reference. *)
Definition close_read_end (i : Z) s : pipes W :=
  let p := pipe_table s i in
  let rd := if 0 <? p_readers p then p_readers p - 1 else p_readers p in
  let s := set_pipe i (set_refs rd (p_writers p) p) s in
  if rd =? 0 then
    let p := pipe_table s i in
    pipe_wake_all_writers i
      (set_pipe i (set_flags (Z.land (p_flags p) (Z.lnot PIPE_FLAG_READ_OPEN)) p) s)
  else s.
Definition close_write_end (i : Z) s : pipes W :=
  let p := pipe_table s i in
  let wr := if 0 <? p_writers p then p_writers p - 1 else p_writers p in
  let s := set_pipe i (set_refs (p_readers p) wr p) s in
  if wr =? 0 then
    let p := pipe_table s i in
    pipe_wake_all_readers i
      (set_pipe i (set_flags (Z.land (p_flags p) (Z.lnot PIPE_FLAG_WRITE_OPEN)) p) s)
  else s.

Definition pipe_close_fd (fd : Z) s : pipes W * Z :=
  let i := pipe_get fd s in
  if i =? NO_PIPE then (s, PIPE_ERR_INVALID)
  else
    let s := if FD_IS_READ_END fd then close_read_end i s else close_write_end i s in
    let p := pipe_table s i in
    let s := if Z.land (p_flags p) (Z.lor PIPE_FLAG_READ_OPEN PIPE_FLAG_WRITE_OPEN) =? 0
             then set_pipe i (set_id 0 (set_flags 0 p)) s else s in
    (s, PIPE_SUCCESS).

Definition pipe_available (i : Z) s : Z := if i =? NO_PIPE then 0 else p_count (pipe_table s i).
Definition pipe_free_space (i : Z) s : Z :=
  if i =? NO_PIPE then 0 else PIPE_BUFFER_SIZE - p_count (pipe_table s i).
End Pipe.
