(* ===== verification/PipeProps.v ===== *)
(** * Theorems of pipes (kernel/ipc/pipe.c)

    A pipe refines a byte queue: what has been read, followed by what is buffered, is
    what has been written, whatever the interleaving of the sections of readers,
    writers and closers. *)
From S2P Require Import Prelude Memory PageAlloc Pmm Ring Process ProcessProps Pipe.

Section Props.
Context {W : Type} `{ProcessOps W}.
Implicit Types s : pipes W.

(** The bytes waiting in the pipe, oldest first. *)
Definition contents (p : pipe) : list Z :=
  ring (p_buffer p) PIPE_BUFFER_SIZE (read_pos p) (Z.to_nat (p_count p)).

Record pipe_ok (p : pipe) : Prop := {
  pk_pos : 0 <= read_pos p < PIPE_BUFFER_SIZE;
  pk_count : 0 <= p_count p <= PIPE_BUFFER_SIZE;
  pk_tail : write_pos p = (read_pos p + p_count p) mod PIPE_BUFFER_SIZE;
  pk_bytes : Forall (fun b => 0 <= b < 256) (contents p);
}.

Lemma length_contents p : pipe_ok p -> Z.of_nat (length (contents p)) = p_count p.
Proof. intros []. unfold contents. rewrite length_ring. lia. Qed.

(** ** Copying *)

Lemma copy_out_spec n b rp m dest :
  0 <= rp < PIPE_BUFFER_SIZE -> Forall (fun x => 0 <= x < 256) (ring b PIPE_BUFFER_SIZE rp n) ->
  let '(m', rp') := copy_out n b rp m dest in
  rp' = (rp + Z.of_nat n) mod PIPE_BUFFER_SIZE /\
  bytes_at m' dest n = ring b PIPE_BUFFER_SIZE rp n /\
  (forall x, x < dest \/ dest + Z.of_nat n <= x -> m' x = m x).
Proof.
  revert rp m dest. induction n as [|n IH]; intros rp m dest Hrp Hb; cbn [copy_out].
  - rewrite Z.add_0_r, Z.mod_small by done. done.
  - simpl in Hb. apply Forall_cons in Hb as [Hb1 Hb].
    assert (Hrp' : 0 <= (rp + 1) mod PIPE_BUFFER_SIZE < PIPE_BUFFER_SIZE)
      by (apply Z.mod_pos_bound; unfold PIPE_BUFFER_SIZE; lia).
    specialize (IH _ (store8 m dest (b rp)) (dest + 1) Hrp' Hb).
    destruct (copy_out n b ((rp + 1) mod PIPE_BUFFER_SIZE) (store8 m dest (b rp)) (dest + 1)) as [m' rp'].
    destruct IH as (E1 & E2 & E3). split; [|split].
    + rewrite E1, Zplus_mod_idemp_l. f_equal. lia.
    + cbn [bytes_at ring]. rewrite E2. f_equal. unfold load8. rewrite E3 by lia.
      rewrite store8_same, u8_id, u8_id; rewrite ?u8_id; lia.
    + intros x Hx. rewrite E3 by lia. apply store8_other. lia.
Qed.

Lemma copy_in_spec n k b rp m src :
  0 <= rp < PIPE_BUFFER_SIZE -> Z.of_nat k + Z.of_nat n <= PIPE_BUFFER_SIZE ->
  let '(b', wp') := copy_in n b ((rp + Z.of_nat k) mod PIPE_BUFFER_SIZE) m src in
  wp' = (rp + Z.of_nat k + Z.of_nat n) mod PIPE_BUFFER_SIZE /\
  ring b' PIPE_BUFFER_SIZE rp (k + n) = ring b PIPE_BUFFER_SIZE rp k ++ bytes_at m src n.
Proof.
  revert k b src. induction n as [|n IH]; intros k b src Hrp Hk; cbn [copy_in].
  - rewrite Z.add_0_r, Nat.add_0_r, app_nil_r. done.
  - replace (((rp + Z.of_nat k) mod PIPE_BUFFER_SIZE + 1) mod PIPE_BUFFER_SIZE)
      with ((rp + Z.of_nat (S k)) mod PIPE_BUFFER_SIZE) by (rewrite Zplus_mod_idemp_l; f_equal; lia).
    specialize (IH (S k) (upd b ((rp + Z.of_nat k) mod PIPE_BUFFER_SIZE) (load8 m src)) (src + 1) Hrp ltac:(lia)).
    destruct (copy_in n _ _ m (src + 1)) as [b' wp']. destruct IH as [E1 E2]. split.
    + rewrite E1. f_equal. lia.
    + replace (k + S n)%nat with (S k + n)%nat by lia. rewrite E2.
      rewrite ring_push by (unfold PIPE_BUFFER_SIZE in *; lia). by rewrite <- app_assoc.
Qed.

(** ** Changes that leave the bytes of a pipe alone *)

(** Same buffer and indices: only waiters, flags, references or the identifier differ. *)
Definition same_ring (p p' : pipe) : Prop :=
  p_buffer p' = p_buffer p /\ read_pos p' = read_pos p /\ write_pos p' = write_pos p /\ p_count p' = p_count p.

Lemma same_ring_refl p : same_ring p p.
Proof. done. Qed.
Lemma same_ring_trans p q r : same_ring p q -> same_ring q r -> same_ring p r.
Proof. unfold same_ring. intros (?&?&?&?) (?&?&?&?). repeat split; congruence. Qed.
Lemma same_ring_contents p p' : same_ring p p' -> contents p' = contents p.
Proof. intros (E1 & E2 & E3 & E4). unfold contents. by rewrite E1, E2, E4. Qed.
Lemma same_ring_ok p p' : same_ring p p' -> pipe_ok p -> pipe_ok p'.
Proof.
  intros He [P1 P2 P3 P4]. pose proof He as (E1 & E2 & E3 & E4).
  split; rewrite ?E2, ?E3, ?E4; auto. by rewrite (same_ring_contents _ _ He).
Qed.

(** The slot keeps its bytes, other slots and the memory do not change. *)
Definition keeps (i : Z) s s' : Prop :=
  same_ring (pipe_table s i) (pipe_table s' i) /\ pi_mem s' = pi_mem s /\
  forall j, j <> i -> pipe_table s' j = pipe_table s j.

#[export] Instance keeps_preorder i : PreOrder (keeps i).
Proof.
  split.
  - intros s. done.
  - intros s1 s2 s3 (A1 & A2 & A3) (B1 & B2 & B3). split; [by eapply same_ring_trans|].
    split; [congruence|]. intros j Hj. by rewrite B3, A3.
Qed.

Lemma keeps_set_pipe i p s : same_ring (pipe_table s i) p -> keeps i s (set_pipe i p s).
Proof.
  intros Hp. split; [simpl; by rewrite upd_same|]. split; [done|]. intros j Hj. simpl. by apply upd_other.
Qed.
Lemma keeps_world i w s : keeps i s (with_world w s).
Proof. done. Qed.
Lemma keeps_transferred i n s : keeps i s (add_transferred n s).
Proof. done. Qed.

Lemma keeps_wait i s (rq wq : wait_queue) (w : W) :
  keeps i s (with_world w (set_pipe i (set_waiters rq wq (pipe_table s i)) s)).
Proof. etransitivity; [|apply keeps_world]. by apply keeps_set_pipe. Qed.

Lemma keeps_block_reader i s : keeps i s (pipe_block_reader i s).
Proof. unfold pipe_block_reader. destruct (wait_block _ _). apply keeps_wait. Qed.
Lemma keeps_block_writer i s : keeps i s (pipe_block_writer i s).
Proof. unfold pipe_block_writer. destruct (wait_block _ _). apply keeps_wait. Qed.
Lemma keeps_wake_reader i s : keeps i s (pipe_wake_reader i s).
Proof. unfold pipe_wake_reader. destruct (wait_wake _ _). apply keeps_wait. Qed.
Lemma keeps_wake_writer i s : keeps i s (pipe_wake_writer i s).
Proof. unfold pipe_wake_writer. destruct (wait_wake _ _). apply keeps_wait. Qed.
Lemma keeps_wake_all_readers i s : keeps i s (pipe_wake_all_readers i s).
Proof. unfold pipe_wake_all_readers. destruct (wait_wake_all _ _ _). apply keeps_wait. Qed.
Lemma keeps_wake_all_writers i s : keeps i s (pipe_wake_all_writers i s).
Proof. unfold pipe_wake_all_writers. destruct (wait_wake_all _ _ _). apply keeps_wait. Qed.

Create HintDb pipe.
#[local] Hint Resolve keeps_block_reader keeps_block_writer keeps_wake_reader keeps_wake_writer
  keeps_wake_all_readers keeps_wake_all_writers keeps_transferred : pipe.

Lemma keeps_ok i s s' :
  keeps i s s' -> pipe_ok (pipe_table s i) ->
  pipe_ok (pipe_table s' i) /\ contents (pipe_table s' i) = contents (pipe_table s i).
Proof. intros (K & _ & _) Hk. split; [by eapply same_ring_ok|by apply same_ring_contents]. Qed.

(** ** The two transfers *)

Lemma take_bytes_spec i buf count s :
  pipe_ok (pipe_table s i) -> 0 <= count ->
  let '(s', n) := take_bytes i buf count s in
  let l := contents (pipe_table s i) in
  n = Z.min count (p_count (pipe_table s i)) /\ pipe_ok (pipe_table s' i) /\
  bytes_at (pi_mem s') buf (Z.to_nat n) = take (Z.to_nat n) l /\
  contents (pipe_table s' i) = drop (Z.to_nat n) l /\
  (forall x, x < buf \/ buf + n <= x -> pi_mem s' x = pi_mem s x) /\
  (forall j, j <> i -> pipe_table s' j = pipe_table s j).
Proof.
  intros Hk Hc. unfold take_bytes. set (p := pipe_table s i) in *. destruct Hk as [P1 P2 P3 P4].
  set (n := Z.min count (p_count p)). assert (Hn : 0 <= n <= p_count p) by lia.
  assert (Htake : ring (p_buffer p) PIPE_BUFFER_SIZE (read_pos p) (Z.to_nat n) = take (Z.to_nat n) (contents p)).
  { apply ring_take; [unfold PIPE_BUFFER_SIZE; lia|done|lia]. }
  pose proof (copy_out_spec (Z.to_nat n) (p_buffer p) (read_pos p) (pi_mem s) buf P1) as Hco.
  rewrite Htake in Hco. specialize (Hco ltac:(by apply Forall_take)).
  destruct (copy_out (Z.to_nat n) (p_buffer p) (read_pos p) (pi_mem s) buf) as [m' rp'].
  destruct Hco as (E1 & E2 & E3). rewrite Z2Nat.id in E1, E3 by lia. cbv zeta.
  set (p' := set_ring _ _ _ _ p). set (s1 := add_transferred n _).
  assert (T1 : pipe_table s1 i = p') by (simpl; apply upd_same).
  assert (Hcont : contents p' = drop (Z.to_nat n) (contents p)).
  { unfold contents, p'. simpl. rewrite E1. replace (Z.to_nat (p_count p - n)) with (Z.to_nat (p_count p) - Z.to_nat n)%nat by lia.
    rewrite <- (Z2Nat.id n) at 1 by lia. apply ring_drop; [unfold PIPE_BUFFER_SIZE; lia|done|lia]. }
  assert (Hok : pipe_ok (pipe_table s1 i)).
  { rewrite T1. split; [simpl; rewrite E1; apply Z.mod_pos_bound; unfold PIPE_BUFFER_SIZE; lia|simpl; lia| |].
    - simpl. rewrite E1, P3, Zplus_mod_idemp_l. f_equal. lia.
    - rewrite Hcont. by apply Forall_drop. }
  pose proof (keeps_wake_writer i s1) as Kw. destruct (keeps_ok _ _ _ Kw Hok) as [Ok2 C2].
  destruct Kw as (_ & Km & Kt). split; [done|]. split; [done|]. rewrite Km. split; [exact E2|].
  split; [by rewrite C2, T1|]. split; [exact E3|]. intros j Hj. rewrite Kt by done. simpl. by apply upd_other.
Qed.

Lemma put_bytes_spec i src n s :
  pipe_ok (pipe_table s i) -> 0 <= n -> p_count (pipe_table s i) + n <= PIPE_BUFFER_SIZE ->
  let s' := put_bytes i src n s in
  pipe_ok (pipe_table s' i) /\
  contents (pipe_table s' i) = contents (pipe_table s i) ++ bytes_at (pi_mem s) src (Z.to_nat n) /\
  p_count (pipe_table s' i) = p_count (pipe_table s i) + n /\
  p_flags (pipe_table s' i) = p_flags (pipe_table s i) /\ pi_mem s' = pi_mem s /\
  (forall j, j <> i -> pipe_table s' j = pipe_table s j).
Proof.
  intros [P1 P2 P3 P4] Hn Hle. unfold put_bytes. set (p := pipe_table s i) in *.
  pose proof (copy_in_spec (Z.to_nat n) (Z.to_nat (p_count p)) (p_buffer p) (read_pos p) (pi_mem s) src P1) as Hci.
  rewrite !Z2Nat.id in Hci by lia. specialize (Hci ltac:(lia)). rewrite <- P3 in Hci.
  destruct (copy_in (Z.to_nat n) (p_buffer p) (write_pos p) (pi_mem s) src) as [b' wp'].
  destruct Hci as [E1 E2]. simpl. rewrite upd_same.
  set (p' := set_ring b' (read_pos p) wp' (p_count p + n) p).
  assert (Hcont : contents p' = contents p ++ bytes_at (pi_mem s) src (Z.to_nat n)).
  { unfold contents, p'. simpl. by replace (Z.to_nat (p_count p + n)) with (Z.to_nat (p_count p) + Z.to_nat n)%nat by lia. }
  split; [|split; [done|split; [done|split; [done|split; [done|]]]]].
  - split; [done|simpl; lia| |].
    + simpl. rewrite E1. f_equal. lia.
    + rewrite Hcont. apply Forall_app. split; [done|]. apply bytes_at_range.
  - intros j Hj. by apply upd_other.
Qed.

(** ** Sections *)

(** What a section of a read does to the queue [l] of bytes. *)
Definition read_effect (i buf count : Z) s s' (r : read_result) : Prop :=
  let l := contents (pipe_table s i) in
  pipe_ok (pipe_table s' i) /\ (forall j, j <> i -> pipe_table s' j = pipe_table s j) /\
  match r with
  | RBlocked => l = [] /\ contents (pipe_table s' i) = [] /\ pi_mem s' = pi_mem s
  | RDone n =>
      (n <= 0 /\ contents (pipe_table s' i) = l /\ pi_mem s' = pi_mem s) \/
      (0 < n /\ n = Z.min count (Z.of_nat (length l)) /\
       bytes_at (pi_mem s') buf (Z.to_nat n) = take (Z.to_nat n) l /\
       contents (pipe_table s' i) = drop (Z.to_nat n) l /\
       (forall x, x < buf \/ buf + n <= x -> pi_mem s' x = pi_mem s x))
  end.

Lemma take_effect i buf count s :
  pipe_ok (pipe_table s i) -> 0 < count -> p_count (pipe_table s i) <> 0 ->
  read_effect i buf count s (fst (take_bytes i buf count s)) (RDone (snd (take_bytes i buf count s))).
Proof.
  intros Hk Hc Hne. pose proof (take_bytes_spec i buf count s Hk ltac:(lia)) as Ht.
  pose proof (length_contents _ Hk) as Hl. pose proof (pk_count _ Hk).
  destruct (take_bytes i buf count s) as [s' n]. destruct Ht as (E & O & B & C & M & T). cbn [fst snd].
  split; [done|]. split; [done|]. right. split; [lia|]. split; [lia|]. done.
Qed.

Lemma no_effect i buf count s n :
  pipe_ok (pipe_table s i) -> n <= 0 -> read_effect i buf count s s (RDone n).
Proof. intros Hk Hn. split; [done|]. split; [done|]. by left. Qed.

Lemma read_section_spec i buf count s :
  pipe_ok (pipe_table s i) -> 0 < count ->
  read_effect i buf count s (fst (read_section i buf count s)) (snd (read_section i buf count s)).
Proof.
  intros Hk Hc. unfold read_section. destruct (p_count (pipe_table s i) =? 0) eqn:E; zbool.
  - case_if; [by apply no_effect|]. pose proof (keeps_block_reader i s) as K.
    assert (Hl : contents (pipe_table s i) = []) by (unfold contents; by rewrite E).
    destruct (keeps_ok _ _ _ K Hk) as [O C]. destruct K as (_ & M & T). cbn [fst snd].
    split; [done|]. split; [done|]. by rewrite C.
  - pose proof (take_effect i buf count s Hk Hc E) as Ht. by destruct (take_bytes i buf count s).
Qed.

Lemma pipe_read_spec i buf count s :
  pipe_ok (pipe_table s i) -> 0 <= count ->
  read_effect i buf count s (fst (pipe_read i buf count s)) (snd (pipe_read i buf count s)).
Proof.
  intros Hk Hc. unfold pipe_read. case_if; [apply no_effect; [done|unfold PIPE_ERR_INVALID; lia]|].
  case_if; [by apply no_effect|]. case_if; [apply no_effect; [done|unfold PIPE_ERR_CLOSED; lia]|].
  apply read_section_spec; [done|lia].
Qed.

Lemma pipe_try_read_spec i buf count s :
  pipe_ok (pipe_table s i) -> 0 <= count ->
  read_effect i buf count s (fst (pipe_try_read i buf count s)) (RDone (snd (pipe_try_read i buf count s))).
Proof.
  intros Hk Hc. unfold pipe_try_read. case_if; [apply no_effect; [done|unfold PIPE_ERR_INVALID; simpl; lia]|].
  case_if; [by apply no_effect|]. case_if; [apply no_effect; [done|unfold PIPE_ERR_CLOSED; simpl; lia]|].
  case_if; [apply no_effect; [done|]; case_if; unfold PIPE_ERR_WOULDBLOCK; simpl; lia|].
  apply take_effect; [done|lia|done].
Qed.

(** A section of a write moves its progress from [written] to [k]; the bytes between
    are appended. *)
Definition write_effect (i buf written k : Z) s s' : Prop :=
  pipe_ok (pipe_table s' i) /\ written <= k /\ pi_mem s' = pi_mem s /\
  (forall j, j <> i -> pipe_table s' j = pipe_table s j) /\
  contents (pipe_table s' i) =
    contents (pipe_table s i) ++ bytes_at (pi_mem s) (buf + written) (Z.to_nat (k - written)).

Lemma keeps_write_effect i buf k s s' :
  keeps i s s' -> pipe_ok (pipe_table s i) -> write_effect i buf k k s s'.
Proof.
  intros K Hk. destruct (keeps_ok _ _ _ K Hk) as [O C]. destruct K as (_ & M & T).
  split; [done|]. split; [lia|]. split; [done|]. split; [done|]. by rewrite Z.sub_diag, app_nil_r.
Qed.

(** The progress a section reports. *)
Definition progress (written : Z) (r : write_result) : Z :=
  match r with
  | WDone n => if 0 <? n then n else written
  | WBlocked n => n
  end.

(** The iteration in which the loop stops: all written, or the buffer full. *)
Lemma write_loop_stop f i buf count written s :
  pipe_ok (pipe_table s i) -> 0 <= written ->
  written = count \/ p_count (pipe_table s i) = PIPE_BUFFER_SIZE -> written <= count ->
  exists s' r, write_loop (S f) i buf count written s = Some (s', r) /\
    write_effect i buf written written s s' /\ progress written r = written /\
    match r with
    | WDone n => (n = count /\ written = count) \/
        (n = (if 0 <? written then written else PIPE_ERR_CLOSED) /\ read_open (pipe_table s i) = false)
    | WBlocked n => n = written /\ written < count /\ p_count (pipe_table s i) = PIPE_BUFFER_SIZE
    end.
Proof.
  intros Hk Hw Hst Hle. cbn [write_loop]. destruct (written <? count) eqn:E; zbool.
  - assert (Hfull : p_count (pipe_table s i) = PIPE_BUFFER_SIZE) by lia.
    rewrite Hfull, Z.eqb_refl. destruct (read_open (pipe_table s i)) eqn:Er; cbn [negb].
    + eexists _, _. split; [done|]. split; [apply keeps_write_effect; [apply keeps_block_writer|done]|].
      split; [done|]. done.
    + eexists s, _. split; [done|]. split; [apply keeps_write_effect; [reflexivity|done]|].
      split; [simpl; by repeat case_if|]. by right.
  - eexists _, _. split; [done|]. split; [apply keeps_write_effect; [apply keeps_transferred|done]|].
    split; [simpl; case_if; lia|]. left. lia.
Qed.

Lemma write_section_spec i buf count written s :
  pipe_ok (pipe_table s i) -> 0 <= written <= count ->
  exists s' r, write_section i buf count written s = Some (s', r) /\
    write_effect i buf written (progress written r) s s' /\ progress written r <= count /\
    match r with
    | WDone n => n = count \/ read_open (pipe_table s i) = false
    | WBlocked n => n < count /\ Z.of_nat (length (contents (pipe_table s' i))) = PIPE_BUFFER_SIZE
    end.
Proof.
  intros Hk Hw. unfold write_section.
  destruct (decide (written = count \/ p_count (pipe_table s i) = PIPE_BUFFER_SIZE)) as [Hst|Hgo].
  { destruct (write_loop_stop 2 i buf count written s Hk ltac:(lia) Hst ltac:(lia)) as (s' & r & -> & Ef & Ep & Hr).
    exists s', r. split; [done|]. rewrite Ep. split; [done|]. split; [lia|]. destruct r as [n|n]; [naive_solver|].
    destruct Hr as (-> & H1 & H2). split; [done|]. destruct Ef as (O & _ & _ & _ & C).
    rewrite Z.sub_diag, app_nil_r in C. rewrite C, length_contents by done. done. }
  pose proof (pk_count _ Hk) as Hcnt. cbn [write_loop].
  rewrite (proj2 (Z.ltb_lt written count)), (proj2 (Z.eqb_neq _ PIPE_BUFFER_SIZE)) by lia. cbv zeta.
  set (n := Z.min (count - written) (PIPE_BUFFER_SIZE - p_count (pipe_table s i))).
  destruct (put_bytes_spec i (buf + written) n s Hk ltac:(lia) ltac:(lia)) as (O1 & C1 & N1 & F1 & M1 & T1).
  cbv zeta in *. set (s1 := put_bytes i (buf + written) n s) in *.
  pose proof (keeps_wake_reader i s1) as K2. destruct (keeps_ok _ _ _ K2 O1) as [O2 C2].
  pose proof K2 as (R2 & M2 & T2). set (s2 := pipe_wake_reader i s1) in *.
  assert (N2 : p_count (pipe_table s2 i) = p_count (pipe_table s i) + n) by (destruct R2 as (_&_&_&->); done).
  destruct (write_loop_stop 1 i buf count (written + n) s2 O2 ltac:(lia) ltac:(lia) ltac:(lia))
    as (s' & r & E & (O3 & _ & M3 & T3 & C3) & Ep & Hr). cbn [write_loop] in E. rewrite E. clear E.
  exists s', r. rewrite Z.sub_diag, app_nil_r in C3.
  assert (Epw : progress written r = written + n).
  { destruct r as [x|x]; [|done]. assert (Hx : 0 < x).
    { destruct Hr as [[-> _]|[-> _]]; [lia|]. rewrite (proj2 (Z.ltb_lt 0 (written + n))) by lia. lia. }
    revert Ep. unfold progress. by rewrite (proj2 (Z.ltb_lt 0 x)). }
  split; [done|]. rewrite Epw. split; [|split; [lia|]].
  - split; [done|]. split; [lia|]. split; [congruence|]. split; [intros j Hj; by rewrite T3, T2, T1|].
    rewrite C3, C2, C1. f_equal. f_equal. lia.
  - destruct r as [x|x].
    + destruct Hr as [[-> _]|[_ Hro]]; [by left|right]. revert Hro. unfold read_open.
      destruct (wait_wake (read_waiters (pipe_table s1 i)) (pi_procs s1)) as [q w] eqn:Ew.
      assert (Ef : p_flags (pipe_table s2 i) = p_flags (pipe_table s1 i)).
      { unfold s2, pipe_wake_reader. rewrite Ew. simpl. by rewrite upd_same. }
      by rewrite Ef, F1.
    + destruct Hr as (-> & H1 & H2). split; [done|]. by rewrite C3, length_contents.
Qed.

Lemma no_write_effect i buf s : pipe_ok (pipe_table s i) -> write_effect i buf 0 0 s s.
Proof. intros Hk. apply keeps_write_effect; [reflexivity|done]. Qed.

Lemma pipe_write_spec i buf count s :
  pipe_ok (pipe_table s i) -> 0 <= count ->
  exists s' r, pipe_write i buf count s = Some (s', r) /\ write_effect i buf 0 (progress 0 r) s s'.
Proof.
  intros Hk Hc. unfold pipe_write. case_if; [eexists s, _; split; [done|by apply no_write_effect]|].
  case_if; [eexists s, _; split; [done|by apply no_write_effect]|].
  case_if; [eexists s, _; split; [done|by apply no_write_effect]|].
  case_if; [eexists s, _; split; [done|by apply no_write_effect]|].
  destruct (write_section_spec i buf count 0 s Hk ltac:(lia)) as (s' & r & -> & Ef & _). eauto.
Qed.

(** The bytes accepted by a non-blocking write. *)
Lemma pipe_try_write_spec i buf count s :
  pipe_ok (pipe_table s i) -> 0 <= count ->
  let '(s', n) := pipe_try_write i buf count s in
  write_effect i buf 0 (Z.max n 0) s s' /\
  (0 < n -> n = Z.min count (PIPE_BUFFER_SIZE - p_count (pipe_table s i))).
Proof.
  intros Hk Hc. unfold pipe_try_write, PIPE_ERR_INVALID, PIPE_ERR_CLOSED, PIPE_ERR_WOULDBLOCK.
  case_if; [split; [by apply no_write_effect|lia]|]. case_if; [split; [by apply no_write_effect|lia]|].
  case_if; [split; [by apply no_write_effect|lia]|]. case_if; [split; [by apply no_write_effect|lia]|].
  case_if; [split; [by apply no_write_effect|lia]|]. cbv zeta. pose proof (pk_count _ Hk) as Hn.
  set (n := Z.min count (PIPE_BUFFER_SIZE - p_count (pipe_table s i))).
  destruct (put_bytes_spec i buf n s Hk ltac:(lia) ltac:(lia)) as (O1 & C1 & _ & _ & M1 & T1).
  set (s1 := put_bytes i buf n s) in *. cbv zeta in *.
  assert (K : keeps i s1 (pipe_wake_reader i (add_transferred n s1)))
    by (etransitivity; [apply (keeps_transferred i n)|apply keeps_wake_reader]).
  destruct (keeps_ok _ _ _ K O1) as [O2 C2]. destruct K as (_ & M2 & T2). split; [|done].
  replace (Z.max n 0) with n by lia. split; [exact O2|]. split; [lia|]. split; [congruence|].
  split; [intros j Hj; by rewrite T2, T1|]. rewrite C2, C1. by rewrite Z.add_0_r, Z.sub_0_r.
Qed.

Lemma keeps_close_end i s : keeps i s (close_read_end i s) /\ keeps i s (close_write_end i s).
Proof.
  split.
  - unfold close_read_end. cbv zeta.
    match goal with |- keeps _ _ (if _ then _ else ?x) => assert (K : keeps i s x) by by apply keeps_set_pipe end.
    match goal with |- keeps _ _ (if ?b then _ else _) => destruct b end; [|done].
    etransitivity; [exact K|]. etransitivity; [|apply keeps_wake_all_writers].
    by apply keeps_set_pipe.
  - unfold close_write_end. cbv zeta.
    match goal with |- keeps _ _ (if _ then _ else ?x) => assert (K : keeps i s x) by by apply keeps_set_pipe end.
    match goal with |- keeps _ _ (if ?b then _ else _) => destruct b end; [|done].
    etransitivity; [exact K|]. etransitivity; [|apply keeps_wake_all_readers].
    by apply keeps_set_pipe.
Qed.

Lemma keeps_close_fd fd s : keeps (pipe_get fd s) s (fst (pipe_close_fd fd s)).
Proof.
  unfold pipe_close_fd. set (i := pipe_get fd s). cbv zeta. case_if; [reflexivity|]. cbn [fst].
  match goal with |- keeps _ _ (if _ then _ else ?x) =>
    assert (K : keeps i s x) by (destruct (FD_IS_READ_END fd); apply keeps_close_end) end.
  match goal with |- keeps _ _ (if ?b then _ else _) => destruct b end; [|done].
  etransitivity; [exact K|]. by apply keeps_set_pipe.
Qed.

Lemma keeps_close i s : keeps i s (fst (pipe_close i s)).
Proof.
  unfold pipe_close. case_if; [reflexivity|]. cbn [fst].
  etransitivity; [apply (keeps_wake_all_readers i)|]. etransitivity; [apply (keeps_wake_all_writers i)|].
  by apply keeps_set_pipe.
Qed.

(** ** The life of a pipe *)

(** The bytes a section of a read put into the caller's buffer. *)
Definition delivered s' (buf : Z) (r : read_result) : list Z :=
  match r with RDone n => bytes_at (pi_mem s') buf (Z.to_nat n) | RBlocked => [] end.

(** One event for pipe [i], with the bytes written into it and read from it so far:
    a section of a blocking read or write, first or later, a non-blocking call, a
    close, or anything that leaves the slot of [i] alone. *)
Inductive stream_step (i : Z) :
  pipes W * list Z * list Z -> pipes W * list Z * list Z -> Prop :=
| st_read s s' win wout buf count r :
    0 <= count -> pipe_read i buf count s = (s', r) ->
    stream_step i (s, win, wout) (s', win, wout ++ delivered s' buf r)
| st_read_again s s' win wout buf count r :
    0 < count -> read_section i buf count s = (s', r) ->
    stream_step i (s, win, wout) (s', win, wout ++ delivered s' buf r)
| st_try_read s s' win wout buf count n :
    0 <= count -> pipe_try_read i buf count s = (s', n) ->
    stream_step i (s, win, wout) (s', win, wout ++ delivered s' buf (RDone n))
| st_write s s' win wout buf count r :
    0 <= count -> pipe_write i buf count s = Some (s', r) ->
    stream_step i (s, win, wout)
      (s', win ++ bytes_at (pi_mem s) buf (Z.to_nat (progress 0 r)), wout)
| st_write_again s s' win wout buf count written r :
    0 <= written <= count -> write_section i buf count written s = Some (s', r) ->
    stream_step i (s, win, wout)
      (s', win ++ bytes_at (pi_mem s) (buf + written) (Z.to_nat (progress written r - written)), wout)
| st_try_write s s' win wout buf count n :
    0 <= count -> pipe_try_write i buf count s = (s', n) ->
    stream_step i (s, win, wout) (s', win ++ bytes_at (pi_mem s) buf (Z.to_nat n), wout)
| st_close_fd s win wout fd :
    pipe_get fd s = i -> stream_step i (s, win, wout) (fst (pipe_close_fd fd s), win, wout)
| st_close s win wout : stream_step i (s, win, wout) (fst (pipe_close i s), win, wout)
| st_other s s' win wout :
    pipe_table s' i = pipe_table s i -> stream_step i (s, win, wout) (s', win, wout).

(** What was written is what was read followed by what is buffered. *)
Definition conserved (i : Z) (c : pipes W * list Z * list Z) : Prop :=
  let '(s, win, wout) := c in
  pipe_ok (pipe_table s i) /\ win = wout ++ contents (pipe_table s i).

Lemma read_conserved i s s' win wout buf count r :
  conserved i (s, win, wout) -> read_effect i buf count s s' r ->
  conserved i (s', win, wout ++ delivered s' buf r).
Proof.
  intros [Hk ->] (O & _ & Hr). split; [done|]. unfold delivered. destruct r as [n|].
  - destruct Hr as [(Hn & -> & _)|(Hn & _ & -> & -> & _)].
    + replace (Z.to_nat n) with 0%nat by lia. by rewrite app_nil_r.
    + by rewrite <- app_assoc, take_drop.
  - destruct Hr as (-> & -> & _). by rewrite !app_nil_r.
Qed.

Lemma write_conserved i s s' win wout buf written k :
  conserved i (s, win, wout) -> write_effect i buf written k s s' ->
  conserved i (s', win ++ bytes_at (pi_mem s) (buf + written) (Z.to_nat (k - written)), wout).
Proof. intros [Hk ->] (O & _ & _ & _ & C). split; [done|]. by rewrite C, app_assoc. Qed.

Lemma keeps_conserved i s s' win wout :
  conserved i (s, win, wout) -> keeps i s s' -> conserved i (s', win, wout).
Proof. intros [Hk ->] K. destruct (keeps_ok _ _ _ K Hk) as [O C]. split; [exact O|by rewrite C]. Qed.

Lemma stream_step_conserved i c c' : stream_step i c c' -> conserved i c -> conserved i c'.
Proof.
  intros Hs Hc. assert (Hk : pipe_ok (pipe_table (fst (fst c)) i)) by (destruct c as [[s a] b]; apply Hc).
  destruct Hs as [s s' win wout buf count r H1 E|s s' win wout buf count r H1 E|s s' win wout buf count n H1 E
    |s s' win wout buf count r H1 E|s s' win wout buf count written r H1 E|s s' win wout buf count n H1 E
    |s win wout fd E|s win wout|s s' win wout E]; cbn [fst] in Hk.
  - pose proof (pipe_read_spec i buf count s Hk H1) as Ef. rewrite E in Ef. by eapply read_conserved.
  - pose proof (read_section_spec i buf count s Hk H1) as Ef. rewrite E in Ef. by eapply read_conserved.
  - pose proof (pipe_try_read_spec i buf count s Hk H1) as Ef. rewrite E in Ef. by eapply read_conserved.
  - destruct (pipe_write_spec i buf count s Hk H1) as (s1 & r1 & E1 & Ef). rewrite E1 in E. injection E as <- <-.
    pose proof (write_conserved _ _ _ _ _ _ _ _ Hc Ef) as Hw. by rewrite Z.add_0_r, Z.sub_0_r in Hw.
  - destruct (write_section_spec i buf count written s Hk H1) as (s1 & r1 & E1 & Ef & _).
    rewrite E1 in E. injection E as <- <-. by eapply write_conserved.
  - pose proof (pipe_try_write_spec i buf count s Hk H1) as Ef. rewrite E in Ef. destruct Ef as [Ef _].
    pose proof (write_conserved _ _ _ _ _ _ _ _ Hc Ef) as Hw. rewrite Z.add_0_r, Z.sub_0_r in Hw.
    by replace (Z.to_nat (Z.max n 0)) with (Z.to_nat n) in Hw by lia.
  - eapply keeps_conserved; [exact Hc|]. rewrite <- E. apply keeps_close_fd.
  - eapply keeps_conserved; [exact Hc|]. apply keeps_close.
  - unfold conserved in *. by rewrite E.
Qed.

(** ** Creation *)

Lemma find_pipe_spec n i t :
  0 <= i ->
  (find_pipe n i t = NO_PIPE /\ forall j, i <= j < i + Z.of_nat n -> p_flags (t j) <> 0) \/
  (exists j, find_pipe n i t = j /\ i <= j < i + Z.of_nat n /\ p_flags (t j) = 0).
Proof.
  revert i. induction n as [|n IH]; intros i Hi; cbn [find_pipe].
  - left. split; [done|]. intros j Hj. lia.
  - destruct (p_flags (t i) =? 0) eqn:E; zbool.
    + right. exists i. split; [done|]. split; [lia|done].
    + destruct (IH (i + 1) ltac:(lia)) as [[E1 E2]|(j & E1 & Hj & E2)].
      * left. split; [done|]. intros j Hj. destruct (decide (j = i)) as [->|]; [done|]. apply E2. lia.
      * right. exists j. split; [done|]. split; [lia|done].
Qed.

Lemma pipe_create_spec s :
  (pipe_create s = (s, inr PIPE_ERR_MAX_PIPES) /\
   forall i, 0 <= i < PIPE_MAX_COUNT -> p_flags (pipe_table s i) <> 0) \/
  (exists s' i, pipe_create s = (s', inl (PIPE_TO_READ_FD i, PIPE_TO_WRITE_FD i)) /\
     0 <= i < PIPE_MAX_COUNT /\ p_flags (pipe_table s i) = 0 /\
     pipe_ok (pipe_table s' i) /\ contents (pipe_table s' i) = [] /\
     p_flags (pipe_table s' i) = 3 /\ pi_mem s' = pi_mem s /\ pi_procs s' = pi_procs s /\
     (forall j, j <> i -> pipe_table s' j = pipe_table s j)).
Proof.
  unfold pipe_create, pipe_alloc.
  destruct (find_pipe_spec (Z.to_nat PIPE_MAX_COUNT) 0 (pipe_table s) ltac:(lia)) as [[-> Hall]|(i & -> & Hi & Hf)].
  - left. split; [done|]. intros i Hi. apply Hall. unfold PIPE_MAX_COUNT in *. lia.
  - right. unfold NO_PIPE. rewrite (proj2 (Z.eqb_neq i (-1))) by lia. eexists _, i. split; [done|].
    unfold PIPE_MAX_COUNT in *. split; [lia|]. split; [done|]. simpl. rewrite upd_same.
    split; [split; simpl; unfold PIPE_BUFFER_SIZE; try lia; done|].
    repeat (split; [done|]). intros j Hj. by apply upd_other.
Qed.
End Props.

(** ** Theorems *)

Section Theorems.
Context {W : Type} `{ProcessOps W}.
Implicit Types s : pipes W.

(** The pipe a successful [pipe_create] returns. *)
Lemma created_pipe s0 s i :
  pipe_create s0 = (s, inl (PIPE_TO_READ_FD i, PIPE_TO_WRITE_FD i)) ->
  pipe_ok (pipe_table s i) /\ contents (pipe_table s i) = [] /\ p_flags (pipe_table s i) = 3.
Proof.
  intros Hc. destruct (pipe_create_spec s0) as [[E _]|(s1 & j & E & _ & _ & Hk & Hl & Hf & _)];
    rewrite E in Hc; [done|].
  injection Hc as -> Hc _. unfold PIPE_TO_READ_FD in Hc. by replace i with j by lia.
Qed.

(** C6: A pipe is a byte stream: from its creation on, under every interleaving of the
    sections of any number of readers and writers, of non-blocking calls, of closes
    and of unrelated activity, the bytes written into it are the bytes read from it
    followed by the bytes still buffered, in order and without loss or duplication,
    and at most 4096 bytes are buffered. *)
Theorem pipe_is_byte_stream s0 s i s' win wout :
  pipe_create s0 = (s, inl (PIPE_TO_READ_FD i, PIPE_TO_WRITE_FD i)) ->
  rtc (stream_step i) (s, [], []) (s', win, wout) ->
  win = wout ++ contents (pipe_table s' i) /\
  Z.of_nat (length (contents (pipe_table s' i))) <= PIPE_BUFFER_SIZE.
Proof.
  intros Hc Hr. assert (Hcv : conserved i (s', win, wout)).
  { refine (rtc_ind_r (conserved i) (s, [], []) _ _ _ Hr).
    - destruct (created_pipe _ _ _ Hc) as (Hk & Hl & _). split; [done|]. by rewrite Hl.
    - intros y z _ Hs Hy. by eapply stream_step_conserved. }
  destruct Hcv as [Hk ->]. split; [done|]. rewrite length_contents by done. apply Hk.
Qed.

(** A section of a blocking write always ends within its loop bound; it appends the
    next bytes of the caller's buffer in order, and it ends with everything written,
    or waiting with the buffer full, or reporting that the read end was closed. *)
Theorem pipe_write_section_progress i buf count written s :
  pipe_ok (pipe_table s i) -> 0 <= written <= count ->
  exists s' r, write_section i buf count written s = Some (s', r) /\
    let k := progress written r in
    pipe_ok (pipe_table s' i) /\ written <= k <= count /\ pi_mem s' = pi_mem s /\
    (forall j, j <> i -> pipe_table s' j = pipe_table s j) /\
    contents (pipe_table s' i) =
      contents (pipe_table s i) ++ bytes_at (pi_mem s) (buf + written) (Z.to_nat (k - written)) /\
    match r with
    | WDone n => n = count \/ read_open (pipe_table s i) = false
    | WBlocked n => n < count /\ Z.of_nat (length (contents (pipe_table s' i))) = PIPE_BUFFER_SIZE
    end.
Proof.
  intros Hk Hw. destruct (write_section_spec i buf count written s Hk Hw) as (s' & r & E & Ef & Hle & Hr).
  destruct Ef as (O & H1 & M & T & C). exists s', r. split; [done|]. cbv zeta. done.
Qed.

(** [pipe_create] fails exactly when all 128 slots are in use; otherwise it takes a
    free slot and leaves the others alone, both descriptors lead to the new pipe,
    and the pipe is empty with both ends open. *)
Theorem pipe_create_contract s :
  (pipe_create s = (s, inr PIPE_ERR_MAX_PIPES) /\
   forall i, 0 <= i < PIPE_MAX_COUNT -> p_flags (pipe_table s i) <> 0) \/
  (exists s' i, pipe_create s = (s', inl (PIPE_TO_READ_FD i, PIPE_TO_WRITE_FD i)) /\
     p_flags (pipe_table s i) = 0 /\
     pipe_get (PIPE_TO_READ_FD i) s' = i /\ pipe_get (PIPE_TO_WRITE_FD i) s' = i /\
     FD_IS_READ_END (PIPE_TO_READ_FD i) = true /\ FD_IS_READ_END (PIPE_TO_WRITE_FD i) = false /\
     contents (pipe_table s' i) = [] /\
     read_open (pipe_table s' i) = true /\ write_open (pipe_table s' i) = true /\
     (forall j, j <> i -> pipe_table s' j = pipe_table s j)).
Proof.
  destruct (pipe_create_spec s) as [?|(s' & i & -> & Hi & Hf & Hk & Hc & Hfl & _ & _ & Ht)]; [by left|right].
  exists s', i. unfold PIPE_MAX_COUNT in *.
  assert (Hg : forall fd, 0 <= fd -> fd / 2 = i -> pipe_get fd s' = i).
  { intros fd H1 H2. unfold pipe_get, FD_TO_PIPE_INDEX, PIPE_MAX_COUNT. rewrite (proj2 (Z.ltb_ge fd 0)) by lia.
    rewrite Z.quot_div_nonneg, H2 by lia. rewrite (proj2 (Z.leb_gt 128 i)) by lia. by rewrite Hfl. }
  unfold PIPE_TO_READ_FD, PIPE_TO_WRITE_FD, FD_IS_READ_END, read_open, write_open. rewrite Hfl.
  rewrite !Z.rem_mod_nonneg by lia.
  split; [done|]. split; [done|]. split; [apply Hg; [lia|by rewrite Z.div_mul by lia]|].
  split; [apply Hg; [lia|by rewrite Z.div_add_l, Z.add_0_r by lia]|].
  split; [by rewrite Z.mod_mul by lia|]. split; [by rewrite Z.add_comm, Z.mod_add by lia|]. done.
Qed.

(** Round trip: bytes put into an empty pipe with [pipe_try_write] come out of
    [pipe_try_read] unchanged, as many as were accepted. *)
Theorem pipe_try_roundtrip i src dst count s s1 s2 n k :
  pipe_ok (pipe_table s i) -> contents (pipe_table s i) = [] -> 0 < count ->
  pipe_try_write i src count s = (s1, n) -> 0 < n ->
  pipe_try_read i dst count s1 = (s2, k) -> 0 < k ->
  n = Z.min count PIPE_BUFFER_SIZE /\ k = n /\
  bytes_at (pi_mem s2) dst (Z.to_nat n) = bytes_at (pi_mem s) src (Z.to_nat n).
Proof.
  intros Hk Hl Hc E1 Hn E2 Hk2. pose proof (length_contents _ Hk) as Hlen. rewrite Hl in Hlen. simpl in Hlen.
  pose proof (pipe_try_write_spec i src count s Hk ltac:(lia)) as Ew. rewrite E1 in Ew.
  destruct Ew as [(O1 & _ & _ & _ & C1) Hn']. rewrite Hl, Z.add_0_r, Z.sub_0_r, Z.max_l in C1 by lia. simpl in C1.
  specialize (Hn' Hn). pose proof (pipe_try_read_spec i dst count s1 O1 ltac:(lia)) as Er. rewrite E2 in Er.
  destruct Er as (_ & _ & [(Hk0 & _)|(_ & Ek & B & _)]); [simpl in *; lia|]. cbn [fst snd] in *.
  rewrite C1, length_bytes_at in Ek. assert (Enk : k = n) by lia. split; [lia|]. split; [done|].
  rewrite Enk in B. rewrite B, C1. rewrite take_ge; [done|]. rewrite length_bytes_at. done.
Qed.

(** A writer that waits while its pipe is closed writes into whatever pipe the slot is
    given to next: after [pipe_close] and a [pipe_create] that reuses the slot, the
    writer's next section puts the rest of its data into the new pipe. *)
Theorem pipe_stale_writer_leaks i buf count written s s1 s2 rc :
  0 <= i -> 0 <= written < count -> pipe_close i s = (s1, rc) ->
  pipe_create s1 = (s2, inl (PIPE_TO_READ_FD i, PIPE_TO_WRITE_FD i)) ->
  exists s3 r, write_section i buf count written s2 = Some (s3, r) /\
    written < progress written r /\
    contents (pipe_table s3 i) =
      bytes_at (pi_mem s2) (buf + written) (Z.to_nat (progress written r - written)).
Proof.
  intros Hi Hw _ Ec. destruct (created_pipe _ _ _ Ec) as (Hk & Hl & Hfl).
  destruct (write_section_spec i buf count written s2 Hk ltac:(lia)) as (s3 & r & E3 & (O & H1 & _ & _ & C) & H2 & Hr).
  exists s3, r. split; [done|]. rewrite Hl in C. simpl in C. split; [|done].
  destruct (decide (progress written r = written)) as [Ep|]; [exfalso|lia].
  rewrite Ep, Z.sub_diag in C. destruct r as [n|n].
  - destruct Hr as [-> |Hro]; [simpl in Ep; revert Ep; case_if; lia|]. unfold read_open in Hro. by rewrite Hfl in Hro.
  - destruct Hr as [_ Hr]. rewrite C in Hr. done.
Qed.
End Theorems.

(** ** Pipes on a small machine *)

Definition raw_pipes : pipes (procs pmm) :=
  mk_pipes (fun _ => mk_pipe (fun _ => 0) 0 0 0 0 0 0 0 (mk_wait (fun _ => 0) 0) (mk_wait (fun _ => 0) 0))
    1 0 0 (fun a => a mod 256) demo_procs.
Definition demo_pipes : pipes (procs pmm) := fst (pipe_create (pipe_init raw_pipes)).

Lemma demo_pipe_created : pipe_create (pipe_init raw_pipes) = (demo_pipes, inl (PIPE_TO_READ_FD 0, PIPE_TO_WRITE_FD 0)).
Proof. unfold demo_pipes. destruct (pipe_create_spec (pipe_init raw_pipes)) as [[E _]|(s' & i & E & _)].
  - exfalso. apply (f_equal snd) in E. vm_compute in E. discriminate.
  - assert (Hs : snd (pipe_create (pipe_init raw_pipes)) = inl (0, 1)) by (vm_compute; reflexivity).
    rewrite E in *. cbn [fst snd] in *. by rewrite Hs.
Qed.

Lemma demo_pipe_ok : pipe_ok (pipe_table demo_pipes 0) /\ contents (pipe_table demo_pipes 0) = [].
Proof.
  destruct (created_pipe _ _ _ demo_pipe_created) as (Hk & Hl & _). exact (conj Hk Hl).
Qed.

Lemma pipe_is_byte_stream_witness :
  exists s' win wout, rtc (stream_step 0) (demo_pipes, [], []) (s', win, wout) /\ win = [7; 8; 9] /\
    win = wout ++ contents (pipe_table s' 0).
Proof.
  set (c := pipe_try_write 0 0x10007 3 demo_pipes).
  assert (E : c = (fst c, 3)) by (apply pair_snd; vm_compute; reflexivity).
  assert (Hr : rtc (stream_step 0) (demo_pipes, [], []) (fst c, [7; 8; 9], [])).
  { apply rtc_once. change [7; 8; 9] with ([] ++ bytes_at (pi_mem demo_pipes) 0x10007 (Z.to_nat 3)).
    apply (st_try_write 0 demo_pipes (fst c) [] [] 0x10007 3 3); [lia|exact E]. }
  exists (fst c), [7; 8; 9], []. split; [exact Hr|]. split; [reflexivity|].
  apply (pipe_is_byte_stream (pipe_init raw_pipes) demo_pipes 0 (fst c) [7; 8; 9] [] demo_pipe_created Hr).
Defined.

Lemma pipe_write_section_progress_witness :
  pipe_ok (pipe_table demo_pipes 0) /\
  exists s' r, write_section 0 0x10007 5000 0 demo_pipes = Some (s', r) /\ progress 0 r <= 5000.
Proof.
  destruct demo_pipe_ok as [Hk _]. split; [exact Hk|].
  destruct (pipe_write_section_progress 0 0x10007 5000 0 demo_pipes Hk ltac:(lia)) as (s' & r & E & _ & H1 & _).
  exists s', r. split; [exact E|lia].
Defined.

Lemma pipe_try_roundtrip_witness :
  exists s1 s2, pipe_try_write 0 0x10007 3 demo_pipes = (s1, 3) /\ pipe_try_read 0 0x20000 3 s1 = (s2, 3) /\
    bytes_at (pi_mem s2) 0x20000 3 = bytes_at (pi_mem demo_pipes) 0x10007 3.
Proof.
  destruct demo_pipe_ok as [Hk Hl].
  set (c := pipe_try_write 0 0x10007 3 demo_pipes).
  assert (E1 : c = (fst c, 3)) by (apply pair_snd; vm_compute; reflexivity).
  set (d := pipe_try_read 0 0x20000 3 (fst c)).
  assert (E2 : d = (fst d, 3)) by (apply pair_snd; vm_compute; reflexivity).
  exists (fst c), (fst d). split; [exact E1|]. split; [exact E2|].
  apply (pipe_try_roundtrip 0 0x10007 0x20000 3 demo_pipes (fst c) (fst d) 3 3 Hk Hl ltac:(lia) E1 ltac:(lia) E2 ltac:(lia)).
Defined.

Lemma pipe_stale_writer_leaks_witness :
  exists s1 s2, pipe_close 0 demo_pipes = (s1, PIPE_SUCCESS) /\
    pipe_create s1 = (s2, inl (PIPE_TO_READ_FD 0, PIPE_TO_WRITE_FD 0)) /\
    exists s3 r, write_section 0 0x10007 5 2 s2 = Some (s3, r) /\ 2 < progress 2 r.
Proof.
  set (c := pipe_close 0 demo_pipes). assert (E1 : c = (fst c, PIPE_SUCCESS)) by (apply pair_snd; vm_compute; reflexivity).
  set (d := pipe_create (fst c)).
  assert (E2 : d = (fst d, inl (PIPE_TO_READ_FD 0, PIPE_TO_WRITE_FD 0)))
    by (apply pair_snd; vm_compute; reflexivity).
  exists (fst c), (fst d). split; [exact E1|]. split; [exact E2|].
  destruct (pipe_stale_writer_leaks 0 0x10007 5 2 demo_pipes (fst c) (fst d) PIPE_SUCCESS ltac:(lia) ltac:(lia) E1 E2)
    as (s3 & r & E3 & Hp & _). exists s3, r. split; [exact E3|exact Hp].
Defined.
