(* ===== verification/Message.v ===== *)
(** * Message passing (kernel/ipc/message.c, message.h): data and operations

    A [message_t *] is the number of its slot in [message_pool] plus one, 0 is NULL.
    Messages are linked through [next], in the free list or in the queue of a
    process. As for pipes, a blocking receive runs in sections between taking and
    releasing the queue's lock. *)
From S2P Require Import Prelude Memory PageAlloc Ring Process ProcessProps.

Definition MSG_MAX_SIZE : Z := 256.
Definition MSG_QUEUE_SIZE : Z := 32.
Definition MSG_POOL_SIZE : Z := 512.
Definition MSG_FLAG_BROADCAST : Z := BIT 2.
Definition MSG_SUCCESS : Z := 0.
Definition MSG_ERR_NO_MEMORY : Z := -1.
Definition MSG_ERR_INVALID_PID : Z := -2.
Definition MSG_ERR_QUEUE_FULL : Z := -3.
Definition MSG_ERR_QUEUE_EMPTY : Z := -4.
Definition MSG_ERR_TOO_LARGE : Z := -5.
Definition MSG_ERR_INVALID_ARG : Z := -6.
Definition MSG_ERR_NO_PROCESS : Z := -7.
Definition MSG_ERR_WOULDBLOCK : Z := -8.

Record message := mk_message {
  src_pid : Z;
  dest_pid : Z;
  m_flags : Z;
  msg_id : Z;
  m_length : Z;
  timestamp : Z;
  m_data : Z -> Z;
  m_next : Z;
}.
Definition zero_message : message := mk_message 0 0 0 0 0 0 (fun _ => 0) 0.

Record msg_queue := mk_queue {
  q_head : Z;
  q_tail : Z;
  q_count : Z;
  owner_pid : Z;
  q_waiters : wait_queue;
}.

Record msgs (W : Type) := mk_msgs {
  message_pool : Z -> message;
  free_messages : Z;
  msg_queues : Z -> msg_queue;
  next_msg_id : Z;
  msg_tick_counter : Z;
  total_messages_sent : Z;
  total_messages_received : Z;
  total_bytes_sent : Z;
  mg_mem : mem;
  mg_procs : W;
}.
Arguments mk_msgs {W}.
Arguments message_pool {W}.
Arguments free_messages {W}.
Arguments msg_queues {W}.
Arguments next_msg_id {W}.
Arguments msg_tick_counter {W}.
Arguments total_messages_sent {W}.
Arguments total_messages_received {W}.
Arguments total_bytes_sent {W}.
Arguments mg_mem {W}.
Arguments mg_procs {W}.

Inductive recv_result := MDone (r : Z) | MBlocked.

Section Message.
Context {W : Type} `{ProcessOps W}.
Implicit Types s : msgs W.

Definition with_pool (p : Z -> message) (fr : Z) s : msgs W :=
  mk_msgs p fr (msg_queues s) (next_msg_id s) (msg_tick_counter s) (total_messages_sent s)
    (total_messages_received s) (total_bytes_sent s) (mg_mem s) (mg_procs s).
Definition set_queue (i : Z) (q : msg_queue) s : msgs W :=
  mk_msgs (message_pool s) (free_messages s) (upd (msg_queues s) i q) (next_msg_id s)
    (msg_tick_counter s) (total_messages_sent s) (total_messages_received s) (total_bytes_sent s)
    (mg_mem s) (mg_procs s).
Definition with_mg_procs (w : W) s : msgs W :=
  mk_msgs (message_pool s) (free_messages s) (msg_queues s) (next_msg_id s) (msg_tick_counter s)
    (total_messages_sent s) (total_messages_received s) (total_bytes_sent s) (mg_mem s) w.
Definition with_mg_mem (m : mem) s : msgs W :=
  mk_msgs (message_pool s) (free_messages s) (msg_queues s) (next_msg_id s) (msg_tick_counter s)
    (total_messages_sent s) (total_messages_received s) (total_bytes_sent s) m (mg_procs s).
(** [next_msg_id++; msg_tick_counter++;] *)
Definition next_ids s : msgs W :=
  mk_msgs (message_pool s) (free_messages s) (msg_queues s) (u32 (next_msg_id s + 1))
    (u64 (msg_tick_counter s + 1)) (total_messages_sent s) (total_messages_received s)
    (total_bytes_sent s) (mg_mem s) (mg_procs s).
(** [total_messages_sent++; total_bytes_sent += len;] *)
Definition count_sent (len : Z) s : msgs W :=
  mk_msgs (message_pool s) (free_messages s) (msg_queues s) (next_msg_id s) (msg_tick_counter s)
    (u64 (total_messages_sent s + 1)) (total_messages_received s) (u64 (total_bytes_sent s + len))
    (mg_mem s) (mg_procs s).
Definition count_received s : msgs W :=
  mk_msgs (message_pool s) (free_messages s) (msg_queues s) (next_msg_id s) (msg_tick_counter s)
    (total_messages_sent s) (u64 (total_messages_received s + 1)) (total_bytes_sent s)
    (mg_mem s) (mg_procs s).

Definition set_next (n : Z) (x : message) : message :=
  mk_message (src_pid x) (dest_pid x) (m_flags x) (msg_id x) (m_length x) (timestamp x) (m_data x) n.
Definition set_links (hd tl n : Z) (q : msg_queue) : msg_queue :=
  mk_queue hd tl n (owner_pid q) (q_waiters q).

(** ** The pool *)

Definition msg_alloc s : msgs W * Z :=
  let p := free_messages s in
  if p =? NULL then (s, NULL)
  else
    let x := message_pool s p in
    (with_pool (upd (message_pool s) p (set_next NULL x)) (m_next x) s, p).

Definition msg_free (p : Z) s : msgs W :=
  if p =? NULL then s
  else with_pool (upd (message_pool s) p (set_next (free_messages s) zero_message)) p s.

(** ** Waiting *)

Definition msg_block_receiver (i : Z) s : msgs W :=
  let q := msg_queues s i in
  let '(wq, w) := wait_block (q_waiters q) (mg_procs s) in
  with_mg_procs w (set_queue i (mk_queue (q_head q) (q_tail q) (q_count q) (owner_pid q) wq) s).
Definition msg_wake_receiver (i : Z) s : msgs W :=
  let q := msg_queues s i in
  let '(wq, w) := wait_wake (q_waiters q) (mg_procs s) in
  with_mg_procs w (set_queue i (mk_queue (q_head q) (q_tail q) (q_count q) (owner_pid q) wq) s).

(** ** Initialisation *)

(** One slot of the pool put on the free list; the loop runs from the last slot down. *)
Definition init_slot (p : Z) s : msgs W :=
  with_pool (upd (message_pool s) p (set_next (free_messages s) zero_message)) p s.
Fixpoint init_pool (n : nat) s : msgs W :=
  match n with O => s | S n' => init_pool n' (init_slot (Z.of_nat (S n')) s) end.
Definition init_queue (i : Z) : msg_queue := mk_queue NULL NULL 0 i (mk_wait (fun _ => NULL) 0).
Definition msg_init s : msgs W :=
  let s := init_pool (Z.to_nat MSG_POOL_SIZE) (with_pool (message_pool s) NULL s) in
  for_range 0 PROCESS_MAX_COUNT (fun i s => set_queue i (init_queue i) s) s.

(** The queue of a PID; [None] is NULL. *)
Definition msg_get_queue (pid : Z) : option Z :=
  if PROCESS_MAX_COUNT <=? pid then None else Some pid.

(** ** Sending *)

(** [kmemcpy(data, msg, len)] *)
Fixpoint fill_data (n : nat) (k : Z) (m : mem) (a : Z) (d : Z -> Z) : Z -> Z :=
  match n with
  | O => d
  | S n' => fill_data n' (k + 1) m a (upd d k (load8 m (a + k)))
  end.

(** The message is filled in, linked behind the tail, and a receiver is woken. *)
Definition deliver (i p src dest msg len flags : Z) s : msgs W :=
  let x := mk_message src dest flags (next_msg_id s) len (msg_tick_counter s)
             (fill_data (Z.to_nat len) 0 (mg_mem s) msg (m_data (message_pool s p))) NULL in
  let s := next_ids (with_pool (upd (message_pool s) p x) (free_messages s) s) in
  let q := msg_queues s i in
  let s := if q_tail q =? NULL then set_queue i (set_links p p (q_count q + 1) q) s
           else
             let s := with_pool (upd (message_pool s) (q_tail q)
                                   (set_next p (message_pool s (q_tail q)))) (free_messages s) s in
             set_queue i (set_links (q_head q) p (q_count q + 1) q) s in
  msg_wake_receiver i (count_sent len s).

Definition current_pid s : Z :=
  let c := po_current (mg_procs s) in if c =? NULL then 0 else po_pid c (mg_procs s).

Definition msg_send_flags (dest msg len flags : Z) s : msgs W * Z :=
  if msg =? NULL then (s, MSG_ERR_INVALID_ARG)
  else if MSG_MAX_SIZE <? len then (s, MSG_ERR_TOO_LARGE)
  else if po_by_pid dest (mg_procs s) =? NULL then (s, MSG_ERR_INVALID_PID)
  else
    let src := current_pid s in
    match msg_get_queue dest with
    | None => (s, MSG_ERR_INVALID_PID)
    | Some i =>
        if MSG_QUEUE_SIZE <=? q_count (msg_queues s i) then (s, MSG_ERR_QUEUE_FULL)
        else
          let '(s, p) := msg_alloc s in
          if p =? NULL then (s, MSG_ERR_NO_MEMORY)
          else (deliver i p src dest msg len flags s, MSG_SUCCESS)
    end.
Definition msg_send (dest msg len : Z) s : msgs W * Z := msg_send_flags dest msg len 0 s.
Definition msg_reply (original_src reply len : Z) s : msgs W * Z := msg_send original_src reply len s.

Definition broadcast_one (msg len src pid : Z) (x : msgs W * Z) : msgs W * Z :=
  let '(s, n) := x in
  if pid =? src then x
  else
    let p := po_by_pid pid (mg_procs s) in
    if negb (p =? NULL)
       && negb (bool_decide (po_state p (mg_procs s) = PROCESS_STATE_INVALID))
       && negb (bool_decide (po_state p (mg_procs s) = PROCESS_STATE_TERMINATED))
    then
      let '(s, r) := msg_send_flags pid msg len MSG_FLAG_BROADCAST s in
      (s, if r =? MSG_SUCCESS then n + 1 else n)
    else x.
Definition msg_broadcast (msg len : Z) s : msgs W * Z :=
  if (msg =? NULL) || (MSG_MAX_SIZE <? len) then (s, MSG_ERR_INVALID_ARG)
  else
    let src := current_pid s in
    for_range 1 PROCESS_MAX_COUNT (broadcast_one msg len src) (s, 0).

(** ** Receiving *)

(** [kmemcpy(buf, data, n)] *)
Fixpoint copy_data (n : nat) (k : Z) (d : Z -> Z) (m : mem) (buf : Z) : mem :=
  match n with
  | O => m
  | S n' => copy_data n' (k + 1) d (store8 m (buf + k) (d k)) buf
  end.

(** The head of queue [i] is unlinked, copied out and freed. *)
Definition take_message (i buf max_len src_ptr : Z) s : msgs W * Z :=
  let q := msg_queues s i in
  let p := q_head q in
  let x := message_pool s p in
  let s := set_queue i (set_links (m_next x) (if m_next x =? NULL then NULL else q_tail q)
                          (q_count q - 1) q) s in
  let n := Z.min (m_length x) max_len in
  let m := copy_data (Z.to_nat n) 0 (m_data x) (mg_mem s) buf in
  let m := if src_ptr =? NULL then m else store32 m src_ptr (src_pid x) in
  (count_received (msg_free p (with_mg_mem m s)), n).

(** A section of [msg_receive_internal] from the test of its waiting loop on. *)
Definition recv_section (i buf max_len src_ptr : Z) (blocking : bool) s : msgs W * recv_result :=
  if q_count (msg_queues s i) =? 0 then
    if negb blocking then (s, MDone MSG_ERR_WOULDBLOCK)
    else (msg_block_receiver i s, MBlocked)
  else let '(s, n) := take_message i buf max_len src_ptr s in (s, MDone n).

Definition msg_receive_internal (buf max_len src_ptr : Z) (blocking : bool) s
  : msgs W * recv_result :=
  if buf =? NULL then (s, MDone MSG_ERR_INVALID_ARG)
  else
    let c := po_current (mg_procs s) in
    if c =? NULL then (s, MDone MSG_ERR_NO_PROCESS)
    else
      match msg_get_queue (po_pid c (mg_procs s)) with
      | None => (s, MDone MSG_ERR_NO_PROCESS)
      | Some i => recv_section i buf max_len src_ptr blocking s
      end.

Definition msg_receive (buf max_len : Z) s := msg_receive_internal buf max_len NULL true s.
Definition msg_receive_from (buf max_len src_ptr : Z) s :=
  msg_receive_internal buf max_len src_ptr true s.
Definition msg_try_receive (buf max_len : Z) s := msg_receive_internal buf max_len NULL false s.
Definition msg_try_receive_from (buf max_len src_ptr : Z) s :=
  msg_receive_internal buf max_len src_ptr false s.

Definition msg_pending s : Z :=
  let c := po_current (mg_procs s) in
  if c =? NULL then 0
  else match msg_get_queue (po_pid c (mg_procs s)) with
       | None => 0
       | Some i => q_count (msg_queues s i)
       end.

Definition msg_peek (buf max_len : Z) s : msgs W * Z :=
  if buf =? NULL then (s, MSG_ERR_INVALID_ARG)
  else
    let c := po_current (mg_procs s) in
    if c =? NULL then (s, MSG_ERR_NO_PROCESS)
    else match msg_get_queue (po_pid c (mg_procs s)) with
         | None => (s, MSG_ERR_NO_PROCESS)
         | Some i =>
             if q_count (msg_queues s i) =? 0 then (s, MSG_ERR_QUEUE_EMPTY)
             else
               let x := message_pool s (q_head (msg_queues s i)) in
               let n := Z.min (m_length x) max_len in
               (with_mg_mem (copy_data (Z.to_nat n) 0 (m_data x) (mg_mem s) buf) s, n)
         end.
End Message.
