(* ===== verification/MessageProps.v ===== *)
(** * Theorems of message passing (kernel/ipc/message.c)

    The linked lists in the message pool refine one mailbox per process: a list of
    letters in the order in which they were sent. No message slot is ever lost. *)
From S2P Require Import Prelude Memory PageAlloc Pmm Ring Process ProcessProps Message.

(** ** Lists in the pool *)

Section Pool.
Implicit Types pool : Z -> message.

Fixpoint mseg pool (p : Z) (l : list Z) (q : Z) : Prop :=
  match l with
  | [] => p = q
  | x :: r => p = x /\ mseg pool (m_next (pool x)) r q
  end.

Lemma mseg_ext pool pool' p l q :
  (forall x, x ∈ l -> m_next (pool' x) = m_next (pool x)) -> mseg pool p l q -> mseg pool' p l q.
Proof.
  revert p. induction l as [|x l IH]; intros p He Hs; simpl in *; [done|].
  destruct Hs as [-> Hs]. split; [done|]. rewrite He by left. apply IH; [|done].
  intros y Hy. apply He. by right.
Qed.

Lemma mseg_app pool p l1 l2 q : mseg pool p (l1 ++ l2) q <-> exists r, mseg pool p l1 r /\ mseg pool r l2 q.
Proof.
  revert p. induction l1 as [|x l1 IH]; intros p; simpl.
  - split; [eauto|]. by intros (r & -> & ?).
  - rewrite IH. naive_solver.
Qed.

(** The content of a message: its sender and its payload. *)
Definition letter (x : message) : Z * list Z := (src_pid x, data_list (Z.to_nat (m_length x)) 0 (m_data x)).

(** The letters along a list of [n] messages from [p]. *)
Fixpoint walk (n : nat) pool (p : Z) : list (Z * list Z) :=
  match n with O => [] | S n' => letter (pool p) :: walk n' pool (m_next (pool p)) end.

Lemma walk_mseg pool p l q : mseg pool p l q -> walk (length l) pool p = map (fun x => letter (pool x)) l.
Proof.
  revert p. induction l as [|x l IH]; intros p Hs; simpl in *; [done|].
  destruct Hs as [-> Hs]. f_equal. by apply IH.
Qed.

Lemma fill_data_other n k m a d j : j < k \/ k + Z.of_nat n <= j -> fill_data n k m a d j = d j.
Proof.
  revert k d. induction n as [|n IH]; intros k d Hj; cbn [fill_data]; [done|].
  rewrite IH by lia. apply upd_other. lia.
Qed.

Lemma fill_data_list n k m a d : data_list n k (fill_data n k m a d) = bytes_at m (a + k) n.
Proof.
  revert k d. induction n as [|n IH]; intros k d; [done|]. cbn [data_list fill_data bytes_at]. f_equal.
  - rewrite fill_data_other by lia. apply upd_same.
  - rewrite IH. f_equal. lia.
Qed.

Lemma copy_data_spec n k d m buf :
  Forall (fun b => 0 <= b < 256) (data_list n k d) ->
  bytes_at (copy_data n k d m buf) (buf + k) n = data_list n k d /\
  (forall x, x < buf + k \/ buf + k + Z.of_nat n <= x -> copy_data n k d m buf x = m x).
Proof.
  revert k m. induction n as [|n IH]; intros k m Hb; [done|]. cbn [data_list] in Hb.
  apply Forall_cons in Hb as [Hb1 Hb]. cbn [copy_data data_list bytes_at].
  destruct (IH (k + 1) (store8 m (buf + k) (d k)) Hb) as [E1 E2].
  replace (buf + (k + 1)) with (buf + k + 1) in * by lia. split.
  - rewrite E1. f_equal. unfold load8. rewrite E2 by lia. rewrite store8_same, u8_id, u8_id; rewrite ?u8_id; lia.
  - intros x Hx. rewrite E2 by lia. apply store8_other. lia.
Qed.

End Pool.

Section Props.
Context {W : Type} `{ProcessOps W}.
Implicit Types s : msgs W.

(** The mailbox of queue [i]. *)
Definition box s (i : Z) : list (Z * list Z) :=
  walk (Z.to_nat (q_count (msg_queues s i))) (message_pool s) (q_head (msg_queues s i)).

Definition qidx (i : Z) : Prop := 0 <= i < PROCESS_MAX_COUNT.

(** [F] is the free list, [Q i] the queue of [i], [X] the messages in neither. *)
Record rep s (F : list Z) (Q : Z -> list Z) (X : list Z) : Prop := {
  r_free : mseg (message_pool s) (free_messages s) F NULL;
  r_queue : forall i, qidx i -> mseg (message_pool s) (q_head (msg_queues s i)) (Q i) NULL;
  r_tail : forall i, qidx i -> q_tail (msg_queues s i) = default NULL (last (Q i));
  r_count : forall i, qidx i -> q_count (msg_queues s i) = Z.of_nat (length (Q i));
  r_size : forall i, qidx i -> Z.of_nat (length (Q i)) <= MSG_QUEUE_SIZE;
  r_nodup : NoDup (F ++ X) /\ forall i, qidx i -> NoDup (Q i);
  r_apart : (forall i x, qidx i -> x ∈ Q i -> x ∉ F ++ X) /\
    forall i j x, qidx i -> qidx j -> x ∈ Q i -> x ∈ Q j -> i = j;
  r_range : (forall x, x ∈ F ++ X -> 1 <= x <= MSG_POOL_SIZE) /\
    forall i x, qidx i -> x ∈ Q i -> 1 <= x <= MSG_POOL_SIZE;
  r_cover : forall x, 1 <= x <= MSG_POOL_SIZE -> x ∈ F ++ X \/ exists i, qidx i /\ x ∈ Q i;
  r_data : forall i x, qidx i -> x ∈ Q i -> 0 <= m_length (message_pool s x) <= MSG_MAX_SIZE /\
    Forall (fun b => 0 <= b < 256) (snd (letter (message_pool s x)));
}.

(** The pool is intact: every slot is free or in exactly one queue. *)
Definition intact s : Prop := exists F Q, rep s F Q [].

Lemma rep_box s F Q X i : rep s F Q X -> qidx i -> box s i = map (fun x => letter (message_pool s x)) (Q i).
Proof.
  intros Hr Hi. unfold box. rewrite (r_count _ _ _ _ Hr i Hi), Nat2Z.id.
  eapply walk_mseg. by apply (r_queue _ _ _ _ Hr).
Qed.

Lemma rep_box_length s F Q X i : rep s F Q X -> qidx i -> Z.of_nat (length (box s i)) = q_count (msg_queues s i).
Proof. intros Hr Hi. rewrite (rep_box _ _ _ _ _ Hr Hi), length_map. symmetry. by apply (r_count _ _ _ _ Hr). Qed.

(** Changes of waiters, counters, processes and user memory. *)
Definition same_msgs s s' : Prop :=
  message_pool s' = message_pool s /\ free_messages s' = free_messages s /\
  forall i, q_head (msg_queues s' i) = q_head (msg_queues s i) /\
    q_tail (msg_queues s' i) = q_tail (msg_queues s i) /\ q_count (msg_queues s' i) = q_count (msg_queues s i).

Lemma same_msgs_rep s s' F Q X : same_msgs s s' -> rep s F Q X -> rep s' F Q X.
Proof.
  intros (E1 & E2 & E3) [R1 R2 R3 R4 R5 R6 R7 R8 R9 R10].
  split; rewrite ?E1, ?E2; auto;
    intros i Hi; destruct (E3 i) as (X1 & X2 & X3); rewrite ?X1, ?X2, ?X3; auto.
Qed.
Lemma same_msgs_box s s' i : same_msgs s s' -> box s' i = box s i.
Proof. intros (E1 & E2 & E3). unfold box. destruct (E3 i) as (-> & _ & ->). by rewrite E1. Qed.

Lemma same_msgs_wait s i wq (w : W) :
  let q := msg_queues s i in
  same_msgs s (with_mg_procs w (set_queue i (mk_queue (q_head q) (q_tail q) (q_count q) (owner_pid q) wq) s)).
Proof.
  split; [done|]. split; [done|]. intros j. simpl. destruct (decide (j = i)) as [->|].
  - by rewrite upd_same.
  - by rewrite upd_other.
Qed.
Lemma same_msgs_block i s : same_msgs s (msg_block_receiver i s).
Proof. unfold msg_block_receiver. destruct (wait_block _ _). apply same_msgs_wait. Qed.
Lemma same_msgs_wake i s : same_msgs s (msg_wake_receiver i s).
Proof. unfold msg_wake_receiver. destruct (wait_wake _ _). apply same_msgs_wait. Qed.

(** ** Allocation *)

Lemma alloc_ok s F Q :
  rep s F Q [] ->
  match F with
  | [] => msg_alloc s = (s, NULL)
  | p :: F' => exists s', msg_alloc s = (s', p) /\ p <> NULL /\ rep s' F' Q [p] /\
      (forall i, qidx i -> box s' i = box s i) /\ mg_mem s' = mg_mem s /\ mg_procs s' = mg_procs s /\
      msg_queues s' = msg_queues s
  end.
Proof.
  intros Hr. pose proof Hr as [R1 R2 R3 R4 R5 [R6 R6'] [R7 R7'] [R8 R8'] R9 R10]. unfold msg_alloc.
  destruct F as [|p F]; simpl in R1.
  - rewrite R1. done.
  - destruct R1 as [-> R1]. rewrite app_nil_r in *.
    assert (Hp : 1 <= p <= MSG_POOL_SIZE) by (apply R8; left).
    unfold NULL. rewrite (proj2 (Z.eqb_neq p 0)) by lia. eexists. split; [done|]. split; [lia|].
    apply NoDup_cons in R6 as [Hpf R6].
    assert (Hq : forall i x, qidx i -> x ∈ Q i -> x <> p) by (intros i x Hi Hx ->; apply (R7 i p Hi Hx); left).
    assert (Hr' : rep (with_pool (upd (message_pool s) p (set_next 0 (message_pool s p)))
      (m_next (message_pool s p)) s) F Q [p]).
    { split; simpl; auto.
      - eapply mseg_ext; [|exact R1]. intros x Hx. rewrite upd_other; [done|]. by intros ->.
      - intros i Hi. eapply mseg_ext; [|by apply R2]. intros x Hx. rewrite upd_other; [done|]. by eapply Hq.
      - split; [|done]. apply NoDup_app. split; [done|]. split; [set_solver|apply NoDup_singleton].
      - split; [|done]. intros i x Hi Hx. specialize (R7 i x Hi Hx). set_solver.
      - split; [|done]. intros x Hx. apply R8. set_solver.
      - intros x Hx. destruct (R9 x Hx); [left; set_solver|by right].
      - intros i x Hi Hx. rewrite upd_other by (by eapply Hq). by apply (R10 i). }
    split; [exact Hr'|]. split; [|done]. intros i Hi.
    rewrite (rep_box _ _ _ _ _ Hr' Hi), (rep_box _ _ _ _ _ Hr Hi). simpl.
    apply map_ext_in. intros x Hx. rewrite upd_other; [done|]. eapply Hq; [exact Hi|]. by apply list_elem_of_In.
Qed.

(** ** Appending to a queue *)

(** The message [p], filled in with letter [lt], is linked behind the tail of queue [i]. *)
Lemma append_rep s s' F Q i p lt :
  rep s F Q [p] -> qidx i -> Z.of_nat (length (Q i)) < MSG_QUEUE_SIZE -> p <> NULL ->
  free_messages s' = free_messages s ->
  (forall j, j <> i -> msg_queues s' j = msg_queues s j) ->
  (forall x, x <> p -> letter (message_pool s' x) = letter (message_pool s x) /\
     m_length (message_pool s' x) = m_length (message_pool s x)) ->
  (forall x, x <> p -> (forall l t, Q i = l ++ [t] -> x <> t) -> m_next (message_pool s' x) = m_next (message_pool s x)) ->
  (forall l t, Q i = l ++ [t] -> m_next (message_pool s' t) = p) ->
  m_next (message_pool s' p) = NULL -> letter (message_pool s' p) = lt ->
  0 <= m_length (message_pool s' p) <= MSG_MAX_SIZE -> Forall (fun b => 0 <= b < 256) (snd lt) ->
  q_head (msg_queues s' i) = (match Q i with [] => p | _ => q_head (msg_queues s i) end) ->
  q_tail (msg_queues s' i) = p -> q_count (msg_queues s' i) = q_count (msg_queues s i) + 1 ->
  rep s' F (upd Q i (Q i ++ [p])) [] /\ box s' i = box s i ++ [lt] /\
  (forall j, qidx j -> j <> i -> box s' j = box s j).
Proof.
  intros Hr Hi Hlen Hp0 Efree Eq Elet Enext Elink Epn Epl Eplen Edat Ehd Etl Ecnt.
  pose proof Hr as [R1 R2 R3 R4 R5 [R6 R6'] [R7 R7'] [R8 R8'] R9 R10].
  apply NoDup_app in R6 as (RF & Rp & _).
  assert (HpF : p ∉ F) by (intros Hx; apply (Rp p Hx); left).
  assert (HpQ : forall j x, qidx j -> x ∈ Q j -> x <> p) by (intros j x Hj Hx ->; apply (R7 j p Hj Hx); set_solver).
  assert (HtF : forall l t, Q i = l ++ [t] -> t ∉ F).
  { intros l t E Hx. apply (R7 i t Hi); [rewrite E; set_solver|set_solver]. }
  assert (HtQ : forall l t j x, Q i = l ++ [t] -> qidx j -> j <> i -> x ∈ Q j -> x <> t).
  { intros l t j x E Hj Hne Hx ->. apply Hne. apply (R7' j i t); auto. rewrite E. set_solver. }
  assert (Hsame : forall j, qidx j -> j <> i -> mseg (message_pool s') (q_head (msg_queues s' j)) (Q j) NULL).
  { intros j Hj Hne. rewrite Eq by done. eapply mseg_ext; [|by apply R2]. intros x Hx.
    apply Enext; [by eapply HpQ|]. intros l t E. by eapply HtQ. }
  assert (Hi' : mseg (message_pool s') (q_head (msg_queues s' i)) (Q i ++ [p]) NULL).
  { rewrite Ehd. destruct (Q i) as [|y r] eqn:EQ using rev_ind; [simpl; by rewrite Epn|]. clear IHr.
    replace (match r ++ [y] with [] => p | _ => q_head (msg_queues s i) end) with (q_head (msg_queues s i)) by (by destruct r).
    pose proof (R2 i Hi) as Hs. rewrite EQ in Hs. apply mseg_app in Hs as (q & Hs1 & -> & _).
    apply mseg_app. exists p. split; [|simpl; by rewrite Epn]. apply mseg_app. exists y. split.
    - eapply mseg_ext; [|exact Hs1]. intros x Hx. apply Enext.
      + apply (HpQ i x Hi). rewrite EQ. set_solver.
      + intros l t E. apply app_inj_tail in E as [<- <-]. intros ->.
        pose proof (R6' i Hi) as Hnd. rewrite EQ in Hnd. apply NoDup_app in Hnd as (_ & Hnd & _).
        apply (Hnd y Hx). left.
    - simpl. split; [done|]. by apply (Elink r y). }
  assert (Hr' : rep s' F (upd Q i (Q i ++ [p])) []).
  { split.
    - rewrite Efree. eapply mseg_ext; [|exact R1]. intros x Hx. apply Enext; [by intros ->|].
      intros l t E ->. by apply (HtF l t E).
    - intros j Hj. destruct (decide (j = i)) as [->|]; [by rewrite upd_same|]. rewrite upd_other by done. by apply Hsame.
    - intros j Hj. destruct (decide (j = i)) as [->|]; [rewrite upd_same, last_snoc; done|].
      rewrite upd_other, Eq by done. auto.
    - intros j Hj. destruct (decide (j = i)) as [->|]; [|rewrite upd_other, Eq by done; auto].
      rewrite upd_same, length_app, Ecnt, R4 by done. simpl. lia.
    - intros j Hj. destruct (decide (j = i)) as [->|]; [|rewrite upd_other by done; auto].
      rewrite upd_same, length_app. simpl. lia.
    - rewrite app_nil_r. split; [done|]. intros j Hj. destruct (decide (j = i)) as [->|]; [|rewrite upd_other by done; auto].
      rewrite upd_same. apply NoDup_app. split; [auto|]. split; [|apply NoDup_singleton].
      intros x Hx Hxp%list_elem_of_singleton. by apply (HpQ i x Hi Hx).
    - rewrite app_nil_r. split.
      + intros j x Hj. destruct (decide (j = i)) as [->|]; [rewrite upd_same|rewrite upd_other by done].
        * intros [Hx|Hx]%elem_of_app; [specialize (R7 i x Hi Hx); set_solver|]. apply list_elem_of_singleton in Hx. by subst.
        * intros Hx. specialize (R7 j x Hj Hx). set_solver.
      + intros j k x Hj Hk. destruct (decide (j = i)) as [->|Hji], (decide (k = i)) as [->|Hki];
          rewrite ?upd_same, ?upd_other by done; [done| | |by apply R7'].
        * intros [Hx|Hx]%elem_of_app Hx'; [by apply (R7' i k x)|]. apply list_elem_of_singleton in Hx.
          by destruct (HpQ k x Hk Hx').
        * intros Hx' [Hx|Hx]%elem_of_app; [by apply (R7' j i x)|]. apply list_elem_of_singleton in Hx.
          by destruct (HpQ j x Hj Hx').
    - rewrite app_nil_r. split; [intros x Hx; apply R8; set_solver|]. intros j x Hj.
      destruct (decide (j = i)) as [->|]; [rewrite upd_same|rewrite upd_other by done; by apply R8'].
      intros [Hx|Hx]%elem_of_app; [by apply (R8' i)|]. apply R8. set_solver.
    - rewrite app_nil_r. intros x Hx. destruct (R9 x Hx) as [[HF|Hxp]%elem_of_app|(j & Hj & HQ)].
      + by left.
      + right. exists i. split; [done|]. rewrite upd_same. set_solver.
      + right. exists j. split; [done|]. destruct (decide (j = i)) as [->|]; [rewrite upd_same; set_solver|by rewrite upd_other].
    - intros j x Hj Hx. destruct (decide (x = p)) as [->|Hne].
      + split; [done|]. by rewrite Epl.
      + destruct (Elet x Hne) as [-> ->]. apply (R10 j x Hj). destruct (decide (j = i)) as [->|].
        * rewrite upd_same in Hx. apply elem_of_app in Hx as [|Hx]; [done|]. by apply list_elem_of_singleton in Hx.
        * by rewrite upd_other in Hx. }
  split; [done|]. split.
  - rewrite (rep_box _ _ _ _ _ Hr' Hi), (rep_box _ _ _ _ _ Hr Hi), upd_same, map_app. f_equal.
    + apply map_ext_in. intros x Hx%list_elem_of_In. apply Elet. by eapply HpQ.
    + simpl. by rewrite Epl.
  - intros j Hj Hne. rewrite (rep_box _ _ _ _ _ Hr' Hj), (rep_box _ _ _ _ _ Hr Hj), upd_other by done.
    apply map_ext_in. intros x Hx%list_elem_of_In. apply Elet. by eapply HpQ.
Qed.

Lemma deliver_ok s F Q i p src dest msg len flags :
  rep s F Q [p] -> qidx i -> Z.of_nat (length (Q i)) < MSG_QUEUE_SIZE -> p <> NULL ->
  0 <= len <= MSG_MAX_SIZE ->
  let s' := deliver i p src dest msg len flags s in
  (exists Q', rep s' F Q' []) /\ box s' i = box s i ++ [(src, bytes_at (mg_mem s) msg (Z.to_nat len))] /\
  (forall j, qidx j -> j <> i -> box s' j = box s j) /\ mg_mem s' = mg_mem s.
Proof.
  intros Hr Hi Hlen Hp Hl. unfold deliver. cbv zeta.
  set (x := mk_message src dest flags _ len _ _ NULL).
  set (s1 := next_ids _). set (s2 := if _ =? NULL then _ else _).
  assert (Hx : letter x = (src, bytes_at (mg_mem s) msg (Z.to_nat len))).
  { unfold x, letter. simpl. by rewrite fill_data_list, Z.add_0_r. }
  assert (Htail : q_tail (msg_queues s1 i) = default NULL (last (Q i))) by by apply (r_tail _ _ _ _ Hr).
  assert (Hr2 : rep s2 F (upd Q i (Q i ++ [p])) [] /\
    box s2 i = box s i ++ [(src, bytes_at (mg_mem s) msg (Z.to_nat len))] /\
    (forall j, qidx j -> j <> i -> box s2 j = box s j)).
  { assert (HpQ : p ∉ Q i) by (intros Hin; apply (proj1 (r_apart _ _ _ _ Hr) i p Hi Hin); set_solver).
    assert (Hbytes : Forall (fun b => 0 <= b < 256) (bytes_at (mg_mem s) msg (Z.to_nat len))) by apply bytes_at_range.
    assert (Hcase : Q i = [] \/ exists r y, Q i = r ++ [y])
      by (destruct (Q i) as [|y r] using rev_ind; [by left|right; eauto]).
    unfold s2. rewrite Htail. destruct Hcase as [EQ|(r & y & EQ)].
    - replace (default NULL (last (Q i))) with NULL by (by rewrite EQ). rewrite Z.eqb_refl.
      apply (append_rep s _ F Q i p); simpl; rewrite ?upd_same; auto; try done.
      + intros j Hj. by apply upd_other.
      + intros y Hy. by rewrite upd_other.
      + intros y Hy _. by rewrite upd_other.
      + intros l t E. rewrite EQ in E. by destruct l.
      + by rewrite EQ.
    - replace (default NULL (last (Q i))) with y by (by rewrite EQ, last_snoc).
      assert (Hy : y <> p) by (intros ->; apply HpQ; rewrite EQ; set_solver).
      assert (Hy0 : y <> NULL).
      { pose proof (proj2 (r_range _ _ _ _ Hr) i y Hi) as Hy0. rewrite EQ in Hy0. specialize (Hy0 ltac:(set_solver)).
        unfold NULL. lia. }
      rewrite (proj2 (Z.eqb_neq y NULL)) by done.
      assert (Ht : forall l t, Q i = l ++ [t] -> t = y) by (intros l t E; rewrite EQ in E; by apply app_inj_tail in E as [_ ->]).
      assert (Ep : forall z, z <> y -> upd (upd (message_pool s) p x) y (set_next p (upd (message_pool s) p x y)) z
        = upd (message_pool s) p x z) by (intros z Hz; by apply upd_other).
      apply (append_rep s _ F Q i p); simpl; rewrite ?(Ep p), ?upd_same; auto; try done.
      + intros j Hj. by apply upd_other.
      + intros z Hz. destruct (decide (z = y)) as [->|].
        * rewrite upd_same. simpl. by rewrite upd_other.
        * by rewrite !upd_other.
      + intros z Hz Hzt. rewrite !upd_other; [done|done|]. by apply (Hzt r).
      + intros l t E. rewrite (Ht l t E), upd_same. done.
      + rewrite EQ. by destruct r. }
  destruct Hr2 as (R2 & B2 & O2).
  assert (Hs : same_msgs s2 (msg_wake_receiver i (count_sent len s2))).
  { assert (same_msgs s2 (count_sent len s2)) as (A1 & A2 & A3) by done.
    destruct (same_msgs_wake i (count_sent len s2)) as (B1 & B3 & B4). split; [congruence|]. split; [congruence|].
    intros j. destruct (A3 j) as (? & ? & ?), (B4 j) as (? & ? & ?). split; [congruence|]. split; congruence. }
  split; [eexists; by eapply same_msgs_rep|]. rewrite (same_msgs_box _ _ i Hs). split; [done|].
  split; [intros j Hj Hne; rewrite (same_msgs_box _ _ j Hs); auto|].
  unfold msg_wake_receiver. destruct (wait_wake _ _). simpl. unfold s2. by case_if.
Qed.

(** ** Removing from a queue *)

(** [data] is at [buf] and [src] at [src_ptr], unless the latter is NULL. A sender's
    number written over the buffer would spoil the data. *)
Definition delivered (m : mem) (buf src_ptr src : Z) (data : list Z) : Prop :=
  (src_ptr = NULL \/ src_ptr + 4 <= buf \/ buf + Z.of_nat (length data) <= src_ptr ->
     bytes_at m buf (length data) = data) /\
  (src_ptr <> NULL -> 0 <= src < 2 ^ 32 -> load32 m src_ptr = src).

Lemma copied_out m buf src_ptr src n :
  delivered (if src_ptr =? NULL then m else store32 m src_ptr src) buf src_ptr src (bytes_at m buf n).
Proof.
  unfold delivered. rewrite length_bytes_at. destruct (src_ptr =? NULL) eqn:E; zbool; [done|]. split.
  - intros [|Hd]; [done|]. apply bytes_at_agree. intros x Hx. apply store_other. simpl. lia.
  - intros _ Hs. by apply load32_store32.
Qed.

Lemma take_message_ok s F Q i buf max_len src_ptr :
  rep s F Q [] -> qidx i -> Q i <> [] -> 0 <= max_len ->
  let '(s', n) := take_message i buf max_len src_ptr s in
  exists src data rest, box s i = (src, data) :: rest /\
    (exists F' Q', rep s' F' Q' []) /\ box s' i = rest /\
    (forall j, qidx j -> j <> i -> box s' j = box s j) /\
    n = Z.min (Z.of_nat (length data)) max_len /\
    delivered (mg_mem s') buf src_ptr src (take (Z.to_nat n) data).
Proof.
  intros Hr Hi Hne Hmax. destruct (Q i) as [|p r] eqn:EQ; [done|]. clear Hne.
  pose proof Hr as [R1 R2 R3 R4 R5 [R6 R6'] [R7 R7'] [R8 R8'] R9 R10]. rewrite app_nil_r in *.
  pose proof (R2 i Hi) as Hs. rewrite EQ in Hs. destruct Hs as [Ehd Hs].
  assert (HpQ : p ∈ Q i) by (rewrite EQ; left).
  assert (Hp : 1 <= p <= MSG_POOL_SIZE) by by apply (R8' i).
  destruct (R10 i p Hi HpQ) as [Hlen Hbytes].
  unfold take_message. rewrite Ehd. set (x := message_pool s p) in *. cbv zeta.
  set (n := Z.min (m_length x) max_len). set (m := if src_ptr =? NULL then _ else _).
  set (q' := set_links _ _ _ _). set (s1 := count_received _).
  assert (Hp0 : p <> 0) by lia.
  assert (Epool : message_pool s1 = upd (message_pool s) p (set_next (free_messages s) zero_message)).
  { unfold s1, msg_free, NULL. by rewrite (proj2 (Z.eqb_neq p 0)). }
  assert (Efree : free_messages s1 = p) by (unfold s1, msg_free, NULL; by rewrite (proj2 (Z.eqb_neq p 0))).
  assert (Equ : msg_queues s1 = upd (msg_queues s) i q') by (unfold s1, msg_free, NULL; by rewrite (proj2 (Z.eqb_neq p 0))).
  assert (Emem : mg_mem s1 = m) by (unfold s1, msg_free, NULL; by rewrite (proj2 (Z.eqb_neq p 0))).
  pose proof (R6' i Hi) as Hnd. rewrite EQ in Hnd. apply NoDup_cons in Hnd as [Hpr Hnd].
  assert (Hother : forall j y, qidx j -> y ∈ upd Q i r j -> y ∈ Q j /\ y <> p).
  { intros j y Hj Hy. destruct (decide (j = i)) as [->|Hj'].
    - rewrite upd_same in Hy. rewrite EQ. split; [set_solver|]. by intros ->.
    - rewrite upd_other in Hy by done. split; [done|]. intros ->. by apply Hj', (R7' j i p). }
  assert (Hr' : rep s1 (p :: F) (upd Q i r) []).
  { split; rewrite ?Epool, ?Efree, ?Equ, ?app_nil_r.
    - simpl. split; [done|]. rewrite upd_same. simpl. eapply mseg_ext; [|exact R1].
      intros y Hy. rewrite upd_other; [done|]. intros ->. by apply (R7 i p).
    - intros j Hj. destruct (decide (j = i)) as [->|Hj'].
      + rewrite !upd_same. simpl. eapply mseg_ext; [|exact Hs]. intros y Hy. rewrite upd_other; [done|]. by intros ->.
      + rewrite !upd_other by done. eapply mseg_ext; [|by apply R2]. intros y Hy. rewrite upd_other; [done|].
        intros ->. by apply Hj', (R7' j i p).
    - intros j Hj. destruct (decide (j = i)) as [->|Hj']; [|rewrite !upd_other by done; auto].
      rewrite !upd_same. simpl. rewrite (R3 i Hi), EQ. destruct r as [|y r]; simpl in Hs.
      + by rewrite Hs.
      + destruct Hs as [-> _]. rewrite (proj2 (Z.eqb_neq y NULL)); [done|].
        assert (1 <= y <= MSG_POOL_SIZE) by (apply (R8' i); [done|rewrite EQ; set_solver]). unfold NULL. lia.
    - intros j Hj. destruct (decide (j = i)) as [->|Hj']; [|rewrite !upd_other by done; auto].
      rewrite !upd_same. simpl. rewrite (R4 i Hi), EQ. simpl. lia.
    - intros j Hj. destruct (decide (j = i)) as [->|Hj']; [|rewrite !upd_other by done; auto].
      rewrite !upd_same. specialize (R5 i Hi). rewrite EQ in R5. simpl in R5. lia.
    - split; [apply NoDup_cons; split; [by apply (R7 i)|done]|]. intros j Hj.
      destruct (decide (j = i)) as [->|Hj']; [by rewrite upd_same|by rewrite upd_other; auto].
    - split.
      + intros j y Hj [Hy Hyp]%Hother; [|done]. specialize (R7 j y Hj Hy). set_solver.
      + intros j k y Hj Hk [Hy _]%Hother [Hy' _]%Hother; [|done..]. by apply (R7' j k y).
    - split; [intros y Hy; apply elem_of_cons in Hy as [->|Hy]; auto|].
      intros j y Hj [Hy _]%Hother; [|done]. by apply (R8' j).
    - intros y Hy. destruct (R9 y Hy) as [|(j & Hj & HQ)]; [left; by right|].
      destruct (decide (y = p)) as [->|Hyp]; [left; left|right]. exists j. split; [done|].
      destruct (decide (j = i)) as [->|]; [rewrite upd_same; rewrite EQ in HQ; set_solver|by rewrite upd_other].
    - intros j y Hj [Hy Hyp]%Hother; [|done]. rewrite upd_other by done. by apply (R10 j). }
  exists (src_pid x), (snd (letter x)), (map (fun y => letter (message_pool s y)) r).
  split; [rewrite (rep_box _ _ _ _ _ Hr Hi), EQ; done|]. split; [by eexists _, _|].
  assert (Hlet : forall l, p ∉ l -> map (fun y => letter (message_pool s1 y)) l = map (fun y => letter (message_pool s y)) l).
  { intros l Hl. apply map_ext_in. intros y Hy%list_elem_of_In. rewrite Epool, upd_other; [done|]. by intros ->. }
  split; [rewrite (rep_box _ _ _ _ _ Hr' Hi), upd_same; by apply Hlet|]. split; [|split].
  - intros j Hj Hj'. rewrite (rep_box _ _ _ _ _ Hr' Hj), (rep_box _ _ _ _ _ Hr Hj), upd_other by done.
    apply Hlet. intros Hx. by apply Hj', (R7' j i p).
  - simpl. rewrite length_data_list. unfold n. lia.
  - rewrite Emem. simpl.
    pose proof (data_list_take (Z.to_nat (m_length x)) 0 (m_data x) (Z.to_nat n) ltac:(lia)) as Etake.
    destruct (copy_data_spec (Z.to_nat n) 0 (m_data x) (mg_mem s) buf) as [E _].
    { rewrite Etake. apply Forall_take. exact Hbytes. }
    rewrite Z.add_0_r in E. rewrite <- Etake, <- E. apply copied_out.
Qed.

(** ** Sending *)

(** The status [msg_send_flags] returns. *)
Definition send_status s (dest msg len : Z) : Z :=
  if msg =? NULL then MSG_ERR_INVALID_ARG
  else if MSG_MAX_SIZE <? len then MSG_ERR_TOO_LARGE
  else if po_by_pid dest (mg_procs s) =? NULL then MSG_ERR_INVALID_PID
  else if PROCESS_MAX_COUNT <=? dest then MSG_ERR_INVALID_PID
  else if MSG_QUEUE_SIZE <=? Z.of_nat (length (box s dest)) then MSG_ERR_QUEUE_FULL
  else if free_messages s =? NULL then MSG_ERR_NO_MEMORY
  else MSG_SUCCESS.

Lemma send_ok s dest msg len flags :
  intact s -> 0 <= dest -> 0 <= len ->
  let '(s', r) := msg_send_flags dest msg len flags s in
  r = send_status s dest msg len /\ intact s' /\
  if r =? MSG_SUCCESS then
    qidx dest /\ mg_mem s' = mg_mem s /\
    box s' dest = box s dest ++ [(current_pid s, bytes_at (mg_mem s) msg (Z.to_nat len))] /\
    (forall j, qidx j -> j <> dest -> box s' j = box s j)
  else s' = s.
Proof.
  intros (F & Q & Hr) Hd Hl. unfold msg_send_flags, send_status.
  destruct (msg =? NULL); [split; [done|]; split; [by exists F, Q|done]|].
  destruct (MSG_MAX_SIZE <? len) eqn:El; [split; [done|]; split; [by exists F, Q|done]|].
  destruct (po_by_pid dest (mg_procs s) =? NULL); [split; [done|]; split; [by exists F, Q|done]|].
  cbv zeta. unfold msg_get_queue.
  destruct (PROCESS_MAX_COUNT <=? dest) eqn:Ed; [split; [done|]; split; [by exists F, Q|done]|]. zbool.
  assert (Hi : qidx dest) by (split; lia).
  rewrite (rep_box_length _ _ _ _ _ Hr Hi).
  destruct (MSG_QUEUE_SIZE <=? q_count (msg_queues s dest)) eqn:Eq; [split; [done|]; split; [by exists F, Q|done]|]. zbool.
  pose proof (alloc_ok s F Q Hr) as Ha. destruct F as [|p F].
  - rewrite Ha. pose proof (r_free _ _ _ _ Hr) as Hf. simpl in Hf. rewrite Hf.
    split; [done|]. split; [by exists [], Q|done].
  - destruct Ha as (s1 & -> & Hp & R1 & B1 & M1 & W1 & Q1).
    assert (Hfree : free_messages s = p) by (pose proof (r_free _ _ _ _ Hr) as Hf; by destruct Hf).
    rewrite Hfree, (proj2 (Z.eqb_neq p NULL)) by done.
    assert (Hlen : Z.of_nat (length (Q dest)) < MSG_QUEUE_SIZE) by (rewrite <- (r_count _ _ _ _ Hr dest Hi); lia).
    destruct (deliver_ok s1 F Q dest p (current_pid s) dest msg len flags R1 Hi Hlen Hp ltac:(lia))
      as ((Q' & R2) & B2 & O2 & M2). cbv zeta in *.
    split; [done|]. split; [by exists F, Q'|]. rewrite Z.eqb_refl. split; [done|]. split; [congruence|].
    split; [rewrite B2, B1, M1 by done; done|]. intros j Hj Hne. rewrite O2, B1 by done. done.
Qed.

(** ** Receiving *)

Lemma recv_section_ok s i buf max_len src_ptr blocking :
  intact s -> qidx i -> 0 <= max_len ->
  let '(s', r) := recv_section i buf max_len src_ptr blocking s in
  intact s' /\ (forall j, qidx j -> j <> i -> box s' j = box s j) /\
  match box s i with
  | [] => r = (if blocking then MBlocked else MDone MSG_ERR_WOULDBLOCK) /\ box s' i = []
  | (src, data) :: rest =>
      let n := Z.min (Z.of_nat (length data)) max_len in
      r = MDone n /\ box s' i = rest /\
      delivered (mg_mem s') buf src_ptr src (take (Z.to_nat n) data)
  end.
Proof.
  intros (F & Q & Hr) Hi Hmax. unfold recv_section. pose proof (rep_box_length _ _ _ _ _ Hr Hi) as Hlen.
  destruct (q_count (msg_queues s i) =? 0) eqn:E; zbool.
  - assert (Hb : box s i = []) by (destruct (box s i); [done|simpl in Hlen; lia]). rewrite Hb.
    destruct blocking; cbn [negb].
    + pose proof (same_msgs_block i s) as Hs. split; [exists F, Q; by eapply same_msgs_rep|].
      split; [intros j _ _; by apply same_msgs_box|]. split; [done|]. by rewrite (same_msgs_box _ _ i Hs).
    + split; [by exists F, Q|]. done.
  - assert (Hne : Q i <> []).
    { intros E0. pose proof (r_count _ _ _ _ Hr i Hi) as Hc. rewrite E0 in Hc. simpl in Hc. lia. }
    pose proof (take_message_ok s F Q i buf max_len src_ptr Hr Hi Hne Hmax) as Ht.
    destruct (take_message i buf max_len src_ptr s) as [s' n].
    destruct Ht as (src & data & rest & -> & (F' & Q' & R') & B1 & O1 & -> & D1).
    split; [by exists F', Q'|]. split; [done|]. cbv zeta. done.
Qed.

(** ** Initialisation *)

Lemma init_pool_spec n s F :
  mseg (message_pool s) (free_messages s) F NULL -> (forall x, x ∈ F -> Z.of_nat n < x) ->
  let s' := init_pool n s in
  mseg (message_pool s') (free_messages s') (seqZ 1 (Z.of_nat n) ++ F) NULL /\
  msg_queues s' = msg_queues s /\ mg_mem s' = mg_mem s /\ mg_procs s' = mg_procs s.
Proof.
  revert s F. induction n as [|n IH]; intros s F Hs Hgt; cbn [init_pool]; [done|].
  destruct (IH (init_slot (Z.of_nat (S n)) s) (Z.of_nat (S n) :: F)) as (I1 & I2 & I3 & I4).
  - simpl. split; [done|]. rewrite upd_same. simpl. eapply mseg_ext; [|exact Hs].
    intros x Hx. rewrite upd_other; [done|]. specialize (Hgt x Hx). lia.
  - intros x [->|Hx]%elem_of_cons; [lia|]. specialize (Hgt x Hx). lia.
  - split; [|done]. replace (seqZ 1 (Z.of_nat (S n)) ++ F) with (seqZ 1 (Z.of_nat n) ++ Z.of_nat (S n) :: F); [done|].
    replace (Z.of_nat (S n)) with (Z.of_nat n + 1) by lia. rewrite (seqZ_app 1 (Z.of_nat n) 1) by lia.
    rewrite <- app_assoc. f_equal. change (seqZ (1 + Z.of_nat n) 1) with [1 + Z.of_nat n]. simpl. f_equal. lia.
Qed.

Lemma msg_init_ok s : intact (msg_init s) /\ forall i, qidx i -> box (msg_init s) i = [].
Proof.
  unfold msg_init. set (s1 := init_pool _ _).
  destruct (init_pool_spec (Z.to_nat MSG_POOL_SIZE) (with_pool (message_pool s) NULL s) []) as (I1 & _); [reflexivity|intros x Hx; destruct (not_elem_of_nil x Hx)|].
  fold s1 in I1. rewrite app_nil_r, Z2Nat.id in I1 by (unfold MSG_POOL_SIZE; lia).
  set (f := fun i s => set_queue i (init_queue i) s).
  assert (HI : (forall i, 0 <= i < PROCESS_MAX_COUNT -> msg_queues (for_range 0 PROCESS_MAX_COUNT f s1) i = init_queue i) /\
    message_pool (for_range 0 PROCESS_MAX_COUNT f s1) = message_pool s1 /\
    free_messages (for_range 0 PROCESS_MAX_COUNT f s1) = free_messages s1).
  { apply (for_range_ind (fun k s' => (forall i, 0 <= i < k -> msg_queues s' i = init_queue i) /\
      message_pool s' = message_pool s1 /\ free_messages s' = free_messages s1)).
    - unfold PROCESS_MAX_COUNT. lia.
    - split; [intros; lia|done].
    - intros k s' Hk (J1 & J2 & J3). split; [|exact (conj J2 J3)]. intros i Hi. simpl. destruct (decide (i = k)) as [->|].
      + by rewrite upd_same.
      + rewrite upd_other by done. apply J1. lia. }
  set (s2 := for_range 0 PROCESS_MAX_COUNT f s1) in *. destruct HI as (J1 & J2 & J3).
  split; [|intros i Hi; unfold box; by rewrite J1 by apply Hi].
  exists (seqZ 1 MSG_POOL_SIZE), (fun _ => []). split; try (intros i Hi; rewrite J1 by apply Hi; done).
  - by rewrite J2, J3.
  - intros i Hi. simpl. unfold MSG_QUEUE_SIZE. lia.
  - rewrite app_nil_r. split; [apply NoDup_seqZ|]. intros i Hi. apply NoDup_nil_2.
  - split; [intros i x _ Hx; destruct (not_elem_of_nil x Hx)|intros i j x _ _ Hx; destruct (not_elem_of_nil x Hx)].
  - rewrite app_nil_r. split; [intros x Hx%elem_of_seqZ; lia|]. intros i x _ Hx. destruct (not_elem_of_nil x Hx).
  - rewrite app_nil_r. intros x Hx. left. apply elem_of_seqZ. lia.
  - intros i x _ Hx. destruct (not_elem_of_nil x Hx).
Qed.
(** ** The calls *)

(** With an intact pool, [msg_send_flags] returns the status its documentation
    lists: MSG_ERR_INVALID_ARG for a NULL message, MSG_ERR_TOO_LARGE above 256 bytes,
    MSG_ERR_INVALID_PID for no such process or one without a queue,
    MSG_ERR_QUEUE_FULL at 32 messages, MSG_ERR_NO_MEMORY with all 512 slots in use.
    On success the letter, with the sender's PID and a copy of the bytes, is the last
    of the destination's mailbox and no other mailbox changes; on an error nothing
    changes at all. The pool stays intact. *)
Theorem msg_send_contract s dest msg len flags :
  intact s -> 0 <= dest -> 0 <= len ->
  let '(s', r) := msg_send_flags dest msg len flags s in
  r = send_status s dest msg len /\ intact s' /\
  if r =? MSG_SUCCESS then
    qidx dest /\ mg_mem s' = mg_mem s /\
    box s' dest = box s dest ++ [(current_pid s, bytes_at (mg_mem s) msg (Z.to_nat len))] /\
    (forall j, qidx j -> j <> dest -> box s' j = box s j)
  else s' = s.
Proof. apply send_ok. Qed.

(** A process whose PID is past the table of queues can neither be sent a message nor
    receive one, though it exists. *)
Theorem msg_high_pid_unreachable s dest msg len buf max_len src_ptr blocking :
  msg <> NULL -> len <= MSG_MAX_SIZE -> PROCESS_MAX_COUNT <= dest ->
  po_by_pid dest (mg_procs s) <> NULL -> buf <> NULL ->
  po_current (mg_procs s) = po_by_pid dest (mg_procs s) ->
  po_pid (po_by_pid dest (mg_procs s)) (mg_procs s) = dest ->
  msg_send dest msg len s = (s, MSG_ERR_INVALID_PID) /\
  msg_receive_internal buf max_len src_ptr blocking s = (s, MDone MSG_ERR_NO_PROCESS).
Proof.
  intros Hm Hl Hd Hp Hb Hc Hpid. unfold msg_send, msg_send_flags, msg_receive_internal, msg_get_queue.
  rewrite Hc, Hpid, !(proj2 (Z.eqb_neq _ NULL)), (proj2 (Z.ltb_ge _ _) Hl), (proj2 (Z.leb_le _ _) Hd) by done. done.
Qed.
End Props.

(** ** Broadcast *)

Section Broadcast.
Context {W : Type} `{ProcessLaws W}.
Implicit Types s : msgs W.

Lemma deliver_pid i p src dest msg len flags s : current_pid (deliver i p src dest msg len flags s) = current_pid s.
Proof.
  unfold deliver, msg_wake_receiver, wait_wake, current_pid. cbv zeta.
  set (s1 := count_sent len _). assert (E : mg_procs s1 = mg_procs s) by (unfold s1; simpl; by case_if).
  destruct (0 <? wq_count (q_waiters (msg_queues s1 i))); cbn [mg_procs with_mg_procs]; rewrite E; [|done].
  set (q := wq_procs _ _). destruct (q =? NULL); [done|].
  rewrite po_set_current by auto. by rewrite po_set_pid.
Qed.

Lemma send_pid s dest msg len flags : current_pid (fst (msg_send_flags dest msg len flags s)) = current_pid s.
Proof.
  unfold msg_send_flags, msg_alloc. do 3 (case_if; [done|]). destruct (msg_get_queue dest); [|done]. cbv zeta.
  case_if; [done|]. destruct (free_messages s =? NULL) eqn:Efr.
  - rewrite Z.eqb_refl. done.
  - rewrite Efr. cbn [fst]. by rewrite deliver_pid.
Qed.

(** The mailboxes in [D] have the letter appended, the others are as they were. *)
Definition posted (D : list Z) (l : Z * list Z) s s' : Prop :=
  (forall j, j ∈ D -> box s' j = box s j ++ [l]) /\ (forall j, qidx j -> j ∉ D -> box s' j = box s j).

Lemma posted_snoc D l s s1 s2 k :
  posted D l s s1 -> qidx k -> k ∉ D -> box s2 k = box s1 k ++ [l] ->
  (forall j, qidx j -> j <> k -> box s2 j = box s1 j) -> (forall j, j ∈ D -> qidx j) -> posted (D ++ [k]) l s s2.
Proof.
  intros [P1 P2] Hk HD E1 E2 Hq. split.
  - intros j [Hj|Hj]%elem_of_app.
    + rewrite E2; [by apply P1|by apply Hq|]. by intros ->.
    + apply list_elem_of_singleton in Hj as ->. by rewrite E1, P2.
  - intros j Hj Hn. rewrite E2; [apply P2; [done|]|done|]; set_solver.
Qed.

(** [msg_broadcast] sends one copy to each of a set of distinct processes, never to
    its sender, and returns how many there are: those mailboxes have exactly one letter
    more, with the sender's PID and a copy of the bytes, every other mailbox is
    unchanged, and no slot of the pool is lost. *)
Theorem msg_broadcast_contract s msg len :
  intact s -> 0 <= len ->
  let '(s', r) := msg_broadcast msg len s in
  intact s' /\
  if (msg =? NULL) || (MSG_MAX_SIZE <? len) then s' = s /\ r = MSG_ERR_INVALID_ARG
  else exists D, NoDup D /\ r = Z.of_nat (length D) /\ (current_pid s ∉ D) /\
    (forall j, j ∈ D -> 1 <= j < PROCESS_MAX_COUNT) /\
    posted D (current_pid s, bytes_at (mg_mem s) msg (Z.to_nat len)) s s'.
Proof.
  intros HI Hl. unfold msg_broadcast. destruct ((msg =? NULL) || (MSG_MAX_SIZE <? len)); [done|].
  set (src := current_pid s). set (l := (src, _)).
  set (P := fun k (x : msgs W * Z) => intact (fst x) /\ mg_mem (fst x) = mg_mem s /\ current_pid (fst x) = src /\
    exists D, NoDup D /\ snd x = Z.of_nat (length D) /\ (src ∉ D) /\ (forall j, j ∈ D -> 1 <= j < k) /\ posted D l s (fst x)).
  assert (HP : P PROCESS_MAX_COUNT (for_range 1 PROCESS_MAX_COUNT (broadcast_one msg len src) (s, 0))).
  { apply for_range_ind.
    - unfold PROCESS_MAX_COUNT. lia.
    - split; [done|]. split; [done|]. split; [done|]. exists []. split; [apply NoDup_nil_2|]. split; [done|].
      split; [set_solver|]. split; [set_solver|]. split; [set_solver|done].
    - intros k [s1 n] Hk (I1 & M1 & C1 & D & N1 & En & Hs & HD & HPo). cbn [fst snd] in *.
      assert (Hmono : P (k + 1) (s1, n)).
      { split; [done|]. split; [done|]. split; [done|]. exists D. do 3 (split; [done|]). split; [|done].
        intros j Hj. specialize (HD j Hj). lia. }
      unfold broadcast_one. destruct (k =? src) eqn:Ek; [done|]. zbool. case_if; [|done].
      pose proof (send_ok s1 k msg len MSG_FLAG_BROADCAST I1 ltac:(lia) Hl) as Hk'.
      pose proof (send_pid s1 k msg len MSG_FLAG_BROADCAST) as Cp.
      destruct (msg_send_flags k msg len MSG_FLAG_BROADCAST s1) as [s2 r]. cbn [fst] in Cp.
      destruct Hk' as (_ & I2 & Hk'). destruct (r =? MSG_SUCCESS); [|by subst s2].
      destruct Hk' as (Hq & M2 & B2 & O2). rewrite C1, M1 in B2.
      split; [done|]. split; [simpl; congruence|]. split; [simpl; congruence|]. exists (D ++ [k]).
      assert (HkD : k ∉ D) by (intros Hx; specialize (HD k Hx); lia).
      split; [apply NoDup_app; split; [done|]; split; [set_solver|apply NoDup_singleton]|].
      split; [simpl; rewrite length_app; simpl; lia|]. split; [set_solver|]. split.
      + intros j [Hj|Hj]%elem_of_app; [specialize (HD j Hj); lia|]. apply list_elem_of_singleton in Hj. lia.
      + cbn [fst]. apply (posted_snoc D l s s1); try done. intros j Hj. specialize (HD j Hj). split; lia. }
  destruct (for_range 1 PROCESS_MAX_COUNT _ _) as [s' r]. destruct HP as (I1 & _ & _ & D & N1 & En & Hs & HD & HPo).
  split; [done|]. exists D. done.
Qed.
End Broadcast.

(** ** Mailboxes over time *)

Section Mail.
Context {W : Type} `{ProcessLaws W}.
Implicit Types s : msgs W.

(** What a receiver finds when its call returns: the sender's number, if it asked for it, the
    bytes in its buffer, and the size it had given. *)
Record reading := mk_reading { rd_src : option Z; rd_bytes : list Z; rd_max : Z }.
Definition read_from (m : mem) (buf max_len src_ptr n : Z) : reading :=
  mk_reading (if src_ptr =? NULL then None else Some (load32 m src_ptr)) (bytes_at m buf (Z.to_nat n)) max_len.
(** The reading of a letter: all of it that the buffer has room for, from its sender. *)
Definition reads (l : Z * list Z) (r : reading) : Prop :=
  rd_bytes r = take (Z.to_nat (rd_max r)) (snd l) /\ match rd_src r with Some x => x = fst l | None => True end.

(** The process that calls, and what the return of a receive with result [r] adds to the
    readings of [i]. *)
Definition receiver s : Z := po_pid (po_current (mg_procs s)) (mg_procs s).
Definition noted (i j buf max_len src_ptr : Z) (s' : msgs W) (r : recv_result) : list reading :=
  match r with
  | MDone n => if (j =? i) && (0 <=? n) then [read_from (mg_mem s') buf max_len src_ptr n] else []
  | MBlocked => []
  end.
(** The sender's number is not written into the buffer. *)
Definition apart (buf max_len src_ptr : Z) : Prop := src_ptr = NULL \/ src_ptr + 4 <= buf \/ buf + max_len <= src_ptr.

(** What happens to the mailbox of [i]: [sent] are the letters sent to it with success, [got]
    what its owner read. Any process sends, broadcasts and receives, blocking or not, with or
    without a pointer for the sender and with a buffer of any size; a receiver that waited
    goes on; and between the calls everything but the messages may change. *)
Inductive mail_step (i : Z) : msgs W * list (Z * list Z) * list reading -> msgs W * list (Z * list Z) * list reading -> Prop :=
| ml_send s s' sent got dest msg len flags r :
    0 <= dest -> 0 <= len -> 0 <= current_pid s < 2 ^ 32 ->
    msg_send_flags dest msg len flags s = (s', r) ->
    mail_step i (s, sent, got)
      (s', (if bool_decide (r = MSG_SUCCESS /\ dest = i)
            then sent ++ [(current_pid s, bytes_at (mg_mem s) msg (Z.to_nat len))] else sent), got)
| ml_broadcast s s' sent got msg len r :
    0 <= len -> 0 <= current_pid s < 2 ^ 32 -> msg_broadcast msg len s = (s', r) ->
    mail_step i (s, sent, got)
      (s', (if q_count (msg_queues s' i) =? q_count (msg_queues s i) then sent
            else sent ++ [(current_pid s, bytes_at (mg_mem s) msg (Z.to_nat len))]), got)
| ml_receive s s' sent got buf max_len src_ptr blocking r :
    0 <= max_len -> apart buf max_len src_ptr -> 0 <= receiver s ->
    msg_receive_internal buf max_len src_ptr blocking s = (s', r) ->
    mail_step i (s, sent, got) (s', sent, got ++ noted i (receiver s) buf max_len src_ptr s' r)
| ml_resume s s' sent got j buf max_len src_ptr r :
    qidx j -> 0 <= max_len -> apart buf max_len src_ptr -> recv_section j buf max_len src_ptr true s = (s', r) ->
    mail_step i (s, sent, got) (s', sent, got ++ noted i j buf max_len src_ptr s' r)
| ml_env s s' sent got : same_msgs s s' -> mail_step i (s, sent, got) (s', sent, got).

Definition mail_inv (i : Z) (c : msgs W * list (Z * list Z) * list reading) : Prop :=
  let '(s, sent, got) := c in
  intact s /\ (exists taken, sent = taken ++ box s i /\ Forall2 reads taken got) /\
  Forall (fun l => 0 <= fst l < 2 ^ 32 /\ Z.of_nat (length (snd l)) <= MSG_MAX_SIZE) (box s i).

Lemma mail_section i j s s' sent got buf max_len sp bl r :
  qidx i -> qidx j -> 0 <= max_len -> apart buf max_len sp -> recv_section j buf max_len sp bl s = (s', r) ->
  mail_inv i (s, sent, got) -> mail_inv i (s', sent, got ++ noted i j buf max_len sp s' r).
Proof.
  intros Hi Hj Hm Ha E (HI & (taken & -> & HT) & HF). pose proof (recv_section_ok s j buf max_len sp bl HI Hj Hm) as Hk. rewrite E in Hk. destruct Hk as (HI' & Ho & Hk). split; [done|].
  destruct (Z.eqb_spec j i) as [->|Hne]; [|unfold noted; rewrite (proj2 (Z.eqb_neq j i) Hne), Ho by congruence; cbn [andb]; split; [|done]; exists taken; split; [done|]; by destruct r; rewrite app_nil_r].
  destruct (box s i) as [|[src data] rest].
  - destruct Hk as [-> ->]. split; [|done]. exists taken. split; [done|]. unfold noted. by destruct bl; rewrite ?andb_false_r, app_nil_r.
  - destruct Hk as (-> & -> & D1 & D2). apply Forall_cons in HF as [[Hsrc Hlen] HF]. split; [|done]. exists (taken ++ [(src, data)]). split; [by rewrite <- app_assoc|]. unfold noted. rewrite Z.eqb_refl, (proj2 (Z.leb_le 0 _)) by lia. cbn [andb]. apply Forall2_app; [done|]. constructor; [|done].
    assert (length (take (Z.to_nat (Z.min (Z.of_nat (length data)) max_len)) data) = Z.to_nat (Z.min (Z.of_nat (length data)) max_len)) as Ht by (rewrite length_take; lia). split; cbn [rd_bytes rd_max rd_src read_from fst snd].
    + rewrite Ht in D1. rewrite D1 by (unfold apart in Ha; lia). destruct (Z.le_ge_cases (Z.of_nat (length data)) max_len); [rewrite Z.min_l, !take_ge by lia; done|by rewrite Z.min_r by lia].
    + destruct (Z.eqb_spec sp NULL); [done|]. by apply D2.
Qed.
Lemma receive_frame buf max_len sp bl s : 0 <= receiver s ->
  (exists j, qidx j /\ receiver s = j /\ msg_receive_internal buf max_len sp bl s = recv_section j buf max_len sp bl s) \/
  exists e, e < 0 /\ msg_receive_internal buf max_len sp bl s = (s, MDone e).
Proof.
  intros Hr. unfold msg_receive_internal, msg_get_queue, receiver in *. destruct (buf =? NULL); [right; by exists MSG_ERR_INVALID_ARG|]. cbv zeta. destruct (_ =? NULL); [right; by exists MSG_ERR_NO_PROCESS|]. destruct (Z.leb_spec PROCESS_MAX_COUNT (po_pid (po_current (mg_procs s)) (mg_procs s))); [right; by exists MSG_ERR_NO_PROCESS|].
  left. eexists. split; [|done]. split; lia.
Qed.
Lemma mail_step_inv i c c' : qidx i -> mail_step i c c' -> mail_inv i c -> mail_inv i c'.
Proof.
  intros Hi Hst. destruct Hst as [s s' sent got dest msg len flags r Hd Hl Hc E|s s' sent got msg len r Hl Hc E|s s' sent got buf max_len sp bl r Hm Ha Hr E|s s' sent got j buf max_len sp r Hj Hm Ha E|s s' sent got Hs].
  - intros (HI & (taken & -> & HT) & HF). pose proof (send_ok s dest msg len flags HI Hd Hl) as Hk. rewrite E in Hk. destruct Hk as (Hr & HI' & Hk). assert (Hlen : r = MSG_SUCCESS -> len <= MSG_MAX_SIZE).
    { intros Er. rewrite Hr in Er. unfold send_status in Er. destruct (msg =? NULL); [done|]. destruct (MSG_MAX_SIZE <? len) eqn:El; [done|]. zbool. lia. }
    destruct (r =? MSG_SUCCESS) eqn:Er; zbool.
    + destruct Hk as (_ & _ & B & Bo). split; [done|]. case_bool_decide as Hb.
      * destruct Hb as [_ ->]. rewrite B. split; [exists taken; by rewrite app_assoc|]. apply Forall_app. split; [done|]. constructor; [|done]. simpl. rewrite length_bytes_at. split; [done|]. specialize (Hlen Er). lia.
      * rewrite Bo by naive_solver. split; [by exists taken|done].
    + subst s'. split; [done|]. rewrite bool_decide_false by naive_solver. split; [by exists taken|done].
  - intros (HI & (taken & -> & HT) & HF). pose proof (msg_broadcast_contract s msg len HI Hl) as Hk. rewrite E in Hk. destruct Hk as [HI' Hk]. destruct ((msg =? NULL) || (MSG_MAX_SIZE <? len)) eqn:Ee; [destruct Hk as [-> _]; rewrite Z.eqb_refl; split; [done|]; split; [by exists taken|done]|].
    apply orb_false_iff in Ee as [_ El]. zbool. destruct Hk as (D & _ & _ & _ & HD & P1 & P2). pose proof HI as (F & Q & R). pose proof HI' as (F' & Q' & R'). rewrite <- (rep_box_length _ _ _ _ _ R Hi), <- (rep_box_length _ _ _ _ _ R' Hi). split; [done|]. destruct (decide (i ∈ D)) as [Hin|Hin].
    + rewrite (P1 i Hin), length_app. cbn [length]. rewrite (proj2 (Z.eqb_neq _ _)) by lia. split; [exists taken; by rewrite app_assoc|]. apply Forall_app. split; [done|]. constructor; [|done]. simpl. rewrite length_bytes_at. split; [done|]. lia.
    + rewrite (P2 i Hi Hin), Z.eqb_refl. split; [by exists taken|done].
  - intros HI. destruct (receive_frame buf max_len sp bl s Hr) as [(j & Hj & -> & Ej)|(e & He & Ej)]; rewrite Ej in E; [by apply (mail_section i j s s' sent got buf max_len sp bl r)|]. injection E as <- <-. unfold noted. rewrite (proj2 (Z.leb_gt 0 e)), andb_false_r, app_nil_r by lia. done.
  - intros HI. by apply (mail_section i j s s' sent got buf max_len sp true r).
  - intros (HI & HT & HF). split; [destruct HI as (F & Q & Hr); exists F, Q; by eapply same_msgs_rep|]. by rewrite (same_msgs_box _ _ i Hs).
Qed.

(** C7: Mail is delivered in order, once and unchanged. From [msg_init], through any sequence of
    sends, broadcasts and receives by any processes with changes of the environment in
    between, the letters sent to [i] are the letters its owner took followed by those still
    queued; each letter that was taken was read as far as the buffer had room, and from its
    sender where the sender was asked for. No slot of the pool is lost meanwhile. *)
Theorem mail_is_fifo s0 i s sent got :
  qidx i -> rtc (mail_step i) (msg_init s0, [], []) (s, sent, got) ->
  (exists taken, sent = taken ++ box s i /\ Forall2 reads taken got) /\ intact s.
Proof.
  intros Hi Hr. assert (HI : mail_inv i (s, sent, got)).
  { remember (msg_init s0, [], []) as c eqn:Ec. assert (H0' : mail_inv i c).
    { rewrite Ec. destruct (msg_init_ok s0) as [HI0 HB0]. split; [done|]. rewrite HB0 by done. split; [by exists []|done]. }
    clear Ec. remember (s, sent, got) as c' eqn:Ec'. clear Ec'.
    induction Hr as [|c c1 c' Hst _ IH]; [done|]. apply IH. by eapply mail_step_inv. }
  by destruct HI as (HI & E & _).
Qed.
End Mail.

(** ** Messages on a small machine *)

Definition raw_msgs : msgs (procs pmm) :=
  mk_msgs (fun _ => zero_message) NULL (fun _ => init_queue 0) 1 0 0 0 0 (fun a => a mod 256) demo_procs.
Definition demo_msgs : msgs (procs pmm) := msg_init raw_msgs.

Lemma demo_intact : intact demo_msgs.
Proof. apply msg_init_ok. Qed.

Lemma msg_send_contract_witness :
  intact demo_msgs /\ snd (msg_send_flags 1 0x10007 3 0 demo_msgs) = MSG_SUCCESS /\
  box (fst (msg_send_flags 1 0x10007 3 0 demo_msgs)) 1 = [(1, [7; 8; 9])].
Proof.
  split; [exact demo_intact|].
  assert (Hs : snd (msg_send_flags 1 0x10007 3 0 demo_msgs) = MSG_SUCCESS) by (vm_compute; reflexivity).
  split; [exact Hs|]. pose proof (msg_send_contract demo_msgs 1 0x10007 3 0 demo_intact ltac:(lia) ltac:(lia)) as Hk.
  destruct (msg_send_flags 1 0x10007 3 0 demo_msgs) as [s' r]. cbn [fst snd] in *. destruct Hk as (_ & _ & Hk). rewrite Hs in Hk.
  destruct Hk as (_ & _ & E & _). rewrite E. vm_compute. reflexivity.
Defined.

Lemma msg_broadcast_contract_witness :
  intact demo_msgs /\ intact (fst (msg_broadcast 0x10007 3 demo_msgs)).
Proof.
  split; [exact demo_intact|].
  pose proof (msg_broadcast_contract demo_msgs 0x10007 3 demo_intact ltac:(lia)) as Hk.
  destruct (msg_broadcast 0x10007 3 demo_msgs) as [s' r]. exact (proj1 Hk).
Defined.

(** Process 1 sends itself three bytes and reads two of them, without asking for the sender. *)
Lemma mail_is_fifo_witness :
  exists s sent got, rtc (mail_step 1) (demo_msgs, [], []) (s, sent, got) /\ sent = [(1, [7; 8; 9])] /\ map rd_bytes got = [[7; 8]] /\
    exists taken, sent = taken ++ box s 1 /\ Forall2 reads taken got.
Proof.
  set (c := msg_send_flags 1 0x10007 3 0 demo_msgs).
  assert (E : c = (fst c, MSG_SUCCESS)) by (apply pair_snd; vm_compute; reflexivity).
  assert (Hp : current_pid demo_msgs = 1) by (vm_compute; reflexivity).
  pose proof (ml_send 1 demo_msgs (fst c) [] [] 1 0x10007 3 0 MSG_SUCCESS ltac:(lia) ltac:(lia) ltac:(rewrite Hp; lia) E) as Hst. rewrite Hp in Hst.
  set (d := msg_receive_internal 0x20000 2 NULL false (fst c)).
  assert (E2 : d = (fst d, MDone 2)) by (apply pair_snd; vm_compute; reflexivity).
  assert (Hq : receiver (fst c) = 1) by (vm_compute; reflexivity).
  pose proof (ml_receive 1 (fst c) (fst d) [(1, [7; 8; 9])] [] 0x20000 2 NULL false (MDone 2) ltac:(lia) (or_introl eq_refl) ltac:(rewrite Hq; lia) E2) as Hst2. rewrite Hq in Hst2.
  assert (Hr : rtc (mail_step 1) (demo_msgs, [], []) (fst d, [(1, [7; 8; 9])], [] ++ noted 1 1 0x20000 2 NULL (fst d) (MDone 2))) by (eapply rtc_l; [exact Hst|]; apply rtc_once; exact Hst2).
  eexists _, _, _. split; [exact Hr|]. split; [reflexivity|]. split; [vm_compute; reflexivity|].
  apply (mail_is_fifo raw_msgs 1 (fst d) [(1, [7; 8; 9])] _ (conj (Z.le_0_1) eq_refl) Hr).
Defined.
