(* ===== verification/Vmm.v ===== *)
(** * The virtual memory manager (kernel/mm/vmm.c, vmm.h): data and operations

    The page tables live in memory, at physical addresses that the kernel can use
    as they are ([phys_to_virt] is the identity on both of its branches). CR3 and the
    invalidations the processor is asked for are part of the state. *)
From S2P Require Import Prelude Memory PageAlloc.

Definition VMM_FLAG_PRESENT : Z := BIT 0.
Definition VMM_FLAG_WRITE : Z := BIT 1.
Definition VMM_FLAG_USER : Z := BIT 2.
Definition VMM_FLAG_HUGE : Z := BIT 7.
Definition VMM_FLAGS_KERNEL : Z := Z.lor VMM_FLAG_PRESENT VMM_FLAG_WRITE.
Definition VMM_FLAGS_USER : Z := Z.lor (Z.lor VMM_FLAG_PRESENT VMM_FLAG_WRITE) VMM_FLAG_USER.
Definition VMM_PAGE_SIZE : Z := 4096.
Definition VMM_ENTRIES_PER_TABLE : Z := 512.
Definition VMM_PML4_SHIFT : Z := 39.
Definition VMM_PDPT_SHIFT : Z := 30.
Definition VMM_PD_SHIFT : Z := 21.
Definition VMM_PT_SHIFT : Z := 12.
Definition VMM_INDEX_MASK : Z := 0x1FF.
Definition VMM_OFFSET_MASK : Z := 0xFFF.
Definition VMM_ADDR_MASK : Z := 0x000FFFFFFFFFF000.
Definition VMM_PML4_INDEX (virt : Z) : Z := Z.land (Z.shiftr virt VMM_PML4_SHIFT) VMM_INDEX_MASK.
Definition VMM_PDPT_INDEX (virt : Z) : Z := Z.land (Z.shiftr virt VMM_PDPT_SHIFT) VMM_INDEX_MASK.
Definition VMM_PD_INDEX (virt : Z) : Z := Z.land (Z.shiftr virt VMM_PD_SHIFT) VMM_INDEX_MASK.
Definition VMM_PT_INDEX (virt : Z) : Z := Z.land (Z.shiftr virt VMM_PT_SHIFT) VMM_INDEX_MASK.
Definition VMM_PAGE_OFFSET (virt : Z) : Z := Z.land virt VMM_OFFSET_MASK.

(** What the processor is told about its translations, latest first. *)
Inductive tlb_op :=
| Invlpg (virt : Z)
| WriteCr3 (pml4 : Z).

Record vmm (S : Type) := mk_vmm {
  vm_mem : mem;
  vm_pa : S;
  kernel_pml4_phys : Z;
  cr3 : Z;
  tlb_ops : list tlb_op;
}.
Arguments mk_vmm {S}.
Arguments vm_mem {S}.
Arguments vm_pa {S}.
Arguments kernel_pml4_phys {S}.
Arguments cr3 {S}.
Arguments tlb_ops {S}.

Section Vmm.
Context {S : Type} `{PageAllocator S}.
Implicit Types s : vmm S.

Definition set_vm_mem (m : mem) s : vmm S := mk_vmm m (vm_pa s) (kernel_pml4_phys s) (cr3 s) (tlb_ops s).
Definition set_vm_pa (a : S) s : vmm S := mk_vmm (vm_mem s) a (kernel_pml4_phys s) (cr3 s) (tlb_ops s).
Definition set_kernel_pml4 (p : Z) s : vmm S := mk_vmm (vm_mem s) (vm_pa s) p (cr3 s) (tlb_ops s).

Definition write_cr3 (p : Z) s : vmm S :=
  mk_vmm (vm_mem s) (vm_pa s) (kernel_pml4_phys s) p (WriteCr3 p :: tlb_ops s).
Definition invlpg (addr : Z) s : vmm S :=
  mk_vmm (vm_mem s) (vm_pa s) (kernel_pml4_phys s) (cr3 s) (Invlpg addr :: tlb_ops s).

(** [table->entries[index]] *)
Definition entry_ptr (table index : Z) : Z := table + 8 * index.
Definition entry (m : mem) (table index : Z) : Z := load64 m (entry_ptr table index).
Definition set_entry (m : mem) (table index v : Z) : mem := store64 m (entry_ptr table index) v.
(** [entry & VMM_FLAG_PRESENT] and the like, as a condition. *)
Definition has (e flag : Z) : bool := negb (Z.land e flag =? 0).
Definition pte_addr (e : Z) : Z := Z.land e VMM_ADDR_MASK.

Definition zero_page (phys : Z) (m : mem) : mem :=
  for_range 0 (VMM_PAGE_SIZE / 8) (fun i m => store64 m (phys + 8 * i) 0) m.

Definition alloc_page_table s : vmm S * Z :=
  let '(phys, a) := pa_alloc 1 (vm_pa s) in
  if phys =? 0 then (set_vm_pa a s, 0)
  else (set_vm_mem (zero_page phys (vm_mem s)) (set_vm_pa a s), phys).

Definition get_or_create_entry (table index : Z) (create : bool) (flags : Z) s : vmm S * Z :=
  let e := entry (vm_mem s) table index in
  if has e VMM_FLAG_PRESENT then (s, pte_addr e)
  else if negb create then (s, 0)
  else
    let '(s, new_table) := alloc_page_table s in
    if new_table =? 0 then (s, 0)
    else
      let entry_flags := Z.lor VMM_FLAG_PRESENT VMM_FLAG_WRITE in
      let entry_flags := if has flags VMM_FLAG_USER then Z.lor entry_flags VMM_FLAG_USER else entry_flags in
      (set_vm_mem (set_entry (vm_mem s) table index (Z.lor new_table entry_flags)) s, new_table).

(** The address of the page table entry, 0 for NULL. *)
Definition vmm_walk (pml4 virt : Z) (create : bool) (flags : Z) s : vmm S * Z :=
  let '(s, pdpt) := get_or_create_entry pml4 (VMM_PML4_INDEX virt) create flags s in
  if pdpt =? 0 then (s, NULL)
  else
    let '(s, pd) := get_or_create_entry pdpt (VMM_PDPT_INDEX virt) create flags s in
    if pd =? 0 then (s, NULL)
    else
      let '(s, pt) := get_or_create_entry pd (VMM_PD_INDEX virt) create flags s in
      if pt =? 0 then (s, NULL)
      else (s, entry_ptr pt (VMM_PT_INDEX virt)).

(** The tables the mapping functions work on. *)
Definition active_pml4 s : Z :=
  if kernel_pml4_phys s =? 0 then pte_addr (cr3 s) else kernel_pml4_phys s.

Definition vmm_map_page (virt phys flags : Z) s : vmm S * bool :=
  if negb (IS_ALIGNED virt VMM_PAGE_SIZE) || negb (IS_ALIGNED phys VMM_PAGE_SIZE) then (s, false)
  else
    let '(s, pte) := vmm_walk (active_pml4 s) virt true flags s in
    if pte =? NULL then (s, false)
    else
      let v := Z.lor (Z.lor (Z.land phys VMM_ADDR_MASK) (Z.land flags (Z.lnot VMM_ADDR_MASK))) VMM_FLAG_PRESENT in
      (invlpg virt (set_vm_mem (store64 (vm_mem s) pte v) s), true).

Definition vmm_unmap_page (virt : Z) s : vmm S * Z :=
  if negb (IS_ALIGNED virt VMM_PAGE_SIZE) then (s, 0)
  else
    let '(s, pte) := vmm_walk (active_pml4 s) virt false 0 s in
    if (pte =? NULL) || negb (has (load64 (vm_mem s) pte) VMM_FLAG_PRESENT) then (s, 0)
    else
      let phys := pte_addr (load64 (vm_mem s) pte) in
      (invlpg virt (set_vm_mem (store64 (vm_mem s) pte 0) s), phys).

(** The rollback of [vmm_map_pages] and one round of its loop. *)
Definition unmap_range (virt n : Z) s : vmm S :=
  for_range 0 n (fun j s => fst (vmm_unmap_page (u64 (virt + u64 (j * VMM_PAGE_SIZE))) s)) s.
Definition map_one (virt phys flags i : Z) s : vmm S + vmm S :=
  let v := u64 (virt + u64 (i * VMM_PAGE_SIZE)) in
  let p := u64 (phys + u64 (i * VMM_PAGE_SIZE)) in
  let '(s, ok) := vmm_map_page v p flags s in
  if negb ok then inr (unmap_range virt i s) else inl s.
Definition vmm_map_pages (virt phys count flags : Z) s : vmm S * bool :=
  match iter_brk (Z.to_nat count) 0 (map_one virt phys flags) s with
  | inl s => (s, true)
  | inr s => (s, false)
  end.

Definition vmm_get_physical (virt : Z) s : Z :=
  let '(s, pte) := vmm_walk (active_pml4 s) virt false 0 s in
  if (pte =? NULL) || negb (has (load64 (vm_mem s) pte) VMM_FLAG_PRESENT) then 0
  else Z.lor (pte_addr (load64 (vm_mem s) pte)) (VMM_PAGE_OFFSET virt).

Definition vmm_is_mapped (virt : Z) s : bool :=
  let '(s, pte) := vmm_walk (active_pml4 s) virt false 0 s in
  negb (pte =? NULL) && has (load64 (vm_mem s) pte) VMM_FLAG_PRESENT.

Definition vmm_switch_address_space (pml4 : Z) s : vmm S :=
  if pml4 =? 0 then s
  else if negb (pte_addr (cr3 s) =? pml4) then write_cr3 pml4 s else s.
Definition vmm_get_current_address_space s : Z := pte_addr (cr3 s).
Definition vmm_invalidate_page (virt : Z) s : vmm S := invlpg virt s.
Definition vmm_flush_tlb s : vmm S := write_cr3 (cr3 s) s.
Definition vmm_get_kernel_pml4 s : Z := kernel_pml4_phys s.

(** [for (addr = lo; addr < hi; addr += VMM_PAGE_SIZE) vmm_map_page(addr, addr, ...)] *)
Definition identity_map (lo hi : Z) s : vmm S :=
  for_range 0 ((hi - lo) / VMM_PAGE_SIZE)
    (fun k s => fst (vmm_map_page (lo + k * VMM_PAGE_SIZE) (lo + k * VMM_PAGE_SIZE) VMM_FLAGS_KERNEL s)) s.
Definition vmm_init s : vmm S :=
  let '(s, p) := alloc_page_table s in
  let s := set_kernel_pml4 p s in
  if p =? 0 then s
  else
    let s := identity_map 0 (4 * MB) s in
    let s := identity_map (4 * MB) (16 * MB) s in
    vmm_switch_address_space (kernel_pml4_phys s) s.

(** ** Address spaces *)

Definition copy_upper (src dst : Z) (m : mem) : mem :=
  for_range 256 VMM_ENTRIES_PER_TABLE (fun i m => set_entry m dst i (entry m src i)) m.
Definition copy_lower (src dst : Z) (m : mem) : mem :=
  for_range 0 256 (fun i m =>
    if has (entry m src i) VMM_FLAG_PRESENT then
      if negb (has (entry m src i) VMM_FLAG_USER) then set_entry m dst i (entry m src i) else m
    else m) m.

Definition vmm_create_address_space s : vmm S * Z :=
  let '(s, new_pml4) := alloc_page_table s in
  if new_pml4 =? 0 then (s, 0)
  else if negb (kernel_pml4_phys s =? 0) then
    (set_vm_mem (copy_lower (kernel_pml4_phys s) new_pml4
                   (copy_upper (kernel_pml4_phys s) new_pml4 (vm_mem s))) s, new_pml4)
  else (s, new_pml4).

(** [below] is [3 - level], the number of levels under the table. *)
Fixpoint free_page_table_recursive (below : nat) (table : Z) (free_user_only : bool) (m : mem) (a : S) : S :=
  if table =? 0 then a
  else
    for_range 0 (if free_user_only then 256 else VMM_ENTRIES_PER_TABLE) (fun i a =>
      let e := entry m table i in
      if negb (has e VMM_FLAG_PRESENT) then a
      else if has e VMM_FLAG_HUGE then a
      else
        let child := pte_addr e in
        let a := match below with
                 | O => a
                 | Datatypes.S b => free_page_table_recursive b child false m a
                 end in
        pa_free child 1 a) a.

Definition vmm_destroy_address_space (pml4 : Z) s : vmm S :=
  if (pml4 =? 0) || (pml4 =? kernel_pml4_phys s) then s
  else if pml4 =? pte_addr (cr3 s) then s
  else
    let a := free_page_table_recursive 3 pml4 true (vm_mem s) (vm_pa s) in
    set_vm_pa (pa_free pml4 1 a) s.
End Vmm.
