(* ===== verification/VmmProps.v ===== *)
(** * Theorems of the virtual memory manager (kernel/mm/vmm.c)

    The page tables under a root are a tree of pages; the tree refines a partial map
    from virtual pages to page table entries, which mapping and unmapping change at
    one page only. *)
From S2P Require Import Prelude Memory PageAlloc Pmm Vmm.

(** ** Bits of an entry *)

Lemma has_bit e k : 0 <= k -> has e (BIT k) = Z.testbit e k.
Proof. intros Hk. unfold has, BIT. rewrite land_pow2_testbit by done. apply negb_involutive. Qed.

Lemma addr_mask_ones : VMM_ADDR_MASK = Z.shiftl (Z.ones 40) 12.
Proof. reflexivity. Qed.

Lemma addr_mask_bit k : 0 <= k -> Z.testbit VMM_ADDR_MASK k = (12 <=? k) && (k <? 52).
Proof.
  intros Hk. rewrite addr_mask_ones, Z.shiftl_spec, Z.testbit_ones by lia.
  destruct (12 <=? k) eqn:E1, (k <? 52) eqn:E2; zbool; blia.
Qed.

(** A page address has no bit below 12 or from 52 up. *)
Lemma page_bits a k : 0 <= a < 2 ^ 52 -> a mod 4096 = 0 -> 0 <= k -> Z.testbit a k = true -> 12 <= k < 52.
Proof.
  intros Ha Hal Hk Hb. split.
  - destruct (Z.le_gt_cases 12 k); [done|]. exfalso.
    assert (Z.testbit (a mod 2 ^ 12) k = true) as Hm by (rewrite Z.mod_pow2_bits_low; [done|lia]).
    change (2 ^ 12) with 4096 in Hm. by rewrite Hal, Z.bits_0 in Hm.
  - destruct (Z.lt_ge_cases k 52); [done|]. exfalso. rewrite <- (Z.mod_small a (2 ^ 52)) in Hb by done.
    rewrite Z.mod_pow2_bits_high in Hb by lia. done.
Qed.

Lemma pte_addr_lor a f :
  0 <= a < 2 ^ 52 -> a mod 4096 = 0 -> (forall k, 12 <= k < 52 -> Z.testbit f k = false) -> pte_addr (Z.lor a f) = a.
Proof.
  intros Ha Hal Hf. unfold pte_addr. bitwise. rewrite Z.land_spec, Z.lor_spec, addr_mask_bit by done.
  destruct (Z.testbit a k) eqn:E.
  - pose proof (page_bits a k Ha Hal Hk E). simpl. lia.
  - simpl. destruct ((12 <=? k) && (k <? 52)) eqn:E2; [|apply andb_false_r]. zbool. rewrite Hf by lia. done.
Qed.

Lemma pte_addr_range e : 0 <= pte_addr e < 2 ^ 52 /\ pte_addr e mod 4096 = 0.
Proof.
  assert (Hn : 0 <= pte_addr e) by (apply Z.land_nonneg; right; unfold VMM_ADDR_MASK; lia).
  assert (Hb : forall k, Z.testbit (pte_addr e) k = Z.testbit e k && Z.testbit VMM_ADDR_MASK k) by (intros; apply Z.land_spec).
  split; [split; [done|]|].
  - replace (pte_addr e) with (pte_addr e mod 2 ^ 52); [apply Z.mod_pos_bound; lia|].
    bitwise. rewrite testbit_wrap, Hb, addr_mask_bit by lia. destruct (Z.testbit e k), (12 <=? k), (k <? 52); done.
  - change 4096 with (2 ^ 12). bitwise. rewrite testbit_wrap, Hb, addr_mask_bit, Z.bits_0 by lia.
    destruct (k <? 12) eqn:E1; [|done]. zbool. replace (12 <=? k) with false by lia. by rewrite andb_false_r.
Qed.

(** ** Tables and paths *)

(** The table reached from [t] through the entries [path]. *)
Fixpoint table_at (m : mem) (t : Z) (path : list Z) : option Z :=
  match path with
  | [] => Some t
  | i :: r => let e := entry m t i in
              if has e VMM_FLAG_PRESENT then table_at m (pte_addr e) r else None
  end.

Definition path_ok (n : nat) (p : list Z) : Prop := (length p <= n)%nat /\ Forall (fun i => 0 <= i < 512) p.

Lemma table_at_app m t p q : table_at m t (p ++ q) = match table_at m t p with Some a => table_at m a q | None => None end.
Proof. revert t. induction p as [|i p IH]; intros t; simpl; [done|]. case_if; [apply IH|done]. Qed.

(** Only the entries along a path decide where it leads. *)
Lemma table_at_frame m m' t q :
  (forall p i r a, q = p ++ i :: r -> table_at m t p = Some a -> entry m' a i = entry m a i) ->
  table_at m' t q = table_at m t q.
Proof.
  revert t. induction q as [|i q IH]; intros t He; simpl; [done|].
  rewrite (He [] i q t) by done. destruct (has _ _) eqn:E; [|done].
  apply IH. intros p j r a -> Ht. apply (He (i :: p) j r a); [done|]. simpl. by rewrite E.
Qed.

Lemma path_ok_app n p q : path_ok n (p ++ q) -> path_ok n p.
Proof. intros [Hl Hf]. rewrite length_app in Hl. apply Forall_app in Hf as [? _]. split; [lia|done]. Qed.
Lemma path_ok_snoc n p i : (length p <= n)%nat -> path_ok n p -> 0 <= i < 512 -> path_ok (S n) (p ++ [i]).
Proof. intros Hl [_ Hf] Hi. split; [rewrite length_app; simpl; lia|]. apply Forall_app. auto. Qed.
Lemma path_ok_le n k p : (n <= k)%nat -> path_ok n p -> path_ok k p.
Proof. intros Hle [Hl Hf]. split; [lia|done]. Qed.

(** The indices of a virtual address. *)
Definition path_of (v : Z) : list Z := [VMM_PML4_INDEX v; VMM_PDPT_INDEX v; VMM_PD_INDEX v].

Lemma index_div v k : 0 <= k -> Z.land (Z.shiftr v k) VMM_INDEX_MASK = (v / 2 ^ k) mod 512.
Proof.
  intros Hk. rewrite Z.shiftr_div_pow2 by done. change VMM_INDEX_MASK with (Z.ones 9). by rewrite Z.land_ones by lia.
Qed.
Lemma index_range v k : 0 <= k -> 0 <= Z.land (Z.shiftr v k) VMM_INDEX_MASK < 512.
Proof. intros Hk. rewrite index_div by done. apply Z.mod_pos_bound. lia. Qed.

Lemma path_of_ok v : path_ok 3 (path_of v).
Proof. split; [simpl; lia|]. repeat constructor; apply index_range; done. Qed.

(** The number of the virtual page, of 36 bits. *)
Definition vpage (v : Z) : Z := (v / 4096) mod 2 ^ 36.

Lemma vpage_path v w : path_of v = path_of w -> VMM_PT_INDEX v = VMM_PT_INDEX w -> vpage v = vpage w.
Proof.
  intros Hp Ht. unfold path_of in Hp.
  unfold VMM_PML4_INDEX, VMM_PDPT_INDEX, VMM_PD_INDEX, VMM_PT_INDEX, VMM_PML4_SHIFT, VMM_PDPT_SHIFT, VMM_PD_SHIFT, VMM_PT_SHIFT in *.
  rewrite !index_div in * by lia. injection Hp as H4 H3 H2. unfold vpage.
  assert (E : forall x, (x / 4096) mod 2 ^ 36 = (x / 2 ^ 12) mod 512 + 512 * ((x / 2 ^ 21) mod 512)
     + 262144 * ((x / 2 ^ 30) mod 512) + 134217728 * ((x / 2 ^ 39) mod 512)); [|rewrite !E; lia].
  intros x. change (2 ^ 12) with 4096. set (y := x / 4096).
  replace (x / 2 ^ 21) with (y / 512) by (unfold y; rewrite Z.div_div by lia; done).
  replace (x / 2 ^ 30) with (y / 262144) by (unfold y; rewrite Z.div_div by lia; done).
  replace (x / 2 ^ 39) with (y / 134217728) by (unfold y; rewrite Z.div_div by lia; done).
  change (2 ^ 36) with 68719476736. dlia.
Qed.

Lemma vpage_index v w : vpage v = vpage w -> path_of v = path_of w /\ VMM_PT_INDEX v = VMM_PT_INDEX w.
Proof.
  unfold vpage, path_of.
  unfold VMM_PML4_INDEX, VMM_PDPT_INDEX, VMM_PD_INDEX, VMM_PT_INDEX, VMM_PML4_SHIFT, VMM_PDPT_SHIFT, VMM_PD_SHIFT, VMM_PT_SHIFT.
  rewrite !index_div by lia. intros E.
  assert (Hx : forall k x, 0 <= k <= 27 -> (x / 2 ^ (12 + k)) mod 512 = ((x / 4096) mod 2 ^ 36 / 2 ^ k) mod 512).
  { intros k x Hk. rewrite Z.pow_add_r, <- Z.div_div by (try apply Z.pow_nonzero; lia). change (2 ^ 12) with 4096.
    set (y := x / 4096). change 512 with (2 ^ 9). bitwise. rewrite !testbit_wrap by lia.
    destruct (k0 <? 9) eqn:E9; [|done]. zbool. rewrite <- !Z.shiftr_div_pow2 by lia. rewrite !Z.shiftr_spec by lia.
    rewrite testbit_wrap by lia. by replace (k0 + k <? 36) with true by lia. }
  split; [|by rewrite !(Hx 0) by lia; rewrite E].
  change 39 with (12 + 27). change 30 with (12 + 18). change 21 with (12 + 9).
  rewrite !(Hx 27), !(Hx 18), !(Hx 9) by lia. by rewrite E.
Qed.

(** ** Memory of a table *)

Lemma entry_ptr_bounds t i : 0 <= i < 512 -> t <= entry_ptr t i /\ entry_ptr t i + 8 <= t + 4096.
Proof. unfold entry_ptr. lia. Qed.

Lemma entry_store_other m a i v b j :
  a mod 4096 = 0 -> b mod 4096 = 0 -> 0 <= i < 512 -> 0 <= j < 512 -> (a, i) <> (b, j) ->
  entry (store64 m (entry_ptr a i) v) b j = entry m b j.
Proof.
  intros Ha Hb Hi Hj Hne. unfold entry. apply load_store_other. unfold entry_ptr.
  assert (a <> b \/ i <> j) as Hc by (destruct (decide (a = b)) as [->|]; [right; by intros ->|by left]).
  simpl. dlia.
Qed.

Lemma entry_store_same m a i v : 0 <= v < 2 ^ 64 -> entry (store64 m (entry_ptr a i) v) a i = v.
Proof. apply load64_store64. Qed.

Lemma zero_page_spec p m :
  (forall i, 0 <= i < 512 -> entry (zero_page p m) p i = 0) /\
  (forall x, x < p \/ p + 4096 <= x -> zero_page p m x = m x).
Proof.
  unfold zero_page. apply (for_range_ind (fun k m' => (forall i, 0 <= i < k -> entry m' p i = 0) /\
    (forall x, x < p \/ p + 4096 <= x -> m' x = m x))).
  - done.
  - split; [lia|done].
  - change (VMM_PAGE_SIZE / 8) with 512. intros j m' Hj [I1 I2]. split.
    + intros i Hi. destruct (decide (i = j)) as [->|].
      * apply (load64_store64 m' (p + 8 * j) 0). lia.
      * unfold entry, entry_ptr. rewrite load_store_other by (simpl; lia). apply I1. lia.
    + intros x Hx. rewrite store_other by (simpl; lia). by apply I2.
Qed.

(** The offset of an address put into the frame it maps to. *)
Lemma map_or_offset phys off :
  0 <= phys < 2 ^ 52 -> phys mod 4096 = 0 -> 0 <= off < 4096 -> Z.lor (Z.land phys VMM_ADDR_MASK) off = phys + off.
Proof.
  intros Hp Hal Ho.
  assert (E : Z.land phys VMM_ADDR_MASK = phys).
  { fold (pte_addr phys). rewrite <- (Z.lor_0_r phys) at 1. apply pte_addr_lor; auto using Z.bits_0. }
  rewrite E, <- Z.add_lor_land. replace (Z.land phys off) with 0; [lia|]. symmetry. bitwise.
  rewrite Z.land_spec, Z.bits_0. destruct (Z.testbit phys k) eqn:E1; [|done]. apply page_bits in E1; [|done..].
  rewrite <- (Z.mod_small off (2 ^ 12)) by lia. rewrite Z.mod_pow2_bits_high by lia. done.
Qed.

Section Props.
Context {S : Type} `{PageAllocatorLaws S}.
Implicit Types s : vmm S.

(** A page that holds a table: an aligned frame the allocator has given away. *)
Definition table_page s (a : Z) : Prop :=
  0 < a < 2 ^ 52 /\ a mod 4096 = 0 /\ pa_used (vm_pa s) (a / PAGE_SIZE) = true.

(** The tables under [root] form a tree of such pages. *)
Record tree s (root : Z) : Prop := {
  t_alloc : pa_wf (vm_pa s);
  t_page : forall p a, path_ok 3 p -> table_at (vm_mem s) root p = Some a -> table_page s a;
  t_inj : forall p q a, path_ok 3 p -> path_ok 3 q ->
    table_at (vm_mem s) root p = Some a -> table_at (vm_mem s) root q = Some a -> p = q;
}.

(** The entry that maps the page of [v], if there is one. *)
Definition mapping (m : mem) (root v : Z) : option Z :=
  match table_at m root (path_of v) with
  | Some t => let e := entry m t (VMM_PT_INDEX v) in if has e VMM_FLAG_PRESENT then Some e else None
  | None => None
  end.

Lemma mapping_vpage m root v w : vpage v = vpage w -> mapping m root v = mapping m root w.
Proof. intros [E1 E2]%vpage_index. unfold mapping. by rewrite E1, E2. Qed.

(** The registers are as before. *)
Definition same_regs s s' : Prop :=
  kernel_pml4_phys s' = kernel_pml4_phys s /\ cr3 s' = cr3 s /\ tlb_ops s' = tlb_ops s.

Lemma same_regs_trans s1 s2 s3 : same_regs s1 s2 -> same_regs s2 s3 -> same_regs s1 s3.
Proof. unfold same_regs. intuition congruence. Qed.

Lemma active_same s s' : same_regs s s' -> active_pml4 s' = active_pml4 s.
Proof. intros (E1 & E2 & _). unfold active_pml4. by rewrite E1, E2. Qed.

(** ** Growing the tree *)

(** The entries a walk from [root] reads: a new page linked at [p ++ [i]] is seen only
    there. *)
Section Link.
Variables (s : vmm S) (root : Z) (p : list Z) (i a new v : Z) (m' : mem).
Hypothesis Htree : tree s root.
Hypothesis Hp : path_ok 2 p.
Hypothesis Hi : 0 <= i < 512.
Hypothesis Ha : table_at (vm_mem s) root p = Some a.
Hypothesis Habs : has (entry (vm_mem s) a i) VMM_FLAG_PRESENT = false.
Hypothesis Hnew : 0 < new < 2 ^ 52 /\ new mod 4096 = 0 /\ pa_used (vm_pa s) (new / PAGE_SIZE) = false.
Hypothesis Hv : has v VMM_FLAG_PRESENT = true /\ pte_addr v = new.
Hypothesis Hlink : entry m' a i = v.
Hypothesis Hzero : forall j, 0 <= j < 512 -> entry m' new j = 0.
Hypothesis Hrest : forall b j, b mod 4096 = 0 -> 0 <= j < 512 -> b <> new -> (a, i) <> (b, j) ->
  entry m' b j = entry (vm_mem s) b j.

Lemma not_new b q : path_ok 3 q -> table_at (vm_mem s) root q = Some b -> b <> new.
Proof. intros Hq Hb ->. destruct (t_page _ _ Htree q new Hq Hb) as (_ & _ & Hu). destruct Hnew as (_ & _ & Hn). congruence. Qed.

Lemma link_other q : path_ok 3 q -> ~ (p ++ [i]) `prefix_of` q -> table_at m' root q = table_at (vm_mem s) root q.
Proof.
  intros Hq Hpre. apply table_at_frame. intros p' j r b -> Hb.
  assert (Hp' : path_ok 3 p') by by eapply path_ok_app.
  destruct (t_page _ _ Htree p' b Hp' Hb) as (_ & Hal & _).
  apply Hrest; [done| |by eapply not_new|].
  - destruct Hq as [_ Hf]. apply Forall_app in Hf as [_ Hf]. by apply Forall_cons in Hf as [? _].
  - intros [= <- <-]. apply Hpre. rewrite (t_inj _ _ Htree p p' a); [|by apply (path_ok_le 2); [lia|]|done..].
    exists r. by rewrite <- app_assoc.
Qed.

Lemma link_new r : path_ok 3 ((p ++ [i]) ++ r) ->
  table_at m' root ((p ++ [i]) ++ r) = match r with [] => Some new | _ => None end.
Proof.
  intros Hq. rewrite !table_at_app. rewrite link_other; [|by apply (path_ok_le 2); [lia|]|].
  - rewrite Ha. simpl. rewrite Hlink, (proj1 Hv), (proj2 Hv). destruct r as [|j r]; [done|]. simpl.
    rewrite Hzero; [done|]. destruct Hq as [_ Hf]. apply Forall_app in Hf as [_ Hf]. by apply Forall_cons in Hf as [? _].
  - intros [l E]. apply (f_equal length) in E. rewrite !length_app in E. simpl in E. lia.
Qed.

Lemma link_old r : table_at (vm_mem s) root ((p ++ [i]) ++ r) = None.
Proof. rewrite !table_at_app, Ha. simpl. by rewrite Habs. Qed.

Lemma link_tree s' :
  vm_mem s' = m' -> pa_wf (vm_pa s') -> (forall k, pa_used (vm_pa s) k = true -> pa_used (vm_pa s') k = true) ->
  pa_used (vm_pa s') (new / PAGE_SIZE) = true -> tree s' root.
Proof.
  intros Em Hwf Hmono Hused.
  assert (Hcase : forall q b, path_ok 3 q -> table_at m' root q = Some b ->
    (q = p ++ [i] /\ b = new) \/ (table_at (vm_mem s) root q = Some b /\ b <> new)).
  { intros q b Hq Hb. destruct (decide ((p ++ [i]) `prefix_of` q)) as [[r ->]|Hn].
    - rewrite link_new in Hb by done. destruct r; [|done]. left. rewrite app_nil_r. split; congruence.
    - rewrite link_other in Hb by done. right. split; [done|]. by eapply not_new. }
  split; [done| |].
  - intros q b Hq Hb. rewrite Em in Hb. destruct (Hcase q b Hq Hb) as [[_ ->]|[Hb' _]].
    + destruct Hnew as (N1 & N2 & _). done.
    + destruct (t_page _ _ Htree q b Hq Hb') as (N1 & N2 & N3). split; [done|]. split; [done|]. auto.
  - intros q q' b Hq Hq' Hb Hb'. rewrite Em in *.
    destruct (Hcase q b Hq Hb) as [[-> ->]|[B1 B2]], (Hcase q' _ Hq' Hb') as [[-> E]|[B1' B2']]; try done.
    by apply (t_inj _ _ Htree q q' b).
Qed.

Lemma link_mapping w : mapping m' root w = mapping (vm_mem s) root w.
Proof.
  unfold mapping. pose proof (path_of_ok w) as Hw.
  destruct (decide ((p ++ [i]) `prefix_of` path_of w)) as [[r E]|Hn].
  - rewrite E, link_old. rewrite E in Hw. rewrite link_new by done. destruct r; [|done].
    cbv zeta. rewrite Hzero; [done|]. by apply index_range.
  - rewrite link_other by done. destruct (table_at (vm_mem s) root (path_of w)) as [t|] eqn:Et; [|done].
    cbv zeta. destruct (t_page _ _ Htree _ _ Hw Et) as (_ & Hal & _).
    rewrite Hrest; [done|done|by apply index_range|by eapply not_new|].
    intros [= <- _]. assert (E : p = path_of w); [|rewrite E in Hp; destruct Hp as [Hl _]; simpl in Hl; lia].
    apply (t_inj _ _ Htree p (path_of w) a); [by apply (path_ok_le 2); [lia|]|done..].
Qed.
End Link.

(** No page is left. *)
Definition full (a : S) : Prop := forall k, 0 <= k -> pa_managed a k = true -> pa_used a k = true.

(** What a walk may do to the state: allocate and link tables. *)
Definition grows root s s' : Prop :=
  tree s' root /\ same_regs s s' /\ (forall w, mapping (vm_mem s') root w = mapping (vm_mem s) root w) /\
  (forall k, pa_used (vm_pa s) k = true -> pa_used (vm_pa s') k = true) /\
  (forall k, pa_managed (vm_pa s') k = pa_managed (vm_pa s) k) /\
  (forall q a, path_ok 3 q -> table_at (vm_mem s) root q = Some a -> table_at (vm_mem s') root q = Some a).

Lemma grows_refl root s : tree s root -> grows root s s.
Proof. intros Ht. split; [done|]. by repeat split. Qed.
Lemma grows_trans root s1 s2 s3 : grows root s1 s2 -> grows root s2 s3 -> grows root s1 s3.
Proof.
  intros (T1 & R1 & M1 & U1 & N1 & P1) (T2 & R2 & M2 & U2 & N2 & P2). split; [done|].
  split; [by eapply same_regs_trans|]. split; [intros w; by rewrite M2, M1|]. split; [auto|]. split; [intros k; by rewrite N2, N1|auto].
Qed.

Lemma alloc_table_spec s : pa_wf (vm_pa s) ->
  let '(s', new) := alloc_page_table s in
  if new =? 0 then s' = s /\ full (vm_pa s)
  else same_regs s s' /\ pa_wf (vm_pa s') /\ 0 < new < 2 ^ 52 /\ new mod 4096 = 0 /\
    pa_used (vm_pa s) (new / PAGE_SIZE) = false /\
    (forall k, pa_used (vm_pa s') k = pa_used (vm_pa s) k || (k =? new / PAGE_SIZE)) /\
    (forall k, pa_managed (vm_pa s') k = pa_managed (vm_pa s) k) /\
    vm_mem s' = zero_page new (vm_mem s).
Proof.
  intros Hwf. unfold alloc_page_table. destruct (pa_alloc 1 (vm_pa s)) as [new a] eqn:E.
  destruct (new =? 0) eqn:E0; zbool.
  - subst new. split; [|intros k Hk; by apply (pa_alloc_complete _ _ Hwf E)].
    apply pa_alloc_fail in E as ->; [|done|lia]. by destruct s.
  - destruct (pa_alloc_ok (vm_pa s) 1 new a Hwf ltac:(lia) E E0) as (A1 & A2 & A3 & A4 & A5 & A6 & A7 & A8).
    replace (new =? 0) with false by lia.
    split; [done|]. split; [done|]. split; [unfold GB, MB, KB, PAGE_SIZE in *; lia|]. split; [done|].
    split; [apply (A6 (new / PAGE_SIZE)); unfold in_pages; lia|]. split; [|done].
    intros k. simpl. rewrite A7. f_equal. unfold in_pages. lia.
Qed.

(** The value linked in. *)
Lemma link_value new f :
  0 < new < 2 ^ 52 -> new mod 4096 = 0 ->
  let v := Z.lor new (if (f : bool) then Z.lor (Z.lor VMM_FLAG_PRESENT VMM_FLAG_WRITE) VMM_FLAG_USER
                      else Z.lor VMM_FLAG_PRESENT VMM_FLAG_WRITE) in
  has v VMM_FLAG_PRESENT = true /\ pte_addr v = new /\ 0 <= v < 2 ^ 64 /\ has v VMM_FLAG_USER = f /\
  has v VMM_FLAG_HUGE = false.
Proof.
  intros Hn Hal. set (g := if f then _ else _). cbv zeta.
  assert (Hb : forall k, 0 <= k < 12 -> Z.testbit new k = false).
  { intros k Hk. destruct (Z.testbit new k) eqn:E; [|done]. apply page_bits in E; lia. }
  assert (Hg : g = 7 \/ g = 3) by (unfold g; destruct f; [left|right]; reflexivity).
  assert (Hgb : forall k, 12 <= k < 52 -> Z.testbit g k = false).
  { intros k Hk. assert (0 <= g < 2 ^ 3) by (destruct Hg as [->| ->]; lia).
    rewrite <- (Z.mod_small g (2 ^ 3)) by lia. apply Z.mod_pow2_bits_high. lia. }
  unfold VMM_FLAG_PRESENT at 1, VMM_FLAG_USER at 1, VMM_FLAG_HUGE. rewrite !has_bit, !Z.lor_spec, !Hb by lia. simpl.
  split; [by destruct Hg as [->| ->]|]. split; [apply pte_addr_lor; [lia|done..]|]. split; [|].
  - split; [apply Z.lor_nonneg; lia|]. apply Z.log2_lt_cancel. change (Z.log2 (2 ^ 64)) with 64.
    rewrite Z.log2_lor by lia. apply Z.max_lub_lt.
    + apply Z.log2_lt_pow2; lia.
    + destruct Hg as [->| ->]; simpl; lia.
  - split; [unfold g; by destruct f|]. by destruct Hg as [->| ->].
Qed.

Lemma get_or_create_spec s root p i a create flags :
  tree s root -> path_ok 2 p -> 0 <= i < 512 -> table_at (vm_mem s) root p = Some a ->
  let '(s', b) := get_or_create_entry a i create flags s in
  grows root s s' /\
  (if b =? 0 then if create then full (vm_pa s') else table_at (vm_mem s) root (p ++ [i]) = None
   else table_at (vm_mem s') root (p ++ [i]) = Some b) /\ (create = false -> s' = s).
Proof.
  intros Ht Hp Hi Ha. unfold get_or_create_entry.
  assert (Hn : table_at (vm_mem s) root (p ++ [i]) = if has (entry (vm_mem s) a i) VMM_FLAG_PRESENT then
     Some (pte_addr (entry (vm_mem s) a i)) else None) by (rewrite table_at_app, Ha; done).
  assert (Hpok : path_ok 3 (p ++ [i])) by (apply path_ok_snoc; [apply Hp|done..]).
  destruct (has (entry (vm_mem s) a i) VMM_FLAG_PRESENT) eqn:Epr.
  - destruct (t_page _ _ Ht _ _ Hpok Hn) as (N1 & _). replace (pte_addr _ =? 0) with false by lia.
    split; [by apply grows_refl|done].
  - destruct create; cbn [negb]; [|split; [by apply grows_refl|]; split; [exact Hn|done]].
    pose proof (alloc_table_spec s (t_alloc _ _ Ht)) as Hal. destruct (alloc_page_table s) as [s1 new].
    destruct (new =? 0) eqn:E0.
    + destruct Hal as [-> Hfull]. split; [by apply grows_refl|]. done.
    + destruct Hal as (A1 & A2 & A3 & A4 & A5 & A6 & A8 & A7). cbv zeta. rewrite E0.
      destruct (link_value new (has flags VMM_FLAG_USER) A3 A4) as (V1 & V2 & V3 & _). cbv zeta in *.
      set (v := Z.lor new _) in *. destruct (zero_page_spec new (vm_mem s)) as [Z1 Z2].
      destruct (t_page _ _ Ht p a ltac:(by apply (path_ok_le 2); [lia|]) Ha) as (P1 & P2 & P3).
      assert (Hna : a <> new) by congruence.
      set (m' := set_entry (vm_mem s1) a i v).
      assert (L1 : entry m' a i = v) by by apply entry_store_same.
      assert (L2 : forall j, 0 <= j < 512 -> entry m' new j = 0).
      { intros j Hj. unfold m', set_entry. rewrite A7, entry_store_other by (try done; congruence). by apply Z1. }
      assert (L3 : forall b j, b mod 4096 = 0 -> 0 <= j < 512 -> b <> new -> (a, i) <> (b, j) ->
        entry m' b j = entry (vm_mem s) b j).
      { intros b j Hb Hj Hbn Hne. unfold m', set_entry. rewrite A7, entry_store_other by done.
        apply load_agree. intros x Hx. apply Z2. pose proof (entry_ptr_bounds b j Hj). simpl in Hx. dlia. }
      assert (Hused : forall k, pa_used (vm_pa s) k = true -> pa_used (vm_pa s1) k = true)
        by (intros k Hk; rewrite A6, Hk; done).
      split; [|split; [|done]].
      * split; [|split; [done|split; [|split; [done|split; [done|]]]]].
        { apply (link_tree s root p i a new v m' Ht Hp Ha Epr (conj A3 (conj A4 A5)) (conj V1 V2) L1 L2 L3); try done.
          simpl. rewrite A6. lia. }
        { intros w. exact (link_mapping s root p i a new v m' Ht Hp Ha Epr (conj A3 (conj A4 A5)) (conj V1 V2) L1 L2 L3 w). }
        { intros q b Hq Hb. destruct (decide ((p ++ [i]) `prefix_of` q)) as [[r ->]|Hnp].
          - by rewrite (link_old s root p i a Ha Epr) in Hb.
          - change (table_at m' root q = Some b).
            by rewrite (link_other s root p i a new v m' Ht Hp Ha Epr (conj A3 (conj A4 A5)) (conj V1 V2) L3 q Hq Hnp). }
      * change (table_at m' root (p ++ [i]) = Some new). rewrite <- (app_nil_r (p ++ [i])).
        rewrite (link_new s root p i a new v m' Ht Hp Ha Epr (conj A3 (conj A4 A5)) (conj V1 V2) L1 L2 L3); [done|].
        by rewrite app_nil_r.
Qed.

(** ** Walks *)

Lemma walk_spec s root v create flags :
  tree s root ->
  let '(s', pte) := vmm_walk root v create flags s in
  grows root s s' /\
  (if pte =? NULL then if create then full (vm_pa s') else mapping (vm_mem s) root v = None
   else exists t, table_at (vm_mem s') root (path_of v) = Some t /\ pte = entry_ptr t (VMM_PT_INDEX v)) /\
  (create = false -> s' = s).
Proof.
  intros Ht. unfold vmm_walk, mapping, path_of.
  assert (I4 : 0 <= VMM_PML4_INDEX v < 512) by by apply index_range.
  assert (I3 : 0 <= VMM_PDPT_INDEX v < 512) by by apply index_range.
  assert (I2 : 0 <= VMM_PD_INDEX v < 512) by by apply index_range.
  set (i4 := VMM_PML4_INDEX v) in *. set (i3 := VMM_PDPT_INDEX v) in *. set (i2 := VMM_PD_INDEX v) in *.
  assert (P0 : path_ok 2 []) by (split; [simpl; lia|done]).
  assert (P1 : path_ok 2 [i4]) by (split; [simpl; lia|by apply Forall_singleton]).
  assert (P2 : path_ok 2 [i4; i3]) by (split; [simpl; lia|by rewrite !Forall_cons]).
  assert (P3 : path_ok 3 [i4; i3; i2]) by (split; [simpl; lia|by rewrite !Forall_cons]).
  assert (Hnone : forall s' p r, s' = s -> table_at (vm_mem s') root p = None -> table_at (vm_mem s) root (p ++ r) = None)
    by (intros s' p r -> Hx; by rewrite table_at_app, Hx).
  pose proof (get_or_create_spec s root [] i4 root create flags Ht P0 I4 eq_refl) as G1.
  destruct (get_or_create_entry root i4 create flags s) as [s1 pdpt]. destruct G1 as (G1 & B1 & C1).
  destruct (pdpt =? 0) eqn:E1.
  { split; [done|]. split; [|done]. destruct create; [done|]. by rewrite (Hnone s [i4] [i3; i2] eq_refl B1 : table_at (vm_mem s) root [i4; i3; i2] = None). }
  pose proof (get_or_create_spec s1 root [i4] i3 pdpt create flags (proj1 G1) P1 I3 B1) as G2.
  destruct (get_or_create_entry pdpt i3 create flags s1) as [s2 pd]. destruct G2 as (G2 & B2 & C2).
  assert (G12 : grows root s s2) by by eapply grows_trans.
  destruct (pd =? 0) eqn:E2.
  { split; [done|]. split; [|intros Ec; rewrite C2, C1; done].
    destruct create; [done|]. by rewrite (Hnone s1 [i4; i3] [i2] (C1 eq_refl) B2 : table_at (vm_mem s) root [i4; i3; i2] = None). }
  pose proof (get_or_create_spec s2 root [i4; i3] i2 pd create flags (proj1 G2) P2 I2 B2) as G3.
  destruct (get_or_create_entry pd i2 create flags s2) as [s3 pt]. destruct G3 as (G3 & B3 & C3).
  assert (G123 : grows root s s3) by by eapply grows_trans.
  assert (Hs3 : create = false -> s3 = s) by (intros Ec; rewrite C3, C2, C1; done).
  destruct (pt =? 0) eqn:E3.
  { split; [done|]. split; [|done]. destruct create; [done|].
    by rewrite (Hnone s2 [i4; i3; i2] [] ltac:(by rewrite C2, C1) B3 : table_at (vm_mem s) root [i4; i3; i2] = None). }
  destruct (t_page _ _ (proj1 G3) [i4; i3; i2] pt P3 B3) as (Hpt & _).
  pose proof (entry_ptr_bounds pt (VMM_PT_INDEX v) (index_range v 12 ltac:(lia))).
  unfold NULL. replace (entry_ptr pt (VMM_PT_INDEX v) =? 0) with false by lia.
  split; [done|]. split; [|done]. exists pt. done.
Qed.

(** ** Writing an entry of a last-level table *)

Definition as_pte (e : Z) : option Z := if has e VMM_FLAG_PRESENT then Some e else None.

Lemma leaf_write s s' root v t e :
  tree s root -> table_at (vm_mem s) root (path_of v) = Some t -> 0 <= e < 2 ^ 64 -> vm_pa s' = vm_pa s ->
  vm_mem s' = store64 (vm_mem s) (entry_ptr t (VMM_PT_INDEX v)) e ->
  tree s' root /\ (forall q, path_ok 3 q -> table_at (vm_mem s') root q = table_at (vm_mem s) root q) /\
  (forall w, mapping (vm_mem s') root w = if decide (vpage w = vpage v) then as_pte e else mapping (vm_mem s) root w).
Proof.
  intros Ht Hv He Epa Em. pose proof (path_of_ok v) as Pv.
  assert (Hix : forall w, 0 <= VMM_PT_INDEX w < 512) by (intros w; exact (index_range w 12 ltac:(lia))).
  destruct (t_page _ _ Ht _ _ Pv Hv) as (_ & Hal & _).
  assert (Htab : forall q, path_ok 3 q -> table_at (vm_mem s') root q = table_at (vm_mem s) root q).
  { intros q Hq. apply table_at_frame. intros p j r a -> Ha.
    assert (Hp : path_ok 3 p) by by eapply path_ok_app.
    destruct (t_page _ _ Ht _ _ Hp Ha) as (_ & Hala & _). rewrite Em. apply entry_store_other; auto.
    - destruct Hq as [_ Hf]. apply Forall_app in Hf as [_ Hf]. by apply Forall_cons in Hf as [? _].
    - intros [= <- _]. destruct Hq as [Hl _]. rewrite length_app in Hl. simpl in Hl.
      rewrite <- (t_inj _ _ Ht (path_of v) p t Pv Hp Hv Ha) in Hl. simpl in Hl. lia. }
  split; [|split; [done|]].
  - destruct Ht as [T1 T2 T3]. split; [by rewrite Epa| |].
    + intros q a Hq Ha. rewrite Htab in Ha by done. destruct (T2 q a Hq Ha) as (A1 & A2 & A3). split; [done|].
      split; [done|]. by rewrite Epa.
    + intros q q' a Hq Hq' Ha Ha'. rewrite Htab in Ha, Ha' by done. by apply (T3 q q' a).
  - intros w. unfold mapping. rewrite Htab by apply path_of_ok.
    destruct (decide (vpage w = vpage v)) as [Ew|Ew].
    + destruct (vpage_index _ _ Ew) as [-> ->]. rewrite Hv, Em. unfold as_pte. cbv zeta.
      by rewrite entry_store_same.
    + destruct (table_at (vm_mem s) root (path_of w)) as [u|] eqn:Eu; [|done]. cbv zeta.
      destruct (t_page _ _ Ht _ _ (path_of_ok w) Eu) as (_ & Halu & _).
      rewrite Em, entry_store_other; auto. intros [= <- E]. apply Ew, vpage_path; [|done].
      by apply (t_inj _ _ Ht (path_of w) (path_of v) t); auto using path_of_ok.
Qed.

(** ** Mapping and unmapping *)

(** The entry [vmm_map_page] writes. *)
Definition new_pte (phys flags : Z) : Z :=
  Z.lor (Z.lor (Z.land phys VMM_ADDR_MASK) (Z.land flags (Z.lnot VMM_ADDR_MASK))) VMM_FLAG_PRESENT.

Lemma new_pte_bit phys flags k : 0 <= k ->
  Z.testbit (new_pte phys flags) k =
    (if (12 <=? k) && (k <? 52) then Z.testbit phys k else Z.testbit flags k || (k =? 0)).
Proof.
  intros Hk. unfold new_pte. rewrite !Z.lor_spec, !Z.land_spec, Z.lnot_spec, addr_mask_bit by done.
  change VMM_FLAG_PRESENT with (2 ^ 0). rewrite Z.pow2_bits_eqb by lia. rewrite (Z.eqb_sym 0 k).
  destruct ((12 <=? k) && (k <? 52)) eqn:E; simpl; rewrite ?andb_true_r, ?andb_false_r; [|done].
  zbool. replace (k =? 0) with false by lia. by rewrite !orb_false_r.
Qed.

Lemma range_bits x n : 0 <= n -> 0 <= x -> (forall k, n <= k -> Z.testbit x k = false) -> x < 2 ^ n.
Proof.
  intros Hn Hx Hb. replace x with (x mod 2 ^ n); [apply Z.mod_pos_bound; lia|].
  bitwise. rewrite testbit_wrap by lia. destruct (k <? n) eqn:E; [done|]. zbool. by rewrite Hb.
Qed.

Lemma new_pte_spec phys flags :
  0 <= phys < 2 ^ 64 -> 0 <= flags < 2 ^ 64 ->
  as_pte (new_pte phys flags) = Some (new_pte phys flags) /\ 0 <= new_pte phys flags < 2 ^ 64 /\
  pte_addr (new_pte phys flags) = Z.land phys VMM_ADDR_MASK.
Proof.
  intros Hp Hf. split; [|split].
  - unfold as_pte, VMM_FLAG_PRESENT. rewrite has_bit, new_pte_bit by lia. simpl. by rewrite orb_true_r.
  - assert (0 <= new_pte phys flags).
    { unfold new_pte. rewrite !Z.lor_nonneg. split; [split|done]; apply Z.land_nonneg; left; lia. }
    split; [done|]. apply range_bits; [lia|done|]. intros k Hk. rewrite new_pte_bit by lia.
    replace ((12 <=? k) && (k <? 52)) with false by lia. replace (k =? 0) with false by lia.
    rewrite <- (Z.mod_small flags (2 ^ 64)) by lia. by rewrite Z.mod_pow2_bits_high by lia.
  - unfold pte_addr. bitwise. rewrite !Z.land_spec, new_pte_bit, addr_mask_bit by done.
    by destruct ((12 <=? k) && (k <? 52)); rewrite ?andb_false_r.
Qed.

Lemma map_page_spec s virt phys flags :
  tree s (active_pml4 s) -> 0 <= phys < 2 ^ 64 -> 0 <= flags < 2 ^ 64 ->
  let '(s', ok) := vmm_map_page virt phys flags s in
  tree s' (active_pml4 s) /\ active_pml4 s' = active_pml4 s /\
  (forall q a, path_ok 3 q -> table_at (vm_mem s) (active_pml4 s) q = Some a -> table_at (vm_mem s') (active_pml4 s) q = Some a) /\
  (forall k, pa_used (vm_pa s) k = true -> pa_used (vm_pa s') k = true) /\
  (forall k, pa_managed (vm_pa s') k = pa_managed (vm_pa s) k) /\
  if ok then
    virt mod 4096 = 0 /\ phys mod 4096 = 0 /\ tlb_ops s' = Invlpg virt :: tlb_ops s /\
    forall w, mapping (vm_mem s') (active_pml4 s) w =
      if decide (vpage w = vpage virt) then Some (new_pte phys flags) else mapping (vm_mem s) (active_pml4 s) w
  else (virt mod 4096 = 0 -> phys mod 4096 = 0 -> full (vm_pa s')) /\ tlb_ops s' = tlb_ops s /\
    forall w, mapping (vm_mem s') (active_pml4 s) w = mapping (vm_mem s) (active_pml4 s) w.
Proof.
  intros Ht Hp Hf. unfold vmm_map_page. change VMM_PAGE_SIZE with (2 ^ 12). rewrite !IS_ALIGNED_pow2 by lia.
  change (2 ^ 12) with 4096. destruct (negb (virt mod 4096 =? 0) || negb (phys mod 4096 =? 0)) eqn:Eal.
  { split; [done|]. do 4 (split; [done|]). split; [|done]. intros E1 E2. by rewrite E1, E2 in Eal. }
  zbool.
  pose proof (walk_spec s (active_pml4 s) virt true flags Ht) as Hw.
  destruct (vmm_walk (active_pml4 s) virt true flags s) as [s1 pte].
  destruct Hw as ((T1 & R1 & M1 & U1 & N1 & P1) & Hw & _). rewrite <- (active_same _ _ R1) in *.
  destruct (pte =? NULL) eqn:E0.
  - do 5 (split; [done|]). split; [done|]. by destruct R1 as (_ & _ & ->).
  - destruct Hw as (t & Htab & ->). destruct (new_pte_spec phys flags Hp Hf) as (V1 & V2 & _).
    fold (new_pte phys flags).
    set (s2 := invlpg _ _). destruct (leaf_write s1 s2 (active_pml4 s1) virt t (new_pte phys flags) T1 Htab V2 eq_refl eq_refl)
      as (L1 & L2 & L3).
    split; [done|]. split; [done|]. split; [intros q a Hq Ha; rewrite L2 by done; by apply P1|]. split; [done|]. split; [done|].
    split; [done|]. split; [done|]. split; [simpl; by destruct R1 as (_ & _ & ->)|].
    intros w. rewrite L3, V1. by rewrite M1.
Qed.

(** A walk that creates nothing finds the entry of the page. *)
Lemma lookup_spec s root v :
  tree s root -> exists pte, vmm_walk root v false 0 s = (s, pte) /\
  mapping (vm_mem s) root v = (if pte =? NULL then None else as_pte (load64 (vm_mem s) pte)) /\
  (pte <> NULL -> exists t, table_at (vm_mem s) root (path_of v) = Some t /\ pte = entry_ptr t (VMM_PT_INDEX v)).
Proof.
  intros Ht. pose proof (walk_spec s root v false 0 Ht) as Hw. destruct (vmm_walk root v false 0 s) as [s' pte].
  destruct Hw as (_ & Hw & Hs). rewrite Hs in * by done. exists pte. split; [done|].
  destruct (pte =? NULL) eqn:E; zbool; [by rewrite Hw|]. destruct Hw as (t & Htab & ->). split; [|by exists t].
  unfold mapping. by rewrite Htab.
Qed.

Lemma unmap_page_spec s virt :
  tree s (active_pml4 s) ->
  let '(s', r) := vmm_unmap_page virt s in
  tree s' (active_pml4 s) /\ active_pml4 s' = active_pml4 s /\ vm_pa s' = vm_pa s /\
  if decide (virt mod 4096 = 0 /\ mapping (vm_mem s) (active_pml4 s) virt <> None) then
    Some r = option_map pte_addr (mapping (vm_mem s) (active_pml4 s) virt) /\
    tlb_ops s' = Invlpg virt :: tlb_ops s /\
    forall w, mapping (vm_mem s') (active_pml4 s) w =
      if decide (vpage w = vpage virt) then None else mapping (vm_mem s) (active_pml4 s) w
  else s' = s /\ r = 0.
Proof.
  intros Ht. unfold vmm_unmap_page. change VMM_PAGE_SIZE with (2 ^ 12). rewrite IS_ALIGNED_pow2 by lia. change (2 ^ 12) with 4096.
  destruct (virt mod 4096 =? 0) eqn:Eal; cbn [negb]; zbool.
  - destruct (lookup_spec s (active_pml4 s) virt Ht) as (pte & -> & Hm & Hp). unfold as_pte in Hm.
    destruct (pte =? NULL) eqn:E0; cbn [orb]; zbool; [rewrite decide_False by (intros [_ ?]; congruence); done|].
    destruct (has (load64 (vm_mem s) pte) VMM_FLAG_PRESENT); cbn [negb].
    2: { rewrite decide_False by (intros [_ ?]; congruence). done. }
    rewrite decide_True by (split; congruence). destruct (Hp E0) as (t & Htab & Ept).
    set (s2 := invlpg _ _). destruct (leaf_write s s2 (active_pml4 s) virt t 0 Ht Htab ltac:(lia) eq_refl ltac:(by rewrite <- Ept))
      as (L1 & L2 & L3).
    split; [done|]. split; [done|]. split; [done|]. rewrite Hm. split; [done|]. split; [done|]. done.
  - rewrite decide_False by tauto. done.
Qed.

Lemma get_physical_spec s virt :
  tree s (active_pml4 s) ->
  vmm_get_physical virt s = (match mapping (vm_mem s) (active_pml4 s) virt with
    | Some e => Z.lor (pte_addr e) (virt mod 4096) | None => 0 end) /\
  vmm_is_mapped virt s = bool_decide (mapping (vm_mem s) (active_pml4 s) virt <> None).
Proof.
  intros Ht. unfold vmm_get_physical, vmm_is_mapped.
  destruct (lookup_spec s (active_pml4 s) virt Ht) as (pte & -> & Hm & _). rewrite Hm. unfold as_pte.
  destruct (pte =? NULL); [done|]. destruct (has _ _); [|done]. split; [|done].
  unfold VMM_PAGE_OFFSET. change VMM_OFFSET_MASK with (Z.ones 12). rewrite Z.land_ones by lia. done.
Qed.

(** ** Ranges *)

(** The pages of a range of [n] pages from [virt]. *)
Definition nth_page (virt i : Z) : Z := u64 (virt + u64 (i * VMM_PAGE_SIZE)).
Definition in_range (virt n w : Z) : Prop := exists i, 0 <= i < n /\ vpage w = vpage (nth_page virt i).

Lemma vpage_wrap x : vpage (u64 x) = vpage x.
Proof.
  unfold vpage, u64. change 4096 with (2 ^ 12). rewrite <- !Z.shiftr_div_pow2 by lia. bitwise.
  rewrite !testbit_wrap by lia. destruct (k <? 36) eqn:E; [|done]. zbool. simpl. rewrite !Z.shiftr_spec by lia.
  rewrite testbit_wrap by lia. by replace (k + 12 <? 64) with true by lia.
Qed.

Lemma nth_page_vpage virt i : vpage (nth_page virt i) = (vpage virt + i) mod 2 ^ 36.
Proof.
  unfold nth_page. replace (u64 (virt + u64 (i * VMM_PAGE_SIZE))) with (u64 (virt + i * VMM_PAGE_SIZE))
    by (unfold u64; by rewrite Zplus_mod_idemp_r).
  rewrite vpage_wrap. unfold vpage, VMM_PAGE_SIZE. rewrite Z.div_add by lia. by rewrite Zplus_mod_idemp_l.
Qed.

(** Distinct pages of a range that is no larger than the address space. *)
Lemma nth_page_inj virt i j : 0 <= i < 2 ^ 36 -> 0 <= j < 2 ^ 36 ->
  vpage (nth_page virt i) = vpage (nth_page virt j) -> i = j.
Proof. intros Hi Hj. rewrite !nth_page_vpage. change (2 ^ 36) with 68719476736 in *. dlia. Qed.

Lemma unmap_range_spec s virt n :
  tree s (active_pml4 s) -> virt mod 4096 = 0 -> 0 <= n ->
  let s' := unmap_range virt n s in
  tree s' (active_pml4 s) /\ active_pml4 s' = active_pml4 s /\
  forall w, (in_range virt n w -> mapping (vm_mem s') (active_pml4 s) w = None) /\
    (~ in_range virt n w -> mapping (vm_mem s') (active_pml4 s) w = mapping (vm_mem s) (active_pml4 s) w).
Proof.
  intros Ht Hal Hn. unfold unmap_range. set (root := active_pml4 s) in *.
  apply (for_range_ind (fun k s' => tree s' root /\ active_pml4 s' = root /\
    forall w, (in_range virt k w -> mapping (vm_mem s') root w = None) /\
      (~ in_range virt k w -> mapping (vm_mem s') root w = mapping (vm_mem s) root w))); [done| |].
  - split; [done|]. split; [done|]. intros w. split; [|done]. intros (i & Hi & _). lia.
  - intros k s1 Hk (T1 & A1 & M1). fold (nth_page virt k).
    assert (Hkal : nth_page virt k mod 4096 = 0) by (unfold nth_page, u64, VMM_PAGE_SIZE; change (2 ^ 64) with 18446744073709551616; dlia).
    pose proof (unmap_page_spec s1 (nth_page virt k)) as Hu. rewrite A1 in Hu. specialize (Hu T1).
    destruct (vmm_unmap_page (nth_page virt k) s1) as [s2 r]. cbn [fst]. destruct Hu as (T2 & A2 & _ & Hu).
    split; [done|]. split; [done|].
    assert (M2 : forall w, mapping (vm_mem s2) root w =
      if decide (vpage w = vpage (nth_page virt k)) then None else mapping (vm_mem s1) root w).
    { intros w. destruct (decide (nth_page virt k mod 4096 = 0 /\ _)) as [Hd|Hd].
      - destruct Hu as (_ & _ & Hu). apply Hu.
      - destruct Hu as [-> _]. destruct (decide (vpage w = _)) as [E|]; [|done]. rewrite (mapping_vpage _ _ _ _ E).
        destruct (mapping (vm_mem s1) root (nth_page virt k)) eqn:Em; [|done]. by destruct Hd. }
    intros w. rewrite M2. destruct (M1 w) as [W1 W2]. destruct (decide (vpage w = vpage (nth_page virt k))) as [E|E].
    + split; [done|]. intros Hn'. destruct Hn'. exists k. split; [lia|done].
    + split.
      * intros (i & Hi & Ei). apply W1. exists i. split; [|done]. assert (i <> k) by congruence. lia.
      * intros Hn'. apply W2. intros (i & Hi & Ei). apply Hn'. exists i. split; [lia|done].
Qed.

(** After [k] rounds of [vmm_map_pages]. *)
Definition mapped_prefix s0 virt phys flags (k : Z) s : Prop :=
  let root := active_pml4 s0 in
  tree s root /\ active_pml4 s = root /\ (0 < k -> virt mod 4096 = 0) /\
  (forall i, 0 <= i < k -> mapping (vm_mem s) root (nth_page virt i) = Some (new_pte (nth_page phys i) flags)) /\
  (forall w, ~ in_range virt k w -> mapping (vm_mem s) root w = mapping (vm_mem s0) root w).

Lemma map_loop s0 virt phys flags n i s :
  0 <= i -> i + Z.of_nat n <= 2 ^ 36 -> 0 <= flags < 2 ^ 64 -> mapped_prefix s0 virt phys flags i s ->
  match iter_brk n i (map_one virt phys flags) s with
  | inl s' => mapped_prefix s0 virt phys flags (i + Z.of_nat n) s'
  | inr s' => exists k, i <= k < i + Z.of_nat n /\ tree s' (active_pml4 s0) /\ active_pml4 s' = active_pml4 s0 /\
      forall w, (in_range virt k w -> mapping (vm_mem s') (active_pml4 s0) w = None) /\
        (~ in_range virt k w -> mapping (vm_mem s') (active_pml4 s0) w = mapping (vm_mem s0) (active_pml4 s0) w)
  end.
Proof.
  revert i s. induction n as [|n IH]; intros i s Hi Hn Hf HP; cbn [iter_brk]; [by rewrite Z.add_0_r|].
  unfold map_one at 1. fold (nth_page virt i) (nth_page phys i). destruct HP as (T & A & Al & M & O).
  pose proof (map_page_spec s (nth_page virt i) (nth_page phys i) flags) as Hm. rewrite A in Hm.
  specialize (Hm T (u64_range _) Hf). destruct (vmm_map_page (nth_page virt i) (nth_page phys i) flags s) as [s1 ok].
  destruct Hm as (T1 & A1 & _ & _ & _ & Hm). set (root := active_pml4 s0) in *. destruct ok; cbn [negb].
  - destruct Hm as (Hal & _ & _ & Hm). replace (i + Z.of_nat (Datatypes.S n)) with (i + 1 + Z.of_nat n) by lia.
    assert (HP : mapped_prefix s0 virt phys flags (i + 1) s1).
    { split; [done|]. split; [done|]. split; [|split].
      - intros _. unfold nth_page, u64, VMM_PAGE_SIZE in Hal. change (2 ^ 64) with 18446744073709551616 in Hal. dlia.
      - intros j Hj. fold root. rewrite Hm. destruct (decide (vpage (nth_page virt j) = vpage (nth_page virt i))) as [E|E].
        + apply nth_page_inj in E; [by subst|lia..].
        + apply M. assert (j <> i) by congruence. lia.
      - intros w Hw. fold root. rewrite Hm. destruct (decide (vpage w = vpage (nth_page virt i))) as [E|E].
        + destruct Hw. exists i. split; [lia|done].
        + apply O. intros (j & Hj & Ej). apply Hw. exists j. split; [lia|done]. }
    specialize (IH (i + 1) s1 ltac:(lia) ltac:(lia) Hf HP). destruct (iter_brk n (i + 1) _ s1) as [s'|s']; [done|].
    destruct IH as (k & Hk & IH). exists k. split; [lia|done].
  - destruct Hm as (_ & _ & Hm). exists i. split; [lia|]. destruct (decide (i = 0)) as [->|Hne].
    + unfold unmap_range. rewrite for_range_empty by lia. split; [done|]. split; [done|]. intros w.
      split; [intros (j & Hj & _); lia|]. intros Hw. rewrite Hm. by apply O.
    + destruct (unmap_range_spec s1 virt i) as (U1 & U2 & U3); [by rewrite A1|apply Al; lia|lia|].
      rewrite A1 in *. split; [done|]. split; [done|]. intros w. destruct (U3 w) as [W1 W2]. split; [done|].
      intros Hw. rewrite W2, Hm by done. by apply O.
Qed.

(** ** Initialisation *)

(** The state of the identity mapping after [k] pages from [lo]. *)
Definition id_prefix s0 (lo k : Z) s : Prop :=
  let root := active_pml4 s0 in
  tree s root /\ active_pml4 s = root /\ kernel_pml4_phys s = kernel_pml4_phys s0 /\
  (forall p, pa_used (vm_pa s0) p = true -> pa_used (vm_pa s) p = true) /\
  (forall p, pa_managed (vm_pa s) p = pa_managed (vm_pa s0) p) /\
  forall w, if decide (lo <= 4096 * vpage w < lo + 4096 * k)
    then mapping (vm_mem s) root w = Some (new_pte (4096 * vpage w) VMM_FLAGS_KERNEL) \/ full (vm_pa s)
    else mapping (vm_mem s) root w = mapping (vm_mem s0) root w.

Lemma full_mono (a b : S) : (forall p, pa_used a p = true -> pa_used b p = true) ->
  (forall p, pa_managed b p = pa_managed a p) -> full a -> full b.
Proof. intros Hu Hm Hf k Hk Hb. apply Hu, Hf; [done|]. by rewrite <- Hm. Qed.

Lemma map_page_kernel virt phys flags s : kernel_pml4_phys (fst (vmm_map_page virt phys flags s)) = kernel_pml4_phys s.
Proof.
  assert (Hg : forall t i c f s, kernel_pml4_phys (fst (get_or_create_entry t i c f s)) = kernel_pml4_phys s).
  { intros t i c f s1. unfold get_or_create_entry, alloc_page_table. destruct (has _ _); [done|]. destruct c; [|done]. simpl.
    destruct (pa_alloc 1 (vm_pa s1)) as [x a]. destruct (x =? 0) eqn:E; [done|]. simpl. by rewrite E. }
  unfold vmm_map_page. destruct (_ || _); [done|]. set (r := active_pml4 s). unfold vmm_walk.
  pose proof (Hg r (VMM_PML4_INDEX virt) true flags s) as G1. destruct (get_or_create_entry r _ _ _ s) as [s1 x1].
  cbn [fst] in G1. destruct (x1 =? 0); [done|].
  pose proof (Hg x1 (VMM_PDPT_INDEX virt) true flags s1) as G2. destruct (get_or_create_entry x1 _ _ _ s1) as [s2 x2].
  cbn [fst] in G2. destruct (x2 =? 0); [simpl; congruence|].
  pose proof (Hg x2 (VMM_PD_INDEX virt) true flags s2) as G3. destruct (get_or_create_entry x2 _ _ _ s2) as [s3 x3].
  cbn [fst] in G3. destruct (x3 =? 0); [simpl; congruence|]. destruct (_ =? NULL); simpl; congruence.
Qed.

Lemma vpage_small x : 0 <= x < 2 ^ 48 -> vpage x = x / 4096.
Proof. intros Hx. unfold vpage. apply Z.mod_small. change (2 ^ 48) with (4096 * 2 ^ 36) in Hx. split; [apply Z.div_pos; lia|]. apply Z.div_lt_upper_bound; lia. Qed.

Lemma identity_map_spec s lo hi :
  tree s (active_pml4 s) -> 0 <= lo -> lo mod 4096 = 0 -> hi mod 4096 = 0 -> lo <= hi <= 2 ^ 48 ->
  id_prefix s lo ((hi - lo) / 4096) (identity_map lo hi s).
Proof.
  intros Ht Hlo Hal Halh Hhi. unfold identity_map. change VMM_PAGE_SIZE with 4096.
  set (n := (hi - lo) / 4096). assert (Hn : lo + 4096 * n = hi) by (unfold n; dlia). clearbody n.
  apply (for_range_ind (fun k s' => id_prefix s lo k s')); [lia| |].
  - split; [done|]. do 4 (split; [done|]). intros w. rewrite decide_False by lia. done.
  - intros k s1 Hk (T & A & Kp & U & N & M). set (x := lo + k * 4096).
    pose proof (map_page_spec s1 x x VMM_FLAGS_KERNEL) as Hm. rewrite A in Hm.
    specialize (Hm T ltac:(unfold x; lia) ltac:(done)). pose proof (map_page_kernel x x VMM_FLAGS_KERNEL s1) as Kq.
    destruct (vmm_map_page x x VMM_FLAGS_KERNEL s1) as [s2 ok]. cbn [fst] in *.
    destruct Hm as (T1 & A1 & _ & U1 & N1 & Hm). set (root := active_pml4 s) in *.
    assert (Ex : 4096 * vpage x = x) by (rewrite vpage_small by (unfold x; lia); unfold x; dlia).
    assert (Hfull : full (vm_pa s1) -> full (vm_pa s2)) by by apply full_mono.
    split; [done|]. split; [done|]. split; [congruence|]. split; [auto|]. split; [intros p; by rewrite N1, N|].
    fold root. intros w. specialize (M w). destruct ok.
    + destruct Hm as (_ & _ & _ & Hm). rewrite Hm. destruct (decide (vpage w = vpage x)) as [->|Hne].
      * rewrite decide_True by (unfold x in *; lia). left. by rewrite Ex.
      * destruct (decide (lo <= 4096 * vpage w < lo + 4096 * k)); case_decide; try lia; [naive_solver|].
        done.
    + destruct Hm as (F & _ & Hm). rewrite Hm. assert (Hf2 : full (vm_pa s2)) by (apply F; unfold x; dlia).
      destruct (decide (lo <= 4096 * vpage w < lo + 4096 * k)); case_decide; try lia; [by right|by right|done].
Qed.

(** A root with no entries. *)
Lemma empty_tree s root : pa_wf (vm_pa s) -> table_page s root -> (forall i, 0 <= i < 512 -> entry (vm_mem s) root i = 0) ->
  tree s root /\ forall w, mapping (vm_mem s) root w = None.
Proof.
  intros Hwf Hp Hz.
  assert (Hpath : forall p a, path_ok 3 p -> table_at (vm_mem s) root p = Some a -> p = [] /\ a = root).
  { intros [|i p] a [_ Hok] E; [by injection E as <-|]. apply Forall_cons in Hok as [Hi _]. simpl in E. by rewrite Hz in E. }
  split.
  - split; [done| |].
    + intros p a Hok E. by destruct (Hpath p a Hok E) as [_ ->].
    + intros p q a Hok Hok' E E'. destruct (Hpath p a Hok E) as [-> _]. by destruct (Hpath q a Hok' E') as [-> _].
  - intros w. unfold mapping. destruct (table_at (vm_mem s) root (path_of w)) as [a|] eqn:E; [|done].
    by destruct (Hpath _ _ (path_of_ok w) E) as [? _].
Qed.

Lemma new_root_spec s :
  pa_wf (vm_pa s) ->
  let '(s', new) := alloc_page_table s in
  if new =? 0 then s' = s /\ full (vm_pa s) else tree s' new /\ table_page s' new /\
    forall w, mapping (vm_mem s') new w = None.
Proof.
  intros Hwf. pose proof (alloc_table_spec s Hwf) as Ha. destruct (alloc_page_table s) as [s' new].
  destruct (new =? 0); [done|]. destruct Ha as (_ & W & R & Al & _ & U & _ & Em).
  assert (Hp : table_page s' new) by (split; [done|]; split; [done|]; rewrite U; lia).
  destruct (empty_tree s' new W Hp) as [T M]; [|done]. intros i Hi. rewrite Em. by apply zero_page_spec.
Qed.

Lemma switch_spec root s s0 :
  table_page s0 root ->
  let s' := vmm_switch_address_space root s in
  vm_mem s' = vm_mem s /\ vm_pa s' = vm_pa s /\ kernel_pml4_phys s' = kernel_pml4_phys s /\ pte_addr (cr3 s') = root.
Proof.
  intros (R1 & R2 & _). unfold vmm_switch_address_space. rewrite (proj2 (Z.eqb_neq root 0)) by lia.
  assert (Ero : pte_addr root = root).
  { rewrite <- (Z.lor_0_r root) at 1. apply pte_addr_lor; [lia|done|intros; apply Z.bits_0]. }
  destruct (pte_addr (cr3 s) =? root) eqn:Ec; zbool; simpl; done.
Qed.

(** ** The claims *)

(** C5: [vmm_map_page] implements an update of the map from virtual pages to entries at
    one point. When it succeeds the page of [virt] is mapped to the frame with the given
    flags, [vmm_get_physical] translates every address of the page into that frame, no
    other virtual page is translated differently, and the stale translation has been
    invalidated. It fails only for unaligned addresses or when no page is left for a
    table, and then no translation has changed. In both cases the tables are still a
    tree of allocated pages. *)
Theorem vmm_map_page_contract s virt phys flags :
  tree s (active_pml4 s) -> 0 <= phys < 2 ^ 52 -> 0 <= flags < 2 ^ 64 ->
  let '(s', ok) := vmm_map_page virt phys flags s in
  tree s' (active_pml4 s') /\ active_pml4 s' = active_pml4 s /\
  (forall w, vpage w <> vpage virt \/ ok = false ->
     mapping (vm_mem s') (active_pml4 s') w = mapping (vm_mem s) (active_pml4 s) w) /\
  if ok then
    tlb_ops s' = Invlpg virt :: tlb_ops s /\
    mapping (vm_mem s') (active_pml4 s') virt = Some (new_pte phys flags) /\
    forall off, 0 <= off < 4096 ->
      vmm_is_mapped (virt + off) s' = true /\ vmm_get_physical (virt + off) s' = phys + off
  else tlb_ops s' = tlb_ops s /\ (virt mod 4096 <> 0 \/ phys mod 4096 <> 0 \/ full (vm_pa s')).
Proof.
  intros Ht Hp Hf. pose proof (map_page_spec s virt phys flags Ht ltac:(lia) Hf) as Hm.
  destruct (vmm_map_page virt phys flags s) as [s' ok]. destruct Hm as (T & A & _ & _ & _ & Hm). rewrite !A in *.
  split; [done|]. split; [done|]. destruct ok.
  - destruct Hm as (V & P & L & M). split.
    + intros w [Hw|?]; [|done]. rewrite M. by rewrite decide_False.
    + split; [done|]. split; [rewrite M; by rewrite decide_True|]. intros off Ho.
      destruct (get_physical_spec s' (virt + off)) as [G1 G2]; [by rewrite A|]. rewrite A, M in G1, G2.
      rewrite decide_True in G1, G2 by (unfold vpage; f_equal; dlia).
      rewrite G2. split; [done|]. rewrite G1. destruct (new_pte_spec phys flags) as (_ & _ & E); [lia|done|]. rewrite E.
      replace ((virt + off) mod 4096) with off by dlia. apply map_or_offset; done.
  - destruct Hm as (F & L & M). split; [intros w _; apply M|]. split; [done|].
    destruct (decide (virt mod 4096 = 0)); [|by left]. destruct (decide (phys mod 4096 = 0)); [|by right; left].
    right. right. auto.
Qed.

(** [vmm_unmap_page] removes exactly one page from the map. For a mapped page it
    returns the frame that was mapped, invalidates the translation, and afterwards the
    page is unmapped and every other one translated as before; for an unaligned address
    or a page that is not mapped it returns 0 and changes nothing. No frame and no table
    goes back to the allocator. *)
Theorem vmm_unmap_page_contract s virt :
  tree s (active_pml4 s) ->
  let '(s', r) := vmm_unmap_page virt s in
  tree s' (active_pml4 s') /\ active_pml4 s' = active_pml4 s /\ vm_pa s' = vm_pa s /\
  if decide (virt mod 4096 = 0 /\ vmm_is_mapped virt s = true) then
    r = vmm_get_physical virt s /\ vmm_is_mapped virt s' = false /\ tlb_ops s' = Invlpg virt :: tlb_ops s /\
    forall w, vpage w <> vpage virt -> mapping (vm_mem s') (active_pml4 s') w = mapping (vm_mem s) (active_pml4 s) w
  else s' = s /\ r = 0.
Proof.
  intros Ht. pose proof (unmap_page_spec s virt Ht) as Hu. destruct (get_physical_spec s virt Ht) as [G1 G2].
  destruct (vmm_unmap_page virt s) as [s' r]. destruct Hu as (T & A & P & Hu). rewrite !A.
  split; [done|]. split; [done|]. split; [done|]. rewrite G2.
  destruct (decide (virt mod 4096 = 0 /\ bool_decide _ = true)) as [[Hal Hd]|Hd].
  - apply bool_decide_eq_true in Hd. rewrite decide_True in Hu by done. destruct Hu as (Er & L & M).
    split; [|split; [|split; [done|]]].
    + rewrite G1. destruct (mapping (vm_mem s) (active_pml4 s) virt) as [e|]; [|done]. simpl in Er. injection Er as ->.
      by rewrite Hal, Z.lor_0_r.
    + destruct (get_physical_spec s' virt) as [_ G]; [by rewrite A|]. rewrite G, A, M, decide_True by done. done.
    + intros w Hw. rewrite M. by rewrite decide_False.
  - rewrite decide_False in Hu; [done|]. intros [Hal Hm]. apply Hd. split; [done|]. by apply bool_decide_eq_true.
Qed.

(** [vmm_map_pages] maps the whole range or leaves none of it half done: on success
    page [i] of the range is mapped to frame [i], on failure at page [k] the pages before
    it have been unmapped again; pages outside are never touched. The loop covers up to
    the whole 48-bit address space. *)
Theorem vmm_map_pages_contract s virt phys count flags :
  tree s (active_pml4 s) -> 0 <= count <= 2 ^ 36 -> 0 <= flags < 2 ^ 64 ->
  let '(s', ok) := vmm_map_pages virt phys count flags s in
  tree s' (active_pml4 s') /\ active_pml4 s' = active_pml4 s /\
  if ok then
    (forall i, 0 <= i < count ->
       mapping (vm_mem s') (active_pml4 s') (nth_page virt i) = Some (new_pte (nth_page phys i) flags)) /\
    (forall w, ~ in_range virt count w -> mapping (vm_mem s') (active_pml4 s') w = mapping (vm_mem s) (active_pml4 s) w)
  else exists k, 0 <= k < count /\
    forall w, (in_range virt k w -> mapping (vm_mem s') (active_pml4 s') w = None) /\
      (~ in_range virt k w -> mapping (vm_mem s') (active_pml4 s') w = mapping (vm_mem s) (active_pml4 s) w).
Proof.
  intros Ht Hc Hf. unfold vmm_map_pages.
  assert (HP : mapped_prefix s virt phys flags 0 s) by (split; [done|]; split; [done|]; split; [lia|]; split; [lia|done]).
  pose proof (map_loop s virt phys flags (Z.to_nat count) 0 s ltac:(lia) ltac:(lia) Hf HP) as Hl.
  rewrite Z2Nat.id, Z.add_0_l in Hl by lia.
  destruct (iter_brk (Z.to_nat count) 0 (map_one virt phys flags) s) as [s'|s'].
  - destruct Hl as (T & A & _ & M & O). rewrite A. done.
  - destruct Hl as (k & Hk & T & A & M). rewrite A. split; [done|]. split; [done|]. by exists k.
Qed.

(** [vmm_init] builds the identity mapping. Unless it ran out of pages, every address
    below 16 MB is mapped to itself; whatever happens, nothing else of the 48-bit
    address space is mapped, no address below 16 MB is mapped elsewhere, the kernel's
    tables are a tree of allocated pages and they are the ones CR3 points to. *)
Theorem vmm_init_identity s :
  pa_wf (vm_pa s) -> let s' := vmm_init s in
  (kernel_pml4_phys s' = 0 /\ full (vm_pa s')) \/
  (tree s' (kernel_pml4_phys s') /\ active_pml4 s' = kernel_pml4_phys s' /\
   vmm_get_current_address_space s' = kernel_pml4_phys s' /\
   forall addr, 0 <= addr < 2 ^ 48 ->
     if addr <? 16 * MB
     then (vmm_is_mapped addr s' = true /\ vmm_get_physical addr s' = addr) \/ full (vm_pa s')
     else vmm_is_mapped addr s' = false).
Proof.
  intros Hwf s'. unfold s', vmm_init. clear s'.
  pose proof (new_root_spec s Hwf) as Hr. destruct (alloc_page_table s) as [s0 root]. destruct (root =? 0) eqn:E0; zbool.
  { destruct Hr as [-> Hf]. by left. }
  right. destruct Hr as (T0 & Pg & M0). set (s1 := set_kernel_pml4 root s0) in *.
  assert (A1 : active_pml4 s1 = root) by (unfold s1, active_pml4; simpl; by rewrite (proj2 (Z.eqb_neq root 0))).
  assert (T1 : tree s1 root) by by destruct T0.
  assert (K1 : kernel_pml4_phys s1 = root /\ vm_mem s1 = vm_mem s0) by done. clearbody s1. destruct K1 as [K1 E1].
  pose proof (identity_map_spec s1 0 (4 * MB)) as I1. rewrite A1 in I1.
  specialize (I1 T1 ltac:(lia) eq_refl eq_refl ltac:(unfold MB, KB; lia)). set (s2 := identity_map 0 _ s1) in *. clearbody s2.
  destruct I1 as (T2 & A2 & K2 & U2 & N2 & M2). rewrite A1 in *.
  pose proof (identity_map_spec s2 (4 * MB) (16 * MB)) as I2. rewrite A2 in I2.
  specialize (I2 T2 ltac:(unfold MB, KB; lia) eq_refl eq_refl ltac:(unfold MB, KB; lia)).
  set (s3 := identity_map (4 * MB) _ s2) in *. clearbody s3.
  destruct I2 as (T3 & A3 & K3 & U3 & N3 & M3). rewrite A2 in *. rewrite K3, K2, K1.
  destruct (switch_spec root s3 s0 Pg) as (S1 & S2 & S3 & S4). rewrite K3, K2, K1 in S3.
  set (s4 := vmm_switch_address_space root s3) in *. clearbody s4.
  assert (A4 : active_pml4 s4 = root) by (unfold active_pml4; by rewrite S3, (proj2 (Z.eqb_neq root 0))).
  assert (T4 : tree s4 root) by (destruct T3 as [X1 X2 X3]; split; unfold table_page; rewrite ?S1, ?S2; done).
  rewrite S3. split; [done|]. split; [done|]. split; [done|]. rewrite S2.
  assert (Hfull : full (vm_pa s2) -> full (vm_pa s3)) by by apply full_mono.
  intros addr Haddr. destruct (get_physical_spec s4 addr) as [G1 G2]; [by rewrite A4|]. rewrite A4, S1 in *.
  rewrite G1, G2. pose proof (vpage_small addr Haddr) as Ev. specialize (M2 addr). specialize (M3 addr).
  change ((4 * MB - 0) / 4096) with 1024 in *. change ((16 * MB - 4 * MB) / 4096) with 3072 in *.
  destruct (addr <? 16 * MB) eqn:Ea; zbool.
  - assert (Em : mapping (vm_mem s3) root addr = Some (new_pte (4096 * vpage addr) VMM_FLAGS_KERNEL) \/ full (vm_pa s3)).
    { unfold MB, KB in *. match type of M3 with context [decide ?P] => destruct (decide P) end; [done|].
      rewrite M3. rewrite decide_True in M2 by dlia. destruct M2; auto. }
    destruct Em as [->|]; [left|by right]. split; [done|].
    destruct (new_pte_spec (4096 * vpage addr) VMM_FLAGS_KERNEL) as (_ & _ & ->); [rewrite Ev; dlia|done|].
    rewrite map_or_offset; rewrite ?Ev; dlia.
  - unfold MB, KB in *. rewrite decide_False in M2 by dlia. rewrite decide_False in M3 by dlia. rewrite M3, M2.
    by rewrite E1, M0.
Qed.

(** ** Existing entries stay *)

(** The entries of the upper tables that are present are as before. *)
Definition keeps root s s' : Prop :=
  forall q a i, path_ok 2 q -> 0 <= i < 512 -> table_at (vm_mem s) root q = Some a ->
    has (entry (vm_mem s) a i) VMM_FLAG_PRESENT = true -> entry (vm_mem s') a i = entry (vm_mem s) a i.

Lemma keeps_trans root s1 s2 s3 :
  (forall q a, path_ok 3 q -> table_at (vm_mem s1) root q = Some a -> table_at (vm_mem s2) root q = Some a) ->
  keeps root s1 s2 -> keeps root s2 s3 -> keeps root s1 s3.
Proof.
  intros Hp K1 K2 q a i Hq Hi Ha Hh. rewrite <- (K1 q a i Hq Hi Ha Hh). apply (K2 q a i Hq Hi).
  - apply Hp; [by apply (path_ok_le 2); [lia|]|done].
  - by rewrite (K1 q a i Hq Hi Ha Hh).
Qed.

Lemma get_or_create_keeps s root p i a create flags :
  tree s root -> path_ok 2 p -> 0 <= i < 512 -> table_at (vm_mem s) root p = Some a ->
  keeps root s (fst (get_or_create_entry a i create flags s)).
Proof.
  intros Ht Hp Hi Ha q b j Hq Hj Hb Hh. unfold get_or_create_entry.
  destruct (has (entry (vm_mem s) a i) VMM_FLAG_PRESENT) eqn:Epr; [done|]. destruct create; [|done]. cbn [negb].
  pose proof (alloc_table_spec s (t_alloc _ _ Ht)) as Hal. destruct (alloc_page_table s) as [s1 new].
  destruct (new =? 0) eqn:E0; [by destruct Hal as [-> _]|]. destruct Hal as (A1 & A2 & A3 & A4 & A5 & A6 & A8 & A7).
  cbv zeta. cbn [fst vm_mem set_vm_mem]. destruct (zero_page_spec new (vm_mem s)) as [_ Z2].
  destruct (t_page _ _ Ht p a ltac:(by apply (path_ok_le 2); [lia|]) Ha) as (P1 & P2 & P3).
  destruct (t_page _ _ Ht q b ltac:(by apply (path_ok_le 2); [lia|]) Hb) as (Q1 & Q2 & Q3).
  unfold set_entry. rewrite A7, entry_store_other by (try done; intros [= -> ->]; congruence).
  apply load_agree. intros x Hx. apply Z2. pose proof (entry_ptr_bounds b j Hj). simpl in Hx.
  assert (b <> new) by congruence. dlia.
Qed.

Lemma walk_keeps s root v create flags : tree s root -> keeps root s (fst (vmm_walk root v create flags s)).
Proof.
  intros Ht. unfold vmm_walk.
  assert (I4 : 0 <= VMM_PML4_INDEX v < 512) by by apply index_range.
  assert (I3 : 0 <= VMM_PDPT_INDEX v < 512) by by apply index_range.
  assert (I2 : 0 <= VMM_PD_INDEX v < 512) by by apply index_range.
  set (i4 := VMM_PML4_INDEX v) in *. set (i3 := VMM_PDPT_INDEX v) in *. set (i2 := VMM_PD_INDEX v) in *.
  assert (P0 : path_ok 2 []) by (split; [simpl; lia|done]).
  assert (P1 : path_ok 2 [i4]) by (split; [simpl; lia|by apply Forall_singleton]).
  assert (P2 : path_ok 2 [i4; i3]) by (split; [simpl; lia|by rewrite !Forall_cons]).
  pose proof (get_or_create_spec s root [] i4 root create flags Ht P0 I4 eq_refl) as G1.
  pose proof (get_or_create_keeps s root [] i4 root create flags Ht P0 I4 eq_refl) as K1.
  destruct (get_or_create_entry root i4 create flags s) as [s1 pdpt]. destruct G1 as ((T1 & _ & _ & _ & _ & H1) & B1 & _).
  cbn [fst] in K1. destruct (pdpt =? 0); [done|].
  pose proof (get_or_create_spec s1 root [i4] i3 pdpt create flags T1 P1 I3 B1) as G2.
  pose proof (get_or_create_keeps s1 root [i4] i3 pdpt create flags T1 P1 I3 B1) as K2.
  destruct (get_or_create_entry pdpt i3 create flags s1) as [s2 pd]. destruct G2 as ((T2 & _ & _ & _ & _ & H2) & B2 & _).
  cbn [fst] in K2. assert (K12 : keeps root s s2) by by eapply keeps_trans. destruct (pd =? 0); [done|].
  pose proof (get_or_create_keeps s2 root [i4; i3] i2 pd create flags T2 P2 I2 B2) as K3.
  destruct (get_or_create_entry pd i2 create flags s2) as [s3 pt]. cbn [fst] in K3.
  assert (K123 : keeps root s s3); [|by destruct (pt =? 0)].
  apply (keeps_trans root s s2); [|done..]. auto.
Qed.

Lemma map_page_keeps s virt phys flags :
  tree s (active_pml4 s) -> keeps (active_pml4 s) s (fst (vmm_map_page virt phys flags s)).
Proof.
  intros Ht. unfold vmm_map_page. destruct (_ || _); [done|].
  pose proof (walk_spec s (active_pml4 s) virt true flags Ht) as Hw. pose proof (walk_keeps s (active_pml4 s) virt true flags Ht) as K.
  destruct (vmm_walk (active_pml4 s) virt true flags s) as [s1 pte]. cbn [fst] in K.
  destruct Hw as ((T1 & _ & _ & _ & _ & P1) & Hw & _). destruct (pte =? NULL); [done|].
  destruct Hw as (t & Htab & ->). cbn [fst]. apply (keeps_trans _ s s1); [done..|].
  intros q a i Hq Hi Ha Hh. cbn [vm_mem invlpg set_vm_mem].
  assert (Hq3 : path_ok 3 q) by by apply (path_ok_le 2); [lia|].
  destruct (t_page _ _ T1 _ _ Hq3 Ha) as (_ & Hal & _). destruct (t_page _ _ T1 _ _ (path_of_ok virt) Htab) as (_ & Halt & _).
  apply entry_store_other; auto; [apply (index_range virt 12); lia|]. intros [= -> _].
  pose proof (t_inj _ _ T1 _ _ _ Hq3 (path_of_ok virt) Ha Htab) as ->. destruct Hq as [Hl _]. simpl in Hl. lia.
Qed.

(** The processor lets user code at the page only if every level allows it. *)
Definition user_access (m : mem) (root v : Z) : bool :=
  forallb (fun p => match table_at m root (fst p) with
                    | Some t => has (entry m t (snd p)) VMM_FLAG_USER | None => false end)
    [([], VMM_PML4_INDEX v); ([VMM_PML4_INDEX v], VMM_PDPT_INDEX v);
     ([VMM_PML4_INDEX v; VMM_PDPT_INDEX v], VMM_PD_INDEX v); (path_of v, VMM_PT_INDEX v)].

(** A user page in a region whose upper table was made for the kernel stays out of
    reach of user code. When the PML4 entry above [virt] exists without
    [VMM_FLAG_USER] (as it does for the first 512 GB after [vmm_init]),
    [vmm_map_page] with [VMM_FLAGS_USER] reports success and writes a user entry, but
    does not add the flag to the tables above it. *)
Theorem vmm_user_page_unreachable s virt phys s' :
  tree s (active_pml4 s) -> 0 <= phys < 2 ^ 52 ->
  has (entry (vm_mem s) (active_pml4 s) (VMM_PML4_INDEX virt)) VMM_FLAG_PRESENT = true ->
  has (entry (vm_mem s) (active_pml4 s) (VMM_PML4_INDEX virt)) VMM_FLAG_USER = false ->
  vmm_map_page virt phys VMM_FLAGS_USER s = (s', true) ->
  mapping (vm_mem s') (active_pml4 s') virt = Some (new_pte phys VMM_FLAGS_USER) /\
  user_access (vm_mem s') (active_pml4 s') virt = false.
Proof.
  intros Ht Hp Hpr Hus E. pose proof (map_page_spec s virt phys VMM_FLAGS_USER Ht ltac:(lia) ltac:(done)) as Hm.
  pose proof (map_page_keeps s virt phys VMM_FLAGS_USER Ht) as K. rewrite E in *. cbn [fst] in K.
  destruct Hm as (_ & A & _ & _ & _ & _ & _ & _ & M). rewrite A. split; [rewrite M; by rewrite decide_True|].
  unfold user_access. cbn [forallb fst snd table_at].
  rewrite (K [] (active_pml4 s) (VMM_PML4_INDEX virt)), Hus; [done|split; [simpl; lia|done]|by apply index_range|done|done].
Qed.
End Props.
