(* ===== verification/VmmSpaces.v ===== *)
(** * Address spaces (kernel/mm/vmm.c), and paging on a small machine

    What creating an address space copies and what destroying one frees. *)
From S2P Require Import Prelude Memory PageAlloc Pmm Vmm VmmProps.

Section Spaces.
Context {S : Type} `{PageAllocatorLaws S}.
Implicit Types s : vmm S.

(** ** Freeing *)

(** Freeing pages gives nothing away and keeps the allocator well formed. *)
Definition shrinks (a b : S) : Prop :=
  pa_wf b /\ (forall p, 0 <= p -> pa_used b p = true -> pa_used a p = true) /\
  (forall p, pa_managed b p = pa_managed a p).

Lemma shrinks_trans a b c : shrinks a b -> shrinks b c -> shrinks a c.
Proof. intros (_ & U1 & M1) (W2 & U2 & M2). split; [done|]. split; [auto|]. intros p. by rewrite M2, M1. Qed.

Lemma free_page_spec a e :
  pa_wf a -> shrinks a (pa_free (pte_addr e) 1 a) /\
  (pte_addr e <> 0 -> pa_managed a (pte_addr e / PAGE_SIZE) = true ->
   pa_used (pa_free (pte_addr e) 1 a) (pte_addr e / PAGE_SIZE) = false).
Proof.
  intros Hwf. destruct (pte_addr_range e) as [R1 R2]. destruct (decide (pte_addr e = 0)) as [->|Hne].
  - rewrite pa_free_null. done.
  - destruct (pa_free_ok a (pte_addr e) 1 Hwf ltac:(lia) R2 ltac:(lia)) as (F1 & F2 & F3). split.
    + split; [done|]. split; [|done]. intros p Hp. rewrite F2 by done. intros Hu. by apply andb_prop in Hu as [? _].
    + intros _ Hm. rewrite F2 by (apply Z.div_pos; unfold PAGE_SIZE; lia). rewrite Hm. unfold in_pages.
      replace (_ && _ && true) with true by lia. apply andb_false_r.
Qed.

Lemma free_tables_shrinks below table user m a : pa_wf a -> shrinks a (free_page_table_recursive below table user m a).
Proof.
  revert table user a. induction below as [|b IH]; intros table user a Hwf; cbn [free_page_table_recursive];
    (destruct (table =? 0); [done|]); apply for_range_rel; try done; intros i a1 _ Ha1.
  - cbv zeta. destruct (has _ _); [|done]. destruct (has _ _); [done|]. simpl.
    eapply shrinks_trans; [exact Ha1|]. apply free_page_spec, Ha1.
  - cbv zeta. destruct (has _ _); [|done]. destruct (has _ _); [done|]. simpl.
    eapply shrinks_trans; [exact Ha1|]. pose proof (IH (pte_addr (entry m table i)) false a1 (proj1 Ha1)) as H1.
    eapply shrinks_trans; [exact H1|]. apply free_page_spec, H1.
Qed.

(** The page behind every present entry that is scanned is free afterwards. *)
Lemma free_tables_frees below table user m a i :
  pa_wf a -> table <> 0 -> 0 <= i < (if (user : bool) then 256 else 512) ->
  has (entry m table i) VMM_FLAG_PRESENT = true -> has (entry m table i) VMM_FLAG_HUGE = false ->
  pte_addr (entry m table i) <> 0 -> pa_managed a (pte_addr (entry m table i) / PAGE_SIZE) = true ->
  pa_used (free_page_table_recursive below table user m a) (pte_addr (entry m table i) / PAGE_SIZE) = false.
Proof.
  intros Hwf Ht Hi Hpr Hhg Hc Hm. set (c := pte_addr (entry m table i)) in *. set (pg := c / PAGE_SIZE) in *.
  assert (Hpg : 0 <= pg) by (apply Z.div_pos; [apply pte_addr_range|unfold PAGE_SIZE; lia]).
  set (hi := if user then 256 else VMM_ENTRIES_PER_TABLE).
  assert (Hhi : i < hi) by (unfold hi; destruct user; unfold VMM_ENTRIES_PER_TABLE; lia).
  assert (Hloop : forall f, (forall j a1, pa_wf a1 -> shrinks a1 (f j a1)) ->
    (forall a1, pa_wf a1 -> pa_managed a1 pg = true -> pa_used (f i a1) pg = false) ->
    pa_used (for_range 0 hi f a) pg = false).
  { intros f F1 F2. assert (HI : shrinks a (for_range 0 hi f a) /\ (i < hi -> pa_used (for_range 0 hi f a) pg = false)); [|by apply HI].
    apply (for_range_ind (fun k a1 => shrinks a a1 /\ (i < k -> pa_used a1 pg = false))); [lia|split; [done|lia]|].
    intros j a1 Hj [J1 J2]. pose proof (F1 j a1 (proj1 J1)) as J3. split; [by eapply shrinks_trans|]. intros Hij.
    destruct (decide (i = j)) as [<-|]; [apply F2; [apply J1|]; destruct J1 as (_ & _ & ->); done|].
    destruct (pa_used (f j a1) pg) eqn:Eu; [|done]. apply J3 in Eu; [|done]. by rewrite J2 in Eu by lia. }
  destruct below as [|b]; cbn [free_page_table_recursive]; rewrite (proj2 (Z.eqb_neq table 0)) by done; fold hi.
  - apply Hloop.
    + intros j a1 Hw. cbv beta zeta. destruct (has (entry m table j) VMM_FLAG_PRESENT); [|done].
      destruct (has (entry m table j) VMM_FLAG_HUGE); [done|]. simpl. by apply free_page_spec.
    + intros a1 Hw Hm1. cbv beta zeta. rewrite Hpr, Hhg. simpl. by apply free_page_spec.
  - apply Hloop.
    + intros j a1 Hw. cbv beta zeta. destruct (has (entry m table j) VMM_FLAG_PRESENT); [|done].
      destruct (has (entry m table j) VMM_FLAG_HUGE); [done|]. simpl.
      pose proof (free_tables_shrinks b (pte_addr (entry m table j)) false m a1 Hw) as H1.
      eapply shrinks_trans; [exact H1|]. apply free_page_spec, H1.
    + intros a1 Hw Hm1. cbv beta zeta. rewrite Hpr, Hhg. simpl.
      pose proof (free_tables_shrinks b c false m a1 Hw) as H1. apply free_page_spec; [apply H1|done|].
      destruct H1 as (_ & _ & ->). done.
Qed.

(** ** Creating *)

Lemma copy_entries src dst lo hi f (m : mem) :
  (forall i m1, f i m1 = m1 \/ f i m1 = set_entry m1 dst i (entry m1 src i)) ->
  src <> dst -> src mod 4096 = 0 -> dst mod 4096 = 0 -> 0 <= lo <= hi -> hi <= 512 ->
  (forall i, 0 <= i < 512 -> entry (for_range lo hi f m) src i = entry m src i) /\
  (forall i, 0 <= i < 512 -> (i < lo \/ hi <= i) -> entry (for_range lo hi f m) dst i = entry m dst i) /\
  (forall i, lo <= i < hi -> (forall m1, f i m1 = set_entry m1 dst i (entry m1 src i) \/ entry m1 src i <> entry m src i) ->
     entry (for_range lo hi f m) dst i = entry m src i).
Proof.
  intros Hf Hne Hs Hd Hlo Hhi.
  pose (P := fun k (m1 : mem) => (forall i, 0 <= i < 512 -> entry m1 src i = entry m src i) /\
    (forall i, 0 <= i < 512 -> (i < lo \/ k <= i) -> entry m1 dst i = entry m dst i) /\
    (forall i, lo <= i < k -> (forall m1, f i m1 = set_entry m1 dst i (entry m1 src i) \/ entry m1 src i <> entry m src i) ->
     entry m1 dst i = entry m src i)).
  apply (for_range_ind P); [lia| |].
  - split; [done|]. split; [done|lia].
  - intros j m1 Hj (I1 & I2 & I3).
    assert (Hsrc : forall i, 0 <= i < 512 -> entry (f j m1) src i = entry m1 src i).
    { intros i Hi. destruct (Hf j m1) as [-> | ->]; [done|]. apply entry_store_other; auto; [lia|]. congruence. }
    assert (Hdst : forall i, 0 <= i < 512 -> i <> j -> entry (f j m1) dst i = entry m1 dst i).
    { intros i Hi Hij. destruct (Hf j m1) as [-> | ->]; [done|]. apply entry_store_other; auto; [lia|]. congruence. }
    split; [intros i Hi; rewrite Hsrc by done; auto|]. split.
    + intros i Hi Hr. rewrite Hdst by lia. apply I2; lia.
    + intros i Hi Hfi. destruct (decide (i = j)) as [->|]; [|rewrite Hdst by lia; apply I3; [lia|done]].
      destruct (Hfi m1) as [->|Hx]; [|destruct Hx; apply I1; lia].
      unfold set_entry. rewrite entry_store_same by apply load64_range. apply I1. lia.
Qed.

(** An entry the loop passes over. *)
Lemma skip_entry src dst i f (m : mem) :
  (forall i m1, f i m1 = m1 \/ f i m1 = set_entry m1 dst i (entry m1 src i)) ->
  src <> dst -> src mod 4096 = 0 -> dst mod 4096 = 0 -> 0 <= i < 256 ->
  (forall m1, entry m1 src i = entry m src i -> f i m1 = m1) ->
  entry (for_range 0 256 f m) dst i = entry m dst i.
Proof.
  intros Hf Hne Hs Hd Hi Hskip.
  assert (HI : (forall j, 0 <= j < 512 -> entry (for_range 0 256 f m) src j = entry m src j) /\
    entry (for_range 0 256 f m) dst i = entry m dst i); [|apply HI].
  apply (for_range_ind (fun _ m1 => (forall j, 0 <= j < 512 -> entry m1 src j = entry m src j) /\ entry m1 dst i = entry m dst i)); [lia|done|].
  intros j m1 Hj (I1 & I2). destruct (decide (j = i)) as [->|Hji]; [rewrite Hskip by (apply I1; lia); done|].
  destruct (Hf j m1) as [-> | ->]; [done|]. split.
  - intros k Hk. rewrite <- I1 by done. apply entry_store_other; auto; [lia|]. congruence.
  - rewrite <- I2. apply entry_store_other; auto; [lia|lia|]. congruence.
Qed.

(** What the new root holds: the whole upper half, and the kernel's part of the lower. *)
Lemma create_spec s s' new :
  pa_wf (vm_pa s) -> table_page s (kernel_pml4_phys s) -> vmm_create_address_space s = (s', new) -> new <> 0 ->
  let k := kernel_pml4_phys s in
  same_regs s s' /\ pa_wf (vm_pa s') /\ new <> k /\ table_page s' new /\
  (forall p, pa_used (vm_pa s) p = true -> pa_used (vm_pa s') p = true) /\
  (forall p, pa_managed (vm_pa s') p = pa_managed (vm_pa s) p) /\
  pa_used (vm_pa s) (new / PAGE_SIZE) = false /\
  (forall i, 0 <= i < 512 -> entry (vm_mem s') k i = entry (vm_mem s) k i) /\
  (forall i, 256 <= i < 512 -> entry (vm_mem s') new i = entry (vm_mem s) k i) /\
  (forall i, 0 <= i < 256 -> entry (vm_mem s') new i =
     if has (entry (vm_mem s) k i) VMM_FLAG_PRESENT && negb (has (entry (vm_mem s) k i) VMM_FLAG_USER)
     then entry (vm_mem s) k i else 0).
Proof.
  intros Hwf (K1 & K2 & K3) E Hn k. unfold vmm_create_address_space in E. pose proof (alloc_table_spec s Hwf) as Ha.
  destruct (alloc_page_table s) as [s1 n]. destruct (n =? 0) eqn:E0; [simplify_eq|]. zbool.
  destruct Ha as ((R1 & R2 & R3) & W & Rn & Al & Un & U & Mg & Em). rewrite R1 in E. fold k in E, K1, K2, K3.
  rewrite (proj2 (Z.eqb_neq k 0)) in E by lia. cbn [negb] in E. injection E as <- ->. cbn [vm_mem set_vm_mem vm_pa].
  assert (Hne : k <> new) by congruence. destruct (zero_page_spec new (vm_mem s)) as [Z1 Z2].
  assert (Zk : forall i, 0 <= i < 512 -> entry (vm_mem s1) k i = entry (vm_mem s) k i).
  { intros i Hi. rewrite Em. apply load_agree. intros x Hx. apply Z2. pose proof (entry_ptr_bounds k i Hi). simpl in Hx. dlia. }
  destruct (copy_entries k new 256 512 (fun i m => set_entry m new i (entry m k i)) (vm_mem s1)) as (A1 & A2 & A3);
    [auto|done..|lia|lia|]. fold (copy_upper k new (vm_mem s1)) in A1, A2, A3. set (m1 := copy_upper k new (vm_mem s1)) in *.
  unfold copy_lower. set (f := fun i m => _).
  assert (Hf : forall i m, f i m = m \/ f i m = set_entry m new i (entry m k i)).
  { intros i m. unfold f. destruct (has _ _); [|by left]. destruct (has _ _); [by left|by right]. }
  destruct (copy_entries k new 0 256 f m1) as (B1 & B2 & B3); [done..|lia|lia|].
  split; [done|]. split; [done|]. split; [done|]. split; [split; [done|]; split; [done|]; rewrite U; simpl; lia|].
  split; [intros p Hp; simpl; by rewrite U, Hp|]. split; [done|]. split; [done|].
  split; [intros i Hi; rewrite B1, A1, Zk by done; done|]. split.
  - intros i Hi. rewrite B2 by lia. rewrite A3, Zk by (try lia; auto). done.
  - intros i Hi. assert (Ei : entry m1 k i = entry (vm_mem s) k i) by (rewrite A1, Zk by lia; done).
    destruct (has (entry (vm_mem s) k i) VMM_FLAG_PRESENT && negb (has (entry (vm_mem s) k i) VMM_FLAG_USER)) eqn:Eh.
    + rewrite B3; [done|lia|]. intros m2. destruct (decide (entry m2 k i = entry m1 k i)) as [Eq|]; [left|by right].
      unfold f. rewrite Eq, Ei. apply andb_prop in Eh as [-> Eh]. by rewrite Eh.
    + transitivity (entry m1 new i); [|rewrite A2, Em by lia; apply Z1; lia].
      apply (skip_entry k new i f m1); [done..|].
      intros m2 E2. unfold f. rewrite E2, Ei.
      destruct (has (entry (vm_mem s) k i) VMM_FLAG_PRESENT); [|done]. simpl in Eh. by rewrite Eh.
Qed.

(** ** The claims *)

(** A new address space sees the kernel: its root has the kernel's entries in the
    upper half and the entries of the lower half that are not for users, so every
    canonical upper-half address is translated as the kernel translates it, and its
    other entries are empty. *)
Theorem vmm_create_shares_kernel s s' new :
  tree s (kernel_pml4_phys s) -> vmm_create_address_space s = (s', new) -> new <> 0 ->
  new <> kernel_pml4_phys s /\ table_page s' new /\ pa_used (vm_pa s) (new / PAGE_SIZE) = false /\
  forall i, 0 <= i < 512 ->
    entry (vm_mem s') new i =
    let e := entry (vm_mem s) (kernel_pml4_phys s) i in
    if (256 <=? i) || has e VMM_FLAG_PRESENT && negb (has e VMM_FLAG_USER) then e else 0.
Proof.
  intros Ht E Hn. assert (Hk : table_page s (kernel_pml4_phys s)) by (apply (t_page _ _ Ht []); [split; [simpl; lia|done]|done]).
  destruct (create_spec s s' new (t_alloc _ _ Ht) Hk E Hn) as (_ & _ & C1 & C2 & _ & _ & C3 & _ & C4 & C5).
  split; [done|]. split; [done|]. split; [done|]. intros i Hi. cbv zeta. destruct (256 <=? i) eqn:Ei; zbool.
  - apply C4. lia.
  - apply C5. lia.
Qed.

(** Creating an address space and destroying it again frees the page tables of the
    kernel. The lower-half entries the new root shares with the kernel (those of the
    identity mapping) are walked by [free_page_table_recursive] as if they were its own:
    afterwards the kernel's root still points to a table whose page the allocator will
    hand out again. *)
Theorem vmm_destroy_frees_kernel_tables s s' new i t :
  tree s (kernel_pml4_phys s) -> vmm_create_address_space s = (s', new) -> new <> 0 -> new <> pte_addr (cr3 s) ->
  0 <= i < 256 -> table_at (vm_mem s) (kernel_pml4_phys s) [i] = Some t ->
  has (entry (vm_mem s) (kernel_pml4_phys s) i) VMM_FLAG_USER = false ->
  has (entry (vm_mem s) (kernel_pml4_phys s) i) VMM_FLAG_HUGE = false ->
  pa_managed (vm_pa s) (t / PAGE_SIZE) = true ->
  let s2 := vmm_destroy_address_space new s' in
  table_at (vm_mem s2) (kernel_pml4_phys s2) [i] = Some t /\
  pa_used (vm_pa s) (t / PAGE_SIZE) = true /\ pa_used (vm_pa s2) (t / PAGE_SIZE) = false /\
  ~ tree s2 (kernel_pml4_phys s2).
Proof.
  intros Ht E Hn Hcr Hi Htab Hus Hhg Hmg s2. set (k := kernel_pml4_phys s) in *.
  assert (Hk : table_page s k) by (apply (t_page _ _ Ht []); [split; [simpl; lia|done]|done]).
  destruct (create_spec s s' new (t_alloc _ _ Ht) Hk E Hn) as ((R1 & R2 & R3) & W & C1 & C2 & C3 & C6 & C7 & C8 & C4 & C5).
  fold k in R1, C1, C4, C5, C8.
  assert (Hp1 : path_ok 3 [i]) by (split; [simpl; lia|apply Forall_singleton; lia]).
  destruct (t_page _ _ Ht [i] t Hp1 Htab) as (P1 & P2 & P3).
  simpl in Htab. destruct (has (entry (vm_mem s) k i) VMM_FLAG_PRESENT) eqn:Epr; [|done]. injection Htab as Et.
  assert (En : entry (vm_mem s') new i = entry (vm_mem s) k i) by (rewrite C5, Epr, Hus by done; done).
  assert (E2 : s2 = set_vm_pa (pa_free new 1 (free_page_table_recursive 3 new true (vm_mem s') (vm_pa s'))) s').
  { unfold s2, vmm_destroy_address_space. rewrite R1, R2. fold k.
    rewrite !(proj2 (Z.eqb_neq new _)) by done. done. }
  pose proof (free_tables_shrinks 3 new true (vm_mem s') (vm_pa s') W) as Hsh.
  assert (Hfr : pa_used (free_page_table_recursive 3 new true (vm_mem s') (vm_pa s')) (t / PAGE_SIZE) = false).
  { rewrite <- Et, <- En. apply free_tables_frees; try done; rewrite ?En; try done; [rewrite Et; lia|]. by rewrite C6, Et. }
  destruct C2 as (N1 & N2 & N3).
  assert (En2 : pte_addr new = new) by (rewrite <- (Z.lor_0_r new) at 1; apply pte_addr_lor; [lia|done|intros; apply Z.bits_0]).
  destruct (free_page_spec (free_page_table_recursive 3 new true (vm_mem s') (vm_pa s')) new (proj1 Hsh)) as [Hsh2 _].
  rewrite En2 in Hsh2.
  assert (Hu2 : pa_used (vm_pa s2) (t / PAGE_SIZE) = false).
  { rewrite E2. cbn [vm_pa set_vm_pa]. destruct (pa_used (pa_free new 1 _) (t / PAGE_SIZE)) eqn:Eu; [|done].
    apply Hsh2 in Eu; [congruence|]. apply Z.div_pos; unfold PAGE_SIZE; lia. }
  assert (Ht2 : table_at (vm_mem s2) (kernel_pml4_phys s2) [i] = Some t).
  { rewrite E2. cbn [vm_mem set_vm_pa kernel_pml4_phys table_at]. rewrite R1. fold k. rewrite C8, Epr by lia. by f_equal. }
  split; [done|]. split; [done|]. split; [done|]. intros Htree.
  destruct (t_page _ _ Htree [i] t Hp1 Ht2) as (_ & _ & Hx). congruence.
Qed.
End Spaces.

(** ** Paging on a small machine *)

Lemma map_tree {S} `{PageAllocatorLaws S} (s : vmm S) virt phys flags c :
  c = vmm_map_page virt phys flags s -> tree s (active_pml4 s) -> 0 <= phys < 2 ^ 64 -> 0 <= flags < 2 ^ 64 ->
  tree (fst c) (active_pml4 (fst c)) /\ active_pml4 (fst c) = active_pml4 s /\ kernel_pml4_phys (fst c) = kernel_pml4_phys s.
Proof.
  intros -> Ht Hp Hf. pose proof (map_page_kernel virt phys flags s) as Hk. pose proof (map_page_spec s virt phys flags Ht Hp Hf) as Hm.
  destruct (vmm_map_page virt phys flags s) as [s' ok]. destruct Hm as (T & A & _). cbn [fst] in *. by rewrite A.
Qed.

Definition raw_vmm : vmm pmm := mk_vmm (fun _ => 0) big_pmm 0 0 [].
Definition root_vmm : vmm pmm := let '(s, p) := alloc_page_table raw_vmm in set_kernel_pml4 p s.
Definition mapped_vmm : vmm pmm * bool := vmm_map_page 0x5000 0x7000 VMM_FLAGS_KERNEL root_vmm.

Lemma root_vmm_tree : tree root_vmm (active_pml4 root_vmm) /\ active_pml4 root_vmm = kernel_pml4_phys root_vmm.
Proof.
  pose proof (new_root_spec raw_vmm big_wf) as Hr. unfold root_vmm.
  assert (Hs : snd (alloc_page_table raw_vmm) = 0x100000) by (vm_compute; reflexivity).
  destruct (alloc_page_table raw_vmm) as [s p]. cbn [snd] in Hs. subst p.
  change (tree s 0x100000 /\ table_page s 0x100000 /\ forall w, mapping (vm_mem s) 0x100000 w = None) in Hr.
  destruct Hr as (Ht & _). split; [|reflexivity]. destruct Ht as [T1 T2 T3]. split; [exact T1|exact T2|exact T3].
Qed.

Lemma mapped_vmm_eq : mapped_vmm = vmm_map_page 0x5000 0x7000 VMM_FLAGS_KERNEL root_vmm.
Proof. unfold mapped_vmm. reflexivity. Qed.
Lemma mapped_vmm_ok : mapped_vmm = (fst mapped_vmm, true).
Proof. apply pair_snd. vm_compute. reflexivity. Qed.

Lemma mapped_vmm_tree : tree (fst mapped_vmm) (active_pml4 (fst mapped_vmm)) /\
  active_pml4 (fst mapped_vmm) = kernel_pml4_phys (fst mapped_vmm).
Proof.
  destruct root_vmm_tree as [Ht Ha].
  destruct (map_tree root_vmm 0x5000 0x7000 VMM_FLAGS_KERNEL mapped_vmm mapped_vmm_eq Ht ltac:(lia) ltac:(split; [discriminate|reflexivity]))
    as (T & A & K). split; [exact T|]. rewrite A, K. exact Ha.
Qed.

Lemma vmm_map_page_contract_witness :
  tree root_vmm (active_pml4 root_vmm) /\ vmm_get_physical 0x5123 (fst mapped_vmm) = 0x7123.
Proof.
  destruct root_vmm_tree as [Ht _]. split; [exact Ht|].
  pose proof (vmm_map_page_contract root_vmm 0x5000 0x7000 VMM_FLAGS_KERNEL Ht ltac:(lia) ltac:(split; [discriminate|reflexivity])) as Hm.
  rewrite <- mapped_vmm_eq, mapped_vmm_ok in Hm.
  destruct Hm as (_ & _ & _ & _ & _ & Hm). apply (Hm 0x123). lia.
Defined.

Lemma vmm_unmap_page_contract_witness :
  tree (fst mapped_vmm) (active_pml4 (fst mapped_vmm)) /\
  tree (fst (vmm_unmap_page 0x5000 (fst mapped_vmm))) (active_pml4 (fst (vmm_unmap_page 0x5000 (fst mapped_vmm)))).
Proof.
  destruct mapped_vmm_tree as [Ht _]. split; [exact Ht|]. pose proof (vmm_unmap_page_contract (fst mapped_vmm) 0x5000 Ht) as Hm.
  destruct (vmm_unmap_page 0x5000 (fst mapped_vmm)) as [s' r]. exact (proj1 Hm).
Defined.

Lemma vmm_map_pages_contract_witness :
  tree root_vmm (active_pml4 root_vmm) /\
  tree (fst (vmm_map_pages 0x5000 0x7000 3 VMM_FLAGS_KERNEL root_vmm)) (active_pml4 (fst (vmm_map_pages 0x5000 0x7000 3 VMM_FLAGS_KERNEL root_vmm))).
Proof.
  destruct root_vmm_tree as [Ht _]. split; [exact Ht|].
  pose proof (vmm_map_pages_contract root_vmm 0x5000 0x7000 3 VMM_FLAGS_KERNEL Ht ltac:(lia) ltac:(split; [discriminate|reflexivity])) as Hm.
  destruct (vmm_map_pages 0x5000 0x7000 3 VMM_FLAGS_KERNEL root_vmm) as [s' r]. exact (proj1 Hm).
Defined.

Lemma vmm_init_identity_witness :
  pa_wf (vm_pa raw_vmm) /\
  (kernel_pml4_phys (vmm_init raw_vmm) = 0 \/ tree (vmm_init raw_vmm) (kernel_pml4_phys (vmm_init raw_vmm))).
Proof.
  split; [exact big_wf|]. destruct (vmm_init_identity raw_vmm big_wf) as [[E _]|[Ht _]]; [left; exact E|right; exact Ht].
Defined.

Lemma vmm_user_page_unreachable_witness :
  exists s', vmm_map_page 0x6000 0x8000 VMM_FLAGS_USER (fst mapped_vmm) = (s', true) /\
    user_access (vm_mem s') (active_pml4 s') 0x6000 = false.
Proof.
  set (c := vmm_map_page 0x6000 0x8000 VMM_FLAGS_USER (fst mapped_vmm)).
  assert (E : c = (fst c, true)) by (apply pair_snd; vm_compute; reflexivity).
  exists (fst c). split; [exact E|].
  apply (vmm_user_page_unreachable (fst mapped_vmm) 0x6000 0x8000 (fst c) (proj1 mapped_vmm_tree) ltac:(lia)
    ltac:(vm_compute; reflexivity) ltac:(vm_compute; reflexivity) E).
Defined.

Definition space_vmm : vmm pmm * Z := vmm_create_address_space (fst mapped_vmm).
Lemma space_vmm_new : vmm_create_address_space (fst mapped_vmm) = (fst space_vmm, 0x104000).
Proof. unfold space_vmm. apply pair_snd. vm_compute. reflexivity. Qed.

Lemma vmm_create_shares_kernel_witness :
  tree (fst mapped_vmm) (kernel_pml4_phys (fst mapped_vmm)) /\ table_page (fst space_vmm) 0x104000.
Proof.
  destruct mapped_vmm_tree as [Ht Ha]. rewrite Ha in Ht. split; [exact Ht|].
  apply (vmm_create_shares_kernel (fst mapped_vmm) (fst space_vmm) 0x104000 Ht space_vmm_new ltac:(discriminate)).
Defined.

Lemma vmm_destroy_frees_kernel_tables_witness :
  exists t, table_at (vm_mem (fst mapped_vmm)) (kernel_pml4_phys (fst mapped_vmm)) [0] = Some t /\
    pa_used (vm_pa (vmm_destroy_address_space 0x104000 (fst space_vmm))) (t / PAGE_SIZE) = false.
Proof.
  destruct mapped_vmm_tree as [Ht Ha]. rewrite Ha in Ht. exists 0x101000.
  assert (E : table_at (vm_mem (fst mapped_vmm)) (kernel_pml4_phys (fst mapped_vmm)) [0] = Some 0x101000) by (vm_compute; reflexivity).
  split; [exact E|].
  apply (vmm_destroy_frees_kernel_tables (fst mapped_vmm) (fst space_vmm) 0x104000 0 0x101000 Ht space_vmm_new
    ltac:(discriminate) ltac:(vm_compute; discriminate) ltac:(lia) E ltac:(vm_compute; reflexivity) ltac:(vm_compute; reflexivity)
    ltac:(vm_compute; reflexivity)).
Defined.
