(* ===== verification/Sha256.v ===== *)
(** * SHA-256 (security/crypto/sha256.c, crypto.h): data and operations

    A byte array argument is the function from indices to bytes ([None] for NULL),
    and [p += n] shifts it. The context is passed as a value: the functions' tests for
    a NULL context are not modelled. *)
From S2P Require Import Prelude Ring.
Definition SHA256_DIGEST_SIZE : Z := 32.
Definition SHA256_BLOCK_SIZE : Z := 64.

(** [uint32_t state[8]], and the eight working variables. *)
Record words := mk_words { wa : Z; wb : Z; wc : Z; wd : Z; we : Z; wf : Z; wg : Z; wh : Z }.

Record sha256_ctx := mk_sha {
  sha_state : words;
  sha_count : Z;
  sha_buffer : Z -> Z;
}.

Definition sha256_h0 : words :=
  mk_words 0x6a09e667 0xbb67ae85 0x3c6ef372 0xa54ff53a 0x510e527f 0x9b05688c 0x1f83d9ab 0x5be0cd19.

(** Four of the round constants, a line of the table. *)
Definition k_row (a b c d : Z) (rest : list Z) : list Z := a :: b :: c :: d :: rest.
Definition sha256_k : list Z :=
  k_row 0x428a2f98 0x71374491 0xb5c0fbcf 0xe9b5dba5 (
  k_row 0x3956c25b 0x59f111f1 0x923f82a4 0xab1c5ed5 (
  k_row 0xd807aa98 0x12835b01 0x243185be 0x550c7dc3 (
  k_row 0x72be5d74 0x80deb1fe 0x9bdc06a7 0xc19bf174 (
  k_row 0xe49b69c1 0xefbe4786 0x0fc19dc6 0x240ca1cc (
  k_row 0x2de92c6f 0x4a7484aa 0x5cb0a9dc 0x76f988da (
  k_row 0x983e5152 0xa831c66d 0xb00327c8 0xbf597fc7 (
  k_row 0xc6e00bf3 0xd5a79147 0x06ca6351 0x14292967 (
  k_row 0x27b70a85 0x2e1b2138 0x4d2c6dfc 0x53380d13 (
  k_row 0x650a7354 0x766a0abb 0x81c2c92e 0x92722c85 (
  k_row 0xa2bfe8a1 0xa81a664b 0xc24b8b70 0xc76c51a3 (
  k_row 0xd192e819 0xd6990624 0xf40e3585 0x106aa070 (
  k_row 0x19a4c116 0x1e376c08 0x2748774c 0x34b0bcb5 (
  k_row 0x391c0cb3 0x4ed8aa4a 0x5b9cca4f 0x682e6ff3 (
  k_row 0x748f82ee 0x78a5636f 0x84c87814 0x8cc70208 (
  k_row 0x90befffa 0xa4506ceb 0xbef9a3f7 0xc67178f2 []))))))))))))))).

Definition ROTR (x n : Z) : Z := Z.lor (Z.shiftr x n) (u32 (Z.shiftl x (32 - n))).
Definition SHR (x n : Z) : Z := Z.shiftr x n.
Definition CH (x y z : Z) : Z := Z.lxor (Z.land x y) (Z.land (u32 (Z.lnot x)) z).
Definition MAJ (x y z : Z) : Z := Z.lxor (Z.lxor (Z.land x y) (Z.land x z)) (Z.land y z).
Definition SIGMA0 (x : Z) : Z := Z.lxor (Z.lxor (ROTR x 2) (ROTR x 13)) (ROTR x 22).
Definition SIGMA1 (x : Z) : Z := Z.lxor (Z.lxor (ROTR x 6) (ROTR x 11)) (ROTR x 25).
Definition sigma0 (x : Z) : Z := Z.lxor (Z.lxor (ROTR x 7) (ROTR x 18)) (SHR x 3).
Definition sigma1 (x : Z) : Z := Z.lxor (Z.lxor (ROTR x 17) (ROTR x 19)) (SHR x 10).

(** ** One block *)

Definition block_word (block : Z -> Z) (i : Z) : Z :=
  Z.lor (Z.lor (Z.lor (u32 (Z.shiftl (block (i * 4)) 24)) (u32 (Z.shiftl (block (i * 4 + 1)) 16)))
    (u32 (Z.shiftl (block (i * 4 + 2)) 8))) (block (i * 4 + 3)).
Definition schedule (block : Z -> Z) : Z -> Z :=
  let w := for_range 0 16 (fun i w => upd w i (block_word block i)) (fun _ => 0) in
  for_range 16 64 (fun i w =>
    upd w i (u32 (sigma1 (w (i - 2)) + w (i - 7) + sigma0 (w (i - 15)) + w (i - 16)))) w.

Definition round (w : Z -> Z) (i : Z) (v : words) : words :=
  let t1 := u32 (wh v + SIGMA1 (we v) + CH (we v) (wf v) (wg v) + nth (Z.to_nat i) sha256_k 0 + w i) in
  let t2 := u32 (SIGMA0 (wa v) + MAJ (wa v) (wb v) (wc v)) in
  mk_words (u32 (t1 + t2)) (wa v) (wb v) (wc v) (u32 (wd v + t1)) (we v) (wf v) (wg v).

Definition transform_words (st : words) (block : Z -> Z) : words :=
  let v := for_range 0 64 (round (schedule block)) st in
  mk_words (u32 (wa st + wa v)) (u32 (wb st + wb v)) (u32 (wc st + wc v)) (u32 (wd st + wd v))
    (u32 (we st + we v)) (u32 (wf st + wf v)) (u32 (wg st + wg v)) (u32 (wh st + wh v)).
Definition sha256_transform (ctx : sha256_ctx) (block : Z -> Z) : sha256_ctx :=
  mk_sha (transform_words (sha_state ctx) block) (sha_count ctx) (sha_buffer ctx).

(** ** The interface *)

Definition sha256_init (ctx : sha256_ctx) : sha256_ctx := mk_sha sha256_h0 0 (fun _ => 0).

(** [memcpy(buf + at, p, n)] *)
Definition memcpy_at (buf : Z -> Z) (at_ : Z) (p : Z -> Z) (n : Z) : Z -> Z :=
  fun i => if (at_ <=? i) && (i <? at_ + n) then p (i - at_) else buf i.
Definition advance (p : Z -> Z) (n : Z) : Z -> Z := fun i => p (n + i).

(** [while (len >= 64) { transform; p += 64; len -= 64; }] *)
Fixpoint whole_blocks (n : nat) (ctx : sha256_ctx) (p : Z -> Z) (len : Z) : sha256_ctx * (Z -> Z) * Z :=
  match n with
  | O => (ctx, p, len)
  | S n' =>
      if SHA256_BLOCK_SIZE <=? len
      then whole_blocks n' (sha256_transform ctx p) (advance p SHA256_BLOCK_SIZE) (len - SHA256_BLOCK_SIZE)
      else (ctx, p, len)
  end.

Definition sha256_update (ctx : sha256_ctx) (data : option (Z -> Z)) (len : Z) : sha256_ctx :=
  match data with
  | None => ctx
  | Some p =>
      if len =? 0 then ctx
      else
        let buffer_used := sha_count ctx mod SHA256_BLOCK_SIZE in
        let buffer_free := SHA256_BLOCK_SIZE - buffer_used in
        let ctx := mk_sha (sha_state ctx) (u64 (sha_count ctx + len)) (sha_buffer ctx) in
        let '(ctx, p, len, buffer_used) :=
          if (0 <? buffer_used) && (buffer_free <=? len) then
            let buf := memcpy_at (sha_buffer ctx) buffer_used p buffer_free in
            let ctx := mk_sha (sha_state ctx) (sha_count ctx) buf in
            (sha256_transform ctx buf, advance p buffer_free, len - buffer_free, 0)
          else (ctx, p, len, buffer_used) in
        let '(ctx, p, len) := whole_blocks (Z.to_nat (len / SHA256_BLOCK_SIZE)) ctx p len in
        if 0 <? len
        then mk_sha (sha_state ctx) (sha_count ctx) (memcpy_at (sha_buffer ctx) buffer_used p len)
        else ctx
  end.

(** The bytes of a word, most significant first. *)
Definition be_word (x : Z) : list Z :=
  [u8 (Z.shiftr x 24); u8 (Z.shiftr x 16); u8 (Z.shiftr x 8); u8 x].
Definition digest (v : words) : list Z :=
  be_word (wa v) ++ be_word (wb v) ++ be_word (wc v) ++ be_word (wd v) ++
  be_word (we v) ++ be_word (wf v) ++ be_word (wg v) ++ be_word (wh v).

Definition padding_len (count : Z) : Z :=
  let buffer_used := count mod SHA256_BLOCK_SIZE in
  if buffer_used <? 56 then 56 - buffer_used else 120 - buffer_used.
(** The array [padding[128]]. *)
Definition padding (count : Z) : Z -> Z :=
  let total_bits := u64 (count * 8) in
  let n := padding_len count in
  fun i =>
    if (n <=? i) && (i <? n + 8) then u8 (Z.shiftr total_bits (56 - 8 * (i - n)))
    else if i =? 0 then 0x80 else 0.

(** The digest, and the context wiped. *)
Definition sha256_final (ctx : sha256_ctx) : sha256_ctx * list Z :=
  let n := padding_len (sha_count ctx) in
  let ctx := sha256_update ctx (Some (padding (sha_count ctx))) (n + 8) in
  (mk_sha (mk_words 0 0 0 0 0 0 0 0) 0 (fun _ => 0), digest (sha_state ctx)).

Definition sha256_hash (data : option (Z -> Z)) (len : Z) (ctx : sha256_ctx) : option (list Z) :=
  match data with
  | None => None
  | Some _ => Some (snd (sha256_final (sha256_update (sha256_init ctx) data len)))
  end.

(** ** Theorems of SHA-256 (security/crypto/sha256.c)

    The incremental interface computes the hash of FIPS 180-4: pad the whole message,
    cut it into blocks of 64 bytes, and fold the compression function over them. *)

(** ** The reference *)

Definition from_list (l : list Z) : Z -> Z := fun i => nth (Z.to_nat i) l 0.

Fixpoint compress (n : nat) (l : list Z) (st : words) : words :=
  match n with
  | O => st
  | S n' => compress n' (drop 64 l) (transform_words st (from_list (take 64 l)))
  end.

Definition be64 (x : Z) : list Z := map (fun j => u8 (Z.shiftr x (56 - 8 * Z.of_nat j))) (seq 0 8).
Definition sha_pad (l : list Z) : list Z :=
  let n := Z.of_nat (length l) in
  l ++ [0x80] ++ replicate (Z.to_nat ((55 - n) mod 64)) 0 ++ be64 (8 * n).
Definition sha256_reference (l : list Z) : list Z :=
  digest (compress (length (sha_pad l) / 64) (sha_pad l) sha256_h0).

(** ** The compression function depends on the 64 bytes of the block *)

Lemma block_word_ext b b' i : (forall j, 0 <= j < 64 -> b' j = b j) -> 0 <= i < 16 -> block_word b' i = block_word b i.
Proof. intros He Hi. unfold block_word. by rewrite !He by lia. Qed.

Lemma for_range_ext {A} (R : A -> A -> Prop) f f' lo hi (a a' : A) :
  R a a' -> (forall i x y, lo <= i < hi -> R x y -> R (f i x) (f' i y)) -> R (for_range lo hi f a) (for_range lo hi f' a').
Proof.
  intros H0 Hs. unfold for_range.
  assert (Hn : forall n i x y, lo <= i -> i + Z.of_nat n <= Z.max lo hi -> R x y -> R (iter_up n i f x) (iter_up n i f' y)).
  { induction n as [|n IH]; intros i x y Hi Hb HR; cbn [iter_up]; [done|]. apply IH; [lia|lia|]. apply Hs; [lia|done]. }
  apply Hn; [lia|lia|done].
Qed.

Lemma transform_ext st b b' : (forall j, 0 <= j < 64 -> b' j = b j) -> transform_words st b' = transform_words st b.
Proof.
  intros He.
  assert (Hw : forall x, schedule b' x = schedule b x).
  { unfold schedule. apply (for_range_ext (fun w w' => forall x, w x = w' x)).
    - apply (for_range_ext (fun w w' => forall x, w x = w' x)); [done|]. intros i w w' Hi HR x. unfold upd.
      by rewrite (block_word_ext b b'), HR by done.
    - intros i w w' Hi HR x. unfold upd. by rewrite !HR. }
  unfold transform_words. replace (for_range 0 64 (round (schedule b')) st) with (for_range 0 64 (round (schedule b)) st); [done|].
  apply (for_range_ext eq); [done|]. intros i v v' _ ->. unfold round. by rewrite Hw.
Qed.

Lemma from_list_data b n j : 0 <= j < Z.of_nat n -> from_list (data_list n 0 b) j = b j.
Proof.
  intros Hj. unfold from_list.
  assert (Hg : forall n k i, (i < n)%nat -> nth i (data_list n k b) 0 = b (k + Z.of_nat i)).
  { clear. induction n as [|n IH]; intros k i Hi; [lia|]. destruct i as [|i]; cbn [data_list nth].
    - f_equal. lia.
    - rewrite IH by lia. f_equal. lia. }
  rewrite Hg by lia. f_equal. lia.
Qed.

Lemma compress_app n k l1 l2 st : length l1 = (64 * n)%nat -> compress (n + k) (l1 ++ l2) st = compress k l2 (compress n l1 st).
Proof.
  revert l1 st. induction n as [|n IH]; intros l1 st Hl.
  - destruct l1; [done|]. simpl in Hl. lia.
  - cbn [compress Nat.add]. rewrite take_app_le, drop_app_le by lia. apply IH. rewrite length_drop. lia.
Qed.

(** [compress] looks at whole blocks only. *)
Lemma compress_prefix n l1 l2 st : length l1 = (64 * n)%nat -> compress n (l1 ++ l2) st = compress n l1 st.
Proof. intros Hl. rewrite <- (Nat.add_0_r n) at 1. by rewrite compress_app. Qed.

Lemma data_list_app n k d j : data_list (n + k) j d = data_list n j d ++ data_list k (j + Z.of_nat n) d.
Proof.
  revert j. induction n as [|n IH]; intros j; cbn [data_list Nat.add app]; [by rewrite Z.add_0_r|].
  rewrite IH. do 3 f_equal. lia.
Qed.

Lemma data_list_shift n k a d : data_list n k (advance d a) = data_list n (a + k) d.
Proof. revert k. induction n as [|n IH]; intros k; cbn [data_list]; [done|]. rewrite IH. unfold advance. do 2 f_equal. lia. Qed.

Lemma whole_blocks_spec n ctx p len :
  Z.of_nat n = len / 64 -> 0 <= len ->
  exists q, whole_blocks n ctx p len =
    (mk_sha (compress n (data_list (64 * n) 0 p) (sha_state ctx)) (sha_count ctx) (sha_buffer ctx), q, len mod 64) /\
    forall k, data_list k 0 q = data_list k (64 * Z.of_nat n) p.
Proof.
  revert ctx p len. induction n as [|n IH]; intros ctx p len Hn Hl; cbn [whole_blocks].
  - exists p. split; [|done]. f_equal; [f_equal; by destruct ctx|]. dlia.
  - unfold SHA256_BLOCK_SIZE. rewrite (proj2 (Z.leb_le 64 len)) by dlia.
    destruct (IH (sha256_transform ctx p) (advance p 64) (len - 64)) as (q & E & Hq); [dlia|dlia|].
    assert (Est : compress n (data_list (64 * n) 0 (advance p 64)) (sha_state (sha256_transform ctx p)) =
      compress (S n) (data_list (64 * S n) 0 p) (sha_state ctx)).
    { rewrite (data_list_shift (64 * n) 0 64 p). replace (64 * S n)%nat with (64 + 64 * n)%nat by lia.
      rewrite data_list_app. change (Z.of_nat 64) with 64. rewrite Z.add_0_r, Z.add_0_l.
      set (l2 := data_list (64 * n) 64 p). cbn [compress].
      rewrite take_app_le, drop_app_le, take_ge, drop_ge by (rewrite length_data_list; lia). cbn [app sha256_transform sha_state].
      rewrite (transform_ext (sha_state ctx) p (from_list (data_list 64 0 p))); [reflexivity|].
      intros j Hj. apply from_list_data. lia. }
    exists q. rewrite E, Est. split.
    + replace ((len - 64) mod 64) with (len mod 64) by dlia. reflexivity.
    + intros k. rewrite Hq, (data_list_shift k (64 * Z.of_nat n) 64 p). f_equal. lia.
Qed.

Lemma memcpy_at_data buf r p n :
  data_list (r + n) 0 (memcpy_at buf (Z.of_nat r) p (Z.of_nat n)) = data_list r 0 buf ++ data_list n 0 p.
Proof.
  rewrite data_list_app. f_equal.
  - apply data_list_ext. intros j Hj. unfold memcpy_at. replace (_ && _) with false by lia. done.
  - transitivity (data_list n (Z.of_nat r) (memcpy_at buf (Z.of_nat r) p (Z.of_nat n))); [done|].
    assert (Hg : forall k m, (m + k <= n)%nat -> data_list k (Z.of_nat (r + m)) (memcpy_at buf (Z.of_nat r) p (Z.of_nat n)) =
      data_list k (Z.of_nat m) p); [|rewrite <- (Nat.add_0_r r) at 1; rewrite Hg by lia; done].
    induction k as [|k IH]; intros m Hm; cbn [data_list]; [done|].
    replace (Z.of_nat (r + m) + 1) with (Z.of_nat (r + S m)) by lia. replace (Z.of_nat m + 1) with (Z.of_nat (S m)) by lia.
    rewrite IH by lia. f_equal. unfold memcpy_at. replace (_ && _) with true by lia. f_equal. lia.
Qed.

(** ** What a context stands for *)

(** The bytes [l] have been absorbed: the whole blocks [L] are in the state, the rest
    [R] in the buffer. *)
Definition absorbed (ctx : sha256_ctx) (l : list Z) : Prop :=
  exists q L R, l = L ++ R /\ length L = (64 * q)%nat /\ (length R < 64)%nat /\
    sha_count ctx = Z.of_nat (length l) /\ sha_state ctx = compress q L sha256_h0 /\
    data_list (length R) 0 (sha_buffer ctx) = R.

(** From a full state on: whole blocks, then the remainder into the buffer. *)
Lemma absorb_rest st cnt buf q L p len :
  length L = (64 * q)%nat -> st = compress q L sha256_h0 -> 0 <= len ->
  cnt = Z.of_nat (length L) + len ->
  absorbed (let '(ctx, p, len) := whole_blocks (Z.to_nat (len / 64)) (mk_sha st cnt buf) p len in
            if 0 <? len then mk_sha (sha_state ctx) (sha_count ctx) (memcpy_at (sha_buffer ctx) 0 p len) else ctx)
    (L ++ data_list (Z.to_nat len) 0 p).
Proof.
  intros HL -> Hl Hc. set (n := Z.to_nat (len / 64)). set (m := Z.to_nat (len mod 64)).
  assert (Hn : Z.of_nat n = len / 64) by (unfold n; rewrite Z2Nat.id by (apply Z.div_pos; lia); done).
  assert (Hm : Z.of_nat m = len mod 64) by (unfold m; rewrite Z2Nat.id by (apply Z.mod_pos_bound; lia); done).
  destruct (whole_blocks_spec n (mk_sha (compress q L sha256_h0) cnt buf) p len Hn Hl) as (p2 & E & Hp2). rewrite E.
  cbn [sha_state sha_count sha_buffer].
  assert (Hlen : Z.to_nat len = (64 * n + m)%nat) by dlia.
  assert (Hd : data_list (Z.to_nat len) 0 p = data_list (64 * n) 0 p ++ data_list m 0 p2).
  { rewrite Hlen, data_list_app, Hp2. do 2 f_equal. lia. }
  assert (Hb : forall b, data_list m 0 b = data_list m 0 p2 ->
    absorbed (mk_sha (compress n (data_list (64 * n) 0 p) (compress q L sha256_h0)) cnt b) (L ++ data_list (Z.to_nat len) 0 p)).
  { intros b Eb. exists (q + n)%nat, (L ++ data_list (64 * n) 0 p), (data_list m 0 p2).
    rewrite Hd, <- app_assoc. split; [done|]. rewrite length_app, !length_data_list. split; [lia|]. split; [dlia|].
    split; [cbn [sha_count]; rewrite !length_app, !length_data_list; lia|]. split; [|done].
    cbn [sha_state]. symmetry. by apply compress_app. }
  destruct (0 <? len mod 64) eqn:E0; zbool.
  - apply Hb. pose proof (memcpy_at_data buf 0 p2 m) as Hmc. cbn [Nat.add data_list app] in Hmc. by rewrite <- Hm.
  - apply Hb. assert (m = 0%nat) as -> by dlia. done.
Qed.

Lemma update_absorbs ctx l p len :
  absorbed ctx l -> 0 <= len -> Z.of_nat (length l) + len < 2 ^ 64 ->
  absorbed (sha256_update ctx (Some p) len) (l ++ data_list (Z.to_nat len) 0 p).
Proof.
  intros (q & L & R & -> & HL & HR & Hc & Hs & Hb) Hl Hlim. unfold sha256_update, SHA256_BLOCK_SIZE.
  destruct (len =? 0) eqn:E0; zbool.
  { subst len. rewrite app_nil_r. by exists q, L, R. }
  rewrite length_app in *. rewrite u64_id by lia.
  replace (sha_count ctx mod 64) with (Z.of_nat (length R)) by dlia. set (r := length R) in *.
  cbn [sha_state sha_count sha_buffer]. destruct ((0 <? Z.of_nat r) && (64 - Z.of_nat r <=? len)) eqn:Ec.
  - zbool. cbv zeta. set (k := (64 - r)%nat). replace (64 - Z.of_nat r) with (Z.of_nat k) by lia.
    set (buf := memcpy_at (sha_buffer ctx) (Z.of_nat r) p (Z.of_nat k)).
    assert (EB : data_list 64 0 buf = R ++ data_list k 0 p).
    { unfold buf. replace 64%nat with (r + k)%nat by lia. by rewrite memcpy_at_data, Hb. }
    set (st := transform_words (sha_state ctx) buf).
    assert (Est : st = compress (q + 1) (L ++ R ++ data_list k 0 p) sha256_h0).
    { rewrite compress_app by done. cbn [compress]. rewrite take_ge by (rewrite length_app, length_data_list; lia).
      rewrite <- EB, <- Hs. unfold st. symmetry. apply transform_ext. intros j Hj. apply from_list_data. lia. }
    pose proof (absorb_rest st (sha_count ctx + len) buf (q + 1) (L ++ R ++ data_list k 0 p) (advance p (Z.of_nat k)) (len - Z.of_nat k)
      ltac:(rewrite !length_app, length_data_list; lia) Est ltac:(lia) ltac:(rewrite !length_app, length_data_list; lia)) as Ha.
    rewrite data_list_shift, Z.add_0_r in Ha.
    replace ((L ++ R) ++ data_list (Z.to_nat len) 0 p) with
      ((L ++ R ++ data_list k 0 p) ++ data_list (Z.to_nat (len - Z.of_nat k)) (Z.of_nat k) p); [exact Ha|].
    replace (Z.to_nat len) with (k + Z.to_nat (len - Z.of_nat k))%nat by lia. rewrite data_list_app, <- !app_assoc. done.
  - cbv zeta. destruct (decide (r = 0%nat)) as [Er|Er].
    + destruct R; [|done]. cbn [length] in r. subst r. rewrite app_nil_r. change (Z.of_nat 0) with 0.
      apply absorb_rest with (q := q); [done|done|lia|]. by rewrite Hc, Nat.add_0_r.
    + replace (0 <? Z.of_nat r) with true in Ec by lia. simpl in Ec. zbool.
      rewrite (Z.div_small len 64) by lia. change (Z.to_nat 0) with 0%nat. cbn [whole_blocks].
      replace (0 <? len) with true by lia.
      set (n := Z.to_nat len). replace len with (Z.of_nat n) by lia. exists q, L, (R ++ data_list n 0 p).
      rewrite length_app, length_data_list. split; [by rewrite app_assoc|]. split; [done|]. split; [lia|].
      split; [cbn [sha_count]; rewrite !length_app, length_data_list; fold r; lia|]. split; [done|]. cbn [sha_buffer].
      fold r. by rewrite memcpy_at_data, Hb.
Qed.

Lemma init_absorbs ctx : absorbed (sha256_init ctx) [].
Proof. exists 0%nat, [], []. split; [done|]. split; [done|]. split; [simpl; lia|done]. Qed.

(** ** Padding *)

Lemma padding_data n :
  0 <= n < 2 ^ 61 ->
  data_list (Z.to_nat (padding_len n + 8)) 0 (padding n) = [0x80] ++ replicate (Z.to_nat ((55 - n) mod 64)) 0 ++ be64 (8 * n).
Proof.
  intros Hn. set (k := Z.to_nat ((55 - n) mod 64)).
  assert (Hk : Z.of_nat k = (55 - n) mod 64) by (unfold k; rewrite Z2Nat.id by (apply Z.mod_pos_bound; lia); done).
  assert (Hp : padding_len n = Z.of_nat k + 1) by (unfold padding_len, SHA256_BLOCK_SIZE; rewrite Hk; case_if; dlia).
  rewrite Hp. replace (Z.to_nat (Z.of_nat k + 1 + 8)) with (1 + (k + 8))%nat by lia.
  rewrite data_list_app, data_list_app. change (Z.of_nat 1) with 1. f_equal; [|f_equal].
  - cbn [data_list]. unfold padding. rewrite Hp. replace (_ && _) with false by lia. done.
  - assert (Hz : forall j i, 0 < i -> i + Z.of_nat j <= Z.of_nat k + 1 -> data_list j i (padding n) = replicate j 0).
    { induction j as [|j IH]; intros i Hi Hj; cbn [data_list replicate]; [done|]. rewrite IH by lia. f_equal.
      unfold padding. rewrite Hp. replace (_ && _) with false by lia. by replace (i =? 0) with false by lia. }
    apply Hz; lia.
  - unfold be64. replace (0 + 1 + Z.of_nat k) with (padding_len n) by lia.
    assert (Hb : forall j, 0 <= j < 8 -> padding n (padding_len n + j) = u8 (Z.shiftr (8 * n) (56 - 8 * j))).
    { intros j Hj. unfold padding. replace (_ && _) with true by lia. rewrite u64_id by lia. do 2 f_equal; lia. }
    cbn [data_list map seq]. rewrite <- !Z.add_assoc. rewrite !Hb by lia.
    rewrite <- (Z.add_0_r (padding_len n)) at 1. by rewrite Hb by lia.
Qed.

Lemma length_sha_pad l : (length (sha_pad l) mod 64 = 0)%nat.
Proof.
  unfold sha_pad, be64. rewrite !length_app, length_replicate, length_map, length_seq. cbn [length].
  set (n := length l). assert (Hk : Z.of_nat (Z.to_nat ((55 - Z.of_nat n) mod 64)) = (55 - Z.of_nat n) mod 64) by
    (rewrite Z2Nat.id by (apply Z.mod_pos_bound; lia); done).
  apply Nat2Z.inj. rewrite Nat2Z.inj_mod. rewrite !Nat2Z.inj_add, Hk. cbn [Z.of_nat]. dlia.
Qed.

Lemma final_digest ctx l : absorbed ctx l -> Z.of_nat (length l) < 2 ^ 61 -> snd (sha256_final ctx) = sha256_reference l.
Proof.
  intros Ha Hl. assert (Hc : sha_count ctx = Z.of_nat (length l)) by by destruct Ha as (q & L & R & _ & _ & _ & Hc & _).
  unfold sha256_final. cbn [snd]. rewrite Hc. set (n := Z.of_nat (length l)) in *.
  assert (Hpl : 0 < padding_len n <= 64) by (unfold padding_len, SHA256_BLOCK_SIZE; case_if; dlia).
  pose proof (update_absorbs ctx l (padding n) (padding_len n + 8) Ha ltac:(lia) ltac:(lia)) as Hu.
  rewrite padding_data in Hu by lia. change (l ++ [128] ++ _) with (sha_pad l) in Hu.
  destruct Hu as (q & L & R & Ep & HL & HR & _ & -> & _). unfold sha256_reference. f_equal.
  pose proof (length_sha_pad l) as Hm. rewrite Ep, length_app in Hm.
  assert (length R = 0%nat) as HR0.
  { rewrite HL, Nat.add_comm, Nat.mul_comm, Nat.Div0.mod_add in Hm. rewrite Nat.mod_small in Hm by lia. lia. }
  destruct R; [|done]. rewrite app_nil_r in Ep. rewrite Ep, HL. f_equal. rewrite Nat.mul_comm. symmetry. by apply Nat.div_mul.
Qed.

(** ** The claims *)

(** The bytes a call of [sha256_update] is given. *)
Definition chunk_bytes (c : option (Z -> Z) * Z) : list Z :=
  match fst c with None => [] | Some p => data_list (Z.to_nat (snd c)) 0 p end.

Lemma updates_absorb cs ctx l :
  absorbed ctx l -> Forall (fun c => 0 <= snd c) cs -> Z.of_nat (length (l ++ concat (map chunk_bytes cs))) < 2 ^ 64 ->
  absorbed (fold_left (fun ctx c => sha256_update ctx (fst c) (snd c)) cs ctx) (l ++ concat (map chunk_bytes cs)).
Proof.
  revert ctx l. induction cs as [|[d n] cs IH]; intros ctx l Ha Hf Hlim; cbn [map concat fold_left fst snd].
  - by rewrite app_nil_r.
  - apply Forall_cons in Hf as [Hn Hf]. cbn [snd] in Hn. cbn [map concat] in Hlim. rewrite app_assoc in *.
    apply IH; [|done|done]. unfold chunk_bytes at 1. cbn [fst snd]. destruct d as [p|].
    + apply update_absorbs; [done|done|]. unfold chunk_bytes in Hlim. cbn [fst snd] in Hlim.
      rewrite !length_app, length_data_list in Hlim. lia.
    + by rewrite app_nil_r.
Qed.

(** C20: However a message of less than 2^61 bytes is cut into pieces, [sha256_init],
    one [sha256_update] per piece and [sha256_final] compute its SHA-256 digest: the
    big-endian state after compressing the blocks of the message padded with a one bit,
    zeros and its 64-bit length. *)
Theorem sha256_incremental ctx cs :
  Forall (fun c => 0 <= snd c) cs -> Z.of_nat (length (concat (map chunk_bytes cs))) < 2 ^ 61 ->
  snd (sha256_final (fold_left (fun ctx c => sha256_update ctx (fst c) (snd c)) cs (sha256_init ctx))) =
  sha256_reference (concat (map chunk_bytes cs)).
Proof.
  intros Hf Hlim. apply final_digest; [|done]. apply (updates_absorb cs (sha256_init ctx) []); [apply init_absorbs|done|].
  cbn [app]. lia.
Qed.

(** The one-shot [sha256_hash] of "abc", of the empty string and of the 56-byte
    message of FIPS 180-4, whose padding takes two blocks, are the published digests,
    which pins down the constants, the schedule and the rounds. *)
Theorem sha256_test_vectors ctx :
  sha256_hash (Some (from_list [97; 98; 99])) 3 ctx = Some
    [0xba; 0x78; 0x16; 0xbf; 0x8f; 0x01; 0xcf; 0xea; 0x41; 0x41; 0x40; 0xde; 0x5d; 0xae; 0x22; 0x23;
     0xb0; 0x03; 0x61; 0xa3; 0x96; 0x17; 0x7a; 0x9c; 0xb4; 0x10; 0xff; 0x61; 0xf2; 0x00; 0x15; 0xad] /\
  sha256_hash (Some (from_list [])) 0 ctx = Some
    [0xe3; 0xb0; 0xc4; 0x42; 0x98; 0xfc; 0x1c; 0x14; 0x9a; 0xfb; 0xf4; 0xc8; 0x99; 0x6f; 0xb9; 0x24;
     0x27; 0xae; 0x41; 0xe4; 0x64; 0x9b; 0x93; 0x4c; 0xa4; 0x95; 0x99; 0x1b; 0x78; 0x52; 0xb8; 0x55] /\
  sha256_hash (Some (fun i => 97 + i / 4 + i mod 4)) 56 ctx = Some
    [0x24; 0x8d; 0x6a; 0x61; 0xd2; 0x06; 0x38; 0xb8; 0xe5; 0xc0; 0x26; 0x93; 0x0c; 0x3e; 0x60; 0x39;
     0xa3; 0x3c; 0xe4; 0x59; 0x64; 0xff; 0x21; 0x67; 0xf6; 0xec; 0xed; 0xd4; 0x19; 0xdb; 0x06; 0xc1].
Proof. unfold sha256_hash, sha256_init. split; [vm_compute; reflexivity|split; vm_compute; reflexivity]. Qed.

Lemma sha256_incremental_witness :
  snd (sha256_final (fold_left (fun ctx c => sha256_update ctx (fst c) (snd c))
    [(Some (from_list [97]), 1); (None, 5); (Some (from_list [98; 99]), 2)] (sha256_init (mk_sha sha256_h0 0 (fun _ => 0))))) =
  sha256_reference [97; 98; 99].
Proof.
  apply (sha256_incremental (mk_sha sha256_h0 0 (fun _ => 0))
    [(Some (from_list [97]), 1); (None, 5); (Some (from_list [98; 99]), 2)]).
  - repeat constructor; discriminate.
  - reflexivity.
Defined.
