(* ===== verification/Netbuf.v ===== *)
(** * Network buffers (net/core/netbuf.c, netbuf.h): data and operations

    The structures are kept by their address, the packet bytes in memory. Both come
    from the page allocator. *)
From S2P Require Import Prelude Memory CString PageAlloc Pmm Ring.
Definition NETBUF_DEFAULT_SIZE : Z := 2048.
Definition NETBUF_DEFAULT_HEADROOM : Z := 64.
Definition NETBUF_MAX_SIZE : Z := 65536.
(** [sizeof(netbuf_t)] *)
Definition sizeof_netbuf : Z := 72.

Record netbuf := mk_netbuf {
  buffer_start : Z;
  nb_data : Z;
  nb_len : Z;
  capacity : Z;
  nb_protocol : Z;
  nb_flags : Z;
  nb_src_mac : list Z;
  nb_dst_mac : list Z;
  nb_src_ip : Z;
  nb_dst_ip : Z;
  nb_next : Z;
}.
Definition no_mac : list Z := [0; 0; 0; 0; 0; 0].
(** [memset(buf, 0, sizeof(netbuf_t))] *)
Definition zero_netbuf : netbuf := mk_netbuf 0 0 0 0 0 0 no_mac no_mac 0 0 0.

Record bufs (S : Type) := mk_bufs {
  nb_at : Z -> netbuf;
  nb_mem : mem;
  nb_pa : S;
}.
Arguments mk_bufs {S}.
Arguments nb_at {S}.
Arguments nb_mem {S}.
Arguments nb_pa {S}.

(** [buf->data = d; buf->len = n;] *)
Definition set_window (d n : Z) (b : netbuf) : netbuf :=
  mk_netbuf (buffer_start b) d n (capacity b) (nb_protocol b) (nb_flags b) (nb_src_mac b) (nb_dst_mac b)
    (nb_src_ip b) (nb_dst_ip b) (nb_next b).

Definition netbuf_headroom (b : netbuf) : Z := u64 (nb_data b - buffer_start b).
Definition netbuf_tailroom (b : netbuf) : Z := u64 (u64 (capacity b - netbuf_headroom b) - nb_len b).
Definition netbuf_data_at (b : netbuf) (offset : Z) : Z :=
  if nb_len b <=? offset then NULL else nb_data b + offset.

Section Netbuf.
Context {S : Type} `{PageAllocator S}.
Implicit Types s : bufs S.

Definition set_buf (p : Z) (b : netbuf) s : bufs S := mk_bufs (upd (nb_at s) p b) (nb_mem s) (nb_pa s).
Definition set_nb_mem (m : mem) s : bufs S := mk_bufs (nb_at s) m (nb_pa s).
Definition set_nb_pa (a : S) s : bufs S := mk_bufs (nb_at s) (nb_mem s) a.

Definition net_pages (size : Z) : Z := u64 (u64 (size + PAGE_SIZE) - 1) / PAGE_SIZE.
Definition net_malloc (size : Z) s : bufs S * Z :=
  let '(addr, a) := pa_alloc (net_pages size) (nb_pa s) in
  if addr =? 0 then (set_nb_pa a s, NULL) else (set_nb_pa a s, addr).
Definition net_free (ptr size : Z) s : bufs S :=
  if ptr =? NULL then s else set_nb_pa (pa_free ptr (net_pages size) (nb_pa s)) s.

Definition netbuf_alloc (size headroom : Z) s : bufs S * Z :=
  if (size =? 0) || (NETBUF_MAX_SIZE <? size) then (s, NULL)
  else if size <=? headroom then (s, NULL)
  else
    let '(s, p) := net_malloc sizeof_netbuf s in
    if p =? NULL then (s, NULL)
    else
      let s := set_buf p zero_netbuf s in
      let '(s, start) := net_malloc size s in
      if start =? NULL then (net_free p sizeof_netbuf s, NULL)
      else (set_buf p (mk_netbuf start (start + headroom) 0 size 0 0 no_mac no_mac 0 0 NULL) s, p).
Definition netbuf_alloc_default s : bufs S * Z := netbuf_alloc NETBUF_DEFAULT_SIZE NETBUF_DEFAULT_HEADROOM s.

Definition netbuf_free (p : Z) s : bufs S :=
  if p =? NULL then s
  else
    let b := nb_at s p in
    let s := if negb (buffer_start b =? NULL) then net_free (buffer_start b) (capacity b) s else s in
    net_free p sizeof_netbuf s.

Definition netbuf_push (p len : Z) s : bufs S * Z :=
  if p =? NULL then (s, NULL)
  else
    let b := nb_at s p in
    if netbuf_headroom b <? len then (s, NULL)
    else (set_buf p (set_window (nb_data b - len) (u64 (nb_len b + len)) b) s, nb_data b - len).

Definition netbuf_pull (p len : Z) s : bufs S * Z :=
  if p =? NULL then (s, NULL)
  else
    let b := nb_at s p in
    if nb_len b <? len then (s, NULL)
    else (set_buf p (set_window (nb_data b + len) (nb_len b - len) b) s, nb_data b + len).

Definition netbuf_put (p len : Z) s : bufs S * Z :=
  if p =? NULL then (s, NULL)
  else
    let b := nb_at s p in
    if netbuf_tailroom b <? len then (s, NULL)
    else (set_buf p (set_window (nb_data b) (u64 (nb_len b + len)) b) s, nb_data b + nb_len b).

Definition netbuf_trim (p len : Z) s : bufs S * Z :=
  if p =? NULL then (s, -1)
  else
    let b := nb_at s p in
    if nb_len b <? len then (s, -1)
    else (set_buf p (set_window (nb_data b) (nb_len b - len) b) s, 0).

Definition netbuf_clone (p : Z) s : bufs S * Z :=
  if p =? NULL then (s, NULL)
  else
    let b := nb_at s p in
    let '(s, c) := netbuf_alloc (capacity b) (netbuf_headroom b) s in
    if c =? NULL then (s, NULL)
    else
      let k := nb_at s c in
      let s := set_nb_mem (fst (memcpy (nb_mem s) (nb_data k) (nb_data b) (nb_len b))) s in
      (set_buf c (mk_netbuf (buffer_start k) (nb_data k) (nb_len b) (capacity k) (nb_protocol b) (nb_flags b)
                    (nb_src_mac b) (nb_dst_mac b) (nb_src_ip b) (nb_dst_ip b) (nb_next k)) s, c).

Definition netbuf_reset (p headroom : Z) s : bufs S :=
  if p =? NULL then s
  else
    let b := nb_at s p in
    let headroom := if capacity b <=? headroom then NETBUF_DEFAULT_HEADROOM else headroom in
    set_buf p (mk_netbuf (buffer_start b) (buffer_start b + headroom) 0 (capacity b) 0 0 no_mac no_mac 0 0 NULL) s.

Definition netbuf_copy_in (p data len : Z) s : bufs S * Z :=
  if (p =? NULL) || (data =? NULL) then (s, -1)
  else
    let b := nb_at s p in
    if netbuf_tailroom b <? len then (s, -1)
    else
      let s := set_nb_mem (fst (memcpy (nb_mem s) (nb_data b + nb_len b) data len)) s in
      (set_buf p (set_window (nb_data b) (u64 (nb_len b + len)) b) s, 0).
End Netbuf.

(** ** Theorems of network buffers (net/core/netbuf.c)

    A buffer is a window of bytes inside its allocation: headers are pushed and pulled
    at the front, data put and trimmed at the back, and no operation leaves the
    allocation. *)

(** The window lies inside the allocation. *)
Record window_ok (b : netbuf) : Prop := {
  wo_start : 0 < buffer_start b;
  wo_cap : 0 < capacity b <= NETBUF_MAX_SIZE;
  wo_end : buffer_start b + capacity b <= 2 ^ 52;
  wo_data : buffer_start b <= nb_data b;
  wo_len : 0 <= nb_len b;
  wo_in : nb_data b + nb_len b <= buffer_start b + capacity b;
}.

Lemma headroom_val b : window_ok b -> netbuf_headroom b = nb_data b - buffer_start b.
Proof. intros []. unfold netbuf_headroom, NETBUF_MAX_SIZE in *. apply u64_id. lia. Qed.
Lemma tailroom_val b : window_ok b ->
  netbuf_tailroom b = buffer_start b + capacity b - (nb_data b + nb_len b).
Proof.
  intros Hb. unfold netbuf_tailroom. rewrite headroom_val by done. destruct Hb. unfold NETBUF_MAX_SIZE in *.
  rewrite (u64_id (capacity b - _)) by lia. rewrite u64_id by lia. lia.
Qed.

Lemma window_moved b d n :
  window_ok b -> buffer_start b <= d -> 0 <= n -> d + n <= buffer_start b + capacity b -> window_ok (set_window d n b).
Proof. intros []. by split. Qed.

Section Props.
Context {S : Type} `{PageAllocator S}.
Implicit Types s : bufs S.

(** The bytes in the window. *)
Definition packet s (p : Z) : list Z := bytes_at (nb_mem s) (nb_data (nb_at s p)) (Z.to_nat (nb_len (nb_at s p))).

Lemma packet_window s p d n b : packet (set_buf p (set_window d n b) s) p = bytes_at (nb_mem s) d (Z.to_nat n).
Proof. unfold packet. simpl. by rewrite upd_same. Qed.

Lemma bytes_at_split m a n k : 0 <= n -> 0 <= k ->
  bytes_at m a (Z.to_nat (n + k)) = bytes_at m a (Z.to_nat n) ++ bytes_at m (a + n) (Z.to_nat k).
Proof. intros Hn Hk. rewrite Z2Nat.inj_add, bytes_at_app by lia. by rewrite Z2Nat.id by lia. Qed.

Lemma drop_bytes_at m a n k : 0 <= k <= n ->
  bytes_at m (a + k) (Z.to_nat (n - k)) = drop (Z.to_nat k) (bytes_at m a (Z.to_nat n)).
Proof.
  intros Hk. replace n with (k + (n - k)) at 2 by lia. rewrite bytes_at_split by lia.
  rewrite drop_app_le, drop_ge by (rewrite length_bytes_at; lia). done.
Qed.
Lemma take_bytes_at m a n k : 0 <= k <= n ->
  bytes_at m a (Z.to_nat (n - k)) = take (Z.to_nat (n - k)) (bytes_at m a (Z.to_nat n)).
Proof.
  intros Hk. replace n with ((n - k) + k) at 3 by lia. rewrite bytes_at_split by lia.
  rewrite take_app_le, take_ge by (rewrite length_bytes_at; lia). done.
Qed.

(** What an operation on buffer [p] with a size to move leaves: a window that is in
    bounds, the same memory and the same other buffers. *)
Definition moved (p : Z) s s' : Prop :=
  window_ok (nb_at s' p) /\ nb_mem s' = nb_mem s /\ nb_pa s' = nb_pa s /\
  (forall q, q <> p -> nb_at s' q = nb_at s q).

Lemma moved_window p d n s :
  window_ok (set_window d n (nb_at s p)) -> moved p s (set_buf p (set_window d n (nb_at s p)) s).
Proof.
  intros Hw. unfold moved. simpl. rewrite upd_same. split; [done|]. split; [done|]. split; [done|].
  intros q Hq. by apply upd_other.
Qed.

(** The four window operations refine list operations on the packet and never leave
    the allocation. With enough room, push puts the [len] bytes before the window in
    front, pull drops the first [len], put appends the [len] bytes after the window and
    trim drops the last [len]; each fails, without changing anything, exactly when the
    room or the data is too short. *)
Theorem netbuf_refines_list p len s :
  p <> NULL -> window_ok (nb_at s p) -> 0 <= len < 2 ^ 64 ->
  let b := nb_at s p in
  (let '(s', r) := netbuf_push p len s in
   if len <=? nb_data b - buffer_start b
   then moved p s s' /\ r = nb_data b - len /\ packet s' p = bytes_at (nb_mem s) r (Z.to_nat len) ++ packet s p
   else s' = s /\ r = NULL) /\
  (let '(s', r) := netbuf_pull p len s in
   if len <=? nb_len b
   then moved p s s' /\ r = nb_data b + len /\ packet s' p = drop (Z.to_nat len) (packet s p)
   else s' = s /\ r = NULL) /\
  (let '(s', r) := netbuf_put p len s in
   if len <=? buffer_start b + capacity b - (nb_data b + nb_len b)
   then moved p s s' /\ r = nb_data b + nb_len b /\ packet s' p = packet s p ++ bytes_at (nb_mem s) r (Z.to_nat len)
   else s' = s /\ r = NULL) /\
  (let '(s', r) := netbuf_trim p len s in
   if len <=? nb_len b
   then moved p s s' /\ r = 0 /\ packet s' p = take (Z.to_nat (nb_len b - len)) (packet s p)
   else s' = s /\ r = -1).
Proof.
  intros Hp Hw Hl b. pose proof Hw as [W1 W2 W3 W4 W5 W6]. unfold NETBUF_MAX_SIZE in W2.
  unfold netbuf_push, netbuf_pull, netbuf_put, netbuf_trim. rewrite (proj2 (Z.eqb_neq p NULL)) by done.
  rewrite headroom_val, tailroom_val by done. fold b in Hw, W1, W2, W3, W4, W5, W6 |- *. rewrite !Z.leb_antisym.
  split; [|split; [|split]]; case_if; cbn [negb]; (done || idtac).
  - rewrite u64_id by lia. split; [apply moved_window, window_moved; fold b; try done; lia|]. split; [done|].
    rewrite packet_window. unfold packet. fold b. rewrite (Z.add_comm (nb_len b)), bytes_at_split by lia. do 2 f_equal. lia.
  - split; [apply moved_window, window_moved; fold b; try done; lia|]. split; [done|].
    rewrite packet_window. apply drop_bytes_at. lia.
  - rewrite u64_id by lia. split; [apply moved_window, window_moved; fold b; try done; lia|]. split; [done|].
    rewrite packet_window. by rewrite bytes_at_split by lia.
  - split; [apply moved_window, window_moved; fold b; try done; lia|]. split; [done|].
    rewrite packet_window. apply take_bytes_at. lia.
Qed.

(** A header that was pushed and pulled again leaves the buffer as it was. *)
Theorem netbuf_push_pull p len s s1 s2 r1 r2 :
  p <> NULL -> window_ok (nb_at s p) -> 0 <= len < 2 ^ 64 ->
  netbuf_push p len s = (s1, r1) -> r1 <> NULL -> netbuf_pull p len s1 = (s2, r2) ->
  r2 = nb_data (nb_at s p) /\ nb_at s2 p = nb_at s p /\ packet s2 p = packet s p /\ nb_mem s2 = nb_mem s.
Proof.
  intros Hp Hw Hl E1 Hr E2. pose proof Hw as [W1 W2 W3 W4 W5 W6]. unfold NETBUF_MAX_SIZE in W2.
  unfold netbuf_push in E1. rewrite (proj2 (Z.eqb_neq p NULL)) in E1 by done. rewrite headroom_val in E1 by done.
  cbv zeta in E1. case_if_in E1; [congruence|]. injection E1 as <- <-.
  unfold netbuf_pull in E2. rewrite (proj2 (Z.eqb_neq p NULL)) in E2 by done. cbn [nb_at set_buf] in E2.
  rewrite upd_same in E2. cbn [nb_len set_window] in E2. rewrite u64_id in E2 by lia. cbv zeta in E2.
  case_if_in E2; [lia|]. injection E2 as <- <-.
  assert (Eb : set_window (nb_data (nb_at s p)) (nb_len (nb_at s p)) (nb_at s p) = nb_at s p) by by destruct (nb_at s p).
  unfold packet. cbn [nb_at set_buf nb_mem]. rewrite !upd_same. cbn [nb_data nb_len set_window buffer_start capacity
    nb_protocol nb_flags nb_src_mac nb_dst_mac nb_src_ip nb_dst_ip nb_next].
  replace (nb_data (nb_at s p) - len + len) with (nb_data (nb_at s p)) by lia.
  replace (nb_len (nb_at s p) + len - len) with (nb_len (nb_at s p)) by lia. done.
Qed.

(** Copying in appends the bytes, if their source is not overwritten meanwhile. *)
Lemma copy_in_appends p data len s :
  p <> NULL -> data <> NULL -> window_ok (nb_at s p) -> 0 <= len < 2 ^ 64 ->
  let b := nb_at s p in let dst := nb_data b + nb_len b in
  dst <= data \/ data + len <= dst -> len <= buffer_start b + capacity b - dst ->
  let '(s', r) := netbuf_copy_in p data len s in
  r = 0 /\ window_ok (nb_at s' p) /\ packet s' p = packet s p ++ bytes_at (nb_mem s) data (Z.to_nat len).
Proof.
  intros Hp Hd Hw Hl b dst Hov Hroom. pose proof Hw as [W1 W2 W3 W4 W5 W6]. fold b in W1, W2, W3, W4, W5, W6.
  unfold NETBUF_MAX_SIZE in W2. unfold netbuf_copy_in.
  rewrite !(proj2 (Z.eqb_neq _ NULL)) by done. cbn [orb]. rewrite tailroom_val by done. fold b dst.
  replace (_ <? len) with false by (unfold dst in *; lia). cbv zeta. rewrite u64_id by lia. split; [done|].
  unfold packet. cbn [nb_at set_buf set_nb_mem nb_mem]. rewrite upd_same. fold b.
  split; [apply window_moved; fold b; try done; unfold dst in *; lia|].
  cbn [nb_data nb_len set_window memcpy fst]. rewrite bytes_at_split by lia. f_equal.
  - apply bytes_at_agree. intros x Hx. apply copy_fwd_other. unfold dst in *. lia.
  - fold dst. apply bytes_at_ext. intros i Hi. apply copy_fwd_load; lia.
Qed.
End Props.

Section Alloc.
Context {S : Type} `{PageAllocatorLaws S}.
Implicit Types s : bufs S.

Lemma net_pages_val size : 0 <= size <= NETBUF_MAX_SIZE -> 0 <= net_pages size /\ size <= net_pages size * PAGE_SIZE <= size + 4095.
Proof.
  intros Hs. unfold NETBUF_MAX_SIZE, net_pages, PAGE_SIZE in *. rewrite (u64_id (size + 4096)) by lia. rewrite u64_id by lia. dlia.
Qed.

(** [netbuf_alloc] gives an empty buffer with the wanted headroom in pages that were
    free, or fails and leaves every page as it was; [netbuf_free] of a new buffer gives
    back exactly the pages it took. *)
Theorem netbuf_alloc_free s size headroom :
  pa_wf (nb_pa s) -> 0 <= size -> 0 <= headroom ->
  let '(s', p) := netbuf_alloc size headroom s in
  if p =? NULL then forall k, 0 <= k -> pa_used (nb_pa s') k = pa_used (nb_pa s) k
  else
    window_ok (nb_at s' p) /\ packet s' p = [] /\ netbuf_headroom (nb_at s' p) = headroom /\
    capacity (nb_at s' p) = size /\ nb_mem s' = nb_mem s /\
    (forall k, in_pages p 1 k = true \/ in_pages (buffer_start (nb_at s' p)) (net_pages size) k = true ->
       pa_used (nb_pa s) k = false /\ pa_used (nb_pa s') k = true) /\
    (forall k, 0 <= k -> pa_used (nb_pa (netbuf_free p s')) k = pa_used (nb_pa s) k).
Proof.
  intros Hwf Hsz Hhr. unfold netbuf_alloc. destruct ((size =? 0) || (NETBUF_MAX_SIZE <? size)) eqn:E1; [done|]. zbool.
  case_if; [done|]. unfold net_malloc.
  change (net_pages sizeof_netbuf) with 1. destruct (pa_alloc 1 (nb_pa s)) as [p a1] eqn:A1.
  destruct (p =? 0) eqn:Ep; zbool; cbv zeta.
  { rewrite Z.eqb_refl. intros k Hk. subst p. by rewrite (pa_alloc_fail (nb_pa s) 1 a1 Hwf ltac:(lia) A1). }
  change NULL with 0. replace (p =? 0) with false by lia.
  destruct (pa_alloc_ok (nb_pa s) 1 p a1 Hwf ltac:(lia) A1 Ep) as (W1 & _ & P1 & P2 & P3 & P4 & P5 & P6).
  assert (Hp64 : 0 < p < 2 ^ 64) by (unfold GB, MB, KB, PAGE_SIZE in P3; lia). destruct (net_pages_val size) as [N1 N2]; [lia|].
  cbn [nb_pa set_buf set_nb_pa]. destruct (pa_alloc (net_pages size) a1) as [q a2] eqn:A2.
  destruct (q =? 0) eqn:Eq; zbool.
  - change NULL with 0. rewrite !Z.eqb_refl. intros k Hk. subst q. rewrite (pa_alloc_fail _ _ _ W1 N1 A2).
    cbn [nb_pa set_buf set_nb_pa]. unfold net_free. change NULL with 0. replace (p =? 0) with false by lia.
    cbn [nb_pa set_nb_pa]. change (net_pages sizeof_netbuf) with 1.
    destruct (pa_free_ok a1 p 1 W1 Hp64 P2 ltac:(lia)) as (_ & F & _). rewrite F, P5, P6 by done.
    destruct (in_pages p 1 k) eqn:Ek; [|by rewrite orb_false_r, andb_true_r]. destruct (P4 k Ek) as [-> ->]. done.
  - destruct (pa_alloc_ok _ _ _ _ W1 N1 A2 Eq) as (W2 & _ & Q1 & Q2 & Q3 & Q4 & Q5 & Q6). 
    assert (Hq64 : 0 < q < 2 ^ 64 /\ q + size <= 2 ^ 52) by (unfold GB, MB, KB, PAGE_SIZE in *; lia).
    change NULL with 0. replace (q =? 0) with false by lia. replace (p =? 0) with false by lia.
    cbn [nb_at set_buf set_nb_pa nb_mem nb_pa]. rewrite !upd_same. unfold packet. cbn [nb_at set_buf set_nb_pa nb_mem]. rewrite upd_same.
    assert (Hwin : window_ok (mk_netbuf q (q + headroom) 0 size 0 0 no_mac no_mac 0 0 0)).
    { split; simpl; try lia; unfold NETBUF_MAX_SIZE in *; try lia. }
    split; [done|]. split; [done|]. split; [rewrite headroom_val by done; simpl; lia|]. split; [done|]. split; [done|].
    cbn [buffer_start]. split.
    + intros k [Hk|Hk].
      * destruct (P4 k Hk) as [_ Hu]. split; [done|]. rewrite Q5, P5, Hk. by rewrite orb_true_r.
      * destruct (Q4 k Hk) as [_ Hu]. rewrite P5 in Hu. apply orb_false_iff in Hu as [Hu _]. split; [done|].
        rewrite Q5, Hk. by rewrite orb_true_r.
    + intros k Hk. unfold netbuf_free. change NULL with 0. replace (p =? 0) with false by lia.
      cbn [nb_at set_buf set_nb_pa]. rewrite upd_same. cbn [buffer_start capacity]. replace (q =? 0) with false by lia.
      unfold net_free. change NULL with 0. replace (p =? 0) with false by lia. replace (q =? 0) with false by lia.
      cbn [nb_pa set_buf set_nb_pa negb]. change (net_pages sizeof_netbuf) with 1.
      destruct (pa_free_ok a2 q (net_pages size) W2 (proj1 Hq64) Q2 N1) as (W3 & F1 & M1).
      destruct (pa_free_ok (pa_free q (net_pages size) a2) p 1 W3 Hp64 P2 ltac:(lia)) as (_ & F2 & _).
      rewrite F2, F1, M1, Q5, Q6, P5, P6 by done.
      destruct (in_pages q (net_pages size) k) eqn:Hq; [destruct (Q4 k Hq) as [Hm Hu]; rewrite P5 in Hu; rewrite P6 in Hm; rewrite Hm;
        apply orb_false_iff in Hu as [-> ->]; done|].
      rewrite orb_false_r, andb_true_r. destruct (in_pages p 1 k) eqn:Hpk; [|by rewrite orb_false_r, andb_true_r].
      destruct (P4 k Hpk) as [-> ->]. done.
Qed.

(** Resetting a small buffer to a headroom it does not have puts the window outside the
    allocation: the fallback of 64 bytes is not checked against the capacity. *)
Theorem netbuf_reset_escapes p headroom s :
  p <> NULL -> window_ok (nb_at s p) -> capacity (nb_at s p) < NETBUF_DEFAULT_HEADROOM -> capacity (nb_at s p) <= headroom ->
  let b := nb_at (netbuf_reset p headroom s) p in
  buffer_start b + capacity b < nb_data b /\ ~ window_ok b.
Proof.
  intros Hp Hw Hc Hh. unfold netbuf_reset. rewrite (proj2 (Z.eqb_neq p NULL)) by done. cbv zeta.
  rewrite (proj2 (Z.leb_le _ _)) by done. cbn [nb_at set_buf]. rewrite upd_same. cbn [buffer_start capacity nb_data nb_len].
  split; [lia|]. intros [_ _ _ _ _ Hx]. simpl in Hx. lia.
Qed.
End Alloc.

(** ** Buffers on a small machine *)

Definition raw_bufs : bufs pmm := mk_bufs (fun _ => zero_netbuf) (fun a => a mod 256) big_pmm.
Definition demo_bufs : bufs pmm * Z := netbuf_alloc 2048 64 raw_bufs.

Lemma demo_bufs_eq : netbuf_alloc 2048 64 raw_bufs = (fst demo_bufs, 0x100000).
Proof. unfold demo_bufs. apply pair_snd. vm_compute. reflexivity. Qed.

Lemma demo_window : window_ok (nb_at (fst demo_bufs) 0x100000).
Proof.
  assert (E : nb_at (fst demo_bufs) 0x100000 = mk_netbuf 0x101000 0x101040 0 2048 0 0 no_mac no_mac 0 0 0) by (vm_compute; reflexivity).
  rewrite E. split; simpl; unfold NETBUF_MAX_SIZE; lia.
Qed.

Lemma netbuf_alloc_free_witness : pa_wf (nb_pa raw_bufs) /\ window_ok (nb_at (fst demo_bufs) 0x100000).
Proof.
  split; [exact big_wf|]. pose proof (netbuf_alloc_free raw_bufs 2048 64 big_wf ltac:(lia) ltac:(lia)) as Hk.
  rewrite demo_bufs_eq in Hk. exact (proj1 Hk).
Defined.

Lemma netbuf_refines_list_witness :
  window_ok (nb_at (fst demo_bufs) 0x100000) /\ snd (netbuf_put 0x100000 100 (fst demo_bufs)) = 0x101040 /\
  packet (fst (netbuf_put 0x100000 3 (fst demo_bufs))) 0x100000 = [64; 65; 66].
Proof.
  pose proof demo_window as Hw. split; [exact Hw|]. split; [vm_compute; reflexivity|].
  destruct (netbuf_refines_list 0x100000 3 (fst demo_bufs) ltac:(discriminate) Hw ltac:(lia)) as (_ & _ & Hput & _).
  assert (E : snd (netbuf_put 0x100000 3 (fst demo_bufs)) = 0x101040) by (vm_compute; reflexivity).
  assert (Er : (3 <=? buffer_start (nb_at (fst demo_bufs) 0x100000) + capacity (nb_at (fst demo_bufs) 0x100000)
    - (nb_data (nb_at (fst demo_bufs) 0x100000) + nb_len (nb_at (fst demo_bufs) 0x100000))) = true) by (vm_compute; reflexivity).
  rewrite Er in Hput. destruct (netbuf_put 0x100000 3 (fst demo_bufs)) as [s' r]. cbn [fst snd] in *.
  destruct Hput as (_ & _ & ->). rewrite E. vm_compute. reflexivity.
Defined.

Lemma netbuf_push_pull_witness :
  window_ok (nb_at (fst demo_bufs) 0x100000) /\
  nb_at (fst (netbuf_pull 0x100000 20 (fst (netbuf_push 0x100000 20 (fst demo_bufs))))) 0x100000 = nb_at (fst demo_bufs) 0x100000.
Proof.
  pose proof demo_window as Hw. split; [exact Hw|]. set (c := netbuf_push 0x100000 20 (fst demo_bufs)).
  assert (E1 : c = (fst c, 0x10102c)) by (apply pair_snd; vm_compute; reflexivity).
  set (d := netbuf_pull 0x100000 20 (fst c)).
  assert (E2 : d = (fst d, 0x101040)) by (apply pair_snd; vm_compute; reflexivity).
  apply (netbuf_push_pull 0x100000 20 (fst demo_bufs) (fst c) (fst d) 0x10102c 0x101040 ltac:(discriminate) Hw ltac:(lia) E1
    ltac:(discriminate) E2).
Defined.
