(* ===== verification/Net.v ===== *)
(** * Ethernet, ARP and IPv4 (net/ethernet, net/arp, net/ip): data and operations

    A packet that is built on the stack or handed to a receive function is the list of
    its bytes; a netbuf's bytes are in memory. Fields wider than a byte are stored
    least significant byte first, as the machine does, after [htons] or [htonl].
    [eth_hw_send] belongs to a network card's driver and [icmp_receive] has no
    definition in the sources: what they return are parameters, and the state records
    the frames and the datagrams they are given. *)
From S2P Require Import Prelude Memory PageAlloc Ring Netbuf.

(** ** Constants *)

Definition ETH_ALEN : Z := 6.
Definition ETH_HLEN : Z := 14.
Definition ETH_DATA_MAX : Z := 1500.
Definition ETH_FRAME_MIN : Z := 64.
Definition ETH_TYPE_IPV4 : Z := 0x0800.
Definition ETH_TYPE_ARP : Z := 0x0806.
Definition ETH_BROADCAST_MAC : list Z := [0xFF; 0xFF; 0xFF; 0xFF; 0xFF; 0xFF].
Definition ARP_HRD_ETHERNET : Z := 1.
Definition ARP_PRO_IPV4 : Z := 0x0800.
Definition ARP_HLEN : Z := 6.
Definition ARP_PLEN : Z := 4.
Definition ARP_OP_REQUEST : Z := 1.
Definition ARP_OP_REPLY : Z := 2.
Definition ARP_CACHE_SIZE : Z := 64.
Definition ARP_CACHE_TIMEOUT : Z := 300.
Definition ARP_REQUEST_RETRIES : Z := 3.
Definition ARP_REQUEST_TIMEOUT : Z := 1.
Definition IP_VERSION : Z := 4.
Definition IP_HEADER_MIN : Z := 20.
Definition IP_MTU_DEFAULT : Z := 1500.
Definition IP_TTL_DEFAULT : Z := 64.
Definition IP_PROTO_ICMP : Z := 1.
Definition IP_FLAG_DF : Z := 0x4000.
Definition IP_ADDR_BROADCAST : Z := 0xFFFFFFFF.

(** ** Byte order *)

Definition htons (x : Z) : Z := Z.lor (Z.shiftl (Z.land x 0xFF) 8) (Z.land (Z.shiftr x 8) 0xFF).
Definition ntohs (x : Z) : Z := htons x.
Definition htonl (x : Z) : Z :=
  Z.lor (Z.lor (Z.lor (u32 (Z.shiftl (Z.land x 0xFF) 24)) (u32 (Z.shiftl (Z.land x 0xFF00) 8)))
    (Z.land (Z.shiftr x 8) 0xFF00)) (Z.land (Z.shiftr x 24) 0xFF).
Definition ntohl (x : Z) : Z := htonl x.

(** An address in a packet. *)
Definition get_mac (l : list Z) (i : nat) : list Z := take 6 (drop i l).

(** ** State *)

Inductive arp_state := ARP_STATE_FREE | ARP_STATE_PENDING | ARP_STATE_RESOLVED | ARP_STATE_STALE.
#[export] Instance arp_state_eq_dec : EqDecision arp_state.
Proof. solve_decision. Defined.

Record arp_entry := mk_entry {
  ae_ip : Z;
  ae_mac : list Z;
  ae_state : arp_state;
  ae_timestamp : Z;
  ae_retries : Z;
}.
Definition zero_entry : arp_entry := mk_entry 0 no_mac ARP_STATE_FREE 0 0.

Record net := mk_net {
  local_mac : list Z;
  eth_initialized : bool;
  arp_cache : Z -> arp_entry;
  arp_initialized : bool;
  arp_time : Z;
  local_ip : Z;
  local_netmask : Z;
  local_gateway : Z;
  ip_initialized : bool;
  ip_id_counter : Z;
  (** The frames given to [eth_hw_send] and the datagrams given to [icmp_receive],
      oldest first. *)
  tx_frames : list (list Z);
  icmp_in : list (Z * list Z);
}.

Definition set_eth (m : list Z) (i : bool) (n : net) : net :=
  mk_net m i (arp_cache n) (arp_initialized n) (arp_time n) (local_ip n) (local_netmask n) (local_gateway n)
    (ip_initialized n) (ip_id_counter n) (tx_frames n) (icmp_in n).
Definition set_arp (c : Z -> arp_entry) (i : bool) (t : Z) (n : net) : net :=
  mk_net (local_mac n) (eth_initialized n) c i t (local_ip n) (local_netmask n) (local_gateway n)
    (ip_initialized n) (ip_id_counter n) (tx_frames n) (icmp_in n).
Definition set_ip (a m g : Z) (i : bool) (n : net) : net :=
  mk_net (local_mac n) (eth_initialized n) (arp_cache n) (arp_initialized n) (arp_time n) a m g i
    (ip_id_counter n) (tx_frames n) (icmp_in n).
Definition next_ip_id (n : net) : net :=
  mk_net (local_mac n) (eth_initialized n) (arp_cache n) (arp_initialized n) (arp_time n) (local_ip n)
    (local_netmask n) (local_gateway n) (ip_initialized n) (u16 (ip_id_counter n + 1)) (tx_frames n) (icmp_in n).
Definition log_tx (f : list Z) (n : net) : net :=
  mk_net (local_mac n) (eth_initialized n) (arp_cache n) (arp_initialized n) (arp_time n) (local_ip n)
    (local_netmask n) (local_gateway n) (ip_initialized n) (ip_id_counter n) (tx_frames n ++ [f]) (icmp_in n).
Definition log_icmp (src : Z) (d : list Z) (n : net) : net :=
  mk_net (local_mac n) (eth_initialized n) (arp_cache n) (arp_initialized n) (arp_time n) (local_ip n)
    (local_netmask n) (local_gateway n) (ip_initialized n) (ip_id_counter n) (tx_frames n) (icmp_in n ++ [(src, d)]).
Definition set_cache_entry (i : Z) (e : arp_entry) (n : net) : net :=
  set_arp (upd (arp_cache n) i e) (arp_initialized n) (arp_time n) n.

Section Net.
(** What the driver's [eth_hw_send] returns for a frame and [icmp_receive] for a datagram. *)
Variable hw_result : list Z -> Z.
Variable icmp_result : Z -> list Z -> Z.
Implicit Types n : net.

(** ** Sending Ethernet frames *)

Definition eth_init (mac : list Z) n : net := set_eth mac true n.
Definition eth_set_mac (mac : list Z) n : net := set_eth mac (eth_initialized n) n.
Definition eth_is_broadcast (mac : list Z) : bool :=
  Z.land (Z.land (Z.land (Z.land (Z.land (byte_at mac 0) (byte_at mac 1)) (byte_at mac 2)) (byte_at mac 3))
    (byte_at mac 4)) (byte_at mac 5) =? 0xFF.
Definition eth_mac_equal (a b : list Z) : bool :=
  (byte_at a 0 =? byte_at b 0) && (byte_at a 1 =? byte_at b 1) && (byte_at a 2 =? byte_at b 2) &&
  (byte_at a 3 =? byte_at b 3) && (byte_at a 4 =? byte_at b 4) && (byte_at a 5 =? byte_at b 5).

Definition eth_header (dest src : list Z) (ethertype : Z) : list Z := dest ++ src ++ le16 (htons ethertype).

(** [data] is [None] for NULL, otherwise the bytes at the pointer. *)
Definition eth_send (dest : list Z) (ethertype : Z) (data : option (list Z)) (len : Z) n : net * Z :=
  if negb (eth_initialized n) then (n, -1)
  else if negb (bool_decide (is_Some data)) && (0 <? len) then (n, -1)
  else if ETH_DATA_MAX <? len then (n, -1)
  else
    let frame := eth_header dest (local_mac n) ethertype ++ take (Z.to_nat len) (default [] data) in
    let frame_len := ETH_HLEN + len in
    let frame := if frame_len <? ETH_FRAME_MIN
                 then frame ++ replicate (Z.to_nat (ETH_FRAME_MIN - frame_len)) 0 else frame in
    (log_tx frame n, hw_result frame).

(** ** The ARP cache *)

Definition cache_live (e : arp_entry) : bool := negb (bool_decide (ae_state e = ARP_STATE_FREE)).

(** [for (i = 0; i < 64; i++) if (test) return i;], [None] for NULL. *)
Fixpoint find_entry (k : nat) (i : Z) (f : arp_entry -> bool) (c : Z -> arp_entry) : option Z :=
  match k with
  | O => None
  | S k' => if f (c i) then Some i else find_entry k' (i + 1) f c
  end.
Definition arp_cache_find (ip : Z) n : option Z :=
  find_entry (Z.to_nat ARP_CACHE_SIZE) 0 (fun e => cache_live e && (ae_ip e =? ip)) (arp_cache n).

(** The oldest entry that satisfies [f], with the running minimum of the loop. *)
Fixpoint oldest_entry (k : nat) (i : Z) (f : arp_entry -> bool) (c : Z -> arp_entry) (best : option Z * Z)
  : option Z * Z :=
  match k with
  | O => best
  | S k' =>
      let best := if f (c i) && (ae_timestamp (c i) <? snd best) then (Some i, ae_timestamp (c i)) else best in
      oldest_entry k' (i + 1) f c best
  end.
Definition arp_cache_alloc n : option Z :=
  let c := arp_cache n in
  let k := Z.to_nat ARP_CACHE_SIZE in
  match find_entry k 0 (fun e => negb (cache_live e)) c with
  | Some i => Some i
  | None =>
      match oldest_entry k 0 (fun e => bool_decide (ae_state e = ARP_STATE_STALE)) c (None, UINT32_MAX) with
      | (Some i, _) => Some i
      | (None, t) => fst (oldest_entry k 0 (fun _ => true) c (None, t))
      end
  end.

Definition arp_init n : net := set_arp (fun _ => zero_entry) true 0 n.

Definition arp_cache_add (ip : Z) (mac : list Z) n : net * Z :=
  if negb (arp_initialized n) then (n, -1)
  else if bool_decide (mac = no_mac) || bool_decide (mac = ETH_BROADCAST_MAC) then (n, -1)
  else
    match (match arp_cache_find ip n with Some i => Some i | None => arp_cache_alloc n end) with
    | None => (n, -1)
    | Some i => (set_cache_entry i (mk_entry ip mac ARP_STATE_RESOLVED (arp_time n) 0) n, 0)
    end.

Definition set_entry_state (st : arp_state) (e : arp_entry) : arp_entry :=
  mk_entry (ae_ip e) (ae_mac e) st (ae_timestamp e) (ae_retries e).
Definition arp_cache_remove (ip : Z) n : net :=
  match arp_cache_find ip n with
  | Some i => set_cache_entry i (set_entry_state ARP_STATE_FREE (arp_cache n i)) n
  | None => n
  end.
Definition arp_cache_clear n : net := set_arp (fun _ => zero_entry) (arp_initialized n) (arp_time n) n.

(** ** ARP packets *)

Definition arp_packet (op : Z) (sha : list Z) (spa : Z) (tha : list Z) (tpa : Z) : list Z :=
  le16 (htons ARP_HRD_ETHERNET) ++ le16 (htons ARP_PRO_IPV4) ++ [ARP_HLEN; ARP_PLEN] ++ le16 (htons op) ++
  sha ++ le32 (htonl spa) ++ tha ++ le32 (htonl tpa).
Definition sizeof_arp_packet : Z := 28.

Definition arp_request (ip : Z) n : net * Z :=
  if negb (arp_initialized n) then (n, -1)
  else eth_send ETH_BROADCAST_MAC ETH_TYPE_ARP
         (Some (arp_packet ARP_OP_REQUEST (local_mac n) (local_ip n) no_mac ip)) sizeof_arp_packet n.
Definition arp_reply (dest_ip : Z) (dest_mac : list Z) n : net * Z :=
  if negb (arp_initialized n) then (n, -1)
  else eth_send dest_mac ETH_TYPE_ARP
         (Some (arp_packet ARP_OP_REPLY (local_mac n) (local_ip n) dest_mac dest_ip)) sizeof_arp_packet n.

(** The MAC address, [None] for -1. *)
Definition arp_lookup (ip : Z) n : net * option (list Z) :=
  if negb (arp_initialized n) then (n, None)
  else
    let missing n := (fst (arp_request ip n), None) in
    match arp_cache_find ip n with
    | Some i =>
        match ae_state (arp_cache n i) with
        | ARP_STATE_RESOLVED => (n, Some (ae_mac (arp_cache n i)))
        | ARP_STATE_PENDING => (n, None)
        | _ => missing n
        end
    | None =>
        match arp_cache_alloc n with
        | Some i => missing (set_cache_entry i (mk_entry ip (ae_mac (arp_cache n i)) ARP_STATE_PENDING (arp_time n)
                                                  ARP_REQUEST_RETRIES) n)
        | None => missing n
        end
    end.

Definition arp_receive (packet : option (list Z)) (len : Z) n : net * Z :=
  if negb (arp_initialized n) then (n, -1)
  else match packet with
  | None => (n, -1)
  | Some l =>
      if len <? sizeof_arp_packet then (n, -1)
      else if negb (ntohs (get16 l 0) =? ARP_HRD_ETHERNET) || negb (ntohs (get16 l 2) =? ARP_PRO_IPV4)
              || negb (byte_at l 4 =? ARP_HLEN) || negb (byte_at l 5 =? ARP_PLEN) then (n, -1)
      else
        let op := ntohs (get16 l 6) in
        let sha := get_mac l 8 in
        let spa := ntohl (get32 l 14) in
        let tpa := ntohl (get32 l 24) in
        let n := if bool_decide (is_Some (arp_cache_find spa n)) || (tpa =? local_ip n)
                 then fst (arp_cache_add spa sha n) else n in
        if op =? ARP_OP_REQUEST then
          if tpa =? local_ip n then arp_reply spa sha n else (n, 0)
        else if op =? ARP_OP_REPLY then (n, 0)
        else (n, -1)
  end.

(** ** The ARP timer *)

Definition tick_entry (i : Z) n : net :=
  let e := arp_cache n i in
  let age := u32 (arp_time n - ae_timestamp e) in
  match ae_state e with
  | ARP_STATE_PENDING =>
      if ARP_REQUEST_TIMEOUT <=? age then
        if 0 <? ae_retries e
        then fst (arp_request (ae_ip e)
                    (set_cache_entry i (mk_entry (ae_ip e) (ae_mac e) ARP_STATE_PENDING (arp_time n) (ae_retries e - 1)) n))
        else set_cache_entry i (set_entry_state ARP_STATE_FREE e) n
      else n
  | ARP_STATE_RESOLVED =>
      if ARP_CACHE_TIMEOUT <=? age then set_cache_entry i (set_entry_state ARP_STATE_STALE e) n else n
  | ARP_STATE_STALE =>
      if ARP_CACHE_TIMEOUT * 2 <=? age then set_cache_entry i (set_entry_state ARP_STATE_FREE e) n else n
  | ARP_STATE_FREE => n
  end.
Definition arp_timer_tick n : net :=
  for_range 0 ARP_CACHE_SIZE tick_entry (set_arp (arp_cache n) (arp_initialized n) (u32 (arp_time n + 1)) n).

(** ** IPv4 *)

Definition ip_init (ip netmask gateway : Z) n : net := set_ip ip netmask gateway true n.
Definition ip_get_addr n : Z := local_ip n.
Definition ip_set_addr (ip : Z) n : net := set_ip ip (local_netmask n) (local_gateway n) (ip_initialized n) n.
Definition ip_set_netmask (m : Z) n : net := set_ip (local_ip n) m (local_gateway n) (ip_initialized n) n.
Definition ip_set_gateway (g : Z) n : net := set_ip (local_ip n) (local_netmask n) g (ip_initialized n) n.

(** [while (len > 1) { sum += *data++; len -= 2; } if (len > 0) sum += *data;] *)
Fixpoint sum_words (l : list Z) (sum : Z) : Z :=
  match l with
  | [] => sum
  | [b] => u32 (sum + b)
  | b0 :: b1 :: r => sum_words r (u32 (sum + (b0 + 256 * b1)))
  end.
(** [while (sum >> 16) sum = (sum & 0xFFFF) + (sum >> 16);] with a bound on the rounds. *)
Fixpoint fold_sum (k : nat) (sum : Z) : Z :=
  match k with
  | O => sum
  | S k' => if Z.shiftr sum 16 =? 0 then sum else fold_sum k' (u32 (Z.land sum 0xFFFF + Z.shiftr sum 16))
  end.
Definition FOLD_ROUNDS : nat := 3.
Definition ip_checksum (l : list Z) : Z := u16 (Z.lnot (fold_sum FOLD_ROUNDS (sum_words l 0))).
Definition ip_checksum_data (l : list Z) : Z := ip_checksum l.

Definition ip_is_local (ip : Z) n : bool :=
  Z.land ip (local_netmask n) =? Z.land (local_ip n) (local_netmask n).
Definition ip_is_broadcast (ip : Z) n : bool :=
  if ip =? IP_ADDR_BROADCAST then true
  else ip =? Z.lor (Z.land (local_ip n) (local_netmask n)) (u32 (Z.lnot (local_netmask n))).
Definition ip_is_multicast (ip : Z) : bool := Z.land ip 0xF0000000 =? 0xE0000000.
Definition ip_header_len (l : list Z) : Z := Z.land (byte_at l 0) 0x0F * 4.
Definition ip_version (l : list Z) : Z := Z.land (Z.shiftr (byte_at l 0) 4) 0x0F.
Definition ip_make_version_ihl (version ihl : Z) : Z :=
  u8 (Z.lor (Z.shiftl (Z.land version 0x0F) 4) (Z.land (ihl / 4) 0x0F)).

(** The header with a given checksum field. *)
Definition header_with (total_len id protocol sum src dst : Z) : list Z :=
  [ip_make_version_ihl IP_VERSION IP_HEADER_MIN; 0] ++ le16 (htons (u16 total_len)) ++ le16 (htons id) ++
  le16 (htons IP_FLAG_DF) ++ [IP_TTL_DEFAULT; protocol] ++ le16 sum ++ le32 (htonl src) ++ le32 (htonl dst).
Definition ip_header (total_len id protocol src dst : Z) : list Z :=
  header_with total_len id protocol (ip_checksum (header_with total_len id protocol 0 src dst)) src dst.

(** The next hop: [inl] is a MAC address that needs no lookup. *)
Definition next_hop (dest_ip : Z) n : option (list Z + Z) :=
  if ip_is_broadcast dest_ip n then Some (inl ETH_BROADCAST_MAC)
  else if ip_is_local dest_ip n then Some (inr dest_ip)
  else if local_gateway n =? 0 then None else Some (inr (local_gateway n)).

(** [stack] is what the packet array holds before it is written. *)
Definition ip_send (stack : Z -> Z) (dest_ip protocol : Z) (data : option (list Z)) (len : Z) n : net * Z :=
  if negb (ip_initialized n) then (n, -1)
  else if IP_MTU_DEFAULT - IP_HEADER_MIN <? len then (n, -1)
  else
    let total_len := IP_HEADER_MIN + len in
    let hdr := ip_header total_len (ip_id_counter n) protocol (local_ip n) dest_ip in
    let n := next_ip_id n in
    let payload := match data with
                   | Some d => take (Z.to_nat len) d
                   | None => data_list (Z.to_nat len) IP_HEADER_MIN stack
                   end in
    let packet := hdr ++ payload in
    match next_hop dest_ip n with
    | None => (n, -1)
    | Some (inl mac) => eth_send mac ETH_TYPE_IPV4 (Some packet) total_len n
    | Some (inr hop) =>
        let '(n, r) := arp_lookup hop n in
        match r with
        | None => (n, -1)
        | Some mac => eth_send mac ETH_TYPE_IPV4 (Some packet) total_len n
        end
    end.

Definition ip_receive (packet : option (list Z)) (len : Z) n : net * Z :=
  if negb (ip_initialized n) then (n, -1)
  else match packet with
  | None => (n, -1)
  | Some l =>
      if len <? IP_HEADER_MIN then (n, -1)
      else if negb (ip_version l =? IP_VERSION) then (n, -1)
      else
        let header_len := ip_header_len l in
        if (header_len <? IP_HEADER_MIN) || (len <? header_len) then (n, -1)
        else
          let total_len := ntohs (get16 l 2) in
          if (total_len <? header_len) || (len <? total_len) then (n, -1)
          else if negb (ip_checksum (take (Z.to_nat header_len) l) =? 0) then (n, -1)
          else
            let src_ip := ntohl (get32 l 12) in
            let dst_ip := ntohl (get32 l 16) in
            if negb (dst_ip =? local_ip n) && negb (ip_is_broadcast dst_ip n) && negb (ip_is_multicast dst_ip)
            then (n, 0)
            else if byte_at l 8 =? 0 then (n, -1)
            else
              let payload := take (Z.to_nat (total_len - header_len)) (drop (Z.to_nat header_len) l) in
              if byte_at l 9 =? IP_PROTO_ICMP
              then (log_icmp src_ip payload n, icmp_result src_ip payload)
              else (n, -1)
  end.

(** ** Receiving Ethernet frames *)

Definition eth_receive (packet : option (list Z)) (len : Z) n : net * Z :=
  if negb (eth_initialized n) then (n, -1)
  else match packet with
  | None => (n, -1)
  | Some l =>
      if len <? ETH_HLEN then (n, -1)
      else
        let ethertype := ntohs (get16 l 12) in
        let payload := drop (Z.to_nat ETH_HLEN) l in
        let payload_len := len - ETH_HLEN in
        if negb (eth_is_broadcast (get_mac l 0)) && negb (eth_mac_equal (get_mac l 0) (local_mac n)) then (n, 0)
        else if ethertype =? ETH_TYPE_ARP then arp_receive (Some payload) payload_len n
        else if ethertype =? ETH_TYPE_IPV4 then ip_receive (Some payload) payload_len n
        else (n, -1)
  end.
End Net.
