(* ===== verification/Checksum.v ===== *)
(** * The Internet checksum (net/ip/ip.c): its value, and what it detects

    The loops of [ip_checksum] compute the one's-complement sum of RFC 1071, which is
    a remainder modulo 65535; a header built by [ip_send] checks, and one that checks
    does not after one byte of it has changed. *)
From S2P Require Import Prelude Memory Ring Netbuf Net.

(** ** The reference: the sum of the 16-bit words, and the sum with end-around carry *)

Fixpoint word_sum (l : list Z) : Z :=
  match l with
  | [] => 0
  | [b] => b
  | b0 :: b1 :: r => b0 + 256 * b1 + word_sum r
  end.
Definition ones_sum (s : Z) : Z := if s =? 0 then 0 else (s - 1) mod 65535 + 1.

(** Induction two bytes at a time. *)
Lemma pair_ind (P : list Z -> Prop) :
  P [] -> (forall b, P [b]) -> (forall b c l, P l -> P (b :: c :: l)) -> forall l, P l.
Proof.
  intros H0 H1 H2. fix IH 1. intros [|b [|c l]]; [done|apply H1|]. apply H2, IH.
Qed.

Lemma word_sum_bound l : bytes l -> 0 <= word_sum l <= 65535 * ((Z.of_nat (length l) + 1) / 2).
Proof.
  induction l as [|b|b c l IH] using pair_ind; intros Hb; simpl word_sum; [by vm_compute| |].
  - apply Forall_cons in Hb as [Hb _]. unfold is_byte in Hb. change ((Z.of_nat (length [b]) + 1) / 2) with 1. lia.
  - apply Forall_cons in Hb as [Hb Hc]. apply Forall_cons in Hc as [Hc Hl]. unfold is_byte in *. specialize (IH Hl).
    replace (Z.of_nat (length (b :: c :: l)) + 1) with (Z.of_nat (length l) + 1 + 1 * 2) by (simpl; lia).
    rewrite Z.div_add by lia. lia.
Qed.

Lemma sum_words_val l s : bytes l -> 0 <= s -> s + word_sum l < 2 ^ 32 -> sum_words l s = s + word_sum l.
Proof.
  revert s. induction l as [|b|b c l IH] using pair_ind; intros s Hb Hs Hlt; simpl in *; [lia| |].
  - apply Forall_cons in Hb as [Hb _]. unfold is_byte in Hb. apply u32_id. lia.
  - apply Forall_cons in Hb as [Hb Hc]. apply Forall_cons in Hc as [Hc Hl]. unfold is_byte in *.
    pose proof (word_sum_bound l Hl). rewrite u32_id by lia. rewrite IH by (done || lia). lia.
Qed.

Lemma split16 s : 0 <= s -> s = Z.land s 0xFFFF + 65536 * Z.shiftr s 16 /\ 0 <= Z.land s 0xFFFF < 65536.
Proof.
  intros Hs. change 0xFFFF with (Z.ones 16). rewrite Z.land_ones, Z.shiftr_div_pow2 by lia. dlia.
Qed.

Lemma ones_sum_small s : 0 <= s < 65536 -> ones_sum s = s.
Proof. intros Hs. unfold ones_sum. case_if; dlia. Qed.
Lemma ones_sum_carry lo hi : 0 <= lo -> 0 < hi -> ones_sum (lo + hi) = ones_sum (lo + 65536 * hi).
Proof.
  intros Hl Hh. unfold ones_sum. do 2 (case_if; try lia).
  replace (lo + 65536 * hi - 1) with (lo + hi - 1 + hi * 65535) by lia. by rewrite Z_mod_plus_full.
Qed.

(** Every sum is folded after two rounds, so the loop leaves by its condition. *)
Lemma fold_sum_step k s : 0 <= s < 2 ^ 32 -> 65536 <= s ->
  exists s', fold_sum (S k) s = fold_sum k s' /\ 0 <= s' <= 131070 /\ (s <= 131070 -> s' < 65536) /\
             ones_sum s' = ones_sum s.
Proof.
  intros Hs Hb. destruct (split16 s) as [He Hl]; [lia|].
  assert (0 < Z.shiftr s 16 < 65536) by lia.
  exists (Z.land s 0xFFFF + Z.shiftr s 16). split; [|split; [lia|split; [lia|]]].
  - simpl. rewrite u32_id by lia. case_if; [lia|done].
  - rewrite ones_sum_carry by lia. f_equal. lia.
Qed.
Lemma fold_sum_small k s : 0 <= s < 65536 -> fold_sum k s = s.
Proof.
  intros Hs. destruct k; simpl; [done|]. by rewrite Z.shiftr_div_pow2, Z.div_small by lia.
Qed.
Lemma fold_sum_val k s : (2 <= k)%nat -> 0 <= s < 2 ^ 32 -> fold_sum k s = ones_sum s.
Proof.
  intros Hk Hs. destruct k as [|[|k]]; [lia|lia|]. destruct (Z.lt_ge_cases s 65536) as [Hl|Hl].
  { by rewrite fold_sum_small, ones_sum_small by lia. }
  destruct (fold_sum_step (S k) s) as (s1 & -> & H1 & _ & <-); [lia|lia|].
  destruct (Z.lt_ge_cases s1 65536) as [Hl1|Hl1].
  { by rewrite fold_sum_small, ones_sum_small by lia. }
  destruct (fold_sum_step k s1) as (s2 & -> & H2 & H2' & <-); [lia|lia|].
  specialize (H2' (proj2 H1)). by rewrite fold_sum_small, ones_sum_small by lia.
Qed.

Lemma ones_sum_range s : 0 <= s -> 0 <= ones_sum s <= 65535.
Proof. intros Hs. unfold ones_sum. case_if; dlia. Qed.

(** A packet length at which the 32-bit sum cannot wrap. *)
Definition CHECKSUM_MAX : Z := 131070.
Lemma word_sum_max l : bytes l -> Z.of_nat (length l) <= CHECKSUM_MAX -> 0 <= word_sum l < 2 ^ 32.
Proof. intros Hb Hl. pose proof (word_sum_bound l Hb). unfold CHECKSUM_MAX in *. dlia. Qed.

Lemma ip_checksum_val l : bytes l -> Z.of_nat (length l) <= CHECKSUM_MAX ->
  ip_checksum l = 65535 - ones_sum (word_sum l).
Proof.
  intros Hb Hl. pose proof (word_sum_max l Hb Hl) as Hs. unfold ip_checksum.
  rewrite sum_words_val, fold_sum_val by (done || lia || unfold FOLD_ROUNDS; lia).
  pose proof (ones_sum_range (word_sum l)). unfold u16, Z.lnot. rewrite Z.add_0_l.
  rewrite <- (Z.mod_add _ 1), Z.mod_small by lia. lia.
Qed.

(** on every byte string of at most 131070 bytes the two loops of ip_checksum return
    the complement of the one's-complement sum of its 16-bit words, the remainder modulo
    65535 that RFC 1071 prescribes, and the folding loop has left by its own condition:
    a larger bound on its rounds changes nothing. *)
Theorem ip_checksum_is_rfc1071 l k :
  bytes l -> Z.of_nat (length l) <= CHECKSUM_MAX ->
  ip_checksum l = 65535 - ones_sum (word_sum l) /\
  fold_sum (FOLD_ROUNDS + k) (sum_words l 0) = fold_sum FOLD_ROUNDS (sum_words l 0) /\
  Z.shiftr (fold_sum FOLD_ROUNDS (sum_words l 0)) 16 = 0.
Proof.
  intros Hb Hl. pose proof (word_sum_max l Hb Hl) as Hs. split; [by apply ip_checksum_val|].
  rewrite sum_words_val by (done || lia). unfold FOLD_ROUNDS. rewrite !fold_sum_val by lia. split; [done|].
  pose proof (ones_sum_range (0 + word_sum l)). rewrite Z.shiftr_div_pow2 by lia. apply Z.div_small. lia.
Qed.

Lemma ip_checksum_zero l : bytes l -> Z.of_nat (length l) <= CHECKSUM_MAX ->
  ip_checksum l = 0 <-> 0 < word_sum l /\ word_sum l mod 65535 = 0.
Proof.
  intros Hb Hl. pose proof (word_sum_max l Hb Hl) as Hs. rewrite ip_checksum_val by done. unfold ones_sum.
  case_if; dlia.
Qed.

(** ** The sum of parts of a packet *)

Lemma word_sum_app l1 l2 : Nat.Even (length l1) -> word_sum (l1 ++ l2) = word_sum l1 + word_sum l2.
Proof.
  induction l1 as [|b|b c l IH] using pair_ind; intros He; simpl in *; [done| |].
  - destruct He as [k Hk]. lia.
  - rewrite IH; [lia|]. destruct He as [k Hk]. exists (k - 1)%nat. lia.
Qed.

(** The weight of a byte in the sum. *)
Definition weight (i : nat) : Z := if Nat.even i then 1 else 256.
Lemma word_sum_insert l i b : (i < length l)%nat ->
  word_sum (<[i:=b]> l) = word_sum l + weight i * (b - byte_at l i).
Proof.
  revert i. induction l as [|x|x y l IH] using pair_ind; intros i Hi; simpl in Hi; [lia| |].
  - assert (i = 0%nat) as -> by lia. unfold byte_at, weight. simpl. lia.
  - destruct i as [|[|i]]; unfold byte_at, weight in *; simpl; [lia|lia|]. rewrite IH by lia. lia.
Qed.

Lemma take_insert_in (l : list Z) i k b : (i < k)%nat -> take k (<[i:=b]> l) = <[i:=b]> (take k l).
Proof. intros Hi. by rewrite take_insert_lt. Qed.

Lemma checksum_detects l i b : bytes l -> Z.of_nat (length l) <= CHECKSUM_MAX -> (i < length l)%nat ->
  is_byte b -> b <> byte_at l i -> ip_checksum l = 0 -> ip_checksum (<[i:=b]> l) <> 0.
Proof.
  intros Hb Hl Hi Hbb Hne H0 H1.
  assert (bytes (<[i:=b]> l)) as Hb' by (by apply Forall_insert).
  apply ip_checksum_zero in H0 as [_ H0]; [|done|done].
  apply ip_checksum_zero in H1 as [_ H1]; [|done|by rewrite length_insert].
  rewrite word_sum_insert in H1 by done. pose proof (byte_at_byte l i Hb) as Hx. unfold is_byte in *.
  apply Z.mod_divide in H0, H1; [|lia|lia]. destruct H0 as [q Hq], H1 as [r Hr].
  assert (weight i * (b - byte_at l i) = (r - q) * 65535) as He by lia.
  unfold weight in He. destruct (Nat.even i); nia.
Qed.

(** ** What ip_receive makes of it *)

Section Receive.
Variable icmp_result : Z -> list Z -> Z.

Lemma header_len_insert l i b : (0 < i)%nat -> ip_header_len (<[i:=b]> l) = ip_header_len l.
Proof.
  intros Hi. unfold ip_header_len, byte_at. destruct l as [|x l]; [by rewrite list_insert_ge by (simpl; lia)|].
  by destruct i; [lia|].
Qed.

(** when the header of a packet checks and one of its bytes, other than the first,
    is changed, ip_receive refuses the packet with -1 and delivers nothing. *)
Theorem corrupted_header_refused l i b len n :
  bytes l -> ip_checksum (take (Z.to_nat (ip_header_len l)) l) = 0 ->
  (0 < i)%nat -> Z.of_nat i < ip_header_len l -> Z.of_nat (length l) >= ip_header_len l ->
  is_byte b -> b <> byte_at l i ->
  ip_receive icmp_result (Some (<[i:=b]> l)) len n = (n, -1).
Proof.
  intros Hb H0 Hi Hil Hlen Hbb Hne. unfold ip_receive. rewrite header_len_insert by done.
  destruct (negb (ip_initialized n)); [done|]. destruct (len <? IP_HEADER_MIN); [done|].
  destruct (negb (ip_version _ =? _)); [done|]. destruct (_ || _); [done|]. destruct (_ || _); [done|].
  rewrite take_insert_in by lia.
  assert (ip_checksum (<[i:=b]> (take (Z.to_nat (ip_header_len l)) l)) <> 0) as Hc.
  { apply checksum_detects; [by apply Forall_take| |rewrite length_take; lia|done| |done].
    - rewrite length_take. pose proof (Z.land_nonneg (byte_at l 0) 0x0F).
      pose proof (byte_at_byte l 0 Hb) as Hx. unfold is_byte, ip_header_len, CHECKSUM_MAX in *.
      change 0x0F with (Z.ones 4) in *. rewrite Z.land_ones in * by lia.
      pose proof (Z.mod_pos_bound (byte_at l 0) (2 ^ 4)). lia.
    - unfold byte_at in *. rewrite nth_firstn. by rewrite (proj2 (Nat.ltb_lt _ _)) by lia. }
  apply Z.eqb_neq in Hc. rewrite Hc. done.
Qed.
End Receive.

(** ** Concrete inputs *)

(** The header of RFC 1071-style examples: 172.16.10.99 to 172.16.10.12. *)
Definition demo_header : list Z := ip_header 60 0x1c46 IP_PROTO_ICMP 0xac100a63 0xac100a0c.

Lemma demo_header_bytes : bytes demo_header.
Proof. unfold bytes. vm_compute. repeat constructor; done. Qed.

Lemma ip_checksum_is_rfc1071_witness :
  bytes demo_header /\ ip_checksum demo_header = 65535 - ones_sum (word_sum demo_header).
Proof.
  split; [exact demo_header_bytes|]. exact (proj1 (ip_checksum_is_rfc1071 demo_header 5 demo_header_bytes ltac:(by vm_compute))).
Defined.

(** A machine with one network card before its ARP cache is initialised. *)
Definition blank_net : net :=
  mk_net [0x52; 0x54; 0; 0x12; 0x34; 0x56] true (fun _ => zero_entry) false 0 0xC0A80102 0xFFFFFF00 0xC0A80101 true 0 [] [].

Lemma corrupted_header_refused_witness :
  ip_receive (fun _ _ => 0) (Some (<[9%nat:=17]> demo_header)) 60 blank_net = (blank_net, -1).
Proof.
  apply (corrupted_header_refused (fun _ _ => 0) demo_header 9 17 60 blank_net demo_header_bytes); [by vm_compute|lia|by vm_compute..].
Defined.
