(* ===== verification/Packets.v ===== *)
(** * Packets: what the receive functions read is what the send functions wrote

    Byte order and header fields, the Ethernet frame with its padding, the IPv4 header
    and the ARP packet, each as a round trip from the builder to the reader. *)
From S2P Require Import Prelude Memory Ring Netbuf Net Checksum.

(** ** Byte order *)

(** Two fields that do not overlap. *)
Lemma lor_fields a b k : 0 <= k -> 0 <= b < 2 ^ k -> Z.lor (a * 2 ^ k) b = a * 2 ^ k + b.
Proof.
  intros Hk Hb. assert (Z.land (a * 2 ^ k) b = 0) as H0.
  { bitwise. rewrite Z.land_spec, Z.bits_0. destruct (Z.lt_ge_cases k0 k).
    - rewrite Z.mul_pow2_bits_low by lia. done.
    - rewrite <- (Z.mod_small b (2 ^ k)) by lia. rewrite Z.mod_pow2_bits_high by lia. apply andb_false_r. }
  rewrite Z.add_nocarry_lxor by done. symmetry. by apply Z.lxor_lor.
Qed.

Lemma land_ff x : Z.land x 0xFF = x mod 256.
Proof. change 0xFF with (Z.ones 8). by rewrite Z.land_ones by lia. Qed.

Lemma htons_val x : 0 <= x < 65536 -> htons x = x mod 256 * 256 + x / 256.
Proof.
  intros Hx. unfold htons. rewrite !land_ff, Z.shiftl_mul_pow2, Z.shiftr_div_pow2 by lia.
  change (2 ^ 8) with 256. rewrite (Z.mod_small (x / 256)) by dlia.
  change 256 with (2 ^ 8) at 2. rewrite lor_fields by dlia. done.
Qed.
Lemma htons_range x : 0 <= x < 65536 -> 0 <= htons x < 65536.
Proof. intros Hx. rewrite htons_val by done. dlia. Qed.
Lemma ntohs_range x : 0 <= ntohs x < 65536.
Proof.
  unfold ntohs, htons. pose proof (Z.land_ones x 8 ltac:(lia)) as E1. pose proof (Z.land_ones (Z.shiftr x 8) 8 ltac:(lia)) as E2. change (Z.ones 8) with 255 in *. rewrite E1, E2.
  pose proof (Z.mod_pos_bound x (2 ^ 8)). pose proof (Z.mod_pos_bound (Z.shiftr x 8) (2 ^ 8)). rewrite Z.shiftl_mul_pow2 by lia.
  rewrite <- Z.lxor_lor, <- Z.add_nocarry_lxor; [lia|..]; bitwise; rewrite Z.land_spec, Z.bits_0;
    (destruct (Z.lt_ge_cases k 8); [by rewrite Z.mul_pow2_bits_low by lia|]); rewrite (Z.mod_pow2_bits_high _ 8 k) by lia; apply andb_false_r.
Qed.
Lemma ntohs_htons x : 0 <= x < 65536 -> ntohs (htons x) = x.
Proof.
  intros Hx. unfold ntohs. rewrite (htons_val (htons x)) by (by apply htons_range). rewrite htons_val by done. dlia.
Qed.

(** The four bytes of a word. *)
Definition word_of (b3 b2 b1 b0 : Z) : Z := ((b3 * 256 + b2) * 256 + b1) * 256 + b0.
Lemma word_of_bytes x : 0 <= x < 2 ^ 32 ->
  x = word_of (x / 2 ^ 24) (x / 2 ^ 16 mod 256) (x / 2 ^ 8 mod 256) (x mod 256).
Proof. intros Hx. unfold word_of. dlia. Qed.

Lemma land_ff00 x : Z.land x 0xFF00 = x / 2 ^ 8 mod 256 * 2 ^ 8.
Proof.
  rewrite <- Z.shiftl_mul_pow2, <- Z.shiftr_div_pow2, <- land_ff, Z.shiftl_land by lia.
  change (Z.shiftl 0xFF 8) with 0xFF00. bitwise. rewrite !Z.land_spec.
  destruct (Z.lt_ge_cases k 8).
  - assert (Z.testbit 0xFF00 k = false) as ->; [|by rewrite !andb_false_r].
    change 0xFF00 with (0xFF * 2 ^ 8). by apply Z.mul_pow2_bits_low.
  - rewrite Z.shiftl_spec, Z.shiftr_spec by lia. by replace (k - 8 + 8) with k by lia.
Qed.

Lemma htonl_val x : 0 <= x < 2 ^ 32 ->
  htonl x = word_of (x mod 256) (x / 2 ^ 8 mod 256) (x / 2 ^ 16 mod 256) (x / 2 ^ 24).
Proof.
  intros Hx. unfold htonl, word_of. rewrite !land_ff, !land_ff00, !Z.shiftl_mul_pow2, !Z.shiftr_div_pow2 by lia.
  rewrite !u32_id by dlia. rewrite !Z.div_div by lia. change (2 ^ 8 * 2 ^ 8) with (2 ^ 16).
  rewrite (Z.mod_small (x / 2 ^ 24)) by dlia.
  set (b0 := x mod 256). set (b1 := x / 2 ^ 8 mod 256). set (b2 := x / 2 ^ 16 mod 256). set (b3 := x / 2 ^ 24).
  assert (0 <= b0 < 256 /\ 0 <= b1 < 256 /\ 0 <= b2 < 256 /\ 0 <= b3 < 256) by (subst b0 b1 b2 b3; dlia).
  replace (b1 * 2 ^ 8 * 2 ^ 8) with (b1 * 2 ^ 16) by lia.
  rewrite (lor_fields b0 (b1 * 2 ^ 16) 24) by lia.
  replace (b0 * 2 ^ 24 + b1 * 2 ^ 16) with ((b0 * 256 + b1) * 2 ^ 16) by lia.
  rewrite lor_fields by lia.
  replace ((b0 * 256 + b1) * 2 ^ 16 + b2 * 2 ^ 8) with (((b0 * 256 + b1) * 256 + b2) * 2 ^ 8) by lia.
  rewrite lor_fields by lia. lia.
Qed.
Lemma word_of_inj_bytes b3 b2 b1 b0 : is_byte b3 -> is_byte b2 -> is_byte b1 -> is_byte b0 ->
  let w := word_of b3 b2 b1 b0 in
  0 <= w < 2 ^ 32 /\ w mod 256 = b0 /\ w / 2 ^ 8 mod 256 = b1 /\ w / 2 ^ 16 mod 256 = b2 /\ w / 2 ^ 24 = b3.
Proof. unfold is_byte, word_of. intros. repeat split; dlia. Qed.

Lemma word_bytes x : 0 <= x < 2 ^ 32 ->
  is_byte (x mod 256) /\ is_byte (x / 2 ^ 8 mod 256) /\ is_byte (x / 2 ^ 16 mod 256) /\ is_byte (x / 2 ^ 24).
Proof. intros Hx. unfold is_byte. repeat split; dlia. Qed.

Lemma htonl_range x : 0 <= x < 2 ^ 32 -> 0 <= htonl x < 2 ^ 32.
Proof.
  intros Hx. rewrite htonl_val by done. destruct (word_bytes x Hx) as (?&?&?&?). by apply word_of_inj_bytes.
Qed.
Lemma ntohl_htonl x : 0 <= x < 2 ^ 32 -> ntohl (htonl x) = x.
Proof.
  intros Hx. unfold ntohl. rewrite (htonl_val (htonl x)) by (by apply htonl_range). rewrite htonl_val by done.
  destruct (word_bytes x Hx) as (H0&H1&H2&H3).
  destruct (word_of_inj_bytes _ _ _ _ H0 H1 H2 H3) as (_&->&->&->&->). symmetry. by apply word_of_bytes.
Qed.

(** A field that was stored is read back. *)
Lemma get16_le16 x : 0 <= x < 65536 -> ntohs (u8 (htons x) + 256 * u8 (Z.shiftr (htons x) 8)) = x.
Proof. intros Hx. rewrite le16_val by (by apply htons_range). by apply ntohs_htons. Qed.
Lemma get32_le32 x : 0 <= x < 2 ^ 32 ->
  ntohl (u8 (htonl x) + 256 * u8 (Z.shiftr (htonl x) 8) +
         65536 * (u8 (Z.shiftr (htonl x) 16) + 256 * u8 (Z.shiftr (htonl x) 24))) = x.
Proof. intros Hx. rewrite le32_val by (by apply htonl_range). by apply ntohl_htonl. Qed.

(** ** The IPv4 header *)

Lemma header_length total id protocol sum src dst : length (header_with total id protocol sum src dst) = 20%nat.
Proof. reflexivity. Qed.
Lemma header_bytes total id protocol sum src dst :
  is_byte protocol -> bytes (header_with total id protocol sum src dst).
Proof.
  intros Hp. assert (is_byte (ip_make_version_ihl IP_VERSION IP_HEADER_MIN) /\ is_byte 0 /\ is_byte IP_TTL_DEFAULT)
    as (Hv & H0 & Ht) by (by vm_compute).
  unfold header_with, bytes. rewrite !Forall_app. split_and!; try apply le16_bytes; try apply le32_bytes.
  all: apply Forall_cons; split; [done|]; by apply Forall_cons.
Qed.

Lemma header_sum total id protocol sum src dst : 0 <= sum < 65536 ->
  word_sum (header_with total id protocol sum src dst) = word_sum (header_with total id protocol 0 src dst) + sum.
Proof.
  intros Hs. rewrite <- (le16_val sum) at 2 by done. unfold header_with, le16, le32.
  cbn [app word_sum]. change (u8 0) with 0. change (u8 (Z.shiftr 0 8)) with 0. lia.
Qed.

(** The header [ip_send] builds checks. *)
Lemma ip_header_checks total id protocol src dst : is_byte protocol ->
  ip_checksum (ip_header total id protocol src dst) = 0.
Proof.
  intros Hp. unfold ip_header. set (h0 := header_with total id protocol 0 src dst).
  assert (bytes h0) as Hb by (by apply header_bytes).
  assert (Z.of_nat (length h0) <= CHECKSUM_MAX) as Hl by (unfold h0; by rewrite header_length).
  pose proof (word_sum_max h0 Hb Hl) as Hr. pose proof (ones_sum_range (word_sum h0) (proj1 Hr)) as Ho.
  assert (ip_checksum h0 = 65535 - ones_sum (word_sum h0)) as Hc by (by apply ip_checksum_val).
  apply ip_checksum_zero; [by apply header_bytes|by rewrite header_length|].
  rewrite Hc, header_sum by lia. fold h0.
  assert (0 < word_sum h0) as Hpos.
  { assert (word_sum h0 = 69 + word_sum (drop 2 h0)) as -> by reflexivity.
    pose proof (word_sum_bound (drop 2 h0) (Forall_drop _ _ _ Hb)). lia. }
  unfold ones_sum. case_if; [lia|]. split; [dlia|]. dlia.
Qed.

(** ** Ethernet frames *)

Lemma mac_six (m : list Z) : length m = 6%nat -> exists a b c d e f, m = [a; b; c; d; e; f].
Proof.
  destruct m as [|a [|b [|c [|d [|e [|f [|g m]]]]]]]; simpl; try done. intros _. by exists a, b, c, d, e, f.
Qed.
Lemma mac_equal_refl m : eth_mac_equal m m = true.
Proof. unfold eth_mac_equal. by rewrite !Z.eqb_refl. Qed.

Lemma frame_fields dest src ty l : length dest = 6%nat -> length src = 6%nat -> 0 <= ty < 65536 ->
  let f := eth_header dest src ty ++ l in
  get_mac f 0 = dest /\ get_mac f 6 = src /\ ntohs (get16 f 12) = ty /\ drop (Z.to_nat ETH_HLEN) f = l /\
  Z.of_nat (length f) = ETH_HLEN + Z.of_nat (length l).
Proof.
  intros Hd Hs Ht f. subst f. destruct (mac_six dest Hd) as (?&?&?&?&?&?&->).
  destruct (mac_six src Hs) as (?&?&?&?&?&?&->). repeat split; try done.
  - by apply (get16_le16 ty).
  - rewrite length_app, Nat2Z.inj_add. done.
Qed.

Section Frames.
Variable hw_result : list Z -> Z.
Variable icmp_result : Z -> list Z -> Z.
Implicit Types n : net.

(** What a host's addresses are. *)
Record host n : Prop := mk_host {
  host_eth : eth_initialized n = true;
  host_arp : arp_initialized n = true;
  host_mac : length (local_mac n) = 6%nat;
  host_mac_cacheable : local_mac n <> no_mac /\ local_mac n <> ETH_BROADCAST_MAC;
  host_ip : 0 <= local_ip n < 2 ^ 32;
}.

(** The frame that carries a payload. *)
Definition frame_of n (dest : list Z) (ty : Z) (l : list Z) : list Z :=
  eth_header dest (local_mac n) ty ++ l ++ replicate (Z.to_nat (ETH_FRAME_MIN - ETH_HLEN) - length l) 0.

Lemma eth_send_frame n dest ty l : eth_initialized n = true -> Z.of_nat (length l) <= ETH_DATA_MAX ->
  eth_send hw_result dest ty (Some l) (Z.of_nat (length l)) n =
  (log_tx (frame_of n dest ty l) n, hw_result (frame_of n dest ty l)).
Proof.
  intros Hi Hl. unfold eth_send, frame_of. rewrite Hi. change (default [] (Some l)) with l. cbn [negb]. rewrite bool_decide_eq_true_2 by eauto.
  cbn [negb andb]. rewrite (proj2 (Z.ltb_ge _ _)) by lia. rewrite Nat2Z.id, take_ge by lia.
  unfold ETH_FRAME_MIN, ETH_HLEN. case_if.
  - rewrite <- app_assoc. by replace (Z.to_nat (64 - (14 + Z.of_nat (length l)))) with (Z.to_nat (64 - 14) - length l)%nat by lia.
  - replace (Z.to_nat (64 - 14) - length l)%nat with O by lia. by rewrite app_nil_r.
Qed.

(** A frame reaches the protocol its type names at the host it is addressed to. *)
Lemma eth_receive_frame a b dest ty l : eth_initialized b = true -> length dest = 6%nat ->
  length (local_mac a) = 6%nat -> 0 <= ty < 65536 ->
  eth_is_broadcast dest || eth_mac_equal dest (local_mac b) = true ->
  let rest := l ++ replicate (Z.to_nat (ETH_FRAME_MIN - ETH_HLEN) - length l) 0 in
  eth_receive hw_result icmp_result (Some (frame_of a dest ty l)) (Z.of_nat (length (frame_of a dest ty l))) b =
  if ty =? ETH_TYPE_ARP then arp_receive hw_result (Some rest) (Z.of_nat (length rest)) b
  else if ty =? ETH_TYPE_IPV4 then ip_receive icmp_result (Some rest) (Z.of_nat (length rest)) b
  else (b, -1).
Proof.
  intros Hi Hd Hs Ht Hfor rest. unfold eth_receive, frame_of. rewrite Hi. fold rest. cbn [negb].
  destruct (frame_fields dest (local_mac a) ty rest) as (-> & _ & -> & -> & ->); [done..|].
  rewrite (proj2 (Z.ltb_ge _ _)) by (unfold ETH_HLEN; lia).
  replace (ETH_HLEN + Z.of_nat (length rest) - ETH_HLEN) with (Z.of_nat (length rest)) by lia.
  rewrite <- negb_orb, Hfor. done.
Qed.

(** ** IPv4 datagrams *)

Lemma ip_receive_header n total id src payload pad :
  ip_initialized n = true -> total = IP_HEADER_MIN + Z.of_nat (length payload) -> total < 65536 ->
  0 <= src < 2 ^ 32 -> 0 <= local_ip n < 2 ^ 32 ->
  let l := ip_header total id IP_PROTO_ICMP src (local_ip n) ++ payload ++ pad in
  ip_receive icmp_result (Some l) (Z.of_nat (length l)) n = (log_icmp src payload n, icmp_result src payload).
Proof.
  intros Hi Ht Htb Hs Hd l.
  assert (ip_checksum (ip_header total id IP_PROTO_ICMP src (local_ip n)) = 0) as Hck by (by apply ip_header_checks).
  unfold ip_receive. rewrite Hi. cbn [negb].
  assert (Z.of_nat (length l) = total + Z.of_nat (length pad)) as ->.
  { unfold l, ip_header. rewrite !length_app, header_length. unfold IP_HEADER_MIN in Ht. lia. }
  assert (ip_header_len l = IP_HEADER_MIN) as -> by reflexivity.
  assert (ip_version l = IP_VERSION) as -> by reflexivity.
  assert (ntohs (get16 l 2) = total) as ->.
  { rewrite <- (u16_id total) by (unfold IP_HEADER_MIN in *; lia).
    apply (get16_le16 (u16 total)). apply u16_range. }
  assert (ntohl (get32 l 12) = src) as -> by (by apply (get32_le32 src)).
  assert (ntohl (get32 l 16) = local_ip n) as -> by (by apply (get32_le32 (local_ip n))).
  assert (byte_at l 8 = IP_TTL_DEFAULT) as -> by reflexivity.
  assert (byte_at l 9 = IP_PROTO_ICMP) as -> by reflexivity.
  assert (take (Z.to_nat IP_HEADER_MIN) l = ip_header total id IP_PROTO_ICMP src (local_ip n)) as ->
    by (unfold l; rewrite take_app_length'; done).
  rewrite Hck, !Z.eqb_refl. cbn [negb andb]. unfold IP_HEADER_MIN in *.
  assert (drop (Z.to_nat 20) l = payload ++ pad) as -> by (unfold l; rewrite drop_app_length'; done).
  repeat (rewrite (proj2 (Z.ltb_ge _ _)) by lia).
  cbn [orb]. replace (Z.to_nat (total - 20)) with (length payload) by lia. by rewrite take_app_length.
Qed.

(** ** ARP packets *)

Lemma arp_packet_fields op sha spa tha tpa pad :
  length sha = 6%nat -> length tha = 6%nat -> 0 <= op < 65536 -> 0 <= spa < 2 ^ 32 -> 0 <= tpa < 2 ^ 32 ->
  let l := arp_packet op sha spa tha tpa ++ pad in
  ntohs (get16 l 0) = ARP_HRD_ETHERNET /\ ntohs (get16 l 2) = ARP_PRO_IPV4 /\ byte_at l 4 = ARP_HLEN /\
  byte_at l 5 = ARP_PLEN /\ ntohs (get16 l 6) = op /\ get_mac l 8 = sha /\ ntohl (get32 l 14) = spa /\
  ntohl (get32 l 24) = tpa /\ Z.of_nat (length l) = sizeof_arp_packet + Z.of_nat (length pad).
Proof.
  intros Hs Ht Ho Hsp Htp l. subst l. destruct (mac_six sha Hs) as (?&?&?&?&?&?&->).
  destruct (mac_six tha Ht) as (?&?&?&?&?&?&->). repeat split; try done.
  - by apply (get16_le16 op).
  - by apply (get32_le32 spa).
  - by apply (get32_le32 tpa).
  - rewrite length_app, Nat2Z.inj_add. done.
Qed.
End Frames.
