(* ===== verification/ArpProps.v ===== *)
(** * The ARP cache (net/arp/arp.c): invariant, lookup after update, and the timer

    The invariant of the cache under every operation, what a lookup returns after an
    update, and how long an unanswered request stays pending. *)
From S2P Require Import Prelude Memory Ring Netbuf Net Checksum.
Implicit Types n : net.

(** ** The searches *)

Lemma find_entry_some k i f c j : find_entry k i f c = Some j -> i <= j < i + Z.of_nat k /\ f (c j) = true.
Proof.
  revert i. induction k as [|k IH]; intros i; simpl; [done|]. case_if.
  - intros [= <-]. split; [lia|done].
  - intros H. apply IH in H as [? ?]. split; [lia|done].
Qed.
Lemma find_entry_none k i f c : find_entry k i f c = None -> forall j, i <= j < i + Z.of_nat k -> f (c j) = false.
Proof.
  revert i. induction k as [|k IH]; intros i; simpl; [lia|]. case_if; [done|].
  intros H j Hj. destruct (Z.eq_dec j i) as [->|]; [done|]. apply (IH (i + 1)); [done|lia].
Qed.

Lemma oldest_entry_range k i f c best j t : oldest_entry k i f c best = (Some j, t) ->
  fst best = Some j \/ i <= j < i + Z.of_nat k.
Proof.
  revert i best. induction k as [|k IH]; intros i best; simpl; [by intros ->; left|].
  intros H. apply IH in H as [H|H]; [|right; lia]. case_if_in H; simpl in H; [|by left].
  injection H as <-. right. lia.
Qed.
(** A candidate is never lost, and the search finds one when some entry is older than
    the limit. *)
Lemma oldest_entry_keeps k i f c best : is_Some (fst best) -> is_Some (fst (oldest_entry k i f c best)).
Proof. revert i best. induction k as [|k IH]; intros i best Hb; simpl; [done|]. apply IH. by case_if. Qed.
Lemma oldest_entry_finds k i f c best j : i <= j < i + Z.of_nat k -> f (c j) = true ->
  ae_timestamp (c j) < snd best -> is_Some (fst (oldest_entry k i f c best)).
Proof.
  revert i best. induction k as [|k IH]; intros i best Hj Hf Ht; simpl; [lia|].
  destruct (Z.eq_dec j i) as [->|].
  - rewrite Hf, (proj2 (Z.ltb_lt _ _)) by done. by apply oldest_entry_keeps.
  - destruct (f (c i) && (ae_timestamp (c i) <? snd best)) eqn:E; [by apply oldest_entry_keeps|].
    apply IH; [lia|done|done].
Qed.
Lemma oldest_entry_none k i f c t0 t : oldest_entry k i f c (None, t0) = (None, t) -> t = t0.
Proof.
  revert i. induction k as [|k IH]; intros i; simpl; [by intros [= <-]|]. case_if; [|apply IH].
  intros Hk. destruct (oldest_entry_keeps k (i + 1) f c (Some i, ae_timestamp (c i))) as [x Hx]; [by eexists|].
  by rewrite Hk in Hx.
Qed.

Definition slot (i : Z) : Prop := 0 <= i < ARP_CACHE_SIZE.

Lemma cache_find_some ip n i : arp_cache_find ip n = Some i ->
  slot i /\ cache_live (arp_cache n i) = true /\ ae_ip (arp_cache n i) = ip.
Proof.
  intros H. apply find_entry_some in H as [Hi H]. zbool. split; [|done]. unfold slot, ARP_CACHE_SIZE in *. lia.
Qed.
Lemma cache_find_none ip n i : arp_cache_find ip n = None -> slot i -> cache_live (arp_cache n i) = true ->
  ae_ip (arp_cache n i) <> ip.
Proof.
  intros H Hi Hl He. pose proof (find_entry_none _ _ _ _ H i) as Hn. cbv beta in Hn.
  rewrite Hl, He, Z.eqb_refl in Hn. unfold slot, ARP_CACHE_SIZE in *. simpl in Hn. discriminate Hn. lia.
Qed.
Lemma cache_alloc_slot n i : arp_cache_alloc n = Some i -> slot i.
Proof.
  unfold arp_cache_alloc, slot. destruct (find_entry _ _ _ _) as [j|] eqn:E.
  { intros [= <-]. apply find_entry_some in E as [? _]. unfold ARP_CACHE_SIZE in *. lia. }
  destruct (oldest_entry _ _ _ _ _) as [[j|] t] eqn:E1.
  { intros [= <-]. apply oldest_entry_range in E1 as [?|?]; [done|]. unfold ARP_CACHE_SIZE in *. lia. }
  destruct (oldest_entry _ _ (fun _ => true) _ _) as [o t'] eqn:E2. simpl. intros ->.
  apply oldest_entry_range in E2 as [?|?]; [done|]. unfold ARP_CACHE_SIZE in *. lia.
Qed.

(** Some entry can be taken: a free one, or one older than the largest time. *)
Definition cache_room n : Prop :=
  exists i, slot i /\ (cache_live (arp_cache n i) = false \/ ae_timestamp (arp_cache n i) < UINT32_MAX).
Lemma cache_alloc_room n : cache_room n -> exists i, slot i /\ arp_cache_alloc n = Some i.
Proof.
  intros (j & Hj & Hr). cut (is_Some (arp_cache_alloc n)).
  { intros [i Hi]. exists i. split; [by eapply cache_alloc_slot|done]. }
  unfold arp_cache_alloc. destruct (find_entry _ _ _ _) as [x|] eqn:E; [by eexists|].
  pose proof (find_entry_none _ _ _ _ E j) as Hl. cbv beta in Hl. unfold slot, ARP_CACHE_SIZE in *.
  destruct Hr as [Hr|Hr]; [rewrite Hr in Hl; discriminate Hl; lia|].
  destruct (oldest_entry _ _ _ _ _) as [[x|] t] eqn:E1; [by eexists|]. apply oldest_entry_none in E1 as ->.
  by apply (oldest_entry_finds _ _ _ _ _ j); [lia|..].
Qed.

(** ** The invariant *)

Definition cacheable (mac : list Z) : Prop := mac <> no_mac /\ mac <> ETH_BROADCAST_MAC.
Record entry_ok (e : arp_entry) : Prop := mk_entry_ok {
  ok_mac : ae_state e = ARP_STATE_RESOLVED \/ ae_state e = ARP_STATE_STALE -> cacheable (ae_mac e);
  ok_retries : 0 <= ae_retries e <= ARP_REQUEST_RETRIES;
}.
(** At most one live entry per address; a stored MAC address is one a host can have. *)
Record arp_wf n : Prop := mk_arp_wf {
  wf_unique : forall i j, slot i -> slot j -> cache_live (arp_cache n i) = true -> cache_live (arp_cache n j) = true ->
              ae_ip (arp_cache n i) = ae_ip (arp_cache n j) -> i = j;
  wf_entries : forall i, slot i -> entry_ok (arp_cache n i);
}.

(** The invariant and the lookups depend on the cache alone. *)
Lemma arp_wf_cache n n' : arp_cache n' = arp_cache n -> arp_wf n -> arp_wf n'.
Proof. intros He [Hu Hk]. by split; rewrite He. Qed.

Lemma set_cache_entry_wf i e n : slot i -> arp_wf n -> entry_ok e ->
  (cache_live e = true -> forall j, slot j -> j <> i -> cache_live (arp_cache n j) = true -> ae_ip (arp_cache n j) <> ae_ip e) ->
  arp_wf (set_cache_entry i e n).
Proof.
  intros Hi [Hu Hk] He Hfresh. split; cbn [set_cache_entry set_arp arp_cache].
  - intros x y Hx Hy. unfold upd. destruct (x =? i) eqn:Ex, (y =? i) eqn:Ey; zbool; subst; intros Lx Ly Hip.
    + done.
    + exfalso. by apply (Hfresh Lx y Hy Ey Ly).
    + exfalso. by apply (Hfresh Ly x Hx Ex Lx).
    + by apply Hu.
  - intros x Hx. unfold upd. case_if; auto.
Qed.

(** Changing the state of an entry to another live one, or freeing it. *)
Lemma set_entry_same_ip i e n : slot i -> arp_wf n -> entry_ok e -> ae_ip e = ae_ip (arp_cache n i) ->
  (cache_live e = true -> cache_live (arp_cache n i) = true) -> arp_wf (set_cache_entry i e n).
Proof.
  intros Hi Hw He Hip Hlive. apply set_cache_entry_wf; try done. intros Hl j Hj Hne Hlj Heq.
  apply Hne. apply (wf_unique n Hw); auto. congruence.
Qed.

(** The slot an update of [ip] goes to. *)
Definition add_slot (ip : Z) n : option Z :=
  match arp_cache_find ip n with Some i => Some i | None => arp_cache_alloc n end.
Lemma add_slot_wf ip e n i : arp_wf n -> add_slot ip n = Some i -> entry_ok e -> ae_ip e = ip ->
  slot i /\ arp_wf (set_cache_entry i e n).
Proof.
  intros Hw Hs He Hip. unfold add_slot in Hs. destruct (arp_cache_find ip n) as [j|] eqn:E.
  - injection Hs as <-. apply cache_find_some in E as (Hj & Hl & Hji). split; [done|].
    apply set_entry_same_ip; congruence || auto.
  - assert (slot i) as Hi by (by eapply cache_alloc_slot). split; [done|].
    apply set_cache_entry_wf; try done. intros _ j Hj _ Hl. rewrite Hip. by eapply cache_find_none.
Qed.

(** The search finds the one entry of an address. *)
Lemma cache_find_unique ip n i : arp_wf n -> slot i -> cache_live (arp_cache n i) = true ->
  ae_ip (arp_cache n i) = ip -> arp_cache_find ip n = Some i.
Proof.
  intros Hw Hi Hl Hip. destruct (arp_cache_find ip n) as [j|] eqn:E.
  - apply cache_find_some in E as (Hj & Hlj & Hjp). f_equal. apply (wf_unique n Hw); congruence.
  - exfalso. by apply (cache_find_none ip n i).
Qed.

Lemma cacheable_dec mac : bool_decide (mac = no_mac) || bool_decide (mac = ETH_BROADCAST_MAC) = false <-> cacheable mac.
Proof. unfold cacheable. rewrite orb_false_iff, !bool_decide_eq_false. done. Qed.

Lemma arp_cache_add_eq ip mac n : arp_cache_add ip mac n =
  if negb (arp_initialized n) then (n, -1)
  else if bool_decide (mac = no_mac) || bool_decide (mac = ETH_BROADCAST_MAC) then (n, -1)
  else match add_slot ip n with
       | None => (n, -1)
       | Some i => (set_cache_entry i (mk_entry ip mac ARP_STATE_RESOLVED (arp_time n) 0) n, 0)
       end.
Proof. reflexivity. Qed.

Lemma arp_cache_add_wf ip mac n : arp_wf n -> arp_wf (fst (arp_cache_add ip mac n)).
Proof.
  intros Hw. rewrite arp_cache_add_eq. destruct (negb _); [done|].
  destruct (_ || _) eqn:Ec; [done|]. apply cacheable_dec in Ec.
  destruct (add_slot ip n) as [i|] eqn:E; [|done]. eapply add_slot_wf; eauto.
  split; [done|]. simpl. unfold ARP_REQUEST_RETRIES. lia.
Qed.
Lemma arp_cache_remove_wf ip n : arp_wf n -> arp_wf (arp_cache_remove ip n).
Proof.
  intros Hw. unfold arp_cache_remove. destruct (arp_cache_find ip n) as [i|] eqn:E; [|done].
  apply cache_find_some in E as (Hi & Hl & Hip). apply set_entry_same_ip; try done.
  split; [intros [H|H]; discriminate H|]. apply (wf_entries n Hw i Hi).
Qed.
Lemma zero_cache_wf n : (forall i, arp_cache n i = zero_entry) -> arp_wf n.
Proof.
  intros Hz. split; [intros i j _ _; by rewrite !Hz|]. intros i _. rewrite Hz.
  split; [intros [H|H]; discriminate H|]. simpl. unfold ARP_REQUEST_RETRIES. lia.
Qed.

Section Arp.
Variable hw_result : list Z -> Z.

(** Sending a frame leaves the cache alone. *)
Lemma eth_send_keeps dest ty data len n n' r : eth_send hw_result dest ty data len n = (n', r) ->
  arp_cache n' = arp_cache n /\ arp_initialized n' = arp_initialized n /\ arp_time n' = arp_time n /\
  eth_initialized n' = eth_initialized n /\ ip_initialized n' = ip_initialized n /\
  local_mac n' = local_mac n /\ local_ip n' = local_ip n.
Proof. unfold eth_send. do 3 (case_if; [by intros [= <- _]|]). by intros [= <- _]. Qed.
Lemma arp_request_keeps ip n n' r : arp_request hw_result ip n = (n', r) ->
  arp_cache n' = arp_cache n /\ arp_initialized n' = arp_initialized n /\ arp_time n' = arp_time n.
Proof.
  unfold arp_request. case_if; [by intros [= <- _]|]. intros H. apply eth_send_keeps in H. tauto.
Qed.
Lemma arp_request_cache ip n : arp_cache (fst (arp_request hw_result ip n)) = arp_cache n.
Proof. destruct (arp_request _ _ _) as [n' r] eqn:E. by apply arp_request_keeps in E as [? _]. Qed.
Lemma arp_reply_cache ip mac n : arp_cache (fst (arp_reply hw_result ip mac n)) = arp_cache n.
Proof.
  unfold arp_reply. case_if; [done|]. destruct (eth_send _ _ _ _ _ _) as [n' r] eqn:E1.
  by apply eth_send_keeps in E1 as [? _].
Qed.

Lemma arp_lookup_wf ip n : arp_wf n -> arp_wf (fst (arp_lookup hw_result ip n)).
Proof.
  intros Hw. unfold arp_lookup. case_if; [done|].
  assert (forall m, arp_wf m -> arp_wf (fst (fst (arp_request hw_result ip m), @None (list Z)))) as Hmiss.
  { intros m. apply arp_wf_cache. cbn [fst]. apply arp_request_cache. }
  destruct (arp_cache_find ip n) as [i|] eqn:Ef.
  { destruct (ae_state _); try done; by apply Hmiss. }
  destruct (arp_cache_alloc n) as [i|] eqn:Ea; [|by apply Hmiss]. apply Hmiss.
  eapply add_slot_wf; [done|by unfold add_slot; rewrite Ef| |done].
  split; [intros [H|H]; discriminate H|]. simpl. unfold ARP_REQUEST_RETRIES. lia.
Qed.
Lemma arp_receive_wf packet len n : arp_wf n -> arp_wf (fst (arp_receive hw_result packet len n)).
Proof.
  intros Hw. unfold arp_receive. case_if; [done|]. destruct packet as [l|]; [|done].
  destruct (len <? _); [done|]. destruct (_ || _ || _ || _); [done|].
  assert (forall (b : bool) ip mac, arp_wf (if b then fst (arp_cache_add ip mac n) else n)) as Hu.
  { intros [] ip mac; [by apply arp_cache_add_wf|done]. }
  cbv zeta. match goal with |- context [if ?b then fst (arp_cache_add ?ip ?mac n) else n] =>
    specialize (Hu b ip mac); generalize dependent (if b then fst (arp_cache_add ip mac n) else n) end.
  intros n1 Hw1. repeat case_if; try done. eapply arp_wf_cache; [apply arp_reply_cache|done].
Qed.

(** ** The timer *)

(** What one second does to an entry. *)
Definition aged (now : Z) (e : arp_entry) : arp_entry :=
  let age := u32 (now - ae_timestamp e) in
  match ae_state e with
  | ARP_STATE_PENDING =>
      if ARP_REQUEST_TIMEOUT <=? age then
        if 0 <? ae_retries e then mk_entry (ae_ip e) (ae_mac e) ARP_STATE_PENDING now (ae_retries e - 1)
        else set_entry_state ARP_STATE_FREE e
      else e
  | ARP_STATE_RESOLVED => if ARP_CACHE_TIMEOUT <=? age then set_entry_state ARP_STATE_STALE e else e
  | ARP_STATE_STALE => if ARP_CACHE_TIMEOUT * 2 <=? age then set_entry_state ARP_STATE_FREE e else e
  | ARP_STATE_FREE => e
  end.

Lemma tick_entry_aged i n : let n' := tick_entry hw_result i n in
  arp_time n' = arp_time n /\ forall j, arp_cache n' j = if j =? i then aged (arp_time n) (arp_cache n i) else arp_cache n j.
Proof.
  cbv zeta. unfold tick_entry, aged.
  assert (forall j, arp_cache n j = if j =? i then arp_cache n i else arp_cache n j) as Hsame.
  { intros j. case_if; [by subst|done]. }
  assert (forall e m, arp_cache m = upd (arp_cache n) i e -> arp_time m = arp_time n ->
    arp_time m = arp_time n /\ forall j, arp_cache m j = if j =? i then e else arp_cache n j) as Hset.
  { intros e m -> ->. by split. }
  destruct (ae_state (arp_cache n i)); [done| | |]; (case_if; [|done]); try by apply Hset.
  case_if; [|by apply Hset]. destruct (arp_request _ _ _) as [m r] eqn:Er. apply arp_request_keeps in Er as (Hc & _ & Ht).
  apply Hset; cbn [fst]; [by rewrite Hc|by rewrite Ht].
Qed.

Lemma arp_timer_tick_aged n : let now := u32 (arp_time n + 1) in let n' := arp_timer_tick hw_result n in
  arp_time n' = now /\ forall j, slot j -> arp_cache n' j = aged now (arp_cache n j).
Proof.
  cbv zeta. unfold arp_timer_tick. set (now := u32 (arp_time n + 1)). set (m := set_arp _ _ _ _).
  pose proof (for_range_ind (fun k s => arp_time s = now /\
    forall j, arp_cache s j = if (0 <=? j) && (j <? k) then aged now (arp_cache n j) else arp_cache n j)
    (tick_entry hw_result) 0 ARP_CACHE_SIZE m) as H.
  destruct H as [Ht Hc]; [done| | |].
  - split; [done|]. intros j. replace ((0 <=? j) && (j <? 0)) with false by lia. done.
  - intros k s Hk [Ht Hc]. destruct (tick_entry_aged k s) as [Ht' Hc']. split; [congruence|].
    intros j. rewrite Hc', Ht, !Hc. destruct (Z.eq_dec j k) as [->|].
    + rewrite Z.eqb_refl. replace (k <? k) with false by lia. rewrite andb_false_r.
      by replace ((0 <=? k) && (k <? k + 1)) with true by lia.
    + replace (j =? k) with false by lia. by replace (j <? k + 1) with (j <? k) by lia.
  - split; [done|]. intros j Hj. rewrite Hc. unfold slot in Hj.
    by replace ((0 <=? j) && (j <? ARP_CACHE_SIZE)) with true by lia.
Qed.

Lemma aged_ok now e : entry_ok e -> entry_ok (aged now e) /\ ae_ip (aged now e) = ae_ip e /\
  (cache_live (aged now e) = true -> cache_live e = true).
Proof.
  intros Hok. pose proof Hok as [Hm Hr]. unfold aged, cache_live. split; [|split].
  - destruct (ae_state e) eqn:Es; repeat case_if; try done; (split; cbn; [intros [?|?]; try done; auto|lia]).
  - by destruct (ae_state e); repeat case_if.
  - by destruct (ae_state e) eqn:Es; [rewrite Es|..].
Qed.
Lemma arp_timer_tick_wf n : arp_wf n -> arp_wf (arp_timer_tick hw_result n).
Proof.
  intros [Hu Hk]. destruct (arp_timer_tick_aged n) as [_ Hc]. cbv zeta in Hc. split.
  - intros i j Hi Hj. rewrite !Hc by done. destruct (aged_ok (u32 (arp_time n + 1)) _ (Hk i Hi)) as (_ & -> & Li).
    destruct (aged_ok (u32 (arp_time n + 1)) _ (Hk j Hj)) as (_ & -> & Lj). auto.
  - intros i Hi. rewrite Hc by done. apply aged_ok, (Hk i Hi).
Qed.

(** ** Every history *)

Inductive arp_step : net -> net -> Prop :=
  | step_lookup ip n : arp_step n (fst (arp_lookup hw_result ip n))
  | step_receive packet len n : arp_step n (fst (arp_receive hw_result packet len n))
  | step_add ip mac n : arp_step n (fst (arp_cache_add ip mac n))
  | step_remove ip n : arp_step n (arp_cache_remove ip n)
  | step_clear n : arp_step n (arp_cache_clear n)
  | step_tick n : arp_step n (arp_timer_tick hw_result n).

Lemma arp_step_wf n n' : arp_step n n' -> arp_wf n -> arp_wf n'.
Proof.
  destruct 1; [apply arp_lookup_wf|apply arp_receive_wf|apply arp_cache_add_wf|apply arp_cache_remove_wf| |
               apply arp_timer_tick_wf].
  intros _. by apply zero_cache_wf.
Qed.

Lemma lookup_result ip n n' mac : arp_lookup hw_result ip n = (n', Some mac) ->
  n' = n /\ exists i, slot i /\ ae_ip (arp_cache n i) = ip /\ ae_state (arp_cache n i) = ARP_STATE_RESOLVED /\
                     ae_mac (arp_cache n i) = mac.
Proof.
  unfold arp_lookup. case_if; [done|]. destruct (arp_cache_find ip n) as [i|] eqn:Ef.
  - apply cache_find_some in Ef as (Hi & _ & Hip). destruct (ae_state (arp_cache n i)) eqn:Es; try done.
    intros [= <- <-]. split; [done|]. by exists i.
  - by destruct (arp_cache_alloc n).
Qed.

(** after any sequence of lookups, received packets (well formed or not), updates,
    removals and timer ticks from an initialised cache, each address has at most one live
    entry, and a MAC address that arp_lookup returns is the one stored in that entry and
    is neither zero nor the broadcast address. *)
Theorem arp_cache_invariant n0 n : rtc arp_step (arp_init n0) n ->
  arp_wf n /\
  (forall ip n' mac, arp_lookup hw_result ip n = (n', Some mac) -> n' = n /\ cacheable mac /\
     exists i, slot i /\ ae_ip (arp_cache n i) = ip /\ ae_mac (arp_cache n i) = mac).
Proof.
  intros Hr. assert (arp_wf n) as Hw.
  { cut (arp_wf (arp_init n0)); [|by apply zero_cache_wf].
    induction Hr as [|x y z Hs _ IH]; [done|]. intros Hx. by apply IH, (arp_step_wf x). }
  split; [done|]. intros ip n' mac H. apply lookup_result in H as (-> & i & Hi & Hip & Hst & Hmac).
  split; [done|]. split; [|by exists i]. rewrite <- Hmac. apply (wf_entries n Hw i Hi). by left.
Qed.

(** ** A lookup after an update *)

Lemma add_then_lookup ip mac n : arp_wf n -> arp_initialized n = true -> cacheable mac ->
  is_Some (arp_cache_find ip n) \/ cache_room n ->
  exists i, slot i /\ let n' := set_cache_entry i (mk_entry ip mac ARP_STATE_RESOLVED (arp_time n) 0) n in
    arp_cache_add ip mac n = (n', 0) /\ arp_wf n' /\ arp_cache_find ip n' = Some i /\ arp_lookup hw_result ip n' = (n', Some mac).
Proof.
  intros Hw Hi Hm Hroom. assert (exists i, add_slot ip n = Some i) as [i Hs].
  { unfold add_slot. destruct (arp_cache_find ip n) as [j|]; [by exists j|].
    destruct Hroom as [[? ?]|Hroom]; [done|]. destruct (cache_alloc_room n Hroom) as (j & _ & Hj). by exists j. }
  destruct (add_slot_wf ip (mk_entry ip mac ARP_STATE_RESOLVED (arp_time n) 0) n i) as [Hsl Hw'];
    [done|done| |done|].
  { apply mk_entry_ok; [by intros _|]. simpl. unfold ARP_REQUEST_RETRIES. lia. }
  exists i. split; [done|]. cbv zeta. set (n' := set_cache_entry i _ n) in *.
  assert (arp_cache n' i = mk_entry ip mac ARP_STATE_RESOLVED (arp_time n) 0) as He by apply upd_same.
  assert (arp_cache_find ip n' = Some i) as Hf by (apply cache_find_unique; rewrite ?He; done).
  split; [|split; [done|split; [done|]]].
  - rewrite arp_cache_add_eq, Hi, (proj2 (cacheable_dec mac) Hm), Hs. done.
  - unfold arp_lookup. replace (arp_initialized n') with true by done. by rewrite Hf, He.
Qed.

(** ** An unanswered request *)

Lemma tick_pending i n : slot i -> 0 <= arp_time n < 2 ^ 32 ->
  ae_state (arp_cache n i) = ARP_STATE_PENDING -> ae_timestamp (arp_cache n i) = arp_time n ->
  let n' := arp_timer_tick hw_result n in
  if 0 <? ae_retries (arp_cache n i)
  then ae_state (arp_cache n' i) = ARP_STATE_PENDING /\ ae_timestamp (arp_cache n' i) = arp_time n' /\
       ae_retries (arp_cache n' i) = ae_retries (arp_cache n i) - 1
  else ae_state (arp_cache n' i) = ARP_STATE_FREE.
Proof.
  intros Hi Ht Hs Hts. destruct (arp_timer_tick_aged n) as [Htime Hc]. cbv zeta in *. rewrite Htime, !Hc by done.
  unfold aged. rewrite Hs, Hts.
  assert (u32 (u32 (arp_time n + 1) - arp_time n) = 1) as ->.
  { unfold u32. rewrite Zminus_mod_idemp_l. by replace (arp_time n + 1 - arp_time n) with 1 by lia. }
  change (ARP_REQUEST_TIMEOUT <=? 1) with true. cbn iota. by case_if.
Qed.

(** a request that is not answered is repeated once a second while it has retries
    left and is then given up: an entry made pending with r retries is pending for r
    seconds and free after r + 1. *)
Theorem arp_pending_expires i n :
  slot i -> 0 <= arp_time n < 2 ^ 32 -> ae_state (arp_cache n i) = ARP_STATE_PENDING ->
  ae_timestamp (arp_cache n i) = arp_time n -> 0 <= ae_retries (arp_cache n i) ->
  let r := Z.to_nat (ae_retries (arp_cache n i)) in
  let after k := Nat.iter k (arp_timer_tick hw_result) n in
  (forall k, (k <= r)%nat -> ae_state (arp_cache (after k) i) = ARP_STATE_PENDING) /\
  ae_state (arp_cache (after (S r)) i) = ARP_STATE_FREE.
Proof.
  intros Hi Ht Hs Hts Hr r after.
  assert (forall k, (k <= r)%nat -> 0 <= arp_time (after k) < 2 ^ 32 /\
    ae_state (arp_cache (after k) i) = ARP_STATE_PENDING /\ ae_timestamp (arp_cache (after k) i) = arp_time (after k) /\
    ae_retries (arp_cache (after k) i) = ae_retries (arp_cache n i) - Z.of_nat k) as Hk.
  { induction k as [|k IH]; intros Hk; [cbn; split_and!; try done; lia|].
    destruct IH as (Ht' & Hs' & Hts' & Hr'); [lia|]. change (after (S k)) with (arp_timer_tick hw_result (after k)).
    pose proof (tick_pending i (after k) Hi Ht' Hs' Hts') as Hp. cbv zeta in Hp. rewrite Hr' in Hp.
    rewrite (proj2 (Z.ltb_lt _ _)) in Hp by (unfold r in Hk; lia). destruct Hp as (Ha & Hb & Hd).
    destruct (arp_timer_tick_aged (after k)) as [Hn _]. cbv zeta in Hn. split; [rewrite Hn; apply u32_range|].
    split_and!; [done|done|lia]. }
  split; [intros k Hkr; by apply Hk|]. destruct (Hk r) as (Ht' & Hs' & Hts' & Hr'); [lia|].
  change (after (S r)) with (arp_timer_tick hw_result (after r)).
  pose proof (tick_pending i (after r) Hi Ht' Hs' Hts') as Hp. cbv zeta in Hp. rewrite Hr' in Hp.
  by rewrite (proj2 (Z.ltb_ge _ _)) in Hp by (unfold r; lia).
Qed.
End Arp.

(** ** Concrete inputs *)

Definition demo_mac : list Z := [0x52; 0x54; 0; 0x12; 0x34; 0x57].
Definition asked : net := fst (arp_lookup (fun _ => 0) 0xC0A80103 (arp_init blank_net)).

Lemma arp_cache_invariant_witness :
  rtc (arp_step (fun _ => 0)) (arp_init blank_net) (fst (arp_cache_add 0xC0A80103 demo_mac (arp_init blank_net))) /\
  arp_wf (fst (arp_cache_add 0xC0A80103 demo_mac (arp_init blank_net))).
Proof.
  assert (rtc (arp_step (fun _ => 0)) (arp_init blank_net) (fst (arp_cache_add 0xC0A80103 demo_mac (arp_init blank_net)))) as Hr
    by (apply rtc_once, step_add).
  split; [exact Hr|]. exact (proj1 (arp_cache_invariant (fun _ => 0) blank_net _ Hr)).
Defined.

Lemma arp_pending_expires_witness :
  slot 0 /\ ae_state (arp_cache asked 0) = ARP_STATE_PENDING /\
  ae_state (arp_cache (Nat.iter 4 (arp_timer_tick (fun _ => 0)) asked) 0) = ARP_STATE_FREE.
Proof.
  assert (slot 0) as H0 by (split; [done|reflexivity]). split; [exact H0|]. split; [by vm_compute|].
  apply (arp_pending_expires (fun _ => 0) 0 asked H0); by vm_compute.
Defined.
