(* ===== verification/Hosts.v ===== *)
(** * Two hosts on one Ethernet: address resolution and delivery of a datagram

    The operations of [Net] composed the way two machines running this code would
    compose them: what one host gives to its network card, the other receives. *)
From S2P Require Import Prelude Memory CString PageAlloc Pmm Ring Netbuf Net Checksum Packets ArpProps.
Implicit Types n : net.

Section Hosts.
Variable hw_result : list Z -> Z.
Variable icmp_result : Z -> list Z -> Z.

(** A frame that another host transmitted arrives. *)
Definition arrives (f : list Z) n : net * Z := eth_receive hw_result icmp_result (Some f) (Z.of_nat (length f)) n.

(** The state in which an entry has been resolved. *)
Definition resolved (i ip : Z) (mac : list Z) n : net :=
  set_cache_entry i (mk_entry ip mac ARP_STATE_RESOLVED (arp_time n) 0) n.

Lemma host_same n n' : eth_initialized n' = eth_initialized n -> arp_initialized n' = arp_initialized n ->
  local_mac n' = local_mac n -> local_ip n' = local_ip n -> host n -> host n'.
Proof. intros He Ha Hm Hi [? ? ? ? ?]. split; by rewrite ?He, ?Ha, ?Hm, ?Hi. Qed.

Lemma broadcast_length : length ETH_BROADCAST_MAC = 6%nat.
Proof. reflexivity. Qed.

(** ** Receiving ARP packets *)

Lemma arp_receive_packet n op sha spa tha pad :
  host n -> arp_wf n -> length sha = 6%nat -> length tha = 6%nat -> cacheable sha -> 0 <= spa < 2 ^ 32 ->
  op = ARP_OP_REQUEST \/ op = ARP_OP_REPLY ->
  is_Some (arp_cache_find spa n) \/ cache_room n ->
  let l := arp_packet op sha spa tha (local_ip n) ++ pad in
  exists i, slot i /\ let n' := resolved i spa sha n in
    arp_receive hw_result (Some l) (Z.of_nat (length l)) n =
      (if op =? ARP_OP_REQUEST then arp_reply hw_result spa sha n' else (n', 0)) /\
    arp_wf n' /\ arp_cache_find spa n' = Some i.
Proof.
  intros Hh Hw Hls Hlt Hc Hspa Hop Hroom l. subst l.
  destruct (add_then_lookup hw_result spa sha n Hw (host_arp n Hh) Hc Hroom) as (i & Hi & Hadd & Hw' & Hf & _).
  exists i. split; [done|]. cbv zeta. split; [|done]. unfold arp_receive. rewrite (host_arp n Hh). cbn [negb].
  destruct (arp_packet_fields op sha spa tha (local_ip n) pad) as (-> & -> & -> & -> & -> & -> & -> & -> & ->);
    [done|done|destruct Hop as [->| ->]; by vm_compute|done|apply Hh|].
  rewrite !Z.eqb_refl. cbn [negb orb]. rewrite (proj2 (Z.ltb_ge _ _)) by (unfold sizeof_arp_packet; lia).
  rewrite orb_true_r. rewrite Hadd. cbn [fst]. replace (local_ip _ =? local_ip _) with true by (symmetry; apply Z.eqb_refl).
  by destruct Hop as [->| ->].
Qed.

(** The ARP frames. *)
Definition request_frame n (ip : Z) : list Z :=
  frame_of n ETH_BROADCAST_MAC ETH_TYPE_ARP (arp_packet ARP_OP_REQUEST (local_mac n) (local_ip n) no_mac ip).
Definition reply_frame n (ip : Z) (mac : list Z) : list Z :=
  frame_of n mac ETH_TYPE_ARP (arp_packet ARP_OP_REPLY (local_mac n) (local_ip n) mac ip).

Lemma arp_packet_length op sha spa tha tpa : length sha = 6%nat -> length tha = 6%nat ->
  Z.of_nat (length (arp_packet op sha spa tha tpa)) = sizeof_arp_packet.
Proof. intros Hs Ht. unfold arp_packet. rewrite !length_app, Hs, Ht. reflexivity. Qed.

Lemma arp_request_sends n ip : host n ->
  arp_request hw_result ip n = (log_tx (request_frame n ip) n, hw_result (request_frame n ip)).
Proof.
  intros Hh. unfold arp_request. rewrite (host_arp n Hh). cbn [negb].
  rewrite <- (arp_packet_length ARP_OP_REQUEST (local_mac n) (local_ip n) no_mac ip) by (done || apply Hh).
  apply eth_send_frame; [apply Hh|]. by rewrite arp_packet_length by (done || apply Hh).
Qed.
Lemma arp_reply_sends n ip mac : host n -> length mac = 6%nat ->
  arp_reply hw_result ip mac n = (log_tx (reply_frame n ip mac) n, hw_result (reply_frame n ip mac)).
Proof.
  intros Hh Hm. unfold arp_reply. rewrite (host_arp n Hh). cbn [negb].
  rewrite <- (arp_packet_length ARP_OP_REPLY (local_mac n) (local_ip n) mac ip) by (done || apply Hh).
  apply eth_send_frame; [apply Hh|]. by rewrite arp_packet_length by (done || apply Hh).
Qed.

(** A host that is asked for its address answers, and learns the address of who asked. *)
Lemma request_arrives a b : host a -> host b -> arp_wf b ->
  is_Some (arp_cache_find (local_ip a) b) \/ cache_room b ->
  exists i, slot i /\ let b' := resolved i (local_ip a) (local_mac a) b in
    let f := reply_frame b (local_ip a) (local_mac a) in
    arrives (request_frame a (local_ip b)) b = (log_tx f b', hw_result f) /\
    arp_wf b' /\ arp_cache_find (local_ip a) b' = Some i.
Proof.
  intros Ha Hb Hw Hroom.
  destruct (arp_receive_packet b ARP_OP_REQUEST (local_mac a) (local_ip a) no_mac
    (replicate (Z.to_nat (ETH_FRAME_MIN - ETH_HLEN) -
       length (arp_packet ARP_OP_REQUEST (local_mac a) (local_ip a) no_mac (local_ip b))) 0))
    as (i & Hi & Hr & Hw' & Hf); [done|done|apply Ha|done|apply Ha|apply Ha|by left|done|].
  exists i. split; [done|]. cbv zeta. split; [|done]. unfold arrives, request_frame.
  rewrite eth_receive_frame by (done || apply Ha || apply Hb || reflexivity). rewrite Z.eqb_refl, Hr.
  change (ARP_OP_REQUEST =? ARP_OP_REQUEST) with true. cbn iota.
  rewrite arp_reply_sends; [done| |apply Ha]. by apply (host_same b).
Qed.

Lemma reply_arrives a b : host a -> host b -> arp_wf a ->
  is_Some (arp_cache_find (local_ip b) a) \/ cache_room a ->
  exists i, slot i /\ let a' := resolved i (local_ip b) (local_mac b) a in
    arrives (reply_frame b (local_ip a) (local_mac a)) a = (a', 0) /\ arp_wf a' /\ arp_cache_find (local_ip b) a' = Some i.
Proof.
  intros Ha Hb Hw Hroom.
  destruct (arp_receive_packet a ARP_OP_REPLY (local_mac b) (local_ip b) (local_mac a)
    (replicate (Z.to_nat (ETH_FRAME_MIN - ETH_HLEN) -
       length (arp_packet ARP_OP_REPLY (local_mac b) (local_ip b) (local_mac a) (local_ip a))) 0))
    as (i & Hi & Hr & Hw' & Hf); [done|done|apply Hb|apply Ha|apply Hb|apply Hb|by right|done|].
  exists i. split; [done|]. cbv zeta. split; [|done]. unfold arrives, reply_frame.
  rewrite eth_receive_frame; [|apply Ha|apply Ha|apply Hb|done|by rewrite mac_equal_refl, orb_true_r].
  by rewrite Z.eqb_refl, Hr.
Qed.

(** ** Sending datagrams *)

Definition datagram n (dest : Z) (payload : list Z) : list Z :=
  ip_header (IP_HEADER_MIN + Z.of_nat (length payload)) (ip_id_counter n) IP_PROTO_ICMP (local_ip n) dest ++ payload.
Definition datagram_frame n (dest : Z) (mac payload : list Z) : list Z :=
  frame_of n mac ETH_TYPE_IPV4 (datagram n dest payload).
Definition send_icmp (stack : Z -> Z) (dest : Z) (payload : list Z) n : net * Z :=
  ip_send hw_result stack dest IP_PROTO_ICMP (Some payload) (Z.of_nat (length payload)) n.

(** A payload that fits in one frame. *)
Definition fits (payload : list Z) : Prop := Z.of_nat (length payload) <= IP_MTU_DEFAULT - IP_HEADER_MIN.

Lemma datagram_length n dest payload :
  Z.of_nat (length (datagram n dest payload)) = IP_HEADER_MIN + Z.of_nat (length payload).
Proof. unfold datagram, ip_header. rewrite length_app, header_length, Nat2Z.inj_add. reflexivity. Qed.

Lemma send_resolved stack a dest hop i payload : host a -> ip_initialized a = true -> fits payload ->
  next_hop dest a = Some (inr hop) -> arp_cache_find hop a = Some i ->
  ae_state (arp_cache a i) = ARP_STATE_RESOLVED ->
  let f := datagram_frame a dest (ae_mac (arp_cache a i)) payload in
  send_icmp stack dest payload a = (log_tx f (next_ip_id a), hw_result f).
Proof.
  intros Ha Hi Hfit Hhop Hf Hs f. unfold send_icmp, ip_send. rewrite Hi. cbn [negb].
  rewrite (proj2 (Z.ltb_ge _ _)) by done. cbv zeta. rewrite Nat2Z.id, take_ge by lia.
  change (next_hop dest (next_ip_id a)) with (next_hop dest a). rewrite Hhop.
  unfold arp_lookup. change (arp_initialized (next_ip_id a)) with (arp_initialized a). rewrite (host_arp a Ha). cbn [negb].
  change (arp_cache_find hop (next_ip_id a)) with (arp_cache_find hop a).
  change (arp_cache (next_ip_id a)) with (arp_cache a). rewrite Hf, Hs.
  fold (datagram a dest payload). rewrite <- (datagram_length a dest payload).
  apply eth_send_frame; [apply Ha|]. rewrite datagram_length. unfold fits, IP_MTU_DEFAULT, IP_HEADER_MIN, ETH_DATA_MAX in *. lia.
Qed.

Lemma datagram_arrives a b payload : host a -> host b -> ip_initialized b = true -> fits payload ->
  arrives (datagram_frame a (local_ip b) (local_mac b) payload) b =
  (log_icmp (local_ip a) payload b, icmp_result (local_ip a) payload).
Proof.
  intros Ha Hb Hi Hfit. unfold arrives, datagram_frame.
  rewrite eth_receive_frame; [|apply Hb|apply Hb|apply Ha|done|by rewrite mac_equal_refl, orb_true_r].
  change (ETH_TYPE_IPV4 =? ETH_TYPE_ARP) with false. change (ETH_TYPE_IPV4 =? ETH_TYPE_IPV4) with true. cbn iota.
  unfold datagram at 1 3. rewrite <- app_assoc.
  apply ip_receive_header; [done|done| |apply Ha|apply Hb].
  unfold fits, IP_MTU_DEFAULT, IP_HEADER_MIN in *. lia.
Qed.

(** The first attempt asks for the address and fails. *)
Lemma send_unresolved stack a dest hop payload : host a -> arp_wf a -> ip_initialized a = true -> fits payload ->
  next_hop dest a = Some (inr hop) -> arp_cache_find hop a = None -> cache_room a ->
  exists i, slot i /\
    let a1 := set_cache_entry i (mk_entry hop (ae_mac (arp_cache a i)) ARP_STATE_PENDING (arp_time a) ARP_REQUEST_RETRIES)
                (next_ip_id a) in
    send_icmp stack dest payload a = (log_tx (request_frame a hop) a1, -1) /\ arp_wf a1 /\ arp_cache_find hop a1 = Some i.
Proof.
  intros Ha Hw Hi Hfit Hhop Hf Hroom. destruct (cache_alloc_room a Hroom) as (i & Hsl & Hal).
  exists i. split; [done|]. cbv zeta. set (a1 := set_cache_entry i _ _).
  assert (arp_wf a1) as Hw1.
  { apply (add_slot_wf hop _ (next_ip_id a) i); [by apply (arp_wf_cache a)| | |done].
    - unfold add_slot. change (arp_cache_find hop (next_ip_id a)) with (arp_cache_find hop a). by rewrite Hf.
    - split; [by intros [?|?]|by vm_compute]. }
  split; [|split; [done|]].
  - unfold send_icmp, ip_send. rewrite Hi. cbn [negb]. rewrite (proj2 (Z.ltb_ge _ _)) by done. cbv zeta.
    change (next_hop dest (next_ip_id a)) with (next_hop dest a). rewrite Hhop.
    unfold arp_lookup. change (arp_initialized (next_ip_id a)) with (arp_initialized a). rewrite (host_arp a Ha). cbn [negb].
    change (arp_cache_find hop (next_ip_id a)) with (arp_cache_find hop a).
    change (arp_cache_alloc (next_ip_id a)) with (arp_cache_alloc a). rewrite Hf, Hal. cbv zeta.
    change (arp_cache (next_ip_id a)) with (arp_cache a). change (arp_time (next_ip_id a)) with (arp_time a). fold a1.
    rewrite arp_request_sends by (by apply (host_same a)). done.
  - apply cache_find_unique; try done; unfold a1; cbn [set_cache_entry set_arp arp_cache]; by rewrite upd_same.
Qed.

(** ** The whole conversation *)

(** C18: a host that sends a datagram to a neighbour whose address it does not know gets
    -1 and broadcasts one ARP request; the neighbour receiving it caches the sender and
    replies; after the reply has arrived the same call sends the datagram, and the
    neighbour receiving that frame hands exactly the payload, without the padding of a
    short frame, to ICMP with the sender's address. *)
Theorem unresolved_then_delivered stack a b payload :
  host a -> host b -> ip_initialized a = true -> ip_initialized b = true -> arp_wf a -> arp_wf b -> fits payload ->
  next_hop (local_ip b) a = Some (inr (local_ip b)) -> arp_cache_find (local_ip b) a = None ->
  cache_room a -> cache_room b ->
  exists a1 a2 a3 b1 f1 f2 f3,
    send_icmp stack (local_ip b) payload a = (a1, -1) /\ tx_frames a1 = tx_frames a ++ [f1] /\
    arrives f1 b = (b1, hw_result f2) /\ tx_frames b1 = tx_frames b ++ [f2] /\
    arrives f2 a1 = (a2, 0) /\
    send_icmp stack (local_ip b) payload a2 = (a3, hw_result f3) /\ tx_frames a3 = tx_frames a2 ++ [f3] /\
    arrives f3 b1 = (log_icmp (local_ip a) payload b1, icmp_result (local_ip a) payload).
Proof.
  intros Ha Hb Hia Hib Hwa Hwb Hfit Hhop Hnone Hra Hrb.
  destruct (send_unresolved stack a (local_ip b) (local_ip b) payload) as (i & Hi & Hs1 & Hw1 & Hf1); try done.
  destruct (request_arrives a b Ha Hb Hwb (or_intror Hrb)) as (j & Hj & Hr1 & _ & _).
  set (a0 := set_cache_entry i _ _) in *. set (a1 := log_tx (request_frame a (local_ip b)) a0) in *.
  set (b1 := log_tx _ _) in Hr1.
  assert (host a1) as Ha1 by (by apply (host_same a)). assert (host b1) as Hb1 by (by apply (host_same b)).
  destruct (reply_arrives a1 b Ha1 Hb) as (k & Hk & Hr2 & Hw2 & Hf2);
    [by apply (arp_wf_cache a0)|left; by exists i|].
  set (a2 := resolved k (local_ip b) (local_mac b) a1) in *.
  assert (arp_cache a2 k = mk_entry (local_ip b) (local_mac b) ARP_STATE_RESOLVED (arp_time a1) 0) as Hek by apply upd_same.
  exists a1, a2, (log_tx (datagram_frame a2 (local_ip b) (local_mac b) payload) (next_ip_id a2)), b1,
    (request_frame a (local_ip b)), (reply_frame b (local_ip a) (local_mac a)),
    (datagram_frame a2 (local_ip b) (local_mac b) payload).
  split; [exact Hs1|]. split; [reflexivity|]. split; [exact Hr1|]. split; [reflexivity|]. split; [exact Hr2|].
  split; [|split; [reflexivity|]].
  - pose proof (send_resolved stack a2 (local_ip b) (local_ip b) k payload) as Hs. rewrite Hek in Hs.
    apply Hs; try done. by apply (host_same a1).
  - pose proof (datagram_arrives a2 b1 payload) as Hd. apply Hd; try done. by apply (host_same a1).
Qed.
End Hosts.

(** ** Concrete input: two hosts of 192.168.1.0/24 *)

Definition host_a : net := arp_init blank_net.
Definition host_b : net := arp_init (ip_set_addr 0xC0A80103 (eth_set_mac demo_mac blank_net)).

Lemma host_a_ok : host host_a.
Proof. by split; vm_compute. Qed.
Lemma host_b_ok : host host_b.
Proof. by split; vm_compute. Qed.

Lemma unresolved_then_delivered_witness :
  exists a1 f1, send_icmp (fun _ => 0) (fun _ => 0) 0xC0A80103 [8; 0; 1; 2] host_a = (a1, -1) /\
    tx_frames a1 = [f1] /\ next_hop 0xC0A80103 host_a = Some (inr 0xC0A80103).
Proof.
  assert (cache_room host_a) as Ra by (exists 0; split; [by split|by left]).
  assert (cache_room host_b) as Rb by (exists 0; split; [by split|by left]).
  assert (next_hop (local_ip host_b) host_a = Some (inr (local_ip host_b))) as Hh by (by vm_compute).
  destruct (unresolved_then_delivered (fun _ => 0) (fun _ _ => 0) (fun _ => 0) host_a host_b [8; 0; 1; 2]
    host_a_ok host_b_ok eq_refl eq_refl (zero_cache_wf host_a (fun _ => eq_refl)) (zero_cache_wf host_b (fun _ => eq_refl))
    ltac:(by vm_compute) Hh ltac:(by vm_compute) Ra Rb) as (a1 & a2 & a3 & b1 & f1 & f2 & f3 & H1 & H2 & _).
  exists a1, f1. split; [exact H1|]. split; [exact H2|exact Hh].
Defined.

(** ** Sending from a network buffer (eth_send_buf, ip_send_buf)

    The headers are pushed in front of the packet in its buffer and the buffer's bytes
    are given to the card. The frame that leaves is the header stack over the packet; a
    call that fails for want of a MAC address has already pushed its header. *)

(** [buf->src_ip = s; buf->dst_ip = d; buf->protocol = p;] *)
Definition set_ip_meta (s d p : Z) (b : netbuf) : netbuf :=
  mk_netbuf (buffer_start b) (nb_data b) (nb_len b) (capacity b) p (nb_flags b) (nb_src_mac b) (nb_dst_mac b)
    s d (nb_next b).
(** [buf->src_mac = s; buf->dst_mac = d; buf->protocol = p;] *)
Definition set_eth_meta (s d : list Z) (p : Z) (b : netbuf) : netbuf :=
  mk_netbuf (buffer_start b) (nb_data b) (nb_len b) (capacity b) p (nb_flags b) s d (nb_src_ip b) (nb_dst_ip b) (nb_next b).

Section Send.
Context {S : Type} `{PageAllocator S}.
Variable hw_result : list Z -> Z.
Implicit Types s : bufs S.

Definition eth_send_buf (p : Z) (dest : list Z) (ethertype : Z) n s : net * bufs S * Z :=
  if negb (eth_initialized n) then (n, s, -1)
  else if p =? NULL then (n, s, -1)
  else if ETH_DATA_MAX <? nb_len (nb_at s p) then (n, s, -1)
  else
    let '(s, hdr) := netbuf_push p ETH_HLEN s in
    if hdr =? NULL then (n, s, -1)
    else
      let s := set_nb_mem (write_bytes (nb_mem s) hdr (eth_header dest (local_mac n) ethertype)) s in
      let s := set_buf p (set_eth_meta (local_mac n) dest ethertype (nb_at s p)) s in
      let frame := bytes_at (nb_mem s) (nb_data (nb_at s p)) (Z.to_nat (nb_len (nb_at s p))) in
      (log_tx frame n, s, hw_result frame).

Definition ip_send_buf (p dest_ip protocol : Z) n s : net * bufs S * Z :=
  if negb (ip_initialized n) then (n, s, -1)
  else if p =? NULL then (n, s, -1)
  else
    let '(s, hdr) := netbuf_push p IP_HEADER_MIN s in
    if hdr =? NULL then (n, s, -1)
    else
      let total_len := nb_len (nb_at s p) in
      let s := set_nb_mem (write_bytes (nb_mem s) hdr
                 (ip_header total_len (ip_id_counter n) protocol (local_ip n) dest_ip)) s in
      let s := set_buf p (set_ip_meta (local_ip n) dest_ip protocol (nb_at s p)) s in
      let n := next_ip_id n in
      match next_hop dest_ip n with
      | None => (n, s, -1)
      | Some (inl mac) => eth_send_buf p mac ETH_TYPE_IPV4 n s
      | Some (inr hop) =>
          let '(n, r) := arp_lookup hw_result hop n in
          match r with
          | None => (n, s, -1)
          | Some mac => eth_send_buf p mac ETH_TYPE_IPV4 n s
          end
      end.

(** ** Pushing a header *)

(** The buffer with [hdr] pushed and written in front of its packet. *)
Definition pushed (p : Z) (hdr : list Z) s : bufs S :=
  let b := nb_at s p in
  let len := Z.of_nat (length hdr) in
  set_nb_mem (write_bytes (nb_mem s) (nb_data b - len) hdr) (set_buf p (set_window (nb_data b - len) (nb_len b + len) b) s).

Lemma push_header p hdr s : p <> NULL -> window_ok (nb_at s p) ->
  Z.of_nat (length hdr) <= nb_data (nb_at s p) - buffer_start (nb_at s p) ->
  let '(s', r) := netbuf_push p (Z.of_nat (length hdr)) s in
  r <> NULL /\ set_nb_mem (write_bytes (nb_mem s') r hdr) s' = pushed p hdr s /\ nb_at s' p = nb_at (pushed p hdr s) p.
Proof.
  intros Hp Hw Hr. pose proof Hw as [W1 W2 W3 W4 W5 W6]. unfold NETBUF_MAX_SIZE in W2. unfold netbuf_push.
  rewrite (proj2 (Z.eqb_neq p NULL)) by done. rewrite headroom_val by done. rewrite (proj2 (Z.ltb_ge _ _)) by lia.
  rewrite u64_id by lia. unfold NULL. split; [lia|]. done.
Qed.
Lemma push_no_room p len s : p <> NULL -> window_ok (nb_at s p) -> nb_data (nb_at s p) - buffer_start (nb_at s p) < len ->
  netbuf_push p len s = (s, NULL).
Proof.
  intros Hp Hw Hr. unfold netbuf_push. rewrite (proj2 (Z.eqb_neq p NULL)) by done. rewrite headroom_val by done.
  by rewrite (proj2 (Z.ltb_lt _ _)).
Qed.

Lemma pushed_packet p hdr s : bytes hdr -> 0 <= nb_len (nb_at s p) -> packet (pushed p hdr s) p = hdr ++ packet s p.
Proof.
  intros Hb Hl. unfold packet, pushed. cbn [nb_at nb_mem set_nb_mem set_buf]. rewrite upd_same.
  cbn [nb_data nb_len set_window]. rewrite Z.add_comm, bytes_at_split by lia. rewrite Nat2Z.id. f_equal.
  - by apply bytes_at_write.
  - replace (nb_data (nb_at s p) - Z.of_nat (length hdr) + Z.of_nat (length hdr)) with (nb_data (nb_at s p)) by lia.
    apply bytes_at_agree. intros x Hx. apply write_bytes_other. lia.
Qed.
Lemma pushed_window p hdr s : window_ok (nb_at s p) ->
  Z.of_nat (length hdr) <= nb_data (nb_at s p) - buffer_start (nb_at s p) -> window_ok (nb_at (pushed p hdr s) p).
Proof.
  intros Hw Hr. unfold pushed. cbn [nb_at set_nb_mem set_buf]. rewrite upd_same. destruct (Hw).
  apply window_moved; [done|lia|lia|lia].
Qed.

(** Metadata does not touch the packet. *)
Lemma packet_meta p b s : nb_data b = nb_data (nb_at s p) -> nb_len b = nb_len (nb_at s p) ->
  packet (set_buf p b s) p = packet s p.
Proof. intros Hd Hl. unfold packet. cbn [nb_at nb_mem set_buf]. by rewrite upd_same, Hd, Hl. Qed.

(** ** What leaves the card *)

Definition room (p : Z) s : Z := nb_data (nb_at s p) - buffer_start (nb_at s p).

Lemma eth_send_buf_ok p dest ty n s : eth_initialized n = true -> p <> NULL -> window_ok (nb_at s p) ->
  length dest = 6%nat -> length (local_mac n) = 6%nat -> bytes dest -> bytes (local_mac n) ->
  nb_len (nb_at s p) <= ETH_DATA_MAX -> ETH_HLEN <= room p s ->
  let f := eth_header dest (local_mac n) ty ++ packet s p in
  exists s', eth_send_buf p dest ty n s = (log_tx f n, s', hw_result f).
Proof.
  intros Hi Hp Hw Hd Hm Hbd Hbm Hl Hr f. unfold room in Hr. set (hdr := eth_header dest (local_mac n) ty) in *.
  assert (Z.of_nat (length hdr) = ETH_HLEN) as Hh by (unfold hdr, eth_header; rewrite !length_app, Hd, Hm; reflexivity).
  assert (bytes hdr) as Hb by (unfold hdr, eth_header, bytes; rewrite !Forall_app; split_and!; try done; apply le16_bytes).
  unfold eth_send_buf. rewrite Hi, (proj2 (Z.eqb_neq p NULL)) by done. cbn [negb].
  rewrite (proj2 (Z.ltb_ge _ _)) by lia. pose proof (push_header p hdr s Hp Hw) as Hpush. rewrite Hh in Hpush.
  destruct (netbuf_push p ETH_HLEN s) as [s1 r]. destruct Hpush as (Hr0 & He & Ha); [lia|].
  rewrite (proj2 (Z.eqb_neq r NULL)) by done. fold hdr. rewrite He. cbv zeta.
  set (s2 := set_buf p _ _). assert (packet s2 p = f) as Hpk.
  { unfold s2. rewrite packet_meta by done. apply pushed_packet; [done|apply Hw]. }
  unfold packet in Hpk. rewrite Hpk. by exists s2.
Qed.

(** The state after the IP header has been pushed. *)
Definition with_ip_header (p dest protocol : Z) n s : bufs S :=
  let hdr := ip_header (nb_len (nb_at s p) + IP_HEADER_MIN) (ip_id_counter n) protocol (local_ip n) dest in
  set_buf p (set_ip_meta (local_ip n) dest protocol (nb_at (pushed p hdr s) p)) (pushed p hdr s).

Lemma ip_send_buf_eq p dest protocol n s : ip_initialized n = true -> p <> NULL -> window_ok (nb_at s p) ->
  IP_HEADER_MIN <= room p s ->
  ip_send_buf p dest protocol n s =
  let s' := with_ip_header p dest protocol n s in
  match next_hop dest n with
  | None => (next_ip_id n, s', -1)
  | Some (inl mac) => eth_send_buf p mac ETH_TYPE_IPV4 (next_ip_id n) s'
  | Some (inr hop) =>
      let '(n', r) := arp_lookup hw_result hop (next_ip_id n) in
      match r with None => (n', s', -1) | Some mac => eth_send_buf p mac ETH_TYPE_IPV4 n' s' end
  end.
Proof.
  intros Hi Hp Hw Hr. unfold room, IP_HEADER_MIN in Hr. unfold ip_send_buf. rewrite Hi, (proj2 (Z.eqb_neq p NULL)) by done. cbn [negb].
  set (hdr := ip_header (nb_len (nb_at s p) + IP_HEADER_MIN) (ip_id_counter n) protocol (local_ip n) dest).
  pose proof (push_header p hdr s Hp Hw) as Hpush. change (Z.of_nat (length hdr)) with IP_HEADER_MIN in Hpush.
  destruct (netbuf_push p IP_HEADER_MIN s) as [s1 r] eqn:E1. destruct Hpush as (Hr0 & He & Ha); [done|].
  rewrite (proj2 (Z.eqb_neq r NULL)) by done.
  assert (nb_len (nb_at s1 p) = nb_len (nb_at s p) + IP_HEADER_MIN) as ->.
  { rewrite Ha. unfold pushed. cbn [nb_at set_nb_mem set_buf]. by rewrite upd_same. }
  fold hdr. cbv zeta. rewrite He. done.
Qed.

Lemma with_ip_header_window p dest protocol n s : window_ok (nb_at s p) -> IP_HEADER_MIN <= room p s ->
  window_ok (nb_at (with_ip_header p dest protocol n s) p) /\
  nb_len (nb_at (with_ip_header p dest protocol n s) p) = nb_len (nb_at s p) + IP_HEADER_MIN /\
  room p (with_ip_header p dest protocol n s) = room p s - IP_HEADER_MIN.
Proof.
  intros Hw Hr. unfold with_ip_header. set (hdr := ip_header _ _ _ _ _).
  assert (Z.of_nat (length hdr) = IP_HEADER_MIN) as Hlen by done.
  pose proof (pushed_window p hdr s Hw) as Hpw. rewrite Hlen in Hpw. specialize (Hpw Hr).
  unfold room in *. cbn [set_buf nb_at]. rewrite upd_same. split; [by destruct Hpw|].
  unfold pushed in *. cbn [set_nb_mem set_buf nb_at] in *. rewrite upd_same in *.
  cbn [set_ip_meta set_window nb_len nb_data buffer_start]. rewrite Hlen. split; [done|lia].
Qed.
Lemma with_ip_header_packet p dest protocol n s : window_ok (nb_at s p) -> is_byte protocol ->
  packet (with_ip_header p dest protocol n s) p =
  ip_header (nb_len (nb_at s p) + IP_HEADER_MIN) (ip_id_counter n) protocol (local_ip n) dest ++ packet s p.
Proof.
  intros Hw Hb. unfold with_ip_header. rewrite packet_meta by done. apply pushed_packet; [by apply header_bytes|apply Hw].
Qed.

(** with the next hop resolved and room for both headers, ip_send_buf gives the card
    the Ethernet header, the IPv4 header and the packet as it was in the buffer, in that
    order, and the host that receives the frame delivers exactly that packet. *)
Theorem ip_send_buf_delivers icmp_result p a b s i :
  host a -> host b -> bytes (local_mac a) -> bytes (local_mac b) -> ip_initialized a = true -> ip_initialized b = true ->
  p <> NULL -> window_ok (nb_at s p) -> ETH_HLEN + IP_HEADER_MIN <= room p s ->
  nb_len (nb_at s p) <= IP_MTU_DEFAULT - IP_HEADER_MIN ->
  next_hop (local_ip b) a = Some (inr (local_ip b)) -> arp_cache_find (local_ip b) a = Some i ->
  ae_state (arp_cache a i) = ARP_STATE_RESOLVED -> ae_mac (arp_cache a i) = local_mac b ->
  exists f s', ip_send_buf p (local_ip b) IP_PROTO_ICMP a s = (log_tx f (next_ip_id a), s', hw_result f) /\
    eth_receive hw_result icmp_result (Some f) (Z.of_nat (length f)) b =
    (log_icmp (local_ip a) (packet s p) b, icmp_result (local_ip a) (packet s p)).
Proof.
  intros Ha Hb Hma Hmb Hia Hib Hp Hw Hr Hfit Hhop Hf Hst Hmac. unfold ETH_HLEN, IP_HEADER_MIN, IP_MTU_DEFAULT in *.
  rewrite ip_send_buf_eq by (done || unfold IP_HEADER_MIN; lia). cbv zeta. rewrite Hhop. unfold arp_lookup.
  change (arp_initialized (next_ip_id a)) with (arp_initialized a). rewrite (host_arp a Ha). cbn [negb].
  change (arp_cache_find (local_ip b) (next_ip_id a)) with (arp_cache_find (local_ip b) a).
  change (arp_cache (next_ip_id a)) with (arp_cache a). rewrite Hf, Hst, Hmac.
  destruct (with_ip_header_window p (local_ip b) IP_PROTO_ICMP a s Hw) as (Hw' & Hl' & Hr'); [unfold IP_HEADER_MIN; lia|].
  unfold IP_HEADER_MIN in Hl', Hr'.
  destruct (eth_send_buf_ok p (local_mac b) ETH_TYPE_IPV4 (next_ip_id a) (with_ip_header p (local_ip b) IP_PROTO_ICMP a s))
    as [s' Hs]; try done; try apply Ha; try apply Hb; [unfold ETH_DATA_MAX; lia|unfold ETH_HLEN; lia|].
  rewrite with_ip_header_packet in Hs by done. eexists _, s'. split; [exact Hs|].
  unfold eth_receive. rewrite (host_eth b Hb). cbn [negb].
  destruct (frame_fields (local_mac b) (local_mac (next_ip_id a)) ETH_TYPE_IPV4
    (ip_header (nb_len (nb_at s p) + IP_HEADER_MIN) (ip_id_counter a) IP_PROTO_ICMP (local_ip a) (local_ip b) ++ packet s p))
    as (-> & _ & -> & -> & ->); [apply Hb|apply Ha|done|].
  rewrite (proj2 (Z.ltb_ge _ _)) by (unfold ETH_HLEN; lia). rewrite mac_equal_refl, andb_false_r.
  change (ETH_TYPE_IPV4 =? ETH_TYPE_ARP) with false. change (ETH_TYPE_IPV4 =? ETH_TYPE_IPV4) with true. cbn iota.
  rewrite Z.add_simpl_l. pose proof (ip_receive_header icmp_result b (nb_len (nb_at s p) + IP_HEADER_MIN) (ip_id_counter a)
    (local_ip a) (packet s p) []) as Hrcv. rewrite app_nil_r in Hrcv. destruct Hw.
  assert (length (packet s p) = Z.to_nat (nb_len (nb_at s p))) as Hlp by apply length_bytes_at.
  apply Hrcv; [done|rewrite Hlp; lia|unfold IP_HEADER_MIN; lia|apply Ha|apply Hb].
Qed.

(** While the next hop is unresolved the call fails, but the buffer keeps the header. *)
Lemma ip_send_buf_unresolved p dest hop protocol n n1 s :
  ip_initialized n = true -> p <> NULL -> window_ok (nb_at s p) -> IP_HEADER_MIN <= room p s ->
  next_hop dest n = Some (inr hop) -> arp_lookup hw_result hop (next_ip_id n) = (n1, None) ->
  ip_send_buf p dest protocol n s = (n1, with_ip_header p dest protocol n s, -1).
Proof.
  intros Hi Hp Hw Hr Hhop Hl. rewrite ip_send_buf_eq by done. cbv zeta. by rewrite Hhop, Hl.
Qed.

(** ip_send_buf is not idempotent on failure: when it returns -1 because the address
    is not resolved yet, the buffer holds the IPv4 header in front of the packet, and a
    second call puts another header in front of that one. *)
Theorem ip_send_buf_retry_nests p dest hop protocol n n1 n2 s :
  ip_initialized n = true -> ip_initialized n1 = true -> p <> NULL -> window_ok (nb_at s p) -> is_byte protocol ->
  2 * IP_HEADER_MIN <= room p s ->
  next_hop dest n = Some (inr hop) -> next_hop dest n1 = Some (inr hop) ->
  arp_lookup hw_result hop (next_ip_id n) = (n1, None) -> arp_lookup hw_result hop (next_ip_id n1) = (n2, None) ->
  exists s1 s2, ip_send_buf p dest protocol n s = (n1, s1, -1) /\ ip_send_buf p dest protocol n1 s1 = (n2, s2, -1) /\
    packet s2 p = ip_header (nb_len (nb_at s p) + 2 * IP_HEADER_MIN) (ip_id_counter n1) protocol (local_ip n1) dest ++
                  ip_header (nb_len (nb_at s p) + IP_HEADER_MIN) (ip_id_counter n) protocol (local_ip n) dest ++ packet s p.
Proof.
  intros Hi Hi1 Hp Hw Hb Hr Hh Hh1 Hl Hl1. unfold IP_HEADER_MIN in *.
  destruct (with_ip_header_window p dest protocol n s Hw) as (Hw' & Hlen & Hr'); [unfold IP_HEADER_MIN; lia|].
  unfold IP_HEADER_MIN in Hlen, Hr'.
  eexists _, _. split; [eapply ip_send_buf_unresolved; eauto; unfold IP_HEADER_MIN; lia|].
  split; [eapply ip_send_buf_unresolved; eauto; unfold IP_HEADER_MIN; lia|].
  rewrite with_ip_header_packet by done. rewrite with_ip_header_packet by done. rewrite Hlen. unfold IP_HEADER_MIN.
  by replace (nb_len (nb_at s p) + 20 + 20) with (nb_len (nb_at s p) + 2 * 20) by lia.
Qed.
End Send.

(** ** Concrete inputs *)

(** A packet of four bytes with 64 bytes of headroom. *)
Definition four_bytes : bufs pmm := set_buf 0x100000 (mk_netbuf 0x101000 0x101040 4 2048 0 0 no_mac no_mac 0 0 0) raw_bufs.
Definition knows_b : net := resolved 0 0xC0A80103 demo_mac host_a.

Lemma four_bytes_window : window_ok (nb_at four_bytes 0x100000).
Proof.
  assert (nb_at four_bytes 0x100000 = mk_netbuf 0x101000 0x101040 4 2048 0 0 no_mac no_mac 0 0 0) as -> by reflexivity.
  split; simpl; unfold NETBUF_MAX_SIZE; lia.
Qed.
Lemma knows_b_host : host knows_b.
Proof. by split; vm_compute. Qed.
Lemma demo_macs : bytes (local_mac knows_b) /\ bytes (local_mac host_b).
Proof. split; unfold bytes; repeat constructor; done. Qed.

Lemma ip_send_buf_delivers_witness :
  exists f s', ip_send_buf (fun _ => 0) 0x100000 (local_ip host_b) IP_PROTO_ICMP knows_b four_bytes =
    (log_tx f (next_ip_id knows_b), s', 0).
Proof.
  destruct (ip_send_buf_delivers (fun _ => 0) (fun _ _ => 0) 0x100000 knows_b host_b four_bytes 0
    knows_b_host host_b_ok (proj1 demo_macs) (proj2 demo_macs) eq_refl eq_refl ltac:(discriminate) four_bytes_window
    ltac:(by vm_compute) ltac:(by vm_compute) ltac:(by vm_compute) ltac:(by vm_compute) ltac:(by vm_compute) ltac:(by vm_compute))
    as (f & s' & Hs & _).
  exists f, s'. exact Hs.
Defined.

(** The first call asks for the address, the second finds the request pending. *)
Definition waiting1 : net := fst (arp_lookup (fun _ => 0) 0xC0A80103 (next_ip_id host_a)).
Definition waiting2 : net := fst (arp_lookup (fun _ => 0) 0xC0A80103 (next_ip_id waiting1)).

Lemma ip_send_buf_retry_nests_witness :
  exists s1 s2, ip_send_buf (fun _ => 0) 0x100000 0xC0A80103 IP_PROTO_ICMP host_a four_bytes = (waiting1, s1, -1) /\
    ip_send_buf (fun _ => 0) 0x100000 0xC0A80103 IP_PROTO_ICMP waiting1 s1 = (waiting2, s2, -1).
Proof.
  assert (arp_lookup (fun _ => 0) 0xC0A80103 (next_ip_id host_a) = (waiting1, None)) as E1
    by (apply pair_snd; vm_compute; reflexivity).
  assert (arp_lookup (fun _ => 0) 0xC0A80103 (next_ip_id waiting1) = (waiting2, None)) as E2
    by (apply pair_snd; vm_compute; reflexivity).
  destruct (ip_send_buf_retry_nests (fun _ => 0) 0x100000 0xC0A80103 0xC0A80103 IP_PROTO_ICMP host_a waiting1 waiting2 four_bytes
    eq_refl ltac:(by vm_compute) ltac:(discriminate) four_bytes_window ltac:(by vm_compute) ltac:(by vm_compute)
    ltac:(by vm_compute) ltac:(by vm_compute) E1 E2) as (s1 & s2 & H1 & H2 & _).
  exists s1, s2. split; [exact H1|exact H2].
Defined.
