(* ===== verification/IpText.v ===== *)
(** * IPv4 addresses as text (net/arp: make_ip, ip_octet, ip_to_string, string_to_ip)

    A string is the list of its characters before the terminating NUL. *)
From S2P Require Import Prelude Memory Ring Netbuf Net Checksum Packets.

Definition CHAR_0 : Z := 48.
Definition CHAR_9 : Z := 57.
Definition CHAR_DOT : Z := 46.

Definition make_ip (a b c d : Z) : Z :=
  Z.lor (Z.lor (Z.lor (u32 (Z.shiftl a 24)) (u32 (Z.shiftl b 16))) (u32 (Z.shiftl c 8))) d.
Definition ip_octet (ip n : Z) : Z := Z.land (Z.shiftr ip (24 - n * 8)) 0xFF.

(** The digits of one octet. *)
Definition octet_chars (val : Z) : list Z :=
  if 100 <=? val then
    [CHAR_0 + val / 100; CHAR_0 + val mod 100 / 10; CHAR_0 + val mod 100 mod 10]
  else if 10 <=? val then [CHAR_0 + val / 10; CHAR_0 + val mod 10]
  else [CHAR_0 + val].
Definition ip_to_string (ip : Z) : list Z :=
  octet_chars (ip_octet ip 0) ++ [CHAR_DOT] ++ octet_chars (ip_octet ip 1) ++ [CHAR_DOT] ++
  octet_chars (ip_octet ip 2) ++ [CHAR_DOT] ++ octet_chars (ip_octet ip 3).

(** The loop over the characters; the end of the list is the NUL. *)
Fixpoint parse_ip (s : list Z) (ip octet octets : Z) : option Z :=
  match s with
  | [] =>
      let ip := Z.lor (u32 (Z.shiftl ip 8)) octet in
      if octets + 1 =? 4 then Some ip else None
  | c :: s' =>
      if (CHAR_0 <=? c) && (c <=? CHAR_9) then
        let octet := octet * 10 + (c - CHAR_0) in
        if 255 <? octet then None else parse_ip s' ip octet octets
      else if c =? CHAR_DOT then
        let ip := Z.lor (u32 (Z.shiftl ip 8)) octet in
        if 4 <=? octets + 1 then None else parse_ip s' ip 0 (octets + 1)
      else None
  end.
Definition string_to_ip (s : list Z) : option Z := parse_ip s 0 0 0.

(** ** Octets *)

Definition digit (c : Z) : Prop := CHAR_0 <= c <= CHAR_9.
(** The number a run of digits stands for, continuing from [acc]. *)
Definition number (acc : Z) (g : list Z) : Z := fold_left (fun a c => a * 10 + (c - CHAR_0)) g acc.

Lemma number_le acc g : Forall digit g -> 0 <= acc -> acc <= number acc g.
Proof.
  revert acc. induction g as [|c g IH]; intros acc Hg Ha; [by cbn|].
  apply Forall_cons in Hg as [Hc Hg]. unfold digit, CHAR_0, CHAR_9 in Hc.
  assert (0 <= acc * 10 + (c - CHAR_0)) as H0 by (unfold CHAR_0; lia). specialize (IH _ Hg H0).
  cbn [number fold_left]. fold (number (acc * 10 + (c - CHAR_0)) g). unfold CHAR_0 in *. lia.
Qed.

(** A run of digits is accepted exactly when its number fits in an octet. *)
Lemma parse_digits g s ip octet octets : Forall digit g -> 0 <= octet <= 255 ->
  parse_ip (g ++ s) ip octet octets =
  if number octet g <=? 255 then parse_ip s ip (number octet g) octets else None.
Proof.
  revert octet. induction g as [|c g IH]; intros octet Hg Ho.
  - cbn [app number fold_left]. by rewrite (proj2 (Z.leb_le _ _)) by lia.
  - apply Forall_cons in Hg as [Hc Hg]. cbn [app parse_ip]. unfold digit in Hc.
    rewrite (proj2 (Z.leb_le _ _)), (proj2 (Z.leb_le c _)) by lia. cbn [andb].
    change (number octet (c :: g)) with (number (octet * 10 + (c - CHAR_0)) g). unfold CHAR_0, CHAR_9 in *.
    destruct (255 <? octet * 10 + (c - 48)) eqn:E; zbool.
    + pose proof (number_le (octet * 10 + (c - 48)) g Hg). rewrite (proj2 (Z.leb_gt _ _)) by lia. done.
    + apply IH; [done|lia].
Qed.

Lemma octet_chars_ok v : 0 <= v <= 255 -> Forall digit (octet_chars v) /\ number 0 (octet_chars v) = v.
Proof.
  intros Hv. unfold octet_chars, digit, CHAR_0, CHAR_9.
  repeat case_if; (split; [repeat (apply Forall_cons; split); try apply Forall_nil; dlia|]);
    cbn [number fold_left]; unfold CHAR_0; dlia.
Qed.

Lemma ip_octet_val ip n : 0 <= n < 4 -> ip_octet ip n = ip / 2 ^ (24 - n * 8) mod 256.
Proof. intros Hn. unfold ip_octet. by rewrite land_ff, Z.shiftr_div_pow2 by lia. Qed.
Lemma ip_octet_byte ip n : 0 <= n < 4 -> 0 <= ip_octet ip n <= 255.
Proof. intros Hn. rewrite ip_octet_val by done. pose proof (Z.mod_pos_bound (ip / 2 ^ (24 - n * 8)) 256). lia. Qed.

Lemma append_octet ip o : 0 <= ip < 2 ^ 24 -> 0 <= o <= 255 -> Z.lor (u32 (Z.shiftl ip 8)) o = ip * 256 + o.
Proof.
  intros Hi Ho. rewrite Z.shiftl_mul_pow2, u32_id by lia. change (2 ^ 8) with (2 ^ 8). by rewrite lor_fields by lia.
Qed.
Lemma make_ip_val a b c d : is_byte a -> is_byte b -> is_byte c -> is_byte d ->
  make_ip a b c d = word_of a b c d.
Proof.
  unfold is_byte, make_ip, word_of. intros Ha Hb Hc Hd. rewrite !Z.shiftl_mul_pow2, !u32_id by lia.
  rewrite (lor_fields a (b * 2 ^ 16) 24) by lia.
  replace (a * 2 ^ 24 + b * 2 ^ 16) with ((a * 256 + b) * 2 ^ 16) by lia. rewrite lor_fields by lia.
  replace ((a * 256 + b) * 2 ^ 16 + c * 2 ^ 8) with (((a * 256 + b) * 256 + c) * 2 ^ 8) by lia.
  rewrite lor_fields by lia. lia.
Qed.

(** ** What is accepted *)

(** Four groups of digits, none worth more than 255, with dots between them. An empty
    group stands for 0. *)
Definition dotted (g1 g2 g3 g4 : list Z) : list Z :=
  g1 ++ [CHAR_DOT] ++ g2 ++ [CHAR_DOT] ++ g3 ++ [CHAR_DOT] ++ g4.
Definition group (g : list Z) (v : Z) : Prop := Forall digit g /\ v = number 0 g /\ v <= 255.

Lemma group_range g v : group g v -> 0 <= v <= 255.
Proof. intros (Hg & -> & Hv). pose proof (number_le 0 g Hg). lia. Qed.

Lemma parse_group g v s ip octets : group g v -> parse_ip (g ++ s) ip 0 octets = parse_ip s ip v octets.
Proof. intros (Hg & -> & Hv). rewrite parse_digits by (done || lia). by rewrite (proj2 (Z.leb_le _ _)). Qed.
Lemma parse_dot s ip o octets : octets < 3 ->
  parse_ip ([CHAR_DOT] ++ s) ip o octets = parse_ip s (Z.lor (u32 (Z.shiftl ip 8)) o) 0 (octets + 1).
Proof. intros Ho. cbn [app parse_ip]. change ((CHAR_0 <=? CHAR_DOT) && (CHAR_DOT <=? CHAR_9)) with false.
  rewrite Z.eqb_refl. by rewrite (proj2 (Z.leb_gt _ _)) by lia.
Qed.

Lemma parse_dotted g1 g2 g3 g4 a b c d : group g1 a -> group g2 b -> group g3 c -> group g4 d ->
  string_to_ip (dotted g1 g2 g3 g4) = Some (make_ip a b c d).
Proof.
  intros H1 H2 H3 H4. unfold string_to_ip, dotted.
  pose proof (group_range _ _ H1). pose proof (group_range _ _ H2). pose proof (group_range _ _ H3).
  pose proof (group_range _ _ H4). rewrite (parse_group g1 a), parse_dot by (done || lia).
  rewrite (parse_group g2 b), parse_dot by (done || lia). rewrite (parse_group g3 c), parse_dot by (done || lia).
  rewrite <- (app_nil_r g4), (parse_group g4 d) by done. cbn [parse_ip]. rewrite (append_octet 0 a), (append_octet _ b), (append_octet _ c), (append_octet _ d) by lia.
  rewrite make_ip_val by (unfold is_byte; lia). reflexivity.
Qed.

(** Every accepted text is a group, then nothing or a dot and an accepted text. *)
Lemma parse_inv s ip o k r : 0 <= o <= 255 -> parse_ip s ip o k = Some r ->
  exists g s', Forall digit g /\ number o g <= 255 /\
    ((s = g /\ k = 3 /\ r = Z.lor (u32 (Z.shiftl ip 8)) (number o g)) \/
     (s = g ++ [CHAR_DOT] ++ s' /\ k < 3 /\ parse_ip s' (Z.lor (u32 (Z.shiftl ip 8)) (number o g)) 0 (k + 1) = Some r)).
Proof.
  revert o. induction s as [|c s IH]; intros o Ho; cbn [parse_ip].
  - case_if; [|done]. intros [= <-]. exists [], []. split; [done|]. cbn [number fold_left].
    split; [lia|]. left. split; [done|]. split; [lia|done].
  - destruct ((CHAR_0 <=? c) && (c <=? CHAR_9)) eqn:Ed; zbool.
    + destruct (255 <? o * 10 + (c - CHAR_0)) eqn:Eo; zbool; [done|].
      intros Hp. apply IH in Hp as (g & s' & Hg & Hn & Hr); [|unfold CHAR_0 in *; lia].
      exists (c :: g), s'. split; [by apply Forall_cons|]. split; [done|].
      destruct Hr as [(-> & Hk & ->)|(-> & Hk & Hp)]; [by left|by right].
    + destruct (c =? CHAR_DOT) eqn:Ec; zbool; [|done]. subst c.
      destruct (4 <=? k + 1) eqn:Ek; zbool; [done|]. intros Hp. exists [], s. split; [done|]. cbn [number fold_left].
      split; [lia|]. right. split; [done|]. split; [lia|done].
Qed.

(** string_to_ip accepts exactly the texts of four dot-separated groups of digits,
    each worth at most 255 (an empty group counts as 0), and gives the address with
    those octets. *)
Theorem string_to_ip_spec s ip :
  string_to_ip s = Some ip <->
  exists g1 g2 g3 g4 a b c d, group g1 a /\ group g2 b /\ group g3 c /\ group g4 d /\
    s = dotted g1 g2 g3 g4 /\ ip = make_ip a b c d.
Proof.
  split.
  - intros H. assert (exists g1 g2 g3 g4 a b c d, group g1 a /\ group g2 b /\ group g3 c /\ group g4 d /\
      s = dotted g1 g2 g3 g4) as (g1 & g2 & g3 & g4 & a & b & c & d & H1 & H2 & H3 & H4 & ->).
    { unfold string_to_ip in H. apply parse_inv in H as (g1 & s1 & D1 & N1 & [(_ & Hk & _)|(-> & _ & H)]); [lia| |lia].
      apply parse_inv in H as (g2 & s2 & D2 & N2 & [(_ & Hk & _)|(-> & _ & H)]); [lia| |lia].
      apply parse_inv in H as (g3 & s3 & D3 & N3 & [(_ & Hk & _)|(-> & _ & H)]); [lia| |lia].
      apply parse_inv in H as (g4 & s4 & D4 & N4 & [(-> & _ & _)|(_ & Hk & _)]); [|lia|lia].
      exists g1, g2, g3, g4, (number 0 g1), (number 0 g2), (number 0 g3), (number 0 g4). do 4 (split; [by split|]). reflexivity. }
    exists g1, g2, g3, g4, a, b, c, d. do 5 (split; [done|]).
    rewrite (parse_dotted g1 g2 g3 g4 a b c d) in H by done. by injection H.
  - intros (g1 & g2 & g3 & g4 & a & b & c & d & H1 & H2 & H3 & H4 & -> & ->). by apply parse_dotted.
Qed.

(** an address printed by ip_to_string is read back by string_to_ip, whatever the
    address. *)
Theorem ip_text_roundtrip ip : 0 <= ip < 2 ^ 32 -> string_to_ip (ip_to_string ip) = Some ip.
Proof.
  intros Hi. assert (forall n, 0 <= n < 4 -> group (octet_chars (ip_octet ip n)) (ip_octet ip n)) as Hg.
  { intros n Hn. pose proof (ip_octet_byte ip n Hn) as Hb. destruct (octet_chars_ok _ Hb) as [Hd Hv].
    split; [done|]. split; [done|lia]. }
  change (ip_to_string ip) with (dotted (octet_chars (ip_octet ip 0)) (octet_chars (ip_octet ip 1))
    (octet_chars (ip_octet ip 2)) (octet_chars (ip_octet ip 3))).
  rewrite (parse_dotted _ _ _ _ (ip_octet ip 0) (ip_octet ip 1) (ip_octet ip 2) (ip_octet ip 3)) by (apply Hg; lia).
  f_equal. assert (forall n, 0 <= n < 4 -> is_byte (ip_octet ip n)) as Hb.
  { intros n Hn. pose proof (ip_octet_byte ip n Hn). unfold is_byte. lia. }
  rewrite make_ip_val by (apply Hb; lia). rewrite !ip_octet_val by lia.
  unfold word_of. change (24 - 0 * 8) with 24. change (24 - 1 * 8) with 16. change (24 - 2 * 8) with 8.
  change (2 ^ (24 - 3 * 8)) with 1. dlia.
Qed.

Lemma ip_text_roundtrip_witness : string_to_ip (ip_to_string 0xC0A80103) = Some 0xC0A80103.
Proof. apply (ip_text_roundtrip 0xC0A80103). by vm_compute. Defined.
