(* ===== verification/Acl.v ===== *)
(** * Access control (security/acl/acl.c, acl.h)

    Unix-style permissions of a file node: the access check, chmod and chown, and the
    conversions between the numeric mode, the structure of bits and the text. *)
From S2P Require Import Prelude.

Definition ACL_READ : Z := 0x4.
Definition ACL_WRITE : Z := 0x2.
Definition ACL_EXEC : Z := 0x1.
Definition ACL_OWNER_SHIFT : Z := 6.
Definition ACL_GROUP_SHIFT : Z := 3.
Definition ACL_OTHER_SHIFT : Z := 0.
Definition ACL_SETUID : Z := 0x800.
Definition ACL_SETGID : Z := 0x400.
Definition ACL_STICKY : Z := 0x200.
Definition ACL_S_IRUSR : Z := Z.shiftl ACL_READ ACL_OWNER_SHIFT.
Definition ACL_S_IWUSR : Z := Z.shiftl ACL_WRITE ACL_OWNER_SHIFT.
Definition ACL_S_IXUSR : Z := Z.shiftl ACL_EXEC ACL_OWNER_SHIFT.
Definition ACL_S_IRGRP : Z := Z.shiftl ACL_READ ACL_GROUP_SHIFT.
Definition ACL_S_IWGRP : Z := Z.shiftl ACL_WRITE ACL_GROUP_SHIFT.
Definition ACL_S_IXGRP : Z := Z.shiftl ACL_EXEC ACL_GROUP_SHIFT.
Definition ACL_S_IROTH : Z := Z.shiftl ACL_READ ACL_OTHER_SHIFT.
Definition ACL_S_IWOTH : Z := Z.shiftl ACL_WRITE ACL_OTHER_SHIFT.
Definition ACL_S_IXOTH : Z := Z.shiftl ACL_EXEC ACL_OTHER_SHIFT.
Definition ACL_ROOT_UID : Z := 0.
Definition ACL_OK : Z := 0.
Definition ACL_ERR_DENIED : Z := -1.
Definition ACL_ERR_INVAL : Z := -2.

(** The fields of a VFS node that access control reads and writes. *)
Record vfs_node := mk_node {
  permissions : Z;
  node_uid : Z;
  node_gid : Z;
  dirty : bool;
}.

Record file_perm := mk_perm {
  owner_r : bool; owner_w : bool; owner_x : bool;
  group_r : bool; group_w : bool; group_x : bool;
  other_r : bool; other_w : bool; other_x : bool;
  perm_setuid : bool; perm_setgid : bool; perm_sticky : bool;
}.
Record file_acl := mk_acl { owner_uid : Z; owner_gid : Z; acl_permissions : file_perm }.

(** ** Operations *)

Definition acl_extract_perms (mode shift : Z) : Z := Z.land (Z.shiftr mode shift) 0x7.
Definition acl_perms_allow (perms access : Z) : bool := Z.land perms access =? access.

(** [node] is [None] for NULL. *)
Definition acl_check_access (node : option vfs_node) (uid gid access : Z) : Z :=
  match node with
  | None => ACL_ERR_INVAL
  | Some f =>
      if negb (Z.land access (Z.lnot (Z.lor (Z.lor ACL_READ ACL_WRITE) ACL_EXEC)) =? 0) then ACL_ERR_INVAL
      else if uid =? ACL_ROOT_UID then ACL_OK
      else
        let mode := permissions f in
        let perms := if uid =? node_uid f then acl_extract_perms mode ACL_OWNER_SHIFT
                     else if gid =? node_gid f then acl_extract_perms mode ACL_GROUP_SHIFT
                     else acl_extract_perms mode ACL_OTHER_SHIFT in
        if acl_perms_allow perms access then ACL_OK else ACL_ERR_DENIED
  end.

Definition acl_get_permissions (node : option vfs_node) : Z :=
  match node with None => 0 | Some f => u16 (Z.land (permissions f) 0xFFF) end.
Definition acl_set_permissions (node : option vfs_node) (mode : Z) : option vfs_node * Z :=
  match node with
  | None => (None, ACL_ERR_INVAL)
  | Some f =>
      let valid_mode := Z.land mode 0xFFF in
      (Some (mk_node (Z.lor (Z.land (permissions f) (u32 (Z.lnot 0xFFF))) valid_mode) (node_uid f) (node_gid f) true), ACL_OK)
  end.
Definition acl_set_owner (node : option vfs_node) (uid gid : Z) : option vfs_node * Z :=
  match node with
  | None => (None, ACL_ERR_INVAL)
  | Some f => (Some (mk_node (Z.land (permissions f) (u32 (Z.lnot (Z.lor ACL_SETUID ACL_SETGID)))) uid gid true), ACL_OK)
  end.

Definition acl_can_read (node : option vfs_node) (uid gid : Z) : bool := acl_check_access node uid gid ACL_READ =? ACL_OK.
Definition acl_can_write (node : option vfs_node) (uid gid : Z) : bool := acl_check_access node uid gid ACL_WRITE =? ACL_OK.
Definition acl_can_exec (node : option vfs_node) (uid gid : Z) : bool := acl_check_access node uid gid ACL_EXEC =? ACL_OK.

(** [(mode & flag) ? 1 : 0] *)
Definition has_flag (mode flag : Z) : bool := negb (Z.land mode flag =? 0).

Definition acl_mode_to_perm (mode : Z) : file_perm :=
  mk_perm (has_flag mode ACL_S_IRUSR) (has_flag mode ACL_S_IWUSR) (has_flag mode ACL_S_IXUSR)
    (has_flag mode ACL_S_IRGRP) (has_flag mode ACL_S_IWGRP) (has_flag mode ACL_S_IXGRP)
    (has_flag mode ACL_S_IROTH) (has_flag mode ACL_S_IWOTH) (has_flag mode ACL_S_IXOTH)
    (has_flag mode ACL_SETUID) (has_flag mode ACL_SETGID) (has_flag mode ACL_STICKY).

(** [if (b) mode |= flag;] *)
Definition or_flag (b : bool) (flag mode : Z) : Z := if b then Z.lor mode flag else mode.
Definition acl_perm_to_mode (p : file_perm) : Z :=
  let mode := 0 in
  let mode := or_flag (owner_r p) ACL_S_IRUSR mode in
  let mode := or_flag (owner_w p) ACL_S_IWUSR mode in
  let mode := or_flag (owner_x p) ACL_S_IXUSR mode in
  let mode := or_flag (group_r p) ACL_S_IRGRP mode in
  let mode := or_flag (group_w p) ACL_S_IWGRP mode in
  let mode := or_flag (group_x p) ACL_S_IXGRP mode in
  let mode := or_flag (other_r p) ACL_S_IROTH mode in
  let mode := or_flag (other_w p) ACL_S_IWOTH mode in
  let mode := or_flag (other_x p) ACL_S_IXOTH mode in
  let mode := or_flag (perm_setuid p) ACL_SETUID mode in
  let mode := or_flag (perm_setgid p) ACL_SETGID mode in
  or_flag (perm_sticky p) ACL_STICKY mode.

Definition acl_create (uid gid mode : Z) : file_acl := mk_acl uid gid (acl_mode_to_perm mode).

Definition char_r : Z := 114.
Definition char_w : Z := 119.
Definition char_x : Z := 120.
Definition char_s : Z := 115.
Definition char_S : Z := 83.
Definition char_t : Z := 116.
Definition char_T : Z := 84.
Definition char_dash : Z := 45.
(** The third character of a class: execute, or the special bit that shares its place. *)
Definition exec_char (special exec : bool) (lower upper : Z) : Z :=
  if special then (if exec then lower else upper) else (if exec then char_x else char_dash).
(** The nine characters before the NUL. *)
Definition acl_mode_to_string (mode : Z) : list Z :=
  let flag f c := if has_flag mode f then c else char_dash in
  [flag ACL_S_IRUSR char_r; flag ACL_S_IWUSR char_w; exec_char (has_flag mode ACL_SETUID) (has_flag mode ACL_S_IXUSR) char_s char_S;
   flag ACL_S_IRGRP char_r; flag ACL_S_IWGRP char_w; exec_char (has_flag mode ACL_SETGID) (has_flag mode ACL_S_IXGRP) char_s char_S;
   flag ACL_S_IROTH char_r; flag ACL_S_IWOTH char_w; exec_char (has_flag mode ACL_STICKY) (has_flag mode ACL_S_IXOTH) char_t char_T].

Definition node_flag (node : option vfs_node) (flag : Z) : bool :=
  match node with None => false | Some f => has_flag (permissions f) flag end.
Definition acl_has_setuid (node : option vfs_node) : bool := node_flag node ACL_SETUID.
Definition acl_has_setgid (node : option vfs_node) : bool := node_flag node ACL_SETGID.
Definition acl_has_sticky (node : option vfs_node) : bool := node_flag node ACL_STICKY.

(** ** The access decision *)

Inductive class := Owner | Group | Other.
Inductive right := Read | Write | Exec.

(** The class a user belongs to: the first of owner, group and other that fits. *)
Definition class_of (f : vfs_node) (uid gid : Z) : class :=
  if uid =? node_uid f then Owner else if gid =? node_gid f then Group else Other.
Definition right_bit (r : right) : Z := match r with Read => 2 | Write => 1 | Exec => 0 end.
Definition class_shift (c : class) : Z := match c with Owner => 6 | Group => 3 | Other => 0 end.
(** The file grants a right to a class. *)
Definition grants (f : vfs_node) (c : class) (r : right) : bool := Z.testbit (permissions f) (class_shift c + right_bit r).
(** The rights named by an access word. *)
Definition asks (access : Z) (r : right) : bool := Z.testbit access (right_bit r).

Lemma access_word access : Z.land access (Z.lnot 7) = 0 <-> 0 <= access < 8.
Proof.
  rewrite <- Z.ldiff_land. change 7 with (Z.ones 3). rewrite Z.ldiff_ones_r by lia.
  rewrite Z.shiftl_mul_pow2, Z.shiftr_div_pow2 by lia. dlia.
Qed.

Lemma right_of_bit k : 0 <= k < 3 -> exists r, k = right_bit r.
Proof.
  intros Hk. assert (k = 0 \/ k = 1 \/ k = 2) as [->|[->| ->]] by lia; [by exists Exec|by exists Write|by exists Read].
Qed.
Lemma right_bit_range r : 0 <= right_bit r < 3.
Proof. destruct r; simpl; lia. Qed.

Lemma perms_allow_spec mode c access : 0 <= access < 8 ->
  acl_perms_allow (acl_extract_perms mode (class_shift c)) access = true <->
  (forall r, asks access r = true -> Z.testbit mode (class_shift c + right_bit r) = true).
Proof.
  intros Ha. assert (0 <= class_shift c) as Hc by (destruct c; simpl; lia).
  assert (forall k, 0 <= k < 3 -> Z.testbit (acl_extract_perms mode (class_shift c)) k = Z.testbit mode (class_shift c + k)) as Hx.
  { intros k Hk. unfold acl_extract_perms. rewrite Z.land_spec, Z.shiftr_spec by lia. change 0x7 with (Z.ones 3).
    rewrite Z.ones_spec_low, andb_true_r by lia. f_equal. lia. }
  unfold acl_perms_allow, asks. rewrite Z.eqb_eq. split.
  - intros He r Hr. pose proof (right_bit_range r). rewrite <- Hx by done. rewrite <- He, Z.land_spec in Hr.
    by apply andb_true_iff in Hr as [? _].
  - intros H. bitwise. rewrite Z.land_spec. destruct (Z.testbit access k) eqn:E; [|by rewrite andb_false_r].
    rewrite andb_true_r. destruct (Z.lt_ge_cases k 3) as [Hl|Hl].
    + destruct (right_of_bit k) as [r ->]; [lia|]. rewrite Hx by lia. by apply H.
    + rewrite <- (Z.mod_small access (2 ^ 3)), Z.mod_pow2_bits_high in E by lia. done.
Qed.

Definition is_null (node : option vfs_node) : bool := match node with None => true | Some _ => false end.

(** the access check succeeds exactly when the request names known rights and the
    user is root or every right asked for is granted to the user's class, the owner's
    class taking precedence over the group's and that over the others'; a malformed
    request or a missing node gives ACL_ERR_INVAL, a refusal ACL_ERR_DENIED. *)
Theorem acl_check_access_spec node uid gid access :
  acl_check_access node uid gid access =
    (if is_null node || negb ((0 <=? access) && (access <? 8)) then ACL_ERR_INVAL
     else if acl_check_access node uid gid access =? ACL_OK then ACL_OK else ACL_ERR_DENIED) /\
  (acl_check_access node uid gid access = ACL_OK <->
   exists f, node = Some f /\ 0 <= access < 8 /\
     (uid = ACL_ROOT_UID \/ forall r, asks access r = true -> grants f (class_of f uid gid) r = true)).
Proof.
  destruct node as [f|]; simpl; [|split; [done|]; split; [done|by intros (f & ? & _)]].
  destruct (Z.land access (Z.lnot (Z.lor (Z.lor ACL_READ ACL_WRITE) ACL_EXEC)) =? 0) eqn:E0; zbool; cbn [negb].
  - apply (access_word access) in E0. replace ((0 <=? access) && (access <? 8)) with true by lia. cbn [negb orb].
    destruct (uid =? ACL_ROOT_UID) eqn:Er; zbool.
    { split; [done|]. split; [intros _; exists f; by auto|done]. }
    set (p := if uid =? node_uid f then _ else _).
    assert (p = acl_extract_perms (permissions f) (class_shift (class_of f uid gid))) as ->.
    { unfold p, class_of. by repeat case_if. }
    pose proof (perms_allow_spec (permissions f) (class_of f uid gid) access E0) as Hs.
    destruct (acl_perms_allow _ _); (split; [done|]).
    + split; [|done]. intros _. exists f. split; [done|]. split; [done|]. right. by apply Hs.
    + split; [done|]. intros (f' & [= <-] & _ & [->|H]); [by destruct Er|].
      discriminate (proj2 Hs H).
  - assert (~ 0 <= access < 8) as Hn by (rewrite <- access_word; exact E0).
    replace ((0 <=? access) && (access <? 8)) with false by lia. split; [done|].
    split; [done|]. intros (f' & _ & Ha & _). done.
Qed.

(** ** Modes *)

Lemma has_flag_pow2 mode k : 0 <= k -> has_flag mode (2 ^ k) = Z.testbit mode k.
Proof. intros Hk. unfold has_flag. rewrite <- Z.shiftl_1_l, land_pow2_testbit, negb_involutive by done. done. Qed.

(** The bits of a mode from the structure. *)
Definition perm_bits (p : file_perm) : list bool :=
  [other_x p; other_w p; other_r p; group_x p; group_w p; group_r p; owner_x p; owner_w p; owner_r p;
   perm_sticky p; perm_setgid p; perm_setuid p].

Lemma perm_to_mode_bits p k : 0 <= k -> Z.testbit (acl_perm_to_mode p) k = nth (Z.to_nat k) (perm_bits p) false.
Proof.
  intros Hk. destruct (Z.lt_ge_cases k 12) as [Hl|Hl].
  - assert (exists i, (i < 12)%nat /\ k = Z.of_nat i) as (i & Hi & ->) by (exists (Z.to_nat k); lia).
    rewrite Nat2Z.id. destruct p as [[] [] [] [] [] [] [] [] [] [] [] []];
      do 12 (destruct i as [|i]; [reflexivity|]); lia.
  - assert (0 <= acl_perm_to_mode p < 2 ^ 12) as Hr.
    { destruct p as [[] [] [] [] [] [] [] [] [] [] [] []]; by vm_compute. }
    rewrite <- (Z.mod_small (acl_perm_to_mode p) (2 ^ 12)) by done. rewrite Z.mod_pow2_bits_high by lia.
    rewrite nth_overflow; [done|]. simpl. lia.
Qed.

Lemma mode_perm_mode mode : acl_perm_to_mode (acl_mode_to_perm mode) = mode mod 2 ^ 12.
Proof.
  bitwise. rewrite perm_to_mode_bits, testbit_wrap by lia. unfold perm_bits, acl_mode_to_perm. cbn [owner_r owner_w owner_x
    group_r group_w group_x other_r other_w other_x perm_setuid perm_setgid perm_sticky].
  destruct (Z.ltb_spec k 12).
  - assert (exists i, (i < 12)%nat /\ k = Z.of_nat i) as (i & Hi & ->) by (exists (Z.to_nat k); lia). rewrite Nat2Z.id.
    cbn [andb]. do 12 (destruct i as [|i]; [exact (has_flag_pow2 mode _ Hk)|]). lia.
  - rewrite nth_overflow by (simpl; lia). done.
Qed.

(** converting a mode to the structure of bits and back gives the mode's twelve
    permission bits, and converting a structure to a mode and back gives the structure. *)
Theorem acl_mode_roundtrip mode p :
  acl_perm_to_mode (acl_mode_to_perm mode) = mode mod 2 ^ 12 /\ acl_mode_to_perm (acl_perm_to_mode p) = p.
Proof.
  split; [apply mode_perm_mode|]. by destruct p as [[] [] [] [] [] [] [] [] [] [] [] []].
Qed.

(** ** Changing modes and owners *)

Lemma set_permissions_bits f mode k : 0 <= k -> 0 <= permissions f < 2 ^ 32 ->
  Z.testbit (Z.lor (Z.land (permissions f) (u32 (Z.lnot 0xFFF))) (Z.land mode 0xFFF)) k =
  if k <? 12 then Z.testbit mode k else Z.testbit (permissions f) k.
Proof.
  intros Hk Hp. unfold u32. change 0xFFF with (Z.ones 12).
  rewrite Z.lor_spec, !Z.land_spec, testbit_wrap, Z.lnot_spec by lia.
  destruct (Z.ltb_spec k 12).
  - rewrite Z.ones_spec_low by lia. by rewrite !andb_false_r, andb_true_r.
  - rewrite Z.ones_spec_high by lia. rewrite andb_false_r, orb_false_r. cbn [negb]. rewrite andb_true_r.
    destruct (Z.ltb_spec k 32); [by rewrite andb_true_r|].
    rewrite <- (Z.mod_small (permissions f) (2 ^ 32)) by done. by rewrite Z.mod_pow2_bits_high.
Qed.

(** chmod sets the twelve permission bits to those of the mode, so that they are
    read back, and keeps every other bit of the node; chown sets the owner and clears
    exactly the setuid and setgid bits; both mark the node as changed. *)
Theorem acl_changes f mode uid gid : 0 <= permissions f < 2 ^ 32 ->
  (exists f', acl_set_permissions (Some f) mode = (Some f', ACL_OK) /\ dirty f' = true /\
     node_uid f' = node_uid f /\ node_gid f' = node_gid f /\
     acl_get_permissions (Some f') = mode mod 2 ^ 12 /\ permissions f' / 2 ^ 12 = permissions f / 2 ^ 12) /\
  (exists f', acl_set_owner (Some f) uid gid = (Some f', ACL_OK) /\ dirty f' = true /\
     node_uid f' = uid /\ node_gid f' = gid /\ acl_has_setuid (Some f') = false /\ acl_has_setgid (Some f') = false /\
     forall k, 0 <= k -> k <> 10 -> k <> 11 -> Z.testbit (permissions f') k = Z.testbit (permissions f) k).
Proof.
  intros Hp. split; eexists; (split; [reflexivity|]); do 3 (split; [done|]); cbn [permissions].
  - unfold acl_get_permissions. cbn [permissions]. split; bitwise.
    + unfold u16. rewrite testbit_wrap, Z.land_spec, set_permissions_bits, testbit_wrap by (done || lia).
      change 0xFFF with (Z.ones 12). destruct (Z.ltb_spec k 12).
      * rewrite Z.ones_spec_low by lia. replace (k <? 16) with true by lia. by rewrite andb_true_r.
      * rewrite Z.ones_spec_high by lia. by rewrite !andb_false_r.
    + rewrite <- !Z.shiftr_div_pow2, !Z.shiftr_spec, set_permissions_bits by (done || lia).
      by replace (k + 12 <? 12) with false by lia.
  - unfold acl_has_setuid, acl_has_setgid, node_flag. cbn [permissions].
    assert (forall k, 0 <= k -> Z.testbit (Z.land (permissions f) (u32 (Z.lnot (Z.lor ACL_SETUID ACL_SETGID)))) k =
      Z.testbit (permissions f) k && negb (Z.testbit 0xC00 k)) as Hk.
    { intros k Hk. unfold u32. rewrite Z.land_spec, testbit_wrap, Z.lnot_spec by lia.
      change (Z.lor ACL_SETUID ACL_SETGID) with 0xC00. destruct (Z.ltb_spec k 32); [done|].
      rewrite <- (Z.mod_small (permissions f) (2 ^ 32)) by done. by rewrite Z.mod_pow2_bits_high. }
    split; [|split].
    + rewrite (has_flag_pow2 _ 11), Hk by lia. apply andb_false_r.
    + rewrite (has_flag_pow2 _ 10), Hk by lia. apply andb_false_r.
    + intros k H0 H10 H11. rewrite Hk by done. replace (Z.testbit 0xC00 k) with false; [by rewrite andb_true_r|].
      symmetry. destruct (Z.lt_ge_cases k 10).
      * change 0xC00 with (3 * 2 ^ 10). by apply Z.mul_pow2_bits_low.
      * apply Z.bits_above_log2; [done|]. change (Z.log2 0xC00) with 11. lia.
Qed.

Lemma acl_changes_witness : exists f', acl_set_permissions (Some (mk_node 0x81FF 5 5 false)) 0x1A4 = (Some f', ACL_OK) /\
  acl_get_permissions (Some f') = 0x1A4.
Proof.
  destruct (acl_changes (mk_node 0x81FF 5 5 false) 0x1A4 0 0 ltac:(by vm_compute)) as [(f' & H1 & _ & _ & _ & H2 & _) _].
  exists f'. split; [exact H1|exact H2].
Defined.

(** ** Text *)

(** the nine characters determine the mode: two modes with the same text have the
    same twelve permission bits. *)
Theorem acl_mode_text_faithful m1 m2 : acl_mode_to_string m1 = acl_mode_to_string m2 -> m1 mod 2 ^ 12 = m2 mod 2 ^ 12.
Proof.
  intros H. rewrite <- !mode_perm_mode. f_equal.
  unfold acl_mode_to_string, exec_char in H. unfold acl_mode_to_perm. injection H as H0 H1 H2 H3 H4 H5 H6 H7 H8.
  repeat match goal with
  | Hx : (if ?b then _ else char_dash) = (if ?c then _ else char_dash) |- _ =>
      assert (b = c) by (destruct b, c; done); clear Hx
  end.
  repeat match goal with
  | Hx : (if ?a then if ?b then _ else _ else if ?b then _ else _) = (if ?c then if ?d then _ else _ else if ?d then _ else _) |- _ =>
      assert (a = c /\ b = d) as [? ?] by (destruct a, b, c, d; done); clear Hx
  end.
  congruence.
Qed.
