(* ===== verification/Random.v ===== *)
(** * The random number generator (security/crypto/random.c)

    xorshift128+ seeded by splitmix64. The state never becomes zero, a byte request
    takes the generator's words in order, and the range function returns values of the
    range only and favours none of them. *)
From S2P Require Import Prelude.

Record prng_state := mk_prng { s_0 : Z; s_1 : Z }.
Record prng := mk_rng { state : prng_state; prng_initialized : bool }.

Definition default_state : prng_state := mk_prng 0x0123456789abcdef 0xfedcba9876543210.
(** The static initialiser. *)
Definition initial_prng : prng := mk_rng default_state false.

(** [s1 ^= s1 << 23; s1 ^= s1 >> 17; s1 ^= s0 ^ (s0 >> 26);] *)
Definition next_s1 (s0 s1 : Z) : Z :=
  let s1 := Z.lxor s1 (u64 (Z.shiftl s1 23)) in
  let s1 := Z.lxor s1 (Z.shiftr s1 17) in
  Z.lxor s1 (Z.lxor s0 (Z.shiftr s0 26)).
Definition xorshift128plus (g : prng) : prng * Z :=
  let s0 := s_0 (state g) in
  let s1 := s_1 (state g) in
  (mk_rng (mk_prng s1 (next_s1 s0 s1)) (prng_initialized g), u64 (s0 + s1)).

(** The new value of [*x] and the result. *)
Definition splitmix64 (x : Z) : Z * Z :=
  let x := u64 (x + 0x9e3779b97f4a7c15) in
  let z := u64 (Z.lxor x (Z.shiftr x 30) * 0xbf58476d1ce4e5b9) in
  let z := u64 (Z.lxor z (Z.shiftr z 27) * 0x94d049bb133111eb) in
  (x, Z.lxor z (Z.shiftr z 31)).

Definition random_init (seed : Z) (g : prng) : prng :=
  let '(seed, a) := splitmix64 seed in
  let '(seed, b) := splitmix64 seed in
  let st := if (a =? 0) && (b =? 0) then default_state else mk_prng a b in
  for_range 0 16 (fun _ g => fst (xorshift128plus g)) (mk_rng st true).

(** [ticks] and [uptime] are what the timer driver returns. *)
Definition random_seed_from_time (ticks uptime : Z) (g : prng) : prng :=
  let seed := ticks in
  let seed := Z.lxor seed (u64 (Z.shiftl uptime 17)) in
  let seed := Z.lxor seed (Z.shiftr ticks 7) in
  let seed := Z.lxor seed (u64 (Z.shiftl uptime 43)) in
  let seed := u64 (Z.lxor seed (Z.shiftr seed 33) * 0xff51afd7ed558ccd) in
  let seed := u64 (Z.lxor seed (Z.shiftr seed 33) * 0xc4ceb9fe1a85ec53) in
  let seed := Z.lxor seed (Z.shiftr seed 33) in
  random_init seed g.

(** [for (i = 0; i < n; i++) *p++ = (uint8_t)(value >> (i * 8));] *)
Definition value_bytes (n : nat) (value : Z) : list Z :=
  map (fun i => u8 (Z.shiftr value (Z.of_nat i * 8))) (seq 0 n).

(** [while (len >= 8)], [k] times: the bytes written. *)
Fixpoint whole_words (k : nat) (g : prng) : prng * list Z :=
  match k with
  | O => (g, [])
  | S k' =>
      let '(g, value) := xorshift128plus g in
      let '(g, l) := whole_words k' g in
      (g, value_bytes 8 value ++ l)
  end.
(** The bytes stored from [buf] on. *)
Definition random_get_bytes (len : nat) (g : prng) : prng * list Z :=
  if (len =? 0)%nat then (g, [])
  else
    let '(g, l) := whole_words (len / 8) g in
    let rest := (len mod 8)%nat in
    if (0 <? rest)%nat then
      let '(g, value) := xorshift128plus g in (g, l ++ value_bytes rest value)
    else (g, l).

Definition random_uint32 (g : prng) : prng * Z := let '(g, v) := xorshift128plus g in (g, u32 v).
Definition random_uint64 (g : prng) : prng * Z := xorshift128plus g.

(** [do { value = random_uint32(); } while (value >= limit);] with a bound on the
    draws; [None] when it is exhausted. *)
Fixpoint draw_below (fuel : nat) (limit : Z) (g : prng) : option (prng * Z) :=
  match fuel with
  | O => None
  | S fuel' =>
      let '(g, value) := random_uint32 g in
      if limit <=? value then draw_below fuel' limit g else Some (g, value)
  end.
Definition range_limit (range : Z) : Z := UINT32_MAX - UINT32_MAX mod range.
Definition random_range (fuel : nat) (min max : Z) (g : prng) : option (prng * Z) :=
  if max <=? min then Some (g, min)
  else
    let range := u32 (u32 (max - min) + 1) in
    if range =? 0 then Some (random_uint32 g)
    else
      match draw_below fuel (range_limit range) g with
      | None => None
      | Some (g, value) => Some (g, u32 (min + value mod range))
      end.

(** ** The state is never zero *)

Definition prng_ok (g : prng) : Prop :=
  0 <= s_0 (state g) < 2 ^ 64 /\ 0 <= s_1 (state g) < 2 ^ 64 /\ ~ (s_0 (state g) = 0 /\ s_1 (state g) = 0).

Lemma default_ok b : prng_ok (mk_rng default_state b).
Proof. split; [by vm_compute|]. split; [by vm_compute|]. by intros [? _]. Qed.

Lemma lxor_range a b : 0 <= a < 2 ^ 64 -> 0 <= b < 2 ^ 64 -> 0 <= Z.lxor a b < 2 ^ 64.
Proof.
  intros Ha Hb. assert (Z.lxor a b = Z.lxor a b mod 2 ^ 64) as ->; [|apply Z.mod_pos_bound; lia].
  rewrite <- (Z.mod_small a (2 ^ 64)) at 1 by done. rewrite <- (Z.mod_small b (2 ^ 64)) at 1 by done.
  bitwise. rewrite Z.lxor_spec, !testbit_wrap, Z.lxor_spec by lia. by destruct (k <? 64).
Qed.
Lemma shiftr_range a k : 0 <= k -> 0 <= a < 2 ^ 64 -> 0 <= Z.shiftr a k < 2 ^ 64.
Proof.
  intros Hk Ha. rewrite Z.shiftr_div_pow2 by done. pose proof (Z.pow_pos_nonneg 2 k).
  split; [apply Z.div_pos; lia|]. apply Z.div_lt_upper_bound; nia.
Qed.
(** A number is its own right shift only if it is zero. *)
Lemma shiftr_fixed a k : 0 < k -> 0 <= a -> a = Z.shiftr a k -> a = 0.
Proof.
  intros Hk Ha He. rewrite Z.shiftr_div_pow2 in He by lia. destruct (Z.eq_dec a 0); [done|].
  assert (1 < 2 ^ k) by (apply Z.pow_gt_1; lia). pose proof (Z.div_lt a (2 ^ k)). lia.
Qed.

Lemma next_s1_range s0 s1 : 0 <= s0 < 2 ^ 64 -> 0 <= s1 < 2 ^ 64 -> 0 <= next_s1 s0 s1 < 2 ^ 64.
Proof. intros H0 H1. unfold next_s1. repeat (apply lxor_range || apply shiftr_range || lia || apply u64_range). Qed.

Lemma xorshift_ok g : prng_ok g -> prng_ok (fst (xorshift128plus g)).
Proof.
  intros (H0 & H1 & Hn). unfold prng_ok. cbn [xorshift128plus fst state s_0 s_1].
  split; [done|]. split; [by apply next_s1_range|]. intros [E1 E2]. apply Hn. split; [|done].
  rewrite E1 in E2. unfold next_s1 in E2. change (Z.lxor 0 (u64 (Z.shiftl 0 23))) with 0 in E2.
  change (Z.lxor 0 (Z.shiftr 0 17)) with 0 in E2. rewrite Z.lxor_0_l in E2. apply Z.lxor_eq in E2.
  apply (shiftr_fixed _ 26); [lia|lia|done].
Qed.

Lemma splitmix64_range x : 0 <= fst (splitmix64 x) < 2 ^ 64 /\ 0 <= snd (splitmix64 x) < 2 ^ 64.
Proof.
  unfold splitmix64. cbn [fst snd]. split; [apply u64_range|].
  repeat (apply lxor_range || apply shiftr_range || lia || apply u64_range).
Qed.

Lemma random_init_ok seed g : prng_ok (random_init seed g).
Proof.
  unfold random_init. pose proof (splitmix64_range seed) as [_ Ha]. destruct (splitmix64 seed) as [x a].
  pose proof (splitmix64_range x) as [_ Hb]. destruct (splitmix64 x) as [y b]. cbn [snd] in *.
  apply for_range_rel; [|intros _ s _; apply xorshift_ok].
  destruct ((a =? 0) && (b =? 0)) eqn:E; [apply default_ok|]. unfold prng_ok. cbn [state s_0 s_1]. split; [done|]. split; [done|].
  intros [-> ->]. done.
Qed.

(** Every operation of the generator. *)
Inductive prng_step : prng -> prng -> Prop :=
  | step_init seed g : prng_step g (random_init seed g)
  | step_time ticks uptime g : prng_step g (random_seed_from_time ticks uptime g)
  | step_bytes len g : prng_step g (fst (random_get_bytes len g))
  | step_u32 g : prng_step g (fst (random_uint32 g))
  | step_u64 g : prng_step g (fst (random_uint64 g))
  | step_range fuel min max g g' v : random_range fuel min max g = Some (g', v) -> prng_step g g'.

Lemma whole_words_ok k g : prng_ok g -> prng_ok (fst (whole_words k g)).
Proof.
  revert g. induction k as [|k IH]; intros g Hg; simpl; [done|]. apply xorshift_ok in Hg. simpl in Hg.
  specialize (IH _ Hg). destruct (whole_words k _). done.
Qed.
Lemma random_get_bytes_ok len g : prng_ok g -> prng_ok (fst (random_get_bytes len g)).
Proof.
  intros Hg. unfold random_get_bytes. destruct (len =? 0)%nat; [done|].
  pose proof (whole_words_ok (len / 8) g Hg) as Hw. destruct (whole_words _ g) as [g1 l]. cbn [fst] in Hw.
  destruct (0 <? _)%nat; [|done]. pose proof (xorshift_ok g1 Hw) as Hx. by destruct (xorshift128plus g1).
Qed.
Lemma draw_below_ok fuel limit g g' v : prng_ok g -> draw_below fuel limit g = Some (g', v) ->
  prng_ok g' /\ 0 <= v < limit.
Proof.
  revert g. induction fuel as [|fuel IH]; intros g Hg; cbn [draw_below]; [done|].
  pose proof (xorshift_ok g Hg) as Hx. unfold random_uint32. destruct (xorshift128plus g) as [g1 w]. cbn [fst] in Hx.
  case_if; [by apply IH|]. intros [= <- <-]. split; [done|]. pose proof (u32_range w). lia.
Qed.

Lemma prng_step_ok g g' : prng_step g g' -> prng_ok g -> prng_ok g'.
Proof.
  destruct 1 as [| | | | |fuel min max g g' v Hr]; intros Hg.
  - apply random_init_ok.
  - apply random_init_ok.
  - by apply random_get_bytes_ok.
  - pose proof (xorshift_ok g Hg) as Hx. unfold random_uint32. by destruct (xorshift128plus g).
  - by apply xorshift_ok.
  - unfold random_range in Hr. case_if_in Hr; [by injection Hr as <- <-|]. cbv zeta in Hr. case_if_in Hr.
    + pose proof (xorshift_ok g Hg) as Hx. unfold random_uint32 in Hr. destruct (xorshift128plus g). by injection Hr as <- <-.
    + destruct (draw_below _ _ g) as [[g1 w]|] eqn:Ed; [|done]. injection Hr as <- <-. by apply draw_below_ok in Ed as [? _].
Qed.

(** from the compiled-in seed, and after any seeding and any requests, the state of
    the generator is not all zeros, the one state from which it would produce zeros for
    ever. *)
Theorem prng_never_stuck g : rtc prng_step initial_prng g -> prng_ok g.
Proof.
  intros Hr. assert (prng_ok initial_prng) as H0 by apply default_ok. revert H0.
  induction Hr as [|x y z Hs _ IH]; [done|]. intros Hx. by apply IH, (prng_step_ok x).
Qed.

Lemma prng_never_stuck_witness : prng_ok (random_init 42 initial_prng).
Proof. apply (prng_never_stuck (random_init 42 initial_prng)). apply rtc_once, step_init. Defined.

(** ** Bytes *)

(** The first [k] outputs of the generator, and the state after them. *)
Fixpoint outputs (k : nat) (g : prng) : list Z :=
  match k with O => [] | S k' => snd (xorshift128plus g) :: outputs k' (fst (xorshift128plus g)) end.

Lemma whole_words_outputs k g : snd (whole_words k g) = concat (map (value_bytes 8) (outputs k g)).
Proof.
  revert g. induction k as [|k IH]; intros g; [done|]. cbn [whole_words outputs map concat].
  destruct (xorshift128plus g) as [g1 v] eqn:E. cbn [fst snd]. specialize (IH g1). destruct (whole_words k g1). cbn [snd] in *.
  by rewrite IH.
Qed.
Lemma length_value_bytes n v : length (value_bytes n v) = n.
Proof. unfold value_bytes. by rewrite length_map, length_seq. Qed.
Lemma value_bytes_take n v : (n <= 8)%nat -> value_bytes n v = take n (value_bytes 8 v).
Proof. intros Hn. do 9 (destruct n as [|n]; [reflexivity|]). lia. Qed.
Lemma outputs_succ k g : outputs (S k) g = outputs k g ++ [snd (xorshift128plus (fst (whole_words k g)))].
Proof.
  revert g. induction k as [|k IH]; intros g; [done|].
  change (outputs (S (S k)) g) with (snd (xorshift128plus g) :: outputs (S k) (fst (xorshift128plus g))). rewrite IH.
  cbn [outputs app]. do 3 f_equal. cbn [whole_words]. destruct (xorshift128plus g) as [g1 v]. cbn [fst].
  by destruct (whole_words k g1).
Qed.
Lemma length_words k g : length (concat (map (value_bytes 8) (outputs k g))) = (8 * k)%nat.
Proof.
  revert g. induction k as [|k IH]; intros g; [done|]. cbn [outputs map concat]. rewrite length_app, IH, length_value_bytes. lia.
Qed.

(** random_get_bytes stores exactly the number of bytes asked for, and they are the
    bytes of successive outputs of the generator, least significant first, cut off at
    that length. *)
Theorem random_get_bytes_stream len g :
  length (snd (random_get_bytes len g)) = len /\
  snd (random_get_bytes len g) = take len (concat (map (value_bytes 8) (outputs (S (len / 8)) g))).
Proof.
  cut (snd (random_get_bytes len g) = take len (concat (map (value_bytes 8) (outputs (S (len / 8)) g)))).
  { intros He. split; [|done]. rewrite He, length_take, length_words.
    pose proof (Nat.div_mod_eq len 8). pose proof (Nat.mod_upper_bound len 8). lia. }
  unfold random_get_bytes. destruct (Nat.eqb_spec len 0) as [->|Hl]; [done|].
  pose proof (Nat.div_mod_eq len 8) as Hd. pose proof (Nat.mod_upper_bound len 8) as Hm.
  rewrite outputs_succ, map_app, concat_app. cbn [map concat]. rewrite app_nil_r.
  pose proof (length_words (len / 8) g) as Hw. pose proof (whole_words_outputs (len / 8) g) as Ho.
  destruct (whole_words (len / 8) g) as [g1 l]. cbn [fst snd] in *. rewrite <- Ho in Hw |- *.
  destruct (Nat.ltb_spec 0 (len mod 8)%nat) as [Hr|Hr].
  - destruct (xorshift128plus g1) as [g2 v]. cbn [snd]. rewrite take_app_ge by lia. f_equal. rewrite Hw.
    rewrite value_bytes_take by lia. f_equal. lia.
  - cbn [snd]. rewrite take_app_le by lia. symmetry. apply take_ge. lia.
Qed.

(** ** Ranges *)

Lemma range_limit_spec range : 0 < range < 2 ^ 32 ->
  range_limit range mod range = 0 /\ range <= range_limit range <= UINT32_MAX /\ 2 ^ 31 - 1 < range_limit range.
Proof.
  intros Hr. unfold range_limit, UINT32_MAX. pose proof (Z.div_mod (2 ^ 32 - 1) range) as Hd.
  pose proof (Z.mod_pos_bound (2 ^ 32 - 1) range) as Hm. set (q := (2 ^ 32 - 1) / range) in *.
  assert (2 ^ 32 - 1 - (2 ^ 32 - 1) mod range = q * range) as -> by lia. split; [apply Z.mod_mul; lia|].
  assert (1 <= q) by (apply Z.div_le_lower_bound; lia). split; [split; nia|]. nia.
Qed.

(** Counting: the values below a multiple of [range] that leave a given remainder. *)
Definition count_residue (range r : Z) (limit : Z) : nat :=
  length (filter (fun v => v mod range = r) (map Z.of_nat (seq 0 (Z.to_nat limit)))).

Lemma residue_block range r (q : nat) : 0 <= r < range ->
  count_residue range r (Z.of_nat q * range) = q.
Proof.
  intros Hr. unfold count_residue. induction q as [|q IH]; [done|].
  replace (Z.to_nat (Z.of_nat (S q) * range)) with (Z.to_nat (Z.of_nat q * range) + Z.to_nat range)%nat by lia.
  rewrite seq_app, map_app, filter_app, length_app, IH. rewrite Nat.add_0_l.
  cut (filter (fun v => v mod range = r) (map Z.of_nat (seq (Z.to_nat (Z.of_nat q * range)) (Z.to_nat range))) =
       [Z.of_nat q * range + r]); [intros ->; simpl; lia|].
  replace (Z.to_nat range) with (Z.to_nat r + S (Z.to_nat (range - r - 1)))%nat by lia.
  rewrite seq_app, map_app, filter_app. cbn [seq map].
  assert (forall a n, (forall i, (a <= i < a + n)%nat -> Z.of_nat i mod range <> r) ->
    filter (fun v => v mod range = r) (map Z.of_nat (seq a n)) = []) as Hnone.
  { clear. intros a n. revert a. induction n as [|n IH]; intros a Hi; [done|]. cbn [seq map].
    rewrite filter_cons_False by (apply Hi; lia). apply IH. intros i Hb. apply Hi. lia. }
  rewrite Hnone, filter_cons_True, Hnone; [cbn [app]; f_equal; nia| | |].
  - intros i Hi. replace (Z.of_nat i) with ((Z.of_nat i - Z.of_nat q * range) + Z.of_nat q * range) by lia.
    rewrite Z.mod_add, Z.mod_small by nia. nia.
  - replace (Z.of_nat (Z.to_nat (Z.of_nat q * range) + Z.to_nat r)) with (r + Z.of_nat q * range) by nia.
    rewrite Z.mod_add, Z.mod_small by nia. done.
  - intros i Hi. replace (Z.of_nat i) with ((Z.of_nat i - Z.of_nat q * range) + Z.of_nat q * range) by lia.
    rewrite Z.mod_add, Z.mod_small by nia. nia.
Qed.

(** the values random_range accepts fall evenly on the range: every result is
    reached from the same number of accepted 32-bit draws, and more than half of all
    draws are accepted. *)
Theorem random_range_unbiased min max v : 0 <= min -> min < max -> max <= UINT32_MAX -> max - min < UINT32_MAX ->
  min <= v <= max ->
  let range := max - min + 1 in
  count_residue range (v - min) (range_limit range) = Z.to_nat (range_limit range / range) /\
  2 ^ 31 - 1 < range_limit range <= UINT32_MAX.
Proof.
  intros H0 Hlt Hm Hd Hv range. unfold UINT32_MAX in *. assert (0 < range < 2 ^ 32) as Hr by (unfold range; lia).
  destruct (range_limit_spec range Hr) as (Hz & Hl & Hh). unfold UINT32_MAX in *. split; [|lia].
  set (q := range_limit range / range). assert (0 <= q) by (apply Z.div_pos; lia).
  assert (range_limit range = Z.of_nat (Z.to_nat q) * range) as ->.
  { pose proof (Z.div_mod (range_limit range) range). fold q in H1. lia. }
  rewrite residue_block by (unfold range; lia). done.
Qed.

Lemma random_range_unbiased_witness : count_residue 4 1 (range_limit 4) = Z.to_nat (range_limit 4 / 4).
Proof. exact (proj1 (random_range_unbiased 10 13 11 ltac:(lia) ltac:(lia) ltac:(by vm_compute) ltac:(by vm_compute) ltac:(lia))). Defined.

(** The k-th 32-bit draw. *)
Definition nth_draw (k : nat) (g : prng) : Z := u32 (snd (xorshift128plus (fst (whole_words k g)))).

Lemma draw_below_finds k limit g : nth_draw k g < limit -> exists r, draw_below (S k) limit g = Some r.
Proof.
  revert g. induction k as [|k IH]; intros g Hk.
  - cbn [draw_below]. unfold random_uint32, nth_draw in *. cbn [whole_words fst] in Hk.
    destruct (xorshift128plus g) as [g1 w]. cbn [snd] in Hk. rewrite (proj2 (Z.leb_gt _ _)) by done. by eexists.
  - change (draw_below (S (S k)) limit g) with (let '(g, value) := random_uint32 g in
      if limit <=? value then draw_below (S k) limit g else Some (g, value)).
    unfold nth_draw in Hk. cbn [whole_words] in Hk. unfold random_uint32. destruct (xorshift128plus g) as [g1 w].
    case_if; [|by eexists]. apply IH. unfold nth_draw. by destruct (whole_words k g1).
Qed.

(** random_range returns a value of the closed range (or [min] when the range is
    empty), and returns as soon as one of its draws is below the limit. *)
Theorem random_range_in_range fuel min max g : prng_ok g -> 0 <= min -> 0 <= max <= UINT32_MAX ->
  (forall g' v, random_range fuel min max g = Some (g', v) -> if max <=? min then v = min else min <= v <= max) /\
  (forall k, (k < fuel)%nat -> nth_draw k g < range_limit (max - min + 1) -> exists r, random_range (S k) min max g = Some r).
Proof.
  intros Hg Hm HM. unfold UINT32_MAX in HM. unfold random_range. split.
  - intros g' v. case_if; [by intros [= _ <-]|]. rewrite (u32_id (max - min)) by lia. cbv zeta. case_if.
    + unfold u32 in E0. assert (max - min + 1 = 2 ^ 32) by dlia.
      unfold random_uint32. destruct (xorshift128plus g) as [g1 w]. intros [= _ <-]. pose proof (u32_range w). lia.
    + destruct (draw_below _ _ g) as [[g1 w]|] eqn:Ed; [|done]. intros [= _ <-].
      assert (u32 (max - min + 1) = max - min + 1) as Hr by (unfold u32 in *; dlia). rewrite Hr in *.
      apply draw_below_ok in Ed as [_ Hw]; [|done]. pose proof (Z.mod_pos_bound w (max - min + 1)).
      rewrite u32_id by lia. lia.
  - intros k _ Hk. case_if; [by eexists|]. rewrite (u32_id (max - min)) by lia. cbv zeta. case_if; [by eexists|].
    assert (u32 (max - min + 1) = max - min + 1) as Hr by (unfold u32 in *; dlia). rewrite Hr.
    destruct (draw_below_finds k _ g Hk) as [[g1 w] ->]. by eexists.
Qed.

Lemma random_range_in_range_witness :
  prng_ok initial_prng /\ exists r, random_range 2 1 6 initial_prng = Some r.
Proof.
  assert (prng_ok initial_prng) as H0 by apply default_ok. split; [exact H0|].
  apply (proj2 (random_range_in_range 5 1 6 initial_prng H0 ltac:(lia) ltac:(by vm_compute)) 1%nat ltac:(lia)).
  by vm_compute.
Defined.
