(* ===== verification/AuthSha.v ===== *)
(** * The second SHA-256 (security/auth/auth.c)

    The authentication system has its own copy of SHA-256, which takes its input byte
    by byte. It computes the same function as the one of security/crypto. *)
From S2P Require Import Prelude Ring Sha256.

(** The constants of auth.c's own table. *)
Definition auth_sha256_k : list Z :=
  k_row 0x428a2f98 0x71374491 0xb5c0fbcf 0xe9b5dba5 (k_row 0x3956c25b 0x59f111f1 0x923f82a4 0xab1c5ed5 (
  k_row 0xd807aa98 0x12835b01 0x243185be 0x550c7dc3 (k_row 0x72be5d74 0x80deb1fe 0x9bdc06a7 0xc19bf174 (
  k_row 0xe49b69c1 0xefbe4786 0x0fc19dc6 0x240ca1cc (k_row 0x2de92c6f 0x4a7484aa 0x5cb0a9dc 0x76f988da (
  k_row 0x983e5152 0xa831c66d 0xb00327c8 0xbf597fc7 (k_row 0xc6e00bf3 0xd5a79147 0x06ca6351 0x14292967 (
  k_row 0x27b70a85 0x2e1b2138 0x4d2c6dfc 0x53380d13 (k_row 0x650a7354 0x766a0abb 0x81c2c92e 0x92722c85 (
  k_row 0xa2bfe8a1 0xa81a664b 0xc24b8b70 0xc76c51a3 (k_row 0xd192e819 0xd6990624 0xf40e3585 0x106aa070 (
  k_row 0x19a4c116 0x1e376c08 0x2748774c 0x34b0bcb5 (k_row 0x391c0cb3 0x4ed8aa4a 0x5b9cca4f 0x682e6ff3 (
  k_row 0x748f82ee 0x78a5636f 0x84c87814 0x8cc70208 (k_row 0x90befffa 0xa4506ceb 0xbef9a3f7 0xc67178f2 []))))))))))))))).

Record auth_sha256_ctx := mk_asha {
  as_state : words;
  as_bitlen : Z;
  as_data : Z -> Z;
  as_datalen : Z;
}.

Definition rotr (x n : Z) : Z := Z.lor (Z.shiftr x n) (u32 (Z.shiftl x (32 - n))).
Definition ch (x y z : Z) : Z := Z.lxor (Z.land x y) (Z.land (u32 (Z.lnot x)) z).
Definition maj (x y z : Z) : Z := Z.lxor (Z.lxor (Z.land x y) (Z.land x z)) (Z.land y z).
Definition sig0 (x : Z) : Z := Z.lxor (Z.lxor (rotr x 2) (rotr x 13)) (rotr x 22).
Definition sig1 (x : Z) : Z := Z.lxor (Z.lxor (rotr x 6) (rotr x 11)) (rotr x 25).
Definition gam0 (x : Z) : Z := Z.lxor (Z.lxor (rotr x 7) (rotr x 18)) (Z.shiftr x 3).
Definition gam1 (x : Z) : Z := Z.lxor (Z.lxor (rotr x 17) (rotr x 19)) (Z.shiftr x 10).

Definition auth_schedule (data : Z -> Z) : Z -> Z :=
  let w := for_range 0 16 (fun i w => upd w i
             (Z.lor (Z.lor (Z.lor (u32 (Z.shiftl (data (i * 4)) 24)) (u32 (Z.shiftl (data (i * 4 + 1)) 16)))
                (u32 (Z.shiftl (data (i * 4 + 2)) 8))) (data (i * 4 + 3)))) (fun _ => 0) in
  for_range 16 64 (fun i w => upd w i (u32 (gam1 (w (i - 2)) + w (i - 7) + gam0 (w (i - 15)) + w (i - 16)))) w.
Definition auth_round (w : Z -> Z) (i : Z) (v : words) : words :=
  let t1 := u32 (wh v + sig1 (we v) + ch (we v) (wf v) (wg v) + nth (Z.to_nat i) auth_sha256_k 0 + w i) in
  let t2 := u32 (sig0 (wa v) + maj (wa v) (wb v) (wc v)) in
  mk_words (u32 (t1 + t2)) (wa v) (wb v) (wc v) (u32 (wd v + t1)) (we v) (wf v) (wg v).
Definition auth_transform_words (st : words) (data : Z -> Z) : words :=
  let v := for_range 0 64 (auth_round (auth_schedule data)) st in
  mk_words (u32 (wa st + wa v)) (u32 (wb st + wb v)) (u32 (wc st + wc v)) (u32 (wd st + wd v))
    (u32 (we st + we v)) (u32 (wf st + wf v)) (u32 (wg st + wg v)) (u32 (wh st + wh v)).
Definition auth_sha256_transform (ctx : auth_sha256_ctx) (data : Z -> Z) : auth_sha256_ctx :=
  mk_asha (auth_transform_words (as_state ctx) data) (as_bitlen ctx) (as_data ctx) (as_datalen ctx).

(** The fields of the context that are not set keep their value. *)
Definition auth_sha256_init (ctx : auth_sha256_ctx) : auth_sha256_ctx :=
  mk_asha (mk_words 0x6a09e667 0xbb67ae85 0x3c6ef372 0xa54ff53a 0x510e527f 0x9b05688c 0x1f83d9ab 0x5be0cd19)
    0 (as_data ctx) 0.

(** The body of the loop of sha256_update. *)
Definition absorb_byte (b : Z) (ctx : auth_sha256_ctx) : auth_sha256_ctx :=
  let ctx := mk_asha (as_state ctx) (as_bitlen ctx) (upd (as_data ctx) (as_datalen ctx) b) (u32 (as_datalen ctx + 1)) in
  if as_datalen ctx =? 64 then
    let ctx := auth_sha256_transform ctx (as_data ctx) in
    mk_asha (as_state ctx) (u64 (as_bitlen ctx + 512)) (as_data ctx) 0
  else ctx.
(** The bytes of the argument are given as a list. *)
Definition auth_sha256_update (ctx : auth_sha256_ctx) (data : list Z) : auth_sha256_ctx :=
  fold_left (fun ctx b => absorb_byte b ctx) data ctx.

(** [while (i < hi) data[i++] = 0;] *)
Definition zero_fill (lo hi : Z) (d : Z -> Z) : Z -> Z := for_range lo hi (fun j d => upd d j 0) d.
(** The eight bytes of the length, stored at 56 to 63. *)
Definition store_length (bitlen : Z) (d : Z -> Z) : Z -> Z :=
  upd (upd (upd (upd (upd (upd (upd (upd d 63 (u8 bitlen)) 62 (u8 (Z.shiftr bitlen 8))) 61 (u8 (Z.shiftr bitlen 16)))
    60 (u8 (Z.shiftr bitlen 24))) 59 (u8 (Z.shiftr bitlen 32))) 58 (u8 (Z.shiftr bitlen 40))) 57 (u8 (Z.shiftr bitlen 48)))
    56 (u8 (Z.shiftr bitlen 56)).
Definition auth_sha256_final (ctx : auth_sha256_ctx) : auth_sha256_ctx * list Z :=
  let i := as_datalen ctx in
  let ctx :=
    if as_datalen ctx <? 56 then
      mk_asha (as_state ctx) (as_bitlen ctx) (zero_fill (i + 1) 56 (upd (as_data ctx) i 0x80)) (as_datalen ctx)
    else
      let d := zero_fill (i + 1) 64 (upd (as_data ctx) i 0x80) in
      let ctx := auth_sha256_transform (mk_asha (as_state ctx) (as_bitlen ctx) d (as_datalen ctx)) d in
      mk_asha (as_state ctx) (as_bitlen ctx) (zero_fill 0 56 (as_data ctx)) (as_datalen ctx) in
  let bitlen := u64 (as_bitlen ctx + u32 (as_datalen ctx * 8)) in
  let d := store_length bitlen (as_data ctx) in
  let ctx := auth_sha256_transform (mk_asha (as_state ctx) bitlen d (as_datalen ctx)) d in
  (ctx, digest (as_state ctx)).

(** The digest of a message. *)
Definition auth_sha256 (ctx : auth_sha256_ctx) (data : list Z) : list Z :=
  snd (auth_sha256_final (auth_sha256_update (auth_sha256_init ctx) data)).

(** ** The compression function is the same *)

Lemma auth_schedule_same data : auth_schedule data = schedule data.
Proof.
  unfold auth_schedule, schedule, block_word, gam0, gam1, sigma0, sigma1, rotr, ROTR, SHR. reflexivity.
Qed.
Lemma auth_k_same : auth_sha256_k = sha256_k.
Proof. unfold auth_sha256_k, sha256_k. reflexivity. Qed.
Lemma auth_round_same : auth_round = round.
Proof.
  unfold auth_round, round. rewrite auth_k_same. unfold sig0, sig1, SIGMA0, SIGMA1, ch, CH, maj, MAJ, rotr, ROTR. reflexivity.
Qed.
Lemma auth_transform_same st data : auth_transform_words st data = transform_words st data.
Proof. unfold auth_transform_words, transform_words. rewrite auth_schedule_same, auth_round_same. reflexivity. Qed.

(** ** Absorbing bytes *)

Definition auth_absorbed (ctx : auth_sha256_ctx) (l : list Z) : Prop :=
  exists q L R, l = L ++ R /\ length L = (64 * q)%nat /\ (length R < 64)%nat /\
    as_bitlen ctx = 512 * Z.of_nat q /\ as_datalen ctx = Z.of_nat (length R) /\
    as_state ctx = compress q L sha256_h0 /\ data_list (length R) 0 (as_data ctx) = R.

Lemma transform_data st d R : data_list 64 0 d = R -> transform_words st d = transform_words st (from_list R).
Proof. intros <-. apply transform_ext. intros j Hj. symmetry. by apply from_list_data. Qed.

Lemma data_list_upd_end d (r : nat) b : data_list (r + 1) 0 (upd d (Z.of_nat r) b) = data_list r 0 d ++ [b].
Proof.
  rewrite data_list_app. f_equal.
  - apply data_list_ext. intros j Hj. apply upd_other. lia.
  - cbn [data_list]. by rewrite upd_same.
Qed.

Lemma compress_block q L R st : length L = (64 * q)%nat -> length R = 64%nat ->
  compress (S q) (L ++ R) st = transform_words (compress q L st) (from_list R).
Proof.
  intros HL HR. replace (S q) with (q + 1)%nat by lia. rewrite compress_app by done. cbn [compress].
  by rewrite take_ge by lia.
Qed.

Lemma absorb_byte_absorbs b ctx l : auth_absorbed ctx l -> Z.of_nat (length l) < 2 ^ 61 - 64 ->
  auth_absorbed (absorb_byte b ctx) (l ++ [b]).
Proof.
  intros (q & L & R & -> & HL & HR & Hbl & Hdl & Hs & Hd) Hlim. rewrite length_app in Hlim. unfold absorb_byte.
  assert (data_list (length R + 1) 0 (upd (as_data ctx) (as_datalen ctx) b) = R ++ [b]) as Hd'.
  { rewrite Hdl, data_list_upd_end. by rewrite Hd. }
  cbn [as_datalen as_data as_state as_bitlen]. rewrite Hdl in *. rewrite u32_id by lia.
  destruct (Z.of_nat (length R) + 1 =? 64) eqn:E; zbool.
  - exists (S q), (L ++ R ++ [b]), []. rewrite app_nil_r, <- app_assoc. split; [done|].
    cbn [auth_sha256_transform as_state as_bitlen as_data as_datalen length data_list].
    split; [rewrite !length_app; cbn [length]; lia|]. split; [lia|]. split; [rewrite u64_id; lia|]. split; [done|]. split; [|done].
    rewrite compress_block by (try rewrite length_app; cbn [length]; lia). rewrite auth_transform_same, Hs.
    apply transform_data. rewrite <- Hd'. f_equal. lia.
  - exists q, L, (R ++ [b]). rewrite app_assoc. split; [done|]. rewrite length_app. cbn [length as_state as_bitlen as_data as_datalen].
    split; [done|]. split; [lia|]. split; [done|]. split; [lia|]. split; [done|]. done.
Qed.

Lemma auth_update_absorbs data ctx l : auth_absorbed ctx l -> Z.of_nat (length (l ++ data)) < 2 ^ 61 - 64 ->
  auth_absorbed (auth_sha256_update ctx data) (l ++ data).
Proof.
  revert ctx l. induction data as [|b data IH]; intros ctx l Ha Hlim; [by rewrite app_nil_r|].
  change (auth_sha256_update ctx (b :: data)) with (auth_sha256_update (absorb_byte b ctx) data).
  replace (l ++ b :: data) with ((l ++ [b]) ++ data) in * by (by rewrite <- app_assoc). apply IH; [|done].
  rewrite !length_app in Hlim. apply absorb_byte_absorbs; [done|lia].
Qed.

(** ** Padding *)

Lemma zero_fill_val lo hi d x : zero_fill lo hi d x = if (lo <=? x) && (x <? hi) then 0 else d x.
Proof.
  unfold zero_fill. destruct (Z.le_gt_cases lo hi) as [Hle|Hgt].
  - pose proof (for_range_ind (fun k (f : Z -> Z) => forall y, f y = if (lo <=? y) && (y <? k) then 0 else d y)
      (fun j d => upd d j 0) lo hi d Hle) as H. apply H.
    + intros y. by replace ((lo <=? y) && (y <? lo)) with false by lia.
    + intros j f Hj Hf y. unfold upd. rewrite Hf. destruct (y =? j) eqn:E; zbool.
      * by replace ((lo <=? y) && (y <? j + 1)) with true by lia.
      * by replace (y <? j + 1) with (y <? j) by lia.
  - rewrite for_range_empty by lia. by replace ((lo <=? x) && (x <? hi)) with false by lia.
Qed.

Lemma store_length_val bitlen d j : 0 <= j < 64 ->
  store_length bitlen d j = if j <? 56 then d j else u8 (Z.shiftr bitlen (56 - 8 * (j - 56))).
Proof.
  intros Hj. case_if; [by unfold store_length, upd; repeat (case_if; [lia|])|].
  assert (j = 56 \/ j = 57 \/ j = 58 \/ j = 59 \/ j = 60 \/ j = 61 \/ j = 62 \/ j = 63) as H by lia.
  destruct H as [->|[->|[->|[->|[->|[->|[->| ->]]]]]]]; reflexivity.
Qed.

Lemma data_list_const n k d v : (forall j, k <= j < k + Z.of_nat n -> d j = v) -> data_list n k d = replicate n v.
Proof.
  revert k. induction n as [|n IH]; intros k H; [done|]. cbn [data_list replicate]. rewrite H by lia. f_equal.
  apply IH. intros j Hj. apply H. lia.
Qed.

(** The last eight bytes of the block. *)
Lemma length_bytes bitlen d : data_list 8 56 (store_length bitlen d) = be64 bitlen.
Proof. unfold be64. cbn [data_list map seq]. by rewrite !store_length_val by lia. Qed.

(** The block with the marker: [R], 0x80 and zeros. *)
Definition marked (d : Z -> Z) (r : nat) (hi : Z) : Z -> Z := zero_fill (Z.of_nat r + 1) hi (upd d (Z.of_nat r) 0x80).
Lemma marked_data d r n : (r < n)%nat ->
  data_list n 0 (marked d r (Z.of_nat n)) = data_list r 0 d ++ [0x80] ++ replicate (n - r - 1) 0.
Proof.
  intros Hr. replace n with (r + (1 + (n - r - 1)))%nat at 1 by lia. rewrite !data_list_app. unfold marked. f_equal; [|f_equal].
  - apply data_list_ext. intros j Hj. rewrite zero_fill_val. replace ((_ <=? j) && _) with false by lia. apply upd_other. lia.
  - cbn [data_list]. rewrite zero_fill_val. replace ((_ <=? _) && _) with false by lia. rewrite Z.add_0_l. by rewrite upd_same.
  - apply data_list_const. intros j Hj. rewrite zero_fill_val. by replace ((_ <=? j) && _) with true by lia.
Qed.

Lemma tail_block d bitlen (B : list Z) : data_list 56 0 d = B ->
  data_list 64 0 (store_length bitlen d) = B ++ be64 bitlen.
Proof.
  intros <-. change 64%nat with (56 + 8)%nat. rewrite data_list_app, <- (length_bytes bitlen d). apply (f_equal2 app); [|done].
  apply data_list_ext. intros j Hj. rewrite store_length_val by lia. by rewrite (proj2 (Z.ltb_lt _ _)) by lia.
Qed.

(** The state after the final blocks. *)
Lemma auth_final_digest ctx l : auth_absorbed ctx l -> Z.of_nat (length l) < 2 ^ 61 - 64 ->
  snd (auth_sha256_final ctx) = sha256_reference l.
Proof.
  intros (q & L & R & -> & HL & HR & Hbl & Hdl & Hs & Hd) Hlim. rewrite length_app in Hlim.
  set (r := length R) in *. set (n := 8 * Z.of_nat (length (L ++ R))).
  assert (u64 (as_bitlen ctx + u32 (as_datalen ctx * 8)) = n) as Hn.
  { rewrite Hbl, Hdl, (u32_id (_ * 8)), u64_id by lia. unfold n. rewrite length_app. lia. }
  unfold auth_sha256_final, sha256_reference. cbn [snd]. f_equal. rewrite Hdl.
  fold (marked (as_data ctx) r 56). fold (marked (as_data ctx) r 64).
  assert (sha_pad (L ++ R) = L ++ R ++ [0x80] ++ replicate (Z.to_nat ((55 - Z.of_nat (length (L ++ R))) mod 64)) 0 ++ be64 n) as Hpad.
  { unfold sha_pad. by rewrite <- app_assoc. }
  assert ((55 - Z.of_nat (length (L ++ R))) mod 64 = (55 - Z.of_nat r) mod 64) as Hz.
  { rewrite length_app. fold r. rewrite HL. replace (55 - Z.of_nat (64 * q + r)) with (55 - Z.of_nat r + (- Z.of_nat q) * 64) by lia.
    apply Z_mod_plus_full. }
  rewrite Hz in Hpad. destruct (Z.of_nat r <? 56) eqn:E; zbool.
  - rewrite (Z.mod_small (55 - Z.of_nat r)) in Hpad by lia.
    cbn [as_state as_bitlen as_data as_datalen auth_sha256_transform]. rewrite <- Hdl, Hn, auth_transform_same, Hs.
    pose proof (marked_data (as_data ctx) r 56 ltac:(lia)) as Hm. rewrite Hd in Hm. change (Z.of_nat 56) with 56 in Hm.
    rewrite (transform_data _ _ _ (tail_block _ n _ Hm)). rewrite Hpad.
    assert (length (L ++ R ++ [0x80] ++ replicate (Z.to_nat (55 - Z.of_nat r)) 0 ++ be64 n) = (64 * (q + 1))%nat) as Hlen.
    { rewrite !length_app, length_replicate, HL. fold r. change (length (be64 n)) with 8%nat. cbn [length]. lia. }
    rewrite Hlen. replace (64 * (q + 1) / 64)%nat with (q + 1)%nat by (rewrite Nat.mul_comm, Nat.div_mul; lia).
    rewrite compress_app by done. cbn [compress]. rewrite take_ge by (rewrite length_app in Hlen; lia).
    assert ((R ++ [0x80] ++ replicate (56 - r - 1) 0) ++ be64 n = R ++ [0x80] ++ replicate (Z.to_nat (55 - Z.of_nat r)) 0 ++ be64 n) as ->;
      [|reflexivity].
    rewrite <- !app_assoc. by replace (56 - r - 1)%nat with (Z.to_nat (55 - Z.of_nat r)) by lia.
  - assert ((55 - Z.of_nat r) mod 64 = 119 - Z.of_nat r) as Hz2 by dlia. rewrite Hz2 in Hpad.
    cbn [as_state as_bitlen as_data as_datalen auth_sha256_transform]. rewrite <- Hdl, Hn.
    rewrite (auth_transform_same (as_state ctx) (marked (as_data ctx) r 64)), Hs.
    rewrite (auth_transform_same _ (store_length n (zero_fill 0 56 (marked (as_data ctx) r 64)))).
    pose proof (marked_data (as_data ctx) r 64 ltac:(lia)) as Hm. rewrite Hd in Hm. change (Z.of_nat 64) with 64 in Hm.
    rewrite (transform_data (compress q L sha256_h0) _ _ Hm).
    assert (data_list 56 0 (zero_fill 0 56 (marked (as_data ctx) r 64)) = replicate 56 0) as Hz56.
    { apply data_list_const. intros j Hj. rewrite zero_fill_val. by replace ((0 <=? j) && _) with true by lia. }
    rewrite (transform_data _ _ _ (tail_block _ n _ Hz56)). rewrite Hpad.
    set (B := R ++ [0x80] ++ replicate (64 - r - 1) 0).
    assert (R ++ [0x80] ++ replicate (Z.to_nat (119 - Z.of_nat r)) 0 ++ be64 n = B ++ replicate 56 0 ++ be64 n) as ->.
    { unfold B. rewrite <- !app_assoc. rewrite (app_assoc (replicate _ _) (replicate _ _)), <- replicate_add.
      by replace (64 - r - 1 + 56)%nat with (Z.to_nat (119 - Z.of_nat r)) by lia. }
    assert (length B = 64%nat) as HB by (unfold B; rewrite !length_app, length_replicate; fold r; cbn [length]; lia).
    rewrite !length_app, HB, HL, length_replicate. change (length (be64 n)) with 8%nat.
    replace ((64 * q + (64 + (56 + 8))) / 64)%nat with (q + (1 + 1))%nat.
    2: { replace (64 * q + (64 + (56 + 8)))%nat with ((q + 2) * 64)%nat by lia. rewrite Nat.div_mul by lia. lia. }
    rewrite compress_app by done. rewrite compress_app by lia. cbn [compress].
    rewrite (take_ge B) by lia. rewrite take_ge by (rewrite length_app, length_replicate; change (length (be64 n)) with 8%nat; lia).
    reflexivity.
Qed.

Lemma auth_sha256_val ctx data : Z.of_nat (length data) < 2 ^ 61 - 64 -> auth_sha256 ctx data = sha256_reference data.
Proof.
  intros Hlim. unfold auth_sha256. apply auth_final_digest; [|done].
  apply (auth_update_absorbs data (auth_sha256_init ctx) []); [|done]. exists 0%nat, [], []. cbn. split_and!; try done. lia.
Qed.

(** the two SHA-256 implementations of the system, the incremental one of
    security/crypto and the byte-by-byte one of the authentication system, give the same
    digest for every message. *)
Theorem sha256_implementations_agree data ctx ctx' :
  Z.of_nat (length data) < 2 ^ 61 - 64 ->
  sha256_hash (Some (from_list data)) (Z.of_nat (length data)) ctx = Some (auth_sha256 ctx' data).
Proof.
  intros Hlim. rewrite auth_sha256_val by done. unfold sha256_hash. f_equal.
  assert (data_list (length data) 0 (from_list data) = data) as Hdl.
  { clear. assert (forall pre, data_list (length data) (Z.of_nat (length pre)) (from_list (pre ++ data)) = data) as H.
    { induction data as [|b data IH]; intros pre; [done|]. cbn [length data_list]. f_equal.
      - unfold from_list. rewrite Nat2Z.id, app_nth2, Nat.sub_diag by lia. done.
      - specialize (IH (pre ++ [b])). rewrite length_app, Nat2Z.inj_add, <- app_assoc in IH. exact IH. }
    exact (H []). }
  pose proof (update_absorbs (sha256_init ctx) [] (from_list data) (Z.of_nat (length data)) (init_absorbs ctx) ltac:(lia)
    ltac:(cbn; lia)) as Ha.
  rewrite Nat2Z.id, Hdl in Ha. by apply final_digest; [|lia].
Qed.

Lemma sha256_implementations_agree_witness :
  sha256_hash (Some (from_list [97; 98; 99])) 3 (mk_sha sha256_h0 0 (fun _ => 0)) =
  Some (auth_sha256 (mk_asha sha256_h0 0 (fun _ => 0) 0) [97; 98; 99]).
Proof.
  apply (sha256_implementations_agree [97; 98; 99] (mk_sha sha256_h0 0 (fun _ => 0)) (mk_asha sha256_h0 0 (fun _ => 0) 0)).
  by vm_compute.
Defined.
