(* ===== verification/Auth.v ===== *)
(** * User authentication (security/auth/auth.c, auth.h): data and operations

    Users, sessions and groups are tables of slots; a pointer into a table is the index
    of its slot. A string argument is [None] for NULL and otherwise the characters
    before the NUL. [groups[0 .. group_count)] of a user and [members[0 ..
    member_count)] of a group are lists. The output pointers of auth_hash_password and
    auth_login are never NULL here. [stack_ctx] is what the uninitialised context on
    the stack holds before sha256_init. *)
From Stdlib Require Import String Ascii.
From S2P Require Import Prelude Ring Sha256 AuthSha.
Close Scope string_scope.

Definition AUTH_MAX_USERS : nat := 64.
Definition AUTH_MAX_SESSIONS : nat := 32.
Definition AUTH_MAX_GROUPS : nat := 32.
Definition AUTH_MAX_GROUP_MEMBERS : nat := 64.
Definition AUTH_USERNAME_MAX : nat := 32.
Definition AUTH_PASSWORD_MAX : nat := 128.
Definition AUTH_HOME_DIR_MAX : nat := 256.
Definition AUTH_SHELL_MAX : nat := 128.
Definition AUTH_GROUP_NAME_MAX : nat := 32.
Definition AUTH_SALT_SIZE : nat := 16.
Definition AUTH_HASH_SIZE : nat := 32.
Definition AUTH_UID_ROOT : Z := 0.
Definition AUTH_UID_GUEST : Z := 1000.
Definition AUTH_UID_INVALID : Z := 2 ^ 32 - 1.
Definition AUTH_GID_ROOT : Z := 0.
Definition AUTH_GID_USERS : Z := 100.
Definition AUTH_GID_INVALID : Z := 2 ^ 32 - 1.
Definition AUTH_OK : Z := 0.
Definition AUTH_ERR_EXISTS : Z := -2.
Definition AUTH_ERR_NOENT : Z := -3.
Definition AUTH_ERR_INVAL : Z := -4.
Definition AUTH_ERR_PERM : Z := -5.
Definition AUTH_ERR_BADPASS : Z := -6.
Definition AUTH_ERR_MAXUSERS : Z := -7.
Definition AUTH_ERR_MAXSESSIONS : Z := -8.
Definition AUTH_ERR_MAXGROUPS : Z := -9.
Definition AUTH_ERR_LOCKED : Z := -10.
Definition AUTH_USER_ACTIVE : Z := BIT 0.
Definition AUTH_USER_LOCKED : Z := BIT 1.
Definition AUTH_USER_ADMIN : Z := BIT 3.
Definition SESSION_FLAG_ACTIVE : Z := BIT 0.

(** The characters of a string literal. *)
Definition str (s : string) : list Z := map (fun c => Z.of_N (N_of_ascii c)) (list_ascii_of_string s).

(** ** State *)

Record user := mk_user {
  u_uid : Z;
  u_gid : Z;
  username : list Z;
  password_hash : list Z;
  home_dir : list Z;
  shell : list Z;
  u_flags : Z;
  created_time : Z;
  last_login : Z;
  failed_logins : Z;
  u_groups : list Z;
  u_in_use : bool;
}.
Definition zero_user : user := mk_user 0 0 [] [] [] [] 0 0 0 0 [] false.

Record session := mk_session {
  sid : Z;
  s_uid : Z;
  start_time : Z;
  last_activity : Z;
  terminal : list Z;
  s_flags : Z;
  s_in_use : bool;
}.
Definition zero_session : session := mk_session 0 0 0 0 [] 0 false.

Record user_group := mk_group {
  g_gid : Z;
  g_name : list Z;
  members : list Z;
  g_in_use : bool;
}.
Definition zero_group : user_group := mk_group 0 [] [] false.

Record auth_stats := mk_stats {
  st_total_users : Z;
  st_active_sessions : Z;
  st_total_logins : Z;
  st_failed_logins : Z;
  st_total_groups : Z;
}.

Record auth := mk_auth {
  users : list user;
  user_count : Z;
  next_uid : Z;
  sessions : list session;
  session_count : Z;
  next_sid : Z;
  groups : list user_group;
  group_count : Z;
  next_gid : Z;
  current_session : option nat;
  stats : auth_stats;
  auth_initialized : bool;
  random_state : Z;
  tick : Z;
}.
(** The static initialisers. *)
Definition boot_auth : auth :=
  mk_auth (replicate AUTH_MAX_USERS zero_user) 0 1001 (replicate AUTH_MAX_SESSIONS zero_session) 0 1
    (replicate AUTH_MAX_GROUPS zero_group) 0 101 None (mk_stats 0 0 0 0 0) false 0x123456789ABCDEF0 0.

Implicit Types s : auth.

Definition set_users (l : list user) (c n : Z) s : auth :=
  mk_auth l c n (sessions s) (session_count s) (next_sid s) (groups s) (group_count s) (next_gid s) (current_session s)
    (stats s) (auth_initialized s) (random_state s) (tick s).
Definition set_sessions (l : list session) (c n : Z) (cur : option nat) s : auth :=
  mk_auth (users s) (user_count s) (next_uid s) l c n (groups s) (group_count s) (next_gid s) cur
    (stats s) (auth_initialized s) (random_state s) (tick s).
Definition set_groups (l : list user_group) (c n : Z) s : auth :=
  mk_auth (users s) (user_count s) (next_uid s) (sessions s) (session_count s) (next_sid s) l c n (current_session s)
    (stats s) (auth_initialized s) (random_state s) (tick s).
Definition set_stats (t : auth_stats) s : auth :=
  mk_auth (users s) (user_count s) (next_uid s) (sessions s) (session_count s) (next_sid s) (groups s) (group_count s)
    (next_gid s) (current_session s) t (auth_initialized s) (random_state s) (tick s).
Definition set_initialized (b : bool) s : auth :=
  mk_auth (users s) (user_count s) (next_uid s) (sessions s) (session_count s) (next_sid s) (groups s) (group_count s)
    (next_gid s) (current_session s) (stats s) b (random_state s) (tick s).
Definition set_random (r : Z) s : auth :=
  mk_auth (users s) (user_count s) (next_uid s) (sessions s) (session_count s) (next_sid s) (groups s) (group_count s)
    (next_gid s) (current_session s) (stats s) (auth_initialized s) r (tick s).
Definition set_tick (t : Z) s : auth :=
  mk_auth (users s) (user_count s) (next_uid s) (sessions s) (session_count s) (next_sid s) (groups s) (group_count s)
    (next_gid s) (current_session s) (stats s) (auth_initialized s) (random_state s) t.

Definition user_at (i : nat) s : user := default zero_user (users s !! i).
Definition session_at (i : nat) s : session := default zero_session (sessions s !! i).
Definition group_at (i : nat) s : user_group := default zero_group (groups s !! i).
Definition modify_user (i : nat) (f : user -> user) s : auth := set_users (alter f i (users s)) (user_count s) (next_uid s) s.
Definition modify_session (i : nat) (f : session -> session) s : auth :=
  set_sessions (alter f i (sessions s)) (session_count s) (next_sid s) (current_session s) s.
Definition modify_group (i : nat) (f : user_group -> user_group) s : auth :=
  set_groups (alter f i (groups s)) (group_count s) (next_gid s) s.

(** [user->gid = g; user->flags = f;] and the like *)
Definition set_u_flags (f : Z) (u : user) : user :=
  mk_user (u_uid u) (u_gid u) (username u) (password_hash u) (home_dir u) (shell u) f (created_time u) (last_login u)
    (failed_logins u) (u_groups u) (u_in_use u).
Definition set_u_gid (g : Z) (u : user) : user :=
  mk_user (u_uid u) g (username u) (password_hash u) (home_dir u) (shell u) (u_flags u) (created_time u) (last_login u)
    (failed_logins u) (u_groups u) (u_in_use u).
Definition set_u_hash (h : list Z) (u : user) : user :=
  mk_user (u_uid u) (u_gid u) (username u) h (home_dir u) (shell u) (u_flags u) (created_time u) (last_login u)
    (failed_logins u) (u_groups u) (u_in_use u).
Definition set_u_home (d : list Z) (u : user) : user :=
  mk_user (u_uid u) (u_gid u) (username u) (password_hash u) d (shell u) (u_flags u) (created_time u) (last_login u)
    (failed_logins u) (u_groups u) (u_in_use u).
Definition set_u_shell (d : list Z) (u : user) : user :=
  mk_user (u_uid u) (u_gid u) (username u) (password_hash u) (home_dir u) d (u_flags u) (created_time u) (last_login u)
    (failed_logins u) (u_groups u) (u_in_use u).
Definition set_u_login (t f : Z) (u : user) : user :=
  mk_user (u_uid u) (u_gid u) (username u) (password_hash u) (home_dir u) (shell u) (u_flags u) (created_time u) t f
    (u_groups u) (u_in_use u).
Definition set_u_groups (g : list Z) (u : user) : user :=
  mk_user (u_uid u) (u_gid u) (username u) (password_hash u) (home_dir u) (shell u) (u_flags u) (created_time u)
    (last_login u) (failed_logins u) g (u_in_use u).
Definition set_members (m : list Z) (g : user_group) : user_group := mk_group (g_gid g) (g_name g) m (g_in_use g).

(** [for (i = 0; i < n; i++) if (test) return &table[i]; return NULL;] *)
Fixpoint first_slot {A} (p : A -> bool) (l : list A) : option nat :=
  match l with
  | [] => None
  | x :: l' => if p x then Some O else option_map S (first_slot p l')
  end.

(** [strncpy(dst, src, n - 1); dst[n - 1] = 0;] *)
Definition strncpy_z (n : nat) (src : list Z) : list Z := take (n - 1) src.

(** The first occurrence removed and the rest shifted down. *)
Fixpoint remove_first (x : Z) (l : list Z) : list Z :=
  match l with
  | [] => []
  | y :: l' => if y =? x then l' else y :: remove_first x l'
  end.

(** ** Helpers *)

Definition random_next s : auth * Z :=
  let r := random_state s in
  let r := Z.lxor r (u64 (Z.shiftl r 13)) in
  let r := Z.lxor r (Z.shiftr r 7) in
  let r := Z.lxor r (u64 (Z.shiftl r 17)) in
  (set_random r s, r).
Definition random_seed (seed : Z) s : auth := set_random (if seed =? 0 then 0x123456789ABCDEF0 else seed) s.

Definition hex_char (n : Z) : Z := nth (Z.to_nat n) (str "0123456789abcdef") 0.
Definition byte_to_hex (b : Z) : list Z := [hex_char (Z.land (Z.shiftr b 4) 0x0f); hex_char (Z.land b 0x0f)].
Definition hex_to_nibble (c : Z) : Z :=
  if (48 <=? c) && (c <=? 57) then c - 48
  else if (97 <=? c) && (c <=? 102) then c - 97 + 10
  else if (65 <=? c) && (c <=? 70) then c - 65 + 10
  else -1.
(** The byte at the start of a string, whose end reads as NUL. *)
Definition hex_to_byte (p : list Z) : Z :=
  let hi := hex_to_nibble (nth 0 p 0) in
  let lo := hex_to_nibble (nth 1 p 0) in
  if (hi <? 0) || (lo <? 0) then -1 else Z.lor (Z.shiftl hi 4) lo.

Fixpoint generate_salt (len : nat) s : auth * list Z :=
  match len with
  | O => (s, [])
  | S len' =>
      let '(s, r) := random_next s in
      let '(s, l) := generate_salt len' s in
      (s, Z.land r 0xff :: l)
  end.

Definition get_timestamp s : auth * Z := (set_tick (u64 (tick s + 1)) s, u64 (tick s + 1)).

Definition find_free_user_slot s : option nat := first_slot (fun u => negb (u_in_use u)) (users s).
Definition find_free_session_slot s : option nat := first_slot (fun x => negb (s_in_use x)) (sessions s).
Definition find_free_group_slot s : option nat := first_slot (fun g => negb (g_in_use g)) (groups s).

Definition auth_get_user (uid : Z) s : option nat := first_slot (fun u => u_in_use u && (u_uid u =? uid)) (users s).
Definition auth_get_user_by_name (name : option (list Z)) s : option nat :=
  match name with
  | None => None
  | Some n => first_slot (fun u => u_in_use u && bool_decide (username u = n)) (users s)
  end.
Definition auth_get_group (gid : Z) s : option nat := first_slot (fun g => g_in_use g && (g_gid g =? gid)) (groups s).
Definition auth_get_group_by_name (name : option (list Z)) s : option nat :=
  match name with
  | None => None
  | Some n => first_slot (fun g => g_in_use g && bool_decide (g_name g = n)) (groups s)
  end.
Definition auth_get_session (id : Z) s : option nat := first_slot (fun x => s_in_use x && (sid x =? id)) (sessions s).

Section Auth.
Variable stack_ctx : auth_sha256_ctx.

(** ** Passwords *)

(** The digest of the salt followed by at most 127 characters of the password. *)
Definition salted_digest (salt pwd : list Z) : list Z := auth_sha256 stack_ctx (salt ++ take (AUTH_PASSWORD_MAX - 1) pwd).

(** The status, and the string written to [hash_out]. *)
Definition auth_hash_password (password : option (list Z)) s : auth * Z * list Z :=
  match password with
  | None => (s, AUTH_ERR_INVAL, [])
  | Some pwd =>
      let '(s, salt) := generate_salt AUTH_SALT_SIZE s in
      let hash := salted_digest salt pwd in
      (s, AUTH_OK, concat (map byte_to_hex salt) ++ str "$" ++ concat (map byte_to_hex hash))
  end.

(** [k] bytes in hexadecimal from the front of a string, and the rest of it. *)
Fixpoint parse_hex (k : nat) (p : list Z) : option (list Z * list Z) :=
  match k with
  | O => Some ([], p)
  | S k' =>
      let b := hex_to_byte p in
      if b <? 0 then None
      else match parse_hex k' (drop 2 p) with
           | None => None
           | Some (l, p) => Some (b :: l, p)
           end
  end.
Definition auth_check_hash (password stored_hash : option (list Z)) : Z :=
  match password, stored_hash with
  | Some pwd, Some stored =>
      match parse_hex AUTH_SALT_SIZE stored with
      | None => AUTH_ERR_INVAL
      | Some (salt, p) =>
          if negb (nth 0 p 0 =? 36) then AUTH_ERR_INVAL
          else match parse_hex AUTH_HASH_SIZE (drop 1 p) with
          | None => AUTH_ERR_INVAL
          | Some (stored_bytes, _) =>
              let computed := salted_digest salt pwd in
              let result := fold_left (fun r i => Z.lor r (Z.lxor (nth i computed 0) (nth i stored_bytes 0)))
                              (seq 0 AUTH_HASH_SIZE) 0 in
              if result =? 0 then AUTH_OK else AUTH_ERR_BADPASS
          end
      end
  | _, _ => AUTH_ERR_INVAL
  end.

Definition count_failed_login s : auth :=
  let t := stats s in
  set_stats (mk_stats (st_total_users t) (st_active_sessions t) (st_total_logins t) (u32 (st_failed_logins t + 1))
    (st_total_groups t)) s.
Definition auth_verify_password (name password : option (list Z)) s : auth * Z :=
  match name, password with
  | Some _, Some _ =>
      match auth_get_user_by_name name s with
      | None => (s, AUTH_ERR_NOENT)
      | Some i =>
          let u := user_at i s in
          if negb (Z.land (u_flags u) AUTH_USER_LOCKED =? 0) then (s, AUTH_ERR_LOCKED)
          else
            let result := auth_check_hash password (Some (password_hash u)) in
            if negb (result =? AUTH_OK)
            then (count_failed_login (modify_user i (fun u => set_u_login (last_login u) (u32 (failed_logins u + 1)) u) s), result)
            else (s, result)
      end
  | _, _ => (s, AUTH_ERR_INVAL)
  end.

(** ** Sessions *)

Definition auth_login (name password : option (list Z)) s : auth * Z * option nat :=
  if negb (auth_initialized s) then (s, AUTH_ERR_INVAL, None)
  else match name, password with
  | Some _, Some _ =>
      let '(s, result) := auth_verify_password name password s in
      if negb (result =? AUTH_OK) then (s, result, None)
      else match auth_get_user_by_name name s with
      | None => (s, AUTH_ERR_NOENT, None)
      | Some i =>
          let u := user_at i s in
          if Z.land (u_flags u) AUTH_USER_ACTIVE =? 0 then (s, AUTH_ERR_PERM, None)
          else match find_free_session_slot s with
          | None => (s, AUTH_ERR_MAXSESSIONS, None)
          | Some j =>
              let id := next_sid s in
              let '(s, now) := get_timestamp s in
              let s := set_sessions (<[j := mk_session id (u_uid u) now now (str "tty0") SESSION_FLAG_ACTIVE true]> (sessions s))
                         (u32 (session_count s + 1)) (u32 (next_sid s + 1)) (current_session s) s in
              let s := modify_user i (set_u_login now 0) s in
              let t := stats s in
              (set_stats (mk_stats (st_total_users t) (u32 (st_active_sessions t + 1)) (u32 (st_total_logins t + 1))
                 (st_failed_logins t) (st_total_groups t)) s, AUTH_OK, Some j)
          end
      end
  | _, _ => (s, AUTH_ERR_INVAL, None)
  end.

Definition auth_logout (session : option nat) s : auth * Z :=
  match session with
  | None => (s, AUTH_ERR_INVAL)
  | Some j =>
      if negb (s_in_use (session_at j s)) then (s, AUTH_ERR_INVAL)
      else
        let cur := if bool_decide (current_session s = Some j) then None else current_session s in
        let s := set_sessions (<[j := zero_session]> (sessions s)) (u32 (session_count s - 1)) (next_sid s) cur s in
        let t := stats s in
        (set_stats (mk_stats (st_total_users t) (u32 (st_active_sessions t - 1)) (st_total_logins t) (st_failed_logins t)
           (st_total_groups t)) s, AUTH_OK)
  end.

Definition auth_touch_session (session : option nat) s : auth :=
  match session with
  | None => s
  | Some j =>
      if s_in_use (session_at j s) then
        let '(s, now) := get_timestamp s in
        modify_session j (fun x => mk_session (sid x) (s_uid x) (start_time x) now (terminal x) (s_flags x) (s_in_use x)) s
      else s
  end.
Definition auth_set_current_session (session : option nat) s : auth :=
  set_sessions (sessions s) (session_count s) (next_sid s) session s.
Definition auth_get_current_user s : option nat :=
  match current_session s with
  | Some j => if s_in_use (session_at j s) then auth_get_user (s_uid (session_at j s)) s else None
  | None => None
  end.
(** The pointers written to [sessions_out]; their number is the result. *)
Definition auth_get_user_sessions (uid : Z) (max_sessions : nat) s : list nat :=
  take max_sessions (List.filter (fun j => s_in_use (session_at j s) && (s_uid (session_at j s) =? uid)) (seq 0 AUTH_MAX_SESSIONS)).

(** ** Groups *)

Definition auth_is_member (uid gid : Z) s : bool :=
  match auth_get_user uid s with
  | None => false
  | Some i => (u_gid (user_at i s) =? gid) || bool_decide (gid ∈ u_groups (user_at i s))
  end.

Definition auth_add_to_group (uid gid : Z) s : auth * Z :=
  match auth_get_user uid s with
  | None => (s, AUTH_ERR_NOENT)
  | Some i =>
      match auth_get_group gid s with
      | None => (s, AUTH_ERR_NOENT)
      | Some g =>
          if auth_is_member uid gid s then (s, AUTH_OK)
          else if (AUTH_MAX_GROUP_MEMBERS <=? length (members (group_at g s)))%nat then (s, AUTH_ERR_MAXUSERS)
          else if (AUTH_MAX_GROUPS <=? length (u_groups (user_at i s)))%nat then (s, AUTH_ERR_MAXGROUPS)
          else
            let s := modify_group g (fun x => set_members (members x ++ [uid]) x) s in
            (modify_user i (fun u => set_u_groups (u_groups u ++ [gid]) u) s, AUTH_OK)
      end
  end.

Definition auth_remove_from_group (uid gid : Z) s : auth * Z :=
  match auth_get_user uid s, auth_get_group gid s with
  | Some i, Some g =>
      let s := modify_group g (fun x => set_members (remove_first uid (members x)) x) s in
      (modify_user i (fun u => set_u_groups (remove_first gid (u_groups u)) u) s, AUTH_OK)
  | _, _ => (s, AUTH_ERR_NOENT)
  end.

Definition auth_create_group (name : option (list Z)) (gid : Z) s : auth * Z :=
  match name with
  | None => (s, AUTH_ERR_INVAL)
  | Some n =>
      if negb (auth_initialized s) then (s, AUTH_ERR_INVAL)
      else if (length n =? 0)%nat || (AUTH_GROUP_NAME_MAX <=? length n)%nat then (s, AUTH_ERR_INVAL)
      else if bool_decide (is_Some (auth_get_group_by_name name s)) then (s, AUTH_ERR_EXISTS)
      else if negb (gid =? AUTH_GID_INVALID) && bool_decide (is_Some (auth_get_group gid s)) then (s, AUTH_ERR_EXISTS)
      else match find_free_group_slot s with
      | None => (s, AUTH_ERR_MAXGROUPS)
      | Some g =>
          let '(id, next) := if negb (gid =? AUTH_GID_INVALID) then (gid, next_gid s) else (next_gid s, u32 (next_gid s + 1)) in
          let s := set_groups (<[g := mk_group id (strncpy_z AUTH_GROUP_NAME_MAX n) [] true]> (groups s))
                     (u32 (group_count s + 1)) next s in
          let t := stats s in
          (set_stats (mk_stats (st_total_users t) (st_active_sessions t) (st_total_logins t) (st_failed_logins t)
             (u32 (st_total_groups t + 1))) s, AUTH_OK)
      end
  end.

Definition auth_delete_group (gid : Z) s : auth * Z :=
  if negb (auth_initialized s) then (s, AUTH_ERR_INVAL)
  else if gid =? AUTH_GID_ROOT then (s, AUTH_ERR_PERM)
  else match auth_get_group gid s with
  | None => (s, AUTH_ERR_NOENT)
  | Some g => (set_groups (<[g := zero_group]> (groups s)) (u32 (group_count s - 1)) (next_gid s) s, AUTH_OK)
  end.

(** ** Users *)

(** The user as auth_create_user fills it in. *)
Definition new_user (uid : Z) (name hash : list Z) (now : Z) : user :=
  mk_user uid AUTH_GID_USERS (strncpy_z AUTH_USERNAME_MAX name) hash
    (if uid =? AUTH_UID_ROOT then strncpy_z AUTH_HOME_DIR_MAX (str "/root") else take (AUTH_HOME_DIR_MAX - 1) (str "/home/" ++ name))
    (strncpy_z AUTH_SHELL_MAX (str "/bin/sh")) AUTH_USER_ACTIVE now 0 0 [] true.
Definition auth_create_user (name password : option (list Z)) (uid : Z) s : auth * Z :=
  if negb (auth_initialized s) then (s, AUTH_ERR_INVAL)
  else match name, password with
  | Some n, Some _ =>
      if (length n =? 0)%nat || (AUTH_USERNAME_MAX <=? length n)%nat then (s, AUTH_ERR_INVAL)
      else if bool_decide (is_Some (auth_get_user_by_name name s)) then (s, AUTH_ERR_EXISTS)
      else if negb (uid =? AUTH_UID_INVALID) && bool_decide (is_Some (auth_get_user uid s)) then (s, AUTH_ERR_EXISTS)
      else match find_free_user_slot s with
      | None => (s, AUTH_ERR_MAXUSERS)
      | Some i =>
          let '(id, next) := if negb (uid =? AUTH_UID_INVALID) then (uid, next_uid s) else (next_uid s, u32 (next_uid s + 1)) in
          let '(s, result, hash) := auth_hash_password password s in
          if negb (result =? AUTH_OK)
          then (set_users (<[i := mk_user id AUTH_GID_USERS n [] [] [] 0 0 0 0 [] false]> (users s)) (user_count s) next s, result)
          else
            let '(s, now) := get_timestamp s in
            let s := set_users (<[i := new_user id n hash now]> (users s)) (u32 (user_count s + 1)) next s in
            let t := stats s in
            (set_stats (mk_stats (u32 (st_total_users t + 1)) (st_active_sessions t) (st_total_logins t) (st_failed_logins t)
               (st_total_groups t)) s, AUTH_OK)
      end
  | _, _ => (s, AUTH_ERR_INVAL)
  end.

(** The sessions of a user are ended, slot by slot. *)
Definition end_session (uid : Z) s (j : nat) : auth :=
  if s_in_use (session_at j s) && (s_uid (session_at j s) =? uid) then fst (auth_logout (Some j) s) else s.
(** The user leaves the group in a slot. *)
Definition leave_group (uid : Z) s (g : nat) : auth :=
  if g_in_use (group_at g s) then fst (auth_remove_from_group uid (g_gid (group_at g s)) s) else s.
Definition auth_delete_user (uid : Z) s : auth * Z :=
  if negb (auth_initialized s) then (s, AUTH_ERR_INVAL)
  else if uid =? AUTH_UID_ROOT then (s, AUTH_ERR_PERM)
  else match auth_get_user uid s with
  | None => (s, AUTH_ERR_NOENT)
  | Some i =>
      let s := fold_left (end_session uid) (seq 0 AUTH_MAX_SESSIONS) s in
      let s := fold_left (leave_group uid) (seq 0 AUTH_MAX_GROUPS) s in
      (set_users (<[i := zero_user]> (users s)) (u32 (user_count s - 1)) (next_uid s) s, AUTH_OK)
  end.

Definition auth_set_password (uid : Z) (password : option (list Z)) s : auth * Z :=
  match password with
  | None => (s, AUTH_ERR_INVAL)
  | Some _ =>
      if negb (auth_initialized s) then (s, AUTH_ERR_INVAL)
      else match auth_get_user uid s with
      | None => (s, AUTH_ERR_NOENT)
      | Some i =>
          let '(s, result, hash) := auth_hash_password password s in
          ((if result =? AUTH_OK then modify_user i (set_u_hash hash) s else s), result)
      end
  end.

(** An operation on the user with a given id. *)
Definition on_user (uid : Z) (f : user -> user) s : auth * Z :=
  match auth_get_user uid s with
  | None => (s, AUTH_ERR_NOENT)
  | Some i => (modify_user i f s, AUTH_OK)
  end.
Definition auth_set_user_flags (uid flags : Z) s : auth * Z := on_user uid (set_u_flags flags) s.
Definition auth_set_home_dir (uid : Z) (dir : option (list Z)) s : auth * Z :=
  match dir with None => (s, AUTH_ERR_INVAL) | Some d => on_user uid (set_u_home (strncpy_z AUTH_HOME_DIR_MAX d)) s end.
Definition auth_set_shell (uid : Z) (sh : option (list Z)) s : auth * Z :=
  match sh with None => (s, AUTH_ERR_INVAL) | Some d => on_user uid (set_u_shell (strncpy_z AUTH_SHELL_MAX d)) s end.
Definition auth_lock_user (uid : Z) s : auth * Z :=
  on_user uid (fun u => set_u_flags (Z.lor (u_flags u) AUTH_USER_LOCKED) u) s.
Definition auth_unlock_user (uid : Z) s : auth * Z :=
  on_user uid (fun u => set_u_login (last_login u) 0 (set_u_flags (Z.land (u_flags u) (u32 (Z.lnot AUTH_USER_LOCKED))) u)) s.

Definition auth_is_admin (uid : Z) s : bool :=
  if uid =? AUTH_UID_ROOT then true
  else match auth_get_user uid s with
       | Some i => negb (Z.land (u_flags (user_at i s)) AUTH_USER_ADMIN =? 0)
       | None => false
       end.
Definition auth_is_root (uid : Z) : bool := uid =? AUTH_UID_ROOT.
Definition auth_get_stats s : auth_stats :=
  mk_stats (user_count s) (session_count s) (st_total_logins (stats s)) (st_failed_logins (stats s)) (group_count s).

(** ** Initialisation *)

Definition default_user (name password : list Z) (uid gid flags : Z) (f : user -> user) s : auth :=
  let '(s, result) := auth_create_user (Some name) (Some password) uid s in
  if result =? AUTH_OK then
    match auth_get_user uid s with
    | Some i =>
        let s := modify_user i (fun u => f (set_u_flags flags (set_u_gid gid u))) s in
        fst (auth_add_to_group uid gid s)
    | None => s
    end
  else s.
Definition auth_init s : auth * Z :=
  if auth_initialized s then (s, AUTH_OK)
  else
    let s := set_users (replicate AUTH_MAX_USERS zero_user) 0 (next_uid s) s in
    let s := set_sessions (replicate AUTH_MAX_SESSIONS zero_session) 0 (next_sid s) None s in
    let s := set_groups (replicate AUTH_MAX_GROUPS zero_group) 0 (next_gid s) s in
    let s := set_stats (mk_stats 0 0 0 0 0) s in
    let s := random_seed 0x1234567890ABCDEF s in
    let s := set_initialized true s in
    let s := fst (auth_create_group (Some (str "root")) AUTH_GID_ROOT s) in
    let s := fst (auth_create_group (Some (str "users")) AUTH_GID_USERS s) in
    let s := default_user (str "root") (str "root") AUTH_UID_ROOT AUTH_GID_ROOT (Z.lor AUTH_USER_ACTIVE AUTH_USER_ADMIN)
               (set_u_home (strncpy_z AUTH_HOME_DIR_MAX (str "/root"))) s in
    let s := default_user (str "guest") (str "guest") AUTH_UID_GUEST AUTH_GID_USERS AUTH_USER_ACTIVE (fun u => u) s in
    (s, AUTH_OK).
Definition auth_shutdown s : auth :=
  if negb (auth_initialized s) then s
  else
    let s := fold_left (fun s j => if s_in_use (session_at j s) then fst (auth_logout (Some j) s) else s)
               (seq 0 AUTH_MAX_SESSIONS) s in
    let s := set_users (replicate AUTH_MAX_USERS zero_user) (user_count s) (next_uid s) s in
    let s := set_sessions (replicate AUTH_MAX_SESSIONS zero_session) (session_count s) (next_sid s) (current_session s) s in
    let s := set_groups (replicate AUTH_MAX_GROUPS zero_group) (group_count s) (next_gid s) s in
    set_initialized false s.
End Auth.
