(* ===== verification/AuthProps.v ===== *)
(** * Invariants of the authentication system (security/auth/auth.c)

    Every operation keeps the tables well formed: usernames are unique, every session
    belongs to an account, the counters count, and the root account stays. *)
From S2P Require Import Prelude Ring Sha256 AuthSha Auth.
Implicit Types s : auth.

(** ** Tables *)

Section Tables.
Context {A : Type}.
Implicit Types l : list A.
Implicit Types p : A -> bool.

Lemma first_slot_some p l i : first_slot p l = Some i ->
  exists x, l !! i = Some x /\ p x = true /\ forall j y, (j < i)%nat -> l !! j = Some y -> p y = false.
Proof.
  revert i. induction l as [|x l IH]; intros i; simpl; [done|]. destruct (p x) eqn:E.
  - intros [= <-]. exists x. split; [done|]. split; [done|]. intros j y Hj. lia.
  - destruct (first_slot p l) as [k|]; [|done]. intros [= <-]. destruct (IH k eq_refl) as (y & Hy & Hp & Hn).
    exists y. split; [done|]. split; [done|]. intros [|j] z Hj Hz; [by injection Hz as <-|]. apply (Hn j); [lia|done].
Qed.
Lemma first_slot_none p l : first_slot p l = None <-> forall i x, l !! i = Some x -> p x = false.
Proof.
  induction l as [|x l IH]; simpl; [done|]. destruct (p x) eqn:E.
  - split; [done|]. intros H. by rewrite (H 0%nat x eq_refl) in E.
  - destruct (first_slot p l) as [k|].
    + split; [done|]. intros H. destruct (IH) as [_ IH2]. discriminate IH2. intros i y Hy. by apply (H (S i)).
    + split; [|done]. intros _ [|i] y Hy; [by injection Hy as <-|]. by apply (proj1 IH eq_refl i).
Qed.
Lemma first_slot_exists p l i x : l !! i = Some x -> p x = true -> is_Some (first_slot p l).
Proof.
  intros Hi Hp. destruct (first_slot p l) eqn:E; [by eexists|]. rewrite first_slot_none in E. by rewrite (E i x Hi) in Hp.
Qed.

(** The number of slots in use. *)
Definition count_slots_in p l : nat := length (List.filter p l).

Lemma count_insert p l i x y : l !! i = Some x ->
  Z.of_nat (count_slots_in p (<[i:=y]> l)) = Z.of_nat (count_slots_in p l) - (if p x then 1 else 0) + (if p y then 1 else 0).
Proof.
  unfold count_slots_in. revert i. induction l as [|z l IH]; intros i Hi; [done|]. destruct i as [|i].
  - injection Hi as ->. simpl. destruct (p x), (p y); simpl; lia.
  - specialize (IH i Hi). change (<[S i:=y]> (z :: l)) with (z :: <[i:=y]> l). cbn [List.filter]. destruct (p z); cbn [length]; lia.
Qed.
Lemma count_alter p l i (f : A -> A) : (forall x, p (f x) = p x) -> count_slots_in p (alter f i l) = count_slots_in p l.
Proof.
  intros Hf. unfold count_slots_in. revert i. induction l as [|z l IH]; intros i; [done|]. destruct i as [|i].
  - change (alter f 0%nat (z :: l)) with (f z :: l). cbn [List.filter]. rewrite Hf. by destruct (p z).
  - change (alter f (S i) (z :: l)) with (z :: alter f i l). cbn [List.filter]. specialize (IH i). by destruct (p z); cbn [length]; rewrite IH.
Qed.
Lemma count_le p l : (count_slots_in p l <= length l)%nat.
Proof. unfold count_slots_in. induction l as [|z l IH]; cbn [List.filter length]; [lia|]. destruct (p z); cbn [length]; lia. Qed.
Lemma count_replicate p n x : p x = false -> count_slots_in p (replicate n x) = 0%nat.
Proof. intros Hp. unfold count_slots_in. induction n as [|n IH]; [done|]. cbn [replicate List.filter]. by rewrite Hp. Qed.

Lemma lookup_insert_inv l i j x y : <[i:=x]> l !! j = Some y -> (j = i /\ y = x) \/ (j <> i /\ l !! j = Some y).
Proof.
  destruct (decide (j = i)) as [->|Hn].
  - intros H. left. split; [done|]. destruct (decide (i < length l)%nat).
    + rewrite list_lookup_insert_eq in H by done. by injection H.
    + rewrite list_insert_ge in H by lia. apply lookup_lt_Some in H. lia.
  - rewrite list_lookup_insert_ne by done. by right.
Qed.
Lemma lookup_alter_inv l i j (f : A -> A) y : alter f i l !! j = Some y ->
  exists x, l !! j = Some x /\ (y = x \/ (j = i /\ y = f x)).
Proof.
  destruct (decide (j = i)) as [->|Hn].
  - rewrite list_lookup_alter_eq. destruct (l !! i) as [x|]; [|done]. intros [= <-]. exists x. auto.
  - rewrite list_lookup_alter_ne by done. intros H. exists y. auto.
Qed.
End Tables.

(** ** The invariant *)

Definition names_unique (l : list user) : Prop :=
  forall i j u v, l !! i = Some u -> l !! j = Some v -> u_in_use u = true -> u_in_use v = true ->
    username u = username v -> i = j.
Definition has_account (us : list user) (uid : Z) : Prop :=
  exists i u, us !! i = Some u /\ u_in_use u = true /\ u_uid u = uid.
Definition sessions_owned (us : list user) (ss : list session) : Prop :=
  forall j x, ss !! j = Some x -> s_in_use x = true -> has_account us (s_uid x).
(** A user's list of groups. *)
Definition groups_ok (u : user) : Prop := NoDup (u_groups u) /\ (length (u_groups u) <= AUTH_MAX_GROUPS)%nat.

Record auth_ok s : Prop := mk_auth_ok {
  ao_users : length (users s) = AUTH_MAX_USERS;
  ao_sessions : length (sessions s) = AUTH_MAX_SESSIONS;
  ao_groups : length (groups s) = AUTH_MAX_GROUPS;
  ao_names : names_unique (users s);
  ao_lists : Forall groups_ok (users s);
  ao_owned : sessions_owned (users s) (sessions s);
}.
(** What holds while the system is initialised; the root account exists once auth_init
    has created it. *)
Record auth_counts (b : bool) s : Prop := mk_auth_counts {
  ac_users : user_count s = Z.of_nat (count_slots_in u_in_use (users s));
  ac_sessions : session_count s = Z.of_nat (count_slots_in s_in_use (sessions s));
  ac_groups : group_count s = Z.of_nat (count_slots_in g_in_use (groups s));
  ac_root : b = true -> has_account (users s) AUTH_UID_ROOT;
}.
Definition auth_inv (b : bool) s : Prop := auth_ok s /\ (auth_initialized s = true -> auth_counts b s).
Definition auth_wf s : Prop := auth_inv true s.

Section Inv.
Context {b : bool}.

(** The three tables and what counts them; everything else is irrelevant to the
    invariant. *)
Definition same_tables s s' : Prop :=
  users s' = users s /\ sessions s' = sessions s /\ groups s' = groups s /\ user_count s' = user_count s /\
  session_count s' = session_count s /\ group_count s' = group_count s /\ auth_initialized s' = auth_initialized s.
Lemma same_tables_wf s s' : same_tables s s' -> auth_inv b s -> auth_inv b s'.
Proof.
  intros (E1 & E2 & E3 & E4 & E5 & E6 & E7) [[] Hc]. split; [split; by rewrite ?E1, ?E2, ?E3|].
  rewrite E7. intros Hi. destruct (Hc Hi). split; by rewrite ?E1, ?E2, ?E3, ?E4, ?E5, ?E6.
Qed.
Lemma set_stats_wf t s : auth_inv b s -> auth_inv b (set_stats t s).
Proof. apply same_tables_wf. by split_and!. Qed.
Lemma set_tick_wf t s : auth_inv b s -> auth_inv b (set_tick t s).
Proof. apply same_tables_wf. by split_and!. Qed.

(** Counters are 32 bits wide and the tables are small. *)
Lemma counter_small {A} (p : A -> bool) l : (length l <= 64)%nat -> 0 <= Z.of_nat (count_slots_in p l) <= 64.
Proof. intros Hl. pose proof (count_le p l). lia. Qed.

(** ** Users *)

(** A change of an account that keeps who it is. *)
Definition same_account (f : user -> user) : Prop :=
  (forall u, u_in_use (f u) = u_in_use u /\ u_uid (f u) = u_uid u /\ username (f u) = username u) /\
  (forall u, groups_ok u -> groups_ok (f u)).

Lemma has_account_alter us i f uid :
  (forall u, u_in_use (f u) = u_in_use u /\ u_uid (f u) = u_uid u /\ username (f u) = username u) -> has_account us uid -> has_account (alter f i us) uid.
Proof.
  intros Hf (j & u & Hu & Hl & Hid). destruct (Hf u) as (F1 & F2 & _). exists j. destruct (decide (j = i)) as [->|Hn].
  - exists (f u). rewrite list_lookup_alter_eq, Hu. split; [done|]. by rewrite F1, F2.
  - exists u. by rewrite list_lookup_alter_ne.
Qed.

(** The change may also depend on the account it is made to. *)
Lemma modify_user_at_wf i f s :
  (forall u, u_in_use (f u) = u_in_use u /\ u_uid (f u) = u_uid u /\ username (f u) = username u) ->
  (forall u, users s !! i = Some u -> groups_ok u -> groups_ok (f u)) -> auth_inv b s -> auth_inv b (modify_user i f s).
Proof.
  intros Hf Hgo [[L1 L2 L3 Hn Hg Ho] Hc]. split.
  - split; cbn [modify_user set_users users sessions groups]; try done.
    + by rewrite length_alter.
    + intros a c u v Ha Hb Hu Hv Hname. apply lookup_alter_inv in Ha as (u' & Ha & Eu), Hb as (v' & Hb & Ev).
      destruct (Hf u') as (F1 & _ & F3), (Hf v') as (G1 & _ & G3).
      apply (Hn a c u' v'); destruct Eu as [->|[_ ->]], Ev as [->|[_ ->]]; congruence.
    + apply Forall_lookup. intros a u Ha. apply lookup_alter_inv in Ha as (u' & Ha & Eu).
      rewrite Forall_lookup in Hg. specialize (Hg a u' Ha). destruct Eu as [->|[-> ->]]; auto.
    + intros j x Hx Hl. by apply has_account_alter, (Ho j x).
  - intros Hi. destruct (Hc Hi) as [C1 C2 C3 C4]. split; cbn [modify_user set_users users sessions groups user_count session_count group_count];
      try done; [|intros Hr; by apply has_account_alter, C4]. rewrite count_alter; [done|]. intros u. apply Hf.
Qed.
Lemma modify_user_wf i f s : same_account f -> auth_inv b s -> auth_inv b (modify_user i f s).
Proof. intros [Hf Hg] Hw. apply modify_user_at_wf; auto. Qed.

Lemma same_account_simple f :
  (forall u, u_in_use (f u) = u_in_use u /\ u_uid (f u) = u_uid u /\ username (f u) = username u /\ u_groups (f u) = u_groups u) ->
  same_account f.
Proof. intros Hf. split; [intros u; specialize (Hf u); tauto|]. intros u Hg. unfold groups_ok. by rewrite (proj2 (proj2 (proj2 (Hf u)))). Qed.

Lemma on_user_wf uid f s : same_account f -> auth_inv b s -> auth_inv b (fst (on_user uid f s)).
Proof. intros Hf Hw. unfold on_user. destruct (auth_get_user uid s); [|done]. by apply modify_user_wf. Qed.

(** ** Passwords do not touch the tables *)

Lemma generate_salt_tables len s : same_tables s (fst (generate_salt len s)).
Proof.
  revert s. induction len as [|len IH]; intros s; cbn [generate_salt]; [by split_and!|].
  cbn [random_next]. specialize (IH (set_random (Z.lxor (Z.lxor (Z.lxor (random_state s) (u64 (Z.shiftl (random_state s) 13)))
    (Z.shiftr (Z.lxor (random_state s) (u64 (Z.shiftl (random_state s) 13))) 7))
    (u64 (Z.shiftl (Z.lxor (Z.lxor (random_state s) (u64 (Z.shiftl (random_state s) 13)))
    (Z.shiftr (Z.lxor (random_state s) (u64 (Z.shiftl (random_state s) 13))) 7)) 17))) s)).
  destruct (generate_salt len _) as [s' l]. exact IH.
Qed.

Section Auth.
Variable stack_ctx : auth_sha256_ctx.

Lemma hash_password_tables pw s s' r h : auth_hash_password stack_ctx pw s = (s', r, h) -> same_tables s s'.
Proof.
  unfold auth_hash_password. destruct pw as [p|]; [|by intros [= <- _ _]; split_and!].
  pose proof (generate_salt_tables AUTH_SALT_SIZE s) as H. destruct (generate_salt AUTH_SALT_SIZE s) as [s1 salt].
  generalize (salted_digest stack_ctx salt p). intros d. by intros [= <- _ _].
Qed.

Lemma verify_password_wf name pw s : auth_inv b s -> auth_inv b (fst (auth_verify_password stack_ctx name pw s)).
Proof.
  intros Hw. unfold auth_verify_password. destruct name, pw; try done. destruct (auth_get_user_by_name _ s) as [i|]; [|done].
  cbv zeta. case_if; [done|]. case_if; [|done]. cbn [fst]. apply set_stats_wf, modify_user_wf; [|done].
  by apply same_account_simple.
Qed.

Lemma set_password_wf uid pw s : auth_inv b s -> auth_inv b (fst (auth_set_password stack_ctx uid pw s)).
Proof.
  intros Hw. unfold auth_set_password. destruct pw as [p|]; [|done]. case_if; [done|].
  destruct (auth_get_user uid s) as [i|]; [|done].
  destruct (auth_hash_password stack_ctx (Some p) s) as [[s' r] h] eqn:Eh. apply hash_password_tables in Eh.
  assert (auth_inv b s') as Hw' by (by eapply same_tables_wf). cbn [fst]. case_if; [|done].
  apply modify_user_wf; [by apply same_account_simple|done].
Qed.

(** ** Creating and deleting accounts *)

Lemma has_account_insert us i u x uid : us !! i = Some x -> u_in_use x = false -> has_account us uid -> has_account (<[i:=u]> us) uid.
Proof.
  intros Hi Hx (j & v & Hv & Hl & Hid). exists j, v. rewrite list_lookup_insert_ne; [done|]. intros ->. congruence.
Qed.

Lemma by_name_none name s : auth_get_user_by_name (Some name) s = None ->
  forall i u, users s !! i = Some u -> u_in_use u = true -> username u <> name.
Proof.
  intros H i u Hi Hu He. pose proof (proj1 (first_slot_none _ _) H i u Hi) as Hf. cbv beta in Hf.
  by rewrite Hu, bool_decide_eq_true_2 in Hf.
Qed.

(** A new account in a free slot. *)
Lemma install_user_wf i u x next s : auth_inv b s -> auth_initialized s = true -> users s !! i = Some x -> u_in_use x = false ->
  u_in_use u = true -> u_groups u = [] ->
  (forall j v, users s !! j = Some v -> u_in_use v = true -> username v <> username u) ->
  auth_inv b (set_users (<[i:=u]> (users s)) (u32 (user_count s + 1)) next s).
Proof.
  intros [[L1 L2 L3 Hn Hg Ho] Hc] Hi Hx Hf Hu Hug Hfresh. destruct (Hc Hi) as [C1 C2 C3 C4]. split.
  - split; cbn [set_users users sessions groups]; try done.
    + by rewrite length_insert.
    + intros a c v w Ha Hb Hv Hw Hname. apply lookup_insert_inv in Ha as [[-> ->]|[Ha1 Ha]], Hb as [[-> ->]|[Hb1 Hb]].
      * done.
      * exfalso. by apply (Hfresh c w Hb Hw).
      * exfalso. by apply (Hfresh a v Ha Hv).
      * by apply (Hn a c v w).
    + apply Forall_insert; [done|]. unfold groups_ok. rewrite Hug. split; [constructor|]. cbn. lia.
    + intros j y Hy Hl. eapply has_account_insert; eauto.
  - intros _. split; cbn [set_users users sessions groups user_count session_count group_count]; try done.
    + rewrite (count_insert _ _ _ x) by done. rewrite Hf, Hu.
      pose proof (counter_small u_in_use (users s)). rewrite C1. unfold AUTH_MAX_USERS in *. rewrite u32_id by lia. lia.
    + intros Hr. eapply has_account_insert; eauto.
Qed.

Lemma hash_password_ok p s s' r h : auth_hash_password stack_ctx (Some p) s = (s', r, h) -> r = AUTH_OK.
Proof.
  unfold auth_hash_password. destruct (generate_salt AUTH_SALT_SIZE s) as [s2 salt].
  generalize (salted_digest stack_ctx salt p). intros d. by intros [= _ <- _].
Qed.

Lemma create_user_wf name pw uid s : auth_inv b s -> auth_inv b (fst (auth_create_user stack_ctx name pw uid s)).
Proof.
  intros Hw. unfold auth_create_user. destruct (negb (auth_initialized s)) eqn:Ei; [done|]. apply negb_false_iff in Ei.
  destruct name as [n|]; [|done]. destruct pw as [p|]; [|done]. destruct (_ || _) eqn:El; [done|].
  apply orb_false_iff in El as [El1 El2]. apply Nat.leb_gt in El2.
  destruct (bool_decide _) eqn:En; [done|]. apply bool_decide_eq_false in En.
  destruct (_ && _); [done|]. destruct (find_free_user_slot s) as [i|] eqn:Ef; [|done].
  destruct (if negb (uid =? AUTH_UID_INVALID) then _ else _) as [id next].
  destruct (auth_hash_password stack_ctx (Some p) s) as [[s1 r] h] eqn:Eh.
  pose proof (hash_password_ok _ _ _ _ _ Eh) as ->. apply hash_password_tables in Eh.
  pose proof (same_tables_wf _ _ Eh Hw) as Hw1. destruct Eh as (T1 & _ & _ & _ & _ & _ & T7).
  rewrite Z.eqb_refl. cbn [negb get_timestamp]. cbn [fst]. apply set_stats_wf.
  apply first_slot_some in Ef as (x & Hx & Hf & _). apply negb_true_iff in Hf.
  apply (install_user_wf i _ x); [by apply set_tick_wf|exact (eq_trans T7 Ei)|exact (eq_trans (f_equal (lookup i) T1) Hx)|done|done|done|].
  intros j v Hv Hl. cbn [new_user username]. unfold strncpy_z, AUTH_USERNAME_MAX in *. rewrite take_ge by lia.
  apply (by_name_none n s) with (i := j); [|exact (eq_trans (f_equal (lookup j) (eq_sym T1)) Hv)|done].
  destruct (auth_get_user_by_name (Some n) s); [|done]. destruct En. by eexists.
Qed.

Lemma logout_wf j s : auth_inv b s -> auth_inv b (fst (auth_logout j s)).
Proof.
  intros Hw. unfold auth_logout. destruct j as [j|]; [|done]. destruct (negb _) eqn:El; [done|]. apply negb_false_iff in El.
  cbv zeta. cbn [fst]. apply set_stats_wf. unfold session_at in El. destruct (sessions s !! j) as [x|] eqn:Ex; [|done]. cbn in El.
  destruct Hw as [[L1 L2 L3 Hn Hg Ho] Hc]. split.
  - split; cbn [set_sessions users sessions groups]; try done; [by rewrite length_insert|].
    intros k y Hy Hl. apply lookup_insert_inv in Hy as [[_ ->]|[_ Hy]]; [done|by apply (Ho k y)].
  - intros Hi. destruct (Hc Hi) as [C1 C2 C3 C4]. split; cbn [set_sessions users sessions groups user_count session_count group_count]; try done.
    rewrite (count_insert _ _ _ x) by done. rewrite El. cbn [zero_session s_in_use]. rewrite C2.
    pose proof (counter_small s_in_use (sessions s)). unfold AUTH_MAX_SESSIONS in *.
    pose proof (count_insert s_in_use _ _ _ zero_session Ex) as Hci. rewrite El in Hci. cbn in Hci. rewrite u32_id by lia. lia.
Qed.

(** Ending a session keeps the accounts, and the other sessions. *)
Lemma logout_keeps j s : users (fst (auth_logout j s)) = users s /\
  auth_initialized (fst (auth_logout j s)) = auth_initialized s /\
  forall k x, sessions (fst (auth_logout j s)) !! k = Some x -> s_in_use x = true -> sessions s !! k = Some x.
Proof.
  unfold auth_logout. destruct j as [j|]; [|done]. destruct (negb _); [done|]. split; [done|]. split; [done|].
  intros k x Hx Hl. cbn [fst set_stats set_sessions sessions] in Hx. by apply lookup_insert_inv in Hx as [[_ ->]|[_ Hx]].
Qed.

Lemma end_session_keeps uid s j : let s' := end_session uid s j in
  users s' = users s /\ auth_initialized s' = auth_initialized s /\
  (forall k x, sessions s' !! k = Some x -> s_in_use x = true -> sessions s !! k = Some x) /\
  (forall x, sessions s' !! j = Some x -> s_in_use x = true -> s_uid x <> uid).
Proof.
  cbv zeta. unfold end_session. destruct (_ && _) eqn:E.
  - destruct (logout_keeps (Some j) s) as (H1 & H2 & H3). split; [done|]. split; [done|]. split; [done|].
    intros x Hx Hl. apply andb_true_iff in E as [El _]. unfold auth_logout in Hx. rewrite El in Hx. cbn in Hx.
    by apply lookup_insert_inv in Hx as [[_ ->]|[? _]].
  - split; [done|]. split; [done|]. split; [done|]. intros x Hx Hl He. unfold session_at in E. rewrite Hx in E. cbn in E.
    by rewrite Hl, He, Z.eqb_refl in E.
Qed.

Lemma end_sessions_spec uid js s : let s' := fold_left (end_session uid) js s in
  users s' = users s /\ auth_initialized s' = auth_initialized s /\
  (forall k x, sessions s' !! k = Some x -> s_in_use x = true -> sessions s !! k = Some x) /\
  (forall j x, In j js -> sessions s' !! j = Some x -> s_in_use x = true -> s_uid x <> uid).
Proof.
  revert s. induction js as [|j js IH]; intros s; [by cbn|]. cbn [fold_left].
  destruct (end_session_keeps uid s j) as (H1 & H2 & H3 & H4). destruct (IH (end_session uid s j)) as (I1 & I2 & I3 & I4).
  cbv zeta in *. split; [congruence|]. split; [congruence|]. split; [eauto|].
  intros k x [->|Hk] Hx Hl; [|by eapply I4]. apply (H4 x); [|done]. by apply I3.
Qed.

Lemma fold_wf {B : Type} (f : auth -> B -> auth) l s : (forall s x, auth_inv b s -> auth_inv b (f s x)) -> auth_inv b s -> auth_inv b (fold_left f l s).
Proof. intros Hf. revert s. induction l as [|x l IH]; intros s Hw; [done|]. cbn [fold_left]. by apply IH, Hf. Qed.

Lemma end_session_wf uid s j : auth_inv b s -> auth_inv b (end_session uid s j).
Proof. intros Hw. unfold end_session. case_if; [by apply logout_wf|done]. Qed.

(** ** Groups *)

Lemma modify_group_wf g f s : (forall x, g_in_use (f x) = g_in_use x) -> auth_inv b s -> auth_inv b (modify_group g f s).
Proof.
  intros Hf [[L1 L2 L3 Hn Hg Ho] Hc]. split; [split; try done; cbn; by rewrite length_alter|].
  intros Hi. destruct (Hc Hi) as [C1 C2 C3 C4]. split; try done. cbn [modify_group set_groups groups group_count]. by rewrite count_alter.
Qed.

Lemma remove_first_sub x l : remove_first x l `sublist_of` l.
Proof. induction l as [|y l IH]; simpl; [done|]. case_if; [by apply sublist_cons|by apply sublist_skip]. Qed.
Lemma remove_first_gone x l : NoDup l -> x ∉ remove_first x l.
Proof.
  induction l as [|y l IH]; intros Hn; simpl; [apply not_elem_of_nil|]. apply NoDup_cons in Hn as [Hy Hn].
  case_if; [by subst|]. rewrite not_elem_of_cons. auto.
Qed.
Lemma remove_first_keeps x y l : y <> x -> y ∈ remove_first x l <-> y ∈ l.
Proof.
  intros Hy. induction l as [|z l IH]; simpl; [done|]. rewrite elem_of_cons. case_if.
  - subst. split; [by right|]. intros [->|?]; done.
  - by rewrite elem_of_cons, IH.
Qed.
Lemma remove_group_ok gid u : groups_ok u -> groups_ok (set_u_groups (remove_first gid (u_groups u)) u).
Proof.
  intros [Hn Hl]. pose proof (remove_first_sub gid (u_groups u)) as Hs. split; cbn [set_u_groups u_groups].
  - by eapply sublist_NoDup.
  - apply sublist_length in Hs. lia.
Qed.

Lemma remove_from_group_wf uid gid s : auth_inv b s -> auth_inv b (fst (auth_remove_from_group uid gid s)).
Proof.
  intros Hw. unfold auth_remove_from_group. destruct (auth_get_user uid s) as [i|]; [|done].
  destruct (auth_get_group gid s) as [g|]; [|done]. cbn [fst]. apply modify_user_wf; [|by apply modify_group_wf].
  split; [done|]. intros u. apply remove_group_ok.
Qed.

Lemma add_to_group_wf uid gid s : auth_inv b s -> auth_inv b (fst (auth_add_to_group uid gid s)).
Proof.
  intros Hw. unfold auth_add_to_group. destruct (auth_get_user uid s) as [i|] eqn:Eu; [|done].
  destruct (auth_get_group gid s) as [g|]; [|done]. destruct (auth_is_member uid gid s) eqn:Em; [done|].
  case_if; [done|]. destruct (AUTH_MAX_GROUPS <=? _)%nat eqn:El; [done|]. apply Nat.leb_gt in El. cbn [fst].
  apply modify_user_at_wf; [done| |by apply modify_group_wf]. intros u Hu [Hn Hl].
  unfold auth_is_member in Em. rewrite Eu in Em. apply orb_false_iff in Em as [_ Em]. apply bool_decide_eq_false in Em.
  unfold user_at in Em, El. change (users (modify_group g _ s)) with (users s) in Hu. rewrite Hu in Em, El. cbn in Em, El.
  split; cbn [set_u_groups u_groups].
  - apply NoDup_app. split; [done|]. split; [|apply NoDup_singleton]. intros y Hy. rewrite list_elem_of_singleton. congruence.
  - rewrite length_app. cbn. lia.
Qed.

Lemma set_groups_wf l c next s x i y : auth_inv b s -> groups s !! i = Some x -> l = <[i:=y]> (groups s) ->
  (auth_initialized s = true -> c = Z.of_nat (count_slots_in g_in_use l)) -> auth_inv b (set_groups l c next s).
Proof.
  intros [[L1 L2 L3 Hn Hg Ho] Hc] Hx -> Hcnt. split; [split; try done; cbn; by rewrite length_insert|].
  intros Hi. destruct (Hc Hi) as [C1 C2 C3 C4]. split; try done. by apply Hcnt.
Qed.

Lemma create_group_wf name gid s : auth_inv b s -> auth_inv b (fst (auth_create_group name gid s)).
Proof.
  intros Hw. unfold auth_create_group. destruct name as [n|]; [|done]. destruct (negb (auth_initialized s)) eqn:Ei; [done|].
  destruct (_ || _); [done|]. destruct (bool_decide _); [done|]. destruct (_ && _); [done|].
  destruct (find_free_group_slot s) as [g|] eqn:Ef; [|done].
  destruct (if negb (gid =? AUTH_GID_INVALID) then _ else _) as [id next]. cbn [fst]. apply set_stats_wf.
  apply first_slot_some in Ef as (x & Hx & Hf & _). apply negb_true_iff in Hf.
  eapply set_groups_wf; [done|exact Hx|done|]. intros Hi. destruct Hw as [[] Hc]. destruct (Hc Hi).
  rewrite (count_insert _ _ _ x) by done. rewrite Hf. cbn [g_in_use].
  pose proof (counter_small g_in_use (groups s)). unfold AUTH_MAX_GROUPS in *. rewrite u32_id by lia. lia.
Qed.

Lemma delete_group_wf gid s : auth_inv b s -> auth_inv b (fst (auth_delete_group gid s)).
Proof.
  intros Hw. unfold auth_delete_group. case_if; [done|]. case_if; [done|].
  destruct (auth_get_group gid s) as [g|] eqn:Ef; [|done]. cbn [fst].
  apply first_slot_some in Ef as (x & Hx & Hf & _). apply andb_true_iff in Hf as [Hf _].
  eapply set_groups_wf; [done|exact Hx|done|]. intros Hi. destruct Hw as [[] Hc]. destruct (Hc Hi).
  pose proof (count_insert g_in_use _ _ _ zero_group Hx) as Hci. rewrite Hf in Hci. cbn [zero_group g_in_use] in Hci.
  pose proof (counter_small g_in_use (groups s)). unfold AUTH_MAX_GROUPS in *. rewrite u32_id by lia. lia.
Qed.

(** ** Deleting an account *)

(** Who the slots of the user table belong to. *)
Definition ident (u : user) : bool * Z * list Z := (u_in_use u, u_uid u, username u).
Definition idents s : list (bool * Z * list Z) := map ident (users s).

Lemma idents_lookup s s' i u : idents s' = idents s -> users s !! i = Some u -> exists u', users s' !! i = Some u' /\ ident u' = ident u.
Proof.
  intros He Hu. assert (idents s' !! i = Some (ident u)) as Hi by (rewrite He; unfold idents; by rewrite list_lookup_fmap, Hu).
  unfold idents in Hi. rewrite list_lookup_fmap in Hi. destruct (users s' !! i) as [u'|]; [|done]. exists u'. split; [done|].
  by apply (inj Some) in Hi.
Qed.
Lemma idents_modify i f s : (forall u, ident (f u) = ident u) -> idents (modify_user i f s) = idents s.
Proof.
  intros Hf. unfold idents, modify_user. cbn [set_users users]. apply list_eq. intros j. rewrite !list_lookup_fmap, list_lookup_alter.
  case_decide; [subst|done]. destruct (users s !! j) as [u|]; [|done]. cbn. by rewrite Hf.
Qed.

Lemma remove_from_group_keeps uid gid s : let s' := fst (auth_remove_from_group uid gid s) in
  idents s' = idents s /\ sessions s' = sessions s /\ auth_initialized s' = auth_initialized s.
Proof.
  cbv zeta. unfold auth_remove_from_group. destruct (auth_get_user uid s) as [i|]; [|done].
  destruct (auth_get_group gid s) as [g|]; [|done]. cbn [fst]. split; [|done]. by rewrite idents_modify.
Qed.
Lemma leave_groups_keeps uid gs s : let s' := fold_left (leave_group uid) gs s in
  idents s' = idents s /\ sessions s' = sessions s /\ auth_initialized s' = auth_initialized s.
Proof.
  cbv zeta. revert s. induction gs as [|g gs IH]; intros s; [done|]. cbn [fold_left].
  destruct (IH (leave_group uid s g)) as (I1 & I2 & I3). unfold leave_group in I1, I2, I3 |- *.
  destruct (g_in_use (group_at g s)); [|done]. destruct (remove_from_group_keeps uid (g_gid (group_at g s)) s) as (R1 & R2 & R3).
  split; [congruence|]. split; congruence.
Qed.
Lemma leave_group_wf uid s g : auth_inv b s -> auth_inv b (leave_group uid s g).
Proof. intros Hw. unfold leave_group. case_if; [by apply remove_from_group_wf|done]. Qed.

Lemma has_account_delete us i u uid : us !! i = Some u -> u_uid u <> uid -> has_account us uid -> has_account (<[i:=zero_user]> us) uid.
Proof.
  intros Hi Hne (j & v & Hv & Hl & Hid). exists j, v. rewrite list_lookup_insert_ne; [done|]. intros ->. congruence.
Qed.

(** The slot of an account that has no session left and is not root is cleared. *)
Lemma clear_user_wf i u s : auth_inv b s -> users s !! i = Some u -> u_in_use u = true -> u_uid u <> AUTH_UID_ROOT ->
  (forall j x, sessions s !! j = Some x -> s_in_use x = true -> s_uid x <> u_uid u) ->
  auth_inv b (set_users (<[i:=zero_user]> (users s)) (u32 (user_count s - 1)) (next_uid s) s).
Proof.
  intros [[L1 L2 L3 Hn Hg Ho] Hc] Hi Hu Hr Hs. split.
  - split; cbn [set_users users sessions groups]; try done.
    + by rewrite length_insert.
    + intros a c v w Ha Hb Hv Hw Hname. apply lookup_insert_inv in Ha as [[-> ->]|[Ha1 Ha]], Hb as [[-> ->]|[Hb1 Hb]]; try done.
      by apply (Hn a c v w).
    + apply Forall_insert; [done|]. split; [constructor|]. cbn. lia.
    + intros j y Hy Hl. apply (has_account_delete _ i u); [done|by apply not_eq_sym, (Hs j y)|by apply (Ho j y)].
  - intros Hin. destruct (Hc Hin) as [C1 C2 C3 C4]. split; cbn [set_users users sessions groups user_count session_count group_count]; try done.
    + pose proof (count_insert u_in_use _ _ _ zero_user Hi) as Hci. rewrite Hu in Hci. cbn [zero_user u_in_use] in Hci.
      pose proof (counter_small u_in_use (users s)). unfold AUTH_MAX_USERS in *. rewrite C1, u32_id by lia. lia.
    + intros Hr'. apply (has_account_delete _ i u); auto.
Qed.

(** What deleting an account goes through. *)
Lemma delete_user_spec uid s i : auth_inv b s -> auth_initialized s = true -> uid <> AUTH_UID_ROOT -> auth_get_user uid s = Some i ->
  exists s2 u, auth_delete_user uid s = (set_users (<[i:=zero_user]> (users s2)) (u32 (user_count s2 - 1)) (next_uid s2) s2, AUTH_OK) /\
    auth_inv b s2 /\ idents s2 = idents s /\ users s2 !! i = Some u /\ u_in_use u = true /\ u_uid u = uid /\
    auth_initialized s2 = true /\
    (forall k x, sessions s2 !! k = Some x -> s_in_use x = true -> sessions s !! k = Some x /\ s_uid x <> uid).
Proof.
  intros Hw Hi Hr Hg. unfold auth_delete_user. rewrite Hi, Hg. cbn [negb]. rewrite (proj2 (Z.eqb_neq _ _)) by done.
  set (s1 := fold_left (end_session uid) _ s). set (s2 := fold_left (leave_group uid) _ s1).
  destruct (end_sessions_spec uid (seq 0 AUTH_MAX_SESSIONS) s) as (E1 & E2 & E3 & E4). fold s1 in E1, E2, E3, E4.
  destruct (leave_groups_keeps uid (seq 0 AUTH_MAX_GROUPS) s1) as (G1 & G2 & G3). fold s2 in G1, G2, G3.
  assert (auth_inv b s1) as Hw1 by (apply fold_wf; [intros; by apply end_session_wf|done]).
  assert (auth_inv b s2) as Hw2 by (apply fold_wf; [intros; by apply leave_group_wf|done]).
  assert (idents s2 = idents s) as Hid by (rewrite G1; unfold idents; by rewrite E1).
  apply first_slot_some in Hg as (u & Hu & Hp & _). apply andb_true_iff in Hp as [Hp1 Hp2]. apply Z.eqb_eq in Hp2.
  destruct (idents_lookup s s2 i u Hid Hu) as (u' & Hu' & He). injection He as He1 He2 He3.
  exists s2, u'. split; [done|]. do 3 (split; [done|]). split; [congruence|]. split; [congruence|]. split; [congruence|].
  intros k x Hx Hl. rewrite G2 in Hx. split; [by apply E3|]. apply (E4 k x); [|done|done].
  apply in_seq. apply lookup_lt_Some in Hx. destruct Hw1 as [[] _]. lia.
Qed.

Lemma delete_user_wf uid s : auth_inv b s -> auth_inv b (fst (auth_delete_user uid s)).
Proof.
  intros Hw. destruct (auth_initialized s) eqn:Hi; [|unfold auth_delete_user; by rewrite Hi].
  destruct (Z.eq_dec uid AUTH_UID_ROOT) as [->|Hr]; [unfold auth_delete_user; by rewrite Hi|].
  destruct (auth_get_user uid s) as [i|] eqn:Hg.
  - destruct (delete_user_spec uid s i Hw Hi Hr Hg) as (s2 & u & -> & Hw2 & _ & Hu & Hl & Hid & _ & Hs). cbn [fst].
    apply (clear_user_wf i u); [done|done|done|congruence|]. intros k x Hx Hlx. rewrite Hid. by apply (Hs k x).
  - unfold auth_delete_user. rewrite Hi, Hg. cbn [negb]. by case_if.
Qed.
End Auth.
End Inv.
