(* ===== verification/AuthSpec.v ===== *)
(** * Theorems of the authentication system (security/auth/auth.c)

    The invariant over every history, what logging in and deleting an account do, the
    round trip of password hashes, and group membership. *)
From Stdlib Require Import String.
From S2P Require Import Prelude Ring Sha256 AuthSha Auth AuthProps.
Close Scope string_scope.
Implicit Types s : auth.

Section Spec.
Variable stack_ctx : auth_sha256_ctx.
Context {b : bool}.

(** ** Sessions *)

Lemma install_session_wf j y x n cur s : auth_inv b s -> sessions s !! j = Some x -> s_in_use x = false ->
  s_in_use y = true -> has_account (users s) (s_uid y) ->
  auth_inv b (set_sessions (<[j:=y]> (sessions s)) (u32 (session_count s + 1)) n cur s).
Proof.
  intros [[L1 L2 L3 Hn Hg Ho] Hc] Hj Hx Hy Ha. split.
  - split; cbn [set_sessions users sessions groups]; try done; [by rewrite length_insert|].
    intros k z Hz Hl. apply lookup_insert_inv in Hz as [[_ ->]|[_ Hz]]; [done|by apply (Ho k z)].
  - intros Hi. destruct (Hc Hi) as [C1 C2 C3 C4]. split; cbn [set_sessions users sessions groups user_count session_count group_count]; try done.
    rewrite (count_insert _ _ _ x) by done. rewrite Hx, Hy, C2. pose proof (counter_small s_in_use (sessions s)).
    unfold AUTH_MAX_SESSIONS in *. rewrite u32_id by lia. lia.
Qed.

Lemma by_name_some name s i : auth_get_user_by_name (Some name) s = Some i ->
  exists u, users s !! i = Some u /\ user_at i s = u /\ u_in_use u = true /\ username u = name.
Proof.
  intros H. apply first_slot_some in H as (u & Hu & Hp & _). apply andb_true_iff in Hp as [Hp1 Hp2].
  apply bool_decide_eq_true in Hp2. exists u. unfold user_at. by rewrite Hu.
Qed.
Lemma by_name_unique name s i u : auth_inv b s -> users s !! i = Some u -> u_in_use u = true -> username u = name ->
  auth_get_user_by_name (Some name) s = Some i.
Proof.
  intros Hw Hu Hl Hn. assert (is_Some (auth_get_user_by_name (Some name) s)) as [j Hj].
  { apply (first_slot_exists _ _ i u Hu). by rewrite Hl, bool_decide_eq_true_2. }
  rewrite Hj. destruct (by_name_some name s j Hj) as (v & Hv & _ & Hvl & Hvn). f_equal.
  destruct Hw as [[] _]. by apply (ao_names j i v u); congruence || auto.
Qed.

Lemma set_tick_users t s : users (set_tick t s) = users s.
Proof. reflexivity. Qed.

(** The state after a successful login. *)
Definition logged_in (i j : nat) (u : user) s : auth :=
  let now := u64 (tick s + 1) in
  let s1 := set_tick now s in
  let s2 := set_sessions (<[j := mk_session (next_sid s) (u_uid u) now now (str "tty0") SESSION_FLAG_ACTIVE true]> (sessions s))
              (u32 (session_count s + 1)) (u32 (next_sid s + 1)) (current_session s) s1 in
  let s3 := modify_user i (set_u_login now 0) s2 in
  let t := stats s in
  set_stats (mk_stats (st_total_users t) (u32 (st_active_sessions t + 1)) (u32 (st_total_logins t + 1))
    (st_failed_logins t) (st_total_groups t)) s3.

Definition locked (u : user) : bool := negb (Z.land (u_flags u) AUTH_USER_LOCKED =? 0).
Definition active (u : user) : bool := negb (Z.land (u_flags u) AUTH_USER_ACTIVE =? 0).
(** The password is the account's. *)
Definition password_ok (u : user) (pw : list Z) : bool := auth_check_hash stack_ctx (Some pw) (Some (password_hash u)) =? AUTH_OK.

Lemma verify_cases name pw s : auth_verify_password stack_ctx (Some name) (Some pw) s =
  match auth_get_user_by_name (Some name) s with
  | None => (s, AUTH_ERR_NOENT)
  | Some i =>
      if locked (user_at i s) then (s, AUTH_ERR_LOCKED)
      else if password_ok (user_at i s) pw then (s, AUTH_OK)
      else (count_failed_login (modify_user i (fun u => set_u_login (last_login u) (u32 (failed_logins u + 1)) u) s),
            auth_check_hash stack_ctx (Some pw) (Some (password_hash (user_at i s))))
  end.
Proof.
  unfold auth_verify_password. destruct (auth_get_user_by_name (Some name) s) as [i|]; [|reflexivity].
  unfold locked, password_ok. cbv zeta. destruct (negb (Z.land _ _ =? 0)); [reflexivity|].
  generalize (auth_check_hash stack_ctx (Some pw) (Some (password_hash (user_at i s)))). intros r.
  destruct (r =? AUTH_OK) eqn:E; cbn [negb]; [apply Z.eqb_eq in E; by rewrite E|reflexivity].
Qed.

Lemma login_cases name pw s : auth_initialized s = true ->
  auth_login stack_ctx (Some name) (Some pw) s =
  match auth_get_user_by_name (Some name) s with
  | None => (s, AUTH_ERR_NOENT, None)
  | Some i =>
      if locked (user_at i s) then (s, AUTH_ERR_LOCKED, None)
      else if password_ok (user_at i s) pw then
        if active (user_at i s) then
          match find_free_session_slot s with
          | None => (s, AUTH_ERR_MAXSESSIONS, None)
          | Some j => (logged_in i j (user_at i s) s, AUTH_OK, Some j)
          end
        else (s, AUTH_ERR_PERM, None)
      else (count_failed_login (modify_user i (fun u => set_u_login (last_login u) (u32 (failed_logins u + 1)) u) s),
            auth_check_hash stack_ctx (Some pw) (Some (password_hash (user_at i s))), None)
  end.
Proof.
  intros Hi. unfold auth_login. rewrite Hi. cbn [negb]. rewrite verify_cases.
  destruct (auth_get_user_by_name (Some name) s) as [i|] eqn:En; [|reflexivity].
  destruct (locked (user_at i s)); [reflexivity|]. destruct (password_ok (user_at i s) pw) eqn:Ep.
  - rewrite Z.eqb_refl. cbn [negb]. rewrite En. cbv zeta. unfold active. destruct (Z.land _ _ =? 0); cbn [negb]; [reflexivity|].
    destruct (find_free_session_slot s) as [j|]; reflexivity.
  - unfold password_ok in Ep. rewrite Ep. cbn [negb]. reflexivity.
Qed.

Lemma user_account i s u : users s !! i = Some u -> u_in_use u = true -> has_account (users s) (u_uid u).
Proof. intros Hu Hl. by exists i, u. Qed.

Lemma logged_in_wf i j u s : auth_inv b s -> users s !! i = Some u -> u_in_use u = true -> find_free_session_slot s = Some j ->
  auth_inv b (logged_in i j u s).
Proof.
  intros Hw Hu Hl Hj. apply first_slot_some in Hj as (x & Hx & Hf & _). apply negb_true_iff in Hf.
  unfold logged_in. cbv zeta. apply set_stats_wf, modify_user_wf; [by apply same_account_simple|].
  eapply (install_session_wf j _ x _ _ (set_tick _ s)); [by apply set_tick_wf|exact Hx|done|done|].
  by apply (user_account i).
Qed.

Lemma login_wf name pw s : auth_inv b s -> auth_inv b (fst (fst (auth_login stack_ctx name pw s))).
Proof.
  intros Hw. destruct (auth_initialized s) eqn:Hi; [|unfold auth_login; by rewrite Hi].
  destruct name as [n|]; [|unfold auth_login; by rewrite Hi]. destruct pw as [p|]; [|unfold auth_login; by rewrite Hi].
  rewrite login_cases by done. destruct (auth_get_user_by_name (Some n) s) as [i|] eqn:En; [|done].
  destruct (by_name_some n s i En) as (u & Hu & Hat & Hl & _). rewrite Hat.
  destruct (locked u); [done|]. destruct (password_ok u p).
  - destruct (active u); [|done]. destruct (find_free_session_slot s) as [j|] eqn:Ej; [|done]. cbn [fst].
    by apply logged_in_wf.
  - cbn [fst]. apply set_stats_wf, modify_user_wf; [by apply same_account_simple|done].
Qed.

(** C23: on an initialised system a login succeeds exactly when an account of that name
    exists, is not locked, is active, the password is its password and a session slot is
    free; then a slot that was free holds a new session of that account, the account's
    failed attempts are reset and the other sessions are as they were. Otherwise no
    session changes, and a wrong password is counted against the account. *)
Theorem auth_login_contract name pw s :
  auth_inv b s -> auth_initialized s = true ->
  let '(s', r, out) := auth_login stack_ctx (Some name) (Some pw) s in
  (r = AUTH_OK <-> exists i u, users s !! i = Some u /\ u_in_use u = true /\ username u = name /\ locked u = false /\
                     active u = true /\ password_ok u pw = true /\ is_Some (find_free_session_slot s)) /\
  (r = AUTH_OK -> exists i j u, out = Some j /\ users s !! i = Some u /\ username u = name /\ u_in_use u = true /\
     s_in_use (session_at j s) = false /\ s_in_use (session_at j s') = true /\ s_uid (session_at j s') = u_uid u /\
     sid (session_at j s') = next_sid s /\ failed_logins (user_at i s') = 0 /\
     forall k, k <> j -> sessions s' !! k = sessions s !! k) /\
  (r <> AUTH_OK -> out = None /\ sessions s' = sessions s /\
     forall i u, users s !! i = Some u -> u_in_use u = true -> username u = name -> locked u = false ->
       failed_logins (user_at i s') = if password_ok u pw then failed_logins u else u32 (failed_logins u + 1)).
Proof.
  intros Hw Hi. rewrite login_cases by done. destruct (auth_get_user_by_name (Some name) s) as [i|] eqn:En.
  2: { split; [|split; [done|]].
       - split; [done|]. intros (i & u & Hu & Hl & Hname & _). by rewrite (by_name_unique name s i u) in En.
       - intros _. split; [done|]. split; [done|]. intros i u Hu Hl Hname. by rewrite (by_name_unique name s i u) in En. }
  destruct (by_name_some name s i En) as (u & Hu & Hat & Hl & Hname). rewrite Hat.
  assert (forall k v, users s !! k = Some v -> u_in_use v = true -> username v = name -> k = i /\ v = u) as Hone.
  { intros k v Hv Hvl Hvn. rewrite (by_name_unique name s k v) in En by done. injection En as <-. split; [done|congruence]. }
  destruct (locked u) eqn:Elo.
  { split; [|split; [done|]].
    - split; [done|]. intros (k & v & Hv & Hvl & Hvn & Hlo & _). destruct (Hone k v) as [_ ->]; congruence.
    - intros _. split; [done|]. split; [done|]. intros k v Hv Hvl Hvn Hlo. destruct (Hone k v) as [_ ->]; congruence. }
  destruct (password_ok u pw) eqn:Epw.
  2: { assert (auth_check_hash stack_ctx (Some pw) (Some (password_hash u)) <> AUTH_OK) as Hr by (by apply Z.eqb_neq).
       split; [|split; [by intros|]].
       - split; [by intros|]. intros (k & v & Hv & Hvl & Hvn & _ & _ & Hp & _). destruct (Hone k v) as [_ ->]; congruence.
       - intros _. split; [done|]. split; [done|]. intros k v Hv Hvl Hvn _. destruct (Hone k v) as [-> ->]; [done..|]. rewrite Epw.
         unfold user_at. cbn [count_failed_login set_stats modify_user set_users users]. by rewrite list_lookup_alter_eq, Hu. }
  destruct (active u) eqn:Eac.
  2: { split; [|split; [done|]].
       - split; [done|]. intros (k & v & Hv & Hvl & Hvn & _ & Ha & _). destruct (Hone k v) as [_ ->]; congruence.
       - intros _. split; [done|]. split; [done|]. intros k v Hv Hvl Hvn _. destruct (Hone k v) as [-> ->]; [done..|].
         by rewrite Epw, Hat. }
  destruct (find_free_session_slot s) as [j|] eqn:Ej.
  2: { split; [|split; [done|]].
       - split; [done|]. intros (k & v & _ & _ & _ & _ & _ & _ & [x Hx]). done.
       - intros _. split; [done|]. split; [done|]. intros k v Hv Hvl Hvn _. destruct (Hone k v) as [-> ->]; [done..|].
         by rewrite Epw, Hat. }
  apply first_slot_some in Ej as (x & Hx & Hf & _). apply negb_true_iff in Hf.
  assert (j < length (sessions s))%nat as Hlt by (by eapply lookup_lt_Some).
  split; [|split; [|done]].
  - split; [|done]. intros _. exists i, u. split_and!; try done.
  - intros _. exists i, j, u. do 4 (split; [done|]). unfold session_at, user_at.
    cbn [logged_in set_stats modify_user set_users set_sessions set_tick users sessions].
    rewrite Hx, list_lookup_insert_eq by done. rewrite list_lookup_alter_eq, Hu. do 5 (split; [done|]).
    intros k Hk. by rewrite list_lookup_insert_ne.
Qed.

(** when deleting an account succeeds it was not root's, its sessions are ended, the
    name cannot log in any more, and every other account is still there. *)
Theorem auth_delete_contract uid s s' i u :
  auth_inv b s -> users s !! i = Some u -> u_in_use u = true -> auth_get_user uid s = Some i ->
  auth_delete_user uid s = (s', AUTH_OK) ->
  uid <> AUTH_UID_ROOT /\ (forall j x, sessions s' !! j = Some x -> s_in_use x = true -> s_uid x <> uid) /\
  auth_get_user_by_name (Some (username u)) s' = None /\
  (forall k v, k <> i -> users s !! k = Some v -> exists v', users s' !! k = Some v' /\ ident v' = ident v) /\
  (auth_get_user uid s' = None \/ exists k v, k <> i /\ users s !! k = Some v /\ u_in_use v = true /\ u_uid v = uid).
Proof.
  intros Hw Hu Hl Hg Hd. destruct (auth_initialized s) eqn:Hi; [|unfold auth_delete_user in Hd; by rewrite Hi in Hd].
  destruct (Z.eq_dec uid AUTH_UID_ROOT) as [->|Hr]; [unfold auth_delete_user in Hd; by rewrite Hi in Hd|]. split; [done|].
  destruct (delete_user_spec uid s i Hw Hi Hr Hg) as (s2 & u2 & He & Hw2 & Hid & Hu2 & Hl2 & Huid & Hi2 & Hs).
  rewrite He in Hd. injection Hd as <-. cbn [set_users sessions users].
  destruct (idents_lookup s s2 i u Hid Hu) as (w & Hww & Hwi). assert (w = u2) as -> by congruence. injection Hwi as W1 W2 W3.
  split; [intros j x Hx Hlx; by apply (Hs j x)|]. split; [|split].
  - cbn [auth_get_user_by_name]. apply first_slot_none. cbn [set_users users]. intros k v Hv.
    apply lookup_insert_inv in Hv as [[-> ->]|[Hk Hv]]; [done|]. destruct (u_in_use v) eqn:Ev; [|done]. cbn [andb].
    apply bool_decide_eq_false. intros Hn. apply Hk. destruct Hw2 as [[] _]. apply (ao_names k i v u2); congruence || auto.
  - intros k v Hk Hv. destruct (idents_lookup s s2 k v Hid Hv) as (v' & Hv' & Hvi). exists v'. by rewrite list_lookup_insert_ne.
  - match goal with |- ?x = None \/ _ => destruct x as [k|] eqn:Ek; [right|by left] end.
    apply first_slot_some in Ek as (v & Hv & Hp & _). cbn [set_users users] in Hv. apply andb_true_iff in Hp as [Hp1 Hp2].
    apply Z.eqb_eq in Hp2. apply lookup_insert_inv in Hv as [[-> ->]|[Hk Hv]]; [done|].
    destruct (idents_lookup s2 s k v (eq_sym Hid) Hv) as (v' & Hv' & Hvi). injection Hvi as V1 V2 V3.
    exists k, v'. split_and!; congruence.
Qed.

(** ** Every history *)

Lemma touch_wf j s : auth_inv b s -> auth_inv b (auth_touch_session j s).
Proof.
  intros Hw. unfold auth_touch_session. destruct j as [j|]; [|done]. destruct (s_in_use (session_at j s)) eqn:El; [|done].
  cbn [get_timestamp]. unfold modify_session. unfold session_at in El. destruct (sessions s !! j) as [x|] eqn:Ex; [|done]. cbn in El.
  destruct Hw as [[L1 L2 L3 Hn Hg Ho] Hc]. split.
  - split; cbn [set_sessions set_tick users sessions groups]; try done; [by rewrite length_alter|].
    intros k y Hy Hl. apply lookup_alter_inv in Hy as (z & Hz & [->|[-> ->]]); [by apply (Ho k z)|]. by apply (Ho j z).
  - intros Hi. destruct (Hc Hi) as [C1 C2 C3 C4].
    split; cbn [set_sessions set_tick users sessions groups user_count session_count group_count]; try done. by rewrite count_alter.
Qed.

Lemma shutdown_wf s : auth_inv b s -> auth_inv b (auth_shutdown s).
Proof.
  intros Hw. unfold auth_shutdown. case_if; [done|]. cbv zeta. set (s1 := fold_left _ _ s). split; [|done].
  split; cbn [set_initialized set_groups set_sessions set_users users sessions groups]; try (by rewrite length_replicate).
  - intros i j u v Hu. apply lookup_replicate in Hu as [-> _]. done.
  - apply Forall_replicate. split; [constructor|]. cbn. lia.
  - intros j x Hx. apply lookup_replicate in Hx as [-> _]. done.
Qed.

(** The tables as auth_init clears them, with the default groups. *)
Definition cleared s : auth :=
  let s := set_users (replicate AUTH_MAX_USERS zero_user) 0 (next_uid s) s in
  let s := set_sessions (replicate AUTH_MAX_SESSIONS zero_session) 0 (next_sid s) None s in
  let s := set_groups (replicate AUTH_MAX_GROUPS zero_group) 0 (next_gid s) s in
  set_initialized true (random_seed 0x1234567890ABCDEF (set_stats (mk_stats 0 0 0 0 0) s)).

Lemma cleared_ok s : auth_ok (cleared s).
Proof.
  split; cbn [cleared set_initialized random_seed set_random set_stats set_groups set_sessions set_users users sessions groups];
    try (by rewrite length_replicate).
  - intros i j u v Hu. apply lookup_replicate in Hu as [-> _]. done.
  - apply Forall_replicate. split; [constructor|]. cbn. lia.
  - intros j x Hx. apply lookup_replicate in Hx as [-> _]. done.
Qed.
End Spec.

(** ** Initialisation *)

Section Init.
Variable stack_ctx : auth_sha256_ctx.

Lemma cleared_inv s : auth_inv false (cleared s).
Proof. split; [apply cleared_ok|]. intros _. split; try done; cbn; by rewrite count_replicate. Qed.

Lemma has_account_idents s s' uid : idents s' = idents s -> has_account (users s) uid -> has_account (users s') uid.
Proof.
  intros He (i & u & Hu & Hl & Hid). destruct (idents_lookup s s' i u He Hu) as (u' & Hu' & Hi). injection Hi as H1 H2 H3.
  exists i, u'. split; [done|]. by rewrite H1, H2.
Qed.
Lemma inv_with_root s : auth_inv false s -> has_account (users s) AUTH_UID_ROOT -> auth_wf s.
Proof. intros [Ho Hc] Hr. split; [done|]. intros Hi. destruct (Hc Hi). by split. Qed.

Lemma create_group_keeps name gid s : let s' := fst (auth_create_group name gid s) in
  users s' = users s /\ auth_initialized s' = auth_initialized s.
Proof.
  cbv zeta. unfold auth_create_group. destruct name as [n|]; [|done]. repeat (case_if; [done|]).
  destruct (find_free_group_slot s); [|done]. by destruct (if negb (gid =? AUTH_GID_INVALID) then _ else _).
Qed.
Lemma add_to_group_idents uid gid s : idents (fst (auth_add_to_group uid gid s)) = idents s.
Proof.
  unfold auth_add_to_group. destruct (auth_get_user uid s) as [i|]; [|done]. destruct (auth_get_group gid s) as [g|]; [|done].
  do 3 (case_if; [done|]). cbn [fst]. by rewrite idents_modify.
Qed.

(** The first account that is created gets its slot. *)
Lemma create_first_user n p uid s : users s = replicate AUTH_MAX_USERS zero_user -> auth_initialized s = true ->
  (0 < length n < AUTH_USERNAME_MAX)%nat -> uid <> AUTH_UID_INVALID ->
  snd (auth_create_user stack_ctx (Some n) (Some p) uid s) = AUTH_OK /\
  has_account (users (fst (auth_create_user stack_ctx (Some n) (Some p) uid s))) uid.
Proof.
  intros Hu Hi Hn Huid. unfold auth_create_user. rewrite Hi. cbn [negb].
  assert (auth_get_user_by_name (Some n) s = None) as -> by (apply first_slot_none; rewrite Hu; intros i x Hx; by apply lookup_replicate in Hx as [-> _]).
  assert (auth_get_user uid s = None) as -> by (apply first_slot_none; rewrite Hu; intros i x Hx; by apply lookup_replicate in Hx as [-> _]).
  assert (find_free_user_slot s = Some 0%nat) as -> by (unfold find_free_user_slot; rewrite Hu; reflexivity).
  rewrite (proj2 (Nat.eqb_neq _ _)), (proj2 (Nat.leb_gt _ _)) by lia. cbn [orb].
  rewrite !bool_decide_eq_false_2 by (by intros [? ?]). rewrite andb_false_r, (proj2 (Z.eqb_neq uid _)) by done. cbn [negb].
  destruct (auth_hash_password stack_ctx (Some p) s) as [[s1 r] h] eqn:Eh.
  pose proof (hash_password_ok _ _ _ _ _ _ Eh) as ->. apply hash_password_tables in Eh as (T1 & _).
  rewrite Z.eqb_refl. cbn [negb get_timestamp snd fst]. split; [done|].
  exists 0%nat, (new_user uid n h (u64 (tick s1 + 1))). split; [|done].
  cbn [set_stats set_users set_tick users]. by rewrite T1, Hu.
Qed.

Lemma default_user_inv {b} n p uid gid flags f s : same_account f -> auth_inv b s ->
  auth_inv b (default_user stack_ctx n p uid gid flags f s).
Proof.
  intros Hf Hw. unfold default_user. pose proof (create_user_wf stack_ctx (Some n) (Some p) uid s Hw) as Hc.
  destruct (auth_create_user stack_ctx (Some n) (Some p) uid s) as [s1 r]. cbn [fst] in Hc. case_if; [|done].
  destruct (auth_get_user uid s1) as [i|]; [|done]. apply add_to_group_wf, modify_user_wf; [|done].
  destruct Hf as [Hf Hg]. split; [intros u; by destruct (Hf (set_u_flags flags (set_u_gid gid u)))|]. intros u Hu. by apply Hg.
Qed.
Lemma default_user_account n p uid gid flags f s : same_account f -> users s = replicate AUTH_MAX_USERS zero_user ->
  auth_initialized s = true -> (0 < length n < AUTH_USERNAME_MAX)%nat -> uid <> AUTH_UID_INVALID ->
  has_account (users (default_user stack_ctx n p uid gid flags f s)) uid.
Proof.
  intros [Hf _] Hu Hi Hn Huid. destruct (create_first_user n p uid s) as [Hr Ha]; try done. unfold default_user.
  destruct (auth_create_user stack_ctx (Some n) (Some p) uid s) as [s1 r]. cbn [fst snd] in *. subst r. rewrite Z.eqb_refl.
  destruct (auth_get_user uid s1) as [i|]; [|done].
  eapply has_account_idents; [|exact Ha]. rewrite add_to_group_idents. apply idents_modify.
  intros u. unfold ident. destruct (Hf (set_u_flags flags (set_u_gid gid u))) as (-> & -> & ->). done.
Qed.

Lemma same_account_id : same_account (fun u => u).
Proof. by apply same_account_simple. Qed.
Lemma same_account_home d : same_account (set_u_home d).
Proof. by apply same_account_simple. Qed.

Lemma auth_init_eq s : auth_initialized s = false -> auth_init stack_ctx s =
  (default_user stack_ctx (str "guest") (str "guest") AUTH_UID_GUEST AUTH_GID_USERS AUTH_USER_ACTIVE (fun u => u)
    (default_user stack_ctx (str "root") (str "root") AUTH_UID_ROOT AUTH_GID_ROOT (Z.lor AUTH_USER_ACTIVE AUTH_USER_ADMIN)
      (set_u_home (strncpy_z AUTH_HOME_DIR_MAX (str "/root")))
      (fst (auth_create_group (Some (str "users")) AUTH_GID_USERS
        (fst (auth_create_group (Some (str "root")) AUTH_GID_ROOT (cleared s)))))), AUTH_OK).
Proof. intros Hi. unfold auth_init. rewrite Hi. reflexivity. Qed.

Lemma init_wf s : auth_wf s \/ auth_initialized s = false -> auth_wf (fst (auth_init stack_ctx s)).
Proof.
  intros Hs. destruct (auth_initialized s) eqn:Hi.
  - destruct Hs as [Hs|Hs]; [|done]. unfold auth_init. by rewrite Hi.
  - rewrite auth_init_eq by done. cbn [fst].
    set (s1 := fst (auth_create_group (Some (str "root")) AUTH_GID_ROOT (cleared s))).
    set (s2 := fst (auth_create_group (Some (str "users")) AUTH_GID_USERS s1)).
    destruct (create_group_keeps (Some (str "root")) AUTH_GID_ROOT (cleared s)) as [K1 K2]. fold s1 in K1, K2.
    destruct (create_group_keeps (Some (str "users")) AUTH_GID_USERS s1) as [K3 K4]. fold s2 in K3, K4.
    assert (auth_inv false s2) as Hw2 by (apply create_group_wf, create_group_wf, cleared_inv). clearbody s1 s2.
    apply default_user_inv; [apply same_account_id|]. apply inv_with_root.
    + apply default_user_inv; [apply same_account_home|done].
    + apply default_user_account; [apply same_account_home|by rewrite K3, K1|by rewrite K4, K2|split; by apply Nat.ltb_lt|done].
Qed.

(** ** Every history *)

Inductive auth_step : auth -> auth -> Prop :=
  | step_init s : auth_step s (fst (auth_init stack_ctx s))
  | step_shutdown s : auth_step s (auth_shutdown s)
  | step_create_user n p uid s : auth_step s (fst (auth_create_user stack_ctx n p uid s))
  | step_delete_user uid s : auth_step s (fst (auth_delete_user uid s))
  | step_set_password uid p s : auth_step s (fst (auth_set_password stack_ctx uid p s))
  | step_set_flags uid f s : auth_step s (fst (auth_set_user_flags uid f s))
  | step_set_home uid d s : auth_step s (fst (auth_set_home_dir uid d s))
  | step_set_shell uid d s : auth_step s (fst (auth_set_shell uid d s))
  | step_lock uid s : auth_step s (fst (auth_lock_user uid s))
  | step_unlock uid s : auth_step s (fst (auth_unlock_user uid s))
  | step_verify n p s : auth_step s (fst (auth_verify_password stack_ctx n p s))
  | step_login n p s : auth_step s (fst (fst (auth_login stack_ctx n p s)))
  | step_logout j s : auth_step s (fst (auth_logout j s))
  | step_touch j s : auth_step s (auth_touch_session j s)
  | step_current j s : auth_step s (auth_set_current_session j s)
  | step_create_group n gid s : auth_step s (fst (auth_create_group n gid s))
  | step_delete_group gid s : auth_step s (fst (auth_delete_group gid s))
  | step_add uid gid s : auth_step s (fst (auth_add_to_group uid gid s))
  | step_remove uid gid s : auth_step s (fst (auth_remove_from_group uid gid s)).

Lemma auth_step_wf s s' : auth_step s s' -> auth_wf s -> auth_wf s'.
Proof.
  destruct 1; intros Hw.
  - apply init_wf. by left.
  - by apply shutdown_wf.
  - by apply create_user_wf.
  - by apply delete_user_wf.
  - by apply set_password_wf.
  - by apply on_user_wf; [apply same_account_simple|].
  - destruct d as [d|]; [|done]. by apply on_user_wf; [apply same_account_simple|].
  - destruct d as [d|]; [|done]. by apply on_user_wf; [apply same_account_simple|].
  - by apply on_user_wf; [apply same_account_simple|].
  - by apply on_user_wf; [apply same_account_simple|].
  - by apply verify_password_wf.
  - by apply login_wf.
  - by apply logout_wf.
  - by apply touch_wf.
  - eapply same_tables_wf; [|exact Hw]. by split_and!.
  - by apply create_group_wf.
  - by apply delete_group_wf.
  - by apply add_to_group_wf.
  - by apply remove_from_group_wf.
Qed.

(** C19: after initialisation and any sequence of calls of the interface, in any order and
    with any arguments: no two accounts have the same name, every session belongs to an
    existing account, an account's list of groups has no duplicates and fits its array,
    and while the system is initialised the three counters equal the number of slots in
    use and the root account exists. *)
Theorem auth_tables_invariant s : rtc auth_step (fst (auth_init stack_ctx boot_auth)) s -> auth_wf s.
Proof.
  intros Hr. assert (auth_wf (fst (auth_init stack_ctx boot_auth))) as H0 by (apply init_wf; by right). revert H0.
  induction Hr as [|x y z Hs _ IH]; [done|]. intros Hx. by apply IH, (auth_step_wf x).
Qed.
End Init.

(** ** Passwords, groups and identities (security/auth/auth.c)

    A hash made for a password accepts it, a new account can log in, membership follows
    the group operations, and two accounts can come to share a user id. *)

Close Scope string_scope.

Definition byte_list (l : list Z) : Prop := Forall (fun b => 0 <= b < 256) l.

(** ** Hexadecimal *)

Lemma hex_byte_table : forallb (fun k => hex_to_byte (byte_to_hex (Z.of_nat k)) =? Z.of_nat k) (seq 0 256) = true.
Proof. vm_compute. reflexivity. Qed.
Lemma hex_byte_roundtrip b r : 0 <= b < 256 -> hex_to_byte (byte_to_hex b ++ r) = b.
Proof.
  intros Hb. change (hex_to_byte (byte_to_hex b ++ r)) with (hex_to_byte (byte_to_hex b)).
  pose proof (proj1 (forallb_forall _ _) hex_byte_table (Z.to_nat b)) as H. cbv beta in H. rewrite Z2Nat.id in H by lia.
  apply Z.eqb_eq, H, in_seq. lia.
Qed.
Lemma parse_hex_concat l r : byte_list l -> parse_hex (length l) (concat (map byte_to_hex l) ++ r) = Some (l, r).
Proof.
  induction l as [|b l IH]; intros Hl; [done|]. apply Forall_cons in Hl as [Hb Hl]. cbn [length parse_hex map concat].
  rewrite <- app_assoc, hex_byte_roundtrip by done. rewrite (proj2 (Z.ltb_ge _ _)) by lia.
  change (drop 2 (byte_to_hex b ++ concat (map byte_to_hex l) ++ r)) with (concat (map byte_to_hex l) ++ r). by rewrite IH.
Qed.
Lemma length_hex l : length (concat (map byte_to_hex l)) = (2 * length l)%nat.
Proof. induction l as [|b l IH]; [done|]. cbn [map concat length]. rewrite length_app, IH. cbn [byte_to_hex length]. lia. Qed.

(** ** Salts and digests *)

Lemma generate_salt_bytes len s : byte_list (snd (generate_salt len s)) /\ length (snd (generate_salt len s)) = len.
Proof.
  revert s. induction len as [|len IH]; intros s; cbn [generate_salt]; [by split; [constructor|]|].
  destruct (random_next s) as [s1 r]. specialize (IH s1). destruct (generate_salt len s1) as [s2 l]. cbn [snd length] in *.
  destruct IH as [Hb Hl]. split; [|by rewrite Hl]. constructor; [|done]. change 0xff with (Z.ones 8). rewrite Z.land_ones by lia.
  apply Z.mod_pos_bound. lia.
Qed.

Lemma digest_shape v : byte_list (digest v) /\ length (digest v) = AUTH_HASH_SIZE.
Proof.
  split; [|reflexivity]. unfold byte_list, digest, be_word. repeat (apply Forall_cons; split; [apply u8_range|]).
  repeat (cbn [app]; apply Forall_cons; split; [apply u8_range|]). apply Forall_nil. done.
Qed.

Lemma lor_fold_zero f js r : fold_left (fun r i => Z.lor r (f i)) js r = 0 <-> r = 0 /\ forall i : nat, In i js -> f i = 0.
Proof.
  revert r. induction js as [|j js IH]; intros r; cbn [fold_left]; [by split; [intros ->; split|intros [-> _]]|].
  rewrite IH, Z.lor_eq_0_iff. split.
  - intros [[-> Hj] H]. split; [done|]. intros i [->|Hi]; auto.
  - intros [-> H]. split; [split; [done|apply H; by left]|]. intros i Hi. apply H. by right.
Qed.
(** The comparison without early exit. *)
Lemma compare_digests a b : length a = AUTH_HASH_SIZE -> length b = AUTH_HASH_SIZE ->
  (fold_left (fun r i => Z.lor r (Z.lxor (nth i a 0) (nth i b 0))) (seq 0 AUTH_HASH_SIZE) 0 =? 0) = bool_decide (a = b).
Proof.
  intros Ha Hb. destruct (bool_decide (a = b)) eqn:E.
  - apply bool_decide_eq_true in E as <-. apply Z.eqb_eq. apply (lor_fold_zero (fun i => Z.lxor (nth i a 0) (nth i a 0))).
    split; [done|]. intros i _. apply Z.lxor_nilpotent.
  - apply bool_decide_eq_false in E. apply Z.eqb_neq. intros H.
    apply (lor_fold_zero (fun i => Z.lxor (nth i a 0) (nth i b 0))) in H as [_ H]. apply E. apply (nth_ext _ _ 0 0); [congruence|].
    intros i Hi. apply Z.lxor_eq, H, in_seq. lia.
Qed.

Section Passwords.
Variable stack_ctx : auth_sha256_ctx.

Lemma salted_digest_shape salt pw : byte_list (salted_digest stack_ctx salt pw) /\ length (salted_digest stack_ctx salt pw) = AUTH_HASH_SIZE.
Proof. unfold salted_digest, auth_sha256, auth_sha256_final. cbn [snd]. apply digest_shape. Qed.

(** The stored text of a salt and a digest. *)
Definition stored_text (salt hash : list Z) : list Z := concat (map byte_to_hex salt) ++ str "$" ++ concat (map byte_to_hex hash).

Lemma check_stored pw salt hash : byte_list salt -> length salt = AUTH_SALT_SIZE -> byte_list hash -> length hash = AUTH_HASH_SIZE ->
  auth_check_hash stack_ctx (Some pw) (Some (stored_text salt hash)) =
  if bool_decide (salted_digest stack_ctx salt pw = hash) then AUTH_OK else AUTH_ERR_BADPASS.
Proof.
  intros Hs Hls Hh Hlh. unfold auth_check_hash, stored_text. rewrite <- Hls, parse_hex_concat by done.
  change (nth 0 (str "$" ++ concat (map byte_to_hex hash)) 0 =? 36) with true. cbn [negb].
  change (drop 1 (str "$" ++ concat (map byte_to_hex hash))) with (concat (map byte_to_hex hash)).
  rewrite <- (app_nil_r (concat (map byte_to_hex hash))). rewrite <- Hlh at 1. rewrite parse_hex_concat by done. cbv zeta.
  by rewrite compare_digests by (done || apply salted_digest_shape).
Qed.

Lemma hash_password_eq pw s : auth_hash_password stack_ctx (Some pw) s =
  let salt := snd (generate_salt AUTH_SALT_SIZE s) in
  (fst (generate_salt AUTH_SALT_SIZE s), AUTH_OK, stored_text salt (salted_digest stack_ctx salt pw)).
Proof. unfold auth_hash_password, stored_text. destruct (generate_salt AUTH_SALT_SIZE s) as [s1 salt]. reflexivity. Qed.

(** the text auth_hash_password stores fits its array, and auth_check_hash accepts
    against it exactly the passwords whose digest with the stored salt is the same: the
    password itself, and every password with the same first 127 characters. *)
Theorem auth_password_roundtrip pw s :
  let salt := snd (generate_salt AUTH_SALT_SIZE s) in
  exists s' h, auth_hash_password stack_ctx (Some pw) s = (s', AUTH_OK, h) /\ length h = 97%nat /\
    (forall pw', auth_check_hash stack_ctx (Some pw') (Some h) =
       if bool_decide (salted_digest stack_ctx salt pw' = salted_digest stack_ctx salt pw) then AUTH_OK else AUTH_ERR_BADPASS) /\
    (forall pw', take 127 pw' = take 127 pw -> auth_check_hash stack_ctx (Some pw') (Some h) = AUTH_OK).
Proof.
  intros salt. destruct (generate_salt_bytes AUTH_SALT_SIZE s) as [Hb Hl]. fold salt in Hb, Hl.
  destruct (salted_digest_shape salt pw) as [Hdb Hdl].
  assert (forall pw', auth_check_hash stack_ctx (Some pw') (Some (stored_text salt (salted_digest stack_ctx salt pw))) =
    if bool_decide (salted_digest stack_ctx salt pw' = salted_digest stack_ctx salt pw) then AUTH_OK else AUTH_ERR_BADPASS) as Hc.
  { intros pw'. by apply check_stored. }
  exists (fst (generate_salt AUTH_SALT_SIZE s)), (stored_text salt (salted_digest stack_ctx salt pw)).
  split; [apply hash_password_eq|]. split; [|split; [exact Hc|]].
  - unfold stored_text. rewrite !length_app, !length_hex, Hl, Hdl. reflexivity.
  - intros pw' Ht. rewrite Hc. rewrite bool_decide_eq_true_2; [done|]. unfold salted_digest.
    change (AUTH_PASSWORD_MAX - 1)%nat with 127%nat. by rewrite Ht.
Qed.

Lemma hash_then_check pw s s' r h : auth_hash_password stack_ctx (Some pw) s = (s', r, h) ->
  auth_check_hash stack_ctx (Some pw) (Some h) = AUTH_OK.
Proof.
  intros H. pose proof (hash_password_eq pw s) as E. rewrite H in E. clear H.
  destruct (generate_salt_bytes AUTH_SALT_SIZE s) as [Hb Hl]. cbv zeta in E. revert E Hb Hl.
  generalize (snd (generate_salt AUTH_SALT_SIZE s)). intros salt E Hb Hl. destruct (salted_digest_shape salt pw) as [Hdb Hdl].
  pose proof (check_stored pw salt (salted_digest stack_ctx salt pw) Hb Hl Hdb Hdl) as Hc.
  rewrite bool_decide_eq_true_2 in Hc by done. revert E Hc. generalize (stored_text salt (salted_digest stack_ctx salt pw)).
  intros x E Hc. apply (f_equal snd) in E. cbn [snd] in E. rewrite E. exact Hc.
Qed.

(** ** A new account *)

Lemma create_user_state n p uid s s' : auth_create_user stack_ctx (Some n) (Some p) uid s = (s', AUTH_OK) ->
  auth_initialized s' = true /\ sessions s' = sessions s /\
  exists i u, users s' !! i = Some u /\ u_in_use u = true /\ username u = n /\ u_flags u = AUTH_USER_ACTIVE /\
    u_uid u = (if uid =? AUTH_UID_INVALID then next_uid s else uid) /\
    auth_check_hash stack_ctx (Some p) (Some (password_hash u)) = AUTH_OK.
Proof.
  unfold auth_create_user. destruct (negb (auth_initialized s)) eqn:Ei; [done|]. apply negb_false_iff in Ei.
  destruct (_ || _) eqn:El; [done|]. apply orb_false_iff in El as [_ El]. apply Nat.leb_gt in El.
  destruct (bool_decide _); [done|]. destruct (_ && _); [done|].
  destruct (find_free_user_slot s) as [i|] eqn:Ef; [|done]. apply first_slot_some in Ef as (x & Hx & _).
  destruct (if negb (uid =? AUTH_UID_INVALID) then _ else _) as [id next] eqn:Eid.
  assert (id = if uid =? AUTH_UID_INVALID then next_uid s else uid) as Hid by (by destruct (uid =? AUTH_UID_INVALID); injection Eid).
  destruct (auth_hash_password stack_ctx (Some p) s) as [[s1 r] h] eqn:Eh.
  pose proof (hash_password_ok _ _ _ _ _ _ Eh) as ->. pose proof (hash_then_check _ _ _ _ _ Eh) as Hck.
  apply hash_password_tables in Eh as (T1 & T2 & _ & _ & _ & _ & T7). rewrite Z.eqb_refl. cbn [negb get_timestamp].
  intros H. apply (f_equal fst) in H. cbn [fst] in H. subst s'.
  cbn [set_stats set_users set_tick auth_initialized sessions users]. split; [congruence|]. split; [done|].
  exists i, (new_user id n h (u64 (tick s1 + 1))). rewrite T1, list_lookup_insert_eq by (by eapply lookup_lt_Some).
  split; [done|]. split; [done|]. split; [|split; [done|split; [done|done]]].
  cbn [new_user username]. unfold strncpy_z, AUTH_USERNAME_MAX in *. by rewrite take_ge by lia.
Qed.

(** an account that was just created can log in with its name and password as long as
    a session slot is free, and the session carries its user id. *)
Theorem auth_create_then_login n p uid s s' :
  auth_wf s -> auth_create_user stack_ctx (Some n) (Some p) uid s = (s', AUTH_OK) ->
  is_Some (find_free_session_slot s) ->
  exists s'' j, auth_login stack_ctx (Some n) (Some p) s' = (s'', AUTH_OK, Some j) /\
    s_uid (session_at j s'') = (if uid =? AUTH_UID_INVALID then next_uid s else uid).
Proof.
  intros Hw Hc [j Hj]. pose proof (create_user_wf stack_ctx (Some n) (Some p) uid s Hw) as Hw'. rewrite Hc in Hw'. cbn [fst] in Hw'.
  destruct (create_user_state n p uid s s' Hc) as (Hi & Hs & i & u & Hu & Hl & Hn & Hf & Hid & Hck).
  assert (find_free_session_slot s' = Some j) as Hj' by (unfold find_free_session_slot; by rewrite Hs).
  pose proof (by_name_unique n s' i u Hw' Hu Hl Hn) as Hbn. rewrite login_cases by done. rewrite Hbn.
  assert (user_at i s' = u) as Hat by (unfold user_at; by rewrite Hu). rewrite Hat.
  assert (locked u = false) as -> by (unfold locked; by rewrite Hf).
  assert (password_ok stack_ctx u p = true) as -> by (unfold password_ok; by rewrite Hck).
  assert (active u = true) as -> by (unfold active; by rewrite Hf). rewrite Hj'.
  exists (logged_in i j u s'), j. split; [done|]. unfold session_at.
  cbn [logged_in set_stats modify_user set_users set_sessions set_tick sessions].
  apply first_slot_some in Hj as (x & Hx & _). rewrite Hs, list_lookup_insert_eq by (by eapply lookup_lt_Some). done.
Qed.
End Passwords.

(** ** Groups *)

Lemma first_slot_map {A B} (p : B -> bool) (f : A -> B) (l : list A) : first_slot p (map f l) = first_slot (fun x => p (f x)) l.
Proof. induction l as [|x l IH]; simpl; [done|]. by rewrite IH. Qed.
Lemma get_user_idents uid s s' : idents s' = idents s -> auth_get_user uid s' = auth_get_user uid s.
Proof.
  intros He. unfold auth_get_user.
  pose proof (first_slot_map (fun p : bool * Z * list Z => fst (fst p) && (snd (fst p) =? uid)) ident (users s)) as H1.
  pose proof (first_slot_map (fun p : bool * Z * list Z => fst (fst p) && (snd (fst p) =? uid)) ident (users s')) as H2.
  unfold idents in He. rewrite He in H2. cbn [ident fst snd] in H1, H2. congruence.
Qed.

Lemma get_user_some uid s i : auth_get_user uid s = Some i -> exists u, users s !! i = Some u /\ user_at i s = u /\ u_in_use u = true /\ u_uid u = uid.
Proof.
  intros H. apply first_slot_some in H as (u & Hu & Hp & _). apply andb_true_iff in Hp as [Hp1 Hp2]. apply Z.eqb_eq in Hp2.
  exists u. unfold user_at. by rewrite Hu.
Qed.

(** a user who was added to a group is a member of it; after being removed the user is
    a member only if the group is the primary one; neither changes the membership of that
    user in any other group. *)
Theorem auth_membership uid gid s : auth_wf s ->
  (let '(s', r) := auth_add_to_group uid gid s in
   r = AUTH_OK -> auth_is_member uid gid s' = true /\
     forall gid', gid' <> gid -> auth_is_member uid gid' s' = auth_is_member uid gid' s) /\
  (let '(s', r) := auth_remove_from_group uid gid s in
   r = AUTH_OK -> exists i, auth_get_user uid s = Some i /\ auth_is_member uid gid s' = (u_gid (user_at i s) =? gid) /\
     forall gid', gid' <> gid -> auth_is_member uid gid' s' = auth_is_member uid gid' s).
Proof.
  intros Hw. split.
  - unfold auth_add_to_group. destruct (auth_get_user uid s) as [i|] eqn:Eu; [|done].
    destruct (auth_get_group gid s) as [g|]; [|done]. destruct (auth_is_member uid gid s) eqn:Em; [done|].
    case_if; [done|]. case_if; [done|]. intros _. destruct (get_user_some uid s i Eu) as (u & Hu & Hat & _ & _).
    set (s' := modify_user i _ _). assert (auth_get_user uid s' = Some i) as Eu'.
    { rewrite <- Eu. apply get_user_idents. unfold s'. by rewrite idents_modify. }
    assert (user_at i s' = set_u_groups (u_groups u ++ [gid]) u) as Hat'.
    { unfold user_at, s'. cbn [modify_user set_users modify_group set_groups users]. by rewrite list_lookup_alter_eq, Hu. }
    unfold auth_is_member. rewrite Eu', Eu, Hat', Hat. cbn [set_u_groups u_gid u_groups]. split.
    + rewrite bool_decide_eq_true_2; [apply orb_true_r|]. rewrite elem_of_app. right. by apply list_elem_of_singleton.
    + intros gid' Hne. f_equal. apply bool_decide_ext. rewrite elem_of_app, list_elem_of_singleton. naive_solver.
  - unfold auth_remove_from_group. destruct (auth_get_user uid s) as [i|] eqn:Eu; [|done].
    destruct (auth_get_group gid s) as [g|]; [|done]. intros _. destruct (get_user_some uid s i Eu) as (u & Hu & Hat & _ & _).
    set (s' := modify_user i _ _). assert (auth_get_user uid s' = Some i) as Eu'.
    { rewrite <- Eu. apply get_user_idents. unfold s'. by rewrite idents_modify. }
    assert (user_at i s' = set_u_groups (remove_first gid (u_groups u)) u) as Hat'.
    { unfold user_at, s'. cbn [modify_user set_users modify_group set_groups users]. by rewrite list_lookup_alter_eq, Hu. }
    exists i. split; [done|]. unfold auth_is_member. rewrite Eu', Eu, Hat', Hat. cbn [set_u_groups u_gid u_groups].
    destruct Hw as [[_ _ _ _ Hg _] _]. rewrite Forall_lookup in Hg. destruct (Hg i u Hu) as [Hnd _]. split.
    + rewrite bool_decide_eq_false_2; [apply orb_false_r|by apply remove_first_gone].
    + intros gid' Hne. f_equal. apply bool_decide_ext. by apply remove_first_keeps.
Qed.

(** ** Concrete inputs *)

Definition demo_ctx : auth_sha256_ctx := mk_asha (mk_words 0 0 0 0 0 0 0 0) 0 (fun _ => 0xAA) 7.
Definition demo_auth : auth := fst (auth_init demo_ctx boot_auth).
Definition with_alice : auth * Z := auth_create_user demo_ctx (Some (str "alice")) (Some (str "secret")) AUTH_UID_INVALID demo_auth.

Lemma demo_auth_wf : auth_wf demo_auth.
Proof. apply init_wf. by right. Qed.

Lemma auth_tables_invariant_witness :
  auth_wf (auth_shutdown (fst (auth_init demo_ctx boot_auth))).
Proof. apply (auth_tables_invariant demo_ctx _). apply rtc_once, step_shutdown. Defined.

Lemma demo_auth_initialized : auth_initialized demo_auth = true.
Proof. vm_compute. reflexivity. Qed.

Lemma auth_login_contract_witness :
  auth_wf demo_auth /\ snd (auth_login demo_ctx (Some (str "root")) (Some (str "toor")) demo_auth) = None.
Proof.
  split; [exact demo_auth_wf|].
  pose proof (auth_login_contract demo_ctx (str "root") (str "toor") demo_auth demo_auth_wf demo_auth_initialized) as H.
  assert (snd (fst (auth_login demo_ctx (Some (str "root")) (Some (str "toor")) demo_auth)) = AUTH_ERR_BADPASS) as E
    by (vm_compute; reflexivity).
  destruct (auth_login demo_ctx (Some (str "root")) (Some (str "toor")) demo_auth) as [[s' r] out]. cbn [fst snd] in *.
  destruct H as (_ & _ & H). apply H. rewrite E. discriminate.
Defined.

Lemma guest_slot : auth_get_user 1000 demo_auth = Some 1%nat.
Proof. vm_compute. reflexivity. Qed.

Lemma auth_delete_contract_witness :
  auth_get_user_by_name (Some (str "guest")) (fst (auth_delete_user 1000 demo_auth)) = None.
Proof.
  destruct (get_user_some 1000 demo_auth 1 guest_slot) as (u & Hu & Hat & Hl & _).
  assert (username (user_at 1 demo_auth) = str "guest") as Hn by (vm_compute; reflexivity). rewrite Hat in Hn. rewrite <- Hn.
  apply (auth_delete_contract 1000 demo_auth (fst (auth_delete_user 1000 demo_auth)) 1 u demo_auth_wf Hu Hl guest_slot).
  apply pair_snd. vm_compute. reflexivity.
Defined.

Lemma auth_create_then_login_witness :
  exists s'' j, auth_login demo_ctx (Some (str "alice")) (Some (str "secret")) (fst with_alice) = (s'', AUTH_OK, Some j).
Proof.
  assert (auth_create_user demo_ctx (Some (str "alice")) (Some (str "secret")) AUTH_UID_INVALID demo_auth = (fst with_alice, AUTH_OK)) as Hc
    by (unfold with_alice; apply pair_snd; vm_compute; reflexivity).
  assert (is_Some (find_free_session_slot demo_auth)) as Hf by (exists 0%nat; vm_compute; reflexivity).
  destruct (auth_create_then_login demo_ctx (str "alice") (str "secret") AUTH_UID_INVALID demo_auth (fst with_alice) demo_auth_wf Hc Hf)
    as (s'' & j & H & _).
  exists s'', j. exact H.
Defined.

Lemma auth_membership_witness : auth_wf demo_auth /\ auth_is_member 1000 0 (fst (auth_add_to_group 1000 0 demo_auth)) = true.
Proof.
  split; [exact demo_auth_wf|]. destruct (auth_membership 1000 0 demo_auth demo_auth_wf) as [H _].
  assert (auth_add_to_group 1000 0 demo_auth = (fst (auth_add_to_group 1000 0 demo_auth), AUTH_OK)) as E
    by (apply pair_snd; vm_compute; reflexivity).
  rewrite E in H. exact (proj1 (H eq_refl)).
Defined.

(** ** A shared user id *)

(** mallory is given the id 1001 explicitly and bob the next automatic one, which is
    also 1001; then bob logs in. *)
Definition two_accounts : auth :=
  let s := fst (auth_create_user demo_ctx (Some (str "mallory")) (Some (str "m")) 1001 demo_auth) in
  let s := fst (auth_create_user demo_ctx (Some (str "bob")) (Some (str "b")) AUTH_UID_INVALID s) in
  let '(s, _, j) := auth_login demo_ctx (Some (str "bob")) (Some (str "b")) s in
  auth_set_current_session j s.

(** Automatic user ids are not checked against those in use: the two accounts share an
    id, and in bob's session the current user is mallory. *)
Theorem auth_automatic_uid_collides :
  option_map (fun i => u_uid (user_at i two_accounts)) (auth_get_user_by_name (Some (str "bob")) two_accounts) = Some 1001 /\
  option_map (fun i => username (user_at i two_accounts)) (auth_get_current_user two_accounts) = Some (str "mallory").
Proof. vm_compute. done. Qed.

(** Deleting a group leaves it in its members' lists: a new group with the same id has
    the old members. *)
Theorem auth_deleted_group_keeps_members :
  let s := fst (auth_create_group (Some (str "wheel")) 200 demo_auth) in
  let s := fst (auth_add_to_group 1000 200 s) in
  let s := fst (auth_delete_group 200 s) in
  let s := fst (auth_create_group (Some (str "audio")) 200 s) in
  auth_is_member 1000 200 s = true.
Proof. vm_compute. done. Qed.
