(* ===== verification/Chain.v ===== *)
(** * Linked lists in C and loops over them

    A list of structures that are reached by their addresses: [nx] and [pv] give the
    [next] and [prev] members. A [while] loop carries a bound on its iterations that is
    counted in binary, so it can be the number of 64-bit addresses, which no list without
    repetition exceeds; the loop leaves early, and evaluates, as the code does. *)
From S2P Require Import Prelude Memory PageAlloc Heap HeapRep HeapProps Ring.
(** ** Loops *)

(** At most [p] rounds of [f], which goes on with [inl] and leaves with [inr]. *)
Fixpoint while_pos {S R : Type} (p : positive) (f : S -> S + R) (s : S) : S + R :=
  match p with
  | xH => f s
  | xO q => match while_pos q f s with inl s' => while_pos q f s' | inr r => inr r end
  | xI q =>
      match f s with
      | inl s' => match while_pos q f s' with inl s'' => while_pos q f s'' | inr r => inr r end
      | inr r => inr r
      end
  end.

(** The same with the rounds in unary. *)
Fixpoint while_nat {S R : Type} (n : nat) (f : S -> S + R) (s : S) : S + R :=
  match n with
  | O => inl s
  | S n' => match f s with inl s' => while_nat n' f s' | inr r => inr r end
  end.

Lemma while_nat_S {S R : Type} (f : S -> S + R) n s :
  while_nat (Datatypes.S n) f s = match f s with inl s' => while_nat n f s' | inr r => inr r end.
Proof. done. Qed.
Lemma while_nat_add {S R : Type} (f : S -> S + R) n m s :
  while_nat (n + m) f s = match while_nat n f s with inl s' => while_nat m f s' | inr r => inr r end.
Proof. revert s. induction n as [|n IH]; intros s; simpl; [done|]. by destruct (f s). Qed.

Lemma while_pos_nat {S R : Type} (f : S -> S + R) p s : while_pos p f s = while_nat (Pos.to_nat p) f s.
Proof.
  revert s. induction p as [p IH|p IH|]; intros s; simpl while_pos.
  - rewrite Pos2Nat.inj_xI. replace (2 * Pos.to_nat p)%nat with (Pos.to_nat p + Pos.to_nat p)%nat by lia.
    simpl. destruct (f s) as [s'|]; [|done]. rewrite while_nat_add, <- IH. destruct (while_pos p f s'); auto.
  - rewrite Pos2Nat.inj_xO. replace (2 * Pos.to_nat p)%nat with (Pos.to_nat p + Pos.to_nat p)%nat by lia.
    rewrite while_nat_add, <- IH. destruct (while_pos p f s); auto.
  - simpl. by destruct (f s).
Qed.

(** A loop that leaves within [n] rounds leaves with the same result under a larger bound. *)
Lemma while_pos_enough {S R : Type} (f : S -> S + R) p n s r :
  while_nat n f s = inr r -> Z.of_nat n <= Z.pos p -> while_pos p f s = inr r.
Proof.
  intros E Hn. rewrite while_pos_nat. replace (Pos.to_nat p) with (n + (Pos.to_nat p - n))%nat by lia.
  by rewrite while_nat_add, E.
Qed.

(** An invariant [P] of the rounds and what holds when the loop leaves. *)
Lemma while_pos_ind {S R : Type} (P : S -> Prop) (Q : R -> Prop) (f : S -> S + R) p s :
  P s -> (forall s, P s -> match f s with inl s' => P s' | inr r => Q r end) ->
  match while_pos p f s with inl s' => P s' | inr r => Q r end.
Proof.
  intros HP Hf. rewrite while_pos_nat. revert s HP. induction (Pos.to_nat p) as [|n IH]; intros s HP; [done|].
  simpl. specialize (Hf s HP). destruct (f s) as [s'|r]; [by apply IH|done].
Qed.
(** A loop whose measure decreases leaves by its own condition. *)
Lemma while_pos_done {S R : Type} (P : S -> Prop) (Q : R -> Prop) (m : S -> Z) (f : S -> S + R) p s :
  P s -> m s < Z.pos p -> (forall s, P s -> match f s with inl s' => P s' /\ 0 <= m s' < m s | inr r => Q r end) ->
  exists r, while_pos p f s = inr r /\ Q r.
Proof.
  intros HP Hm Hf. rewrite while_pos_nat. assert (m s < Z.of_nat (Pos.to_nat p)) as Hm' by lia. assert (0 < Pos.to_nat p)%nat as Hp by lia. clear Hm. revert s HP Hm'.
  induction (Pos.to_nat p) as [|n IH]; intros s HP Hm; [lia|]. simpl. specialize (Hf s HP). destruct (f s) as [s'|r]; [|by exists r].
  destruct Hf as [HP' Hm']. apply IH; [lia|done|lia].
Qed.

(** The number of addresses. *)
Definition ADDRESSES : positive := 18446744073709551616.

(** A loop without a bound of its own: [None] when it has not left after [ADDRESSES] rounds. *)
Definition loop {S R : Type} (f : S -> S + R) (s : S) : option R :=
  match while_pos ADDRESSES f s with inr r => Some r | inl _ => None end.

(** A loop with an invariant [P] and a measure that each round decreases leaves, with [Q]. *)
Lemma loop_rule {S R : Type} (P : S -> Prop) (Q : R -> Prop) (m : S -> nat) (f : S -> S + R) s :
  P s -> Z.of_nat (m s) < 2 ^ 64 ->
  (forall s, P s -> match f s with inl s' => P s' /\ (m s' < m s)%nat | inr r => Q r end) ->
  exists r, loop f s = Some r /\ Q r.
Proof.
  intros HP Hm Hf. assert (exists r, while_nat (Datatypes.S (m s)) f s = inr r /\ Q r) as (r & E & HQ).
  { clear Hm. remember (m s) as n eqn:En. assert (m s <= n)%nat as Hn by lia. clear En. revert s HP Hn.
    induction n as [|n IH]; intros s HP Hn; specialize (Hf s HP) as Hs; cbn [while_nat].
    - destruct (f s) as [s'|r]; [lia|eauto].
    - destruct (f s) as [s'|r]; [|eauto]. destruct Hs as [HP' Hlt]. apply IH; [done|lia]. }
  exists r. split; [|done]. unfold loop. rewrite (while_pos_enough f ADDRESSES _ s r E); [done|unfold ADDRESSES; lia].
Qed.

(** Unfolding a round of a loop that leaves within [n] more. *)
Lemma loop_nat {S R : Type} (f : S -> S + R) n s r :
  while_nat n f s = inr r -> Z.of_nat n <= 2 ^ 64 -> loop f s = Some r.
Proof. intros E Hn. unfold loop. by rewrite (while_pos_enough f ADDRESSES n s r E). Qed.

(** A loop whose rounds go on for ever does not leave. *)
Lemma loop_never {S R : Type} (P : S -> Prop) (f : S -> S + R) s :
  P s -> (forall s, P s -> exists s', f s = inl s' /\ P s') -> loop f s = None.
Proof.
  intros HP Hf. unfold loop. pose proof (while_pos_ind P (fun _ => False) f ADDRESSES s HP) as Hw.
  destruct (while_pos ADDRESSES f s); [done|]. exfalso. apply Hw. intros s0 H0. destruct (Hf s0 H0) as (s' & -> & ?). done.
Qed.

(** [for (s = head; s != NULL; s = s->next) if (test(s)) return s; return NULL;] *)
Definition find_linked (nx : Z -> Z) (test : Z -> bool) (head : Z) : Z :=
  match while_pos ADDRESSES (fun s => if s =? NULL then inr NULL else if test s then inr s else inl (nx s)) head with
  | inr s => s
  | inl _ => NULL
  end.

(** ** Lists *)

(** An address of a structure. *)
Definition address (a : Z) : Prop := 0 < a < 2 ^ 64.

(** From [p] the structures of [l] are linked in both directions, [q] standing before them. *)
Fixpoint linked (nx pv : Z -> Z) (q p : Z) (l : list Z) : Prop :=
  match l with
  | [] => p = NULL
  | a :: l' => p = a /\ address a /\ pv a = q /\ linked nx pv a (nx a) l'
  end.

Section Linked.
Implicit Types nx pv : Z -> Z.

Lemma linked_addresses nx pv q p l : linked nx pv q p l -> Forall address l.
Proof. revert q p. induction l as [|a l IH]; intros q p Hl; [constructor|]. destruct Hl as (_ & Ha & _ & Hl). constructor; eauto. Qed.

Lemma linked_ext nx pv nx' pv' q p l :
  linked nx pv q p l -> (forall a, a ∈ l -> nx' a = nx a /\ pv' a = pv a) -> linked nx' pv' q p l.
Proof.
  revert q p. induction l as [|a l IH]; intros q p Hl He; [done|]. destruct Hl as (-> & Ha & Hp & Hl).
  destruct (He a) as [En Ep]; [by left|]. simpl. rewrite En, Ep. do 3 (split; [done|]). apply IH; [done|].
  intros b Hb. apply He. by right.
Qed.

Lemma linked_length l : Forall address l -> NoDup l -> Z.of_nat (length l) < Z.pos ADDRESSES.
Proof.
  intros Ha Hnd. unfold ADDRESSES. change 18446744073709551616 with (2 ^ 64). unfold address in Ha.
  revert Ha. assert (0 < 2 ^ 64) by lia. generalize dependent (2 ^ 64). intros N HN Ha.
  assert (l ⊆+ seqZ 1 (N - 1)) as Hs.
  { apply NoDup_submseteq; [done|]. intros x Hx. apply elem_of_seqZ. rewrite Forall_forall in Ha. specialize (Ha x Hx). lia. }
  apply submseteq_length in Hs. rewrite length_seqZ in Hs. lia.
Qed.

(** The first element of a list that passes a test, NULL if there is none. *)
Definition first_of (test : Z -> bool) (l : list Z) : Z := default NULL (head (filter (fun a => test a = true) l)).

Lemma first_of_cons test a l : first_of test (a :: l) = if test a then a else first_of test l.
Proof. unfold first_of. rewrite filter_cons. by destruct (test a). Qed.

Lemma find_linked_first nx pv test q p l : linked nx pv q p l -> NoDup l -> find_linked nx test p = first_of test l.
Proof.
  intros Hl Hnd. unfold find_linked. set (f := fun s => _).
  assert (while_nat (S (length l)) f p = inr (first_of test l)) as E.
  { clear Hnd. revert q p Hl. induction l as [|a l IH]; intros q p Hl; [by rewrite Hl|].
    destruct Hl as (-> & Ha & _ & Hl). rewrite first_of_cons. specialize (IH _ _ Hl). revert IH.
    cbn [length]. generalize (S (length l)). intros n IH. simpl while_nat. unfold f at 1. unfold address in Ha.
    rewrite (proj2 (Z.eqb_neq a NULL)) by (unfold NULL; lia). by destruct (test a). }
  rewrite (while_pos_enough _ _ _ _ _ E); [done|].
  pose proof (linked_length l (linked_addresses _ _ _ _ _ Hl) Hnd). lia.
Qed.

Lemma first_of_none test l : Forall address l -> first_of test l = NULL <-> forall a, a ∈ l -> test a = false.
Proof.
  induction 1 as [|a l Ha _ IH]; [split; [intros _ a Ha; by apply not_elem_of_nil in Ha|done]|].
  rewrite first_of_cons. unfold address, NULL in *. destruct (test a) eqn:Et.
  - split; [lia|]. intros Hf. rewrite Hf in Et; [done|by left].
  - rewrite IH. split; [|eauto using list_elem_of_further]. intros Hf b [->|Hb]%elem_of_cons; [done|eauto].
Qed.

Lemma first_of_some test l : first_of test l <> NULL -> first_of test l ∈ l /\ test (first_of test l) = true.
Proof.
  induction l as [|a l IH]; [done|]. rewrite first_of_cons. destruct (test a) eqn:Et.
  - intros _. split; [by left|done].
  - intros [H1 H2]%IH. split; [by right|done].
Qed.

(** ** Lists linked in one direction *)

Fixpoint chained nx (p : Z) (l : list Z) : Prop :=
  match l with
  | [] => p = NULL
  | a :: l' => p = a /\ address a /\ chained nx (nx a) l'
  end.

Lemma chained_ext nx nx' p l : chained nx p l -> (forall a, a ∈ l -> nx' a = nx a) -> chained nx' p l.
Proof.
  revert p. induction l as [|a l IH]; intros p Hl He; [done|]. destruct Hl as (-> & Ha & Hl).
  simpl. rewrite He by left. do 2 (split; [done|]). apply IH; [done|]. intros b Hb. apply He. by right.
Qed.
Lemma chained_addresses nx p l : chained nx p l -> Forall address l.
Proof. revert p. induction l as [|a l IH]; intros p Hl; [constructor|]. destruct Hl as (_ & Ha & Hl). constructor; eauto. Qed.

(** [while (p) { next = p->next; body; p = next; }], the body not changing the links. *)
Lemma while_chained {T : Type} (nx : T -> Z -> Z) (body : Z -> T -> T) (t : T) p l :
  chained (nx t) p l -> NoDup l -> (forall t' a b, nx (body a t') b = nx t' b) ->
  while_pos ADDRESSES (fun '(t, p) => if p =? NULL then inr t else inl (body p t, nx t p)) (t, p) =
  inr (fold_left (fun t a => body a t) l t).
Proof.
  intros Hl Hnd Hb. set (f := fun _ : T * Z => _).
  assert (while_nat (S (length l)) f (t, p) = inr (fold_left (fun t a => body a t) l t)) as E.
  { clear Hnd. revert t p Hl. induction l as [|a l IH]; intros t p Hl; [by rewrite Hl|]. destruct Hl as (-> & Ha & Hl).
    cbn [length fold_left]. specialize (IH (body a t) (nx t a)). revert IH. generalize (S (length l)). intros n IH.
    simpl while_nat. unfold address in Ha. rewrite (proj2 (Z.eqb_neq a NULL)) by (unfold NULL; lia). apply IH.
    eapply chained_ext; [exact Hl|]. auto. }
  apply (while_pos_enough _ _ _ _ _ E).
  pose proof (linked_length l (chained_addresses _ _ _ Hl) Hnd). lia.
Qed.

(** ** Insertion at the head and removal *)

(** [s->next = head; s->prev = NULL; if (head) head->prev = s; head = s;] *)
Lemma linked_push nx pv p l a :
  linked nx pv NULL p l -> NoDup (a :: l) -> address a ->
  linked (upd nx a p) (if p =? NULL then upd pv a NULL else upd (upd pv a NULL) p a) NULL a (a :: l).
Proof.
  intros Hl [Hni Hnd]%NoDup_cons Ha. destruct l as [|b l].
  - simpl in Hl. subst p. rewrite Z.eqb_refl. simpl. by rewrite !upd_same.
  - destruct Hl as (-> & Hb & Hp & Hl). apply not_elem_of_cons in Hni as [Hne Hni]. apply NoDup_cons in Hnd as [Hbl _].
    pose proof Hb as Hb'. unfold address in Hb'. rewrite (proj2 (Z.eqb_neq b NULL)) by (unfold NULL; lia).
    simpl. rewrite !upd_same, (upd_other _ b a a), upd_same, (upd_other nx a) by done.
    do 6 (split; [done|]). eapply linked_ext; [exact Hl|]. intros c Hc. by rewrite !upd_other by (by intros ->).
Qed.

(** A part of a list: from [(q, p)] over [l] to [(q', p')]. *)
Fixpoint segment nx pv (q p : Z) (l : list Z) (q' p' : Z) : Prop :=
  match l with
  | [] => q = q' /\ p = p'
  | a :: l' => p = a /\ address a /\ pv a = q /\ segment nx pv a (nx a) l' q' p'
  end.

Lemma linked_app nx pv q p l1 l2 :
  linked nx pv q p (l1 ++ l2) <-> exists q' p', segment nx pv q p l1 q' p' /\ linked nx pv q' p' l2.
Proof.
  revert q p. induction l1 as [|a l1 IH]; intros q p; simpl.
  - split; [by eauto|]. by intros (? & ? & [-> ->] & ?).
  - split.
    + intros (-> & Ha & Hp & Hl). apply IH in Hl as (q' & p' & Hs & Hl). eauto 8.
    + intros (q' & p' & (-> & Ha & Hp & Hs) & Hl). do 3 (split; [done|]). apply IH. eauto.
Qed.
Lemma segment_addresses nx pv q p l q' p' : segment nx pv q p l q' p' -> Forall address l.
Proof. revert q p. induction l as [|a l IH]; intros q p Hs; [constructor|]. destruct Hs as (_ & Ha & _ & Hs). constructor; eauto. Qed.
Lemma segment_snoc nx pv q p l b q' p' :
  segment nx pv q p (l ++ [b]) q' p' <-> q' = b /\ p' = nx b /\ address b /\ segment nx pv q p l (pv b) b.
Proof.
  revert q p. induction l as [|a l IH]; intros q p; simpl.
  - split; [intros (-> & Hb & <- & <- & <-); eauto|]. intros (-> & -> & Hb & -> & ->). done.
  - rewrite IH. naive_solver.
Qed.
Lemma segment_ext nx pv nx' pv' q p l q' p' :
  segment nx pv q p l q' p' -> (forall a, a ∈ l -> nx' a = nx a /\ pv' a = pv a) -> segment nx' pv' q p l q' p'.
Proof.
  revert q p. induction l as [|a l IH]; intros q p Hl He; [done|]. destruct Hl as (-> & Ha & Hp & Hl).
  destruct (He a) as [En Ep]; [by left|]. simpl. rewrite En, Ep. do 3 (split; [done|]). apply IH; [done|].
  intros b Hb. apply He. by right.
Qed.

(** [if (s->next) s->next->prev = s->prev;] after the link to [s] was redirected to its
    successor. *)
Definition unlink_prev nx pv (a : Z) : Z -> Z := if nx a =? NULL then pv else upd pv (nx a) (pv a).

(** The part behind a removed element, whose first [prev] now points before it. *)
Lemma linked_behind nx pv a l :
  linked nx pv a (nx a) l -> NoDup l -> linked nx (unlink_prev nx pv a) (pv a) (nx a) l.
Proof.
  unfold unlink_prev. destruct l as [|c l]; [done|]. intros (Ec & Hc & Hp & Hl) [Hni _]%NoDup_cons. rewrite Ec.
  pose proof Hc as Hc'. unfold address in Hc'. rewrite (proj2 (Z.eqb_neq c NULL)) by (unfold NULL; lia).
  simpl. rewrite upd_same. do 3 (split; [done|]). eapply linked_ext; [exact Hl|].
  intros b Hb. by rewrite upd_other by (by intros ->).
Qed.

(** [if (s->prev) s->prev->next = s->next; else head = s->next; ...; s->next = s->prev = NULL;] *)
Lemma linked_remove nx pv p l1 a l2 :
  linked nx pv NULL p (l1 ++ a :: l2) -> NoDup (l1 ++ a :: l2) ->
  linked (upd (if pv a =? NULL then nx else upd nx (pv a) (nx a)) a NULL) (upd (unlink_prev nx pv a) a NULL)
    NULL (if pv a =? NULL then nx a else p) (l1 ++ l2).
Proof.
  intros Hl Hnd. apply linked_app in Hl as (q & p' & Hs & (-> & Ha & Hq & Hl)).
  apply NoDup_app in Hnd as (Hnd1 & Hdis & [Hni Hnd2]%NoDup_cons). pose proof (linked_behind _ _ _ _ Hl Hnd2) as Hb.
  assert (forall c, c ∈ l1 -> c <> nx a) as Hne.
  { intros c Hc ->. destruct l2 as [|d l2]; simpl in Hl.
    - assert (Forall address l1) as Hf.
      { eapply segment_addresses. exact Hs. }
      rewrite Hl in Hc. rewrite Forall_forall in Hf. specialize (Hf _ Hc). unfold address, NULL in Hf. lia.
    - destruct Hl as (E & _). apply (Hdis _ Hc). rewrite E. right. left. }
  assert (forall c, c ∈ l1 -> c <> a) as Hna by (intros c Hc ->; by apply (Hdis _ Hc); left).
  assert (forall c, c ∈ l2 -> c <> a) as Hna2 by (by intros c Hc ->).
  assert (forall c, c <> nx a -> unlink_prev nx pv a c = pv c) as Hun.
  { intros c Hc. unfold unlink_prev. case_if; [done|]. by rewrite upd_other. }
  destruct l1 as [|b l1 _] using rev_ind.
  - destruct Hs as [<- <-]. rewrite Hq, Z.eqb_refl. simpl app. rewrite Hq in Hb.
    eapply linked_ext; [exact Hb|]. intros c Hc. by rewrite !upd_other by auto.
  - apply segment_snoc in Hs as (-> & Eb & Hab & Hs). rewrite Hq in *. pose proof Hab as Hab'. unfold address in Hab'.
    rewrite (proj2 (Z.eqb_neq b NULL)) by (unfold NULL; lia). apply NoDup_app in Hnd1 as (_ & Hd1 & _).
    apply linked_app. exists b, (nx a). split.
    + apply segment_snoc. assert (b <> a) by (apply Hna, elem_of_app; right; left).
      rewrite (upd_other _ a), upd_same by done. do 3 (split; [done|]).
      rewrite (upd_other _ a), Hun by (done || (apply Hne, elem_of_app; right; left)).
      eapply segment_ext; [exact Hs|]. intros c Hc. assert (c ∈ l1 ++ [b]) as Hc' by (apply elem_of_app; by left).
      rewrite !(upd_other _ a) by auto. rewrite upd_other by (intros ->; apply (Hd1 _ Hc); left). auto.
    + eapply linked_ext; [exact Hb|]. intros c Hc. rewrite !(upd_other _ a) by auto. rewrite upd_other; [done|].
      intros ->. apply (Hdis b); [apply elem_of_app; right; left|by right].
Qed.
End Linked.

(** The bound must not be unfolded by conversion. *)
#[global] Opaque find_linked.

(** ** The interface of the kernel heap

    Components that keep their structures on the heap call kmalloc, kcalloc and kfree and
    rely on a handed-out pointer being nobody else's until it is freed. The class names
    the operations and those laws; the heap of [Heap] gives the instance. The contents of
    an allocation are kept by the component that owns it. *)

Class KernelHeap (H : Type) := {
  (** [kmalloc(size)]: the state and the pointer, NULL on failure. *)
  kh_malloc : Z -> H -> H * Z;
  (** [kcalloc(count, size)] *)
  kh_calloc : Z -> Z -> H -> H * Z;
  (** [kfree(ptr)] *)
  kh_free : Z -> H -> H;
  (** The pointer is allocated. *)
  kh_live : H -> Z -> Prop;
  (** The heap's own invariant. *)
  kh_wf : H -> Prop;
}.

(** The sizes a client may ask for. *)
Definition request (size : Z) : Prop := 0 < size <= 2 ^ 64 - 64.

(** What one allocation does: nothing, or a new address. *)
Definition new_pointer {H} `{KernelHeap H} (h h' : H) (p : Z) : Prop :=
  (p = NULL /\ h' = h) \/
  (address p /\ ~ kh_live h p /\ kh_wf h' /\ forall q, kh_live h' q <-> kh_live h q \/ q = p).

Class KernelHeapLaws (H : Type) `{KernelHeap H} := {
  kh_malloc_ok h size h' p : kh_wf h -> request size -> kh_malloc size h = (h', p) -> new_pointer h h' p;
  kh_calloc_ok h count size h' p :
    kh_wf h -> 0 < count -> request (count * size) -> kh_calloc count size h = (h', p) -> new_pointer h h' p;
  kh_free_ok h p : kh_wf h -> kh_live h p ->
    kh_wf (kh_free p h) /\ forall q, kh_live (kh_free p h) q <-> kh_live h q /\ q <> p;
  kh_free_null h : kh_free NULL h = h;
  kh_malloc_zero h : kh_malloc 0 h = (h, NULL);
}.

(** A block that is allocated and freed leaves the allocations as they were. *)
Lemma malloc_free_live {H} `{KernelHeapLaws H} (h h' : H) size p :
  kh_wf h -> request size -> kh_malloc size h = (h', p) ->
  kh_wf (kh_free p h') /\ forall q, kh_live (kh_free p h') q <-> kh_live h q.
Proof.
  intros Hw Hs E. destruct (kh_malloc_ok _ _ _ _ Hw Hs E) as [[-> ->]|(Ha & Hn & Hw' & Hl)].
  - by rewrite kh_free_null.
  - destruct (kh_free_ok h' p) as [Hw2 Hl2]; [done|apply Hl; by right|]. split; [done|]. intros q. rewrite Hl2, Hl.
    split; [intros [[?|?] ?]; done|]. intros Hq. split; [by left|]. by intros ->.
Qed.

(** ** The instance *)

Section Instance.
Context {S : Type} `{PageAllocatorLaws S}.
Implicit Types h : heap S.

(** The bound on the loops of the heap is never hit on an intact heap. *)
Definition or_fail {A : Type} (h : heap S) (a : A) (r : option (heap S * A)) : heap S * A := default (h, a) r.
#[export] Instance heap_kernel : KernelHeap (heap S) := {
  kh_malloc size h := or_fail h NULL (kmalloc h size);
  kh_calloc count size h := or_fail h NULL (kcalloc h count size);
  kh_free p h := default h (kfree h p);
  kh_live h p := exists n, live h p n;
  kh_wf := wf;
}.

Lemma allocated_new h h' p size : allocated h h' p size -> new_pointer h h' p.
Proof.
  intros [A1 [A2 A2'] A3 (n & Hn & A4) A5]. right.
  assert (live h' p n) as Hp by (apply A4; by right). pose proof (live_bound _ _ _ Hp) as Hb.
  split; [unfold address; lia|]. split; [intros [k Hk]; by apply (A3 k)|]. split; [done|]. intros q. split.
  - intros [k [Hk|[-> _]]%A4]; [left; by exists k|by right].
  - intros [[k Hk]| ->]; [exists k|exists n]; apply A4; auto.
Qed.

#[export] Instance heap_kernel_laws : KernelHeapLaws (heap S).
Proof.
  split.
  - intros h size h' p Hw Hs E. simpl in E. destruct (kmalloc_sound h size Hw Hs) as [E'|(h1 & q & E' & Ha)];
      rewrite E' in E; injection E as <- <-; [by left|by eapply allocated_new].
  - intros h count size h' p Hw Hc Hs E. simpl in E. unfold request in Hs.
    assert (0 < size) as Hs0 by nia. assert (count <= count * size /\ size <= count * size) as [Hs1 Hs2] by nia.
    destruct (kcalloc_sound h count size Hw) as [E'|(h1 & q & E' & Ha & _)]; [lia..| |];
      rewrite E' in E; injection E as <- <-; [by left|by eapply allocated_new].
  - intros h p Hw [n Hn]. destruct (kfree_sound h p n Hw Hn) as (h' & E & [R1 R2 R3]). simpl. rewrite E. split; [done|].
    intros q. split; [intros [k [Hk Hne]%R2]; eauto|]. intros [[k Hk] Hne]. exists k. by apply R2.
  - done.
  - intros h. simpl. unfold kmalloc. by destruct (heap_initialized h).
Qed.
End Instance.

(** ** A heap for the examples *)

(** Blocks are handed out one behind the other and their addresses are not used again. *)
Record arena := mk_arena { ar_next : Z; ar_live : list Z }.
Definition arena_take (size : Z) (a : arena) : arena * Z :=
  if ar_next a + size <? 2 ^ 32 then (mk_arena (ar_next a + size) (ar_next a :: ar_live a), ar_next a) else (a, NULL).

#[export] Instance arena_kernel : KernelHeap arena := {
  kh_malloc size a := if size =? 0 then (a, NULL) else arena_take size a;
  kh_calloc count size := arena_take (count * size);
  kh_free p a := if p =? NULL then a else mk_arena (ar_next a) (filter (fun q => q <> p) (ar_live a));
  kh_live a p := p ∈ ar_live a;
  kh_wf a := 0 < ar_next a /\ Forall (fun p => 0 < p < ar_next a) (ar_live a);
}.

Lemma arena_take_ok (a a' : arena) size p : kh_wf a -> 0 < size -> arena_take size a = (a', p) -> new_pointer a a' p.
Proof.
  intros [Hn Hl] Hs. unfold arena_take. destruct (Z.ltb_spec (ar_next a + size) (2 ^ 32)) as [Hb|Hb]; intros E;
    injection E as <- <-; [|by left]. right. split; [unfold address; lia|]. split.
  { intros Hp. simpl in Hp. rewrite Forall_forall in Hl. specialize (Hl _ Hp). lia. }
  split.
  - split; simpl; [lia|]. apply Forall_cons. split; [lia|]. eapply Forall_impl; [exact Hl|]. simpl. lia.
  - intros q. simpl. rewrite elem_of_cons. tauto.
Qed.

#[export] Instance arena_kernel_laws : KernelHeapLaws arena.
Proof.
  split.
  - intros a size a' p Hw [Hs _] E. simpl in E. rewrite (proj2 (Z.eqb_neq size 0)) in E by lia. by eapply arena_take_ok.
  - intros a count size a' p Hw Hc [Hs _] E. by eapply arena_take_ok.
  - intros a p [Hn Hl] Hp. simpl in *. pose proof Hl as Hl'. rewrite Forall_forall in Hl'. specialize (Hl' _ Hp).
    rewrite (proj2 (Z.eqb_neq p NULL)) by (unfold NULL; lia). simpl. split.
    + split; [done|]. rewrite Forall_forall in Hl |- *. intros q [_ Hq]%list_elem_of_filter. auto.
    + intros q. rewrite list_elem_of_filter. tauto.
  - done.
  - done.
Qed.

Definition net_heap : arena := mk_arena 0x100000 [].
Lemma net_heap_ok : kh_wf net_heap.
Proof. split; [done|]. by apply Forall_nil. Qed.
