(* ===== verification/Tcp.v ===== *)
(** * TCP (net/tcp/tcp.c, tcp.h): data and operations

    A socket and a queued connection request are kept by their address, the list of
    sockets by the [next] and [prev] members. A ring buffer carries the bytes behind its
    [buffer] pointer, which no other structure points to. Segments are lists of bytes and
    go to [ip_send] of [Net]; the time is the value of [pit_get_uptime_ms], which the
    clock advances between the calls. What fresh memory holds, and what the card's driver
    returns, are parameters. *)
From S2P Require Import Prelude Memory PageAlloc Ring Netbuf Net Chain.

(** ** Constants *)

Definition TCP_PROTOCOL : Z := 6.
Definition IP_PROTO_TCP : Z := 6.
Definition TCP_HEADER_MIN_LEN : Z := 20.
Definition TCP_DEFAULT_WINDOW : Z := 32768.
Definition TCP_MSS_DEFAULT : Z := 1460.
Definition TCP_LISTEN_BACKLOG_MAX : Z := 128.
Definition TCP_RETRANSMIT_TIMEOUT : Z := 1000.
Definition TCP_MAX_RETRIES : Z := 5.
Definition TCP_TIME_WAIT_TIMEOUT : Z := 60000.
Definition TCP_RECV_BUF_SIZE : Z := 65536.
Definition TCP_SEND_BUF_SIZE : Z := 65536.
Definition TCP_FLAG_FIN : Z := 0x01.
Definition TCP_FLAG_SYN : Z := 0x02.
Definition TCP_FLAG_RST : Z := 0x04.
Definition TCP_FLAG_PSH : Z := 0x08.
Definition TCP_FLAG_ACK : Z := 0x10.
Definition TCP_SOCK_FLAG_BOUND : Z := BIT 0.
Definition TCP_SOCK_FLAG_LISTENING : Z := BIT 1.
Definition TCP_SOCK_FLAG_CONNECTED : Z := BIT 2.
Definition TCP_SOCK_FLAG_NONBLOCK : Z := BIT 3.
Definition TCP_OK : Z := 0.
Definition TCP_ERR_NOMEM : Z := -1.
Definition TCP_ERR_INVALID : Z := -2.
Definition TCP_ERR_NOTCONN : Z := -3.
Definition TCP_ERR_INUSE : Z := -6.
Definition TCP_ERR_WOULDBLOCK : Z := -7.
Definition TCP_ERR_NOBUFS : Z := -10.
Definition EPHEMERAL_FIRST : Z := 49152.

Inductive tcp_state :=
| TCP_STATE_CLOSED | TCP_STATE_LISTEN | TCP_STATE_SYN_SENT | TCP_STATE_SYN_RECEIVED | TCP_STATE_ESTABLISHED
| TCP_STATE_FIN_WAIT_1 | TCP_STATE_FIN_WAIT_2 | TCP_STATE_CLOSE_WAIT | TCP_STATE_CLOSING | TCP_STATE_LAST_ACK
| TCP_STATE_TIME_WAIT.
#[export] Instance tcp_state_eq_dec : EqDecision tcp_state.
Proof. solve_decision. Defined.
(** [a == b] for two states. *)
Definition in_state (a b : tcp_state) : bool := bool_decide (a = b).

(** [flags & f] as a condition. *)
Definition flag_on (flags f : Z) : bool := negb (Z.land flags f =? 0).

(** ** Ring buffers *)

Record tcp_ring_buffer := mk_ring {
  rb_buffer : Z;
  rb_data : Z -> Z;
  rb_size : Z;
  rb_head : Z;
  rb_tail : Z;
  rb_used : Z;
}.

Definition ring_buffer_space (rb : tcp_ring_buffer) : Z := u64 (rb_size rb - rb_used rb).
Definition ring_buffer_used (rb : tcp_ring_buffer) : Z := rb_used rb.

(** [buffer[head] = src[written]; head = (head + 1) % size; written++;] for the bytes of [l]. *)
Fixpoint ring_in (l : list Z) (size : Z) (b : Z -> Z) (hd : Z) : (Z -> Z) * Z :=
  match l with
  | [] => (b, hd)
  | x :: l' => ring_in l' size (upd b hd x) ((hd + 1) mod size)
  end.
(** [dst[read] = buffer[tail]; tail = (tail + 1) % size; read++;], [n] times. *)
Fixpoint ring_out (n : nat) (size : Z) (b : Z -> Z) (tl : Z) : list Z * Z :=
  match n with
  | O => ([], tl)
  | S n' => let '(l, t) := ring_out n' size b ((tl + 1) mod size) in (b tl :: l, t)
  end.

Definition ring_buffer_write (rb : tcp_ring_buffer) (data : list Z) : tcp_ring_buffer * Z :=
  let to_write := Z.min (Z.of_nat (length data)) (ring_buffer_space rb) in
  let '(b, hd) := ring_in (take (Z.to_nat to_write) data) (rb_size rb) (rb_data rb) (rb_head rb) in
  (mk_ring (rb_buffer rb) b (rb_size rb) hd (rb_tail rb) (u64 (rb_used rb + to_write)), to_write).

(** The buffer, the bytes and their number. *)
Definition ring_buffer_read (rb : tcp_ring_buffer) (len : Z) : tcp_ring_buffer * list Z * Z :=
  let to_read := Z.min len (ring_buffer_used rb) in
  let '(l, tl) := ring_out (Z.to_nat to_read) (rb_size rb) (rb_data rb) (rb_tail rb) in
  (mk_ring (rb_buffer rb) (rb_data rb) (rb_size rb) (rb_head rb) tl (u64 (rb_used rb - to_read)), l, to_read).

Definition ring_buffer_peek (rb : tcp_ring_buffer) (len : Z) : list Z * Z :=
  let to_read := Z.min len (ring_buffer_used rb) in
  (fst (ring_out (Z.to_nat to_read) (rb_size rb) (rb_data rb) (rb_tail rb)), to_read).

(** ** Sockets *)

Record tcp_options := mk_options {
  op_mss : Z;
  op_no_delay : bool;
  op_keep_alive : bool;
  op_keep_alive_time : Z;
}.

Record tcp_pending_conn := mk_pending {
  pc_remote_ip : Z;
  pc_remote_port : Z;
  pc_seq_num : Z;
  pc_timestamp : Z;
  pc_next : Z;
}.
Definition sizeof_tcp_pending_conn : Z := 24.

Record tcp_socket := mk_sock {
  sk_local_port : Z;
  sk_remote_port : Z;
  sk_local_ip : Z;
  sk_remote_ip : Z;
  sk_state : tcp_state;
  sk_snd_una : Z;
  sk_snd_nxt : Z;
  sk_snd_wnd : Z;
  sk_iss : Z;
  sk_rcv_nxt : Z;
  sk_rcv_wnd : Z;
  sk_irs : Z;
  sk_send_buf : tcp_ring_buffer;
  sk_recv_buf : tcp_ring_buffer;
  sk_rto : Z;
  sk_srtt : Z;
  sk_rttvar : Z;
  sk_retries : Z;
  sk_time_wait_start : Z;
  sk_last_activity : Z;
  sk_backlog : Z;
  sk_pending_count : Z;
  sk_pending_head : Z;
  sk_options : tcp_options;
  sk_flags : Z;
  sk_next : Z;
  sk_prev : Z;
}.

Definition sizeof_tcp_socket : Z := 200.

Definition set_local (port : Z) (ip : Z) (s : tcp_socket) : tcp_socket :=
  mk_sock port (sk_remote_port s) ip (sk_remote_ip s) (sk_state s) (sk_snd_una s) (sk_snd_nxt s) (sk_snd_wnd s)
    (sk_iss s) (sk_rcv_nxt s) (sk_rcv_wnd s) (sk_irs s) (sk_send_buf s) (sk_recv_buf s) (sk_rto s) (sk_srtt s)
    (sk_rttvar s) (sk_retries s) (sk_time_wait_start s) (sk_last_activity s) (sk_backlog s) (sk_pending_count s)
    (sk_pending_head s) (sk_options s) (sk_flags s) (sk_next s) (sk_prev s).
Definition set_remote (port : Z) (ip : Z) (s : tcp_socket) : tcp_socket :=
  mk_sock (sk_local_port s) port (sk_local_ip s) ip (sk_state s) (sk_snd_una s) (sk_snd_nxt s) (sk_snd_wnd s)
    (sk_iss s) (sk_rcv_nxt s) (sk_rcv_wnd s) (sk_irs s) (sk_send_buf s) (sk_recv_buf s) (sk_rto s) (sk_srtt s)
    (sk_rttvar s) (sk_retries s) (sk_time_wait_start s) (sk_last_activity s) (sk_backlog s) (sk_pending_count s)
    (sk_pending_head s) (sk_options s) (sk_flags s) (sk_next s) (sk_prev s).
Definition set_sk_state (st : tcp_state) (now : Z) (s : tcp_socket) : tcp_socket :=
  mk_sock (sk_local_port s) (sk_remote_port s) (sk_local_ip s) (sk_remote_ip s) st (sk_snd_una s) (sk_snd_nxt s)
    (sk_snd_wnd s) (sk_iss s) (sk_rcv_nxt s) (sk_rcv_wnd s) (sk_irs s) (sk_send_buf s) (sk_recv_buf s) (sk_rto s)
    (sk_srtt s) (sk_rttvar s) (sk_retries s) (sk_time_wait_start s) now (sk_backlog s) (sk_pending_count s)
    (sk_pending_head s) (sk_options s) (sk_flags s) (sk_next s) (sk_prev s).
Definition set_snd_una (v : Z) (s : tcp_socket) : tcp_socket :=
  mk_sock (sk_local_port s) (sk_remote_port s) (sk_local_ip s) (sk_remote_ip s) (sk_state s) v (sk_snd_nxt s)
    (sk_snd_wnd s) (sk_iss s) (sk_rcv_nxt s) (sk_rcv_wnd s) (sk_irs s) (sk_send_buf s) (sk_recv_buf s) (sk_rto s)
    (sk_srtt s) (sk_rttvar s) (sk_retries s) (sk_time_wait_start s) (sk_last_activity s) (sk_backlog s)
    (sk_pending_count s) (sk_pending_head s) (sk_options s) (sk_flags s) (sk_next s) (sk_prev s).
Definition set_snd_nxt (v : Z) (s : tcp_socket) : tcp_socket :=
  mk_sock (sk_local_port s) (sk_remote_port s) (sk_local_ip s) (sk_remote_ip s) (sk_state s) (sk_snd_una s) v
    (sk_snd_wnd s) (sk_iss s) (sk_rcv_nxt s) (sk_rcv_wnd s) (sk_irs s) (sk_send_buf s) (sk_recv_buf s) (sk_rto s)
    (sk_srtt s) (sk_rttvar s) (sk_retries s) (sk_time_wait_start s) (sk_last_activity s) (sk_backlog s)
    (sk_pending_count s) (sk_pending_head s) (sk_options s) (sk_flags s) (sk_next s) (sk_prev s).
Definition set_snd_wnd (v : Z) (s : tcp_socket) : tcp_socket :=
  mk_sock (sk_local_port s) (sk_remote_port s) (sk_local_ip s) (sk_remote_ip s) (sk_state s) (sk_snd_una s)
    (sk_snd_nxt s) v (sk_iss s) (sk_rcv_nxt s) (sk_rcv_wnd s) (sk_irs s) (sk_send_buf s) (sk_recv_buf s) (sk_rto s)
    (sk_srtt s) (sk_rttvar s) (sk_retries s) (sk_time_wait_start s) (sk_last_activity s) (sk_backlog s)
    (sk_pending_count s) (sk_pending_head s) (sk_options s) (sk_flags s) (sk_next s) (sk_prev s).
Definition set_iss (v : Z) (u : Z) (n : Z) (s : tcp_socket) : tcp_socket :=
  mk_sock (sk_local_port s) (sk_remote_port s) (sk_local_ip s) (sk_remote_ip s) (sk_state s) u n (sk_snd_wnd s) v
    (sk_rcv_nxt s) (sk_rcv_wnd s) (sk_irs s) (sk_send_buf s) (sk_recv_buf s) (sk_rto s) (sk_srtt s) (sk_rttvar s)
    (sk_retries s) (sk_time_wait_start s) (sk_last_activity s) (sk_backlog s) (sk_pending_count s)
    (sk_pending_head s) (sk_options s) (sk_flags s) (sk_next s) (sk_prev s).
Definition set_irs (v : Z) (n : Z) (s : tcp_socket) : tcp_socket :=
  mk_sock (sk_local_port s) (sk_remote_port s) (sk_local_ip s) (sk_remote_ip s) (sk_state s) (sk_snd_una s)
    (sk_snd_nxt s) (sk_snd_wnd s) (sk_iss s) n (sk_rcv_wnd s) v (sk_send_buf s) (sk_recv_buf s) (sk_rto s)
    (sk_srtt s) (sk_rttvar s) (sk_retries s) (sk_time_wait_start s) (sk_last_activity s) (sk_backlog s)
    (sk_pending_count s) (sk_pending_head s) (sk_options s) (sk_flags s) (sk_next s) (sk_prev s).
Definition set_rcv_nxt (v : Z) (s : tcp_socket) : tcp_socket :=
  mk_sock (sk_local_port s) (sk_remote_port s) (sk_local_ip s) (sk_remote_ip s) (sk_state s) (sk_snd_una s)
    (sk_snd_nxt s) (sk_snd_wnd s) (sk_iss s) v (sk_rcv_wnd s) (sk_irs s) (sk_send_buf s) (sk_recv_buf s) (sk_rto s)
    (sk_srtt s) (sk_rttvar s) (sk_retries s) (sk_time_wait_start s) (sk_last_activity s) (sk_backlog s)
    (sk_pending_count s) (sk_pending_head s) (sk_options s) (sk_flags s) (sk_next s) (sk_prev s).
Definition set_rcv_wnd (v : Z) (s : tcp_socket) : tcp_socket :=
  mk_sock (sk_local_port s) (sk_remote_port s) (sk_local_ip s) (sk_remote_ip s) (sk_state s) (sk_snd_una s)
    (sk_snd_nxt s) (sk_snd_wnd s) (sk_iss s) (sk_rcv_nxt s) v (sk_irs s) (sk_send_buf s) (sk_recv_buf s) (sk_rto s)
    (sk_srtt s) (sk_rttvar s) (sk_retries s) (sk_time_wait_start s) (sk_last_activity s) (sk_backlog s)
    (sk_pending_count s) (sk_pending_head s) (sk_options s) (sk_flags s) (sk_next s) (sk_prev s).
Definition set_send_buf (b : tcp_ring_buffer) (s : tcp_socket) : tcp_socket :=
  mk_sock (sk_local_port s) (sk_remote_port s) (sk_local_ip s) (sk_remote_ip s) (sk_state s) (sk_snd_una s)
    (sk_snd_nxt s) (sk_snd_wnd s) (sk_iss s) (sk_rcv_nxt s) (sk_rcv_wnd s) (sk_irs s) b (sk_recv_buf s) (sk_rto s)
    (sk_srtt s) (sk_rttvar s) (sk_retries s) (sk_time_wait_start s) (sk_last_activity s) (sk_backlog s)
    (sk_pending_count s) (sk_pending_head s) (sk_options s) (sk_flags s) (sk_next s) (sk_prev s).
Definition set_recv_buf (b : tcp_ring_buffer) (s : tcp_socket) : tcp_socket :=
  mk_sock (sk_local_port s) (sk_remote_port s) (sk_local_ip s) (sk_remote_ip s) (sk_state s) (sk_snd_una s)
    (sk_snd_nxt s) (sk_snd_wnd s) (sk_iss s) (sk_rcv_nxt s) (sk_rcv_wnd s) (sk_irs s) (sk_send_buf s) b (sk_rto s)
    (sk_srtt s) (sk_rttvar s) (sk_retries s) (sk_time_wait_start s) (sk_last_activity s) (sk_backlog s)
    (sk_pending_count s) (sk_pending_head s) (sk_options s) (sk_flags s) (sk_next s) (sk_prev s).
Definition set_retries (v : Z) (s : tcp_socket) : tcp_socket :=
  mk_sock (sk_local_port s) (sk_remote_port s) (sk_local_ip s) (sk_remote_ip s) (sk_state s) (sk_snd_una s)
    (sk_snd_nxt s) (sk_snd_wnd s) (sk_iss s) (sk_rcv_nxt s) (sk_rcv_wnd s) (sk_irs s) (sk_send_buf s)
    (sk_recv_buf s) (sk_rto s) (sk_srtt s) (sk_rttvar s) v (sk_time_wait_start s) (sk_last_activity s)
    (sk_backlog s) (sk_pending_count s) (sk_pending_head s) (sk_options s) (sk_flags s) (sk_next s) (sk_prev s).
Definition set_time_wait (v : Z) (s : tcp_socket) : tcp_socket :=
  mk_sock (sk_local_port s) (sk_remote_port s) (sk_local_ip s) (sk_remote_ip s) (sk_state s) (sk_snd_una s)
    (sk_snd_nxt s) (sk_snd_wnd s) (sk_iss s) (sk_rcv_nxt s) (sk_rcv_wnd s) (sk_irs s) (sk_send_buf s)
    (sk_recv_buf s) (sk_rto s) (sk_srtt s) (sk_rttvar s) (sk_retries s) v (sk_last_activity s) (sk_backlog s)
    (sk_pending_count s) (sk_pending_head s) (sk_options s) (sk_flags s) (sk_next s) (sk_prev s).
Definition set_sk_queue (b : Z) (n : Z) (p : Z) (s : tcp_socket) : tcp_socket :=
  mk_sock (sk_local_port s) (sk_remote_port s) (sk_local_ip s) (sk_remote_ip s) (sk_state s) (sk_snd_una s)
    (sk_snd_nxt s) (sk_snd_wnd s) (sk_iss s) (sk_rcv_nxt s) (sk_rcv_wnd s) (sk_irs s) (sk_send_buf s)
    (sk_recv_buf s) (sk_rto s) (sk_srtt s) (sk_rttvar s) (sk_retries s) (sk_time_wait_start s) (sk_last_activity s)
    b n p (sk_options s) (sk_flags s) (sk_next s) (sk_prev s).
Definition set_sk_flags (v : Z) (s : tcp_socket) : tcp_socket :=
  mk_sock (sk_local_port s) (sk_remote_port s) (sk_local_ip s) (sk_remote_ip s) (sk_state s) (sk_snd_una s)
    (sk_snd_nxt s) (sk_snd_wnd s) (sk_iss s) (sk_rcv_nxt s) (sk_rcv_wnd s) (sk_irs s) (sk_send_buf s)
    (sk_recv_buf s) (sk_rto s) (sk_srtt s) (sk_rttvar s) (sk_retries s) (sk_time_wait_start s) (sk_last_activity s)
    (sk_backlog s) (sk_pending_count s) (sk_pending_head s) (sk_options s) v (sk_next s) (sk_prev s).
Definition set_sk_links (n : Z) (p : Z) (s : tcp_socket) : tcp_socket :=
  mk_sock (sk_local_port s) (sk_remote_port s) (sk_local_ip s) (sk_remote_ip s) (sk_state s) (sk_snd_una s)
    (sk_snd_nxt s) (sk_snd_wnd s) (sk_iss s) (sk_rcv_nxt s) (sk_rcv_wnd s) (sk_irs s) (sk_send_buf s)
    (sk_recv_buf s) (sk_rto s) (sk_srtt s) (sk_rttvar s) (sk_retries s) (sk_time_wait_start s) (sk_last_activity s)
    (sk_backlog s) (sk_pending_count s) (sk_pending_head s) (sk_options s) (sk_flags s) n p.
Definition set_defaults (w : Z) (r : Z) (o : tcp_options) (s : tcp_socket) : tcp_socket :=
  mk_sock (sk_local_port s) (sk_remote_port s) (sk_local_ip s) (sk_remote_ip s) (sk_state s) (sk_snd_una s)
    (sk_snd_nxt s) (sk_snd_wnd s) (sk_iss s) (sk_rcv_nxt s) w (sk_irs s) (sk_send_buf s) (sk_recv_buf s) r
    (sk_srtt s) (sk_rttvar s) (sk_retries s) (sk_time_wait_start s) (sk_last_activity s) (sk_backlog s)
    (sk_pending_count s) (sk_pending_head s) o (sk_flags s) (sk_next s) (sk_prev s).

(** [kcalloc] *)
Definition zero_ring : tcp_ring_buffer := mk_ring NULL (fun _ => 0) 0 0 0 0.
Definition zero_sock : tcp_socket :=
  mk_sock 0 0 0 0 TCP_STATE_CLOSED 0 0 0 0 0 0 0 zero_ring zero_ring 0 0 0 0 0 0 0 0 NULL (mk_options 0 false false 0)
    0 NULL NULL.

Definition tcp_can_send (s : tcp_socket) : bool :=
  in_state (sk_state s) TCP_STATE_ESTABLISHED || in_state (sk_state s) TCP_STATE_CLOSE_WAIT.
Definition tcp_is_connected (s : tcp_socket) : bool := in_state (sk_state s) TCP_STATE_ESTABLISHED.
Definition tcp_can_recv (s : tcp_socket) : bool :=
  in_state (sk_state s) TCP_STATE_ESTABLISHED || in_state (sk_state s) TCP_STATE_FIN_WAIT_1
  || in_state (sk_state s) TCP_STATE_FIN_WAIT_2.

(** ** Sequence numbers *)

(** The value of a 32-bit word read as a signed one. *)
Definition int32 (x : Z) : Z := if 2 ^ 31 <=? u32 x then u32 x - 2 ^ 32 else u32 x.
Definition seq_lt (a b : Z) : bool := int32 (u32 (a - b)) <? 0.
Definition seq_le (a b : Z) : bool := int32 (u32 (a - b)) <=? 0.
Definition seq_gt (a b : Z) : bool := 0 <? int32 (u32 (a - b)).
Definition seq_ge (a b : Z) : bool := 0 <=? int32 (u32 (a - b)).

(** ** Segments *)

Definition DATA_OFFSET : Z := Z.shiftl (TCP_HEADER_MIN_LEN / 4) 4.
Definition tcp_header (src_port dst_port seq_num ack_num flags window checksum : Z) : list Z :=
  le16 (htons src_port) ++ le16 (htons dst_port) ++ le32 (htonl seq_num) ++ le32 (htonl ack_num) ++
  [DATA_OFFSET; flags] ++ le16 (htons window) ++ le16 checksum ++ le16 0.
Definition tcp_get_header_len (l : list Z) : Z := u8 (Z.shiftr (byte_at l 12) 4 * 4).

Definition pseudo_header (src_ip dst_ip tcp_len : Z) : list Z :=
  le32 (htonl src_ip) ++ le32 (htonl dst_ip) ++ [0; TCP_PROTOCOL] ++ le16 (htons (u16 tcp_len)).
Definition tcp_checksum (src_ip dst_ip : Z) (l : list Z) : Z :=
  let sum := sum_words (pseudo_header src_ip dst_ip (Z.of_nat (length l))) 0 in
  u16 (Z.lnot (fold_sum FOLD_ROUNDS (sum_words l sum))).

(** A segment with its checksum. *)
Definition build_segment (src_ip dst_ip src_port dst_port seq_num ack_num flags window : Z) (data : list Z) : list Z :=
  let hdr := tcp_header src_port dst_port seq_num ack_num flags window in
  hdr (tcp_checksum src_ip dst_ip (hdr 0 ++ data)) ++ data.

(** ** State *)

Record tcp_statistics := mk_tcp_stats {
  packets_sent : Z;
  packets_received : Z;
  bytes_sent : Z;
  bytes_received : Z;
  connections_established : Z;
  connections_closed : Z;
  retransmissions : Z;
  checksum_errors : Z;
}.
Definition zero_tcp_stats : tcp_statistics := mk_tcp_stats 0 0 0 0 0 0 0 0.

Record tcp (H : Type) := mk_tcp {
  tc_sock : Z -> tcp_socket;
  tc_pending : Z -> tcp_pending_conn;
  tcp_socket_list : Z;
  tcp_next_ephemeral_port : Z;
  tcp_isn_counter : Z;
  tcp_stats : tcp_statistics;
  tc_time : Z;
  tc_net : net;
  tc_heap : H;
}.
Arguments mk_tcp {H}.
Arguments tc_sock {H}.
Arguments tc_pending {H}.
Arguments tcp_socket_list {H}.
Arguments tcp_next_ephemeral_port {H}.
Arguments tcp_isn_counter {H}.
Arguments tcp_stats {H}.
Arguments tc_time {H}.
Arguments tc_net {H}.
Arguments tc_heap {H}.

Section Tcp.
Context {H : Type} `{KernelHeap H}.
(** What the driver's [eth_hw_send] returns for a frame, and the bytes in fresh memory. *)
Variable hw_result : list Z -> Z.
Variable fresh : Z -> Z.
Implicit Types t : tcp H.

Definition set_tsock (p : Z) (s : tcp_socket) t : tcp H :=
  mk_tcp (upd (tc_sock t) p s) (tc_pending t) (tcp_socket_list t) (tcp_next_ephemeral_port t) (tcp_isn_counter t)
    (tcp_stats t) (tc_time t) (tc_net t) (tc_heap t).
(** [sock->field = ...] *)
Definition on_sock (p : Z) (f : tcp_socket -> tcp_socket) t : tcp H := set_tsock p (f (tc_sock t p)) t.
Definition set_pending (p : Z) (c : tcp_pending_conn) t : tcp H :=
  mk_tcp (tc_sock t) (upd (tc_pending t) p c) (tcp_socket_list t) (tcp_next_ephemeral_port t) (tcp_isn_counter t)
    (tcp_stats t) (tc_time t) (tc_net t) (tc_heap t).
Definition set_list (p : Z) t : tcp H :=
  mk_tcp (tc_sock t) (tc_pending t) p (tcp_next_ephemeral_port t) (tcp_isn_counter t)
    (tcp_stats t) (tc_time t) (tc_net t) (tc_heap t).
Definition set_next_port (v : Z) t : tcp H :=
  mk_tcp (tc_sock t) (tc_pending t) (tcp_socket_list t) v (tcp_isn_counter t)
    (tcp_stats t) (tc_time t) (tc_net t) (tc_heap t).
Definition set_isn (v : Z) t : tcp H :=
  mk_tcp (tc_sock t) (tc_pending t) (tcp_socket_list t) (tcp_next_ephemeral_port t) v
    (tcp_stats t) (tc_time t) (tc_net t) (tc_heap t).
Definition set_tstats (v : tcp_statistics) t : tcp H :=
  mk_tcp (tc_sock t) (tc_pending t) (tcp_socket_list t) (tcp_next_ephemeral_port t) (tcp_isn_counter t)
    v (tc_time t) (tc_net t) (tc_heap t).
Definition set_tnet (n : net) t : tcp H :=
  mk_tcp (tc_sock t) (tc_pending t) (tcp_socket_list t) (tcp_next_ephemeral_port t) (tcp_isn_counter t)
    (tcp_stats t) (tc_time t) n (tc_heap t).
Definition set_theap (h : H) t : tcp H :=
  mk_tcp (tc_sock t) (tc_pending t) (tcp_socket_list t) (tcp_next_ephemeral_port t) (tcp_isn_counter t)
    (tcp_stats t) (tc_time t) (tc_net t) h.

Definition count_seg_out (n : Z) (c : tcp_statistics) : tcp_statistics :=
  mk_tcp_stats (u64 (packets_sent c + 1)) (packets_received c) (u64 (bytes_sent c + n)) (bytes_received c)
    (connections_established c) (connections_closed c) (retransmissions c) (checksum_errors c).
Definition count_seg_in (c : tcp_statistics) : tcp_statistics :=
  mk_tcp_stats (packets_sent c) (u64 (packets_received c + 1)) (bytes_sent c) (bytes_received c)
    (connections_established c) (connections_closed c) (retransmissions c) (checksum_errors c).
Definition count_bytes_in (n : Z) (c : tcp_statistics) : tcp_statistics :=
  mk_tcp_stats (packets_sent c) (packets_received c) (bytes_sent c) (u64 (bytes_received c + n))
    (connections_established c) (connections_closed c) (retransmissions c) (checksum_errors c).
Definition count_established (c : tcp_statistics) : tcp_statistics :=
  mk_tcp_stats (packets_sent c) (packets_received c) (bytes_sent c) (bytes_received c)
    (u64 (connections_established c + 1)) (connections_closed c) (retransmissions c) (checksum_errors c).
Definition count_closed (c : tcp_statistics) : tcp_statistics :=
  mk_tcp_stats (packets_sent c) (packets_received c) (bytes_sent c) (bytes_received c)
    (connections_established c) (u64 (connections_closed c + 1)) (retransmissions c) (checksum_errors c).
Definition count_retransmit (c : tcp_statistics) : tcp_statistics :=
  mk_tcp_stats (packets_sent c) (packets_received c) (bytes_sent c) (bytes_received c)
    (connections_established c) (connections_closed c) (u64 (retransmissions c + 1)) (checksum_errors c).
Definition count_bad (c : tcp_statistics) : tcp_statistics :=
  mk_tcp_stats (packets_sent c) (packets_received c) (bytes_sent c) (bytes_received c)
    (connections_established c) (connections_closed c) (retransmissions c) (u64 (checksum_errors c + 1)).
Definition on_stats (f : tcp_statistics -> tcp_statistics) t : tcp H := set_tstats (f (tcp_stats t)) t.

(** ** Utilities *)

Definition now32 t : Z := u32 (tc_time t).
Definition sock_next t (p : Z) : Z := sk_next (tc_sock t p).
Definition sock_prev t (p : Z) : Z := sk_prev (tc_sock t p).

(** The counter after the call and the number. *)
Definition tcp_generate_isn t : tcp H * Z :=
  let c := u32 (tcp_isn_counter t + 64000) in
  (set_isn c t, Z.lxor c (u32 (now32 t * 1103515245))).

(** One round of the [do] loop: [inr] is a port that is not in use, or 0 after the last. *)
Definition ephemeral_round (start : Z) t : tcp H + (tcp H * Z) :=
  let port := tcp_next_ephemeral_port t in
  let nxt := u16 (port + 1) in
  let t := set_next_port (if 65535 <=? nxt then EPHEMERAL_FIRST else nxt) t in
  let in_use := negb (find_linked (sock_next t) (fun s => sk_local_port (tc_sock t s) =? port) (tcp_socket_list t) =? NULL) in
  if negb in_use then inr (t, port)
  else if tcp_next_ephemeral_port t =? start then inr (t, 0) else inl t.
(** The counter visits each of the 65536 values at most once before it is back. *)
Definition tcp_alloc_ephemeral_port t : tcp H * Z :=
  match while_pos 65536 (ephemeral_round (tcp_next_ephemeral_port t)) t with
  | inr r => r
  | inl t' => (t', 0)
  end.

(** ** The list of sockets *)

Definition tcp_socket_list_add (p : Z) t : tcp H :=
  let hd := tcp_socket_list t in
  let t := on_sock p (set_sk_links hd NULL) t in
  let t := if negb (hd =? NULL) then on_sock hd (fun s => set_sk_links (sk_next s) p s) t else t in
  set_list p t.

Definition tcp_socket_list_remove (p : Z) t : tcp H :=
  let nx := sock_next t p in
  let pv := sock_prev t p in
  let t := if negb (pv =? NULL) then on_sock pv (fun s => set_sk_links nx (sk_prev s) s) t else set_list nx t in
  let t := if negb (nx =? NULL) then on_sock nx (fun s => set_sk_links (sk_next s) pv s) t else t in
  on_sock p (set_sk_links NULL NULL) t.

Definition matches (local_ip local_port remote_ip remote_port : Z) (s : tcp_socket) : bool :=
  (sk_local_port s =? local_port) && (sk_remote_port s =? remote_port)
  && ((sk_local_ip s =? local_ip) || (sk_local_ip s =? 0)) && (sk_remote_ip s =? remote_ip).
Definition tcp_find_socket (local_ip local_port remote_ip remote_port : Z) t : Z :=
  find_linked (sock_next t) (fun s => matches local_ip local_port remote_ip remote_port (tc_sock t s)) (tcp_socket_list t).
Definition listens (port : Z) (s : tcp_socket) : bool :=
  in_state (sk_state s) TCP_STATE_LISTEN && (sk_local_port s =? port).
Definition tcp_find_listener (port : Z) t : Z :=
  find_linked (sock_next t) (fun s => listens port (tc_sock t s)) (tcp_socket_list t).

(** ** Sending segments *)

(** The address a segment of socket [s] is sent from. *)
Definition source_ip (ip : Z) t : Z := if ip =? 0 then ip_get_addr (tc_net t) else ip.
Definition segment_of (s : tcp_socket) (flags : Z) (data : list Z) t : list Z :=
  build_segment (source_ip (sk_local_ip s) t) (sk_remote_ip s) (sk_local_port s) (sk_remote_port s)
    (sk_snd_nxt s) (sk_rcv_nxt s) flags (u16 (sk_rcv_wnd s)) data.

(** [data] is empty where the code passes NULL and 0. *)
Definition tcp_send_segment (p flags : Z) (data : list Z) t : tcp H * Z :=
  let data_len := Z.of_nat (length data) in
  let total_len := TCP_HEADER_MIN_LEN + data_len in
  let '(h, seg) := kh_malloc total_len (tc_heap t) in
  let t := set_theap h t in
  if seg =? NULL then (t, TCP_ERR_NOMEM)
  else
    let s := tc_sock t p in
    let '(n, result) := ip_send hw_result fresh (sk_remote_ip s) IP_PROTO_TCP (Some (segment_of s flags data t))
                          total_len (tc_net t) in
    let t := set_theap (kh_free seg (tc_heap t)) (set_tnet n t) in
    if result =? 0 then
      let t := on_stats (count_seg_out data_len) t in
      let t := if 0 <? data_len then on_sock p (fun s => set_snd_nxt (u32 (sk_snd_nxt s + data_len)) s) t else t in
      let t := if flag_on flags TCP_FLAG_SYN then on_sock p (fun s => set_snd_nxt (u32 (sk_snd_nxt s + 1)) s) t else t in
      let t := if flag_on flags TCP_FLAG_FIN then on_sock p (fun s => set_snd_nxt (u32 (sk_snd_nxt s + 1)) s) t else t in
      (t, result)
    else (t, result).

Definition tcp_send_rst (src_ip dst_ip src_port dst_port seq ack : Z) t : tcp H :=
  let seg := build_segment (source_ip src_ip t) dst_ip src_port dst_port seq ack (Z.lor TCP_FLAG_RST TCP_FLAG_ACK) 0 [] in
  set_tnet (fst (ip_send hw_result fresh dst_ip IP_PROTO_TCP (Some seg) TCP_HEADER_MIN_LEN (tc_net t))) t.

Definition tcp_set_state (p : Z) (st : tcp_state) t : tcp H :=
  if in_state (sk_state (tc_sock t p)) st then t else on_sock p (set_sk_state st (now32 t)) t.

(** ** Creation and destruction *)

Definition tcp_init t : tcp H :=
  let t := set_next_port EPHEMERAL_FIRST (set_list NULL t) in
  let '(t, isn) := tcp_generate_isn t in
  set_tstats zero_tcp_stats (set_isn isn t).

(** The buffer, the heap and whether it succeeded. *)
Definition ring_buffer_init (rb : tcp_ring_buffer) (size : Z) (h : H) : tcp_ring_buffer * H * bool :=
  let '(h, b) := kh_malloc size h in
  if b =? NULL then (mk_ring NULL (rb_data rb) (rb_size rb) (rb_head rb) (rb_tail rb) (rb_used rb), h, false)
  else (mk_ring b fresh size 0 0 0, h, true).
Definition ring_buffer_free (rb : tcp_ring_buffer) (h : H) : tcp_ring_buffer * H :=
  (mk_ring NULL (rb_data rb) 0 0 0 0, if rb_buffer rb =? NULL then h else kh_free (rb_buffer rb) h).

Definition tcp_socket_create t : tcp H * Z :=
  let '(h, p) := kh_calloc 1 sizeof_tcp_socket (tc_heap t) in
  let t := set_theap h t in
  if p =? NULL then (t, NULL)
  else
    let t := set_tsock p zero_sock t in
    let '(b, h, ok) := ring_buffer_init (sk_send_buf (tc_sock t p)) TCP_SEND_BUF_SIZE (tc_heap t) in
    let t := set_theap h (on_sock p (set_send_buf b) t) in
    if negb ok then (set_theap (kh_free p (tc_heap t)) t, NULL)
    else
      let '(b, h, ok) := ring_buffer_init (sk_recv_buf (tc_sock t p)) TCP_RECV_BUF_SIZE (tc_heap t) in
      let t := set_theap h (on_sock p (set_recv_buf b) t) in
      if negb ok then
        let '(b, h) := ring_buffer_free (sk_send_buf (tc_sock t p)) (tc_heap t) in
        let t := set_theap h (on_sock p (set_send_buf b) t) in
        (set_theap (kh_free p (tc_heap t)) t, NULL)
      else
        let t := on_sock p (fun s =>
                   set_sk_state TCP_STATE_CLOSED (now32 t)
                     (set_defaults TCP_DEFAULT_WINDOW TCP_RETRANSMIT_TIMEOUT
                        (mk_options TCP_MSS_DEFAULT (op_no_delay (sk_options s)) (op_keep_alive (sk_options s))
                           (op_keep_alive_time (sk_options s))) s)) t in
        (tcp_socket_list_add p t, p).

(** [while (pending) { next = pending->next; kfree(pending); pending = next; }] *)
Definition free_pending (head : Z) t : tcp H :=
  match while_pos ADDRESSES (fun '(t, c) =>
          if c =? NULL then inr t else inl (set_theap (kh_free c (tc_heap t)) t, pc_next (tc_pending t c))) (t, head) with
  | inr t => t
  | inl (t, _) => t
  end.

Definition tcp_socket_destroy (p : Z) t : tcp H :=
  if p =? NULL then t
  else
    let t := tcp_socket_list_remove p t in
    let t := free_pending (sk_pending_head (tc_sock t p)) t in
    let '(b, h) := ring_buffer_free (sk_send_buf (tc_sock t p)) (tc_heap t) in
    let t := set_theap h (on_sock p (set_send_buf b) t) in
    let '(b, h) := ring_buffer_free (sk_recv_buf (tc_sock t p)) (tc_heap t) in
    let t := set_theap h (on_sock p (set_recv_buf b) t) in
    set_theap (kh_free p (tc_heap t)) t.

(** ** Binding, listening and accepting *)

Definition bound (s : tcp_socket) : bool := flag_on (sk_flags s) TCP_SOCK_FLAG_BOUND.
Definition port_taken (p port : Z) t : bool :=
  negb (find_linked (sock_next t)
          (fun q => negb (q =? p) && (sk_local_port (tc_sock t q) =? port)
                    && (in_state (sk_state (tc_sock t q)) TCP_STATE_LISTEN || bound (tc_sock t q)))
          (tcp_socket_list t) =? NULL).

Definition tcp_bind (p port : Z) t : tcp H * Z :=
  if p =? NULL then (t, TCP_ERR_INVALID)
  else if bound (tc_sock t p) then (t, TCP_ERR_INVALID)
  else
    let '(t, chosen) := if port =? 0 then let '(t, c) := tcp_alloc_ephemeral_port t in (t, if c =? 0 then None else Some c)
                        else (t, if port_taken p port t then None else Some port) in
    match chosen with
    | None => (t, TCP_ERR_INUSE)
    | Some port =>
        (on_sock p (fun s => set_sk_flags (Z.lor (sk_flags s) TCP_SOCK_FLAG_BOUND)
                               (set_local port (ip_get_addr (tc_net t)) s)) t, TCP_OK)
    end.

Definition tcp_listen (p backlog : Z) t : tcp H * Z :=
  if p =? NULL then (t, TCP_ERR_INVALID)
  else if negb (bound (tc_sock t p)) then (t, TCP_ERR_INVALID)
  else if negb (in_state (sk_state (tc_sock t p)) TCP_STATE_CLOSED) then (t, TCP_ERR_INVALID)
  else
    let backlog := if backlog <? 1 then 1 else backlog in
    let backlog := if TCP_LISTEN_BACKLOG_MAX <? backlog then TCP_LISTEN_BACKLOG_MAX else backlog in
    let t := on_sock p (fun s => set_sk_flags (Z.lor (sk_flags s) TCP_SOCK_FLAG_LISTENING) (set_sk_queue backlog 0 NULL s)) t in
    (tcp_set_state p TCP_STATE_LISTEN t, TCP_OK).

Definition tcp_accept (p : Z) t : tcp H * Z :=
  if (p =? NULL) || negb (in_state (sk_state (tc_sock t p)) TCP_STATE_LISTEN) then (t, NULL)
  else
    let pending := sk_pending_head (tc_sock t p) in
    if pending =? NULL then (t, NULL)
    else
      let '(t, q) := tcp_socket_create t in
      if q =? NULL then (t, NULL)
      else
        let c := tc_pending t pending in
        let s := tc_sock t p in
        let t := on_sock q (fun x => set_remote (pc_remote_port c) (pc_remote_ip c)
                                       (set_local (sk_local_port s) (sk_local_ip s) x)) t in
        let '(t, isn) := tcp_generate_isn t in
        let t := on_sock q (fun x => set_sk_flags (Z.lor (sk_flags x) TCP_SOCK_FLAG_BOUND)
                                       (set_irs (pc_seq_num c) (u32 (pc_seq_num c + 1)) (set_iss isn isn isn x))) t in
        let t := tcp_set_state q TCP_STATE_SYN_RECEIVED t in
        let t := fst (tcp_send_segment q (Z.lor TCP_FLAG_SYN TCP_FLAG_ACK) [] t) in
        let t := on_sock p (fun x => set_sk_queue (sk_backlog x) (sk_pending_count x - 1) (pc_next (tc_pending t pending)) x) t in
        (set_theap (kh_free pending (tc_heap t)) t, q).

(** ** Connecting, sending, receiving and closing *)

Definition tcp_connect (p remote_ip remote_port : Z) t : tcp H * Z :=
  if p =? NULL then (t, TCP_ERR_INVALID)
  else if negb (in_state (sk_state (tc_sock t p)) TCP_STATE_CLOSED) then (t, TCP_ERR_INVALID)
  else
    let '(t, r) := if bound (tc_sock t p) then (t, TCP_OK) else tcp_bind p 0 t in
    if negb (r =? TCP_OK) then (t, r)
    else
      let t := on_sock p (set_remote remote_port remote_ip) t in
      let '(t, isn) := tcp_generate_isn t in
      let t := on_sock p (set_iss isn isn isn) t in
      let t := tcp_set_state p TCP_STATE_SYN_SENT t in
      let '(t, r) := tcp_send_segment p TCP_FLAG_SYN [] t in
      if negb (r =? 0) then (tcp_set_state p TCP_STATE_CLOSED t, r) else (t, TCP_OK).

Definition tcp_output (p : Z) t : tcp H :=
  if (p =? NULL) || negb (tcp_can_send (tc_sock t p)) then t
  else
    let s := tc_sock t p in
    let pending := ring_buffer_used (sk_send_buf s) in
    if pending =? 0 then t
    else
      let to_send := Z.min (Z.min pending (sk_snd_wnd s)) (op_mss (sk_options s)) in
      if to_send =? 0 then t
      else
        let '(h, data) := kh_malloc to_send (tc_heap t) in
        let t := set_theap h t in
        if data =? NULL then t
        else
          let '(l, actual) := ring_buffer_peek (sk_send_buf s) to_send in
          let flags := if actual =? pending then Z.lor TCP_FLAG_ACK TCP_FLAG_PSH else TCP_FLAG_ACK in
          let t := fst (tcp_send_segment p flags l t) in
          let '(b, _, _) := ring_buffer_read (sk_send_buf (tc_sock t p)) actual in
          let t := on_sock p (set_send_buf b) t in
          set_theap (kh_free data (tc_heap t)) t.

(** [data] is [None] for NULL, otherwise the [len] bytes at the pointer. *)
Definition tcp_send (p : Z) (data : option (list Z)) t : tcp H * Z :=
  match data with
  | None => (t, TCP_ERR_INVALID)
  | Some l =>
      if p =? NULL then (t, TCP_ERR_INVALID)
      else if negb (tcp_can_send (tc_sock t p)) then (t, TCP_ERR_NOTCONN)
      else if Z.of_nat (length l) =? 0 then (t, 0)
      else
        let '(b, written) := ring_buffer_write (sk_send_buf (tc_sock t p)) l in
        let t := on_sock p (set_send_buf b) t in
        if written =? 0 then
          (t, if flag_on (sk_flags (tc_sock t p)) TCP_SOCK_FLAG_NONBLOCK then TCP_ERR_WOULDBLOCK else TCP_ERR_NOBUFS)
        else (tcp_output p t, written)
  end.

(** The state, the bytes stored at [buf] and the return value. *)
Definition tcp_recv (p buf max_len : Z) t : tcp H * list Z * Z :=
  if (p =? NULL) || (buf =? NULL) then (t, [], TCP_ERR_INVALID)
  else if in_state (sk_state (tc_sock t p)) TCP_STATE_CLOSED then (t, [], TCP_ERR_NOTCONN)
  else
    let '(b, l, bytes_read) := ring_buffer_read (sk_recv_buf (tc_sock t p)) max_len in
    let t := on_sock p (set_recv_buf b) t in
    let s := tc_sock t p in
    let update t := on_sock p (fun s => set_rcv_wnd (u32 (ring_buffer_space (sk_recv_buf s))) s) t in
    if bytes_read =? 0 then
      if in_state (sk_state s) TCP_STATE_CLOSE_WAIT || in_state (sk_state s) TCP_STATE_LAST_ACK
         || in_state (sk_state s) TCP_STATE_TIME_WAIT || in_state (sk_state s) TCP_STATE_CLOSING then (t, l, 0)
      else if flag_on (sk_flags s) TCP_SOCK_FLAG_NONBLOCK then (t, l, TCP_ERR_WOULDBLOCK)
      else (update t, l, bytes_read)
    else (update t, l, bytes_read).

Definition FIN_ACK : Z := Z.lor TCP_FLAG_FIN TCP_FLAG_ACK.
Definition tcp_close (p : Z) t : tcp H * Z :=
  if p =? NULL then (t, TCP_ERR_INVALID)
  else
    match sk_state (tc_sock t p) with
    | TCP_STATE_CLOSED => (tcp_socket_destroy p t, TCP_OK)
    | TCP_STATE_LISTEN | TCP_STATE_SYN_SENT =>
        (tcp_socket_destroy p (tcp_set_state p TCP_STATE_CLOSED t), TCP_OK)
    | TCP_STATE_SYN_RECEIVED | TCP_STATE_ESTABLISHED =>
        let t := tcp_set_state p TCP_STATE_FIN_WAIT_1 t in
        (on_stats count_closed (fst (tcp_send_segment p FIN_ACK [] t)), TCP_OK)
    | TCP_STATE_CLOSE_WAIT =>
        let t := tcp_set_state p TCP_STATE_LAST_ACK t in
        (on_stats count_closed (fst (tcp_send_segment p FIN_ACK [] t)), TCP_OK)
    | _ => (t, TCP_OK)
    end.

Definition tcp_abort (p : Z) t : tcp H :=
  if p =? NULL then t
  else
    let s := tc_sock t p in
    let t := if negb (in_state (sk_state s) TCP_STATE_CLOSED) && negb (in_state (sk_state s) TCP_STATE_LISTEN)
             then tcp_send_rst (sk_local_ip s) (sk_remote_ip s) (sk_local_port s) (sk_remote_port s)
                    (sk_snd_nxt s) (sk_rcv_nxt s) t
             else t in
    tcp_socket_destroy p (tcp_set_state p TCP_STATE_CLOSED t).

Definition tcp_set_nonblock (p : Z) (nonblock : bool) t : tcp H :=
  if p =? NULL then t
  else if nonblock then on_sock p (fun s => set_sk_flags (Z.lor (sk_flags s) TCP_SOCK_FLAG_NONBLOCK) s) t
  else on_sock p (fun s => set_sk_flags (Z.land (sk_flags s) (u32 (Z.lnot TCP_SOCK_FLAG_NONBLOCK))) s) t.

(** ** Receiving segments *)

(** The fields of a segment, after the byte order is reversed. *)
Record tcp_segment := mk_segment {
  sg_src_ip : Z;
  sg_dst_ip : Z;
  sg_src_port : Z;
  sg_dst_port : Z;
  sg_seq : Z;
  sg_ack : Z;
  sg_flags : Z;
  sg_window : Z;
  sg_data : list Z;
}.

Definition send_ack (p : Z) t : tcp H := fst (tcp_send_segment p TCP_FLAG_ACK [] t).
Definition answer_rst (g : tcp_segment) (seq ack : Z) t : tcp H :=
  tcp_send_rst (sg_dst_ip g) (sg_src_ip g) (sg_dst_port g) (sg_src_port g) seq ack t.

Definition rcv_listen (p : Z) (g : tcp_segment) t : tcp H :=
  let s := tc_sock t p in
  if flag_on (sg_flags g) TCP_FLAG_SYN then
    if sk_backlog s <=? sk_pending_count s then t
    else
      let '(h, c) := kh_malloc sizeof_tcp_pending_conn (tc_heap t) in
      let t := set_theap h t in
      if c =? NULL then t
      else
        let t := set_pending c (mk_pending (sg_src_ip g) (sg_src_port g) (sg_seq g) (now32 t) (sk_pending_head s)) t in
        on_sock p (fun s => set_sk_queue (sk_backlog s) (sk_pending_count s + 1) c s) t
  else t.

Definition rcv_syn_sent (p : Z) (g : tcp_segment) t : tcp H :=
  let s := tc_sock t p in
  let syn_ack := Z.lor TCP_FLAG_SYN TCP_FLAG_ACK in
  if Z.land (sg_flags g) syn_ack =? syn_ack then
    if negb (sg_ack g =? sk_snd_nxt s) then answer_rst g (sg_ack g) 0 t
    else
      let t := on_sock p (fun s => set_snd_wnd (sg_window g)
                                     (set_irs (sg_seq g) (u32 (sg_seq g + 1)) (set_snd_una (sg_ack g) s))) t in
      let t := tcp_set_state p TCP_STATE_ESTABLISHED t in
      let t := send_ack p t in
      let t := on_sock p (fun s => set_sk_flags (Z.lor (sk_flags s) TCP_SOCK_FLAG_CONNECTED) s) t in
      on_stats count_established t
  else if flag_on (sg_flags g) TCP_FLAG_SYN then
    let t := on_sock p (set_irs (sg_seq g) (u32 (sg_seq g + 1))) t in
    let t := tcp_set_state p TCP_STATE_SYN_RECEIVED t in
    fst (tcp_send_segment p syn_ack [] t)
  else t.

Definition rcv_syn_received (p : Z) (g : tcp_segment) t : tcp H :=
  if flag_on (sg_flags g) TCP_FLAG_ACK && (sg_ack g =? sk_snd_nxt (tc_sock t p)) then
    let t := on_sock p (fun s => set_snd_wnd (sg_window g) (set_snd_una (sg_ack g) s)) t in
    let t := tcp_set_state p TCP_STATE_ESTABLISHED t in
    let t := on_sock p (fun s => set_sk_flags (Z.lor (sk_flags s) TCP_SOCK_FLAG_CONNECTED) s) t in
    on_stats count_established t
  else t.

Definition take_ack (g : tcp_segment) (s : tcp_socket) : tcp_socket :=
  let s := if seq_gt (sg_ack g) (sk_snd_una s) && seq_le (sg_ack g) (sk_snd_nxt s) then set_snd_una (sg_ack g) s else s in
  set_snd_wnd (sg_window g) s.
Definition take_data (p : Z) (g : tcp_segment) t : tcp H :=
  let s := tc_sock t p in
  if sg_seq g =? sk_rcv_nxt s then
    let '(b, written) := ring_buffer_write (sk_recv_buf s) (sg_data g) in
    let t := on_sock p (fun s => set_rcv_wnd (u32 (ring_buffer_space b))
                                   (set_rcv_nxt (u32 (sk_rcv_nxt s + written)) (set_recv_buf b s))) t in
    send_ack p (on_stats (count_bytes_in written) t)
  else send_ack p t.
Definition take_fin (p : Z) t : tcp H := on_sock p (fun s => set_rcv_nxt (u32 (sk_rcv_nxt s + 1)) s) t.
Definition enter_time_wait (p : Z) t : tcp H :=
  let t := tcp_set_state p TCP_STATE_TIME_WAIT t in on_sock p (set_time_wait (now32 t)) t.

Definition rcv_established (p : Z) (g : tcp_segment) t : tcp H :=
  let t := if flag_on (sg_flags g) TCP_FLAG_ACK then on_sock p (take_ack g) t else t in
  let t := if 0 <? Z.of_nat (length (sg_data g)) then take_data p g t else t in
  if flag_on (sg_flags g) TCP_FLAG_FIN
  then send_ack p (tcp_set_state p TCP_STATE_CLOSE_WAIT (take_fin p t))
  else t.

Definition rcv_fin_wait_1 (p : Z) (g : tcp_segment) t : tcp H :=
  let t := if flag_on (sg_flags g) TCP_FLAG_ACK && (sg_ack g =? sk_snd_nxt (tc_sock t p))
           then tcp_set_state p TCP_STATE_FIN_WAIT_2 t else t in
  if flag_on (sg_flags g) TCP_FLAG_FIN then
    let t := send_ack p (take_fin p t) in
    if in_state (sk_state (tc_sock t p)) TCP_STATE_FIN_WAIT_2 then enter_time_wait p t
    else tcp_set_state p TCP_STATE_CLOSING t
  else t.

Definition rcv_fin_wait_2 (p : Z) (g : tcp_segment) t : tcp H :=
  if flag_on (sg_flags g) TCP_FLAG_FIN then send_ack p (enter_time_wait p (take_fin p t)) else t.

Definition rcv_closing (p : Z) (g : tcp_segment) t : tcp H :=
  if flag_on (sg_flags g) TCP_FLAG_ACK && (sg_ack g =? sk_snd_nxt (tc_sock t p)) then enter_time_wait p t else t.

Definition rcv_last_ack (p : Z) (g : tcp_segment) t : tcp H :=
  if flag_on (sg_flags g) TCP_FLAG_ACK && (sg_ack g =? sk_snd_nxt (tc_sock t p))
  then tcp_socket_destroy p (tcp_set_state p TCP_STATE_CLOSED t) else t.

(** The [switch] on the state, for a segment without RST. *)
Definition tcp_dispatch (p : Z) (g : tcp_segment) t : tcp H :=
  match sk_state (tc_sock t p) with
  | TCP_STATE_CLOSED => if negb (flag_on (sg_flags g) TCP_FLAG_RST) then answer_rst g (sg_ack g) (u32 (sg_seq g + 1)) t else t
  | TCP_STATE_LISTEN => rcv_listen p g t
  | TCP_STATE_SYN_SENT => rcv_syn_sent p g t
  | TCP_STATE_SYN_RECEIVED => rcv_syn_received p g t
  | TCP_STATE_ESTABLISHED => rcv_established p g t
  | TCP_STATE_FIN_WAIT_1 => rcv_fin_wait_1 p g t
  | TCP_STATE_FIN_WAIT_2 => rcv_fin_wait_2 p g t
  | TCP_STATE_CLOSE_WAIT => if flag_on (sg_flags g) TCP_FLAG_ACK then on_sock p (set_snd_una (sg_ack g)) t else t
  | TCP_STATE_CLOSING => rcv_closing p g t
  | TCP_STATE_LAST_ACK => rcv_last_ack p g t
  | TCP_STATE_TIME_WAIT => if flag_on (sg_flags g) TCP_FLAG_FIN then send_ack p t else t
  end.

(** From the lookup of the socket on. *)
Definition tcp_deliver (g : tcp_segment) t : tcp H * Z :=
  let p := tcp_find_socket (sg_dst_ip g) (sg_dst_port g) (sg_src_ip g) (sg_src_port g) t in
  let p := if p =? NULL then tcp_find_listener (sg_dst_port g) t else p in
  if p =? NULL then
    (if negb (flag_on (sg_flags g) TCP_FLAG_RST) then
       if flag_on (sg_flags g) TCP_FLAG_ACK then answer_rst g (sg_ack g) 0 t
       else answer_rst g 0 (u32 (sg_seq g + 1)) t
     else t, -1)
  else if flag_on (sg_flags g) TCP_FLAG_RST then
    (if negb (in_state (sk_state (tc_sock t p)) TCP_STATE_LISTEN) then tcp_set_state p TCP_STATE_CLOSED t else t, 0)
  else (tcp_dispatch p g t, 0).

Definition clear_checksum (l : list Z) : list Z := <[16%nat := 0]> (<[17%nat := 0]> l).
Definition parse_segment (src_ip dst_ip : Z) (l : list Z) : tcp_segment :=
  mk_segment src_ip dst_ip (ntohs (get16 l 0)) (ntohs (get16 l 2)) (ntohl (get32 l 4)) (ntohl (get32 l 8))
    (byte_at l 13) (ntohs (get16 l 14)) (drop (Z.to_nat (tcp_get_header_len l)) l).

(** [packet] is [None] for NULL; the segment is the first [len] bytes at the pointer. *)
Definition tcp_receive (packet : option (list Z)) (len src_ip dst_ip : Z) t : tcp H * Z :=
  match packet with
  | None => (t, -1)
  | Some bytes =>
      if len <? TCP_HEADER_MIN_LEN then (t, -1)
      else
        let l := take (Z.to_nat len) bytes in
        let header_len := tcp_get_header_len l in
        if (header_len <? TCP_HEADER_MIN_LEN) || (len <? header_len) then (t, -1)
        else
          let received := get16 l 16 in
          let '(h, copy) := kh_malloc len (tc_heap t) in
          let t := set_theap h t in
          if copy =? NULL then (t, -1)
          else
            let calc := tcp_checksum src_ip dst_ip (clear_checksum l) in
            let t := set_theap (kh_free copy (tc_heap t)) t in
            if negb (received =? calc) then (on_stats count_bad t, -1)
            else tcp_deliver (parse_segment src_ip dst_ip l) (on_stats count_seg_in t)
  end.

(** ** The timer *)

Definition tick_socket (now p : Z) t : tcp H :=
  let s := tc_sock t p in
  match sk_state s with
  | TCP_STATE_TIME_WAIT =>
      if TCP_TIME_WAIT_TIMEOUT <=? u32 (now - sk_time_wait_start s)
      then tcp_socket_destroy p (tcp_set_state p TCP_STATE_CLOSED t) else t
  | TCP_STATE_SYN_SENT | TCP_STATE_SYN_RECEIVED =>
      if u32 (sk_rto s * (sk_retries s + 1)) <=? u32 (now - sk_last_activity s) then
        if TCP_MAX_RETRIES <=? sk_retries s then tcp_abort p t
        else
          let t := on_sock p (fun s => set_retries (u8 (sk_retries s + 1)) s) t in
          let t := on_stats count_retransmit t in
          let t := on_sock p (fun s => set_snd_nxt (sk_iss s) s) t in
          fst (tcp_send_segment p (if in_state (sk_state s) TCP_STATE_SYN_SENT then TCP_FLAG_SYN
                                   else Z.lor TCP_FLAG_SYN TCP_FLAG_ACK) [] t)
      else t
  | _ => t
  end.

Definition tcp_timer_tick t : tcp H :=
  let now := now32 t in
  match while_pos ADDRESSES (fun '(t, p) =>
          if p =? NULL then inr t else let nx := sock_next t p in inl (tick_socket now p t, nx))
          (t, tcp_socket_list t) with
  | inr t => t
  | inl (t, _) => t
  end.
End Tcp.
