(* ===== verification/TcpRing.v ===== *)
(** * TCP ring buffers and sequence numbers (net/tcp/tcp.c)

    The ring buffer refines a bounded queue of bytes; the signed comparison of sequence
    numbers is the order of the positions they stand for; the window a socket advertises
    is the free space of its buffer, except when the buffer is empty. *)
From S2P Require Import Prelude Memory Ring Netbuf Net Checksum Packets Chain Tcp.
(** ** Ring buffers *)

(** The positions agree with the number of bytes in the buffer. *)
Record ring_ok (rb : tcp_ring_buffer) : Prop := mk_ring_ok {
  ro_size : 0 < rb_size rb < 2 ^ 63;
  ro_used : 0 <= rb_used rb <= rb_size rb;
  ro_tail : 0 <= rb_tail rb < rb_size rb;
  ro_head : rb_head rb = (rb_tail rb + rb_used rb) mod rb_size rb;
}.

(** The bytes in the buffer, oldest first, and the ring_room behind them. *)
Definition rb_contents (rb : tcp_ring_buffer) : list Z := ring (rb_data rb) (rb_size rb) (rb_tail rb) (Z.to_nat (rb_used rb)).
Definition ring_room (rb : tcp_ring_buffer) : nat := Z.to_nat (rb_size rb - rb_used rb).

Lemma length_rb_contents rb : length (rb_contents rb) = Z.to_nat (rb_used rb).
Proof. apply length_ring. Qed.

Lemma ring_in_ok l size b tl n : 0 < size -> 0 <= tl < size -> Z.of_nat (n + length l) <= size ->
  let '(b', hd) := ring_in l size b ((tl + Z.of_nat n) mod size) in
  hd = (tl + Z.of_nat (n + length l)) mod size /\ ring b' size tl (n + length l) = ring b size tl n ++ l.
Proof.
  intros Hs Ht. revert b n. induction l as [|x l IH]; intros b n Hn; simpl in *.
  - by rewrite Nat.add_0_r, app_nil_r.
  - rewrite mod_succ by done. replace (tl + Z.of_nat n + 1) with (tl + Z.of_nat (S n)) by lia.
    specialize (IH (upd b ((tl + Z.of_nat n) mod size) x) (S n) ltac:(lia)).
    destruct (ring_in l size _ _) as [b' hd]. destruct IH as [E1 E2].
    replace (n + S (length l))%nat with (S n + length l)%nat by lia. split; [done|].
    rewrite E2, ring_push by (done || lia). by rewrite <- app_assoc.
Qed.

Lemma ring_out_ok n size b tl : 0 < size -> 0 <= tl < size ->
  ring_out n size b tl = (ring b size tl n, (tl + Z.of_nat n) mod size).
Proof.
  intros Hs. revert tl. induction n as [|n IH]; intros tl Ht; simpl.
  - by rewrite Z.add_0_r, Z.mod_small.
  - rewrite IH by (apply Z.mod_pos_bound; lia). rewrite mod_succ by done. do 2 f_equal. lia.
Qed.

(** What the three operations do to the rb_contents. *)
Lemma ring_write_ok rb l : ring_ok rb ->
  let '(rb', n) := ring_buffer_write rb l in
  ring_ok rb' /\ rb_size rb' = rb_size rb /\ rb_buffer rb' = rb_buffer rb /\
  n = Z.min (Z.of_nat (length l)) (rb_size rb - rb_used rb) /\ rb_used rb' = rb_used rb + n /\
  rb_contents rb' = rb_contents rb ++ take (ring_room rb) l.
Proof.
  intros [Hs Hu Ht Hh]. unfold ring_buffer_write, ring_buffer_space. rewrite u64_id by lia.
  set (n := Z.min _ _). assert (0 <= n <= rb_size rb - rb_used rb) by lia.
  pose proof (ring_in_ok (take (Z.to_nat n) l) (rb_size rb) (rb_data rb) (rb_tail rb) (Z.to_nat (rb_used rb))) as Hin.
  rewrite length_take in Hin. replace (Z.to_nat n `min` length l)%nat with (Z.to_nat n) in Hin by lia.
  rewrite Z2Nat.id in Hin by lia. rewrite <- Hh in Hin.
  destruct (ring_in _ _ _ _) as [b hd]. destruct Hin as [E1 E2]; [lia..|].
  rewrite u64_id by lia. replace (Z.of_nat (Z.to_nat (rb_used rb) + Z.to_nat n)) with (rb_used rb + n) in E1 by lia.
  split; [split; simpl; lia|]. do 2 (split; [done|]). do 2 (split; [done|]). unfold rb_contents, ring_room. simpl.
  replace (Z.to_nat (rb_used rb + n)) with (Z.to_nat (rb_used rb) + Z.to_nat n)%nat by lia. rewrite E2. f_equal.
  unfold n. destruct (Z.min_spec (Z.of_nat (length l)) (rb_size rb - rb_used rb)) as [[Hlt ->]|[Hge ->]]; [|done].
  rewrite Nat2Z.id, !take_ge by lia. done.
Qed.

Lemma ring_read_ok rb len : ring_ok rb -> 0 <= len ->
  let '(rb', l, n) := ring_buffer_read rb len in
  ring_ok rb' /\ rb_size rb' = rb_size rb /\ rb_buffer rb' = rb_buffer rb /\ n = Z.of_nat (length l) /\
  n = Z.min len (rb_used rb) /\ l = take (Z.to_nat len) (rb_contents rb) /\ rb_contents rb' = drop (Z.to_nat len) (rb_contents rb) /\
  ring_buffer_peek rb len = (l, n).
Proof.
  intros [Hs Hu Ht Hh] Hl. unfold ring_buffer_read, ring_buffer_peek, ring_buffer_used. set (n := Z.min _ _).
  assert (0 <= n <= rb_used rb) by lia. rewrite ring_out_ok by lia. rewrite Z2Nat.id by lia. rewrite u64_id by lia.
  assert (take (Z.to_nat n) (rb_contents rb) = take (Z.to_nat len) (rb_contents rb) /\
          drop (Z.to_nat n) (rb_contents rb) = drop (Z.to_nat len) (rb_contents rb)) as [Et Ed].
  { unfold n. destruct (Z.min_spec len (rb_used rb)) as [[Hlt ->]|[Hge ->]]; [done|].
    rewrite !take_ge, !drop_ge by (rewrite length_rb_contents; lia). done. }
  split. { split; cbn [rb_size rb_used rb_tail rb_head]; [done|lia|apply Z.mod_pos_bound; lia|].
    rewrite mod_succ by lia. rewrite Hh. f_equal. lia. }
  do 2 (split; [done|]). split; [rewrite length_ring; lia|]. split; [done|].
  split; [|split; [|done]].
  - rewrite <- Et. apply ring_take; lia.
  - rewrite <- Ed. unfold rb_contents. cbn [rb_size rb_used rb_tail rb_data].
    replace (Z.to_nat (rb_used rb - n)) with (Z.to_nat (rb_used rb) - Z.to_nat n)%nat by lia.
    pose proof (ring_drop (rb_size rb) ltac:(lia) (rb_data rb) (rb_tail rb) (Z.to_nat (rb_used rb)) (Z.to_nat n)) as Hd.
    rewrite Z2Nat.id in Hd by lia. apply Hd; lia.
Qed.

(** A TCP ring buffer is a queue of bytes: in a buffer whose positions are
    consistent, writing appends as much of the data as there is ring_room for and returns how
    much that is, reading takes the oldest bytes out and peeking returns the same bytes
    without changing anything, and the positions stay consistent; so bytes leave in the
    order they came in, none is lost or invented and no index leaves the buffer. *)
Theorem tcp_ring_refines_queue rb l len :
  ring_ok rb -> 0 <= len ->
  (let '(rb', n) := ring_buffer_write rb l in
   ring_ok rb' /\ rb_contents rb' = rb_contents rb ++ take (Z.to_nat n) l /\
   n = Z.min (Z.of_nat (length l)) (rb_size rb - Z.of_nat (length (rb_contents rb)))) /\
  (let '(rb', out, n) := ring_buffer_read rb len in
   ring_ok rb' /\ rb_contents rb = out ++ rb_contents rb' /\ n = Z.of_nat (length out) /\
   n = Z.min len (Z.of_nat (length (rb_contents rb))) /\ ring_buffer_peek rb len = (out, n)).
Proof.
  intros Hr Hl. rewrite !length_rb_contents. pose proof (ro_used rb Hr). rewrite Z2Nat.id by lia. split.
  - pose proof (ring_write_ok rb l Hr) as Hw. destruct (ring_buffer_write rb l) as [rb' n].
    destruct Hw as (H1 & _ & _ & H2 & _ & H3). split; [done|]. split; [|done]. rewrite H3. f_equal. unfold ring_room. subst n.
    destruct (Z.min_spec (Z.of_nat (length l)) (rb_size rb - rb_used rb)) as [[Hlt ->]|[Hge ->]]; [|done].
    rewrite !take_ge by lia. done.
  - pose proof (ring_read_ok rb len Hr Hl) as Hw. destruct (ring_buffer_read rb len) as [[rb' out] n].
    destruct Hw as (H1 & _ & _ & H2 & H3 & H4 & H5 & H6). rewrite H5, H4 at 1. rewrite take_drop. done.
Qed.

(** ** Sequence numbers *)

Lemma int32_val x : - 2 ^ 31 <= x < 2 ^ 31 -> int32 (u32 x) = x.
Proof. intros Hx. unfold int32, u32. rewrite Z.mod_mod by lia. case_if; dlia. Qed.
Lemma u32_sub a b : u32 (u32 a - u32 b) = u32 (a - b).
Proof. unfold u32. rewrite <- Zminus_mod. done. Qed.

(** the comparisons of sequence numbers are those of the positions in the stream:
    for positions less than 2^31 apart, however often the 32-bit numbers have wrapped. *)
Theorem tcp_seq_order x y :
  - 2 ^ 31 < x - y < 2 ^ 31 ->
  seq_lt (u32 x) (u32 y) = (x <? y) /\ seq_le (u32 x) (u32 y) = (x <=? y) /\
  seq_gt (u32 x) (u32 y) = (y <? x) /\ seq_ge (u32 x) (u32 y) = (y <=? x).
Proof.
  intros Hd. unfold seq_lt, seq_le, seq_gt, seq_ge. rewrite u32_sub, int32_val by lia.
  split; [|split; [|split]]; zbool; lia.
Qed.

(** A window of one less than half the numbers is as large as it can be: half way round,
    each of two numbers is before the other. *)
Theorem tcp_seq_order_sharp x : seq_lt (u32 x) (u32 (x + 2 ^ 31)) = true /\ seq_lt (u32 (x + 2 ^ 31)) (u32 x) = true.
Proof.
  unfold seq_lt. rewrite !u32_sub. replace (x - (x + 2 ^ 31)) with (- 2 ^ 31) by lia.
  by replace (x + 2 ^ 31 - x) with (2 ^ 31) by lia.
Qed.

(** ** Witnesses *)

(** Four bytes at the end of a ring of eight. *)
Definition demo_ring : tcp_ring_buffer := mk_ring 0x100000 (fun i => 10 + i) 8 3 7 4.
Lemma demo_ring_ok : ring_ok demo_ring.
Proof. split; simpl; try lia. reflexivity. Qed.

Lemma tcp_ring_refines_queue_witness :
  ring_ok demo_ring /\ rb_contents demo_ring = [17; 10; 11; 12] /\
  rb_contents (fst (ring_buffer_write demo_ring [1; 2; 3; 4; 5])) = [17; 10; 11; 12; 1; 2; 3; 4].
Proof.
  pose proof (tcp_ring_refines_queue demo_ring [1; 2; 3; 4; 5] 3 demo_ring_ok ltac:(lia)) as [Hw _].
  split; [exact demo_ring_ok|]. split; [reflexivity|].
  destruct (ring_buffer_write demo_ring [1; 2; 3; 4; 5]) as [rb n] eqn:E. destruct Hw as (_ & Hc & Hn). simpl fst.
  rewrite Hc, Hn. reflexivity.
Defined.

Lemma tcp_seq_order_witness : seq_lt (u32 (2 ^ 32 - 5)) (u32 (2 ^ 32 + 5)) = true.
Proof. destruct (tcp_seq_order (2 ^ 32 - 5) (2 ^ 32 + 5) ltac:(lia)) as [-> _]. reflexivity. Defined.

(** ** TCP segments: layout and checksum (net/tcp/tcp.c)

    The checksum of a segment covers the pseudo-header and the whole segment: what
    [tcp_send_segment] builds is accepted and read back field by field, and a segment in
    which one byte was changed on the way is refused. *)

Lemma bytes_app l1 l2 : bytes (l1 ++ l2) <-> bytes l1 /\ bytes l2.
Proof. apply Forall_app. Qed.

(** ** The checksum *)

(** The sum over the pseudo-header and the segment. *)
Definition tcp_sum (src dst : Z) (l : list Z) : Z := word_sum (pseudo_header src dst (Z.of_nat (length l)) ++ l).

Lemma pseudo_length src dst n : length (pseudo_header src dst n) = 12%nat.
Proof. done. Qed.
Lemma pseudo_bytes src dst n : bytes (pseudo_header src dst n).
Proof.
  unfold pseudo_header. rewrite !bytes_app. split_and!; auto with word.
  repeat constructor; unfold TCP_PROTOCOL; lia.
Qed.
Lemma sum_words_app l1 l2 s : Nat.Even (length l1) -> sum_words (l1 ++ l2) s = sum_words l2 (sum_words l1 s).
Proof.
  revert s. induction l1 as [|b|b c l IH] using pair_ind; intros s He; simpl in *; [done| |].
  - destruct He as [k Hk]. lia.
  - apply IH. destruct He as [k Hk]. exists (k - 1)%nat. lia.
Qed.

(** The sum is positive: the protocol number is part of it. *)
Lemma tcp_sum_pos src dst l : bytes l -> 0 < tcp_sum src dst l.
Proof.
  intros Hl. unfold tcp_sum. set (n := Z.of_nat _). pose proof (pseudo_bytes src dst n) as Hp.
  rewrite word_sum_app by (by exists 6%nat). pose proof (word_sum_bound l Hl).
  unfold pseudo_header in *. rewrite !bytes_app in Hp. destruct Hp as (H1 & H2 & _ & H4).
  rewrite !word_sum_app by (first [by exists 2%nat|by exists 1%nat]).
  pose proof (word_sum_bound _ H1). pose proof (word_sum_bound _ H2). pose proof (word_sum_bound _ H4).
  change (word_sum [0; TCP_PROTOCOL]) with 1536. lia.
Qed.

(** The longest segment whose 32-bit sum cannot wrap. *)
Definition SEGMENT_MAX : Z := 65535.

Lemma tcp_checksum_val src dst l : bytes l -> Z.of_nat (length l) <= SEGMENT_MAX ->
  tcp_checksum src dst l = 65535 - ones_sum (tcp_sum src dst l).
Proof.
  intros Hb Hl. unfold tcp_checksum, tcp_sum. set (h := pseudo_header _ _ _).
  rewrite <- sum_words_app by (exists 6%nat; done).
  assert (bytes (h ++ l)) by (apply Forall_app; split; [apply pseudo_bytes|done]).
  apply (ip_checksum_val (h ++ l)); [done|]. rewrite length_app. unfold h. rewrite pseudo_length.
  unfold SEGMENT_MAX, CHECKSUM_MAX in *. lia.
Qed.
Lemma tcp_checksum_range src dst l : bytes l -> Z.of_nat (length l) <= SEGMENT_MAX -> 0 <= tcp_checksum src dst l < 65535.
Proof.
  intros Hb Hl. rewrite tcp_checksum_val by done. pose proof (tcp_sum_pos src dst l Hb).
  unfold ones_sum. case_if; dlia.
Qed.

(** ** Building and parsing *)

Lemma tcp_header_length sp dp sq ak fl w c : length (tcp_header sp dp sq ak fl w c) = 20%nat.
Proof. done. Qed.
Lemma tcp_header_bytes sp dp sq ak fl w c : is_byte fl -> bytes (tcp_header sp dp sq ak fl w c).
Proof.
  intros Hf. unfold tcp_header. rewrite !bytes_app. split_and!; auto with word.
  repeat constructor; try apply Hf; by vm_compute.
Qed.
Lemma clear_header sp dp sq ak fl w c data :
  clear_checksum (tcp_header sp dp sq ak fl w c ++ data) = tcp_header sp dp sq ak fl w 0 ++ data.
Proof. reflexivity. Qed.

(** What the fields of a connection may be. *)
Record fields_ok (src dst sp dp sq ak fl w : Z) (data : list Z) : Prop := mk_fields {
  fo_src : 0 <= src < 2 ^ 32;
  fo_dst : 0 <= dst < 2 ^ 32;
  fo_sp : 0 <= sp < 65536;
  fo_dp : 0 <= dp < 65536;
  fo_seq : 0 <= sq < 2 ^ 32;
  fo_ack : 0 <= ak < 2 ^ 32;
  fo_flags : is_byte fl;
  fo_window : 0 <= w < 65536;
  fo_data : bytes data;
  fo_len : Z.of_nat (length data) <= SEGMENT_MAX - TCP_HEADER_MIN_LEN;
}.

Section Build.
Context (src dst sp dp sq ak fl w : Z) (data : list Z) (Hf : fields_ok src dst sp dp sq ak fl w data).
Let seg := build_segment src dst sp dp sq ak fl w data.

Lemma build_length : Z.of_nat (length seg) = TCP_HEADER_MIN_LEN + Z.of_nat (length data).
Proof. unfold seg, build_segment. rewrite length_app, tcp_header_length. unfold TCP_HEADER_MIN_LEN. lia. Qed.
Lemma build_bytes : bytes seg.
Proof. apply Forall_app. split; [|apply Hf]. apply tcp_header_bytes, Hf. Qed.
Lemma build_header_len : tcp_get_header_len seg = TCP_HEADER_MIN_LEN.
Proof. reflexivity. Qed.

Lemma build_checks : get16 seg 16 = tcp_checksum src dst (clear_checksum seg).
Proof.
  unfold seg, build_segment. rewrite clear_header. cbv zeta. set (h0 := tcp_header _ _ _ _ _ _ 0 ++ data).
  assert (bytes h0) as Hb by (apply Forall_app; split; [apply tcp_header_bytes|]; apply Hf).
  assert (Z.of_nat (length h0) <= SEGMENT_MAX) as Hl.
  { unfold h0. rewrite length_app, tcp_header_length. pose proof (fo_len _ _ _ _ _ _ _ _ _ Hf). unfold TCP_HEADER_MIN_LEN in *. lia. }
  pose proof (tcp_checksum_range src dst h0 Hb Hl) as Hr. generalize dependent (tcp_checksum src dst h0). intros c Hr.
  change (u8 c + 256 * u8 (Z.shiftr c 8) = c). apply le16_val. lia.
Qed.

Lemma build_parses : parse_segment src dst seg = mk_segment src dst sp dp sq ak fl w data.
Proof.
  unfold parse_segment. rewrite build_header_len.
  assert (ntohs (get16 seg 0) = sp) as -> by (apply (get16_le16 sp), Hf).
  assert (ntohs (get16 seg 2) = dp) as -> by (apply (get16_le16 dp), Hf).
  assert (ntohl (get32 seg 4) = sq) as -> by (apply (get32_le32 sq), Hf).
  assert (ntohl (get32 seg 8) = ak) as -> by (apply (get32_le32 ak), Hf).
  assert (ntohs (get16 seg 14) = w) as -> by (apply (get16_le16 w), Hf).
  reflexivity.
Qed.
End Build.

(** ** Corruption *)

Lemma ones_sum_eq s s' : 0 < s -> 0 < s' -> ones_sum s = ones_sum s' -> exists q, s - s' = q * 65535.
Proof.
  intros Hs Hs' E. unfold ones_sum in E. case_if_in E; [lia|]. case_if_in E; [lia|].
  exists ((s - 1) / 65535 - (s' - 1) / 65535). dlia.
Qed.

Lemma tcp_sum_insert src dst l i b : (i < length l)%nat ->
  tcp_sum src dst (<[i:=b]> l) = tcp_sum src dst l + weight i * (b - byte_at l i).
Proof.
  intros Hi. unfold tcp_sum. rewrite length_insert, !word_sum_app by (by exists 6%nat). rewrite word_sum_insert by done. lia.
Qed.
Lemma byte_at_insert l i j b : byte_at (<[i:=b]> l) j = if decide (i = j /\ (i < length l)%nat) then b else byte_at l j.
Proof.
  unfold byte_at. rewrite !nth_lookup, list_lookup_insert. by repeat case_decide.
Qed.
Lemma clear_bytes l : bytes l -> bytes (clear_checksum l).
Proof. intros Hb. unfold clear_checksum. repeat apply Forall_insert; unfold is_byte; (done || lia). Qed.
Lemma clear_length l : length (clear_checksum l) = length l.
Proof. unfold clear_checksum. by rewrite !length_insert. Qed.

(** The receiver's test, for a whole segment. *)
Definition checks (src dst : Z) (l : list Z) : Prop := get16 l 16 = tcp_checksum src dst (clear_checksum l).

Lemma corrupted_field l i b : bytes l -> (18 <= length l)%nat -> (i = 16 \/ i = 17)%nat -> is_byte b -> b <> byte_at l i ->
  get16 (<[i:=b]> l) 16 <> get16 l 16 /\ clear_checksum (<[i:=b]> l) = clear_checksum l.
Proof.
  intros Hb Hl Hi Hbb Hne. split.
  - pose proof (byte_at_byte l 16 Hb). pose proof (byte_at_byte l 17 Hb). unfold get16, is_byte in *. simpl Nat.add.
    rewrite !byte_at_insert. destruct Hi as [-> | ->]; repeat case_decide; lia.
  - unfold clear_checksum. destruct Hi as [-> | ->].
    + rewrite (list_insert_insert_ne _ 17 16) by lia. by rewrite list_insert_insert_eq.
    + by rewrite list_insert_insert_eq.
Qed.

Lemma corrupted_checks src dst l i b : bytes l -> TCP_HEADER_MIN_LEN <= Z.of_nat (length l) <= SEGMENT_MAX ->
  (i < length l)%nat -> is_byte b -> b <> byte_at l i -> checks src dst l -> ~ checks src dst (<[i:=b]> l).
Proof.
  intros Hb Hl Hi Hbb Hne Hc Hc'. unfold checks, TCP_HEADER_MIN_LEN in *.
  destruct (decide (i = 16 \/ i = 17)%nat) as [Hin|Hin].
  - destruct (corrupted_field l i b) as [H1 H2]; [done|lia|done..|]. rewrite H2 in Hc'. congruence.
  - assert (get16 (<[i:=b]> l) 16 = get16 l 16) as E1.
    { unfold get16. rewrite !byte_at_insert. simpl Nat.add. repeat case_decide; lia. }
    assert (clear_checksum (<[i:=b]> l) = <[i:=b]> (clear_checksum l)) as E2.
    { unfold clear_checksum. rewrite (list_insert_insert_ne _ 17 i), (list_insert_insert_ne _ 16 i) by lia. done. }
    assert (byte_at (clear_checksum l) i = byte_at l i) as E3.
    { unfold clear_checksum. rewrite !byte_at_insert. repeat case_decide; lia. }
    pose proof (clear_bytes l Hb) as Hcb.
    rewrite E1, E2, Hc, !tcp_checksum_val in Hc' by (rewrite ?length_insert, ?clear_length; (lia || (by apply Forall_insert) || done)).
    assert (ones_sum (tcp_sum src dst (clear_checksum l)) = ones_sum (tcp_sum src dst (<[i:=b]> (clear_checksum l)))) as E by lia.
    apply ones_sum_eq in E as [q Hq]; [|apply tcp_sum_pos; (done || by apply Forall_insert)..].
    rewrite tcp_sum_insert, E3 in Hq by (by rewrite clear_length).
    pose proof (byte_at_byte l i Hb). unfold is_byte, weight in *. destruct (Nat.even i); nia.
Qed.

(** ** Receiving *)

Section Receive.
Context {H : Type} `{KernelHeap H}.
Variable hw_result : list Z -> Z.
Variable fresh : Z -> Z.
Implicit Types t : tcp H.

(** The heap after the copy for the checksum was allocated and freed. *)
Definition after_check (len : Z) t : tcp H :=
  let '(h, c) := kh_malloc len (tc_heap t) in set_theap (kh_free c h) t.
Definition can_copy (len : Z) t : Prop := snd (kh_malloc len (tc_heap t)) <> NULL.

(** A segment that was built is accepted whole and handed to the socket. *)
Lemma tcp_receive_built src dst sp dp sq ak fl w data t :
  fields_ok src dst sp dp sq ak fl w data ->
  let seg := build_segment src dst sp dp sq ak fl w data in
  let len := Z.of_nat (length seg) in
  can_copy len t ->
  tcp_receive hw_result fresh (Some seg) len src dst t =
  tcp_deliver hw_result fresh (mk_segment src dst sp dp sq ak fl w data) (on_stats count_seg_in (after_check len t)).
Proof.
  intros Hf seg len Hc. pose proof (build_length src dst sp dp sq ak fl w data) as Hl. fold seg in Hl.
  unfold tcp_receive. fold len in Hl. rewrite (proj2 (Z.ltb_ge _ _)) by lia.
  rewrite take_ge by lia. unfold seg at 1 2. rewrite build_header_len. fold seg. rewrite !(proj2 (Z.ltb_ge _ _)) by lia.
  cbn [orb]. unfold can_copy, after_check in *. destruct (kh_malloc len (tc_heap t)) as [h c]. simpl in Hc.
  rewrite (proj2 (Z.eqb_neq c NULL)) by done. unfold seg at 1. rewrite (build_checks _ _ _ _ _ _ _ _ _ Hf). fold seg.
  rewrite Z.eqb_refl. cbn [negb]. unfold seg at 1. by rewrite (build_parses _ _ _ _ _ _ _ _ _ Hf).
Qed.

(** Nothing but the heap and the counters changed. *)
Definition same_connections t t' : Prop :=
  tc_sock t' = tc_sock t /\ tc_pending t' = tc_pending t /\ tcp_socket_list t' = tcp_socket_list t /\ tc_net t' = tc_net t /\
  tcp_next_ephemeral_port t' = tcp_next_ephemeral_port t /\ tcp_isn_counter t' = tcp_isn_counter t.

Lemma tcp_receive_refuses l src dst t : TCP_HEADER_MIN_LEN <= Z.of_nat (length l) -> ~ checks src dst l ->
  let '(t', r) := tcp_receive hw_result fresh (Some l) (Z.of_nat (length l)) src dst t in
  r = -1 /\ same_connections t t'.
Proof.
  intros Hl Hc. unfold tcp_receive. rewrite (proj2 (Z.ltb_ge _ _)) by lia. rewrite Nat2Z.id, take_ge by lia.
  cbv zeta. case_if; [done|]. destruct (kh_malloc _ _) as [h c]. case_if; [done|].
  unfold checks in Hc. rewrite (proj2 (Z.eqb_neq _ _) Hc). done.
Qed.

(** A segment that was accepted is refused when one byte of it, in the header, the
    checksum or the data, is changed on the way: tcp_receive returns -1 and no socket,
    no queue and nothing of the network state changes. *)
Theorem tcp_corruption_refused l i b src dst t :
  bytes l -> TCP_HEADER_MIN_LEN <= Z.of_nat (length l) <= SEGMENT_MAX -> checks src dst l ->
  (i < length l)%nat -> is_byte b -> b <> byte_at l i ->
  let '(t', r) := tcp_receive hw_result fresh (Some (<[i:=b]> l)) (Z.of_nat (length l)) src dst t in
  r = -1 /\ same_connections t t'.
Proof.
  intros Hb Hl Hc Hi Hbb Hne. rewrite <- (length_insert l i b). apply tcp_receive_refuses; [rewrite length_insert; lia|].
  by apply corrupted_checks.
Qed.

(** A segment that a socket sends is a segment its peer accepts: whatever the fields
    and the data are, the bytes that tcp_send_segment builds pass the checks of
    tcp_receive and every field and all data are read back as they were. *)
Theorem tcp_segment_roundtrip src dst sp dp sq ak fl w data t :
  fields_ok src dst sp dp sq ak fl w data ->
  let seg := build_segment src dst sp dp sq ak fl w data in
  let len := Z.of_nat (length seg) in
  can_copy len t ->
  len = TCP_HEADER_MIN_LEN + Z.of_nat (length data) /\ bytes seg /\ checks src dst seg /\
  tcp_receive hw_result fresh (Some seg) len src dst t =
  tcp_deliver hw_result fresh (mk_segment src dst sp dp sq ak fl w data) (on_stats count_seg_in (after_check len t)).
Proof.
  intros Hf seg len Hc. split; [apply build_length|]. split; [by apply build_bytes|]. split; [by apply build_checks|].
  by apply tcp_receive_built.
Qed.
End Receive.
