(* ===== verification/TcpInv.v ===== *)
(** * The data structures of TCP stay intact (net/tcp/tcp.c)

    The invariant: the sockets form a doubly linked list, each listening socket a list
    of queued requests, every structure and buffer is a live allocation of its own, the
    ring buffers are consistent and the queues within their backlog. Operations that
    leave the shape of the structures alone are [quiet]; creation, destruction and the
    queue of a listening socket are treated one by one. *)
From S2P Require Import Prelude Memory Ring Netbuf Net Chain Tcp TcpRing.

Create HintDb quiet.

(** Closes [shape s (f s)] for a setter [f] of members that do not matter for the shape. *)
Ltac shaped := split; try done; split_and!; done.

Section Inv.
Context {H : Type} `{KernelHeap H}.
Implicit Types t : tcp H.

(** The allocations of a socket at [p] with the queued requests [ps]. *)
Definition sock_blocks (p : Z) (s : tcp_socket) (ps : list Z) : list Z :=
  p :: rb_buffer (sk_send_buf s) :: rb_buffer (sk_recv_buf s) :: ps.
Definition blocks t (l : list Z) (pd : Z -> list Z) : list Z := l ≫= fun p => sock_blocks p (tc_sock t p) (pd p).

Definition pending_next t (c : Z) : Z := pc_next (tc_pending t c).

Record sock_ok t (s : tcp_socket) (ps : list Z) : Prop := mk_sock_ok {
  so_send : ring_ok (sk_send_buf s) /\ rb_size (sk_send_buf s) = TCP_SEND_BUF_SIZE;
  so_recv : ring_ok (sk_recv_buf s) /\ rb_size (sk_recv_buf s) = TCP_RECV_BUF_SIZE;
  so_chain : chained (pending_next t) (sk_pending_head s) ps;
  so_count : sk_pending_count s = Z.of_nat (length ps);
  so_backlog : sk_pending_count s <= sk_backlog s <= TCP_LISTEN_BACKLOG_MAX;
  so_quiet : sk_state s <> TCP_STATE_LISTEN -> ps = [];
  so_mss : op_mss (sk_options s) = TCP_MSS_DEFAULT;
  so_window : 0 <= sk_snd_wnd s;
}.

Record tcp_inv t (l : list Z) (pd : Z -> list Z) : Prop := mk_tcp_inv {
  ti_linked : linked (sock_next t) (sock_prev t) NULL (tcp_socket_list t) l;
  ti_nodup : NoDup (blocks t l pd);
  ti_live : Forall (fun b => address b /\ kh_live (tc_heap t) b) (blocks t l pd);
  ti_heap : kh_wf (tc_heap t);
  ti_sock : forall p, p ∈ l -> sock_ok t (tc_sock t p) (pd p);
}.

(** ** Quiet steps *)

Record shape (s s' : tcp_socket) : Prop := mk_shape {
  sh_next : sk_next s' = sk_next s;
  sh_prev : sk_prev s' = sk_prev s;
  sh_send : rb_buffer (sk_send_buf s') = rb_buffer (sk_send_buf s) /\ rb_size (sk_send_buf s') = rb_size (sk_send_buf s) /\
            (ring_ok (sk_send_buf s) -> ring_ok (sk_send_buf s'));
  sh_recv : rb_buffer (sk_recv_buf s') = rb_buffer (sk_recv_buf s) /\ rb_size (sk_recv_buf s') = rb_size (sk_recv_buf s) /\
            (ring_ok (sk_recv_buf s) -> ring_ok (sk_recv_buf s'));
  sh_queue : sk_pending_head s' = sk_pending_head s /\ sk_pending_count s' = sk_pending_count s /\ sk_backlog s' = sk_backlog s;
  sh_listen : sk_state s' = TCP_STATE_LISTEN <-> sk_state s = TCP_STATE_LISTEN;
  sh_mss : sk_options s' = sk_options s;
  sh_window : 0 <= sk_snd_wnd s -> 0 <= sk_snd_wnd s';
}.
#[export] Instance shape_preorder : PreOrder shape.
Proof.
  split; [done|]. intros s1 s2 s3 [A1 A2 (A3 & A4 & A5) (A6 & A7 & A8) (A9 & A10 & A11) A12 A13 A14]
    [B1 B2 (B3 & B4 & B5) (B6 & B7 & B8) (B9 & B10 & B11) B12 B13 B14].
  split; [congruence..|split_and!; [congruence..|tauto]|split_and!; [congruence..|tauto]|split_and!; congruence|tauto|congruence|tauto].
Qed.

Record quiet t t' : Prop := mk_quiet {
  qt_list : tcp_socket_list t' = tcp_socket_list t;
  qt_pending : tc_pending t' = tc_pending t;
  qt_sock : forall p, shape (tc_sock t p) (tc_sock t' p);
  qt_heap : kh_wf (tc_heap t) -> kh_wf (tc_heap t') /\ forall b, kh_live (tc_heap t') b <-> kh_live (tc_heap t) b;
}.
#[export] Instance quiet_preorder : PreOrder quiet.
Proof.
  split; [by split|]. intros t1 t2 t3 [A1 A2 A3 A4] [B1 B2 B3 B4]. split; [congruence..| |].
  - intros p. by transitivity (tc_sock t2 p).
  - intros Hw. destruct (A4 Hw) as [Hw2 H2]. destruct (B4 Hw2) as [Hw3 H3]. split; [done|]. intros b. by rewrite H3, H2.
Qed.

Lemma list_bind_ext_elem {A B : Type} (f g : A -> list B) (l : list A) : (forall x, x ∈ l -> f x = g x) -> l ≫= f = l ≫= g.
Proof.
  induction l as [|x l IH]; intros Hf; [done|]. simpl. rewrite Hf by left. f_equal. apply IH. intros y Hy. apply Hf. by right.
Qed.
Lemma shape_sock_ok t t' s s' ps : (forall c, c ∈ ps -> pending_next t' c = pending_next t c) -> shape s s' ->
  sock_ok t s ps -> sock_ok t' s' ps.
Proof.
  intros Hp [_ _ (_ & A4 & A5) (_ & A7 & A8) (A9 & A10 & A11) A12 A13 A14] [C1 C2 C3 C4 C5 C6 C7 C8]. split.
  - rewrite A4. split; [apply A5|]; apply C1.
  - rewrite A7. split; [apply A8|]; apply C2.
  - rewrite A9. by eapply chained_ext.
  - congruence.
  - by rewrite A10, A11.
  - rewrite A12. done.
  - by rewrite A13.
  - by apply A14.
Qed.
(** The invariant depends on the sockets in the list, their queues and their blocks only. *)
Lemma inv_frame t t' l pd :
  tcp_inv t l pd -> tcp_socket_list t' = tcp_socket_list t -> (forall p, p ∈ l -> shape (tc_sock t p) (tc_sock t' p)) ->
  (forall c, c ∈ blocks t l pd -> tc_pending t' c = tc_pending t c) -> kh_wf (tc_heap t') ->
  (forall b, b ∈ blocks t l pd -> kh_live (tc_heap t') b) -> tcp_inv t' l pd.
Proof.
  intros [I1 I2 I3 I4 I5] A1 A2 A3 A4 A5.
  assert (blocks t' l pd = blocks t l pd) as Eb.
  { unfold blocks. apply list_bind_ext_elem. intros p Hp. unfold sock_blocks. specialize (A2 p Hp).
    by rewrite (proj1 (sh_send _ _ A2)), (proj1 (sh_recv _ _ A2)). }
  split; [| | |done|].
  - rewrite A1. eapply linked_ext; [exact I1|]. intros p Hp. unfold sock_next, sock_prev. destruct (A2 p Hp). by split.
  - by rewrite Eb.
  - rewrite Eb. apply Forall_forall. intros b Hb. split; [|by apply A5]. rewrite Forall_forall in I3. by apply I3.
  - intros p Hp. eapply shape_sock_ok; [|by apply A2|by apply I5]. intros c Hc. unfold pending_next. rewrite A3; [done|].
    unfold blocks. apply list_elem_of_bind. exists p. split; [|done]. unfold sock_blocks. do 3 right. done.
Qed.
Lemma quiet_inv t t' l pd : quiet t t' -> tcp_inv t l pd -> tcp_inv t' l pd.
Proof.
  intros [A1 A2 A3 A4] Hi. pose proof Hi as [I1 I2 I3 I4 I5]. destruct (A4 I4) as [Hw Hl].
  eapply inv_frame; [exact Hi|done|done|by intros; rewrite A2|done|]. intros b Hb. apply Hl. rewrite Forall_forall in I3. by apply I3.
Qed.

Lemma quiet_on_sock p f t : shape (tc_sock t p) (f (tc_sock t p)) -> quiet t (on_sock p f t).
Proof.
  intros Hs. split; [done..| |done]. intros q. simpl. unfold upd. case_if; [|done]. by replace q with p by lia.
Qed.
Lemma tquiet_same t t' : tcp_socket_list t' = tcp_socket_list t -> tc_pending t' = tc_pending t -> tc_sock t' = tc_sock t ->
  tc_heap t' = tc_heap t -> quiet t t'.
Proof. intros E1 E2 E3 E4. split; [done..| |]; [intros p; by rewrite E3|by rewrite E4]. Qed.
Lemma quiet_heap t h : (kh_wf (tc_heap t) -> kh_wf h /\ forall b, kh_live h b <-> kh_live (tc_heap t) b) -> quiet t (set_theap h t).
Proof. intros Hh. by split. Qed.

Lemma quiet_set_state p st t :
  sk_state (tc_sock t p) <> TCP_STATE_LISTEN -> st <> TCP_STATE_LISTEN -> quiet t (tcp_set_state p st t).
Proof.
  intros H1 H2. unfold tcp_set_state. destruct (in_state _ _); [done|]. apply quiet_on_sock. shaped.
Qed.
Lemma set_state_state p st t : sk_state (tc_sock (tcp_set_state p st t) p) = st.
Proof.
  unfold tcp_set_state, in_state. case_bool_decide; [done|]. simpl. by rewrite upd_same.
Qed.

Section Laws.
Context `{!KernelHeapLaws H} (hw_result : list Z -> Z) (fresh : Z -> Z).

Lemma malloc_quiet t size h c : request size -> kh_malloc size (tc_heap t) = (h, c) -> quiet t (set_theap (kh_free c h) t).
Proof. intros Hr E. apply quiet_heap. intros Hw. by eapply malloc_free_live. Qed.

Definition short (l : list Z) : Prop := Z.of_nat (length l) < 2 ^ 63.

Lemma malloc_null t size h : request size -> kh_malloc size (tc_heap t) = (h, NULL) -> quiet t (set_theap h t).
Proof.
  intros Hr E. apply quiet_heap. intros Hw. destruct (kh_malloc_ok _ _ _ _ Hw Hr E) as [[_ ->]|[Ha _]]; [done|].
  by destruct Ha.
Qed.

Lemma quiet_bump p v b t : quiet t (if b : bool then on_sock p (fun s => set_snd_nxt (v s) s) t else t).
Proof. destruct b; [|done]. apply quiet_on_sock. shaped. Qed.

Lemma quiet_send p fl l t : short l -> quiet t (fst (tcp_send_segment hw_result fresh p fl l t)).
Proof.
  unfold short. intros Hl. unfold tcp_send_segment. assert (request (TCP_HEADER_MIN_LEN + Z.of_nat (length l))) as Hr
    by (unfold request, TCP_HEADER_MIN_LEN; lia).
  destruct (kh_malloc _ _) as [h c] eqn:E. case_if.
  { replace c with NULL in E by lia. by eapply malloc_null. }
  destruct (ip_send _ _ _ _ _ _ _) as [n r]. set (t1 := set_theap (kh_free c _) _).
  assert (quiet t t1) as Hq.
  { transitivity (set_theap (kh_free c h) t); [by eapply malloc_quiet|]. by apply tquiet_same. }
  case_if; [|done]. cbn [fst]. etransitivity; [exact Hq|]. etransitivity; [|apply quiet_bump]. etransitivity; [|apply quiet_bump].
  etransitivity; [|apply quiet_bump]. by apply tquiet_same.
Qed.
Lemma send_segment_state p fl l t q :
  sk_state (tc_sock (fst (tcp_send_segment hw_result fresh p fl l t)) q) = sk_state (tc_sock t q).
Proof.
  unfold tcp_send_segment. destruct (kh_malloc _ _) as [h c]. case_if; [done|].
  destruct (ip_send _ _ _ _ _ _ _) as [n r]. case_if; [|done]. cbn [fst].
  repeat match goal with |- context [if ?b then on_sock p ?f ?x else ?x] => destruct b end; simpl; unfold upd;
    repeat case_if; try done; by replace q with p by lia.
Qed.
Lemma quiet_rst si di sp dp sq ak t : quiet t (tcp_send_rst hw_result fresh si di sp dp sq ak t).
Proof. by apply tquiet_same. Qed.

(** *** Calls that only move data and states *)

Lemma write_shape s l : let '(b, _) := ring_buffer_write (sk_send_buf s) l in shape s (set_send_buf b s).
Proof.
  destruct (ring_buffer_write (sk_send_buf s) l) as [b n] eqn:E.
  assert (rb_buffer b = rb_buffer (sk_send_buf s) /\ rb_size b = rb_size (sk_send_buf s)) as [E1 E2].
  { unfold ring_buffer_write in E. destruct (ring_in _ _ _ _). by injection E as <- _. }
  split; try done. split_and!; [done..|]. intros Hr. pose proof (ring_write_ok _ l Hr) as Hw. rewrite E in Hw. apply Hw.
Qed.
Lemma store_shape s l : let '(b, _) := ring_buffer_write (sk_recv_buf s) l in shape s (set_recv_buf b s).
Proof.
  destruct (ring_buffer_write (sk_recv_buf s) l) as [b n] eqn:E.
  assert (rb_buffer b = rb_buffer (sk_recv_buf s) /\ rb_size b = rb_size (sk_recv_buf s)) as [E1 E2].
  { unfold ring_buffer_write in E. destruct (ring_in _ _ _ _). by injection E as <- _. }
  split; try done. split_and!; [done..|]. intros Hr. pose proof (ring_write_ok _ l Hr) as Hw. rewrite E in Hw. apply Hw.
Qed.
Lemma read_fields rb len : let '(b, _, _) := ring_buffer_read rb len in
  rb_buffer b = rb_buffer rb /\ rb_size b = rb_size rb /\ (0 <= len -> ring_ok rb -> ring_ok b).
Proof.
  destruct (ring_buffer_read rb len) as [[b l] n] eqn:E. split_and!.
  1-2: unfold ring_buffer_read in E; destruct (ring_out _ _ _ _); by injection E as <- _ _.
  intros Hl Hr. pose proof (ring_read_ok rb len Hr Hl) as Hw. rewrite E in Hw. apply Hw.
Qed.

Lemma quiet_generate t : quiet t (fst (tcp_generate_isn t)).
Proof. by apply tquiet_same. Qed.

Lemma quiet_ephemeral t : quiet t (fst (tcp_alloc_ephemeral_port t)).
Proof.
  unfold tcp_alloc_ephemeral_port.
  pose proof (while_pos_ind (quiet t) (fun r => quiet t (fst r)) (ephemeral_round (tcp_next_ephemeral_port t)) 65536 t) as Hw.
  destruct (while_pos _ _ _) as [t'|[t' c]]; apply Hw; try done.
  all: intros s Hs; unfold ephemeral_round; set (s1 := set_next_port _ s).
  all: assert (quiet t s1) by (rewrite Hs; by apply tquiet_same).
  all: destruct (negb (negb _)); [done|]; by destruct (_ =? _).
Qed.

Lemma quiet_bind p port t : quiet t (fst (tcp_bind p port t)).
Proof.
  unfold tcp_bind. case_if; [done|]. destruct (bound _); [done|]. case_if.
  - pose proof (quiet_ephemeral t) as Hq. destruct (tcp_alloc_ephemeral_port t) as [t1 c]. simpl in Hq.
    case_if; [done|]. simpl. etransitivity; [exact Hq|]. apply quiet_on_sock. shaped.
  - destruct (port_taken _ _ _); [done|]. simpl. apply quiet_on_sock. shaped.
Qed.

(** A block that is allocated before and freed after quiet steps. *)
Lemma quiet_bracket t t' size h d : request size -> kh_malloc size (tc_heap t) = (h, d) -> d <> NULL ->
  quiet (set_theap h t) t' -> quiet t (set_theap (kh_free d (tc_heap t')) t').
Proof.
  intros Hr E Hd [A1 A2 A3 A4]. split; [done..|]. intros Hw. simpl in *.
  destruct (kh_malloc_ok _ _ _ _ Hw Hr E) as [[-> _]|(Ha & Hn & Hw' & Hl)]; [done|].
  destruct (A4 Hw') as [Hw2 Hl2]. destruct (kh_free_ok (tc_heap t') d) as [Hw3 Hl3]; [done|by apply Hl2, Hl; right|].
  split; [done|]. intros b. rewrite Hl3, Hl2, Hl. split; [intros [[?|?] ?]; done|]. intros Hb. split; [by left|]. by intros ->.
Qed.

(** The members that bound the sizes of the blocks a socket asks for. *)
Definition sizes_ok (s : tcp_socket) : Prop :=
  0 <= sk_snd_wnd s /\ op_mss (sk_options s) = TCP_MSS_DEFAULT /\ 0 <= rb_used (sk_send_buf s).

Lemma ring_out_length n size b tl : length (fst (ring_out n size b tl)) = n.
Proof. revert tl. induction n as [|n IH]; intros tl; [done|]. simpl. specialize (IH ((tl + 1) mod size)). destruct (ring_out _ _ _ _). simpl in *. lia. Qed.

Lemma quiet_output p t : sizes_ok (tc_sock t p) -> quiet t (tcp_output hw_result fresh p t).
Proof.
  intros (Hw & Hm & Hu). unfold tcp_output, ring_buffer_used. destruct (_ || _); [done|]. case_if; [done|]. rewrite Hm.
  set (n := Z.min _ _). unfold TCP_MSS_DEFAULT in n. case_if; [done|]. assert (request n) as Hr by (unfold request; lia).
  destruct (kh_malloc n (tc_heap t)) as [h d] eqn:Em. case_if.
  { replace d with NULL in Em by lia. by eapply malloc_null. }
  unfold ring_buffer_peek, ring_buffer_used. set (k := Z.min n _). set (l := fst (ring_out _ _ _ _)).
  assert (short l) as Hl by (unfold short, l; rewrite ring_out_length; lia).
  set (fl := if k =? _ then _ else _). set (t1 := fst (tcp_send_segment _ _ _ _ _ _)).
  assert (quiet (set_theap h t) t1) as Hq by (by apply quiet_send).
  pose proof (read_fields (sk_send_buf (tc_sock t1 p)) k) as Hrd. destruct (ring_buffer_read _ _) as [[b l'] n'].
  destruct Hrd as (R1 & R2 & R3). eapply quiet_bracket; [done|exact Em|done|]. etransitivity; [exact Hq|]. apply quiet_on_sock.
  split; try done. split_and!; [done..|]. apply R3. lia.
Qed.

Lemma quiet_tcp_send p l t : sizes_ok (tc_sock t p) -> ring_ok (sk_send_buf (tc_sock t p)) ->
  quiet t (fst (tcp_send hw_result fresh p l t)).
Proof.
  intros (Hw & Hm & _) Hr. unfold tcp_send. destruct l as [l|]; [|done]. case_if; [done|]. destruct (negb _); [done|].
  case_if; [done|]. pose proof (write_shape (tc_sock t p) l) as Hs. pose proof (ring_write_ok _ l Hr) as Hwr.
  destruct (ring_buffer_write _ _) as [b n]. assert (quiet t (on_sock p (set_send_buf b) t)) as Hq by (by apply quiet_on_sock).
  case_if; [done|]. simpl. etransitivity; [exact Hq|]. apply quiet_output. unfold sizes_ok. simpl. rewrite upd_same. simpl.
  split_and!; [done..|]. destruct Hwr as (Hok & _). apply Hok.
Qed.

Lemma quiet_recv p buf len t : 0 <= len -> quiet t (fst (fst (tcp_recv p buf len t))).
Proof.
  intros Hl. unfold tcp_recv. destruct (_ || _); [done|]. destruct (in_state _ _); [done|].
  pose proof (read_fields (sk_recv_buf (tc_sock t p)) len) as Hrd. destruct (ring_buffer_read _ _) as [[b l'] n'].
  destruct Hrd as (R1 & R2 & R3). set (t1 := on_sock p _ t).
  assert (quiet t t1) as Hq by (apply quiet_on_sock; split; try done; split_and!; auto).
  assert (quiet t (on_sock p (fun s => set_rcv_wnd (u32 (ring_buffer_space (sk_recv_buf s))) s) t1)) as Hq2
    by (etransitivity; [exact Hq|]; apply quiet_on_sock; shaped).
  case_if; [|done]. destruct (_ || _); [done|]. by destruct (flag_on _ _).
Qed.

Lemma quiet_nonblock p b t : quiet t (tcp_set_nonblock p b t).
Proof. unfold tcp_set_nonblock. case_if; [done|]. destruct b; apply quiet_on_sock; shaped. Qed.

Lemma quiet_not_listen t t' p : quiet t t' -> sk_state (tc_sock t p) <> TCP_STATE_LISTEN ->
  sk_state (tc_sock t' p) <> TCP_STATE_LISTEN.
Proof. intros [_ _ Hs _] Hn Hl. apply Hn, (sh_listen _ _ (Hs p)), Hl. Qed.
Lemma quiet_then_state t t' p st : quiet t t' -> sk_state (tc_sock t p) <> TCP_STATE_LISTEN -> st <> TCP_STATE_LISTEN ->
  quiet t (tcp_set_state p st t').
Proof. intros Hq Hn Hst. etransitivity; [exact Hq|]. apply quiet_set_state; [|done]. by eapply quiet_not_listen. Qed.
Lemma quiet_then_send t t' p fl l : quiet t t' -> short l -> quiet t (fst (tcp_send_segment hw_result fresh p fl l t')).
Proof. intros Hq Hs. etransitivity; [exact Hq|]. by apply quiet_send. Qed.
Lemma quiet_then_sock t t' p f : quiet t t' -> (forall s, shape s (f s)) -> quiet t (on_sock p f t').
Proof. intros Hq Hs. etransitivity; [exact Hq|]. by apply quiet_on_sock. Qed.
Lemma quiet_then_stats t t' f : quiet t t' -> quiet t (on_stats f t').
Proof. intros Hq. etransitivity; [exact Hq|]. by apply tquiet_same. Qed.
Lemma short_nil : short [].
Proof. unfold short. simpl. lia. Qed.

Lemma quiet_connect p ip port t : quiet t (fst (tcp_connect hw_result fresh p ip port t)).
Proof.
  unfold tcp_connect. case_if; [done|]. unfold in_state at 1. case_bool_decide as Hst; [|done]. cbn [negb].
  assert (sk_state (tc_sock t p) <> TCP_STATE_LISTEN) as Hn by congruence.
  destruct (if bound (tc_sock t p) then (t, TCP_OK) else tcp_bind p 0 t) as [t1 r] eqn:Eb.
  assert (quiet t t1) as Hq.
  { destruct (bound _); [by injection Eb as <- _|]. pose proof (quiet_bind p 0 t) as Hb. by rewrite Eb in Hb. }
  destruct (negb (r =? TCP_OK)); [done|]. cbn [tcp_generate_isn].
  destruct (tcp_send_segment _ _ _ _ _ _) as [t2 r2] eqn:Es.
  assert (quiet t t2) as Hq2.
  { change t2 with (fst (t2, r2)). rewrite <- Es. apply quiet_then_send; [|apply short_nil].
    apply quiet_then_state; [|done..]. apply quiet_then_sock; [|shaped]. etransitivity; [|apply quiet_generate].
    apply quiet_then_sock; [done|shaped]. }
  destruct (negb (r2 =? 0)); [by apply quiet_then_state|done].
Qed.

(** *** The segments of a connection *)

Lemma quiet_take_ack g s : 0 <= sg_window g -> shape s (take_ack g s).
Proof. intros Hw. unfold take_ack. destruct (_ && _); shaped. Qed.

Lemma quiet_then_data t t' p g : quiet t t' -> short (sg_data g) -> quiet t (take_data hw_result fresh p g t').
Proof.
  intros Hq _. unfold take_data. case_if; [|by apply quiet_then_send, short_nil].
  pose proof (store_shape (tc_sock t' p) (sg_data g)) as Hs. destruct (ring_buffer_write _ _) as [b n].
  apply quiet_then_send; [|apply short_nil]. apply quiet_then_stats. etransitivity; [exact Hq|]. apply quiet_on_sock.
  etransitivity; [exact Hs|]. shaped.
Qed.
Lemma quiet_then_time_wait t t' p : quiet t t' -> sk_state (tc_sock t p) <> TCP_STATE_LISTEN -> quiet t (enter_time_wait p t').
Proof. intros Hq Hn. unfold enter_time_wait. apply quiet_then_sock; [|shaped]. by apply quiet_then_state. Qed.
Lemma quiet_then_fin t t' p : quiet t t' -> quiet t (take_fin p t').
Proof. intros Hq. apply quiet_then_sock; [done|]. intros s. shaped. Qed.

Hint Resolve quiet_then_send quiet_then_state quiet_then_stats quiet_then_data quiet_then_time_wait quiet_then_fin
  short_nil : quiet.

Ltac quiet_sock := apply quiet_then_sock; [|intros ?; shaped].

(** The segment handlers that neither queue a request nor destroy the socket. *)
Lemma quiet_dispatch p g t :
  sk_state (tc_sock t p) <> TCP_STATE_LISTEN -> sk_state (tc_sock t p) <> TCP_STATE_LAST_ACK -> 0 <= sg_window g -> short (sg_data g) ->
  quiet t (tcp_dispatch hw_result fresh p g t).
Proof.
  intros Hn Hla Hwn Hg. assert (quiet t t) as Hr by done.
  unfold tcp_dispatch, answer_rst, rcv_syn_sent, rcv_syn_received, rcv_established, rcv_fin_wait_1, rcv_fin_wait_2,
    rcv_closing, send_ack.
  destruct (sk_state (tc_sock t p)) eqn:Est; try congruence.
  - destruct (negb _); [apply quiet_rst|done].
  - case_if; [destruct (negb _); [apply quiet_rst|]|].
    + apply quiet_then_stats. quiet_sock. apply quiet_then_send; [|apply short_nil]. apply quiet_then_state; [|congruence|done].
      by quiet_sock.
    + destruct (flag_on _ _); [|done]. apply quiet_then_send; [|apply short_nil]. apply quiet_then_state; [|congruence|done].
      by quiet_sock.
  - destruct (_ && _); [|done]. apply quiet_then_stats. quiet_sock. apply quiet_then_state; [|congruence|done]. by quiet_sock.
  - assert (quiet t (if flag_on (sg_flags g) TCP_FLAG_ACK then on_sock p (take_ack g) t else t)) as H1.
    { destruct (flag_on _ _); [|done]. apply quiet_then_sock; [done|]. intros s. by apply quiet_take_ack. }
    set (t1 := if flag_on (sg_flags g) TCP_FLAG_ACK then _ else _) in *.
    assert (quiet t (if 0 <? Z.of_nat (length (sg_data g)) then take_data hw_result fresh p g t1 else t1)) as H2.
    { destruct (0 <? _); auto with quiet. }
    set (t2 := if 0 <? _ then _ else _) in *. destruct (flag_on _ TCP_FLAG_FIN); [|done].
    apply quiet_then_send; [|apply short_nil]. apply quiet_then_state; [|congruence|done]. by apply quiet_then_fin.
  - assert (quiet t (if flag_on (sg_flags g) TCP_FLAG_ACK && (sg_ack g =? sk_snd_nxt (tc_sock t p))
                     then tcp_set_state p TCP_STATE_FIN_WAIT_2 t else t)) as H1.
    { destruct (_ && _); [|done]. apply quiet_then_state; [done|congruence|done]. }
    set (t1 := if _ && _ then _ else _) in *. destruct (flag_on _ TCP_FLAG_FIN); [|done].
    destruct (in_state _ _); [apply quiet_then_time_wait|apply quiet_then_state]; try congruence; auto with quiet.
  - destruct (flag_on _ _); [|done]. apply quiet_then_send; [|apply short_nil].
    apply quiet_then_time_wait; [by apply quiet_then_fin|congruence].
  - destruct (flag_on _ _); [|done]. by quiet_sock.
  - destruct (_ && _); [|done]. apply quiet_then_time_wait; [done|congruence].
  - destruct (flag_on _ _); [|done]. by apply quiet_then_send, short_nil.
Qed.
End Laws.
End Inv.
