(* ===== verification/TcpLife.v ===== *)
(** * Creating, destroying and queueing (net/tcp/tcp.c)

    The operations that change the shape of TCP's data structures keep them intact, and
    a destroyed socket gives back exactly the memory it had. *)
From S2P Require Import Prelude Memory Ring Netbuf Net Chain Tcp TcpRing TcpInv.

(** Sockets that differ in their links only. *)
Definition relinked (s s' : tcp_socket) : Prop := exists n v, s' = set_sk_links n v s.
Lemma relinked_refl s : relinked s s.
Proof. exists (sk_next s), (sk_prev s). by destruct s. Qed.
Lemma relinked_trans s1 s2 s3 : relinked s1 s2 -> relinked s2 s3 -> relinked s1 s3.
Proof. intros (n & v & ->) (n' & v' & ->). by exists n', v'. Qed.

Section Life.
Context {H : Type} `{KernelHeap H}.
Implicit Types t : tcp H.

Lemma on_sock_at p f t q : tc_sock (on_sock p f t) q = if q =? p then f (tc_sock t p) else tc_sock t q.
Proof. done. Qed.

Lemma relinked_on_sock p n v t a : relinked (tc_sock t a) (tc_sock (on_sock p (fun s => set_sk_links (n s) (v s) s) t) a).
Proof. rewrite on_sock_at. case_if; [|apply relinked_refl]. subst. by eexists _, _. Qed.

(** ** The list of sockets *)

Section Links.
Variable t : tcp H.
Let hd := tcp_socket_list t.

Lemma list_add_next p a : hd <> p -> sock_next (tcp_socket_list_add p t) a = upd (sock_next t) p hd a.
Proof.
  intros Hne. unfold sock_next, tcp_socket_list_add. fold hd. unfold upd.
  destruct (hd =? NULL); simpl; unfold upd; repeat case_if; subst; simpl; unfold upd; repeat case_if; simpl; try done; lia.
Qed.
Lemma list_add_prev p a : hd <> p ->
  sock_prev (tcp_socket_list_add p t) a =
  (if hd =? NULL then upd (sock_prev t) p NULL else upd (upd (sock_prev t) p NULL) hd p) a.
Proof.
  intros Hne. unfold sock_prev, tcp_socket_list_add. fold hd.
  destruct (hd =? NULL); simpl; unfold upd; repeat case_if; subst; simpl; unfold upd; repeat case_if; simpl; try done; lia.
Qed.
Lemma list_add_sock p a : relinked (tc_sock t a) (tc_sock (tcp_socket_list_add p t) a).
Proof.
  unfold tcp_socket_list_add. fold hd.
  pose proof (relinked_on_sock p (fun _ => hd) (fun _ => NULL) t a) as H1. cbv zeta. cbn [tc_sock set_list].
  destruct (hd =? NULL); [exact H1|]. eapply relinked_trans; [exact H1|]. apply (relinked_on_sock hd sk_next (fun _ => p)).
Qed.

Lemma list_remove_next p a :
  sock_next (tcp_socket_list_remove p t) a =
  upd (if sock_prev t p =? NULL then sock_next t else upd (sock_next t) (sock_prev t p) (sock_next t p)) p NULL a.
Proof.
  unfold tcp_socket_list_remove. destruct (sock_prev t p =? NULL), (sock_next t p =? NULL);
    unfold sock_next; simpl; unfold upd; repeat case_if; subst; simpl; unfold upd; repeat case_if; simpl; done || lia.
Qed.
Lemma list_remove_prev p a :
  sock_prev (tcp_socket_list_remove p t) a = upd (unlink_prev (sock_next t) (sock_prev t) p) p NULL a.
Proof.
  unfold unlink_prev, tcp_socket_list_remove. destruct (sock_prev t p =? NULL), (sock_next t p =? NULL);
    unfold sock_prev; simpl; unfold upd; repeat case_if; subst; simpl; unfold upd; repeat case_if; simpl; done || lia.
Qed.
Lemma list_remove_head p :
  tcp_socket_list (tcp_socket_list_remove p t) = if sock_prev t p =? NULL then sock_next t p else tcp_socket_list t.
Proof. unfold tcp_socket_list_remove. by destruct (sock_prev t p =? NULL), (sock_next t p =? NULL). Qed.
Lemma list_remove_sock p a : relinked (tc_sock t a) (tc_sock (tcp_socket_list_remove p t) a).
Proof.
  unfold tcp_socket_list_remove. cbv zeta. set (t1 := if negb (sock_prev t p =? NULL) then _ else _).
  assert (relinked (tc_sock t a) (tc_sock t1 a)) as H1.
  { unfold t1. destruct (negb (sock_prev t p =? NULL)); [apply (relinked_on_sock _ (fun _ => sock_next t p) sk_prev)|apply relinked_refl]. }
  set (t2 := if negb (sock_next t p =? NULL) then _ else _).
  assert (relinked (tc_sock t1 a) (tc_sock t2 a)) as H2.
  { unfold t2. destruct (negb (sock_next t p =? NULL)); [apply (relinked_on_sock _ sk_next (fun _ => sock_prev t p))|apply relinked_refl]. }
  eapply relinked_trans; [exact H1|]. eapply relinked_trans; [exact H2|]. apply (relinked_on_sock p (fun _ => NULL) (fun _ => NULL)).
Qed.
Lemma list_remove_rest p : tc_heap (tcp_socket_list_remove p t) = tc_heap t /\ tc_pending (tcp_socket_list_remove p t) = tc_pending t /\
  tc_net (tcp_socket_list_remove p t) = tc_net t /\ tc_time (tcp_socket_list_remove p t) = tc_time t.
Proof. unfold tcp_socket_list_remove. by destruct (sock_prev t p =? NULL), (sock_next t p =? NULL). Qed.
End Links.

Lemma list_add_linked p t l : linked (sock_next t) (sock_prev t) NULL (tcp_socket_list t) l -> NoDup (p :: l) -> address p ->
  linked (sock_next (tcp_socket_list_add p t)) (sock_prev (tcp_socket_list_add p t)) NULL p (p :: l).
Proof.
  intros Hl Hnd Ha. assert (tcp_socket_list t <> p) as Hne.
  { apply NoDup_cons in Hnd as [Hni _]. destruct l as [|a l]; simpl in Hl.
    - rewrite Hl. unfold address, NULL in *. lia.
    - destruct Hl as (-> & _). intros ->. apply Hni. left. }
  eapply linked_ext; [by apply linked_push|]. intros a _. by rewrite list_add_next, list_add_prev.
Qed.
Lemma list_remove_linked p t l1 l2 :
  linked (sock_next t) (sock_prev t) NULL (tcp_socket_list t) (l1 ++ p :: l2) -> NoDup (l1 ++ p :: l2) ->
  linked (sock_next (tcp_socket_list_remove p t)) (sock_prev (tcp_socket_list_remove p t)) NULL
    (tcp_socket_list (tcp_socket_list_remove p t)) (l1 ++ l2).
Proof.
  intros Hl Hnd. rewrite list_remove_head. eapply linked_ext; [by apply linked_remove|].
  intros a _. by rewrite list_remove_next, list_remove_prev.
Qed.

(** ** Freeing *)

Context `{!KernelHeapLaws H}.

Definition free_all (l : list Z) (h : H) : H := fold_left (fun h b => kh_free b h) l h.
Lemma free_all_ok l h : kh_wf h -> NoDup l -> Forall (kh_live h) l ->
  kh_wf (free_all l h) /\ forall b, kh_live (free_all l h) b <-> kh_live h b /\ b ∉ l.
Proof.
  revert h. induction l as [|a l IH]; intros h Hw Hnd Hl; simpl.
  { split; [done|]. intros b. split; [|tauto]. intros Hb. split; [done|]. apply not_elem_of_nil. }
  apply NoDup_cons in Hnd as [Hni Hnd]. apply Forall_cons in Hl as [Ha Hl]. destruct (kh_free_ok h a Hw Ha) as [Hw' Hl'].
  destruct (IH (kh_free a h) Hw' Hnd) as [Hw2 Hl2].
  { apply Forall_forall. intros b Hb. rewrite Forall_forall in Hl. apply Hl'. split; [by apply Hl|]. by intros ->. }
  split; [done|]. intros b. rewrite Hl2, Hl', not_elem_of_cons. tauto.
Qed.

Lemma free_pending_ok c t ps : chained (pending_next t) c ps -> NoDup ps -> free_pending c t = set_theap (free_all ps (tc_heap t)) t.
Proof.
  intros Hc Hnd. unfold free_pending.
  rewrite (while_chained pending_next (fun c t => set_theap (kh_free c (tc_heap t)) t) t c ps) by done.
  unfold free_all. clear Hc Hnd. revert t. induction ps as [|a ps IH]; intros t; simpl; [by destruct t|]. rewrite IH. done.
Qed.

Lemma blocks_elem t l pd p b : p ∈ l -> b ∈ sock_blocks p (tc_sock t p) (pd p) -> b ∈ blocks t l pd.
Proof. intros Hp Hb. unfold blocks. apply list_elem_of_bind. by exists p. Qed.
Lemma tblocks_app t l1 l2 pd : blocks t (l1 ++ l2) pd = blocks t l1 pd ++ blocks t l2 pd.
Proof. unfold blocks. by rewrite bind_app. Qed.
Lemma blocks_cons t p l pd : blocks t (p :: l) pd = sock_blocks p (tc_sock t p) (pd p) ++ blocks t l pd.
Proof. done. Qed.
Lemma blocks_nodup_list t l pd : NoDup (blocks t l pd) -> NoDup l.
Proof.
  induction l as [|p l IH]; intros Hnd; [constructor|]. rewrite blocks_cons in Hnd. apply NoDup_app in Hnd as (_ & Hd & Hnd).
  apply NoDup_cons. split; [|auto]. intros Hp. apply (Hd p); [left|]. eapply blocks_elem; [exact Hp|left].
Qed.
Lemma tblocks_ext t t' l pd pd' :
  (forall p, p ∈ l -> rb_buffer (sk_send_buf (tc_sock t' p)) = rb_buffer (sk_send_buf (tc_sock t p)) /\
                      rb_buffer (sk_recv_buf (tc_sock t' p)) = rb_buffer (sk_recv_buf (tc_sock t p)) /\ pd' p = pd p) ->
  blocks t' l pd' = blocks t l pd.
Proof.
  intros He. apply list_bind_ext_elem. intros p Hp. unfold sock_blocks. by destruct (He p Hp) as (-> & -> & ->).
Qed.
Lemma relinked_sock_ok t t' s s' ps : (forall c, c ∈ ps -> pending_next t' c = pending_next t c) -> relinked s s' ->
  sock_ok t s ps -> sock_ok t' s' ps.
Proof. intros Hp (n & v & ->) [C1 C2 C3 C4 C5 C6 C7 C8]. split; try done. by eapply chained_ext. Qed.

(** ** Destruction *)

(** What [tcp_socket_destroy] does to a socket of the list. *)
Record destroyed (p : Z) (bs l1 l2 : list Z) (pd : Z -> list Z) t t' : Prop := mk_destroyed {
  de_inv : tcp_inv t' (l1 ++ l2) pd;
  de_live : forall b, kh_live (tc_heap t') b <-> kh_live (tc_heap t) b /\ b ∉ bs;
  de_others : forall q, q <> p -> relinked (tc_sock t q) (tc_sock t' q);
  de_rest : tc_pending t' = tc_pending t /\ tc_net t' = tc_net t /\ tc_time t' = tc_time t;
}.

Lemma destroy_fields p t ps : p <> NULL -> chained (pending_next t) (sk_pending_head (tc_sock t p)) ps -> NoDup ps ->
  address (rb_buffer (sk_send_buf (tc_sock t p))) -> address (rb_buffer (sk_recv_buf (tc_sock t p))) ->
  let t' := tcp_socket_destroy p t in
  let t1 := tcp_socket_list_remove p t in
  tc_heap t' = free_all (ps ++ [rb_buffer (sk_send_buf (tc_sock t p)); rb_buffer (sk_recv_buf (tc_sock t p)); p]) (tc_heap t) /\
  tcp_socket_list t' = tcp_socket_list t1 /\ (forall q, q <> p -> tc_sock t' q = tc_sock t1 q) /\
  tc_pending t' = tc_pending t /\ tc_net t' = tc_net t /\ tc_time t' = tc_time t.
Proof.
  intros Hp Hc Hnd Hs Hr t' t1. subst t'. unfold tcp_socket_destroy. rewrite (proj2 (Z.eqb_neq p NULL)) by done.
  fold t1. destruct (list_remove_rest t p) as (E1 & E2 & E3 & E4). fold t1 in E1, E2, E3, E4.
  destruct (list_remove_sock t p p) as (n & v & E5). fold t1 in E5.
  rewrite (free_pending_ok _ t1 ps); [|rewrite E5; eapply chained_ext; [exact Hc|intros; unfold pending_next; by rewrite E2]|done].
  unfold ring_buffer_free. cbn [tc_sock set_theap tc_heap on_sock set_tsock]. rewrite upd_same, E5, E1.
  cbn [sk_send_buf sk_recv_buf set_sk_links set_send_buf set_recv_buf rb_buffer]. unfold address in *.
  rewrite !(proj2 (Z.eqb_neq _ NULL)) by (unfold NULL; lia).
  cbn [tc_heap set_theap tcp_socket_list tc_pending tc_net tc_time tc_sock set_tsock]. split; [by unfold free_all; rewrite fold_left_app|].
  split; [done|]. split; [intros q Hq; by rewrite !upd_other|done].
Qed.

Lemma destroy_core p t l pd :
  linked (sock_next t) (sock_prev t) NULL (tcp_socket_list t) l -> NoDup (blocks t l pd) ->
  Forall (fun b => address b /\ kh_live (tc_heap t) b) (blocks t l pd) -> kh_wf (tc_heap t) -> p ∈ l ->
  chained (pending_next t) (sk_pending_head (tc_sock t p)) (pd p) ->
  (forall q, q ∈ l -> q <> p -> sock_ok t (tc_sock t q) (pd q)) ->
  exists l1 l2, l = l1 ++ p :: l2 /\
    destroyed p (sock_blocks p (tc_sock t p) (pd p)) l1 l2 pd t (tcp_socket_destroy p t).
Proof.
  intros I1 I2 I3 I4 Hp Ich I5. apply list_elem_of_split in Hp as (l1 & l2 & ->). exists l1, l2. split; [done|].
  pose proof (blocks_nodup_list _ _ _ I2) as Hndl.
  assert (p ∈ l1 ++ p :: l2) as Hp by (apply elem_of_app; right; left).
  set (bs := sock_blocks p (tc_sock t p) (pd p)).
  assert (Permutation (blocks t (l1 ++ p :: l2) pd) (bs ++ blocks t (l1 ++ l2) pd)) as HP.
  { rewrite !tblocks_app, blocks_cons. fold bs. rewrite !app_assoc. apply Permutation_app_tail, Permutation_app_comm. }
  rewrite HP in I2, I3. apply NoDup_app in I2 as (Hn1 & Hdis & Hn2). apply Forall_app in I3 as [F1 F2].
  assert (forall b, b ∈ bs -> address b /\ kh_live (tc_heap t) b) as HF by (by apply Forall_forall).
  destruct (HF p) as [Hap _]; [left|]. destruct (HF (rb_buffer (sk_send_buf (tc_sock t p)))) as [Has _]; [right; left|].
  destruct (HF (rb_buffer (sk_recv_buf (tc_sock t p)))) as [Har _]; [do 2 right; left|].
  assert (NoDup (pd p)) as Hnp by (unfold bs, sock_blocks in Hn1; by do 3 (apply NoDup_cons in Hn1 as [_ Hn1])).
  destruct (destroy_fields p t (pd p)) as (D1 & D2 & D3 & D4 & D5 & D6); [unfold address, NULL in *; lia|exact Ich|done..|].
  set (fs := _ ++ [_; _; p]) in D1.
  assert (Permutation fs bs) as HPf.
  { unfold fs, bs, sock_blocks. rewrite Permutation_app_comm. set (a := rb_buffer _). set (b := rb_buffer _).
    apply (Permutation_app_tail (pd p) (l := [a; b; p]) (l' := [p; a; b])). symmetry. apply (Permutation_cons_append [a; b]). }
  destruct (free_all_ok fs (tc_heap t) I4) as [Hw' Hl']; [by rewrite HPf|rewrite HPf; eapply Forall_impl; [exact F1|by intros ? []]|].
  rewrite <- D1 in Hw', Hl'. assert (forall q, q ∈ l1 ++ l2 -> q <> p) as Hne.
  { intros q Hq ->. apply NoDup_app in Hndl as (_ & Hd & Hnd2). apply NoDup_cons in Hnd2 as [Hni _].
    apply elem_of_app in Hq as [Hq|Hq]; [|done]. apply (Hd _ Hq). left. }
  assert (forall q, q <> p -> relinked (tc_sock t q) (tc_sock (tcp_socket_destroy p t) q)) as Hrel.
  { intros q Hq. rewrite D3 by done. apply list_remove_sock. }
  split; [|intros b; rewrite Hl', HPf; done|done|done]. split.
  - rewrite D2. eapply linked_ext; [by apply list_remove_linked|]. intros a Ha. unfold sock_next, sock_prev. by rewrite D3 by auto.
  - erewrite tblocks_ext; [exact Hn2|]. intros q Hq. by destruct (Hrel q (Hne q Hq)) as (n & v & ->).
  - erewrite tblocks_ext; [|intros q Hq; by destruct (Hrel q (Hne q Hq)) as (n & v & ->)].
    apply Forall_forall. intros b Hb. rewrite Forall_forall in F2. split; [by apply F2|]. apply Hl'. split; [by apply F2|].
    rewrite HPf. intros Hbs. by apply (Hdis b).
  - done.
  - intros q Hq. eapply relinked_sock_ok; [|by apply Hrel, Hne|].
    + intros c _. unfold pending_next. by rewrite D4.
    + apply I5; [|by apply Hne]. apply elem_of_app in Hq as [Hq|Hq]; apply elem_of_app; [by left|right; by right].
Qed.

Lemma destroy_inv p t l pd : tcp_inv t l pd -> p ∈ l ->
  exists l1 l2, l = l1 ++ p :: l2 /\
    destroyed p (sock_blocks p (tc_sock t p) (pd p)) l1 l2 pd t (tcp_socket_destroy p t).
Proof.
  intros Hi Hp. pose proof Hi as [I1 I2 I3 I4 I5]. apply destroy_core; [done..|apply (I5 p Hp)|].
  intros q Hq _. by apply I5.
Qed.

(** The caller sets the state to CLOSED first, also of a socket with a queue. *)
Lemma close_destroy_inv p t l pd : tcp_inv t l pd -> p ∈ l ->
  exists l1 l2, l = l1 ++ p :: l2 /\
    destroyed p (sock_blocks p (tc_sock t p) (pd p)) l1 l2 pd t (tcp_socket_destroy p (tcp_set_state p TCP_STATE_CLOSED t)).
Proof.
  intros Hi Hp. unfold tcp_set_state. destruct (in_state _ _); [by apply destroy_inv|]. set (t1 := on_sock p _ t).
  assert (forall q, q <> p -> tc_sock t1 q = tc_sock t q) as Eo by (intros q Hq; unfold t1; by rewrite on_sock_at, (proj2 (Z.eqb_neq q p))).
  assert (tc_sock t1 p = set_sk_state TCP_STATE_CLOSED (now32 t) (tc_sock t p)) as Ep by (unfold t1; by rewrite on_sock_at, Z.eqb_refl).
  pose proof Hi as [I1 I2 I3 I4 I5].
  assert (blocks t1 l pd = blocks t l pd) as Eb.
  { apply tblocks_ext. intros q _. destruct (decide (q = p)) as [->|Hq]; [by rewrite Ep|by rewrite Eo]. }
  destruct (destroy_core p t1 l pd) as (l1 & l2 & -> & [D1 D2 D3 D4]).
  - eapply linked_ext; [exact I1|]. intros q _. unfold sock_next, sock_prev.
    destruct (decide (q = p)) as [->|Hq]; [by rewrite Ep|by rewrite Eo].
  - by rewrite Eb.
  - by rewrite Eb.
  - done.
  - done.
  - rewrite Ep. apply (I5 p Hp).
  - intros q Hq Hne. rewrite Eo by done. eapply relinked_sock_ok; [|apply relinked_refl|by apply I5]. done.
  - exists l1, l2. split; [done|]. split; [done|by rewrite Ep in D2| |done].
    intros q Hq. rewrite <- Eo by done. by apply D3.
Qed.

(** ** Creation *)

Context (fresh : Z -> Z).

Definition new_ring (b size : Z) : tcp_ring_buffer := mk_ring b fresh size 0 0 0.
Definition new_sock (now b1 b2 : Z) : tcp_socket :=
  mk_sock 0 0 0 0 TCP_STATE_CLOSED 0 0 0 0 0 TCP_DEFAULT_WINDOW 0 (new_ring b1 TCP_SEND_BUF_SIZE)
    (new_ring b2 TCP_RECV_BUF_SIZE) TCP_RETRANSMIT_TIMEOUT 0 0 0 0 now 0 0 NULL
    (mk_options TCP_MSS_DEFAULT false false 0) 0 NULL NULL.

Lemma new_sock_ok t now b1 b2 : sock_ok t (new_sock now b1 b2) [].
Proof.
  assert (forall b size, 0 < size < 2 ^ 63 -> ring_ok (new_ring b size)) as Hr.
  { intros b size Hs. split; simpl; try lia. symmetry. apply Z.mod_0_l. lia. }
  split; try done; try (split; [apply Hr; unfold TCP_SEND_BUF_SIZE, TCP_RECV_BUF_SIZE; simpl; lia|done]).
Qed.

(** Linking in a socket whose blocks are new. *)
Lemma add_inv p t l pd :
  linked (sock_next t) (sock_prev t) NULL (tcp_socket_list t) l -> sock_ok t (tc_sock t p) [] ->
  (forall q, q ∈ l -> sock_ok t (tc_sock t q) (pd q)) -> kh_wf (tc_heap t) ->
  NoDup (sock_blocks p (tc_sock t p) [] ++ blocks t l pd) ->
  Forall (fun b => address b /\ kh_live (tc_heap t) b) (sock_blocks p (tc_sock t p) [] ++ blocks t l pd) ->
  tcp_inv (tcp_socket_list_add p t) (p :: l) (upd pd p []).
Proof.
  intros Hl Hs Hsl Hw Hnd HF. assert (p ∉ l) as Hni.
  { intros Hp. apply NoDup_app in Hnd as (_ & Hd & _). apply (Hd p); [left|]. eapply blocks_elem; [exact Hp|left]. }
  assert (NoDup (p :: l)) as Hndl.
  { apply NoDup_cons. split; [done|]. eapply blocks_nodup_list. by apply NoDup_app in Hnd as (_ & _ & Hnd). }
  assert (address p) as Ha by (apply Forall_cons in HF as [[Ha _] _]; exact Ha).
  assert (tc_heap (tcp_socket_list_add p t) = tc_heap t /\ tc_pending (tcp_socket_list_add p t) = tc_pending t) as [E1 E2]
    by (unfold tcp_socket_list_add; by destruct (tcp_socket_list t =? NULL)).
  assert (blocks (tcp_socket_list_add p t) (p :: l) (upd pd p []) = sock_blocks p (tc_sock t p) [] ++ blocks t l pd) as Eb.
  { rewrite <- (tblocks_ext t (tcp_socket_list_add p t) l pd (upd pd p [])).
    - rewrite blocks_cons, upd_same. destruct (list_add_sock t p p) as (n & v & ->). done.
    - intros q Hq. rewrite upd_other by (by intros ->). destruct (list_add_sock t p q) as (n & v & ->). done. }
  split.
  - by apply list_add_linked.
  - by rewrite Eb.
  - by rewrite Eb, E1.
  - by rewrite E1.
  - assert (forall c, pending_next (tcp_socket_list_add p t) c = pending_next t c) as Ep by (intros c; unfold pending_next; by rewrite E2).
    intros q [->|Hq]%elem_of_cons.
    + rewrite upd_same. eapply relinked_sock_ok; [auto|apply list_add_sock|done].
    + rewrite upd_other by (by intros ->). eapply relinked_sock_ok; [auto|apply list_add_sock|auto].
Qed.

(** What [tcp_socket_create] does when it succeeds. *)
Record created (p : Z) (l : list Z) (pd : Z -> list Z) t t' : Prop := mk_created {
  cr_address : address p;
  cr_fresh : ~ kh_live (tc_heap t) p;
  cr_inv : tcp_inv t' (p :: l) (upd pd p []);
  cr_sock : exists b1 b2, relinked (new_sock (now32 t) b1 b2) (tc_sock t' p);
  cr_others : forall q, q <> p -> relinked (tc_sock t q) (tc_sock t' q);
  cr_rest : tc_pending t' = tc_pending t /\ tc_net t' = tc_net t /\ tc_time t' = tc_time t /\ tcp_isn_counter t' = tcp_isn_counter t;
}.
(** And when it fails: everything it allocated is freed. *)
Record not_created (l : list Z) t t' : Prop := mk_not_created {
  nc_list : tcp_socket_list t' = tcp_socket_list t;
  nc_sock : forall q, kh_live (tc_heap t) q -> tc_sock t' q = tc_sock t q;
  nc_heap : kh_wf (tc_heap t') /\ forall b, kh_live (tc_heap t') b <-> kh_live (tc_heap t) b;
  nc_rest : tc_pending t' = tc_pending t /\ tc_net t' = tc_net t /\ tc_time t' = tc_time t;
}.
Lemma not_created_inv l pd t t' : tcp_inv t l pd -> not_created l t t' -> tcp_inv t' l pd.
Proof.
  intros Hi [A1 A2 [A3 A4] (A5 & _)]. pose proof (ti_live _ _ _ Hi) as HF. rewrite Forall_forall in HF.
  eapply inv_frame; [exact Hi|done| |by intros; rewrite A5|done|intros b Hb; by apply A4, HF].
  intros q Hq. rewrite A2; [done|]. apply HF. eapply blocks_elem; [exact Hq|left].
Qed.

Lemma sock_create_spec t l pd : tcp_inv t l pd ->
  let '(t', p) := tcp_socket_create fresh t in
  (p = NULL /\ not_created l t t') \/ created p l pd t t'.
Proof.
  intros Hi. pose proof Hi as [I1 I2 I3 I4 I5]. rewrite Forall_forall in I3. unfold tcp_socket_create.
  destruct (kh_calloc _ _ _) as [h1 p] eqn:E1.
  destruct (kh_calloc_ok _ 1 sizeof_tcp_socket _ _ I4 ltac:(lia) ltac:(unfold request, sizeof_tcp_socket; lia) E1) as
    [[-> ->]|(Ha & Hf & Hw1 & Hl1)]; [left; split; [done|]; by split|].
  rewrite (proj2 (Z.eqb_neq p NULL)) by (unfold address, NULL in *; lia). unfold ring_buffer_init. cbn [tc_heap set_theap set_tsock].
  destruct (kh_malloc TCP_SEND_BUF_SIZE h1) as [h2 b1] eqn:E2.
  destruct (kh_malloc_ok _ TCP_SEND_BUF_SIZE _ _ Hw1 ltac:(unfold request, TCP_SEND_BUF_SIZE; lia) E2) as [[-> ->]|(Ha2 & Hf2 & Hw2 & Hl2)].
  { left. split; [done|]. cbn [Z.eqb NULL negb]. destruct (kh_free_ok h1 p Hw1) as [Hw Hl]; [apply Hl1; by right|]. split; try done.
    - intros q Hq. cbn [tc_sock set_theap on_sock set_tsock]. rewrite !upd_other; [done|by intros ->..].
    - cbn [tc_heap set_theap on_sock set_tsock]. split; [done|]. intros b. rewrite Hl, Hl1.
      split; [intros [[?|?] ?]; done|]. intros Hb. split; [by left|]. by intros ->. }
  rewrite (proj2 (Z.eqb_neq b1 NULL)) by (unfold address, NULL in *; lia). cbn [negb tc_heap set_theap on_sock set_tsock tc_sock].
  destruct (kh_malloc TCP_RECV_BUF_SIZE h2) as [h3 b2] eqn:E3.
  destruct (kh_malloc_ok _ TCP_RECV_BUF_SIZE _ _ Hw2 ltac:(unfold request, TCP_RECV_BUF_SIZE; lia) E3) as [[-> ->]|(Ha3 & Hf3 & Hw3 & Hl3)].
  { left. split; [done|]. cbn [Z.eqb NULL negb]. unfold ring_buffer_free. cbn [tc_sock tc_heap set_theap on_sock set_tsock].
    rewrite !upd_same. cbn [sk_send_buf set_recv_buf set_send_buf rb_buffer].
    rewrite (proj2 (Z.eqb_neq b1 NULL)) by (unfold address, NULL in *; lia).
    destruct (free_all_ok [b1; p] h2 Hw2) as [Hw Hl].
    - repeat constructor; [|apply not_elem_of_nil]. apply not_elem_of_cons. split; [|apply not_elem_of_nil].
      intros ->. apply Hf2, Hl1. by right.
    - apply Forall_cons. split; [apply Hl2; by right|]. apply Forall_cons. split; [apply Hl2; left; apply Hl1; by right|done].
    - split; try done.
      + intros q Hq. cbn [tc_sock set_theap on_sock set_tsock]. rewrite !upd_other; [done|by intros ->..].
      + split; [exact Hw|]. intros b. rewrite (Hl b), Hl2, Hl1, !not_elem_of_cons. split.
        * intros ([[?|?]|?] & ? & ? & ?); done.
        * intros Hb. split; [by left; left|]. split_and!; [|by intros ->|apply not_elem_of_nil].
          intros ->. apply Hf2, Hl1. by left. }
  rewrite (proj2 (Z.eqb_neq b2 NULL)) by (unfold address, NULL in *; lia). cbn [negb tc_heap set_theap on_sock set_tsock tc_sock].
  right. set (t4 := on_sock p _ _).
  assert (forall q, tc_sock t4 q = if q =? p then new_sock (now32 t) b1 b2 else tc_sock t q) as Es.
  { intros q. unfold t4. rewrite on_sock_at. cbn [tc_sock set_theap on_sock set_tsock]. rewrite !upd_same.
    case_if; [done|]. by rewrite !upd_other. }
  assert (tc_heap t4 = h3 /\ tcp_socket_list t4 = tcp_socket_list t /\ tc_pending t4 = tc_pending t) as (Eh & El & Ep) by done.
  assert (p ∉ l) as Hpl by (intros Hp; apply Hf, I3; eapply blocks_elem; [exact Hp|left]).
  assert (forall q, q ∈ l -> tc_sock t4 q = tc_sock t q) as Eo.
  { intros q Hq. rewrite Es, (proj2 (Z.eqb_neq q p)); [done|]. by intros ->. }
  assert (tc_sock t4 p = new_sock (now32 t) b1 b2) as Enew by (by rewrite Es, Z.eqb_refl).
  assert (blocks t4 l pd = blocks t l pd) as Eb by (apply tblocks_ext; intros q Hq; by rewrite Eo).
  assert (tcp_inv (tcp_socket_list_add p t4) (p :: l) (upd pd p [])) as Hinv.
  { apply add_inv.
    - rewrite El. eapply linked_ext; [exact I1|]. intros a Hal. unfold sock_next, sock_prev. by rewrite Eo.
    - rewrite Enew. apply new_sock_ok.
    - intros q Hq. rewrite Eo by done. eapply relinked_sock_ok; [|apply relinked_refl|by apply I5].
      intros c _. unfold pending_next. by rewrite Ep.
    - by rewrite Eh.
    - rewrite Eb, Enew. cbn [sock_blocks sk_send_buf sk_recv_buf new_sock rb_buffer new_ring app].
      assert (forall b, b ∈ blocks t l pd -> kh_live (tc_heap t) b) as HL by (intros b Hb; by apply I3).
      assert (p <> b1 /\ p <> b2 /\ b1 <> b2) as (N1 & N2 & N3).
      { split_and!; intros ->; [apply Hf2, Hl1; by right|apply Hf3, Hl2; left; apply Hl1; by right|apply Hf3, Hl2; by right]. }
      assert ((p ∉ blocks t l pd) /\ (b1 ∉ blocks t l pd) /\ (b2 ∉ blocks t l pd)) as (M1 & M2 & M3).
      { split_and!; intros Hb%HL; [done|apply Hf2, Hl1; by left|apply Hf3, Hl2; left; apply Hl1; by left]. }
      repeat (apply NoDup_cons; split; [by rewrite ?not_elem_of_cons|]). exact I2.
    - rewrite Eb, Enew, Eh. apply Forall_app. split.
      + assert (kh_live h3 p /\ kh_live h3 b1 /\ kh_live h3 b2) as (L1 & L2 & L3).
        { rewrite !Hl3, !Hl2, !Hl1. tauto. }
        by repeat (apply Forall_cons; split; [done|]).
      + apply Forall_forall. intros b Hb. destruct (I3 b Hb) as [Hab Hlb]. split; [done|]. rewrite Hl3, Hl2, Hl1. tauto. }
  assert (forall q, relinked (tc_sock t4 q) (tc_sock (tcp_socket_list_add p t4) q)) as Hrel by (intros q; apply list_add_sock).
  split; [done..| | |].
  - exists b1, b2. rewrite <- Enew. apply Hrel.
  - intros q Hq. specialize (Hrel q). rewrite Es, (proj2 (Z.eqb_neq q p)) in Hrel by done. exact Hrel.
  - clear -t4. unfold tcp_socket_list_add. by destruct (tcp_socket_list t4 =? NULL).
Qed.
End Life.
