(* ===== verification/TcpSafe.v ===== *)
(** * TCP is memory safe (net/tcp/tcp.c)

    Every sequence of calls, segments and timer ticks keeps the sockets, their queues and
    their buffers intact and accounts for every allocation. *)
From S2P Require Import Prelude Memory PageAlloc Pmm Heap HeapSpec Ring Netbuf Net Checksum Chain Tcp TcpRing TcpInv TcpLife.
Section Safe.
Context {H : Type} `{KernelHeapLaws H} (hw_result : list Z -> Z) (fresh : Z -> Z).
Implicit Types t : tcp H.

(** ** The queue of a listening socket *)

Definition same_links (s s' : tcp_socket) : Prop :=
  sk_next s' = sk_next s /\ sk_prev s' = sk_prev s /\ rb_buffer (sk_send_buf s') = rb_buffer (sk_send_buf s) /\
  rb_buffer (sk_recv_buf s') = rb_buffer (sk_recv_buf s).

Lemma blocks_requeue t l pd p ps : p ∈ l -> NoDup l ->
  Permutation (blocks t l (upd pd p ps) ++ pd p) (ps ++ blocks t l pd).
Proof.
  intros (l1 & l2 & ->)%list_elem_of_split Hnd.
  assert (forall k, p ∉ k -> blocks t k (upd pd p ps) = blocks t k pd) as Hk.
  { intros k Hp. apply tblocks_ext. intros q Hq. rewrite upd_other by (by intros ->). done. }
  apply NoDup_app in Hnd as (_ & Hd & [Hni _]%NoDup_cons).
  rewrite !tblocks_app, !blocks_cons, !Hk, upd_same; [|done|intros Hp; apply (Hd _ Hp); left].
  unfold sock_blocks. solve_Permutation.
Qed.

(** A change of the queue of one socket. *)
Lemma requeue_inv t t' l pd p ps :
  tcp_inv t l pd -> p ∈ l -> tcp_socket_list t' = tcp_socket_list t -> (forall q, q <> p -> tc_sock t' q = tc_sock t q) ->
  same_links (tc_sock t p) (tc_sock t' p) -> sock_ok t' (tc_sock t' p) ps ->
  (forall q c, q ∈ l -> q <> p -> c ∈ pd q -> tc_pending t' c = tc_pending t c) -> kh_wf (tc_heap t') ->
  NoDup (blocks t l (upd pd p ps)) -> Forall (fun b => address b /\ kh_live (tc_heap t') b) (blocks t l (upd pd p ps)) ->
  tcp_inv t' l (upd pd p ps).
Proof.
  intros [I1 I2 I3 I4 I5] Hp A1 A2 (S1 & S2 & S3 & S4) A4 A5 A6 A7 A8.
  assert (blocks t' l (upd pd p ps) = blocks t l (upd pd p ps)) as Eb.
  { apply tblocks_ext. intros q _. destruct (decide (q = p)) as [->|Hq]; [done|]. by rewrite A2. }
  split; [|by rewrite Eb|by rewrite Eb|done|].
  - rewrite A1. eapply linked_ext; [exact I1|]. intros q _. unfold sock_next, sock_prev.
    destruct (decide (q = p)) as [->|Hq]; [done|]. by rewrite A2.
  - intros q Hq. destruct (decide (q = p)) as [->|Hne]; [by rewrite upd_same|]. rewrite upd_other, A2 by done.
    eapply relinked_sock_ok; [|apply relinked_refl|by apply I5]. intros c Hc. unfold pending_next. by rewrite (A5 q).
Qed.

Lemma blocks_push t l pd p c : p ∈ l -> NoDup l -> Permutation (blocks t l (upd pd p (c :: pd p))) (c :: blocks t l pd).
Proof.
  intros Hp Hnd. apply (Permutation_app_inv_r (pd p)). rewrite blocks_requeue by done. solve_Permutation.
Qed.
Lemma blocks_pop t l pd p c ps : p ∈ l -> NoDup l -> pd p = c :: ps ->
  Permutation (blocks t l pd) (c :: blocks t l (upd pd p ps)).
Proof.
  intros Hp Hnd E. apply (Permutation_app_inv_l ps). rewrite <- blocks_requeue, E by done. solve_Permutation.
Qed.

(** The queues of different sockets are disjoint. *)
Lemma queues_disjoint t l pd p q c : tcp_inv t l pd -> p ∈ l -> q ∈ l -> q <> p -> c ∈ pd q -> c ∉ sock_blocks p (tc_sock t p) (pd p).
Proof.
  intros [_ Hnd _ _ _] (l1 & l2 & ->)%list_elem_of_split Hq Hne Hc Hin.
  assert (Permutation (blocks t (l1 ++ p :: l2) pd) (sock_blocks p (tc_sock t p) (pd p) ++ blocks t (l1 ++ l2) pd)) as HP
    by (rewrite !tblocks_app, blocks_cons; solve_Permutation).
  rewrite HP in Hnd. apply NoDup_app in Hnd as (_ & Hd & _). apply (Hd c Hin).
  eapply (blocks_elem t (l1 ++ l2) pd q); [|do 3 right; done].
  apply elem_of_app in Hq as [Hq|[->|Hq]%elem_of_cons]; apply elem_of_app; [by left|done|by right].
Qed.

Lemma rcv_listen_inv p g t l pd : tcp_inv t l pd -> p ∈ l -> sk_state (tc_sock t p) = TCP_STATE_LISTEN ->
  exists ps, (ps = pd p \/ exists c, ps = c :: pd p) /\ tcp_inv (rcv_listen p g t) l (upd pd p ps).
Proof.
  intros Hi Hp Hst. pose proof Hi as [I1 I2 I3 I4 I5]. rewrite Forall_forall in I3.
  pose proof (blocks_nodup_list _ _ _ I2) as Hndl.
  assert (forall t', quiet t t' -> tcp_inv t' l (upd pd p (pd p))) as Hsame.
  { intros t' Hq. pose proof (quiet_inv _ _ _ _ Hq Hi) as Hi'. pose proof Hi' as [J1 J2 J3 J4 J5].
    assert (Permutation (blocks t' l (upd pd p (pd p))) (blocks t' l pd)) as HP.
    { apply (Permutation_app_inv_r (pd p)). rewrite blocks_requeue by done. apply Permutation_app_comm. }
    eapply requeue_inv; [exact Hi'|done..|by apply J5|done|done|by rewrite HP|by rewrite HP]. }
  unfold rcv_listen. destruct (flag_on _ _); [|exists (pd p); split; [by left|by apply Hsame]].
  destruct (sk_backlog _ <=? _) eqn:Eb; [exists (pd p); split; [by left|by apply Hsame]|]. apply Z.leb_gt in Eb.
  destruct (kh_malloc _ _) as [h c] eqn:Em.
  assert (request sizeof_tcp_pending_conn) as Hr by (unfold request, sizeof_tcp_pending_conn; lia).
  destruct (kh_malloc_ok _ _ _ _ I4 Hr Em) as [[-> ->]|(Ha & Hf & Hw & Hl)].
  { exists (pd p). split; [by left|]. rewrite Z.eqb_refl. apply Hsame. by apply tquiet_same. }
  rewrite (proj2 (Z.eqb_neq c NULL)) by (unfold address, NULL in *; lia).
  exists (c :: pd p). split; [right; by exists c|]. cbv zeta. set (t' := on_sock p _ _).
  assert (c ∉ blocks t l pd) as Hcb by (intros Hb; by apply Hf, I3).
  assert (tc_sock t' p = set_sk_queue (sk_backlog (tc_sock t p)) (sk_pending_count (tc_sock t p) + 1) c (tc_sock t p)) as Ep
    by (unfold t'; rewrite on_sock_at, Z.eqb_refl; done).
  assert (forall a, a ∈ blocks t l pd -> tc_pending t' a = tc_pending t a) as Epd.
  { intros a Hab. unfold t'. simpl. rewrite upd_other; [done|]. by intros ->. }
  destruct (I5 p Hp) as [C1 C2 C3 C4 C5 C6 C7 C8].
  eapply requeue_inv; [exact Hi|done|done|..|exact Hw| |].
  - intros q Hq. unfold t'. by rewrite on_sock_at, (proj2 (Z.eqb_neq q p)).
  - by rewrite Ep.
  - rewrite Ep. split; try done.
    + simpl. split; [done|]. split; [done|]. unfold pending_next at 2. simpl. rewrite upd_same. cbn [pc_next].
      eapply chained_ext; [exact C3|]. intros a Hap. unfold pending_next. rewrite Epd; [done|].
      eapply blocks_elem; [exact Hp|by do 3 right].
    + simpl. lia.
    + simpl. lia.
  - intros q a Hq Hne Hap. apply Epd. eapply blocks_elem; [exact Hq|by do 3 right].
  - rewrite blocks_push by done. by apply NoDup_cons.
  - rewrite blocks_push by done. apply Forall_cons. split; [split; [done|]; simpl; apply Hl; by right|].
    apply Forall_forall. intros b Hb. destruct (I3 b Hb). split; [done|]. simpl. apply Hl. by left.
Qed.

(** Taking the first request out of the queue. *)
Definition pop_request (p c : Z) t : tcp H :=
  let t := on_sock p (fun x => set_sk_queue (sk_backlog x) (sk_pending_count x - 1) (pc_next (tc_pending t c)) x) t in
  set_theap (kh_free c (tc_heap t)) t.
Lemma pop_inv p c ps t l pd : tcp_inv t l pd -> p ∈ l -> pd p = c :: ps -> tcp_inv (pop_request p c t) l (upd pd p ps).
Proof.
  intros Hi Hp Ec. pose proof Hi as [I1 I2 I3 I4 I5]. pose proof (blocks_nodup_list _ _ _ I2) as Hndl.
  pose proof (blocks_pop t l pd p c ps Hp Hndl Ec) as HP. rewrite HP in I2, I3. apply NoDup_cons in I2 as [Hni Hnd].
  apply Forall_cons in I3 as [[Hac Hlc] HF]. destruct (kh_free_ok (tc_heap t) c I4 Hlc) as [Hw Hl].
  destruct (I5 p Hp) as [C1 C2 C3 C4 C5 C6 C7 C8]. rewrite Ec in C3, C4. destruct C3 as (Eh & _ & Hch). simpl in C4.
  set (t' := pop_request p c t).
  assert (tc_sock t' p = set_sk_queue (sk_backlog (tc_sock t p)) (sk_pending_count (tc_sock t p) - 1) (pc_next (tc_pending t c)) (tc_sock t p))
    as Ep by (unfold t', pop_request; cbn [tc_sock set_theap]; by rewrite on_sock_at, Z.eqb_refl).
  eapply requeue_inv; [exact Hi|done|done|..|done|exact Hw|done|].
  - intros q Hq. unfold t', pop_request. cbn [tc_sock set_theap]. by rewrite on_sock_at, (proj2 (Z.eqb_neq q p)).
  - by rewrite Ep.
  - rewrite Ep. split; try done; simpl; try lia. intros Hn. specialize (C6 Hn). congruence.
  - apply Forall_forall. intros b Hb. rewrite Forall_forall in HF. destruct (HF b Hb). split; [done|].
    unfold t', pop_request. cbn [tc_heap set_theap on_sock set_tsock]. apply Hl. split; [done|]. by intros ->.
Qed.

(** ** Every call *)

Definition intact t : Prop := exists l pd, tcp_inv t l pd.
(** [p] is a socket that was created and not yet destroyed. *)
Definition is_socket t (p : Z) : Prop := exists l, linked (sock_next t) (sock_prev t) NULL (tcp_socket_list t) l /\ p ∈ l.

Lemma linked_unique nx pv q p l l' : linked nx pv q p l -> linked nx pv q p l' -> l = l'.
Proof.
  revert q p l'. induction l as [|a l IH]; intros q p [|b l'] L1 L2; simpl in *; [done|..].
  - destruct L2 as (-> & Ha & _). subst. unfold address, NULL in Ha. lia.
  - destruct L1 as (-> & Ha & _). subst. unfold address, NULL in Ha. lia.
  - destruct L1 as (-> & _ & _ & L1), L2 as (<- & _ & _ & L2). f_equal. eauto.
Qed.
Lemma is_socket_in t l pd p : tcp_inv t l pd -> is_socket t p -> p ∈ l.
Proof. intros Hi (l' & Hl & Hp). by rewrite (linked_unique _ _ _ _ _ _ (ti_linked _ _ _ Hi) Hl). Qed.

Lemma intact_quiet t t' : intact t -> quiet t t' -> intact t'.
Proof. intros (l & pd & Hi) Hq. exists l, pd. by eapply quiet_inv. Qed.

Lemma intact_create t : intact t -> intact (fst (tcp_socket_create fresh t)).
Proof.
  intros (l & pd & Hi). pose proof (sock_create_spec fresh t l pd Hi) as Hc. destruct (tcp_socket_create fresh t) as [t' p].
  destruct Hc as [[_ Hc]|Hc]; [exists l, pd; by eapply not_created_inv|]. eexists _, _. apply Hc.
Qed.
Lemma intact_destroy t p : intact t -> is_socket t p -> intact (tcp_socket_destroy p t).
Proof.
  intros (l & pd & Hi) Hp. destruct (destroy_inv p t l pd Hi) as (l1 & l2 & _ & Hd); [by eapply is_socket_in|].
  eexists _, _. apply Hd.
Qed.
Lemma intact_close_destroy t p : intact t -> is_socket t p -> intact (tcp_socket_destroy p (tcp_set_state p TCP_STATE_CLOSED t)).
Proof.
  intros (l & pd & Hi) Hp. destruct (close_destroy_inv p t l pd Hi) as (l1 & l2 & _ & Hd); [by eapply is_socket_in|].
  eexists _, _. apply Hd.
Qed.
Lemma is_socket_quiet t t' p : quiet t t' -> is_socket t p -> is_socket t' p.
Proof.
  intros [A1 _ A3 _] (l & Hl & Hp). exists l. split; [|done]. rewrite A1. eapply linked_ext; [exact Hl|].
  intros a _. unfold sock_next, sock_prev. destruct (A3 a). by split.
Qed.

Lemma intact_listen t p backlog : intact t -> is_socket t p -> intact (fst (tcp_listen p backlog t)).
Proof.
  intros (l & pd & Hi) Hp. pose proof (is_socket_in _ _ _ _ Hi Hp) as Hpl. unfold tcp_listen. unfold intact.
  case_if; [by exists l, pd|]. destruct (negb (bound _)); [by exists l, pd|]. unfold in_state. case_bool_decide as Hst; [|by exists l, pd].
  cbn [negb]. cbv zeta. set (b := if TCP_LISTEN_BACKLOG_MAX <? _ then _ else _).
  assert (0 < b <= TCP_LISTEN_BACKLOG_MAX) as Hb by (unfold b, TCP_LISTEN_BACKLOG_MAX; repeat case_if; lia).
  set (t1 := on_sock p _ t).
  assert (tc_sock t1 p = set_sk_flags (Z.lor (sk_flags (tc_sock t p)) TCP_SOCK_FLAG_LISTENING) (set_sk_queue b 0 NULL (tc_sock t p))) as Ep
    by (unfold t1; by rewrite on_sock_at, Z.eqb_refl).
  unfold tcp_set_state, in_state. rewrite Ep. cbn [sk_state set_sk_flags set_sk_queue]. rewrite Hst.
  rewrite bool_decide_eq_false_2 by done. cbn [fst]. set (t2 := on_sock p _ t1).
  assert (tc_sock t2 p = set_sk_state TCP_STATE_LISTEN (now32 t1) (tc_sock t1 p)) as Ep2 by (unfold t2; by rewrite on_sock_at, Z.eqb_refl).
  pose proof Hi as [I1 I2 I3 I4 I5]. destruct (I5 p Hpl) as [C1 C2 C3 C4 C5 C6 C7 C8].
  assert (pd p = []) as Epd by (apply C6; congruence). rewrite Epd in *.
  assert (Permutation (blocks t l (upd pd p [])) (blocks t l pd)) as HP.
  { apply (Permutation_app_inv_r (pd p)). rewrite blocks_requeue by (done || by eapply blocks_nodup_list). by rewrite Epd, app_nil_r. }
  exists l, (upd pd p []). eapply requeue_inv; [exact Hi|done|done|..|done|exact I4|by rewrite HP|by rewrite HP].
  - intros q Hq. unfold t2, t1. rewrite !on_sock_at, (proj2 (Z.eqb_neq q p)) by done. done.
  - by rewrite Ep2, Ep.
  - rewrite Ep2, Ep. split; try done. simpl. lia.
Qed.

Lemma accept_inv t p l pd : tcp_inv t l pd -> p ∈ l ->
  let '(t', q) := tcp_accept hw_result fresh p t in
  exists pd', (q = NULL /\ tcp_inv t' l pd') \/ ((q ∉ l) /\ tcp_inv t' (q :: l) pd').
Proof.
  intros Hi Hpl. unfold tcp_accept. destruct (_ || _); [exists pd; by left|]. case_if; [exists pd; by left|].
  pose proof (sock_create_spec fresh t l pd Hi) as Hc. destruct (tcp_socket_create fresh t) as [t1 q].
  destruct Hc as [[-> Hc]|[D1 D2 D3 (b1 & b2 & D4) D5 (D6 & _)]].
  { rewrite Z.eqb_refl. exists pd. left. split; [done|]. by eapply not_created_inv. }
  rewrite (proj2 (Z.eqb_neq q NULL)) by (unfold address, NULL in *; lia). cbn [tcp_generate_isn]. cbv zeta.
  set (c := sk_pending_head (tc_sock t p)) in *.
  pose proof Hi as [I1 I2 I3 I4 I5]. rewrite Forall_forall in I3.
  assert (q ∉ l) as Hql by (intros Hq; apply D2, I3; eapply blocks_elem; [exact Hq|left]).
  assert (p <> q) as Hpq by (by intros ->).
  destruct (pd p) as [|c' ps] eqn:Epd.
  { destruct (I5 p Hpl) as [_ _ C3 _ _ _ _ _]. rewrite Epd in C3. done. }
  assert (c' = c) as -> by (destruct (I5 p Hpl) as [_ _ C3 _ _ _ _ _]; rewrite Epd in C3; by destruct C3).
  assert (sk_state (tc_sock t1 q) <> TCP_STATE_LISTEN) as Hq by (destruct D4 as (n & v & ->); done).
  match goal with |- context [tcp_send_segment ?h ?f ?q ?fl [] ?x] => set (t5 := fst (tcp_send_segment h f q fl [] x)) end.
  assert (quiet t1 t5) as Hqt.
  { apply quiet_then_send; [|apply short_nil]. apply quiet_then_state; [|done..]. apply quiet_then_sock; [|intros s; shaped].
    etransitivity; [|apply quiet_generate]. apply quiet_then_sock; [done|intros s; shaped]. }
  eexists _. right. split; [done|]. apply (pop_inv p c ps); [by eapply quiet_inv|by right|]. by rewrite upd_other by done.
Qed.
Lemma intact_accept t p : intact t -> is_socket t p -> intact (fst (tcp_accept hw_result fresh p t)).
Proof.
  intros (l & pd & Hi) Hp. pose proof (accept_inv t p l pd Hi (is_socket_in _ _ _ _ Hi Hp)) as Ha.
  destruct (tcp_accept _ _ _ _) as [t' q]. destruct Ha as (pd' & [[_ Ha]|[_ Ha]]); by eexists _, _.
Qed.

Lemma intact_find t test : intact t -> let p := find_linked (sock_next t) test (tcp_socket_list t) in
  p <> NULL -> is_socket t p /\ test p = true.
Proof.
  intros (l & pd & Hi) p Hp. pose proof (blocks_nodup_list _ _ _ (ti_nodup _ _ _ Hi)) as Hnd.
  unfold p in *. rewrite (find_linked_first _ _ _ _ _ _ (ti_linked _ _ _ Hi) Hnd) in *.
  destruct (first_of_some test l Hp) as [Hin Ht]. split; [|done]. exists l. split; [apply Hi|done].
Qed.

Lemma socket_sizes t p : intact t -> is_socket t p -> sizes_ok (tc_sock t p) /\ ring_ok (sk_send_buf (tc_sock t p)).
Proof.
  intros (l & pd & Hi) Hp. destruct (ti_sock _ _ _ Hi p) as [[C1 _] _ _ _ _ _ C7 C8]; [by eapply is_socket_in|].
  split; [|done]. split_and!; [done..|apply C1].
Qed.

Lemma is_socket_address t p : is_socket t p -> p <> NULL.
Proof.
  intros (l & Hl & Hp) ->. apply linked_addresses in Hl. rewrite Forall_forall in Hl. specialize (Hl _ Hp).
  unfold address, NULL in Hl. lia.
Qed.

Lemma intact_abort t p : intact t -> is_socket t p -> intact (tcp_abort hw_result fresh p t).
Proof.
  intros Hi Hp. unfold tcp_abort. case_if; [done|]. cbv zeta. set (t1 := if _ && _ then _ else _).
  assert (quiet t t1) as Hq by (unfold t1; destruct (_ && _); [apply quiet_rst|done]).
  apply intact_close_destroy; [by eapply intact_quiet|by eapply is_socket_quiet].
Qed.

Lemma intact_tcp_close t p : intact t -> is_socket t p -> intact (fst (tcp_close hw_result fresh p t)).
Proof.
  intros Hi Hp. unfold tcp_close. case_if; [done|]. destruct (sk_state (tc_sock t p)) eqn:Est; cbn [fst]; try done.
  - by apply intact_destroy.
  - by apply intact_close_destroy.
  - by apply intact_close_destroy.
  - eapply intact_quiet; [exact Hi|]. apply quiet_then_stats, quiet_then_send; [|apply short_nil]. by apply quiet_then_state; [|congruence|].
  - eapply intact_quiet; [exact Hi|]. apply quiet_then_stats, quiet_then_send; [|apply short_nil]. by apply quiet_then_state; [|congruence|].
  - eapply intact_quiet; [exact Hi|]. apply quiet_then_stats, quiet_then_send; [|apply short_nil]. by apply quiet_then_state; [|congruence|].
Qed.

Lemma intact_dispatch t p g : intact t -> is_socket t p -> 0 <= sg_window g -> short (sg_data g) ->
  intact (tcp_dispatch hw_result fresh p g t).
Proof.
  intros Hi Hp Hw Hd. destruct (decide (sk_state (tc_sock t p) = TCP_STATE_LISTEN)) as [Hl|Hl].
  { unfold tcp_dispatch. rewrite Hl. destruct Hi as (l & pd & Hi).
    destruct (rcv_listen_inv p g t l pd Hi) as (ps & _ & Hi'); [by eapply is_socket_in|done|]. by eexists _, _. }
  destruct (decide (sk_state (tc_sock t p) = TCP_STATE_LAST_ACK)) as [Ha|Ha].
  { unfold tcp_dispatch. rewrite Ha. unfold rcv_last_ack. destruct (_ && _); [by apply intact_close_destroy|done]. }
  eapply intact_quiet; [exact Hi|]. by apply quiet_dispatch.
Qed.

Lemma intact_deliver t g : intact t -> 0 <= sg_window g -> short (sg_data g) -> intact (fst (tcp_deliver hw_result fresh g t)).
Proof.
  intros Hi Hw Hd. unfold tcp_deliver. cbv zeta.
  set (f := tcp_find_socket _ _ _ _ t). set (p := if f =? NULL then _ else _).
  assert (p <> NULL -> is_socket t p) as Hp.
  { unfold p, f, tcp_find_socket, tcp_find_listener. case_if; intros Hn; by eapply intact_find. }
  case_if; cbn [fst].
  { destruct (negb _); [|done]. eapply intact_quiet; [exact Hi|]. destruct (flag_on _ _); apply quiet_rst. }
  destruct (flag_on _ _); cbn [fst]; [|by apply intact_dispatch; auto].
  unfold in_state. case_bool_decide as Hs; [done|]. cbn [negb]. eapply intact_quiet; [exact Hi|]. by apply quiet_then_state.
Qed.

Lemma ntohs_nonneg x : 0 <= ntohs x.
Proof. unfold ntohs, htons. apply Z.lor_nonneg. split; [apply Z.shiftl_nonneg|]; apply Z.land_nonneg; right; lia. Qed.

Lemma intact_receive t packet len src dst : intact t -> len < 2 ^ 62 -> intact (fst (tcp_receive hw_result fresh packet len src dst t)).
Proof.
  intros Hi Hlen. unfold tcp_receive. destruct packet as [bytes|]; [|done]. case_if; [done|]. cbv zeta. destruct (_ || _); [done|].
  destruct (kh_malloc len (tc_heap t)) as [h c] eqn:Em.
  assert (request len) as Hr by (unfold request, TCP_HEADER_MIN_LEN in *; lia). case_if.
  { replace c with NULL in Em by lia. eapply intact_quiet; [exact Hi|]. by eapply malloc_null. }
  assert (intact (set_theap (kh_free c h) t)) as Hi2 by (eapply intact_quiet; [exact Hi|by eapply malloc_quiet]).
  cbn [tc_heap set_theap]. set (t2 := set_theap (kh_free c h) (set_theap h t)).
  assert (intact t2) as Hi3 by exact Hi2. destruct (negb _); [eapply intact_quiet; [exact Hi3|]; by apply tquiet_same|].
  apply intact_deliver; [eapply intact_quiet; [exact Hi3|]; by apply tquiet_same|apply ntohs_nonneg|].
  unfold short. simpl. rewrite length_drop, length_take. lia.
Qed.
End Safe.

(** ** The timer and whole runs of TCP (net/tcp/tcp.c)

    A tick destroys exactly the sockets whose time is over and touches no other; and any
    run of calls, segments and ticks keeps the data structures intact. *)

(** A connection attempt whose current wait is over. *)
Definition attempt_due (now : Z) (s : tcp_socket) : bool :=
  (in_state (sk_state s) TCP_STATE_SYN_SENT || in_state (sk_state s) TCP_STATE_SYN_RECEIVED)
  && (u32 (sk_rto s * (sk_retries s + 1)) <=? u32 (now - sk_last_activity s)).
(** A socket the next tick ends: TIME_WAIT has lasted a minute, or the last retry is due. *)
Definition over (now : Z) (s : tcp_socket) : bool :=
  (in_state (sk_state s) TCP_STATE_TIME_WAIT && (TCP_TIME_WAIT_TIMEOUT <=? u32 (now - sk_time_wait_start s)))
  || (attempt_due now s && (TCP_MAX_RETRIES <=? sk_retries s)).

(** Evaluates the comparisons of two given states. *)
Ltac states :=
  repeat match goal with
  | |- context [in_state ?a ?b] =>
      let v := eval vm_compute in (in_state a b) in
      match v with true => change (in_state a b) with true | false => change (in_state a b) with false end
  end; cbn [andb orb negb].

Section Timer.
Context {H : Type} `{KernelHeapLaws H} (hw_result : list Z -> Z) (fresh : Z -> Z).
Implicit Types t : tcp H.

Lemma send_segment_other p fl l t q : q <> p ->
  tc_sock (fst (tcp_send_segment hw_result fresh p fl l t)) q = tc_sock t q.
Proof.
  intros Hq. unfold tcp_send_segment. destruct (kh_malloc _ _) as [h c]. case_if; [done|].
  destruct (ip_send _ _ _ _ _ _ _) as [n r]. case_if; [|done]. cbn [fst].
  destruct (0 <? _), (flag_on _ _), (flag_on _ _); simpl; by rewrite ?upd_other.
Qed.
Lemma send_segment_time p fl l t : tc_time (fst (tcp_send_segment hw_result fresh p fl l t)) = tc_time t.
Proof.
  unfold tcp_send_segment. destruct (kh_malloc _ _) as [h c]. case_if; [done|].
  destruct (ip_send _ _ _ _ _ _ _) as [n r]. case_if; [|done]. cbn [fst].
  by destruct (0 <? _), (flag_on _ _), (flag_on _ _).
Qed.

(** One socket. *)
Lemma tick_socket_spec now p t l pd : tcp_inv t l pd -> p ∈ l ->
  let t' := tick_socket hw_result fresh now p t in
  if over now (tc_sock t p)
  then exists l1 l2, l = l1 ++ p :: l2 /\ tcp_inv t' (l1 ++ l2) pd /\ forall q, q <> p -> relinked (tc_sock t q) (tc_sock t' q)
  else quiet t t' /\ (forall q, q <> p -> tc_sock t' q = tc_sock t q) /\
       (attempt_due now (tc_sock t p) = false -> t' = t) /\ sk_state (tc_sock t' p) = sk_state (tc_sock t p).
Proof.
  intros Hi Hp t'. subst t'. unfold tick_socket, over, attempt_due.
  assert (forall t1, quiet t t1 -> (forall q, tc_sock t1 q = tc_sock t q) ->
    exists l1 l2, l = l1 ++ p :: l2 /\ tcp_inv (tcp_socket_destroy p (tcp_set_state p TCP_STATE_CLOSED t1)) (l1 ++ l2) pd /\
    forall q, q <> p -> relinked (tc_sock t q) (tc_sock (tcp_socket_destroy p (tcp_set_state p TCP_STATE_CLOSED t1)) q)) as Hend.
  { intros t1 Hq Hs. destruct (close_destroy_inv p t1 l pd) as (l1 & l2 & -> & [D1 _ D3 _]); [by eapply quiet_inv|done|].
    exists l1, l2. split; [done|]. split; [done|]. intros q Hne. rewrite <- Hs. by apply D3. }
  assert (p <> NULL) as Hn.
  { apply (is_socket_address t). exists l. split; [apply Hi|done]. }
  destruct (sk_state (tc_sock t p)) eqn:Est; cbv zeta; states; try (split_and!; done).
  1,2: destruct (_ <=? u32 (now - _)); cbn [andb orb]; [|split_and!; done].
  1,2: destruct (TCP_MAX_RETRIES <=? _).
  1,3: unfold tcp_abort; rewrite (proj2 (Z.eqb_neq p NULL)) by done; cbv zeta; rewrite Est; states; apply Hend; [apply quiet_rst|done].
  1,2: split; [|split; [|split; [done|]]].
  3,6: rewrite send_segment_state; simpl; by rewrite !upd_same.
  1,3: apply quiet_then_send; [|apply short_nil]; apply quiet_then_sock; [|intros ?; shaped];
    apply quiet_then_stats, quiet_then_sock; [done|intros ?; shaped].
  1,2: intros q Hq; rewrite send_segment_other by done; simpl; by rewrite !upd_other.
  rewrite orb_false_r. destruct (TCP_TIME_WAIT_TIMEOUT <=? _); [by apply Hend|done].
Qed.

Lemma split_unique (l1 : list Z) a l2 k1 k2 : NoDup (l1 ++ a :: l2) -> l1 ++ a :: l2 = k1 ++ a :: k2 -> k1 = l1 /\ k2 = l2.
Proof.
  revert k1. induction l1 as [|x l1 IH]; intros [|y k1] Hnd E; simpl in *.
  - by injection E as <-.
  - injection E as <- ->. apply NoDup_cons in Hnd as [Hni _]. destruct Hni. apply elem_of_app. right. left.
  - injection E as -> <-. apply NoDup_cons in Hnd as [Hni _]. destruct Hni. apply elem_of_app. right. left.
  - injection E as -> E. apply NoDup_cons in Hnd as [_ Hnd]. by destruct (IH k1 Hnd E) as [-> ->].
Qed.
Lemma filter_ext_elem (P Q : Z -> Prop) `{forall x, Decision (P x)} `{forall x, Decision (Q x)} (l : list Z) :
  (forall x, x ∈ l -> P x <-> Q x) -> filter P l = filter Q l.
Proof.
  induction l as [|x l IH]; intros He; [done|]. rewrite !filter_cons, IH by (intros y Hy; apply He; by right).
  destruct (He x ltac:(left)) as [H1' H2']. by do 2 case_decide; try tauto.
Qed.

Definition live_sockets (now : Z) t (l : list Z) : list Z := filter (fun p => over now (tc_sock t p) = false) l.

Definition tick_round (now : Z) : tcp H * Z -> (tcp H * Z) + tcp H :=
  fun '(t, p) => if p =? NULL then inr t else let nx := sock_next t p in inl (tick_socket hw_result fresh now p t, nx).

Lemma linked_next nx pv q p l1 a l2 : linked nx pv q p (l1 ++ a :: l2) -> nx a = default NULL (head l2).
Proof.
  intros Hl. apply linked_app in Hl as (q' & p' & _ & (_ & _ & _ & Hl)). destruct l2 as [|b l2]; [done|]. by destruct Hl as (-> & _).
Qed.

Lemma over_relinked now s s' : relinked s s' -> over now s' = over now s.
Proof. intros (n & v & ->). done. Qed.

(** A socket the tick has nothing to do for. *)
Definition idle (now : Z) (s : tcp_socket) : Prop := over now s = false /\ attempt_due now s = false.
Lemma idle_relinked now s s' : relinked s s' -> idle now s -> idle now s'.
Proof. intros (n & v & ->). done. Qed.

Lemma tick_loop now l2 : forall l1 pd t, tcp_inv t (l1 ++ l2) pd ->
  exists t', while_nat (S (length l2)) (tick_round now) (t, default NULL (head l2)) = inr t' /\
    tcp_inv t' (l1 ++ live_sockets now t l2) pd /\
    (forall q, (q ∈ l2 -> idle now (tc_sock t q)) -> relinked (tc_sock t q) (tc_sock t' q)) /\
    (forall q, (q ∈ l2 -> over now (tc_sock t q) = false) -> sk_state (tc_sock t' q) = sk_state (tc_sock t q)).
Proof.
  induction l2 as [|a l2 IH]; intros l1 pd t Hi.
  { exists t. split; [done|]. split; [done|]. split; [|done]. intros q _. apply relinked_refl. }
  pose proof (blocks_nodup_list _ _ _ (ti_nodup _ _ _ Hi)) as Hnd. pose proof Hnd as Hnd0.
  assert (a ∈ l1 ++ a :: l2) as Ha by (apply elem_of_app; right; left).
  assert (a <> NULL) as Hn by (apply (is_socket_address t); exists (l1 ++ a :: l2); split; [apply Hi|done]).
  pose proof (linked_next _ _ _ _ _ _ _ (ti_linked _ _ _ Hi)) as Enx. change (sock_next t a = default NULL (head l2)) in Enx.
  pose proof (tick_socket_spec now a t _ pd Hi Ha) as Hs. cbv zeta in Hs.
  apply NoDup_app in Hnd as (_ & Hd & Hnd). apply NoDup_cons in Hnd as [Hal Hndl].
  change (default NULL (head (a :: l2))) with a. cbn [length]. unfold live_sockets. rewrite filter_cons.
  change (while_nat (S (S (length l2))) (tick_round now) (t, a)) with
    (match tick_round now (t, a) with inl s' => while_nat (S (length l2)) (tick_round now) s' | inr r => inr r end).
  set (t1 := tick_socket _ _ _ _ _) in *. assert (tick_round now (t, a) = inl (t1, default NULL (head l2))) as ->
    by (unfold tick_round; rewrite (proj2 (Z.eqb_neq a NULL)) by done; by rewrite Enx).
  assert (exists l1', tcp_inv t1 (l1' ++ l2) pd /\ l1' = (if over now (tc_sock t a) then l1 else l1 ++ [a]) /\
          (forall q, (q = a -> idle now (tc_sock t q)) -> relinked (tc_sock t q) (tc_sock t1 q)) /\
          (over now (tc_sock t a) = false -> sk_state (tc_sock t1 a) = sk_state (tc_sock t a))) as (l1' & Hi1 & El & Hrs).
  { destruct (over now (tc_sock t a)) eqn:Eo.
    - destruct Hs as (k1 & k2 & Ek & Hi1 & Hr). exists l1.
      assert (forall q, (q = a -> idle now (tc_sock t q)) -> relinked (tc_sock t q) (tc_sock t1 q)) as Hr2.
      { intros q Hq. apply Hr. intros ->. destruct (Hq eq_refl). congruence. }
      by destruct (split_unique l1 a l2 k1 k2) as [-> ->]; [exact Hnd0|..].
    - destruct Hs as (Hq & Hr & Hsame & Hst). exists (l1 ++ [a]). rewrite <- app_assoc. split; [by eapply quiet_inv|]. split; [done|]. split; [|done].
      intros q Hqa. destruct (decide (q = a)) as [->|Hne]; [|rewrite Hr by done; apply relinked_refl].
      rewrite Hsame by (by apply Hqa). apply relinked_refl. }
  destruct Hrs as [Hr Hst]. destruct (IH l1' pd t1 Hi1) as (t' & E & Hi' & Hr' & Hst'). exists t'. split; [exact E|]. split; [|split].
  - assert (live_sockets now t1 l2 = filter (fun p => over now (tc_sock t p) = false) l2) as Ef.
    { apply filter_ext_elem. intros q Hq. rewrite (over_relinked now (tc_sock t q)); [done|]. apply Hr. by intros ->. }
    rewrite Ef in Hi'. subst l1'. destruct (over now (tc_sock t a)); case_decide; try done. by rewrite <- app_assoc in Hi'.
  - intros q Hq. assert (relinked (tc_sock t q) (tc_sock t1 q)) as Hq1 by (apply Hr; intros ->; apply Hq; left).
    eapply relinked_trans; [exact Hq1|]. apply Hr'. intros Hql. eapply idle_relinked; [exact Hq1|]. apply Hq. by right.
  - intros q Hq. destruct (decide (q = a)) as [->|Hne].
    + rewrite Hst'; [apply Hst, Hq; left|]. by intros Hql.
    + assert (relinked (tc_sock t q) (tc_sock t1 q)) as Hq1 by (by apply Hr).
      rewrite Hst'; [by destruct Hq1 as (n & v & ->)|]. intros Hql. rewrite (over_relinked _ _ _ Hq1). apply Hq. by right.
Qed.

Lemma tick_ok t l pd : tcp_inv t l pd ->
  let t' := tcp_timer_tick hw_result fresh t in
  tcp_inv t' (live_sockets (now32 t) t l) pd /\
  (forall q, (q ∈ l -> idle (now32 t) (tc_sock t q)) -> relinked (tc_sock t q) (tc_sock t' q)) /\
  (forall q, (q ∈ l -> over (now32 t) (tc_sock t q) = false) -> sk_state (tc_sock t' q) = sk_state (tc_sock t q)).
Proof.
  intros Hi. cbv zeta. unfold tcp_timer_tick. destruct (tick_loop (now32 t) l [] pd t Hi) as (t' & E & Hi' & Hr & Hst).
  pose proof (ti_linked _ _ _ Hi) as Hl. pose proof (blocks_nodup_list _ _ _ (ti_nodup _ _ _ Hi)) as Hnd.
  assert (tcp_socket_list t = default NULL (head l)) as ->.
  { destruct l as [|a l]; [exact Hl|]. by destruct Hl as (-> & _). }
  pose proof (linked_length l (linked_addresses _ _ _ _ _ Hl) Hnd) as Hlen.
  unfold tick_round in E. rewrite (while_pos_enough _ ADDRESSES _ _ _ E) by lia. done.
Qed.

(** C38: A timer tick ends exactly the sockets whose time is over: the list afterwards is
    the list before, in the same order, without the sockets that were in TIME_WAIT for a
    minute or whose last connection attempt is due; every other socket for which nothing
    is due is unchanged but for its links, and the data structures are intact, although
    the loop frees sockets of the list it walks. *)
Theorem tcp_timer_ends_expired t l pd :
  tcp_inv t l pd ->
  let t' := tcp_timer_tick hw_result fresh t in
  tcp_inv t' (filter (fun p => over (now32 t) (tc_sock t p) = false) l) pd /\
  forall q, (q ∈ l -> idle (now32 t) (tc_sock t q)) -> relinked (tc_sock t q) (tc_sock t' q).
Proof. intros Hi. destruct (tick_ok t l pd Hi) as (H1' & H2' & _). by split. Qed.
End Timer.

(** ** Runs of TCP (net/tcp/tcp.c)

    Any run of calls by the layers above, of segments from the network and of timer
    ticks, from [tcp_init] on. *)

Section Run.
Context {H : Type} `{KernelHeapLaws H} (hw_result : list Z -> Z) (fresh : Z -> Z).
Implicit Types t : tcp H.

Inductive tcp_step : tcp H -> tcp H -> Prop :=
| run_create t : tcp_step t (fst (tcp_socket_create fresh t))
| run_destroy t p : is_socket t p -> tcp_step t (tcp_socket_destroy p t)
| run_bind t p port : is_socket t p -> tcp_step t (fst (tcp_bind p port t))
| run_listen t p backlog : is_socket t p -> tcp_step t (fst (tcp_listen p backlog t))
| run_accept t p : is_socket t p -> tcp_step t (fst (tcp_accept hw_result fresh p t))
| run_connect t p ip port : is_socket t p -> tcp_step t (fst (tcp_connect hw_result fresh p ip port t))
| run_send t p data : is_socket t p -> tcp_step t (fst (tcp_send hw_result fresh p data t))
| run_recv t p buf len : is_socket t p -> 0 <= len -> tcp_step t (fst (fst (tcp_recv p buf len t)))
| run_close t p : is_socket t p -> tcp_step t (fst (tcp_close hw_result fresh p t))
| run_abort t p : is_socket t p -> tcp_step t (tcp_abort hw_result fresh p t)
| run_nonblock t p b : is_socket t p -> tcp_step t (tcp_set_nonblock p b t)
| run_receive t packet len src dst :
    len < 2 ^ 62 -> tcp_step t (fst (tcp_receive hw_result fresh packet len src dst t))
| run_tick t : tcp_step t (tcp_timer_tick hw_result fresh t)
(** The clock, the lower layers and other users of the heap, who leave TCP's blocks alone. *)
| run_other t time n h :
    kh_wf h -> (forall l pd b, tcp_inv t l pd -> b ∈ blocks t l pd -> kh_live h b) ->
    tcp_step t (mk_tcp (tc_sock t) (tc_pending t) (tcp_socket_list t) (tcp_next_ephemeral_port t) (tcp_isn_counter t)
                  (tcp_stats t) time n h).

Lemma intact_init t : kh_wf (tc_heap t) -> intact (tcp_init t).
Proof.
  intros Hw. exists [], (fun _ => []). split; [done|apply NoDup_nil_2|by apply Forall_nil|done|].
  intros p Hp. by apply not_elem_of_nil in Hp.
Qed.

Lemma intact_step t t' : tcp_step t t' -> intact t -> intact t'.
Proof.
  intros Hs Hi. destruct Hs.
  - by apply intact_create.
  - by apply intact_destroy.
  - eapply intact_quiet; [exact Hi|apply quiet_bind].
  - by apply intact_listen.
  - by apply intact_accept.
  - eapply intact_quiet; [exact Hi|apply quiet_connect].
  - destruct (socket_sizes t p Hi) as [Hz Hr]; [done|]. eapply intact_quiet; [exact Hi|by apply quiet_tcp_send].
  - eapply intact_quiet; [exact Hi|by apply quiet_recv].
  - by apply intact_tcp_close.
  - by apply intact_abort.
  - eapply intact_quiet; [exact Hi|apply quiet_nonblock].
  - by apply intact_receive.
  - destruct Hi as (l & pd & Hi). destruct (tick_ok hw_result fresh t l pd Hi) as [Hi' _]. by eexists _, _.
  - destruct Hi as (l & pd & Hi). exists l, pd. eapply inv_frame; [exact Hi|done..|]. intros b Hb. eauto.
Qed.

End Run.
