(* ===== verification/TcpStates.v ===== *)
(** * The state machine of TCP (net/tcp/tcp.c)

    What a segment does to the state of its socket, and that every step of a run moves
    the state of a socket along an arc of the diagram of RFC 793 or not at all. *)
From S2P Require Import Prelude Memory Ring Netbuf Net Chain Tcp TcpRing TcpInv TcpLife TcpSafe.

(** The state a segment without RST leaves a socket in: [acked] says that the
    acknowledgment number is the next number the socket would send. *)
Definition next_state (st : tcp_state) (flags : Z) (acked : bool) : tcp_state :=
  let syn := flag_on flags TCP_FLAG_SYN in
  let ack := flag_on flags TCP_FLAG_ACK in
  let fin := flag_on flags TCP_FLAG_FIN in
  match st with
  | TCP_STATE_SYN_SENT =>
      if syn && ack then if acked then TCP_STATE_ESTABLISHED else TCP_STATE_SYN_SENT
      else if syn then TCP_STATE_SYN_RECEIVED else TCP_STATE_SYN_SENT
  | TCP_STATE_SYN_RECEIVED => if ack && acked then TCP_STATE_ESTABLISHED else TCP_STATE_SYN_RECEIVED
  | TCP_STATE_ESTABLISHED => if fin then TCP_STATE_CLOSE_WAIT else TCP_STATE_ESTABLISHED
  | TCP_STATE_FIN_WAIT_1 =>
      if ack && acked then if fin then TCP_STATE_TIME_WAIT else TCP_STATE_FIN_WAIT_2
      else if fin then TCP_STATE_CLOSING else TCP_STATE_FIN_WAIT_1
  | TCP_STATE_FIN_WAIT_2 => if fin then TCP_STATE_TIME_WAIT else TCP_STATE_FIN_WAIT_2
  | TCP_STATE_CLOSING => if ack && acked then TCP_STATE_TIME_WAIT else TCP_STATE_CLOSING
  | TCP_STATE_LAST_ACK => if ack && acked then TCP_STATE_CLOSED else TCP_STATE_LAST_ACK
  | _ => st
  end.

(** The arcs of the diagram between states of one connection. The last one is the reset;
    FIN_WAIT_1 to TIME_WAIT is the acknowledgment and the FIN of the peer in one segment. *)
Inductive arc : tcp_state -> tcp_state -> Prop :=
| arc_passive_open : arc TCP_STATE_CLOSED TCP_STATE_LISTEN
| arc_active_open : arc TCP_STATE_CLOSED TCP_STATE_SYN_SENT
| arc_syn_ack : arc TCP_STATE_SYN_SENT TCP_STATE_ESTABLISHED
| arc_simultaneous : arc TCP_STATE_SYN_SENT TCP_STATE_SYN_RECEIVED
| arc_ack_of_syn : arc TCP_STATE_SYN_RECEIVED TCP_STATE_ESTABLISHED
| arc_close_early : arc TCP_STATE_SYN_RECEIVED TCP_STATE_FIN_WAIT_1
| arc_close : arc TCP_STATE_ESTABLISHED TCP_STATE_FIN_WAIT_1
| arc_fin : arc TCP_STATE_ESTABLISHED TCP_STATE_CLOSE_WAIT
| arc_ack_of_fin : arc TCP_STATE_FIN_WAIT_1 TCP_STATE_FIN_WAIT_2
| arc_fin_first : arc TCP_STATE_FIN_WAIT_1 TCP_STATE_CLOSING
| arc_fin_ack : arc TCP_STATE_FIN_WAIT_1 TCP_STATE_TIME_WAIT
| arc_fin_second : arc TCP_STATE_FIN_WAIT_2 TCP_STATE_TIME_WAIT
| arc_ack_closing : arc TCP_STATE_CLOSING TCP_STATE_TIME_WAIT
| arc_last_close : arc TCP_STATE_CLOSE_WAIT TCP_STATE_LAST_ACK
| arc_last_ack : arc TCP_STATE_LAST_ACK TCP_STATE_CLOSED
| arc_reset st : st <> TCP_STATE_LISTEN -> arc st TCP_STATE_CLOSED.

Definition may_move (a b : tcp_state) : Prop := a = b \/ arc a b.
Create HintDb arc.
#[export] Hint Constructors arc : arc.
#[export] Hint Unfold may_move : arc.

Lemma next_state_moves st fl a : may_move st (next_state st fl a).
Proof.
  unfold next_state. destruct st; try (by left); repeat match goal with |- context [if ?b then _ else _] => destruct b end;
    (by left) || (right; constructor).
Qed.

Section States.
Context {H : Type} `{KernelHeapLaws H} (hw_result : list Z -> Z) (fresh : Z -> Z).
Implicit Types t : tcp H.

Definition st t (p : Z) : tcp_state := sk_state (tc_sock t p).

Lemma st_on_sock p f t : st (on_sock p f t) p = sk_state (f (tc_sock t p)).
Proof. unfold st. by rewrite on_sock_at, Z.eqb_refl. Qed.
Lemma st_send p fl l t q : st (fst (tcp_send_segment hw_result fresh p fl l t)) q = st t q.
Proof. apply send_segment_state. Qed.
Lemma st_set_state p s t : st (tcp_set_state p s t) p = s.
Proof. apply set_state_state. Qed.
Lemma st_stats f t p : st (on_stats f t) p = st t p.
Proof. done. Qed.
Lemma st_time_wait p t : st (enter_time_wait p t) p = TCP_STATE_TIME_WAIT.
Proof. unfold enter_time_wait. rewrite st_on_sock. simpl. apply st_set_state. Qed.

Lemma set_state_other p s t q : q <> p -> tc_sock (tcp_set_state p s t) q = tc_sock t q.
Proof. intros Hq. unfold tcp_set_state. destruct (in_state _ _); [done|]. by rewrite on_sock_at, (proj2 (Z.eqb_neq q p)). Qed.
Lemma on_sock_other p f t q : q <> p -> tc_sock (on_sock p f t) q = tc_sock t q.
Proof. intros Hq. by rewrite on_sock_at, (proj2 (Z.eqb_neq q p)). Qed.
Lemma on_stats_other f t q : tc_sock (on_stats f t) q = tc_sock t q.
Proof. done. Qed.
Lemma time_wait_other p t q : q <> p -> tc_sock (enter_time_wait p t) q = tc_sock t q.
Proof. intros Hq. unfold enter_time_wait. by rewrite on_sock_other, set_state_other. Qed.

Lemma take_data_st p g t : st (take_data hw_result fresh p g t) p = st t p.
Proof.
  unfold take_data. case_if; [|apply st_send]. destruct (ring_buffer_write _ _) as [b n].
  unfold send_ack. rewrite st_send, st_stats, st_on_sock. done.
Qed.
Lemma take_data_other p g t q : q <> p -> tc_sock (take_data hw_result fresh p g t) q = tc_sock t q.
Proof.
  intros Hq. unfold take_data, send_ack. case_if; [|by apply send_segment_other].
  destruct (ring_buffer_write _ _) as [b n]. by rewrite send_segment_other, on_stats_other, on_sock_other.
Qed.

Lemma land_pow2 x k : 0 <= k -> Z.land x (2 ^ k) = if Z.testbit x k then 2 ^ k else 0.
Proof.
  intros Hk. apply Z.bits_inj'. intros i Hi. rewrite Z.land_spec. destruct (Z.eq_dec k i) as [->|Hne].
  - rewrite Z.pow2_bits_true, andb_true_r by lia. destruct (Z.testbit x i); [by rewrite Z.pow2_bits_true by lia|by rewrite Z.bits_0].
  - rewrite Z.pow2_bits_false, andb_false_r by done. destruct (Z.testbit x k); [by rewrite Z.pow2_bits_false|by rewrite Z.bits_0].
Qed.
Lemma syn_ack_flags fl : (Z.land fl (Z.lor TCP_FLAG_SYN TCP_FLAG_ACK) =? Z.lor TCP_FLAG_SYN TCP_FLAG_ACK)
  = flag_on fl TCP_FLAG_SYN && flag_on fl TCP_FLAG_ACK.
Proof.
  unfold flag_on. rewrite Z.land_lor_distr_r. change TCP_FLAG_SYN with (2 ^ 1). change TCP_FLAG_ACK with (2 ^ 4).
  rewrite !land_pow2 by lia. by destruct (Z.testbit fl 1), (Z.testbit fl 4).
Qed.

(** ** One segment *)

Definition acked t (p : Z) (g : tcp_segment) : bool := sg_ack g =? sk_snd_nxt (tc_sock t p).

Lemma st_keep p f t : (forall s, sk_state (f s) = sk_state s) -> st (on_sock p f t) p = st t p.
Proof. intros Hf. by rewrite st_on_sock, Hf. Qed.
Ltac st_steps :=
  cbv zeta; cbn [negb]; repeat first [rewrite st_send|rewrite st_stats|rewrite st_time_wait|rewrite st_set_state|rewrite st_keep by done].

Lemma dispatch_state p g t : st t p <> TCP_STATE_LISTEN -> st t p <> TCP_STATE_LAST_ACK ->
  st (tcp_dispatch hw_result fresh p g t) p = next_state (st t p) (sg_flags g) (acked t p g).
Proof.
  intros Hl Ha. unfold tcp_dispatch. fold (st t p). unfold acked, answer_rst, send_ack. destruct (st t p) eqn:Est; try done; unfold next_state.
  - by destruct (negb _).
  - unfold rcv_syn_sent. rewrite syn_ack_flags. destruct (_ && _); [|destruct (flag_on _ _); st_steps; done].
    destruct (sg_ack g =? _); [|done]. unfold send_ack. by st_steps.
  - unfold rcv_syn_received. destruct (_ && _); [|done]. by st_steps.
  - unfold rcv_established. set (t1 := if flag_on (sg_flags g) TCP_FLAG_ACK then _ else _).
    assert (st t1 p = TCP_STATE_ESTABLISHED) as E1.
    { unfold t1. destruct (flag_on _ _); [|done]. rewrite st_on_sock. unfold take_ack. by destruct (_ && _). }
    set (t2 := if 0 <? _ then _ else _). assert (st t2 p = TCP_STATE_ESTABLISHED) as E2.
    { unfold t2. destruct (0 <? _); [|done]. by rewrite take_data_st. }
    unfold send_ack. destruct (flag_on _ TCP_FLAG_FIN); [|done]. by st_steps.
  - unfold rcv_fin_wait_1. destruct (_ && _), (flag_on _ TCP_FLAG_FIN); unfold send_ack, take_fin; fold (st t p).
    + set (t1 := fst _). assert (st t1 p = TCP_STATE_FIN_WAIT_2) as E1.
      { unfold t1. by st_steps. }
      unfold st in E1. rewrite E1. cbn. apply st_time_wait.
    + apply st_set_state.
    + set (t1 := fst _). assert (st t1 p = TCP_STATE_FIN_WAIT_1) as E1 by (unfold t1; by st_steps).
      unfold st in E1. rewrite E1. cbn. apply st_set_state.
    + done.
  - unfold rcv_fin_wait_2, send_ack. destruct (flag_on _ _); [|done]. by st_steps.
  - destruct (flag_on _ _); [|done]. by st_steps.
  - unfold rcv_closing. destruct (_ && _); [|done]. by st_steps.
  - destruct (flag_on _ _); [|done]. by st_steps.
Qed.

Lemma dispatch_other p g t q : st t p <> TCP_STATE_LISTEN -> st t p <> TCP_STATE_LAST_ACK -> q <> p ->
  tc_sock (tcp_dispatch hw_result fresh p g t) q = tc_sock t q.
Proof.
  intros Hl Ha Hq. unfold tcp_dispatch. fold (st t p).
  unfold rcv_syn_sent, rcv_syn_received, rcv_established, rcv_fin_wait_1, rcv_fin_wait_2, rcv_closing, answer_rst, send_ack, take_fin.
  destruct (st t p); try done;
    repeat (match goal with
      | |- context [if ?b then _ else _] => destruct b
      end; rewrite ?send_segment_other, ?on_stats_other, ?time_wait_other, ?set_state_other, ?on_sock_other, ?take_data_other by done);
    rewrite ?send_segment_other, ?on_stats_other, ?time_wait_other, ?set_state_other, ?on_sock_other, ?take_data_other by done; done.
Qed.

(** The socket a segment is for. *)
Definition receiver (g : tcp_segment) t : Z :=
  let p := tcp_find_socket (sg_dst_ip g) (sg_dst_port g) (sg_src_ip g) (sg_src_port g) t in
  if p =? NULL then tcp_find_listener (sg_dst_port g) t else p.

Lemma receiver_socket g t : intact t -> receiver g t <> NULL -> is_socket t (receiver g t).
Proof.
  intros Hi. unfold receiver, tcp_find_socket, tcp_find_listener. case_if; intros Hn; by eapply intact_find.
Qed.

Lemma destroyed_gone p bs l1 l2 pd t t' : NoDup (l1 ++ p :: l2) -> destroyed p bs l1 l2 pd t t' -> ~ is_socket t' p.
Proof.
  intros Hnd [D1 _ _ _] Hs. apply (is_socket_in _ _ _ _ D1) in Hs. apply NoDup_app in Hnd as (_ & Hd & [Hni _]%NoDup_cons).
  apply elem_of_app in Hs as [Hs|Hs]; [|done]. apply (Hd p Hs). left.
Qed.
(** After a destruction the socket is none any more and the states of the others are the same. *)
Lemma close_destroy_states p t : intact t -> is_socket t p ->
  let t' := tcp_socket_destroy p (tcp_set_state p TCP_STATE_CLOSED t) in
  ~ is_socket t' p /\ forall q, q <> p -> st t' q = st t q.
Proof.
  intros (l & pd & Hi) Hp t'. destruct (close_destroy_inv p t l pd Hi) as (l1 & l2 & -> & Hd); [by eapply is_socket_in|].
  split; [eapply destroyed_gone; [|exact Hd]; apply (blocks_nodup_list _ _ _ (ti_nodup _ _ _ Hi))|].
  intros q Hq. destruct (de_others _ _ _ _ _ _ _ Hd q Hq) as (n & v & E). unfold st, t'. by rewrite E.
Qed.
Lemma destroy_states p t : intact t -> is_socket t p ->
  ~ is_socket (tcp_socket_destroy p t) p /\ forall q, q <> p -> st (tcp_socket_destroy p t) q = st t q.
Proof.
  intros (l & pd & Hi) Hp. destruct (destroy_inv p t l pd Hi) as (l1 & l2 & -> & Hd); [by eapply is_socket_in|].
  split; [eapply destroyed_gone; [|exact Hd]; apply (blocks_nodup_list _ _ _ (ti_nodup _ _ _ Hi))|].
  intros q Hq. destruct (de_others _ _ _ _ _ _ _ Hd q Hq) as (n & v & E). unfold st. by rewrite E.
Qed.

Lemma rcv_listen_states p g t q : st (rcv_listen p g t) q = st t q.
Proof.
  unfold rcv_listen. destruct (flag_on _ _); [|done]. destruct (_ <=? _); [done|]. destruct (kh_malloc _ _) as [h c].
  case_if; [done|]. unfold st. rewrite on_sock_at. case_if; [by subst|done].
Qed.

(** What a delivered segment does to the states. *)
Lemma deliver_states g t : intact t -> 0 <= sg_window g -> short (sg_data g) ->
  let p := receiver g t in
  let t' := fst (tcp_deliver hw_result fresh g t) in
  (forall q, q <> p -> st t' q = st t q) /\
  (p <> NULL ->
   if flag_on (sg_flags g) TCP_FLAG_RST
   then st t' p = if in_state (st t p) TCP_STATE_LISTEN then TCP_STATE_LISTEN else TCP_STATE_CLOSED
   else if in_state (st t p) TCP_STATE_LAST_ACK && flag_on (sg_flags g) TCP_FLAG_ACK && acked t p g
   then ~ is_socket t' p
   else st t' p = next_state (st t p) (sg_flags g) (acked t p g)).
Proof.
  intros Hi Hw Hd p t'. unfold t', tcp_deliver. fold (receiver g t). fold p. cbv zeta.
  destruct (Z.eqb_spec p NULL) as [Hp|Hp].
  { split; [|done]. intros q _. cbn [fst]. destruct (negb _); [|done]. by destruct (flag_on _ _). }
  pose proof (receiver_socket g t Hi Hp) as Hs. destruct (flag_on (sg_flags g) TCP_FLAG_RST); cbn [fst].
  { fold (st t p). unfold in_state. case_bool_decide as El; cbn [negb].
    - by split.
    - split; [|by intros _; apply st_set_state]. intros q Hq. unfold st. by rewrite set_state_other. }
  destruct (decide (st t p = TCP_STATE_LISTEN)) as [El|El].
  { unfold tcp_dispatch. fold (st t p). rewrite El. split; [intros; apply rcv_listen_states|]. intros _. rewrite rcv_listen_states.
    cbn. by rewrite El. }
  destruct (decide (st t p = TCP_STATE_LAST_ACK)) as [Ea|Ea].
  { unfold tcp_dispatch. fold (st t p). rewrite Ea. unfold rcv_last_ack. fold (acked t p g).
    change (in_state TCP_STATE_LAST_ACK TCP_STATE_LAST_ACK) with true. cbn [andb next_state].
    destruct (flag_on _ _ && _); [|by split]. destruct (close_destroy_states p t Hi Hs) as [H1' H2']. by split. }
  split; [intros q Hq; unfold st; by rewrite dispatch_other|]. intros _.
  replace (in_state (st t p) TCP_STATE_LAST_ACK) with false; [by apply dispatch_state|].
  symmetry. by apply bool_decide_eq_false_2.
Qed.

(** ** The calls *)

Lemma create_states t q : intact t -> is_socket t q -> st (fst (tcp_socket_create fresh t)) q = st t q.
Proof.
  intros (l & pd & Hi) Hq. pose proof (is_socket_in _ _ _ _ Hi Hq) as Hql. pose proof (ti_live _ _ _ Hi) as HF.
  rewrite Forall_forall in HF. assert (kh_live (tc_heap t) q) as Hlq by (apply HF; eapply blocks_elem; [exact Hql|left]).
  pose proof (sock_create_spec fresh t l pd Hi) as Hc. destruct (tcp_socket_create fresh t) as [t' p]. cbn [fst]. unfold st.
  destruct Hc as [[_ [_ C2 _ _]]|[_ C2 _ _ C5 _]]; [by rewrite C2|]. destruct (C5 q) as (n & v & ->); [by intros ->|done].
Qed.

Lemma ephemeral_sock t : tc_sock (fst (tcp_alloc_ephemeral_port t)) = tc_sock t.
Proof.
  unfold tcp_alloc_ephemeral_port.
  pose proof (while_pos_ind (fun t1 => tc_sock t1 = tc_sock t) (fun r => tc_sock (fst r) = tc_sock t)
    (ephemeral_round (tcp_next_ephemeral_port t)) 65536 t) as Hw.
  destruct (while_pos _ _ _) as [t'|[t' c]]; apply Hw; try done.
  all: intros s Hs; unfold ephemeral_round; destruct (negb (negb _)); [done|]; by destruct (_ =? _).
Qed.
Lemma bind_states p port t q : st (fst (tcp_bind p port t)) q = st t q.
Proof.
  unfold tcp_bind. case_if; [done|]. destruct (bound _); [done|]. case_if.
  - pose proof (ephemeral_sock t) as He. destruct (tcp_alloc_ephemeral_port t) as [t1 c]. simpl in He.
    case_if; cbn [fst]; unfold st; [by rewrite He|]. rewrite on_sock_at, He. case_if; [by subst|done].
  - destruct (port_taken _ _ _); [done|]. cbn [fst]. unfold st. rewrite on_sock_at. case_if; [by subst|done].
Qed.
Lemma st_keep_all p f t q : (forall s, sk_state (f s) = sk_state s) -> st (on_sock p f t) q = st t q.
Proof. intros Hf. unfold st. rewrite on_sock_at. case_if; [subst; apply Hf|done]. Qed.

Lemma listen_states p backlog t q : may_move (st t q) (st (fst (tcp_listen p backlog t)) q).
Proof.
  unfold tcp_listen. case_if; [by left|]. destruct (negb (bound _)); [by left|]. fold (st t p).
  unfold in_state. case_bool_decide as Es; [|by left]. cbn [negb fst]. destruct (decide (q = p)) as [->|Hq].
  - rewrite st_set_state, Es. right. constructor.
  - left. unfold st. by rewrite set_state_other, on_sock_other.
Qed.

Lemma connect_states p ip port t q : may_move (st t q) (st (fst (tcp_connect hw_result fresh p ip port t)) q).
Proof.
  unfold tcp_connect. case_if; [by left|]. fold (st t p). unfold in_state at 1. case_bool_decide as Es; [|by left]. cbn [negb].
  destruct (if bound (tc_sock t p) then (t, TCP_OK) else tcp_bind p 0 t) as [t1 r] eqn:Eb.
  assert (st t1 q = st t q) as E1.
  { destruct (bound _); [by injection Eb as <- _|]. pose proof (bind_states p 0 t q) as Hb. by rewrite Eb in Hb. }
  destruct (negb (r =? TCP_OK)); [by left; rewrite <- E1|]. cbn [tcp_generate_isn].
  match goal with |- context [tcp_send_segment ?h ?f ?p ?fl [] ?x] =>
    pose proof (st_send p fl [] x) as Hst; destruct (tcp_send_segment h f p fl [] x) as [t2 r2] end.
  cbn [fst] in Hst. destruct (decide (q = p)) as [->|Hq].
  - rewrite Es. destruct (negb (r2 =? 0)); cbn [fst]; [rewrite st_set_state; by left|].
    rewrite Hst, st_set_state. right. constructor.
  - left. transitivity (st t2 q).
    + rewrite Hst, <- E1. unfold st. rewrite set_state_other, on_sock_other by done. simpl. by rewrite upd_other.
    + destruct (negb (r2 =? 0)); cbn [fst]; [|done]. unfold st. by rewrite set_state_other.
Qed.

Lemma output_states p t q : st (tcp_output hw_result fresh p t) q = st t q.
Proof.
  unfold tcp_output. destruct (_ || _); [done|]. case_if; [done|]. case_if; [done|]. destruct (kh_malloc _ _) as [h d].
  case_if; [done|]. destruct (ring_buffer_peek _ _) as [l n]. destruct (ring_buffer_read _ _) as [[b l'] n'].
  change (st (set_theap ?h ?x) q) with (st x q). rewrite st_keep_all by done. by rewrite st_send.
Qed.
Lemma send_states p data t q : st (fst (tcp_send hw_result fresh p data t)) q = st t q.
Proof.
  unfold tcp_send. destruct data as [l|]; [|done]. case_if; [done|]. destruct (negb _); [done|]. case_if; [done|].
  destruct (ring_buffer_write _ _) as [b n]. case_if; cbn [fst]; [|rewrite output_states]; by apply st_keep_all.
Qed.
Lemma recv_states p buf len t q : st (fst (fst (tcp_recv p buf len t))) q = st t q.
Proof.
  unfold tcp_recv. destruct (_ || _); [done|]. destruct (in_state _ _); [done|]. destruct (ring_buffer_read _ _) as [[b l] n].
  repeat match goal with |- context [if ?c then _ else _] => destruct c end; cbn [fst]; by rewrite ?st_keep_all.
Qed.
Lemma nonblock_states p b t q : st (tcp_set_nonblock p b t) q = st t q.
Proof. unfold tcp_set_nonblock. case_if; [done|]. destruct b; by apply st_keep_all. Qed.

Lemma set_state_moves p s t q : (q = p -> may_move (st t p) s) -> may_move (st t q) (st (tcp_set_state p s t) q).
Proof.
  intros Hm. destruct (decide (q = p)) as [->|Hq]; [rewrite st_set_state; auto|]. left. unfold st. by rewrite set_state_other.
Qed.
Lemma close_states p t q : intact t -> is_socket t p -> is_socket (fst (tcp_close hw_result fresh p t)) q ->
  may_move (st t q) (st (fst (tcp_close hw_result fresh p t)) q).
Proof.
  intros Hi Hp. unfold tcp_close. case_if; [by left|]. fold (st t p).
  assert (forall t', (~ is_socket t' p /\ forall q, q <> p -> st t' q = st t q) -> is_socket t' q -> may_move (st t q) (st t' q)) as Hd.
  { intros t' [H1' H2'] Hq. left. symmetry. apply H2'. by intros ->. }
  destruct (st t p) eqn:Es; cbn [fst]; try (by left).
  - apply Hd. by apply destroy_states.
  - apply Hd. by apply close_destroy_states.
  - apply Hd. by apply close_destroy_states.
  - intros _. rewrite st_stats, st_send. apply set_state_moves. intros _. rewrite Es. right. constructor.
  - intros _. rewrite st_stats, st_send. apply set_state_moves. intros _. rewrite Es. right. constructor.
  - intros _. rewrite st_stats, st_send. apply set_state_moves. intros _. rewrite Es. right. constructor.
Qed.

Lemma accept_states p t q : intact t -> is_socket t q -> st (fst (tcp_accept hw_result fresh p t)) q = st t q.
Proof.
  intros Hi Hq. unfold tcp_accept. destruct (_ || _); [done|]. case_if; [done|].
  pose proof (create_states t q Hi Hq) as Hc. destruct Hi as (l & pd & Hi). pose proof (sock_create_spec fresh t l pd Hi) as Hsp.
  destruct (tcp_socket_create fresh t) as [t1 n]. cbn [fst] in Hc. case_if; [done|]. cbn [tcp_generate_isn]. cbv zeta.
  assert (q <> n) as Hne.
  { destruct Hsp as [[-> _]|[_ C2 _ _ _ _]]; [done|]. intros ->. apply C2. pose proof (ti_live _ _ _ Hi) as HF.
    rewrite Forall_forall in HF. apply HF. eapply blocks_elem; [by eapply is_socket_in|left]. }
  change (st (fst (set_theap ?h ?x, _)) q) with (st x q). rewrite st_keep_all by done. rewrite st_send.
  unfold st. rewrite set_state_other, on_sock_other by done. simpl. by rewrite upd_other.
Qed.

Lemma is_socket_same t t' q : tc_sock t' = tc_sock t -> tcp_socket_list t' = tcp_socket_list t -> is_socket t' q -> is_socket t q.
Proof. intros E1 E2 (l & Hl & Hq). exists l. unfold sock_next, sock_prev in *. by rewrite E1, E2 in Hl. Qed.

Lemma receive_states packet len src dst t q : intact t -> len < 2 ^ 62 ->
  is_socket (fst (tcp_receive hw_result fresh packet len src dst t)) q ->
  may_move (st t q) (st (fst (tcp_receive hw_result fresh packet len src dst t)) q).
Proof.
  intros Hi Hlen. unfold tcp_receive. destruct packet as [bytes|]; [|by left]. case_if; [by left|]. cbv zeta.
  destruct (_ || _); [by left|]. destruct (kh_malloc len (tc_heap t)) as [h c] eqn:Em. case_if; [by left|].
  destruct (negb _); [by left|]. set (t1 := on_stats _ _). set (g := parse_segment _ _ _).
  assert (request len) as Hr by (unfold request, TCP_HEADER_MIN_LEN in *; lia).
  assert (intact t1) as Hi1.
  { change (intact (on_stats count_seg_in (set_theap (kh_free c h) t))). eapply intact_quiet; [exact Hi|].
    apply quiet_then_stats. by eapply malloc_quiet. }
  destruct (deliver_states g t1 Hi1) as [Ho Hp]; [apply ntohs_nonneg| |].
  { unfold short. simpl. rewrite length_drop, length_take. lia. }
  intros Hq. change (st t q) with (st t1 q). set (p := receiver g t1) in *. destruct (decide (q = p)) as [Eq|Hne]; [|left; by rewrite Ho].
  rewrite Eq in *. destruct (decide (p = NULL)) as [En|Hn].
  { exfalso. by apply is_socket_address in Hq. }
  specialize (Hp Hn). destruct (flag_on _ TCP_FLAG_RST).
  - rewrite Hp. unfold in_state. case_bool_decide; [by left|right; by constructor].
  - destruct (_ && _); [done|]. rewrite Hp. apply next_state_moves.
Qed.

(** C11: TCP moves along the arcs of RFC 793: in every run, one step, be it a call, a
    segment or a timer tick, leaves the state of a socket that exists before and after it
    unchanged or moves it along one arc of the state diagram of the RFC; a reset leads to
    CLOSED, and no step leads into a state by any other way. *)
Theorem tcp_follows_rfc793 t t' p :
  intact t -> tcp_step hw_result fresh t t' -> is_socket t p -> is_socket t' p -> may_move (st t p) (st t' p).
Proof.
  intros Hi Hs Hp Hp'. destruct Hs as [t|t q Hq|t q port Hq|t q b Hq|t q Hq|t q ip port Hq|t q d Hq|t q b n Hq Hn|t q Hq|t q Hq|t q b Hq
    |t pk n si di Hn|t|t tm n h Hw Hb].
  - left. by rewrite create_states.
  - destruct (destroy_states q t Hi Hq) as [H1' H2']. left. rewrite H2'; [done|]. by intros ->.
  - left. by rewrite bind_states.
  - apply listen_states.
  - left. by rewrite accept_states.
  - apply connect_states.
  - left. by rewrite send_states.
  - left. by rewrite recv_states.
  - by apply close_states.
  - unfold tcp_abort in *. case_if; [by left|]. cbv zeta in *. set (t1 := if _ && _ then _ else _) in *.
    assert (quiet t t1) as Hqt by (unfold t1; destruct (_ && _); [apply quiet_rst|done]).
    assert (tc_sock t1 = tc_sock t) as E1 by (unfold t1; by destruct (_ && _)).
    destruct (close_destroy_states q t1) as [H1' H2']; [by eapply intact_quiet|by eapply is_socket_quiet|].
    left. rewrite H2'; [unfold st; by rewrite E1|]. by intros ->.
  - left. by rewrite nonblock_states.
  - by apply receive_states.
  - destruct Hi as (l & pd & Hi). destruct (tick_ok hw_result fresh t l pd Hi) as (Hi' & _ & Hst).
    left. unfold st. rewrite Hst; [done|]. intros _. apply (is_socket_in _ _ _ _ Hi') in Hp'.
    by apply list_elem_of_filter in Hp' as [Ho _].
  - by left.
Qed.
End States.
