(* ===== verification/TcpConn.v ===== *)
(** * Connections between two hosts (net/tcp/tcp.c)

    The three-way handshake and the transfer of data, composed from the calls of both
    sides and the segments that pass between them. *)
From S2P Require Import Prelude Memory PageAlloc Pmm Heap HeapSpec Ring Netbuf Net Checksum Packets Chain Tcp TcpRing TcpInv TcpLife TcpSafe TcpStates.

(** The sequence number after SYN and FIN. *)
Definition bump (fl : Z) (s : tcp_socket) : tcp_socket :=
  let s := if flag_on fl TCP_FLAG_SYN then set_snd_nxt (u32 (sk_snd_nxt s + 1)) s else s in
  if flag_on fl TCP_FLAG_FIN then set_snd_nxt (u32 (sk_snd_nxt s + 1)) s else s.
Definition SYN_ACK : Z := Z.lor TCP_FLAG_SYN TCP_FLAG_ACK.

Lemma lxor32_range a b : 0 <= Z.lxor (u32 a) (u32 b) < 2 ^ 32.
Proof.
  assert (Z.lxor (u32 a) (u32 b) = u32 (Z.lxor (u32 a) (u32 b))) as ->; [|apply u32_range].
  apply Z.bits_inj'. intros k Hk. unfold u32. rewrite testbit_wrap, Z.lxor_spec by lia.
  destruct (Z.ltb_spec k 32); [done|]. rewrite !testbit_wrap, (proj2 (Z.ltb_ge k 32)) by lia. done.
Qed.

Section Conn.
Context {H : Type} `{KernelHeapLaws H} (hw_result : list Z -> Z) (fresh : Z -> Z).
Implicit Types t : tcp H.

(** What sending an empty segment leaves alone. *)
Record apart_from (p : Z) t t' : Prop := mk_apart {
  ap_list : tcp_socket_list t' = tcp_socket_list t;
  ap_pending : tc_pending t' = tc_pending t;
  ap_other : forall q, q <> p -> tc_sock t' q = tc_sock t q;
  ap_isn : tcp_isn_counter t' = tcp_isn_counter t;
  ap_time : tc_time t' = tc_time t;
}.
Lemma apart_refl p t : apart_from p t t.
Proof. done. Qed.
Lemma apart_trans p t1 t2 t3 : apart_from p t1 t2 -> apart_from p t2 t3 -> apart_from p t1 t3.
Proof.
  intros [A1 A2 A3 A4 A5] [B1 B2 B3 B4 B5]. split; try congruence. intros q Hq. by rewrite B3, A3.
Qed.
Lemma apart_on_sock p f t : apart_from p t (on_sock p f t).
Proof. split; try done. intros q Hq. by rewrite on_sock_other. Qed.
Lemma apart_state p s t : apart_from p t (tcp_set_state p s t).
Proof. unfold tcp_set_state. destruct (in_state _ _); [done|]. apply apart_on_sock. Qed.

(** The segment that was handed to [ip_send], unless there was no memory for it. *)
Definition handed t t' (r ip : Z) (seg : list Z) : Prop :=
  (r = TCP_ERR_NOMEM /\ tc_net t' = tc_net t) \/
  (tc_net t', r) = ip_send hw_result fresh ip IP_PROTO_TCP (Some seg) TCP_HEADER_MIN_LEN (tc_net t).

Lemma send_empty p fl t t' r : tcp_send_segment hw_result fresh p fl [] t = (t', r) ->
  apart_from p t t' /\ tc_sock t' p = (if r =? 0 then bump fl (tc_sock t p) else tc_sock t p) /\
  handed t t' r (sk_remote_ip (tc_sock t p)) (segment_of (tc_sock t p) fl [] t).
Proof.
  unfold tcp_send_segment. destruct (kh_malloc _ _) as [h c]. destruct (c =? NULL).
  { intros E. injection E as <- <-. split; [done|]. split; [done|]. by left. }
  change (TCP_HEADER_MIN_LEN + Z.of_nat (length [])) with TCP_HEADER_MIN_LEN. cbn [tc_sock set_theap tc_net].
  change (segment_of (tc_sock t p) fl [] (set_theap h t)) with (segment_of (tc_sock t p) fl [] t).
  destruct (ip_send _ _ _ _ _ _ _) as [n r'] eqn:Ei. destruct (r' =? 0) eqn:Er; intros E; injection E as <- <-; rewrite Er.
  - unfold bump. destruct (flag_on fl TCP_FLAG_SYN), (flag_on fl TCP_FLAG_FIN); (split; [split; try done|]); try done;
      try (intros q Hq; simpl; by rewrite ?upd_other by done); (split; [simpl; by rewrite ?upd_same|]); right; by rewrite Ei.
  - split; [done|]. split; [done|]. right. by rewrite Ei.
Qed.
Lemma bump_ack s : bump TCP_FLAG_ACK s = s.
Proof. done. Qed.

(** ** The receiver of a segment *)

Lemma receiver_same g t t' : tc_sock t' = tc_sock t -> tcp_socket_list t' = tcp_socket_list t -> receiver g t' = receiver g t.
Proof. intros E1 E2. unfold receiver, tcp_find_socket, tcp_find_listener, sock_next. by rewrite E1, E2. Qed.

Lemma first_of_unique test l a : a ∈ l -> a <> NULL -> test a = true -> (forall b, b ∈ l -> b <> a -> test b = false) ->
  first_of test l = a.
Proof.
  induction l as [|x l IH]; intros Ha Hn Ht Ho; [by apply not_elem_of_nil in Ha|]. rewrite first_of_cons.
  destruct (decide (x = a)) as [->|Hx]; [by rewrite Ht|]. rewrite (Ho x) by (done || left).
  apply IH; try done; [|intros b Hb; apply Ho; by right]. by apply elem_of_cons in Ha as [->|Ha].
Qed.

Lemma receiver_unique g t l pd a : tcp_inv t l pd -> a ∈ l ->
  matches (sg_dst_ip g) (sg_dst_port g) (sg_src_ip g) (sg_src_port g) (tc_sock t a) = true ->
  (forall b, b ∈ l -> b <> a -> sk_local_port (tc_sock t b) <> sg_dst_port g) -> receiver g t = a.
Proof.
  intros Hi Ha Hm Ho. unfold receiver, tcp_find_socket.
  pose proof (blocks_nodup_list _ _ _ (ti_nodup _ _ _ Hi)) as Hnd.
  assert (a <> NULL) as Hn by (apply (is_socket_address t); exists l; split; [apply Hi|done]).
  rewrite (find_linked_first _ _ _ _ _ _ (ti_linked _ _ _ Hi) Hnd), (first_of_unique _ l a) by
    (try done; intros b Hb Hne; unfold matches; by rewrite (proj2 (Z.eqb_neq _ _) (Ho b Hb Hne))).
  by rewrite (proj2 (Z.eqb_neq a NULL)).
Qed.

(** A segment that was built and whose delivery returned 0 went to its socket. *)
Lemma receive_delivered src dst sp dp sq ak fl w data t t' :
  fields_ok src dst sp dp sq ak fl w data ->
  let seg := build_segment src dst sp dp sq ak fl w data in
  let g := mk_segment src dst sp dp sq ak fl w data in
  tcp_receive hw_result fresh (Some seg) (Z.of_nat (length seg)) src dst t = (t', 0) ->
  exists t1, same_connections t t1 /\ tc_time t1 = tc_time t /\ quiet t t1 /\ receiver g t <> NULL /\
    t' = fst (tcp_deliver hw_result fresh g t1).
Proof.
  intros Hf seg g E. set (len := Z.of_nat (length seg)) in *.
  assert (request len) as Hr.
  { unfold len, seg. rewrite build_length. pose proof (fo_len _ _ _ _ _ _ _ _ _ Hf). unfold request, SEGMENT_MAX, TCP_HEADER_MIN_LEN in *. lia. }
  destruct (decide (snd (kh_malloc len (tc_heap t)) = NULL)) as [Hc|Hc].
  - exfalso. unfold tcp_receive in E. destruct (_ <? _); [done|]. cbv zeta in E. destruct (_ || _); [done|].
    destruct (kh_malloc len (tc_heap t)) as [h c]. simpl in Hc. subst c. rewrite Z.eqb_refl in E. done.
  - assert (tcp_deliver hw_result fresh g (on_stats count_seg_in (after_check len t)) = (t', 0)) as E'
      by (rewrite <- E; symmetry; by apply tcp_receive_built).
    set (t1 := on_stats _ _) in *. exists t1.
    assert (same_connections t t1 /\ tc_time t1 = tc_time t) as [Hs1 Hs2] by (unfold t1, after_check; by destruct (kh_malloc _ _)).
    split; [done|]. split; [done|].
    split. { unfold t1, after_check. destruct (kh_malloc len (tc_heap t)) as [h c] eqn:Em. apply quiet_then_stats. by eapply malloc_quiet. }
    split; [|by rewrite E'].
    destruct Hs1 as (S1 & _ & S2 & _). rewrite <- (receiver_same g t t1) by done. intros Hn.
    unfold tcp_deliver in E'. fold (receiver g t1) in E'. rewrite Hn, Z.eqb_refl in E'. done.
Qed.

(** ** The steps of the handshake *)

Record syn_sent (a ip port : Z) t t' : Prop := mk_syn_sent {
  ss_state : st t' a = TCP_STATE_SYN_SENT;
  ss_iss : 0 <= sk_iss (tc_sock t' a) < 2 ^ 32;
  ss_nxt : sk_snd_nxt (tc_sock t' a) = u32 (sk_iss (tc_sock t' a) + 1);
  ss_remote : sk_remote_ip (tc_sock t' a) = ip /\ sk_remote_port (tc_sock t' a) = port;
  ss_local : sk_local_ip (tc_sock t' a) = sk_local_ip (tc_sock t a) /\ sk_local_port (tc_sock t' a) = sk_local_port (tc_sock t a);
  ss_recv : sk_rcv_nxt (tc_sock t' a) = sk_rcv_nxt (tc_sock t a) /\ sk_rcv_wnd (tc_sock t' a) = sk_rcv_wnd (tc_sock t a);
  ss_other : forall q, q <> a -> tc_sock t' q = tc_sock t q;
  ss_quiet : quiet t t';
  ss_wire : handed t t' 0 ip (build_segment (source_ip (sk_local_ip (tc_sock t a)) t) ip (sk_local_port (tc_sock t a)) port
              (sk_iss (tc_sock t' a)) (sk_rcv_nxt (tc_sock t a)) TCP_FLAG_SYN (u16 (sk_rcv_wnd (tc_sock t a))) []);
}.
Lemma connect_ok a ip port t t' : bound (tc_sock t a) = true ->
  tcp_connect hw_result fresh a ip port t = (t', TCP_OK) -> syn_sent a ip port t t'.
Proof.
  intros Hb E. pose proof (quiet_connect hw_result fresh a ip port t) as Hq. rewrite E in Hq. cbn [fst] in Hq.
  unfold tcp_connect in E. destruct (a =? NULL); [done|]. destruct (negb _); [done|]. rewrite Hb in E. cbn [tcp_generate_isn negb Z.eqb TCP_OK] in E.
  destruct (tcp_send_segment _ _ _ _ _ _) as [t1 r] eqn:Es in E. apply send_empty in Es as ([A1 A2 A3 A4 A5] & Ea & Ew).
  destruct (r =? 0) eqn:Er; cbn [negb] in E; [|apply (f_equal snd) in E; simpl in E; unfold TCP_OK in E; subst r; done].
  injection E as <-. set (isn := Z.lxor _ _) in *.
  assert (tc_sock t1 a = set_snd_nxt (u32 (isn + 1)) (set_sk_state TCP_STATE_SYN_SENT (now32 t)
            (set_iss isn isn isn (set_remote port ip (tc_sock t a)))) \/ st t a = TCP_STATE_SYN_SENT /\
          tc_sock t1 a = set_snd_nxt (u32 (isn + 1)) (set_iss isn isn isn (set_remote port ip (tc_sock t a)))) as Es.
  { rewrite Ea. unfold tcp_set_state. simpl. rewrite !upd_same. simpl. destruct (in_state _ _) eqn:Ei; simpl; rewrite !upd_same; [right|by left].
    split; [|done]. unfold in_state in Ei. by apply bool_decide_eq_true in Ei. }
  assert (forall q, q <> a -> tc_sock t1 q = tc_sock t q) as Ho.
  { intros q Hne. rewrite A3 by done. rewrite set_state_other, on_sock_other by done. simpl. by rewrite upd_other. }
  assert (0 <= isn < 2 ^ 32) as Hisn by apply lxor32_range.
  assert (handed t t1 0 ip (build_segment (source_ip (sk_local_ip (tc_sock t a)) t) ip (sk_local_port (tc_sock t a)) port
            isn (sk_rcv_nxt (tc_sock t a)) TCP_FLAG_SYN (u16 (sk_rcv_wnd (tc_sock t a))) [])) as Hw.
  { apply Z.eqb_eq in Er. subst r. unfold tcp_set_state in Ew. simpl in Ew. rewrite !upd_same in Ew. simpl in Ew.
    destruct (in_state _ _); simpl in Ew; rewrite !upd_same in Ew; exact Ew. }
  assert (forall P : tcp_socket -> Prop,
            (forall s0 now, P (set_snd_nxt (u32 (isn + 1)) (set_sk_state s0 now (set_iss isn isn isn (set_remote port ip (tc_sock t a)))))) ->
            P (set_snd_nxt (u32 (isn + 1)) (set_iss isn isn isn (set_remote port ip (tc_sock t a)))) -> P (tc_sock t1 a)) as HP.
  { intros P P1 P2. destruct Es as [->|[_ ->]]; auto. }
  split; [..|done|done|].
  - unfold st. destruct Es as [->|[Est ->]]; [done|exact Est].
  - by apply (HP (fun s => 0 <= sk_iss s < 2 ^ 32)).
  - by apply (HP (fun s => sk_snd_nxt s = u32 (sk_iss s + 1))).
  - by apply (HP (fun s => sk_remote_ip s = ip /\ sk_remote_port s = port)).
  - by apply (HP (fun s => sk_local_ip s = _ /\ sk_local_port s = _)).
  - by apply (HP (fun s => sk_rcv_nxt s = _ /\ sk_rcv_wnd s = _)).
  - assert (sk_iss (tc_sock t1 a) = isn) as -> by (by apply (HP (fun s => sk_iss s = isn))). exact Hw.
Qed.

(** A delivery to a socket that is found. *)
Lemma deliver_to g t p : receiver g t = p -> p <> NULL -> flag_on (sg_flags g) TCP_FLAG_RST = false ->
  fst (tcp_deliver hw_result fresh g t) = tcp_dispatch hw_result fresh p g t.
Proof.
  intros Er Hn Hf. unfold tcp_deliver. fold (receiver g t). rewrite Er. cbv zeta.
  by rewrite (proj2 (Z.eqb_neq p NULL)), Hf.
Qed.

(** The client's side of the SYN-ACK. *)
Lemma syn_ack_received a g t : st t a = TCP_STATE_SYN_SENT -> sg_flags g = SYN_ACK -> sg_ack g = sk_snd_nxt (tc_sock t a) ->
  let s := tc_sock t a in
  let s' := tc_sock (tcp_dispatch hw_result fresh a g t) a in
  sk_state s' = TCP_STATE_ESTABLISHED /\ sk_snd_una s' = sk_snd_nxt s /\ sk_snd_nxt s' = sk_snd_nxt s /\
  sk_rcv_nxt s' = u32 (sg_seq g + 1) /\ sk_snd_wnd s' = sg_window g /\ sk_rcv_wnd s' = sk_rcv_wnd s /\
  sk_local_ip s' = sk_local_ip s /\ sk_local_port s' = sk_local_port s /\
  sk_remote_ip s' = sk_remote_ip s /\ sk_remote_port s' = sk_remote_port s /\
  sk_send_buf s' = sk_send_buf s /\ sk_recv_buf s' = sk_recv_buf s /\
  exists r, handed t (tcp_dispatch hw_result fresh a g t) r (sk_remote_ip s)
    (build_segment (source_ip (sk_local_ip s) t) (sk_remote_ip s) (sk_local_port s) (sk_remote_port s)
       (sk_snd_nxt s) (u32 (sg_seq g + 1)) TCP_FLAG_ACK (u16 (sk_rcv_wnd s)) []).
Proof.
  intros Hs Hf Ha s s'. unfold s', tcp_dispatch. fold (st t a). rewrite Hs. unfold rcv_syn_sent. rewrite syn_ack_flags, Hf, Ha, Z.eqb_refl.
  change (flag_on SYN_ACK TCP_FLAG_SYN && flag_on SYN_ACK TCP_FLAG_ACK) with true. cbn [negb]. unfold send_ack.
  destruct (tcp_send_segment _ _ _ _ _ _) as [t1 r] eqn:Es. apply send_empty in Es as (_ & Es & Ew). rewrite bump_ack in Es.
  assert (tc_sock t1 a = set_sk_state TCP_STATE_ESTABLISHED (now32 t) (set_snd_wnd (sg_window g)
            (set_irs (sg_seq g) (u32 (sg_seq g + 1)) (set_snd_una (sk_snd_nxt s) s)))) as E1.
  { destruct (r =? 0); rewrite Es; unfold tcp_set_state; simpl; rewrite upd_same; simpl; fold (st t a); rewrite Hs; simpl; by rewrite !upd_same. }
  cbn [fst]. rewrite on_stats_other, on_sock_at, Z.eqb_refl, E1. do 12 (split; [done|]). exists r.
  unfold tcp_set_state in Ew. simpl in Ew. rewrite upd_same in Ew. simpl in Ew. fold (st t a) in Ew. rewrite Hs in Ew. simpl in Ew.
  rewrite !upd_same in Ew. exact Ew.
Qed.

(** The server's side of the ACK. *)
Lemma ack_received q g t : st t q = TCP_STATE_SYN_RECEIVED -> sg_flags g = TCP_FLAG_ACK -> sg_ack g = sk_snd_nxt (tc_sock t q) ->
  let s := tc_sock t q in
  let s' := tc_sock (tcp_dispatch hw_result fresh q g t) q in
  sk_state s' = TCP_STATE_ESTABLISHED /\ sk_snd_una s' = sk_snd_nxt s /\ sk_snd_nxt s' = sk_snd_nxt s /\
  sk_rcv_nxt s' = sk_rcv_nxt s /\ sk_snd_wnd s' = sg_window g /\
  sk_local_ip s' = sk_local_ip s /\ sk_local_port s' = sk_local_port s /\
  sk_remote_ip s' = sk_remote_ip s /\ sk_remote_port s' = sk_remote_port s /\
  sk_send_buf s' = sk_send_buf s /\ sk_recv_buf s' = sk_recv_buf s.
Proof.
  intros Hs Hf Ha s s'. unfold s', tcp_dispatch. fold (st t q). rewrite Hs. unfold rcv_syn_received. rewrite Hf, Ha, Z.eqb_refl.
  change (flag_on TCP_FLAG_ACK TCP_FLAG_ACK && true) with true. cbv iota zeta.
  rewrite on_stats_other, on_sock_at, Z.eqb_refl. unfold tcp_set_state. simpl. rewrite upd_same. simpl. fold (st t q). rewrite Hs. simpl.
  rewrite !upd_same. done.
Qed.

(** A SYN for a listening socket with an empty queue. *)
Lemma syn_queued b g t : st t b = TCP_STATE_LISTEN -> flag_on (sg_flags g) TCP_FLAG_SYN = true ->
  let t' := tcp_dispatch hw_result fresh b g t in
  let c := sk_pending_head (tc_sock t' b) in
  (forall q, q <> b -> tc_sock t' q = tc_sock t q) /\ tcp_socket_list t' = tcp_socket_list t /\
  sk_local_ip (tc_sock t' b) = sk_local_ip (tc_sock t b) /\ sk_local_port (tc_sock t' b) = sk_local_port (tc_sock t b) /\
  (sk_pending_head (tc_sock t b) = NULL -> c <> NULL ->
   pc_remote_ip (tc_pending t' c) = sg_src_ip g /\ pc_remote_port (tc_pending t' c) = sg_src_port g /\
   pc_seq_num (tc_pending t' c) = sg_seq g).
Proof.
  intros Hs Hf. cbv zeta. unfold tcp_dispatch. fold (st t b). rewrite Hs. unfold rcv_listen. rewrite Hf.
  destruct (_ <=? _); [split_and!; done|]. destruct (kh_malloc _ _) as [h c]. destruct (c =? NULL) eqn:Ec; [split_and!; done|].
  cbv zeta. split_and!; try done.
  - intros q Hq. by rewrite on_sock_other.
  - rewrite on_sock_at, Z.eqb_refl. done.
  - rewrite on_sock_at, Z.eqb_refl. done.
  - intros Hh Hn. rewrite on_sock_at, Z.eqb_refl. cbn [sk_pending_head set_sk_queue].
    simpl. by rewrite upd_same.
Qed.

(** The socket that accepting a request makes. *)
Record accepted (b c q : Z) (l : list Z) t t' : Prop := mk_accepted {
  ac_new : (q ∉ l) /\ exists pd, tcp_inv t' (q :: l) pd;
  ac_state : st t' q = TCP_STATE_SYN_RECEIVED;
  ac_iss : 0 <= sk_iss (tc_sock t' q) < 2 ^ 32;
  ac_nxt : sk_snd_nxt (tc_sock t' q) = sk_iss (tc_sock t' q) \/ sk_snd_nxt (tc_sock t' q) = u32 (sk_iss (tc_sock t' q) + 1);
  ac_rcv : sk_rcv_nxt (tc_sock t' q) = u32 (pc_seq_num (tc_pending t c) + 1) /\ sk_rcv_wnd (tc_sock t' q) = TCP_DEFAULT_WINDOW;
  ac_local : sk_local_ip (tc_sock t' q) = sk_local_ip (tc_sock t b) /\ sk_local_port (tc_sock t' q) = sk_local_port (tc_sock t b);
  ac_remote : sk_remote_ip (tc_sock t' q) = pc_remote_ip (tc_pending t c) /\
              sk_remote_port (tc_sock t' q) = pc_remote_port (tc_pending t c);
  ac_bufs : rb_contents (sk_send_buf (tc_sock t' q)) = [] /\ rb_contents (sk_recv_buf (tc_sock t' q)) = [];
  ac_wire : exists r, handed t t' r (pc_remote_ip (tc_pending t c))
              (build_segment (source_ip (sk_local_ip (tc_sock t b)) t) (pc_remote_ip (tc_pending t c)) (sk_local_port (tc_sock t b))
                 (pc_remote_port (tc_pending t c)) (sk_iss (tc_sock t' q)) (u32 (pc_seq_num (tc_pending t c) + 1)) SYN_ACK
                 (u16 TCP_DEFAULT_WINDOW) []);
}.

Lemma accept_ok b t l pd t' q : tcp_inv t l pd -> b ∈ l -> tcp_accept hw_result fresh b t = (t', q) -> q <> NULL ->
  sk_pending_head (tc_sock t b) <> NULL /\ accepted b (sk_pending_head (tc_sock t b)) q l t t'.
Proof.
  intros Hi Hb E Hn.
  pose proof (accept_inv hw_result fresh t b l pd Hi Hb) as Hinv. rewrite E in Hinv.
  destruct Hinv as (pd' & [[-> _]|[Hql Hinv]]); [done|].
  unfold tcp_accept in E. destruct (_ || _); [injection E as <- <-; done|].
  destruct (sk_pending_head (tc_sock t b) =? NULL) eqn:Eh; [injection E as <- <-; done|]. apply Z.eqb_neq in Eh. split; [done|].
  pose proof (sock_create_spec fresh t l pd Hi) as Hc. destruct (tcp_socket_create fresh t) as [t1 n].
  destruct Hc as [[-> _]|[D1 D2 D3 (b1 & b2 & (nx & pv & D4)) D5 (D6 & D7 & D8 & D9)]]; [injection E as <- <-; done|].
  rewrite (proj2 (Z.eqb_neq n NULL)) in E by (unfold address, NULL in *; lia). cbn [tcp_generate_isn] in E. cbv zeta in E.
  set (c := sk_pending_head (tc_sock t b)) in *.
  destruct (tcp_send_segment _ _ _ _ _ _) as [t5 r] eqn:Es in E. apply send_empty in Es as (_ & Es & Ew).
  cbn [fst] in E. apply pair_equal_spec in E as [E <-].
  assert (b <> n) as Hbn by (by intros ->).
  assert (tc_sock t' n = tc_sock t5 n) as En by (rewrite <- E; cbn [tc_sock set_theap]; by rewrite on_sock_other).
  destruct (D5 b Hbn) as (nb & vb & Eb).
  set (isn := Z.lxor _ _) in Es. assert (0 <= isn < 2 ^ 32) as Hisn by apply lxor32_range.
  set (s0 := set_sk_state TCP_STATE_SYN_RECEIVED (now32 t1)
    (set_sk_flags (Z.lor (sk_flags (tc_sock t1 n)) TCP_SOCK_FLAG_BOUND) (set_irs (pc_seq_num (tc_pending t c)) (u32 (pc_seq_num (tc_pending t c) + 1))
      (set_iss isn isn isn (set_remote (pc_remote_port (tc_pending t c)) (pc_remote_ip (tc_pending t c))
        (set_local (sk_local_port (tc_sock t b)) (sk_local_ip (tc_sock t b)) (tc_sock t1 n))))))).
  assert (tc_sock t' n = if r =? 0 then bump SYN_ACK s0 else s0) as Esn.
  { rewrite En, Es. unfold tcp_set_state. simpl. rewrite !upd_same. simpl. rewrite D4, Eb, D6. simpl. rewrite !upd_same. reflexivity. }
  assert (forall P : tcp_socket -> Prop, P s0 -> P (set_snd_nxt (u32 (isn + 1)) s0) -> P (tc_sock t' n)) as HP.
  { intros P P1 P2. rewrite Esn. by destruct (r =? 0). }
  split; [eauto|..].
  - unfold st. by apply (HP (fun s => sk_state s = _)).
  - by apply (HP (fun s => 0 <= sk_iss s < 2 ^ 32)).
  - apply (HP (fun s => sk_snd_nxt s = sk_iss s \/ sk_snd_nxt s = u32 (sk_iss s + 1))); [by left|by right].
  - apply (HP (fun s => sk_rcv_nxt s = _ /\ sk_rcv_wnd s = _)); unfold s0; rewrite D4; done.
  - by apply (HP (fun s => sk_local_ip s = _ /\ sk_local_port s = _)).
  - by apply (HP (fun s => sk_remote_ip s = _ /\ sk_remote_port s = _)).
  - apply (HP (fun s => rb_contents (sk_send_buf s) = [] /\ rb_contents (sk_recv_buf s) = [])); unfold s0; rewrite D4; done.
  - exists r. assert (sk_iss (tc_sock t' n) = isn) as -> by (by apply (HP (fun s => sk_iss s = isn))).
    assert (tc_net t' = tc_net t5) as En5 by (by rewrite <- E).
    unfold tcp_set_state in Ew. simpl in Ew. rewrite !upd_same in Ew. simpl in Ew. rewrite D4, Eb, D6 in Ew. simpl in Ew.
    rewrite !upd_same in Ew. unfold handed in *. rewrite En5. unfold segment_of in Ew. simpl in Ew. rewrite D4 in Ew. simpl in Ew.
    unfold source_ip in *. simpl in Ew. rewrite D7 in Ew. exact Ew.
Qed.

(** ** The handshake *)

(** A client with a bound socket [a] of its own port, and a server listening at [b] that
    has no connection with that port of the client yet. *)
Record can_connect (a b ipA ipB ap bp : Z) (tA tB : tcp H) : Prop := mk_can_connect {
  cc_ips : 0 < ipA < 2 ^ 32 /\ 0 < ipB < 2 ^ 32;
  cc_ports : 0 <= ap < 65536 /\ 0 <= bp < 65536;
  cc_client : intact tA /\ is_socket tA a;
  cc_bound : bound (tc_sock tA a) = true /\ sk_local_ip (tc_sock tA a) = ipA /\ sk_local_port (tc_sock tA a) = ap;
  cc_fields : 0 <= sk_rcv_nxt (tc_sock tA a) < 2 ^ 32;
  cc_own : forall x, is_socket tA x -> x <> a -> sk_local_port (tc_sock tA x) <> ap;
  cc_server : intact tB /\ is_socket tB b;
  cc_listens : tcp_find_listener bp tB = b /\ st tB b = TCP_STATE_LISTEN /\ sk_pending_head (tc_sock tB b) = NULL;
  cc_at : sk_local_ip (tc_sock tB b) = ipB /\ sk_local_port (tc_sock tB b) = bp;
  cc_none : tcp_find_socket ipB bp ipA ap tB = NULL;
}.

Lemma empty_fields src dst sp dp sq ak fl w : 0 < src < 2 ^ 32 -> 0 < dst < 2 ^ 32 -> 0 <= sp < 65536 -> 0 <= dp < 65536 ->
  0 <= sq < 2 ^ 32 -> 0 <= ak < 2 ^ 32 -> is_byte fl -> fields_ok src dst sp dp sq ak fl (u16 w) [].
Proof. intros. pose proof (u16_range w). split; try done; try lia. by apply Forall_nil. Qed.

Lemma same_connections_st t t' p : same_connections t t' -> st t' p = st t p.
Proof. intros (E & _). unfold st. by rewrite E. Qed.
Lemma is_socket_list t p : is_socket t p -> forall l pd, tcp_inv t l pd -> p ∈ l.
Proof. intros Hp l pd Hi. by eapply is_socket_in. Qed.

(** The client finishes: it is connected, and acknowledges. *)
Lemma client_established a ipA ipB ap bp tA tA1 sq w tA2 :
  intact tA -> is_socket tA a -> (forall x, is_socket tA x -> x <> a -> sk_local_port (tc_sock tA x) <> ap) ->
  sk_local_ip (tc_sock tA a) = ipA -> sk_local_port (tc_sock tA a) = ap ->
  syn_sent a ipB bp tA tA1 ->
  fields_ok ipB ipA bp ap sq (u32 (sk_iss (tc_sock tA1 a) + 1)) SYN_ACK w [] ->
  let seg := build_segment ipB ipA bp ap sq (u32 (sk_iss (tc_sock tA1 a) + 1)) SYN_ACK w [] in
  tcp_receive hw_result fresh (Some seg) (Z.of_nat (length seg)) ipB ipA tA1 = (tA2, 0) ->
  let s := tc_sock tA1 a in
  let s' := tc_sock tA2 a in
  sk_state s' = TCP_STATE_ESTABLISHED /\ sk_snd_una s' = sk_snd_nxt s /\ sk_snd_nxt s' = sk_snd_nxt s /\
  sk_rcv_nxt s' = u32 (sq + 1) /\ sk_snd_wnd s' = w /\ sk_rcv_wnd s' = sk_rcv_wnd s /\
  sk_local_ip s' = ipA /\ sk_local_port s' = ap /\ sk_remote_ip s' = ipB /\ sk_remote_port s' = bp /\
  exists r, handed tA1 tA2 r ipB (build_segment (source_ip ipA tA1) ipB ap bp (sk_snd_nxt s) (u32 (sq + 1)) TCP_FLAG_ACK (u16 (sk_rcv_wnd s)) []).
Proof.
  intros (l & pd & Hi) Ha Hown Hip Hport [S1 S2 S3 [S4 S4'] [S5 S5'] [S6 S6'] S7 S8 S9] Hf seg E s s'.
  pose proof (quiet_inv _ _ _ _ S8 Hi) as Hi1. pose proof (is_socket_in _ _ _ _ Hi Ha) as Hal.
  destruct (receive_delivered _ _ _ _ _ _ _ _ _ tA1 tA2 Hf E) as (t1 & Hsc & Ht & Hq & Hn & ->).
  set (g := mk_segment _ _ _ _ _ _ _ _ _) in *. pose proof Hsc as (E1 & _ & E2 & E3 & _).
  assert (receiver g t1 = a) as Er.
  { rewrite (receiver_same g tA1 t1) by done. apply (receiver_unique g tA1 l pd a Hi1 Hal).
    - unfold matches, g. cbn [sg_dst_ip sg_dst_port sg_src_ip sg_src_port]. rewrite S5', S4', S5, S4, Hip, Hport, !Z.eqb_refl. done.
    - intros x Hx Hne. rewrite S7 by done. apply Hown; [|done]. exists l. split; [apply Hi|done]. }
  assert (a <> NULL) as Hna by (by apply (is_socket_address tA)).
  assert (fst (tcp_deliver hw_result fresh g t1) = tcp_dispatch hw_result fresh a g t1) as Ed by (by apply deliver_to).
  unfold s'. rewrite Ed.
  assert (st t1 a = TCP_STATE_SYN_SENT) as Hst by (by rewrite (same_connections_st _ _ _ Hsc)).
  assert (sg_ack g = sk_snd_nxt (tc_sock t1 a)) as Hack by (unfold g; cbn [sg_ack]; by rewrite E1, S3).
  destruct (syn_ack_received a g t1 Hst eq_refl Hack) as (R1 & R2 & R3 & R4 & R5 & R6 & R7 & R8 & R9 & R10 & _ & _ & r & R11).
  change (sg_window g) with w in R5. change (sg_seq g) with sq in R4, R11. unfold s. rewrite !E1 in *. split_and!; try congruence.
  exists r. unfold handed, source_ip in *. rewrite E3 in R11. rewrite S4, S4', S5, S5', Hip, Hport in R11. exact R11.
Qed.

(** The server takes the request and accepts it. *)
Lemma server_accepts b ipA ipB ap bp sq ak w tB tB1 tB2 q :
  intact tB -> is_socket tB b -> tcp_find_listener bp tB = b -> st tB b = TCP_STATE_LISTEN ->
  sk_pending_head (tc_sock tB b) = NULL -> sk_local_ip (tc_sock tB b) = ipB -> sk_local_port (tc_sock tB b) = bp ->
  tcp_find_socket ipB bp ipA ap tB = NULL -> fields_ok ipA ipB ap bp sq ak TCP_FLAG_SYN w [] ->
  let seg := build_segment ipA ipB ap bp sq ak TCP_FLAG_SYN w [] in
  tcp_receive hw_result fresh (Some seg) (Z.of_nat (length seg)) ipA ipB tB = (tB1, 0) ->
  tcp_accept hw_result fresh b tB1 = (tB2, q) -> q <> NULL ->
  let s := tc_sock tB2 q in
  (exists l pd, tcp_inv tB2 (q :: l) pd) /\
  sk_state s = TCP_STATE_SYN_RECEIVED /\ 0 <= sk_iss s < 2 ^ 32 /\
  (sk_snd_nxt s = sk_iss s \/ sk_snd_nxt s = u32 (sk_iss s + 1)) /\
  sk_rcv_nxt s = u32 (sq + 1) /\ sk_rcv_wnd s = TCP_DEFAULT_WINDOW /\
  sk_local_ip s = ipB /\ sk_local_port s = bp /\ sk_remote_ip s = ipA /\ sk_remote_port s = ap /\
  exists r, handed tB1 tB2 r ipA (build_segment (source_ip ipB tB1) ipA bp ap (sk_iss s) (u32 (sq + 1)) SYN_ACK (u16 TCP_DEFAULT_WINDOW) []).
Proof.
  intros (l & pd & Hi) Hb Hlis Hst Hph Hip Hport Hnone Hf seg E Eac Hq s.
  pose proof (is_socket_in _ _ _ _ Hi Hb) as Hbl.
  destruct (receive_delivered _ _ _ _ _ _ _ _ _ tB tB1 Hf E) as (t1 & Hsc & Ht & Hqt & Hn & ->).
  set (g := mk_segment _ _ _ _ _ _ _ _ _) in *. pose proof Hsc as (E1 & _ & E2 & E3 & _).
  assert (b <> NULL) as Hnb by (by apply (is_socket_address tB)).
  assert (receiver g t1 = b) as Er.
  { rewrite (receiver_same g tB t1) by done. unfold receiver, g. cbn [sg_dst_ip sg_dst_port sg_src_ip sg_src_port].
    rewrite Hnone, Z.eqb_refl. exact Hlis. }
  assert (fst (tcp_deliver hw_result fresh g t1) = tcp_dispatch hw_result fresh b g t1) as Ed by (by apply deliver_to).
  rewrite Ed in *. assert (st t1 b = TCP_STATE_LISTEN) as Hst1 by (by rewrite (same_connections_st _ _ _ Hsc)).
  pose proof (quiet_inv _ _ _ _ Hqt Hi) as Hi1.
  destruct (rcv_listen_inv b g t1 l pd Hi1 Hbl Hst1) as (ps & _ & Hi2).
  assert (tcp_dispatch hw_result fresh b g t1 = rcv_listen b g t1) as Ed2 by (unfold tcp_dispatch; fold (st t1 b); by rewrite Hst1).
  rewrite <- Ed2 in Hi2. destruct (syn_queued b g t1 Hst1 eq_refl) as (Q1 & Q2 & Q3 & Q4 & Q5). cbv zeta in Q5.
  destruct (accept_ok b _ l _ tB2 q Hi2 Hbl Eac Hq) as (Hhd & [[_ (pd' & A1)] A2 A3 A4 [A5 A5'] [A6 A6'] [A7 A7'] _ A8]).
  destruct Q5 as (P1 & P2 & P3); [by rewrite E1|done|]. change (sg_src_ip g) with ipA in P1.
  change (sg_src_port g) with ap in P2. change (sg_seq g) with sq in P3. rewrite E1 in Q3, Q4.
  rewrite P3 in A5, A8. rewrite Q3, Hip in A6, A8. rewrite Q4, Hport in A6', A8. rewrite P1 in A7, A8. rewrite P2 in A7', A8.
  split; [by exists l, pd'|]. split_and!; try done; apply A3.
Qed.

(** The first socket of the list takes the segments of its connection. *)
Lemma receiver_head g t l pd q : tcp_inv t (q :: l) pd ->
  matches (sg_dst_ip g) (sg_dst_port g) (sg_src_ip g) (sg_src_port g) (tc_sock t q) = true -> receiver g t = q.
Proof.
  intros Hi Hm. unfold receiver, tcp_find_socket. pose proof (blocks_nodup_list _ _ _ (ti_nodup _ _ _ Hi)) as Hnd.
  assert (q <> NULL) as Hn by (apply (is_socket_address t); exists (q :: l); split; [apply Hi|left]).
  rewrite (find_linked_first _ _ _ _ _ _ (ti_linked _ _ _ Hi) Hnd), first_of_cons, Hm. by rewrite (proj2 (Z.eqb_neq q NULL)).
Qed.

(** The server finishes. *)
Lemma server_established q l pd ipA ipB ap bp ak w tB2 tB3 :
  let s := tc_sock tB2 q in
  tcp_inv tB2 (q :: l) pd -> sk_state s = TCP_STATE_SYN_RECEIVED ->
  sk_local_ip s = ipB -> sk_local_port s = bp -> sk_remote_ip s = ipA -> sk_remote_port s = ap ->
  fields_ok ipA ipB ap bp (sk_rcv_nxt s) ak TCP_FLAG_ACK w [] -> ak = sk_snd_nxt s ->
  let seg := build_segment ipA ipB ap bp (sk_rcv_nxt s) ak TCP_FLAG_ACK w [] in
  tcp_receive hw_result fresh (Some seg) (Z.of_nat (length seg)) ipA ipB tB2 = (tB3, 0) ->
  let s' := tc_sock tB3 q in
  sk_state s' = TCP_STATE_ESTABLISHED /\ sk_snd_una s' = sk_snd_nxt s /\ sk_snd_nxt s' = sk_snd_nxt s /\
  sk_rcv_nxt s' = sk_rcv_nxt s /\ sk_snd_wnd s' = w /\
  sk_local_ip s' = ipB /\ sk_local_port s' = bp /\ sk_remote_ip s' = ipA /\ sk_remote_port s' = ap.
Proof.
  intros s Hi Hst L1 L2 L3 L4 Hf Hak seg E s'.
  destruct (receive_delivered _ _ _ _ _ _ _ _ _ tB2 tB3 Hf E) as (t1 & Hsc & Ht & Hqt & Hn & ->).
  set (g := mk_segment _ _ _ _ _ _ _ _ _) in *. pose proof Hsc as (E1 & _ & E2 & E3 & _).
  assert (receiver g t1 = q) as Er.
  { rewrite (receiver_same g tB2 t1) by done. apply (receiver_head g tB2 l pd q Hi).
    unfold matches, g. cbn [sg_dst_ip sg_dst_port sg_src_ip sg_src_port]. fold s. rewrite L1, L2, L3, L4, !Z.eqb_refl. done. }
  assert (q <> NULL) as Hnq by (apply (is_socket_address tB2); exists (q :: l); split; [apply Hi|left]).
  assert (fst (tcp_deliver hw_result fresh g t1) = tcp_dispatch hw_result fresh q g t1) as Ed by (by apply deliver_to).
  assert (st t1 q = TCP_STATE_SYN_RECEIVED) as Hst1 by (by rewrite (same_connections_st _ _ _ Hsc)).
  assert (sg_ack g = sk_snd_nxt (tc_sock t1 q)) as Hack by (unfold g; cbn [sg_ack]; by rewrite E1).
  destruct (ack_received q g t1 Hst1 eq_refl Hack) as (R1 & R2 & R3 & R4 & R5 & R6 & R7 & R8 & R9 & _).
  unfold s'. rewrite Ed. change (sg_window g) with w in R5. rewrite !E1 in *. fold s in R2, R3, R4, R6, R7, R8, R9. split_and!; congruence.
Qed.

(** C10: The three-way handshake connects the two hosts. A client connects from a bound
    socket to a port another host listens on; when the calls succeed and the SYN, the
    SYN-ACK and the ACK, which are the segments the hosts hand to IP, arrive, both sockets
    are ESTABLISHED, they are the two ends of the same pair of addresses and ports, each
    expects exactly the sequence number the other will send next, and nothing is
    unacknowledged. *)
Theorem tcp_handshake a b q ipA ipB ap bp tA tA1 tA2 tB tB1 tB2 tB3 :
  can_connect a b ipA ipB ap bp tA tB ->
  tcp_connect hw_result fresh a ipB bp tA = (tA1, TCP_OK) ->
  let sA := tc_sock tA1 a in
  let syn := build_segment ipA ipB ap bp (sk_iss sA) (sk_rcv_nxt sA) TCP_FLAG_SYN (u16 (sk_rcv_wnd sA)) [] in
  tcp_receive hw_result fresh (Some syn) (Z.of_nat (length syn)) ipA ipB tB = (tB1, 0) ->
  tcp_accept hw_result fresh b tB1 = (tB2, q) -> q <> NULL ->
  let sB := tc_sock tB2 q in
  sk_snd_nxt sB = u32 (sk_iss sB + 1) ->
  let syn_ack := build_segment ipB ipA bp ap (sk_iss sB) (sk_rcv_nxt sB) SYN_ACK (u16 (sk_rcv_wnd sB)) [] in
  tcp_receive hw_result fresh (Some syn_ack) (Z.of_nat (length syn_ack)) ipB ipA tA1 = (tA2, 0) ->
  let sA' := tc_sock tA2 a in
  let ack := build_segment ipA ipB ap bp (sk_snd_nxt sA') (sk_rcv_nxt sA') TCP_FLAG_ACK (u16 (sk_rcv_wnd sA')) [] in
  tcp_receive hw_result fresh (Some ack) (Z.of_nat (length ack)) ipA ipB tB2 = (tB3, 0) ->
  let sB' := tc_sock tB3 q in
  (handed tA tA1 0 ipB syn /\ (exists r, handed tB1 tB2 r ipA syn_ack) /\ (exists r, handed tA1 tA2 r ipB ack)) /\
  sk_state sA' = TCP_STATE_ESTABLISHED /\ sk_state sB' = TCP_STATE_ESTABLISHED /\
  sk_rcv_nxt sA' = sk_snd_nxt sB' /\ sk_rcv_nxt sB' = sk_snd_nxt sA' /\
  sk_snd_una sA' = sk_snd_nxt sA' /\ sk_snd_una sB' = sk_snd_nxt sB' /\
  (sk_local_ip sA', sk_local_port sA', sk_remote_ip sA', sk_remote_port sA') = (ipA, ap, ipB, bp) /\
  (sk_local_ip sB', sk_local_port sB', sk_remote_ip sB', sk_remote_port sB') = (ipB, bp, ipA, ap).
Proof.
  intros [[C1 C1'] [C2 C2'] [C3 C3'] (C4 & C4' & C4'') C5 C6 [C7 C7'] (C8 & C8' & C8'') [C9 C9'] C10] Ec sA syn Er1 Eac Hq sB Hsnt
    syn_ack Er2 sA' ack Er3 sB'.
  pose proof (connect_ok a ipB bp tA tA1 C4 Ec) as Hss. pose proof Hss as [S1 S2 S3 [S4 S4'] [S5 S5'] [S6 S6'] S7 S8 S9].
  assert (is_byte TCP_FLAG_SYN /\ is_byte TCP_FLAG_ACK /\ is_byte SYN_ACK) as (F1 & F2 & F3) by (by vm_compute).
  assert (fields_ok ipA ipB ap bp (sk_iss sA) (sk_rcv_nxt sA) TCP_FLAG_SYN (u16 (sk_rcv_wnd sA)) []) as Hf1.
  { apply empty_fields; try done. unfold sA. by rewrite S6. }
  destruct (server_accepts b ipA ipB ap bp _ _ _ tB tB1 tB2 q C7 C7' C8 C8' C8'' C9 C9' C10 Hf1 Er1 Eac Hq) as
    ((l & pd & B0) & B1 & B2 & B3 & B4 & B5 & B6 & B7 & B8 & B9 & rB & B10). fold sB in B1, B2, B3, B4, B5, B6, B7, B8, B9, B10.
  assert (sk_rcv_nxt sB = u32 (sk_iss (tc_sock tA1 a) + 1)) as B4' by exact B4.
  assert (fields_ok ipB ipA bp ap (sk_iss sB) (sk_rcv_nxt sB) SYN_ACK (u16 (sk_rcv_wnd sB)) []) as Hf2.
  { apply empty_fields; try done. rewrite B4. apply u32_range. }
  unfold syn_ack in Er2. rewrite B4' in Er2, Hf2.
  destruct (client_established a ipA ipB ap bp tA tA1 _ _ tA2 C3 C3' C6 C4' C4'' Hss Hf2 Er2) as
    (D1 & D2 & D3 & D4 & D5 & D6 & D7 & D8 & D9 & D10 & rA & D11). fold sA' in D1, D2, D3, D4, D5, D6, D7, D8, D9, D10.
  assert (sk_snd_nxt sA' = sk_rcv_nxt sB) as E1 by (rewrite D3, S3; by rewrite B4').
  assert (sk_rcv_nxt sA' = sk_snd_nxt sB) as E2 by (by rewrite D4, Hsnt).
  assert (fields_ok ipA ipB ap bp (sk_rcv_nxt sB) (sk_snd_nxt sB) TCP_FLAG_ACK (u16 (sk_rcv_wnd sA')) []) as Hf3.
  { apply empty_fields; try done; [rewrite B4; apply u32_range|rewrite Hsnt; apply u32_range]. }
  unfold ack in Er3. rewrite E1, E2 in Er3.
  destruct (server_established q l pd ipA ipB ap bp (sk_snd_nxt sB) _ tB2 tB3 B0 B1 B6 B7 B8 B9 Hf3 eq_refl Er3) as
    (G1 & G2 & G3 & G4 & G5 & G6 & G7 & G8 & G9). fold sB in G2, G3, G4. fold sB' in G1, G2, G3, G4, G5, G6, G7, G8, G9.
  split; [split; [|split]|].
  - unfold syn, sA. rewrite S6, S6'. unfold source_ip in S9. rewrite C4', C4'', (proj2 (Z.eqb_neq ipA 0)) in S9 by lia. exact S9.
  - exists rB. unfold syn_ack. rewrite B4', B5. unfold source_ip in B10. rewrite (proj2 (Z.eqb_neq ipB 0)) in B10 by lia. exact B10.
  - exists rA. unfold ack. rewrite D6. unfold source_ip in D11. rewrite (proj2 (Z.eqb_neq ipA 0)) in D11 by lia. rewrite D3, D4. exact D11.
  - split_and!; try congruence.
Qed.
End Conn.
