(* ===== verification/TcpData.v ===== *)
(** * The transfer of data over TCP (net/tcp/tcp.c)

    What an established socket does with data, and that the application reads a prefix
    of the stream the peer sent, whatever is lost, repeated or out of order. *)
From S2P Require Import Prelude Memory PageAlloc Pmm Heap HeapProps HeapSpec Ring Netbuf Net Checksum Packets Hosts Chain Tcp TcpRing TcpInv TcpLife TcpSafe TcpStates TcpConn.
Section Data.
Context {H : Type} `{KernelHeapLaws H} (hw_result : list Z -> Z) (fresh : Z -> Z).
Implicit Types t : tcp H.

Lemma send_empty_fields p fl t : 
  let s := tc_sock t p in
  let s' := tc_sock (fst (tcp_send_segment hw_result fresh p fl [] t)) p in
  exists n, s' = set_snd_nxt n s.
Proof.
  cbv zeta. destruct (tcp_send_segment _ _ _ _ _ _) as [t' r] eqn:E. apply send_empty in E as (_ & E & _). cbn [fst]. rewrite E.
  unfold bump. destruct (r =? 0); [|exists (sk_snd_nxt (tc_sock t p)); by destruct (tc_sock t p)].
  destruct (flag_on fl TCP_FLAG_SYN), (flag_on fl TCP_FLAG_FIN); try (by eexists).
  exists (sk_snd_nxt (tc_sock t p)). by destruct (tc_sock t p).
Qed.

(** The receiving side of a socket. *)
Definition received (s : tcp_socket) : list Z * Z * tcp_state := (rb_contents (sk_recv_buf s), sk_rcv_nxt s, sk_state s).

Lemma established_fields p g t : st t p = TCP_STATE_ESTABLISHED -> ring_ok (sk_recv_buf (tc_sock t p)) ->
  flag_on (sg_flags g) TCP_FLAG_FIN = false ->
  let s := tc_sock t p in
  let s' := tc_sock (tcp_dispatch hw_result fresh p g t) p in
  let taken := if sg_seq g =? sk_rcv_nxt s then take (ring_room (sk_recv_buf s)) (sg_data g) else [] in
  sk_state s' = TCP_STATE_ESTABLISHED /\ ring_ok (sk_recv_buf s') /\ rb_size (sk_recv_buf s') = rb_size (sk_recv_buf s) /\
  rb_contents (sk_recv_buf s') = rb_contents (sk_recv_buf s) ++ taken /\
  sk_rcv_nxt s' = (if sg_seq g =? sk_rcv_nxt s
                   then if 0 <? Z.of_nat (length (sg_data g)) then u32 (sk_rcv_nxt s + Z.of_nat (length taken)) else sk_rcv_nxt s
                   else sk_rcv_nxt s).
Proof.
  intros Hst Hr Hf s s' taken. change (ring_ok (sk_recv_buf s)) in Hr. unfold s', tcp_dispatch. fold (st t p). rewrite Hst. unfold rcv_established. rewrite Hf.
  set (t1 := if flag_on (sg_flags g) TCP_FLAG_ACK then _ else _).
  assert (sk_state (tc_sock t1 p) = TCP_STATE_ESTABLISHED /\ sk_recv_buf (tc_sock t1 p) = sk_recv_buf s /\ sk_rcv_nxt (tc_sock t1 p) = sk_rcv_nxt s)
    as (E1 & E2 & E3).
  { unfold t1. destruct (flag_on (sg_flags g) TCP_FLAG_ACK); [|split_and!; [exact Hst|done..]].
    rewrite on_sock_at, Z.eqb_refl. unfold take_ack. destruct (_ && _); split_and!; try exact Hst; done. }
  cbv zeta. case_if.
  - unfold take_data. rewrite E3, E2. unfold taken. destruct (sg_seq g =? sk_rcv_nxt s).
    + pose proof (ring_write_ok (sk_recv_buf s) (sg_data g) Hr) as Hw. destruct (ring_buffer_write _ _) as [b n].
      destruct Hw as (W1 & W2 & _ & W3 & W4 & W5). unfold send_ack.
      match goal with |- context [tcp_send_segment ?h ?f p ?fl [] ?x] => destruct (send_empty_fields p fl x) as (m & ->); set (t2 := x) end.
      assert (tc_sock t2 p = set_rcv_wnd (u32 (ring_buffer_space b)) (set_rcv_nxt (u32 (sk_rcv_nxt s + n)) (set_recv_buf b (tc_sock t1 p)))) as ->.
      { unfold t2. rewrite on_stats_other, on_sock_at, Z.eqb_refl. by rewrite E3. }
      cbn [sk_state sk_recv_buf sk_rcv_nxt set_snd_nxt set_rcv_wnd set_rcv_nxt set_recv_buf]. split_and!; try done.
      rewrite W3, length_take. do 2 f_equal. pose proof (ro_used _ Hr). pose proof (ro_size _ Hr). unfold ring_room. lia.
    + unfold send_ack. match goal with |- context [tcp_send_segment ?h ?f p ?fl [] ?x] => destruct (send_empty_fields p fl x) as (m & ->) end.
      cbn [sk_state sk_recv_buf sk_rcv_nxt set_snd_nxt]. rewrite E1, E2, E3, app_nil_r. done.
  - assert (sg_data g = []) as Ed by (apply nil_length_inv; lia). rewrite E1, E2, E3. unfold taken. rewrite Ed, take_nil.
    destruct (sg_seq g =? _); rewrite app_nil_r; done.
Qed.

Lemma recv_fields p buf len t : p <> NULL -> buf <> NULL -> sk_state (tc_sock t p) <> TCP_STATE_CLOSED -> ring_ok (sk_recv_buf (tc_sock t p)) -> 0 <= len ->
  let '(t', l, r) := tcp_recv p buf len t in
  let s := tc_sock t p in
  let s' := tc_sock t' p in
  sk_state s' = sk_state s /\ sk_rcv_nxt s' = sk_rcv_nxt s /\ ring_ok (sk_recv_buf s') /\ rb_size (sk_recv_buf s') = rb_size (sk_recv_buf s) /\
  l = take (Z.to_nat len) (rb_contents (sk_recv_buf s)) /\ rb_contents (sk_recv_buf s') = drop (Z.to_nat len) (rb_contents (sk_recv_buf s)) /\
  (0 < r -> r = Z.of_nat (length l)) /\ (r <= 0 -> l = []).
Proof.
  intros Hp Hb Hs Hr Hl. unfold tcp_recv. rewrite !(proj2 (Z.eqb_neq _ NULL)) by done. cbn [orb].
  unfold in_state at 1. rewrite bool_decide_eq_false_2 by done.
  pose proof (ring_read_ok (sk_recv_buf (tc_sock t p)) len Hr Hl) as Hw. destruct (ring_buffer_read _ _) as [[b l] n].
  destruct Hw as (W1 & W2 & _ & W3 & W4 & W5 & W6 & _).
  assert (n = 0 -> l = []) as Hn by (intros ->; apply nil_length_inv; lia).
  repeat match goal with |- context [if ?c then _ else _] => destruct c eqn:? end; simpl; rewrite ?upd_same; cbn [sk_state sk_rcv_nxt sk_recv_buf
    set_rcv_wnd set_recv_buf]; repeat match goal with E : (n =? 0) = true |- _ => apply Z.eqb_eq in E | E : (n =? 0) = false |- _ => apply Z.eqb_neq in E end;
    split_and!; try done; unfold TCP_ERR_WOULDBLOCK; try lia; auto; intros; apply nil_length_inv; lia.
Qed.

(** ** The stream *)

(** The segment carries a piece of the stream [S] whose first byte has number [base]. *)
Definition carries (base : Z) (S : list Z) (g : tcp_segment) : Prop :=
  exists (k m : nat), (k <= length S)%nat /\ sg_seq g = u32 (base + Z.of_nat k) /\ sg_data g = take m (drop k S).

(** What happens to an established socket [p], with what the application has read:
    segments with pieces of the stream in any order and any number, and reads. *)
Inductive stream_step (p base : Z) (S : list Z) : tcp H * list Z -> tcp H * list Z -> Prop :=
| stream_segment t d g :
    flag_on (sg_flags g) TCP_FLAG_FIN = false -> carries base S g ->
    stream_step p base S (t, d) (tcp_dispatch hw_result fresh p g t, d)
| stream_read t d buf len t' l r :
    buf <> NULL -> 0 <= len -> tcp_recv p buf len t = (t', l, r) -> stream_step p base S (t, d) (t', d ++ l).

Definition in_stream (p base : Z) (S : list Z) (x : tcp H * list Z) : Prop :=
  let s := tc_sock (fst x) p in
  sk_state s = TCP_STATE_ESTABLISHED /\ ring_ok (sk_recv_buf s) /\
  exists n, (n <= length S)%nat /\ sk_rcv_nxt s = u32 (base + Z.of_nat n) /\ snd x ++ rb_contents (sk_recv_buf s) = take n S.

Lemma u32_inj x a b : u32 (x + a) = u32 (x + b) -> 0 <= a < 2 ^ 32 -> 0 <= b < 2 ^ 32 -> a = b.
Proof.
  unfold u32. intros E Ha Hb. assert ((a - b) mod 2 ^ 32 = 0) as Hm.
  { replace (a - b) with (x + a - (x + b)) by lia. rewrite Zminus_mod, E, Z.sub_diag. done. }
  apply Z.mod_divide in Hm as [q Hq]; [|lia]. assert (q = 0) by nia. lia.
Qed.
Lemma u32_add a b : u32 (u32 a + b) = u32 (a + b).
Proof. unfold u32. apply Zplus_mod_idemp_l. Qed.

Lemma take_piece {A : Type} n r m (S : list A) :
  exists j, take r (take m (drop n S)) = take j (drop n S) /\ (j + n <= length S \/ j = 0)%nat /\ length (take j (drop n S)) = j.
Proof.
  exists (min (min r m) (length S - n)). rewrite take_take. rewrite length_take, length_drop. split_and!; [|lia..].
  destruct (Nat.le_gt_cases (r `min` m) (length S - n)) as [Hle|Hgt]; [by rewrite (Nat.min_l (r `min` m)) by lia|].
  rewrite (Nat.min_r (r `min` m) (length S - n)) by lia. rewrite !take_ge by (rewrite length_drop; lia). done.
Qed.

Lemma stream_step_ok p base S x y : p <> NULL -> Z.of_nat (length S) < 2 ^ 32 -> stream_step p base S x y ->
  in_stream p base S x -> in_stream p base S y.
Proof.
  intros Hp HS Hs (Hst & Hr & n & Hn & Hnx & Hc). destruct Hs as [t d g Hf (k & m & Hk & Hsq & Hd)|t d buf len t' l r Hb Hl E]; cbn [fst snd] in *.
  - destruct (established_fields p g t Hst Hr Hf) as (F1 & F2 & _ & F3 & F4). split; [exact F1|]. split; [exact F2|]. cbn [fst snd].
    destruct (Z.eqb_spec (sg_seq g) (sk_rcv_nxt (tc_sock t p))) as [Eq|Ne].
    + rewrite Hsq, Hnx in Eq. apply u32_inj in Eq; [|lia..]. apply Nat2Z.inj in Eq. subst k. rewrite Hd in *.
      destruct (take_piece n (ring_room (sk_recv_buf (tc_sock t p))) m S) as (j & Ej & Hj & Hlj). rewrite Ej in *.
      exists (n + j)%nat. split; [lia|]. rewrite F3, F4, Hlj, app_assoc, Hc. split.
      * case_if; [rewrite Hnx, u32_add; f_equal; lia|].
        assert (j = 0)%nat as ->; [|rewrite Hnx; f_equal; lia].
        assert (length (take j (drop n S)) <= length (take m (drop n S)))%nat as Hle; [|lia].
        rewrite <- Ej, length_take. lia.
      * by rewrite take_take_drop.
    + exists n. rewrite F3, F4, app_nil_r. done.
  - pose proof (recv_fields p buf len t Hp Hb ltac:(congruence) Hr Hl) as Hv. rewrite E in Hv.
    destruct Hv as (V1 & V2 & V3 & _ & V4 & V5 & _ & _). split; [cbn [fst]; congruence|]. split; [exact V3|]. exists n. cbn [fst snd].
    split; [done|]. split; [congruence|]. by rewrite V4, V5, <- app_assoc, take_drop.
Qed.

(** C8: What the application reads from an established connection is a prefix of the
    stream the peer sent: segments may be lost, repeated, overtake each other, overlap or
    not fit into the buffer; at every moment the bytes read and the bytes waiting in the
    buffer are together the first [n] bytes of the stream, and the next number the socket
    expects and acknowledges is that of byte [n]. *)
Theorem tcp_reads_prefix p base S t0 t d :
  p <> NULL -> Z.of_nat (length S) < 2 ^ 32 ->
  st t0 p = TCP_STATE_ESTABLISHED -> ring_ok (sk_recv_buf (tc_sock t0 p)) ->
  rb_contents (sk_recv_buf (tc_sock t0 p)) = [] -> sk_rcv_nxt (tc_sock t0 p) = u32 base ->
  rtc (stream_step p base S) (t0, []) (t, d) ->
  d `prefix_of` S /\
  exists n, d ++ rb_contents (sk_recv_buf (tc_sock t p)) = take n S /\ sk_rcv_nxt (tc_sock t p) = u32 (base + Z.of_nat n).
Proof.
  intros Hp HS Hst Hr Hc Hn Hrun.
  assert (in_stream p base S (t, d)) as (_ & _ & n & Hle & E1 & E2).
  { refine (rtc_ind_r (fun x => in_stream p base S x) (t0, []) _ _ _ Hrun).
    - split; [exact Hst|]. split; [exact Hr|]. exists 0%nat. cbn [fst snd]. rewrite Hc. split; [lia|]. split; [by rewrite Z.add_0_r|done].
    - intros y z _ Hs Hy. by eapply stream_step_ok. }
  cbn [fst snd] in *. split; [|by exists n]. exists (rb_contents (sk_recv_buf (tc_sock t p)) ++ drop n S).
  by rewrite app_assoc, E2, take_drop.
Qed.

(** ** Sending *)

Definition DATA_FLAGS (all : bool) : Z := if all then Z.lor TCP_FLAG_ACK TCP_FLAG_PSH else TCP_FLAG_ACK.

(** Sending data: the segment goes to [ip_send] whole, and the number advances exactly
    when that succeeds. *)
Lemma send_data p all l t t' r : l <> [] ->
  tcp_send_segment hw_result fresh p (DATA_FLAGS all) l t = (t', r) ->
  tc_sock t' p = (if r =? 0 then set_snd_nxt (u32 (sk_snd_nxt (tc_sock t p) + Z.of_nat (length l))) (tc_sock t p) else tc_sock t p) /\
  ((r = TCP_ERR_NOMEM /\ tc_net t' = tc_net t) \/
   (tc_net t', r) = ip_send hw_result fresh (sk_remote_ip (tc_sock t p)) IP_PROTO_TCP
                      (Some (segment_of (tc_sock t p) (DATA_FLAGS all) l t)) (TCP_HEADER_MIN_LEN + Z.of_nat (length l)) (tc_net t)).
Proof.
  intros Hl. unfold tcp_send_segment. destruct (kh_malloc _ _) as [h c]. destruct (c =? NULL).
  { intros E. injection E as <- <-. split; [done|]. by left. }
  cbn [tc_sock set_theap tc_net].
  change (segment_of (tc_sock t p) (DATA_FLAGS all) l (set_theap h t)) with (segment_of (tc_sock t p) (DATA_FLAGS all) l t).
  destruct (ip_send _ _ _ _ _ _ _) as [n r'] eqn:Ei.
  assert (flag_on (DATA_FLAGS all) TCP_FLAG_SYN = false /\ flag_on (DATA_FLAGS all) TCP_FLAG_FIN = false) as [-> ->] by (by destruct all).
  assert ((0 <? Z.of_nat (length l)) = true) as -> by (destruct l; [done|]; simpl; lia).
  destruct (r' =? 0) eqn:Er; intros E; injection E as <- <-; rewrite Er; (split; [|by right]); [|done].
  simpl. by rewrite upd_same.
Qed.

(** How much [tcp_output] sends at once. *)
Definition chunk (s : tcp_socket) : Z := Z.min (Z.min (rb_used (sk_send_buf s)) (sk_snd_wnd s)) (op_mss (sk_options s)).

Lemma output_fields p t : p <> NULL -> tcp_can_send (tc_sock t p) = true -> ring_ok (sk_send_buf (tc_sock t p)) ->
  let s := tc_sock t p in
  0 < chunk s -> snd (kh_malloc (chunk s) (tc_heap t)) <> NULL ->
  let s' := tc_sock (tcp_output hw_result fresh p t) p in
  let n := Z.to_nat (chunk s) in
  let l := take n (rb_contents (sk_send_buf s)) in
  rb_contents (sk_send_buf s') = drop n (rb_contents (sk_send_buf s)) /\ ring_ok (sk_send_buf s') /\
  exists t1 t2 r, tc_sock t1 = tc_sock t /\ tc_net t1 = tc_net t /\
    tcp_send_segment hw_result fresh p (DATA_FLAGS (chunk s =? rb_used (sk_send_buf s))) l t1 = (t2, r) /\
    tc_net (tcp_output hw_result fresh p t) = tc_net t2 /\
    sk_snd_nxt s' = if r =? 0 then u32 (sk_snd_nxt s + chunk s) else sk_snd_nxt s.
Proof.
  intros Hp Hc Hr s Hn Hm s' n l. unfold s', tcp_output. rewrite (proj2 (Z.eqb_neq p NULL)), Hc by done. cbn [negb orb]. fold s.
  unfold ring_buffer_used. assert (0 < rb_used (sk_send_buf s)) as Hu by (unfold chunk in Hn; lia).
  rewrite (proj2 (Z.eqb_neq (rb_used (sk_send_buf s)) 0)) by lia. fold (chunk s). rewrite (proj2 (Z.eqb_neq (chunk s) 0)) by lia.
  destruct (kh_malloc (chunk s) (tc_heap t)) as [h d] eqn:Em. cbn [snd] in Hm. rewrite (proj2 (Z.eqb_neq d NULL)) by done.
  pose proof (ring_read_ok (sk_send_buf s) (chunk s) Hr ltac:(lia)) as Hrd.
  destruct (ring_buffer_read (sk_send_buf s) (chunk s)) as [[rb l0] n0] eqn:Erd. destruct Hrd as (R1 & R2 & _ & R3 & R4 & R5 & R6 & ->).
  assert (n0 = chunk s) as -> by (unfold chunk in *; lia). fold n in R5, R6. fold l in R5. subst l0.
  set (t1 := set_theap h t). fold (DATA_FLAGS (chunk s =? rb_used (sk_send_buf s))).
  destruct (tcp_send_segment hw_result fresh p (DATA_FLAGS _) l t1) as [t2 r] eqn:Es. cbn [fst].
  assert (l <> []) as Hl by (intros El; rewrite El in R3; simpl in R3; lia).
  destruct (send_data p _ l t1 t2 r Hl Es) as [E2 _]. change (tc_sock t1 p) with s in E2. rewrite <- R3 in E2.
  assert (sk_send_buf (tc_sock t2 p) = sk_send_buf s) as E3 by (rewrite E2; by destruct (r =? 0)).
  rewrite E3, Erd. change (tc_sock (set_theap ?h ?x) p) with (tc_sock x p). rewrite on_sock_at, Z.eqb_refl.
  cbn [sk_send_buf set_send_buf sk_snd_nxt]. split; [exact R6|]. split; [exact R1|]. exists t1, t2, r. split_and!; try done.
  rewrite E2. by destruct (r =? 0).
Qed.

(** tcp_output sends the oldest bytes of the send buffer as one segment: as many as
    the peer's window and the segment size allow, carrying the next sequence number, in a
    segment that fits an IP packet; when IP takes it the next number advances by exactly
    the bytes sent. The bytes leave the buffer in either case: when IP does not take the
    segment, nothing of them is sent again. *)
Theorem tcp_output_contract p t :
  p <> NULL -> tcp_can_send (tc_sock t p) = true -> ring_ok (sk_send_buf (tc_sock t p)) ->
  op_mss (sk_options (tc_sock t p)) = TCP_MSS_DEFAULT ->
  let s := tc_sock t p in
  let k := Z.min (Z.min (rb_used (sk_send_buf s)) (sk_snd_wnd s)) TCP_MSS_DEFAULT in
  0 < k -> snd (kh_malloc k (tc_heap t)) <> NULL ->
  let t' := tcp_output hw_result fresh p t in
  let s' := tc_sock t' p in
  let l := take (Z.to_nat k) (rb_contents (sk_send_buf s)) in
  rb_contents (sk_send_buf s') = drop (Z.to_nat k) (rb_contents (sk_send_buf s)) /\ Z.of_nat (length l) = k /\
  TCP_HEADER_MIN_LEN + k <= IP_MTU_DEFAULT - IP_HEADER_MIN /\
  ((tc_net t' = tc_net t /\ sk_snd_nxt s' = sk_snd_nxt s) \/
   exists r, (tc_net t', r) = ip_send hw_result fresh (sk_remote_ip s) IP_PROTO_TCP
                               (Some (segment_of s (DATA_FLAGS (k =? rb_used (sk_send_buf s))) l t)) (TCP_HEADER_MIN_LEN + k) (tc_net t) /\
             sk_snd_nxt s' = if r =? 0 then u32 (sk_snd_nxt s + k) else sk_snd_nxt s).
Proof.
  intros Hp Hc Hr Hm s k Hk Hd t' s' l. assert (chunk s = k) as Ek by (unfold chunk, k, s; by rewrite Hm).
  destruct (output_fields p t Hp Hc Hr) as (O1 & O2 & t1 & t2 & r & O3 & O4 & O5 & O6 & O7); [fold s; lia|fold s; by rewrite Ek|].
  fold s s' t' in O1, O2, O5, O6, O7. rewrite Ek in *. fold l in O5. split; [done|].
  assert (Z.of_nat (length l) = k) as Hl.
  { unfold l. rewrite length_take, length_rb_contents. unfold k. lia. }
  split; [done|]. split; [unfold TCP_HEADER_MIN_LEN, IP_MTU_DEFAULT, IP_HEADER_MIN, k, TCP_MSS_DEFAULT; lia|].
  assert (l <> []) as Hne by (intros El; rewrite El in Hl; simpl in Hl; lia).
  destruct (send_data p _ l t1 t2 r Hne O5) as [_ S2]. rewrite O3, O4, Hl in S2. fold s in S2.
  assert (segment_of s (DATA_FLAGS (k =? rb_used (sk_send_buf s))) l t1 = segment_of s (DATA_FLAGS (k =? rb_used (sk_send_buf s))) l t) as Eseg
    by (unfold segment_of, source_ip; by rewrite O4). rewrite Eseg in S2. rewrite <- O6 in S2.
  destruct S2 as [[-> En]|En].
  - left. split; [exact En|exact O7].
  - right. exists r. split; [exact En|exact O7].
Qed.

(** A socket whose receive buffer was read empty advertises a window of zero: the free
    space is 65536 bytes, which the 16-bit field of the header cannot hold. *)
Theorem tcp_drained_window_is_zero p buf len t t' l r :
  p <> NULL -> buf <> NULL -> st t p = TCP_STATE_ESTABLISHED -> ring_ok (sk_recv_buf (tc_sock t p)) ->
  rb_size (sk_recv_buf (tc_sock t p)) = TCP_RECV_BUF_SIZE -> 0 < rb_used (sk_recv_buf (tc_sock t p)) <= len ->
  tcp_recv p buf len t = (t', l, r) ->
  l = rb_contents (sk_recv_buf (tc_sock t p)) /\ u16 (sk_rcv_wnd (tc_sock t' p)) = 0.
Proof.
  intros Hp Hb Hs Hr Hz Hu E. unfold tcp_recv in E. rewrite !(proj2 (Z.eqb_neq _ NULL)) in E by done. cbn [orb] in E.
  fold (st t p) in E. rewrite Hs in E. change (in_state TCP_STATE_ESTABLISHED TCP_STATE_CLOSED) with false in E. cbv iota in E.
  pose proof (ring_read_ok (sk_recv_buf (tc_sock t p)) len Hr ltac:(lia)) as Hw. destruct (ring_buffer_read _ _) as [[b l0] n].
  destruct Hw as (W1 & W2 & _ & W3 & W4 & W5 & W6 & _). rewrite (proj2 (Z.eqb_neq n 0)) in E by lia.
  apply pair_equal_spec in E as [E _]. apply pair_equal_spec in E as [<- <-]. rewrite take_ge in W5 by (rewrite length_rb_contents; lia).
  split; [done|]. rewrite on_sock_at, Z.eqb_refl. cbn [sk_rcv_wnd set_rcv_wnd]. rewrite on_sock_at, Z.eqb_refl.
  cbn [sk_recv_buf set_recv_buf]. assert (rb_used b = 0) as Eu.
  { rewrite drop_ge in W6 by (rewrite length_rb_contents; lia). apply (f_equal length) in W6. rewrite length_rb_contents in W6.
    pose proof (ro_used _ W1). simpl in W6. lia. }
  unfold ring_buffer_space. rewrite W2, Hz, Eu. done.
Qed.
End Data.

(** ** Ports of TCP sockets (net/tcp/tcp.c)

    The search for a free ephemeral port ends with one if there is one, and binding
    never gives a port to two sockets. *)

Section Ports.
Context {H : Type} `{KernelHeapLaws H}.
Implicit Types t : tcp H.

Definition EPHEMERAL_COUNT : Z := 16383.
Definition ephemeral (port : Z) : Prop := EPHEMERAL_FIRST <= port < EPHEMERAL_FIRST + EPHEMERAL_COUNT.

(** Some socket has the port. *)
Definition used_port t (port : Z) : bool :=
  negb (find_linked (sock_next t) (fun s => sk_local_port (tc_sock t s) =? port) (tcp_socket_list t) =? NULL).

Lemma used_port_spec t port : intact t -> used_port t port = true <-> exists q, is_socket t q /\ sk_local_port (tc_sock t q) = port.
Proof.
  intros Hi. unfold used_port. split.
  - intros Hu. apply negb_true_iff, Z.eqb_neq in Hu. destruct (intact_find t _ Hi Hu) as [Hs Ht]. eexists. split; [exact Hs|]. lia.
  - intros (q & Hq & Hport). apply negb_true_iff, Z.eqb_neq. destruct Hi as (l & pd & Hi).
    pose proof (ti_linked _ _ _ Hi) as Hl. pose proof (blocks_nodup_list _ _ _ (ti_nodup _ _ _ Hi)) as Hnd.
    rewrite (find_linked_first _ _ _ _ _ _ Hl Hnd). intros Hn.
    apply (first_of_none _ _ (linked_addresses _ _ _ _ _ Hl)) with (a := q) in Hn; [lia|]. by eapply is_socket_in.
Qed.

Lemma ephemeral_next x : 0 <= x < EPHEMERAL_COUNT ->
  (if 65535 <=? u16 (EPHEMERAL_FIRST + x + 1) then EPHEMERAL_FIRST else u16 (EPHEMERAL_FIRST + x + 1))
  = EPHEMERAL_FIRST + (x + 1) mod EPHEMERAL_COUNT.
Proof.
  intros Hx. unfold EPHEMERAL_FIRST, EPHEMERAL_COUNT in *. rewrite u16_id by lia. case_if; [|rewrite Z.mod_small by lia; lia].
  replace (x + 1) with 16383 by lia. done.
Qed.

Lemma ephemeral_round_eq start t0 nx :
  let nx' := if 65535 <=? u16 (nx + 1) then EPHEMERAL_FIRST else u16 (nx + 1) in
  ephemeral_round start (set_next_port nx t0) =
  if negb (used_port t0 nx) then inr (set_next_port nx' t0, nx)
  else if nx' =? start then inr (set_next_port nx' t0, 0) else inl (set_next_port nx' t0).
Proof. reflexivity. Qed.

(** The search from offset [s], with [k] ports still to try. *)
Lemma ephemeral_search t0 s k : forall i, 0 <= s < EPHEMERAL_COUNT -> 0 <= i -> i + Z.of_nat k = EPHEMERAL_COUNT -> (0 < k)%nat ->
  let port j := EPHEMERAL_FIRST + (s + j) mod EPHEMERAL_COUNT in
  (forall j, 0 <= j < i -> used_port t0 (port j) = true) ->
  exists n r, while_nat k (ephemeral_round (EPHEMERAL_FIRST + s)) (set_next_port (port i) t0) = inr (set_next_port n t0, r) /\
    ephemeral n /\
    ((ephemeral r /\ used_port t0 r = false) \/ (r = 0 /\ forall j, 0 <= j < EPHEMERAL_COUNT -> used_port t0 (port j) = true)).
Proof.
  induction k as [|k IH]; intros i Hs Hi Hk Hpos port Hused; [lia|].
  assert (0 <= (s + i) mod EPHEMERAL_COUNT < EPHEMERAL_COUNT) as Hx by (apply Z.mod_pos_bound; unfold EPHEMERAL_COUNT; lia).
  assert (ephemeral (EPHEMERAL_FIRST + (s + i + 1) mod EPHEMERAL_COUNT)) as He.
  { unfold ephemeral. pose proof (Z.mod_pos_bound (s + i + 1) EPHEMERAL_COUNT ltac:(unfold EPHEMERAL_COUNT; lia)). lia. }
  assert ((if 65535 <=? u16 (port i + 1) then EPHEMERAL_FIRST else u16 (port i + 1)) =
          EPHEMERAL_FIRST + (s + i + 1) mod EPHEMERAL_COUNT) as Hnx.
  { unfold port. rewrite ephemeral_next, mod_succ by (done || (unfold EPHEMERAL_COUNT; lia)). done. }
  cbn [while_nat]. rewrite ephemeral_round_eq. cbv zeta. rewrite Hnx.
  destruct (used_port t0 (port i)) eqn:Eu; cbn [negb].
  - assert (forall j, 0 <= j < i + 1 -> used_port t0 (port j) = true) as Hused'.
    { intros j Hj. destruct (Z.eq_dec j i) as [->|]; [done|]. apply Hused. lia. }
    destruct (Z.eqb_spec (EPHEMERAL_FIRST + (s + i + 1) mod EPHEMERAL_COUNT) (EPHEMERAL_FIRST + s)) as [Eq|Ne].
    + eexists _, 0. split; [reflexivity|]. split; [exact He|]. right. split; [done|].
      assert (i = EPHEMERAL_COUNT - 1) as -> by (unfold EPHEMERAL_COUNT in *; dlia). intros j Hj. apply Hused'. lia.
    + assert (0 < k)%nat as Hk'.
      { destruct k; [|lia]. exfalso. apply Ne. assert (i = EPHEMERAL_COUNT - 1) as -> by lia.
        replace (s + (EPHEMERAL_COUNT - 1) + 1) with (s + 1 * EPHEMERAL_COUNT) by lia. rewrite Z_mod_plus_full, Z.mod_small by lia. done. }
      destruct (IH (i + 1) Hs ltac:(lia) ltac:(lia) Hk' Hused') as (n & r & E & Hr). exists n, r. split; [|exact Hr].
      rewrite <- E. by rewrite Z.add_assoc.
  - eexists _, (port i). split; [reflexivity|]. split; [exact He|]. left. split; [|exact Eu]. unfold ephemeral, port. lia.
Qed.

Lemma alloc_ephemeral_ok t : ephemeral (tcp_next_ephemeral_port t) ->
  exists n r, tcp_alloc_ephemeral_port t = (set_next_port n t, r) /\ ephemeral n /\
    ((ephemeral r /\ used_port t r = false) \/ (r = 0 /\ forall port, ephemeral port -> used_port t port = true)).
Proof.
  intros He. unfold tcp_alloc_ephemeral_port. set (s := tcp_next_ephemeral_port t - EPHEMERAL_FIRST).
  assert (0 <= s < EPHEMERAL_COUNT) as Hs by (unfold ephemeral in He; lia).
  assert (tcp_next_ephemeral_port t = EPHEMERAL_FIRST + s) as Es by lia.
  destruct (ephemeral_search t s (Z.to_nat EPHEMERAL_COUNT) 0 Hs ltac:(lia) ltac:(unfold EPHEMERAL_COUNT; lia) ltac:(unfold EPHEMERAL_COUNT; lia)
    ltac:(intros; lia)) as (n & r & E & Hn & Hr).
  rewrite Z.add_0_r, Z.mod_small, <- Es in E by done.
  assert (set_next_port (tcp_next_ephemeral_port t) t = t) as Et by (by destruct t). rewrite Et in E.
  exists n, r. rewrite (while_pos_enough _ 65536 _ _ _ E) by (unfold EPHEMERAL_COUNT; lia). split; [done|]. split; [done|].
  destruct Hr as [Hr|[-> Hr]]; [by left|]. right. split; [done|]. intros port Hport. unfold ephemeral in Hport.
  destruct (Z.lt_ge_cases (port - EPHEMERAL_FIRST) s) as [Hlt|Hge].
  - specialize (Hr (port - EPHEMERAL_FIRST - s + EPHEMERAL_COUNT) ltac:(lia)).
    replace (s + (port - EPHEMERAL_FIRST - s + EPHEMERAL_COUNT)) with (port - EPHEMERAL_FIRST + 1 * EPHEMERAL_COUNT) in Hr by lia.
    rewrite Z_mod_plus_full, Z.mod_small in Hr by lia. by replace (EPHEMERAL_FIRST + (port - EPHEMERAL_FIRST)) with port in Hr by lia.
  - specialize (Hr (port - EPHEMERAL_FIRST - s) ltac:(lia)).
    replace (s + (port - EPHEMERAL_FIRST - s)) with (port - EPHEMERAL_FIRST) in Hr by lia.
    rewrite Z.mod_small in Hr by lia. by replace (EPHEMERAL_FIRST + (port - EPHEMERAL_FIRST)) with port in Hr by lia.
Qed.

(** Another socket that would share the port. *)
Definition holds_port t (p port q : Z) : Prop :=
  is_socket t q /\ q <> p /\ sk_local_port (tc_sock t q) = port /\ (sk_state (tc_sock t q) = TCP_STATE_LISTEN \/ bound (tc_sock t q) = true).

Lemma port_taken_spec t p port : intact t -> port_taken p port t = true <-> exists q, holds_port t p port q.
Proof.
  intros Hi. unfold port_taken. set (test := fun q : Z => _).
  assert (forall q, test q = true <-> q <> p /\ sk_local_port (tc_sock t q) = port /\
            (sk_state (tc_sock t q) = TCP_STATE_LISTEN \/ bound (tc_sock t q) = true)) as Ht.
  { intros q. unfold test, in_state. rewrite !andb_true_iff, orb_true_iff, negb_true_iff, Z.eqb_neq, Z.eqb_eq, bool_decide_eq_true. tauto. }
  split.
  - intros Hu. apply negb_true_iff, Z.eqb_neq in Hu. destruct (intact_find t test Hi Hu) as [Hs Hq]. apply Ht in Hq. by eexists.
  - intros (q & Hq & Hrest). apply negb_true_iff, Z.eqb_neq. destruct Hi as (l & pd & Hi).
    pose proof (ti_linked _ _ _ Hi) as Hl. pose proof (blocks_nodup_list _ _ _ (ti_nodup _ _ _ Hi)) as Hnd.
    rewrite (find_linked_first _ _ _ _ _ _ Hl Hnd). intros Hn.
    apply (first_of_none _ _ (linked_addresses _ _ _ _ _ Hl)) with (a := q) in Hn; [|by eapply is_socket_in].
    apply Ht in Hrest. congruence.
Qed.

(** tcp_bind gives out ports exclusively. For a socket that has none it succeeds with
    the port that was asked for, or with an unused ephemeral port when that is 0, and then
    no other bound or listening socket has that port; it fails with TCP_ERR_INUSE, changing
    no socket, exactly when another bound or listening socket has the port, or when 0 was
    asked for and every one of the 16383 ephemeral ports is in use. The search for an
    ephemeral port always ends. *)
Theorem tcp_bind_exclusive t p port :
  intact t -> is_socket t p -> bound (tc_sock t p) = false -> ephemeral (tcp_next_ephemeral_port t) ->
  let '(t', r) := tcp_bind p port t in
  let got := sk_local_port (tc_sock t' p) in
  ephemeral (tcp_next_ephemeral_port t') /\
  ((r = TCP_OK /\ bound (tc_sock t' p) = true /\ (if port =? 0 then ephemeral got else got = port) /\
    (forall q, q <> p -> tc_sock t' q = tc_sock t q) /\ forall q, ~ holds_port t p got q) \/
   (r = TCP_ERR_INUSE /\ tc_sock t' = tc_sock t /\
    if port =? 0 then forall x, ephemeral x -> exists q, is_socket t q /\ sk_local_port (tc_sock t q) = x
    else exists q, holds_port t p port q)).
Proof.
  intros Hi Hp Hb He. unfold tcp_bind. rewrite (proj2 (Z.eqb_neq p NULL)) by (by apply (is_socket_address t)). rewrite Hb.
  assert (forall t1 c, bound (tc_sock (on_sock p (fun s => set_sk_flags (Z.lor (sk_flags s) TCP_SOCK_FLAG_BOUND) (set_local c (ip_get_addr (tc_net t1)) s)) t1) p) = true) as Hbd.
  { intros t1 c. rewrite on_sock_at, Z.eqb_refl. unfold bound, flag_on. cbn [sk_flags set_sk_flags].
    rewrite Z.land_lor_distr_l. change TCP_SOCK_FLAG_BOUND with (2 ^ 0). rewrite Z.land_diag, land_pow2 by lia. by destruct (Z.testbit _ 0). }
  destruct (port =? 0) eqn:E0.
  - destruct (alloc_ephemeral_ok t He) as (n & r & -> & Hn & Hr). destruct Hr as [[Hr Hu]|[-> Hall]].
    + rewrite (proj2 (Z.eqb_neq r 0)) by (unfold ephemeral, EPHEMERAL_FIRST in Hr; lia). split; [done|]. left. split; [done|]. split; [apply Hbd|].
      rewrite on_sock_at, Z.eqb_refl. split; [exact Hr|]. split; [intros q Hq; by rewrite on_sock_other|].
      intros q (Hq & _ & Hport & _). cbn [sk_local_port set_sk_flags set_local] in Hport.
      assert (used_port t r = true); [|congruence]. apply used_port_spec; [done|]. by exists q.
    + split; [done|]. right. split; [done|]. split; [done|]. intros x Hx. by apply used_port_spec, Hall.
  - destruct (port_taken p port t) eqn:Et.
    + split; [done|]. right. split; [done|]. split; [done|]. by apply port_taken_spec.
    + split; [done|]. left. split; [done|]. split; [apply Hbd|]. rewrite on_sock_at, Z.eqb_refl. split; [done|].
      split; [intros q Hq; by rewrite on_sock_other|]. intros q Hq. assert (port_taken p port t = true); [|congruence].
      apply port_taken_spec; [done|]. by exists q.
Qed.
End Ports.

(** ** TCP on two hosts: examples (net/tcp/tcp.c)

    Two hosts with a simple heap and resolved addresses: a
    server that listens on port 80 and a client with a bound socket. *)

(** ** The two hosts *)

Definition card : list Z -> Z := fun _ => 0.
Definition dirty : Z -> Z := fun _ => 0xAA.
Definition ip_a : Z := local_ip host_a.
Definition ip_b : Z := local_ip host_b.
Definition knows_a : net := resolved 0 ip_a (local_mac host_a) host_b.

Definition boot_tcp (n : net) : tcp (arena) :=
  mk_tcp (fun _ => zero_sock) (fun _ => mk_pending 0 0 0 0 0) 0 0 0 zero_tcp_stats 1234 n net_heap.
Definition start_tcp (n : net) : tcp (arena) := tcp_init (boot_tcp n).
Definition one_socket (n : net) : tcp (arena) := fst (tcp_socket_create dirty (start_tcp n)).
Definition sock_a : Z := snd (tcp_socket_create dirty (start_tcp knows_b)).
Definition sock_b : Z := snd (tcp_socket_create dirty (start_tcp knows_a)).
Definition client : tcp (arena) := fst (tcp_bind sock_a 0 (one_socket knows_b)).
Definition bound_80 : tcp (arena) := fst (tcp_bind sock_b 80 (one_socket knows_a)).
Definition server : tcp (arena) := fst (tcp_listen sock_b 5 bound_80).

Definition port_a : Z := sk_local_port (tc_sock client sock_a).
Definition client1 : tcp (arena) := fst (tcp_connect card dirty sock_a ip_b 80 client).
Definition syn_of (s : tcp_socket) : list Z :=
  build_segment ip_a ip_b port_a 80 (sk_iss s) (sk_rcv_nxt s) TCP_FLAG_SYN (u16 (sk_rcv_wnd s)) [].
Definition syn1 : list Z := syn_of (tc_sock client1 sock_a).
Definition server1 : tcp (arena) := fst (tcp_receive card dirty (Some syn1) (Z.of_nat (length syn1)) ip_a ip_b server).
Definition server2 : tcp (arena) := fst (tcp_accept card dirty sock_b server1).
Definition sock_q : Z := snd (tcp_accept card dirty sock_b server1).
Definition syn_ack1 : list Z :=
  let s := tc_sock server2 sock_q in
  build_segment ip_b ip_a 80 port_a (sk_iss s) (sk_rcv_nxt s) SYN_ACK (u16 (sk_rcv_wnd s)) [].
Definition client2 : tcp (arena) := fst (tcp_receive card dirty (Some syn_ack1) (Z.of_nat (length syn_ack1)) ip_b ip_a client1).
Definition ack1 : list Z :=
  let s := tc_sock client2 sock_a in
  build_segment ip_a ip_b port_a 80 (sk_snd_nxt s) (sk_rcv_nxt s) TCP_FLAG_ACK (u16 (sk_rcv_wnd s)) [].
Definition server3 : tcp (arena) := fst (tcp_receive card dirty (Some ack1) (Z.of_nat (length ack1)) ip_a ip_b server2).


Definition later (d : Z) (t : tcp (arena)) : tcp (arena) :=
  mk_tcp (tc_sock t) (tc_pending t) (tcp_socket_list t) (tcp_next_ephemeral_port t) (tcp_isn_counter t) (tcp_stats t)
    (tc_time t + d) (tc_net t) (tc_heap t).
Definition next_minute (t : tcp (arena)) : tcp (arena) := tcp_timer_tick card dirty (later 60000 t).
(** The client after five minutes without an answer. *)
Definition worn : tcp (arena) := later 60000 (Nat.iter 5 next_minute client1).

(** ** The states are reached by runs *)

Abbreviation run := (rtc (tcp_step card dirty)).

Lemma run_snoc t t' t'' : run t t' -> tcp_step card dirty t' t'' -> run t t''.
Proof. intros. eapply rtc_r; eassumption. Qed.

Lemma only_list (t : tcp (arena)) p l :
  tcp_socket_list t = p -> p <> NULL -> sock_next t p = NULL ->
  linked (sock_next t) (sock_prev t) NULL (tcp_socket_list t) l -> l = [p].
Proof.
  intros E Hp Hn Hl. destruct l as [|a l]; simpl in Hl; [congruence|]. destruct Hl as (Ea & _ & _ & Hl).
  assert (a = p) as -> by congruence. rewrite Hn in Hl. destruct l as [|b l]; [done|].
  simpl in Hl. destruct Hl as (E' & Hb & _). unfold address, NULL in *. lia.
Qed.
Lemma only_socket (t : tcp (arena)) p x :
  tcp_socket_list t = p -> p <> NULL -> sock_next t p = NULL -> is_socket t x -> x = p.
Proof. intros E Hp Hn (l & Hl & Hx). rewrite (only_list _ _ _ E Hp Hn Hl) in Hx. by apply list_elem_of_singleton in Hx. Qed.

Lemma a_socket (t : tcp (arena)) p :
  tcp_socket_list t = p -> address p -> sock_prev t p = NULL -> sock_next t p = NULL -> is_socket t p.
Proof. intros E Ha Hp Hn. exists [p]. split; [simpl; auto|apply list_elem_of_here]. Qed.

Ltac by_value := vm_compute; first [reflexivity | discriminate | split; reflexivity].
Ltac the_socket := apply a_socket; by_value.

Lemma later_run t d : intact t -> run t (later d t).
Proof.
  intros Hi. apply rtc_once. unfold later. destruct Hi as (l0 & pd0 & Hi). apply run_other; [apply Hi|].
  intros l pd b Hi' Hb. destruct Hi' as [_ _ I3 _ _].
  rewrite Forall_forall in I3. by apply I3.
Qed.

Lemma client_socket0 : is_socket (one_socket knows_b) sock_a.
Proof. the_socket. Qed.
Lemma server_socket0 : is_socket (one_socket knows_a) sock_b.
Proof. the_socket. Qed.
Lemma server_socket1 : is_socket bound_80 sock_b.
Proof. the_socket. Qed.
Lemma client_socket : is_socket client sock_a.
Proof. the_socket. Qed.
Lemma client1_socket : is_socket client1 sock_a.
Proof. the_socket. Qed.
Lemma server_socket : is_socket server sock_b.
Proof. the_socket. Qed.

Lemma step_create n : tcp_step card dirty (start_tcp n) (one_socket n).
Proof. unfold one_socket. apply run_create. Qed.
Lemma step_client : tcp_step card dirty (one_socket knows_b) client.
Proof. unfold client. apply run_bind. exact client_socket0. Qed.
Lemma step_bound : tcp_step card dirty (one_socket knows_a) bound_80.
Proof. unfold bound_80. apply run_bind. exact server_socket0. Qed.
Lemma step_server : tcp_step card dirty bound_80 server.
Proof. unfold server. apply run_listen. exact server_socket1. Qed.
Lemma step_connect : tcp_step card dirty client client1.
Proof. unfold client1. apply run_connect. exact client_socket. Qed.

Lemma start_intact n : intact (start_tcp n).
Proof. unfold start_tcp. apply intact_init. exact net_heap_ok. Qed.
Lemma client_intact : intact client.
Proof. eapply intact_step; [exact step_client|]. eapply intact_step; [apply step_create|apply start_intact]. Qed.
Lemma server_intact : intact server.
Proof.
  eapply intact_step; [exact step_server|]. eapply intact_step; [exact step_bound|].
  eapply intact_step; [apply step_create|apply start_intact].
Qed.
Lemma client1_intact : intact client1.
Proof. eapply intact_step; [exact step_connect|exact client_intact]. Qed.

Lemma client1_run : rtc (tcp_step card dirty) (tcp_init (boot_tcp knows_b)) client1.
Proof.
  eapply run_snoc; [|exact step_connect]. eapply run_snoc; [|exact step_client]. apply rtc_once.
  apply (step_create knows_b).
Qed.

Lemma minutes_intact n t : intact t -> intact (Nat.iter n next_minute t).
Proof.
  intros Hi. induction n as [|n IH]; simpl; [done|]. unfold next_minute at 1.
  eapply intact_step; [apply run_tick|]. pose proof (later_run _ 60000 IH) as Hr. revert IH. clear Hi.
  generalize dependent (later 60000 (Nat.iter n next_minute t)). intros x Hr.
  induction Hr as [|? ? ? Hs _ IH']; [done|]. intros Hi. apply IH'. by eapply intact_step.
Qed.

(** ** The theorems at these states *)


Lemma tcp_follows_rfc793_witness : st client1 sock_a = TCP_STATE_SYN_SENT /\ may_move (st client sock_a) (st client1 sock_a).
Proof.
  split; [vm_compute; reflexivity|].
  exact (tcp_follows_rfc793 card dirty client client1 sock_a client_intact step_connect client_socket client1_socket).
Defined.

Lemma tcp_bind_exclusive_witness :
  ephemeral (tcp_next_ephemeral_port (one_socket knows_a)) /\ snd (tcp_bind sock_b 80 (one_socket knows_a)) = TCP_OK /\
  forall q, ~ holds_port (one_socket knows_a) sock_b (sk_local_port (tc_sock bound_80 sock_b)) q.
Proof.
  assert (ephemeral (tcp_next_ephemeral_port (one_socket knows_a))) as He by (split; vm_compute; [discriminate|reflexivity]).
  assert (intact (one_socket knows_a)) as Hi by (eapply intact_step; [apply step_create|apply start_intact]).
  assert (bound (tc_sock (one_socket knows_a) sock_b) = false) as Hb by (vm_compute; reflexivity).
  assert (snd (tcp_bind sock_b 80 (one_socket knows_a)) = TCP_OK) as Hr by (vm_compute; reflexivity).
  split; [exact He|]. split; [exact Hr|]. unfold bound_80.
  pose proof (tcp_bind_exclusive (one_socket knows_a) sock_b 80 Hi server_socket0 Hb He) as Hk. revert Hk Hr.
  generalize (tcp_bind sock_b 80 (one_socket knows_a)). intros [t' r]. cbn [fst snd]. intros (_ & [Hk|Hk]) ->.
  - apply Hk.
  - discriminate (proj1 Hk).
Defined.

Lemma worn_intact : intact worn.
Proof.
  unfold worn. pose proof (minutes_intact 5 client1 client1_intact) as Hi. revert Hi.
  generalize (Nat.iter 5 next_minute client1). intros x Hi. pose proof (later_run _ 60000 Hi) as Hr. revert Hi.
  induction Hr as [|? ? ? Hs _ IH']; [done|]. intros Hi. apply IH'. by eapply intact_step.
Qed.

(** After five retries the next tick gives the connection up and frees the socket. *)
Lemma tcp_timer_ends_expired_witness :
  exists l pd, tcp_inv worn l pd /\ l = [sock_a] /\ tcp_inv (tcp_timer_tick card dirty worn) [] pd.
Proof.
  destruct worn_intact as (l & pd & Hi). exists l, pd. split; [exact Hi|].
  assert (l = [sock_a]) as Hl.
  { exact (only_list worn sock_a l ltac:(vm_compute; reflexivity) ltac:(vm_compute; discriminate)
      ltac:(vm_compute; reflexivity) (ti_linked _ _ _ Hi)). }
  split; [exact Hl|].
  destruct (tcp_timer_ends_expired card dirty worn l pd Hi) as [Hk _].
  assert (over (now32 worn) (tc_sock worn sock_a) = true) as Ho by (vm_compute; reflexivity).
  rewrite Hl in Hk. rewrite filter_cons_False in Hk by (rewrite Ho; discriminate). exact Hk.
Defined.

(** A SYN of the client and the same with its destination port changed. *)
Lemma tcp_corruption_refused_witness :
  checks ip_a ip_b syn1 /\ snd (tcp_receive card dirty (Some (<[3%nat:=81]> syn1)) 20 ip_a ip_b server) = -1.
Proof.
  assert (Z.of_nat (length syn1) = 20) as Hl by (vm_compute; reflexivity).
  assert (bytes syn1) as Hb by (repeat (apply Forall_cons; split; [split; vm_compute; [discriminate|reflexivity]|]); apply Forall_nil_2).
  assert (checks ip_a ip_b syn1) as Hc by (vm_compute; reflexivity). split; [exact Hc|].
  pose proof (tcp_corruption_refused card dirty syn1 3 81 ip_a ip_b server Hb
    ltac:(rewrite Hl; vm_compute; split; discriminate) Hc ltac:(vm_compute; repeat constructor)
    ltac:(split; vm_compute; [discriminate|reflexivity]) ltac:(vm_compute; discriminate)) as Hk.
  rewrite Hl in Hk. revert Hk. generalize (tcp_receive card dirty (Some (<[3%nat:=81]> syn1)) 20 ip_a ip_b server).
  intros [t' r] [Hr _]. exact Hr.
Defined.

(** The client sends two bytes. *)
Lemma tcp_segment_roundtrip_witness :
  let seg := build_segment ip_a ip_b port_a 80 7 9 TCP_FLAG_ACK 100 [104; 105] in
  can_copy (Z.of_nat (length seg)) server /\ checks ip_a ip_b seg.
Proof.
  intros seg. assert (can_copy (Z.of_nat (length seg)) server) as Hc by (vm_compute; discriminate). split; [exact Hc|].
  assert (fields_ok ip_a ip_b port_a 80 7 9 TCP_FLAG_ACK 100 [104; 105]) as Hf.
  { split; try (split; vm_compute; congruence); [|vm_compute; discriminate].
    repeat (apply Forall_cons; split; [split; vm_compute; congruence|]). apply Forall_nil_2. }
  destruct (tcp_segment_roundtrip card dirty ip_a ip_b port_a 80 7 9 TCP_FLAG_ACK 100 [104; 105] server Hf Hc) as (_ & _ & Hk & _).
  exact Hk.
Defined.

(** ** The handshake *)

Lemma knows_each_other : can_connect sock_a sock_b ip_a ip_b port_a 80 client server.
Proof.
  split.
  - split; split; vm_compute; congruence.
  - split; split; vm_compute; congruence.
  - exact (conj client_intact client_socket).
  - split; [vm_compute; reflexivity|]. split; vm_compute; reflexivity.
  - split; vm_compute; congruence.
  - intros x Hx Hn. exfalso. apply Hn. revert Hx. apply only_socket; [vm_compute; reflexivity|vm_compute; discriminate|vm_compute; reflexivity].
  - exact (conj server_intact server_socket).
  - split; [vm_compute; reflexivity|]. split; vm_compute; reflexivity.
  - split; vm_compute; reflexivity.
  - vm_compute; reflexivity.
Qed.

Lemma tcp_handshake_witness :
  can_connect sock_a sock_b ip_a ip_b port_a 80 client server /\
  sk_state (tc_sock client2 sock_a) = TCP_STATE_ESTABLISHED /\ sk_state (tc_sock server3 sock_q) = TCP_STATE_ESTABLISHED.
Proof.
  split; [exact knows_each_other|].
  assert (tcp_connect card dirty sock_a ip_b 80 client = (client1, TCP_OK)) as E1
    by (unfold client1; apply pair_snd; vm_compute; reflexivity).
  assert (tcp_receive card dirty (Some syn1) (Z.of_nat (length syn1)) ip_a ip_b server = (server1, 0)) as E2
    by (unfold server1; apply pair_snd; vm_compute; reflexivity).
  assert (tcp_accept card dirty sock_b server1 = (server2, sock_q)) as E3
    by (unfold server2, sock_q; apply surjective_pairing).
  assert (sock_q <> NULL) as E4 by (vm_compute; discriminate).
  assert (sk_snd_nxt (tc_sock server2 sock_q) = u32 (sk_iss (tc_sock server2 sock_q) + 1)) as E5 by (vm_compute; reflexivity).
  assert (tcp_receive card dirty (Some syn_ack1) (Z.of_nat (length syn_ack1)) ip_b ip_a client1 = (client2, 0)) as E6
    by (unfold client2; apply pair_snd; vm_compute; reflexivity).
  assert (tcp_receive card dirty (Some ack1) (Z.of_nat (length ack1)) ip_a ip_b server2 = (server3, 0)) as E7
    by (unfold server3; apply pair_snd; vm_compute; reflexivity).
  destruct (tcp_handshake card dirty sock_a sock_b sock_q ip_a ip_b port_a 80 client client1 client2 server server1 server2 server3
    knows_each_other E1 E2 E3 E4 E5 E6 E7) as (_ & Ha & Hb & _).
  exact (conj Ha Hb).
Defined.

(** ** The data *)

(** The five bytes of a stream whose first byte is the next the server expects. *)
Definition hello : list Z := [104; 101; 108; 108; 111].
Definition first_byte : Z := sk_rcv_nxt (tc_sock server3 sock_q).
Definition piece (k m : nat) : tcp_segment :=
  mk_segment ip_a ip_b port_a 80 (u32 (first_byte + Z.of_nat k)) 0 TCP_FLAG_ACK 100 (take m (drop k hello)).
(** The end overtakes the beginning and is not taken; the beginning is. *)
Definition early : tcp (arena) := tcp_dispatch card dirty sock_q (piece 3 2) server3.
Definition begun : tcp (arena) := tcp_dispatch card dirty sock_q (piece 0 3) early.
Definition read_two : tcp (arena) := fst (fst (tcp_recv sock_q 0x5000 2 begun)).

Lemma hello_run : rtc (stream_step card dirty sock_q first_byte hello) (server3, []) (read_two, [104; 101]).
Proof.
  apply (rtc_l _ _ (early, [])); [|apply (rtc_l _ _ (begun, [])); [|apply rtc_once]].
  - unfold early. apply stream_segment; [vm_compute; reflexivity|]. exists 3%nat, 2%nat. repeat split. simpl; lia.
  - unfold begun. apply stream_segment; [vm_compute; reflexivity|]. exists 0%nat, 3%nat. repeat split. simpl; lia.
  - unfold read_two. apply (stream_read _ _ _ _ _ begun [] 0x5000 2 _ [104; 101] (snd (tcp_recv sock_q 0x5000 2 begun)));
      [discriminate|lia|].
    assert (snd (fst (tcp_recv sock_q 0x5000 2 begun)) = [104; 101]) as E by (vm_compute; reflexivity). revert E.
    generalize (tcp_recv sock_q 0x5000 2 begun). intros [[a b] c]. simpl. by intros ->.
Qed.

Lemma established_ring : ring_ok (sk_recv_buf (tc_sock server3 sock_q)).
Proof. split; [split; vm_compute; congruence..|vm_compute; reflexivity]. Qed.

Lemma tcp_reads_prefix_witness :
  rtc (stream_step card dirty sock_q first_byte hello) (server3, []) (read_two, [104; 101]) /\ [104; 101] `prefix_of` hello.
Proof.
  split; [exact hello_run|].
  destruct (tcp_reads_prefix card dirty sock_q first_byte hello server3 read_two [104; 101]
    ltac:(vm_compute; discriminate) ltac:(vm_compute; reflexivity) ltac:(vm_compute; reflexivity) established_ring
    ltac:(vm_compute; reflexivity) ltac:(vm_compute; reflexivity) hello_run) as [Hk _].
  exact Hk.
Defined.

(** The client with the five bytes in its send buffer. *)
Definition loaded : tcp (arena) :=
  on_sock sock_a (fun s => set_send_buf (fst (ring_buffer_write (sk_send_buf s) hello)) s) client2.

Lemma tcp_output_contract_witness :
  rb_contents (sk_send_buf (tc_sock loaded sock_a)) = hello /\
  rb_contents (sk_send_buf (tc_sock (tcp_output card dirty sock_a loaded) sock_a)) = [].
Proof.
  assert (rb_contents (sk_send_buf (tc_sock loaded sock_a)) = hello) as Hc by (vm_compute; reflexivity).
  split; [exact Hc|].
  assert (ring_ok (sk_send_buf (tc_sock loaded sock_a))) as Hr by (split; [split; vm_compute; congruence..|vm_compute; reflexivity]).
  assert (Z.min (Z.min (rb_used (sk_send_buf (tc_sock loaded sock_a))) (sk_snd_wnd (tc_sock loaded sock_a))) TCP_MSS_DEFAULT = 5) as Hk
    by (vm_compute; reflexivity).
  pose proof (tcp_output_contract card dirty sock_a loaded ltac:(vm_compute; discriminate) ltac:(vm_compute; reflexivity) Hr
    ltac:(vm_compute; reflexivity) ltac:(cbv zeta; rewrite Hk; reflexivity) ltac:(cbv zeta; rewrite Hk; vm_compute; discriminate)) as (Hd & _).
  rewrite Hk, Hc in Hd. exact Hd.
Defined.
