(* ===== verification/Udp.v ===== *)
(** * UDP (net/udp/udp.c): data and operations

    Sockets, queued datagrams and their payloads are allocations of the kernel heap
    ([KernelHeap]) and are reached by address; the payload at an address is a list of
    bytes. Datagrams go to [ip_send] of [Net]. *)
From S2P Require Import Prelude Memory Ring Netbuf Net Chain.

Definition UDP_PROTOCOL : Z := 17.
Definition UDP_HEADER_LEN : Z := 8.
Definition UDP_MAX_DATAGRAM : Z := 65535.
Definition UDP_MAX_PAYLOAD : Z := UDP_MAX_DATAGRAM - UDP_HEADER_LEN.
Definition UDP_MAX_SOCKETS : Z := 256.
Definition UDP_RECV_QUEUE_SIZE : Z := 16.
Definition UDP_PORT_EPHEMERAL_MIN : Z := 49152.
Definition UDP_PORT_EPHEMERAL_MAX : Z := 65535.
Definition UDP_SOCK_FLAG_BROADCAST : Z := 1.
Definition UDP_SOCK_FLAG_NONBLOCK : Z := 2.
Definition UDP_OK : Z := 0.
Definition UDP_ERR_NOMEM : Z := -1.
Definition UDP_ERR_INVALID : Z := -2.
Definition UDP_ERR_NOTBOUND : Z := -4.
Definition UDP_ERR_TOOLARGE : Z := -6.
Definition UDP_ERR_NOBUFS : Z := -7.
Definition IP_PROTO_UDP : Z := 17.
Definition sizeof_udp_socket : Z := 56.
Definition sizeof_udp_datagram : Z := 32.

(** ** The packet *)

Definition udp_header (src_port dst_port length checksum : Z) : list Z :=
  le16 (htons src_port) ++ le16 (htons dst_port) ++ le16 (htons length) ++ le16 checksum.
Definition udp_pseudo_header (src_ip dst_ip udp_len : Z) : list Z :=
  le32 (htonl src_ip) ++ le32 (htonl dst_ip) ++ [0; UDP_PROTOCOL] ++ le16 (htons (u16 udp_len)).
Definition udp_checksum (src_ip dst_ip : Z) (l : list Z) : Z :=
  let sum := sum_words (udp_pseudo_header src_ip dst_ip (Z.of_nat (length l))) 0 in
  u16 (Z.lnot (fold_sum FOLD_ROUNDS (sum_words l sum))).
(** A datagram with its checksum, 0xFFFF standing for 0. *)
Definition build_datagram (src_ip dst_ip src_port dst_port : Z) (payload : list Z) : list Z :=
  let hdr := udp_header src_port dst_port (u16 (UDP_HEADER_LEN + Z.of_nat (length payload))) in
  let checksum := udp_checksum src_ip dst_ip (hdr 0 ++ payload) in
  hdr (if checksum =? 0 then 0xFFFF else checksum) ++ payload.

(** ** Structures *)

Record udp_datagram := mk_udgram { dg_data : Z; dg_len : Z; dg_src_ip : Z; dg_src_port : Z; dg_next : Z }.
Definition set_dg_next (v : Z) (d : udp_datagram) : udp_datagram := mk_udgram (dg_data d) (dg_len d) (dg_src_ip d) (dg_src_port d) v.
Record udp_socket := mk_usock {
  us_local_port : Z; us_local_ip : Z; us_bound : bool; us_recv_head : Z; us_recv_tail : Z; us_recv_count : Z; us_flags : Z;
  us_next : Z; us_prev : Z;
}.
Definition zero_usock : udp_socket := mk_usock 0 0 false NULL NULL 0 0 NULL NULL.
Definition set_us_bound (port ip : Z) (s : udp_socket) : udp_socket :=
  mk_usock port ip true (us_recv_head s) (us_recv_tail s) (us_recv_count s) (us_flags s) (us_next s) (us_prev s).
Definition set_us_queue (hd tl n : Z) (s : udp_socket) : udp_socket :=
  mk_usock (us_local_port s) (us_local_ip s) (us_bound s) hd tl n (us_flags s) (us_next s) (us_prev s).
Definition set_us_flags (f : Z) (s : udp_socket) : udp_socket :=
  mk_usock (us_local_port s) (us_local_ip s) (us_bound s) (us_recv_head s) (us_recv_tail s) (us_recv_count s) f (us_next s) (us_prev s).
Definition set_us_links (nx pv : Z) (s : udp_socket) : udp_socket :=
  mk_usock (us_local_port s) (us_local_ip s) (us_bound s) (us_recv_head s) (us_recv_tail s) (us_recv_count s) (us_flags s) nx pv.
Record udp_statistics := mk_udp_stats {
  us_packets_sent : Z; us_packets_recv : Z; us_bytes_sent : Z; us_bytes_recv : Z;
  us_checksum_errors : Z; us_port_unreachable : Z; us_queue_full : Z; us_invalid_packets : Z;
}.
Definition zero_udp_stats : udp_statistics := mk_udp_stats 0 0 0 0 0 0 0 0.
Definition count_dgram_out (n : Z) (c : udp_statistics) : udp_statistics :=
  mk_udp_stats (u64 (us_packets_sent c + 1)) (us_packets_recv c) (u64 (us_bytes_sent c + n)) (us_bytes_recv c)
    (us_checksum_errors c) (us_port_unreachable c) (us_queue_full c) (us_invalid_packets c).
Definition count_dgram_in (n : Z) (c : udp_statistics) : udp_statistics :=
  mk_udp_stats (us_packets_sent c) (u64 (us_packets_recv c + 1)) (us_bytes_sent c) (u64 (us_bytes_recv c + n))
    (us_checksum_errors c) (us_port_unreachable c) (us_queue_full c) (us_invalid_packets c).
Definition count_bad_checksum (c : udp_statistics) : udp_statistics :=
  mk_udp_stats (us_packets_sent c) (us_packets_recv c) (us_bytes_sent c) (us_bytes_recv c)
    (u64 (us_checksum_errors c + 1)) (us_port_unreachable c) (us_queue_full c) (us_invalid_packets c).
Definition count_unreachable (c : udp_statistics) : udp_statistics :=
  mk_udp_stats (us_packets_sent c) (us_packets_recv c) (us_bytes_sent c) (us_bytes_recv c)
    (us_checksum_errors c) (u64 (us_port_unreachable c + 1)) (us_queue_full c) (us_invalid_packets c).
Definition count_queue_full (c : udp_statistics) : udp_statistics :=
  mk_udp_stats (us_packets_sent c) (us_packets_recv c) (us_bytes_sent c) (us_bytes_recv c)
    (us_checksum_errors c) (us_port_unreachable c) (u64 (us_queue_full c + 1)) (us_invalid_packets c).
Definition count_invalid (c : udp_statistics) : udp_statistics :=
  mk_udp_stats (us_packets_sent c) (us_packets_recv c) (us_bytes_sent c) (us_bytes_recv c)
    (us_checksum_errors c) (us_port_unreachable c) (us_queue_full c) (u64 (us_invalid_packets c + 1)).

Record udp (H : Type) := mk_udp {
  ud_sock : Z -> udp_socket;
  ud_dgram : Z -> udp_datagram;
  ud_bytes : Z -> list Z;
  socket_list_head : Z;
  socket_list_tail : Z;
  socket_count : Z;
  next_ephemeral_port : Z;
  udp_initialized : bool;
  udp_stats : udp_statistics;
  ud_net : net;
  ud_heap : H;
}.
Arguments mk_udp {H}.
Arguments ud_sock {H}.
Arguments ud_dgram {H}.
Arguments ud_bytes {H}.
Arguments socket_list_head {H}.
Arguments socket_list_tail {H}.
Arguments socket_count {H}.
Arguments next_ephemeral_port {H}.
Arguments udp_initialized {H}.
Arguments udp_stats {H}.
Arguments ud_net {H}.
Arguments ud_heap {H}.

Section Udp.
Context {H : Type} `{KernelHeap H}.
(** What the driver's [eth_hw_send] returns for a frame, and the bytes in fresh memory. *)
Variable hw_result : list Z -> Z.
Variable fresh : Z -> Z.
Implicit Types u : udp H.

Definition set_usocks (f : Z -> udp_socket) u : udp H :=
  mk_udp f (ud_dgram u) (ud_bytes u) (socket_list_head u) (socket_list_tail u) (socket_count u) (next_ephemeral_port u)
    (udp_initialized u) (udp_stats u) (ud_net u) (ud_heap u).
Definition on_usock (p : Z) (f : udp_socket -> udp_socket) u : udp H := set_usocks (upd (ud_sock u) p (f (ud_sock u p))) u.
Definition set_udgram (p : Z) (d : udp_datagram) u : udp H :=
  mk_udp (ud_sock u) (upd (ud_dgram u) p d) (ud_bytes u) (socket_list_head u) (socket_list_tail u) (socket_count u) (next_ephemeral_port u)
    (udp_initialized u) (udp_stats u) (ud_net u) (ud_heap u).
Definition set_ubytes (p : Z) (l : list Z) u : udp H :=
  mk_udp (ud_sock u) (ud_dgram u) (upd (ud_bytes u) p l) (socket_list_head u) (socket_list_tail u) (socket_count u) (next_ephemeral_port u)
    (udp_initialized u) (udp_stats u) (ud_net u) (ud_heap u).
Definition set_ulist (hd tl n : Z) u : udp H :=
  mk_udp (ud_sock u) (ud_dgram u) (ud_bytes u) hd tl n (next_ephemeral_port u)
    (udp_initialized u) (udp_stats u) (ud_net u) (ud_heap u).
Definition set_uport (v : Z) u : udp H :=
  mk_udp (ud_sock u) (ud_dgram u) (ud_bytes u) (socket_list_head u) (socket_list_tail u) (socket_count u) v
    (udp_initialized u) (udp_stats u) (ud_net u) (ud_heap u).
Definition on_ustats (f : udp_statistics -> udp_statistics) u : udp H :=
  mk_udp (ud_sock u) (ud_dgram u) (ud_bytes u) (socket_list_head u) (socket_list_tail u) (socket_count u) (next_ephemeral_port u)
    (udp_initialized u) (f (udp_stats u)) (ud_net u) (ud_heap u).
Definition set_unet (n : net) u : udp H :=
  mk_udp (ud_sock u) (ud_dgram u) (ud_bytes u) (socket_list_head u) (socket_list_tail u) (socket_count u) (next_ephemeral_port u)
    (udp_initialized u) (udp_stats u) n (ud_heap u).
Definition set_uheap (h : H) u : udp H :=
  mk_udp (ud_sock u) (ud_dgram u) (ud_bytes u) (socket_list_head u) (socket_list_tail u) (socket_count u) (next_ephemeral_port u)
    (udp_initialized u) (udp_stats u) (ud_net u) h.
Definition usock_next u (p : Z) : Z := us_next (ud_sock u p).
Definition usock_prev u (p : Z) : Z := us_prev (ud_sock u p).
Definition dgram_next u (p : Z) : Z := dg_next (ud_dgram u p).
Definition free_ublock (p : Z) u : udp H := set_uheap (kh_free p (ud_heap u)) u.

(** ** Sockets *)

Definition socket_alloc u : udp H * Z :=
  if UDP_MAX_SOCKETS <=? socket_count u then (u, NULL)
  else
    let '(h, p) := kh_malloc sizeof_udp_socket (ud_heap u) in
    let u := set_uheap h u in
    if p =? NULL then (u, NULL) else (on_usock p (fun _ => zero_usock) u, p).

(** A queued datagram and its payload. *)
Definition free_dgram (d : Z) u : udp H :=
  let data := dg_data (ud_dgram u d) in
  free_ublock d (if negb (data =? NULL) then free_ublock data u else u).
Definition socket_free (p : Z) u : udp H :=
  if p =? NULL then u
  else
    let r := while_pos ADDRESSES (fun '(u, d) => if d =? NULL then inr u else inl (free_dgram d u, dgram_next u d)) (u, us_recv_head (ud_sock u p)) in
    free_ublock p (match r with inr u => u | inl (u, _) => u end).

Definition socket_list_add (p : Z) u : udp H :=
  let tl := socket_list_tail u in
  let u := on_usock p (set_us_links NULL tl) u in
  let u := if negb (tl =? NULL) then on_usock tl (fun s => set_us_links p (us_prev s) s) u
           else set_ulist p (socket_list_tail u) (socket_count u) u in
  set_ulist (socket_list_head u) p (u32 (socket_count u + 1)) u.
Definition socket_list_remove (p : Z) u : udp H :=
  let nx := usock_next u p in
  let pv := usock_prev u p in
  let u := if negb (pv =? NULL) then on_usock pv (fun s => set_us_links nx (us_prev s) s) u
           else set_ulist nx (socket_list_tail u) (socket_count u) u in
  let u := if negb (nx =? NULL) then on_usock nx (fun s => set_us_links (us_next s) pv s) u
           else set_ulist (socket_list_head u) pv (socket_count u) u in
  let u := on_usock p (set_us_links NULL NULL) u in
  set_ulist (socket_list_head u) (socket_list_tail u) (u32 (socket_count u - 1)) u.

Definition udp_find_socket (port : Z) u : Z :=
  find_linked (usock_next u) (fun s => us_bound (ud_sock u s) && (us_local_port (ud_sock u s) =? port)) (socket_list_head u).
Definition udp_port_in_use (port : Z) u : bool := negb (udp_find_socket port u =? NULL).

(** The counter is a uint16_t, so it never exceeds UDP_PORT_EPHEMERAL_MAX. *)
Definition advance_port u : udp H :=
  let nxt := u16 (next_ephemeral_port u + 1) in
  set_uport (if UDP_PORT_EPHEMERAL_MAX <? nxt then UDP_PORT_EPHEMERAL_MIN else nxt) u.
Definition uport_round (start : Z) u : udp H + (udp H * Z) :=
  let port := next_ephemeral_port u in
  if negb (udp_port_in_use port u) then inr (advance_port u, port)
  else
    let u := advance_port u in
    if next_ephemeral_port u =? start then inr (u, 0) else inl u.
Definition allocate_ephemeral_port u : udp H * Z :=
  match while_pos 65536 (uport_round (next_ephemeral_port u)) u with
  | inr r => r
  | inl u' => (u', 0)
  end.

(** ** The queue of a socket *)

Definition queue_datagram (p : Z) (data : list Z) (src_ip src_port : Z) u : udp H * Z :=
  if UDP_RECV_QUEUE_SIZE <=? us_recv_count (ud_sock u p) then (on_ustats count_queue_full u, UDP_ERR_NOBUFS)
  else
    let '(h, d) := kh_malloc sizeof_udp_datagram (ud_heap u) in
    let u := set_uheap h u in
    if d =? NULL then (u, UDP_ERR_NOMEM)
    else
      let '(h, buf) := kh_malloc (Z.of_nat (length data)) (ud_heap u) in
      let u := set_uheap h u in
      if buf =? NULL then (free_ublock d u, UDP_ERR_NOMEM)
      else
        let u := set_ubytes buf data u in
        let u := set_udgram d (mk_udgram buf (Z.of_nat (length data)) src_ip src_port NULL) u in
        let s := ud_sock u p in
        let u := if negb (us_recv_tail s =? NULL) then set_udgram (us_recv_tail s) (set_dg_next d (ud_dgram u (us_recv_tail s))) u
                 else on_usock p (set_us_queue d (us_recv_tail s) (us_recv_count s)) u in
        (on_usock p (fun s => set_us_queue (us_recv_head s) d (u32 (us_recv_count s + 1)) s) u, UDP_OK).
Definition dequeue_datagram (p : Z) u : udp H * Z :=
  let s := ud_sock u p in
  let d := us_recv_head s in
  if d =? NULL then (u, NULL)
  else
    let hd := dgram_next u d in
    let u := on_usock p (set_us_queue hd (if hd =? NULL then NULL else us_recv_tail s) (u32 (us_recv_count s - 1))) u in
    (set_udgram d (set_dg_next NULL (ud_dgram u d)) u, d).

(** ** The interface *)

Definition udp_init u : udp H :=
  if udp_initialized u then u
  else mk_udp (ud_sock u) (ud_dgram u) (ud_bytes u) NULL NULL 0 UDP_PORT_EPHEMERAL_MIN true zero_udp_stats (ud_net u) (ud_heap u).

Definition udp_bind (port : Z) u : udp H * Z :=
  if negb (udp_initialized u) then (u, NULL)
  else
    let '(u, port) := if port =? 0 then allocate_ephemeral_port u else (u, port) in
    if port =? 0 then (u, NULL)
    else if udp_port_in_use port u then (u, NULL)
    else
      let '(u, p) := socket_alloc u in
      if p =? NULL then (u, NULL) else (socket_list_add p (on_usock p (set_us_bound port 0) u), p).
Definition udp_unbind (port : Z) u : udp H * Z :=
  if negb (udp_initialized u) then (u, UDP_ERR_INVALID)
  else
    let p := udp_find_socket port u in
    if p =? NULL then (u, UDP_ERR_NOTBOUND) else (socket_free p (socket_list_remove p u), UDP_OK).
Definition udp_close (p : Z) u : udp H :=
  if p =? NULL then u else socket_free p (if us_bound (ud_sock u p) then socket_list_remove p u else u).

(** [data] is [None] for NULL, otherwise the bytes at the pointer. *)
Definition udp_send (dest_ip dest_port src_port : Z) (data : option (list Z)) (len : Z) u : udp H * Z :=
  if negb (udp_initialized u) then (u, UDP_ERR_INVALID)
  else if negb (bool_decide (is_Some data)) && (0 <? len) then (u, UDP_ERR_INVALID)
  else if UDP_MAX_PAYLOAD <? len then (u, UDP_ERR_TOOLARGE)
  else
    let udp_len := UDP_HEADER_LEN + len in
    let '(h, packet) := kh_malloc udp_len (ud_heap u) in
    let u := set_uheap h u in
    if packet =? NULL then (u, UDP_ERR_NOMEM)
    else
      let bytes := build_datagram (local_ip (ud_net u)) dest_ip src_port dest_port (take (Z.to_nat len) (default [] data)) in
      let '(n, result) := ip_send hw_result fresh dest_ip IP_PROTO_UDP (Some bytes) udp_len (ud_net u) in
      let u := free_ublock packet (set_unet n u) in
      if result <? 0 then (u, result) else (on_ustats (count_dgram_out len) u, len).
Definition udp_sendto (p : Z) (dest_ip dest_port : Z) (data : option (list Z)) (len : Z) u : udp H * Z :=
  if (p =? NULL) || negb (us_bound (ud_sock u p)) then (u, UDP_ERR_NOTBOUND)
  else udp_send dest_ip dest_port (us_local_port (ud_sock u p)) data len u.

(** [buf] is the address of the buffer; besides the result, the bytes stored there and the
    sender, when a datagram was taken. *)
Definition udp_recvfrom (p buf max_len : Z) u : udp H * Z * option (list Z * Z * Z) :=
  if (p =? NULL) || negb (us_bound (ud_sock u p)) then (u, UDP_ERR_NOTBOUND, None)
  else if (buf =? NULL) || (max_len =? 0) then (u, UDP_ERR_INVALID, None)
  else
    let '(u, d) := dequeue_datagram p u in
    if d =? NULL then (u, 0, None)
    else
      let g := ud_dgram u d in
      let copy_len := if dg_len g <? max_len then dg_len g else max_len in
      (free_ublock d (free_ublock (dg_data g) u), dg_len g, Some (take (Z.to_nat copy_len) (ud_bytes u (dg_data g)), dg_src_ip g, dg_src_port g)).
Definition udp_recv (port buf max_len : Z) u : udp H * Z * option (list Z * Z * Z) :=
  if negb (udp_initialized u) then (u, UDP_ERR_INVALID, None)
  else
    let p := udp_find_socket port u in
    if p =? NULL then (u, UDP_ERR_NOTBOUND, None) else udp_recvfrom p buf max_len u.

(** [packet] are the bytes of the IP payload, [None] for NULL. *)
Definition udp_input (src_ip : Z) (packet : option (list Z)) u : udp H * Z :=
  if negb (udp_initialized u) then (u, UDP_ERR_INVALID)
  else
    match packet with
    | None => (on_ustats count_invalid u, UDP_ERR_INVALID)
    | Some l =>
        let len := Z.of_nat (length l) in
        if len <? UDP_HEADER_LEN then (on_ustats count_invalid u, UDP_ERR_INVALID)
        else
          let src_port := ntohs (get16 l 0) in
          let dst_port := ntohs (get16 l 2) in
          let udp_len := ntohs (get16 l 4) in
          let checksum := get16 l 6 in
          if (udp_len <? UDP_HEADER_LEN) || (len <? udp_len) then (on_ustats count_invalid u, UDP_ERR_INVALID)
          else
            let calc := udp_checksum src_ip (local_ip (ud_net u)) (take (Z.to_nat udp_len) l) in
            if negb (checksum =? 0) && negb (calc =? 0) && negb (calc =? 0xFFFF) then (on_ustats count_bad_checksum u, UDP_ERR_INVALID)
            else
              let p := udp_find_socket dst_port u in
              if p =? NULL then (on_ustats count_unreachable u, UDP_ERR_NOTBOUND)
              else
                let payload := drop (Z.to_nat UDP_HEADER_LEN) (take (Z.to_nat udp_len) l) in
                let '(u, result) := queue_datagram p payload src_ip src_port u in
                if negb (result =? UDP_OK) then (u, result)
                else (on_ustats (count_dgram_in (Z.of_nat (length payload))) u, UDP_OK)
    end.

Definition udp_recv_queue_count (port : Z) u : Z :=
  let p := udp_find_socket port u in
  if p =? NULL then 0 else us_recv_count (ud_sock u p).
(** [flags |= f] or [flags &= ~f] *)
Definition switch_flag (f : Z) (on : bool) (s : udp_socket) : udp_socket :=
  set_us_flags (if on then Z.lor (us_flags s) f else Z.land (us_flags s) (u32 (Z.lnot f))) s.
Definition udp_set_nonblock (p : Z) (nonblock : bool) u : udp H :=
  if p =? NULL then u else on_usock p (switch_flag UDP_SOCK_FLAG_NONBLOCK nonblock) u.
Definition udp_set_broadcast (p : Z) (enable : bool) u : udp H :=
  if p =? NULL then u else on_usock p (switch_flag UDP_SOCK_FLAG_BROADCAST enable) u.
End Udp.
