(* ===== verification/UdpProps.v ===== *)
(** * UDP sockets are mailboxes (net/udp/udp.c)

    The socket list with its queues of datagrams represents a list of endpoints: an
    address, a port, flags and the datagrams that wait. Each call of the interface does to
    that list what it promises, whatever the heap answers, and every structure stays an
    allocation of its own. What udp_send builds is what udp_input accepts. *)
From S2P Require Import Prelude Memory Ring Netbuf Net Checksum Packets Chain TcpRing Udp.

(** ** Endpoints *)

(** A queued datagram: the two allocations, the payload and the sender. *)
Record entry := mk_dentry { q_node : Z; q_buf : Z; q_data : list Z; q_ip : Z; q_port : Z }.
Record endpoint := mk_endpoint { ep_addr : Z; ep_port : Z; ep_flags : Z; ep_queue : list entry }.
Definition ep_blocks (e : endpoint) : list Z := ep_addr e :: (ep_queue e ≫= fun x => [q_node x; q_buf x]).
Definition all_blocks (l : list endpoint) : list Z := l ≫= ep_blocks.
Definition last_addr (l : list Z) : Z := default NULL (last l).

Section Rep.
Context {H : Type} `{KernelHeap H}.
Implicit Types u : udp H.

Record entry_rep u (x : entry) : Prop := mk_entry_rep {
  er_data : dg_data (ud_dgram u (q_node x)) = q_buf x;
  er_len : dg_len (ud_dgram u (q_node x)) = Z.of_nat (length (q_data x));
  er_src : dg_src_ip (ud_dgram u (q_node x)) = q_ip x /\ dg_src_port (ud_dgram u (q_node x)) = q_port x;
  er_bytes : ud_bytes u (q_buf x) = q_data x;
}.
Record ep_rep u (e : endpoint) : Prop := mk_ep_rep {
  pr_port : us_local_port (ud_sock u (ep_addr e)) = ep_port e /\ us_bound (ud_sock u (ep_addr e)) = true;
  pr_flags : us_flags (ud_sock u (ep_addr e)) = ep_flags e;
  pr_chain : chained (dgram_next u) (us_recv_head (ud_sock u (ep_addr e))) (map q_node (ep_queue e));
  pr_tail : us_recv_tail (ud_sock u (ep_addr e)) = last_addr (map q_node (ep_queue e));
  pr_count : us_recv_count (ud_sock u (ep_addr e)) = Z.of_nat (length (ep_queue e)) /\ Z.of_nat (length (ep_queue e)) <= UDP_RECV_QUEUE_SIZE;
  pr_entries : Forall (entry_rep u) (ep_queue e);
}.
Record udp_rep u (l : list endpoint) : Prop := mk_udp_rep {
  ur_linked : linked (usock_next u) (usock_prev u) NULL (socket_list_head u) (map ep_addr l);
  ur_tail : socket_list_tail u = last_addr (map ep_addr l);
  ur_count : socket_count u = Z.of_nat (length l) /\ Z.of_nat (length l) <= UDP_MAX_SOCKETS;
  ur_eps : Forall (ep_rep u) l;
  ur_ports : NoDup (map ep_port l) /\ Forall (fun e => 0 < ep_port e < 65536) l;
  ur_nodup : NoDup (all_blocks l);
  ur_live : Forall (fun b => address b /\ kh_live (ud_heap u) b) (all_blocks l);
  ur_heap : kh_wf (ud_heap u);
  ur_next : 0 <= next_ephemeral_port u < 65536;
}.

(** ** Frames *)

Lemma addr_block l e : e ∈ l -> ep_addr e ∈ all_blocks l.
Proof. intros He. apply list_elem_of_bind. exists e. split; [left|done]. Qed.
Lemma entry_block l e x : e ∈ l -> x ∈ ep_queue e -> q_node x ∈ all_blocks l /\ q_buf x ∈ all_blocks l.
Proof.
  intros He Hx. assert (q_node x ∈ ep_blocks e /\ q_buf x ∈ ep_blocks e) as [H1 H2].
  { unfold ep_blocks. split; right; apply list_elem_of_bind; exists x; (split; [|done]); [left|right; left]. }
  split; apply list_elem_of_bind; by exists e.
Qed.
(** A socket without its place in the list, which an endpoint does not depend on. *)
Definition core (s : udp_socket) : udp_socket := set_us_links NULL NULL s.
Lemma ep_frame u u' e : ep_rep u e -> core (ud_sock u' (ep_addr e)) = core (ud_sock u (ep_addr e)) ->
  (forall x, x ∈ ep_queue e -> ud_dgram u' (q_node x) = ud_dgram u (q_node x) /\ ud_bytes u' (q_buf x) = ud_bytes u (q_buf x)) -> ep_rep u' e.
Proof.
  intros [P1 P2 P3 P4 P5 P6] Es Hx. unfold core, set_us_links in Es. injection Es as S1 _ S3 S4 S5 S6 S7. split; rewrite ?S1, ?S3, ?S4, ?S5, ?S6, ?S7; try done.
  - eapply chained_ext; [exact P3|]. intros d Hd. apply list_elem_of_fmap in Hd as (x & -> & Hin). unfold dgram_next. by rewrite (proj1 (Hx x Hin)).
  - apply Forall_forall. intros x Hin. rewrite Forall_forall in P6. destruct (P6 x Hin) as [E1 E2 E3 E4]. destruct (Hx x Hin) as [Hd Hb].
    split; rewrite ?Hd, ?Hb; done.
Qed.
Definition same_list u u' : Prop :=
  socket_list_head u' = socket_list_head u /\ socket_list_tail u' = socket_list_tail u /\ socket_count u' = socket_count u /\
  (0 <= next_ephemeral_port u < 65536 -> 0 <= next_ephemeral_port u' < 65536).
(** Steps that touch no block of the endpoints. *)
Lemma rep_frame u u' l : udp_rep u l -> same_list u u' ->
  (forall b, b ∈ all_blocks l -> ud_sock u' b = ud_sock u b /\ ud_dgram u' b = ud_dgram u b /\ ud_bytes u' b = ud_bytes u b /\ (kh_live (ud_heap u) b -> kh_live (ud_heap u') b)) ->
  kh_wf (ud_heap u') -> udp_rep u' l.
Proof.
  intros [R1 R2 R3 R4 R5 R6 R7 R8 R9] (L1 & L2 & L3 & L4) Hb Hw. split; rewrite ?L1, ?L2, ?L3; try done.
  - eapply linked_ext; [exact R1|]. intros a Ha. apply list_elem_of_fmap in Ha as (e & -> & He). unfold usock_next, usock_prev.
    by rewrite (proj1 (Hb _ (addr_block l e He))).
  - apply Forall_forall. intros e He. rewrite Forall_forall in R4. apply (ep_frame u); [by apply R4|f_equal; apply Hb; by apply addr_block|].
    intros x Hx. destruct (entry_block l e x He Hx) as [B1 B2]. split; [apply (Hb _ B1)|apply (Hb _ B2)].
  - apply Forall_forall. intros b Hin. rewrite Forall_forall in R7. destruct (R7 b Hin) as [A B]. split; [done|]. by apply (Hb b Hin).
  - by apply L4.
Qed.
Lemma rep_live u l b : udp_rep u l -> b ∈ all_blocks l -> address b /\ kh_live (ud_heap u) b.
Proof. intros R Hb. pose proof (ur_live _ _ R) as R7. rewrite Forall_forall in R7. by apply R7. Qed.
End Rep.

(** ** Lists with a tail pointer *)

Lemma last_addr_one_more l a : last_addr (l ++ [a]) = a.
Proof. unfold last_addr. by rewrite last_snoc. Qed.
Lemma last_addr_null l : Forall address l -> last_addr l = NULL <-> l = [].
Proof.
  destruct l as [|a l _] using rev_ind; [done|]. rewrite last_addr_one_more. intros Hf. apply Forall_app in Hf as [_ Hf]. apply Forall_cons in Hf as [Ha _].
  unfold address, NULL in *. split; [lia|]. intros E. by destruct l.
Qed.
Lemma last_addr_in l : l <> [] -> last_addr l ∈ l.
Proof. destruct l as [|a l _] using rev_ind; [done|]. intros _. rewrite last_addr_one_more. apply elem_of_app. right. left. Qed.

Lemma linked_append nx pv p l a : linked nx pv NULL p l -> NoDup (l ++ [a]) -> address a ->
  linked (if last_addr l =? NULL then upd nx a NULL else upd (upd nx a NULL) (last_addr l) a) (upd pv a (last_addr l)) NULL
    (if last_addr l =? NULL then a else p) (l ++ [a]).
Proof.
  intros Hl Hnd Ha. pose proof (linked_addresses _ _ _ _ _ Hl) as Had. apply NoDup_app in Hnd as (Hnd & Hni & _).
  assert (forall x, x ∈ l -> x <> a) as Hne by (intros x Hx ->; apply (Hni a Hx); left).
  destruct l as [|b l _] using rev_ind.
  - simpl. rewrite upd_same, upd_same. done.
  - rewrite last_addr_one_more. assert (address b) as Hb by (rewrite Forall_forall in Had; apply Had, elem_of_app; right; left).
    pose proof Hb as Hb'. unfold address in Hb'. rewrite (proj2 (Z.eqb_neq b NULL)) by (unfold NULL; lia).
    assert (b <> a) as Hba by (apply Hne, elem_of_app; right; left). apply NoDup_app in Hnd as (_ & Hnb & _).
    rewrite <- app_assoc. simpl. apply linked_app in Hl as (q & p' & Hs & (-> & _ & Hq & Hn)).
    apply linked_app. exists q, b. split.
    + eapply segment_ext; [exact Hs|]. intros c Hc. assert (c <> b) by (intros ->; apply (Hnb b Hc); left).
      rewrite (upd_other _ b), !(upd_other _ a) by (first [done|apply Hne, elem_of_app; by left]). done.
    + simpl. rewrite upd_same, (upd_other pv a b), upd_same by done. do 3 (split; [done|]). do 3 (split; [done|]).
      rewrite (upd_other _ b) by done. apply upd_same.
Qed.
(** The neighbours of an element. *)
Lemma linked_prev nx pv p l1 a l2 : linked nx pv NULL p (l1 ++ a :: l2) -> pv a = last_addr l1.
Proof.
  intros Hl. apply linked_app in Hl as (q & p' & Hs & (-> & _ & Hq & _)). destruct l1 as [|b l1 _] using rev_ind.
  - destruct Hs as [<- _]. done.
  - apply segment_snoc in Hs as (-> & _). by rewrite last_addr_one_more.
Qed.
Lemma ulinked_next nx pv q p l1 a l2 : linked nx pv q p (l1 ++ a :: l2) -> nx a = default NULL (head l2).
Proof.
  intros Hl. apply linked_app in Hl as (q' & p' & _ & (-> & _ & _ & Hn)). destruct l2; [done|]. apply Hn.
Qed.
Lemma chained_append nx p l a : chained nx p l -> NoDup (l ++ [a]) -> address a -> nx a = NULL ->
  chained (if last_addr l =? NULL then nx else upd nx (last_addr l) a) (if last_addr l =? NULL then a else p) (l ++ [a]).
Proof.
  intros Hl Hnd Ha Hn. pose proof (chained_addresses _ _ _ Hl) as Had. apply NoDup_app in Hnd as (Hnd & Hni & _).
  destruct l as [|b l]; [simpl; by rewrite Hn|].
  assert (last_addr (b :: l) <> NULL) as Hl0 by (by rewrite last_addr_null).
  rewrite (proj2 (Z.eqb_neq _ _) Hl0). clear Hl0. revert b p Hl Hnd Had Hni. induction l as [|c l IH]; intros b p Hl Hnd Had Hni.
  - destruct Hl as (-> & Hb & Hc). unfold last_addr. simpl. rewrite upd_same. do 4 (split; [done|]). rewrite upd_other; [done|].
    intros ->. apply (Hni b); [left|left].
  - destruct Hl as (-> & Hb & Hc). apply NoDup_cons in Hnd as [Hbl Hnd]. apply Forall_cons in Had as [_ Had].
    assert (last_addr (b :: c :: l) = last_addr (c :: l)) as -> by done. split; [done|]. split; [done|].
    assert (b <> last_addr (c :: l)) as Hbne by (intros E; apply Hbl; rewrite E; by apply last_addr_in).
    rewrite upd_other by done. apply IH; [done|done|done|]. intros x Hx. apply Hni. by right.
Qed.

Section Ops.
Context {H : Type} `{KernelHeapLaws H}.
Variable hw_result : list Z -> Z.
Variable fresh : Z -> Z.
Implicit Types u : udp H.

Lemma addrs_nodup u l : udp_rep u l -> NoDup (map ep_addr l) /\ Forall address (map ep_addr l).
Proof.
  intros R. split; [|eapply linked_addresses, R]. pose proof (ur_nodup _ _ R) as Hn. clear R. induction l as [|e l IH]; [constructor|].
  unfold all_blocks in Hn. simpl in Hn. apply NoDup_cons in Hn as [Hni Hn]. apply NoDup_app in Hn as (_ & _ & Hn). simpl. apply NoDup_cons. split; [|by apply IH].
  intros Hin. apply Hni, elem_of_app. right. apply list_elem_of_fmap in Hin as (x & E & Hx). rewrite E. by apply addr_block.
Qed.
Lemma find_socket_ok u l port : udp_rep u l ->
  (udp_find_socket port u = NULL /\ port ∉ map ep_port l) \/
  (exists l1 e l2, l = l1 ++ e :: l2 /\ ep_port e = port /\ udp_find_socket port u = ep_addr e /\ ep_addr e <> NULL).
Proof.
  intros R. destruct (addrs_nodup u l R) as [Hnd Had]. unfold udp_find_socket. rewrite (find_linked_first _ _ _ _ _ _ (ur_linked _ _ R) Hnd).
  set (test := fun s => _). assert (forall e, e ∈ l -> test (ep_addr e) = (ep_port e =? port)) as Ht.
  { intros e He. pose proof (ur_eps _ _ R) as Re. rewrite Forall_forall in Re. destruct (Re e He) as [[P1 P2] _ _ _ _ _]. unfold test. by rewrite P1, P2. }
  destruct (Z.eq_dec (first_of test (map ep_addr l)) NULL) as [E|N].
  - left. split; [done|]. rewrite first_of_none in E by done. intros (e & Ee & He)%list_elem_of_fmap. specialize (E (ep_addr e)).
    rewrite Ht in E by done. rewrite <- Ee, Z.eqb_refl in E. discriminate E. apply list_elem_of_fmap. by exists e.
  - right. pose proof N as N'. apply first_of_some in N as [Hin Ht2]. apply list_elem_of_fmap in Hin as (e & E & He).
    apply list_elem_of_split in He as (l1 & l2 & ->). exists l1, e, l2. split; [done|]. split; [|by rewrite <- E].
    rewrite E, Ht in Ht2 by (apply elem_of_app; right; left). lia.
Qed.
(** The port numbers identify the endpoints. *)
Lemma port_in_use_ok u l port : udp_rep u l -> udp_port_in_use port u = true <-> port ∈ map ep_port l.
Proof.
  intros R. unfold udp_port_in_use. destruct (find_socket_ok u l port R) as [[-> Hn]|(l1 & e & l2 & -> & Ep & -> & Hn)].
  - rewrite Z.eqb_refl. by split.
  - rewrite (proj2 (Z.eqb_neq _ _) Hn). split; [|done]. intros _. rewrite map_app. apply elem_of_app. right. rewrite <- Ep. left.
Qed.

(** ** New endpoints *)

(** A new allocation is none of the blocks. *)
Lemma malloc_rep u l size h p : udp_rep u l -> request size -> kh_malloc size (ud_heap u) = (h, p) ->
  udp_rep (set_uheap h u) l /\ (p = NULL \/ (p <> NULL /\ address p /\ (p ∉ all_blocks l) /\ kh_live h p)).
Proof.
  intros R Hq E. destruct (kh_malloc_ok _ _ _ _ (ur_heap _ _ R) Hq E) as [[-> ->]|(Ha & Hn & Hw & Hl)].
  - split; [|by left]. by apply (rep_frame u); [|split|..|apply R].
  - split.
    + apply (rep_frame u); [done|done| |done]. intros b Hb. do 3 (split; [done|]). intros Hb'. apply Hl. by left.
    + right. unfold address in *. split; [unfold NULL; lia|]. split; [done|]. split; [|apply Hl; by right].
      intros Hb. apply Hn. by apply (rep_live u l).
Qed.
Definition new_endpoint (p port : Z) : endpoint := mk_endpoint p port 0 [].

(** What socket_list_add changes. *)
Record list_added (p : Z) u u' : Prop := mk_list_added {
  la_new : ud_sock u' p = set_us_links NULL (socket_list_tail u) (ud_sock u p);
  la_last : socket_list_tail u <> NULL -> ud_sock u' (socket_list_tail u) = set_us_links p (usock_prev u (socket_list_tail u)) (ud_sock u (socket_list_tail u));
  la_other : forall a, a <> p -> a <> socket_list_tail u \/ socket_list_tail u = NULL -> ud_sock u' a = ud_sock u a;
  la_list : socket_list_head u' = (if socket_list_tail u =? NULL then p else socket_list_head u) /\ socket_list_tail u' = p /\
            socket_count u' = u32 (socket_count u + 1);
  la_same : ud_dgram u' = ud_dgram u /\ ud_bytes u' = ud_bytes u /\ ud_heap u' = ud_heap u /\ next_ephemeral_port u' = next_ephemeral_port u;
}.
Lemma socket_list_add_ok p u : socket_list_tail u <> p -> list_added p u (socket_list_add p u).
Proof.
  intros Hne. unfold socket_list_add. cbn [socket_list_tail on_usock set_usocks]. set (tl := socket_list_tail u) in *.
  destruct (Z.eqb_spec tl NULL) as [E|N]; cbn [negb]; split; cbn; fold tl; rewrite ?(proj2 (Z.eqb_eq tl NULL) E), ?(proj2 (Z.eqb_neq tl NULL) N); try done.
  - by rewrite upd_same.
  - intros a Ha _. by rewrite upd_other.
  - by rewrite upd_other, upd_same by done.
  - intros _. by rewrite upd_same, upd_other.
  - intros a Ha [Ht|Ht]; [by rewrite !upd_other|done].
Qed.
Lemma added_core p u u' a : list_added p u u' -> a <> p -> core (ud_sock u' a) = core (ud_sock u a).
Proof.
  intros [_ L2 L3 _ _] Ha. destruct (Z.eq_dec (socket_list_tail u) NULL) as [E|N]; [by rewrite L3 by auto|].
  destruct (Z.eq_dec a (socket_list_tail u)) as [->|Ht]; [by rewrite L2|by rewrite L3 by auto].
Qed.
Lemma added_linked p u u' l : list_added p u u' -> linked (usock_next u) (usock_prev u) NULL (socket_list_head u) l -> socket_list_tail u = last_addr l ->
  NoDup (l ++ [p]) -> address p -> linked (usock_next u') (usock_prev u') NULL (socket_list_head u') (l ++ [p]).
Proof.
  intros [L1 L2 L3 (L4 & _) _] Hl Et Hnd Ha. pose proof (linked_append _ _ _ _ p Hl Hnd Ha) as Hap. rewrite <- Et in Hap. rewrite L4.
  assert (socket_list_tail u <> p) as Hne.
  { rewrite Et. destruct l as [|b l _] using rev_ind; [unfold last_addr, address, NULL in *; simpl; lia|]. rewrite last_addr_one_more. intros ->.
    apply NoDup_app in Hnd as (_ & Hnd & _). apply (Hnd p); [apply elem_of_app; right; left|left]. }
  set (tl := socket_list_tail u) in *. eapply linked_ext; [exact Hap|]. intros a Hin. unfold usock_next, usock_prev.
  destruct (Z.eq_dec a p) as [->|Hp].
  { rewrite L1. cbn. rewrite upd_same. destruct (Z.eqb_spec tl NULL); [by rewrite upd_same|]. by rewrite (upd_other _ tl), upd_same by done. }
  rewrite (upd_other _ p _ a) by done. destruct (Z.eq_dec a tl) as [->|Hat].
  - destruct (Z.eqb_spec tl NULL) as [E|N]; [by rewrite (upd_other _ p), L3 by auto|]. rewrite L2 by done. cbn. by rewrite upd_same.
  - rewrite L3 by auto. destruct (Z.eqb_spec tl NULL); [by rewrite upd_other|]. by rewrite !upd_other.
Qed.
Lemma add_rep u l p port : udp_rep u l -> address p -> (p ∉ all_blocks l) -> kh_live (ud_heap u) p -> ud_sock u p = zero_usock ->
  0 < port < 65536 -> (port ∉ map ep_port l) -> Z.of_nat (length l) < UDP_MAX_SOCKETS ->
  udp_rep (socket_list_add p (on_usock p (set_us_bound port 0) u)) (l ++ [new_endpoint p port]).
Proof.
  intros R Ha Hni Hlv Ez Hport Hfree Hmax. pose proof R as [R1 R2 R3 R4 R5 R6 R7 R8 R9]. destruct (addrs_nodup u l R) as [Hnd Had].
  assert (forall e, e ∈ l -> ep_addr e <> p) as Hne by (intros e He <-; by apply Hni, addr_block).
  set (u0 := on_usock p (set_us_bound port 0) u).
  assert (NoDup (map ep_addr l ++ [p])) as Hnd'.
  { apply NoDup_app. split; [done|]. split; [|apply NoDup_singleton]. intros x (e & -> & He)%list_elem_of_fmap Hx%list_elem_of_singleton. by apply (Hne e). }
  assert (linked (usock_next u0) (usock_prev u0) NULL (socket_list_head u0) (map ep_addr l)) as Hl0.
  { eapply linked_ext; [exact R1|]. intros a (e & -> & He)%list_elem_of_fmap. unfold usock_next, usock_prev, u0. cbn. by rewrite upd_other by (by apply Hne). }
  assert (socket_list_tail u0 <> p) as Htp.
  { cbn. rewrite R2. intros E. destruct (map ep_addr l) as [|b bs] eqn:Em; [unfold last_addr, address, NULL in *; simpl in E; lia|].
    apply NoDup_app in Hnd' as (_ & Hd & _). apply (Hd p); [rewrite <- E; by apply last_addr_in|left]. }
  pose proof (socket_list_add_ok p u0 Htp) as Hadd. pose proof Hadd as [A1 A2 A3 (A4 & A5 & A6) (A7 & A8 & A9 & A10)]. set (u' := socket_list_add p u0) in *.
  assert (ud_sock u' p = mk_usock port 0 true NULL NULL 0 0 NULL (socket_list_tail u)) as Ep by (rewrite A1; cbn; by rewrite upd_same, Ez).
  split.
  - rewrite map_app. by apply (added_linked p u0).
  - rewrite A5, map_app. simpl. by rewrite last_addr_one_more.
  - rewrite A6, length_app. cbn. rewrite (proj1 R3). unfold UDP_MAX_SOCKETS in *. unfold u32. rewrite Z.mod_small by lia. lia.
  - apply Forall_app. split; [|apply Forall_singleton].
    + apply Forall_forall. intros e He. rewrite Forall_forall in R4. apply (ep_frame u); [by apply R4| |intros x _; by rewrite A7, A8].
      rewrite (added_core p u0) by (first [done|by apply Hne]). cbn. by rewrite upd_other by (by apply Hne).
    + split; cbn [ep_addr new_endpoint ep_queue ep_port ep_flags map]; rewrite ?Ep; done.
  - split; [|apply Forall_app; split; [apply R5|by apply Forall_singleton]].
    rewrite map_app. apply NoDup_app. split; [apply R5|]. split; [|apply NoDup_singleton]. by intros x Hx ->%list_elem_of_singleton.
  - unfold all_blocks. rewrite bind_app. apply NoDup_app. split; [done|]. split; [|apply NoDup_singleton]. by intros x Hx ->%list_elem_of_singleton.
  - unfold all_blocks. rewrite bind_app, A9. apply Forall_app. split; [done|]. by apply Forall_singleton.
  - by rewrite A9.
  - by rewrite A10.
Qed.

(** ** Ephemeral ports *)

Lemma advance_frame u l : udp_rep u l -> udp_rep (advance_port u) l.
Proof.
  intros R. apply (rep_frame u); [done| |done|apply R]. split; [done|]. split; [done|]. split; [done|]. intros _. unfold advance_port. cbn.
  pose proof (Z.mod_pos_bound (next_ephemeral_port u + 1) (2 ^ 16)). unfold UDP_PORT_EPHEMERAL_MAX, UDP_PORT_EPHEMERAL_MIN, u16. destruct (_ <? _); lia.
Qed.
(** One of these requests in a row gets no block. *)
Fixpoint denied (sizes : list Z) (h : H) : Prop :=
  match sizes with
  | [] => False
  | n :: sizes => let '(h', p) := kh_malloc n h in p = NULL \/ denied sizes h'
  end.
(** No port from the next one up to the last is free, so that the search comes to port 0. *)
Definition ports_used u (l : list endpoint) : Prop :=
  next_ephemeral_port u = 0 \/ forall q, next_ephemeral_port u <= q < 65536 -> q ∈ map ep_port l.

(** What the search has found when it looks at the next port. *)
Definition searched (l : list endpoint) u v : Prop :=
  udp_rep v l /\ socket_count v = socket_count u /\ ud_heap v = ud_heap u /\
  (next_ephemeral_port v = 0 -> ports_used u l) /\
  (next_ephemeral_port v <> 0 -> next_ephemeral_port u <= next_ephemeral_port v /\ forall q, next_ephemeral_port u <= q < next_ephemeral_port v -> q ∈ map ep_port l).
Definition search_result (l : list endpoint) u (r : udp H * Z) : Prop :=
  udp_rep (fst r) l /\ 0 <= snd r < 65536 /\ (snd r ∉ map ep_port l) /\ socket_count (fst r) = socket_count u /\ ud_heap (fst r) = ud_heap u /\
  (snd r = 0 -> ports_used u l).
Lemma zero_port_free u l : udp_rep u l -> 0 ∉ map ep_port l.
Proof. intros R (e & E & He)%list_elem_of_fmap. pose proof (proj2 (ur_ports _ _ R)) as Hp. rewrite Forall_forall in Hp. specialize (Hp e He). lia. Qed.
Lemma next_port_val u : 0 <= next_ephemeral_port u < 65536 ->
  next_ephemeral_port (advance_port u) = if next_ephemeral_port u =? 65535 then 0 else next_ephemeral_port u + 1.
Proof. intros Hn. unfold advance_port, UDP_PORT_EPHEMERAL_MAX. cbn. unfold u16. destruct (Z.eqb_spec (next_ephemeral_port u) 65535) as [->|N]; [done|]. rewrite Z.mod_small by lia. rewrite (proj2 (Z.ltb_ge _ _)) by lia. done. Qed.
Lemma search_round u l v : searched l u v ->
  match uport_round (next_ephemeral_port u) v with
  | inl v' => searched l u v' /\ 0 <= (65536 - next_ephemeral_port v') mod 65536 < (65536 - next_ephemeral_port v) mod 65536
  | inr r => search_result l u r
  end.
Proof.
  intros (Rv & E1 & E2 & Hz & Hnz). unfold uport_round. pose proof (advance_frame v l Rv) as Ra. pose proof (ur_next _ _ Rv) as Hn. pose proof (next_port_val v Hn) as En.
  destruct (udp_port_in_use _ v) eqn:Eu; cbn [negb].
  - apply (port_in_use_ok v l) in Eu; [|done]. assert (next_ephemeral_port v <> 0) as Nz by (intros E; rewrite E in Eu; by apply (zero_port_free v l)).
    destruct (Hnz Nz) as [Hle Hall]. assert (forall q, next_ephemeral_port u <= q < next_ephemeral_port v + 1 -> q ∈ map ep_port l) as Hall'.
    { intros q Hq. destruct (Z.eq_dec q (next_ephemeral_port v)) as [->|]; [done|]. apply Hall. lia. }
    destruct (Z.eqb_spec (next_ephemeral_port v) 65535) as [E|N]; rewrite En.
    + assert (ports_used u l) as Hu by (right; intros q Hq; apply Hall'; lia). destruct (Z.eqb_spec 0 (next_ephemeral_port u)).
      * split; cbn; [done|]. split; [lia|]. split; [by apply (zero_port_free v l)|]. done.
      * split; [|rewrite En, E; by vm_compute]. unfold searched. rewrite En. do 3 (split; [done|]). done.
    + rewrite (proj2 (Z.eqb_neq _ _)) by lia. split; [|rewrite En, !Z.mod_small by lia; lia].
      unfold searched. rewrite En. do 3 (split; [done|]). split; [lia|]. intros _. split; [lia|done].
  - split; cbn [fst snd]; [done|]. split; [done|]. split; [intros Hin; apply (port_in_use_ok v l) in Hin; [congruence|done]|]. done.
Qed.
Lemma ephemeral_ok u l u' port : udp_rep u l -> allocate_ephemeral_port u = (u', port) -> search_result l u (u', port).
Proof.
  intros R. unfold allocate_ephemeral_port.
  destruct (while_pos_done (searched l u) (search_result l u) (fun v => (65536 - next_ephemeral_port v) mod 65536) (uport_round (next_ephemeral_port u)) 65536 u) as (r & -> & Hr).
  - split; [done|]. do 2 (split; [done|]). split; [by left|]. intros _. split; [lia|]. intros q Hq. lia.
  - apply Z.mod_pos_bound. lia.
  - apply search_round.
  - by intros ->.
Qed.

Lemma bind_rep u l port u' p : udp_rep u l -> 0 <= port < 65536 -> udp_bind port u = (u', p) ->
  (p = NULL /\ udp_rep u' l /\ (udp_initialized u = false \/ (port = 0 /\ ports_used u l) \/ port ∈ map ep_port l \/ Z.of_nat (length l) = UDP_MAX_SOCKETS \/ denied [sizeof_udp_socket] (ud_heap u))) \/
  (exists q, (port = 0 \/ q = port) /\ (q ∉ map ep_port l) /\ (p ∉ all_blocks l) /\ p <> NULL /\ udp_rep u' (l ++ [new_endpoint p q])).
Proof.
  intros R Hport. unfold udp_bind. destruct (udp_initialized u); cbn [negb]; [|intros [= <- <-]; left; auto].
  destruct (if port =? 0 then allocate_ephemeral_port u else (u, port)) as [u1 q] eqn:Eq.
  assert (udp_rep u1 l /\ 0 <= q < 65536 /\ ((port = 0 /\ (q = 0 -> ports_used u l) /\ (q ∉ map ep_port l)) \/ (port <> 0 /\ q = port)) /\ ud_heap u1 = ud_heap u) as (R1 & Hq & Hpq & Eh).
  { destruct (Z.eqb_spec port 0) as [->|N]; [|injection Eq as <- <-; do 2 (split; [done|]); split; [by right|done]].
    destruct (ephemeral_ok u l u1 q R Eq) as (R1 & Hq & Hf & _ & Eh & Hz). do 2 (split; [done|]). split; [by left|done]. }
  destruct (Z.eqb_spec q 0) as [->|Nq]; [intros [= <- <-]; left; split_and!; [done|done|]; destruct Hpq as [(-> & Hz & _)|[? E0]]; [right; left; auto|by destruct E0]|].
  destruct (udp_port_in_use q u1) eqn:Eu; [intros [= <- <-]; left; split_and!; [done|done|]; apply (port_in_use_ok u1 l) in Eu; [|done]; destruct Hpq as [(-> & _ & Hf)|[? <-]]; [done|tauto]|].
  assert (q ∉ map ep_port l) as Hfree by (intros Hin; apply (port_in_use_ok u1 l) in Hin; [congruence|done]).
  unfold socket_alloc. pose proof (ur_count _ _ R1) as [Ec Hc]. destruct (Z.leb_spec UDP_MAX_SOCKETS (socket_count u1)) as [Hfull|Hroom].
  { cbn. intros [= <- <-]. left. split; [done|]. split; [done|]. do 3 right. left. lia. }
  destruct (kh_malloc sizeof_udp_socket (ud_heap u1)) as [h a] eqn:Em.
  destruct (malloc_rep u1 l sizeof_udp_socket h a R1 ltac:(unfold request, sizeof_udp_socket; lia) Em) as [R2 [-> |(Hn & Ha & Hni & Hlv)]].
  { cbn. intros [= <- <-]. left. split; [done|]. split; [done|]. do 4 right. cbn [denied]. rewrite <- Eh, Em. by left. }
  rewrite (proj2 (Z.eqb_neq _ _) Hn). cbn iota beta. rewrite (proj2 (Z.eqb_neq _ _) Hn). intros [= <- <-]. right. exists q.
  split; [destruct Hpq as [(-> & _ & _)|[? ?]]; auto|]. do 3 (split; [done|]). apply add_rep; try done.
  - apply (rep_frame (set_uheap h u1)); [done|by split_and!| |apply R2]. intros b Hb. cbn. rewrite upd_other by (by intros ->). done.
  - cbn. by rewrite upd_same.
  - lia.
  - rewrite (proj1 (ur_count _ _ R1)) in Hroom. done.
Qed.

(** ** Removing endpoints *)

Record list_removed (p : Z) u u' : Prop := mk_list_removed {
  lr_next : forall a, usock_next u' a = upd (if usock_prev u p =? NULL then usock_next u else upd (usock_next u) (usock_prev u p) (usock_next u p)) p NULL a;
  lr_prev : forall a, usock_prev u' a = upd (unlink_prev (usock_next u) (usock_prev u) p) p NULL a;
  lr_core : forall a, core (ud_sock u' a) = core (ud_sock u a);
  lr_list : socket_list_head u' = (if usock_prev u p =? NULL then usock_next u p else socket_list_head u) /\
            socket_list_tail u' = (if usock_next u p =? NULL then usock_prev u p else socket_list_tail u) /\ socket_count u' = u32 (socket_count u - 1);
  lr_same : ud_dgram u' = ud_dgram u /\ ud_bytes u' = ud_bytes u /\ ud_heap u' = ud_heap u /\ next_ephemeral_port u' = next_ephemeral_port u;
}.
Lemma on_usock_link p f u a : (forall s, core (f s) = core s) -> core (ud_sock (on_usock p f u) a) = core (ud_sock u a).
Proof. intros Hf. cbn. unfold upd. destruct (Z.eqb_spec a p) as [->|]; [apply Hf|done]. Qed.
Lemma socket_list_remove_ok p u : list_removed p u (socket_list_remove p u).
Proof.
  unfold socket_list_remove. set (nx := usock_next u p). set (pv := usock_prev u p).
  split; unfold unlink_prev; fold nx pv.
  - intros a. destruct (Z.eqb_spec pv NULL), (Z.eqb_spec nx NULL); cbn [negb]; unfold usock_next; cbn; unfold upd;
      destruct (Z.eqb_spec a p); try done; destruct (Z.eqb_spec a nx) as [Ex|]; rewrite <- ?Ex; destruct (Z.eqb_spec a pv); done.
  - intros a. destruct (Z.eqb_spec pv NULL), (Z.eqb_spec nx NULL); cbn [negb]; unfold usock_prev; cbn; unfold upd;
      destruct (Z.eqb_spec a p); try done; destruct (Z.eqb_spec a pv) as [Ex|]; rewrite <- ?Ex; destruct (Z.eqb_spec a nx); done.
  - intros a. cbn [ud_sock set_ulist]. destruct (negb (pv =? NULL)), (negb (nx =? NULL)); cbn [ud_sock set_ulist]; repeat (rewrite on_usock_link by (intros; reflexivity); cbn [ud_sock set_ulist]); reflexivity.
  - by destruct (Z.eqb_spec pv NULL), (Z.eqb_spec nx NULL).
  - by destruct (Z.eqb_spec pv NULL), (Z.eqb_spec nx NULL).
Qed.

(** The blocks of an endpoint and those of the others. *)
Lemma blocks_split l1 e l2 : all_blocks (l1 ++ e :: l2) ≡ₚ ep_blocks e ++ all_blocks (l1 ++ l2).
Proof. unfold all_blocks. rewrite !bind_app. simpl. change (e :: l2) with ([e] ++ l2). rewrite ?bind_app. simpl. rewrite ?app_nil_r. solve_Permutation. Qed.
Lemma other_blocks u l1 e l2 : udp_rep u (l1 ++ e :: l2) -> NoDup (all_blocks (l1 ++ l2)) /\ NoDup (ep_blocks e) /\
  forall b, b ∈ ep_blocks e -> b ∈ all_blocks (l1 ++ e :: l2) /\ b ∉ all_blocks (l1 ++ l2).
Proof.
  intros R. pose proof (ur_nodup _ _ R) as Hn. rewrite blocks_split in Hn. apply NoDup_app in Hn as (H1' & H2' & H3'). do 2 (split; [done|]).
  intros b Hb. split; [|by apply H2']. rewrite blocks_split. apply elem_of_app. by left.
Qed.
Lemma remove_rep u l1 e l2 : udp_rep u (l1 ++ e :: l2) -> udp_rep (socket_list_remove (ep_addr e) u) (l1 ++ l2).
Proof.
  intros R. pose proof R as [R1 R2 R3 R4 R5 R6 R7 R8 R9]. destruct (addrs_nodup _ _ R) as [Hnd Had]. destruct (other_blocks u l1 e l2 R) as [Hb1 [_ Hb2]].
  destruct (socket_list_remove_ok (ep_addr e) u) as [L1 L2 L3 (L4 & L5 & L6) (L7 & L8 & L9 & L10)]. set (u' := socket_list_remove _ u) in *.
  rewrite map_app in R1, Hnd, R2, Had. cbn [map] in R1, Hnd, R2, Had. split.
  - rewrite map_app, L4. eapply linked_ext; [exact (linked_remove _ _ _ _ _ _ R1 Hnd)|]. intros a _. by rewrite L1, L2.
  - rewrite L5, R2, map_app, (ulinked_next _ _ _ _ _ _ _ R1), (linked_prev _ _ _ _ _ _ R1). apply Forall_app in Had as [_ Had]. apply Forall_cons in Had as [_ Had].
    destruct l2 as [|x l2]; simpl; [by rewrite app_nil_r|]. cbn [map] in Had. apply Forall_cons in Had as [Hx _].
    unfold address in Hx. rewrite (proj2 (Z.eqb_neq (ep_addr x) NULL)) by (unfold NULL; lia). unfold last_addr. by rewrite !last_app.
  - rewrite L6, (proj1 R3). destruct R3 as [_ R3]. pose proof (length_app l1 (e :: l2)) as E1. pose proof (length_app l1 l2) as E2. cbn [length] in E1.
    unfold UDP_MAX_SOCKETS, u32 in *. rewrite Z.mod_small by lia. lia.
  - apply Forall_forall. intros x Hx. assert (x ∈ l1 ++ e :: l2) as Hx' by (apply elem_of_app in Hx as [Hx|Hx]; apply elem_of_app; [by left|right; by right]).
    rewrite Forall_forall in R4. apply (ep_frame u); [by apply R4|apply L3|intros y _; by rewrite L7, L8].
  - destruct R5 as [P1 P2]. rewrite map_app in *. cbn [map] in P1. split.
    + apply NoDup_app in P1 as (Q1 & Q2 & [Q3 Q4]%NoDup_cons). apply NoDup_app. split; [done|]. split; [|done]. intros x Hx Hy. apply (Q2 x Hx). by right.
    + apply Forall_app in P2 as [P2 P3]. apply Forall_cons in P3 as [_ P3]. by apply Forall_app.
  - done.
  - rewrite L9. apply Forall_forall. intros b Hb. rewrite Forall_forall in R7. apply R7. rewrite blocks_split. apply elem_of_app. by right.
  - by rewrite L9.
  - by rewrite L10.
Qed.

(** Freeing blocks changes the heap only. *)
Definition freed (bs : list Z) u u' : Prop :=
  exists h, u' = set_uheap h u /\ kh_wf h /\ forall q, kh_live h q <-> kh_live (ud_heap u) q /\ q ∉ bs.
Lemma freed_nil u : kh_wf (ud_heap u) -> freed [] u u.
Proof. intros Hw. exists (ud_heap u). split; [by destruct u|]. split; [done|]. intros q. split; [|by intros [? _]]. intros Hq. split; [done|apply not_elem_of_nil]. Qed.
Lemma freed_one b u : kh_wf (ud_heap u) -> kh_live (ud_heap u) b -> freed [b] u (free_ublock b u).
Proof.
  intros Hw Hl. destruct (kh_free_ok _ _ Hw Hl) as [Hw' Hl']. eexists. split; [reflexivity|]. split; [done|]. intros q.
  by rewrite Hl', list_elem_of_singleton.
Qed.
Lemma freed_trans b1 b2 u1 u2 u3 : freed b1 u1 u2 -> freed b2 u2 u3 -> freed (b1 ++ b2) u1 u3.
Proof.
  intros (h2 & -> & W2 & L2) (h3 & -> & W3 & L3). exists h3. split; [done|]. split; [done|]. intros q. rewrite L3. cbn. rewrite L2, not_elem_of_app. tauto.
Qed.
Lemma freed_rep bs u u' l : freed bs u u' -> udp_rep u l -> (forall b, b ∈ bs -> b ∉ all_blocks l) -> udp_rep u' l.
Proof.
  intros (h & -> & Hw & Hl) R Hd. apply (rep_frame u); [done|done| |done]. intros b Hb. do 3 (split; [done|]). intros Hb'. apply Hl. split; [done|].
  intros Hin. by apply (Hd b).
Qed.
Lemma free_queue xs : forall u, kh_wf (ud_heap u) -> Forall (entry_rep u) xs -> NoDup (xs ≫= fun x => [q_node x; q_buf x]) ->
  Forall (fun b => address b /\ kh_live (ud_heap u) b) (xs ≫= fun x => [q_node x; q_buf x]) ->
  freed (xs ≫= fun x => [q_buf x; q_node x]) u (fold_left (fun u d => free_dgram d u) (map q_node xs) u).
Proof.
  induction xs as [|x xs IH]; intros u Hw He Hnd Hl; [by apply freed_nil|]. apply Forall_cons in He as [[X1 _ _ _] He].
  change ([q_node x; q_buf x] ++ (xs ≫= fun x => [q_node x; q_buf x])) with (q_node x :: q_buf x :: (xs ≫= fun x => [q_node x; q_buf x])) in *.
  cbn [map fold_left mbind list_bind app] in *. apply NoDup_cons in Hnd as [N1 Hnd]. apply NoDup_cons in Hnd as [N2 Hnd].
  apply Forall_cons in Hl as [[_ L1] Hl]. apply Forall_cons in Hl as [[A2 L2] Hl]. apply not_elem_of_cons in N1 as [N0 N1].
  assert (freed [q_buf x; q_node x] u (free_dgram (q_node x) u)) as Hf.
  { unfold free_dgram. rewrite X1. unfold address in A2. rewrite (proj2 (Z.eqb_neq (q_buf x) NULL)) by (unfold NULL; lia). cbn [negb].
    pose proof (freed_one _ u Hw L2) as F1. apply (freed_trans [q_buf x] [q_node x] _ _ _ F1). destruct F1 as (h & -> & Hw1 & Hl1).
    apply freed_one; [done|]. cbn. apply Hl1. split; [done|]. by rewrite list_elem_of_singleton. }
  change (q_buf x :: q_node x :: ?r) with ([q_buf x; q_node x] ++ r). eapply freed_trans; [exact Hf|]. destruct Hf as (h & -> & Hw1 & Hl1). apply IH.
  - done.
  - eapply Forall_impl; [exact He|]. by intros y [].
  - done.
  - apply Forall_forall. intros b Hb. rewrite Forall_forall in Hl. destruct (Hl b Hb) as [A B]. split; [done|]. cbn. apply Hl1. split; [done|].
    rewrite !not_elem_of_cons. split; [by intros ->|]. split; [by intros ->|apply not_elem_of_nil].
Qed.

Lemma free_socket u l e : udp_rep u l -> ep_rep u e -> NoDup (ep_blocks e) -> Forall (fun b => address b /\ kh_live (ud_heap u) b) (ep_blocks e) ->
  (forall b, b ∈ ep_blocks e -> b ∉ all_blocks l) -> udp_rep (socket_free (ep_addr e) u) l.
Proof.
  intros R [_ _ P3 _ _ P6] Hnd Hl Hd. unfold ep_blocks in *. apply NoDup_cons in Hnd as [Hni Hnd]. apply Forall_cons in Hl as [[Ha Hla] Hl].
  unfold socket_free. pose proof Ha as Ha'. unfold address in Ha'. rewrite (proj2 (Z.eqb_neq (ep_addr e) NULL)) by (unfold NULL; lia).
  assert (NoDup (map q_node (ep_queue e))) as Hn.
  { clear -Hnd. induction (ep_queue e) as [|x xs IH]; [constructor|]. cbn [map mbind list_bind app] in *. apply NoDup_cons in Hnd as [N1 Hnd]. apply NoDup_cons in Hnd as [_ Hnd].
    apply NoDup_cons. split; [|by apply IH]. intros (y & E & Hy)%list_elem_of_fmap. apply N1. right. apply list_elem_of_bind. exists y. rewrite E. split; [left|done]. }
  rewrite (while_chained dgram_next free_dgram u _ _ P3 Hn).
  2: { intros v a b. unfold free_dgram. by destruct (negb _). }
  pose proof (free_queue (ep_queue e) u (ur_heap _ _ R) P6 Hnd Hl) as Hf. set (v := fold_left _ _ u) in *.
  assert (forall b, b ∈ (ep_queue e ≫= fun x => [q_buf x; q_node x]) -> b ∈ (ep_queue e ≫= fun x => [q_node x; q_buf x])) as Hsw.
  { intros b (x & Hb & Hx)%list_elem_of_bind. apply list_elem_of_bind. exists x. split; [|done]. rewrite !elem_of_cons in *. tauto. }
  assert (udp_rep v l) as Rv by (eapply (freed_rep _ u); [exact Hf|done|]; intros b Hb; apply Hd; right; by apply Hsw).
  apply (freed_rep [ep_addr e] v); [|done|intros b ->%list_elem_of_singleton; apply Hd; left]. apply freed_one; [apply Rv|].
  destruct Hf as (h & -> & _ & Hlh). cbn. apply Hlh. split; [done|]. intros Hin. by apply Hni, Hsw.
Qed.
(** Taking an endpoint out of the list and freeing it. *)
Lemma drop_rep u l1 e l2 : udp_rep u (l1 ++ e :: l2) -> udp_rep (socket_free (ep_addr e) (socket_list_remove (ep_addr e) u)) (l1 ++ l2).
Proof.
  intros R. pose proof (remove_rep u l1 e l2 R) as Rr. destruct (other_blocks u l1 e l2 R) as [_ [Hnd Hb]].
  destruct (socket_list_remove_ok (ep_addr e) u) as [_ _ L3 _ (L7 & L8 & L9 & _)]. apply free_socket; [done| |done| |by intros b Hin; apply Hb].
  - pose proof (ur_eps _ _ R) as Re. rewrite Forall_forall in Re. apply (ep_frame u); [apply Re, elem_of_app; right; left|apply L3|]. intros x _. by rewrite L7, L8.
  - rewrite L9. apply Forall_forall. intros b Hin. apply (rep_live u (l1 ++ e :: l2)); [done|]. by apply Hb.
Qed.
Lemma unbind_rep u l port u' r : udp_rep u l -> udp_unbind port u = (u', r) ->
  (r <> UDP_OK /\ u' = u) \/ (exists l1 e l2, l = l1 ++ e :: l2 /\ ep_port e = port /\ r = UDP_OK /\ udp_rep u' (l1 ++ l2)).
Proof.
  intros R. unfold udp_unbind. destruct (udp_initialized u); cbn [negb]; [|intros [= <- <-]; by left].
  destruct (find_socket_ok u l port R) as [[-> _]|(l1 & e & l2 & -> & Ep & -> & Hn)]; [rewrite Z.eqb_refl; intros [= <- <-]; by left|].
  rewrite (proj2 (Z.eqb_neq _ _) Hn). intros [= <- <-]. right. exists l1, e, l2. do 3 (split; [done|]). by apply drop_rep.
Qed.
Lemma close_rep u l1 e l2 : udp_rep u (l1 ++ e :: l2) -> udp_rep (udp_close (ep_addr e) u) (l1 ++ l2).
Proof.
  intros R. unfold udp_close. destruct (rep_live u _ (ep_addr e) R) as [Ha _]; [apply addr_block, elem_of_app; right; left|].
  unfold address in Ha. rewrite (proj2 (Z.eqb_neq _ _)) by (unfold NULL; lia).
  pose proof (ur_eps _ _ R) as Re. rewrite Forall_forall in Re. destruct (Re e) as [[_ ->] _ _ _ _ _]; [apply elem_of_app; right; left|]. by apply drop_rep.
Qed.

(** ** Changing one endpoint *)

Lemma replace_rep u u' l1 e e' l2 : udp_rep u (l1 ++ e :: l2) -> ep_addr e' = ep_addr e -> ep_port e' = ep_port e -> same_list u u' ->
  (usock_next u' (ep_addr e) = usock_next u (ep_addr e) /\ usock_prev u' (ep_addr e) = usock_prev u (ep_addr e)) ->
  (forall b, b ∈ all_blocks (l1 ++ l2) -> ud_sock u' b = ud_sock u b /\ ud_dgram u' b = ud_dgram u b /\ ud_bytes u' b = ud_bytes u b /\
     (kh_live (ud_heap u) b -> kh_live (ud_heap u') b)) ->
  ep_rep u' e' -> NoDup (ep_blocks e') -> (forall b, b ∈ ep_blocks e' -> address b /\ kh_live (ud_heap u') b /\ b ∉ all_blocks (l1 ++ l2)) ->
  kh_wf (ud_heap u') -> udp_rep u' (l1 ++ e' :: l2).
Proof.
  intros R Ea Ep (L1 & L2 & L3 & L4) Hlk Ho He Hnd Hbl Hw. pose proof R as [R1 R2 R3 R4 R5 R6 R7 R8 R9]. destruct (other_blocks u l1 e l2 R) as [Hn1 _].
  assert (forall {A} (f : endpoint -> A), f e' = f e -> map f (l1 ++ e' :: l2) = map f (l1 ++ e :: l2)) as Hm by (intros A f E; rewrite !map_app; simpl; by rewrite E).
  assert (forall x, x ∈ l1 ++ l2 -> x ∈ l1 ++ e :: l2) as Hin by (intros x [Hx|Hx]%elem_of_app; apply elem_of_app; [by left|right; by right]).
  split.
  - rewrite L1, (Hm _ ep_addr Ea). eapply linked_ext; [exact R1|]. intros a (x & -> & Hx)%list_elem_of_fmap.
    assert (x = e \/ x ∈ l1 ++ l2) as [->|Hx'] by (apply elem_of_app in Hx as [Hx|[->|Hx]%elem_of_cons]; [right; apply elem_of_app; by left|by left|right; apply elem_of_app; by right]).
    + apply Hlk.
    + unfold usock_next, usock_prev. by rewrite (proj1 (Ho _ (addr_block _ _ Hx'))).
  - by rewrite L2, (Hm _ ep_addr Ea).
  - rewrite L3. by rewrite !length_app in *.
  - assert (forall x, x ∈ l1 ++ l2 -> ep_rep u' x) as Hx.
    { intros x Hx. rewrite Forall_forall in R4. apply (ep_frame u); [by apply R4, Hin|f_equal; apply (Ho _ (addr_block _ _ Hx))|].
      intros y Hy. destruct (entry_block _ _ _ Hx Hy) as [B1 B2]. split; [apply (Ho _ B1)|apply (Ho _ B2)]. }
    apply Forall_app. split; [|apply Forall_cons; split; [done|]]; apply Forall_forall; intros x Hx'; apply Hx, elem_of_app; auto.
  - rewrite (Hm _ ep_port Ep). split; [apply R5|]. destruct R5 as [_ P]. apply Forall_app in P as [P1 P2]. apply Forall_cons in P2 as [P2 P3].
    apply Forall_app. split; [done|]. apply Forall_cons. by rewrite Ep.
  - rewrite blocks_split. apply NoDup_app. split; [done|]. split; [by intros b Hb; apply Hbl|done].
  - apply Forall_forall. intros b Hb. rewrite blocks_split in Hb. apply elem_of_app in Hb as [Hb|Hb]; [split; by apply Hbl|].
    assert (b ∈ all_blocks (l1 ++ e :: l2)) as Hb' by (rewrite blocks_split; apply elem_of_app; by right). destruct (rep_live u _ b R Hb') as [A B]. split; [done|]. by apply (Ho b Hb).
  - done.
  - by apply L4.
Qed.
Definition ep_push (x : entry) (e : endpoint) : endpoint := mk_endpoint (ep_addr e) (ep_port e) (ep_flags e) (ep_queue e ++ [x]).
Definition ep_pop (q : list entry) (e : endpoint) : endpoint := mk_endpoint (ep_addr e) (ep_port e) (ep_flags e) q.

Lemma flag_rep u l1 e l2 f : udp_rep u (l1 ++ e :: l2) ->
  udp_rep (on_usock (ep_addr e) (set_us_flags f) u) (l1 ++ mk_endpoint (ep_addr e) (ep_port e) f (ep_queue e) :: l2).
Proof.
  intros R. destruct (other_blocks u l1 e l2 R) as [_ [Hnd Hb]]. pose proof (ur_eps _ _ R) as Re. rewrite Forall_forall in Re.
  destruct (Re e) as [P1 P2 P3 P4 P5 P6]; [apply elem_of_app; right; left|]. apply (replace_rep u _ l1 e); try done.
  - unfold usock_next, usock_prev. cbn. by rewrite !upd_same.
  - intros b Hin. cbn. rewrite upd_other; [done|]. intros ->. by apply (Hb (ep_addr e)); [left|].
  - split; cbn; rewrite ?upd_same; try done. eapply Forall_impl; [exact P6|]. by intros x [].
  - intros b Hin. destruct (Hb b Hin) as [B1 B2]. destruct (rep_live u _ b R B1). done.
  - apply R.
Qed.

(** ** The queue of an endpoint *)

Lemma queue_nodup u l1 e l2 : udp_rep u (l1 ++ e :: l2) -> NoDup (map q_node (ep_queue e)).
Proof.
  intros R. destruct (other_blocks u l1 e l2 R) as [_ [Hnd _]]. unfold ep_blocks in Hnd. apply NoDup_cons in Hnd as [_ Hnd]. clear R.
  induction (ep_queue e) as [|x xs IH]; [constructor|]. cbn [map mbind list_bind app] in *. apply NoDup_cons in Hnd as [N1 Hnd]. apply NoDup_cons in Hnd as [_ Hnd].
  apply NoDup_cons. split; [|by apply IH]. intros (y & E & Hy)%list_elem_of_fmap. apply N1. right. apply list_elem_of_bind. exists y. rewrite E. split; [left|done].
Qed.
Lemma push_blocks x e : ep_blocks (ep_push x e) = ep_blocks e ++ [q_node x; q_buf x].
Proof. unfold ep_blocks, ep_push. cbn [ep_addr ep_queue]. by rewrite bind_app. Qed.

(** The datagram [x] is linked behind the last one of [e]. *)
Definition link_dgram (p d : Z) u : udp H :=
  let s := ud_sock u p in
  let u := if negb (us_recv_tail s =? NULL) then set_udgram (us_recv_tail s) (set_dg_next d (ud_dgram u (us_recv_tail s))) u
           else on_usock p (set_us_queue d (us_recv_tail s) (us_recv_count s)) u in
  on_usock p (fun s => set_us_queue (us_recv_head s) d (u32 (us_recv_count s + 1)) s) u.
Lemma link_sock p d u : ud_sock (link_dgram p d u) p =
  set_us_queue (if us_recv_tail (ud_sock u p) =? NULL then d else us_recv_head (ud_sock u p)) d (u32 (us_recv_count (ud_sock u p) + 1)) (ud_sock u p).
Proof. unfold link_dgram. destruct (Z.eqb_spec (us_recv_tail (ud_sock u p)) NULL); cbn; by rewrite !upd_same. Qed.
Lemma ulink_other p d u a : a <> p -> ud_sock (link_dgram p d u) a = ud_sock u a.
Proof. intros Ha. unfold link_dgram. destruct (_ =? _); cbn; by rewrite !upd_other. Qed.
Lemma link_dgrams p d u : ud_dgram (link_dgram p d u) =
  if us_recv_tail (ud_sock u p) =? NULL then ud_dgram u else upd (ud_dgram u) (us_recv_tail (ud_sock u p)) (set_dg_next d (ud_dgram u (us_recv_tail (ud_sock u p)))).
Proof. unfold link_dgram. by destruct (_ =? _). Qed.
Lemma link_same p d u : ud_bytes (link_dgram p d u) = ud_bytes u /\ ud_heap (link_dgram p d u) = ud_heap u /\ same_list u (link_dgram p d u).
Proof. unfold link_dgram. by destruct (_ =? _). Qed.

(** Linking changes the next pointer of the last datagram only. *)
Lemma link_fields p d u b : let g := ud_dgram u b in let g' := ud_dgram (link_dgram p d u) b in
  dg_data g' = dg_data g /\ dg_len g' = dg_len g /\ dg_src_ip g' = dg_src_ip g /\ dg_src_port g' = dg_src_port g.
Proof. cbn zeta. rewrite link_dgrams. destruct (_ =? _); [done|]. unfold upd. by destruct (Z.eqb_spec b (us_recv_tail (ud_sock u p))) as [->|]. Qed.
Lemma link_ep u e x : ep_rep u e -> Z.of_nat (length (ep_queue e)) < UDP_RECV_QUEUE_SIZE -> NoDup (map q_node (ep_queue e) ++ [q_node x]) ->
  address (q_node x) -> entry_rep u x -> dg_next (ud_dgram u (q_node x)) = NULL -> ep_rep (link_dgram (ep_addr e) (q_node x) u) (ep_push x e).
Proof.
  intros [P1 P2 P3 P4 [P5 P5'] P6] Hroom Hnd Ha Hx Hnext. destruct (link_same (ep_addr e) (q_node x) u) as (Sb & _ & _).
  split; cbn [ep_addr ep_push ep_port ep_flags ep_queue]; rewrite ?link_sock; cbn; try done.
  - rewrite P4, map_app. cbn [map]. eapply chained_ext; [by apply (chained_append _ _ _ (q_node x) P3)|].
    intros b _. unfold dgram_next. rewrite link_dgrams, P4. destruct (_ =? NULL); [done|]. unfold upd. by destruct (Z.eqb_spec b (last_addr (map q_node (ep_queue e)))) as [->|].
  - rewrite map_app. cbn [map]. by rewrite last_addr_one_more.
  - rewrite P5, length_app. cbn. unfold UDP_RECV_QUEUE_SIZE in *. unfold u32. rewrite Z.mod_small by lia. lia.
  - apply Forall_app. rewrite Forall_singleton. assert (forall y, entry_rep u y -> entry_rep (link_dgram (ep_addr e) (q_node x) u) y) as Hy.
    { intros y [Y1 Y2 [Y3 Y4] Y5]. destruct (link_fields (ep_addr e) (q_node x) u (q_node y)) as (D1 & D2 & D3 & D4). split; rewrite ?D1, ?D2, ?D3, ?D4, ?Sb; done. }
    split; [eapply Forall_impl; [exact P6|exact Hy]|by apply Hy].
Qed.
Lemma queue_block e y : y ∈ ep_queue e -> q_node y ∈ ep_blocks e /\ q_buf y ∈ ep_blocks e.
Proof. intros Hy. unfold ep_blocks. split; right; apply list_elem_of_bind; exists y; (split; [|done]); [left|right; left]. Qed.
Lemma utail_block e : last_addr (map q_node (ep_queue e)) <> NULL -> last_addr (map q_node (ep_queue e)) ∈ ep_blocks e.
Proof.
  intros Hn. destruct (map q_node (ep_queue e)) as [|a q] eqn:Eq; [done|]. assert (last_addr (a :: q) ∈ a :: q) as Hin by (by apply last_addr_in).
  rewrite <- Eq in Hin at 2. apply list_elem_of_fmap in Hin as (z & -> & Hz). by apply queue_block.
Qed.
(** Two blocks that are not in use yet. *)
Record fresh_pair u (l : list endpoint) (d b : Z) : Prop := mk_fresh_pair {
  fp_address : address d /\ address b;
  fp_distinct : d <> b;
  fp_unused : (d ∉ all_blocks l) /\ (b ∉ all_blocks l);
  fp_live : kh_live (ud_heap u) d /\ kh_live (ud_heap u) b;
}.
Lemma link_rep u l1 e l2 x : udp_rep u (l1 ++ e :: l2) -> Z.of_nat (length (ep_queue e)) < UDP_RECV_QUEUE_SIZE ->
  fresh_pair u (l1 ++ e :: l2) (q_node x) (q_buf x) -> entry_rep u x -> dg_next (ud_dgram u (q_node x)) = NULL ->
  udp_rep (link_dgram (ep_addr e) (q_node x) u) (l1 ++ ep_push x e :: l2).
Proof.
  intros R Hroom [[A1 A2] Hne [N1 N2] [L1 L2]] Hx Hnext. destruct (other_blocks u l1 e l2 R) as [_ [Hnd Hb]].
  pose proof (ur_eps _ _ R) as Re. rewrite Forall_forall in Re. assert (ep_rep u e) as He by (apply Re, elem_of_app; right; left).
  assert (forall b, b ∈ ep_blocks e -> b <> q_node x /\ b <> q_buf x) as Hfresh by (intros b Hin; destruct (Hb b Hin) as [B _]; split; by intros ->).
  destruct (link_same (ep_addr e) (q_node x) u) as (Sb & Sh & Sl). apply (replace_rep u _ l1 e); try done.
  - unfold usock_next, usock_prev. by rewrite link_sock.
  - intros b Hin. rewrite Sb, Sh. rewrite ulink_other by (intros ->; by apply (Hb (ep_addr e)); [left|]). split; [done|]. split; [|done].
    rewrite link_dgrams, (pr_tail _ _ He). destruct (Z.eqb_spec (last_addr (map q_node (ep_queue e))) NULL) as [E|N]; [done|].
    rewrite upd_other; [done|]. intros ->. by apply (Hb _ (utail_block e N)).
  - apply link_ep; try done. apply NoDup_app. split; [by apply (queue_nodup u l1 e l2)|]. split; [|apply NoDup_singleton].
    intros b (y & -> & Hy)%list_elem_of_fmap E%list_elem_of_singleton. by destruct (Hfresh (q_node y) (proj1 (queue_block e y Hy))).
  - rewrite push_blocks. apply NoDup_app. split; [done|]. split.
    + intros b Hin. destruct (Hfresh b Hin). rewrite !not_elem_of_cons. do 2 (split; [done|]). apply not_elem_of_nil.
    + apply NoDup_cons. split; [by rewrite list_elem_of_singleton|apply NoDup_singleton].
  - intros b. rewrite push_blocks, Sh. intros [Hin|Hin]%elem_of_app.
    + destruct (Hb b Hin) as [B1 B2]. by destruct (rep_live u _ b R B1).
    + assert (forall c, c ∉ all_blocks (l1 ++ e :: l2) -> c ∉ all_blocks (l1 ++ l2)) as Hsub.
      { intros c Hc Hc'. apply Hc. rewrite blocks_split. apply elem_of_app. by right. }
      rewrite !elem_of_cons in Hin. destruct Hin as [->|[->|Hin]]; [by auto|by auto|by apply not_elem_of_nil in Hin].
  - rewrite Sh. apply R.
Qed.

(** A block of any size up to that of a datagram. *)
Lemma malloc_any u l n h p : udp_rep u l -> 0 <= n <= 65536 -> kh_malloc n (ud_heap u) = (h, p) ->
  udp_rep (set_uheap h u) l /\ (p = NULL \/ (0 < n /\ p <> NULL /\ address p /\ (p ∉ all_blocks l) /\ kh_live h p)).
Proof.
  intros R Hn E. destruct (Z.eq_dec n 0) as [->|Nz].
  - rewrite kh_malloc_zero in E. injection E as <- <-. split; [|by left]. by destruct u.
  - destruct (malloc_rep u l n h p R ltac:(unfold request; lia) E) as [R' [->|Hp]]; (split; [done|]); [by left|right]. split; [lia|done].
Qed.
Lemma malloc_kept u l n h p b : udp_rep u l -> 0 <= n <= 65536 -> kh_malloc n (ud_heap u) = (h, p) -> kh_live (ud_heap u) b -> kh_live h b /\ (p = NULL \/ p <> b).
Proof.
  intros R Hn E Hb. destruct (Z.eq_dec n 0) as [->|Nz]; [rewrite kh_malloc_zero in E; injection E as <- <-; auto|].
  destruct (kh_malloc_ok _ n _ _ (ur_heap _ _ R) ltac:(unfold request; lia) E) as [[-> ->]|(Ha & Hf & Hw & Hl)]; [auto|]. split; [apply Hl; by left|]. right. by intros ->.
Qed.
Lemma stats_rep u l f : udp_rep u l -> udp_rep (on_ustats f u) l.
Proof. intros R. by apply (rep_frame u); [| |intros b _; split_and!|apply R]. Qed.

Lemma queue_rep u l1 e l2 data ip port u' r : udp_rep u (l1 ++ e :: l2) -> Z.of_nat (length data) <= 65535 ->
  queue_datagram (ep_addr e) data ip port u = (u', r) ->
  (r <> UDP_OK /\ udp_rep u' (l1 ++ e :: l2) /\ (Z.of_nat (length (ep_queue e)) = UDP_RECV_QUEUE_SIZE \/ data = [] \/ denied [sizeof_udp_datagram; Z.of_nat (length data)] (ud_heap u))) \/
  (r = UDP_OK /\ exists x, q_data x = data /\ q_ip x = ip /\ q_port x = port /\ udp_rep u' (l1 ++ ep_push x e :: l2)).
Proof.
  intros R Hlen. pose proof (ur_eps _ _ R) as Re. rewrite Forall_forall in Re. destruct (Re e) as [_ _ _ _ [P5 P5'] _]; [apply elem_of_app; right; left|].
  unfold queue_datagram. rewrite P5. destruct (Z.leb_spec UDP_RECV_QUEUE_SIZE (Z.of_nat (length (ep_queue e)))) as [Hf|Hroom].
  { intros [= <- <-]. left. split; [done|]. split; [by apply stats_rep|]. left. lia. }
  destruct (kh_malloc sizeof_udp_datagram (ud_heap u)) as [h1 d] eqn:E1. unfold sizeof_udp_datagram in E1.
  destruct (malloc_any u _ 32 h1 d R ltac:(lia) E1) as [R1 [->|(_ & Hd & Ad & Nd & Ld)]].
  { intros [= <- <-]. left. split; [done|]. split; [done|]. do 2 right. cbn [denied]. unfold sizeof_udp_datagram. rewrite E1. by left. }
  rewrite (proj2 (Z.eqb_neq _ _) Hd). cbn [ud_heap set_uheap]. destruct (kh_malloc (Z.of_nat (length data)) h1) as [h2 b] eqn:E2.
  destruct (malloc_any (set_uheap h1 u) _ (Z.of_nat (length data)) h2 b R1 ltac:(lia) E2) as [R2 Hb]. destruct (malloc_kept (set_uheap h1 u) _ (Z.of_nat (length data)) h2 b d R1 ltac:(lia) E2 Ld) as [Ld2 Hbd].
  change (set_uheap h2 (set_uheap h1 u)) with (set_uheap h2 u) in *.
  destruct Hb as [->|(Hpos & Hbn & Ab & Nb & Lb)].
  { rewrite Z.eqb_refl. intros [= <- <-]. left. split; [done|]. split; cycle 1.
    { right. destruct data as [|c data]; [by left|right]. cbn [denied]. unfold sizeof_udp_datagram. rewrite E1, E2. auto. }
    apply (freed_rep [d] (set_uheap h2 u)); [|done|by intros x ->%list_elem_of_singleton].
    apply freed_one; [apply R2|done]. }
  rewrite (proj2 (Z.eqb_neq _ _) Hbn). intros [= <- <-]. right. split; [done|]. exists (mk_dentry d b data ip port). do 3 (split; [done|]).
  set (u3 := set_udgram d _ (set_ubytes b data (set_uheap h2 u))).
  apply (link_rep u3 l1 e l2 (mk_dentry d b data ip port)).
  - apply (rep_frame (set_uheap h2 u)); [done|done| |apply R2]. intros x Hx. assert (x <> d /\ x <> b) as [X1 X2] by (split; intros E; rewrite E in Hx; done).
    cbn. by rewrite !upd_other.
  - done.
  - split; [done| |done|done]. cbn. destruct Hbd as [->|Hbd]; [done|]. intros E. by apply Hbd.
  - split; cbn; by rewrite ?upd_same.
  - cbn. by rewrite upd_same.
Qed.

Lemma dequeue_rep u l1 e l2 x q : udp_rep u (l1 ++ e :: l2) -> ep_queue e = x :: q ->
  exists u', dequeue_datagram (ep_addr e) u = (u', q_node x) /\ udp_rep u' (l1 ++ ep_pop q e :: l2) /\ entry_rep u' x /\ ud_heap u' = ud_heap u.
Proof.
  intros R Eq. destruct (other_blocks u l1 e l2 R) as [_ [Hnd Hb]]. pose proof (queue_nodup u l1 e l2 R) as Hq. rewrite Eq in Hq. cbn [map] in Hq. apply NoDup_cons in Hq as [Hxq Hq].
  pose proof (ur_eps _ _ R) as Re. rewrite Forall_forall in Re. destruct (Re e) as [P1 P2 P3 P4 [P5 P5'] P6]; [apply elem_of_app; right; left|].
  rewrite Eq in *. cbn [map chained length] in *. destruct P3 as (Eh & Ax & P3). apply Forall_cons in P6 as [X P6].
  unfold dequeue_datagram. rewrite Eh. pose proof Ax as Ax'. unfold address in Ax'. rewrite (proj2 (Z.eqb_neq (q_node x) NULL)) by (unfold NULL; lia).
  eexists. split; [reflexivity|]. set (u' := set_udgram _ _ _).
  assert (forall b, b <> q_node x -> ud_dgram u' b = ud_dgram u b) as Hdo by (intros b Hbx; cbn; by rewrite upd_other).
  assert (Hsub : forall b, b ∈ ep_blocks (ep_pop q e) -> b ∈ ep_blocks e).
  { intros b. unfold ep_blocks, ep_pop. rewrite Eq. cbn [ep_addr ep_queue]. change ((x :: q) ≫= ?f) with (f x ++ (q ≫= f)). rewrite !elem_of_cons, elem_of_app. tauto. }
  split; [|split; [|done]].
  - apply (replace_rep u _ l1 e); try done.
    + unfold usock_next, usock_prev. cbn. by rewrite !upd_same.
    + intros b Hin. cbn. rewrite !upd_other; [done| |]; intros ->; [by apply (Hb (q_node x)); [apply queue_block; rewrite Eq; left|]|by apply (Hb (ep_addr e)); [left|]].
    + split; cbn [ep_addr ep_pop ep_port ep_flags ep_queue]; cbn [ud_sock u' set_udgram on_usock set_usocks]; rewrite ?upd_same; cbn; try done.
      * eapply chained_ext; [exact P3|]. intros b Hin. unfold dgram_next. rewrite Hdo; [done|]. by intros ->.
      * unfold dgram_next. destruct q as [|y q]; cbn [map] in *; [cbn in P3; unfold dgram_next in P3; by rewrite P3|]. destruct P3 as (E & Ay & _). unfold dgram_next in E. rewrite E.
        unfold address in Ay. rewrite (proj2 (Z.eqb_neq (q_node y) NULL)) by (unfold NULL; lia). by rewrite P4.
      * rewrite P5. unfold UDP_RECV_QUEUE_SIZE in *. unfold u32. rewrite Z.mod_small by lia. lia.
      * apply Forall_forall. intros y Hy. rewrite Forall_forall in P6. destruct (P6 y Hy) as [Y1 Y2 Y3 Y4]. split; rewrite ?Hdo; try done;
          intros E; apply Hxq; rewrite <- E; apply list_elem_of_fmap; by exists y.
    + revert Hnd. unfold ep_blocks, ep_pop. rewrite Eq. cbn [ep_addr ep_queue]. change ((x :: q) ≫= ?f) with (f x ++ (q ≫= f)). intros [N1 N2]%NoDup_cons.
      apply NoDup_app in N2 as (_ & _ & N2). apply NoDup_cons. split; [|done]. intros Hin. apply N1, elem_of_app. by right.
    + intros b Hin%Hsub. destruct (Hb b Hin) as [B1 B2]. by destruct (rep_live u _ b R B1).
    + apply R.
  - destruct X as [X1 X2 X3 X4]. split; cbn; rewrite ?upd_same; done.
Qed.
Lemma recv_rep u l1 e l2 buf max_len : udp_rep u (l1 ++ e :: l2) -> buf <> NULL -> 0 < max_len ->
  match ep_queue e with
  | [] => udp_recvfrom (ep_addr e) buf max_len u = (u, 0, None)
  | x :: q => exists u', udp_recvfrom (ep_addr e) buf max_len u =
        (u', Z.of_nat (length (q_data x)), Some (take (Z.to_nat max_len) (q_data x), q_ip x, q_port x)) /\ udp_rep u' (l1 ++ ep_pop q e :: l2)
  end.
Proof.
  intros R Hbuf Hmax. destruct (rep_live u _ (ep_addr e) R) as [Ha _]; [apply addr_block, elem_of_app; right; left|].
  pose proof (ur_eps _ _ R) as Re. rewrite Forall_forall in Re. destruct (Re e) as [[_ Pb] _ P3 _ _ _]; [apply elem_of_app; right; left|].
  destruct (other_blocks u l1 e l2 R) as [_ [Hnd Hb]]. unfold udp_recvfrom. unfold address in Ha. rewrite Pb, (proj2 (Z.eqb_neq (ep_addr e) NULL)) by (unfold NULL; lia).
  rewrite (proj2 (Z.eqb_neq buf NULL)), (proj2 (Z.eqb_neq max_len 0)) by (first [done|lia]). cbn [orb negb].
  destruct (ep_queue e) as [|x q] eqn:Eq.
  { unfold dequeue_datagram. cbn in P3. rewrite P3. done. }
  destruct (dequeue_rep u l1 e l2 x q R Eq) as (u1 & -> & R1 & [X1 X2 [X3 X4] X5] & Eh). unfold ep_blocks in Hnd. rewrite Eq in Hnd.
  assert (q_node x ∈ ep_blocks e /\ q_buf x ∈ ep_blocks e) as [B1 B2] by (apply queue_block; rewrite Eq; left).
  change ((x :: q) ≫= ?f) with (f x ++ (q ≫= f)) in Hnd. cbn [app] in Hnd. apply NoDup_cons in Hnd as [N0 Hnd]. apply NoDup_cons in Hnd as [N1 Hnd]. apply NoDup_cons in Hnd as [N2 _].
  assert (forall b, b = q_node x \/ b = q_buf x -> b ∉ all_blocks (l1 ++ ep_pop q e :: l2)) as Hout.
  { intros b Hbx. rewrite blocks_split. intros [Hin|Hin]%elem_of_app; [|by destruct Hbx as [->| ->]; [apply (Hb _ B1)|apply (Hb _ B2)]].
    unfold ep_blocks, ep_pop in Hin. cbn [ep_addr ep_queue] in Hin. apply elem_of_cons in Hin as [->|Hin].
    - apply N0. rewrite !elem_of_cons. tauto.
    - destruct Hbx as [->| ->]; [apply N1; by right|by apply N2]. }
  destruct (rep_live u _ _ R (proj1 (Hb _ B1))) as [An Ln]. destruct (rep_live u _ _ R (proj1 (Hb _ B2))) as [_ Lb].
  unfold address in An. rewrite (proj2 (Z.eqb_neq (q_node x) NULL)) by (unfold NULL; lia). rewrite X1, X2, X3, X4, X5. eexists. split.
  - f_equal. f_equal. f_equal. f_equal. destruct (Z.ltb_spec (Z.of_nat (length (q_data x))) max_len); [|done]. rewrite !take_ge by lia. done.
  - assert (freed [q_buf x] u1 (free_ublock (q_buf x) u1)) as F1 by (apply freed_one; [apply R1|by rewrite Eh]).
    pose proof (freed_rep _ _ _ _ F1 R1 ltac:(intros b ->%list_elem_of_singleton; apply Hout; by right)) as R2.
    apply (freed_rep [q_node x] (free_ublock (q_buf x) u1)); [|done|intros b ->%list_elem_of_singleton; apply Hout; by left].
    apply freed_one; [apply R2|]. destruct F1 as (h & -> & _ & Hl). cbn. apply Hl. rewrite Eh. split; [done|]. rewrite list_elem_of_singleton. intros E. apply N1. rewrite E. left.
Qed.

(** ** Sending and receiving packets *)

Lemma send_rep u l dest_ip dest_port src_port data len : udp_rep u l -> 0 <= len ->
  udp_rep (fst (udp_send hw_result fresh dest_ip dest_port src_port data len u)) l.
Proof.
  intros R Hlen. unfold udp_send. destruct (negb (udp_initialized u)); [done|]. destruct (_ && _); [done|].
  destruct (Z.ltb_spec UDP_MAX_PAYLOAD len); [done|]. unfold UDP_MAX_PAYLOAD, UDP_MAX_DATAGRAM, UDP_HEADER_LEN in *.
  destruct (kh_malloc (8 + len) (ud_heap u)) as [h p] eqn:E. destruct (malloc_any u l (8 + len) h p R ltac:(lia) E) as [R1 [->|(_ & Hn & _ & Hni & Hl)]]; [done|].
  rewrite (proj2 (Z.eqb_neq _ _) Hn). destruct (ip_send _ _ _ _ _ _ _) as [n r].
  assert (udp_rep (free_ublock p (set_unet n (set_uheap h u))) l) as R2.
  { assert (udp_rep (set_unet n (set_uheap h u)) l) as Rn by (by apply (rep_frame (set_uheap h u)); [| |intros b _; split_and!|apply R1]).
    apply (freed_rep [p] (set_unet n (set_uheap h u))); [by apply freed_one; [apply Rn|]|done|by intros b ->%list_elem_of_singleton]. }
  destruct (r <? 0); [done|]. cbn [fst]. by apply stats_rep.
Qed.

(** What udp_input makes of a packet: the ports and the payload, if it passes the checks. *)
Definition parse_datagram (src_ip local : Z) (l : list Z) : option (Z * Z * list Z) :=
  let udp_len := ntohs (get16 l 4) in
  if (Z.of_nat (length l) <? UDP_HEADER_LEN) || (udp_len <? UDP_HEADER_LEN) || (Z.of_nat (length l) <? udp_len) then None
  else
    let packet := take (Z.to_nat udp_len) l in
    let calc := udp_checksum src_ip local packet in
    if negb (get16 l 6 =? 0) && negb (calc =? 0) && negb (calc =? 0xFFFF) then None
    else Some (ntohs (get16 l 0), ntohs (get16 l 2), drop (Z.to_nat UDP_HEADER_LEN) packet).
Lemma input_rep u l ip packet u' r : udp_rep u l -> udp_input ip packet u = (u', r) ->
  (r <> UDP_OK /\ udp_rep u' l /\
     (udp_initialized u = true -> forall pk sp dp data, packet = Some pk -> parse_datagram ip (local_ip (ud_net u)) pk = Some (sp, dp, data) ->
        (dp ∉ map ep_port l) \/ (exists e, e ∈ l /\ ep_port e = dp /\ Z.of_nat (length (ep_queue e)) = UDP_RECV_QUEUE_SIZE) \/ data = [] \/ denied [sizeof_udp_datagram; Z.of_nat (length data)] (ud_heap u))) \/
  (r = UDP_OK /\ exists pk sp dp data l1 e l2 x, packet = Some pk /\ parse_datagram ip (local_ip (ud_net u)) pk = Some (sp, dp, data) /\
     l = l1 ++ e :: l2 /\ ep_port e = dp /\ q_data x = data /\ q_ip x = ip /\ q_port x = sp /\ udp_rep u' (l1 ++ ep_push x e :: l2)).
Proof.
  intros R. unfold udp_input. destruct (udp_initialized u) eqn:Ei; cbn [negb]; [|intros [= <- <-]; by left].
  destruct packet as [pk|]; [|intros [= <- <-]; left; split; [done|]; split; [by apply stats_rep|done]].
  destruct (Z.ltb_spec (Z.of_nat (length pk)) UDP_HEADER_LEN) as [Hs|Hs].
  { intros [= <- <-]. left. split; [done|]. split; [by apply stats_rep|]. intros _ ? ? ? ? [= <-]. unfold parse_datagram. by rewrite (proj2 (Z.ltb_lt _ _) Hs). }
  cbn zeta. destruct ((ntohs (get16 pk 4) <? UDP_HEADER_LEN) || _) eqn:El.
  { intros [= <- <-]. left. split; [done|]. split; [by apply stats_rep|]. intros _ ? ? ? ? [= <-]. unfold parse_datagram. by rewrite <- orb_assoc, El, orb_true_r. }
  destruct (negb (get16 pk 6 =? 0) && _ && _) eqn:Ec.
  { intros [= <- <-]. left. split; [done|]. split; [by apply stats_rep|]. intros _ ? ? ? ? [= <-]. unfold parse_datagram. rewrite <- orb_assoc, El, orb_false_r.
    rewrite (proj2 (Z.ltb_ge _ _) Hs). by rewrite Ec. }
  assert (parse_datagram ip (local_ip (ud_net u)) pk = Some (ntohs (get16 pk 0), ntohs (get16 pk 2), drop (Z.to_nat UDP_HEADER_LEN) (take (Z.to_nat (ntohs (get16 pk 4))) pk))) as Ep.
  { unfold parse_datagram. rewrite <- orb_assoc, El, orb_false_r, (proj2 (Z.ltb_ge _ _) Hs). by rewrite Ec. }
  set (payload := drop _ _) in *. assert (Z.of_nat (length payload) <= 65535) as Hpl.
  { unfold payload. rewrite length_drop, length_take. pose proof (ntohs_range (get16 pk 4)). unfold UDP_HEADER_LEN. lia. }
  destruct (find_socket_ok u l (ntohs (get16 pk 2)) R) as [[-> Hn]|(l1 & e & l2 & -> & Epo & -> & Hn)].
  { rewrite Z.eqb_refl. intros [= <- <-]. left. split; [done|]. split; [by apply stats_rep|]. intros _ ? ? ? ? [= <-]. rewrite Ep. intros [= <- <- <-]. by left. }
  rewrite (proj2 (Z.eqb_neq _ _) Hn). destruct (queue_datagram (ep_addr e) payload ip (ntohs (get16 pk 0)) u) as [u1 r1] eqn:Eq.
  destruct (queue_rep u l1 e l2 payload ip _ u1 r1 R Hpl Eq) as [(Hr & R1 & Hwhy)|(-> & x & X1 & X2 & X3 & R1)].
  - rewrite (proj2 (Z.eqb_neq _ _) Hr). intros [= <- <-]. left. split; [done|]. split; [done|]. intros _ ? ? ? ? [= <-]. rewrite Ep. intros [= <- <- <-].
    right. destruct Hwhy as [Hf|Hw]; [left; exists e; split; [apply elem_of_app; right; left|done]|by right].
  - cbn [Z.eqb negb UDP_OK]. intros [= <- <-]. right. split; [done|]. exists pk. do 3 eexists. exists l1, e, l2, x. split; [done|]. split; [exact Ep|]. do 5 (split; [done|]). by apply stats_rep.
Qed.

(** ** The calls *)

Inductive udp_call :=
| UBind (port : Z) | UUnbind (port : Z) | UClose (sock : Z)
| USend (dest_ip dest_port src_port : Z) (data : option (list Z)) (len : Z) | USendto (sock dest_ip dest_port : Z) (data : option (list Z)) (len : Z)
| URecv (port buf max_len : Z) | URecvfrom (sock buf max_len : Z) | UInput (src_ip : Z) (packet : option (list Z))
| UNonblock (sock : Z) (on : bool) | UBroadcast (sock : Z) (on : bool) | UCount (port : Z).
(** A number or an address, and for a receive the bytes and the sender. *)
Definition udp_result : Type := Z * option (list Z * Z * Z).
Definition run_udp (c : udp_call) u : udp H * udp_result :=
  match c with
  | UBind port => let '(u, p) := udp_bind port u in (u, (p, None))
  | UUnbind port => let '(u, r) := udp_unbind port u in (u, (r, None))
  | UClose p => (udp_close p u, (0, None))
  | USend ip dp sp data len => let '(u, r) := udp_send hw_result fresh ip dp sp data len u in (u, (r, None))
  | USendto p ip dp data len => let '(u, r) := udp_sendto hw_result fresh p ip dp data len u in (u, (r, None))
  | URecv port buf n => let '(u, r, d) := udp_recv port buf n u in (u, (r, d))
  | URecvfrom p buf n => let '(u, r, d) := udp_recvfrom p buf n u in (u, (r, d))
  | UInput ip packet => let '(u, r) := udp_input ip packet u in (u, (r, None))
  | UNonblock p on => (udp_set_nonblock p on u, (0, None))
  | UBroadcast p on => (udp_set_broadcast p on u, (0, None))
  | UCount port => (u, (udp_recv_queue_count port u, None))
  end.
(** A socket argument is NULL or the address of an endpoint. *)
Definition sock_arg (l : list endpoint) (p : Z) : Prop := p = NULL \/ p ∈ map ep_addr l.
Definition call_ok (l : list endpoint) (c : udp_call) : Prop :=
  match c with
  | UBind port => 0 <= port < 65536
  | UClose p | UNonblock p _ | UBroadcast p _ => sock_arg l p
  | USend _ _ _ _ len => 0 <= len
  | USendto p _ _ _ len => sock_arg l p /\ 0 <= len
  | URecv _ _ n => 0 <= n
  | URecvfrom p _ n => sock_arg l p /\ 0 <= n
  | UUnbind _ | UInput _ _ | UCount _ => True
  end.

(** What a receive from endpoint [e] promises. *)
Definition received (l1 : list endpoint) (e : endpoint) (l2 : list endpoint) (n : Z) (r : udp_result) (l' : list endpoint) : Prop :=
  match ep_queue e with
  | [] => r = (0, None) /\ l' = l1 ++ e :: l2
  | x :: q => r = (Z.of_nat (length (q_data x)), Some (take (Z.to_nat n) (q_data x), q_ip x, q_port x)) /\ l' = l1 ++ ep_pop q e :: l2
  end.
Definition with_flags (f : Z) (e : endpoint) : endpoint := mk_endpoint (ep_addr e) (ep_port e) f (ep_queue e).
(** What each call does to the list of endpoints. *)
Definition udp_does u (c : udp_call) (r : udp_result) (l l' : list endpoint) : Prop :=
  match c with
  | UBind port =>
      (fst r = NULL /\ l' = l /\ (udp_initialized u = false \/ (port = 0 /\ ports_used u l) \/ port ∈ map ep_port l \/ Z.of_nat (length l) = UDP_MAX_SOCKETS \/ denied [sizeof_udp_socket] (ud_heap u))) \/
      (exists q, (port = 0 \/ q = port) /\ (q ∉ map ep_port l) /\ (fst r ∉ all_blocks l) /\ fst r <> NULL /\ l' = l ++ [new_endpoint (fst r) q])
  | UUnbind port =>
      (fst r <> UDP_OK /\ l' = l /\ (udp_initialized u = false \/ port ∉ map ep_port l)) \/
      (exists l1 e l2, fst r = UDP_OK /\ l = l1 ++ e :: l2 /\ ep_port e = port /\ l' = l1 ++ l2)
  | UClose p => (p = NULL /\ l' = l) \/ (exists l1 e l2, l = l1 ++ e :: l2 /\ ep_addr e = p /\ l' = l1 ++ l2)
  | USend _ _ _ _ _ | USendto _ _ _ _ _ => l' = l
  | URecv port buf n =>
      (fst r < 0 /\ l' = l /\ (udp_initialized u = false \/ buf = NULL \/ n = 0 \/ port ∉ map ep_port l)) \/
      (exists l1 e l2, l = l1 ++ e :: l2 /\ ep_port e = port /\ received l1 e l2 n r l')
  | URecvfrom p buf n =>
      (fst r < 0 /\ l' = l /\ (p = NULL \/ buf = NULL \/ n = 0)) \/
      (exists l1 e l2, l = l1 ++ e :: l2 /\ ep_addr e = p /\ received l1 e l2 n r l')
  | UInput ip packet =>
      (fst r <> UDP_OK /\ l' = l /\
         (udp_initialized u = true -> forall pk sp dp data, packet = Some pk -> parse_datagram ip (local_ip (ud_net u)) pk = Some (sp, dp, data) ->
            (dp ∉ map ep_port l) \/ (exists e, e ∈ l /\ ep_port e = dp /\ Z.of_nat (length (ep_queue e)) = UDP_RECV_QUEUE_SIZE) \/ data = [] \/ denied [sizeof_udp_datagram; Z.of_nat (length data)] (ud_heap u))) \/
      (fst r = UDP_OK /\ exists pk sp dp data l1 e l2 x, packet = Some pk /\ parse_datagram ip (local_ip (ud_net u)) pk = Some (sp, dp, data) /\
         l = l1 ++ e :: l2 /\ ep_port e = dp /\ q_data x = data /\ q_ip x = ip /\ q_port x = sp /\ l' = l1 ++ ep_push x e :: l2)
  | UNonblock p _ | UBroadcast p _ => (p = NULL /\ l' = l) \/ (exists l1 e l2 f, l = l1 ++ e :: l2 /\ ep_addr e = p /\ l' = l1 ++ with_flags f e :: l2)
  | UCount port => l' = l /\ fst r = default 0 (Z.of_nat <$> (length <$> (ep_queue <$> head (filter (fun e => ep_port e = port) l))))
  end.
Lemma sock_arg_split l p : sock_arg l p -> p = NULL \/ exists l1 e l2, l = l1 ++ e :: l2 /\ ep_addr e = p.
Proof. intros [->|(e & -> & He)%list_elem_of_fmap]; [by left|]. right. apply list_elem_of_split in He as (l1 & l2 & ->). by exists l1, e, l2. Qed.
Lemma split_nonnull u l1 e l2 : udp_rep u (l1 ++ e :: l2) -> ep_addr e <> NULL /\ us_bound (ud_sock u (ep_addr e)) = true.
Proof.
  intros R. destruct (rep_live u _ (ep_addr e) R) as [Ha _]; [apply addr_block, elem_of_app; right; left|]. split; [unfold address, NULL in *; lia|].
  pose proof (ur_eps _ _ R) as Re. rewrite Forall_forall in Re. destruct (Re e) as [[_ ?] _ _ _ _ _]; [apply elem_of_app; right; left|done].
Qed.
Lemma recvfrom_does u l1 e l2 buf n : udp_rep u (l1 ++ e :: l2) -> 0 <= n ->
  exists u' r d l', udp_recvfrom (ep_addr e) buf n u = (u', r, d) /\ udp_rep u' l' /\
    ((r < 0 /\ l' = l1 ++ e :: l2 /\ (buf = NULL \/ n = 0)) \/ received l1 e l2 n (r, d) l').
Proof.
  intros R Hn. destruct (split_nonnull u l1 e l2 R) as [Ha Hb].
  destruct (Z.eq_dec buf NULL) as [->|Nb]; [|destruct (Z.eq_dec n 0) as [->|Nn]].
  1,2: unfold udp_recvfrom; rewrite Hb, (proj2 (Z.eqb_neq _ _) Ha), Z.eqb_refl, ?orb_true_r; cbn [orb negb]; do 4 eexists; split; [reflexivity|]; split; [exact R|]; left; unfold UDP_ERR_INVALID; auto with lia.
  pose proof (recv_rep u l1 e l2 buf n R Nb ltac:(lia)) as Hr. unfold received. destruct (ep_queue e) as [|x q].
  - rewrite Hr. do 4 eexists. split; [reflexivity|]. split; [exact R|]. by right.
  - destruct Hr as (u' & -> & R'). do 4 eexists. split; [reflexivity|]. split; [exact R'|]. by right.
Qed.

Lemma count_does u l port : udp_rep u l ->
  udp_recv_queue_count port u = default 0 (Z.of_nat <$> (length <$> (ep_queue <$> head (filter (fun e => ep_port e = port) l)))).
Proof.
  intros R. unfold udp_recv_queue_count. destruct (find_socket_ok u l port R) as [[-> Hn]|(l1 & e & l2 & -> & Ep & -> & Hn)].
  - rewrite Z.eqb_refl. replace (filter (fun e => ep_port e = port) l) with (@nil endpoint); [done|]. symmetry. clear R. induction l as [|e l IH]; [done|].
    cbn [map] in Hn. apply not_elem_of_cons in Hn as [H1' H2']. rewrite filter_cons_False by (intros Ex; by apply H1'). by apply IH.
  - rewrite (proj2 (Z.eqb_neq _ _) Hn). pose proof (proj1 (ur_ports _ _ R)) as Hnd. rewrite map_app in Hnd. apply NoDup_app in Hnd as (_ & Hd & _).
    assert (filter (fun e => ep_port e = port) l1 = []) as E1.
    { clear -Hd Ep. induction l1 as [|x l1 IH]; [done|]. rewrite filter_cons_False; [apply IH; intros y Hy; apply Hd; by right|]. intros Ex.
      apply (Hd (ep_port x)); [left|]. rewrite Ex, <- Ep. left. }
    rewrite filter_app, E1, filter_cons_True by done. cbn. pose proof (ur_eps _ _ R) as Re. rewrite Forall_forall in Re.
    destruct (Re e) as [_ _ _ _ [-> _] _]; [apply elem_of_app; right; left|done].
Qed.
Lemma recv_does u l port buf n u' r d : udp_rep u l -> 0 <= n -> udp_recv port buf n u = (u', r, d) ->
  exists l', udp_rep u' l' /\ udp_does u (URecv port buf n) (r, d) l l'.
Proof.
  intros R Hn. unfold udp_recv. destruct (udp_initialized u) eqn:Ei; cbn [negb]; [|intros [= <- <- <-]; exists l; split; [done|]; left; cbn; unfold UDP_ERR_INVALID; rewrite Ei; auto with lia].
  destruct (find_socket_ok u l port R) as [[-> Hf]|(l1 & e & l2 & -> & Ep & -> & Hne)].
  - rewrite Z.eqb_refl. intros [= <- <- <-]. exists l. split; [done|]. left. cbn. unfold UDP_ERR_NOTBOUND. split; [lia|]. tauto.
  - rewrite (proj2 (Z.eqb_neq _ _) Hne). destruct (recvfrom_does u l1 e l2 buf n R Hn) as (u1 & r1 & d1 & l' & -> & R' & Hd). intros [= <- <- <-]. exists l'. split; [done|].
    destruct Hd as [(Hr & -> & Hw)|Hd]; [left; cbn; split; [done|]; tauto|right; by exists l1, e, l2].
Qed.
Lemma unbind_does u l port u' r : udp_rep u l -> udp_unbind port u = (u', r) -> exists l', udp_rep u' l' /\ udp_does u (UUnbind port) (r, None) l l'.
Proof.
  intros R. unfold udp_unbind. destruct (udp_initialized u) eqn:Ei; cbn [negb]; [|intros [= <- <-]; exists l; split; [done|]; left; cbn; rewrite Ei; auto].
  destruct (find_socket_ok u l port R) as [[-> Hf]|(l1 & e & l2 & -> & Ep & -> & Hne)].
  - rewrite Z.eqb_refl. intros [= <- <-]. exists l. split; [done|]. left. cbn. auto.
  - rewrite (proj2 (Z.eqb_neq _ _) Hne). intros [= <- <-]. exists (l1 ++ l2). split; [by apply drop_rep|]. right. by exists l1, e, l2.
Qed.
Lemma flag_does u l p f on : udp_rep u l -> sock_arg l p ->
  exists l', udp_rep (if p =? NULL then u else on_usock p (switch_flag f on) u) l' /\
    ((p = NULL /\ l' = l) \/ (exists l1 e l2 g, l = l1 ++ e :: l2 /\ ep_addr e = p /\ l' = l1 ++ with_flags g e :: l2)).
Proof.
  intros R [->|(l1 & e & l2 & -> & <-)]%sock_arg_split; [rewrite Z.eqb_refl; exists l; auto|].
  destruct (split_nonnull u l1 e l2 R) as [Ha _]. rewrite (proj2 (Z.eqb_neq _ _) Ha). eexists. split; [apply (flag_rep u l1 e l2 _ R)|]. right. by do 4 eexists.
Qed.

(** the UDP sockets are mailboxes: whenever the structures represent a list of
    endpoints, each call leaves a list that differs as the call promises. A bind adds an
    endpoint with a port that was not in use, or fails for one of the stated reasons; a
    received packet that passes the checks is appended to the queue of its port unless the
    queue is full, the payload empty or the heap exhausted; receives take datagrams out in
    order; sending changes nothing; and all structures stay separate live allocations. *)
Theorem udp_refines u l c u' r : udp_rep u l -> call_ok l c -> run_udp c u = (u', r) ->
  exists l', udp_rep u' l' /\ udp_does u c r l l'.
Proof.
  intros R Hok Hrun. destruct c as [port|port|p|ip dp sp data len|p ip dp data len|port buf n|p buf n|ip packet|p on|p on|port]; cbn [run_udp call_ok udp_does] in *.
  - destruct (udp_bind port u) as [u1 p] eqn:E. injection Hrun as <- <-. cbn [fst]. destruct (bind_rep u l port u1 p R Hok E) as [(-> & R' & Hw)|(q & Q1 & Q2 & Q3 & Q4 & R')].
    + exists l. auto.
    + exists (l ++ [new_endpoint p q]). split; [done|]. right. by exists q.
  - destruct (udp_unbind port u) as [u1 x] eqn:E. injection Hrun as <- <-. by apply unbind_does.
  - injection Hrun as <- <-. apply sock_arg_split in Hok as [->|(l1 & e & l2 & -> & <-)]; [exists l; auto|]. exists (l1 ++ l2). split; [by apply close_rep|]. right. by exists l1, e, l2.
  - destruct (udp_send _ _ _ _ _ _ _ u) as [u1 x] eqn:E. injection Hrun as <- <-. exists l. split; [|done]. replace u1 with (fst (u1, x)) by done. rewrite <- E. by apply send_rep.
  - destruct (udp_sendto _ _ _ _ _ _ _ u) as [u1 x] eqn:E. injection Hrun as <- <-. exists l. split; [|done]. replace u1 with (fst (u1, x)) by done. rewrite <- E.
    unfold udp_sendto. destruct (_ || _); [done|]. by apply send_rep, Hok.
  - destruct (udp_recv port buf n u) as [[u1 x] d] eqn:E. injection Hrun as <- <-. by apply recv_does.
  - destruct (udp_recvfrom p buf n u) as [[u1 x] d] eqn:E. injection Hrun as <- <-. destruct Hok as [Hp Hn]. apply sock_arg_split in Hp as [->|(l1 & e & l2 & -> & <-)].
    + unfold udp_recvfrom in E. cbn in E. injection E as <- <- <-. exists l. split; [done|]. left. cbn. unfold UDP_ERR_NOTBOUND. auto with lia.
    + destruct (recvfrom_does u l1 e l2 buf n R Hn) as (v & x' & d' & l' & E' & R' & Hd). rewrite E' in E. injection E as <- <- <-. exists l'. split; [done|].
      destruct Hd as [(Hr & -> & Hw)|Hd]; [left; cbn; tauto|right; by exists l1, e, l2].
  - destruct (udp_input ip packet u) as [u1 x] eqn:E. injection Hrun as <- <-. cbn [fst].
    destruct (input_rep u l ip packet u1 x R E) as [(Hr & R' & Hw)|(Hr & pk & sp & dp & data & l1 & e & l2 & y & E1 & E2 & E3 & E4 & E5 & E6 & E7 & R')]; [exists l; auto|].
    exists (l1 ++ ep_push y e :: l2). split; [done|]. right. split; [done|]. by exists pk, sp, dp, data, l1, e, l2, y.
  - injection Hrun as <- <-. by apply flag_does.
  - injection Hrun as <- <-. by apply flag_does.
  - injection Hrun as <- <-. exists l. split; [done|]. split; [done|]. by apply count_does.
Qed.
(** The initial state has no endpoints. *)
Lemma udp_init_rep u : udp_initialized u = false -> kh_wf (ud_heap u) -> udp_rep (udp_init u) [].
Proof.
  intros E Hw. unfold udp_init. rewrite E. split; cbn; try done.
  - split; constructor.
  - constructor.
Qed.
End Ops.

(** ** What is built is accepted *)

Definition udp_sum (src dst : Z) (l : list Z) : Z := word_sum (udp_pseudo_header src dst (Z.of_nat (length l)) ++ l).
Lemma udp_pseudo_bytes src dst n : bytes (udp_pseudo_header src dst n).
Proof. unfold udp_pseudo_header. rewrite !bytes_app. split_and!; auto with word. repeat constructor; unfold UDP_PROTOCOL; lia. Qed.
Lemma udp_sum_pos src dst l : bytes l -> 0 < udp_sum src dst l.
Proof.
  intros Hl. unfold udp_sum. set (n := Z.of_nat _). pose proof (udp_pseudo_bytes src dst n) as Hp.
  rewrite word_sum_app by (by exists 6%nat). pose proof (word_sum_bound l Hl).
  unfold udp_pseudo_header in *. rewrite !bytes_app in Hp. destruct Hp as (H1 & H2 & _ & H4).
  rewrite !word_sum_app by (first [by exists 2%nat|by exists 1%nat]).
  pose proof (word_sum_bound _ H1). pose proof (word_sum_bound _ H2). pose proof (word_sum_bound _ H4).
  change (word_sum [0; UDP_PROTOCOL]) with 4352. lia.
Qed.
Lemma udp_checksum_val src dst l : bytes l -> Z.of_nat (length l) <= UDP_MAX_DATAGRAM ->
  udp_checksum src dst l = 65535 - ones_sum (udp_sum src dst l).
Proof.
  intros Hb Hl. unfold udp_checksum, udp_sum. set (h := udp_pseudo_header _ _ _). cbv zeta.
  rewrite <- sum_words_app by (exists 6%nat; done).
  apply (ip_checksum_val (h ++ l)); [apply Forall_app; split; [apply udp_pseudo_bytes|done]|]. rewrite length_app.
  assert (length h = 12%nat) as -> by done. unfold UDP_MAX_DATAGRAM, CHECKSUM_MAX in *. lia.
Qed.
Lemma udp_header_sum src dst sp dp n c payload : 0 <= c < 65536 ->
  udp_sum src dst (udp_header sp dp n c ++ payload) = udp_sum src dst (udp_header sp dp n 0 ++ payload) + c.
Proof.
  intros Hc. unfold udp_sum. rewrite !length_app. change (length (udp_header sp dp n c)) with 8%nat. change (length (udp_header sp dp n 0)) with 8%nat.
  rewrite !(word_sum_app (udp_pseudo_header _ _ _)) by (by exists 6%nat). rewrite !(word_sum_app (udp_header _ _ _ _)) by (by exists 4%nat).
  rewrite <- (le16_val c) at 2 by done. unfold udp_header, le16. cbn [app word_sum]. change (u8 0) with 0. change (u8 (Z.shiftr 0 8)) with 0. lia.
Qed.
Lemma udp_header_bytes sp dp n c : bytes (udp_header sp dp n c).
Proof. unfold udp_header. rewrite !bytes_app. split_and!; auto with word. Qed.

(** What the arguments of a datagram may be. *)
Record datagram_ok (sp dp : Z) (payload : list Z) : Prop := mk_datagram_ok {
  do_sp : 0 <= sp < 65536;
  do_dp : 0 <= dp < 65536;
  do_bytes : bytes payload;
  do_len : Z.of_nat (length payload) <= UDP_MAX_PAYLOAD;
}.
Lemma build_datagram_length src dst sp dp payload : length (build_datagram src dst sp dp payload) = (8 + length payload)%nat.
Proof. done. Qed.
Lemma build_datagram_checks src dst sp dp payload : datagram_ok sp dp payload ->
  udp_checksum src dst (build_datagram src dst sp dp payload) = 0.
Proof.
  intros [_ _ Hb Hl]. unfold build_datagram. cbv zeta. set (n := u16 _). set (h0 := udp_header sp dp n 0 ++ payload).
  assert (forall c, bytes (udp_header sp dp n c ++ payload)) as Hbs by (intros c; apply bytes_app; split; [apply udp_header_bytes|done]).
  assert (forall c, Z.of_nat (length (udp_header sp dp n c ++ payload)) <= UDP_MAX_DATAGRAM) as Hls.
  { intros c. rewrite length_app. change (length (udp_header sp dp n c)) with 8%nat. unfold UDP_MAX_PAYLOAD, UDP_HEADER_LEN in Hl. lia. }
  pose proof (udp_sum_pos src dst h0 (Hbs 0)) as Hp. pose proof (ones_sum_range (udp_sum src dst h0) ltac:(lia)) as Ho.
  assert (0 < ones_sum (udp_sum src dst h0)) as Ho1 by (unfold ones_sum; case_if; dlia).
  rewrite (udp_checksum_val _ _ h0 (Hbs 0) (Hls 0)). rewrite udp_checksum_val by done. rewrite udp_header_sum by (case_if; lia). fold h0.
  generalize dependent (udp_sum src dst h0). intros s Hp Ho Ho1. unfold ones_sum in *. repeat case_if; try dlia.
Qed.
Lemma build_parse_datagram src dst sp dp payload : datagram_ok sp dp payload ->
  parse_datagram src dst (build_datagram src dst sp dp payload) = Some (sp, dp, payload).
Proof.
  intros Hd. pose proof (build_datagram_checks src dst sp dp payload Hd) as Hc. pose proof Hd as [H1 H2 Hb Hl]. unfold UDP_MAX_PAYLOAD, UDP_MAX_DATAGRAM, UDP_HEADER_LEN in Hl.
  unfold parse_datagram. rewrite build_datagram_length.
  assert (ntohs (get16 (build_datagram src dst sp dp payload) 0) = sp) as -> by (by apply (get16_le16 sp)).
  assert (ntohs (get16 (build_datagram src dst sp dp payload) 2) = dp) as -> by (by apply (get16_le16 dp)).
  assert (ntohs (get16 (build_datagram src dst sp dp payload) 4) = 8 + Z.of_nat (length payload)) as ->.
  { rewrite <- (u16_id (8 + _)) by lia. apply (get16_le16 (u16 (UDP_HEADER_LEN + Z.of_nat (length payload)))). apply u16_range. }
  cbv zeta. unfold UDP_HEADER_LEN. rewrite !(proj2 (Z.ltb_ge _ _)) by lia. cbn [orb].
  rewrite take_ge by (rewrite build_datagram_length; lia). rewrite Hc, andb_false_r. reflexivity.
Qed.

(** Ports identify endpoints. *)
Lemma port_split l1 e l2 m1 e' m2 : NoDup (map ep_port (l1 ++ e :: l2)) -> l1 ++ e :: l2 = m1 ++ e' :: m2 -> ep_port e' = ep_port e -> l1 = m1 /\ e = e' /\ l2 = m2.
Proof.
  revert m1. induction l1 as [|a l1 IH]; intros [|b m1] Hnd E Ep; simpl in *.
  - by injection E as -> ->.
  - injection E as -> ->. apply NoDup_cons in Hnd as [Hn _]. exfalso. apply Hn, list_elem_of_fmap. exists e'. split; [by rewrite Ep|]. apply elem_of_app. right. left.
  - injection E as -> <-. apply NoDup_cons in Hnd as [Hn _]. exfalso. apply Hn, list_elem_of_fmap. exists e. split; [done|]. apply elem_of_app. right. left.
  - injection E as -> E. apply NoDup_cons in Hnd as [_ Hnd]. destruct (IH m1 Hnd E Ep) as (-> & -> & ->). done.
Qed.

Section Deliver.
Context {H : Type} `{KernelHeapLaws H}.
Implicit Types u : udp H.
(** the datagram that udp_send builds for a port of this host is delivered: udp_input
    accepts it and appends its payload, with the sender's address and port, to the queue of
    that port, when the queue has room, the heap gives memory and the payload is not empty. *)
Theorem udp_datagram_roundtrip u l1 e l2 src sp payload u' r :
  udp_rep u (l1 ++ e :: l2) -> udp_initialized u = true -> datagram_ok sp (ep_port e) payload -> payload <> [] ->
  Z.of_nat (length (ep_queue e)) < UDP_RECV_QUEUE_SIZE -> ~ denied [sizeof_udp_datagram; Z.of_nat (length payload)] (ud_heap u) ->
  udp_input src (Some (build_datagram src (local_ip (ud_net u)) sp (ep_port e) payload)) u = (u', r) ->
  r = UDP_OK /\ exists x, q_data x = payload /\ q_ip x = src /\ q_port x = sp /\ udp_rep u' (l1 ++ ep_push x e :: l2).
Proof.
  intros R Ei Hd Hne Hq Hh Hin. pose proof (build_parse_datagram src (local_ip (ud_net u)) _ _ _ Hd) as Hp. pose proof (proj1 (ur_ports _ _ R)) as Hnd.
  destruct (input_rep u _ src _ u' r R Hin) as [(_ & _ & Hw)|(Hr & pk & sp' & dp & data & m1 & e' & m2 & x & [= <-] & E2 & E3 & E4 & E5 & E6 & E7 & R')].
  - exfalso. destruct (Hw Ei _ _ _ _ eq_refl Hp) as [Hn|[(e' & He & Ep & Hf)|[?|?]]]; [|..|done|done].
    + apply Hn, list_elem_of_fmap. exists e. split; [done|]. apply elem_of_app. right. left.
    + apply list_elem_of_split in He as (m1 & m2 & E). destruct (port_split _ _ _ _ _ _ Hnd E Ep) as (_ & -> & _). lia.
  - rewrite Hp in E2. injection E2 as <- <- <-. split; [done|]. exists x. do 3 (split; [done|]). by destruct (port_split _ _ _ _ _ _ Hnd E3 E4) as (-> & -> & ->).
Qed.
End Deliver.

Section Faults.
Context {H : Type} `{KernelHeapLaws H}.
Implicit Types u : udp H.
(** The counter of ephemeral ports is a uint16_t: the comparison with 65535 never holds, so
    that after port 65535 it stands at 0, the next bind without a port fails, and the one
    after it gets port 1. *)
Lemma udp_ephemeral_wraps u l : udp_rep u l -> udp_initialized u = true -> next_ephemeral_port u = 0 ->
  exists u', udp_bind 0 u = (u', NULL) /\ next_ephemeral_port u' = 1.
Proof.
  intros R Ei En. unfold udp_bind, allocate_ephemeral_port. rewrite Ei, Z.eqb_refl. cbn [negb].
  rewrite (while_pos_enough _ _ 1 u (advance_port u, 0)); [|simpl|lia].
  - rewrite Z.eqb_refl. eexists. split; [done|]. rewrite next_port_val by lia. by rewrite En.
  - unfold uport_round. rewrite En. destruct (udp_port_in_use 0 u) eqn:E; [|done].
    exfalso. apply (port_in_use_ok u l) in E; [|done]. by apply (zero_port_free u l).
Qed.
(** A datagram without payload reaches no socket: kmalloc(0) gives NULL. *)
Lemma udp_empty_dropped u p src sp h d : us_recv_count (ud_sock u p) < UDP_RECV_QUEUE_SIZE -> kh_malloc sizeof_udp_datagram (ud_heap u) = (h, d) ->
  snd (queue_datagram p [] src sp u) = UDP_ERR_NOMEM.
Proof.
  intros Hq E. unfold queue_datagram. rewrite (proj2 (Z.leb_gt _ _) Hq), E. destruct (Z.eqb_spec d NULL); [done|]. cbn [ud_heap set_uheap length Z.of_nat]. by rewrite kh_malloc_zero.
Qed.
End Faults.

(** ** Examples: port 53 on a host *)

Definition boot_udp : udp arena :=
  mk_udp (fun _ => zero_usock) (fun _ => mk_udgram 0 0 0 0 0) (fun _ => []) 0 0 0 0 false zero_udp_stats blank_net net_heap.
Definition idle_udp : udp arena := udp_init boot_udp.
Definition bound_udp : udp arena := fst (udp_bind 53 idle_udp).
Definition port_53 : endpoint := new_endpoint (snd (udp_bind 53 idle_udp)) 53.
Lemma idle_udp_rep : udp_rep idle_udp [].
Proof. apply udp_init_rep; [done|apply net_heap_ok]. Qed.
Lemma bound_udp_rep : udp_rep bound_udp [port_53].
Proof.
  assert (udp_bind 53 idle_udp = (bound_udp, ep_addr port_53)) as E by done.
  destruct (bind_rep (fun _ => 0) idle_udp [] 53 _ _ idle_udp_rep ltac:(lia) E) as [(Hn & _)|(q & [?| ->] & _ & _ & _ & R)]; [by vm_compute in Hn|lia|exact R].
Qed.
Lemma udp_refines_witness :
  udp_rep idle_udp [] /\ exists u' r l', run_udp (fun _ => 0) (fun _ => 0) (UBind 53) idle_udp = (u', r) /\ udp_rep u' l' /\ udp_does idle_udp (UBind 53) r [] l'.
Proof.
  split; [exact idle_udp_rep|]. exists bound_udp, (ep_addr port_53, None).
  destruct (udp_refines (fun _ => 0) (fun _ => 0) idle_udp [] (UBind 53) bound_udp (ep_addr port_53, None) idle_udp_rep) as (l' & R & D).
  - simpl; lia.
  - reflexivity.
  - exists l'. split; [reflexivity|]. exact (conj R D).
Defined.
Definition query : list Z := [1; 2; 3].
Lemma udp_datagram_roundtrip_witness :
  udp_rep bound_udp [port_53] /\
  exists u' x, udp_input 0xC0A80102 (Some (build_datagram 0xC0A80102 (local_ip (ud_net bound_udp)) 5000 53 query)) bound_udp = (u', UDP_OK) /\
    q_data x = query /\ udp_rep u' [ep_push x port_53].
Proof.
  split; [exact bound_udp_rep|].
  destruct (udp_input 0xC0A80102 (Some (build_datagram 0xC0A80102 (local_ip (ud_net bound_udp)) 5000 53 query)) bound_udp) as [u' r] eqn:E.
  destruct (udp_datagram_roundtrip bound_udp [] port_53 [] 0xC0A80102 5000 query u' r bound_udp_rep eq_refl) as (-> & x & Hx & _ & _ & R).
  - split; [lia|simpl; lia|by repeat constructor|by vm_compute].
  - discriminate.
  - reflexivity.
  - intros [Hd|[Hd|Hd]]; [vm_compute in Hd; discriminate|vm_compute in Hd; discriminate|exact Hd].
  - exact E.
  - exists u', x. exact (conj eq_refl (conj Hx R)).
Defined.
