(* ===== verification/Dns.v ===== *)
(** * The DNS resolver (net/dns/dns.c)

    Host names and their wire format with compression pointers, queries, responses, the
    cache, and addresses as text. A string is the list of its bytes before the NUL, [None]
    for NULL. Where the code reads a packet that came from the network or writes a buffer of
    a given size, the definition returns [None] if an access lies outside. *)
From S2P Require Import Prelude Memory Ring Netbuf Net Chain.

Definition DNS_MAX_NAME_LEN : Z := 255.
Definition DNS_MAX_LABEL_LEN : Z := 63.
Definition DNS_HEADER_SIZE : Z := 12.
Definition DNS_MAX_PACKET_SIZE : Z := 512.
Definition DNS_CACHE_SIZE : Z := 32.
Definition DNS_MIN_TTL : Z := 60.
Definition DNS_MAX_TTL : Z := 86400.
Definition DNS_DEFAULT_SERVER : Z := 0x08080808.
Definition DNS_TYPE_A : Z := 1.
Definition DNS_CLASS_IN : Z := 1.
Definition DNS_FLAG_QR : Z := 0x8000.
Definition DNS_FLAG_RD : Z := 0x0100.
Definition DNS_FLAG_RCODE_MASK : Z := 0x000F.
Definition DNS_RCODE_OK : Z := 0.
Definition DNS_RCODE_FORMAT_ERR : Z := 1.
Definition DNS_RCODE_NAME_ERR : Z := 3.
Definition DNS_OK : Z := 0.
Definition DNS_ERR_INVALID_NAME : Z := -1.
Definition DNS_ERR_NETWORK : Z := -2.
Definition DNS_ERR_NO_MEMORY : Z := -4.
Definition DNS_ERR_FORMAT : Z := -5.
Definition DNS_ERR_SERVER : Z := -6.
Definition DNS_ERR_NOT_FOUND : Z := -7.
Definition sizeof_dns_question : Z := 4.
Definition sizeof_dns_answer : Z := 10.

Definition DOT_CHAR : Z := 46.
Definition HYPHEN : Z := 45.

(** ** Names *)

Definition lower_char (c : Z) : Z := if (65 <=? c) && (c <=? 90) then c + 32 else c.
(** The value of a byte as a char, which is signed. *)
Definition char_value (c : Z) : Z := if c <? 128 then c else c - 256.
Fixpoint dns_strcasecmp (s1 s2 : list Z) : Z :=
  match s1, s2 with
  | c1 :: r1, c2 :: r2 =>
      if negb (lower_char c1 =? lower_char c2) then char_value (lower_char c1) - char_value (lower_char c2)
      else dns_strcasecmp r1 r2
  | _, _ => hd 0 s1 - hd 0 s2
  end.

Definition host_char (c : Z) : bool :=
  ((97 <=? c) && (c <=? 122)) || ((65 <=? c) && (c <=? 90)) || ((48 <=? c) && (c <=? 57)) || (c =? HYPHEN).
(** The loop over the characters; [first] is [i == 0], the head of [r] is [hostname[i+1]]. *)
Fixpoint validate_chars (s : list Z) (first : bool) (label_len : Z) (prev_was_dot : bool) : bool :=
  match s with
  | [] => label_len <=? DNS_MAX_LABEL_LEN
  | c :: r =>
      if c =? DOT_CHAR then
        if prev_was_dot && negb first then false
        else if DNS_MAX_LABEL_LEN <? label_len then false
        else validate_chars r false 0 true
      else if negb (host_char c) then false
      else if (c =? HYPHEN) && (prev_was_dot || (hd 0 r =? DOT_CHAR) || (hd 0 r =? 0)) then false
      else validate_chars r false (label_len + 1) false
  end.
Definition dns_validate_hostname (hostname : option (list Z)) : bool :=
  match hostname with
  | None | Some [] => false
  | Some s => if DNS_MAX_NAME_LEN <? Z.of_nat (length s) then false else validate_chars s true 0 true
  end.

(** The pieces between dots, the first one apart. *)
Fixpoint split_dots (s : list Z) : list Z * list (list Z) :=
  match s with
  | [] => ([], [])
  | c :: s => let '(t, r) := split_dots s in if c =? DOT_CHAR then ([], t :: r) else (c :: t, r)
  end.
(** The loop over the labels: what has been written to the buffer, and the result. *)
Fixpoint encode_labels (labels : list (list Z)) (buf : list Z) (bufsize : Z) : list Z * Z :=
  match labels with
  | [] => (buf ++ [0], Z.of_nat (length buf) + 1)
  | label :: rest =>
      let label_len := Z.of_nat (length label) in
      if label_len =? 0 then encode_labels rest buf bufsize
      else if DNS_MAX_LABEL_LEN <? label_len then (buf, DNS_ERR_INVALID_NAME)
      else if bufsize <=? Z.of_nat (length buf) + label_len + 1 then (buf, DNS_ERR_NO_MEMORY)
      else encode_labels rest (buf ++ u8 label_len :: label) bufsize
  end.
Definition dns_encode_name (hostname : option (list Z)) (buf bufsize : Z) : list Z * Z :=
  match hostname with
  | None => ([], DNS_ERR_INVALID_NAME)
  | Some s =>
      if (buf =? NULL) || (bufsize =? 0) then ([], DNS_ERR_INVALID_NAME)
      else if negb (dns_validate_hostname hostname) then ([], DNS_ERR_INVALID_NAME)
      else if bufsize <? Z.of_nat (length s) + 2 then ([], DNS_ERR_NO_MEMORY)
      else let '(t, r) := split_dots s in encode_labels (t :: r) [] bufsize
  end.

(** [packet[i]] *)
Definition read8 (packet : list Z) (i : Z) : option Z := if i <? 0 then None else packet !! Z.to_nat i.
Definition read16 (packet : list Z) (i : Z) : option Z :=
  b0 ← read8 packet i; b1 ← read8 packet (i + 1); Some (b0 + 256 * b1).
Definition read32 (packet : list Z) (i : Z) : option Z :=
  w0 ← read16 packet i; w1 ← read16 packet (i + 2); Some (w0 + 65536 * w1).
(** Appends a character to the name in a buffer of [size] bytes. *)
Definition put_char (size c : Z) (name : list Z) : option (list Z) :=
  if Z.of_nat (length name) <? size then Some (name ++ [c]) else None.

(** The local variables of dns_decode_name. *)
Record decoding := mk_decoding { name_out : list Z; data_offset : Z; bytes_consumed : Z; jumped : bool; jump_count : Z }.
Definition max_jumps : Z := 128.

(** The name is full when only the NUL still fits. *)
Definition name_full (name_size : Z) (name : list Z) : bool := name_size - 1 <=? Z.of_nat (length name).
(** The loop over the characters of a label; [inr] is a return with an error. *)
Fixpoint copy_label (packet : list Z) (name_size : Z) (n : nat) (off : Z) (name : list Z) : option (list Z + list Z) :=
  match n with
  | O => Some (inl name)
  | S n =>
      if name_full name_size name then Some (inr name)
      else
        c ← read8 packet off;
        name ← put_char name_size c name;
        copy_label packet name_size n (off + 1) name
  end.
Definition decode_round (packet : list Z) (name_size start : Z) (d : decoding) : decoding + option (list Z * Z) :=
  if Z.of_nat (length packet) <=? data_offset d then
    inr (r ← put_char name_size 0 (name_out d); Some (name_out d, bytes_consumed d))
  else
    match read8 packet (data_offset d) with
    | None => inr None
    | Some len =>
        if Z.land len 0xC0 =? 0xC0 then
          if Z.of_nat (length packet) <=? data_offset d + 1 then inr (Some (name_out d, DNS_ERR_FORMAT))
          else
            match read8 packet (data_offset d + 1) with
            | None => inr None
            | Some low =>
                let offset := Z.lor (Z.shiftl (Z.land len 0x3F) 8) low in
                let consumed := if negb (jumped d) then data_offset d - start + 2 else bytes_consumed d in
                if max_jumps <? jump_count d + 1 then inr (Some (name_out d, DNS_ERR_FORMAT))
                else inl (mk_decoding (name_out d) offset consumed true (jump_count d + 1))
            end
        else if len =? 0 then
          let consumed := if negb (jumped d) then data_offset d - start + 1 else bytes_consumed d in
          inr (r ← put_char name_size 0 (name_out d); Some (name_out d, consumed))
        else if DNS_MAX_LABEL_LEN <? len then inr (Some (name_out d, DNS_ERR_FORMAT))
        else if Z.of_nat (length packet) <? data_offset d + 1 + len then inr (Some (name_out d, DNS_ERR_FORMAT))
        else if (0 <? Z.of_nat (length (name_out d))) && name_full name_size (name_out d) then inr (Some (name_out d, DNS_ERR_FORMAT))
        else
          match (name ← if 0 <? Z.of_nat (length (name_out d)) then put_char name_size DOT_CHAR (name_out d) else Some (name_out d);
                 copy_label packet name_size (Z.to_nat len) (data_offset d + 1) name) with
          | None => inr None
          | Some (inr name) => inr (Some (name, DNS_ERR_FORMAT))
          | Some (inl name) => inl (mk_decoding name (data_offset d + 1 + len) (bytes_consumed d) (jumped d) (jump_count d))
          end
    end.
(** [start] is [data - packet]; the name that was decoded and the result. *)
Definition dns_decode_name (packet : list Z) (start name_size : Z) : option (list Z * Z) :=
  if name_size =? 0 then Some ([], DNS_ERR_FORMAT)
  else
    mjoin (loop (decode_round packet name_size start) (mk_decoding [] start 0 false 0)).

(** ** The resolver *)

Record dns_cache_entry := mk_centry { ce_name : list Z; ce_ip : Z; ce_ttl : Z; ce_timestamp : Z; ce_ok : bool }.
(** The resolver and the counter of dns_get_ticks. *)
Record dns := mk_dns { server_ip : Z; next_id : Z; cache : list dns_cache_entry; dns_initialized : bool; ticks : Z }.
Definition zero_centry : dns_cache_entry := mk_centry [] 0 0 0 false.
Definition set_server (v : Z) (d : dns) : dns := mk_dns v (next_id d) (cache d) (dns_initialized d) (ticks d).
Definition set_next_id (v : Z) (d : dns) : dns := mk_dns (server_ip d) v (cache d) (dns_initialized d) (ticks d).
Definition set_cache (c : list dns_cache_entry) (d : dns) : dns := mk_dns (server_ip d) (next_id d) c (dns_initialized d) (ticks d).

Definition dns_get_ticks (d : dns) : dns * Z :=
  (mk_dns (server_ip d) (next_id d) (cache d) (dns_initialized d) (u64 (ticks d + 1)), ticks d).
Definition dns_generate_id (d : dns) : dns * Z :=
  let d := set_next_id (u16 (next_id d + 1)) d in
  let id := next_id d in
  let id := u16 (Z.lxor id (Z.shiftl id 7)) in
  let id := Z.lxor id (Z.shiftr id 9) in
  let id := u16 (Z.lxor id (Z.shiftl id 8)) in
  (d, id).

Definition dns_cache_clear (d : dns) : dns :=
  set_cache (map (fun e => mk_centry [] (ce_ip e) (ce_ttl e) (ce_timestamp e) false) (cache d)) d.
Definition dns_init (d : dns) : dns * Z :=
  let d := mk_dns 0 0 (repeat zero_centry (Z.to_nat DNS_CACHE_SIZE)) false (ticks d) in
  let d := set_server DNS_DEFAULT_SERVER d in
  let '(d, t) := dns_get_ticks d in
  let d := dns_cache_clear (set_next_id (u16 (Z.land t 0xFFFF)) d) in
  (mk_dns (server_ip d) (next_id d) (cache d) true (ticks d), DNS_OK).
Definition dns_set_server (ip : Z) (d : dns) : dns * Z :=
  if negb (dns_initialized d) then (d, DNS_ERR_INVALID_NAME)
  else if ip =? 0 then (d, DNS_ERR_INVALID_NAME)
  else (set_server ip d, DNS_OK).
Definition dns_get_server (d : dns) : Z := server_ip d.

(** ** Queries and responses *)

Definition dns_header (id flags qdcount ancount nscount arcount : Z) : list Z :=
  le16 (htons id) ++ le16 (htons flags) ++ le16 (htons qdcount) ++ le16 (htons ancount) ++ le16 (htons nscount) ++ le16 (htons arcount).
Definition dns_question (qtype qclass : Z) : list Z := le16 (htons qtype) ++ le16 (htons qclass).
(** The bytes written to [buf], and the result. *)
Definition dns_build_query (hostname : option (list Z)) (buf : Z) (d : dns) : dns * (list Z * Z) :=
  if negb (dns_initialized d) then (d, ([], DNS_ERR_INVALID_NAME))
  else
    match hostname with
    | None => (d, ([], DNS_ERR_INVALID_NAME))
    | Some _ =>
        if buf =? NULL then (d, ([], DNS_ERR_INVALID_NAME))
        else
          let '(d, id) := dns_generate_id d in
          let header := dns_header id DNS_FLAG_RD 1 0 0 0 in
          let '(name, name_len) := dns_encode_name hostname (buf + DNS_HEADER_SIZE) (DNS_MAX_PACKET_SIZE - DNS_HEADER_SIZE - 4) in
          if name_len <? 0 then (d, (header ++ name, name_len))
          else (d, (header ++ name ++ dns_question DNS_TYPE_A DNS_CLASS_IN, DNS_HEADER_SIZE + name_len + sizeof_dns_question))
    end.

(** Skips a QNAME, from [offset] on. *)
Definition skip_round (packet : list Z) (offset : Z) : Z + option Z :=
  if Z.of_nat (length packet) <=? offset then inr (Some offset)
  else
    match read8 packet offset with
    | None => inr None
    | Some label_len =>
        if label_len =? 0 then inr (Some (offset + 1))
        else if Z.land label_len 0xC0 =? 0xC0 then inr (Some (offset + 2))
        else inl (offset + (label_len + 1))
    end.
Definition skip_qname (packet : list Z) (offset : Z) : option Z :=
  mjoin (loop (skip_round packet) offset).
(** The question section; [inr] is a return with a code. *)
Fixpoint skip_questions (packet : list Z) (n : nat) (offset : Z) : option (Z + Z) :=
  match n with
  | O => Some (inl offset)
  | S n =>
      off ← skip_qname packet offset;
      let off := off + sizeof_dns_question in
      if Z.of_nat (length packet) <? off then Some (inr DNS_ERR_FORMAT) else skip_questions packet n off
  end.
(** An error code, or the address and the time to live. *)
Fixpoint parse_answers (packet : list Z) (n : nat) (offset : Z) : option (Z + Z * Z) :=
  match n with
  | O => Some (inl DNS_ERR_NOT_FOUND)
  | S n =>
      let len := Z.of_nat (length packet) in
      if len <=? offset then Some (inl DNS_ERR_FORMAT)
      else
        '(name, name_bytes) ← dns_decode_name packet offset (DNS_MAX_NAME_LEN + 1);
        if name_bytes <? 0 then Some (inl DNS_ERR_FORMAT)
        else
          let off := offset + name_bytes in
          if len <? off + sizeof_dns_answer then Some (inl DNS_ERR_FORMAT)
          else
            atype ← read16 packet off;
            aclass ← read16 packet (off + 2);
            attl ← read32 packet (off + 4);
            rdlength ← read16 packet (off + 8);
            let rdlength := ntohs rdlength in
            let off := off + 10 in
            if len <? off + rdlength then Some (inl DNS_ERR_FORMAT)
            else if (ntohs atype =? DNS_TYPE_A) && (ntohs aclass =? DNS_CLASS_IN) && (rdlength =? 4) then
              ip ← read32 packet off; Some (inr (ip, ntohl attl))
            else parse_answers packet n (off + rdlength)
  end.
Definition dns_parse_response (response : option (list Z)) : option (Z + Z * Z) :=
  match response with
  | None => Some (inl DNS_ERR_FORMAT)
  | Some packet =>
      if Z.of_nat (length packet) <? DNS_HEADER_SIZE then Some (inl DNS_ERR_FORMAT)
      else
        flags ← read16 packet 2;
        qdcount ← read16 packet 4;
        ancount ← read16 packet 6;
        let flags := ntohs flags in
        let ancount := ntohs ancount in
        let rcode := Z.land flags DNS_FLAG_RCODE_MASK in
        if Z.land flags DNS_FLAG_QR =? 0 then Some (inl DNS_ERR_FORMAT)
        else if negb (rcode =? DNS_RCODE_OK) then
          Some (inl (if rcode =? DNS_RCODE_FORMAT_ERR then DNS_ERR_FORMAT
                     else if rcode =? DNS_RCODE_NAME_ERR then DNS_ERR_NOT_FOUND else DNS_ERR_SERVER))
        else if ancount =? 0 then Some (inl DNS_ERR_NOT_FOUND)
        else
          r ← skip_questions packet (Z.to_nat (ntohs qdcount)) DNS_HEADER_SIZE;
          match r with
          | inr e => Some (inl e)
          | inl offset => parse_answers packet (Z.to_nat ancount) offset
          end
  end.

(** ** The cache *)

Definition expired (now : Z) (e : dns_cache_entry) : bool := ce_ttl e <? u64 (now - ce_timestamp e).
Definition same_host (host : list Z) (e : dns_cache_entry) : bool := dns_strcasecmp (ce_name e) host =? 0.
Definition invalidate (e : dns_cache_entry) : dns_cache_entry := mk_centry (ce_name e) (ce_ip e) (ce_ttl e) (ce_timestamp e) false.
Fixpoint lookup_loop (now : Z) (host : list Z) (c : list dns_cache_entry) : list dns_cache_entry * option Z :=
  match c with
  | [] => ([], None)
  | e :: c =>
      if negb (ce_ok e) then let '(c, r) := lookup_loop now host c in (e :: c, r)
      else if expired now e then let '(c, r) := lookup_loop now host c in (invalidate e :: c, r)
      else if same_host host e then (e :: c, Some (ce_ip e))
      else let '(c, r) := lookup_loop now host c in (e :: c, r)
  end.
(** The code, and the address when it is DNS_OK. *)
Definition dns_cache_lookup (hostname : option (list Z)) (d : dns) : dns * (Z + Z) :=
  if negb (dns_initialized d) then (d, inl DNS_ERR_INVALID_NAME)
  else
    match hostname with
    | None => (d, inl DNS_ERR_INVALID_NAME)
    | Some host =>
        let '(d, now) := dns_get_ticks d in
        let '(c, r) := lookup_loop now host (cache d) in
        (set_cache c d, match r with Some ip => inr ip | None => inl DNS_ERR_NOT_FOUND end)
    end.

Definition clamp_ttl (ttl : Z) : Z :=
  let ttl := if ttl <? DNS_MIN_TTL then DNS_MIN_TTL else ttl in
  if DNS_MAX_TTL <? ttl then DNS_MAX_TTL else ttl.
(** Updates the entry of [host], if it has one. *)
Fixpoint update_loop (host : list Z) (ip ttl now : Z) (c : list dns_cache_entry) : option (list dns_cache_entry) :=
  match c with
  | [] => None
  | e :: c =>
      if ce_ok e && same_host host e then Some (mk_centry (ce_name e) ip ttl now (ce_ok e) :: c)
      else c' ← update_loop host ip ttl now c; Some (e :: c')
  end.
(** The slot for a new entry: the first that is not valid, or the oldest. *)
Fixpoint slot_loop (now : Z) (i oldest_idx : nat) (oldest_age : Z) (c : list dns_cache_entry) : nat :=
  match c with
  | [] => oldest_idx
  | e :: c =>
      if negb (ce_ok e) then i
      else
        let age := u64 (now - ce_timestamp e) in
        if oldest_age <? age then slot_loop now (i + 1) i age c else slot_loop now (i + 1) oldest_idx oldest_age c
  end.
Definition dns_cache_add (hostname : option (list Z)) (ip ttl : Z) (d : dns) : dns * Z :=
  if negb (dns_initialized d) then (d, DNS_ERR_INVALID_NAME)
  else
    match hostname with
    | None => (d, DNS_ERR_INVALID_NAME)
    | Some host =>
        if DNS_MAX_NAME_LEN <? Z.of_nat (length host) then (d, DNS_ERR_INVALID_NAME)
        else
          let ttl := clamp_ttl ttl in
          let '(d, now) := dns_get_ticks d in
          match update_loop host ip ttl now (cache d) with
          | Some c => (set_cache c d, DNS_OK)
          | None =>
              let i := slot_loop now 0 0 0 (cache d) in
              let e := mk_centry (take (Z.to_nat DNS_MAX_NAME_LEN) host) ip ttl now true in
              (set_cache (<[i := e]> (cache d)) d, DNS_OK)
          end
    end.

(** ** Addresses as text *)

(** [buf] of at least 16 bytes. *)
Definition octet_text (octet : Z) : list Z :=
  if 100 <=? octet then [48 + octet / 100; 48 + octet mod 100 / 10; 48 + octet mod 100 mod 10]
  else if 10 <=? octet then [48 + octet / 10; 48 + octet mod 10]
  else [48 + octet].
Definition ip_byte (ip i : Z) : Z := u8 (Z.shiftr ip (8 * i)).
Definition dns_ip_to_string (ip : Z) (size : Z) : option (list Z) :=
  if size <? 16 then None
  else Some (octet_text (ip_byte ip 0) ++ DOT_CHAR :: octet_text (ip_byte ip 1) ++ DOT_CHAR :: octet_text (ip_byte ip 2) ++ DOT_CHAR :: octet_text (ip_byte ip 3)).
Fixpoint text_loop (s : list Z) (octets : list Z) (current_value : Z) (has_digit : bool) : option (list Z) :=
  match s with
  | [] => if negb has_digit || negb (length octets =? 3)%nat then None else Some (octets ++ [u8 current_value])
  | c :: s =>
      if (48 <=? c) && (c <=? 57) then
        let v := current_value * 10 + (c - 48) in
        if 255 <? v then None else text_loop s octets v true
      else if c =? DOT_CHAR then
        if negb has_digit || (3 <=? length octets)%nat then None else text_loop s (octets ++ [u8 current_value]) 0 false
      else None
  end.
Definition dns_string_to_ip (str : option (list Z)) : option Z :=
  s ← str;
  l ← text_loop s [] 0 false;
  Some (Z.lor (Z.lor (Z.lor (nth 0 l 0) (Z.shiftl (nth 1 l 0) 8)) (Z.shiftl (nth 2 l 0) 16)) (u32 (Z.shiftl (nth 3 l 0) 24))).

(** ** Resolving *)

(** There is no transport yet: the response is not written. *)
Definition dns_send_query (query : list Z) : Z + list Z := inl DNS_ERR_NETWORK.
(** The steps of dns_resolve with a transport [send] in the place of dns_send_query; [None]
    when parsing the response went outside it, otherwise a code or the address. [buf] is
    the address of the buffer for the query. *)
Definition resolve_with (send : list Z -> Z + list Z) (hostname : option (list Z)) (buf : Z) (d : dns) : dns * option (Z + Z) :=
  if negb (dns_initialized d) then (d, Some (inl DNS_ERR_INVALID_NAME))
  else
    match hostname with
    | None => (d, Some (inl DNS_ERR_INVALID_NAME))
    | Some _ =>
        match dns_string_to_ip hostname with
        | Some ip => (d, Some (inr ip))
        | None =>
            let '(d, r) := dns_cache_lookup hostname d in
            match r with
            | inr ip => (d, Some (inr ip))
            | inl _ =>
                let '(d, (query, query_len)) := dns_build_query hostname buf d in
                if query_len <? 0 then (d, Some (inl query_len))
                else
                  match send query with
                  | inl e => (d, Some (inl e))
                  | inr response =>
                      match dns_parse_response (Some response) with
                      | None => (d, None)
                      | Some (inl e) => (d, Some (inl e))
                      | Some (inr (ip, ttl)) => (fst (dns_cache_add hostname ip ttl d), Some (inr ip))
                      end
                  end
            end
        end
    end.
Definition dns_resolve : option (list Z) -> Z -> dns -> dns * option (Z + Z) := resolve_with dns_send_query.

(** ** Examples *)

Definition host_text : list Z := [119; 119; 119; 46; 97; 46; 98; 99].
Example encode_example : dns_encode_name (Some host_text) 1 255 = ([3; 119; 119; 119; 1; 97; 2; 98; 99; 0], 10).
Proof. reflexivity. Qed.
Example decode_pointer_example :
  dns_decode_name (repeat 7 12 ++ [1; 97; 0; 2; 98; 99; 0xC0; 12]) 15 256 = Some ([98; 99; 46; 97], 5).
Proof. reflexivity. Qed.
