(* ===== verification/DnsProps.v ===== *)
(** * DNS names, responses and the cache (net/dns/dns.c)

    Names on the wire are sequences of labels that may continue at an earlier offset. What
    is encoded is decoded again, a name of the standard is decoded to its text, a response
    gives its first address record, and no response from the network makes the parser read
    or write outside its buffers or run on. The cache is a map from names, whatever their
    case, in which the oldest entry gives way. *)
From S2P Require Import Prelude Memory Ring Netbuf Net Checksum Packets Chain Dns.

(** ** Host names and labels *)

Definition host_labels (s : list Z) : list (list Z) := let '(t, r) := split_dots s in filter (fun l => l <> []) (t :: r).
(** Labels as text, after the text of earlier ones. *)
Definition add_label (name label : list Z) : list Z := match name with [] => label | _ => name ++ DOT_CHAR :: label end.
Definition host_of (labels : list (list Z)) : list Z := foldl add_label [] labels.
(** Labels on the wire. *)
Definition wire (labels : list (list Z)) : list Z := concat (map (fun l => Z.of_nat (length l) :: l) labels).
Definition label_ok (l : list Z) : Prop := l <> [] /\ Z.of_nat (length l) <= DNS_MAX_LABEL_LEN.

Lemma validate_pieces s first n p : validate_chars s first n p = true ->
  let '(t, r) := split_dots s in n + Z.of_nat (length t) <= DNS_MAX_LABEL_LEN /\ Forall (fun l => Z.of_nat (length l) <= DNS_MAX_LABEL_LEN) r /\
    Forall (fun c => host_char c = true \/ c = DOT_CHAR) s.
Proof.
  revert first n p. induction s as [|c s IH]; intros first n p; cbn [validate_chars split_dots].
  - intros H. zbool. split; [simpl; lia|]. split; constructor.
  - destruct (split_dots s) as [t r] eqn:Es. destruct (Z.eqb_spec c DOT_CHAR) as [->|Hc].
    + destruct (p && negb first); [done|]. destruct (Z.ltb_spec DNS_MAX_LABEL_LEN n) as [|Hn]; [done|]. intros H. destruct (IH _ _ _ H) as (H1 & H2 & H3).
      split; [simpl; lia|]. split; [constructor; [lia|done]|constructor; [by right|done]].
    + destruct (host_char c) eqn:Eh; cbn [negb]; [|done]. destruct (_ && _); [done|]. intros H. destruct (IH _ _ _ H) as (H1 & H2 & H3).
      split; [simpl length; lia|]. split; [done|]. constructor; [by left|done].
Qed.
Lemma valid_labels s : dns_validate_hostname (Some s) = true -> Forall label_ok (host_labels s).
Proof.
  unfold dns_validate_hostname. destruct s as [|c s]; [done|]. destruct (_ <? _); [done|]. intros H%validate_pieces. unfold host_labels.
  destruct (split_dots (c :: s)) as [t r]. destruct H as (Ht & Hr & _). apply Forall_forall. intros l [Hne Hl]%list_elem_of_filter. split; [done|].
  apply elem_of_cons in Hl as [->|Hl]; [lia|]. rewrite Forall_forall in Hr. by apply Hr.
Qed.

Lemma wire_cons l ls : wire (l :: ls) = Z.of_nat (length l) :: l ++ wire ls.
Proof. done. Qed.
Lemma wire_length s : (length (wire (host_labels s)) <= length s + 1)%nat.
Proof.
  assert (forall ls : list (list Z), length (wire (filter (fun l => l <> []) ls)) <= length (wire ls))%nat as Hf.
  { induction ls as [|l ls IH]; [done|]. destruct (decide (l <> [])) as [Hl|Hl]; [rewrite filter_cons_True by done|rewrite filter_cons_False by done];
      rewrite ?wire_cons; simpl; rewrite ?length_app; lia. }
  unfold host_labels. assert (let '(t, r) := split_dots s in length (wire (t :: r)) = length s + 1)%nat as Hs.
  { induction s as [|c s IH]; [done|]. cbn [split_dots]. destruct (split_dots s) as [t r]. destruct (c =? DOT_CHAR).
    - rewrite wire_cons. simpl in *. lia.
    - rewrite wire_cons in *. simpl in *. lia. }
  destruct (split_dots s) as [t r]. specialize (Hf (t :: r)). lia.
Qed.
(** The checks inside the loop never fail for a valid name and a large enough buffer. *)
Lemma encode_labels_ok ls buf bufsize : Forall (fun l => Z.of_nat (length l) <= DNS_MAX_LABEL_LEN) ls ->
  Z.of_nat (length buf) + Z.of_nat (length (wire (filter (fun l => l <> []) ls))) + 1 <= bufsize ->
  encode_labels ls buf bufsize = (buf ++ wire (filter (fun l => l <> []) ls) ++ [0], Z.of_nat (length buf + length (wire (filter (fun l => l <> []) ls)) + 1)).
Proof.
  revert buf. induction ls as [|l ls IH]; intros buf Hls Hb; cbn [encode_labels].
  - simpl. f_equal. lia.
  - apply Forall_cons in Hls as [Hl Hls]. destruct (decide (l <> [])) as [Hne|He].
    + rewrite filter_cons_True in * by done. rewrite wire_cons in *. rewrite length_cons, length_app in Hb.
      rewrite (proj2 (Z.eqb_neq _ _)) by (destruct l; simpl; [done|lia]). rewrite (proj2 (Z.ltb_ge _ _)) by lia. rewrite (proj2 (Z.leb_gt _ _)) by lia.
      rewrite IH by (try done; rewrite length_app; simpl; lia). rewrite u8_id by (unfold DNS_MAX_LABEL_LEN in Hl; lia).
      f_equal; [rewrite <- !app_assoc; simpl; by rewrite <- app_assoc|]. rewrite !length_app. simpl. rewrite length_app. lia.
    + rewrite filter_cons_False in * by done. assert (l = []) as -> by (destruct l; [done|exfalso; by apply He]). by apply IH.
Qed.
Lemma encode_ok s buf bufsize : dns_validate_hostname (Some s) = true -> buf <> NULL -> Z.of_nat (length s) + 2 <= bufsize ->
  dns_encode_name (Some s) buf bufsize = (wire (host_labels s) ++ [0], Z.of_nat (length (wire (host_labels s)) + 1)).
Proof.
  intros Hv Hbuf Hsz. unfold dns_encode_name. rewrite (proj2 (Z.eqb_neq _ _) Hbuf), (proj2 (Z.eqb_neq bufsize 0)) by lia. cbn [orb]. rewrite Hv. cbn [negb].
  rewrite (proj2 (Z.ltb_ge _ _)) by lia. pose proof (wire_length s) as Hw. unfold dns_validate_hostname in Hv. destruct s as [|c s]; [done|]. destruct (_ <? _); [done|].
  apply validate_pieces in Hv. unfold host_labels in *. destruct (split_dots (c :: s)) as [t r]. destruct Hv as (Ht & Hr & _).
  apply (encode_labels_ok (t :: r) []); [constructor; [lia|done]|]. cbn [length] in *. lia.
Qed.

(** ** Names in a packet *)

(** At [off] stands a name with [labels]; reading it follows [j] pointers, and it takes [n]
    bytes there. *)
Inductive wire_name (packet : list Z) : Z -> nat -> list (list Z) -> Z -> Prop :=
| wn_end off : read8 packet off = Some 0 -> wire_name packet off 0 [] 1
| wn_label off l j ls n : label_ok l -> take (S (length l)) (drop (Z.to_nat off) packet) = Z.of_nat (length l) :: l -> 0 <= off ->
    wire_name packet (off + 1 + Z.of_nat (length l)) j ls n -> wire_name packet off j (l :: ls) (1 + Z.of_nat (length l) + n)
| wn_pointer off high low j ls n : read8 packet off = Some high -> read8 packet (off + 1) = Some low -> Z.land high 0xC0 = 0xC0 ->
    wire_name packet (Z.lor (Z.shiftl (Z.land high 0x3F) 8) low) j ls n -> wire_name packet off (S j) ls 2.

Lemma read8_bound packet i b : read8 packet i = Some b -> 0 <= i < Z.of_nat (length packet).
Proof. unfold read8. destruct (Z.ltb_spec i 0); [done|]. intros Hb%lookup_lt_Some. lia. Qed.
Lemma read8_some packet i : 0 <= i < Z.of_nat (length packet) -> exists b, read8 packet i = Some b /\ b ∈ packet.
Proof.
  intros Hi. unfold read8. rewrite (proj2 (Z.ltb_ge _ _)) by lia. destruct (lookup_lt_is_Some_2 packet (Z.to_nat i)) as [b E]; [lia|].
  exists b. split; [done|]. by eapply list_elem_of_lookup_2.
Qed.
Lemma slice_read packet off l k : 0 <= off -> take (length l) (drop (Z.to_nat off) packet) = l -> (k < length l)%nat ->
  read8 packet (off + Z.of_nat k) = l !! k.
Proof.
  intros Ho E Hk. unfold read8. rewrite (proj2 (Z.ltb_ge _ _)) by lia. rewrite <- E, lookup_take_lt, lookup_drop by lia. f_equal. lia.
Qed.
Lemma put_char_ok size c name : Z.of_nat (length name) < size -> put_char size c name = Some (name ++ [c]).
Proof. intros H. unfold put_char. by rewrite (proj2 (Z.ltb_lt _ _) H). Qed.
Lemma name_full_false size name : Z.of_nat (length name) < size - 1 -> name_full size name = false.
Proof. intros H. unfold name_full. by apply Z.leb_gt. Qed.
Lemma copy_label_ok packet size l off name : 0 <= off -> take (length l) (drop (Z.to_nat off) packet) = l ->
  Z.of_nat (length name) + Z.of_nat (length l) < size -> copy_label packet size (length l) off name = Some (inl (name ++ l)).
Proof.
  revert off name. induction l as [|c l IH]; intros off name Ho E Hs; cbn [copy_label length]; [by rewrite app_nil_r|].
  cbn [length] in Hs. rewrite name_full_false by lia. pose proof (slice_read packet off (c :: l) 0 Ho E ltac:(simpl; lia)) as Hr.
  rewrite Z.add_0_r in Hr. rewrite Hr. cbn. rewrite put_char_ok by lia. cbn. rewrite IH.
  - by rewrite <- app_assoc.
  - lia.
  - cbn [length take] in E. destruct (drop (Z.to_nat off) packet) as [|d rest] eqn:Ed; [done|]. injection E as _ E. rewrite <- E at 2.
    replace (Z.to_nat (off + 1)) with (Z.to_nat off + 1)%nat by lia. rewrite <- drop_drop, Ed. done.
  - rewrite length_app. simpl. lia.
Qed.

Lemma add_label_length name ls : (length name + length ls <= length (foldl add_label name ls) + length (filter (fun l => l = []) ls))%nat.
Proof.
  revert name. induction ls as [|l ls IH]; intros name; cbn [foldl length]; [simpl; lia|]. specialize (IH (add_label name l)).
  assert (length name + (if decide (l = []) then 0 else 1) <= length (add_label name l))%nat.
  { unfold add_label. destruct name; [destruct l; simpl; lia|]. rewrite length_app. destruct l; simpl; lia. }
  destruct (decide (l = [])); [rewrite filter_cons_True by done|rewrite filter_cons_False by done]; simpl; lia.
Qed.
Lemma labels_fit name ls : Forall label_ok ls -> (length name + length ls <= length (foldl add_label name ls))%nat.
Proof.
  intros Hls. pose proof (add_label_length name ls) as Hl. replace (filter (fun l => l = []) ls) with (@nil (list Z)) in Hl; [simpl in Hl; lia|].
  symmetry. clear Hl. induction Hls as [|l ls [Hl _] _ IH]; [done|]. by rewrite filter_cons_False.
Qed.
Lemma wire_labels packet off j ls n : wire_name packet off j ls n -> Forall label_ok ls.
Proof. induction 1; first [done|by apply Forall_cons|constructor]. Qed.
Lemma wire_bound packet off j ls n : wire_name packet off j ls n -> 0 <= off /\ off + n <= Z.of_nat (length packet) /\ 0 < n.
Proof.
  induction 1 as [off H|off l j ls n Hl Hs Ho _ IH|off h lo j ls n H1 H2 H3 _ IH].
  - apply read8_bound in H. lia.
  - lia.
  - apply read8_bound in H1, H2. lia.
Qed.

Section Decode.
Context (packet : list Z) (size start : Z).
Abbreviation round := (decode_round packet size start).

Lemma round_end d : read8 packet (data_offset d) = Some 0 -> Z.of_nat (length (name_out d)) < size ->
  round d = inr (Some (name_out d, if jumped d then bytes_consumed d else data_offset d - start + 1)).
Proof.
  intros Hr Hs. pose proof (read8_bound _ _ _ Hr) as Hb. unfold decode_round. rewrite (proj2 (Z.leb_gt _ _)) by lia. rewrite Hr. cbn [Z.land Z.eqb].
  rewrite put_char_ok by done. cbn. by destruct (jumped d).
Qed.
Lemma round_pointer d high low : read8 packet (data_offset d) = Some high -> read8 packet (data_offset d + 1) = Some low -> Z.land high 0xC0 = 0xC0 ->
  jump_count d < max_jumps ->
  round d = inl (mk_decoding (name_out d) (Z.lor (Z.shiftl (Z.land high 0x3F) 8) low) (if jumped d then bytes_consumed d else data_offset d - start + 2) true (jump_count d + 1)).
Proof.
  intros Hr Hr' Hp Hj. pose proof (read8_bound _ _ _ Hr'). pose proof (read8_bound _ _ _ Hr). unfold decode_round. rewrite (proj2 (Z.leb_gt _ _)) by lia. rewrite Hr, Hp, Z.eqb_refl.
  rewrite (proj2 (Z.leb_gt _ _)) by lia. rewrite Hr'. cbn zeta. rewrite (proj2 (Z.ltb_ge _ _)) by lia. by destruct (jumped d).
Qed.
Lemma small_not_pointer n : 0 <= n <= DNS_MAX_LABEL_LEN -> (Z.land n 0xC0 =? 0xC0) = false.
Proof.
  intros Hn. apply Z.eqb_neq. intros E. assert (Z.testbit (Z.land n 0xC0) 7 = true) as Hb by (by rewrite E). rewrite Z.land_spec in Hb. apply andb_true_iff in Hb as [Hb _].
  rewrite Z.testbit_true in Hb by lia. unfold DNS_MAX_LABEL_LEN in Hn. rewrite Z.div_small in Hb by lia. done.
Qed.
Lemma round_label d l : 0 <= data_offset d -> label_ok l -> take (S (length l)) (drop (Z.to_nat (data_offset d)) packet) = Z.of_nat (length l) :: l ->
  Z.of_nat (length (add_label (name_out d) l)) < size ->
  round d = inl (mk_decoding (add_label (name_out d) l) (data_offset d + 1 + Z.of_nat (length l)) (bytes_consumed d) (jumped d) (jump_count d)).
Proof.
  intros Ho [Hne Hl] Hsl Hs. assert (length (drop (Z.to_nat (data_offset d)) packet) >= S (length l))%nat as Hlen.
  { assert (length (take (S (length l)) (drop (Z.to_nat (data_offset d)) packet)) = S (length l)) as E by (rewrite Hsl; done). rewrite length_take in E. lia. }
  rewrite length_drop in Hlen. assert (length l <> 0)%nat as Hl0 by (by destruct l).
  pose proof (slice_read packet (data_offset d) (Z.of_nat (length l) :: l) 0 Ho Hsl ltac:(simpl; lia)) as Hr. rewrite Z.add_0_r in Hr.
  unfold decode_round. rewrite (proj2 (Z.leb_gt _ _)) by lia. rewrite Hr. cbn [lookup list_lookup].
  rewrite small_not_pointer by lia. rewrite (proj2 (Z.eqb_neq _ _)) by lia. rewrite (proj2 (Z.ltb_ge DNS_MAX_LABEL_LEN _)) by lia. rewrite (proj2 (Z.ltb_ge (Z.of_nat (length packet)) _)) by lia.
  assert (take (length l) (drop (Z.to_nat (data_offset d + 1)) packet) = l) as Hsl'.
  { destruct (drop (Z.to_nat (data_offset d)) packet) as [|b rest] eqn:Ed; [done|]. injection Hsl as _ E. rewrite <- E at 2.
    replace (Z.to_nat (data_offset d + 1)) with (Z.to_nat (data_offset d) + 1)%nat by lia. rewrite <- drop_drop, Ed. done. }
  rewrite Nat2Z.id. destruct (name_out d) as [|c name] eqn:En; cbn [add_label] in *.
  - change (0 <? Z.of_nat (length [])) with false. cbn [andb]. cbn [mbind option_bind]. rewrite copy_label_ok; [done|lia|done|simpl; lia].
  - rewrite length_app in Hs. cbn [length] in Hs. rewrite (proj2 (Z.ltb_lt _ _)) by (simpl; lia). rewrite name_full_false by (simpl; lia). cbn [andb].
    rewrite put_char_ok by (simpl; lia). cbn [mbind option_bind]. rewrite copy_label_ok; [|lia|done|rewrite length_app; simpl; lia]. by rewrite <- app_assoc.
Qed.

Lemma decode_wire off j ls n : wire_name packet off j ls n -> forall d, data_offset d = off -> jump_count d + Z.of_nat j <= max_jumps ->
  Z.of_nat (length (foldl add_label (name_out d) ls)) < size ->
  while_nat (length ls + j + 1) round d = inr (Some (foldl add_label (name_out d) ls, if jumped d then bytes_consumed d else off - start + n)).
Proof.
  induction 1 as [off H|off l j ls n Hl Hs Ho Hw IH|off h lo j ls n H1 H2 H3 _ IH]; intros d Ed Hj Hsz; subst off.
  - simpl. by rewrite round_end.
  - cbn [length foldl] in *. pose proof (labels_fit (add_label (name_out d) l) ls (wire_labels _ _ _ _ _ Hw)).
    cbn [Nat.add while_nat]. rewrite (round_label d l) by (try done; lia). rewrite IH by done. cbn. destruct (jumped d); [done|]. do 3 f_equal. lia.
  - replace (length ls + S j + 1)%nat with (S (length ls + j + 1)) by lia. rewrite while_nat_S. rewrite (round_pointer d h lo) by (try done; lia). rewrite IH by (cbn; try done; lia). cbn. by destruct (jumped d).
Qed.
End Decode.

Lemma decode_ok packet start j ls n size : wire_name packet start j ls n -> Z.of_nat j <= max_jumps -> Z.of_nat (length (host_of ls)) < size <= 2 ^ 32 ->
  dns_decode_name packet start size = Some (host_of ls, n).
Proof.
  intros Hw Hj Hs. unfold dns_decode_name, loop. rewrite (proj2 (Z.eqb_neq _ _)) by lia.
  pose proof (decode_wire packet size start start j ls n Hw (mk_decoding [] start 0 false 0) eq_refl ltac:(cbn; lia) ltac:(cbn; apply Hs)) as Hd.
  pose proof (labels_fit [] ls (wire_labels _ _ _ _ _ Hw)) as Hf. fold (host_of ls) in Hf. unfold max_jumps in Hj.
  rewrite (while_pos_enough _ ADDRESSES _ _ _ Hd) by (cbn [length] in Hf; unfold ADDRESSES; lia). cbn. do 3 f_equal. lia.
Qed.

(** ** What is encoded is decoded *)

Lemma wire_at pre ls post : Forall label_ok ls ->
  wire_name (pre ++ wire ls ++ 0 :: post) (Z.of_nat (length pre)) 0 ls (Z.of_nat (length (wire ls) + 1)).
Proof.
  intros Hls. revert pre. induction Hls as [|l ls Hl _ IH]; intros pre.
  - apply wn_end. unfold read8. rewrite (proj2 (Z.ltb_ge _ _)) by lia. rewrite Nat2Z.id, lookup_app_r, Nat.sub_diag by lia. done.
  - replace (Z.of_nat (length (wire (l :: ls)) + 1)) with (1 + Z.of_nat (length l) + Z.of_nat (length (wire ls) + 1)) by (rewrite wire_cons; simpl; rewrite length_app; lia).
    apply wn_label; [done| |lia|].
    + rewrite Nat2Z.id, drop_app_length, wire_cons. cbn [app take]. by rewrite <- app_assoc, take_app_length.
    + specialize (IH (pre ++ Z.of_nat (length l) :: l)). rewrite wire_cons. cbn [app]. rewrite <- app_assoc in *. cbn [app] in IH.
      rewrite length_app in IH. cbn [length] in IH. replace (Z.of_nat (length pre) + 1 + Z.of_nat (length l)) with (Z.of_nat (length pre + S (length l))) by lia. exact IH.
Qed.

Lemma split_join s : let '(t, r) := split_dots s in s = t ++ concat (map (cons DOT_CHAR) r).
Proof.
  induction s as [|c s IH]; [done|]. cbn [split_dots]. destruct (split_dots s) as [t r]. destruct (Z.eqb_spec c DOT_CHAR) as [->|]; rewrite IH; done.
Qed.
Lemma host_of_pieces t r : t <> [] -> host_of (t :: r) = t ++ concat (map (cons DOT_CHAR) r).
Proof.
  intros Ht. unfold host_of. cbn [foldl add_label]. revert t Ht. induction r as [|l r IH]; intros t Ht; cbn [foldl map concat]; [by rewrite app_nil_r|].
  destruct t as [|c t]; [done|]. cbn [add_label]. rewrite IH by (by destruct t). rewrite <- !app_assoc. done.
Qed.
Lemma validate_nonempty s first n p : validate_chars s first n p = true -> last s <> Some DOT_CHAR ->
  let '(t, r) := split_dots s in Forall (fun l => l <> []) r /\ (s <> [] -> p = true -> first = false -> t <> []).
Proof.
  revert first n p. induction s as [|c s IH]; intros first n p; cbn [validate_chars split_dots]; [done|]. intros Hv Hlast.
  assert (last s <> Some DOT_CHAR) as Hlast' by (intros E; apply Hlast; destruct s; [done|exact E]).
  destruct (split_dots s) as [t r] eqn:Es. destruct (Z.eqb_spec c DOT_CHAR) as [->|Hc].
  - destruct (p && negb first) eqn:Ep; [done|]. destruct (DNS_MAX_LABEL_LEN <? n); [done|]. destruct (IH _ _ _ Hv Hlast') as [H1 H2]. split.
    + constructor; [|done]. apply H2; [|done|done]. intros ->. by apply Hlast.
    + intros _ -> ->. done.
  - destruct (negb (host_char c)); [done|]. destruct (_ && _); [done|]. destruct (IH _ _ _ Hv Hlast') as [H1 H2]. done.
Qed.
(** A valid name that neither starts nor ends with a dot is the text of its labels. *)
Lemma host_of_labels s : dns_validate_hostname (Some s) = true -> head s <> Some DOT_CHAR -> last s <> Some DOT_CHAR -> host_of (host_labels s) = s.
Proof.
  unfold dns_validate_hostname. intros Hv Hh Hl. destruct s as [|c s]; [done|]. destruct (_ <? _); [done|]. pose proof (validate_nonempty _ _ _ _ Hv Hl) as Hn.
  pose proof (split_join (c :: s)) as Hj. unfold host_labels. destruct (split_dots (c :: s)) as [t r] eqn:Es. destruct Hn as [Hr _].
  assert (t <> []) as Ht.
  { cbn [split_dots] in Es. destruct (split_dots s) as [t' r']. destruct (Z.eqb_spec c DOT_CHAR) as [->|]; [done|]. by injection Es as <- <-. }
  rewrite filter_cons_True by done. replace (filter (fun l => l <> []) r) with r; [by rewrite host_of_pieces|].
  clear -Hr. induction Hr as [|l r Hl _ IH]; [done|]. rewrite filter_cons_True by done. by f_equal.
Qed.
Lemma host_of_length s : (length (host_of (host_labels s)) <= length s)%nat.
Proof.
  pose proof (wire_length s). assert (forall ls name, length (foldl add_label name ls) <= length name + length (wire ls))%nat as Hw.
  { induction ls as [|l ls IH]; intros name; cbn [foldl]; [simpl; lia|]. specialize (IH (add_label name l)). rewrite wire_cons. simpl. rewrite length_app.
    assert (length (add_label name l) <= length name + S (length l))%nat by (destruct name; cbn [add_label]; rewrite ?length_app; simpl; lia). lia. }
  destruct (host_labels s) as [|l ls]; [simpl; lia|]. unfold host_of. cbn [foldl add_label]. rewrite wire_cons in H. simpl in H. rewrite length_app in H. specialize (Hw ls l). lia.
Qed.

Lemma pointer_bytes p : 0 <= p < 2 ^ 14 ->
  Z.land (0xC0 + p / 256) 0xC0 = 0xC0 /\ Z.lor (Z.shiftl (Z.land (0xC0 + p / 256) 0x3F) 8) (p mod 256) = p.
Proof.
  intros Hp. assert (0 <= p / 256 < 64) as Hq by dlia. assert (forall q, 0 <= q < 64 -> Z.land (0xC0 + q) 0xC0 = 0xC0 /\ Z.land (0xC0 + q) 0x3F = q) as Hall.
  { intros q Hq'. assert (q ∈ seqZ 0 64) as Hin by (apply elem_of_seqZ; lia).
    assert (Forall (fun q => Z.land (0xC0 + q) 0xC0 = 0xC0 /\ Z.land (0xC0 + q) 0x3F = q) (seqZ 0 64)) as Hf by (vm_compute; repeat constructor).
    rewrite Forall_forall in Hf. by apply Hf. }
  destruct (Hall _ Hq) as [H1 H2]. split; [done|]. rewrite H2, Z.shiftl_mul_pow2 by lia. rewrite (lor_fields (p / 256) (p mod 256) 8) by (pose proof (Z.mod_pos_bound p 256); lia). dlia.
Qed.

(** every name that passes the check is encoded without running out of a buffer that is
    two bytes longer than it, and decoding the encoding inside any packet, directly or through a
    compression pointer, gives back the text of its labels: the name itself, unless it
    starts or ends with a dot. *)
Theorem dns_name_roundtrip s buf bufsize pre post size :
  dns_validate_hostname (Some s) = true -> buf <> NULL -> Z.of_nat (length s) + 2 <= bufsize -> Z.of_nat (length s) < size <= 2 ^ 32 ->
  exists e, dns_encode_name (Some s) buf bufsize = (e, Z.of_nat (length e)) /\
    dns_decode_name (pre ++ e ++ post) (Z.of_nat (length pre)) size = Some (host_of (host_labels s), Z.of_nat (length e)) /\
    (forall mid, Z.of_nat (length pre) < 2 ^ 14 ->
       dns_decode_name (pre ++ e ++ mid ++ [0xC0 + Z.of_nat (length pre) / 256; Z.of_nat (length pre) mod 256]) (Z.of_nat (length (pre ++ e ++ mid))) size =
         Some (host_of (host_labels s), 2)) /\
    (head s <> Some DOT_CHAR -> last s <> Some DOT_CHAR -> host_of (host_labels s) = s).
Proof.
  intros Hv Hb Hbs Hs. pose proof (valid_labels s Hv) as Hls. pose proof (host_of_length s) as Hlen. set (ls := host_labels s) in *. exists (wire ls ++ [0]).
  rewrite length_app. cbn [length]. split; [by apply encode_ok|]. split; [|split; [|by apply host_of_labels]].
  - apply (decode_ok _ _ 0); [|unfold max_jumps; lia|lia]. rewrite <- app_assoc. by apply wire_at.
  - intros mid Hp. set (p := Z.of_nat (length pre)) in *. apply (decode_ok _ _ 1); [|unfold max_jumps; lia|lia].
    set (packet := pre ++ _). assert (packet = (pre ++ (wire ls ++ [0]) ++ mid) ++ [0xC0 + p / 256; p mod 256]) as Ep by (unfold packet; rewrite <- !app_assoc; done).
    assert (Z.land (0xC0 + p / 256) 0xC0 = 0xC0 /\ Z.lor (Z.shiftl (Z.land (0xC0 + p / 256) 0x3F) 8) (p mod 256) = p) as [H1 H2] by (apply pointer_bytes; lia).
    apply (wn_pointer _ _ (0xC0 + p / 256) (p mod 256) 0 ls (Z.of_nat (length (wire ls) + 1))); [| |done|].
    + unfold read8. rewrite (proj2 (Z.ltb_ge _ _)) by lia. rewrite Ep, Nat2Z.id, lookup_app_r, Nat.sub_diag by lia. done.
    + unfold read8. rewrite (proj2 (Z.ltb_ge _ _)) by lia. rewrite Ep. rewrite lookup_app_r by lia. replace (Z.to_nat _ - _)%nat with 1%nat by lia. done.
    + rewrite H2. unfold packet. rewrite <- app_assoc. apply (wire_at pre ls). done.
Qed.

(** ** Any packet is parsed safely *)

(** What a packet from the network is: bytes, fewer than there are addresses. *)
Definition packet_ok (packet : list Z) : Prop := bytes packet /\ Z.of_nat (length packet) < 2 ^ 48.

Lemma read8_byte packet i : packet_ok packet -> 0 <= i < Z.of_nat (length packet) -> exists b, read8 packet i = Some b /\ 0 <= b < 256.
Proof. intros [Hb _] Hi. destruct (read8_some packet i Hi) as (b & E & Hin). exists b. split; [done|]. unfold bytes in Hb. rewrite Forall_forall in Hb. by apply Hb. Qed.
Lemma copy_label_safe packet size n off name : packet_ok packet -> 0 <= off -> off + Z.of_nat n <= Z.of_nat (length packet) -> Z.of_nat (length name) < size ->
  exists r, copy_label packet size n off name = Some r /\ match r with inl name' | inr name' => Z.of_nat (length name') < size end.
Proof.
  intros Hp. revert off name. induction n as [|n IH]; intros off name Ho Hn Hs; cbn [copy_label]; [by exists (inl name)|].
  destruct (name_full size name) eqn:Ef; [by exists (inr name)|]. destruct (read8_byte packet off Hp) as (b & E & _); [lia|]. rewrite E. cbn [mbind option_bind].
  unfold name_full in Ef. zbool. rewrite put_char_ok by lia. cbn [mbind option_bind]. apply IH; [lia|lia|]. rewrite length_app. simpl. lia.
Qed.

Section Safe.
Context (packet : list Z) (size start : Z).
Hypothesis Hok : packet_ok packet.
Hypothesis Hsize : 0 < size.
Hypothesis Hstart : 0 <= start <= Z.of_nat (length packet).

Record decoding_ok (d : decoding) : Prop := mk_decoding_ok {
  do_offset : 0 <= data_offset d <= Z.of_nat (length packet) + 2 ^ 14;
  do_name : Z.of_nat (length (name_out d)) < size;
  do_jumps : 0 <= jump_count d <= max_jumps;
  do_consumed : 0 <= bytes_consumed d /\ start + bytes_consumed d <= Z.of_nat (length packet);
  do_forward : jumped d = false -> start <= data_offset d;
}.
Definition decoded_ok (r : option (list Z * Z)) : Prop :=
  exists name c, r = Some (name, c) /\ Z.of_nat (length name) < size /\ (c < 0 \/ (0 <= c /\ start + c <= Z.of_nat (length packet))).
(** A pointer is followed, or the offset grows. *)
Definition decode_measure (d : decoding) : nat :=
  let k := Z.of_nat (length packet) + 2 ^ 14 + 1 in Z.to_nat ((129 - jump_count d) * k + (k - data_offset d)).
Lemma measure_less d d' : 0 <= jump_count d <= 128 -> 0 <= data_offset d < Z.of_nat (length packet) -> 0 <= data_offset d' ->
  (jump_count d' = jump_count d + 1 \/ (jump_count d' = jump_count d /\ data_offset d < data_offset d')) -> (decode_measure d' < decode_measure d)%nat.
Proof.
  intros Hj Ho Ho' Hd. unfold decode_measure. set (k := Z.of_nat (length packet) + 2 ^ 14 + 1). pose proof (Z.mul_nonneg_nonneg (129 - jump_count d) k ltac:(lia) ltac:(lia)).
  destruct Hd as [->|[-> Hd]]; lia.
Qed.
Lemma pointer_range b c : 0 <= b < 256 -> 0 <= c < 256 -> 0 <= Z.lor (Z.shiftl (Z.land b 0x3F) 8) c < 2 ^ 14.
Proof.
  intros Hb Hc. change 0x3F with (Z.ones 6). rewrite Z.land_ones by lia. pose proof (Z.mod_pos_bound b (2 ^ 6) ltac:(lia)). rewrite Z.shiftl_mul_pow2 by lia.
  rewrite lor_fields by lia. lia.
Qed.
Lemma decode_round_safe d : decoding_ok d ->
  match decode_round packet size start d with
  | inl d' => decoding_ok d' /\ (decode_measure d' < decode_measure d)%nat
  | inr r => decoded_ok r
  end.
Proof.
  intros [D1 D2 D3 D4 D5]. unfold decode_round. destruct (Z.leb_spec (Z.of_nat (length packet)) (data_offset d)) as [Hge|Hlt].
  { rewrite put_char_ok by done. cbn. do 2 eexists. split; [done|]. split; [done|]. by right. }
  destruct (read8_byte packet (data_offset d) Hok) as (b & E & Hb); [lia|]. rewrite E. destruct (Z.land b 0xC0 =? 0xC0).
  - destruct (Z.leb_spec (Z.of_nat (length packet)) (data_offset d + 1)) as [|Hlt1]; [do 2 eexists; split; [done|]; split; [done|by left]|].
    destruct (read8_byte packet (data_offset d + 1) Hok) as (c & E' & Hc); [lia|]. rewrite E'. cbn zeta. pose proof (pointer_range b c Hb Hc) as Hr.
    destruct (Z.ltb_spec max_jumps (jump_count d + 1)) as [|Hj]; [do 2 eexists; split; [done|]; split; [done|by left]|]. unfold max_jumps in *. split.
    + split; cbn; [lia|done|unfold max_jumps; lia| |done]. destruct (jumped d); cbn [negb]; [done|]. specialize (D5 eq_refl). lia.
    + apply measure_less; cbn; lia.
  - destruct (Z.eqb_spec b 0) as [->|Hb0].
    { rewrite put_char_ok by done. cbn. do 2 eexists. split; [done|]. split; [done|]. right. destruct (jumped d); cbn [negb]; [done|]. specialize (D5 eq_refl). lia. }
    destruct (Z.ltb_spec DNS_MAX_LABEL_LEN b) as [|Hl]; [do 2 eexists; split; [done|]; split; [done|by left]|].
    destruct (Z.ltb_spec (Z.of_nat (length packet)) (data_offset d + 1 + b)) as [|Hin]; [do 2 eexists; split; [done|]; split; [done|by left]|].
    destruct ((0 <? Z.of_nat (length (name_out d))) && name_full size (name_out d)) eqn:Ef; [do 2 eexists; split; [done|]; split; [done|by left]|].
    assert (exists name, (if 0 <? Z.of_nat (length (name_out d)) then put_char size DOT_CHAR (name_out d) else Some (name_out d)) = Some name /\ Z.of_nat (length name) < size) as (name & -> & Hn).
    { destruct (0 <? _); [|eauto]. cbn [andb] in Ef. unfold name_full in Ef. zbool. rewrite put_char_ok by lia. eexists. split; [done|]. rewrite length_app. simpl. lia. }
    cbn [mbind option_bind]. destruct (copy_label_safe packet size (Z.to_nat b) (data_offset d + 1) name Hok) as (r & -> & Hr); [lia|lia|done|].
    destruct r as [name'|name']; [|do 2 eexists; split; [done|]; split; [done|by left]]. split.
    + split; cbn; [lia|done|done|done|]. intros Hj. specialize (D5 Hj). lia.
    + apply measure_less; cbn; unfold max_jumps in *; lia.
Qed.
Lemma decode_safe : decoded_ok (dns_decode_name packet start size).
Proof.
  unfold dns_decode_name. rewrite (proj2 (Z.eqb_neq _ _)) by lia. destruct (loop_rule decoding_ok decoded_ok decode_measure (decode_round packet size start) (mk_decoding [] start 0 false 0)) as (r & -> & Hr).
  - split; cbn; unfold max_jumps; try lia; done.
  - unfold decode_measure. cbn. destruct Hok as [_ Hlen]. lia.
  - apply decode_round_safe.
  - done.
Qed.
End Safe.

Lemma skip_safe packet off : packet_ok packet -> 0 <= off <= Z.of_nat (length packet) -> exists off', skip_qname packet off = Some off' /\ off <= off'.
Proof.
  intros Hp Ho. unfold skip_qname.
  destruct (loop_rule (fun o => off <= o <= Z.of_nat (length packet) + 256) (fun r => exists o, r = Some o /\ off <= o)
              (fun o => Z.to_nat (Z.of_nat (length packet) + 256 - o)) (skip_round packet) off) as (r & -> & o & -> & Hr).
  - lia.
  - destruct Hp as [_ Hlen]. lia.
  - intros o Hoo. unfold skip_round. destruct (Z.leb_spec (Z.of_nat (length packet)) o); [exists o; split; [done|lia]|].
    destruct (read8_byte packet o Hp) as (b & -> & Hb); [lia|]. destruct (Z.eqb_spec b 0); [exists (o + 1); split; [done|lia]|].
    destruct (_ =? _); [exists (o + 2); split; [done|lia]|]. lia.
  - by exists o.
Qed.
Lemma skip_questions_safe packet n off : packet_ok packet -> 0 <= off <= Z.of_nat (length packet) ->
  exists r, skip_questions packet n off = Some r /\ match r with inl off' => 0 <= off' <= Z.of_nat (length packet) | inr e => e < 0 end.
Proof.
  intros Hp. revert off. induction n as [|n IH]; intros off Ho; cbn [skip_questions]; [by exists (inl off)|].
  destruct (skip_safe packet off Hp Ho) as (off' & -> & Ho'). cbn [mbind option_bind]. unfold sizeof_dns_question.
  destruct (Z.ltb_spec (Z.of_nat (length packet)) (off' + 4)); [by exists (inr DNS_ERR_FORMAT)|]. apply IH. lia.
Qed.
Lemma read16_safe packet i : packet_ok packet -> 0 <= i -> i + 2 <= Z.of_nat (length packet) -> exists w, read16 packet i = Some w /\ 0 <= w < 2 ^ 16.
Proof.
  intros Hp Hi Hl. unfold read16. destruct (read8_byte packet i Hp) as (b & -> & Hb); [lia|]. destruct (read8_byte packet (i + 1) Hp) as (c & -> & Hc); [lia|].
  cbn. eexists. split; [done|]. lia.
Qed.
Lemma read32_safe packet i : packet_ok packet -> 0 <= i -> i + 4 <= Z.of_nat (length packet) -> exists w, read32 packet i = Some w /\ 0 <= w < 2 ^ 32.
Proof.
  intros Hp Hi Hl. unfold read32. destruct (read16_safe packet i Hp) as (b & -> & Hb); [lia|lia|]. destruct (read16_safe packet (i + 2) Hp) as (c & -> & Hc); [lia|lia|].
  cbn. eexists. split; [done|]. lia.
Qed.
(** What a parse may give: a negative code, or an address and a time of 32 bits. *)
Definition answer_ok (r : option (Z + Z * Z)) : Prop :=
  exists a, r = Some a /\ match a with inl e => e < 0 | inr (ip, ttl) => 0 <= ip < 2 ^ 32 /\ 0 <= ttl < 2 ^ 32 end.
Lemma answers_safe packet n off : packet_ok packet -> 0 <= off -> answer_ok (parse_answers packet n off).
Proof.
  intros Hp. revert off. induction n as [|n IH]; intros off Ho; cbn [parse_answers]; [by eexists|].
  destruct (Z.leb_spec (Z.of_nat (length packet)) off); [by eexists|]. destruct (decode_safe packet (DNS_MAX_NAME_LEN + 1) off Hp ltac:(unfold DNS_MAX_NAME_LEN; lia) ltac:(lia)) as (name & c & -> & _ & Hc).
  cbn [mbind option_bind]. destruct (Z.ltb_spec c 0); [by eexists|]. unfold sizeof_dns_answer. destruct (Z.ltb_spec (Z.of_nat (length packet)) (off + c + 10)); [by eexists|].
  destruct (read16_safe packet (off + c) Hp) as (t & -> & _); [lia|lia|]. destruct (read16_safe packet (off + c + 2) Hp) as (k & -> & _); [lia|lia|].
  destruct (read32_safe packet (off + c + 4) Hp) as (ttl & -> & Ht); [lia|lia|]. destruct (read16_safe packet (off + c + 8) Hp) as (rd & -> & _); [lia|lia|].
  cbn [mbind option_bind]. pose proof (ntohs_range rd) as Hrd. cbn zeta. destruct (Z.ltb_spec (Z.of_nat (length packet)) (off + c + 10 + ntohs rd)); [by eexists|].
  destruct ((ntohs t =? DNS_TYPE_A) && (ntohs k =? DNS_CLASS_IN) && (ntohs rd =? 4)) eqn:E; [|apply IH; lia].
  zbool. destruct (read32_safe packet (off + c + 10) Hp) as (ip & -> & Hip); [lia|lia|]. cbn. eexists. split; [done|]. split; [done|]. by apply (htonl_range ttl).
Qed.

Lemma parse_safe packet : packet_ok packet -> answer_ok (dns_parse_response (Some packet)).
Proof.
  intros Hp. unfold dns_parse_response, DNS_HEADER_SIZE.
  destruct (Z.ltb_spec (Z.of_nat (length packet)) 12); [by eexists|]. destruct (read16_safe packet 2 Hp) as (fl & -> & _); [lia|lia|].
  destruct (read16_safe packet 4 Hp) as (qd & -> & _); [lia|lia|]. destruct (read16_safe packet 6 Hp) as (an & -> & _); [lia|lia|]. cbn [mbind option_bind].
  cbn zeta. destruct (Z.land (ntohs fl) DNS_FLAG_QR =? 0); [by eexists|]. destruct (negb _); [eexists; split; [done|]; by repeat case_if|].
  destruct (ntohs an =? 0); [by eexists|]. destruct (skip_questions_safe packet (Z.to_nat (ntohs qd)) 12 Hp ltac:(lia)) as (r & -> & Hr). cbn [mbind option_bind].
  destruct r as [off|e]; [apply answers_safe; [done|lia]|by eexists].
Qed.
(** whatever bytes a response holds, parsing it ends, reads only inside the response,
    writes only inside the name buffer, and gives a negative code or an address and a time
    to live; the same holds for decoding a name at any offset into a buffer of any size, and
    what it consumes lies inside the packet. *)
Theorem dns_parse_safe packet : packet_ok packet ->
  answer_ok (dns_parse_response (Some packet)) /\
  forall start size, 0 <= start <= Z.of_nat (length packet) -> 0 < size -> decoded_ok packet size start (dns_decode_name packet start size).
Proof.
  intros Hp. split; [by apply parse_safe|]. intros start size Hs Hz. by apply decode_safe.
Qed.

(** ** Responses of the standard *)

(** A resource record without its name. *)
Record rr := mk_rr { rr_type : Z; rr_class : Z; rr_ttl : Z; rr_data : list Z }.
Definition rr_bytes (r : rr) : list Z :=
  le16 (htons (rr_type r)) ++ le16 (htons (rr_class r)) ++ le32 (htonl (rr_ttl r)) ++ le16 (htons (Z.of_nat (length (rr_data r)))) ++ rr_data r.
Record rr_ok (r : rr) : Prop := mk_rr_ok {
  ro_type : 0 <= rr_type r < 65536;
  ro_class : 0 <= rr_class r < 65536;
  ro_ttl : 0 <= rr_ttl r < 2 ^ 32;
  ro_data : Z.of_nat (length (rr_data r)) < 65536;
}.
Definition is_address (r : rr) : Prop := rr_type r = DNS_TYPE_A /\ rr_class r = DNS_CLASS_IN /\ length (rr_data r) = 4%nat.
#[export] Instance is_address_dec r : Decision (is_address r).
Proof. unfold is_address. apply _. Defined.
Definition slice_at (packet : list Z) (off : Z) (l : list Z) : Prop := 0 <= off /\ take (length l) (drop (Z.to_nat off) packet) = l.

Inductive questions_at (packet : list Z) : Z -> nat -> Z -> Prop :=
| qa_none off : questions_at packet off 0 off
| qa_more off j ls n k off' : wire_name packet off j ls n -> off + n + sizeof_dns_question <= Z.of_nat (length packet) ->
    questions_at packet (off + n + sizeof_dns_question) k off' -> questions_at packet off (S k) off'.
Inductive records_at (packet : list Z) : Z -> list rr -> Prop :=
| ra_none off : records_at packet off []
| ra_more off j ls n r rs : wire_name packet off j ls n -> Z.of_nat j <= max_jumps -> Z.of_nat (length (host_of ls)) <= DNS_MAX_NAME_LEN -> rr_ok r ->
    slice_at packet (off + n) (rr_bytes r) -> records_at packet (off + n + Z.of_nat (length (rr_bytes r))) rs -> records_at packet off (r :: rs).

Lemma slice_bound packet off l : slice_at packet off l -> 0 < Z.of_nat (length l) -> off + Z.of_nat (length l) <= Z.of_nat (length packet).
Proof. intros [Ho E] Hl. assert (length (take (length l) (drop (Z.to_nat off) packet)) = length l) as El by (by rewrite E). rewrite length_take, length_drop in El. lia. Qed.
Lemma read8_slice packet off l k : slice_at packet off l -> (k < length l)%nat -> read8 packet (off + Z.of_nat k) = Some (byte_at l k).
Proof. intros [Ho E] Hk. rewrite (slice_read packet off l k Ho E Hk). destruct (lookup_lt_is_Some_2 l k Hk) as [b Eb]. by rewrite Eb, (byte_at_lookup _ _ _ Eb). Qed.
Lemma read16_slice packet off l k : slice_at packet off l -> (k + 1 < length l)%nat -> read16 packet (off + Z.of_nat k) = Some (get16 l k).
Proof.
  intros Hs Hk. unfold read16. rewrite (read8_slice _ _ _ k Hs) by lia. cbn [mbind option_bind]. replace (off + Z.of_nat k + 1) with (off + Z.of_nat (k + 1)) by lia.
  by rewrite (read8_slice _ _ _ (k + 1) Hs) by lia.
Qed.
Lemma read32_slice packet off l k : slice_at packet off l -> (k + 3 < length l)%nat -> read32 packet (off + Z.of_nat k) = Some (get32 l k).
Proof.
  intros Hs Hk. unfold read32. rewrite (read16_slice _ _ _ k Hs) by lia. cbn [mbind option_bind]. replace (off + Z.of_nat k + 2) with (off + Z.of_nat (k + 2)) by lia.
  by rewrite (read16_slice _ _ _ (k + 2) Hs) by lia.
Qed.

Lemma skip_wire packet off j ls n : wire_name packet off j ls n ->
  exists k, Z.of_nat k <= n /\ while_nat k (skip_round packet) off = inr (Some (off + n)).
Proof.
  induction 1 as [off H|off l j ls n Hl Hs Ho Hw IH|off h lo j ls n H1 H2 H3 Hw IH].
  - exists 1%nat. split; [lia|]. simpl. unfold skip_round. pose proof (read8_bound _ _ _ H). rewrite (proj2 (Z.leb_gt _ _)) by lia. by rewrite H.
  - destruct IH as (k & Hk & IH). exists (S k). split; [lia|]. rewrite while_nat_S. unfold skip_round at 1. pose proof (slice_read packet off (Z.of_nat (length l) :: l) 0 Ho Hs ltac:(simpl; lia)) as Hr. rewrite Z.add_0_r in Hr.
    pose proof (read8_bound _ _ _ Hr). rewrite (proj2 (Z.leb_gt _ _)) by lia. rewrite Hr. cbn [lookup list_lookup]. destruct Hl as [Hne Hl].
    rewrite (proj2 (Z.eqb_neq _ _)) by (destruct l; simpl; [done|lia]). rewrite small_not_pointer by lia. replace (off + (Z.of_nat (length l) + 1)) with (off + 1 + Z.of_nat (length l)) by lia.
    rewrite IH. do 2 f_equal. lia.
  - exists 1%nat. split; [lia|]. rewrite while_nat_S. unfold skip_round at 1. pose proof (read8_bound _ _ _ H1). rewrite (proj2 (Z.leb_gt _ _)) by lia. rewrite H1, H3, Z.eqb_refl.
    destruct (Z.eqb_spec h 0) as [->|]; [done|]. done.
Qed.
Lemma skip_qname_ok packet off j ls n : packet_ok packet -> wire_name packet off j ls n -> skip_qname packet off = Some (off + n).
Proof.
  intros [_ Hp] Hw. pose proof (wire_bound _ _ _ _ _ Hw) as Hb. destruct (skip_wire _ _ _ _ _ Hw) as (k & Hk & E). unfold skip_qname, loop.
  rewrite (while_pos_enough _ ADDRESSES _ _ _ E) by (unfold ADDRESSES; lia). done.
Qed.
Lemma questions_ok packet off k off' : packet_ok packet -> questions_at packet off k off' -> skip_questions packet k off = Some (inl off').
Proof.
  intros Hp. induction 1 as [|off j ls n k off' Hw Hl _ IH]; [done|]. cbn [skip_questions]. rewrite (skip_qname_ok _ _ _ _ _ Hp Hw). cbn [mbind option_bind].
  rewrite (proj2 (Z.ltb_ge _ _)) by lia. exact IH.
Qed.
Lemma answers_ok packet off rs : records_at packet off rs ->
  parse_answers packet (length rs) off =
  Some (match head (filter is_address rs) with Some r => inr (get32 (rr_data r) 0, rr_ttl r) | None => inl DNS_ERR_NOT_FOUND end).
Proof.
  induction 1 as [|off j ls n r rs Hw Hj Hlen [R1 R2 R3 R4] Hs _ IH]; [done|]. cbn [length parse_answers]. pose proof (wire_bound _ _ _ _ _ Hw) as Hb.
  assert (length (rr_bytes r) = 10 + length (rr_data r))%nat as Hrl by done. pose proof (slice_bound _ _ _ Hs ltac:(lia)) as Hsb.
  rewrite (proj2 (Z.leb_gt _ _)) by lia. rewrite (decode_ok packet off j ls n (DNS_MAX_NAME_LEN + 1) Hw Hj) by (unfold DNS_MAX_NAME_LEN in *; lia). cbn [mbind option_bind].
  rewrite (proj2 (Z.ltb_ge n _)) by lia. unfold sizeof_dns_answer. rewrite (proj2 (Z.ltb_ge (Z.of_nat (length packet)) _)) by lia.
  pose proof (read16_slice _ _ _ 0 Hs ltac:(lia)) as H0. rewrite Z.add_0_r in H0. pose proof (read16_slice _ _ _ 2 Hs ltac:(lia)) as H2. pose proof (read32_slice _ _ _ 4 Hs ltac:(lia)) as H4.
  pose proof (read16_slice _ _ _ 8 Hs ltac:(lia)) as H8. change (Z.of_nat 2) with 2 in H2. change (Z.of_nat 4) with 4 in H4. change (Z.of_nat 8) with 8 in H8.
  rewrite H0, H2, H4, H8. cbn [mbind option_bind]. cbn zeta.
  assert (ntohs (get16 (rr_bytes r) 0) = rr_type r) as -> by (by apply (get16_le16 (rr_type r))). assert (ntohs (get16 (rr_bytes r) 2) = rr_class r) as -> by (by apply (get16_le16 (rr_class r))).
  assert (ntohl (get32 (rr_bytes r) 4) = rr_ttl r) as -> by (by apply (get32_le32 (rr_ttl r))).
  assert (ntohs (get16 (rr_bytes r) 8) = Z.of_nat (length (rr_data r))) as -> by (apply (get16_le16 (Z.of_nat (length (rr_data r)))); lia).
  rewrite (proj2 (Z.ltb_ge (Z.of_nat (length packet)) _)) by lia. destruct (decide (is_address r)) as [Ha|Ha].
  - rewrite filter_cons_True by done. destruct Ha as (E1 & E2 & E3). rewrite E1, E2, E3. cbn [DNS_TYPE_A DNS_CLASS_IN Z.eqb Pos.eqb andb Z.of_nat Pos.of_succ_nat Pos.succ].
    pose proof (read32_slice _ _ _ 10 Hs ltac:(lia)) as H10. change (Z.of_nat 10) with 10 in H10. rewrite H10. done.
  - rewrite filter_cons_False by done. replace (_ && _) with false; [by replace (off + n + 10 + Z.of_nat (length (rr_data r))) with (off + n + Z.of_nat (length (rr_bytes r))) by lia|].
    symmetry. apply not_true_iff_false. intros E. zbool. apply Ha. split; [done|]. split; [done|lia].
Qed.

(** a response in the format of the standard gives the address and the time to live of its
    first address record, or "not found" when it has none, wherever its names continue. *)
Theorem dns_first_address packet id flags nq rs ns ar rest off :
  packet_ok packet -> packet = dns_header id flags (Z.of_nat nq) (Z.of_nat (length rs)) ns ar ++ rest ->
  0 <= flags < 65536 -> Z.of_nat nq < 65536 -> Z.of_nat (length rs) < 65536 -> Z.testbit flags 15 = true -> Z.land flags DNS_FLAG_RCODE_MASK = DNS_RCODE_OK ->
  questions_at packet DNS_HEADER_SIZE nq off -> records_at packet off rs ->
  dns_parse_response (Some packet) =
  Some (match head (filter is_address rs) with Some r => inr (get32 (rr_data r) 0, rr_ttl r) | None => inl DNS_ERR_NOT_FOUND end).
Proof.
  intros Hp E Hf Hq Hn Hqr Hrc Hqs Hrs. pose proof (questions_ok _ _ _ _ Hp Hqs) as Hsk. pose proof (answers_ok _ _ _ Hrs) as Han.
  assert (slice_at packet 0 (dns_header id flags (Z.of_nat nq) (Z.of_nat (length rs)) ns ar)) as Hs by (split; [lia|rewrite E; change (Z.to_nat 0) with 0%nat; by rewrite drop_0, take_app_length]).
  set (h := dns_header _ _ _ _ _ _) in *. assert (length h = 12%nat) as Hh by done. pose proof (slice_bound _ _ _ Hs ltac:(lia)) as Hb.
  unfold dns_parse_response. rewrite (proj2 (Z.ltb_ge _ _)) by (unfold DNS_HEADER_SIZE; lia).
  pose proof (read16_slice _ _ _ 2 Hs ltac:(lia)) as H2. pose proof (read16_slice _ _ _ 4 Hs ltac:(lia)) as H4. pose proof (read16_slice _ _ _ 6 Hs ltac:(lia)) as H6.
  change (0 + Z.of_nat 2) with 2 in H2. change (0 + Z.of_nat 4) with 4 in H4. change (0 + Z.of_nat 6) with 6 in H6. rewrite H2, H4, H6. cbn [mbind option_bind].
  assert (ntohs (get16 h 2) = flags) as -> by (by apply (get16_le16 flags)). assert (ntohs (get16 h 4) = Z.of_nat nq) as -> by (apply (get16_le16 (Z.of_nat nq)); lia).
  assert (ntohs (get16 h 6) = Z.of_nat (length rs)) as -> by (apply (get16_le16 (Z.of_nat (length rs))); lia). cbn zeta.
  change DNS_FLAG_QR with (Z.shiftl 1 15). rewrite land_pow2_testbit, Hqr by lia. cbn [negb]. rewrite Hrc. cbn [DNS_RCODE_OK Z.eqb negb].
  destruct (Z.eqb_spec (Z.of_nat (length rs)) 0) as [E0|_].
  - destruct rs; [done|]. simpl in E0. lia.
  - rewrite !Nat2Z.id, Hsk. exact Han.
Qed.

(** ** The cache is a map *)

Definition host_str (s : list Z) : Prop := Forall (fun c => 0 < c < 256) s.
(** Names are compared without regard to case. *)
Definition host_key (s : list Z) : list Z := map lower_char s.
Lemma lower_range c : 0 < c < 256 -> 0 < lower_char c < 256.
Proof. intros Hc. unfold lower_char. destruct ((65 <=? c) && (c <=? 90)) eqn:E; zbool; lia. Qed.
Lemma strcasecmp_key s1 s2 : host_str s1 -> host_str s2 -> dns_strcasecmp s1 s2 = 0 <-> host_key s1 = host_key s2.
Proof.
  intros H1. revert s2. induction H1 as [|a s1 Ha _ IH]; intros s2 H2.
  - destruct H2 as [|b s2 Hb _]; [done|]. cbn. split; [lia|done].
  - destruct H2 as [|b s2 Hb H2]; [cbn; split; [lia|done]|]. cbn [dns_strcasecmp host_key map]. pose proof (lower_range a Ha). pose proof (lower_range b Hb).
    destruct (Z.eqb_spec (lower_char a) (lower_char b)) as [E|N]; cbn [negb].
    + rewrite (IH s2 H2), E. unfold host_key. split; [by intros ->|by intros [= ->]].
    + split; [|by intros [= ? _]]. unfold char_value. repeat case_if; lia.
Qed.

(** What is stored for a key: the address, the time to live and the time of the entry. *)
Definition stored (e : dns_cache_entry) : Z * Z * Z := (ce_ip e, ce_ttl e, ce_timestamp e).
Definition entry_key (e : dns_cache_entry) : list Z := host_key (ce_name e).
Definition holds (k : list Z) (e : dns_cache_entry) : Prop := ce_ok e = true /\ entry_key e = k.
#[export] Instance holds_dec k e : Decision (holds k e).
Proof. unfold holds. apply _. Defined.
Definition view (c : list dns_cache_entry) (k : list Z) : option (Z * Z * Z) := stored <$> head (filter (holds k) c).
Definition distinct (c : list dns_cache_entry) : Prop :=
  forall i j e e', c !! i = Some e -> c !! j = Some e' -> ce_ok e = true -> ce_ok e' = true -> entry_key e = entry_key e' -> i = j.
Record centry_ok (now : Z) (e : dns_cache_entry) : Prop := mk_centry_ok {
  co_name : host_str (ce_name e);
  co_time : ce_ok e = true -> 0 <= ce_timestamp e < now;
  co_ttl : ce_ok e = true -> DNS_MIN_TTL <= ce_ttl e <= DNS_MAX_TTL;
}.
Record cache_wf (d : dns) : Prop := mk_cache_wf {
  cw_length : Z.of_nat (length (cache d)) = DNS_CACHE_SIZE;
  cw_entries : Forall (centry_ok (ticks d)) (cache d);
  cw_distinct : distinct (cache d);
  cw_ticks : 0 <= ticks d < 2 ^ 64;
}.

Lemma view_some c i e : distinct c -> c !! i = Some e -> ce_ok e = true -> view c (entry_key e) = Some (stored e).
Proof.
  intros Hd Hi Ho. unfold view. destruct (filter (holds (entry_key e)) c) as [|e' l] eqn:E.
  - exfalso. assert (e ∈ filter (holds (entry_key e)) c) as Hin by (apply list_elem_of_filter; split; [by split|by eapply list_elem_of_lookup_2]). rewrite E in Hin. by apply not_elem_of_nil in Hin.
  - assert (e' ∈ filter (holds (entry_key e)) c) as Hin by (rewrite E; left). apply list_elem_of_filter in Hin as [[Ho' Hk] Hin]. apply list_elem_of_lookup_1 in Hin as [j Hj].
    assert (i = j) as -> by (by eapply Hd). cbn. congruence.
Qed.
Lemma view_inv c k v : view c k = Some v -> exists i e, c !! i = Some e /\ ce_ok e = true /\ entry_key e = k /\ stored e = v.
Proof.
  unfold view. destruct (filter (holds k) c) as [|e l] eqn:E; [done|]. cbn. intros [= <-]. assert (e ∈ filter (holds k) c) as Hin by (rewrite E; left).
  apply list_elem_of_filter in Hin as [[Ho Hk] Hin]. apply list_elem_of_lookup_1 in Hin as [i Hi]. by exists i, e.
Qed.
Lemma view_none c k : view c k = None <-> forall i e, c !! i = Some e -> ce_ok e = true -> entry_key e <> k.
Proof.
  unfold view. split.
  - intros Hv i e Hi Ho Hk. assert (e ∈ filter (holds k) c) as Hin by (apply list_elem_of_filter; split; [by split|by eapply list_elem_of_lookup_2]).
    destruct (filter (holds k) c); [by apply not_elem_of_nil in Hin|done].
  - intros Hall. destruct (filter (holds k) c) as [|e l] eqn:E; [done|]. exfalso. assert (e ∈ filter (holds k) c) as Hin by (rewrite E; left).
    apply list_elem_of_filter in Hin as [[Ho Hk] Hin]. apply list_elem_of_lookup_1 in Hin as [i Hi]. by apply (Hall i e).
Qed.
(** Replacing one entry changes the map at the keys of the old and of the new entry. *)
Lemma view_insert c i e0 e k : distinct c -> c !! i = Some e0 -> ce_ok e = true -> (view c (entry_key e) = None \/ holds (entry_key e) e0) ->
  distinct (<[i := e]> c) /\
  view (<[i := e]> c) k = if decide (k = entry_key e) then Some (stored e) else if decide (holds k e0) then None else view c k.
Proof.
  intros Hd Hi Ho Hk. assert (i < length c)%nat as Hlt by (by eapply lookup_lt_Some).
  assert (forall j e', j <> i -> c !! j = Some e' -> ce_ok e' = true -> entry_key e' <> entry_key e) as Hother.
  { intros j e' Hj Hje Ho' Hk'. destruct Hk as [Hn|[Ho0 Hk0]]; [by apply (proj1 (view_none _ _) Hn j e')|]. apply Hj. apply (Hd j i e' e0); try done. congruence. }
  assert (distinct (<[i := e]> c)) as Hd'.
  { intros a b x y. destruct (decide (i = a)) as [<-|Na]; [rewrite list_lookup_insert_eq by done|rewrite list_lookup_insert_ne by done];
      (destruct (decide (i = b)) as [<-|Nb]; [rewrite list_lookup_insert_eq by done|rewrite list_lookup_insert_ne by done]); [done|..].
    - intros [= <-] Hb _ Hob Hkk. exfalso. by apply (Hother b y).
    - intros Ha [= <-] Hoa _ Hkk. exfalso. by apply (Hother a x).
    - intros. by eapply Hd. }
  split; [done|]. destruct (decide (k = entry_key e)) as [->|Nk].
  - apply (view_some _ i); [done| |done]. by rewrite list_lookup_insert_eq.
  - destruct (decide (holds k e0)) as [[Ho0 Hk0]|Hn].
    + apply view_none. intros j x. destruct (decide (i = j)) as [<-|Nj]; [rewrite list_lookup_insert_eq by done; intros [= <-] _; congruence|].
      rewrite list_lookup_insert_ne by done. intros Hj Hox Hkx. apply Nj. apply (Hd i j e0 x); try done. congruence.
    + destruct (view c k) as [v|] eqn:Ev.
      * apply view_inv in Ev as (j & x & Hj & Hox & Hkx & <-). assert (i <> j) as Nj by (intros ->; apply Hn; rewrite Hi in Hj; by injection Hj as ->).
        rewrite <- Hkx. apply (view_some _ j); [done| |done]. by rewrite list_lookup_insert_ne.
      * apply view_none. intros j x. destruct (decide (i = j)) as [<-|Nj]; [rewrite list_lookup_insert_eq by done; intros [= <-] _; congruence|].
        rewrite list_lookup_insert_ne by done. by apply (proj1 (view_none _ _) Ev).
Qed.

Lemma same_host_key host e : host_str host -> host_str (ce_name e) -> same_host host e = true <-> entry_key e = host_key host.
Proof. intros H1 H2. unfold same_host. rewrite Z.eqb_eq. by apply strcasecmp_key. Qed.

(** A lookup drops expired entries and nothing else. *)
Definition swept (now : Z) (e e' : dns_cache_entry) : Prop := e' = e \/ (e' = invalidate e /\ ce_ok e = true /\ expired now e = true).
Lemma lookup_loop_swept now host c : Forall2 (swept now) c (fst (lookup_loop now host c)).
Proof.
  induction c as [|e c IH]; cbn [lookup_loop]; [constructor|]. destruct (lookup_loop now host c) as [c' r]. cbn [fst] in IH.
  assert (Forall2 (swept now) c c) as Hc by (clear; induction c; constructor; [by left|done]).
  destruct (ce_ok e) eqn:Eo; cbn [negb]; [|constructor; [by left|done]]. destruct (expired now e) eqn:Ee; [constructor; [by right|done]|].
  destruct (same_host host e); constructor; by first [left|apply Hc|apply IH].
Qed.
Lemma distinct_cons e c : distinct (e :: c) -> distinct c.
Proof. intros Hd i j x y Hi Hj Hx Hy Hk. apply Nat.succ_inj. by apply (Hd (S i) (S j) x y). Qed.
Lemma lookup_loop_result now host c : distinct c -> Forall (fun e => host_str (ce_name e)) c -> host_str host ->
  snd (lookup_loop now host c) =
  (v ← view c (host_key host); if snd (fst v) <? u64 (now - snd v) then None else Some (fst (fst v))).
Proof.
  intros Hd Hn Hh. induction c as [|e c IH]; [done|]. apply Forall_cons in Hn as [He Hn]. pose proof (same_host_key host e Hh He) as Hk. pose proof (distinct_cons _ _ Hd) as Hd'.
  specialize (IH Hd' Hn). cbn [lookup_loop]. destruct (lookup_loop now host c) as [c' r]. cbn [snd] in IH. unfold view.
  assert (ce_ok e = true -> entry_key e = host_key host -> view c (host_key host) = None) as Hrest.
  { intros Eo Ek. apply view_none. intros i x Hi Hx Hkx. assert (0 = S i)%nat; [|done]. apply (Hd 0%nat (S i) e x); try done. congruence. }
  destruct (ce_ok e) eqn:Eo; cbn [negb]; [|rewrite filter_cons_False by (intros [? _]; congruence); exact IH].
  destruct (decide (entry_key e = host_key host)) as [Ek|Nk].
  - rewrite filter_cons_True by (by split). cbn. unfold expired. rewrite (proj2 Hk Ek). destruct (ce_ttl e <? _); [|done]. cbn. rewrite IH, Hrest by done. done.
  - rewrite filter_cons_False by (by intros [_ ?]). destruct (same_host host e) eqn:Es; [exfalso; by apply Nk, (proj1 Hk)|]. destruct (expired now e); exact IH.
Qed.

Lemma update_loop_some host ip ttl now c c' : host_str host -> Forall (fun e => host_str (ce_name e)) c -> update_loop host ip ttl now c = Some c' ->
  exists i e, c !! i = Some e /\ ce_ok e = true /\ entry_key e = host_key host /\ c' = <[i := mk_centry (ce_name e) ip ttl now true]> c.
Proof.
  intros Hh. revert c'. induction c as [|e c IH]; intros c' Hn; cbn [update_loop]; [done|]. apply Forall_cons in Hn as [He Hn].
  destruct (ce_ok e) eqn:Eo; [destruct (same_host host e) eqn:Es|]; cbn [andb].
  - intros [= <-]. exists 0%nat, e. apply same_host_key in Es; [|done|done]. done.
  - destruct (update_loop host ip ttl now c) as [c1|]; [|done]. intros [= <-]. destruct (IH c1 Hn eq_refl) as (i & x & H1 & H2 & H3 & ->). by exists (S i), x.
  - destruct (update_loop host ip ttl now c) as [c1|]; [|done]. intros [= <-]. destruct (IH c1 Hn eq_refl) as (i & x & H1 & H2 & H3 & ->). by exists (S i), x.
Qed.
Lemma update_loop_none host ip ttl now c : host_str host -> Forall (fun e => host_str (ce_name e)) c -> update_loop host ip ttl now c = None ->
  view c (host_key host) = None.
Proof.
  intros Hh Hn Hu. apply view_none. revert Hu. induction c as [|e c IH]; cbn [update_loop]; [done|]. apply Forall_cons in Hn as [He Hn].
  destruct (ce_ok e && same_host host e) eqn:Es; [done|]. destruct (update_loop host ip ttl now c); [done|]. intros _ [|i] x; cbn.
  - intros [= <-] Ho Hk. rewrite Ho in Es. cbn [andb] in Es. apply not_true_iff_false in Es. by apply Es, same_host_key.
  - by apply IH.
Qed.

(** The slot: not in use, or the entry that has been there longest. *)
Definition slot_of (now : Z) (c : list dns_cache_entry) (i : nat) : Prop :=
  exists e, c !! i = Some e /\ (ce_ok e = true -> forall j e', c !! j = Some e' -> ce_ok e' = true /\ u64 (now - ce_timestamp e') <= u64 (now - ce_timestamp e)).
Lemma slot_loop_ok now done c idx age : (idx < length (done ++ c))%nat -> Forall (fun e => ce_ok e = true /\ u64 (now - ce_timestamp e) <= age) done ->
  (match done with [] => age = 0 /\ idx = 0%nat | _ => exists e, done !! idx = Some e /\ u64 (now - ce_timestamp e) = age end) ->
  Forall (fun e => 0 < u64 (now - ce_timestamp e)) (filter (fun e => ce_ok e = true) c) ->
  slot_of now (done ++ c) (slot_loop now (length done) idx age c).
Proof.
  revert done idx age. induction c as [|e c IH]; intros dn idx age Hlt Hdone Hidx Hpos; cbn [slot_loop].
  - rewrite app_nil_r in *. destruct dn as [|x dn]; [simpl in Hlt; lia|]. destruct Hidx as (y & Hy & Ea). exists y. split; [done|]. intros _ j e' Hj.
    rewrite Forall_forall in Hdone. destruct (Hdone e') as [H1 H2]; [by eapply list_elem_of_lookup_2|]. split; [done|lia].
  - destruct (ce_ok e) eqn:Eo; cbn [negb].
    + rewrite filter_cons_True in Hpos by done. apply Forall_cons in Hpos as [Hpe Hpos]. replace (length dn + 1)%nat with (length (dn ++ [e])) by (rewrite length_app; simpl; lia).
      replace (dn ++ e :: c) with ((dn ++ [e]) ++ c) in * by (by rewrite <- app_assoc). destruct (Z.ltb_spec age (u64 (now - ce_timestamp e))) as [Hl|Hl].
      * apply IH; [rewrite !length_app; simpl; lia| | |done].
        -- apply Forall_app. split; [|constructor; [split; [done|lia]|done]]. eapply Forall_impl; [exact Hdone|]. intros x [? ?]. split; [done|lia].
        -- destruct (dn ++ [e]) eqn:Ed; [by destruct dn|]. rewrite <- Ed. exists e. split; [|done]. rewrite lookup_app_r, Nat.sub_diag by lia. done.
      * destruct dn as [|x dn]; [destruct Hidx as [-> _]; lia|]. apply IH; [done| | |done].
        -- apply Forall_app. split; [done|]. constructor; [split; [done|lia]|done].
        -- destruct Hidx as (y & Hy & Ey). cbn [app]. exists y. split; [|done]. change (x :: dn ++ [e]) with ((x :: dn) ++ [e]). by apply lookup_app_l_Some.
    + exists e. split; [by rewrite lookup_app_r, Nat.sub_diag by lia|]. congruence.
Qed.

Inductive cache_call := CLookup (host : list Z) | CAdd (host : list Z) (ip ttl : Z).
(** A code, or an address. *)
Definition run_cache (c : cache_call) (d : dns) : dns * (Z + Z) :=
  match c with
  | CLookup host => dns_cache_lookup (Some host) d
  | CAdd host ip ttl => let '(d, r) := dns_cache_add (Some host) ip ttl d in (d, inl r)
  end.
Definition call_host (c : cache_call) : list Z := match c with CLookup host | CAdd host _ _ => host end.
Abbreviation dns_map := (list Z -> option (Z * Z * Z)).
Definition still_good (now : Z) (v : Z * Z * Z) : bool := now - snd v <=? snd (fst v).
(** 32 names are known. *)
Definition map_full (m : dns_map) : Prop := exists ks, Z.of_nat (length ks) = DNS_CACHE_SIZE /\ NoDup ks /\ Forall (fun k => is_Some (m k)) ks.
(** No entry is older than that of [k]. *)
Definition map_oldest (m : dns_map) (k : list Z) : Prop := exists v, m k = Some v /\ forall k' v', m k' = Some v' -> snd v <= snd v'.
Definition cache_does (now : Z) (m : dns_map) (c : cache_call) (r : Z + Z) (m' : dns_map) : Prop :=
  match c with
  | CLookup host =>
      r = match m (host_key host) with
          | Some v => if still_good now v then inr (fst (fst v)) else inl DNS_ERR_NOT_FOUND
          | None => inl DNS_ERR_NOT_FOUND
          end /\
      forall k, m' k = m k \/ (m' k = None /\ exists v, m k = Some v /\ still_good now v = false)
  | CAdd host ip ttl =>
      if DNS_MAX_NAME_LEN <? Z.of_nat (length host) then r = inl DNS_ERR_INVALID_NAME /\ forall k, m' k = m k
      else r = inl DNS_OK /\ exists lost : option (list Z),
        (forall k, m' k = if decide (k = host_key host) then Some (ip, clamp_ttl ttl, now) else if decide (lost = Some k) then None else m k) /\
        (forall k, lost = Some k -> m (host_key host) = None /\ map_full m /\ map_oldest m k)
  end.

Lemma names_ok d : cache_wf d -> Forall (fun e => host_str (ce_name e)) (cache d).
Proof. intros [_ We _ _]. eapply Forall_impl; [exact We|]. by intros e [? _ _]. Qed.
Lemma age_val d e : cache_wf d -> e ∈ cache d -> ce_ok e = true -> u64 (ticks d - ce_timestamp e) = ticks d - ce_timestamp e /\ 0 < ticks d - ce_timestamp e.
Proof. intros [_ We _ Ht] He Ho. rewrite Forall_forall in We. destruct (We e He) as [_ Hts _]. specialize (Hts Ho). rewrite u64_id by lia. lia. Qed.
Lemma later_ok now e : centry_ok now e -> centry_ok (now + 1) e.
Proof. intros [H1 H2 H3]. split; [done| |done]. intros Ho. specialize (H2 Ho). lia. Qed.

Lemma swept_distinct now c c' : Forall2 (swept now) c c' -> distinct c -> distinct c'.
Proof.
  intros Hs Hd i j x y Hi Hj Hx Hy Hk. destruct (Forall2_lookup_r _ _ _ _ _ Hs Hi) as (x0 & Hi0 & Sx). destruct (Forall2_lookup_r _ _ _ _ _ Hs Hj) as (y0 & Hj0 & Sy).
  destruct Sx as [->|(-> & _)]; [|done]. destruct Sy as [->|(-> & _)]; [|done]. by eapply Hd.
Qed.
Lemma swept_view now c c' k : distinct c -> Forall2 (swept now) c c' ->
  view c' k = view c k \/ (view c' k = None /\ exists e, e ∈ c /\ ce_ok e = true /\ view c k = Some (stored e) /\ expired now e = true).
Proof.
  intros Hd Hs. pose proof (swept_distinct _ _ _ Hs Hd) as Hd'. destruct (view c k) as [v|] eqn:Ev.
  - apply view_inv in Ev as (i & e & Hi & Ho & <- & <-). destruct (Forall2_lookup_l _ _ _ _ _ Hs Hi) as (e' & Hi' & [->|(-> & _ & Hx)]).
    + left. by apply (view_some _ i).
    + right. split; [|exists e; split; [by eapply list_elem_of_lookup_2|done]]. apply view_none. intros j x Hj Hox Hk.
      destruct (Forall2_lookup_r _ _ _ _ _ Hs Hj) as (x0 & Hj0 & [->|(-> & _)]); [|done]. assert (j = i) as -> by (by eapply (Hd j i x0 e)). rewrite Hi' in Hj. by injection Hj as <-.
  - left. apply view_none. intros j x Hj Hox Hk. destruct (Forall2_lookup_r _ _ _ _ _ Hs Hj) as (x0 & Hj0 & [->|(-> & _)]); [|done]. by apply (proj1 (view_none _ _) Ev j x0).
Qed.
Lemma swept_entries now t c c' : Forall2 (swept now) c c' -> Forall (centry_ok t) c -> Forall (centry_ok t) c'.
Proof.
  intros Hs Hc. induction Hs as [|e e' c c' He _ IH]; [done|]. apply Forall_cons in Hc as [H1 H2]. constructor; [|by apply IH]. destruct He as [->|(-> & _)]; [done|].
  destruct H1 as [? _ _]. split; done.
Qed.
Lemma good_expired d e : cache_wf d -> e ∈ cache d -> ce_ok e = true -> still_good (ticks d) (stored e) = negb (expired (ticks d) e).
Proof. intros W He Ho. destruct (age_val d e W He Ho) as [Ea _]. unfold still_good, expired. cbn. rewrite Ea. destruct (Z.leb_spec (ticks d - ce_timestamp e) (ce_ttl e)), (Z.ltb_spec (ce_ttl e) (ticks d - ce_timestamp e)); cbn; lia || done. Qed.

Lemma cache_lookup_does d host d' r : cache_wf d -> dns_initialized d = true -> ticks d < 2 ^ 64 - 1 -> host_str host ->
  dns_cache_lookup (Some host) d = (d', r) ->
  cache_wf d' /\ ticks d' = ticks d + 1 /\ dns_initialized d' = true /\ cache_does (ticks d) (view (cache d)) (CLookup host) r (view (cache d')).
Proof.
  intros W Ei Ht Hh. unfold dns_cache_lookup, dns_get_ticks. rewrite Ei. cbn [negb]. pose proof W as [W1 W2 W3 W4]. cbn [cache ticks].
  pose proof (lookup_loop_swept (ticks d) host (cache d)) as Hs. pose proof (lookup_loop_result (ticks d) host (cache d) W3 (names_ok d W) Hh) as Hr.
  destruct (lookup_loop (ticks d) host (cache d)) as [c' r']. cbn [fst snd] in Hs, Hr. intros [= <- <-]. cbn [set_cache cache ticks dns_initialized]. rewrite u64_id by lia.
  split; [|split; [done|split; [done|]]].
  - split; cbn; rewrite ?u64_id by lia; [by rewrite <- (Forall2_length _ _ _ Hs)| |by eapply swept_distinct|lia].
    eapply swept_entries; [exact Hs|]. eapply Forall_impl; [exact W2|]. apply later_ok.
  - split.
    + rewrite Hr. destruct (view (cache d) (host_key host)) as [v|] eqn:Ev; [|done]. apply view_inv in Ev as (i & e & Hi & Ho & _ & <-). cbn [mbind option_bind].
      pose proof (list_elem_of_lookup_2 _ _ _ Hi) as He. rewrite (good_expired d e W He Ho). unfold expired. cbn. by destruct (_ <? _).
    + intros k. destruct (swept_view _ _ _ k W3 Hs) as [?|(Hn & e & He & Ho & Hv & Hx)]; [by left|]. right. split; [done|]. exists (stored e). split; [done|].
      rewrite (good_expired d e W He Ho), Hx. done.
Qed.

Lemma clamp_range ttl : DNS_MIN_TTL <= clamp_ttl ttl <= DNS_MAX_TTL.
Proof. unfold clamp_ttl, DNS_MIN_TTL, DNS_MAX_TTL. repeat case_if; lia. Qed.
Lemma wf_insert d b i e0 e : cache_wf d -> ticks d < 2 ^ 64 - 1 -> cache d !! i = Some e0 -> host_str (ce_name e) -> ce_ok e = true -> ce_timestamp e = ticks d ->
  DNS_MIN_TTL <= ce_ttl e <= DNS_MAX_TTL -> distinct (<[i := e]> (cache d)) ->
  cache_wf (set_cache (<[i := e]> (cache d)) (mk_dns (server_ip d) (next_id d) (cache d) b (u64 (ticks d + 1)))).
Proof.
  intros [W1 W2 W3 W4] Ht Hi Hn Ho Hts Httl Hd. split; cbn; rewrite ?u64_id by lia; [by rewrite length_insert| |done|lia].
  apply Forall_insert; [eapply Forall_impl; [exact W2|]; apply later_ok|]. split; [done|lia|done].
Qed.
Lemma cache_slot_ok d : cache_wf d -> slot_of (ticks d) (cache d) (slot_loop (ticks d) 0 0 0 (cache d)).
Proof.
  intros W. apply (slot_loop_ok (ticks d) [] (cache d) 0 0); [rewrite app_nil_l; destruct W as [W1 _ _ _]; unfold DNS_CACHE_SIZE in W1; lia|constructor|done|].
  apply Forall_forall. intros e [Ho He]%list_elem_of_filter. destruct (age_val d e W He Ho) as [-> ?]. done.
Qed.
Lemma slot_lost d i e : cache_wf d -> slot_of (ticks d) (cache d) i -> cache d !! i = Some e -> ce_ok e = true ->
  map_full (view (cache d)) /\ map_oldest (view (cache d)) (entry_key e).
Proof.
  intros W (e' & Hi' & Hs) Hi Ho. rewrite Hi in Hi'. injection Hi' as <-. specialize (Hs Ho). pose proof W as [W1 W2 W3 W4]. split.
  - exists (map entry_key (cache d)). split; [by rewrite length_map|]. split.
    + apply NoDup_alt. intros a b k. rewrite !list_lookup_fmap. intros (x & Hx & ->)%fmap_Some (y & Hy & Hk)%fmap_Some. apply (W3 a b x y); try done; [apply (Hs a x Hx)|apply (Hs b y Hy)].
    + apply Forall_forall. intros k (x & -> & Hx)%list_elem_of_fmap. apply list_elem_of_lookup_1 in Hx as [a Ha]. destruct (Hs a x Ha) as [Hxo _]. rewrite (view_some _ a x); [by eexists|done|done|done].
  - exists (stored e). split; [by apply (view_some _ i)|]. intros k v (a & x & Ha & Hxo & _ & <-)%view_inv. destruct (Hs a x Ha) as [_ Hage].
    rewrite (proj1 (age_val d e W (list_elem_of_lookup_2 _ _ _ Hi) Ho)), (proj1 (age_val d x W (list_elem_of_lookup_2 _ _ _ Ha) Hxo)) in Hage. cbn. lia.
Qed.
Lemma cache_add_does d host ip ttl d' r : cache_wf d -> dns_initialized d = true -> ticks d < 2 ^ 64 - 1 -> host_str host ->
  run_cache (CAdd host ip ttl) d = (d', r) ->
  cache_wf d' /\ dns_initialized d' = true /\ cache_does (ticks d) (view (cache d)) (CAdd host ip ttl) r (view (cache d')).
Proof.
  intros W Ei Ht Hh. cbn [run_cache]. unfold dns_cache_add, dns_get_ticks. rewrite Ei. cbn [negb cache_does]. destruct (Z.ltb_spec DNS_MAX_NAME_LEN (Z.of_nat (length host))) as [Hl|Hl].
  { intros [= <- <-]. done. }
  cbn [cache ticks]. pose proof W as [W1 W2 W3 W4]. pose proof (clamp_range ttl) as Hc. destruct (update_loop host ip (clamp_ttl ttl) (ticks d) (cache d)) as [c'|] eqn:Eu.
  - apply update_loop_some in Eu as (i & e & Hi & Ho & Hk & ->); [|done|by apply names_ok]. intros [= <- <-]. set (e' := mk_centry _ _ _ _ _).
    assert (holds (entry_key e') e) as He by (by split). pose proof (fun k => view_insert (cache d) i e e' k W3 Hi eq_refl (or_intror He)) as Hv.
    assert (host_str (ce_name e')) as Hne by (pose proof (names_ok d W) as Hn; rewrite Forall_forall in Hn; apply (Hn e); by eapply list_elem_of_lookup_2).
    split; [|split; [done|]]; [apply wf_insert with (e0 := e); try done; apply (Hv [])|].
    split; [done|]. exists None. split; [|done]. intros k. cbn [set_cache cache]. rewrite (proj2 (Hv k)). assert (entry_key e' = host_key host) as -> by (by rewrite <- Hk).
    destruct (decide (k = host_key host)); [done|]. rewrite decide_False by (by intros [_ ?]; congruence). by rewrite decide_False.
  - apply update_loop_none in Eu; [|done|by apply names_ok]. pose proof (cache_slot_ok d W) as Hs. set (i := slot_loop _ _ _ _ _) in *. set (e' := mk_centry _ _ _ _ _).
    destruct Hs as (e & Hi & Hs). assert (entry_key e' = host_key host) as Ek by (unfold entry_key, e'; cbn [ce_name]; rewrite take_ge by lia; done). intros [= <- <-].
    pose proof (fun k => view_insert (cache d) i e e' k W3 Hi eq_refl) as Hv. rewrite Ek in Hv. specialize (fun k => Hv k (or_introl Eu)) as Hv'.
    split; [|split; [done|]]; [apply wf_insert with (e0 := e); try done; [by apply Forall_take|apply (Hv' [])]|].
    split; [done|]. exists (if ce_ok e then Some (entry_key e) else None). split.
    + intros k. cbn [set_cache cache]. rewrite (proj2 (Hv' k)). destruct (decide (k = host_key host)); [done|]. destruct (ce_ok e) eqn:Ho.
      * destruct (decide (holds k e)) as [[_ Hk]|Hn]; [rewrite decide_True by (by rewrite Hk); done|]. rewrite decide_False; [done|]. intros [= Hk]. apply Hn. by split.
      * rewrite !decide_False; [done|done|]. intros [? _]. congruence.
    + intros k. destruct (ce_ok e) eqn:Ho; [|done]. intros [= <-]. split; [done|]. apply (slot_lost d i e); try done. exists e. split; [done|]. intros _. by apply Hs.
Qed.

(** the cache is a map from names, compared without case, to addresses with a time to
    live. A lookup finds the address of a name exactly when the map has one whose time has
    not passed, and drops only entries whose time has passed. Adding a name sets its entry,
    its time to live brought into the allowed range; every other entry stays, except that
    when 32 other names are known the oldest of them is lost. *)
Theorem dns_cache_refines d c d' r :
  cache_wf d -> dns_initialized d = true -> ticks d < 2 ^ 64 - 1 -> host_str (call_host c) -> run_cache c d = (d', r) ->
  cache_wf d' /\ dns_initialized d' = true /\ cache_does (ticks d) (view (cache d)) c r (view (cache d')).
Proof.
  intros W Ei Ht Hh Hrun. destruct c as [host|host ip ttl].
  - destruct (cache_lookup_does d host d' r W Ei Ht Hh Hrun) as (? & _ & ? & ?). done.
  - by apply cache_add_does.
Qed.
(** The cache after dns_init is the empty map. *)
Lemma dns_init_cache d : 0 <= ticks d < 2 ^ 64 - 1 -> let d' := fst (dns_init d) in cache_wf d' /\ dns_initialized d' = true /\ forall k, view (cache d') k = None.
Proof.
  intros Ht. assert (cache (fst (dns_init d)) = repeat zero_centry 32) as Ec by reflexivity.
  assert (forall i e, repeat zero_centry 32 !! i = Some e -> e = zero_centry) as Hz by (intros i e Hi; apply list_elem_of_lookup_2, list_elem_of_In, repeat_spec in Hi; done).
  cbn zeta. split; [|split; [done|]].
  - split; rewrite ?Ec; [done| | |].
    + apply Forall_forall. intros e [i Hi]%list_elem_of_lookup_1. rewrite (Hz i e Hi). split; [constructor|done|done].
    + intros i j e e' Hi _ Ho. rewrite (Hz i e Hi) in Ho. done.
    + cbn. rewrite u64_id by lia. lia.
  - intros k. rewrite Ec. apply view_none. intros i e Hi Ho. rewrite (Hz i e Hi) in Ho. done.
Qed.

(** ** Addresses as text *)

Lemma text_digit k s octets v h : 0 <= k <= 9 -> v * 10 + k <= 255 -> text_loop (48 + k :: s) octets v h = text_loop s octets (v * 10 + k) true.
Proof.
  intros Hk Hv. cbn [text_loop]. rewrite (proj2 (Z.leb_le 48 _)), (proj2 (Z.leb_le _ 57)) by lia. cbn [andb]. replace (48 + k - 48) with k by lia.
  by rewrite (proj2 (Z.ltb_ge _ _)) by lia.
Qed.
Lemma octet_text_loop v s octets : 0 <= v < 256 -> text_loop (octet_text v ++ s) octets 0 false = text_loop s octets v true.
Proof.
  intros Hv. unfold octet_text. repeat case_if; cbn [app]; rewrite !text_digit by dlia; f_equal; dlia.
Qed.
Lemma text_dot s octets v : (length octets < 3)%nat -> text_loop (DOT_CHAR :: s) octets v true = text_loop s (octets ++ [u8 v]) 0 false.
Proof. intros Hl. cbn [text_loop]. rewrite (proj2 (Nat.leb_gt _ _) Hl). done. Qed.
Lemma octet_text_length v : 0 <= v < 256 -> (length (octet_text v) <= 3)%nat.
Proof. intros Hv. unfold octet_text. repeat case_if; simpl; lia. Qed.

(** the text of an address fits in 16 bytes with its NUL and is read back as the same
    address. *)
Theorem dns_text_roundtrip ip : 0 <= ip < 2 ^ 32 ->
  exists t, dns_ip_to_string ip 16 = Some t /\ (length t < 16)%nat /\ dns_string_to_ip (Some t) = Some ip.
Proof.
  intros Hip. eexists. split; [reflexivity|]. assert (forall i, 0 <= ip_byte ip i < 256) as Hb by (intros i; apply u8_range). split.
  - rewrite !length_app, !length_cons, !length_app, !length_cons, !length_app, !length_cons.
    pose proof (octet_text_length _ (Hb 0)). pose proof (octet_text_length _ (Hb 1)). pose proof (octet_text_length _ (Hb 2)). pose proof (octet_text_length _ (Hb 3)). lia.
  - unfold dns_string_to_ip. cbn [mbind option_bind]. rewrite octet_text_loop, text_dot by (first [apply Hb|simpl; lia]). rewrite octet_text_loop, text_dot by (first [apply Hb|simpl; lia]).
    rewrite octet_text_loop, text_dot by (first [apply Hb|simpl; lia]). rewrite <- (app_nil_r (octet_text (ip_byte ip 3))), octet_text_loop by apply Hb. cbn [text_loop app length Nat.eqb negb orb mbind option_bind nth].
    f_equal. unfold ip_byte. rewrite !(u8_id (u8 _)) by apply u8_range. change (8 * 0) with 0. change (8 * 1) with 8. change (8 * 2) with 16. change (8 * 3) with 24. rewrite Z.shiftr_0_r.
    unfold u8, u32. rewrite !Z.shiftr_div_pow2, !Z.shiftl_mul_pow2 by lia. set (a := ip mod 2 ^ 8). set (b := (ip / 2 ^ 8) mod 2 ^ 8). set (c := (ip / 2 ^ 16) mod 2 ^ 8). set (e := (ip / 2 ^ 24) mod 2 ^ 8).
    assert (0 <= a < 2 ^ 8 /\ 0 <= b < 2 ^ 8 /\ 0 <= c < 2 ^ 8 /\ 0 <= e < 2 ^ 8) as (Ha & Hbb & Hc & He) by (split_and!; apply Z.mod_pos_bound; lia).
    rewrite (Z.mod_small (e * 2 ^ 24)) by lia. rewrite (Z.lor_comm a), (lor_fields b a 8) by lia. rewrite (Z.lor_comm _ (c * 2 ^ 16)), (lor_fields c _ 16) by lia.
    rewrite (Z.lor_comm _ (e * 2 ^ 24)), (lor_fields e _ 24) by lia. unfold a, b, c, e. dlia.
Qed.

(** ** Resolving *)

(** A transport gives packets. *)
Definition transport_ok (send : list Z -> Z + list Z) : Prop := forall q l, send q = inr l -> packet_ok l.
Lemma query_valid host buf d d' q n : dns_initialized d = true -> dns_build_query (Some host) buf d = (d', (q, n)) -> 0 <= n ->
  dns_validate_hostname (Some host) = true /\ cache d' = cache d /\ ticks d' = ticks d /\ dns_initialized d' = true.
Proof.
  intros Ei. unfold dns_build_query, dns_generate_id. rewrite Ei. cbn [negb]. destruct (buf =? NULL); [intros [= <- <- <-]; unfold DNS_ERR_INVALID_NAME; lia|].
  destruct (dns_encode_name (Some host) _ _) as [e m] eqn:Ee. unfold dns_encode_name in Ee. destruct (_ || _); [injection Ee as <- <-; intros [= <- <- <-]; unfold DNS_ERR_INVALID_NAME; lia|].
  destruct (dns_validate_hostname (Some host)); cbn [negb] in Ee; [|injection Ee as <- <-; intros [= <- <- <-]; unfold DNS_ERR_INVALID_NAME; lia].
  destruct (m <? 0); intros [= <- _ _] _; cbn; by rewrite Ei.
Qed.
Lemma host_chars s : dns_validate_hostname (Some s) = true -> host_str s /\ Z.of_nat (length s) <= DNS_MAX_NAME_LEN.
Proof.
  unfold dns_validate_hostname. destruct s as [|c s]; [done|]. destruct (Z.ltb_spec DNS_MAX_NAME_LEN (Z.of_nat (length (c :: s)))); [done|]. intros Hv. split; [|lia].
  apply validate_pieces in Hv. destruct (split_dots (c :: s)) as [t r]. destruct Hv as (_ & _ & Hf). eapply Forall_impl; [exact Hf|].
  intros x [Hx|Hx]; [|unfold DOT_CHAR in Hx; lia]. unfold host_char, HYPHEN in Hx. lia.
Qed.

(** an address that was fetched is remembered: when a name that is not an address in text
    and not in the cache is resolved through a transport, resolving it again gives the same
    address without any transport. *)
Theorem dns_resolve_remembers send host buf d d1 ip :
  transport_ok send -> cache_wf d -> dns_initialized d = true -> ticks d < 2 ^ 64 - 3 ->
  dns_string_to_ip (Some host) = None -> view (cache d) (host_key host) = None -> host_str host ->
  resolve_with send (Some host) buf d = (d1, Some (inr ip)) ->
  exists d2, dns_resolve (Some host) buf d1 = (d2, Some (inr ip)).
Proof.
  intros Hsend W Ei Ht Etext Hmiss Hhs. unfold resolve_with at 1. rewrite Ei, Etext. cbn [negb]. destruct (dns_cache_lookup (Some host) d) as [d0 r0] eqn:El.
  destruct (cache_lookup_does d host d0 r0 W Ei ltac:(lia) Hhs El) as (W0 & Et0 & Ei0 & Hr & _). rewrite Hmiss in Hr. rewrite Hr.
  destruct (dns_build_query (Some host) buf d0) as [d3 [q n]] eqn:Eq. destruct (Z.ltb_spec n 0) as [|Hn]; [done|].
  destruct (query_valid host buf d0 d3 q n Ei0 Eq Hn) as (Hv & Ec & Et & Ei3). destruct (host_chars host Hv) as [_ Hlen].
  destruct (send q) as [e|resp] eqn:Es; [done|]. destruct (parse_safe resp (Hsend _ _ Es)) as (a & -> & Ha). destruct a as [e|[ip' ttl]]; [done|].
  destruct (dns_cache_add (Some host) ip' ttl d3) as [d4 r4] eqn:Ea. intros [= <- <-]. cbn [fst].
  assert (cache_wf d3) as W3 by (destruct W0 as [A B C D]; split; rewrite ?Ec, ?Et; done).
  assert (run_cache (CAdd host ip' ttl) d3 = (d4, inl r4)) as Erun by (cbn; by rewrite Ea).
  destruct (cache_add_does d3 host ip' ttl d4 (inl r4) W3 Ei3 ltac:(lia) Hhs Erun) as (W4 & Ei4 & Hd). cbn [cache_does] in Hd. rewrite (proj2 (Z.ltb_ge _ _)) in Hd by lia.
  destruct Hd as (_ & lost & Hm & _). specialize (Hm (host_key host)). rewrite decide_True in Hm by done.
  assert (ticks d4 = ticks d3 + 1) as Et4.
  { unfold dns_cache_add, dns_get_ticks in Ea. rewrite Ei3 in Ea. cbn [negb] in Ea. rewrite (proj2 (Z.ltb_ge _ _)) in Ea by lia. cbn [cache ticks] in Ea.
    destruct W3 as [_ _ _ Ht3]. destruct (update_loop _ _ _ _ _); injection Ea as <- _; cbn; apply u64_id; lia. }
  unfold dns_resolve, resolve_with. rewrite Ei4, Etext. cbn [negb]. destruct (dns_cache_lookup (Some host) d4) as [d5 r5] eqn:El5.
  destruct (cache_lookup_does d4 host d5 r5 W4 Ei4 ltac:(lia) Hhs El5) as (_ & _ & _ & Hr5 & _). rewrite Hm in Hr5. unfold still_good in Hr5. cbn [fst snd] in Hr5.
  pose proof (clamp_range ttl) as Hc. unfold DNS_MIN_TTL in Hc. rewrite (proj2 (Z.leb_le _ _)) in Hr5 by lia. rewrite Hr5. by eexists.
Qed.

(** ** Two faults *)

(** A response with one question and one answer whose name is a pointer to the question. *)
Definition question_1 : list Z := [1; 97; 0; 0; 1; 0; 1].
Definition answer_1 : rr := mk_rr 1 1 300 [10; 0; 0; 7].
Definition response_1 : list Z := dns_header 5 0x8180 1 1 0 0 ++ question_1 ++ [0xC0; 12] ++ rr_bytes answer_1.

(** A name that runs into the end of the packet is accepted, with nothing consumed. *)
Example dns_unterminated_accepted : dns_decode_name [1; 97] 0 256 = Some ([97], 0).
Proof. reflexivity. Qed.
(** The identifier of a response is not compared with that of the query. *)
Example dns_id_ignored : dns_parse_response (Some response_1) = dns_parse_response (Some (dns_header 99 0x8180 1 1 0 0 ++ drop 12 response_1)).
Proof. reflexivity. Qed.

(** ** Concrete input *)

Lemma dns_name_roundtrip_witness :
  exists e, dns_encode_name (Some host_text) 4096 255 = (e, Z.of_nat (length e)) /\ dns_decode_name ([7; 7] ++ e ++ [9]) 2 256 = Some (host_text, Z.of_nat (length e)).
Proof.
  destruct (dns_name_roundtrip host_text 4096 255 [7; 7] [9] 256) as (e & H1 & H2 & _ & H3).
  - reflexivity.
  - discriminate.
  - simpl. lia.
  - simpl. lia.
  - exists e. split; [exact H1|]. rewrite H3 in H2; [exact H2|discriminate|discriminate].
Defined.
(** Two pointers that refer to each other. *)
Definition hostile : list Z := [0; 1; 0x80; 0; 0; 0; 0; 1; 0; 0; 0; 0; 0xC0; 14; 0xC0; 12].
Lemma hostile_ok : packet_ok hostile.
Proof. split; [|reflexivity]. repeat (apply Forall_cons; split; [split; [discriminate|reflexivity]|]). constructor. Qed.
Lemma dns_parse_safe_witness : packet_ok hostile /\ answer_ok (dns_parse_response (Some hostile)).
Proof. split; [exact hostile_ok|]. exact (proj1 (dns_parse_safe hostile hostile_ok)). Defined.
Lemma response_1_ok : packet_ok response_1.
Proof. split; [|reflexivity]. unfold response_1, bytes. vm_compute. repeat (apply Forall_cons; split; [split; [discriminate|reflexivity]|]). constructor. Qed.
Lemma dns_first_address_witness : dns_parse_response (Some response_1) = Some (inr (0x0700000A, 300)).
Proof.
  assert (wire_name response_1 12 0 [[97]] 3) as Hname.
  { apply (wn_label _ 12 [97] 0 [] 1); [split; [discriminate|by vm_compute]|reflexivity|lia|]. apply wn_end. reflexivity. }
  rewrite (dns_first_address response_1 5 0x8180 1 [answer_1] 0 0 (question_1 ++ [0xC0; 12] ++ rr_bytes answer_1) 19 response_1_ok).
  - reflexivity.
  - reflexivity.
  - lia.
  - lia.
  - simpl. lia.
  - reflexivity.
  - reflexivity.
  - apply (qa_more _ _ 0 [[97]] 3 0); [exact Hname|by vm_compute|apply qa_none].
  - apply (ra_more _ 19 1 [[97]] 2 answer_1 []); [|by vm_compute|by vm_compute| | |apply ra_none].
    + apply (wn_pointer _ 19 0xC0 12 0 [[97]] 3); [reflexivity|reflexivity|reflexivity|exact Hname].
    + split; simpl; lia.
    + split; [lia|reflexivity].
Defined.
Definition fresh_dns : dns := fst (dns_init (mk_dns 0 0 [] false 0)).
Lemma dns_cache_refines_witness :
  cache_wf fresh_dns /\ exists d r, run_cache (CAdd host_text 7 300) fresh_dns = (d, r) /\ cache_does 1 (view (cache fresh_dns)) (CAdd host_text 7 300) r (view (cache d)).
Proof.
  destruct (dns_init_cache (mk_dns 0 0 [] false 0)) as (W & Ei & _); [split; [discriminate|reflexivity]|]. split; [exact W|].
  destruct (run_cache (CAdd host_text 7 300) fresh_dns) as [d r] eqn:E. exists d, r. split; [reflexivity|].
  assert (host_str host_text) as Hh by (repeat (apply Forall_cons; split; [lia|]); constructor).
  destruct (dns_cache_refines fresh_dns (CAdd host_text 7 300) d r W Ei eq_refl Hh E) as (_ & _ & Hd). exact Hd.
Defined.
