(* ===== verification/Block.v ===== *)
(** * The interface of a block device

    FAT32 reads and writes its volume through the function pointers of a
    fat32_block_ops_t (fs/fat32/fat32.h). The class names the three operations and, for a
    working disk, what they do to its sectors; [ram_disk] is an instance. *)
From S2P Require Import Prelude Memory.

Definition FAT32_SECTOR_SIZE : Z := 512.

Class BlockDevice (D : Type) := {
  (** [read_sectors(device, lba, count, buffer)]: the result, 0 on success, and the bytes
      that are in the buffer afterwards. *)
  bd_read : Z -> Z -> D -> Z * list Z;
  (** [write_sectors(device, lba, count, buffer)] *)
  bd_write : Z -> Z -> list Z -> D -> D * Z;
  (** [flush(device)] *)
  bd_flush : D -> D;
  (** The number of sectors, a sector's bytes and the device's own invariant. *)
  bd_sectors : D -> Z;
  bd_sector : D -> Z -> list Z;
  bd_wf : D -> Prop;
}.

(** The bytes of the [n] sectors from [lba]. *)
Definition sector_range {D} `{BlockDevice D} (d : D) (lba : Z) (n : nat) : list Z :=
  concat (map (fun j => bd_sector d (lba + Z.of_nat j)) (seq 0 n)).

(** A working disk: requests within its size succeed and do what they say. *)
Class BlockDeviceLaws (D : Type) `{BlockDevice D} := {
  bd_sector_ok d l : bd_wf d -> 0 <= l < bd_sectors d ->
    length (bd_sector d l) = Z.to_nat FAT32_SECTOR_SIZE /\ bytes (bd_sector d l);
  bd_read_ok d lba n : bd_wf d -> 0 <= lba -> 0 <= n -> lba + n <= bd_sectors d ->
    bd_read lba n d = (0, sector_range d lba (Z.to_nat n));
  bd_write_ok d lba n data : bd_wf d -> 0 <= lba -> 0 <= n -> lba + n <= bd_sectors d ->
    Z.of_nat (length data) = n * FAT32_SECTOR_SIZE -> bytes data ->
    exists d', bd_write lba n data d = (d', 0) /\ bd_wf d' /\ bd_sectors d' = bd_sectors d /\
      (forall l, 0 <= l < lba \/ lba + n <= l < bd_sectors d -> bd_sector d' l = bd_sector d l) /\
      sector_range d' lba (Z.to_nat n) = data;
  bd_flush_ok d : bd_wf d ->
    bd_wf (bd_flush d) /\ bd_sectors (bd_flush d) = bd_sectors d /\
    forall l, 0 <= l < bd_sectors d -> bd_sector (bd_flush d) l = bd_sector d l;
}.

Section Ranges.
Context {D : Type} `{BlockDeviceLaws D}.
Implicit Types d : D.

Lemma sector_range_one d lba : sector_range d lba 1 = bd_sector d lba.
Proof. unfold sector_range. simpl. rewrite app_nil_r. f_equal. lia. Qed.

Lemma sector_range_ext d d' lba n :
  (forall l, lba <= l < lba + Z.of_nat n -> bd_sector d' l = bd_sector d l) -> sector_range d' lba n = sector_range d lba n.
Proof.
  intros He. unfold sector_range. f_equal. apply map_ext_in. intros j Hj%in_seq. apply He. lia.
Qed.

Lemma sector_range_length d lba n : bd_wf d -> 0 <= lba -> lba + Z.of_nat n <= bd_sectors d ->
  length (sector_range d lba n) = (n * Z.to_nat FAT32_SECTOR_SIZE)%nat.
Proof.
  intros Hw Hl Hn. unfold sector_range. assert (forall l, (forall j, In j l -> (j < n)%nat) ->
    length (concat (map (fun j => bd_sector d (lba + Z.of_nat j)) l)) = (length l * Z.to_nat FAT32_SECTOR_SIZE)%nat) as Hk.
  { induction l as [|j l IH]; intros Hj; cbn [map concat length]; [done|]. rewrite length_app, IH by (intros; apply Hj; by right).
    specialize (Hj j (or_introl eq_refl)). rewrite (proj1 (bd_sector_ok d (lba + Z.of_nat j) Hw ltac:(lia))). lia. }
  rewrite Hk by (intros j Hj%in_seq; lia). by rewrite length_seq.
Qed.
Lemma sector_range_bytes d lba n : bd_wf d -> 0 <= lba -> lba + Z.of_nat n <= bd_sectors d -> bytes (sector_range d lba n).
Proof.
  intros Hw Hl Hn. unfold sector_range, bytes. apply Forall_concat, Forall_map, Forall_forall. intros j Hj.
  apply list_elem_of_In, in_seq in Hj. apply bd_sector_ok; [done|lia].
Qed.
End Ranges.

(** ** A disk in memory *)

Definition ram_disk : Type := list (list Z).

(** The sectors [data] is cut into. *)
Fixpoint sectors_of (n : nat) (data : list Z) : list (list Z) :=
  match n with
  | O => []
  | S n' => take (Z.to_nat FAT32_SECTOR_SIZE) data :: sectors_of n' (drop (Z.to_nat FAT32_SECTOR_SIZE) data)
  end.
Definition ram_in_range (lba n : Z) (d : ram_disk) : bool :=
  (0 <=? lba) && (0 <=? n) && (lba + n <=? Z.of_nat (length d)).
Definition ram_sector (d : ram_disk) (l : Z) : list Z := nth (Z.to_nat l) d [].

#[export] Instance ram_device : BlockDevice ram_disk := {
  bd_read lba n d := if ram_in_range lba n d
    then (0, concat (map (fun j => ram_sector d (lba + Z.of_nat j)) (seq 0 (Z.to_nat n)))) else (-5, []);
  bd_write lba n data d := if ram_in_range lba n d
    then (take (Z.to_nat lba) d ++ sectors_of (Z.to_nat n) data ++ drop (Z.to_nat lba + Z.to_nat n) d, 0) else (d, -5);
  bd_flush d := d;
  bd_sectors d := Z.of_nat (length d);
  bd_sector := ram_sector;
  bd_wf d := Forall (fun s => length s = Z.to_nat FAT32_SECTOR_SIZE /\ bytes s) d;
}.

Lemma sectors_of_length n data : length (sectors_of n data) = n.
Proof. revert data. induction n as [|n IH]; intros data; simpl; auto. Qed.
Lemma sectors_of_concat n data : length data = (n * Z.to_nat FAT32_SECTOR_SIZE)%nat -> concat (sectors_of n data) = data.
Proof.
  revert data. induction n as [|n IH]; intros data Hl; simpl; [by destruct data|].
  rewrite IH by (rewrite length_drop; lia). apply take_drop.
Qed.
Lemma sectors_of_ok n data : length data = (n * Z.to_nat FAT32_SECTOR_SIZE)%nat -> bytes data ->
  Forall (fun s => length s = Z.to_nat FAT32_SECTOR_SIZE /\ bytes s) (sectors_of n data).
Proof.
  revert data. induction n as [|n IH]; intros data Hl Hb; simpl; constructor.
  - split; [rewrite length_take; lia|by apply Forall_take].
  - apply IH; [rewrite length_drop; lia|by apply Forall_drop].
Qed.
Lemma map_nth_seq (l : list (list Z)) k : map (fun j => nth (k + j) l []) (seq 0 (length l - k)) = drop k l.
Proof.
  revert k. induction l as [|x l IH]; intros k; simpl.
  - by rewrite drop_nil.
  - destruct k as [|k]; simpl.
    + f_equal. rewrite <- seq_shift, map_map. specialize (IH 0%nat). rewrite Nat.sub_0_r, drop_0 in IH. exact IH.
    + apply IH.
Qed.

#[export] Instance ram_device_laws : BlockDeviceLaws ram_disk.
Proof.
  split.
  - intros d l Hw Hl. simpl in *. unfold ram_sector.
    exact (proj1 (Forall_nth _ [] d) Hw (Z.to_nat l) ltac:(lia)).
  - intros d lba n Hw Hl Hn Hb. simpl in *. unfold ram_in_range.
    rewrite (proj2 (Z.leb_le 0 lba)), (proj2 (Z.leb_le 0 n)), (proj2 (Z.leb_le (lba + n) _)) by lia. done.
  - intros d lba n data Hw Hl Hn Hb Hd Hbs. simpl in *. unfold ram_in_range.
    rewrite (proj2 (Z.leb_le 0 lba)), (proj2 (Z.leb_le 0 n)), (proj2 (Z.leb_le (lba + n) _)) by lia. simpl.
    assert (length data = (Z.to_nat n * Z.to_nat FAT32_SECTOR_SIZE)%nat) as Hd' by (unfold FAT32_SECTOR_SIZE in *; lia).
    eexists. split; [done|]. set (d' := _ ++ _). assert (length d' = length d) as Hld.
    { unfold d'. rewrite !length_app, sectors_of_length, length_take, length_drop. lia. }
    split; [|split; [lia|split]].
    + unfold d'. rewrite !Forall_app. split; [by apply Forall_take|]. split; [by apply sectors_of_ok|by apply Forall_drop].
    + intros l [Hr|Hr]; unfold ram_sector, d'.
      * rewrite !nth_lookup, lookup_app_l by (rewrite length_take; lia). by rewrite lookup_take_lt by lia.
      * rewrite !nth_lookup, lookup_app_r by (rewrite length_take; lia). rewrite length_take.
        rewrite lookup_app_r by (rewrite sectors_of_length; lia). rewrite sectors_of_length, lookup_drop.
        do 2 f_equal. lia.
    + unfold sector_range. simpl. unfold ram_sector, d'. 
      transitivity (concat (sectors_of (Z.to_nat n) data)); [|by apply sectors_of_concat]. f_equal.
      transitivity (map (fun j => nth (0 + j) (sectors_of (Z.to_nat n) data) []) (seq 0 (length (sectors_of (Z.to_nat n) data) - 0))).
      2: { by rewrite map_nth_seq, drop_0. }
      rewrite Nat.sub_0_r, sectors_of_length. apply map_ext_in. intros j Hj%in_seq.
      rewrite app_nth2 by (rewrite length_take; lia). rewrite length_take.
      rewrite app_nth1 by (rewrite sectors_of_length; lia). f_equal. lia.
  - intros d Hw. done.
Qed.
