(* ===== verification/VfsBase.v ===== *)
(** * Constants of the file systems (fs/vfs/vfs.h)

    The node types, the flags and the error codes that the virtual file system and FAT32
    share. *)
From S2P Require Import Prelude.

Definition VFS_PATH_MAX : Z := 4096.
Definition VFS_NAME_MAX : Z := 255.
Definition VFS_MAX_OPEN_FILES : Z := 1024.
Definition VFS_MAX_MOUNTS : Z := 64.

Inductive vfs_node_type :=
| VFS_NODE_NONE (* the zero of a cleared node *)
| VFS_NODE_FILE | VFS_NODE_DIRECTORY | VFS_NODE_CHARDEV | VFS_NODE_BLOCKDEV | VFS_NODE_PIPE | VFS_NODE_SYMLINK
| VFS_NODE_SOCKET | VFS_NODE_MOUNTPOINT.
#[export] Instance vfs_node_type_eq_dec : EqDecision vfs_node_type.
Proof. solve_decision. Defined.

Definition VFS_O_RDONLY : Z := 0x0001.
Definition VFS_O_WRONLY : Z := 0x0002.
Definition VFS_O_RDWR : Z := 0x0003.
Definition VFS_O_APPEND : Z := 0x0008.
Definition VFS_O_CREAT : Z := 0x0200.
Definition VFS_O_TRUNC : Z := 0x0400.
Definition VFS_O_EXCL : Z := 0x0800.
Definition VFS_O_DIRECTORY : Z := 0x10000.
Definition VFS_SEEK_SET : Z := 0.
Definition VFS_SEEK_CUR : Z := 1.
Definition VFS_SEEK_END : Z := 2.
Definition VFS_S_IRUSR : Z := 256.
Definition VFS_S_IWUSR : Z := 128.
Definition VFS_S_IXUSR : Z := 64.
Definition VFS_S_IRGRP : Z := 32.
Definition VFS_S_IWGRP : Z := 16.
Definition VFS_S_IXGRP : Z := 8.
Definition VFS_S_IROTH : Z := 4.
Definition VFS_S_IWOTH : Z := 2.
Definition VFS_S_IXOTH : Z := 1.

Definition VFS_OK : Z := 0.
Definition VFS_ERR_NOENT : Z := -2.
Definition VFS_ERR_IO : Z := -5.
Definition VFS_ERR_BADF : Z := -9.
Definition VFS_ERR_NOMEM : Z := -12.
Definition VFS_ERR_ACCES : Z := -13.
Definition VFS_ERR_BUSY : Z := -16.
Definition VFS_ERR_EXIST : Z := -17.
Definition VFS_ERR_NOTDIR : Z := -20.
Definition VFS_ERR_ISDIR : Z := -21.
Definition VFS_ERR_INVAL : Z := -22.
Definition VFS_ERR_NFILE : Z := -23.
Definition VFS_ERR_NOSPC : Z := -28.
Definition VFS_ERR_ROFS : Z := -30.
Definition VFS_ERR_NAMETOOLONG : Z := -36.
Definition VFS_ERR_NOSYS : Z := -78.
