(* ===== verification/Fat.v ===== *)
(** * FAT32 (fs/fat32/fat32.c): the volume

    The boot sector, a directory entry and the FSInfo sector are the bytes the driver
    overlays its structures on, with one function per field. The cache of FAT sectors, the
    cluster buffer and the volume's numbers are the fields of [fat32_fs]. Functions take
    and return the volume; a loop that the code does not bound by itself gives [None] when
    it does not end. *)
From S2P Require Import Prelude Memory PageAlloc Chain Block VfsBase.

(** ** Constants (fat32.h) *)

Definition FAT32_BOOT_SIGNATURE : Z := 0xAA55.
Definition FAT32_FSINFO_LEAD_SIG : Z := 0x41615252.
Definition FAT32_FSINFO_STRUC_SIG : Z := 0x61417272.
Definition FAT32_FSINFO_TRAIL_SIG : Z := 0xAA550000.
Definition FAT32_CLUSTER_FREE : Z := 0.
Definition FAT32_CLUSTER_BAD : Z := 0x0FFFFFF7.
Definition FAT32_CLUSTER_EOF_MIN : Z := 0x0FFFFFF8.
Definition FAT32_CLUSTER_EOF : Z := 0x0FFFFFFF.
Definition FAT32_CLUSTER_MASK : Z := 0x0FFFFFFF.
Definition FAT32_FIRST_DATA_CLUSTER : Z := 2.
Definition FAT32_ATTR_READ_ONLY : Z := 0x01.
Definition FAT32_ATTR_HIDDEN : Z := 0x02.
Definition FAT32_ATTR_SYSTEM : Z := 0x04.
Definition FAT32_ATTR_VOLUME_ID : Z := 0x08.
Definition FAT32_ATTR_DIRECTORY : Z := 0x10.
Definition FAT32_ATTR_ARCHIVE : Z := 0x20.
Definition FAT32_ATTR_LONG_NAME : Z := 0x0F.
Definition FAT32_ATTR_LONG_NAME_MASK : Z := 0x3F.
Definition FAT32_DIRENT_FREE : Z := 0xE5.
Definition FAT32_DIRENT_END : Z := 0x00.
Definition FAT32_MAX_NAME : Z := 255.
Definition FAT32_FAT_CACHE_SIZE : Z := 16.

(** ** On-disk structures: the fields of their bytes *)

(** [fat32_bpb_t], the boot sector *)
Definition bpb_bytes_per_sector (b : list Z) : Z := get16 b 11.
Definition bpb_sectors_per_cluster (b : list Z) : Z := byte_at b 13.
Definition bpb_reserved_sectors (b : list Z) : Z := get16 b 14.
Definition bpb_num_fats (b : list Z) : Z := byte_at b 16.
Definition bpb_total_sectors_16 (b : list Z) : Z := get16 b 19.
Definition bpb_fat_size_16 (b : list Z) : Z := get16 b 22.
Definition bpb_total_sectors_32 (b : list Z) : Z := get32 b 32.
Definition bpb_fat_size_32 (b : list Z) : Z := get32 b 36.
Definition bpb_root_cluster (b : list Z) : Z := get32 b 44.
Definition bpb_fs_info_sector (b : list Z) : Z := get16 b 48.
Definition bpb_boot_sector_sig (b : list Z) : Z := get16 b 510.

(** [fat32_fsinfo_t] *)
Definition fsinfo_lead_sig (b : list Z) : Z := get32 b 0.
Definition fsinfo_struc_sig (b : list Z) : Z := get32 b 484.
Definition fsinfo_free_count (b : list Z) : Z := get32 b 488.
Definition fsinfo_next_free (b : list Z) : Z := get32 b 492.
Definition fsinfo_trail_sig (b : list Z) : Z := get32 b 508.

(** [fat32_dir_entry_t], 32 bytes *)
Definition sizeof_dir_entry : nat := 32.
Definition de_name (e : list Z) : list Z := take 8 e.
Definition de_ext (e : list Z) : list Z := take 3 (drop 8 e).
Definition de_first (e : list Z) : Z := byte_at e 0.
Definition de_attr (e : list Z) : Z := byte_at e 11.
Definition de_cluster_high (e : list Z) : Z := get16 e 20.
Definition de_cluster_low (e : list Z) : Z := get16 e 26.
Definition de_file_size (e : list Z) : Z := get32 e 28.
Definition has_attr (e : list Z) (a : Z) : bool := negb (Z.land (de_attr e) a =? 0).

Definition fat32_entry_cluster (e : list Z) : Z := Z.lor (u32 (Z.shiftl (de_cluster_high e) 16)) (de_cluster_low e).
Definition fat32_entry_set_cluster (cluster : Z) (e : list Z) : list Z :=
  splice 26 (le16 (u16 (Z.land cluster 0xFFFF))) (splice 20 (le16 (u16 (Z.shiftr cluster 16))) e).
Definition set_file_size (size : Z) (e : list Z) : list Z := splice 28 (le32 size) e.
(** A cleared entry with a short name of eleven bytes and attributes. *)
Definition new_entry (short_name : list Z) (attr : Z) : list Z := splice 11 [attr] (splice 0 short_name (repeat 0 32)).

(** ** The volume *)

Record fat_cache_entry := mk_cache {
  ce_sector : Z;
  ce_dirty : bool;
  ce_valid : bool;
  ce_data : list Z;
}.
Definition empty_cache : fat_cache_entry := mk_cache 0 false false (repeat 0 512).

Record fat32_fs (D : Type) := mk_fs {
  fs_dev : D;
  fs_bpb : list Z;
  bytes_per_cluster : Z;
  fat_start_sector : Z;
  fat_sectors : Z;
  data_start_sector : Z;
  total_clusters : Z;
  root_cluster : Z;
  free_clusters : Z;
  next_free_cluster : Z;
  fsinfo_dirty : bool;
  fat_cache : list fat_cache_entry;
  cluster_buffer : list Z;
  fs_mounted : bool;
  fs_readonly : bool;
  (** The pages the structure and the cluster buffer are in. *)
  fs_phys : Z;
  cluster_buf_phys : Z;
}.
Arguments mk_fs {D}.
Arguments fs_dev {D}.
Arguments fs_bpb {D}.
Arguments bytes_per_cluster {D}.
Arguments fat_start_sector {D}.
Arguments fat_sectors {D}.
Arguments data_start_sector {D}.
Arguments total_clusters {D}.
Arguments root_cluster {D}.
Arguments free_clusters {D}.
Arguments next_free_cluster {D}.
Arguments fsinfo_dirty {D}.
Arguments fat_cache {D}.
Arguments cluster_buffer {D}.
Arguments fs_mounted {D}.
Arguments fs_readonly {D}.
Arguments fs_phys {D}.
Arguments cluster_buf_phys {D}.

Section Fat.
Context {D : Type} `{BlockDevice D}.
Implicit Types fs : fat32_fs D.

Definition set_dev (d : D) (fs : fat32_fs D) : fat32_fs D :=
  mk_fs d (fs_bpb fs) (bytes_per_cluster fs) (fat_start_sector fs) (fat_sectors fs) (data_start_sector fs)
    (total_clusters fs) (root_cluster fs) (free_clusters fs) (next_free_cluster fs) (fsinfo_dirty fs) (fat_cache
    fs) (cluster_buffer fs) (fs_mounted fs) (fs_readonly fs) (fs_phys fs) (cluster_buf_phys fs).
Definition set_bpb (b : list Z) (fs : fat32_fs D) : fat32_fs D :=
  mk_fs (fs_dev fs) b (bytes_per_cluster fs) (fat_start_sector fs) (fat_sectors fs) (data_start_sector fs)
    (total_clusters fs) (root_cluster fs) (free_clusters fs) (next_free_cluster fs) (fsinfo_dirty fs) (fat_cache
    fs) (cluster_buffer fs) (fs_mounted fs) (fs_readonly fs) (fs_phys fs) (cluster_buf_phys fs).
Definition set_cache (c : list fat_cache_entry) (fs : fat32_fs D) : fat32_fs D :=
  mk_fs (fs_dev fs) (fs_bpb fs) (bytes_per_cluster fs) (fat_start_sector fs) (fat_sectors fs) (data_start_sector
    fs) (total_clusters fs) (root_cluster fs) (free_clusters fs) (next_free_cluster fs) (fsinfo_dirty fs) c
    (cluster_buffer fs) (fs_mounted fs) (fs_readonly fs) (fs_phys fs) (cluster_buf_phys fs).
Definition set_buffer (b : list Z) (fs : fat32_fs D) : fat32_fs D :=
  mk_fs (fs_dev fs) (fs_bpb fs) (bytes_per_cluster fs) (fat_start_sector fs) (fat_sectors fs) (data_start_sector
    fs) (total_clusters fs) (root_cluster fs) (free_clusters fs) (next_free_cluster fs) (fsinfo_dirty fs)
    (fat_cache fs) b (fs_mounted fs) (fs_readonly fs) (fs_phys fs) (cluster_buf_phys fs).
Definition set_hints (free next : Z) (fs : fat32_fs D) : fat32_fs D :=
  mk_fs (fs_dev fs) (fs_bpb fs) (bytes_per_cluster fs) (fat_start_sector fs) (fat_sectors fs) (data_start_sector
    fs) (total_clusters fs) (root_cluster fs) free next (fsinfo_dirty fs) (fat_cache fs) (cluster_buffer fs)
    (fs_mounted fs) (fs_readonly fs) (fs_phys fs) (cluster_buf_phys fs).
Definition set_fsinfo_dirty (b : bool) (fs : fat32_fs D) : fat32_fs D :=
  mk_fs (fs_dev fs) (fs_bpb fs) (bytes_per_cluster fs) (fat_start_sector fs) (fat_sectors fs) (data_start_sector
    fs) (total_clusters fs) (root_cluster fs) (free_clusters fs) (next_free_cluster fs) b (fat_cache fs)
    (cluster_buffer fs) (fs_mounted fs) (fs_readonly fs) (fs_phys fs) (cluster_buf_phys fs).
Definition set_mounted (m r : bool) (fs : fat32_fs D) : fat32_fs D :=
  mk_fs (fs_dev fs) (fs_bpb fs) (bytes_per_cluster fs) (fat_start_sector fs) (fat_sectors fs) (data_start_sector
    fs) (total_clusters fs) (root_cluster fs) (free_clusters fs) (next_free_cluster fs) (fsinfo_dirty fs)
    (fat_cache fs) (cluster_buffer fs) m r (fs_phys fs) (cluster_buf_phys fs).
Definition set_pages (p b : Z) (fs : fat32_fs D) : fat32_fs D :=
  mk_fs (fs_dev fs) (fs_bpb fs) (bytes_per_cluster fs) (fat_start_sector fs) (fat_sectors fs) (data_start_sector
    fs) (total_clusters fs) (root_cluster fs) (free_clusters fs) (next_free_cluster fs) (fsinfo_dirty fs)
    (fat_cache fs) (cluster_buffer fs) (fs_mounted fs) (fs_readonly fs) p b.
Definition set_geometry (bpc fstart fsecs dstart total root : Z) (fs : fat32_fs D) : fat32_fs D :=
  mk_fs (fs_dev fs) (fs_bpb fs) bpc fstart fsecs dstart total root (free_clusters fs) (next_free_cluster fs)
    (fsinfo_dirty fs) (fat_cache fs) (cluster_buffer fs) (fs_mounted fs) (fs_readonly fs) (fs_phys fs)
    (cluster_buf_phys fs).

(** ** Clusters *)

Definition fat32_cluster_to_sector fs (cluster : Z) : Z :=
  u32 (data_start_sector fs + u32 (u32 (cluster - FAT32_FIRST_DATA_CLUSTER) * bpb_sectors_per_cluster (fs_bpb fs))).
Definition fat32_cluster_is_valid fs (cluster : Z) : bool :=
  let c := Z.land cluster FAT32_CLUSTER_MASK in
  (FAT32_FIRST_DATA_CLUSTER <=? c) && (c <? u32 (FAT32_FIRST_DATA_CLUSTER + total_clusters fs)).
Definition fat32_is_eof (entry : Z) : bool := FAT32_CLUSTER_EOF_MIN <=? Z.land entry FAT32_CLUSTER_MASK.

(** ** The FAT *)

Definition fat_sector_of fs (cluster : Z) : Z :=
  u32 (fat_start_sector fs + u32 (cluster * 4) / bpb_bytes_per_sector (fs_bpb fs)).
Definition fat_offset_of fs (cluster : Z) : nat := Z.to_nat (u32 (cluster * 4) mod bpb_bytes_per_sector (fs_bpb fs)).

(** The index of the sector in the cache, and the last entry seen that holds nothing. *)
Fixpoint cache_scan (l : list fat_cache_entry) (i oldest : nat) (sector : Z) : option nat * nat :=
  match l with
  | [] => (None, oldest)
  | e :: l' =>
      if ce_valid e && (ce_sector e =? sector) then (Some i, oldest)
      else cache_scan l' (S i) (if ce_valid e then oldest else i) sector
  end.
Definition cache_at fs (i : nat) : fat_cache_entry := nth i (fat_cache fs) empty_cache.
Definition cache_put (i : nat) (e : fat_cache_entry) fs : fat32_fs D := set_cache (<[i := e]> (fat_cache fs)) fs.

(** Writes a dirty entry to its sector; the result of the device. *)
Definition cache_evict (i : nat) fs : fat32_fs D * Z :=
  let e := cache_at fs i in
  if ce_dirty e then
    let '(d, r) := bd_write (ce_sector e) 1 (ce_data e) (fs_dev fs) in
    (set_dev d fs, r)
  else (fs, 0).
Definition cache_clean (i : nat) fs : fat32_fs D :=
  let e := cache_at fs i in cache_put i (mk_cache (ce_sector e) false (ce_valid e) (ce_data e)) fs.
(** Reads a sector into an entry; the entry's data changes even when the read fails. *)
Definition cache_load (i : nat) (sector : Z) fs : fat32_fs D * Z :=
  let e := cache_at fs i in
  let '(r, data) := bd_read sector 1 (fs_dev fs) in
  if r =? 0 then (cache_put i (mk_cache sector (ce_dirty e) true data) fs, r)
  else (cache_put i (mk_cache (ce_sector e) (ce_dirty e) (ce_valid e) data) fs, r).

Definition fat32_read_fat_entry (cluster : Z) fs : fat32_fs D * Z :=
  let sector := fat_sector_of fs cluster in
  let off := fat_offset_of fs cluster in
  let entry i fs := Z.land (get32 (ce_data (cache_at fs i)) off) FAT32_CLUSTER_MASK in
  match cache_scan (fat_cache fs) 0 0 sector with
  | (Some i, _) => (fs, entry i fs)
  | (None, i) =>
      let fs := if ce_dirty (cache_at fs i) then cache_clean i (fst (cache_evict i fs)) else fs in
      let '(fs, r) := cache_load i sector fs in
      if r =? 0 then (fs, entry i fs) else (fs, FAT32_CLUSTER_BAD)
  end.

Definition modify_entry (i : nat) (off : nat) (value : Z) fs : fat32_fs D :=
  let e := cache_at fs i in
  let v := Z.lor (Z.land (get32 (ce_data e) off) 0xF0000000) (Z.land value FAT32_CLUSTER_MASK) in
  cache_put i (mk_cache (ce_sector e) true (ce_valid e) (splice off (le32 v) (ce_data e))) fs.

Definition fat32_write_fat_entry (cluster value : Z) fs : fat32_fs D * Z :=
  if fs_readonly fs then (fs, VFS_ERR_ROFS)
  else
    let sector := fat_sector_of fs cluster in
    let off := fat_offset_of fs cluster in
    match cache_scan (fat_cache fs) 0 0 sector with
    | (Some i, _) => (modify_entry i off value fs, 0)
    | (None, i) =>
        let '(fs, r) := cache_evict i fs in
        if negb (r =? 0) then (fs, VFS_ERR_IO)
        else
          let fs := if ce_dirty (cache_at fs i) then cache_clean i fs else fs in
          let '(fs, r) := cache_load i sector fs in
          if negb (r =? 0) then (fs, VFS_ERR_IO) else (modify_entry i off value fs, 0)
    end.

(** One entry of the cache is written to both FATs. *)
Definition flush_entry (i : nat) fs : fat32_fs D + (fat32_fs D * Z) :=
  let e := cache_at fs i in
  if ce_valid e && ce_dirty e then
    let '(d, r) := bd_write (ce_sector e) 1 (ce_data e) (fs_dev fs) in
    let fs := set_dev d fs in
    if negb (r =? 0) then inr (fs, VFS_ERR_IO)
    else
      let fs := if 1 <? bpb_num_fats (fs_bpb fs)
                then set_dev (fst (bd_write (u32 (ce_sector e + fat_sectors fs)) 1 (ce_data e) (fs_dev fs))) fs else fs in
      inl (cache_clean i fs)
  else inl fs.
Definition fat32_flush_fat_cache fs : fat32_fs D * Z :=
  if fs_readonly fs then (fs, 0)
  else
    match iter_brk (Z.to_nat FAT32_FAT_CACHE_SIZE) 0 (fun i => flush_entry (Z.to_nat i)) fs with
    | inl fs => (fs, 0)
    | inr r => r
    end.

(** ** Chains of clusters *)

Definition fat32_next_cluster (cluster : Z) fs : fat32_fs D * Z :=
  if negb (fat32_cluster_is_valid fs cluster) then (fs, FAT32_CLUSTER_EOF) else fat32_read_fat_entry cluster fs.
Definition fat32_set_cluster (cluster value : Z) fs : fat32_fs D * Z := fat32_write_fat_entry cluster value fs.

(** One round of the search for a free cluster. *)
Definition alloc_round (start max_cluster : Z) (s : fat32_fs D * Z) : (fat32_fs D * Z) + (fat32_fs D * Z) :=
  let '(fs, cluster) := s in
  let '(fs, entry) := fat32_read_fat_entry cluster fs in
  if entry =? FAT32_CLUSTER_FREE then
    let '(fs, r) := fat32_write_fat_entry cluster FAT32_CLUSTER_EOF fs in
    if negb (r =? 0) then inr (fs, 0)
    else
      let free := free_clusters fs in
      let free := if negb (free =? 0xFFFFFFFF) && (0 <? free) then free - 1 else free in
      inr (set_fsinfo_dirty true (set_hints free (u32 (cluster + 1)) fs), cluster)
  else
    let cluster := u32 (cluster + 1) in
    let cluster := if max_cluster <=? cluster then FAT32_FIRST_DATA_CLUSTER else cluster in
    if cluster =? start then inr (fs, 0) else inl (fs, cluster).
(** The new cluster, 0 when there is none; [None] when the search does not end. *)
Definition fat32_alloc_cluster fs : option (fat32_fs D * Z) :=
  if fs_readonly fs then Some (fs, 0)
  else
    let start := if next_free_cluster fs <? FAT32_FIRST_DATA_CLUSTER then FAT32_FIRST_DATA_CLUSTER else next_free_cluster fs in
    loop (alloc_round start (u32 (FAT32_FIRST_DATA_CLUSTER + total_clusters fs))) (fs, start).

(** The state of the loop: the volume, the cluster and the number freed. *)
Definition free_round (s : fat32_fs D * Z * Z) : (fat32_fs D * Z * Z) + (fat32_fs D * Z * Z) :=
  let '(fs, cluster, count) := s in
  if fat32_cluster_is_valid fs cluster then
    let '(fs, next) := fat32_read_fat_entry cluster fs in
    let '(fs, r) := fat32_write_fat_entry cluster FAT32_CLUSTER_FREE fs in
    if negb (r =? 0) then inr (fs, count, r)
    else if fat32_is_eof next then inr (fs, u32 (count + 1), 0)
    else inl (fs, next, u32 (count + 1))
  else inr (fs, count, 0).
Definition fat32_free_chain (start_cluster : Z) fs : option (fat32_fs D * Z) :=
  if fs_readonly fs then Some (fs, VFS_ERR_ROFS)
  else
    '(fs, count, r) ← loop free_round (fs, start_cluster, 0);
    if negb (r =? 0) then Some (fs, r)
    else
      let fs := if negb (free_clusters fs =? 0xFFFFFFFF)
                then set_hints (u32 (free_clusters fs + count)) (next_free_cluster fs) fs else fs in
      Some (set_fsinfo_dirty true fs, 0).

(** ** The data of a cluster *)

(** Into and from the cluster buffer; the other buffers the code passes are its prefix. *)
Definition fat32_read_cluster (cluster : Z) fs : fat32_fs D * Z :=
  if negb (fat32_cluster_is_valid fs cluster) then (fs, VFS_ERR_INVAL)
  else
    let '(r, data) := bd_read (fat32_cluster_to_sector fs cluster) (bpb_sectors_per_cluster (fs_bpb fs)) (fs_dev fs) in
    (set_buffer data fs, if r =? 0 then 0 else VFS_ERR_IO).
Definition fat32_write_cluster (cluster : Z) fs : fat32_fs D * Z :=
  if fs_readonly fs then (fs, VFS_ERR_ROFS)
  else if negb (fat32_cluster_is_valid fs cluster) then (fs, VFS_ERR_INVAL)
  else
    let '(d, r) := bd_write (fat32_cluster_to_sector fs cluster) (bpb_sectors_per_cluster (fs_bpb fs)) (cluster_buffer fs) (fs_dev fs) in
    (set_dev d fs, if r =? 0 then 0 else VFS_ERR_IO).

(** ** Reading a file *)

(** [while (clusters_to_skip > 0 && valid(cluster)) ...] *)
Fixpoint skip_clusters (n : nat) (cluster : Z) fs : fat32_fs D * Z :=
  match n with
  | O => (fs, cluster)
  | S n' =>
      if fat32_cluster_is_valid fs cluster then
        let '(fs, next) := fat32_next_cluster cluster fs in skip_clusters n' next fs
      else (fs, cluster)
  end.
(** The volume, the cluster, the offset in it, the bytes left and those copied. *)
Definition read_round (s : fat32_fs D * Z * Z * Z * list Z) : (fat32_fs D * Z * Z * Z * list Z) + (fat32_fs D * Z * list Z) :=
  let '(fs, cluster, off, len, out) := s in
  if (0 <? len) && fat32_cluster_is_valid fs cluster then
    let '(fs, r) := fat32_read_cluster cluster fs in
    if negb (r =? 0) then inr (fs, r, out)
    else
      let to_copy := Z.min (bytes_per_cluster fs - off) len in
      let out := out ++ take (Z.to_nat to_copy) (drop (Z.to_nat off) (cluster_buffer fs)) in
      let '(fs, next) := fat32_next_cluster cluster fs in
      inl (fs, next, 0, len - to_copy, out)
  else inr (fs, Z.of_nat (length out), out).
(** The result and the bytes stored at [buf]. *)
Definition fat32_read_file (entry : list Z) (offset len : Z) fs : option (fat32_fs D * Z * list Z) :=
  if has_attr entry FAT32_ATTR_DIRECTORY then Some (fs, VFS_ERR_ISDIR, [])
  else if de_file_size entry <=? offset then Some (fs, 0, [])
  else
    let len := if de_file_size entry <? u64 (offset + len) then de_file_size entry - offset else len in
    if len =? 0 then Some (fs, 0, [])
    else
      let '(fs, cluster) := skip_clusters (Z.to_nat (offset / bytes_per_cluster fs)) (fat32_entry_cluster entry) fs in
      loop read_round (fs, cluster, offset mod bytes_per_cluster fs, len, []).

(** ** Writing a file *)

(** The next cluster of the chain, a new one when the chain ends: 0 when the disk is full. *)
Definition next_or_extend (zero : bool) (cluster : Z) fs : option (fat32_fs D * Z) :=
  let '(fs, next) := fat32_next_cluster cluster fs in
  if fat32_is_eof next || negb (fat32_cluster_is_valid fs next) then
    '(fs, new_cluster) ← fat32_alloc_cluster fs;
    if new_cluster =? 0 then Some (fs, 0)
    else
      let '(fs, _) := fat32_set_cluster cluster new_cluster fs in
      if zero then
        let fs := set_buffer (repeat 0 (Z.to_nat (bytes_per_cluster fs))) fs in
        Some (fst (fat32_write_cluster new_cluster fs), new_cluster)
      else Some (fs, new_cluster)
  else Some (fs, next).
(** The loop to the first cluster of the write, which adds zeroed clusters: 0 when full. *)
Fixpoint skip_extend (n : nat) (cluster : Z) fs : option (fat32_fs D * Z) :=
  match n with
  | O => Some (fs, cluster)
  | S n' =>
      '(fs, next) ← next_or_extend true cluster fs;
      if next =? 0 then Some (fs, 0) else skip_extend n' next fs
  end.
(** The volume, the cluster, the offset in it, the bytes left and the number written. *)
Definition write_round (s : fat32_fs D * Z * Z * list Z * Z)
  : (fat32_fs D * Z * Z * list Z * Z) + option (fat32_fs D * Z) :=
  let '(fs, cluster, off, src, written) := s in
  if negb (0 <? Z.of_nat (length src)) then inr (Some (fs, written))
  else
    let '(fs, r) := fat32_read_cluster cluster fs in
    let fs := if negb (r =? 0) then set_buffer (repeat 0 (Z.to_nat (bytes_per_cluster fs))) fs else fs in
    let to_copy := Z.min (bytes_per_cluster fs - off) (Z.of_nat (length src)) in
    let fs := set_buffer (splice (Z.to_nat off) (take (Z.to_nat to_copy) src) (cluster_buffer fs)) fs in
    let '(fs, r) := fat32_write_cluster cluster fs in
    if negb (r =? 0) then inr (Some (fs, r))
    else
      let src := drop (Z.to_nat to_copy) src in
      let written := written + to_copy in
      if 0 <? Z.of_nat (length src) then
        match next_or_extend false cluster fs with
        | None => inr None
        | Some (fs, next) => if next =? 0 then inr (Some (fs, written)) else inl (fs, next, 0, src, written)
        end
      else inl (fs, cluster, 0, src, written).
(** The volume, the entry and the result: the bytes written or an error. *)
Definition fat32_write_file (entry : list Z) (data : list Z) (offset : Z) fs : option (fat32_fs D * list Z * Z) :=
  if fs_readonly fs then Some (fs, entry, VFS_ERR_ROFS)
  else if has_attr entry FAT32_ATTR_DIRECTORY then Some (fs, entry, VFS_ERR_ISDIR)
  else if Z.of_nat (length data) =? 0 then Some (fs, entry, 0)
  else
    '(fs, cluster) ← (if fat32_entry_cluster entry <? FAT32_FIRST_DATA_CLUSTER then fat32_alloc_cluster fs
                      else Some (fs, fat32_entry_cluster entry));
    if cluster =? 0 then Some (fs, entry, VFS_ERR_NOSPC)
    else
      let entry := if fat32_entry_cluster entry <? FAT32_FIRST_DATA_CLUSTER then fat32_entry_set_cluster cluster entry else entry in
      '(fs, cluster) ← skip_extend (Z.to_nat (u32 (offset / bytes_per_cluster fs))) cluster fs;
      if cluster =? 0 then Some (fs, entry, VFS_ERR_NOSPC)
      else
        r ← loop write_round (fs, cluster, offset mod bytes_per_cluster fs, data, 0);
        '(fs, written) ← r;
        if written <? 0 then Some (fs, entry, written)
        else
          let new_end := u64 (offset + written) in
          Some (fs, if de_file_size entry <? new_end then set_file_size (u32 new_end) entry else entry, written).

(** ** Truncating a file *)

(** [while (count < clusters_needed && valid(cluster)) ...] with [n] clusters to go. *)
Fixpoint keep_clusters (n : nat) (prev cluster : Z) fs : fat32_fs D * Z * Z :=
  match n with
  | O => (fs, prev, cluster)
  | S n' =>
      if fat32_cluster_is_valid fs cluster then
        let '(fs, next) := fat32_next_cluster cluster fs in keep_clusters n' cluster next fs
      else (fs, prev, cluster)
  end.
Definition fat32_truncate_file (entry : list Z) (new_size : Z) fs : option (fat32_fs D * list Z * Z) :=
  if fs_readonly fs then Some (fs, entry, VFS_ERR_ROFS)
  else
    let old_size := de_file_size entry in
    let cluster := fat32_entry_cluster entry in
    if new_size =? old_size then Some (fs, entry, 0)
    else if new_size =? 0 then
      fs ← (if FAT32_FIRST_DATA_CLUSTER <=? cluster then '(fs, _) ← fat32_free_chain cluster fs; Some fs else Some fs);
      Some (fs, set_file_size 0 (fat32_entry_set_cluster 0 entry), 0)
    else
      fs ← (if new_size <? old_size then
              let needed := u32 (new_size + bytes_per_cluster fs - 1) / bytes_per_cluster fs in
              let '(fs, prev, cluster) := keep_clusters (Z.to_nat (needed - 1)) 0 cluster fs in
              if negb (prev =? 0) && fat32_cluster_is_valid fs cluster then
                let '(fs, _) := fat32_set_cluster prev FAT32_CLUSTER_EOF fs in
                '(fs, _) ← fat32_free_chain cluster fs; Some fs
              else Some fs
            else Some fs);
      Some (fs, set_file_size new_size entry, 0).

(** ** FSInfo, synchronisation, sizes *)

Definition has_fsinfo fs : bool :=
  negb ((bpb_fs_info_sector (fs_bpb fs) =? 0) || (bpb_fs_info_sector (fs_bpb fs) =? 0xFFFF)).
Definition fat32_read_fsinfo fs : fat32_fs D * Z :=
  if negb (has_fsinfo fs) then (fs, VFS_ERR_INVAL)
  else
    let '(r, sector) := bd_read (bpb_fs_info_sector (fs_bpb fs)) 1 (fs_dev fs) in
    if negb (r =? 0) then (fs, VFS_ERR_IO)
    else if negb (fsinfo_lead_sig sector =? FAT32_FSINFO_LEAD_SIG) || negb (fsinfo_struc_sig sector =? FAT32_FSINFO_STRUC_SIG)
            || negb (fsinfo_trail_sig sector =? FAT32_FSINFO_TRAIL_SIG) then (fs, VFS_ERR_INVAL)
    else (set_hints (fsinfo_free_count sector) (fsinfo_next_free sector) fs, 0).
Definition fat32_write_fsinfo fs : fat32_fs D * Z :=
  if fs_readonly fs then (fs, VFS_ERR_ROFS)
  else if negb (has_fsinfo fs) then (fs, 0)
  else
    let '(r, sector) := bd_read (bpb_fs_info_sector (fs_bpb fs)) 1 (fs_dev fs) in
    if negb (r =? 0) then (fs, VFS_ERR_IO)
    else
      let sector := splice 492 (le32 (next_free_cluster fs)) (splice 488 (le32 (free_clusters fs)) sector) in
      let '(d, r) := bd_write (bpb_fs_info_sector (fs_bpb fs)) 1 sector (fs_dev fs) in
      if negb (r =? 0) then (set_dev d fs, VFS_ERR_IO) else (set_fsinfo_dirty false (set_dev d fs), 0).

Definition fat32_sync fs : fat32_fs D * Z :=
  if negb (fs_mounted fs) then (fs, VFS_ERR_INVAL)
  else
    let '(fs, r) := fat32_flush_fat_cache fs in
    if negb (r =? 0) then (fs, r)
    else
      let '(fs, r) := if fsinfo_dirty fs then fat32_write_fsinfo fs else (fs, 0) in
      if negb (r =? 0) then (fs, r) else (set_dev (bd_flush (fs_dev fs)) fs, 0).

(** The total and the free bytes. *)
Definition count_free fs : fat32_fs D * Z :=
  for_range FAT32_FIRST_DATA_CLUSTER (FAT32_FIRST_DATA_CLUSTER + total_clusters fs)
    (fun i s => let '(fs, n) := s in
                let '(fs, e) := fat32_read_fat_entry i fs in (fs, if e =? FAT32_CLUSTER_FREE then n + 1 else n)) (fs, 0).
Definition fat32_statfs fs : fat32_fs D * Z * Z * Z :=
  if negb (fs_mounted fs) then (fs, VFS_ERR_INVAL, 0, 0)
  else
    let total := total_clusters fs * bytes_per_cluster fs in
    if negb (free_clusters fs =? 0xFFFFFFFF) then (fs, 0, total, free_clusters fs * bytes_per_cluster fs)
    else let '(fs, n) := count_free fs in (fs, 0, total, n * bytes_per_cluster fs).

(** ** Mounting *)

(** [int] results of the checks of the boot sector. *)
Definition fat32_read_boot_sector fs : fat32_fs D * Z :=
  let '(r, sector) := bd_read 0 1 (fs_dev fs) in
  if negb (r =? 0) then (fs, VFS_ERR_IO)
  else
    let fs := set_bpb sector fs in
    let spc := bpb_sectors_per_cluster sector in
    let bps := bpb_bytes_per_sector sector in
    if negb (bpb_boot_sector_sig sector =? FAT32_BOOT_SIGNATURE) then (fs, VFS_ERR_INVAL)
    else if negb ((bps =? 512) || (bps =? 1024) || (bps =? 2048) || (bps =? 4096)) then (fs, VFS_ERR_INVAL)
    else if (spc =? 0) || negb (Z.land spc (spc - 1) =? 0) then (fs, VFS_ERR_INVAL)
    else if negb (bpb_fat_size_16 sector =? 0) then (fs, VFS_ERR_INVAL)
    else (fs, 0).

Definition geometry fs : fat32_fs D :=
  let b := fs_bpb fs in
  let data_start := u32 (bpb_reserved_sectors b + u32 (bpb_num_fats b * bpb_fat_size_32 b)) in
  let total_sectors := if bpb_total_sectors_32 b =? 0 then bpb_total_sectors_16 b else bpb_total_sectors_32 b in
  set_geometry (bpb_bytes_per_sector b * bpb_sectors_per_cluster b) (bpb_reserved_sectors b) (bpb_fat_size_32 b) data_start
    (u32 (total_sectors - data_start) / bpb_sectors_per_cluster b) (bpb_root_cluster b) fs.

Definition zero_fs (d : D) : fat32_fs D :=
  mk_fs d (repeat 0 512) 0 0 0 0 0 0 0 0 false (repeat empty_cache (Z.to_nat FAT32_FAT_CACHE_SIZE)) [] false false 0 0.
Definition cluster_pages fs : Z := u32 (bytes_per_cluster fs + PAGE_SIZE - 1) / PAGE_SIZE.

Context {S : Type} `{PageAllocator S}.

(** The volume, [None] for NULL, and the pages. *)
Definition fat32_mount (d : D) (pa : S) : option (fat32_fs D) * S :=
  let '(fs_page, pa) := pa_alloc 1 pa in
  if fs_page =? 0 then (None, pa)
  else
    let '(fs, r) := fat32_read_boot_sector (zero_fs d) in
    if negb (r =? 0) then (None, pa_free fs_page 1 pa)
    else
      let fs := geometry fs in
      let '(fs, r) := fat32_read_fsinfo fs in
      let fs := if r =? 0 then fs else set_hints 0xFFFFFFFF FAT32_FIRST_DATA_CLUSTER fs in
      let '(buf, pa) := pa_alloc (cluster_pages fs) pa in
      if buf =? 0 then (None, pa_free fs_page 1 pa)
      else (Some (set_mounted true false (set_pages fs_page buf fs)), pa).
Definition fat32_unmount fs (pa : S) : fat32_fs D * S * Z :=
  if negb (fs_mounted fs) then (fs, pa, VFS_ERR_INVAL)
  else
    let '(fs, _) := fat32_sync fs in
    let pa := if negb (cluster_buf_phys fs =? 0) then pa_free (cluster_buf_phys fs) (cluster_pages fs) pa else pa in
    (set_mounted false (fs_readonly fs) fs, pa_free (fs_phys fs) 1 pa, 0).
End Fat.
