(* ===== verification/FatTable.v ===== *)
(** * FAT32: the file allocation table behind its cache (fs/fat32/fat32.c)

    The cache and the disk together represent one table: the entry of a cluster is in the
    cached sector, or on the disk when its sector is not cached. Reading an entry leaves
    the table as it is, writing one changes that entry only, whatever the cache evicts. *)
From S2P Require Import Prelude Memory PageAlloc Ring Chain Block VfsBase Fat.
(** The data of a sector in a cache. *)
Fixpoint cached (l : list fat_cache_entry) (s : Z) : option (list Z) :=
  match l with
  | [] => None
  | e :: l' => if ce_valid e && (ce_sector e =? s) then Some (ce_data e) else cached l' s
  end.
(** No sector is cached twice. *)
Definition one_copy (l : list fat_cache_entry) : Prop :=
  forall i j e e', l !! i = Some e -> l !! j = Some e' -> ce_valid e = true -> ce_valid e' = true ->
  ce_sector e = ce_sector e' -> i = j.

Lemma cached_some l s d : cached l s = Some d ->
  exists i e, l !! i = Some e /\ ce_valid e = true /\ ce_sector e = s /\ ce_data e = d.
Proof.
  induction l as [|e l IH]; simpl; [done|]. intros Hc. case_if_in Hc.
  - injection Hc as <-. exists 0%nat, e. by rewrite <- H0.
  - destruct (IH Hc) as (i & e' & Hi & He). by exists (S i), e'.
Qed.
Lemma cached_none l s i e : cached l s = None -> l !! i = Some e -> ce_valid e = true -> ce_sector e <> s.
Proof.
  revert i. induction l as [|e0 l IH]; intros i Hc Hi Hv; [done|]. simpl in Hc. case_if_in Hc; [done|].
  destruct i as [|i]; simpl in Hi; [|by eapply IH]. injection Hi as ->. rewrite Hv in E. simpl in E. by zbool.
Qed.
Lemma cached_at l s i e : one_copy l -> l !! i = Some e -> ce_valid e = true -> ce_sector e = s -> cached l s = Some (ce_data e).
Proof.
  intros Hu Hi Hv Hs. destruct (cached l s) as [d|] eqn:E.
  - destruct (cached_some _ _ _ E) as (j & e' & Hj & Hv' & Hs' & <-).
    assert (i = j) as <- by (eapply Hu; eauto; congruence). congruence.
  - by destruct (cached_none _ _ _ _ E Hi Hv).
Qed.

(** What the scan finds. *)
Lemma cache_scan_spec l s : forall k o, match cache_scan l k o s with
  | (Some j, _) => exists i e, j = (k + i)%nat /\ l !! i = Some e /\ ce_valid e = true /\ ce_sector e = s
  | (None, j) => cached l s = None /\ (j = o \/ exists i, j = (k + i)%nat /\ (i < length l)%nat)
  end.
Proof.
  induction l as [|e l IH]; intros k o; simpl; [auto|]. case_if.
  - exists 0%nat, e. zbool. rewrite Nat.add_0_r. auto.
  - specialize (IH (S k) (if ce_valid e then o else k)). destruct (cache_scan l (S k) _ s) as [[j|] j'].
    + destruct IH as (i & e' & -> & Hi & He). exists (S i), e'. split; [lia|done].
    + destruct IH as [Hn [Ho|(i & -> & Hi)]]; (split; [done|]).
      * destruct (ce_valid e); [by left|]. right. exists 0%nat. split; lia.
      * right. exists (S i). split; lia.
Qed.

(** ** The volume *)

Section Table.
Context {D : Type} `{BlockDeviceLaws D}.
Implicit Types fs : fat32_fs D.

(** Sector [l] is in the first FAT. *)
Definition in_fat fs (l : Z) : Prop := fat_start_sector fs <= l < fat_start_sector fs + fat_sectors fs.
Definition spc fs : Z := bpb_sectors_per_cluster (fs_bpb fs).

(** The numbers of a mounted volume with sectors of 512 bytes that fits its disk, and whose
    FAT has an entry for every cluster. *)
Record geometry_ok fs : Prop := mk_geometry_ok {
  g_bps : bpb_bytes_per_sector (fs_bpb fs) = FAT32_SECTOR_SIZE;
  g_spc : 0 < spc fs < 256;
  g_bpc : bytes_per_cluster fs = FAT32_SECTOR_SIZE * spc fs;
  g_fat : 0 < fat_start_sector fs /\ 0 < fat_sectors fs;
  g_data : fat_start_sector fs + fat_sectors fs <= data_start_sector fs;
  g_table : FAT32_FIRST_DATA_CLUSTER + total_clusters fs <= fat_sectors fs * 128;
  g_total : 0 < total_clusters fs /\ FAT32_FIRST_DATA_CLUSTER + total_clusters fs <= FAT32_CLUSTER_BAD;
}.
Record disk_ok fs : Prop := mk_disk_ok {
  d_wf : bd_wf (fs_dev fs);
  d_size : data_start_sector fs + total_clusters fs * spc fs <= bd_sectors (fs_dev fs) <= 2 ^ 32;
}.
Record cache_ok fs : Prop := mk_cache_ok {
  c_length : length (fat_cache fs) = Z.to_nat FAT32_FAT_CACHE_SIZE;
  c_one : one_copy (fat_cache fs);
  c_entry : forall i e, fat_cache fs !! i = Some e -> ce_valid e = true ->
    in_fat fs (ce_sector e) /\ length (ce_data e) = Z.to_nat FAT32_SECTOR_SIZE /\ bytes (ce_data e) /\
    (ce_dirty e = false -> ce_data e = bd_sector (fs_dev fs) (ce_sector e));
  c_dirty : forall i e, fat_cache fs !! i = Some e -> ce_dirty e = true -> ce_valid e = true;
}.
Record vol_ok fs : Prop := mk_vol_ok {
  v_geometry : geometry_ok fs;
  v_disk : disk_ok fs;
  v_cache : cache_ok fs;
  v_mounted : fs_mounted fs = true;
  v_rw : fs_readonly fs = false;
}.

(** The bytes of a FAT sector, and the entry of a cluster. *)
Definition fat_data fs (s : Z) : list Z := default (bd_sector (fs_dev fs) s) (cached (fat_cache fs) s).
Definition fat_at fs (c : Z) : Z :=
  Z.land (get32 (fat_data fs (fat_start_sector fs + c / 128)) (Z.to_nat (4 * (c mod 128)))) FAT32_CLUSTER_MASK.
(** The number of entries of the FAT. *)
Definition fat_entries fs : Z := fat_sectors fs * 128.

(** Everything but the device, the cache, the cluster buffer and the hints. *)
Record same_shape fs fs' : Prop := mk_same_shape {
  ss_bpb : fs_bpb fs' = fs_bpb fs;
  ss_bpc : bytes_per_cluster fs' = bytes_per_cluster fs;
  ss_fat : fat_start_sector fs' = fat_start_sector fs /\ fat_sectors fs' = fat_sectors fs;
  ss_data : data_start_sector fs' = data_start_sector fs;
  ss_total : total_clusters fs' = total_clusters fs;
  ss_root : root_cluster fs' = root_cluster fs;
  ss_flags : fs_mounted fs' = fs_mounted fs /\ fs_readonly fs' = fs_readonly fs;
  ss_pages : fs_phys fs' = fs_phys fs /\ cluster_buf_phys fs' = cluster_buf_phys fs;
  ss_disk : bd_sectors (fs_dev fs') = bd_sectors (fs_dev fs);
}.
#[export] Instance same_shape_preorder : PreOrder same_shape.
Proof.
  split; [by intros fs|]. intros fs1 fs2 fs3 [A1 A2 [A3 A3'] A4 A5 A6 [A7 A7'] [A8 A8'] A9] [B1 B2 [B3 B3'] B4 B5 B6 [B7 B7'] [B8 B8'] B9].
  split; try split; congruence.
Qed.

Lemma geometry_shape fs fs' : same_shape fs fs' -> geometry_ok fs -> geometry_ok fs'.
Proof.
  intros [A1 A2 [A3 A3'] A4 A5 A6 _ _ _] [G1 G2 G3 G4 G5 G6 G7]. unfold spc in *.
  split; unfold spc; rewrite ?A1, ?A2, ?A3, ?A3', ?A4, ?A5; auto.
Qed.

(** What the FAT operations leave alone: the buffer, the hints and the disk outside the FAT. *)
Record frame fs fs' : Prop := mk_frame {
  f_shape : same_shape fs fs';
  f_buffer : cluster_buffer fs' = cluster_buffer fs;
  f_hints : free_clusters fs' = free_clusters fs /\ next_free_cluster fs' = next_free_cluster fs /\ fsinfo_dirty fs' = fsinfo_dirty fs;
  f_disk : forall l, 0 <= l < bd_sectors (fs_dev fs) -> ~ in_fat fs l -> bd_sector (fs_dev fs') l = bd_sector (fs_dev fs) l;
}.
#[export] Instance frame_preorder : PreOrder frame.
Proof.
  split; [by intros fs|]. intros fs1 fs2 fs3 [A1 A2 (A3 & A3' & A3'') A4] [B1 B2 (B3 & B3' & B3'') B4].
  split; [by etransitivity|congruence|split; [congruence|split; congruence]|].
  intros l Hl Hn. destruct A1 as [_ _ [E1 E2] _ _ _ _ _ E3]. rewrite B4, A4; auto; [lia|]. unfold in_fat in *. by rewrite E1, E2.
Qed.

Lemma vol_shape fs fs' : vol_ok fs -> same_shape fs fs' -> bd_wf (fs_dev fs') -> cache_ok fs' -> vol_ok fs'.
Proof.
  intros [V1 [V2 V2'] V3 V4 V5] Hs Hw Hc. split; [by eapply geometry_shape| |done|..];
    destruct Hs as [A1 A2 [A3 A3'] A4 A5 A6 [A7 A7'] A8 A9]; [|congruence..].
  split; [done|]. unfold spc in *. by rewrite A1, A4, A5, A9.
Qed.

Lemma in_fat_disk fs l : vol_ok fs -> in_fat fs l -> 0 <= l < bd_sectors (fs_dev fs).
Proof.
  intros [[G1 G2 G3 G4 G5 G6 G7] [D1 D2] _ _ _] Hl. unfold in_fat in Hl. split; [lia|]. nia.
Qed.

Lemma cache_at_lookup fs i : cache_ok fs -> (i < Z.to_nat FAT32_FAT_CACHE_SIZE)%nat -> fat_cache fs !! i = Some (cache_at fs i).
Proof. intros [L _ _ _] Hi. unfold cache_at. rewrite nth_lookup. destruct (lookup_lt_is_Some_2 (fat_cache fs) i) as [e ->]; [lia|done]. Qed.
Lemma cache_at_put fs i e : (i < length (fat_cache fs))%nat -> cache_at (cache_put i e fs) i = e.
Proof. intros Hi. unfold cache_at, cache_put. simpl. rewrite nth_lookup. by rewrite list_lookup_insert_eq. Qed.

Definition evicted (i : nat) fs : fat32_fs D :=
  if ce_dirty (cache_at fs i) then cache_clean i (fst (cache_evict i fs)) else fs.

(** An entry of the cache is replaced by one for the same sector. *)
Lemma one_copy_insert l i e e' : one_copy l -> l !! i = Some e -> ce_valid e' = ce_valid e -> ce_sector e' = ce_sector e ->
  one_copy (<[i:=e']> l).
Proof.
  intros Hu Hi Hv Hs j k ej ek Hj Hk. rewrite list_lookup_insert_Some in Hj, Hk.
  destruct Hj as [(<- & <- & _)|[Hj1 Hj2]], Hk as [(<- & <- & _)|[Hk1 Hk2]]; intros; [done|..]; eapply Hu; eauto; congruence.
Qed.
Lemma cached_insert_same l i e e' s : one_copy l -> l !! i = Some e -> ce_valid e' = ce_valid e -> ce_sector e' = ce_sector e ->
  ce_data e' = ce_data e -> cached (<[i:=e']> l) s = cached l s.
Proof.
  intros Hu Hi Hv Hs Hd. revert i Hi Hu. induction l as [|e0 l IH]; intros i Hi Hu; [done|]. destruct i as [|i]; simpl in *.
  - injection Hi as ->. by rewrite Hv, Hs, Hd.
  - rewrite IH; [done|done|]. intros j k ej ek Hj Hk H1' H2' H3'. specialize (Hu (S j) (S k) ej ek Hj Hk H1' H2' H3'). lia.
Qed.

Lemma evict_ok fs i : vol_ok fs -> (i < Z.to_nat FAT32_FAT_CACHE_SIZE)%nat ->
  snd (cache_evict i fs) = 0 /\ vol_ok (evicted i fs) /\ frame fs (evicted i fs) /\
  ce_dirty (cache_at (evicted i fs) i) = false /\
  (forall s, cached (fat_cache (evicted i fs)) s = cached (fat_cache fs) s) /\
  (forall s, in_fat fs s -> fat_data (evicted i fs) s = fat_data fs s).
Proof.
  intros Hv Hi. pose proof (v_cache _ Hv) as [C1 C2 C3 C4]. pose proof (cache_at_lookup fs i (v_cache _ Hv) Hi) as Hl.
  unfold evicted, cache_evict. set (e := cache_at fs i) in *. destruct (ce_dirty e) eqn:Ed; [|by split; [|split; [|split; [|split]]]].
  pose proof (C4 _ _ Hl Ed) as Hva. destruct (C3 _ _ Hl Hva) as (Hf & Hn & Hb & _).
  destruct (bd_write_ok (fs_dev fs) (ce_sector e) 1 (ce_data e)) as (d' & -> & W1 & W2 & W3 & W4);
    [apply Hv|pose proof (in_fat_disk fs _ Hv Hf); lia..|unfold FAT32_SECTOR_SIZE in *; lia|done|].
  cbn [fst snd]. split; [done|]. assert (bd_sector d' (ce_sector e) = ce_data e) as W5.
  { rewrite <- sector_range_one. exact W4. }
  assert (cache_at (set_dev d' fs) i = e) as E1 by done. unfold cache_clean. rewrite E1.
  set (e' := mk_cache (ce_sector e) false (ce_valid e) (ce_data e)). set (fs1 := cache_put i e' (set_dev d' fs)).
  assert (frame fs fs1) as Hfr.
  { split; [by split| done|done|]. intros l Hl' Hn'. apply W3. unfold in_fat in *. destruct Hf. lia. }
  assert (forall s, cached (fat_cache fs1) s = cached (fat_cache fs) s) as Hsame by (intros s; by eapply cached_insert_same).
  split; [|split; [done|split; [by unfold fs1; rewrite cache_at_put by (simpl; lia)|split; [done|]]]].
  - eapply vol_shape; [done|apply Hfr|done|]. split; simpl.
    + by rewrite length_insert.
    + by eapply one_copy_insert.
    + intros j ej Hj Hvj. rewrite list_lookup_insert_Some in Hj. destruct Hj as [(<- & <- & _)|[Hj1 Hj2]].
      * repeat (split; [done|]). intros _. exact (eq_sym W5).
      * destruct (C3 _ _ Hj2 Hvj) as (F1 & F2 & F3 & F4). split; [done|]. split; [done|]. split; [done|]. intros Hd. rewrite F4 by done.
        symmetry. apply W3. assert (ce_sector ej <> ce_sector e) as Hne by (intros E; apply Hj1; by eapply C2).
        pose proof (in_fat_disk fs _ Hv F1). pose proof (in_fat_disk fs _ Hv Hf). lia.
    + intros j ej Hj Hvj. rewrite list_lookup_insert_Some in Hj. destruct Hj as [(<- & <- & _)|[Hj1 Hj2]]; [done|eauto].
  - intros s Hs. unfold fat_data. rewrite Hsame. destruct (cached (fat_cache fs) s) as [x|] eqn:Ec; [done|]. simpl.
    apply W3. assert (ce_sector e <> s) by (by eapply cached_none). pose proof (in_fat_disk fs _ Hv Hs). lia.
Qed.

(** Loading a sector that is not cached into an entry that needs no writing. *)
Lemma load_ok fs i s : vol_ok fs -> (i < Z.to_nat FAT32_FAT_CACHE_SIZE)%nat -> ce_dirty (cache_at fs i) = false ->
  cached (fat_cache fs) s = None -> in_fat fs s ->
  exists fs', cache_load i s fs = (fs', 0) /\ vol_ok fs' /\ frame fs fs' /\
    cache_at fs' i = mk_cache s false true (bd_sector (fs_dev fs) s) /\
    (forall s', fat_data fs' s' = fat_data fs s').
Proof.
  intros Hv Hi Hd Hc Hf. pose proof (v_cache _ Hv) as [C1 C2 C3 C4]. pose proof (cache_at_lookup fs i (v_cache _ Hv) Hi) as Hl.
  pose proof (in_fat_disk fs _ Hv Hf) as Hr. unfold cache_load.
  rewrite bd_read_ok by (first [apply Hv|lia]). change (Z.to_nat 1) with 1%nat. rewrite sector_range_one. cbn [Z.eqb].
  rewrite Hd. set (e' := mk_cache s false true _). eexists. split; [done|].
  assert (one_copy (<[i:=e']> (fat_cache fs))) as Hu.
  { intros j k ej ek Hj Hk. rewrite list_lookup_insert_Some in Hj, Hk.
    destruct Hj as [(<- & <- & _)|[Hj1 Hj2]], Hk as [(<- & <- & _)|[Hk1 Hk2]]; intros V1 V2 E; [done|..].
    - by destruct (cached_none _ _ _ _ Hc Hk2 V2).
    - by destruct (cached_none _ _ _ _ Hc Hj2 V1).
    - by eapply C2. }
  assert (frame fs (cache_put i e' fs)) as Hfr by (split; [by split|done..]).
  split; [|split; [done|split; [by rewrite cache_at_put by lia|]]].
  - eapply vol_shape; [done|apply Hfr|apply Hv|]. split; simpl; [by rewrite length_insert|done|..]; intros j ej Hj Hvj;
      rewrite list_lookup_insert_Some in Hj; destruct Hj as [(<- & <- & _)|[Hj1 Hj2]]; [|by eapply C3|done|by eapply C4].
    destruct (bd_sector_ok (fs_dev fs) s) as [S1 S2]; [apply Hv|done|]. done.
  - intros s'. unfold fat_data. simpl. destruct (Z.eq_dec s' s) as [->|Hne].
    + rewrite Hc. by rewrite (cached_at _ s i e' Hu) by (rewrite ?list_lookup_insert_eq by lia; done).
    + destruct (cached (<[i:=e']> (fat_cache fs)) s') as [x|] eqn:E1.
      * destruct (cached_some _ _ _ E1) as (j & ej & Hj & Vj & Sj & <-). rewrite list_lookup_insert_Some in Hj.
        destruct Hj as [(<- & <- & _)|[Hj1 Hj2]]; [done|]. by rewrite (cached_at _ s' j ej C2).
      * destruct (cached (fat_cache fs) s') as [x|] eqn:E2; [|done]. simpl.
        destruct (cached_some _ _ _ E2) as (j & ej & Hj & Vj & Sj & <-). destruct (Nat.eq_dec j i) as [->|Hji].
        { rewrite Hl in Hj. injection Hj as <-. destruct (C3 _ _ Hl Vj) as (_ & _ & _ & Hclean). rewrite Hclean by done. by rewrite Sj. }
        exfalso. apply (cached_none _ _ j ej E1); [|done..]. by rewrite list_lookup_insert_ne.
Qed.

(** The entry that a missing sector is loaded into. *)
Lemma scan_miss fs s j : vol_ok fs -> cache_scan (fat_cache fs) 0 0 s = (None, j) ->
  cached (fat_cache fs) s = None /\ (j < Z.to_nat FAT32_FAT_CACHE_SIZE)%nat.
Proof.
  intros Hv E. pose proof (cache_scan_spec (fat_cache fs) s 0 0) as Hs. rewrite E in Hs. destruct Hs as [Hn Hj]. split; [done|].
  pose proof (c_length _ (v_cache _ Hv)) as C1. destruct Hj as [->|(i & -> & Hi)]; unfold FAT32_FAT_CACHE_SIZE in *; lia.
Qed.
(** The eviction and the load that follow a miss. *)
Lemma miss_ok fs s j : vol_ok fs -> in_fat fs s -> cache_scan (fat_cache fs) 0 0 s = (None, j) ->
  exists fs', cache_load j s (evicted j fs) = (fs', 0) /\ vol_ok fs' /\ frame fs fs' /\
    cache_at fs' j = mk_cache s false true (fat_data fs s) /\ (forall s', in_fat fs s' -> fat_data fs' s' = fat_data fs s') /\
    snd (cache_evict j fs) = 0 /\ (j < length (fat_cache fs'))%nat.
Proof.
  intros Hv Hf E. destruct (scan_miss _ _ _ Hv E) as [Hn Hj].
  destruct (evict_ok fs j Hv Hj) as (Hr & Hv1 & Hf1 & Hd1 & Hc1 & Hs1).
  assert (in_fat (evicted j fs) s) as Hin by (unfold in_fat in *; by destruct Hf1 as [[_ _ [-> ->] _ _ _ _ _ _] _ _ _]).
  destruct (load_ok (evicted j fs) j s Hv1 Hj Hd1 ltac:(by rewrite Hc1) Hin) as (fs' & El & Hv2 & Hf2 & Ha & Hs2).
  exists fs'. split; [done|]. split; [done|]. split; [by etransitivity|]. split.
  - rewrite Ha. f_equal. rewrite <- (Hs1 s Hf). unfold fat_data. by rewrite Hc1, Hn.
  - split; [intros l Hl; rewrite Hs2; by apply Hs1|]. split; [done|]. rewrite (c_length _ (v_cache _ Hv2)). lia.
Qed.

(** The sector [s] is brought into the cache. *)
Definition fetched (s : Z) fs : fat32_fs D * nat :=
  match cache_scan (fat_cache fs) 0 0 s with
  | (Some i, _) => (fs, i)
  | (None, i) => (fst (cache_load i s (evicted i fs)), i)
  end.

(** The FAT is the same in both volumes. *)
Definition same_fat fs fs' : Prop := forall s, in_fat fs s -> fat_data fs' s = fat_data fs s.

Lemma fetch_ok fs s : vol_ok fs -> in_fat fs s ->
  let '(fs', i) := fetched s fs in
  vol_ok fs' /\ frame fs fs' /\ same_fat fs fs' /\ (i < length (fat_cache fs'))%nat /\
  ce_valid (cache_at fs' i) = true /\ ce_sector (cache_at fs' i) = s /\ ce_data (cache_at fs' i) = fat_data fs s.
Proof.
  intros Hv Hf. unfold fetched. pose proof (cache_scan_spec (fat_cache fs) s 0 0) as Hs. pose proof (v_cache _ Hv) as [C1 C2 C3 C4].
  destruct (cache_scan (fat_cache fs) 0 0 s) as [[i|] j] eqn:Es.
  - destruct Hs as (i' & e & -> & Hi & Hva & Hse). simpl. pose proof (lookup_lt_Some _ _ _ Hi) as Hlt.
    assert (cache_at fs i' = e) as -> by (unfold cache_at; by rewrite (nth_lookup_Some _ _ _ _ Hi)).
    repeat (split; [done|]). unfold fat_data. by rewrite (cached_at _ s i' e C2).
  - destruct (miss_ok fs s j Hv Hf Es) as (fs' & -> & Hv2 & Hf2 & Ha & Hs2 & _ & Hl). cbn [fst]. by rewrite Ha.
Qed.

Lemma read_fetched c fs : vol_ok fs -> in_fat fs (fat_sector_of fs c) ->
  fat32_read_fat_entry c fs =
  let '(fs', i) := fetched (fat_sector_of fs c) fs in
  (fs', Z.land (get32 (ce_data (cache_at fs' i)) (fat_offset_of fs c)) FAT32_CLUSTER_MASK).
Proof.
  intros Hv Hf. unfold fat32_read_fat_entry, fetched. destruct (cache_scan _ 0 0 _) as [[i|] j] eqn:E; [done|].
  fold (evicted j fs). destruct (miss_ok fs _ j Hv Hf E) as (fs' & -> & _). done.
Qed.

Lemma write_fetched c v fs : vol_ok fs -> in_fat fs (fat_sector_of fs c) ->
  fat32_write_fat_entry c v fs =
  let '(fs', i) := fetched (fat_sector_of fs c) fs in (modify_entry i (fat_offset_of fs c) v fs', 0).
Proof.
  intros Hv Hf. unfold fat32_write_fat_entry, fetched. rewrite (v_rw _ Hv).
  destruct (cache_scan _ 0 0 _) as [[i|] j] eqn:Es; [done|].
  destruct (miss_ok fs _ j Hv Hf Es) as (fs' & Hl & _ & _ & _ & _ & Hr & _).
  unfold evicted in *. destruct (ce_dirty (cache_at fs j)) eqn:Ed.
  - destruct (cache_evict j fs) as [fs1 r] eqn:Ee. simpl in Hr. subst r. cbn [negb Z.eqb fst] in *.
    assert (ce_dirty (cache_at fs1 j) = true) as ->.
    { unfold cache_evict in Ee. rewrite Ed in Ee. destruct (bd_write _ _ _ _) as [d r]. injection Ee as <- _. exact Ed. }
    by rewrite Hl.
  - assert (cache_evict j fs = (fs, 0)) as -> by (unfold cache_evict; by rewrite Ed). cbn [negb Z.eqb]. rewrite Ed. by rewrite Hl.
Qed.

(** ** Entries *)

(** The clusters whose entry the FAT has. *)
Definition in_table fs (c : Z) : Prop := 0 <= c < fat_entries fs /\ c < 2 ^ 28.

Lemma entry_place fs c : vol_ok fs -> in_table fs c ->
  fat_sector_of fs c = fat_start_sector fs + c / 128 /\ in_fat fs (fat_start_sector fs + c / 128) /\
  fat_offset_of fs c = Z.to_nat (4 * (c mod 128)).
Proof.
  intros Hv [Hc Hc']. pose proof Hv as [[G1 G2 G3 G4 G5 G6 G7] [D1 D2] _ _ _]. unfold fat_entries in Hc.
  assert (0 <= c / 128 < fat_sectors fs) as Hq by (split; [apply Z.div_pos; lia|apply Z.div_lt_upper_bound; lia]).
  assert (in_fat fs (fat_start_sector fs + c / 128)) as Hin by (unfold in_fat; lia).
  pose proof (in_fat_disk fs _ Hv Hin) as Hr. unfold fat_sector_of, fat_offset_of. rewrite G1. unfold FAT32_SECTOR_SIZE.
  rewrite (u32_id (c * 4)) by lia. replace (c * 4 / 512) with (c / 128) by dlia. split; [apply u32_id; lia|]. split; [done|].
  f_equal. dlia.
Qed.

Lemma fat_data_ok fs s : vol_ok fs -> in_fat fs s -> length (fat_data fs s) = Z.to_nat FAT32_SECTOR_SIZE /\ bytes (fat_data fs s).
Proof.
  intros Hv Hs. unfold fat_data. destruct (cached (fat_cache fs) s) as [d|] eqn:E; simpl.
  - destruct (cached_some _ _ _ E) as (i & e & Hi & Hva & _ & <-). destruct (c_entry _ (v_cache _ Hv) _ _ Hi Hva) as (_ & ? & ? & _). done.
  - apply bd_sector_ok; [apply Hv|by apply in_fat_disk].
Qed.

Lemma fat_at_range fs c : vol_ok fs -> in_table fs c -> 0 <= fat_at fs c < 2 ^ 28.
Proof.
  intros Hv Hc. unfold fat_at, FAT32_CLUSTER_MASK. change 0x0FFFFFFF with (Z.ones 28). rewrite Z.land_ones by lia.
  apply Z.mod_pos_bound. lia.
Qed.

Lemma same_fat_at fs fs' c : vol_ok fs -> frame fs fs' -> same_fat fs fs' -> in_table fs c -> fat_at fs' c = fat_at fs c.
Proof.
  intros Hv [[_ _ [E1 _] _ _ _ _ _ _] _ _ _] Hs Hc. unfold fat_at. rewrite E1, Hs; [done|]. by apply entry_place.
Qed.

Lemma in_table_shape fs fs' c : same_shape fs fs' -> in_table fs' c <-> in_table fs c.
Proof. intros [_ _ [_ E] _ _ _ _ _ _]. unfold in_table, fat_entries. by rewrite E. Qed.

(** Reading an entry. *)
Lemma read_fat_ok fs c : vol_ok fs -> in_table fs c ->
  exists fs', fat32_read_fat_entry c fs = (fs', fat_at fs c) /\ vol_ok fs' /\ frame fs fs' /\
    (forall c', in_table fs c' -> fat_at fs' c' = fat_at fs c').
Proof.
  intros Hv Hc. destruct (entry_place fs c Hv Hc) as (E1 & Hf & E2). rewrite read_fetched by (by rewrite ?E1).
  pose proof (fetch_ok fs _ Hv Hf) as Hk. rewrite E1. destruct (fetched _ fs) as [fs' i].
  destruct Hk as (Hv' & Hfr & Hs & Hi & _ & _ & Hd). exists fs'. rewrite Hd, E2. split; [done|]. split; [done|]. split; [done|].
  intros c' Hc'. by apply same_fat_at.
Qed.

(** The word that is stored: its upper four bits are kept. *)
Lemma merged_word old v : 0 <= old < 2 ^ 32 ->
  let w := Z.lor (Z.land old 0xF0000000) (Z.land v FAT32_CLUSTER_MASK) in
  0 <= w < 2 ^ 32 /\ Z.land w FAT32_CLUSTER_MASK = Z.land v FAT32_CLUSTER_MASK.
Proof.
  intros Ho w. split.
  - assert (0 <= w) by (apply Z.lor_nonneg; split; apply Z.land_nonneg; [lia|right; unfold FAT32_CLUSTER_MASK; lia]).
    split; [done|]. assert (w mod 2 ^ 32 = w) as <-; [|apply Z.mod_pos_bound; lia]. bitwise. rewrite testbit_wrap by lia.
    destruct (Z.ltb_spec k 32); [done|]. unfold w, FAT32_CLUSTER_MASK. rewrite Z.lor_spec, !Z.land_spec.
    change 0x0FFFFFFF with (Z.ones 28).
    assert (Z.testbit 0xF0000000 k = false) as -> by (apply Z.bits_above_log2; [lia|change (Z.log2 0xF0000000) with 31; lia]).
    rewrite Z.ones_spec_high by lia. simpl. by rewrite !andb_false_r.
  - bitwise. unfold w, FAT32_CLUSTER_MASK. rewrite !Z.land_spec, Z.lor_spec, !Z.land_spec. change 0x0FFFFFFF with (Z.ones 28).
    destruct (Z.lt_ge_cases k 28).
    + rewrite Z.ones_spec_low by lia. assert (Z.testbit 0xF0000000 k = false) as ->.
      { change 0xF0000000 with (15 * 2 ^ 28). by rewrite Z.mul_pow2_bits_low by lia. }
      by rewrite !andb_false_r, !andb_true_r.
    + rewrite Z.ones_spec_high by lia. by rewrite !andb_false_r.
Qed.

(** Changing an entry in the cache. *)
Lemma modify_ok fs i s off v : vol_ok fs -> (i < length (fat_cache fs))%nat -> in_fat fs s ->
  ce_valid (cache_at fs i) = true -> ce_sector (cache_at fs i) = s -> (off + 4 <= Z.to_nat FAT32_SECTOR_SIZE)%nat ->
  let fs' := modify_entry i off v fs in
  vol_ok fs' /\ frame fs fs' /\
  fat_data fs' s = splice off (le32 (Z.lor (Z.land (get32 (ce_data (cache_at fs i)) off) 0xF0000000) (Z.land v FAT32_CLUSTER_MASK)))
                     (ce_data (cache_at fs i)) /\
  (forall s', s' <> s -> fat_data fs' s' = fat_data fs s').
Proof.
  intros Hv Hi Hf Hva Hse Ho. pose proof (v_cache _ Hv) as [C1 C2 C3 C4].
  assert (fat_cache fs !! i = Some (cache_at fs i)) as Hl by (apply cache_at_lookup; [apply Hv|lia]).
  unfold modify_entry. set (e := cache_at fs i) in *. set (w := Z.lor _ _). set (e' := mk_cache _ true _ _).
  destruct (C3 _ _ Hl Hva) as (_ & Hn & Hb & _).
  assert (one_copy (<[i:=e']> (fat_cache fs))) as Hu by (by eapply one_copy_insert).
  assert (frame fs (cache_put i e' fs)) as Hfr by (split; [by split|done..]).
  assert (<[i:=e']> (fat_cache fs) !! i = Some e') as Hl' by (by rewrite list_lookup_insert_eq).
  split; [|split; [done|split]].
  - eapply vol_shape; [done|apply Hfr|apply Hv|]. split; simpl; [by rewrite length_insert|done|..]; intros j ej Hj Hvj;
      rewrite list_lookup_insert_Some in Hj; destruct Hj as [(<- & <- & _)|[Hj1 Hj2]]; [|by eapply C3|done|by eapply C4].
    simpl. rewrite Hse. split; [done|]. split; [rewrite splice_length; [done|simpl; lia]|]. split; [|done].
    apply splice_bytes; [apply le32_bytes|done].
  - unfold fat_data. simpl. by rewrite (cached_at _ s i e' Hu Hl') by done.
  - intros s' Hne. unfold fat_data. simpl. destruct (cached (<[i:=e']> (fat_cache fs)) s') as [x|] eqn:E1.
    + destruct (cached_some _ _ _ E1) as (j & ej & Hj & Vj & Sj & <-). rewrite list_lookup_insert_Some in Hj.
      destruct Hj as [(<- & <- & _)|[Hj1 Hj2]]; [simpl in Sj; congruence|]. by rewrite (cached_at _ s' j ej C2).
    + destruct (cached (fat_cache fs) s') as [x|] eqn:E2; [|done]. exfalso.
      destruct (cached_some _ _ _ E2) as (j & ej & Hj & Vj & Sj & <-). destruct (Nat.eq_dec j i) as [->|Hji].
      * rewrite Hl in Hj. injection Hj as <-. congruence.
      * apply (cached_none _ _ j ej E1); [|done..]. by rewrite list_lookup_insert_ne.
Qed.

(** Writing an entry. *)
Lemma write_fat_ok fs c v : vol_ok fs -> in_table fs c ->
  exists fs', fat32_write_fat_entry c v fs = (fs', 0) /\ vol_ok fs' /\ frame fs fs' /\
    forall c', in_table fs c' -> fat_at fs' c' = if c' =? c then Z.land v FAT32_CLUSTER_MASK else fat_at fs c'.
Proof.
  intros Hv Hc. destruct (entry_place fs c Hv Hc) as (E1 & Hf & E2). rewrite write_fetched by (by rewrite ?E1).
  pose proof (fetch_ok fs _ Hv Hf) as Hk. rewrite E1. destruct (fetched _ fs) as [fs1 i] eqn:Ef.
  destruct Hk as (Hv1 & Hf1 & Hs1 & Hi & Hva & Hse & Hd).
  assert (in_fat fs1 (fat_start_sector fs + c / 128)) as Hin1 by (unfold in_fat in *; by destruct Hf1 as [[_ _ [-> ->] _ _ _ _ _ _] _ _ _]).
  pose proof (Z.mod_pos_bound c 128 ltac:(lia)) as Hm.
  destruct (modify_ok fs1 i _ (fat_offset_of fs c) v Hv1 Hi Hin1 Hva Hse) as (Hv2 & Hf2 & Hd2 & Ho2);
    [rewrite E2; unfold FAT32_SECTOR_SIZE; lia|].
  eexists. split; [done|]. split; [done|]. split; [by etransitivity|].
  assert (fat_start_sector (modify_entry i (fat_offset_of fs c) v fs1) = fat_start_sector fs) as Est.
  { destruct Hf2 as [[_ _ [-> _] _ _ _ _ _ _] _ _ _]. by destruct Hf1 as [[_ _ [-> _] _ _ _ _ _ _] _ _ _]. }
  intros c' Hc'. destruct (entry_place fs c' Hv Hc') as (_ & Hin' & _). pose proof (fat_data_ok fs _ Hv Hf) as [Hn Hb].
  pose proof (Z.mod_pos_bound c' 128 ltac:(lia)) as Hm'. unfold fat_at. rewrite Est.
  destruct (Z.eq_dec (c' / 128) (c / 128)) as [Eq|Nq].
  - rewrite Eq, Hd2, Hd, E2. destruct (Z.eqb_spec c' c) as [->|Hne].
    + rewrite get32_splice_same; [apply merged_word; by apply get32_range|rewrite Hn; unfold FAT32_SECTOR_SIZE; lia|].
      apply merged_word. by apply get32_range.
    + rewrite get32_splice_other; [done|rewrite Hn; unfold FAT32_SECTOR_SIZE; lia|].
      assert (c' mod 128 <> c mod 128) by dlia. lia.
  - rewrite Ho2 by lia. rewrite Hs1 by done. by rewrite (proj2 (Z.eqb_neq c' c)) by (intros ->; lia).
Qed.
End Table.

(** ** FAT32: the volume as a table and clusters (fs/fat32/fat32.c)

    A volume represents a table [T] of FAT entries and the contents [C] of its clusters.
    Each operation of the driver on entries and clusters is described by what it does to
    them; allocating and freeing follow. *)

Section Vol.
Context {D : Type} `{BlockDeviceLaws D}.
Implicit Types fs : fat32_fs D.
Implicit Types T : Z -> Z.
Implicit Types C : Z -> list Z.

Definition valid_cluster fs (c : Z) : Prop := FAT32_FIRST_DATA_CLUSTER <= c < FAT32_FIRST_DATA_CLUSTER + total_clusters fs.
Definition cluster_at fs (c : Z) : list Z := sector_range (fs_dev fs) (data_start_sector fs + (c - 2) * spc fs) (Z.to_nat (spc fs)).

Record vol fs T C : Prop := mk_vol {
  vo_ok : vol_ok fs;
  vo_table : forall c, in_table fs c -> fat_at fs c = T c;
  vo_data : forall c, valid_cluster fs c -> cluster_at fs c = C c;
}.
(** The hints for allocation. *)
Definition hints fs : Z * Z * bool := (free_clusters fs, next_free_cluster fs, fsinfo_dirty fs).
(** Volumes that differ in the device, the cache and the cluster buffer only. *)
Definition alike fs fs' : Prop := same_shape fs fs' /\ hints fs' = hints fs.
#[export] Instance alike_preorder : PreOrder alike.
Proof. split; [by split|]. intros x y z [A1 A2] [B1 B2]. split; [by transitivity y|congruence]. Qed.

Lemma valid_in_table fs c : vol_ok fs -> valid_cluster fs c -> in_table fs c.
Proof.
  intros [[G1 G2 G3 G4 G5 G6 G7] _ _ _ _] Hc. unfold valid_cluster, in_table, fat_entries, FAT32_FIRST_DATA_CLUSTER, FAT32_CLUSTER_BAD in *.
  split; [lia|]. change (2 ^ 28) with 0x10000000. lia.
Qed.
Lemma valid_shape fs fs' c : same_shape fs fs' -> valid_cluster fs' c <-> valid_cluster fs c.
Proof. intros [_ _ _ _ E _ _ _ _]. unfold valid_cluster. by rewrite E. Qed.

Lemma land_mask c : 0 <= c < 2 ^ 28 -> Z.land c FAT32_CLUSTER_MASK = c.
Proof. intros Hc. unfold FAT32_CLUSTER_MASK. change 0x0FFFFFFF with (Z.ones 28). rewrite Z.land_ones by lia. by apply Z.mod_small. Qed.

Lemma is_valid_iff fs c : vol_ok fs -> 0 <= c < 2 ^ 28 -> fat32_cluster_is_valid fs c = true <-> valid_cluster fs c.
Proof.
  intros [[G1 G2 G3 G4 G5 G6 G7] _ _ _ _] Hc. unfold fat32_cluster_is_valid, valid_cluster. rewrite land_mask by done.
  unfold FAT32_FIRST_DATA_CLUSTER, FAT32_CLUSTER_BAD in *. rewrite u32_id by lia. lia.
Qed.
Lemma valid_true fs c : vol_ok fs -> valid_cluster fs c -> fat32_cluster_is_valid fs c = true.
Proof.
  intros Hv Hc. apply is_valid_iff; [done| |done]. destruct Hv as [[_ _ _ _ _ _ G7] _ _ _ _].
  unfold valid_cluster, FAT32_FIRST_DATA_CLUSTER, FAT32_CLUSTER_BAD in *. lia.
Qed.
Lemma not_eof c : c < FAT32_CLUSTER_EOF_MIN -> 0 <= c -> fat32_is_eof c = false.
Proof.
  intros Hc H0'. unfold fat32_is_eof. unfold FAT32_CLUSTER_EOF_MIN in *. rewrite land_mask by lia. by apply Z.leb_gt.
Qed.

Lemma valid_bound fs c : vol_ok fs -> valid_cluster fs c -> 2 <= c < FAT32_CLUSTER_BAD.
Proof. intros [[_ _ _ _ _ _ G7] _ _ _ _] Hc. unfold valid_cluster, FAT32_FIRST_DATA_CLUSTER in *. lia. Qed.
Lemma valid_not_eof fs c : vol_ok fs -> valid_cluster fs c -> fat32_is_eof c = false.
Proof. intros Hv Hc. pose proof (valid_bound fs c Hv Hc). unfold FAT32_CLUSTER_BAD in *. apply not_eof; unfold FAT32_CLUSTER_EOF_MIN; lia. Qed.

(** The sectors of a cluster are in the data region. *)
Lemma cluster_sectors fs c : vol_ok fs -> valid_cluster fs c ->
  fat32_cluster_to_sector fs c = data_start_sector fs + (c - 2) * spc fs /\
  data_start_sector fs <= data_start_sector fs + (c - 2) * spc fs /\
  data_start_sector fs + (c - 2) * spc fs + spc fs <= bd_sectors (fs_dev fs) /\ 0 < data_start_sector fs.
Proof.
  intros [[G1 G2 G3 G4 G5 G6 G7] [D1 D2] _ _ _] Hc. unfold valid_cluster, FAT32_FIRST_DATA_CLUSTER, FAT32_CLUSTER_BAD in *.
  assert (0 <= (c - 2) * spc fs) as H1' by nia. assert ((c - 2) * spc fs + spc fs <= total_clusters fs * spc fs) as H2' by nia.
  split; [|lia]. unfold fat32_cluster_to_sector, FAT32_FIRST_DATA_CLUSTER. fold (spc fs).
  rewrite (u32_id (c - 2)) by lia. rewrite (u32_id ((c - 2) * spc fs)) by lia. apply u32_id. lia.
Qed.

Lemma cluster_at_ok fs c : vol_ok fs -> valid_cluster fs c ->
  Z.of_nat (length (cluster_at fs c)) = bytes_per_cluster fs /\ bytes (cluster_at fs c).
Proof.
  intros Hv Hc. destruct (cluster_sectors fs c Hv Hc) as (_ & B1 & B2 & B3). pose proof (v_geometry _ Hv) as [G1 G2 G3 _ _ _ _].
  unfold cluster_at. split; [|apply sector_range_bytes; [apply Hv|lia..]].
  rewrite sector_range_length; [|apply Hv|lia..]. rewrite G3. unfold FAT32_SECTOR_SIZE. lia.
Qed.

(** Operations that keep the disk outside the FAT keep the clusters. *)
Lemma frame_clusters fs fs' c : vol_ok fs -> frame fs fs' -> valid_cluster fs c -> cluster_at fs' c = cluster_at fs c.
Proof.
  intros Hv [[E1 _ [E3 E3'] E4 _ _ _ _ _] _ _ F] Hc. destruct (cluster_sectors fs c Hv Hc) as (_ & B1 & B2 & B3).
  pose proof (v_geometry _ Hv) as [G1 G2 G3 G4 G5 _ _]. unfold cluster_at, spc in *. rewrite E1, E4.
  apply sector_range_ext. intros l Hl. apply F; [lia|]. unfold in_fat. lia.
Qed.

(** ** The operations on the table and the clusters *)

Lemma vol_read_entry fs T C c : vol fs T C -> in_table fs c ->
  exists fs', fat32_read_fat_entry c fs = (fs', T c) /\ vol fs' T C /\ same_shape fs fs' /\ hints fs' = hints fs /\
    cluster_buffer fs' = cluster_buffer fs.
Proof.
  intros [V1 V2 V3] Hc. destruct (read_fat_ok fs c V1 Hc) as (fs' & E & Hv & Hf & Ht). exists fs'. rewrite E, V2 by done.
  split; [done|]. pose proof Hf as [Hs Hb (E1 & E2 & E3) _]. split; [|split; [done|split; [unfold hints; congruence|done]]].
  split; [done|..].
  - intros c' Hc'%(in_table_shape _ _ _ Hs). by rewrite Ht, V2.
  - intros c' Hc'%(valid_shape _ _ _ Hs). rewrite (frame_clusters fs) by done. auto.
Qed.

Lemma vol_write_entry fs T C c v : vol fs T C -> in_table fs c -> 0 <= v < 2 ^ 28 ->
  exists fs', fat32_write_fat_entry c v fs = (fs', 0) /\ vol fs' (upd T c v) C /\ same_shape fs fs' /\ hints fs' = hints fs /\
    cluster_buffer fs' = cluster_buffer fs.
Proof.
  intros [V1 V2 V3] Hc Hr. destruct (write_fat_ok fs c v V1 Hc) as (fs' & E & Hv & Hf & Ht). exists fs'. split; [done|].
  pose proof Hf as [Hs Hb (E1 & E2 & E3) _]. split; [|split; [done|split; [unfold hints; congruence|done]]]. split; [done|..].
  - intros c' Hc'%(in_table_shape _ _ _ Hs). rewrite Ht by done. rewrite land_mask by done. unfold upd. case_if; [done|auto].
  - intros c' Hc'%(valid_shape _ _ _ Hs). rewrite (frame_clusters fs) by done. auto.
Qed.

Lemma vol_set_buffer fs T C b : vol fs T C -> vol (set_buffer b fs) T C.
Proof.
  intros [V1 V2 V3]. split; [|exact V2|exact V3]. destruct V1 as [W1 [W2 W2'] [W3 W3' W3a W3b] W4 W5].
  split; [by destruct W1|done|by split|done|done].
Qed.
Lemma vol_read_cluster fs T C c : vol fs T C -> valid_cluster fs c ->
  exists fs', fat32_read_cluster c fs = (fs', 0) /\ vol fs' T C /\ same_shape fs fs' /\ hints fs' = hints fs /\ cluster_buffer fs' = C c.
Proof.
  intros Hvol Hc. pose proof Hvol as [V1 V2 V3]. destruct (cluster_sectors fs c V1 Hc) as (E1 & B1 & B2 & B3).
  unfold fat32_read_cluster. rewrite (valid_true fs c V1 Hc), E1. cbn [negb]. fold (spc fs).
  pose proof (g_spc _ (v_geometry _ V1)). rewrite bd_read_ok by (first [apply V1|lia]). fold (cluster_at fs c).
  eexists. split; [done|]. split; [by apply vol_set_buffer|split; [by split|split; [done|by apply V3]]].
Qed.

Lemma vol_write_cluster fs T C c : vol fs T C -> valid_cluster fs c ->
  Z.of_nat (length (cluster_buffer fs)) = bytes_per_cluster fs -> bytes (cluster_buffer fs) ->
  exists fs', fat32_write_cluster c fs = (fs', 0) /\ vol fs' T (upd C c (cluster_buffer fs)) /\ same_shape fs fs' /\ hints fs' = hints fs /\
    cluster_buffer fs' = cluster_buffer fs.
Proof.
  intros [V1 V2 V3] Hc Hl Hb. destruct (cluster_sectors fs c V1 Hc) as (E1 & B1 & B2 & B3).
  unfold fat32_write_cluster. rewrite (v_rw _ V1), (valid_true fs c V1 Hc), E1. cbn [negb]. fold (spc fs).
  pose proof (v_geometry _ V1) as [G1 G2 G3 G4 G5 G6 G7].
  destruct (bd_write_ok (fs_dev fs) (data_start_sector fs + (c - 2) * spc fs) (spc fs) (cluster_buffer fs))
    as (d' & -> & W1 & W2 & W3 & W4); [apply V1|lia..|rewrite Hl, G3; lia|done|].
  exists (set_dev d' fs). split; [done|]. assert (same_shape fs (set_dev d' fs)) as Hs by (by split).
  split; [|done]. pose proof (v_cache _ V1) as [C1 C2 C3 C4].
  assert (forall l, in_fat fs l -> bd_sector d' l = bd_sector (fs_dev fs) l) as Hin.
  { intros l Hl'. pose proof (in_fat_disk fs l V1 Hl'). unfold in_fat in Hl'. apply W3. lia. }
  split.
  - eapply vol_shape; [done..|]. split; [done|done| |done]. intros i e Hi Hva. destruct (C3 i e Hi Hva) as (F1 & F2 & F3 & F4).
    split; [done|]. split; [done|]. split; [done|]. intros Hd. rewrite F4 by done. symmetry. by apply Hin.
  - intros c' Hc'. rewrite <- V2 by done. unfold fat_at, fat_data. simpl.
    destruct (cached (fat_cache fs) _); [done|]. simpl. rewrite Hin; [done|]. by apply entry_place.
  - intros c' Hc'. change (valid_cluster fs c') in Hc'. unfold upd, cluster_at. simpl. destruct (Z.eqb_spec c' c) as [->|Hne].
    + exact W4.
    + rewrite <- V3 by done. unfold cluster_at. destruct (cluster_sectors fs c' V1 Hc') as (_ & B1' & B2' & _).
      apply sector_range_ext. intros l Hl'. apply W3. unfold spc in *. simpl in Hl'. destruct (Z.lt_ge_cases c' c); [left|right]; nia.
Qed.

(** The next cluster of a chain. *)
Lemma vol_next_cluster fs T C c : vol fs T C -> valid_cluster fs c ->
  exists fs', fat32_next_cluster c fs = (fs', T c) /\ vol fs' T C /\ same_shape fs fs' /\ hints fs' = hints fs /\
    cluster_buffer fs' = cluster_buffer fs.
Proof.
  intros Hv Hc. unfold fat32_next_cluster. rewrite (valid_true fs c (vo_ok _ _ _ Hv) Hc). cbn [negb].
  apply vol_read_entry; [done|]. apply valid_in_table; [apply Hv|done].
Qed.

Lemma table_range fs T C c : vol fs T C -> in_table fs c -> 0 <= T c < 2 ^ 28.
Proof. intros [V1 V2 _] Hc. rewrite <- V2 by done. by apply fat_at_range. Qed.
End Vol.
