(* ===== verification/FatAlloc.v ===== *)
(** * FAT32: allocating and freeing clusters (fs/fat32/fat32.c) *)
From S2P Require Import Prelude Memory PageAlloc Ring Chain Block VfsBase Fat FatTable.

Section Alloc.
Context {D : Type} `{BlockDeviceLaws D}.
Implicit Types fs : fat32_fs D.
Implicit Types T : Z -> Z.
Implicit Types C : Z -> list Z.

Definition max_cluster fs : Z := FAT32_FIRST_DATA_CLUSTER + total_clusters fs.
(** Where the search starts. *)
Definition alloc_start fs : Z :=
  if next_free_cluster fs <? FAT32_FIRST_DATA_CLUSTER then FAT32_FIRST_DATA_CLUSTER else next_free_cluster fs.

(** The cluster that is [k] behind [start] when the last one is followed by the first. *)
Definition around fs (start k : Z) : Z := 2 + (start - 2 + k) mod total_clusters fs.

Lemma around_valid fs start k : 0 < total_clusters fs -> valid_cluster fs (around fs start k).
Proof.
  intros Ht. unfold valid_cluster, around, FAT32_FIRST_DATA_CLUSTER.
  pose proof (Z.mod_pos_bound (start - 2 + k) (total_clusters fs) Ht). lia.
Qed.
Lemma around_next fs start k : valid_cluster fs start ->
  around fs start (k + 1) = if max_cluster fs <=? around fs start k + 1 then 2 else around fs start k + 1.
Proof.
  intros Hs. unfold valid_cluster, around, max_cluster, FAT32_FIRST_DATA_CLUSTER in *.
  assert (0 < total_clusters fs) as Ht by lia. set (t := total_clusters fs) in *.
  replace (start - 2 + (k + 1)) with (start - 2 + k + 1) by lia. set (x := start - 2 + k).
  pose proof (Z.mod_pos_bound x t Ht). pose proof (Z.div_mod x t ltac:(lia)).
  destruct (Z.leb_spec (2 + t) (2 + x mod t + 1)) as [Hle|Hlt].
  - replace (x + 1) with ((x / t + 1) * t) by lia. by rewrite Z.mod_mul by lia.
  - replace (x + 1) with (x mod t + 1 + (x / t) * t) by lia. rewrite Z.mod_add by lia. rewrite Z.mod_small by lia. lia.
Qed.
Lemma around_covers fs start c : valid_cluster fs start -> valid_cluster fs c ->
  exists k, 0 <= k < total_clusters fs /\ c = around fs start k.
Proof.
  intros Hs Hc. unfold valid_cluster, around, FAT32_FIRST_DATA_CLUSTER in *. set (t := total_clusters fs) in *.
  destruct (Z.lt_ge_cases c start).
  - exists (c - start + t). split; [lia|]. replace (start - 2 + (c - start + t)) with (c - 2 + 1 * t) by lia.
    rewrite Z.mod_add by lia. rewrite Z.mod_small by lia. lia.
  - exists (c - start). split; [lia|]. rewrite Z.mod_small by lia. lia.
Qed.
Lemma around_inj fs start k k' : 0 <= k < total_clusters fs -> 0 <= k' < total_clusters fs ->
  around fs start k = around fs start k' -> k = k'.
Proof.
  intros Hk Hk' E. unfold around in E. set (t := total_clusters fs) in *.
  assert ((start - 2 + k) mod t = (start - 2 + k') mod t) as E' by lia.
  pose proof (Z.div_mod (start - 2 + k) t ltac:(lia)) as E1. pose proof (Z.div_mod (start - 2 + k') t ltac:(lia)) as E2.
  rewrite E' in E1. set (q := (start - 2 + k) / t) in *. set (q' := (start - 2 + k') / t) in *.
  assert (k - k' = t * (q - q')) as E3 by lia. assert (q = q') by nia. nia.
Qed.
Lemma around_0 fs start : valid_cluster fs start -> around fs start 0 = start.
Proof. intros Hs. unfold valid_cluster, around, FAT32_FIRST_DATA_CLUSTER in *. rewrite Z.mod_small by lia. lia. Qed.

(** The search came as far as [k] behind its start and found nothing free. *)
Definition searched fs T C (start : Z) fs0 (k : Z) : Prop :=
  vol fs T C /\ same_shape fs0 fs /\ hints fs = hints fs0 /\ cluster_buffer fs = cluster_buffer fs0 /\
  0 <= k < total_clusters fs0 /\ forall j, 0 <= j < k -> T (around fs0 start j) <> FAT32_CLUSTER_FREE.

(** What allocation does: a free cluster, the first from the start on, becomes the end of a
    chain, or there is none. *)
Record allocated_at fs0 T C (r : Z) fs : Prop := mk_allocated_at {
  al_first : exists k, 0 <= k < total_clusters fs0 /\ r = around fs0 (alloc_start fs0) k /\
    forall j, 0 <= j < k -> T (around fs0 (alloc_start fs0) j) <> FAT32_CLUSTER_FREE;
  al_free : T r = FAT32_CLUSTER_FREE;
  al_vol : vol fs (upd T r FAT32_CLUSTER_EOF) C;
  al_shape : same_shape fs0 fs;
  al_next : next_free_cluster fs = r + 1;
  al_buffer : cluster_buffer fs = cluster_buffer fs0;
}.
Record disk_full fs0 T C fs : Prop := mk_disk_full {
  df_none : forall c, valid_cluster fs0 c -> T c <> FAT32_CLUSTER_FREE;
  df_vol : vol fs T C;
  df_shape : same_shape fs0 fs;
  df_hints : hints fs = hints fs0;
  df_buffer : cluster_buffer fs = cluster_buffer fs0;
}.

Lemma alloc_round_ok fs0 T C fs k : vol_ok fs0 -> valid_cluster fs0 (alloc_start fs0) -> searched fs T C (alloc_start fs0) fs0 k ->
  match alloc_round (alloc_start fs0) (u32 (FAT32_FIRST_DATA_CLUSTER + total_clusters fs0)) (fs, around fs0 (alloc_start fs0) k) with
  | inl (fs', c) => searched fs' T C (alloc_start fs0) fs0 (k + 1) /\ c = around fs0 (alloc_start fs0) (k + 1)
  | inr (fs', r) => (r = 0 /\ disk_full fs0 T C fs') \/ (r <> 0 /\ allocated_at fs0 T C r fs')
  end.
Proof.
  intros Hv0 Hst (Hv & Hsh & Hh & Hb & Hk & Hno). set (start := alloc_start fs0) in *. set (c := around fs0 start k).
  pose proof (v_geometry _ Hv0) as [_ _ _ _ _ _ [G7 G7']]. pose proof (around_valid fs0 start k G7) as Hc. fold c in Hc.
  assert (valid_cluster fs c) as Hc1 by (by eapply valid_shape).
  assert (in_table fs c) as Ht by (apply valid_in_table; [apply Hv|done]). unfold alloc_round.
  unfold valid_cluster, FAT32_FIRST_DATA_CLUSTER, FAT32_CLUSTER_BAD in Hc, G7'. rewrite (u32_id (FAT32_FIRST_DATA_CLUSTER + _)) by (unfold FAT32_FIRST_DATA_CLUSTER; lia).
  destruct (vol_read_entry fs T C c Hv Ht) as (fs1 & -> & Hv1 & Hs1 & Hh1 & Hb1).
  destruct (Z.eqb_spec (T c) FAT32_CLUSTER_FREE) as [Ef|Nf].
  - destruct (vol_write_entry fs1 T C c FAT32_CLUSTER_EOF Hv1) as (fs2 & -> & Hv2 & Hs2 & Hh2 & Hb2);
      [by apply (in_table_shape fs)|unfold FAT32_CLUSTER_EOF; lia|]. cbn [negb Z.eqb]. right. split; [lia|].
    split; [by exists k|done|..].
    + destruct Hv2 as [A1 A2 A3]. split; [|exact A2|exact A3]. destruct A1 as [W1 [W2 W2'] [W3 W3' W3a W3b] W4 W5].
      split; [by destruct W1|done|by split|done|done].
    + transitivity fs; [done|]. transitivity fs1; [done|]. transitivity fs2; [done|by split].
    + simpl. apply u32_id. lia.
    + simpl. congruence.
  - rewrite (u32_id (c + 1)) by lia. pose proof (around_next fs0 start k Hst) as En. fold c in En.
    change FAT32_FIRST_DATA_CLUSTER with 2. unfold max_cluster, FAT32_FIRST_DATA_CLUSTER in En. rewrite <- En.
    assert (vol fs1 T C /\ same_shape fs0 fs1 /\ hints fs1 = hints fs0 /\ cluster_buffer fs1 = cluster_buffer fs0) as Hk1.
    { split; [done|]. split; [by transitivity fs|]. split; congruence. }
    assert (forall j, 0 <= j < k + 1 -> T (around fs0 start j) <> FAT32_CLUSTER_FREE) as Hno'.
    { intros j Hj. destruct (Z.eq_dec j k) as [->|]; [done|]. apply Hno. lia. }
    destruct (Z.eqb_spec (around fs0 start (k + 1)) start) as [Es|Ns].
    + left. split; [done|]. assert (k + 1 = total_clusters fs0) as Ek.
      { destruct (Z.eq_dec (k + 1) (total_clusters fs0)) as [|Hlt]; [done|]. exfalso.
        assert (k + 1 = 0); [|lia]. apply (around_inj fs0 start); [lia..|]. by rewrite around_0. }
      split; [|apply Hk1..]. intros c' Hc'. destruct (around_covers fs0 start c' Hst Hc') as (j & Hj & ->). apply Hno'. lia.
    + split; [|done]. destruct Hk1 as (K1 & K2 & K3 & K4). repeat (split; [done|]). split; [|done]. split; [lia|].
      destruct (Z.eq_dec (k + 1) (total_clusters fs0)) as [Ek|]; [|lia]. exfalso. apply Ns. rewrite Ek. unfold around.
      replace (start - 2 + total_clusters fs0) with (start - 2 + 1 * total_clusters fs0) by lia. rewrite Z.mod_add by lia.
      unfold valid_cluster, FAT32_FIRST_DATA_CLUSTER in Hst. rewrite Z.mod_small by lia. lia.
Qed.

Lemma fat_alloc_ok fs T C : vol fs T C -> valid_cluster fs (alloc_start fs) ->
  exists fs' r, fat32_alloc_cluster fs = Some (fs', r) /\
    ((r = 0 /\ disk_full fs T C fs') \/ (r <> 0 /\ allocated_at fs T C r fs')).
Proof.
  intros Hv Hs. unfold fat32_alloc_cluster. rewrite (v_rw _ (vo_ok _ _ _ Hv)). fold (alloc_start fs).
  pose proof (v_geometry _ (vo_ok _ _ _ Hv)) as [_ _ _ _ _ _ [G7 G7']].
  destruct (loop_rule (fun s => exists k, searched (fst s) T C (alloc_start fs) fs k /\ snd s = around fs (alloc_start fs) k)
    (fun r => (snd r = 0 /\ disk_full fs T C (fst r)) \/ (snd r <> 0 /\ allocated_at fs T C (snd r) (fst r)))
    (fun s => Z.to_nat (total_clusters fs - (snd s - alloc_start fs) mod total_clusters fs))
    (alloc_round (alloc_start fs) (u32 (FAT32_FIRST_DATA_CLUSTER + total_clusters fs))) (fs, alloc_start fs))
    as ([fs' r] & E & HQ).
  - exists 0. simpl. rewrite around_0 by done. split; [|done]. repeat (split; [done|]). intros j Hj. lia.
  - simpl. unfold FAT32_CLUSTER_BAD, FAT32_FIRST_DATA_CLUSTER in G7'.
    pose proof (Z.mod_pos_bound (alloc_start fs - alloc_start fs) (total_clusters fs) G7). lia.
  - intros [fs1 c] (k & Hk & Ec). simpl in Ec. subst c.
    pose proof (alloc_round_ok fs T C fs1 k (vo_ok _ _ _ Hv) Hs Hk) as Hr.
    destruct (alloc_round _ _ _) as [[fs2 c]|[fs2 r]]; [|done]. destruct Hr as [Hk2 ->]. split; [by exists (k + 1)|]. simpl.
    destruct Hk as (_ & _ & _ & _ & Hb & _), Hk2 as (_ & _ & _ & _ & Hb2 & _).
    assert (forall j, 0 <= j < total_clusters fs -> (around fs (alloc_start fs) j - alloc_start fs) mod total_clusters fs = j) as Hm.
    { intros j Hj. unfold around. set (t := total_clusters fs) in *. replace (2 + (alloc_start fs - 2 + j) mod t - alloc_start fs)
        with ((alloc_start fs - 2 + j) mod t - (alloc_start fs - 2)) by lia. rewrite Zminus_mod_idemp_l.
      replace (alloc_start fs - 2 + j - (alloc_start fs - 2)) with j by lia. by apply Z.mod_small. }
    rewrite !Hm by lia. lia.
  - exists fs', r. by split.
Qed.

(** ** The free clusters from the hint on *)

Definition frees fs T : list Z :=
  filter (fun c => T c = FAT32_CLUSTER_FREE) (seqZ (alloc_start fs) (max_cluster fs - alloc_start fs)).

Lemma elem_frees fs T c : c ∈ frees fs T <-> T c = FAT32_CLUSTER_FREE /\ alloc_start fs <= c < max_cluster fs.
Proof. unfold frees. rewrite list_elem_of_filter, elem_of_seqZ. split; intros [? ?]; split; try done; lia. Qed.

Lemma filter_ext_in (P Q : Z -> Prop) `{!forall x, Decision (P x)} `{!forall x, Decision (Q x)} (l : list Z) :
  (forall x, x ∈ l -> P x <-> Q x) -> filter P l = filter Q l.
Proof.
  induction l as [|a l IH]; intros Hl; [done|]. rewrite !filter_cons, IH by (intros; apply Hl; by apply list_elem_of_further).
  specialize (Hl a (list_elem_of_here _ _)). destruct (decide (P a)), (decide (Q a)); tauto.
Qed.

(** The list of the free clusters from a point on, after its first was taken. *)
Lemma filter_seqZ_head (P : Z -> Prop) `{!forall x, Decision (P x)} a n c l :
  filter P (seqZ a n) = c :: l ->
  P c /\ a <= c < a + n /\ (forall x, a <= x < c -> ~ P x) /\ filter P (seqZ (c + 1) (a + n - (c + 1))) = l.
Proof.
  remember (Z.to_nat n) as m eqn:Em. revert a n Em. induction m as [|m IH]; intros a n Em Hf.
  { rewrite seqZ_nil in Hf by lia. done. }
  rewrite seqZ_cons in Hf by lia. rewrite filter_cons in Hf. destruct (decide (P a)) as [Ha|Ha].
  - injection Hf as <- <-. split; [done|]. split; [lia|]. split; [intros x Hx; lia|].
    replace (a + n - (a + 1)) with (Z.pred n) by lia. by replace (a + 1) with (Z.succ a) by lia.
  - destruct (IH (Z.succ a) (Z.pred n) ltac:(lia) Hf) as (H1' & H2' & H3' & H4'). split; [done|]. split; [lia|]. split.
    + intros x Hx. destruct (Z.eq_dec x a) as [->|]; [done|]. apply H3'. lia.
    + replace (Z.succ a + Z.pred n - (c + 1)) with (a + n - (c + 1)) in H4' by lia. done.
Qed.

(** While a free cluster is left there, allocation takes the first. *)
Lemma alloc_first fs T C c l : vol fs T C -> frees fs T = c :: l ->
  exists fs', fat32_alloc_cluster fs = Some (fs', c) /\ valid_cluster fs c /\ T c = FAT32_CLUSTER_FREE /\
    vol fs' (upd T c FAT32_CLUSTER_EOF) C /\ same_shape fs fs' /\ cluster_buffer fs' = cluster_buffer fs /\
    frees fs' (upd T c FAT32_CLUSTER_EOF) = l.
Proof.
  intros Hv Hf. destruct (filter_seqZ_head _ _ _ _ _ Hf) as (Hc & Hr & Hmin & Hl).
  assert (2 <= alloc_start fs) as Ha by (unfold alloc_start, FAT32_FIRST_DATA_CLUSTER; case_if; lia). unfold max_cluster, FAT32_FIRST_DATA_CLUSTER in *.
  assert (valid_cluster fs (alloc_start fs)) as Hs by (unfold valid_cluster, FAT32_FIRST_DATA_CLUSTER; lia).
  assert (valid_cluster fs c) as Hvc by (unfold valid_cluster, FAT32_FIRST_DATA_CLUSTER; lia).
  destruct (fat_alloc_ok fs T C Hv Hs) as (fs' & r & E & [[-> Hfull]|[Hr0 Hal]]).
  { exfalso. by apply (df_none _ _ _ _ Hfull c Hvc). }
  destruct Hal as [(k & Hk & Er & Hno) Hfr Hv' Hsh Hnx Hb]. assert (around fs (alloc_start fs) (c - alloc_start fs) = c) as Ec.
  { unfold around. rewrite Z.mod_small by lia. lia. }
  assert (k <= c - alloc_start fs) as Hle.
  { destruct (Z.le_gt_cases k (c - alloc_start fs)) as [|Hgt]; [done|]. exfalso. apply (Hno (c - alloc_start fs)); [lia|]. by rewrite Ec. }
  assert (r = alloc_start fs + k) as Er' by (rewrite Er; unfold around; rewrite Z.mod_small by lia; lia).
  assert (r = c) as ->. { destruct (Z.lt_ge_cases r c); [|lia]. exfalso. apply (Hmin r); [lia|done]. }
  exists fs'. repeat (split; [done|]). unfold frees, alloc_start, max_cluster. rewrite Hnx.
  assert ((c + 1 <? FAT32_FIRST_DATA_CLUSTER) = false) as -> by (apply Z.ltb_ge; unfold FAT32_FIRST_DATA_CLUSTER; lia).
  destruct Hsh as [_ _ _ _ -> _ _ _ _]. rewrite <- Hl. unfold FAT32_FIRST_DATA_CLUSTER.
  replace (alloc_start fs + (2 + total_clusters fs - alloc_start fs) - (c + 1)) with (2 + total_clusters fs - (c + 1)) by lia.
  apply filter_ext_in. intros x [Hx _]%elem_of_seqZ. unfold upd. by rewrite (proj2 (Z.eqb_neq x c)) by lia.
Qed.

(** ** Chains *)

(** The clusters of a file or directory, linked by the table up to an end mark. *)
Fixpoint chain fs T (l : list Z) : Prop :=
  match l with
  | [] => False
  | c :: l' => valid_cluster fs c /\
      match l' with [] => fat32_is_eof (T c) = true | d :: _ => T c = d end /\
      match l' with [] => True | _ => chain fs T l' end
  end.

Lemma chain_cons fs T c d l : chain fs T (c :: d :: l) <-> valid_cluster fs c /\ T c = d /\ chain fs T (d :: l).
Proof. done. Qed.
Lemma chain_valid fs T l c : chain fs T l -> c ∈ l -> valid_cluster fs c.
Proof.
  revert c. induction l as [|a l IH]; intros c Hl Hc; [by apply not_elem_of_nil in Hc|]. apply elem_of_cons in Hc as [->|Hc]; [apply Hl|].
  destruct l as [|b l]; [by apply not_elem_of_nil in Hc|]. apply IH; [apply Hl|done].
Qed.
Lemma chain_ext fs fs' T T' l : same_shape fs fs' -> (forall c, c ∈ l -> T' c = T c) -> chain fs T l -> chain fs' T' l.
Proof.
  intros Hs. induction l as [|a l IH]; intros He Hl; [done|]. pose proof (He a (list_elem_of_here _ _)) as Ea.
  destruct l as [|b l]; simpl in *; rewrite Ea; (split; [by apply (valid_shape fs); [|apply Hl]|]); [apply Hl|]. split; [apply Hl|].
  apply IH; [intros; apply He; by apply list_elem_of_further|apply Hl].
Qed.

(** The table determines the chain from its first cluster. *)
Lemma chain_det fs T l1 l2 c : vol_ok fs -> chain fs T (c :: l1) -> chain fs T (c :: l2) -> l1 = l2.
Proof.
  intros Hv. revert c l2. induction l1 as [|a l1 IH]; intros c [|b l2] H1' H2'; [done|..].
  - exfalso. destruct H1' as (_ & He & _), H2' as (_ & Ht & Hb & _). rewrite Ht in He.
    by rewrite (valid_not_eof fs) in He.
  - exfalso. destruct H2' as (_ & He & _), H1' as (_ & Ht & Hb & _). rewrite Ht in He.
    by rewrite (valid_not_eof fs) in He.
  - apply chain_cons in H1' as (_ & E1 & H1'), H2' as (_ & E2 & H2'). assert (b = a) as -> by congruence. f_equal. by eapply IH.
Qed.
Lemma chain_suffix fs T l1 c l2 : chain fs T (l1 ++ c :: l2) -> chain fs T (c :: l2).
Proof.
  induction l1 as [|a l1 IH]; [done|]. intros Hl. apply IH. destruct l1 as [|b l1]; apply Hl.
Qed.
Lemma chain_nodup fs T l : vol_ok fs -> chain fs T l -> NoDup l.
Proof.
  intros Hv. induction l as [|c l IH]; intros Hl; [done|]. apply NoDup_cons. split.
  - intros (l1 & l2 & ->)%list_elem_of_split. pose proof (chain_suffix fs T (c :: l1) c l2 Hl) as Hs.
    pose proof (chain_det fs T _ _ c Hv Hl Hs) as E. apply (f_equal length) in E. rewrite length_app in E. simpl in E. lia.
  - destruct l as [|b l]; [by apply NoDup_nil|]. apply IH, Hl.
Qed.

(** A chain is no longer than the volume. *)
Lemma chain_short fs T l : vol_ok fs -> chain fs T l -> Z.of_nat (length l) <= total_clusters fs.
Proof.
  intros Hv Hl. assert (length l <= length (seqZ 2 (total_clusters fs)))%nat as Hle.
  { apply submseteq_length, NoDup_submseteq; [by eapply chain_nodup|]. intros x Hx.
    pose proof (chain_valid _ _ _ x Hl Hx) as Hvx. unfold valid_cluster, FAT32_FIRST_DATA_CLUSTER in Hvx. apply elem_of_seqZ. lia. }
  rewrite length_seqZ in Hle. pose proof (g_total _ (v_geometry _ Hv)). lia.
Qed.

Lemma vol_ext fs T T' C C' : vol fs T C -> (forall c, in_table fs c -> T' c = T c) -> (forall c, valid_cluster fs c -> C' c = C c) ->
  vol fs T' C'.
Proof. intros [V1 V2 V3] Ht Hc. split; [done|..]; intros c Hin; [rewrite Ht by done|rewrite Hc by done]; auto. Qed.

(** ** Freeing a chain *)

Definition cleared T (l : list Z) (c : Z) : Z := if bool_decide (c ∈ l) then FAT32_CLUSTER_FREE else T c.

Lemma cleared_cons T c l x : cleared T (c :: l) x = cleared (upd T c FAT32_CLUSTER_FREE) l x.
Proof.
  unfold cleared, upd. destruct (Z.eqb_spec x c) as [->|Hne].
  - rewrite bool_decide_true by apply list_elem_of_here. by case_bool_decide.
  - case_bool_decide as H1'; case_bool_decide as H2'; try done; exfalso; rewrite elem_of_cons in H1'; tauto.
Qed.

Lemma fat_free_loop l : forall fs T C c n, vol fs T C -> chain fs T (c :: l) ->
  exists fs', while_nat (length (c :: l)) free_round (fs, c, n) = inr (fs', u32 (n + Z.of_nat (length (c :: l))), 0) /\
    vol fs' (cleared T (c :: l)) C /\ same_shape fs fs' /\ hints fs' = hints fs /\ cluster_buffer fs' = cluster_buffer fs.
Proof.
  induction l as [|d l IH]; intros fs T C c n Hv Hl; pose proof (proj1 Hl) as Hc;
    pose proof (valid_in_table fs c (vo_ok _ _ _ Hv) Hc) as Ht; cbn [length while_nat]; unfold free_round at 1;
    rewrite (valid_true fs c (vo_ok _ _ _ Hv) Hc);
    destruct (vol_read_entry fs T C c Hv Ht) as (fs1 & -> & Hv1 & Hs1 & Hh1 & Hb1);
    (destruct (vol_write_entry fs1 T C c FAT32_CLUSTER_FREE Hv1) as (fs2 & -> & Hv2 & Hs2 & Hh2 & Hb2);
       [by apply (in_table_shape fs)|unfold FAT32_CLUSTER_FREE; lia|]); cbn [negb Z.eqb].
  - destruct Hl as (_ & -> & _). exists fs2. split; [by rewrite Z.add_1_r|]. split; [|split; [by transitivity fs1|split; congruence]].
    eapply vol_ext; [exact Hv2| |done]. intros x _. rewrite cleared_cons. unfold cleared. by rewrite bool_decide_false by (apply not_elem_of_nil).
  - pose proof (chain_nodup fs T _ (vo_ok _ _ _ Hv) Hl) as Hnd. apply NoDup_cons in Hnd as [Hni _].
    apply chain_cons in Hl as (_ & Ed & Hl). pose proof (chain_valid _ _ _ d Hl (list_elem_of_here _ _)) as Hd. rewrite Ed.
    rewrite (valid_not_eof fs) by (done || apply Hv).
    destruct (IH fs2 (upd T c FAT32_CLUSTER_FREE) C d (u32 (n + 1)) Hv2) as (fs3 & E & Hv3 & Hs3 & Hh3 & Hb3).
    { eapply chain_ext; [by transitivity fs1| |exact Hl]. intros x Hx. apply upd_other. by intros ->. }
    cbn [length while_nat] in E |- *. rewrite E. exists fs3. split.
    { do 3 f_equal. unfold u32. rewrite Zplus_mod_idemp_l. f_equal. lia. }
    split; [|split; [transitivity fs1; [done|by transitivity fs2]|split; congruence]].
    eapply vol_ext; [exact Hv3| |done]. intros x _. apply cleared_cons.
Qed.

Lemma free_ok fs T C c l : vol fs T C -> chain fs T (c :: l) ->
  exists fs', fat32_free_chain c fs = Some (fs', 0) /\ vol fs' (cleared T (c :: l)) C /\ same_shape fs fs' /\
    cluster_buffer fs' = cluster_buffer fs /\ next_free_cluster fs' = next_free_cluster fs /\ fsinfo_dirty fs' = true /\
    free_clusters fs' = if free_clusters fs =? 0xFFFFFFFF then free_clusters fs
                        else u32 (free_clusters fs + Z.of_nat (length (c :: l))).
Proof.
  intros Hv Hl. unfold fat32_free_chain. rewrite (v_rw _ (vo_ok _ _ _ Hv)).
  destruct (fat_free_loop l fs T C c 0 Hv Hl) as (fs1 & E & Hv1 & Hs1 & Hh1 & Hb1).
  pose proof (chain_short fs T _ (vo_ok _ _ _ Hv) Hl) as Hn.
  pose proof (g_total _ (v_geometry _ (vo_ok _ _ _ Hv))) as G. unfold FAT32_CLUSTER_BAD, FAT32_FIRST_DATA_CLUSTER in G.
  rewrite (loop_nat _ _ _ _ E) by lia. cbn [mbind option_bind negb Z.eqb]. rewrite Z.add_0_l. injection Hh1 as E1 E2 E3.
  assert (forall d, vol fs1 (cleared T (c :: l)) C -> vol (set_fsinfo_dirty true (set_hints d (next_free_cluster fs1) fs1)) (cleared T (c :: l)) C) as Hw.
  { intros d [A1 A2 A3]. split; [|exact A2|exact A3]. destruct A1 as [W1 [W2 W2'] [W3 W3' W3a W3b] W4 W5].
    split; [by destruct W1|done|by split|done|done]. }
  eexists. split; [done|]. rewrite E1. destruct (free_clusters fs =? 0xFFFFFFFF) eqn:Ef; cbn [negb].
  - split; [by specialize (Hw (free_clusters fs1) Hv1); destruct fs1|]. split; [transitivity fs1; [done|by split]|]. split; [done|].
    split; [simpl; congruence|]. split; [done|]. simpl. congruence.
  - split; [by apply Hw|]. split; [transitivity fs1; [done|by split]|]. split; [done|]. split; [simpl; congruence|]. split; [done|].
    simpl. unfold u32. by rewrite Zplus_mod_idemp_r.
Qed.

(** C15: fat32_alloc_cluster takes the first free cluster from the hint on, starting over at
    the first cluster behind the last one, marks it as the end of a chain and changes no
    other entry of the table and no data; it returns 0 exactly when every cluster of the
    volume is in use. The search ends, whatever the cache holds, as long as the hint lies
    within the volume. *)
Theorem fat_alloc_contract fs T C : vol fs T C -> valid_cluster fs (alloc_start fs) ->
  exists fs' r, fat32_alloc_cluster fs = Some (fs', r) /\ same_shape fs fs' /\
    (r = 0 <-> forall c, valid_cluster fs c -> T c <> FAT32_CLUSTER_FREE) /\
    if r =? 0 then vol fs' T C
    else valid_cluster fs r /\ T r = FAT32_CLUSTER_FREE /\ vol fs' (upd T r FAT32_CLUSTER_EOF) C /\
         (forall c, alloc_start fs <= c < r -> T c <> FAT32_CLUSTER_FREE) /\
         (r < alloc_start fs -> forall c, valid_cluster fs c -> alloc_start fs <= c \/ c < r -> T c <> FAT32_CLUSTER_FREE).
Proof.
  intros Hv Hs. destruct (fat_alloc_ok fs T C Hv Hs) as (fs' & r & E & [[-> [F1 F2 F3 F4 F5]]|[Hr [(k & Hk & Er & Hno) A2 A3 A4 A5 A6]]]).
  { exists fs', 0. split; [done|]. by split. }
  exists fs', r. split; [done|]. split; [done|]. assert (valid_cluster fs r) as Hvr by (rewrite Er; apply around_valid; lia).
  split; [split; [done|]; intros Hn; by destruct (Hn r)|]. rewrite (proj2 (Z.eqb_neq r 0) Hr). split; [done|]. split; [done|]. split; [done|].
  assert (forall c j, 0 <= j < total_clusters fs -> c = around fs (alloc_start fs) j -> j < k -> T c <> FAT32_CLUSTER_FREE) as Hin.
  { intros c j Hj -> Hlt. apply Hno. lia. }
  unfold valid_cluster, FAT32_FIRST_DATA_CLUSTER in Hvr, Hs. set (a := alloc_start fs) in *. set (t := total_clusters fs) in *.
  assert ((r = a + k /\ a + k < 2 + t) \/ (r = a + k - t /\ 2 + t <= a + k)) as Hcase.
  { rewrite Er. unfold around. fold t. fold a. destruct (Z.lt_ge_cases (a + k) (2 + t)).
    - left. rewrite Z.mod_small by lia. lia.
    - right. replace (a - 2 + k) with (a - 2 + k - t + 1 * t) by lia. rewrite Z.mod_add by lia. rewrite Z.mod_small by lia. lia. }
  split.
  - intros c Hc. apply (Hin c (c - a)); [lia| |lia]. unfold around. fold t a. rewrite Z.mod_small by lia. lia.
  - intros Hlt c Hc Hor. unfold valid_cluster, FAT32_FIRST_DATA_CLUSTER in Hc. fold t in Hc. destruct Hor as [Hge|Hlow].
    + apply (Hin c (c - a)); [lia| |lia]. unfold around. fold t a. rewrite Z.mod_small by lia. lia.
    + apply (Hin c (c - a + t)); [lia| |lia]. unfold around. fold t a. replace (a - 2 + (c - a + t)) with (c - 2 + 1 * t) by lia.
      rewrite Z.mod_add by lia. rewrite Z.mod_small by lia. lia.
Qed.

(** fat32_free_chain frees exactly the clusters of a chain: their entries become free,
    every other entry and all data stay, the count of free clusters grows by their number,
    and the clusters were all different. *)
Theorem fat_free_contract fs T C c l : vol fs T C -> chain fs T (c :: l) ->
  exists fs', fat32_free_chain c fs = Some (fs', 0) /\ NoDup (c :: l) /\
    vol fs' (fun x => if bool_decide (x ∈ c :: l) then FAT32_CLUSTER_FREE else T x) C /\
    (free_clusters fs <> 0xFFFFFFFF -> free_clusters fs' = u32 (free_clusters fs + Z.of_nat (length (c :: l)))).
Proof.
  intros Hv Hl. destruct (free_ok fs T C c l Hv Hl) as (fs' & E & Hv' & _ & _ & _ & _ & Hf). exists fs'. split; [done|].
  split; [by eapply chain_nodup; [apply Hv|]|]. split; [done|]. intros Hne. rewrite Hf. by rewrite (proj2 (Z.eqb_neq _ _) Hne).
Qed.

(** The hint behind the last cluster: when the FAT has an entry there and it is zero, a
    cluster that the volume does not have is handed out. *)
Theorem fat_alloc_past_end fs T C : vol fs T C -> next_free_cluster fs = max_cluster fs -> in_table fs (max_cluster fs) ->
  T (max_cluster fs) = FAT32_CLUSTER_FREE ->
  exists fs', fat32_alloc_cluster fs = Some (fs', max_cluster fs) /\ ~ valid_cluster fs (max_cluster fs).
Proof.
  intros Hv Hn Ht Hz. unfold fat32_alloc_cluster. rewrite (v_rw _ (vo_ok _ _ _ Hv)), Hn.
  pose proof (g_total _ (v_geometry _ (vo_ok _ _ _ Hv))) as G.
  rewrite (proj2 (Z.ltb_ge _ _)) by (unfold max_cluster; lia).
  assert (exists fs', alloc_round (max_cluster fs) (u32 (FAT32_FIRST_DATA_CLUSTER + total_clusters fs)) (fs, max_cluster fs) =
    inr (fs', max_cluster fs)) as [fs' E].
  { unfold alloc_round. destruct (vol_read_entry fs T C _ Hv Ht) as (fs1 & -> & Hv1 & Hs1 & _). rewrite Hz, Z.eqb_refl.
    destruct (vol_write_entry fs1 T C (max_cluster fs) FAT32_CLUSTER_EOF Hv1) as (fs2 & -> & _);
      [by apply (in_table_shape fs)|unfold FAT32_CLUSTER_EOF; lia|]. by eexists. }
  exists fs'. split; [|unfold valid_cluster, max_cluster; lia]. apply (loop_nat _ 1); [|lia]. cbn [while_nat]. by rewrite E.
Qed.

(** The same hint on a full volume: the search never comes back to its start. *)
Theorem fat_alloc_full_hangs fs T C : vol fs T C -> next_free_cluster fs = max_cluster fs -> in_table fs (max_cluster fs) ->
  T (max_cluster fs) <> FAT32_CLUSTER_FREE -> (forall c, valid_cluster fs c -> T c <> FAT32_CLUSTER_FREE) ->
  fat32_alloc_cluster fs = None.
Proof.
  intros Hv Hn Ht Hm Hfull. unfold fat32_alloc_cluster. rewrite (v_rw _ (vo_ok _ _ _ Hv)), Hn.
  pose proof (g_total _ (v_geometry _ (vo_ok _ _ _ Hv))) as G. unfold max_cluster, FAT32_FIRST_DATA_CLUSTER, FAT32_CLUSTER_BAD in *.
  rewrite (proj2 (Z.ltb_ge _ _)) by lia. rewrite u32_id by lia.
  apply (loop_never (fun s => vol (fst s) T C /\ same_shape fs (fst s) /\ (valid_cluster fs (snd s) \/ snd s = 2 + total_clusters fs))).
  { split; [done|]. split; [reflexivity|by right]. }
  intros [fs1 c] (Hv1 & Hs1 & Hc). simpl in *. unfold valid_cluster, FAT32_FIRST_DATA_CLUSTER in *.
  assert (T c <> FAT32_CLUSTER_FREE /\ in_table fs c) as [Hf Hin].
  { destruct Hc as [Hc| ->]; [|done]. split; [by apply Hfull|]. apply valid_in_table; [apply Hv|done]. }
  apply (in_table_shape fs fs1 c Hs1) in Hin.
  destruct (vol_read_entry fs1 T C c Hv1 Hin) as (fs2 & -> & Hv2 & Hs2 & _). rewrite (proj2 (Z.eqb_neq _ _) Hf).
  rewrite (u32_id (c + 1)) by lia. unfold FAT32_FIRST_DATA_CLUSTER.
  destruct (Z.leb_spec (2 + total_clusters fs) (c + 1)); (rewrite (proj2 (Z.eqb_neq _ _)) by lia); eexists; (split; [done|]); simpl;
    (split; [done|]); (split; [by transitivity fs1|]); left; lia.
Qed.
End Alloc.
