(* ===== verification/FatFile.v ===== *)
(** * FAT32: the contents of files (fs/fat32/fat32.c)

    A file is a chain of clusters; its bytes are those of its clusters up to its size.
    Reading returns them, writing replaces a piece of them and extends the chain, and
    nothing outside the file's clusters changes. *)
From S2P Require Import Prelude Memory PageAlloc Ring Chain Block VfsBase Fat FatTable FatAlloc.

(** ** FAT32: the fields of a directory entry (fs/fat32/fat32.h) *)

(** The 32 bytes of an entry. *)
Definition is_entry (e : list Z) : Prop := length e = sizeof_dir_entry /\ bytes e.

Lemma entry_cluster_val e : is_entry e -> fat32_entry_cluster e = de_cluster_high e * 65536 + de_cluster_low e.
Proof.
  intros [_ Hb]. unfold fat32_entry_cluster, de_cluster_high, de_cluster_low.
  pose proof (get16_range e 20 Hb) as Hh. pose proof (get16_range e 26 Hb) as Hl.
  rewrite Z.shiftl_mul_pow2 by lia. rewrite u32_id by lia.
  rewrite <- Z.lxor_lor, <- Z.add_nocarry_lxor; [lia|..]; bitwise; rewrite Z.land_spec, Z.bits_0;
    (destruct (Z.lt_ge_cases k 16); [by rewrite Z.mul_pow2_bits_low by lia|]);
    (assert (Z.testbit (get16 e 26) k = false) as ->; [|apply andb_false_r]);
    rewrite <- (Z.mod_small (get16 e 26) (2 ^ 16)) by lia; by apply Z.mod_pow2_bits_high.
Qed.
Lemma entry_cluster_range e : is_entry e -> 0 <= fat32_entry_cluster e < 2 ^ 32.
Proof.
  intros He. rewrite entry_cluster_val by done. destruct He as [_ Hb]. unfold de_cluster_high, de_cluster_low.
  pose proof (get16_range e 20 Hb). pose proof (get16_range e 26 Hb). lia.
Qed.

Lemma set_cluster_is_entry c e : is_entry e -> is_entry (fat32_entry_set_cluster c e).
Proof.
  intros [Hl Hb]. unfold fat32_entry_set_cluster, sizeof_dir_entry in *.
  split; [rewrite !splice_length; [done|simpl; lia..|rewrite splice_length by (simpl; lia); simpl; lia]|].
  repeat apply splice_bytes; auto with word.
Qed.
Lemma set_size_is_entry n e : is_entry e -> is_entry (set_file_size n e).
Proof.
  intros [Hl Hb]. unfold set_file_size, sizeof_dir_entry in *. split; [rewrite splice_length; [done|simpl; lia]|].
  apply splice_bytes; auto with word.
Qed.

(** The first cluster that was stored. *)
Lemma set_cluster_read c e : is_entry e -> 0 <= c < 2 ^ 32 -> fat32_entry_cluster (fat32_entry_set_cluster c e) = c.
Proof.
  intros He Hc. rewrite entry_cluster_val by (by apply set_cluster_is_entry). destruct He as [Hl Hb]. unfold sizeof_dir_entry in Hl.
  unfold de_cluster_high, de_cluster_low, fat32_entry_set_cluster. rewrite Z.shiftr_div_pow2 by lia.
  change 0xFFFF with (Z.ones 16). rewrite Z.land_ones by lia.
  rewrite get16_splice_same by (first [apply u16_range|rewrite splice_length by (simpl; lia); lia]).
  rewrite get16_splice_other by (first [rewrite splice_length by (simpl; lia); simpl; lia|simpl; lia]).
  rewrite get16_splice_same by (first [apply u16_range|lia]). unfold u16. dlia.
Qed.
Lemma set_cluster_size c e : is_entry e -> de_file_size (fat32_entry_set_cluster c e) = de_file_size e.
Proof.
  intros [Hl _]. unfold sizeof_dir_entry in Hl. unfold de_file_size, fat32_entry_set_cluster.
  rewrite get32_splice_out by (first [rewrite splice_length by (simpl; lia); simpl; lia|simpl; lia]). by rewrite get32_splice_out by (simpl; lia).
Qed.
Lemma set_cluster_attr c e a : is_entry e -> has_attr (fat32_entry_set_cluster c e) a = has_attr e a.
Proof.
  intros [Hl _]. unfold sizeof_dir_entry in Hl. unfold has_attr, de_attr, fat32_entry_set_cluster.
  rewrite byte_at_splice_out by (first [rewrite splice_length by (simpl; lia); simpl; lia|simpl; lia]). by rewrite byte_at_splice_out by (simpl; lia).
Qed.
Lemma set_size_read n e : is_entry e -> 0 <= n < 2 ^ 32 -> de_file_size (set_file_size n e) = n.
Proof. intros [Hl _] Hn. unfold sizeof_dir_entry in Hl. unfold de_file_size, set_file_size. apply get32_splice_same; lia. Qed.
Lemma set_size_cluster n e : is_entry e -> fat32_entry_cluster (set_file_size n e) = fat32_entry_cluster e.
Proof.
  intros [Hl _]. unfold sizeof_dir_entry in Hl. unfold fat32_entry_cluster, de_cluster_high, de_cluster_low, set_file_size.
  by rewrite !get16_splice_other by (simpl; lia).
Qed.
Lemma set_size_attr n e a : is_entry e -> has_attr (set_file_size n e) a = has_attr e a.
Proof. intros [Hl _]. unfold sizeof_dir_entry in Hl. unfold has_attr, de_attr, set_file_size. by rewrite byte_at_splice_out by (simpl; lia). Qed.
Lemma file_size_range e : is_entry e -> 0 <= de_file_size e < 2 ^ 32.
Proof. intros [_ Hb]. by apply get32_range. Qed.

(** ** Chains, contents and reading *)

(** Pieces of two strings that follow each other. *)
Lemma splice_app off s1 s2 a r : length a = (off + length s1)%nat ->
  splice off (s1 ++ s2) (a ++ r) = splice off s1 a ++ splice 0 s2 r.
Proof.
  intros Hl. unfold splice. rewrite take_app_le by lia. rewrite length_app, drop_app_ge by lia.
  rewrite (drop_ge a) by lia. rewrite take_0, app_nil_r, app_nil_l, <- !app_assoc. do 4 f_equal. lia.
Qed.
Lemma splice_app_l off s a r : (off + length s <= length a)%nat -> splice off s (a ++ r) = splice off s a ++ r.
Proof. intros Hl. unfold splice. rewrite take_app_le, drop_app_le by lia. by rewrite <- !app_assoc. Qed.
Lemma splice_app_r off s a r : (length a <= off)%nat -> splice off s (a ++ r) = a ++ splice (off - length a) s r.
Proof.
  intros Hl. unfold splice. rewrite take_app_ge, drop_app_ge by lia. rewrite <- app_assoc. do 4 f_equal. lia.
Qed.

Section Files.
Context {D : Type} `{BlockDeviceLaws D}.
Implicit Types fs : fat32_fs D.
Implicit Types T : Z -> Z.
Implicit Types C : Z -> list Z.

(** The bytes of a chain of clusters. *)
Definition contents C (l : list Z) : list Z := concat (map C l).

Lemma cluster_length fs T C c : vol fs T C -> valid_cluster fs c -> Z.of_nat (length (C c)) = bytes_per_cluster fs /\ bytes (C c).
Proof. intros [V1 V2 V3] Hc. rewrite <- V3 by done. by apply cluster_at_ok. Qed.
Lemma bpc_pos fs : vol_ok fs -> 0 < bytes_per_cluster fs.
Proof. intros [[G1 G2 G3 _ _ _ _] _ _ _ _]. rewrite G3. unfold FAT32_SECTOR_SIZE. lia. Qed.
Lemma bpc_shape fs fs' : same_shape fs fs' -> bytes_per_cluster fs' = bytes_per_cluster fs.
Proof. by intros [_ E _ _ _ _ _ _ _]. Qed.
Lemma contents_length fs T C l : vol fs T C -> (forall c, c ∈ l -> valid_cluster fs c) ->
  Z.of_nat (length (contents C l)) = Z.of_nat (length l) * bytes_per_cluster fs.
Proof.
  intros Hv. unfold contents. induction l as [|c l IH]; intros Hl; cbn [map concat length]; [lia|].
  rewrite length_app, Nat2Z.inj_add, IH by (intros; apply Hl; by apply list_elem_of_further).
  destruct (cluster_length fs T C c Hv (Hl c (list_elem_of_here _ _))) as [-> _]. lia.
Qed.
Lemma contents_app C l1 l2 : contents C (l1 ++ l2) = contents C l1 ++ contents C l2.
Proof. unfold contents. by rewrite map_app, concat_app. Qed.
Lemma contents_ext C C' l : (forall c, c ∈ l -> C' c = C c) -> contents C' l = contents C l.
Proof.
  intros He. unfold contents. f_equal. induction l as [|c l IH]; [done|]. simpl. rewrite He by apply list_elem_of_here. f_equal.
  apply IH. intros x Hx. apply He. by apply list_elem_of_further.
Qed.

(** ** Reading *)

Lemma skip_ok n : forall fs T C c l, vol fs T C -> chain fs T (c :: l) -> (n <= length l)%nat ->
  exists fs' d, skip_clusters n c fs = (fs', d) /\ (c :: l) !! n = Some d /\ chain fs' T (drop n (c :: l)) /\
    vol fs' T C /\ alike fs fs'.
Proof.
  induction n as [|n IH]; intros fs T C c l Hv Hl Hn; [by exists fs, c|]. destruct l as [|d l]; [simpl in Hn; lia|].
  apply chain_cons in Hl as (Hc & Ed & Hl). simpl skip_clusters. rewrite (valid_true fs c (vo_ok _ _ _ Hv) Hc).
  destruct (vol_next_cluster fs T C c Hv Hc) as (fs1 & -> & Hv1 & Hs1 & Hh1 & _). rewrite Ed.
  destruct (IH fs1 T C d l Hv1) as (fs2 & x & E & Ex & Hch & Hv2 & Hs2);
    [by eapply chain_ext; [exact Hs1| |]|simpl in Hn; lia|].
  exists fs2, x. split; [done|]. split; [done|]. split; [done|]. split; [done|]. by transitivity fs1; [split|].
Qed.

(** The loop copies from cluster to cluster. *)
Lemma read_loop l : forall fs T C c off len out, vol fs T C -> chain fs T (c :: l) ->
  0 <= off < bytes_per_cluster fs -> 0 < len -> off + len <= Z.of_nat (length (c :: l)) * bytes_per_cluster fs ->
  exists fs', while_nat (S (length (c :: l))) read_round (fs, c, off, len, out) =
      inr (fs', Z.of_nat (length out) + len, out ++ take (Z.to_nat len) (drop (Z.to_nat off) (contents C (c :: l)))) /\
    vol fs' T C /\ alike fs fs'.
Proof.
  induction l as [|d l IH]; intros fs T C c off len out Hv Hl Ho Hlen Hb;
    pose proof (proj1 Hl) as Hc; cbn [length] in *; rewrite while_nat_S; unfold read_round at 1; rewrite (proj2 (Z.ltb_lt 0 len)) by lia; rewrite (valid_true fs c (vo_ok _ _ _ Hv) Hc); cbn [andb];
    destruct (vol_read_cluster fs T C c Hv Hc) as (fs1 & -> & Hv1 & Hs1 & Hh1 & Hb1); cbn [negb Z.eqb]; rewrite Hb1, (bpc_shape fs fs1 Hs1);
    (destruct (vol_next_cluster fs1 T C c Hv1) as (fs2 & -> & Hv2 & Hs2 & Hh2 & _); [by apply (valid_shape fs)|]);
    assert (alike fs fs2) as Ha2 by (split; [by transitivity fs1|congruence]);
    destruct (cluster_length fs T C c Hv Hc) as [Hlc _]; set (k := Z.min (bytes_per_cluster fs - off) len);
    set (part := take (Z.to_nat k) (drop (Z.to_nat off) (C c)));
    assert (length part = Z.to_nat k) as Hp by (unfold part; rewrite length_take, length_drop; lia).
  - assert (k = len) as Ek by lia. rewrite while_nat_S. unfold read_round at 1. rewrite Ek, Z.sub_diag. cbn [Z.ltb Z.compare andb].
    exists fs2. split; [|by split]. rewrite length_app, Hp, Nat2Z.inj_add, Ek. do 3 f_equal; [lia|].
    unfold part, contents. rewrite Ek. simpl. by rewrite app_nil_r.
  - apply chain_cons in Hl as (_ & Ed & Hl).
    assert (contents C (c :: d :: l) = C c ++ contents C (d :: l)) as Econt by done.
    destruct (Z.eq_dec k len) as [Ek|Nk].
    + rewrite while_nat_S. unfold read_round at 1. rewrite Ek, Z.sub_diag. cbn [Z.ltb Z.compare andb].
      exists fs2. split; [|by split]. rewrite length_app, Hp, Nat2Z.inj_add, Ek. do 3 f_equal; [lia|].
      unfold part. rewrite Ek, Econt, drop_app_le by lia. rewrite take_app_le; [done|]. rewrite length_drop. lia.
    + assert (k = bytes_per_cluster fs - off) as Ek by lia. rewrite Ed.
      destruct (IH fs2 T C d 0 (len - k) (out ++ part) Hv2) as (fs3 & E & Hv3 & Ha3).
      { eapply chain_ext; [by transitivity fs1| |exact Hl]. done. }
      { rewrite (bpc_shape fs fs2); [pose proof (bpc_pos fs (vo_ok _ _ _ Hv)); lia|by transitivity fs1]. }
      { lia. }
      { rewrite (bpc_shape fs fs2) by (by transitivity fs1). lia. }
      cbn [length] in E. rewrite E. exists fs3. split; [|split; [done|by transitivity fs2]].
      rewrite length_app, Hp, Nat2Z.inj_add. do 2 f_equal; [f_equal; lia|]. rewrite drop_0, <- app_assoc. f_equal.
      rewrite Econt, drop_app_le by lia. rewrite take_app_ge by (rewrite length_drop; lia). f_equal.
      * unfold part. rewrite take_ge by (rewrite length_drop; lia). done.
      * f_equal. rewrite length_drop. lia.
Qed.

(** A file: its directory entry, its clusters and its bytes. *)
Record file fs T (e : list Z) (l : list Z) : Prop := mk_file {
  fi_entry : is_entry e;
  fi_kind : has_attr e FAT32_ATTR_DIRECTORY = false;
  fi_chain : match l with
             | [] => fat32_entry_cluster e < FAT32_FIRST_DATA_CLUSTER
             | c :: _ => chain fs T l /\ fat32_entry_cluster e = c
             end;
  fi_size : de_file_size e <= Z.of_nat (length l) * bytes_per_cluster fs;
}.
Definition file_bytes C (e l : list Z) : list Z := take (Z.to_nat (de_file_size e)) (contents C l).

Lemma file_valid fs T e l c : file fs T e l -> c ∈ l -> valid_cluster fs c.
Proof. intros [_ _ Hc _] Hin. destruct l as [|d l]; [by apply not_elem_of_nil in Hin|]. by eapply chain_valid; [apply Hc|]. Qed.
Lemma file_bytes_length fs T C e l : vol fs T C -> file fs T e l -> Z.of_nat (length (file_bytes C e l)) = de_file_size e.
Proof.
  intros Hv Hf. unfold file_bytes. rewrite length_take.
  pose proof (contents_length fs T C l Hv (fun c => file_valid fs T e l c Hf)) as Hl. destruct Hf as [He _ _ Hs].
  pose proof (file_size_range e He). lia.
Qed.

Lemma read_ok fs T C e l off len : vol fs T C -> file fs T e l -> 0 <= off -> 0 <= len -> off + len < 2 ^ 64 ->
  exists fs', fat32_read_file e off len fs =
      Some (fs', Z.of_nat (length (take (Z.to_nat len) (drop (Z.to_nat off) (file_bytes C e l)))),
            take (Z.to_nat len) (drop (Z.to_nat off) (file_bytes C e l))) /\ vol fs' T C /\ alike fs fs'.
Proof.
  intros Hv Hf Ho Hlen Hb. pose proof (file_bytes_length fs T C e l Hv Hf) as Hfl. pose proof Hf as [He Hk Hch Hs].
  pose proof (file_size_range e He) as Hr. unfold fat32_read_file. rewrite Hk.
  destruct (Z.leb_spec (de_file_size e) off) as [Hle|Hlt].
  { exists fs. rewrite drop_ge by lia. rewrite take_nil. split; [done|]. split; [done|reflexivity]. }
  rewrite (u64_id (off + len)) by lia. set (n := if _ <? _ then _ else len).
  assert (n = Z.min len (de_file_size e - off)) as En by (unfold n; destruct (Z.ltb_spec (de_file_size e) (off + len)); lia).
  assert (take (Z.to_nat len) (drop (Z.to_nat off) (file_bytes C e l)) = take (Z.to_nat n) (drop (Z.to_nat off) (contents C l))) as Edata.
  { unfold file_bytes. rewrite skipn_firstn_comm, take_take. f_equal. lia. }
  rewrite Edata. destruct (Z.eqb_spec n 0) as [E0|N0].
  { exists fs. rewrite E0. split; [done|]. split; [done|reflexivity]. }
  destruct l as [|c l]; [exfalso; simpl in Hs; lia|]. destruct Hch as [Hch Ec]. rewrite Ec.
  pose proof (bpc_pos fs (vo_ok _ _ _ Hv)) as Hbp. set (b := bytes_per_cluster fs) in *.
  pose proof (Z.div_mod off b ltac:(lia)) as Hdm. pose proof (Z.mod_pos_bound off b Hbp) as Hmb.
  assert (0 <= off / b) as Hq by (apply Z.div_pos; lia).
  assert (off / b < Z.of_nat (length (c :: l))) as Hq' by (apply Z.div_lt_upper_bound; lia).
  destruct (skip_ok (Z.to_nat (off / b)) fs T C c l Hv Hch ltac:(simpl in Hq'; lia)) as (fs1 & d & -> & Hd & Hch1 & Hv1 & Ha1). pose proof (proj1 Ha1) as Hs1.
  rewrite (bpc_shape fs fs1 Hs1). fold b. pose proof (drop_S _ _ _ Hd) as Edrop.
  rewrite Edrop in Hch1. set (l2 := drop (S (Z.to_nat (off / b))) (c :: l)) in *.
  assert (Z.of_nat (length (d :: l2)) = Z.of_nat (length (c :: l)) - off / b) as Hlen2.
  { rewrite <- Edrop, length_drop. lia. }
  destruct (read_loop l2 fs1 T C d (off mod b) n [] Hv1 Hch1) as (fs2 & E & Hv2 & Ha2).
  { by rewrite (bpc_shape fs fs1 Hs1). }
  { lia. }
  { rewrite (bpc_shape fs fs1 Hs1), Hlen2. fold b. lia. }
  assert (contents C (c :: l) = contents C (take (Z.to_nat (off / b)) (c :: l)) ++ contents C (d :: l2)) as Esplit.
  { rewrite <- contents_app, <- Edrop. by rewrite take_drop. }
  assert (Z.of_nat (length (contents C (take (Z.to_nat (off / b)) (c :: l)))) = off / b * b) as Hpre.
  { rewrite (contents_length fs T C _ Hv); [rewrite length_take; fold b; lia|]. intros x Hx. eapply chain_valid; [exact Hch|].
    apply elem_of_take in Hx as (i & Hi & _). by apply list_elem_of_lookup_2 in Hi. }
  exists fs2. split; [|split; [done|by transitivity fs1]]. rewrite (loop_nat _ _ _ _ E).
  - f_equal. rewrite app_nil_l. rewrite Esplit, drop_app_ge by lia.
    replace (Z.to_nat off - length (contents C (take (Z.to_nat (off / b)) (c :: l))))%nat with (Z.to_nat (off mod b)) by lia.
    f_equal. f_equal. rewrite length_take, length_drop. simpl length at 1.
    pose proof (contents_length fs1 T C (d :: l2) Hv1 (fun x => chain_valid _ _ _ x Hch1)) as Hc2.
    rewrite (bpc_shape fs fs1 Hs1) in Hc2. fold b in Hc2. lia.
  - assert (Z.of_nat (length (c :: l)) * b <= total_clusters fs * b) as Hmax.
    { apply Z.mul_le_mono_nonneg_r; [lia|]. pose proof (chain_nodup fs T _ (vo_ok _ _ _ Hv) Hch) as Hnd.
      apply (chain_short fs T); [apply Hv|done]. }
    pose proof (g_total _ (v_geometry _ (vo_ok _ _ _ Hv))) as G. unfold FAT32_CLUSTER_BAD, FAT32_FIRST_DATA_CLUSTER in G. nia.
Qed.
End Files.
