(* ===== verification/FatWrite.v ===== *)
(** * FAT32: writing files (fs/fat32/fat32.c) *)
From S2P Require Import Prelude Memory PageAlloc Ring Chain Block VfsBase Fat FatTable FatAlloc FatFile.

Section Write.
Context {D : Type} `{BlockDeviceLaws D}.
Implicit Types fs : fat32_fs D.
Implicit Types T : Z -> Z.
Implicit Types C : Z -> list Z.

(** ** Extending a chain *)

Lemma chain_nonfree fs T l c : vol_ok fs -> chain fs T l -> c ∈ l -> T c <> FAT32_CLUSTER_FREE.
Proof.
  intros Hv. revert c. induction l as [|a l IH]; intros c Hl Hc; [by apply not_elem_of_nil in Hc|].
  apply elem_of_cons in Hc as [->|Hc].
  - destruct l as [|b l]; [destruct Hl as (_ & He & _)|destruct Hl as (_ & -> & Hb & _)].
    + intros E. rewrite E in He. done.
    + pose proof (valid_bound fs b Hv Hb). unfold FAT32_CLUSTER_FREE. lia.
  - destruct l as [|b l]; [by apply not_elem_of_nil in Hc|]. apply IH; [apply Hl|done].
Qed.
Lemma chain_tail fs T pre c post : chain fs T (pre ++ c :: post) -> valid_cluster fs c.
Proof. intros Hl. eapply chain_valid; [exact Hl|]. apply elem_of_app. right. apply list_elem_of_here. Qed.
Lemma chain_link fs T pre c d post : chain fs T (pre ++ c :: d :: post) -> T c = d.
Proof. intros Hl. apply chain_suffix in Hl. apply Hl. Qed.
Lemma chain_end fs T pre c : chain fs T (pre ++ [c]) -> fat32_is_eof (T c) = true.
Proof. intros Hl. apply chain_suffix in Hl. apply Hl. Qed.

Lemma chain_snoc fs T T' pre c d : chain fs T (pre ++ [c]) -> (forall x, x ∈ pre -> T' x = T x) -> T' c = d ->
  valid_cluster fs d -> fat32_is_eof (T' d) = true -> chain fs T' (pre ++ [c; d]).
Proof.
  intros Hl He Hc Hd Hf. induction pre as [|a pre IH]; simpl app in *.
  - apply chain_cons. split; [apply Hl|]. split; [done|]. by split.
  - pose proof (He a (list_elem_of_here _ _)) as Ea. destruct pre as [|b pre]; simpl app in *; apply chain_cons in Hl as (H1' & H2' & H3');
      apply chain_cons; (split; [done|]); rewrite Ea; (split; [done|]); apply IH; try done; intros x Hx; apply He; by apply list_elem_of_further.
Qed.

Lemma frees_ext fs fs' T T' : same_shape fs fs' -> hints fs' = hints fs ->
  (forall x, valid_cluster fs x -> T' x = FAT32_CLUSTER_FREE <-> T x = FAT32_CLUSTER_FREE) -> frees fs' T' = frees fs T.
Proof.
  intros [_ _ _ _ E _ _ _ _] Hh He. injection Hh as _ Hn _. unfold frees, alloc_start, max_cluster. rewrite E, Hn.
  apply filter_ext_in. intros x Hx%elem_of_seqZ. apply He. unfold valid_cluster, FAT32_FIRST_DATA_CLUSTER in *.
  destruct (next_free_cluster fs <? 2) eqn:En; zbool; lia.
Qed.

Definition zeroed fs : list Z := repeat 0 (Z.to_nat (bytes_per_cluster fs)).
Lemma zeroed_ok fs : 0 < bytes_per_cluster fs -> Z.of_nat (length (zeroed fs)) = bytes_per_cluster fs /\ bytes (zeroed fs).
Proof.
  intros Hb. unfold zeroed. rewrite repeat_length. split; [lia|]. apply Forall_forall. intros x Hx.
  apply list_elem_of_In, repeat_spec in Hx as ->. unfold is_byte. lia.
Qed.

(** The next cluster of the chain. *)
Lemma next_ok (z : bool) fs T C pre c d post : vol fs T C -> chain fs T (pre ++ c :: d :: post) ->
  exists fs', next_or_extend z c fs = Some (fs', d) /\ vol fs' T C /\ same_shape fs fs' /\ hints fs' = hints fs /\ d <> 0.
Proof.
  intros Hv Hl. unfold next_or_extend. destruct (vol_next_cluster fs T C c Hv (chain_tail _ _ _ _ _ Hl)) as (fs1 & -> & Hv1 & Hs1 & Hh1 & _).
  rewrite (chain_link _ _ _ _ _ _ Hl). rewrite cons_middle, app_assoc in Hl. pose proof (chain_tail _ _ _ _ _ Hl) as Hd.
  rewrite (valid_not_eof fs) by (done || apply Hv). rewrite (valid_true fs1) by (first [apply Hv1|by apply (valid_shape fs)]).
  exists fs1. repeat (split; [done|]). pose proof (valid_bound fs d (vo_ok _ _ _ Hv) Hd). lia.
Qed.

(** A new cluster at the end of the chain. *)
Lemma fat_extend_ok (z : bool) fs T C pre c d fl : vol fs T C -> chain fs T (pre ++ [c]) -> frees fs T = d :: fl ->
  let T' := upd (upd T d FAT32_CLUSTER_EOF) c d in
  let C' := if z then upd C d (zeroed fs) else C in
  exists fs', next_or_extend z c fs = Some (fs', d) /\ vol fs' T' C' /\ same_shape fs fs' /\ frees fs' T' = fl /\
    chain fs' T' (pre ++ [c; d]) /\ (d ∉ pre ++ [c]) /\ d <> 0.
Proof.
  intros Hv Hl Hf T' C'. pose proof (chain_tail _ _ _ _ _ Hl) as Hc. unfold next_or_extend.
  destruct (vol_next_cluster fs T C c Hv Hc) as (fs1 & -> & Hv1 & Hs1 & Hh1 & _). rewrite (chain_end _ _ _ _ Hl). cbn [orb].
  assert (frees fs1 T = d :: fl) as Hf1 by (by rewrite (frees_ext fs fs1 T T)).
  destruct (alloc_first fs1 T C d fl Hv1 Hf1) as (fs2 & -> & Hd & Hfree & Hv2 & Hs2 & Hb2 & Hf2). cbn [mbind option_bind].
  pose proof (valid_bound fs1 d (vo_ok _ _ _ Hv1) Hd) as Hdb. rewrite (proj2 (Z.eqb_neq d 0)) by lia.
  assert (same_shape fs fs2) as Hs by (by transitivity fs1). apply (valid_shape fs fs1 d Hs1) in Hd.
  assert (d ∉ pre ++ [c]) as Hni by (intros Hin; by destruct (chain_nonfree fs T _ d (vo_ok _ _ _ Hv) Hl Hin)).
  assert (d <> c) as Hdc by (intros ->; apply Hni, elem_of_app; right; apply list_elem_of_here).
  unfold fat32_set_cluster. destruct (vol_write_entry fs2 (upd T d FAT32_CLUSTER_EOF) C c d Hv2) as (fs3 & -> & Hv3 & Hs3 & Hh3 & Hb3);
    [apply (in_table_shape fs fs2); [done|]; apply valid_in_table; [apply Hv|done]|unfold FAT32_CLUSTER_BAD in Hdb; lia|]. fold T' in Hv3.
  assert (same_shape fs fs3) as Hs' by (by transitivity fs2).
  assert (frees fs3 T' = fl) as Hf3.
  { rewrite (frees_ext fs2 fs3 (upd T d FAT32_CLUSTER_EOF) T') by first [done|intros x Hx; unfold T', upd; destruct (Z.eqb_spec x c) as [->|];
      [rewrite (proj2 (Z.eqb_neq c d)) by done; pose proof (chain_nonfree fs T _ c (vo_ok _ _ _ Hv) Hl) as Hcn;
       split; intros E; [unfold FAT32_CLUSTER_FREE in E; lia|exfalso; apply Hcn; [apply elem_of_app; right; apply list_elem_of_here|done]]|done]]. done. }
  assert (chain fs3 T' (pre ++ [c; d])) as Hch.
  { eapply (chain_ext fs fs3 T'); [done|done|]. eapply chain_snoc; [exact Hl|..].
    - intros x Hx. pose proof (chain_nodup fs T _ (vo_ok _ _ _ Hv) Hl) as Hnd. apply NoDup_app in Hnd as (_ & Hnd & _).
      assert (x <> c) by (intros ->; apply (Hnd c Hx), list_elem_of_here).
      assert (x <> d) by (intros ->; apply Hni, elem_of_app; by left). unfold T'. by rewrite !upd_other.
    - unfold T'. by rewrite upd_same.
    - done.
    - unfold T'. rewrite upd_other by done. by rewrite upd_same. }
  destruct z.
  - assert (vol (set_buffer (zeroed fs3) fs3) T' C) as Hv4 by (by apply vol_set_buffer).
    assert (same_shape fs3 (set_buffer (zeroed fs3) fs3)) as Hs4 by (by split).
    pose proof (bpc_pos fs3 (vo_ok _ _ _ Hv3)) as Hbp. destruct (zeroed_ok fs3 Hbp) as [Z1 Z2].
    destruct (vol_write_cluster (set_buffer (zeroed fs3) fs3) T' C d Hv4) as (fs5 & E5 & Hv5 & Hs5 & Hh5 & _);
      [by apply (valid_shape fs3 _ d Hs4), (valid_shape fs fs3 d Hs')|done|done|].
    fold (zeroed fs3). rewrite E5. cbn [fst]. exists fs5. split; [done|]. split.
    { eapply vol_ext; [exact Hv5|done|]. intros x _. unfold C'. simpl. unfold zeroed. by rewrite (bpc_shape fs fs3). }
    split; [transitivity fs3; [done|by transitivity (set_buffer (zeroed fs3) fs3)]|].
    split; [rewrite <- Hf3; apply frees_ext; [by transitivity (set_buffer (zeroed fs3) fs3)|exact Hh5|done]|].
    split; [eapply (chain_ext fs3); [by transitivity (set_buffer (zeroed fs3) fs3)|done|done]|]. split; [done|lia].
  - exists fs3. repeat (split; [done|]). lia.
Qed.

(** ** The loops of fat32_write_file *)

(** What a step of writing did: the clusters [new] were added at the end of the chain [l]
    and entries outside the chain are as they were. *)
Record grown fs T fs' T' (l new : list Z) : Prop := mk_grown {
  gr_shape : same_shape fs fs';
  gr_chain : chain fs' T' (l ++ new);
  gr_table : forall x, x ∉ l ++ new -> T' x = T x;
  gr_frees : frees fs T = new ++ frees fs' T';
}.

Lemma grown_trans fs1 T1 fs2 T2 fs3 T3 l n1 n2 :
  grown fs1 T1 fs2 T2 l n1 -> grown fs2 T2 fs3 T3 (l ++ n1) n2 -> grown fs1 T1 fs3 T3 l (n1 ++ n2).
Proof.
  intros [A1 A2 A3 A4] [B1 B2 B3 B4]. split; [by transitivity fs2|by rewrite app_assoc|..].
  - intros x Hx. rewrite app_assoc in Hx. rewrite B3 by done. apply A3. intros Hin. apply Hx. apply elem_of_app. by left.
  - by rewrite A4, B4, app_assoc.
Qed.
Lemma grown_same fs T fs' l : same_shape fs fs' -> hints fs' = hints fs -> chain fs T l -> grown fs T fs' T l [].
Proof.
  intros Hs Hh Hl. split; [done|rewrite app_nil_r; by eapply chain_ext|done|]. by rewrite (frees_ext fs fs' T T).
Qed.
Lemma grown_extend fs T fs' d fl c pre : frees fs T = d :: fl ->
  let T' := upd (upd T d FAT32_CLUSTER_EOF) c d in
  same_shape fs fs' -> chain fs' T' (pre ++ [c; d]) -> frees fs' T' = fl -> grown fs T fs' T' (pre ++ [c]) [d].
Proof.
  intros Hf T' Hs Hc Hf'. assert ((pre ++ [c]) ++ [d] = pre ++ [c; d]) as Ea by (by rewrite <- app_assoc).
  split; [done|by rewrite Ea| |by rewrite Hf, Hf'].
  intros x Hx. rewrite Ea in Hx. unfold T'. rewrite !upd_other; [done|..]; intros ->; apply Hx, elem_of_app; right;
    [apply list_elem_of_further|]; apply list_elem_of_here.
Qed.

(** The clusters that are missing for [n] bytes from [off] on, when [k] are there. *)
Definition missing fs (off n : Z) (k : nat) : nat :=
  Z.to_nat ((off + n + bytes_per_cluster fs - 1) / bytes_per_cluster fs - Z.of_nat k).

Lemma missing_step b off n k : 0 < b -> 0 <= off < b -> b - off < n ->
  ((off + n + b - 1) / b - Z.of_nat (S k)) = ((0 + (n - (b - off)) + b - 1) / b - Z.of_nat k).
Proof.
  intros Hb Ho Hn. replace (off + n + b - 1) with (0 + (n - (b - off)) + b - 1 + 1 * b) by lia. rewrite Z.div_add by lia. lia.
Qed.
Lemma missing_none b off n : 0 < b -> 0 <= off -> 0 < n <= b - off -> (off + n + b - 1) / b = 1.
Proof. intros Hb Ho Hn. symmetry. apply (Z.div_unique _ b 1 (off + n - 1)); lia. Qed.

(** One cluster is written: the volume, its new contents. *)
Lemma write_one fs T C c off src : vol fs T C -> valid_cluster fs c -> 0 <= off < bytes_per_cluster fs -> bytes src ->
  let k := Z.min (bytes_per_cluster fs - off) (Z.of_nat (length src)) in
  let C' := upd C c (splice (Z.to_nat off) (take (Z.to_nat k) src) (C c)) in
  exists fs1 fs2 fs3, fat32_read_cluster c fs = (fs1, 0) /\ bytes_per_cluster fs1 = bytes_per_cluster fs /\
    fs2 = set_buffer (splice (Z.to_nat off) (take (Z.to_nat k) src) (cluster_buffer fs1)) fs1 /\
    fat32_write_cluster c fs2 = (fs3, 0) /\ vol fs3 T C' /\ same_shape fs fs3 /\ hints fs3 = hints fs.
Proof.
  intros Hv Hc Ho Hb k C'. destruct (vol_read_cluster fs T C c Hv Hc) as (fs1 & E1 & Hv1 & Hs1 & Hh1 & Hb1).
  destruct (cluster_length fs T C c Hv Hc) as [Hl Hbc]. exists fs1. set (buf := splice _ _ _). exists (set_buffer buf fs1).
  assert (length (take (Z.to_nat k) src) = Z.to_nat k) as Hk by (rewrite length_take; lia).
  assert (Z.of_nat (length buf) = bytes_per_cluster fs) as Hlb by (unfold buf; rewrite splice_length; rewrite Hb1; [done|lia]).
  assert (vol (set_buffer buf fs1) T C) as Hv2 by (by apply vol_set_buffer).
  assert (same_shape fs1 (set_buffer buf fs1)) as Hs2 by (by split).
  destruct (vol_write_cluster (set_buffer buf fs1) T C c Hv2) as (fs3 & E3 & Hv3 & Hs3 & Hh3 & _).
  - apply (valid_shape fs1 _ c Hs2), (valid_shape fs fs1 c Hs1), Hc.
  - simpl. rewrite Hlb. symmetry. by apply bpc_shape.
  - simpl. apply splice_bytes; [by apply Forall_take|]. by rewrite Hb1.
  - exists fs3. split; [done|]. split; [by apply bpc_shape|]. split; [done|]. split; [done|]. split.
    + eapply vol_ext; [exact Hv3|done|]. intros x _. unfold C'. simpl. unfold buf. by rewrite Hb1.
    + split; [transitivity fs1; [done|by transitivity (set_buffer buf fs1)]|]. unfold hints in *. simpl in *. congruence.
Qed.

(** The loop writes [src] from [off] in cluster [c] of a chain on, with at most [n] rounds. *)
Definition writes (n : nat) fs T C (pre : list Z) (c : Z) (post : list Z) (off : Z) (src : list Z) : Prop :=
  let new := take (missing fs off (Z.of_nat (length src)) (S (length post))) (frees fs T) in
  forall written, exists fs' T' C',
    while_nat (S n) write_round (fs, c, off, src, written) = inr (Some (fs', written + Z.of_nat (length src))) /\
    vol fs' T' C' /\ grown fs T fs' T' (pre ++ c :: post) new /\
    (forall x, x ∉ c :: post ++ new -> C' x = C x) /\
    contents C' (c :: post ++ new) = splice (Z.to_nat off) src (contents C (c :: post ++ new)).

(** The first cluster was written, giving [fs3] and [C1], and the chain goes on with [d]. *)
Lemma writes_next n fs T C pre c post off src fs3 C1 d post2 fs4 T4 nw :
  let b := bytes_per_cluster fs in
  let k := b - off in
  let rest := drop (Z.to_nat k) src in
  vol fs T C -> valid_cluster fs c -> 0 <= off < b -> k < Z.of_nat (length src) ->
  C1 = upd C c (splice (Z.to_nat off) (take (Z.to_nat k) src) (C c)) ->
  vol fs4 T4 C1 -> grown fs T fs4 T4 (pre ++ c :: post) nw -> post ++ nw = d :: post2 ->
  missing fs off (Z.of_nat (length src)) (S (length post)) = (length nw + missing fs4 0 (Z.of_nat (length rest)) (S (length post2)))%nat ->
  next_or_extend false c fs3 = Some (fs4, d) -> d <> 0 ->
  writes n fs4 T4 C1 (pre ++ [c]) d post2 0 rest ->
  (forall written, write_round (fs, c, off, src, written) =
     match next_or_extend false c fs3 with
     | None => inr None
     | Some (fs, next) => if next =? 0 then inr (Some (fs, written + k)) else inl (fs, next, 0, rest, written + k)
     end) ->
  writes (S n) fs T C pre c post off src.
Proof.
  intros b k rest Hv Hc Ho Hk EC Hv4 Hg4 Epost Hmiss E4 Hd Hw Hround. destruct (cluster_length fs T C c Hv Hc) as [Hlc _]. fold b in Hlc.
  pose proof (gr_frees _ _ _ _ _ _ Hg4) as Hfr4. assert (length rest = (length src - Z.to_nat k)%nat) as Hlr by apply length_drop.
  unfold writes. intros written. set (new := take (missing fs off (Z.of_nat (length src)) (S (length post))) (frees fs T)). destruct (Hw (written + k)) as (fs' & T' & C' & E5 & Hv5 & Hg5 & Hx5 & Hc5). set (new2 := take _ (frees fs4 T4)) in *.
  assert (new = nw ++ new2) as Enew.
  { unfold new, new2. rewrite Hmiss, Hfr4. rewrite take_app_ge by lia. do 2 f_equal. lia. }
  assert (c :: post ++ new = c :: d :: post2 ++ new2) as Eall by (rewrite Enew, app_assoc, Epost; done).
  assert (grown fs T fs' T' (pre ++ c :: post) new) as Hg.
  { rewrite Enew. eapply grown_trans; [exact Hg4|]. rewrite <- app_assoc. simpl app. rewrite Epost. rewrite <- app_assoc in Hg5. exact Hg5. }
  assert (c ∉ d :: post2 ++ new2) as Hcn.
  { pose proof (chain_nodup fs' T' _ (vo_ok _ _ _ Hv5) (gr_chain _ _ _ _ _ _ Hg)) as Hnd. rewrite <- app_assoc in Hnd. simpl app in Hnd.
    rewrite Eall in Hnd. apply NoDup_app in Hnd as (_ & _ & Hnd). by apply NoDup_cons in Hnd as [Hnd _]. }
  rewrite Eall. exists fs', T', C'. split.
  { rewrite while_nat_S, Hround, E4, (proj2 (Z.eqb_neq d 0) Hd), E5. do 3 f_equal. lia. }
  split; [done|]. split; [done|]. split.
  - intros x Hx. rewrite Hx5 by (intros Hin; apply Hx; by apply list_elem_of_further).
    rewrite EC. apply upd_other. intros ->. apply Hx, list_elem_of_here.
  - change (contents C' (c :: d :: post2 ++ new2)) with (C' c ++ contents C' (d :: post2 ++ new2)).
    change (contents C (c :: d :: post2 ++ new2)) with (C c ++ contents C (d :: post2 ++ new2)).
    rewrite Hc5, Hx5 by done. transitivity (splice (Z.to_nat off) (take (Z.to_nat k) src ++ rest) (C c ++ contents C (d :: post2 ++ new2))).
    2: { unfold rest. by rewrite take_drop. }
    rewrite splice_app by (rewrite length_take; lia). change (Z.to_nat 0) with 0%nat. rewrite EC. f_equal; [by rewrite upd_same|].
    f_equal. apply contents_ext. intros x Hx. apply upd_other. by intros ->.
Qed.

(** All of [src] fits into the cluster. *)
Lemma writes_last n fs T C pre c post off src fs3 C1 : vol fs T C -> chain fs T (pre ++ c :: post) ->
  let b := bytes_per_cluster fs in
  0 <= off < b -> 0 < Z.of_nat (length src) <= b - off ->
  C1 = upd C c (splice (Z.to_nat off) src (C c)) -> vol fs3 T C1 -> same_shape fs fs3 -> hints fs3 = hints fs ->
  (forall written, write_round (fs, c, off, src, written) = inl (fs3, c, 0, [], written + Z.of_nat (length src))) ->
  writes (S n) fs T C pre c post off src.
Proof.
  intros Hv Hl b Ho Hs EC Hv3 Hs3 Hh3 Hround. unfold writes. intros written. set (new := take (missing fs off (Z.of_nat (length src)) (S (length post))) (frees fs T)). pose proof (chain_tail _ _ _ _ _ Hl) as Hc.
  destruct (cluster_length fs T C c Hv Hc) as [Hlc _]. fold b in Hlc.
  assert (new = []) as En. { unfold new, missing. fold b. rewrite missing_none by lia. by replace (Z.to_nat _) with 0%nat by lia. }
  exists fs3, T, C1. rewrite En, app_nil_r. split; [by rewrite while_nat_S, Hround|]. split; [done|]. split; [by apply grown_same|]. split.
  - intros x Hx. rewrite EC. apply upd_other. intros ->. apply Hx, list_elem_of_here.
  - change (contents C1 (c :: post)) with (C1 c ++ contents C1 post). change (contents C (c :: post)) with (C c ++ contents C post).
    rewrite splice_app_l by lia. rewrite EC. rewrite upd_same. f_equal. apply contents_ext. intros x Hx.
    apply upd_other. intros ->. pose proof (chain_nodup fs T _ (vo_ok _ _ _ Hv) Hl) as Hnd. apply NoDup_app in Hnd as (_ & _ & Hnd).
    by apply NoDup_cons in Hnd as [Hnd _].
Qed.

Lemma write_loop n : forall fs T C pre c post off src, (length src <= n)%nat ->
  vol fs T C -> chain fs T (pre ++ c :: post) -> 0 <= off < bytes_per_cluster fs -> src <> [] -> bytes src ->
  (missing fs off (Z.of_nat (length src)) (S (length post)) <= length (frees fs T))%nat ->
  writes n fs T C pre c post off src.
Proof.
  induction n as [|n IH]; intros fs T C pre c post off src Hn Hv Hl Ho Hne Hb Hm; [destruct src; [done|simpl in Hn; lia]|].
  pose proof (chain_tail _ _ _ _ _ Hl) as Hc. assert (0 < Z.of_nat (length src)) as Hpos by (destruct src; [done|simpl; lia]).
  destruct (write_one fs T C c off src Hv Hc Ho Hb) as (fs1 & fs2 & fs3 & E1 & Eb & E2 & E3 & Hv3 & Hs3 & Hh3).
  set (b := bytes_per_cluster fs) in *. set (k := Z.min (b - off) (Z.of_nat (length src))) in *. set (C1 := upd C c _) in *.
  assert (length (drop (Z.to_nat k) src) = (length src - Z.to_nat k)%nat) as Hld by apply length_drop.
  assert (forall w, write_round (fs, c, off, src, w) =
    if 0 <? Z.of_nat (length (drop (Z.to_nat k) src)) then
      match next_or_extend false c fs3 with
      | None => inr None
      | Some (fs, next) => if next =? 0 then inr (Some (fs, w + k)) else inl (fs, next, 0, drop (Z.to_nat k) src, w + k)
      end
    else inl (fs3, c, 0, drop (Z.to_nat k) src, w + k)) as Hround.
  { intros w. unfold write_round. rewrite (proj2 (Z.ltb_lt 0 _)) by done. cbn [negb]. rewrite E1. cbn [negb Z.eqb]. rewrite Eb. fold k.
    by rewrite <- E2, E3. }
  assert (C1 = upd C c (splice (Z.to_nat off) (take (Z.to_nat k) src) (C c))) as EC by done. clearbody C1. clear E2 E3.
  assert (k = Z.min (b - off) (Z.of_nat (length src))) as Dk by done. clearbody k.
  destruct (Z.lt_ge_cases (b - off) (Z.of_nat (length src))) as [Hmore|Hdone].
  - assert (k = b - off) as Ek by lia. rewrite Ek in *.
    rewrite (proj2 (Z.ltb_lt 0 _)) in Hround by lia.
    set (rest := drop (Z.to_nat (b - off)) src) in *. assert (rest <> []) as Hr by (intros E; rewrite E in Hld; simpl in Hld; lia).
    assert (bytes rest) as Hbr by (by apply Forall_drop).
    assert (0 < (0 + (Z.of_nat (length src) - (b - off)) + b - 1) / b) as Hq by (apply Z.div_str_pos; lia).
    destruct post as [|d post].
    + assert (exists d fl, frees fs T = d :: fl) as (d & fl & Hf).
      { destruct (frees fs T) as [|d fl]; [|by eauto]. exfalso. simpl in Hm. unfold missing in Hm. fold b in Hm.
        rewrite (missing_step b off _ 0) in Hm by lia. lia. }
      assert (frees fs3 T = d :: fl) as Hf3 by (by rewrite (frees_ext fs fs3 T T)).
      assert (chain fs3 T (pre ++ [c])) as Hl3 by (by eapply chain_ext).
      destruct (fat_extend_ok false fs3 T C1 pre c d fl Hv3 Hl3 Hf3) as (fs4 & E4 & Hv4 & Hs4 & Hf4 & Hch4 & _ & Hd).
      assert (bytes_per_cluster fs4 = b) as Eb4 by (apply bpc_shape; by transitivity fs3).
      assert (missing fs off (Z.of_nat (length src)) 1 = S (missing fs4 0 (Z.of_nat (length rest)) 1)) as Hmiss.
      { unfold missing. rewrite Eb4. fold b. rewrite (missing_step b off _ 0) by lia. rewrite Hld.
        replace (0 + Z.of_nat (length src - Z.to_nat (b - off)) + b - 1) with (0 + (Z.of_nat (length src) - (b - off)) + b - 1) by lia. lia. }
      eapply (writes_next n fs T C pre c [] off src fs3 C1 d [] fs4 _ [d]); [done|done|done|done|done|exact Hv4| |done|exact Hmiss|exact E4|done| |exact Hround].
      * eapply (grown_trans _ _ fs3 T _ _ _ [] [d]); [by apply grown_same|]. rewrite app_nil_r. by eapply grown_extend.
      * fold b. fold rest. apply IH; [lia|done|by rewrite <- app_assoc|rewrite Eb4; lia|done|done|]. rewrite Hf in Hm. cbn [length] in Hm |- *.
        rewrite Hmiss in Hm. rewrite Hf4. lia.
    + assert (chain fs3 T (pre ++ c :: d :: post)) as Hl3 by (by eapply chain_ext).
      destruct (next_ok false fs3 T C1 pre c d post Hv3 Hl3) as (fs4 & E4 & Hv4 & Hs4 & Hh4 & Hd).
      assert (bytes_per_cluster fs4 = b) as Eb4 by (apply bpc_shape; by transitivity fs3).
      assert (missing fs off (Z.of_nat (length src)) (S (length (d :: post))) = missing fs4 0 (Z.of_nat (length rest)) (S (length post))) as Hmiss.
      { unfold missing. rewrite Eb4. fold b. simpl length. rewrite (missing_step b off _ (S (length post))) by lia. rewrite Hld.
        by replace (Z.of_nat (length src - Z.to_nat (b - off))) with (Z.of_nat (length src) - (b - off)) by lia. }
      eapply (writes_next n fs T C pre c (d :: post) off src fs3 C1 d post fs4 T []); [done|done|done|done|done|exact Hv4| |by rewrite app_nil_r|exact Hmiss|exact E4|done| |exact Hround].
      * apply grown_same; [by transitivity fs3|congruence|done].
      * fold b. fold rest. apply IH; [lia|done| |rewrite Eb4; lia|done|done|].
        { rewrite <- app_assoc. eapply chain_ext; [by transitivity fs3|done|exact Hl]. }
        rewrite (frees_ext fs fs4 T T) by first [by transitivity fs3|congruence|done]. by rewrite <- Hmiss.
  - assert (k = Z.of_nat (length src)) as Ek by lia. rewrite (proj2 (Z.ltb_ge 0 _)) in Hround by lia.
    rewrite Ek in *. rewrite take_ge in EC by lia. rewrite drop_ge in Hround by lia. by eapply writes_last.
Qed.

(** The loop to the first cluster of the write. *)
Lemma skip_extend_ok n : forall fs T C pre c post, vol fs T C -> chain fs T (pre ++ c :: post) ->
  (n - length post <= length (frees fs T))%nat ->
  let new := take (n - length post) (frees fs T) in
  exists fs' T' C' d, skip_extend n c fs = Some (fs', d) /\ vol fs' T' C' /\ grown fs T fs' T' (pre ++ c :: post) new /\
    (c :: post ++ new) !! n = Some d /\ d <> 0 /\ (forall x, x ∉ new -> C' x = C x) /\ (forall x, x ∈ new -> C' x = zeroed fs).
Proof.
  induction n as [|n IH]; intros fs T C pre c post Hv Hl Hm new.
  { exists fs, T, C, c. pose proof (valid_bound fs c (vo_ok _ _ _ Hv) (chain_tail _ _ _ _ _ Hl)). split; [done|]. split; [done|].
    split; [by apply grown_same|]. split; [done|]. split; [lia|]. split; [done|]. intros x Hx. by apply not_elem_of_nil in Hx. }
  simpl skip_extend. destruct post as [|d post].
  - destruct (frees fs T) as [|d fl] eqn:Hf; [simpl in Hm; lia|].
    destruct (fat_extend_ok true fs T C pre c d fl Hv Hl Hf) as (fs1 & -> & Hv1 & Hs1 & Hf1 & Hch1 & _ & Hd). cbn [mbind option_bind].
    rewrite (proj2 (Z.eqb_neq d 0) Hd). set (T1 := upd (upd T d _) c d) in *.
    assert (grown fs T fs1 T1 (pre ++ [c]) [d]) as Hg1 by (by eapply grown_extend).
    destruct (IH fs1 T1 (upd C d (zeroed fs)) (pre ++ [c]) d []) as (fs2 & T2 & C2 & x & E & Hv2 & Hg2 & Hx & Hx0 & Ho & Hz).
    { done. } { by rewrite <- app_assoc. } { rewrite Hf1. simpl in *. lia. }
    rewrite Hf1 in *. assert (new = d :: take (n - 0) fl) as En by (unfold new; simpl; by rewrite Nat.sub_0_r). cbn [length] in *.
    exists fs2, T2, C2, x. rewrite En. split; [done|]. split; [done|]. split; [by eapply (grown_trans _ _ _ _ _ _ _ [d])|]. split; [done|].
    split; [done|]. split.
    + intros y Hy. apply not_elem_of_cons in Hy as [Hy1 Hy2]. rewrite Ho by done. by apply upd_other.
    + intros y Hy. destruct (decide (y ∈ take (n - 0) fl)) as [Hin|Hni].
      * rewrite Hz by done. unfold zeroed. by rewrite (bpc_shape fs fs1).
      * apply elem_of_cons in Hy as [->|Hy]; [|done]. rewrite Ho by done. apply upd_same.
  - destruct (next_ok true fs T C pre c d post Hv Hl) as (fs1 & -> & Hv1 & Hs1 & Hh1 & Hd). cbn [mbind option_bind].
    rewrite (proj2 (Z.eqb_neq d 0) Hd). assert (frees fs1 T = frees fs T) as Hf by (by apply frees_ext).
    destruct (IH fs1 T C (pre ++ [c]) d post Hv1) as (fs2 & T2 & C2 & x & E & Hv2 & Hg2 & Hx & Hx0 & Ho & Hz).
    { rewrite <- app_assoc. by eapply chain_ext. } { by rewrite Hf. }
    rewrite Hf in *. exists fs2, T2, C2, x. split; [done|]. split; [done|]. split.
    { eapply (grown_trans _ _ _ _ _ _ _ []); [by apply grown_same|]. rewrite app_nil_r. by rewrite <- app_assoc in Hg2. }
    split; [done|]. split; [done|]. split; [done|]. intros y Hy. rewrite Hz by done. unfold zeroed. by rewrite (bpc_shape fs fs1).
Qed.

(** ** fat32_write_file *)

(** The string [x] with a piece replaced, up to the larger of its size and the end of the piece. *)
Lemma splice_file (x data : list Z) off size : (off <= size)%nat -> (size <= length x)%nat -> (off + length data <= length x)%nat ->
  take (size `max` (off + length data)) (splice off data x) = take off (take size x) ++ data ++ drop (off + length data) (take size x).
Proof.
  intros Ho Hs Hl. unfold splice. rewrite take_take, Nat.min_l by lia. rewrite take_app_ge by (rewrite length_take; lia). f_equal.
  rewrite length_take, Nat.min_l by lia. rewrite take_app_ge by lia. f_equal. rewrite skipn_firstn_comm.
  destruct (Nat.le_gt_cases size (off + length data)).
  - replace (size - (off + length data))%nat with 0%nat by lia. by replace (_ - off - length data)%nat with 0%nat by lia.
  - f_equal. lia.
Qed.

(** The clusters a file has to have for [n] bytes. *)
Definition clusters_for fs (n : Z) : Z := (n + bytes_per_cluster fs - 1) / bytes_per_cluster fs.

(** From the first cluster on: skipping and writing. *)
Lemma write_chain fs T C c post off data : vol fs T C -> chain fs T (c :: post) -> bytes data -> data <> [] -> 0 <= off ->
  off <= Z.of_nat (length (c :: post)) * bytes_per_cluster fs ->
  clusters_for fs (off + Z.of_nat (length data)) - Z.of_nat (length (c :: post)) <= Z.of_nat (length (frees fs T)) ->
  exists fs1 d fs' T' C' new, skip_extend (Z.to_nat (off / bytes_per_cluster fs)) c fs = Some (fs1, d) /\ d <> 0 /\
    bytes_per_cluster fs1 = bytes_per_cluster fs /\
    while_nat (S (length data)) write_round (fs1, d, off mod bytes_per_cluster fs, data, 0) = inr (Some (fs', Z.of_nat (length data))) /\
    vol fs' T' C' /\ grown fs T fs' T' (c :: post) new /\
    clusters_for fs (off + Z.of_nat (length data)) <= Z.of_nat (length (c :: post ++ new)) /\
    (forall x, x ∉ c :: post ++ new -> C' x = C x) /\
    exists X, contents C' (c :: post ++ new) = splice (Z.to_nat off) data X /\ length X = length (contents C' (c :: post ++ new)) /\
      take (length (contents C (c :: post))) X = contents C (c :: post).
Proof.
  intros Hv Hl Hb Hne Ho Ho' Hf. pose proof (bpc_pos fs (vo_ok _ _ _ Hv)) as Hbp. set (b := bytes_per_cluster fs) in *.
  assert (0 < Z.of_nat (length data)) as Hpos by (destruct data; [done|simpl; lia]).
  pose proof (Z.div_mod off b ltac:(lia)) as Hdm. pose proof (Z.mod_pos_bound off b Hbp) as Hmb. set (q := off / b) in *.
  assert (0 <= q) as Hq by (apply Z.div_pos; lia). set (n := Z.of_nat (length data)) in *.
  assert (clusters_for fs (off + n) = q + clusters_for fs (off mod b + n)) as Hcl.
  { unfold clusters_for. fold b. replace (off + n + b - 1) with (off mod b + n + b - 1 + q * b) by lia. rewrite Z.div_add by lia. lia. }
  assert (1 <= clusters_for fs (off mod b + n)) as Hc1 by (unfold clusters_for; fold b; apply Z.div_le_lower_bound; lia).
  assert (q <= Z.of_nat (length (c :: post))) as Hql by nia.
  destruct (skip_extend_ok (Z.to_nat q) fs T C [] c post Hv Hl) as (fs1 & T1 & C1 & d & E1 & Hv1 & Hg1 & Hd & Hd0 & Hx1 & Hz1);
    [cbn [length] in *; lia|]. set (new1 := take (Z.to_nat q - length post) (frees fs T)) in *. rewrite app_nil_l in Hg1.
  pose proof (gr_frees _ _ _ _ _ _ Hg1) as Hfr1. assert (bytes_per_cluster fs1 = b) as Eb1 by (apply bpc_shape; apply Hg1).
  set (L1 := c :: post ++ new1) in *. pose proof (drop_S _ _ _ Hd) as Edrop. set (post2 := drop (S (Z.to_nat q)) L1) in *.
  assert (take (Z.to_nat q) L1 ++ d :: post2 = L1) as EL1 by (rewrite <- Edrop; apply take_drop).
  assert (length (take (Z.to_nat q) L1) = Z.to_nat q) as Hlq by (rewrite length_take; pose proof (lookup_lt_Some _ _ _ Hd); lia).
  assert (Z.of_nat (S (length post2)) = Z.of_nat (length L1) - q) as Hlp.
  { pose proof (f_equal length EL1) as El. rewrite length_app, Hlq in El. simpl length in El at 1. lia. }
  assert (missing fs1 (off mod b) n (S (length post2)) = Z.to_nat (clusters_for fs (off + n) - Z.of_nat (length L1))) as Hmi.
  { unfold missing. rewrite Eb1, Hlp, Hcl. unfold clusters_for. fold b. f_equal. lia. }
  assert (length L1 = (length (c :: post) + length new1)%nat) as HlL by (unfold L1; cbn [length]; rewrite length_app; lia).
  assert (length (frees fs T) = (length new1 + length (frees fs1 T1))%nat) as Hlf by (rewrite Hfr1; apply length_app).
  assert (chain fs1 T1 L1) as HchL by (apply (gr_chain _ _ _ _ _ _ Hg1)).
  destruct (write_loop (length data) fs1 T1 C1 (take (Z.to_nat q) L1) d post2 (off mod b) data) with (written := 0)
    as (fs2 & T2 & C2 & E2 & Hv2 & Hg2 & Hx2 & Hc2);
    [done|done|by rewrite EL1|by rewrite Eb1|done|done|fold n; rewrite Hmi; lia|].
  fold n in E2, Hg2, Hx2, Hc2. rewrite Hmi in *. set (new2 := take _ (frees fs1 T1)) in *. rewrite EL1 in Hg2.
  assert (c :: post ++ new1 ++ new2 = take (Z.to_nat q) L1 ++ d :: post2 ++ new2) as EL.
  { transitivity (L1 ++ new2); [unfold L1; simpl; by rewrite <- app_assoc|]. rewrite <- EL1 at 1. by rewrite <- app_assoc. }
  pose proof (grown_trans _ _ _ _ _ _ _ _ _ Hg1 Hg2) as Hg.
  assert (clusters_for fs (off + n) <= Z.of_nat (length (c :: post ++ new1 ++ new2))) as Hle.
  { cbn [length]. rewrite !length_app. assert (length new2 = Z.to_nat (clusters_for fs (off + n) - Z.of_nat (length L1))) as El2.
    { unfold new2. rewrite length_take. lia. } rewrite El2, HlL. cbn [length]. lia. }
  exists fs1, d, fs2, T2, C2, (new1 ++ new2). repeat (split; [done|]).
  split.
  { intros x Hx. rewrite EL in Hx. rewrite Hx2 by (intros Hin; apply Hx, elem_of_app; by right). apply Hx1. intros Hin. apply Hx.
    rewrite <- EL. apply elem_of_cons. right. apply elem_of_app. right. apply elem_of_app. by left. }
  exists (contents C1 (c :: post ++ new1 ++ new2)).
  assert (contents C2 (take (Z.to_nat q) L1) = contents C1 (take (Z.to_nat q) L1)) as Epre.
  { apply contents_ext. intros x Hx. apply Hx2. intros Hin. pose proof (chain_nodup fs2 T2 _ (vo_ok _ _ _ Hv2) (gr_chain _ _ _ _ _ _ Hg)) as Hnd.
    change ((c :: post) ++ new1 ++ new2) with (c :: post ++ new1 ++ new2) in Hnd. rewrite EL in Hnd. apply NoDup_app in Hnd as (_ & Hnd & _).
    by apply (Hnd x Hx). }
  assert (Z.of_nat (length (contents C1 (take (Z.to_nat q) L1))) = q * b) as Hlpre.
  { rewrite (contents_length fs1 T1 C1); [rewrite Hlq, Eb1; lia|done|]. intros x Hx. eapply chain_valid; [exact HchL|].
    rewrite <- EL1. apply elem_of_app. by left. }
  assert (contents C2 (c :: post ++ new1 ++ new2) = splice (Z.to_nat off) data (contents C1 (c :: post ++ new1 ++ new2))) as Ec.
  { rewrite EL, !contents_app, Epre, Hc2. rewrite splice_app_r by lia. do 2 f_equal. lia. }
  split; [done|]. split.
  - rewrite Ec. symmetry. apply splice_length.
    assert (forall x, x ∈ c :: post ++ new1 ++ new2 -> valid_cluster fs2 x) as Hval.
    { intros x Hx. eapply chain_valid; [apply (gr_chain _ _ _ _ _ _ Hg)|done]. }
    pose proof (contents_length fs1 T1 C1 (c :: post ++ new1 ++ new2) Hv1) as HlC. rewrite Eb1 in HlC.
    assert (Z.of_nat (length (contents C1 (c :: post ++ new1 ++ new2))) = Z.of_nat (length (c :: post ++ new1 ++ new2)) * b) as HlC'.
    { apply HlC. intros x Hx. apply (valid_shape fs1 fs2); [apply Hg2|by apply Hval]. }
    unfold clusters_for in Hle. fold b in Hle. pose proof (Z.div_mod (off + n + b - 1) b ltac:(lia)) as Hd1.
    pose proof (Z.mod_pos_bound (off + n + b - 1) b Hbp) as Hd2. fold n. nia.
  - change (c :: post ++ new1 ++ new2) with ((c :: post) ++ new1 ++ new2). rewrite contents_app.
    assert (contents C1 (c :: post) = contents C (c :: post)) as Eold.
    { apply contents_ext. intros x Hx. apply Hx1. intros Hin. pose proof (chain_nodup fs1 T1 _ (vo_ok _ _ _ Hv1) HchL) as Hnd.
      change L1 with ((c :: post) ++ new1) in Hnd. apply NoDup_app in Hnd as (_ & Hnd & _). by apply (Hnd x Hx). }
    rewrite Eold. apply take_app_length.
Qed.

(** What writing [data] at [off] does to a file: the chain is continued with [new], the
    bytes from [off] on are replaced, and nothing outside the file changes. *)
Record written fs T C (e l : list Z) (off : Z) (data : list Z) fs' T' C' (e' new : list Z) : Prop := mk_written {
  wr_vol : vol fs' T' C';
  wr_grown : grown fs T fs' T' l new;
  wr_file : file fs' T' e' (l ++ new);
  wr_other : forall x, x ∉ l ++ new -> C' x = C x;
  wr_bytes : file_bytes C' e' (l ++ new) =
    take (Z.to_nat off) (file_bytes C e l) ++ data ++ drop (Z.to_nat off + length data) (file_bytes C e l);
}.

(** The entry after the write has the larger size. *)
Definition sized (e : list Z) (n : Z) : list Z := if de_file_size e <? n then set_file_size n e else e.
Lemma sized_ok e n : is_entry e -> 0 <= n < 2 ^ 32 -> is_entry (sized e n) /\ de_file_size (sized e n) = Z.max (de_file_size e) n /\
  fat32_entry_cluster (sized e n) = fat32_entry_cluster e /\ forall a, has_attr (sized e n) a = has_attr e a.
Proof.
  intros He Hn. unfold sized. destruct (Z.ltb_spec (de_file_size e) n) as [Hlt|Hge].
  - split; [by apply set_size_is_entry|]. split; [rewrite set_size_read by done; lia|]. split; [by apply set_size_cluster|].
    intros a. by apply set_size_attr.
  - split; [done|]. split; [lia|]. by split.
Qed.

Lemma write_some fs T C e c post off data : vol fs T C -> file fs T e (c :: post) -> bytes data -> data <> [] ->
  0 <= off <= de_file_size e -> off + Z.of_nat (length data) < 2 ^ 32 ->
  clusters_for fs (off + Z.of_nat (length data)) - Z.of_nat (length (c :: post)) <= Z.of_nat (length (frees fs T)) ->
  exists fs' T' C' e' new, fat32_write_file e data off fs = Some (fs', e', Z.of_nat (length data)) /\
    written fs T C e (c :: post) off data fs' T' C' e' new.
Proof.
  intros Hv Hf Hb Hne Ho Hend Hfree. pose proof Hf as [He Hk [Hch Ec] Hs]. set (n := Z.of_nat (length data)) in *.
  assert (0 < n) as Hn by (unfold n; destruct data; [done|simpl; lia]).
  pose proof (bpc_pos fs (vo_ok _ _ _ Hv)) as Hbp. pose proof (valid_bound fs c (vo_ok _ _ _ Hv) (proj1 Hch)) as Hcb.
  assert (0 <= off / bytes_per_cluster fs <= off) as Hq by (split; [apply Z.div_pos; lia|apply Z.div_le_upper_bound; nia]).
  destruct (write_chain fs T C c post off data Hv Hch Hb Hne) as (fs1 & d & fs' & T' & C' & new & E1 & Hd & Eb & E2 & Hv' & Hg & Hcl & Hx & X & EX & HlX & HX);
    [lia|lia|done|]. fold n in Hcl, E2. pose proof (sized_ok e (off + n) He ltac:(lia)) as (S1 & S2 & S3 & S4).
  pose proof (contents_length fs' T' C' (c :: post ++ new) Hv') as HlC'.
  assert (bytes_per_cluster fs' = bytes_per_cluster fs) as Eb' by (apply bpc_shape, Hg). rewrite Eb' in HlC'.
  specialize (HlC' (fun x Hx => chain_valid _ _ _ x (gr_chain _ _ _ _ _ _ Hg) Hx)).
  assert (off + n <= Z.of_nat (length (c :: post ++ new)) * bytes_per_cluster fs) as Hfit.
  { unfold clusters_for in Hcl. pose proof (Z.div_mod (off + n + bytes_per_cluster fs - 1) (bytes_per_cluster fs) ltac:(lia)) as Hd1.
    pose proof (Z.mod_pos_bound (off + n + bytes_per_cluster fs - 1) (bytes_per_cluster fs) Hbp) as Hd2. nia. }
  assert (length (c :: post) <= length (c :: post ++ new))%nat as Hlen by (cbn [length]; rewrite length_app; lia).
  pose proof (contents_length fs T C (c :: post) Hv (fun x => file_valid fs T e _ x Hf)) as HlC.
  exists fs', T', C', (sized e (off + n)), new. split.
  - unfold fat32_write_file. rewrite (v_rw _ (vo_ok _ _ _ Hv)), Hk. fold n. rewrite (proj2 (Z.eqb_neq n 0)), Ec by lia.
    assert ((c <? FAT32_FIRST_DATA_CLUSTER) = false) as -> by (apply Z.ltb_ge; unfold FAT32_FIRST_DATA_CLUSTER; lia).
    cbn [mbind option_bind]. rewrite (proj2 (Z.eqb_neq c 0)), u32_id by lia. rewrite E1. cbn [mbind option_bind].
    rewrite (proj2 (Z.eqb_neq d 0) Hd), Eb. rewrite (loop_nat _ _ _ _ E2) by (fold n; lia). cbn [mbind option_bind].
    rewrite (proj2 (Z.ltb_ge n 0)), u64_id, u32_id by lia. done.
  - split; [done|done|..|done|].
    + split; [done|by rewrite S4|split; [by apply Hg|by rewrite S3]|]. rewrite S2, Eb'. change ((c :: post) ++ new) with (c :: post ++ new). nia.
    + unfold file_bytes. change ((c :: post) ++ new) with (c :: post ++ new). rewrite EX, S2.
      assert (take (Z.to_nat (de_file_size e)) (contents C (c :: post)) = take (Z.to_nat (de_file_size e)) X) as ->.
      { rewrite <- HX, take_take. f_equal. lia. }
      replace (Z.to_nat (Z.max (de_file_size e) (off + n))) with (Z.to_nat (de_file_size e) `max` (Z.to_nat off + length data))%nat by lia.
      apply splice_file; [lia|nia|lia].
Qed.

(** A file without clusters gets its first one. *)
Lemma write_first fs T C e c fl data off : vol fs T C -> file fs T e [] -> data <> [] -> frees fs T = c :: fl ->
  let e1 := fat32_entry_set_cluster c e in
  let T1 := upd T c FAT32_CLUSTER_EOF in
  exists fs1, fat32_write_file e data off fs = fat32_write_file e1 data off fs1 /\ vol fs1 T1 C /\
    grown fs T fs1 T1 [] [c] /\ file fs1 T1 e1 [c] /\ de_file_size e1 = 0.
Proof.
  intros Hv [He Hk Hc Hs] Hne Hf e1 T1. destruct (alloc_first fs T C c fl Hv Hf) as (fs1 & E & Hvc & _ & Hv1 & Hs1 & _ & Hf1).
  pose proof (valid_bound fs c (vo_ok _ _ _ Hv) Hvc) as Hcb. pose proof (file_size_range e He) as Hsz. cbn [length] in Hs.
  unfold FAT32_CLUSTER_BAD in Hcb.
  assert (fat32_entry_cluster e1 = c) as Ec by (apply set_cluster_read; [done|lia]). assert (de_file_size e = 0) as Es by lia.
  assert (chain fs1 T1 [c]) as Hch by (split; [by apply (valid_shape fs)|]; split; [by unfold T1; rewrite upd_same|done]).
  exists fs1. split; [|split; [done|split; [|split]]].
  - unfold fat32_write_file. rewrite (v_rw _ (vo_ok _ _ _ Hv)), (v_rw _ (vo_ok _ _ _ Hv1)). unfold e1 at 1.
    rewrite set_cluster_attr, Hk by done. rewrite (proj2 (Z.eqb_neq (Z.of_nat (length data)) 0)) by (destruct data; [done|simpl; lia]).
    rewrite (proj2 (Z.ltb_lt _ _) Hc), E. cbn [mbind option_bind]. fold e1. rewrite Ec.
    assert ((c <? FAT32_FIRST_DATA_CLUSTER) = false) as -> by (apply Z.ltb_ge; unfold FAT32_FIRST_DATA_CLUSTER; lia).
    cbn [mbind option_bind]. by rewrite (proj2 (Z.eqb_neq c 0)) by lia.
  - split; [done|done| |unfold T1; by rewrite Hf, Hf1]. intros x Hx. unfold T1. apply upd_other. intros ->. apply Hx. apply list_elem_of_here.
  - split; [by apply set_cluster_is_entry|unfold e1; by rewrite set_cluster_attr|done|].
    unfold e1. rewrite set_cluster_size, Es by done. pose proof (bpc_pos fs1 (vo_ok _ _ _ Hv1)). cbn [length]. lia.
  - unfold e1. by rewrite set_cluster_size.
Qed.

Lemma write_ok fs T C e l off data : vol fs T C -> file fs T e l -> bytes data -> data <> [] ->
  0 <= off <= de_file_size e -> off + Z.of_nat (length data) < 2 ^ 32 ->
  clusters_for fs (off + Z.of_nat (length data)) - Z.of_nat (length l) <= Z.of_nat (length (frees fs T)) ->
  exists fs' T' C' e' new, fat32_write_file e data off fs = Some (fs', e', Z.of_nat (length data)) /\
    written fs T C e l off data fs' T' C' e' new.
Proof.
  intros Hv Hf Hb Hne Ho Hend Hfree. destruct l as [|c post]; [|by apply write_some].
  assert (0 < Z.of_nat (length data)) as Hn by (destruct data; [done|simpl; lia]).
  pose proof (bpc_pos fs (vo_ok _ _ _ Hv)) as Hbp. cbn [length] in Hfree.
  assert (1 <= clusters_for fs (off + Z.of_nat (length data))) as Hone by (unfold clusters_for; apply Z.div_le_lower_bound; lia).
  destruct (frees fs T) as [|c fl] eqn:Ef; [cbn [length] in Hfree; lia|].
  destruct (write_first fs T C e c fl data off Hv Hf Hne Ef) as (fs1 & E & Hv1 & Hg1 & Hf1 & Es). rewrite E.
  set (e1 := fat32_entry_set_cluster c e) in *. pose proof (fi_size _ _ _ _ Hf) as Hs. cbn [length] in Hs. pose proof (gr_frees _ _ _ _ _ _ Hg1) as Hfr.
  rewrite Ef in Hfr. simpl in Hfr. injection Hfr as Hfr. pose proof (bpc_shape fs fs1 (gr_shape _ _ _ _ _ _ Hg1)) as Eb.
  destruct (write_some fs1 (upd T c FAT32_CLUSTER_EOF) C e1 c [] off data Hv1 Hf1 Hb Hne) as (fs' & T' & C' & e' & new & E' & [W1 W2 W3 W4 W5]);
    [lia|done|unfold clusters_for in *; rewrite Eb, <- Hfr; cbn [length] in *; lia|].
  exists fs', T', C', e', (c :: new). split; [done|]. split; [done|exact (grown_trans _ _ _ _ _ _ [] [c] new Hg1 W2)|done|done|].
  simpl app in *. rewrite W5. unfold file_bytes. rewrite Es. pose proof (file_size_range e (fi_entry _ _ _ _ Hf)).
  assert (de_file_size e = 0) as -> by lia. by rewrite !take_0.
Qed.

(** C9: fat32_write_file stores all of [data] at [offset] of a file, up to its end: the
    file's bytes there are replaced and those before and behind stay; the chain of clusters
    is the old one continued with clusters that were free, and no entry of the table and no
    cluster outside the file changes. The search for clusters and the loops end. It asks
    that the offset is within the file, the result below 4 GB and enough clusters behind
    the hint free. *)
Theorem fat_write_contract fs T C e l off data : vol fs T C -> file fs T e l -> bytes data -> data <> [] ->
  0 <= off <= de_file_size e -> off + Z.of_nat (length data) < 2 ^ 32 ->
  clusters_for fs (off + Z.of_nat (length data)) - Z.of_nat (length l) <= Z.of_nat (length (frees fs T)) ->
  exists fs' T' C' e' new, fat32_write_file e data off fs = Some (fs', e', Z.of_nat (length data)) /\
    vol fs' T' C' /\ file fs' T' e' (l ++ new) /\
    file_bytes C' e' (l ++ new) =
      take (Z.to_nat off) (file_bytes C e l) ++ data ++ drop (Z.to_nat off + length data) (file_bytes C e l) /\
    (forall x, x ∈ new -> T x = FAT32_CLUSTER_FREE) /\
    (forall x, x ∉ l ++ new -> T' x = T x /\ C' x = C x).
Proof.
  intros Hv Hf Hb Hne Ho Hend Hfree. destruct (write_ok fs T C e l off data Hv Hf Hb Hne Ho Hend Hfree) as (fs' & T' & C' & e' & new & E & [W1 W2 W3 W4 W5]).
  exists fs', T', C', e', new. do 4 (split; [done|]). split.
  - intros x Hx. eapply elem_frees. rewrite (gr_frees _ _ _ _ _ _ W2). apply elem_of_app. by left.
  - intros x Hx. split; [by apply (gr_table _ _ _ _ _ _ W2)|by apply W4].
Qed.

(** what was written is read back: reading the file, with the entry and the volume the
    write left, gives the data at its offset, and the rest of the file as it was. *)
Theorem fat_write_read fs T C e l off data : vol fs T C -> file fs T e l -> bytes data -> data <> [] ->
  0 <= off <= de_file_size e -> off + Z.of_nat (length data) < 2 ^ 32 ->
  clusters_for fs (off + Z.of_nat (length data)) - Z.of_nat (length l) <= Z.of_nat (length (frees fs T)) ->
  exists fs1 e1 fs2 fs3, fat32_write_file e data off fs = Some (fs1, e1, Z.of_nat (length data)) /\
    fat32_read_file e1 off (Z.of_nat (length data)) fs1 = Some (fs2, Z.of_nat (length data), data) /\
    (0 < off -> fat32_read_file e1 0 off fs1 = Some (fs3, off, take (Z.to_nat off) (file_bytes C e l))).
Proof.
  intros Hv Hf Hb Hne Ho Hend Hfree. destruct (write_ok fs T C e l off data Hv Hf Hb Hne Ho Hend Hfree) as (fs1 & T1 & C1 & e1 & new & E & [W1 W2 W3 W4 W5]).
  destruct (read_ok fs1 T1 C1 e1 _ off (Z.of_nat (length data)) W1 W3) as (fs2 & E2 & _); [lia..|].
  destruct (read_ok fs1 T1 C1 e1 _ 0 off W1 W3) as (fs3 & E3 & _); [lia..|].
  pose proof (file_bytes_length fs T C e l Hv Hf) as Hl.
  exists fs1, e1, fs2, fs3. split; [done|]. rewrite W5 in E2, E3. set (old := file_bytes C e l) in *.
  assert (length (take (Z.to_nat off) old) = Z.to_nat off) as Hlt by (rewrite length_take; lia). split.
  - rewrite E2. rewrite drop_app_ge by lia. rewrite Hlt, Nat.sub_diag, drop_0, Nat2Z.id, take_app_length. done.
  - intros Hp. rewrite E3. change (Z.to_nat 0) with 0%nat. rewrite drop_0, take_app_le by lia. rewrite take_take, Nat.min_id.
    rewrite Hlt. do 3 f_equal. lia.
Qed.
End Write.
