(* ===== verification/FatName.v ===== *)
(** * FAT32: names (fs/fat32/fat32.c)

    C strings are the bytes before their terminator. Path components, the eleven bytes of
    a short name, their printed form and the comparison that ignores case; a name that has
    the 8.3 form is found again under any spelling of its letters. *)
From S2P Require Import Prelude Memory PageAlloc Chain Block VfsBase Fat FatFile.

Definition SPACE : Z := 32.
Definition DOT : Z := 46.
Definition SLASH : Z := 47.
Definition BACKSLASH : Z := 92.

Definition fat32_toupper (c : Z) : Z := if (97 <=? c) && (c <=? 122) then c - 32 else c.

(** ** Paths *)

Definition is_slash (c : Z) : bool := (c =? SLASH) || (c =? BACKSLASH).
Fixpoint skip_slashes (path : list Z) : list Z :=
  match path with
  | c :: p => if is_slash c then skip_slashes p else path
  | [] => []
  end.
(** At most [n] characters up to the next separator, and the rest. *)
Fixpoint copy_component (n : nat) (path : list Z) : list Z * list Z :=
  match n, path with
  | S n', c :: p => if is_slash c then ([], path) else let '(a, r) := copy_component n' p in (c :: a, r)
  | _, _ => ([], path)
  end.
(** The component and the rest of the path; [None] for NULL. *)
Definition fat32_path_next_component (path : list Z) (max_len : nat) : option (list Z * list Z) :=
  match skip_slashes path with
  | [] => None
  | p => Some (copy_component (max_len - 1) p)
  end.

(** ** Short names *)

(** The characters up to the last that is not a space. *)
Fixpoint trim_spaces (l : list Z) : list Z :=
  match l with
  | [] => []
  | c :: l' => match trim_spaces l' with
               | [] => if c =? SPACE then [] else [c]
               | r => c :: r
               end
  end.
(** The bytes before the terminator the function writes. *)
Definition fat32_format_short_name (entry : list Z) : list Z :=
  trim_spaces (de_name entry) ++
  match trim_spaces (de_ext entry) with
  | [] => []
  | ext => DOT :: ext
  end.

(** The comparison of two strings up to the end of one of them; a zero byte ends a string. *)
Fixpoint cmp_upper (a b : list Z) : Z :=
  match a, b with
  | ca :: a', cb :: b' =>
      if (ca =? 0) || (cb =? 0) || negb (fat32_toupper ca =? fat32_toupper cb) then fat32_toupper ca - fat32_toupper cb
      else cmp_upper a' b'
  | _, _ => fat32_toupper (hd 0 a) - fat32_toupper (hd 0 b)
  end.
Definition fat32_strcmp_83 (name entry : list Z) : Z := cmp_upper name (fat32_format_short_name entry).

(** The characters of short names: letters, digits and !#$%&'()-@^_`{}~ *)
Definition short_char (c : Z) : bool :=
  ((65 <=? c) && (c <=? 90)) || ((48 <=? c) && (c <=? 57)) ||
  existsb (Z.eqb c) [33; 35; 36; 37; 38; 39; 40; 41; 45; 64; 94; 95; 96; 123; 125; 126].
(** One part of a name: the valid characters, at most [n], padded with spaces. *)
Fixpoint short_part (n : nat) (l : list Z) : list Z :=
  match n, l with
  | O, _ => []
  | S n', [] => repeat SPACE n
  | S n', c :: l' => let c := fat32_toupper c in if short_char c then c :: short_part n' l' else short_part n l'
  end.
(** What is before and behind the last dot. *)
Fixpoint split_dot (name : list Z) : option (list Z * list Z) :=
  match name with
  | [] => None
  | c :: n => match split_dot n with
              | Some (a, b) => Some (c :: a, b)
              | None => if c =? DOT then Some ([], n) else None
              end
  end.
Definition fat32_to_short_name (name : list Z) : list Z :=
  match split_dot name with
  | Some (base, ext) => short_part 8 base ++ short_part 3 ext
  | None => short_part 8 name ++ repeat SPACE 3
  end.

Definition fat32_short_name_checksum (short_name : list Z) : Z :=
  foldl (fun sum c => u8 ((if Z.odd sum then 0x80 else 0) + Z.shiftr sum 1 + c)) 0 (take 11 short_name).

(** ** Properties *)

Lemma short_part_length n l : length (short_part n l) = n.
Proof.
  revert n. induction l as [|c l IH]; intros [|n]; try done; [apply repeat_length|]. cbn [short_part].
  destruct (short_char _); [cbn [length]; by rewrite IH|apply (IH (S n))].
Qed.
Lemma to_short_name_length name : length (fat32_to_short_name name) = 11%nat.
Proof. unfold fat32_to_short_name. destruct (split_dot name) as [[a b]|]; by rewrite length_app, !short_part_length. Qed.

Lemma short_char_byte c : short_char c = true -> is_byte c /\ c <> SPACE /\ c <> DOT /\ c <> 0 /\ c <> FAT32_DIRENT_FREE.
Proof.
  unfold short_char, SPACE, DOT, FAT32_DIRENT_FREE, is_byte. intros Hc. rewrite !orb_true_iff, !andb_true_iff in Hc. simpl existsb in Hc.
  rewrite !orb_true_iff in Hc. zbool. lia.
Qed.
Lemma short_part_chars n l c : c ∈ short_part n l -> short_char c = true \/ c = SPACE.
Proof.
  revert n. induction l as [|d l IH]; intros [|n] Hc; cbn [short_part] in Hc; try by apply not_elem_of_nil in Hc.
  - right. by apply list_elem_of_In, repeat_spec in Hc.
  - destruct (short_char (fat32_toupper d)) eqn:E; [|by apply (IH (S n))]. apply elem_of_cons in Hc as [->|Hc]; [by left|by apply (IH n)].
Qed.
Lemma to_short_name_chars name c : c ∈ fat32_to_short_name name -> short_char c = true \/ c = SPACE.
Proof.
  unfold fat32_to_short_name. destruct (split_dot name) as [[a b]|]; intros [Hc|Hc]%elem_of_app;
    try (by apply short_part_chars in Hc). right. by apply list_elem_of_In, repeat_spec in Hc.
Qed.
Lemma to_short_name_bytes name : bytes (fat32_to_short_name name).
Proof.
  apply Forall_forall. intros c [Hc| ->]%to_short_name_chars; [by apply short_char_byte|unfold is_byte, SPACE; lia].
Qed.

(** A new entry has the attributes and the short name. *)
Lemma new_entry_ok short attr : length short = 11%nat -> bytes short -> is_byte attr ->
  let e := new_entry short attr in
  is_entry e /\ de_attr e = attr /\ take 11 e = short /\ fat32_entry_cluster e = 0 /\ de_file_size e = 0.
Proof.
  intros Hl Hb Ha e. destruct short as [|x0 [|x1 [|x2 [|x3 [|x4 [|x5 [|x6 [|x7 [|x8 [|x9 [|x10 [|]]]]]]]]]]]]; try done.
  split; [|done]. split; [done|]. unfold e, new_entry. apply splice_bytes; [by apply Forall_singleton|].
  apply splice_bytes; [done|]. apply Forall_forall. intros x Hx. apply list_elem_of_In, repeat_spec in Hx as ->. unfold is_byte. lia.
Qed.

(** The parts of a name in the 8.3 form. *)
Definition part_ok (n : nat) (l : list Z) : Prop := (length l <= n)%nat /\ Forall (fun c => short_char (fat32_toupper c) = true) l.
Record name_83 (name base ext : list Z) : Prop := mk_name_83 {
  n83_base : part_ok 8 base;
  n83_ext : part_ok 3 ext;
  n83_name : name = base ++ match ext with [] => [] | _ => DOT :: ext end;
}.

Lemma toupper_dot c : short_char (fat32_toupper c) = true -> c <> DOT /\ c <> 0.
Proof.
  intros Hc. apply short_char_byte in Hc as (_ & _ & Hd & H0 & _). split; intros ->; [by apply Hd|by apply H0].
Qed.
Lemma split_none l : (forall c, c ∈ l -> c <> DOT) -> split_dot l = None.
Proof.
  induction l as [|c l IH]; intros Hl; [done|]. cbn [split_dot]. rewrite IH by (intros; apply Hl; by apply list_elem_of_further).
  by rewrite (proj2 (Z.eqb_neq c DOT)) by (apply Hl, list_elem_of_here).
Qed.
Lemma split_some a b : (forall c, c ∈ b -> c <> DOT) -> split_dot (a ++ DOT :: b) = Some (a, b).
Proof.
  intros Hb. induction a as [|c a IH]; cbn [app split_dot]; [by rewrite split_none by done|]. by rewrite IH.
Qed.
Lemma part_no_dot n l c : part_ok n l -> c ∈ l -> c <> DOT.
Proof. intros [_ Hl] Hc. rewrite Forall_forall in Hl. by apply toupper_dot, Hl. Qed.
Lemma short_part_ok n l : part_ok n l -> short_part n l = map fat32_toupper l ++ repeat SPACE (n - length l).
Proof.
  intros [Hl Hf]. revert n Hl. induction Hf as [|c l Hc Hf IH]; intros n Hl; [by destruct n|].
  destruct n as [|n]; [simpl in Hl; lia|]. cbn [short_part map length]. rewrite Hc. cbn [app Nat.sub]. f_equal. apply IH. simpl in Hl. lia.
Qed.
Lemma trim_pad l n : (forall c, c ∈ l -> c <> SPACE) -> trim_spaces (l ++ repeat SPACE n) = l.
Proof.
  induction l as [|c l IH]; intros Hl; cbn [app].
  - induction n as [|n IHn]; [done|]. cbn [repeat trim_spaces]. by rewrite IHn.
  - cbn [trim_spaces]. rewrite IH by (intros; apply Hl; by apply list_elem_of_further). destruct l; [|done].
    by rewrite (proj2 (Z.eqb_neq c SPACE)) by (apply Hl, list_elem_of_here).
Qed.
Lemma part_upper_no_space n l c : part_ok n l -> c ∈ map fat32_toupper l -> c <> SPACE.
Proof.
  intros [_ Hl] Hc. rewrite Forall_forall in Hl. apply list_elem_of_fmap in Hc as (x & -> & Hx). by apply short_char_byte, Hl.
Qed.

Lemma format_entry short base ext e : take 11 e = short -> length e = 32%nat -> part_ok 8 base -> part_ok 3 ext ->
  short = short_part 8 base ++ short_part 3 ext ->
  fat32_format_short_name e = map fat32_toupper base ++ match ext with [] => [] | _ => DOT :: map fat32_toupper ext end.
Proof.
  intros Ht Hl Hb He Es.
  assert (de_name e = short_part 8 base) as En.
  { unfold de_name. transitivity (take 8 (take 11 e)); [by rewrite take_take|]. rewrite Ht, Es, take_app_le by (by rewrite short_part_length).
    apply take_ge. by rewrite short_part_length. }
  assert (de_ext e = short_part 3 ext) as Ex.
  { unfold de_ext. transitivity (drop 8 (take 11 e)); [by rewrite skipn_firstn_comm|]. rewrite Ht, Es, drop_app_ge by (by rewrite short_part_length).
    by rewrite short_part_length, Nat.sub_diag, drop_0. }
  unfold fat32_format_short_name. rewrite En, Ex, !short_part_ok by done.
  rewrite (trim_pad (map _ base)) by (intros c Hc; by apply (part_upper_no_space 8 base)).
  rewrite (trim_pad (map _ ext)) by (intros c Hc; by apply (part_upper_no_space 3 ext)). f_equal. by destruct ext.
Qed.

Lemma cmp_upper_eq a b : (forall c, c ∈ a -> c <> 0) -> (forall c, c ∈ b -> c <> 0) ->
  cmp_upper a b = 0 <-> map fat32_toupper a = map fat32_toupper b.
Proof.
  assert (forall c, c <> 0 -> fat32_toupper c <> 0) as Hup.
  { intros c Hc. unfold fat32_toupper. destruct ((97 <=? c) && (c <=? 122)) eqn:E; [|done]. apply andb_true_iff in E. zbool. lia. }
  revert b. induction a as [|x a IH]; intros [|y b] Ha Hb; cbn [cmp_upper map hd].
  - done.
  - split; [intros E|done]. exfalso. apply (Hup y (Hb y (list_elem_of_here _ _))). change (fat32_toupper 0) with 0 in E. lia.
  - split; [intros E|done]. exfalso. apply (Hup x (Ha x (list_elem_of_here _ _))). change (fat32_toupper 0) with 0 in E. lia.
  - rewrite (proj2 (Z.eqb_neq x 0) (Ha x (list_elem_of_here _ _))), (proj2 (Z.eqb_neq y 0) (Hb y (list_elem_of_here _ _))). cbn [orb].
    destruct (Z.eqb_spec (fat32_toupper x) (fat32_toupper y)) as [E|N]; cbn [negb].
    + rewrite IH by (intros; first [by apply Ha, list_elem_of_further|by apply Hb, list_elem_of_further]). split; [congruence|by intros [= _ ?]].
    + split; [lia|congruence].
Qed.

Lemma toupper_idem c : fat32_toupper (fat32_toupper c) = fat32_toupper c.
Proof.
  unfold fat32_toupper. destruct ((97 <=? c) && (c <=? 122)) eqn:E; [|by rewrite E]. apply andb_true_iff in E. zbool.
  destruct ((97 <=? c - 32) && (c - 32 <=? 122)) eqn:E'; [|done]. apply andb_true_iff in E'. zbool. lia.
Qed.

Lemma to_short_83 name base ext : name_83 name base ext -> fat32_to_short_name name = short_part 8 base ++ short_part 3 ext.
Proof.
  intros [Hb He En]. unfold fat32_to_short_name. destruct ext as [|x ext].
  - rewrite app_nil_r in En. subst name. by rewrite split_none by (intros c Hc; exact (part_no_dot 8 base c Hb Hc)).
  - rewrite En, split_some by (intros c Hc; exact (part_no_dot 3 (x :: ext) c He Hc)). done.
Qed.
Lemma name_upper base ext :
  map fat32_toupper (base ++ match ext with [] => [] | _ => DOT :: ext end) =
  map fat32_toupper base ++ match ext with [] => [] | _ => DOT :: map fat32_toupper ext end.
Proof. rewrite map_app. by destruct ext. Qed.

(** The entry made for a name in the 8.3 form shows the name in capitals. *)
Lemma format_83 name base ext attr : name_83 name base ext -> is_byte attr ->
  fat32_format_short_name (new_entry (fat32_to_short_name name) attr) = map fat32_toupper name.
Proof.
  intros H83 Ha. pose proof H83 as [Hb He En].
  destruct (new_entry_ok (fat32_to_short_name name) attr (to_short_name_length name) (to_short_name_bytes name) Ha) as ([Hl _] & _ & Ht & _).
  rewrite (format_entry _ base ext _ Ht Hl Hb He (to_short_83 _ _ _ H83)). by rewrite En, name_upper.
Qed.

(** What is left of a part of any name. *)
Lemma short_part_norm n l : exists p, part_ok n p /\ short_part n l = short_part n p /\ map fat32_toupper p = p.
Proof.
  revert n. induction l as [|c l IH]; intros [|n]; try (exists []; split; [by split; [simpl; lia|]|done]).
  cbn [short_part]. destruct (short_char (fat32_toupper c)) eqn:E; [|apply (IH (S n))].
  destruct (IH n) as (p & [Hl Hf] & Ep & Eu). exists (fat32_toupper c :: p). split; [|split].
  - split; [simpl; lia|]. constructor; [by rewrite toupper_idem|done].
  - cbn [short_part]. by rewrite toupper_idem, E, Ep.
  - cbn [map]. by rewrite toupper_idem, Eu.
Qed.
Lemma to_short_norm name : exists p q, part_ok 8 p /\ part_ok 3 q /\ fat32_to_short_name name = short_part 8 p ++ short_part 3 q /\
  map fat32_toupper p = p /\ map fat32_toupper q = q.
Proof.
  unfold fat32_to_short_name. destruct (split_dot name) as [[a b]|].
  - destruct (short_part_norm 8 a) as (p & Hp & -> & Ep), (short_part_norm 3 b) as (q & Hq & -> & Eq). by exists p, q.
  - destruct (short_part_norm 8 name) as (p & Hp & -> & Ep). exists p, []. split; [done|]. by split; [split; [simpl; lia|]|].
Qed.
Lemma part_ok_upper n l p : part_ok n p -> map fat32_toupper l = p -> part_ok n l.
Proof.
  intros [Hl Hf] E. split; [by rewrite <- (length_map fat32_toupper l), E|]. rewrite Forall_forall in *. intros c Hc.
  rewrite <- (toupper_idem c). apply Hf. rewrite <- E. apply list_elem_of_fmap. by exists c.
Qed.
Lemma toupper_is_dot c : fat32_toupper c = DOT -> c = DOT.
Proof. unfold fat32_toupper, DOT. destruct ((97 <=? c) && (c <=? 122)) eqn:E; [|done]. apply andb_true_iff in E. zbool. lia. Qed.

(** A name that shows as the name of its own entry has the 8.3 form. *)
Lemma shown_83 name p q : part_ok 8 p -> part_ok 3 q -> map fat32_toupper name = p ++ match q with [] => [] | _ => DOT :: q end ->
  exists base ext, name_83 name base ext.
Proof.
  intros Hp Hq E. apply map_eq_app in E as (a & b & -> & Ea & Eb). exists a.
  pose proof (part_ok_upper _ _ _ Hp Ea) as Ha. destruct q as [|x q].
  - apply map_eq_nil in Eb as ->. exists []. split; [done|split; [simpl; lia|done]|done].
  - destruct b as [|d b]; [done|]. injection Eb as Ed Eb. apply toupper_is_dot in Ed as ->. exists b.
    pose proof (part_ok_upper _ _ _ Hq Eb) as Hb. split; [done|done|]. by destruct b.
Qed.

Lemma part_nonzero n l c : part_ok n l -> c ∈ l -> c <> 0.
Proof. intros [_ Hf] Hc. rewrite Forall_forall in Hf. apply (toupper_dot c), Hf, Hc. Qed.
Lemma name_83_nonzero name base ext c : name_83 name base ext -> c ∈ name -> c <> 0.
Proof.
  intros [Hb He ->] [Hc|Hc]%elem_of_app; [by apply (part_nonzero 8 base)|]. destruct ext as [|x ext]; [by apply not_elem_of_nil in Hc|].
  apply elem_of_cons in Hc as [->|Hc]; [done|by apply (part_nonzero 3 (x :: ext))].
Qed.

(** The comparison with the entry of a name in the 8.3 form ignores case and nothing else. *)
Lemma strcmp_83_ok name base ext attr other : name_83 name base ext -> is_byte attr -> (forall c, c ∈ other -> c <> 0) ->
  fat32_strcmp_83 other (new_entry (fat32_to_short_name name) attr) = 0 <-> map fat32_toupper other = map fat32_toupper name.
Proof.
  intros H83 Ha Ho. unfold fat32_strcmp_83. rewrite (format_83 name base ext attr H83 Ha). rewrite cmp_upper_eq; [|done|].
  - assert (map fat32_toupper (map fat32_toupper name) = map fat32_toupper name) as ->; [|done]. clear H83. induction name as [|c name IH]; [done|].
    cbn [map]. by rewrite toupper_idem, IH.
  - intros c Hc. apply list_elem_of_fmap in Hc as (x & -> & Hx). pose proof (name_83_nonzero _ _ _ x H83 Hx) as H0.
    unfold fat32_toupper. destruct ((97 <=? x) && (x <=? 122)) eqn:E; [|done]. apply andb_true_iff in E. zbool. lia.
Qed.

(** the short name fat32_create_entry stores for a name is shown as the name in
    capitals and is found under every spelling of it, upper or lower case, and under no
    other string, when the name has the 8.3 form; and only then: any other name is not
    found again after a file was created with it, since the short name drops characters. *)
Theorem fat_name_found_again name attr : is_byte attr -> (forall c, c ∈ name -> c <> 0) ->
  let e := new_entry (fat32_to_short_name name) attr in
  (fat32_strcmp_83 name e = 0 <-> exists base ext, name_83 name base ext) /\
  (fat32_strcmp_83 name e = 0 -> fat32_format_short_name e = map fat32_toupper name /\
     forall other, (forall c, c ∈ other -> c <> 0) ->
       fat32_strcmp_83 other e = 0 <-> map fat32_toupper other = map fat32_toupper name).
Proof.
  intros Ha Hn e. assert (fat32_strcmp_83 name e = 0 <-> exists base ext, name_83 name base ext) as Hiff.
  { split; [|intros (b & x & H83); by eapply strcmp_83_ok]. intros E. destruct (to_short_norm name) as (p & q & Hp & Hq & Es & Ep & Eq).
    destruct (new_entry_ok (fat32_to_short_name name) attr (to_short_name_length name) (to_short_name_bytes name) Ha) as ([Hl _] & _ & Ht & _).
    apply (shown_83 name p q Hp Hq). unfold fat32_strcmp_83 in E. unfold e in E.
    rewrite (format_entry _ p q _ Ht Hl Hp Hq Es), Ep, Eq in E. apply cmp_upper_eq in E; [|done|].
    - rewrite E, name_upper, Ep, Eq. done.
    - intros c Hc. eapply (name_83_nonzero _ p q); [|exact Hc]. by split. }
  split; [done|]. intros (b & x & H83)%Hiff. split; [by eapply format_83|]. intros other Ho. by eapply strcmp_83_ok.
Qed.
