(* ===== verification/FatDir.v ===== *)
(** * FAT32: directories (fs/fat32/fat32.c)

    A directory is a chain of clusters of 32-byte entries: searching, listing, creating and
    deleting entries, and the walk of a path from the root directory. *)
From S2P Require Import Prelude Memory PageAlloc Chain Block VfsBase Fat FatName.

Section Dir.
Context {D : Type} `{BlockDevice D}.
Implicit Types fs : fat32_fs D.

(** [&entries[i]] of the cluster buffer. *)
Definition dir_entry (buf : list Z) (i : nat) : list Z := take 32 (drop (32 * i) buf).
Definition entries_per_cluster fs : nat := Z.to_nat (bytes_per_cluster fs / 32).
Definition is_end (e : list Z) : bool := de_first e =? FAT32_DIRENT_END.
Definition is_free (e : list Z) : bool := de_first e =? FAT32_DIRENT_FREE.
Definition is_lfn (e : list Z) : bool := Z.land (de_attr e) FAT32_ATTR_LONG_NAME_MASK =? FAT32_ATTR_LONG_NAME.
(** Entries the searches skip: free ones, parts of long names and volume labels. *)
Definition is_skipped (e : list Z) : bool := is_free e || (is_lfn e || has_attr e FAT32_ATTR_VOLUME_ID).

(** ** Searching *)

(** The entries of a cluster from [i] on: what ended the search, or the index to go on with. *)
Fixpoint find_in_cluster (n i : nat) (name buf : list Z) (entry_index : Z) : Z + option (list Z * Z) :=
  match n with
  | O => inl entry_index
  | S n' =>
      let e := dir_entry buf i in
      if is_end e then inr None
      else if is_skipped e then find_in_cluster n' (S i) name buf (u32 (entry_index + 1))
      else if fat32_strcmp_83 name e =? 0 then inr (Some (e, entry_index))
      else find_in_cluster n' (S i) name buf (u32 (entry_index + 1))
  end.
Definition find_round (name : list Z) (s : fat32_fs D * Z * Z) : (fat32_fs D * Z * Z) + (fat32_fs D * Z * option (list Z * Z)) :=
  let '(fs, cluster, entry_index) := s in
  if fat32_cluster_is_valid fs cluster then
    let '(fs, r) := fat32_read_cluster cluster fs in
    if negb (r =? 0) then inr (fs, r, None)
    else
      match find_in_cluster (entries_per_cluster fs) 0 name (cluster_buffer fs) entry_index with
      | inr (Some hit) => inr (fs, 0, Some hit)
      | inr None => inr (fs, VFS_ERR_NOENT, None)
      | inl entry_index => let '(fs, next) := fat32_next_cluster cluster fs in inl (fs, next, entry_index)
      end
  else inr (fs, VFS_ERR_NOENT, None).
(** The result, and the entry with its index. *)
Definition fat32_find_entry_in_dir (dir_cluster : Z) (name : list Z) fs : option (fat32_fs D * Z * option (list Z * Z)) :=
  loop (find_round name) (fs, dir_cluster, 0).

(** The entry of the root directory. *)
Definition root_entry fs : list Z :=
  fat32_entry_set_cluster (root_cluster fs) (splice 11 [FAT32_ATTR_DIRECTORY] (repeat 0 32)).
(** The walk: the volume, the current cluster, the entry found last, the path left ([None]
    for NULL) and the component buffer, which still has its old contents at the end of the
    path. *)
Definition lookup_round (s : fat32_fs D * Z * list Z * list Z * list Z)
  : (fat32_fs D * Z * list Z * list Z * list Z) + option (fat32_fs D * Z * list Z * Z) :=
  let '(fs, current, entry, remaining, component) := s in
  let next := fat32_path_next_component remaining 256 in
  let component := match next with Some (c, _) => c | None => component end in
  match next, component with
  | None, [] => inr (Some (fs, 0, entry, current))
  | _, _ =>
      match fat32_find_entry_in_dir current component fs with
      | None => inr None
      | Some (fs, r, hit) =>
          if negb (r =? 0) then inr (Some (fs, r, entry, current))
          else
            let entry := match hit with Some (e, _) => e | None => entry end in
            let current := fat32_entry_cluster entry in
            match next with
            | None => inr (Some (fs, 0, entry, current))
            | Some (_, rest) =>
                match skip_slashes rest with
                | [] => inr (Some (fs, 0, entry, current))
                | rest => if negb (has_attr entry FAT32_ATTR_DIRECTORY) then inr (Some (fs, VFS_ERR_NOTDIR, entry, current))
                          else inl (fs, current, entry, rest, [])
                end
            end
      end
  end.
(** [stack]: what the local variables [entry] and [component] hold before they are set. *)
Definition fat32_lookup (stack : list Z * list Z) (path : list Z) fs : option (fat32_fs D * Z * list Z * Z) :=
  match path with
  | [c] => if is_slash c then Some (fs, 0, root_entry fs, root_cluster fs)
           else r ← loop lookup_round (fs, root_cluster fs, fst stack, path, snd stack); r
  | _ => r ← loop lookup_round (fs, root_cluster fs, fst stack, path, snd stack); r
  end.
Definition fat32_find_entry (stack : list Z * list Z) (path : list Z) fs : option (fat32_fs D * Z * list Z) :=
  '(fs, r, e, _) ← fat32_lookup stack path fs; Some (fs, r, e).

(** ** Listing *)

(** The first entry from [i] on that is not skipped; [inl] when the cluster has no more. *)
Fixpoint scan_cluster (n i : nat) (buf : list Z) : unit + option (list Z) :=
  match n with
  | O => inl tt
  | S n' =>
      let e := dir_entry buf i in
      if is_end e then inr None
      else if is_skipped e then scan_cluster n' (S i) buf
      else inr (Some e)
  end.
(** [while (current_index + entries_per_cluster <= index) ...]; [inr] for the error return. *)
Definition seek_round (epc index : Z) (s : fat32_fs D * Z * Z) : (fat32_fs D * Z * Z) + (fat32_fs D * Z * Z + fat32_fs D * Z) :=
  let '(fs, cluster, current) := s in
  if u32 (current + epc) <=? index then
    if negb (fat32_cluster_is_valid fs cluster) then inr (inr (fs, VFS_ERR_NOENT))
    else let '(fs, next) := fat32_next_cluster cluster fs in inl (fs, next, u32 (current + epc))
  else inr (inl (fs, cluster, current)).
(** The body of the function; the call of itself at its end is the next round. *)
Definition read_dir_round (s : fat32_fs D * Z * Z)
  : (fat32_fs D * Z * Z) + option (fat32_fs D * Z * option (list Z)) :=
  let '(fs, dir_cluster, index) := s in
  let epc := entries_per_cluster fs in
  match loop (seek_round (Z.of_nat epc) index) (fs, dir_cluster, 0) with
  | None => inr None
  | Some (inr (fs, r)) => inr (Some (fs, r, None))
  | Some (inl (fs, cluster, current)) =>
      let '(fs, r) := fat32_read_cluster cluster fs in
      if negb (r =? 0) then inr (Some (fs, r, None))
      else
        let offset := Z.to_nat (u32 (index - current)) in
        match scan_cluster (epc - offset) offset (cluster_buffer fs) with
        | inr None => inr (Some (fs, VFS_ERR_NOENT, None))
        | inr (Some e) => inr (Some (fs, 0, Some e))
        | inl _ =>
            let '(fs, next) := fat32_next_cluster cluster fs in
            if negb (fat32_cluster_is_valid fs next) then inr (Some (fs, VFS_ERR_NOENT, None)) else inl (fs, next, 0)
        end
  end.
Definition fat32_read_dir_entry (dir_cluster index : Z) fs : option (fat32_fs D * Z * option (list Z)) :=
  r ← loop read_dir_round (fs, dir_cluster, index); r.

(** The entries of a cluster to list, at most [m] of them, and whether the end was seen. *)
Fixpoint list_cluster (n i m : nat) (buf : list Z) : list (list Z) * bool :=
  match n, m with
  | S n', S m' =>
      let e := dir_entry buf i in
      if is_end e then ([], true)
      else if is_skipped e then list_cluster n' (S i) m buf
      else let '(l, b) := list_cluster n' (S i) m' buf in (e :: l, b)
  | _, _ => ([], false)
  end.
(** Both passes over a directory; [bound] is the count of the first pass for the second. *)
Definition list_round (bound : option nat) (s : fat32_fs D * Z * list (list Z))
  : (fat32_fs D * Z * list (list Z)) + (fat32_fs D * option (list (list Z))) :=
  let '(fs, cluster, l) := s in
  let more := match bound with None => true | Some m => (length l <? m)%nat end in
  if fat32_cluster_is_valid fs cluster && more then
    let '(fs, r) := fat32_read_cluster cluster fs in
    if negb (r =? 0) then inr (fs, None)
    else
      let epc := entries_per_cluster fs in
      let m := match bound with None => epc | Some m => (m - length l)%nat end in
      let '(found, ended) := list_cluster epc 0 m (cluster_buffer fs) in
      if ended then inr (fs, Some (l ++ found))
      else let '(fs, next) := fat32_next_cluster cluster fs in inl (fs, next, l ++ found)
  else inr (fs, Some l).

(** ** Creating *)

Definition put_entry (i : nat) (e buf : list Z) : list Z := splice (32 * i) e buf.
(** The entry "." or ".." of a new directory. *)
Definition dot_entry (dots : list Z) (cluster : Z) : list Z :=
  fat32_entry_set_cluster cluster (splice 11 [FAT32_ATTR_DIRECTORY] (splice 0 (dots ++ repeat SPACE (11 - length dots)) (repeat 0 32))).
Definition new_directory fs (new_cluster parent : Z) : list Z :=
  put_entry 1 (dot_entry [DOT; DOT] parent) (put_entry 0 (dot_entry [DOT] new_cluster) (repeat 0 (Z.to_nat (bytes_per_cluster fs)))).

(** The first entry of a cluster that is free or the end. *)
Fixpoint free_slot (n i : nat) (buf : list Z) : option nat :=
  match n with
  | O => None
  | S n' => let e := dir_entry buf i in if is_end e || is_free e then Some i else free_slot n' (S i) buf
  end.

(** The entry is stored in slot [i] of the cluster in the buffer. The code also clears the
    memory behind the cluster buffer when it creates a directory; it is not part of the
    model. *)
Definition create_in_slot (i : nat) (cluster parent : Z) (e : list Z) fs : option (fat32_fs D * Z * list Z) :=
  if has_attr e FAT32_ATTR_DIRECTORY then
    let fs := set_buffer (put_entry i e (cluster_buffer fs)) fs in
    '(fs, new_cluster) ← fat32_alloc_cluster fs;
    if new_cluster =? 0 then Some (fs, VFS_ERR_NOSPC, e)
    else
      let fs := set_buffer (put_entry i (fat32_entry_set_cluster new_cluster e) (cluster_buffer fs)) fs in
      let '(fs, r) := fat32_write_cluster cluster fs in
      if negb (r =? 0) then Some (fs, r, e)
      else
        let fs := set_buffer (new_directory fs new_cluster parent) fs in
        let '(fs, r) := fat32_write_cluster new_cluster fs in
        if negb (r =? 0) then Some (fs, r, e)
        else
          let '(fs, _) := fat32_read_cluster cluster fs in
          Some (fs, 0, dir_entry (cluster_buffer fs) i)
  else
    let fs := set_buffer (put_entry i e (cluster_buffer fs)) fs in
    let '(fs, r) := fat32_write_cluster cluster fs in
    if negb (r =? 0) then Some (fs, r, e) else Some (fs, 0, dir_entry (cluster_buffer fs) i).

(** The search for a slot: an error, the cluster and its slot, or the last cluster. *)
Definition slot_round (s : fat32_fs D * Z * Z)
  : (fat32_fs D * Z * Z) + (fat32_fs D * (Z + (Z * nat) + Z)) :=
  let '(fs, cluster, prev) := s in
  if fat32_cluster_is_valid fs cluster then
    let '(fs, r) := fat32_read_cluster cluster fs in
    if negb (r =? 0) then inr (fs, inl (inl r))
    else
      match free_slot (entries_per_cluster fs) 0 (cluster_buffer fs) with
      | Some i => inr (fs, inl (inr (cluster, i)))
      | None => let '(fs, next) := fat32_next_cluster cluster fs in inl (fs, next, cluster)
      end
  else inr (fs, inr prev).

(** A new cluster at the end of the directory, with the entry in its first slot. *)
Definition create_in_new_cluster (prev : Z) (e : list Z) fs : option (fat32_fs D * Z * list Z) :=
  '(fs, new_cluster) ← fat32_alloc_cluster fs;
  if new_cluster =? 0 then Some (fs, VFS_ERR_NOSPC, e)
  else
    let '(fs, r) := fat32_set_cluster prev new_cluster fs in
    if negb (r =? 0) then Some (fs, r, e)
    else
      let fs := set_buffer (put_entry 0 e (repeat 0 (Z.to_nat (bytes_per_cluster fs)))) fs in
      '(fs, r) ← (if has_attr e FAT32_ATTR_DIRECTORY then
                    '(fs, dir_cluster) ← fat32_alloc_cluster fs;
                    if dir_cluster =? 0 then Some (fs, VFS_ERR_NOSPC)
                    else Some (set_buffer (put_entry 0 (fat32_entry_set_cluster dir_cluster e) (cluster_buffer fs)) fs, 0)
                  else Some (fs, 0));
      if negb (r =? 0) then Some (fs, r, e)
      else
        let '(fs, r) := fat32_write_cluster new_cluster fs in
        if negb (r =? 0) then Some (fs, r, e) else Some (fs, 0, dir_entry (cluster_buffer fs) 0).

(** The result and the entry for the caller, which is stored when the result is 0. *)
Definition fat32_create_entry (parent_cluster : Z) (name : list Z) (attr : Z) fs : option (fat32_fs D * Z * list Z) :=
  let e := new_entry (fat32_to_short_name name) attr in
  if fs_readonly fs then Some (fs, VFS_ERR_ROFS, e)
  else
    '(fs, place) ← loop slot_round (fs, parent_cluster, 0);
    match place with
    | inl (inl r) => Some (fs, r, e)
    | inl (inr (cluster, i)) => create_in_slot i cluster parent_cluster e fs
    | inr prev => create_in_new_cluster prev e fs
    end.

(** ** Deleting *)

(** The slot of a name in a cluster; [inr None] at the end of the directory. *)
Fixpoint delete_slot (n i : nat) (name buf : list Z) : unit + option nat :=
  match n with
  | O => inl tt
  | S n' =>
      let e := dir_entry buf i in
      if is_end e then inr None
      else if is_free e then delete_slot n' (S i) name buf
      else if is_lfn e then delete_slot n' (S i) name buf
      else if fat32_strcmp_83 name e =? 0 then inr (Some i)
      else delete_slot n' (S i) name buf
  end.
Definition delete_at (i : nat) (cluster : Z) fs : option (fat32_fs D * Z) :=
  let file_cluster := fat32_entry_cluster (dir_entry (cluster_buffer fs) i) in
  fs ← (if FAT32_FIRST_DATA_CLUSTER <=? file_cluster then '(fs, _) ← fat32_free_chain file_cluster fs; Some fs else Some fs);
  Some (fat32_write_cluster cluster (set_buffer (splice (32 * i) [FAT32_DIRENT_FREE] (cluster_buffer fs)) fs)).
Definition delete_round (name : list Z) (s : fat32_fs D * Z) : (fat32_fs D * Z) + option (fat32_fs D * Z) :=
  let '(fs, cluster) := s in
  if fat32_cluster_is_valid fs cluster then
    let '(fs, r) := fat32_read_cluster cluster fs in
    if negb (r =? 0) then inr (Some (fs, r))
    else
      match delete_slot (entries_per_cluster fs) 0 name (cluster_buffer fs) with
      | inr None => inr (Some (fs, VFS_ERR_NOENT))
      | inr (Some i) => inr (delete_at i cluster fs)
      | inl _ => inl (fat32_next_cluster cluster fs)
      end
  else inr (Some (fs, VFS_ERR_NOENT)).
Definition fat32_delete_entry (parent_cluster : Z) (name : list Z) fs : option (fat32_fs D * Z) :=
  if fs_readonly fs then Some (fs, VFS_ERR_ROFS)
  else r ← loop (delete_round name) (fs, parent_cluster); r.

(** ** The listing of a directory *)

Context {P : Type} `{PageAllocator P}.
(** The array of entries with its terminator and its page, [None] for NULL. *)
Definition fat32_list_dir (stack : list Z * list Z) (path : list Z) fs (pa : P)
  : option (fat32_fs D * P * option (Z * list (list Z))) :=
  '(fs, r, entry, cluster) ← fat32_lookup stack path fs;
  if negb (r =? 0) then Some (fs, pa, None)
  else if negb (has_attr entry FAT32_ATTR_DIRECTORY) then Some (fs, pa, None)
  else
    '(fs, counted) ← loop (list_round None) (fs, cluster, []);
    match counted with
    | None => Some (fs, pa, None)
    | Some l =>
        let array_size := (Z.of_nat (length l) + 1) * 32 in
        let pages := (array_size + PAGE_SIZE - 1) / PAGE_SIZE in
        let '(array, pa) := pa_alloc pages pa in
        if array =? 0 then Some (fs, pa, None)
        else
          '(fs, copied) ← loop (list_round (Some (length l))) (fs, cluster, []);
          match copied with
          | None => Some (fs, pa_free array pages pa, None)
          | Some l => Some (fs, pa, Some (array, l ++ [repeat 0 32]))
          end
    end.
End Dir.
