(* ===== verification/FatDirProps.v ===== *)
(** * FAT32: what the directory operations do (fs/fat32/fat32.c)

    The entries of a directory are the list of the 32-byte slots of its clusters. Searching
    is a search of that list up to its end mark; creating an entry replaces the first slot
    that is free, deleting one frees its slot and its clusters. *)
From S2P Require Import Prelude Memory PageAlloc Ring Chain Block VfsBase Fat FatTable FatAlloc FatFile FatWrite FatName FatDir.

(** ** Lists of slots *)

Definition slots_of (n : nat) (buf : list Z) : list (list Z) := map (dir_entry buf) (seq 0 n).

(** The first entry with the name before the end mark. *)
Fixpoint find_slots (name : list Z) (l : list (list Z)) : option (list Z) :=
  match l with
  | [] => None
  | e :: l' => if is_end e then None
               else if negb (is_skipped e) && (fat32_strcmp_83 name e =? 0) then Some e else find_slots name l'
  end.
(** Behind the end mark there are only end marks. *)
Fixpoint ended (l : list (list Z)) : Prop :=
  match l with
  | [] => True
  | e :: l' => if is_end e then Forall (fun x => is_end x = true) l' else ended l'
  end.
(** The first slot for a new entry. *)
Fixpoint free_index (l : list (list Z)) : option nat :=
  match l with
  | [] => None
  | e :: l' => if is_end e || is_free e then Some 0%nat else S <$> free_index l'
  end.

Lemma find_ended name l : Forall (fun x => is_end x = true) l -> find_slots name l = None.
Proof. intros Hl. destruct Hl as [|e l He _]; [done|]. cbn [find_slots]. by rewrite He. Qed.
Lemma ended_all l : Forall (fun x => is_end x = true) l -> ended l.
Proof. intros Hl. destruct Hl as [|e l He Hl]; [done|]. cbn [ended]. by rewrite He. Qed.
Lemma end_not_free e : is_end e = true -> is_free e = false.
Proof. unfold is_end, is_free. intros E%Z.eqb_eq. rewrite E. done. Qed.

(** An entry in the first free slot is found, and changes the search for no other name. *)
Lemma find_created name e l i : free_index l = Some i -> is_end e = false -> ended l ->
  ended (<[i := e]> l) /\
  (is_skipped e = false -> fat32_strcmp_83 name e = 0 -> find_slots name l = None -> find_slots name (<[i := e]> l) = Some e) /\
  (fat32_strcmp_83 name e <> 0 -> find_slots name (<[i := e]> l) = find_slots name l).
Proof.
  intros Hi Hend. revert i Hi. induction l as [|x l IH]; intros i Hi He; [done|]. cbn [free_index] in Hi. cbn [ended] in He.
  destruct (is_end x) eqn:Ex; [|destruct (is_free x) eqn:Ef]; cbn [orb] in Hi.
  - injection Hi as <-. change (<[0%nat := e]> (x :: l)) with (e :: l). cbn [ended find_slots]. rewrite Hend, Ex. split; [by apply ended_all|].
    rewrite find_ended by done. split; [by intros -> -> _|]. intros Hc. rewrite (proj2 (Z.eqb_neq _ _) Hc), andb_false_r. done.
  - injection Hi as <-. change (<[0%nat := e]> (x :: l)) with (e :: l). cbn [ended find_slots]. rewrite Hend, Ex. split; [done|]. split; [by intros -> -> _|].
    intros Hc. rewrite (proj2 (Z.eqb_neq _ _) Hc), andb_false_r. unfold is_skipped. by rewrite Ef.
  - destruct (free_index l) as [j|]; [|done]. injection Hi as <-. change (<[S j := e]> (x :: l)) with (x :: <[j := e]> l).
    cbn [ended find_slots]. rewrite Ex. destruct (IH j eq_refl He) as (I1 & I2 & I3). split; [done|].
    destruct (negb (is_skipped x) && (fat32_strcmp_83 name x =? 0)); [done|by split].
Qed.

Lemma dir_entry_length buf i n : (length buf = 32 * n)%nat -> (i < n)%nat -> length (dir_entry buf i) = 32%nat.
Proof. intros Hl Hi. unfold dir_entry. rewrite length_take, length_drop. lia. Qed.
Lemma dir_entry_put buf i e n j : (length buf = 32 * n)%nat -> (i < n)%nat -> (j < n)%nat -> length e = 32%nat ->
  dir_entry (put_entry i e buf) j = if bool_decide (j = i) then e else dir_entry buf j.
Proof.
  intros Hl Hi Hj He. unfold put_entry, dir_entry. case_bool_decide as Hji.
  - subst j. transitivity (take (length e) (drop (32 * i) (splice (32 * i) e buf))); [by rewrite He|]. apply splice_read. lia.
  - destruct (Nat.lt_ge_cases j i); [apply splice_read_before; lia|apply splice_read_after; lia].
Qed.
Lemma slots_of_lookup n buf j : (j < n)%nat -> slots_of n buf !! j = Some (dir_entry buf j).
Proof. intros Hj. unfold slots_of. rewrite list_lookup_fmap, lookup_seq_lt by done. done. Qed.
Lemma slots_of_length n buf : length (slots_of n buf) = n.
Proof. unfold slots_of. by rewrite length_map, length_seq. Qed.
Lemma slots_put n buf i e : (length buf = 32 * n)%nat -> (i < n)%nat -> length e = 32%nat ->
  slots_of n (put_entry i e buf) = <[i := e]> (slots_of n buf).
Proof.
  intros Hl Hi He. apply list_eq. intros j. destruct (Nat.lt_ge_cases j n) as [Hj|Hj].
  - rewrite slots_of_lookup, (dir_entry_put _ _ _ n) by done. case_bool_decide as Hji.
    + subst j. rewrite list_lookup_insert_eq by (by rewrite slots_of_length). done.
    + rewrite list_lookup_insert_ne by done. by rewrite slots_of_lookup.
  - rewrite !lookup_ge_None_2; [done|rewrite length_insert|]; by rewrite slots_of_length.
Qed.

(** The loops over one cluster. *)
Lemma find_in_cluster_ok n i name buf k rest :
  find_slots name (map (dir_entry buf) (seq i n) ++ rest) =
  match find_in_cluster n i name buf k with
  | inl _ => find_slots name rest
  | inr hit => fst <$> hit
  end.
Proof.
  revert i k. induction n as [|n IH]; intros i k; [done|]. cbn [seq map app find_slots find_in_cluster].
  destruct (is_end _); [done|]. destruct (is_skipped _); cbn [negb andb]; [apply IH|]. destruct (_ =? 0); [done|apply IH].
Qed.
Lemma free_slot_ok n i buf rest :
  free_index (map (dir_entry buf) (seq i n) ++ rest) =
  match free_slot n i buf with
  | Some j => Some (j - i)%nat
  | None => (fun k => (n + k)%nat) <$> free_index rest
  end /\ match free_slot n i buf with Some j => (i <= j < i + n)%nat | None => True end.
Proof.
  revert i. induction n as [|n IH]; intros i; cbn [seq map app free_index free_slot].
  { split; [by destruct (free_index rest)|done]. }
  destruct (is_end _ || is_free _); [split; [f_equal; lia|lia]|]. destruct (IH (S i)) as [-> Hj].
  destruct (free_slot n (S i) buf) as [j|]; [split; [simpl; f_equal; lia|lia]|]. by destruct (free_index rest).
Qed.

(** The slot deleting looks for; it does not skip volume labels. *)
Fixpoint delete_index (name : list Z) (l : list (list Z)) : option nat :=
  match l with
  | [] => None
  | e :: l' => if is_end e then None
               else if negb (is_free e || is_lfn e) && (fat32_strcmp_83 name e =? 0) then Some 0%nat else S <$> delete_index name l'
  end.
Lemma delete_slot_ok n i name buf rest :
  delete_index name (map (dir_entry buf) (seq i n) ++ rest) =
  match delete_slot n i name buf with
  | inr (Some j) => Some (j - i)%nat
  | inr None => None
  | inl _ => (fun k => (n + k)%nat) <$> delete_index name rest
  end /\ match delete_slot n i name buf with inr (Some j) => (i <= j < i + n)%nat | _ => True end.
Proof.
  revert i. induction n as [|n IH]; intros i; cbn [seq map app delete_index delete_slot].
  { split; [by destruct (delete_index name rest)|done]. }
  destruct (is_end _); [done|]. destruct (IH (S i)) as [E Hj]. rewrite E.
  assert ((S <$> match delete_slot n (S i) name buf with
             | inl _ => (fun k : nat => (n + k)%nat) <$> delete_index name rest
             | inr (Some j) => Some (j - S i)%nat
             | inr None => None
             end) =
          match delete_slot n (S i) name buf with
          | inl _ => (fun k : nat => (S n + k)%nat) <$> delete_index name rest
          | inr (Some j) => Some (j - i)%nat
          | inr None => None
          end /\ match delete_slot n (S i) name buf with inr (Some j) => (i <= j < i + S n)%nat | _ => True end) as [R1 R2].
  { destruct (delete_slot n (S i) name buf) as [|[j|]]; [by destruct (delete_index name rest)|split; [simpl; f_equal; lia|lia]|done]. }
  destruct (is_free _); cbn [negb andb orb]; [done|]. destruct (is_lfn _); cbn [negb andb]; [done|].
  destruct (_ =? 0); [split; [f_equal; lia|lia]|done].
Qed.

(** The entry with its first byte marked. *)
Definition deleted (e : list Z) : list Z := splice 0 [FAT32_DIRENT_FREE] e.
Lemma deleted_free e : is_free (deleted e) = true /\ is_end (deleted e) = false.
Proof. by destruct e. Qed.
Lemma find_deleted name other e l i : delete_index name l = Some i -> l !! i = Some e -> ended l ->
  ended (<[i := deleted e]> l) /\
  (fat32_strcmp_83 other e <> 0 -> find_slots other (<[i := deleted e]> l) = find_slots other l) /\
  (forall k, (k < i)%nat -> (<[i := deleted e]> l) !! k = l !! k).
Proof.
  intros Hi He Hend. assert (ended (<[i := deleted e]> l) /\ (fat32_strcmp_83 other e <> 0 -> find_slots other (<[i := deleted e]> l) = find_slots other l)) as [E1 E2].
  2: { split; [done|]. split; [done|]. intros k Hk. apply list_lookup_insert_ne. lia. }
  revert i Hi He. destruct (deleted_free e) as [Df De]. induction l as [|x l IH]; intros i Hi He; [done|]. cbn [delete_index] in Hi. cbn [ended] in Hend.
  destruct (is_end x) eqn:Ex; [done|]. destruct (negb (is_free x || is_lfn x) && (fat32_strcmp_83 name x =? 0)) eqn:Em.
  - injection Hi as <-. injection He as <-. change (<[0%nat := deleted x]> (x :: l)) with (deleted x :: l). cbn [ended find_slots].
    rewrite De, Ex. split; [done|]. intros Hc. unfold is_skipped at 1. rewrite Df, (proj2 (Z.eqb_neq _ _) Hc), andb_false_r. done.
  - destruct (delete_index name l) as [j|]; [|done]. injection Hi as <-. change (<[S j := deleted e]> (x :: l)) with (x :: <[j := deleted e]> l).
    destruct (IH Hend j eq_refl He) as [I1 I2]. cbn [ended find_slots]. rewrite Ex. split; [done|]. intros Hc.
    destruct (negb (is_skipped x) && _); [done|by apply I2].
Qed.

Section DirProps.
Context {D : Type} `{BlockDeviceLaws D}.
Implicit Types fs : fat32_fs D.
Implicit Types T : Z -> Z.
Implicit Types C : Z -> list Z.

(** The slots of a directory. *)
Definition dir_slots fs C (l : list Z) : list (list Z) := concat (map (fun c => slots_of (entries_per_cluster fs) (C c)) l).

Lemma epc_shape fs fs' : alike fs fs' -> entries_per_cluster fs' = entries_per_cluster fs.
Proof. intros [Hs _]. unfold entries_per_cluster. by rewrite (bpc_shape fs fs' Hs). Qed.
Lemma epc_ok fs T C c : vol fs T C -> valid_cluster fs c -> length (C c) = (32 * entries_per_cluster fs)%nat /\ (2 <= entries_per_cluster fs)%nat.
Proof.
  intros Hv Hc. destruct (cluster_length fs T C c Hv Hc) as [Hl _]. pose proof (g_spc _ (v_geometry _ (vo_ok _ _ _ Hv))) as Hs.
  pose proof (g_bpc _ (v_geometry _ (vo_ok _ _ _ Hv))) as Hb. unfold entries_per_cluster, FAT32_SECTOR_SIZE in *.
  assert (bytes_per_cluster fs / 32 = 16 * spc fs) as E by (rewrite Hb; symmetry; apply Z.div_unique_exact; lia). rewrite E. lia.
Qed.
Lemma chain_valid_hd fs T c l : chain fs T (c :: l) -> valid_cluster fs c.
Proof. by intros [Hc _]. Qed.

(** The end of a chain is no cluster. *)
Lemma eof_invalid fs T C c : vol fs T C -> valid_cluster fs c -> fat32_is_eof (T c) = true -> fat32_cluster_is_valid fs (T c) = false.
Proof.
  intros Hv Hc He. destruct (fat32_cluster_is_valid fs (T c)) eqn:E; [|done]. exfalso.
  apply is_valid_iff in E; [|apply Hv|eapply table_range; [exact Hv|]; by apply valid_in_table; [apply Hv|]].
  by rewrite (valid_not_eof fs (T c) (vo_ok _ _ _ Hv) E) in He.
Qed.

(** The steps all searches take at a cluster. *)
Lemma dir_step fs T C c : vol fs T C -> valid_cluster fs c ->
  exists fs1 fs2, fat32_cluster_is_valid fs c = true /\ fat32_read_cluster c fs = (fs1, 0) /\ cluster_buffer fs1 = C c /\
    vol fs1 T C /\ alike fs fs1 /\ fat32_next_cluster c fs1 = (fs2, T c) /\ vol fs2 T C /\ alike fs fs2.
Proof.
  intros Hv Hc. destruct (vol_read_cluster fs T C c Hv Hc) as (fs1 & E1 & Hv1 & Hs1 & Hh1 & Hb1).
  destruct (vol_next_cluster fs1 T C c Hv1) as (fs2 & E2 & Hv2 & Hs2 & Hh2 & _); [by apply (valid_shape fs)|].
  exists fs1, fs2. split; [by apply valid_true; [apply Hv|]|]. do 3 (split; [done|]).
  split; [by split|]. split; [done|]. split; [done|]. split; [by transitivity fs1|congruence].
Qed.

Lemma dir_slots_cons fs C c l : dir_slots fs C (c :: l) = slots_of (entries_per_cluster fs) (C c) ++ dir_slots fs C l.
Proof. done. Qed.
Lemma dir_slots_alike fs fs' C l : alike fs fs' -> dir_slots fs' C l = dir_slots fs C l.
Proof. intros Ha. unfold dir_slots. by rewrite (epc_shape fs fs' Ha). Qed.
Lemma chain_alike fs fs' T l : alike fs fs' -> chain fs T l -> chain fs' T l.
Proof. intros [Hs _]. by apply chain_ext. Qed.

(** ** Searching *)

Definition find_result (hit : option (list Z * Z)) : Z := match hit with Some _ => 0 | None => VFS_ERR_NOENT end.

Lemma find_loop name l : forall fs T C c k, vol fs T C -> chain fs T (c :: l) ->
  exists fs' hit, while_nat (S (length (c :: l))) (find_round name) (fs, c, k) = inr (fs', find_result hit, hit) /\
    fst <$> hit = find_slots name (dir_slots fs C (c :: l)) /\ vol fs' T C /\ alike fs fs'.
Proof.
  induction l as [|d l IH]; intros fs T C c k Hv Hl; pose proof (chain_valid_hd _ _ _ _ Hl) as Hc;
    destruct (dir_step fs T C c Hv Hc) as (fs1 & fs2 & Ev & Er & Eb & Hv1 & Ha1 & En & Hv2 & Ha2);
    rewrite while_nat_S; unfold find_round at 1; rewrite Ev, Er; cbn [negb Z.eqb];
    rewrite (epc_shape fs fs1 Ha1), Eb, dir_slots_cons; unfold slots_of; rewrite (find_in_cluster_ok _ 0 name (C c) k);
    (destruct (find_in_cluster (entries_per_cluster fs) 0 name (C c) k) as [k'|[hit|]];
       [|by exists fs1, (Some hit)|by exists fs1, None]); rewrite En.
  - destruct Hl as (_ & He & _). cbn [length]. rewrite while_nat_S. unfold find_round at 1.
    rewrite (eof_invalid fs2 T C c Hv2); [|apply (valid_shape fs); [apply Ha2|done]|done]. by exists fs2, None.
  - destruct (IH fs2 T C d k' Hv2) as (fs3 & hit & E & Eh & Hv3 & Ha3); [apply (chain_alike fs); [done|apply Hl]|].
    apply chain_cons in Hl as (_ & -> & _). exists fs3, hit. split; [exact E|]. rewrite Eh, (dir_slots_alike fs fs2) by done.
    split; [done|]. split; [done|by transitivity fs2].
Qed.
Lemma find_ok fs T C c l name : vol fs T C -> chain fs T (c :: l) ->
  exists fs' hit, fat32_find_entry_in_dir c name fs = Some (fs', find_result hit, hit) /\
    fst <$> hit = find_slots name (dir_slots fs C (c :: l)) /\ vol fs' T C /\ alike fs fs'.
Proof.
  intros Hv Hl. destruct (find_loop name l fs T C c 0 Hv Hl) as (fs' & hit & E & Hh & Hv' & Ha). exists fs', hit. split; [|done].
  unfold fat32_find_entry_in_dir. apply (loop_nat _ _ _ _ E). pose proof (chain_short fs T _ (vo_ok _ _ _ Hv) Hl) as Hn.
  pose proof (g_total _ (v_geometry _ (vo_ok _ _ _ Hv))) as G. unfold FAT32_CLUSTER_BAD, FAT32_FIRST_DATA_CLUSTER in G. lia.
Qed.

(** ** Creating *)

(** The cluster and its slot, or the last cluster of a directory without one. *)
Definition slot_found fs C (l : list Z) (r : Z + (Z * nat) + Z) fs' : Prop :=
  match r with
  | inl (inl _) => False
  | inl (inr (d, j)) => exists pre post, l = pre ++ d :: post /\ cluster_buffer fs' = C d /\ (j < entries_per_cluster fs)%nat /\
      free_index (dir_slots fs C l) = Some (length pre * entries_per_cluster fs + j)%nat
  | inr d => (exists pre, l = pre ++ [d]) /\ free_index (dir_slots fs C l) = None
  end.

Lemma slot_loop l : forall fs T C c prev, vol fs T C -> chain fs T (c :: l) ->
  exists fs' r, while_nat (S (length (c :: l))) slot_round (fs, c, prev) = inr (fs', r) /\ slot_found fs C (c :: l) r fs' /\
    vol fs' T C /\ alike fs fs'.
Proof.
  induction l as [|d l IH]; intros fs T C c prev Hv Hl; pose proof (chain_valid_hd _ _ _ _ Hl) as Hc;
    destruct (dir_step fs T C c Hv Hc) as (fs1 & fs2 & Ev & Er & Eb & Hv1 & Ha1 & En & Hv2 & Ha2);
    rewrite while_nat_S; unfold slot_round at 1; rewrite Ev, Er; cbn [negb Z.eqb];
    rewrite (epc_shape fs fs1 Ha1), Eb; set (n := entries_per_cluster fs).
  - destruct (free_slot_ok n 0 (C c) []) as [Ef Hj]. rewrite app_nil_r in Ef.
    assert (free_index (dir_slots fs C [c]) = free_index (map (dir_entry (C c)) (seq 0 n))) as Es.
    { rewrite dir_slots_cons. change (dir_slots fs C []) with (@nil (list Z)). by rewrite app_nil_r. }
    destruct (free_slot n 0 (C c)) as [j|].
    + exists fs1, (inl (inr (c, j))). split; [done|]. split; [|done]. exists [], []. split; [done|]. split; [done|]. split; [lia|].
      rewrite Es, Ef. by rewrite Nat.sub_0_r.
    + destruct Hl as (_ & He & _). rewrite En. cbn [length]. rewrite while_nat_S. unfold slot_round at 1.
      rewrite (eof_invalid fs2 T C c Hv2); [|apply (valid_shape fs); [apply Ha2|done]|done].
      exists fs2, (inr c). split; [done|]. split; [|done]. split; [by exists []|]. by rewrite Es, Ef.
  - destruct (free_slot_ok n 0 (C c) (dir_slots fs C (d :: l))) as [Ef Hj].
    destruct (free_slot n 0 (C c)) as [j|].
    + exists fs1, (inl (inr (c, j))). split; [done|]. split; [|done]. exists [], (d :: l). split; [done|]. split; [done|]. split; [lia|].
      rewrite dir_slots_cons. unfold slots_of. fold n. rewrite Ef. by rewrite Nat.sub_0_r.
    + destruct (IH fs2 T C d c Hv2) as (fs3 & r & E & Hr & Hv3 & Ha3); [apply (chain_alike fs); [done|apply Hl]|].
      apply chain_cons in Hl as (_ & Ed & _). rewrite En, Ed. exists fs3, r. split; [exact E|]. split; [|split; [done|by transitivity fs2]].
      unfold slot_found in *. rewrite (epc_shape fs fs2 Ha2), (dir_slots_alike fs fs2) in Hr by done. fold n in Hr |- *.
      rewrite dir_slots_cons. unfold slots_of. fold n. rewrite Ef. destruct r as [[z|[x j]]|x]; [done|..].
      * destruct Hr as (pre & post & -> & Eb3 & Hj3 & ->). exists (c :: pre), post. split; [done|]. split; [done|]. split; [done|].
        simpl. f_equal. lia.
      * destruct Hr as ((pre & ->) & ->). split; [by exists (c :: pre)|done].
Qed.
Lemma slot_ok fs T C c l : vol fs T C -> chain fs T (c :: l) ->
  exists fs' r, loop slot_round (fs, c, 0) = Some (fs', r) /\ slot_found fs C (c :: l) r fs' /\ vol fs' T C /\ alike fs fs'.
Proof.
  intros Hv Hl. destruct (slot_loop l fs T C c 0 Hv Hl) as (fs' & r & E & Hr). exists fs', r. split; [|done].
  apply (loop_nat _ _ _ _ E). pose proof (chain_short fs T _ (vo_ok _ _ _ Hv) Hl) as Hn.
  pose proof (g_total _ (v_geometry _ (vo_ok _ _ _ Hv))) as G. unfold FAT32_CLUSTER_BAD, FAT32_FIRST_DATA_CLUSTER in G. lia.
Qed.

Lemma dir_slots_app fs C l1 l2 : dir_slots fs C (l1 ++ l2) = dir_slots fs C l1 ++ dir_slots fs C l2.
Proof. unfold dir_slots. by rewrite map_app, concat_app. Qed.
Lemma dir_slots_length fs C l : length (dir_slots fs C l) = (length l * entries_per_cluster fs)%nat.
Proof.
  induction l as [|c l IH]; [done|]. rewrite dir_slots_cons, length_app, slots_of_length, IH. cbn [length]. lia.
Qed.
Lemma dir_slots_ext fs C C' l : (forall x, x ∈ l -> C' x = C x) -> dir_slots fs C' l = dir_slots fs C l.
Proof.
  intros He. unfold dir_slots. f_equal. induction l as [|c l IH]; [done|]. simpl. rewrite He by apply list_elem_of_here. f_equal.
  apply IH. intros x Hx. apply He. by apply list_elem_of_further.
Qed.

(** One slot of a directory is replaced. *)
Lemma dir_slots_put fs T C pre d post j e : vol fs T C -> chain fs T (pre ++ d :: post) -> (j < entries_per_cluster fs)%nat -> length e = 32%nat ->
  dir_slots fs (upd C d (put_entry j e (C d))) (pre ++ d :: post) =
  <[(length pre * entries_per_cluster fs + j)%nat := e]> (dir_slots fs C (pre ++ d :: post)).
Proof.
  intros Hv Hl Hj He. pose proof (chain_nodup fs T _ (vo_ok _ _ _ Hv) Hl) as Hnd. apply NoDup_app in Hnd as (_ & Hpre & Hnd).
  apply NoDup_cons in Hnd as [Hpost _]. destruct (epc_ok fs T C d Hv (chain_tail _ _ _ _ _ Hl)) as [Hb _].
  rewrite !dir_slots_app, !dir_slots_cons. rewrite <- dir_slots_length with (C := C) at 1. rewrite insert_app_r.
  rewrite (dir_slots_ext fs C _ pre).
  2: { intros x Hx. apply upd_other. intros ->. apply (Hpre d Hx), list_elem_of_here. }
  rewrite (dir_slots_ext fs C _ post) by (intros x Hx; apply upd_other; by intros ->). rewrite upd_same.
  rewrite slots_put by done. f_equal. rewrite insert_app_l by (by rewrite slots_of_length). done.
Qed.

Lemma write_buffer_ok fs T C c b : vol fs T C -> valid_cluster fs c -> Z.of_nat (length b) = bytes_per_cluster fs -> bytes b ->
  exists fs', fat32_write_cluster c (set_buffer b fs) = (fs', 0) /\ vol fs' T (upd C c b) /\ alike fs fs' /\ cluster_buffer fs' = b.
Proof.
  intros Hv Hc Hl Hb. destruct (vol_write_cluster (set_buffer b fs) T C c) as (fs' & E & Hv' & Hs & Hh & Eb);
    [by apply vol_set_buffer|by apply (valid_shape fs)|done|done|].
  exists fs'. split; [done|]. split; [done|]. split; [|done]. split; [|done]. transitivity (set_buffer b fs); [by split|done].
Qed.
(** A cluster with one slot replaced. *)
Lemma put_entry_ok fs T C c j e : vol fs T C -> valid_cluster fs c -> (j < entries_per_cluster fs)%nat -> is_entry e ->
  Z.of_nat (length (put_entry j e (C c))) = bytes_per_cluster fs /\ bytes (put_entry j e (C c)) /\ dir_entry (put_entry j e (C c)) j = e.
Proof.
  intros Hv Hc Hj [He Hb]. destruct (epc_ok fs T C c Hv Hc) as [Hl _]. destruct (cluster_length fs T C c Hv Hc) as [Hl' Hbc].
  unfold sizeof_dir_entry in He. split; [|split].
  - unfold put_entry. rewrite splice_length by lia. done.
  - by apply splice_bytes.
  - rewrite (dir_entry_put (C c) j e (entries_per_cluster fs)) by done. by rewrite bool_decide_true.
Qed.

(** The cluster of a new directory. *)
Lemma dot_base_ok dots : (length dots <= 11)%nat -> bytes dots ->
  is_entry (splice 11 [FAT32_ATTR_DIRECTORY] (splice 0 (dots ++ repeat SPACE (11 - length dots)) (repeat 0 32))).
Proof.
  intros Hl Hb. unfold is_entry, sizeof_dir_entry.
  assert (forall n y, is_byte y -> bytes (repeat y n)) as Hrep.
  { intros n y Hy. apply Forall_forall. intros z Hz. apply list_elem_of_In, repeat_spec in Hz as ->. done. }
  assert (length (dots ++ repeat SPACE (11 - length dots)) = 11%nat) as Hlen by (rewrite length_app, repeat_length; lia).
  split.
  - rewrite !splice_length; [done|rewrite Hlen; simpl; lia|rewrite splice_length by (rewrite Hlen; simpl; lia); simpl; lia].
  - apply splice_bytes; [apply Forall_singleton; unfold is_byte, FAT32_ATTR_DIRECTORY; lia|]. apply splice_bytes; [|apply Hrep; unfold is_byte; lia].
    apply Forall_app. split; [done|]. apply Hrep. unfold is_byte, SPACE. lia.
Qed.
Lemma dot_entry_ok dots x : (length dots <= 11)%nat -> bytes dots ->
  is_entry (dot_entry dots x) /\ (0 <= x < 2 ^ 32 -> fat32_entry_cluster (dot_entry dots x) = x).
Proof.
  intros Hl Hb. pose proof (dot_base_ok dots Hl Hb). split; [by apply set_cluster_is_entry|by apply set_cluster_read].
Qed.
Lemma dots_bytes : bytes [DOT] /\ bytes [DOT; DOT].
Proof. unfold bytes, is_byte, DOT. split; repeat constructor; lia. Qed.
Lemma new_directory_ok fs d p : vol_ok fs -> Z.of_nat (length (new_directory fs d p)) = bytes_per_cluster fs /\ bytes (new_directory fs d p).
Proof.
  intros Hv. pose proof (bpc_pos fs Hv) as Hb. destruct (zeroed_ok fs Hb) as [Z1 Z2].
  assert (64 <= bytes_per_cluster fs) as H64.
  { pose proof (g_spc _ (v_geometry _ Hv)). rewrite (g_bpc _ (v_geometry _ Hv)). unfold FAT32_SECTOR_SIZE. lia. }
  destruct dots_bytes as [B1 B2].
  destruct (dot_entry_ok [DOT] d ltac:(simpl; lia) B1) as [[L1 E1] _], (dot_entry_ok [DOT; DOT] p ltac:(simpl; lia) B2) as [[L2 E2] _].
  unfold sizeof_dir_entry in *. unfold new_directory, put_entry. fold (zeroed fs). split.
  - rewrite !splice_length; [done|lia|rewrite splice_length; lia].
  - apply splice_bytes; [done|]. by apply splice_bytes.
Qed.

Lemma create_dir_in_slot fs T C j p d parent fl e : vol fs T C -> valid_cluster fs p -> (j < entries_per_cluster fs)%nat -> cluster_buffer fs = C p ->
  is_entry e -> has_attr e FAT32_ATTR_DIRECTORY = true -> frees fs T = d :: fl -> p <> d ->
  let e' := fat32_entry_set_cluster d e in
  let T' := upd T d FAT32_CLUSTER_EOF in
  exists fs', create_in_slot j p parent e fs = Some (fs', 0, e') /\
    vol fs' T' (upd (upd C p (put_entry j e' (C p))) d (new_directory fs d parent)) /\ same_shape fs fs' /\ frees fs' T' = fl.
Proof.
  intros Hv Hp Hj Eb He Hd Hf Hpd e' T'. assert (is_entry e') as He' by (by apply set_cluster_is_entry).
  unfold create_in_slot. rewrite Hd, Eb. set (fs1 := set_buffer _ fs). assert (vol fs1 T C) as Hv1 by (by apply vol_set_buffer).
  destruct (alloc_first fs1 T C d fl Hv1 Hf) as (fs2 & -> & Hvd & _ & Hv2 & Hs2 & Eb2 & Hf2). cbn [mbind option_bind].
  pose proof (valid_bound fs1 d (vo_ok _ _ _ Hv1) Hvd) as Hdb. rewrite (proj2 (Z.eqb_neq d 0)) by lia. fold e'. fold T' in Hv2, Hf2. rewrite Eb2.
  assert (same_shape fs fs2) as Hs by (transitivity fs1; [by split|done]).
  assert (put_entry j e' (cluster_buffer fs1) = put_entry j e' (C p)) as ->.
  { destruct (epc_ok fs T C p Hv Hp) as [Hlp _]. destruct He as [Hle _], He' as [Hle' _].
    unfold sizeof_dir_entry in *. apply splice_splice; [lia|congruence]. }
  assert (entries_per_cluster fs2 = entries_per_cluster fs) as Ee2 by (unfold entries_per_cluster; by rewrite (bpc_shape fs fs2 Hs)).
  assert (valid_cluster fs2 p) as Hvp2 by (by apply (valid_shape fs)).
  destruct (put_entry_ok fs2 T' C p j e' Hv2 Hvp2 ltac:(lia) He') as (P1 & P2 & P3).
  destruct (write_buffer_ok fs2 T' C p _ Hv2 Hvp2 P1 P2) as (fs3 & -> & Hv3 & Ha3 & Eb3). cbn [negb Z.eqb].
  assert (same_shape fs fs3) as Hs3 by (transitivity fs2; [done|apply Ha3]).
  assert (new_directory fs3 d parent = new_directory fs d parent) as -> by (unfold new_directory; by rewrite (bpc_shape fs fs3 Hs3)).
  destruct (new_directory_ok fs d parent (vo_ok _ _ _ Hv)) as [N1 N2].
  destruct (write_buffer_ok fs3 T' (upd C p (put_entry j e' (C p))) d (new_directory fs d parent) Hv3) as (fs4 & -> & Hv4 & Ha4 & Eb4);
    [by apply (valid_shape fs)|by rewrite (bpc_shape fs fs3 Hs3)|done|]. cbn [negb Z.eqb].
  assert (valid_cluster fs4 p) as Hvp4 by (apply (valid_shape fs3); [apply Ha4|by apply (valid_shape fs)]).
  destruct (vol_read_cluster fs4 T' _ p Hv4 Hvp4) as (fs5 & -> & Hv5 & Hs5 & Hh5 & Eb5). rewrite Eb5, upd_other, upd_same, P3 by done.
  exists fs5. split; [done|]. split; [done|]. assert (alike fs2 fs5) as Ha5.
  { transitivity fs3; [done|]. transitivity fs4; [done|]. by split. }
  split; [transitivity fs2; [done|apply Ha5]|]. rewrite <- Hf2. by apply frees_ext; [apply Ha5|apply Ha5|].
Qed.

Section Create.
Context (fs : fat32_fs D) (T : Z -> Z) (C : Z -> list Z) (c : Z) (l name : list Z) (attr : Z).
Context (Hv : vol fs T C) (Hl : chain fs T (c :: l)) (Ha : is_byte attr).

Definition created : list Z := new_entry (fat32_to_short_name name) attr.
Lemma created_ok : is_entry created /\ de_attr created = attr.
Proof. destruct (new_entry_ok _ attr (to_short_name_length name) (to_short_name_bytes name) Ha) as (E & A & _). done. Qed.
Lemma created_attr a : has_attr created a = negb (Z.land attr a =? 0).
Proof. unfold has_attr. by rewrite (proj2 created_ok). Qed.

(** A file in a free slot. *)
Lemma create_file_ok i : Z.land attr FAT32_ATTR_DIRECTORY = 0 -> free_index (dir_slots fs C (c :: l)) = Some i ->
  exists fs' C', fat32_create_entry c name attr fs = Some (fs', 0, created) /\ vol fs' T C' /\ alike fs fs' /\
    dir_slots fs C' (c :: l) = <[i := created]> (dir_slots fs C (c :: l)) /\ forall x, x ∉ c :: l -> C' x = C x.
Proof.
  intros Hd Hi. unfold fat32_create_entry. rewrite (v_rw _ (vo_ok _ _ _ Hv)).
  destruct (slot_ok fs T C c l Hv Hl) as (fs1 & r & -> & Hr & Hv1 & Ha1). cbn [mbind option_bind].
  destruct r as [[z|[d j]]|d]; [done|destruct Hr as (pre & post & El & Eb & Hj & Ei)|destruct Hr as [_ Ei]; congruence].
  rewrite Ei in Hi. injection Hi as <-. assert (valid_cluster fs d) as Hvd by (rewrite El in Hl; by eapply chain_tail).
  assert (valid_cluster fs1 d) as Hvd1 by (apply (valid_shape fs); [apply Ha1|done]). rewrite <- (epc_shape fs fs1 Ha1) in Hj.
  destruct (put_entry_ok fs1 T C d j created Hv1 Hvd1 Hj (proj1 created_ok)) as (P1 & P2 & P3).
  destruct (write_buffer_ok fs1 T C d _ Hv1 Hvd1 P1 P2) as (fs2 & E2 & Hv2 & Ha2 & Eb2).
  unfold create_in_slot. fold created. rewrite created_attr, Hd. cbn [negb Z.eqb]. rewrite Eb, E2. cbn [negb Z.eqb]. rewrite Eb2, P3.
  exists fs2, (upd C d (put_entry j created (C d))). split; [done|]. split; [done|]. split; [by transitivity fs1|]. rewrite (epc_shape fs fs1 Ha1) in Hj. split.
  - rewrite El in Hl |- *. apply (dir_slots_put fs T); [done|done|done|apply created_ok].
  - intros x Hx. apply upd_other. intros ->. apply Hx. rewrite El. apply elem_of_app. right. apply list_elem_of_here.
Qed.

(** A directory in a free slot, with a new cluster of its own. *)
Lemma create_dir_ok i d fl : Z.land attr FAT32_ATTR_DIRECTORY <> 0 -> free_index (dir_slots fs C (c :: l)) = Some i -> frees fs T = d :: fl ->
  let e := fat32_entry_set_cluster d created in
  exists fs' C', fat32_create_entry c name attr fs = Some (fs', 0, e) /\ vol fs' (upd T d FAT32_CLUSTER_EOF) C' /\ same_shape fs fs' /\
    dir_slots fs C' (c :: l) = <[i := e]> (dir_slots fs C (c :: l)) /\ C' d = new_directory fs d c /\
    frees fs' (upd T d FAT32_CLUSTER_EOF) = fl /\ (forall x, x ∉ d :: c :: l -> C' x = C x).
Proof.
  intros Hd Hi Hf e. unfold fat32_create_entry. rewrite (v_rw _ (vo_ok _ _ _ Hv)).
  destruct (slot_ok fs T C c l Hv Hl) as (fs1 & r & -> & Hr & Hv1 & Ha1). cbn [mbind option_bind].
  destruct r as [[z|[p j]]|p]; [done|destruct Hr as (pre & post & El & Eb & Hj & Ei)|destruct Hr as [_ Ei]; congruence].
  rewrite Ei in Hi. injection Hi as <-. assert (valid_cluster fs p) as Hvp by (rewrite El in Hl; by eapply chain_tail).
  assert (d ∉ c :: l) as Hni.
  { intros Hin. apply (chain_nonfree fs T _ d (vo_ok _ _ _ Hv) Hl Hin). apply (elem_frees fs T d). rewrite Hf. apply list_elem_of_here. }
  assert (p <> d) as Hpd by (intros ->; apply Hni; rewrite El; apply elem_of_app; right; apply list_elem_of_here).
  fold created. destruct (create_dir_in_slot fs1 T C j p d c fl created Hv1) as (fs2 & E & Hv2 & Hs2 & Hf2);
    [by apply (valid_shape fs); [apply Ha1|]|by rewrite (epc_shape fs fs1 Ha1)|done|apply created_ok|
     by rewrite created_attr, (proj2 (Z.eqb_neq _ _) Hd)|rewrite (frees_ext fs fs1 T T); [done|apply Ha1|apply Ha1|done]|done|].
  fold e in E, Hv2. assert (new_directory fs1 d c = new_directory fs d c) as En by (unfold new_directory; by rewrite (bpc_shape fs fs1 (proj1 Ha1))).
  rewrite En in Hv2. eexists fs2, _. split; [exact E|]. split; [exact Hv2|]. split; [transitivity fs1; [apply Ha1|done]|]. split; [|split; [apply upd_same|split; [done|]]].
  - rewrite (dir_slots_ext fs (upd C p (put_entry j e (C p)))) by (intros x Hx; apply upd_other; by intros ->).
    rewrite El in Hl |- *. apply (dir_slots_put fs T); [done|done|done|]. apply (set_cluster_is_entry d created), created_ok.
  - intros x Hx. apply not_elem_of_cons in Hx as [Hx1 Hx2]. rewrite upd_other by done. apply upd_other. intros ->. apply Hx2.
    rewrite El. apply elem_of_app. right. apply list_elem_of_here.
Qed.
End Create.
End DirProps.
