(* ===== verification/FatDelete.v ===== *)
(** * FAT32: deleting entries, and the contracts of the directory operations (fs/fat32/fat32.c) *)
From S2P Require Import Prelude Memory PageAlloc Ring Chain Block VfsBase Fat FatTable FatAlloc FatFile FatWrite FatName FatDir FatDirProps.

Section Delete.
Context {D : Type} `{BlockDeviceLaws D}.
Implicit Types fs : fat32_fs D.
Implicit Types T : Z -> Z.
Implicit Types C : Z -> list Z.

(** What the walk over the clusters ends in: the slot of the name is deleted, or there is none. *)
Lemma delete_loop name l : forall fs T C c, vol fs T C -> chain fs T (c :: l) ->
  exists fs' r, while_nat (S (length (c :: l))) (delete_round name) (fs, c) = inr r /\ vol fs' T C /\ alike fs fs' /\
    match delete_index name (dir_slots fs C (c :: l)) with
    | None => r = Some (fs', VFS_ERR_NOENT)
    | Some i => exists pre d post j, c :: l = pre ++ d :: post /\ (j < entries_per_cluster fs)%nat /\
        i = (length pre * entries_per_cluster fs + j)%nat /\ cluster_buffer fs' = C d /\ r = delete_at j d fs'
    end.
Proof.
  induction l as [|d l IH]; intros fs T C c Hv Hl; pose proof (chain_valid_hd _ _ _ _ Hl) as Hc;
    destruct (dir_step fs T C c Hv Hc) as (fs1 & fs2 & Ev & Er & Eb & Hv1 & Ha1 & En & Hv2 & Ha2);
    rewrite while_nat_S; unfold delete_round at 1; rewrite Ev, Er; cbn [negb Z.eqb];
    rewrite (epc_shape fs fs1 Ha1), Eb, dir_slots_cons; unfold slots_of; set (n := entries_per_cluster fs);
    [destruct (delete_slot_ok n 0 name (C c) (dir_slots fs C [])) as [-> Hj]
    |destruct (delete_slot_ok n 0 name (C c) (dir_slots fs C (d :: l))) as [-> Hj]];
    (destruct (delete_slot n 0 name (C c)) as [u|[j|]];
      [|exists fs1; eexists; (split; [done|]); (split; [done|]); (split; [done|]); eexists [], c, _, j; (split; [done|]); (split; [lia|]);
        (split; [simpl; lia|done])
       |exists fs1; eexists; (split; [done|]); (split; [done|]); by split]); rewrite En.
  - destruct Hl as (_ & He & _). cbn [length]. rewrite while_nat_S. unfold delete_round at 1.
    rewrite (eof_invalid fs2 T C c Hv2); [|apply (valid_shape fs); [apply Ha2|done]|done]. exists fs2. eexists. split; [done|].
    split; [done|]. by split.
  - destruct (IH fs2 T C d Hv2) as (fs3 & r & E & Hv3 & Ha3 & Hr); [apply (chain_alike fs); [done|apply Hl]|].
    apply chain_cons in Hl as (_ & -> & _). exists fs3, r. split; [exact E|]. split; [done|]. split; [by transitivity fs2|].
    rewrite (epc_shape fs fs2 Ha2), (dir_slots_alike fs fs2) in Hr by done. fold n in Hr.
    destruct (delete_index name (dir_slots fs C (d :: l))) as [i|]; [|done]. cbn [fmap option_fmap option_map].
    destruct Hr as (pre & x & post & j & E1 & E2 & E3 & E4). exists (c :: pre), x, post, j. split; [by rewrite E1|]. split; [done|].
    split; [simpl; lia|done].
Qed.

(** The clusters the entry names: none, or a chain apart from the directory. *)
Definition entry_chain fs T (e f dir : list Z) : Prop :=
  match f with
  | [] => fat32_entry_cluster e < FAT32_FIRST_DATA_CLUSTER
  | x :: _ => fat32_entry_cluster e = x /\ chain fs T f /\ forall y, y ∈ f -> y ∉ dir
  end.

Lemma deleted_put buf j n : (length buf = 32 * n)%nat -> (j < n)%nat ->
  splice (32 * j) [FAT32_DIRENT_FREE] buf = put_entry j (deleted (dir_entry buf j)) buf.
Proof.
  intros Hl Hj. unfold put_entry, deleted, dir_entry, splice. f_equal. rewrite take_0, app_nil_l.
  change (length [FAT32_DIRENT_FREE]) with 1%nat. cbn [app length]. f_equal.
  rewrite length_drop, length_take, length_drop.
  replace (32 * j + S (32 `min` (length buf - 32 * j) - (0 + 1)))%nat with (32 * j + 32)%nat by lia.
  rewrite skipn_firstn_comm, drop_drop. replace (32 * j + (0 + 1))%nat with (32 * j + 1)%nat by lia.
  rewrite <- (take_drop (32 - (0 + 1)) (drop (32 * j + 1) buf)) at 1. f_equal. rewrite drop_drop. f_equal. lia.
Qed.

Lemma delete_at_ok fs T C d j f dir : vol fs T C -> valid_cluster fs d -> (j < entries_per_cluster fs)%nat -> cluster_buffer fs = C d ->
  entry_chain fs T (dir_entry (C d) j) f dir ->
  exists fs', delete_at j d fs = Some (fs', 0) /\ vol fs' (cleared T f) (upd C d (put_entry j (deleted (dir_entry (C d) j)) (C d))) /\ same_shape fs fs'.
Proof.
  intros Hv Hd Hj Eb Hf. unfold delete_at. rewrite Eb. set (e := dir_entry (C d) j) in *.
  destruct (epc_ok fs T C d Hv Hd) as [Hl _]. destruct (cluster_length fs T C d Hv Hd) as [Hl' Hbc].
  assert (is_entry e) as He by (split; [by apply (dir_entry_length _ _ (entries_per_cluster fs))|by apply Forall_take, Forall_drop]).
  assert (is_entry (deleted e)) as He'.
  { destruct He as [E1 E2]. unfold sizeof_dir_entry in *. split; [unfold deleted; rewrite splice_length; [done|simpl; lia]|].
    apply splice_bytes; [apply Forall_singleton; unfold is_byte, FAT32_DIRENT_FREE; lia|done]. }
  assert (exists fs1, (if FAT32_FIRST_DATA_CLUSTER <=? fat32_entry_cluster e
      then '(fs, _) ← fat32_free_chain (fat32_entry_cluster e) fs; Some fs else Some fs) = Some fs1 /\
    vol fs1 (cleared T f) C /\ same_shape fs fs1 /\ cluster_buffer fs1 = C d) as (fs1 & -> & Hv1 & Hs1 & Eb1).
  { destruct f as [|x f]; simpl in Hf.
    - rewrite (proj2 (Z.leb_gt _ _) Hf). exists fs. split; [done|]. split; [|by split].
      eapply vol_ext; [exact Hv| |done]. intros y _. unfold cleared. by rewrite bool_decide_false by apply not_elem_of_nil.
    - destruct Hf as (-> & Hch & _). pose proof (valid_bound fs x (vo_ok _ _ _ Hv) (chain_valid_hd _ _ _ _ Hch)) as Hxb.
      rewrite (proj2 (Z.leb_le _ _)) by (unfold FAT32_FIRST_DATA_CLUSTER; lia).
      destruct (free_ok fs T C x f Hv Hch) as (fs1 & -> & Hv1 & Hs1 & Eb1 & _). exists fs1. split; [done|]. split; [done|]. split; [done|].
      by rewrite Eb1. }
  cbn [mbind option_bind]. rewrite Eb1, (deleted_put _ _ (entries_per_cluster fs)) by done. fold e.
  assert (entries_per_cluster fs1 = entries_per_cluster fs) as Ee by (unfold entries_per_cluster; by rewrite (bpc_shape fs fs1 Hs1)).
  assert (valid_cluster fs1 d) as Hd1 by (by apply (valid_shape fs)).
  destruct (put_entry_ok fs1 (cleared T f) C d j (deleted e) Hv1 Hd1 ltac:(lia) He') as (P1 & P2 & _).
  destruct (write_buffer_ok fs1 (cleared T f) C d _ Hv1 Hd1 P1 P2) as (fs2 & -> & Hv2 & Ha2 & _).
  exists fs2. split; [done|]. split; [done|]. transitivity fs1; [done|apply Ha2].
Qed.

Lemma delete_ok fs T C c l name i e f : vol fs T C -> chain fs T (c :: l) -> delete_index name (dir_slots fs C (c :: l)) = Some i ->
  dir_slots fs C (c :: l) !! i = Some e -> entry_chain fs T e f (c :: l) ->
  exists fs' C', fat32_delete_entry c name fs = Some (fs', 0) /\ vol fs' (cleared T f) C' /\ same_shape fs fs' /\
    dir_slots fs C' (c :: l) = <[i := deleted e]> (dir_slots fs C (c :: l)) /\ forall x, x ∉ c :: l -> C' x = C x.
Proof.
  intros Hv Hl Hi He Hf. unfold fat32_delete_entry. rewrite (v_rw _ (vo_ok _ _ _ Hv)).
  destruct (delete_loop name l fs T C c Hv Hl) as (fs1 & r & E & Hv1 & Ha1 & Hr). rewrite Hi in Hr.
  destruct Hr as (pre & d & post & j & El & Hj & Ei & Eb & Er). assert (valid_cluster fs d) as Hd by (rewrite El in Hl; by eapply chain_tail).
  pose proof (chain_short fs T _ (vo_ok _ _ _ Hv) Hl) as Hn. pose proof (g_total _ (v_geometry _ (vo_ok _ _ _ Hv))) as G.
  unfold FAT32_CLUSTER_BAD, FAT32_FIRST_DATA_CLUSTER in G. rewrite (loop_nat _ _ _ _ E) by lia. cbn [mbind option_bind]. rewrite Er.
  assert (e = dir_entry (C d) j) as Ee.
  { rewrite El, dir_slots_app, Ei in He. rewrite lookup_app_r in He by (rewrite dir_slots_length; lia).
    rewrite dir_slots_length, Nat.add_comm, Nat.add_sub, dir_slots_cons in He. rewrite lookup_app_l in He by (by rewrite slots_of_length).
    rewrite slots_of_lookup in He by done. congruence. }
  assert (valid_cluster fs1 d) as Hd1 by (apply (valid_shape fs); [apply Ha1|done]).
  destruct (delete_at_ok fs1 T C d j f (c :: l) Hv1 Hd1) as (fs2 & E2 & Hv2 & Hs2); [by rewrite (epc_shape fs fs1 Ha1)|done| |].
  { rewrite <- Ee. destruct f as [|x f]; [done|]. destruct Hf as (F1 & F2 & F3). split; [done|]. split; [by apply (chain_alike fs)|done]. }
  rewrite <- Ee in Hv2. exists fs2. eexists. split; [exact E2|]. split; [exact Hv2|]. split; [transitivity fs1; [apply Ha1|done]|]. split.
  - rewrite El in Hl |- *. rewrite Ei. apply (dir_slots_put fs T); [done|done|done|]. rewrite Ee. unfold deleted.
    destruct (epc_ok fs T C d Hv Hd) as [Hlc _]. rewrite splice_length; rewrite (dir_entry_length _ _ _ Hlc Hj); [done|simpl; lia].
  - intros x Hx. apply upd_other. intros ->. apply Hx. rewrite El. apply elem_of_app. right. apply list_elem_of_here.
Qed.

(** ** The contracts *)

(** searching a directory is a search of the list of its entries: the result is the
    first entry before the end mark that is neither deleted nor part of a long name nor a
    volume label and whose short name equals the name up to case, and VFS_ERR_NOENT when
    there is none. It ends, and changes neither the table nor any data. *)
Theorem fat_find_contract fs T C c l name : vol fs T C -> chain fs T (c :: l) ->
  exists fs' hit, fat32_find_entry_in_dir c name fs = Some (fs', match hit with Some _ => 0 | None => VFS_ERR_NOENT end, hit) /\
    fst <$> hit = find_slots name (dir_slots fs C (c :: l)) /\ vol fs' T C.
Proof.
  intros Hv Hl. destruct (find_ok fs T C c l name Hv Hl) as (fs' & hit & E & Hh & Hv' & _). by exists fs', hit.
Qed.

Lemma created_live name attr : is_byte attr -> Z.land attr FAT32_ATTR_VOLUME_ID = 0 ->
  is_end (created name attr) = false /\ is_skipped (created name attr) = false.
Proof.
  intros Ha Hv. pose proof (to_short_name_length name) as Hl. pose proof (to_short_name_chars name) as Hc.
  unfold created, is_end, is_skipped, is_free, is_lfn, has_attr.
  destruct (new_entry_ok _ attr Hl (to_short_name_bytes name) Ha) as (_ & -> & _). rewrite Hv.
  destruct (fat32_to_short_name name) as [|x s]; [done|]. change (de_first (new_entry (x :: s) attr)) with x.
  assert (x <> FAT32_DIRENT_END /\ x <> FAT32_DIRENT_FREE) as [H1 H2].
  { destruct (Hc x (list_elem_of_here _ _)) as [Hx| ->]; [|done]. by apply short_char_byte in Hx as (_ & _ & _ & ? & ?). }
  rewrite (proj2 (Z.eqb_neq _ _) H1), (proj2 (Z.eqb_neq _ _) H2). split; [done|]. cbn [orb].
  destruct (Z.eqb_spec (Z.land attr FAT32_ATTR_LONG_NAME_MASK) FAT32_ATTR_LONG_NAME) as [E|]; [|done]. exfalso.
  assert (Z.testbit attr 3 = true) as Ht.
  { apply (f_equal (fun z => Z.testbit z 3)) in E. rewrite Z.land_spec in E. change (Z.testbit FAT32_ATTR_LONG_NAME_MASK 3) with true in E.
    by rewrite andb_true_r in E. }
  apply (f_equal (fun z => Z.testbit z 3)) in Hv. rewrite Z.land_spec, Ht in Hv. done.
Qed.

(** C13: a file created in a directory is found there: fat32_create_entry puts an empty
    entry into the first slot that is free, without clusters and of size 0, and a search
    for any spelling of the name gives it; the search for any other name, every cluster
    outside the directory and the whole table are as before. It asks for a name of the 8.3
    form that is not in the directory yet, and a slot. *)
Theorem fat_create_then_find fs T C c l name base ext attr i : vol fs T C -> chain fs T (c :: l) ->
  name_83 name base ext -> is_byte attr -> Z.land attr (Z.lor FAT32_ATTR_DIRECTORY FAT32_ATTR_VOLUME_ID) = 0 ->
  ended (dir_slots fs C (c :: l)) -> free_index (dir_slots fs C (c :: l)) = Some i -> find_slots name (dir_slots fs C (c :: l)) = None ->
  exists fs1 C1 e, fat32_create_entry c name attr fs = Some (fs1, 0, e) /\ vol fs1 T C1 /\
    fat32_entry_cluster e = 0 /\ de_file_size e = 0 /\ de_attr e = attr /\ (forall x, x ∉ c :: l -> C1 x = C x) /\
    ended (dir_slots fs1 C1 (c :: l)) /\
    (exists fs2 k, fat32_find_entry_in_dir c name fs1 = Some (fs2, 0, Some (e, k))) /\
    (forall other, (forall x, x ∈ other -> x <> 0) -> map fat32_toupper other <> map fat32_toupper name ->
       find_slots other (dir_slots fs1 C1 (c :: l)) = find_slots other (dir_slots fs C (c :: l))).
Proof.
  intros Hv Hl H83 Ha Hm Hend Hi Hno.
  assert (Z.land attr FAT32_ATTR_DIRECTORY = 0 /\ Z.land attr FAT32_ATTR_VOLUME_ID = 0) as [Hd Hvol].
  { rewrite Z.land_lor_distr_r in Hm. by apply Z.lor_eq_0_iff in Hm. }
  destruct (create_file_ok fs T C c l name attr Hv Hl Ha i Hd Hi) as (fs1 & C1 & E & Hv1 & Ha1 & Es & Hx).
  set (e := created name attr) in *. destruct (created_live name attr Ha Hvol) as [Le Ls]. fold e in Le, Ls.
  destruct (find_created name e _ i Hi Le Hend) as (F1 & F2 & _).
  assert (fat32_strcmp_83 name e = 0) as Hc by (eapply strcmp_83_ok; [done..|intros x Hx'; by eapply name_83_nonzero|done]).
  specialize (F2 Ls Hc Hno). rewrite <- Es in F1, F2.
  destruct (new_entry_ok _ attr (to_short_name_length name) (to_short_name_bytes name) Ha) as (_ & A1 & _ & A2 & A3).
  exists fs1, C1, e. rewrite (dir_slots_alike fs fs1 C1 _ Ha1). do 7 (split; [done|]). split.
  - destruct (find_ok fs1 T C1 c l name Hv1) as (fs2 & hit & E2 & Eh & _); [by apply (chain_alike fs)|].
    rewrite (dir_slots_alike fs fs1 C1 _ Ha1), F2 in Eh. destruct hit as [[x k]|]; [|done]. injection Eh as ->. by exists fs2, k.
  - intros other Ho Hne. rewrite Es. apply (find_created other e _ i Hi Le Hend). intros E0. apply Hne. by eapply strcmp_83_ok.
Qed.

(** After the first match was deleted, the search goes on behind it. *)
Lemma find_after_delete name e l i : delete_index name l = Some i -> l !! i = Some e ->
  find_slots name (<[i := deleted e]> l) = find_slots name (drop (S i) l).
Proof.
  intros Hi He. destruct (deleted_free e) as [Df De]. revert i Hi He. induction l as [|x l IH]; intros i Hi He; [done|]. cbn [delete_index] in Hi.
  destruct (is_end x) eqn:Ex; [done|]. destruct (negb (is_free x || is_lfn x) && (fat32_strcmp_83 name x =? 0)) eqn:Em.
  - injection Hi as <-. injection He as <-. change (<[0%nat := deleted x]> (x :: l)) with (deleted x :: l). cbn [find_slots drop].
    rewrite De. unfold is_skipped at 1. by rewrite Df.
  - destruct (delete_index name l) as [j|]; [|done]. injection Hi as <-. change (<[S j := deleted e]> (x :: l)) with (x :: <[j := deleted e]> l).
    cbn [find_slots drop]. rewrite Ex, (IH j eq_refl He). unfold is_skipped. destruct (is_free x), (is_lfn x); cbn [orb negb andb] in *; try done.
    by rewrite Em, andb_false_r.
Qed.

(** C14: fat32_delete_entry removes the first entry with the name: its slot is marked as
    deleted, the clusters of its chain become free, every other entry of the table and all
    data outside the directory stay. Afterwards the search for the name finds nothing,
    unless a second entry has it, and the search for a name the entry does not have gives
    what it gave. *)
Theorem fat_delete_contract fs T C c l name i e f : vol fs T C -> chain fs T (c :: l) -> ended (dir_slots fs C (c :: l)) ->
  delete_index name (dir_slots fs C (c :: l)) = Some i -> dir_slots fs C (c :: l) !! i = Some e -> entry_chain fs T e f (c :: l) ->
  exists fs' C', fat32_delete_entry c name fs = Some (fs', 0) /\
    vol fs' (fun x => if bool_decide (x ∈ f) then FAT32_CLUSTER_FREE else T x) C' /\
    (forall x, x ∉ c :: l -> C' x = C x) /\ ended (dir_slots fs' C' (c :: l)) /\
    find_slots name (dir_slots fs' C' (c :: l)) = find_slots name (drop (S i) (dir_slots fs C (c :: l))) /\
    (forall other, fat32_strcmp_83 other e <> 0 ->
       find_slots other (dir_slots fs' C' (c :: l)) = find_slots other (dir_slots fs C (c :: l))).
Proof.
  intros Hv Hl Hend Hi He Hf. destruct (delete_ok fs T C c l name i e f Hv Hl Hi He Hf) as (fs' & C' & E & Hv' & Hs & Es & Hx).
  assert (dir_slots fs' C' (c :: l) = dir_slots fs C' (c :: l)) as E' by (unfold dir_slots, entries_per_cluster; by rewrite (bpc_shape fs fs' Hs)).
  exists fs', C'. rewrite E', Es. split; [done|]. split; [done|]. split; [done|]. split; [by apply (find_deleted name [] e)|].
  split; [by apply find_after_delete|]. intros other Ho. by apply (find_deleted name other e).
Qed.

(** ** New directories *)

Lemma dir_entry_zero n i : (i < n)%nat -> dir_entry (repeat 0 (32 * n)) i = repeat 0 32.
Proof.
  intros Hi. unfold dir_entry. rewrite <- (take_drop (32 * i) (repeat 0 (32 * n))) at 1.
  replace (32 * n)%nat with (32 * i + (32 + (32 * n - 32 * i - 32)))%nat by lia. rewrite !repeat_app.
  rewrite take_app_length' by (by rewrite repeat_length). rewrite drop_app_length' by (by rewrite repeat_length).
  rewrite drop_app_length' by (by rewrite repeat_length). by rewrite take_app_length' by (by rewrite repeat_length).
Qed.
Lemma new_directory_slots fs d p : vol_ok fs -> exists rest,
  slots_of (entries_per_cluster fs) (new_directory fs d p) = dot_entry [DOT] d :: dot_entry [DOT; DOT] p :: rest /\
  Forall (fun x => is_end x = true) rest.
Proof.
  intros Hv. pose proof (g_spc _ (v_geometry _ Hv)) as Hs. pose proof (g_bpc _ (v_geometry _ Hv)) as Hb. unfold FAT32_SECTOR_SIZE in Hb.
  assert (bytes_per_cluster fs / 32 = 16 * spc fs) as E by (rewrite Hb; symmetry; apply Z.div_unique_exact; lia).
  destruct dots_bytes as [B1 B2].
  destruct (dot_entry_ok [DOT] d ltac:(simpl; lia) B1) as [[L1 _] _], (dot_entry_ok [DOT; DOT] p ltac:(simpl; lia) B2) as [[L2 _] _].
  unfold new_directory, entries_per_cluster. rewrite E. set (n := Z.to_nat (16 * spc fs)).
  replace (Z.to_nat (bytes_per_cluster fs)) with (32 * n)%nat by lia.
  assert (2 <= n)%nat as Hn by lia. clearbody n. clear - L1 L2 Hn. set (z := repeat 0 (32 * n)).
  assert (length z = (32 * n)%nat) as Hz by apply repeat_length.
  assert (length (put_entry 0 (dot_entry [DOT] d) z) = (32 * n)%nat) as Hz1 by (unfold put_entry; rewrite splice_length; [done|unfold sizeof_dir_entry in *; lia]).
  exists (map (fun _ => repeat 0 32) (seq 2 (n - 2))). split; [|apply Forall_forall; intros x (y & -> & _)%list_elem_of_fmap; done].
  rewrite (slots_put n) by (done || lia). rewrite (slots_put n) by (done || lia). unfold slots_of.
  destruct n as [|[|n]]; [lia|lia|]. cbn [seq map]. replace (S (S n) - 2)%nat with n by lia.
  change (<[1%nat := ?b]> (<[0%nat := ?a]> (?x :: ?y :: ?r))) with (a :: b :: r). do 2 f_equal.
  apply map_ext_in. intros k Hk%in_seq. apply dir_entry_zero. lia.
Qed.

(** a directory created in a free slot of another one is a directory of one cluster,
    taken from the free ones, that holds exactly "." with its own first cluster and ".."
    with that of its parent; the entry in the parent has the directory attribute and names
    the cluster, and no other cluster or entry of the table is changed. *)
Theorem fat_mkdir_contract fs T C c l name attr i d fl : vol fs T C -> chain fs T (c :: l) -> is_byte attr ->
  Z.land attr FAT32_ATTR_DIRECTORY <> 0 ->
  free_index (dir_slots fs C (c :: l)) = Some i -> frees fs T = d :: fl ->
  exists fs' C' e dot dotdot, fat32_create_entry c name attr fs = Some (fs', 0, e) /\
    has_attr e FAT32_ATTR_DIRECTORY = true /\ fat32_entry_cluster e = d /\ T d = FAT32_CLUSTER_FREE /\
    vol fs' (upd T d FAT32_CLUSTER_EOF) C' /\ chain fs' (upd T d FAT32_CLUSTER_EOF) [d] /\
    dir_slots fs' C' (c :: l) = <[i := e]> (dir_slots fs C (c :: l)) /\
    (forall x, x ∉ d :: c :: l -> C' x = C x) /\
    find_slots [DOT] (dir_slots fs' C' [d]) = Some dot /\ fat32_entry_cluster dot = d /\
    find_slots [DOT; DOT] (dir_slots fs' C' [d]) = Some dotdot /\ fat32_entry_cluster dotdot = c /\
    (forall other, fat32_strcmp_83 other dot <> 0 -> fat32_strcmp_83 other dotdot <> 0 -> find_slots other (dir_slots fs' C' [d]) = None).
Proof.
  intros Hv Hl Ha Hd Hi Hf.
  destruct (create_dir_ok fs T C c l name attr Hv Hl Ha i d fl Hd Hi Hf) as (fs' & C' & E & Hv' & Hs & Es & Ed & _ & Hx).
  assert (d ∈ frees fs T) as Hin by (rewrite Hf; apply list_elem_of_here). apply elem_frees in Hin as [Hfree Hr].
  assert (valid_cluster fs d) as Hvd.
  { unfold valid_cluster. unfold alloc_start, max_cluster, FAT32_FIRST_DATA_CLUSTER in *. destruct (next_free_cluster fs <? 2) eqn:En; zbool; lia. }
  pose proof (valid_bound fs d (vo_ok _ _ _ Hv) Hvd) as Hdb. 
  pose proof (valid_bound fs c (vo_ok _ _ _ Hv) (chain_valid_hd _ _ _ _ Hl)) as Hcb. unfold FAT32_CLUSTER_BAD in *.
  destruct (new_directory_slots fs d c (vo_ok _ _ _ Hv)) as (rest & Er & Hrest).
  assert (dir_slots fs' C' [d] = dot_entry [DOT] d :: dot_entry [DOT; DOT] c :: rest) as Esd.
  { unfold dir_slots. cbn [map concat]. rewrite app_nil_r, Ed. unfold entries_per_cluster. rewrite (bpc_shape fs fs' Hs). exact Er. }
  assert (forall l, dir_slots fs' C' l = dir_slots fs C' l) as El by (intros l'; unfold dir_slots, entries_per_cluster; by rewrite (bpc_shape fs fs' Hs)).
  exists fs', C', (fat32_entry_set_cluster d (created name attr)), (dot_entry [DOT] d), (dot_entry [DOT; DOT] c).
  destruct (created_ok name attr Ha) as [He _]. split; [done|]. split.
  { rewrite set_cluster_attr, created_attr by done. by rewrite (proj2 (Z.eqb_neq _ _) Hd). }
  split; [apply set_cluster_read; [done|lia]|]. split; [done|]. split; [done|]. split.
  { split; [by apply (valid_shape fs)|]. split; [by rewrite upd_same|done]. }
  split; [by rewrite El, Es|]. split; [done|]. rewrite Esd. destruct dots_bytes as [B1 B2]. split; [done|].
  split; [apply dot_entry_ok; [simpl; lia|done|lia]|]. split; [done|]. split; [apply dot_entry_ok; [simpl; lia|done|lia]|]. intros other H1' H2'. cbn [find_slots].
  rewrite (proj2 (Z.eqb_neq _ _) H1'), (proj2 (Z.eqb_neq _ _) H2'), !andb_false_r. rewrite find_ended by done. by destruct (is_end (dot_entry [DOT] d)), (is_end (dot_entry [DOT; DOT] c)).
Qed.
End Delete.
