(* ===== verification/FatSync.v ===== *)
(** * FAT32: synchronisation and mounting (fs/fat32/fat32.c)

    After fat32_sync the disk alone holds the volume: the first FAT has the table, whatever
    was cached, and the FSInfo sector the hints. A volume that is unmounted and mounted
    again is the same volume. *)
From S2P Require Import Prelude Memory PageAlloc Ring Chain Block VfsBase Fat FatTable FatAlloc FatFile FatWrite FatDirProps.
Section Sync.
Context {D : Type} `{BlockDeviceLaws D}.
Implicit Types fs : fat32_fs D.
Implicit Types T : Z -> Z.
Implicit Types C : Z -> list Z.

(** There is room for the second FAT, and the FSInfo sector is between the boot sector and the FAT. *)
Record layout_ok fs : Prop := mk_layout_ok {
  l_backup : 1 < bpb_num_fats (fs_bpb fs) -> fat_start_sector fs + 2 * fat_sectors fs <= data_start_sector fs;
  l_fsinfo : has_fsinfo fs = true -> 0 < bpb_fs_info_sector (fs_bpb fs) < fat_start_sector fs;
}.
Lemma layout_shape fs fs' : same_shape fs fs' -> layout_ok fs -> layout_ok fs'.
Proof. intros [A1 _ [A3 A3'] A4 _ _ _ _ _] [L1 L2]. unfold has_fsinfo in *. split; unfold has_fsinfo; by rewrite ?A1, ?A3, ?A3', ?A4. Qed.

(** Like the old volume, and the sectors before the FAT are as they were. *)
Definition kept fs fs' : Prop := alike fs fs' /\ forall s, 0 <= s < fat_start_sector fs -> bd_sector (fs_dev fs') s = bd_sector (fs_dev fs) s.
#[export] Instance kept_preorder : PreOrder kept.
Proof.
  split; [by split|]. intros x y z [A1 A2] [B1 B2]. split; [by transitivity y|]. intros s Hs. rewrite B2, A2; [done|done|].
  destruct A1 as [[_ _ [E _] _ _ _ _ _ _] _]. by rewrite E.
Qed.

Lemma vol_frame fs fs' T C : vol fs T C -> vol_ok fs' -> frame fs fs' -> same_fat fs fs' -> vol fs' T C.
Proof.
  intros [V1 V2 V3] Hv Hf Hs. split; [done|..].
  - intros c Hc%(in_table_shape _ _ _ (f_shape _ _ Hf)). rewrite (same_fat_at fs) by done. auto.
  - intros c Hc%(valid_shape _ _ _ (f_shape _ _ Hf)). rewrite (frame_clusters fs) by done. auto.
Qed.

(** A sector that is neither in the first FAT nor in a cluster is written. *)
Lemma write_outside fs T C s data : vol fs T C -> 0 <= s < data_start_sector fs -> ~ in_fat fs s ->
  length data = Z.to_nat FAT32_SECTOR_SIZE -> bytes data ->
  exists d, bd_write s 1 data (fs_dev fs) = (d, 0) /\ vol (set_dev d fs) T C /\ alike fs (set_dev d fs) /\ bd_sector d s = data /\
    forall l, 0 <= l < bd_sectors (fs_dev fs) -> l <> s -> bd_sector d l = bd_sector (fs_dev fs) l.
Proof.
  intros Hv Hs Hn Hl Hb. pose proof Hv as [V1 V2 V3]. pose proof (v_geometry _ V1) as [G1 G2 G3 G4 G5 G6 G7].
  pose proof (v_disk _ V1) as [D1 [D2 D2']]. pose proof (v_cache _ V1) as [C1 C2 C3 C4].
  destruct (bd_write_ok (fs_dev fs) s 1 data) as (d & E & W1 & W2 & W3 & W4); [done|lia|lia|nia|unfold FAT32_SECTOR_SIZE in *; lia|done|].
  rewrite sector_range_one in W4. exists d. split; [done|]. assert (same_shape fs (set_dev d fs)) as Hsh by (by split).
  assert (forall l, 0 <= l < bd_sectors (fs_dev fs) -> l <> s -> bd_sector d l = bd_sector (fs_dev fs) l) as Hother by (intros l Hl' Hne; apply W3; lia).
  assert (forall l, in_fat fs l -> bd_sector d l = bd_sector (fs_dev fs) l) as Hin.
  { intros l Hl'. apply Hother; [by apply in_fat_disk|]. by intros ->. }
  split; [|by split; [split|split]]. split.
  - eapply vol_shape; [done..|]. split; [done|done| |done]. intros i e Hi Hva. destruct (C3 i e Hi Hva) as (F1 & F2 & F3 & F4).
    split; [done|]. split; [done|]. split; [done|]. intros Hd. rewrite F4 by done. symmetry. by apply Hin.
  - intros c Hc. rewrite <- V2 by done. unfold fat_at, fat_data. simpl. destruct (cached (fat_cache fs) _); [done|]. simpl.
    rewrite Hin; [done|]. by apply entry_place.
  - intros c Hc. change (valid_cluster fs c) in Hc. rewrite <- V3 by done. unfold cluster_at.
    destruct (cluster_sectors fs c V1 Hc) as (_ & B1 & B2 & _). apply sector_range_ext. intros l Hl'. simpl in *. apply Hother; [|lia].
    change (spc (set_dev d fs)) with (spc fs) in *. lia.
Qed.

(** ** The cache *)

Definition clean_to (n : nat) fs : Prop := forall i e, (i < n)%nat -> fat_cache fs !! i = Some e -> ce_dirty e = false.

Lemma evicted_cache i fs : fat_cache (evicted i fs) = fat_cache fs \/
  exists e, fat_cache (evicted i fs) = <[i := e]> (fat_cache fs) /\ ce_dirty e = false.
Proof.
  unfold evicted, cache_evict. destruct (ce_dirty (cache_at fs i)); [|by left]. destruct (bd_write _ _ _ _) as [d r]. right. eexists. by split.
Qed.

Lemma flush_one fs T C i : vol fs T C -> layout_ok fs -> (i < Z.to_nat FAT32_FAT_CACHE_SIZE)%nat ->
  exists fs', flush_entry i fs = inl fs' /\ vol fs' T C /\ kept fs fs' /\ (clean_to i fs -> clean_to (S i) fs').
Proof.
  intros Hv Hlay Hi. pose proof (v_cache _ (vo_ok _ _ _ Hv)) as Hca. pose proof (cache_at_lookup fs i Hca Hi) as Hl.
  destruct (evict_ok fs i (vo_ok _ _ _ Hv) Hi) as (Er & Hv1 & Hf1 & Hd1 & _ & Hs1).
  pose proof (vol_frame fs _ T C Hv Hv1 Hf1 Hs1) as Hvol1. assert (kept fs (evicted i fs)) as Hk1.
  { destruct Hf1 as [F1 F2 (F3 & F4 & F5) F6]. split; [split; [done|unfold hints; congruence]|].
    intros s Hs. pose proof (v_geometry _ (vo_ok _ _ _ Hv)) as [_ _ _ _ G5 _ _]. pose proof (v_disk _ (vo_ok _ _ _ Hv)) as [_ D2].
    pose proof (v_geometry _ (vo_ok _ _ _ Hv)) as [_ G2 _ G4 _ _ G7]. apply F6; [nia|unfold in_fat; lia]. }
  assert (clean_to i fs -> clean_to (S i) (evicted i fs)) as Hclean.
  { intros Hc j e Hj He. pose proof (cache_at_lookup _ i (v_cache _ Hv1) Hi) as Hi1.
    destruct (Nat.eq_dec j i) as [->|Hne]; [rewrite Hi1 in He; by injection He as <-|].
    destruct (evicted_cache i fs) as [Ec|(e' & Ec & _)]; rewrite Ec in He; [|rewrite list_lookup_insert_ne in He by done];
      (apply (Hc j e); [lia|done]). }
  unfold flush_entry. destruct (ce_dirty (cache_at fs i)) eqn:Ed.
  2: { rewrite andb_false_r. exists fs. assert (evicted i fs = fs) as E by (unfold evicted; by rewrite Ed). rewrite E in *. done. }
  rewrite (c_dirty _ Hca _ _ Hl Ed). cbn [andb]. unfold evicted, cache_evict in *. rewrite Ed in *.
  destruct (c_entry _ Hca _ _ Hl (c_dirty _ Hca _ _ Hl Ed)) as (Hin & Hlen & Hby & _).
  destruct (bd_write (ce_sector (cache_at fs i)) 1 (ce_data (cache_at fs i)) (fs_dev fs)) as [d r]. cbn [fst snd] in *. subst r. cbn [negb Z.eqb].
  set (fs1 := cache_clean i (set_dev d fs)) in *. change (bpb_num_fats (fs_bpb (set_dev d fs))) with (bpb_num_fats (fs_bpb fs)).
  destruct (1 <? bpb_num_fats (fs_bpb fs)) eqn:En; [|by exists fs1]. zbool. pose proof (l_backup _ Hlay En) as Hbk.
  unfold in_fat in Hin. pose proof (v_geometry _ (vo_ok _ _ _ Hv)) as [_ G2 _ G4 G5 _ G7]. pose proof (v_disk _ (vo_ok _ _ _ Hv)) as [_ D2].
  change (fat_sectors (set_dev d fs)) with (fat_sectors fs). rewrite u32_id by nia. change (fs_dev (set_dev d fs)) with (fs_dev fs1).
  destruct (write_outside fs1 T C (ce_sector (cache_at fs i) + fat_sectors fs) (ce_data (cache_at fs i)) Hvol1) as (d2 & -> & Hv2 & Ha2 & _ & Ho2);
    [simpl; lia|unfold in_fat; simpl; lia|done|done|]. cbn [fst]. change (cache_clean i (set_dev d2 (set_dev d fs))) with (set_dev d2 fs1).
  exists (set_dev d2 fs1). split; [done|]. split; [done|]. split; [|done]. transitivity fs1; [done|]. split; [done|].
  intros s Hs. apply Ho2; [|simpl in *; lia]. destruct Hk1 as [[[_ _ _ _ _ _ _ _ Esz] _] _]. rewrite Esz. simpl in Hs. nia.
Qed.

Lemma flush_loop n : forall i fs T C, vol fs T C -> layout_ok fs -> (i + n = Z.to_nat FAT32_FAT_CACHE_SIZE)%nat -> clean_to i fs ->
  exists fs', iter_brk n (Z.of_nat i) (fun i => flush_entry (Z.to_nat i)) fs = inl fs' /\ vol fs' T C /\ kept fs fs' /\ clean_to (i + n) fs'.
Proof.
  induction n as [|n IH]; intros i fs T C Hv Hlay Hi Hc; cbn [iter_brk]; [exists fs; rewrite Nat.add_0_r; by split|].
  rewrite Nat2Z.id. destruct (flush_one fs T C i Hv Hlay ltac:(lia)) as (fs1 & -> & Hv1 & Hk1 & Hc1).
  replace (Z.of_nat i + 1) with (Z.of_nat (S i)) by lia.
  destruct (IH (S i) fs1 T C Hv1) as (fs2 & -> & Hv2 & Hk2 & Hc2); [by apply (layout_shape fs); [apply Hk1|]|lia|by apply Hc1|].
  exists fs2. split; [done|]. split; [done|]. split; [by transitivity fs1|]. by rewrite Nat.add_succ_r.
Qed.
Definition clean fs : Prop := clean_to (Z.to_nat FAT32_FAT_CACHE_SIZE) fs.
Lemma flush_ok fs T C : vol fs T C -> layout_ok fs ->
  exists fs', fat32_flush_fat_cache fs = (fs', 0) /\ vol fs' T C /\ kept fs fs' /\ clean fs'.
Proof.
  intros Hv Hlay. unfold fat32_flush_fat_cache. rewrite (v_rw _ (vo_ok _ _ _ Hv)).
  destruct (flush_loop (Z.to_nat FAT32_FAT_CACHE_SIZE) 0 fs T C Hv Hlay) as (fs' & E & Hr); [done|intros i e Hi; lia|].
  change (Z.of_nat 0) with 0 in E. rewrite E. by exists fs'.
Qed.

(** With a clean cache the FAT is what is on the disk. *)
Lemma clean_data fs s : vol_ok fs -> clean fs -> in_fat fs s -> fat_data fs s = bd_sector (fs_dev fs) s.
Proof.
  intros Hv Hc Hs. unfold fat_data. destruct (cached (fat_cache fs) s) as [x|] eqn:E; [|done]. simpl.
  destruct (cached_some _ _ _ E) as (i & e & Hi & Hva & <- & <-). apply (c_entry _ (v_cache _ Hv) i e Hi Hva). apply (Hc i e); [|done].
  rewrite <- (c_length _ (v_cache _ Hv)). by eapply lookup_lt_Some.
Qed.

(** ** fat32_sync *)

(** The device is replaced by one with the same sectors. *)
Lemma vol_same_disk fs T C d : vol fs T C -> bd_wf d -> bd_sectors d = bd_sectors (fs_dev fs) ->
  (forall l, 0 <= l < bd_sectors (fs_dev fs) -> bd_sector d l = bd_sector (fs_dev fs) l) -> vol (set_dev d fs) T C.
Proof.
  intros [V1 V2 V3] Hw Hn Hs. pose proof (v_cache _ V1) as [C1 C2 C3 C4]. split.
  - eapply vol_shape; [done|by split|done|]. split; [done|done| |done]. intros i e Hi Hva. destruct (C3 i e Hi Hva) as (F1 & F2 & F3 & F4).
    split; [done|]. split; [done|]. split; [done|]. intros Hd. rewrite F4 by done. symmetry. by apply Hs, in_fat_disk.
  - intros c Hc. rewrite <- V2 by done. unfold fat_at, fat_data. simpl. destruct (cached (fat_cache fs) _); [done|]. simpl.
    rewrite Hs; [done|]. apply in_fat_disk; [done|]. by apply entry_place.
  - intros c Hc. change (valid_cluster fs c) in Hc. rewrite <- V3 by done. unfold cluster_at.
    destruct (cluster_sectors fs c V1 Hc) as (_ & B1 & B2 & B3). apply sector_range_ext. intros l Hl'. simpl in *. apply Hs.
    change (spc (set_dev d fs)) with (spc fs) in *. lia.
Qed.
Lemma vol_set_dirty fs T C b : vol fs T C -> vol (set_fsinfo_dirty b fs) T C.
Proof.
  intros [V1 V2 V3]. split; [|exact V2|exact V3]. destruct V1 as [W1 [W2 W2'] [W3 W3' W3a W3b] W4 W5].
  split; [by destruct W1|done|by split|done|done].
Qed.

(** The FSInfo sector with the hints. *)
Definition with_hints fs (sector : list Z) : list Z := splice 492 (le32 (next_free_cluster fs)) (splice 488 (le32 (free_clusters fs)) sector).
Definition fsinfo_of fs : list Z := bd_sector (fs_dev fs) (bpb_fs_info_sector (fs_bpb fs)).

(** What synchronising leaves: the volume, without dirty sectors in its cache, the sectors
    before the FAT but for the FSInfo sector, and the hints in that one. *)
Record synced fs T C fs' : Prop := mk_synced {
  sy_vol : vol fs' T C;
  sy_clean : clean fs';
  sy_shape : same_shape fs fs';
  sy_hints : free_clusters fs' = free_clusters fs /\ next_free_cluster fs' = next_free_cluster fs;
  sy_boot : forall s, 0 <= s < fat_start_sector fs -> (has_fsinfo fs = true -> s <> bpb_fs_info_sector (fs_bpb fs)) ->
    bd_sector (fs_dev fs') s = bd_sector (fs_dev fs) s;
  sy_fsinfo : has_fsinfo fs = true ->
    fsinfo_of fs' = if fsinfo_dirty fs then with_hints fs (fsinfo_of fs) else fsinfo_of fs;
}.

Lemma write_fsinfo_ok fs T C : vol fs T C -> layout_ok fs -> has_fsinfo fs = true ->
  exists fs', fat32_write_fsinfo fs = (fs', 0) /\ vol fs' T C /\ same_shape fs fs' /\
    (free_clusters fs' = free_clusters fs /\ next_free_cluster fs' = next_free_cluster fs /\ fat_cache fs' = fat_cache fs) /\
    fsinfo_of fs' = with_hints fs (fsinfo_of fs) /\
    forall l, 0 <= l < bd_sectors (fs_dev fs) -> l <> bpb_fs_info_sector (fs_bpb fs) -> bd_sector (fs_dev fs') l = bd_sector (fs_dev fs) l.
Proof.
  intros Hv Hlay Hi. pose proof (l_fsinfo _ Hlay Hi) as Hf. pose proof (v_geometry _ (vo_ok _ _ _ Hv)) as [_ G2 _ G4 G5 _ G7].
  pose proof (v_disk _ (vo_ok _ _ _ Hv)) as [D1 D2]. unfold fat32_write_fsinfo. rewrite (v_rw _ (vo_ok _ _ _ Hv)), Hi. cbn [negb].
  rewrite bd_read_ok by (first [done|nia]). change (Z.to_nat 1) with 1%nat. rewrite sector_range_one. cbn [negb Z.eqb]. fold (fsinfo_of fs) (with_hints fs (fsinfo_of fs)).
  destruct (bd_sector_ok (fs_dev fs) (bpb_fs_info_sector (fs_bpb fs)) D1 ltac:(nia)) as [L1 B1]. fold (fsinfo_of fs) in L1, B1. unfold FAT32_SECTOR_SIZE in *.
  destruct (write_outside fs T C (bpb_fs_info_sector (fs_bpb fs)) (with_hints fs (fsinfo_of fs)) Hv) as (d & -> & Hv1 & [Hs1 _] & Es & Ho);
    [lia|unfold in_fat; lia|unfold with_hints, FAT32_SECTOR_SIZE; rewrite !splice_length; [lia|simpl; lia|rewrite splice_length; simpl; lia]
    |unfold with_hints; repeat apply splice_bytes; auto with word|]. cbn [negb Z.eqb].
  exists (set_fsinfo_dirty false (set_dev d fs)). split; [done|]. split; [by apply vol_set_dirty|]. split; [transitivity (set_dev d fs); [done|by split]|]. split; [done|]. by split.
Qed.

Lemma sync_ok fs T C : vol fs T C -> layout_ok fs -> exists fs', fat32_sync fs = (fs', 0) /\ synced fs T C fs'.
Proof.
  intros Hv Hlay. unfold fat32_sync. rewrite (v_mounted _ (vo_ok _ _ _ Hv)). cbn [negb].
  destruct (flush_ok fs T C Hv Hlay) as (fs1 & -> & Hv1 & [[Hs1 Hh1] Hk1] & Hc1). cbn [negb Z.eqb]. injection Hh1 as E1 E2 E3.
  pose proof (v_geometry _ (vo_ok _ _ _ Hv)) as [_ G2 _ G4 G5 _ G7]. pose proof (v_disk _ (vo_ok _ _ _ Hv)) as [_ D2].
  pose proof (ss_bpb _ _ Hs1) as Ebpb. pose proof (ss_disk _ _ Hs1) as Esz.
  assert (has_fsinfo fs1 = has_fsinfo fs) as Ei by (unfold has_fsinfo; by rewrite Ebpb).
  assert (exists fs2, (if fsinfo_dirty fs1 then fat32_write_fsinfo fs1 else (fs1, 0)) = (fs2, 0) /\ synced fs T C fs2) as (fs2 & -> & Hsy).
  { rewrite E3. destruct (has_fsinfo fs) eqn:Eh, (fsinfo_dirty fs) eqn:Ed.
    - destruct (write_fsinfo_ok fs1 T C Hv1) as (fs2 & -> & Hv2 & Hs2 & (F1 & F2 & F3) & Ef & Ho); [by apply (layout_shape fs)|done|].
      exists fs2. split; [done|]. split; [done|unfold clean, clean_to in *; by rewrite F3|by transitivity fs1|split; congruence|..].
      + intros s Hs Hne. rewrite Ho by (rewrite ?Esz, ?Ebpb; first [nia|by apply Hne]). by apply Hk1.
      + intros Hi. rewrite Ed, Ef. unfold with_hints, fsinfo_of. rewrite Ebpb, E1, E2. rewrite Hk1; [done|]. pose proof (l_fsinfo _ Hlay Hi). lia.
    - exists fs1. split; [done|]. split; [done|done|done|done|intros; by apply Hk1|]. intros Hi. rewrite Ed. unfold fsinfo_of. rewrite Ebpb. apply Hk1.
      pose proof (l_fsinfo _ Hlay Hi). lia.
    - exists fs1. unfold fat32_write_fsinfo. rewrite (v_rw _ (vo_ok _ _ _ Hv1)), Ei. split; [done|]. split; [done|done|done|done|intros; by apply Hk1|congruence].
    - exists fs1. split; [done|]. split; [done|done|done|done|intros; by apply Hk1|congruence]. }
  cbn [negb Z.eqb]. destruct Hsy as [S1 S2 S3 S4 S5 S6]. destruct (bd_flush_ok (fs_dev fs2)) as (B1 & B2 & B3); [apply S1|].
  pose proof (ss_disk _ _ S3) as Esz2. eexists. split; [done|]. split; [by apply vol_same_disk|done|transitivity fs2; [done|by split]|done|..].
  - intros s Hs Hne. simpl. rewrite B3 by (rewrite Esz2; nia). by apply S5.
  - intros Hi. rewrite <- S6 by done. unfold fsinfo_of. simpl. apply B3. pose proof (l_fsinfo _ Hlay Hi) as Hlf.
    rewrite (ss_bpb _ _ S3), Esz2. nia.
Qed.

(** The entry of a cluster in the first FAT on the disk. *)
Definition disk_entry fs (d : D) (c : Z) : Z :=
  Z.land (get32 (bd_sector d (fat_start_sector fs + c / 128)) (Z.to_nat (4 * (c mod 128)))) FAT32_CLUSTER_MASK.
Lemma synced_entry fs T C fs' c : synced fs T C fs' -> in_table fs c -> disk_entry fs (fs_dev fs') c = T c.
Proof.
  intros [S1 S2 S3 _ _ _] Hc. apply (in_table_shape _ _ _ S3) in Hc. rewrite <- (vo_table _ _ _ S1 c Hc). unfold disk_entry, fat_at.
  rewrite clean_data; [|apply S1|done|by apply entry_place; [apply S1|]]. by destruct S3 as [_ _ [-> _] _ _ _ _ _ _].
Qed.

(** fat32_sync makes the volume durable: it succeeds, and afterwards the first FAT on
    the disk itself has the entry of every cluster as the driver sees it, whatever was only
    in the cache before, the clusters on the disk have their data, and when the hints had
    changed the FSInfo sector holds them. *)
Theorem fat_sync_durable fs T C : vol fs T C -> layout_ok fs ->
  exists fs', fat32_sync fs = (fs', 0) /\ vol fs' T C /\
    (forall c, in_table fs c -> disk_entry fs (fs_dev fs') c = T c) /\
    (forall c, valid_cluster fs c -> sector_range (fs_dev fs') (data_start_sector fs + (c - 2) * spc fs) (Z.to_nat (spc fs)) = C c) /\
    (has_fsinfo fs = true -> fsinfo_dirty fs = true -> 0 <= free_clusters fs < 2 ^ 32 -> 0 <= next_free_cluster fs < 2 ^ 32 ->
       fsinfo_free_count (fsinfo_of fs') = free_clusters fs /\ fsinfo_next_free (fsinfo_of fs') = next_free_cluster fs).
Proof.
  intros Hv Hlay. destruct (sync_ok fs T C Hv Hlay) as (fs' & E & Hsy). exists fs'. split; [done|]. split; [apply Hsy|]. split; [|split].
  - intros c Hc. by eapply synced_entry.
  - intros c Hc. destruct Hsy as [S1 _ S3 _ _ _]. apply (valid_shape _ _ _ S3) in Hc. rewrite <- (vo_data _ _ _ S1 c Hc). unfold cluster_at, spc.
    by destruct S3 as [-> _ _ -> _ _ _ _ _].
  - intros Hi Hd Hf Hn. rewrite (sy_fsinfo _ _ _ _ Hsy Hi), Hd. unfold fsinfo_free_count, fsinfo_next_free, with_hints.
    pose proof (l_fsinfo _ Hlay Hi) as Hlf. pose proof (v_geometry _ (vo_ok _ _ _ Hv)) as [_ G2 _ G4 G5 _ G7]. pose proof (v_disk _ (vo_ok _ _ _ Hv)) as [D1 D2].
    destruct (bd_sector_ok (fs_dev fs) (bpb_fs_info_sector (fs_bpb fs)) D1 ltac:(nia)) as [L1 _]. fold (fsinfo_of fs) in L1. unfold FAT32_SECTOR_SIZE in L1.
    assert (length (splice 488 (le32 (free_clusters fs)) (fsinfo_of fs)) = 512%nat) as L2 by (rewrite splice_length; simpl; lia).
    split; [|apply get32_splice_same; lia]. rewrite get32_splice_other by lia. apply get32_splice_same; lia.
Qed.

(** ** Unmounting and mounting *)

(** The volume was mounted from the boot sector that is on its disk. *)
Record boot_ok fs : Prop := mk_boot_ok {
  b_sector : bd_sector (fs_dev fs) 0 = fs_bpb fs;
  b_checks : snd (fat32_read_boot_sector fs) = 0;
  b_geometry : geometry fs = fs;
}.

(** The checks look at nothing but the boot sector. *)
Lemma boot_again fs fs0 : vol_ok fs -> bd_wf (fs_dev fs0) -> 0 < bd_sectors (fs_dev fs0) ->
  bd_sector (fs_dev fs0) 0 = bd_sector (fs_dev fs) 0 -> boot_ok fs ->
  fat32_read_boot_sector fs0 = (set_bpb (fs_bpb fs) fs0, 0).
Proof.
  intros Hv Hw Hn Hs [B1 B2 _]. pose proof (v_geometry _ Hv) as [_ G2 _ G4 G5 _ G7]. pose proof (v_disk _ Hv) as [D1 D2].
  revert B2. unfold fat32_read_boot_sector. rewrite !bd_read_ok by (first [done|nia]). change (Z.to_nat 1) with 1%nat.
  rewrite !sector_range_one, Hs, B1. cbn [negb Z.eqb]. intros B2. repeat (match goal with |- context [if ?b then _ else _] => destruct b; [done|] end). done.
Qed.

(** The numbers come from the boot sector. *)
Lemma geometry_again fs (d : D) : geometry fs = fs ->
  let f0 := geometry (set_bpb (fs_bpb fs) (zero_fs d)) in
  bytes_per_cluster f0 = bytes_per_cluster fs /\ fat_start_sector f0 = fat_start_sector fs /\ fat_sectors f0 = fat_sectors fs /\
  data_start_sector f0 = data_start_sector fs /\ total_clusters f0 = total_clusters fs /\ root_cluster f0 = root_cluster fs.
Proof. intros Eg f0. destruct fs. injection Eg as E1 E2 E3 E4 E5 E6. done. Qed.
(** The mount takes the hints of the FSInfo sector or its own. *)
Lemma fsinfo_hints fs : exists h1 h2,
  (let '(fs, r) := fat32_read_fsinfo fs in if r =? 0 then fs else set_hints 0xFFFFFFFF FAT32_FIRST_DATA_CLUSTER fs) = set_hints h1 h2 fs.
Proof.
  unfold fat32_read_fsinfo. destruct (negb (has_fsinfo fs)); [by eexists _, _|]. destruct (bd_read _ 1 _) as [r sector].
  destruct (negb (r =? 0)); [by eexists _, _|]. destruct (_ || _ || _); by eexists _, _.
Qed.

(** A volume with an empty cache on a disk that holds the table and the clusters. *)
Lemma fresh_vol fs fs2 T C : vol_ok fs -> fs_bpb fs2 = fs_bpb fs -> bytes_per_cluster fs2 = bytes_per_cluster fs ->
  fat_start_sector fs2 = fat_start_sector fs -> fat_sectors fs2 = fat_sectors fs -> data_start_sector fs2 = data_start_sector fs ->
  total_clusters fs2 = total_clusters fs -> bd_wf (fs_dev fs2) -> bd_sectors (fs_dev fs2) = bd_sectors (fs_dev fs) ->
  fat_cache fs2 = repeat empty_cache (Z.to_nat FAT32_FAT_CACHE_SIZE) -> fs_mounted fs2 = true -> fs_readonly fs2 = false ->
  (forall c, in_table fs c -> disk_entry fs (fs_dev fs2) c = T c) ->
  (forall c, valid_cluster fs c -> sector_range (fs_dev fs2) (data_start_sector fs + (c - 2) * spc fs) (Z.to_nat (spc fs)) = C c) -> vol fs2 T C.
Proof.
  intros [[G1 G2 G3 G4 G5 G6 G7] [D1 D2] _ _ _] E1 E2 E3 E4 E5 E6 Hw E7 Ec Hm Hr HT HC. unfold spc in *.
  assert (forall i e, fat_cache fs2 !! i = Some e -> e = empty_cache) as Hemp.
  { intros i e He. rewrite Ec in He. apply list_elem_of_lookup_2, list_elem_of_In in He. by apply repeat_spec in He. }
  assert (forall s, cached (fat_cache fs2) s = None) as Hnone by (intros s; by rewrite Ec). split.
  - split; [split; unfold spc; rewrite ?E1, ?E2, ?E3, ?E4, ?E5, ?E6; done|split; [done|unfold spc; by rewrite E1, E5, E6, E7]|..|done|done].
    split; [by rewrite Ec, repeat_length|..].
    + intros i j ei ej Hi Hj Hv. by rewrite (Hemp _ _ Hi) in Hv.
    + intros i e Hi Hv. by rewrite (Hemp _ _ Hi) in Hv.
    + intros i e Hi Hd. by rewrite (Hemp _ _ Hi) in Hd.
  - intros c Hc. rewrite <- HT by (unfold in_table, fat_entries in *; by rewrite <- E4). unfold fat_at, fat_data, disk_entry. by rewrite Hnone, E3.
  - intros c Hc. rewrite <- HC by (unfold valid_cluster in *; by rewrite <- E6). unfold cluster_at, spc. by rewrite E1, E5.
Qed.

Context {P : Type} `{PageAllocator P}.

(** C4: a volume that is unmounted and mounted again is the same: the new mount reads the
    same table, clusters and root directory from the disk, although the old one kept the
    latest changes in its cache. It asks for the two allocations of the mount to succeed. *)
Theorem fat_remount fs T C (pa : P) : vol fs T C -> layout_ok fs -> boot_ok fs ->
  exists fs1 pa1, fat32_unmount fs pa = (fs1, pa1, 0) /\
    forall a pa2 b pa3, pa_alloc 1 pa1 = (a, pa2) -> a <> 0 -> pa_alloc (cluster_pages fs) pa2 = (b, pa3) -> b <> 0 ->
    exists fs2, fat32_mount (fs_dev fs1) pa1 = (Some fs2, pa3) /\ vol fs2 T C /\ root_cluster fs2 = root_cluster fs.
Proof.
  intros Hv Hlay Hb. unfold fat32_unmount. rewrite (v_mounted _ (vo_ok _ _ _ Hv)). cbn [negb].
  destruct (sync_ok fs T C Hv Hlay) as (fs1 & -> & Hsy). eexists _, _. split; [done|].
  intros a pa2 b pa3 Ea Ha Eb Hnb. cbn [fs_dev set_mounted]. unfold fat32_mount. rewrite Ea, (proj2 (Z.eqb_neq a 0) Ha).
  pose proof Hsy as [S1 S2 S3 S4 S5 S6]. pose proof (v_geometry _ (vo_ok _ _ _ Hv)) as [G1 G2 G3 G4 G5 G6 G7].
  pose proof (v_disk _ (vo_ok _ _ _ Hv)) as [_ D2]. pose proof (ss_disk _ _ S3) as Esz.
  rewrite (boot_again fs); [|apply Hv|apply S1|simpl; rewrite Esz; nia|..|done]; cbn [fs_dev zero_fs].
  2: { apply S5; [lia|]. intros Hi. pose proof (l_fsinfo _ Hlay Hi). lia. }
  cbn [negb Z.eqb]. set (f0 := geometry (set_bpb (fs_bpb fs) (zero_fs (fs_dev fs1)))).
  destruct (geometry_again fs (fs_dev fs1) (b_geometry _ Hb)) as (Q1 & Q2 & Q3 & Q4 & Q5 & Q6). fold f0 in Q1, Q2, Q3, Q4, Q5, Q6.
  destruct (fsinfo_hints f0) as (h1 & h2 & Eh).
  destruct (fat32_read_fsinfo f0) as [f1 r]. rewrite Eh. change (cluster_pages (set_hints h1 h2 f0)) with (cluster_pages f0).
  assert (cluster_pages f0 = cluster_pages fs) as -> by (unfold cluster_pages; by rewrite Q1). rewrite Eb, (proj2 (Z.eqb_neq b 0) Hnb).
  eexists. split; [done|]. split; [|exact Q6]. apply (fresh_vol fs); try done; [apply Hv|apply S1|..].
  - intros c Hc. exact (synced_entry fs T C fs1 c Hsy Hc).
  - intros c Hc. apply (valid_shape _ _ _ S3) in Hc. rewrite <- (vo_data _ _ _ S1 c Hc). unfold cluster_at, spc. by destruct S3 as [-> _ _ -> _ _ _ _ _].
Qed.
End Sync.

(** ** FAT32: truncating files (fs/fat32/fat32.c)

    Truncating to nothing frees the whole chain. Shrinking to a size that needs [n]
    clusters, with [n] at least 2, keeps only [n - 1] of them: the loop stops with the
    [n]-th cluster in hand, which is then freed with the rest. *)

Section Trunc.
Context {D : Type} `{BlockDeviceLaws D}.
Implicit Types fs : fat32_fs D.
Implicit Types T : Z -> Z.
Implicit Types C : Z -> list Z.

(** The loop leaves the cluster number [n] and the one before it. *)
Lemma keep_ok n : forall fs T C pre c l prev, vol fs T C -> chain fs T (pre ++ c :: l) -> (n <= length l)%nat -> prev = List.last pre 0 ->
  exists fs' d, keep_clusters n prev c fs = (fs', List.last (pre ++ take n (c :: l)) 0, d) /\ (c :: l) !! n = Some d /\ vol fs' T C /\ same_shape fs fs'.
Proof.
  induction n as [|n IH]; intros fs T C pre c l prev Hv Hl Hn Hp; [exists fs, c; simpl; rewrite app_nil_r, Hp; by split|].
  destruct l as [|d l]; [simpl in Hn; lia|]. cbn [keep_clusters]. pose proof (chain_tail _ _ _ _ _ Hl) as Hc.
  rewrite (valid_true fs c (vo_ok _ _ _ Hv) Hc). destruct (vol_next_cluster fs T C c Hv Hc) as (fs1 & -> & Hv1 & Hs1 & _).
  rewrite (chain_link _ _ _ _ _ _ Hl).
  destruct (IH fs1 T C (pre ++ [c]) d l c Hv1) as (fs2 & x & E & Ex & Hv2 & Hs2);
    [rewrite <- app_assoc; by eapply chain_ext|simpl in Hn; lia|by rewrite List.last_last|].
  exists fs2, x. rewrite E, <- app_assoc. split; [done|]. split; [done|]. split; [done|]. by transitivity fs1.
Qed.

Lemma truncate_zero fs T C e c l : vol fs T C -> file fs T e (c :: l) -> de_file_size e <> 0 ->
  exists fs' e', fat32_truncate_file e 0 fs = Some (fs', e', 0) /\ vol fs' (cleared T (c :: l)) C /\ same_shape fs fs' /\
    file fs' (cleared T (c :: l)) e' [] /\ de_file_size e' = 0.
Proof.
  intros Hv [He Hk [Hch Ec] Hs] Hne. unfold fat32_truncate_file. rewrite (v_rw _ (vo_ok _ _ _ Hv)).
  assert ((0 =? de_file_size e) = false) as -> by (apply Z.eqb_neq; lia).
  cbn [Z.eqb]. rewrite Ec. pose proof (valid_bound fs c (vo_ok _ _ _ Hv) (proj1 Hch)) as Hcb.
  rewrite (proj2 (Z.leb_le _ _)) by (unfold FAT32_FIRST_DATA_CLUSTER; lia).
  destruct (free_ok fs T C c l Hv Hch) as (fs1 & -> & Hv1 & Hs1 & _). cbn [mbind option_bind].
  pose proof (set_cluster_is_entry 0 e He) as He1. eexists fs1, _. split; [done|]. split; [done|]. split; [done|]. split.
  - split; [by apply set_size_is_entry|rewrite set_size_attr by done; by rewrite set_cluster_attr| |].
    + rewrite set_size_cluster by done. rewrite set_cluster_read by (done || lia). unfold FAT32_FIRST_DATA_CLUSTER. lia.
    + rewrite set_size_read by (done || lia). simpl. lia.
  - apply set_size_read; [done|lia].
Qed.

(** The first [n] clusters of a chain whose [n]-th entry was made an end. *)
Lemma chain_cut fs T l1 p l2 : chain fs T (l1 ++ p :: l2) -> NoDup (l1 ++ p :: l2) -> chain fs (upd T p FAT32_CLUSTER_EOF) (l1 ++ [p]).
Proof.
  induction l1 as [|a l1 IH]; intros Hl Hnd; simpl app in *.
  - split; [apply Hl|]. split; [by rewrite upd_same|done].
  - apply NoDup_cons in Hnd as [Ha Hnd]. assert (a <> p) as Hap by (intros ->; apply Ha, elem_of_app; right; apply list_elem_of_here).
    destruct l1 as [|b l1]; simpl app in *; apply chain_cons in Hl as (H1' & H2' & H3'); apply chain_cons;
      (split; [done|]); rewrite upd_other by done; (split; [done|]); by apply IH.
Qed.

(** Shrinking keeps one cluster too few: with [n] the number of clusters the new size needs,
    the chain has [n - 1] clusters afterwards, all behind them are free, and the entry has
    a size that its clusters cannot hold. *)
Theorem fat_truncate_loses_cluster fs T C e l new_size : vol fs T C -> file fs T e l -> 0 < new_size < de_file_size e ->
  new_size + bytes_per_cluster fs - 1 < 2 ^ 32 -> 2 <= clusters_for fs new_size ->
  let n := Z.to_nat (clusters_for fs new_size - 1) in
  let T' := cleared (upd T (List.last (take n l) 0) FAT32_CLUSTER_EOF) (drop n l) in
  exists fs' e', fat32_truncate_file e new_size fs = Some (fs', e', 0) /\ vol fs' T' C /\ chain fs' T' (take n l) /\
    fat32_entry_cluster e' = fat32_entry_cluster e /\ de_file_size e' = new_size /\
    Z.of_nat (length (take n l)) * bytes_per_cluster fs < new_size.
Proof.
  intros Hv [He Hk Hch Hs] Hsize Hov Hk2 n T'. pose proof (bpc_pos fs (vo_ok _ _ _ Hv)) as Hbp. set (b := bytes_per_cluster fs) in *.
  assert (clusters_for fs new_size * b < new_size + b /\ new_size <= clusters_for fs new_size * b) as [Hc1 Hc2].
  { unfold clusters_for. fold b. pose proof (Z.div_mod (new_size + b - 1) b ltac:(lia)). pose proof (Z.mod_pos_bound (new_size + b - 1) b Hbp). nia. }
  set (k := clusters_for fs new_size) in *. destruct l as [|c l]; [simpl in Hs; lia|]. destruct Hch as [Hch Ec].
  assert (k <= Z.of_nat (length (c :: l))) as Hkl by nia. assert (S (n - 1) = n) as En by lia.
  unfold fat32_truncate_file. rewrite (v_rw _ (vo_ok _ _ _ Hv)). rewrite (proj2 (Z.eqb_neq new_size (de_file_size e))), (proj2 (Z.eqb_neq new_size 0)) by lia.
  rewrite (proj2 (Z.ltb_lt _ _)) by lia. fold b. rewrite u32_id by lia. fold (clusters_for fs new_size). change ((new_size + b - 1) / b) with k.
  rewrite Ec. fold n.
  destruct (keep_ok n fs T C [] c l 0 Hv Hch ltac:(simpl in Hkl; lia) eq_refl) as (fs1 & d & -> & Hd & Hv1 & Hs1). rewrite app_nil_l. fold n.
  pose proof (drop_S _ _ _ Hd) as Edrop. set (post := drop (S n) (c :: l)) in *.
  assert (exists l1 p, take n (c :: l) = l1 ++ [p]) as (l1 & p & Etake).
  { destruct (exists_last (l := take n (c :: l))) as (l1 & p & E); [destruct n; [lia|done]|by exists l1, p]. }
  assert (c :: l = l1 ++ p :: d :: post) as El by (rewrite <- (take_drop n (c :: l)), Etake, Edrop, <- app_assoc; done).
  unfold T'. rewrite Edrop. rewrite Etake, List.last_last. pose proof (chain_nodup fs T _ (vo_ok _ _ _ Hv) Hch) as Hnd.
  rewrite El in Hch, Hnd. pose proof (chain_tail _ _ _ _ _ Hch) as Hvp. pose proof (valid_bound fs p (vo_ok _ _ _ Hv) Hvp) as Hpb.
  assert (valid_cluster fs d) as Hvd by (rewrite cons_middle, app_assoc in Hch; by eapply chain_tail).
  rewrite (proj2 (Z.eqb_neq p 0)), (valid_true fs1 d) by (first [lia|apply Hv1|by apply (valid_shape fs)]). cbn [negb andb].
  unfold fat32_set_cluster. destruct (vol_write_entry fs1 T C p FAT32_CLUSTER_EOF Hv1) as (fs2 & -> & Hv2 & Hs2 & _);
    [apply (in_table_shape fs); [done|]; apply valid_in_table; [apply Hv|done]|unfold FAT32_CLUSTER_EOF; lia|].
  assert (same_shape fs fs2) as Hs12 by (by transitivity fs1). set (T1 := upd T p FAT32_CLUSTER_EOF) in *.
  pose proof (chain_cut fs T l1 p (d :: post) Hch Hnd) as Hcut. fold T1 in Hcut. apply NoDup_app in Hnd as (Hnd1 & Hdis & Hnd2).
  apply NoDup_cons in Hnd2 as [Hpn _].
  assert (chain fs2 T1 (d :: post)) as Hrest.
  { eapply (chain_ext fs fs2 T); [done| |rewrite cons_middle, app_assoc in Hch; by apply chain_suffix in Hch].
    intros x Hx. apply upd_other. by intros ->. }
  destruct (free_ok fs2 T1 C d post Hv2 Hrest) as (fs3 & -> & Hv3 & Hs3 & _). cbn [mbind option_bind].
  eexists fs3, _. split; [done|]. split; [done|]. split.
  { eapply (chain_ext fs fs3 T1); [by transitivity fs2| |done]. intros x Hx. unfold cleared. rewrite bool_decide_false; [done|]. intros Hin.
    apply elem_of_app in Hx as [Hx|Hx]; [apply (Hdis x Hx); by apply list_elem_of_further|]. apply elem_of_cons in Hx as [->|Hx]; [done|by apply not_elem_of_nil in Hx]. }
  split; [rewrite set_size_cluster by done; congruence|]. pose proof (file_size_range e He) as Hr. split; [apply set_size_read; [done|lia]|].
  rewrite <- Etake, length_take. nia.
Qed.
End Trunc.
