(* ===== verification/VfsPath.v ===== *)
(** * Paths of the virtual file system (fs/vfs/vfs.c)

    vfs_normalize_path, vfs_parent_path and vfs_basename on strings of bytes. A path means
    a list of names: the components between slashes with "." dropped and ".." taking back
    the name before it. Normalising prints that list; the parent and the base name of a
    normalised path are its front and its last name. *)
From S2P Require Import Prelude Memory VfsBase.

Definition slash : Z := 47.
Definition dot : list Z := [46].
Definition dotdot : list Z := [46; 46].

(** The tokens between slashes, the first one apart; they may be empty. *)
Fixpoint split_slash (path : list Z) : list Z * list (list Z) :=
  match path with
  | [] => ([], [])
  | c :: p => let '(t, r) := split_slash p in if c =? slash then ([], t :: r) else (c :: t, r)
  end.
Definition nonempty (t : list Z) : Prop := t <> [].
#[export] Instance nonempty_dec t : Decision (nonempty t).
Proof. unfold nonempty. apply _. Defined.
Definition components (path : list Z) : list (list Z) := let '(t, r) := split_slash path in filter nonempty (t :: r).

(** One component: the names that are open, the innermost last. *)
Definition enter (stack : list (list Z)) (token : list Z) : list (list Z) :=
  if bool_decide (token = dot) then stack
  else if bool_decide (token = dotdot) then removelast stack
  else stack ++ [token].

(** The names from position [j] of the result on, [None] when they do not fit. *)
Fixpoint build_path (j : Z) (names : list (list Z)) : option (list Z) :=
  match names with
  | [] => Some []
  | n :: rest =>
      let len := Z.of_nat (length n) in
      if VFS_PATH_MAX <=? j + len + 1 then None
      else match rest with
           | [] => Some n
           | _ => r ← build_path (j + len + 1) rest; Some (n ++ slash :: r)
           end
  end.

(** [None] for NULL. *)
Definition vfs_normalize_path (path : list Z) : option (list Z) :=
  match path with
  | [] => Some [slash]
  | _ =>
      if VFS_PATH_MAX <=? Z.of_nat (length path) then None
      else r ← build_path 1 (foldl enter [] (components path)); Some (slash :: r)
  end.

(** The bytes up to and with the last slash of the first [len]. *)
Fixpoint last_slash (len : nat) (path : list Z) : nat :=
  match len with
  | O => 0
  | S n => if nth n path 0 =? slash then len else last_slash n path
  end.
Definition vfs_parent_path (path : list Z) : list Z :=
  let len := length path in
  if (len =? 0)%nat || ((len =? 1)%nat && (nth 0 path 0 =? slash)) then [slash]
  else
    let len := if nth (len - 1) path 0 =? slash then (len - 1)%nat else len in
    let n := last_slash len path in
    if (n =? 0)%nat then [slash] else if (n =? 1)%nat then take 1 path else take (n - 1) path.

(** From just behind the last slash on; a slash at the end is passed over. *)
Definition vfs_basename (path : list Z) : list Z :=
  let len := length path in
  if (len =? 0)%nat then path
  else
    let base := (len - 1)%nat in
    let base := if (nth base path 0 =? slash) && (0 <? base)%nat then (base - 1)%nat else base in
    drop (last_slash base path) path.

(** ** What a path means *)

(** A name: not empty, no slash in it, neither "." nor "..". *)
Definition plain (t : list Z) : Prop := t <> [] /\ (forall c, c ∈ t -> c <> slash) /\ t <> dot /\ t <> dotdot.
Definition resolve (path : list Z) : list (list Z) := foldl enter [] (components path).
(** The text of a list of names. *)
Definition path_text (names : list (list Z)) : list Z :=
  match names with
  | [] => [slash]
  | _ => concat (map (cons slash) names)
  end.

Lemma components_tokens path : Forall (fun t => t <> [] /\ forall c, c ∈ t -> c <> slash) (components path).
Proof.
  assert (let '(t, r) := split_slash path in Forall (fun t => forall c, c ∈ t -> c <> slash) (t :: r)) as Hs.
  { induction path as [|c p IH]; cbn [split_slash]; [repeat constructor; intros c Hc; by apply not_elem_of_nil in Hc|].
    destruct (split_slash p) as [t r]. destruct (Z.eqb_spec c slash) as [->|Hc]; [by constructor; [intros x Hx; by apply not_elem_of_nil in Hx|]|].
    apply Forall_cons in IH as [Ht Hr]. constructor; [|done]. intros x [->|Hx]%elem_of_cons; [done|by apply Ht]. }
  unfold components. destruct (split_slash path) as [t r]. apply Forall_forall. intros x [Hx1 Hx2]%list_elem_of_filter. split; [done|].
  rewrite Forall_forall in Hs. by apply Hs.
Qed.
Lemma enter_plain stack t : Forall plain stack -> t <> [] -> (forall c, c ∈ t -> c <> slash) -> Forall plain (enter stack t).
Proof.
  intros Hs Ht Hc. unfold enter. case_bool_decide; [done|]. case_bool_decide.
  - destruct stack as [|x s] using rev_ind; [done|]. rewrite removelast_last. by apply Forall_app in Hs as [Hs _].
  - apply Forall_app. split; [done|]. by apply Forall_singleton.
Qed.
Lemma foldl_enter_plain l stack : Forall plain stack -> Forall (fun t => t <> [] /\ forall c, c ∈ t -> c <> slash) l -> Forall plain (foldl enter stack l).
Proof.
  revert stack. induction l as [|t l IH]; intros stack Hs Hl; [done|]. apply Forall_cons in Hl as [[Ht1 Ht2] Hl]. cbn [foldl]. apply IH; [|done].
  by apply enter_plain.
Qed.
Lemma resolve_plain path : Forall plain (resolve path).
Proof. apply foldl_enter_plain; [done|apply components_tokens]. Qed.

(** Names are entered one after the other. *)
Lemma foldl_enter_names stack l : Forall plain l -> foldl enter stack l = stack ++ l.
Proof.
  revert stack. induction l as [|t l IH]; intros stack Hl; [by rewrite app_nil_r|]. apply Forall_cons in Hl as [(_ & _ & H1 & H2) Hl].
  cbn [foldl]. unfold enter at 2. rewrite (bool_decide_false (t = dot)), (bool_decide_false (t = dotdot)) by done.
  rewrite IH by done. by rewrite <- app_assoc.
Qed.

Lemma split_app t p : (forall c, c ∈ t -> c <> slash) -> split_slash (t ++ slash :: p) = (t, fst (split_slash p) :: snd (split_slash p)).
Proof.
  intros Ht. induction t as [|c t IH]; cbn [app split_slash]; [by destruct (split_slash p)|].
  rewrite IH by (intros x Hx; apply Ht; by apply list_elem_of_further).
  by rewrite (proj2 (Z.eqb_neq c slash)) by (apply Ht, list_elem_of_here).
Qed.
Lemma split_token t : (forall c, c ∈ t -> c <> slash) -> split_slash t = (t, []).
Proof.
  intros Ht. induction t as [|c t IH]; cbn [split_slash]; [done|]. rewrite IH by (intros x Hx; apply Ht; by apply list_elem_of_further).
  by rewrite (proj2 (Z.eqb_neq c slash)) by (apply Ht, list_elem_of_here).
Qed.
Lemma split_text l : Forall plain l -> l <> [] -> split_slash (concat (map (cons slash) l)) = ([], l).
Proof.
  intros Hl Hne. induction Hl as [|t l (_ & Ht & _) Hl IH]; [done|]. cbn [map concat app split_slash].
  destruct l as [|u l]; [cbn [map concat]; by rewrite app_nil_r, split_token|]. specialize (IH ltac:(done)).
  assert (split_slash (t ++ concat (map (cons slash) (u :: l))) = (t, u :: l)) as ->; [|done].
  cbn [map concat app] in *. rewrite split_app by done. cbn [split_slash] in IH. destruct (split_slash (u ++ concat (map (cons slash) l))) as [a r].
  change (slash =? slash) with true in IH. cbn [fst snd]. congruence.
Qed.
(** The names of the text of a list are the list. *)
Lemma components_text l : Forall plain l -> components (path_text l) = l.
Proof.
  intros Hl. destruct l as [|t l]; [done|]. unfold components, path_text. rewrite split_text by done. rewrite filter_cons_False by (unfold nonempty; tauto).
  induction Hl as [|x l' Hx Hl IH]; [done|]. rewrite filter_cons_True by apply Hx. by rewrite IH.
Qed.
Lemma resolve_text l : Forall plain l -> resolve (path_text l) = l.
Proof. intros Hl. unfold resolve. rewrite components_text by done. by apply foldl_enter_names. Qed.

(** ** Normalising *)

Lemma build_path_ok names j : names <> [] ->
  build_path j names =
  if j + Z.of_nat (length (concat (map (cons slash) names))) <? VFS_PATH_MAX then Some (tail (concat (map (cons slash) names))) else None.
Proof.
  revert j. induction names as [|n rest IH]; intros j Hne; [done|]. cbn [build_path map concat app tail length]. rewrite length_app.
  destruct rest as [|m rest].
  - cbn [map concat length]. rewrite app_nil_r. destruct (Z.leb_spec VFS_PATH_MAX (j + Z.of_nat (length n) + 1)); [rewrite (proj2 (Z.ltb_ge _ _)) by lia; done|].
    by rewrite (proj2 (Z.ltb_lt _ _)) by lia.
  - rewrite IH by done. set (r := concat (map (cons slash) (m :: rest))).
    assert (r = slash :: tail r) as Er by done. destruct (Z.leb_spec VFS_PATH_MAX (j + Z.of_nat (length n) + 1)).
    { rewrite (proj2 (Z.ltb_ge _ _)) by lia. done. }
    destruct (Z.ltb_spec (j + Z.of_nat (length n) + 1 + Z.of_nat (length r)) VFS_PATH_MAX).
    + rewrite (proj2 (Z.ltb_lt _ _)) by lia. cbn [mbind option_bind]. by rewrite <- Er.
    + by rewrite (proj2 (Z.ltb_ge _ _)) by lia.
Qed.
Lemma normalize_ok path :
  vfs_normalize_path path =
  if (Z.of_nat (length path) <? VFS_PATH_MAX) && (Z.of_nat (length (path_text (resolve path))) <? VFS_PATH_MAX - 1) then Some (path_text (resolve path)) else None.
Proof.
  unfold vfs_normalize_path. destruct path as [|c p]; [done|]. fold (resolve (c :: p)). set (path := c :: p).
  destruct (Z.leb_spec VFS_PATH_MAX (Z.of_nat (length path))); [by rewrite (proj2 (Z.ltb_ge _ _)) by lia|].
  rewrite (proj2 (Z.ltb_lt (Z.of_nat (length path)) _)) by lia. cbn [andb]. destruct (resolve path) as [|n l] eqn:Er; [done|].
  rewrite build_path_ok by done. change (concat (map (cons slash) (n :: l))) with (path_text (n :: l)).
  set (t := path_text (n :: l)). assert (t = slash :: tail t) as Et by done.
  destruct (Z.ltb_spec (1 + Z.of_nat (length t)) VFS_PATH_MAX).
  - rewrite (proj2 (Z.ltb_lt _ _)) by lia. cbn [mbind option_bind]. by rewrite <- Et.
  - by rewrite (proj2 (Z.ltb_ge _ _)) by lia.
Qed.

Lemma normalize_some path p : vfs_normalize_path path = Some p ->
  p = path_text (resolve path) /\ Z.of_nat (length path) < VFS_PATH_MAX /\ Z.of_nat (length p) < VFS_PATH_MAX - 1.
Proof.
  rewrite normalize_ok. destruct (Z.ltb_spec (Z.of_nat (length path)) VFS_PATH_MAX); [|done]. cbn [andb].
  destruct (Z.ltb_spec (Z.of_nat (length (path_text (resolve path)))) (VFS_PATH_MAX - 1)); [|done]. by intros [= <-].
Qed.
Lemma normalize_text l : Forall plain l -> Z.of_nat (length (path_text l)) < VFS_PATH_MAX - 1 -> vfs_normalize_path (path_text l) = Some (path_text l).
Proof. intros Hp Hl. rewrite normalize_ok, resolve_text by done. by rewrite !(proj2 (Z.ltb_lt _ _)) by lia. Qed.
(** The buffer of a normalised path is as it was after it is normalised in place. *)
Lemma normalize_idem path p : vfs_normalize_path path = Some p -> vfs_normalize_path p = Some p /\ resolve p = resolve path.
Proof.
  intros Hn. apply normalize_some in Hn as (-> & _ & Hl). pose proof (resolve_plain path) as Hp.
  split; [by apply normalize_text|by apply resolve_text].
Qed.

(** ** Parents and base names *)

Lemma last_slash_ok a x k : (forall c, c ∈ x -> c <> slash) -> (k <= length x)%nat -> last_slash (length a + 1 + k) (a ++ slash :: x) = (length a + 1)%nat.
Proof.
  intros Hx. induction k as [|k IH]; intros Hk.
  - rewrite Nat.add_0_r, Nat.add_1_r. cbn [last_slash]. by rewrite nth_middle.
  - rewrite Nat.add_succ_r. cbn [last_slash]. rewrite app_nth2 by lia. replace (length a + 1 + k - length a)%nat with (S k) by lia. cbn [nth].
    rewrite (proj2 (Z.eqb_neq _ _)); [apply IH; lia|]. apply Hx. apply list_elem_of_In, nth_In. lia.
Qed.
Lemma path_text_snoc l x : path_text (l ++ [x]) = concat (map (cons slash) l) ++ slash :: x.
Proof. unfold path_text. destruct (l ++ [x]) as [|y r] eqn:E; [by destruct l|]. rewrite <- E, map_app, concat_app. cbn [map concat]. by rewrite app_nil_r. Qed.

(** The front and the last name of a list of names. *)
Lemma parent_basename_text l x : plain x ->
  vfs_parent_path (path_text (l ++ [x])) = path_text l /\ vfs_basename (path_text (l ++ [x])) = x.
Proof.
  intros (Hne & Hs & _). rewrite path_text_snoc. set (a := concat (map (cons slash) l)).
  assert (exists k, length x = S k) as [k Hk] by (destruct x as [|c x]; [done|by exists (length x)]).
  assert (length (a ++ slash :: x) = (length a + 1 + length x)%nat) as Hl by (rewrite length_app; cbn [length]; lia).
  assert ((nth (length a + 1 + length x - 1) (a ++ slash :: x) 0 =? slash) = false) as Hlast.
  { apply Z.eqb_neq. replace (length a + 1 + length x - 1)%nat with (length a + S k)%nat by lia. rewrite app_nth2 by lia.
    replace (length a + S k - length a)%nat with (S k) by lia. cbn [nth]. apply Hs. apply list_elem_of_In, nth_In. lia. }
  split.
  - unfold vfs_parent_path. rewrite Hl, Hlast, last_slash_ok by done. rewrite (proj2 (Nat.eqb_neq _ 0)), (proj2 (Nat.eqb_neq _ 1)) by lia. cbn [orb andb].
    rewrite (proj2 (Nat.eqb_neq (length a + 1) 0)) by lia. destruct l as [|y l]; [done|]. assert (0 < length a)%nat as Ha by (simpl; lia).
    rewrite (proj2 (Nat.eqb_neq (length a + 1) 1)) by lia. rewrite Nat.add_sub. apply take_app_length.
  - unfold vfs_basename. rewrite Hl, Hlast. rewrite (proj2 (Nat.eqb_neq _ 0)) by lia. cbn [andb].
    replace (length a + 1 + length x - 1)%nat with (length a + 1 + k)%nat by lia. rewrite last_slash_ok by (done || lia).
    rewrite drop_app_ge by lia. by replace (length a + 1 - length a)%nat with 1%nat by lia.
Qed.

(** ** Bounds *)

Lemma split_length path : let '(t, r) := split_slash path in (length t + foldr (fun x n => S (length x) + n) 0 r)%nat = length path.
Proof.
  induction path as [|c p IH]; [done|]. cbn [split_slash]. destruct (split_slash p) as [t r]. destruct (c =? slash); cbn [length foldr] in *; lia.
Qed.
Lemma components_length path : (2 * length (components path) <= length path + 1)%nat.
Proof.
  pose proof (split_length path) as Hl. unfold components. destruct (split_slash path) as [t r].
  assert (forall l : list (list Z), (2 * length (filter nonempty l) <= foldr (fun x n => S (length x) + n) 0 l)%nat) as Hr.
  { induction l as [|x l IH]; [done|]. rewrite filter_cons. case_decide as Hx; cbn [foldr length]; [|lia]. unfold nonempty in Hx.
    destruct x; [done|]. cbn [length]. lia. }
  pose proof (Hr r). rewrite filter_cons. case_decide as Ht; cbn [length]; [|lia]. unfold nonempty in Ht. destruct t; [done|]. cbn [length] in Hl. lia.
Qed.
Lemma enter_length stack t : (length (enter stack t) <= S (length stack))%nat.
Proof.
  unfold enter. case_bool_decide; [lia|]. case_bool_decide; [|rewrite length_app; simpl; lia].
  destruct stack as [|x s] using rev_ind; [simpl; lia|]. rewrite removelast_last, length_app. simpl. lia.
Qed.
Lemma foldl_enter_length l stack : (length (foldl enter stack l) <= length stack + length l)%nat.
Proof.
  revert stack. induction l as [|t l IH]; intros stack; cbn [foldl length]; [lia|]. pose proof (IH (enter stack t)). pose proof (enter_length stack t). lia.
Qed.

(** ** The names of a path, without the stack *)

(** The words of a path, put together with slashes. *)
Fixpoint join (words : list (list Z)) : list Z :=
  match words with
  | [] => []
  | [w] => w
  | w :: rest => w ++ slash :: join rest
  end.
(** The names that remain, looking at the words from the last to the first: a ".." takes
    away the next name that is met, an empty word and "." nothing. [pending] counts the
    ".." that have not met their name; those left at the beginning lead nowhere. *)
Fixpoint remaining (pending : nat) (words : list (list Z)) : list (list Z) :=
  match words with
  | [] => []
  | w :: before =>
      if bool_decide (w = []) || bool_decide (w = [46]) then remaining pending before
      else if bool_decide (w = [46; 46]) then remaining (S pending) before
      else match pending with
           | O => remaining 0 before ++ [w]
           | S k => remaining k before
           end
  end.
Definition no_slash (w : list Z) : Prop := slash ∉ w.
(** The words of a path and the names it stands for. *)
Definition words_of (path : list Z) (words : list (list Z)) : Prop := words <> [] /\ Forall no_slash words /\ join words = path.

Lemma split_words path : let '(t, r) := split_slash path in words_of path (t :: r).
Proof.
  induction path as [|c p IH]; [split; [done|]; split; [|done]; by apply Forall_singleton, not_elem_of_nil|]. cbn [split_slash]. destruct (split_slash p) as [t r]. destruct IH as (_ & Hw & E).
  destruct (Z.eqb_spec c slash) as [->|Hc].
  - split; [done|]. split; [constructor; [apply not_elem_of_nil|done]|]. change (slash :: join (t :: r) = slash :: p). by rewrite E.
  - apply Forall_cons in Hw as [Ht Hr]. split; [done|]. split; [constructor; [by apply not_elem_of_cons|done]|]. rewrite <- E. by destruct r.
Qed.
Lemma words_split path words : words_of path words -> words = fst (split_slash path) :: snd (split_slash path).
Proof.
  intros (Hne & Hw & <-). induction Hw as [|w rest Hw Hr IH]; [done|]. assert (forall c, c ∈ w -> c <> slash) as Hc by (intros c Hc ->; by apply Hw).
  destruct rest as [|x rest]; [cbn [join]; by rewrite split_token|]. change (join (w :: x :: rest)) with (w ++ slash :: join (x :: rest)). rewrite split_app by done. cbn [fst snd]. by rewrite <- IH.
Qed.
(** What the stack holds, less the last [k] names, is what remains with [k] pending. *)
Lemma stack_remaining words k : let s := foldl enter [] (filter nonempty words) in take (length s - k) s = remaining k (rev words).
Proof.
  revert k. induction words as [|w words IH] using rev_ind; intros k; [done|]. cbn zeta in *. rewrite rev_app_distr. cbn [rev app remaining]. rewrite filter_app.
  destruct (decide (w = [])) as [->|Hne]; [rewrite app_nil_r; apply IH|]. rewrite filter_cons_True by done. change (filter nonempty []) with (@nil (list Z)). rewrite foldl_app. cbn [foldl]. set (s := foldl enter [] (filter nonempty words)) in *. clearbody s.
  rewrite (bool_decide_false (w = [])) by done. cbn [orb]. unfold enter. change [46; 46] with dotdot. change [46] with dot. case_bool_decide as Hd; [apply IH|]. case_bool_decide as Hdd.
  - rewrite <- (IH (S k)). destruct s as [|x s' _] using rev_ind; [by rewrite !take_nil|]. rewrite removelast_last, length_app. cbn [length]. rewrite take_app_le by lia. f_equal. lia.
  - rewrite length_app. cbn [length]. destruct k as [|k].
    + rewrite <- (IH 0%nat). rewrite !Nat.sub_0_r, !take_ge by (rewrite ?length_app; simpl; lia). done.
    + rewrite <- (IH k). rewrite take_app_le by lia. f_equal. lia.
Qed.
Lemma resolve_remaining path words : words_of path words -> resolve path = remaining 0 (rev words).
Proof.
  intros Hw. rewrite (words_split path words Hw). rewrite <- (stack_remaining _ 0). cbn zeta. unfold resolve, components. destruct (split_slash path) as [t r]. cbn [fst snd].
  rewrite Nat.sub_0_r. by rewrite take_ge.
Qed.

(** C21: every path is in exactly one way a sequence of words without slashes between
    slashes, and vfs_normalize_path returns the text of the names that remain of them: a
    slash before each, empty words and "." ignored, each ".." cancelling the nearest name
    before it that is not cancelled already, and nothing at the root. The names that remain
    are found here from the end of the path with a counter, by the code with a stack from
    its beginning. It refuses a path exactly when the path has 4096 bytes or more or the
    text 4095; the array of component pointers is never exceeded; and normalising again
    changes nothing. *)
Theorem vfs_normalize_contract path :
  exists words, words_of path words /\ (forall other, words_of path other -> other = words) /\
  let names := remaining 0 (rev words) in
  Forall plain names /\
  vfs_normalize_path path =
    (if (Z.of_nat (length path) <? 4096) && (Z.of_nat (length (path_text names)) <? 4095) then Some (path_text names) else None) /\
  (forall p, vfs_normalize_path path = Some p -> vfs_normalize_path p = Some p) /\
  (Z.of_nat (length path) < 4096 -> forall k, Z.of_nat (length (foldl enter [] (take k (components path)))) <= VFS_PATH_MAX / 2).
Proof.
  pose proof (split_words path) as Hw. destruct (split_slash path) as [t r] eqn:Es. exists (t :: r). split; [done|]. split; [intros other Ho; rewrite (words_split path other Ho); by rewrite Es|].
  cbn zeta. rewrite <- (resolve_remaining path _ Hw). split; [apply resolve_plain|]. split; [apply normalize_ok|]. split; [intros p Hp; by apply (normalize_idem path)|].
  intros Hl k. pose proof (foldl_enter_length (take k (components path)) []) as Hf. pose proof (components_length path) as Hc.
  rewrite length_take in Hf. simpl in Hf. unfold VFS_PATH_MAX in *. change (4096 / 2) with 2048. lia.
Qed.
(** "/a/./b//../c/../../../d" *)
Definition demo_path : list Z := [47; 97; 47; 46; 47; 98; 47; 47; 46; 46; 47; 99; 47; 46; 46; 47; 46; 46; 47; 46; 46; 47; 100].
Definition demo_words : list (list Z) := [[]; [97]; [46]; [98]; []; [46; 46]; [99]; [46; 46]; [46; 46]; [46; 46]; [100]].
Lemma demo_words_ok : words_of demo_path demo_words.
Proof. split; [done|]. split; [|done]. repeat (apply Forall_cons; split; [apply (bool_decide_unpack _); by vm_compute|]). constructor. Qed.
Lemma vfs_normalize_contract_witness : vfs_normalize_path demo_path = Some [47; 100] /\ vfs_normalize_path [47; 100] = Some [47; 100].
Proof.
  destruct (vfs_normalize_contract demo_path) as (words & _ & U & _ & E & Hi & _). rewrite <- (U demo_words demo_words_ok) in E. assert (vfs_normalize_path demo_path = Some [47; 100]) as E' by exact E. split; [exact E'|exact (Hi _ E')].
Defined.
