(* ===== verification/Vfs.v ===== *)
(** * The virtual file system (fs/vfs/vfs.c)

    The tables of nodes, mounts, open files and directories and of file system types, and
    the operations on nodes, types and the mount table. A pointer into a table is an index,
    [None] for NULL; strings are their bytes, [None] for NULL as well. The operations of
    a file system are a record of functions that run on the same state, since they allocate
    nodes themselves; what a file system keeps for itself is [v_world]. A call that does not
    return gives [None]. *)
From S2P Require Import Prelude Memory VfsBase VfsPath.

Definition VFS_MAX_OPEN_DIRS : nat := 256.
Definition VFS_NODE_POOL_SIZE : nat := 1024.
Definition VFS_ERR_NXIO : Z := -6.
Definition VFS_ERR_FBIG : Z := -27.
Definition VFS_ERR_NOTEMPTY : Z := -39.

(** ** Structures (vfs.h) *)

Record vfs_stat_t := mk_stat {
  st_ino : Z; st_mode : Z; st_nlink : Z; st_uid : Z; st_gid : Z; st_size : Z; st_blksize : Z; st_blocks : Z;
  st_atime : Z; st_mtime : Z; st_ctime : Z; st_type : vfs_node_type;
}.
Record vfs_dirent := mk_dirent { d_ino : Z; d_type : vfs_node_type; d_name : list Z }.

(** The members the code never sets are left out. *)
Record vfs_node := mk_node {
  n_name : list Z; n_type : vfs_node_type; n_permissions : Z; n_uid : Z; n_gid : Z; n_inode : Z; n_size : Z;
  n_atime : Z; n_mtime : Z; n_ctime : Z; n_nlink : Z;
  n_mount : option nat; n_parent : option nat; n_fs_data : Z;
  n_ref_count : Z; n_dirty : bool;
}.
Definition zero_node : vfs_node := mk_node [] VFS_NODE_NONE 0 0 0 0 0 0 0 0 0 None None 0 0 false.
Definition node_set_ref (r : Z) (n : vfs_node) : vfs_node :=
  mk_node (n_name n) (n_type n) (n_permissions n) (n_uid n) (n_gid n) (n_inode n) (n_size n) (n_atime n) (n_mtime n)
    (n_ctime n) (n_nlink n) (n_mount n) (n_parent n) (n_fs_data n) r (n_dirty n).
Definition node_set_size (s : Z) (n : vfs_node) : vfs_node :=
  mk_node (n_name n) (n_type n) (n_permissions n) (n_uid n) (n_gid n) (n_inode n) s (n_atime n) (n_mtime n)
    (n_ctime n) (n_nlink n) (n_mount n) (n_parent n) (n_fs_data n) (n_ref_count n) (n_dirty n).
Definition node_set_dirty (d : bool) (n : vfs_node) : vfs_node :=
  mk_node (n_name n) (n_type n) (n_permissions n) (n_uid n) (n_gid n) (n_inode n) (n_size n) (n_atime n) (n_mtime n)
    (n_ctime n) (n_nlink n) (n_mount n) (n_parent n) (n_fs_data n) (n_ref_count n) d.

(** [m_ops] is the address of the operations, 0 for NULL. *)
Record vfs_mount_t := mk_mount {
  m_path : list Z; m_type : list Z; m_root : option nat; m_ops : Z; m_device : Z; m_fs_data : Z; m_readonly : bool; m_active : bool;
}.
Definition zero_mount : vfs_mount_t := mk_mount [] [] None 0 0 0 false false.
Definition mount_set_active (a : bool) (m : vfs_mount_t) : vfs_mount_t :=
  mk_mount (m_path m) (m_type m) (m_root m) (m_ops m) (m_device m) (m_fs_data m) (m_readonly m) a.
Definition mount_set_root (r : option nat) (m : vfs_mount_t) : vfs_mount_t :=
  mk_mount (m_path m) (m_type m) r (m_ops m) (m_device m) (m_fs_data m) (m_readonly m) (m_active m).
Definition mount_set_fs_data (d : Z) (m : vfs_mount_t) : vfs_mount_t :=
  mk_mount (m_path m) (m_type m) (m_root m) (m_ops m) (m_device m) d (m_readonly m) (m_active m).

Record vfs_file := mk_vfile { f_node : option nat; f_offset : Z; f_flags : Z; f_ref_count : Z; f_in_use : bool }.
Definition zero_file : vfs_file := mk_vfile None 0 0 0 false.
Definition file_set_offset (o : Z) (f : vfs_file) : vfs_file := mk_vfile (f_node f) o (f_flags f) (f_ref_count f) (f_in_use f).
Record vfs_dir := mk_vdir { d_node : option nat; d_position : Z; d_in_use : bool }.
Definition zero_dir : vfs_dir := mk_vdir None 0 false.
Record vfs_fstype := mk_fstype { t_name : list Z; t_ops : Z }.

(** ** The state *)

Record vfs (W : Type) := mk_vfs {
  v_root_mount : option nat;
  v_mounts : list vfs_mount_t;
  v_mount_count : Z;
  v_files : list vfs_file;
  v_dirs : list vfs_dir;
  (** The list of file system types, the last registered first, and the pool's count. *)
  v_types : list vfs_fstype;
  v_type_count : Z;
  v_error : Z;
  v_initialized : bool;
  v_dirent : vfs_dirent;
  v_nodes : list vfs_node;
  v_used : list bool;
  v_world : W;
}.
Arguments mk_vfs {W}.
Arguments v_root_mount {W}.
Arguments v_mounts {W}.
Arguments v_mount_count {W}.
Arguments v_files {W}.
Arguments v_dirs {W}.
Arguments v_types {W}.
Arguments v_type_count {W}.
Arguments v_error {W}.
Arguments v_initialized {W}.
Arguments v_dirent {W}.
Arguments v_nodes {W}.
Arguments v_used {W}.
Arguments v_world {W}.

(** ** The monad of operations: the state, and no result when a call does not return *)

Definition M (W A : Type) : Type := vfs W -> option (vfs W * A).
#[export] Instance M_ret {W} : MRet (M W) := fun A x v => Some (v, x).
#[export] Instance M_bind {W} : MBind (M W) := fun A B f m v => match m v with None => None | Some (v', x) => f x v' end.
Definition gets {W A} (f : vfs W -> A) : M W A := fun v => Some (v, f v).
Definition modify {W} (f : vfs W -> vfs W) : M W unit := fun v => Some (f v, tt).

(** The operations of a file system ([vfs_ops_t]), [None] for NULL; those the virtual file
    system never calls are left out. *)
Record vfs_ops (W : Type) := mk_ops {
  op_open : option (nat -> Z -> M W Z);
  op_close : option (nat -> M W Z);
  (** The node, the size and the offset; the result and the bytes stored. *)
  op_read : option (nat -> Z -> Z -> M W (Z * list Z));
  op_write : option (nat -> list Z -> Z -> M W Z);
  op_truncate : option (nat -> Z -> M W Z);
  op_sync : option (nat -> M W Z);
  op_readdir : option (nat -> Z -> M W (option vfs_dirent));
  op_finddir : option (nat -> list Z -> M W (option nat));
  op_mkdir : option (nat -> list Z -> Z -> M W Z);
  op_rmdir : option (nat -> list Z -> M W Z);
  op_create : option (nat -> list Z -> Z -> M W Z);
  op_unlink : option (nat -> list Z -> M W Z);
  op_rename : option (nat -> list Z -> nat -> list Z -> M W Z);
  op_stat : option (nat -> M W (Z * vfs_stat_t));
  op_mount : option (nat -> Z -> M W Z);
  op_unmount : option (nat -> M W Z);
}.
Arguments op_open {W}.
Arguments op_close {W}.
Arguments op_read {W}.
Arguments op_write {W}.
Arguments op_truncate {W}.
Arguments op_sync {W}.
Arguments op_readdir {W}.
Arguments op_finddir {W}.
Arguments op_mkdir {W}.
Arguments op_rmdir {W}.
Arguments op_create {W}.
Arguments op_unlink {W}.
Arguments op_rename {W}.
Arguments op_stat {W}.
Arguments op_mount {W}.
Arguments op_unmount {W}.
Definition no_ops {W} : vfs_ops W := mk_ops W None None None None None None None None None None None None None None None None.

(** The first index of an element with a property. *)
Fixpoint first_index {A} (P : A -> bool) (l : list A) : option nat :=
  match l with
  | [] => None
  | x :: l' => if P x then Some 0%nat else S <$> first_index P l'
  end.
Definition flag (flags f : Z) : bool := negb (Z.land flags f =? 0).

Section State.
Context {W : Type}.
Implicit Types v : vfs W.

Definition put_root_mount (r : option nat) v : vfs W :=
  mk_vfs r (v_mounts v) (v_mount_count v) (v_files v) (v_dirs v) (v_types v) (v_type_count v) (v_error v)
    (v_initialized v) (v_dirent v) (v_nodes v) (v_used v) (v_world v).
Definition put_mounts (l : list vfs_mount_t) (n : Z) v : vfs W :=
  mk_vfs (v_root_mount v) l n (v_files v) (v_dirs v) (v_types v) (v_type_count v) (v_error v)
    (v_initialized v) (v_dirent v) (v_nodes v) (v_used v) (v_world v).
Definition put_files (l : list vfs_file) v : vfs W :=
  mk_vfs (v_root_mount v) (v_mounts v) (v_mount_count v) l (v_dirs v) (v_types v) (v_type_count v) (v_error v)
    (v_initialized v) (v_dirent v) (v_nodes v) (v_used v) (v_world v).
Definition put_dirs (l : list vfs_dir) v : vfs W :=
  mk_vfs (v_root_mount v) (v_mounts v) (v_mount_count v) (v_files v) l (v_types v) (v_type_count v) (v_error v)
    (v_initialized v) (v_dirent v) (v_nodes v) (v_used v) (v_world v).
Definition put_types (l : list vfs_fstype) (n : Z) v : vfs W :=
  mk_vfs (v_root_mount v) (v_mounts v) (v_mount_count v) (v_files v) (v_dirs v) l n (v_error v)
    (v_initialized v) (v_dirent v) (v_nodes v) (v_used v) (v_world v).
Definition put_error (e : Z) v : vfs W :=
  mk_vfs (v_root_mount v) (v_mounts v) (v_mount_count v) (v_files v) (v_dirs v) (v_types v) (v_type_count v) e
    (v_initialized v) (v_dirent v) (v_nodes v) (v_used v) (v_world v).
Definition put_dirent (d : vfs_dirent) v : vfs W :=
  mk_vfs (v_root_mount v) (v_mounts v) (v_mount_count v) (v_files v) (v_dirs v) (v_types v) (v_type_count v) (v_error v)
    (v_initialized v) d (v_nodes v) (v_used v) (v_world v).
Definition put_nodes (l : list vfs_node) v : vfs W :=
  mk_vfs (v_root_mount v) (v_mounts v) (v_mount_count v) (v_files v) (v_dirs v) (v_types v) (v_type_count v) (v_error v)
    (v_initialized v) (v_dirent v) l (v_used v) (v_world v).
Definition put_used (l : list bool) v : vfs W :=
  mk_vfs (v_root_mount v) (v_mounts v) (v_mount_count v) (v_files v) (v_dirs v) (v_types v) (v_type_count v) (v_error v)
    (v_initialized v) (v_dirent v) (v_nodes v) l (v_world v).
Definition put_world (w : W) v : vfs W :=
  mk_vfs (v_root_mount v) (v_mounts v) (v_mount_count v) (v_files v) (v_dirs v) (v_types v) (v_type_count v) (v_error v)
    (v_initialized v) (v_dirent v) (v_nodes v) (v_used v) w.

Definition node_at v (i : nat) : vfs_node := nth i (v_nodes v) zero_node.
Definition mount_at v (i : nat) : vfs_mount_t := nth i (v_mounts v) zero_mount.
Definition file_at v (i : nat) : vfs_file := nth i (v_files v) zero_file.
Definition dir_at v (i : nat) : vfs_dir := nth i (v_dirs v) zero_dir.
Definition set_node (i : nat) (n : vfs_node) v : vfs W := put_nodes (<[i := n]> (v_nodes v)) v.
Definition set_mount (i : nat) (m : vfs_mount_t) v : vfs W := put_mounts (<[i := m]> (v_mounts v)) (v_mount_count v) v.
Definition set_file (i : nat) (f : vfs_file) v : vfs W := put_files (<[i := f]> (v_files v)) v.
Definition set_dir (i : nat) (d : vfs_dir) v : vfs W := put_dirs (<[i := d]> (v_dirs v)) v.

(** ** Errors *)

Definition vfs_set_error (e : Z) : M W unit := modify (put_error e).
Definition vfs_get_error : M W Z := gets v_error.
(** [vfs_set_error(e); return e] and the same with NULL. *)
Definition fail (e : Z) : M W Z := vfs_set_error e;; mret e.
Definition fail_null {A} (e : Z) : M W (option A) := vfs_set_error e;; mret None.

(** ** Nodes *)

Definition vfs_alloc_node : M W (option nat) :=
  i ← gets (fun v => first_index negb (v_used v));
  match i with
  | None => mret None
  | Some i =>
      modify (fun v => put_used (<[i := true]> (v_used v)) v);;
      modify (set_node i (node_set_ref 1 zero_node));;
      mret (Some i)
  end.
Definition vfs_free_node (i : nat) : M W unit := modify (fun v => put_used (<[i := false]> (v_used v)) v).
Definition vfs_ref_node (i : nat) : M W unit :=
  modify (fun v => set_node i (node_set_ref (u32 (n_ref_count (node_at v i) + 1)) (node_at v i)) v).
Definition vfs_unref_node (i : nat) : M W unit :=
  modify (fun v => let n := node_at v i in
                   if 0 <? n_ref_count n then set_node i (node_set_ref (n_ref_count n - 1) n) v else v);;
  n ← gets (fun v => node_at v i);
  if n_ref_count n =? 0 then vfs_free_node i else mret tt.

(** ** File system types *)

Definition vfs_find_fstype (name : list Z) : M W (option vfs_fstype) :=
  gets (fun v => head (filter (fun t => t_name t = name) (v_types v))).
Definition vfs_register_fs (name : option (list Z)) (ops : Z) : M W Z :=
  match name with
  | None => mret VFS_ERR_INVAL
  | Some name =>
      if ops =? 0 then mret VFS_ERR_INVAL
      else
        old ← vfs_find_fstype name;
        match old with
        | Some _ => mret VFS_ERR_EXIST
        | None =>
            n ← gets v_type_count;
            if 16 <=? n then mret VFS_ERR_NOMEM
            else modify (fun v => put_types (mk_fstype (take 31 name) ops :: v_types v) (n + 1) v);; mret VFS_OK
        end
  end.
(** The first type of the name is taken out of the list. *)
Fixpoint drop_fstype (name : list Z) (l : list vfs_fstype) : option (list vfs_fstype) :=
  match l with
  | [] => None
  | t :: l' => if bool_decide (t_name t = name) then Some l' else r ← drop_fstype name l'; Some (t :: r)
  end.
Definition vfs_unregister_fs (name : option (list Z)) : M W Z :=
  match name with
  | None => mret VFS_ERR_INVAL
  | Some name =>
      l ← gets (fun v => drop_fstype name (v_types v));
      match l with
      | Some l => modify (fun v => put_types l (v_type_count v) v);; mret VFS_OK
      | None => mret VFS_ERR_NOENT
      end
  end.

(** ** Mount points *)

(** The mount is a prefix of the path that ends where a name ends. *)
Definition mount_covers (m : vfs_mount_t) (normalized : list Z) : bool :=
  let n := length (m_path m) in
  bool_decide (take n normalized = m_path m) &&
  ((nth n normalized 0 =? 0) || (nth n normalized 0 =? slash) || (n =? 1)%nat).
Fixpoint best_mount (normalized : list Z) (l : list vfs_mount_t) (i best_len : nat) (best : option nat) : option nat :=
  match l with
  | [] => best
  | m :: l' =>
      if m_active m && mount_covers m normalized && (best_len <? length (m_path m))%nat
      then best_mount normalized l' (S i) (length (m_path m)) (Some i)
      else best_mount normalized l' (S i) best_len best
  end.
Definition vfs_get_mount (path : option (list Z)) : M W (option nat) :=
  match path with
  | None => mret None
  | Some path =>
      match vfs_normalize_path path with
      | None => mret None
      | Some normalized => gets (fun v => best_mount normalized (take (Z.to_nat (v_mount_count v)) (v_mounts v)) 0 0 None)
      end
  end.

Definition is_mounted (path : list Z) (m : vfs_mount_t) : bool := m_active m && bool_decide (m_path m = path).
End State.
