(* ===== verification/VfsOps.v ===== *)
(** * The virtual file system: files, directories and paths (fs/vfs/vfs.c)

    Mounting, path resolution and the operations on files, directories and names, against
    the operations of the mounted file systems. [ops_at] is the table of operations at an
    address. *)
From Stdlib Require Import String.
From S2P Require Import Prelude Memory VfsBase VfsPath Vfs.
Open Scope list_scope.

Definition vfs_strerror (error : Z) : string :=
  if error =? VFS_OK then "Success"%string
  else if error =? VFS_ERR_NOENT then "No such file or directory"%string
  else if error =? VFS_ERR_IO then "I/O error"%string
  else if error =? VFS_ERR_NXIO then "No such device or address"%string
  else if error =? VFS_ERR_BADF then "Bad file descriptor"%string
  else if error =? VFS_ERR_NOMEM then "Out of memory"%string
  else if error =? VFS_ERR_ACCES then "Permission denied"%string
  else if error =? VFS_ERR_EXIST then "File exists"%string
  else if error =? VFS_ERR_NOTDIR then "Not a directory"%string
  else if error =? VFS_ERR_ISDIR then "Is a directory"%string
  else if error =? VFS_ERR_INVAL then "Invalid argument"%string
  else if error =? VFS_ERR_NFILE then "Too many open files"%string
  else if error =? VFS_ERR_FBIG then "File too large"%string
  else if error =? VFS_ERR_NOSPC then "No space left on device"%string
  else if error =? VFS_ERR_ROFS then "Read-only filesystem"%string
  else if error =? VFS_ERR_NAMETOOLONG then "Filename too long"%string
  else if error =? VFS_ERR_NOTEMPTY then "Directory not empty"%string
  else if error =? VFS_ERR_NOSYS then "Function not implemented"%string
  else if error =? VFS_ERR_BUSY then "Device or resource busy"%string
  else "Unknown error"%string.

(** [(int64_t)]. *)
Definition to_int64 (z : Z) : Z := let y := u64 z in if y <? 2 ^ 63 then y else y - 2 ^ 64.

Section Ops.
Context {W : Type} (ops_at : Z -> vfs_ops W).
Implicit Types v : vfs W.

(** An operation of the mount a pointer points to; [None] when a pointer on the way is NULL. *)
Definition mount_op {A} (sel : vfs_ops W -> option A) (mount : option nat) v : option A :=
  i ← mount;
  let ops := m_ops (mount_at v i) in
  if ops =? 0 then None else sel (ops_at ops).
Definition is_readonly (mount : option nat) v : bool := match mount with Some i => m_readonly (mount_at v i) | None => false end.
Definition is_dir_node (i : nat) v : bool := bool_decide (n_type (node_at v i) = VFS_NODE_DIRECTORY).

(** ** Mounting *)

Definition vfs_mount (path type : option (list Z)) (device : Z) : M W Z :=
  match path, type with
  | Some path, Some type =>
      match vfs_normalize_path path with
      | None => fail VFS_ERR_NAMETOOLONG
      | Some normalized =>
          fstype ← vfs_find_fstype type;
          match fstype with
          | None => fail VFS_ERR_NOENT
          | Some fstype =>
              busy ← gets (fun v => existsb (is_mounted normalized) (take (Z.to_nat (v_mount_count v)) (v_mounts v)));
              if busy : bool then fail VFS_ERR_BUSY
              else
                slot ← gets (fun v => first_index (fun m => negb (m_active m)) (v_mounts v));
                match slot with
                | None => fail VFS_ERR_NOMEM
                | Some i =>
                    modify (set_mount i (mk_mount normalized (take 31 type) None (t_ops fstype) device 0 false true));;
                    op ← gets (mount_op op_mount (Some i));
                    result ← (match op with Some f => f i device | None => mret VFS_OK end);
                    if negb (result =? VFS_OK) then
                      modify (fun v => set_mount i (mount_set_active false (mount_at v i)) v);;
                      fail result
                    else
                      modify (fun v => put_mounts (v_mounts v) (u32 (v_mount_count v + 1)) v);;
                      (if bool_decide (normalized = [slash]) then modify (put_root_mount (Some i)) else mret tt);;
                      mret VFS_OK
                end
          end
      end
  | _, _ => fail VFS_ERR_INVAL
  end.

(** A file on the mount is open. *)
Definition file_on (i : nat) v (f : vfs_file) : bool :=
  f_in_use f && match f_node f with Some n => bool_decide (n_mount (node_at v n) = Some i) | None => false end.
Definition vfs_unmount (path : option (list Z)) : M W Z :=
  match path with
  | None => fail VFS_ERR_INVAL
  | Some path =>
      match vfs_normalize_path path with
      | None => fail VFS_ERR_NAMETOOLONG
      | Some normalized =>
          slot ← gets (fun v => first_index (is_mounted normalized) (v_mounts v));
          match slot with
          | None => fail VFS_ERR_NOENT
          | Some i =>
              busy ← gets (fun v => existsb (file_on i v) (v_files v));
              if busy : bool then fail VFS_ERR_BUSY
              else
                op ← gets (mount_op op_unmount (Some i));
                result ← (match op with Some f => f i | None => mret VFS_OK end);
                if negb (result =? VFS_OK) then fail result
                else
                  modify (fun v => if bool_decide (v_root_mount v = Some i) then put_root_mount None v else v);;
                  modify (fun v => set_mount i (mount_set_active false (mount_at v i)) v);;
                  modify (fun v => put_mounts (v_mounts v) (u32 (v_mount_count v - 1)) v);;
                  mret VFS_OK
          end
      end
  end.

(** ** Path resolution *)

(** From a node on, which is held, through the components of the rest of the path. *)
Fixpoint walk (mount : nat) (tokens : list (list Z)) (node : nat) : M W (option nat) :=
  match tokens with
  | [] => mret (Some node)
  | t :: rest =>
      dir ← gets (is_dir_node node);
      if negb dir then vfs_unref_node node;; fail_null VFS_ERR_NOTDIR
      else
        op ← gets (mount_op op_finddir (Some mount));
        next ← (match op with Some f => f node t | None => mret None end);
        vfs_unref_node node;;
        match next with
        | None => fail_null VFS_ERR_NOENT
        | Some next => walk mount rest next
        end
  end.
Definition vfs_lookup (path : option (list Z)) : M W (option nat) :=
  match path with
  | None => fail_null VFS_ERR_INVAL
  | Some path =>
      match vfs_normalize_path path with
      | None => fail_null VFS_ERR_NAMETOOLONG
      | Some normalized =>
          mount ← vfs_get_mount (Some normalized);
          match mount with
          | None => fail_null VFS_ERR_NOENT
          | Some i =>
              m ← gets (fun v => mount_at v i);
              match m_root m with
              | None => fail_null VFS_ERR_NOENT
              | Some node =>
                  if bool_decide (normalized = [slash]) || bool_decide (normalized = m_path m)
                  then vfs_ref_node node;; mret (Some node)
                  else
                    let relative := drop (length (m_path m)) normalized in
                    let relative := match relative with c :: r => if c =? slash then r else relative | [] => [] end in
                    match relative with
                    | [] => vfs_ref_node node;; mret (Some node)
                    | _ => vfs_ref_node node;; walk i (components relative) node
                    end
              end
          end
      end
  end.

(** ** Files *)

Definition vfs_open (path : option (list Z)) (flags : Z) : M W (option nat) :=
  match path with
  | None => fail_null VFS_ERR_INVAL
  | Some p =>
      found ← vfs_lookup path;
      (** The node, or the error that ended the creation. *)
      node ← (match found with
              | Some n => mret (inl (Some n))
              | None =>
                  if flag flags VFS_O_CREAT then
                    parent ← vfs_lookup (Some (vfs_parent_path p));
                    match parent with
                    | None => mret (inr VFS_ERR_NOENT)
                    | Some pn =>
                        op ← gets (fun v => mount_op op_create (n_mount (node_at v pn)) v);
                        match op with
                        | None => vfs_unref_node pn;; mret (inr VFS_ERR_NOSYS)
                        | Some create =>
                            result ← create pn (vfs_basename p) (Z.lor VFS_S_IRUSR VFS_S_IWUSR);
                            vfs_unref_node pn;;
                            if negb (result =? VFS_OK) then mret (inr result)
                            else n ← vfs_lookup path; mret (inl n)
                        end
                    end
                  else mret (inl None)
              end : M W (option nat + Z));
      match node with
      | inr e => fail_null e
      | inl None => fail_null VFS_ERR_NOENT
      | inl (Some n) =>
          dir ← gets (is_dir_node n);
          if dir && negb (flag flags VFS_O_DIRECTORY) then vfs_unref_node n;; fail_null VFS_ERR_ISDIR
          else if flag flags VFS_O_CREAT && flag flags VFS_O_EXCL then vfs_unref_node n;; fail_null VFS_ERR_EXIST
          else
            slot ← gets (fun v => first_index (fun f => negb (f_in_use f)) (v_files v));
            match slot with
            | None => vfs_unref_node n;; fail_null VFS_ERR_NFILE
            | Some i =>
                modify (set_file i (mk_vfile (Some n) 0 flags 1 true));;
                op ← gets (fun v => mount_op op_open (n_mount (node_at v n)) v);
                result ← (match op with Some f => f n flags | None => mret VFS_OK end);
                if negb (result =? VFS_OK) then
                  modify (fun v => let f := file_at v i in set_file i (mk_vfile (f_node f) (f_offset f) (f_flags f) (f_ref_count f) false) v);;
                  vfs_unref_node n;;
                  fail_null result
                else
                  (if flag flags VFS_O_TRUNC && flag flags (Z.lor VFS_O_WRONLY VFS_O_RDWR) then
                     op ← gets (fun v => mount_op op_truncate (n_mount (node_at v n)) v);
                     (match op with Some f => f n 0;; mret tt | None => mret tt end);;
                     modify (fun v => set_node n (node_set_size 0 (node_at v n)) v)
                   else mret tt);;
                  (if flag flags VFS_O_APPEND
                   then modify (fun v => set_file i (file_set_offset (n_size (node_at v n)) (file_at v i)) v) else mret tt);;
                  mret (Some i)
            end
      end
  end.

Definition vfs_close (file : option nat) : M W Z :=
  match file with
  | None => fail VFS_ERR_BADF
  | Some i =>
      f ← gets (fun v => file_at v i);
      if negb (f_in_use f) then fail VFS_ERR_BADF
      else if 1 <? f_ref_count f then
        modify (set_file i (mk_vfile (f_node f) (f_offset f) (f_flags f) (f_ref_count f - 1) true));; mret VFS_OK
      else
        result ← (match f_node f with
                  | None => mret VFS_OK
                  | Some n =>
                      op ← gets (fun v => mount_op op_close (n_mount (node_at v n)) v);
                      result ← (match op with Some c => c n | None => mret VFS_OK end);
                      vfs_unref_node n;;
                      mret result
                  end);
        modify (fun v => let f := file_at v i in set_file i (mk_vfile None (f_offset f) (f_flags f) (f_ref_count f) false) v);;
        mret result
  end.

(** [buf] is the address of the buffer; the result and the bytes stored there. *)
Definition vfs_read (file : option nat) (buf size : Z) : M W (Z * list Z) :=
  let refuse e := r ← fail e; mret (r, []) in
  match file with
  | None => refuse VFS_ERR_INVAL
  | Some i =>
      f ← gets (fun v => file_at v i);
      if negb (f_in_use f) || (buf =? 0) then refuse VFS_ERR_INVAL
      else
        match f_node f with
        | None => refuse VFS_ERR_BADF
        | Some n =>
            node ← gets (fun v => node_at v n);
            if Z.land (f_flags f) VFS_O_RDWR =? VFS_O_WRONLY then refuse VFS_ERR_ACCES
            else if bool_decide (n_type node = VFS_NODE_DIRECTORY) then refuse VFS_ERR_ISDIR
            else if n_size node <=? f_offset f then mret (0, [])
            else
              let size := if n_size node <? u64 (f_offset f + size) then n_size node - f_offset f else size in
              op ← gets (mount_op op_read (n_mount node));
              match op with
              | None => refuse VFS_ERR_NOSYS
              | Some read =>
                  '(r, data) ← read n size (f_offset f);
                  (if 0 <? r then modify (fun v => set_file i (file_set_offset (u64 (f_offset (file_at v i) + r)) (file_at v i)) v) else mret tt);;
                  mret (r, data)
              end
        end
  end.

(** [buf]: the bytes to write, [None] for NULL. *)
Definition vfs_write (file : option nat) (buf : option (list Z)) : M W Z :=
  match file, buf with
  | Some i, Some data =>
      f ← gets (fun v => file_at v i);
      if negb (f_in_use f) then fail VFS_ERR_INVAL
      else
        match f_node f with
        | None => fail VFS_ERR_BADF
        | Some n =>
            node ← gets (fun v => node_at v n);
            readonly ← gets (is_readonly (n_mount node));
            if Z.land (f_flags f) (Z.lor VFS_O_WRONLY VFS_O_RDWR) =? 0 then fail VFS_ERR_ACCES
            else if bool_decide (n_type node = VFS_NODE_DIRECTORY) then fail VFS_ERR_ISDIR
            else if readonly : bool then fail VFS_ERR_ROFS
            else
              (if flag (f_flags f) VFS_O_APPEND then modify (set_file i (file_set_offset (n_size node) f)) else mret tt);;
              op ← gets (mount_op op_write (n_mount node));
              match op with
              | None => fail VFS_ERR_NOSYS
              | Some write =>
                  off ← gets (fun v => f_offset (file_at v i));
                  r ← write n data off;
                  (if 0 <? r then
                     modify (fun v => set_file i (file_set_offset (u64 (f_offset (file_at v i) + r)) (file_at v i)) v);;
                     modify (fun v => let o := f_offset (file_at v i) in
                                      if n_size (node_at v n) <? o then set_node n (node_set_size o (node_at v n)) v else v);;
                     modify (fun v => set_node n (node_set_dirty true (node_at v n)) v)
                   else mret tt);;
                  mret r
              end
        end
  | _, _ => fail VFS_ERR_INVAL
  end.

Definition vfs_seek (file : option nat) (offset whence : Z) : M W Z :=
  match file with
  | None => fail VFS_ERR_BADF
  | Some i =>
      f ← gets (fun v => file_at v i);
      if negb (f_in_use f) then fail VFS_ERR_BADF
      else
        match f_node f with
        | None => fail VFS_ERR_BADF
        | Some n =>
            size ← gets (fun v => n_size (node_at v n));
            let target := if whence =? VFS_SEEK_SET then Some offset
                          else if whence =? VFS_SEEK_CUR then Some (to_int64 (f_offset f + offset))
                          else if whence =? VFS_SEEK_END then Some (to_int64 (size + offset))
                          else None in
            match target with
            | None => fail VFS_ERR_INVAL
            | Some o => if o <? 0 then fail VFS_ERR_INVAL else modify (set_file i (file_set_offset o f));; mret o
            end
        end
  end.
Definition vfs_tell (file : option nat) : M W Z :=
  match file with
  | None => fail VFS_ERR_BADF
  | Some i => f ← gets (fun v => file_at v i); if negb (f_in_use f) then fail VFS_ERR_BADF else mret (to_int64 (f_offset f))
  end.

(** The node of an open file. *)
Definition open_node (file : option nat) v : option nat :=
  i ← file; if f_in_use (file_at v i) then f_node (file_at v i) else None.
Definition vfs_truncate (file : option nat) (size : Z) : M W Z :=
  node ← gets (open_node file);
  match node with
  | None => fail VFS_ERR_BADF
  | Some n =>
      readonly ← gets (fun v => is_readonly (n_mount (node_at v n)) v);
      op ← gets (fun v => mount_op op_truncate (n_mount (node_at v n)) v);
      if readonly : bool then fail VFS_ERR_ROFS else match op with None => fail VFS_ERR_NOSYS | Some f => f n size end
  end.
Definition vfs_sync (file : option nat) : M W Z :=
  node ← gets (open_node file);
  match node with
  | None => fail VFS_ERR_BADF
  | Some n =>
      op ← gets (fun v => mount_op op_sync (n_mount (node_at v n)) v);
      match op with None => mret VFS_OK | Some f => f n end
  end.

(** ** Directories *)

Definition vfs_opendir (path : option (list Z)) : M W (option nat) :=
  match path with
  | None => fail_null VFS_ERR_INVAL
  | Some _ =>
      node ← vfs_lookup path;
      match node with
      | None => mret None
      | Some n =>
          dir ← gets (is_dir_node n);
          if negb dir then vfs_unref_node n;; fail_null VFS_ERR_NOTDIR
          else
            slot ← gets (fun v => first_index (fun d => negb (d_in_use d)) (v_dirs v));
            match slot with
            | None => vfs_unref_node n;; fail_null VFS_ERR_NFILE
            | Some i => modify (set_dir i (mk_vdir (Some n) 0 true));; mret (Some i)
            end
      end
  end.
Definition vfs_readdir (dir : option nat) : M W (option vfs_dirent) :=
  node ← gets (fun v => i ← dir; if d_in_use (dir_at v i) then n ← d_node (dir_at v i); Some (i, n) else None);
  match node with
  | None => fail_null VFS_ERR_BADF
  | Some (i, n) =>
      op ← gets (fun v => mount_op op_readdir (n_mount (node_at v n)) v);
      match op with
      | None => fail_null VFS_ERR_NOSYS
      | Some readdir =>
          position ← gets (fun v => d_position (dir_at v i));
          entry ← readdir n position;
          match entry with
          | None => mret None
          | Some e =>
              modify (put_dirent e);;
              modify (fun v => let d := dir_at v i in set_dir i (mk_vdir (d_node d) (u32 (d_position d + 1)) (d_in_use d)) v);;
              mret (Some e)
          end
      end
  end.
Definition vfs_closedir (dir : option nat) : M W Z :=
  match dir with
  | None => fail VFS_ERR_BADF
  | Some i =>
      d ← gets (fun v => dir_at v i);
      if negb (d_in_use d) then fail VFS_ERR_BADF
      else
        (match d_node d with Some n => vfs_unref_node n | None => mret tt end);;
        modify (set_dir i (mk_vdir None (d_position d) false));;
        mret VFS_OK
  end.

(** ** Names *)

(** The end of the operations that change a directory: the operation of the parent's file
    system on the parent, which is let go in every case. *)
Definition on_parent {A} (sel : vfs_ops W -> option A) (call : A -> M W Z) (pn : nat) : M W Z :=
  op ← gets (fun v => mount_op sel (n_mount (node_at v pn)) v);
  match op with
  | None => vfs_unref_node pn;; fail VFS_ERR_NOSYS
  | Some f =>
      readonly ← gets (fun v => is_readonly (n_mount (node_at v pn)) v);
      if readonly : bool then vfs_unref_node pn;; fail VFS_ERR_ROFS
      else result ← call f; vfs_unref_node pn;; mret result
  end.

(** vfs_mkdir and vfs_create have the same steps. *)
Definition make_entry (sel : vfs_ops W -> option (nat -> list Z -> Z -> M W Z)) (path : option (list Z)) (mode : Z) : M W Z :=
  match path with
  | None => fail VFS_ERR_INVAL
  | Some p =>
      found ← vfs_lookup path;
      match found with
      | Some _ => fail VFS_ERR_EXIST
      | None =>
          parent ← vfs_lookup (Some (vfs_parent_path p));
          match parent with
          | None => fail VFS_ERR_NOENT
          | Some pn =>
              dir ← gets (is_dir_node pn);
              if negb dir then vfs_unref_node pn;; fail VFS_ERR_NOTDIR
              else on_parent sel (fun f => f pn (vfs_basename p) mode) pn
          end
      end
  end.
Definition vfs_mkdir (path : option (list Z)) (mode : Z) : M W Z := make_entry op_mkdir path mode.
Definition vfs_create (path : option (list Z)) (mode : Z) : M W Z := make_entry op_create path mode.

Definition vfs_rmdir (path : option (list Z)) : M W Z :=
  match path with
  | None => fail VFS_ERR_INVAL
  | Some p =>
      if bool_decide (p = [slash]) then fail VFS_ERR_BUSY
      else
        parent ← vfs_lookup (Some (vfs_parent_path p));
        match parent with
        | None => fail VFS_ERR_NOENT
        | Some pn => on_parent op_rmdir (fun f => f pn (vfs_basename p)) pn
        end
  end.
Definition vfs_unlink (path : option (list Z)) : M W Z :=
  match path with
  | None => fail VFS_ERR_INVAL
  | Some p =>
      found ← vfs_lookup path;
      match found with
      | None => fail VFS_ERR_NOENT
      | Some n =>
          dir ← gets (is_dir_node n);
          vfs_unref_node n;;
          if dir : bool then fail VFS_ERR_ISDIR
          else
            parent ← vfs_lookup (Some (vfs_parent_path p));
            match parent with
            | None => fail VFS_ERR_NOENT
            | Some pn => on_parent op_unlink (fun f => f pn (vfs_basename p)) pn
            end
      end
  end.
Definition vfs_rename (oldpath newpath : option (list Z)) : M W Z :=
  match oldpath, newpath with
  | Some o, Some n =>
      old_parent ← vfs_lookup (Some (vfs_parent_path o));
      match old_parent with
      | None => fail VFS_ERR_NOENT
      | Some op =>
          new_parent ← vfs_lookup (Some (vfs_parent_path n));
          match new_parent with
          | None => vfs_unref_node op;; fail VFS_ERR_NOENT
          | Some np =>
              let release e := vfs_unref_node op;; vfs_unref_node np;; fail e in
              om ← gets (fun v => n_mount (node_at v op));
              nm ← gets (fun v => n_mount (node_at v np));
              if negb (bool_decide (om = nm)) then release VFS_ERR_INVAL
              else
                f ← gets (mount_op op_rename om);
                readonly ← gets (is_readonly om);
                match f with
                | None => release VFS_ERR_NOSYS
                | Some f =>
                    if readonly : bool then release VFS_ERR_ROFS
                    else
                      result ← f op (vfs_basename o) np (vfs_basename n);
                      vfs_unref_node op;; vfs_unref_node np;; mret result
                end
          end
      end
  | _, _ => fail VFS_ERR_INVAL
  end.

Definition zero_stat : vfs_stat_t := mk_stat 0 0 0 0 0 0 0 0 0 0 0 VFS_NODE_NONE.
(** The members from the node; the sizes in blocks stay 0. *)
Definition stat_of_node (n : vfs_node) : vfs_stat_t :=
  mk_stat (n_inode n) (n_permissions n) (n_nlink n) (n_uid n) (n_gid n) (n_size n) 0 0 (n_atime n) (n_mtime n) (n_ctime n) (n_type n).
Definition stat_node (n : nat) : M W (Z * vfs_stat_t) :=
  op ← gets (fun v => mount_op op_stat (n_mount (node_at v n)) v);
  match op with
  | Some f => f n
  | None => s ← gets (fun v => stat_of_node (node_at v n)); mret (VFS_OK, s)
  end.
(** The result and what is stored at [stat], an address. *)
Definition vfs_stat (path : option (list Z)) (stat : Z) : M W (Z * vfs_stat_t) :=
  match path with
  | None => r ← fail VFS_ERR_INVAL; mret (r, zero_stat)
  | Some _ =>
      if stat =? 0 then r ← fail VFS_ERR_INVAL; mret (r, zero_stat)
      else
        node ← vfs_lookup path;
        match node with
        | None => mret (VFS_ERR_NOENT, zero_stat)
        | Some n => r ← stat_node n; vfs_unref_node n;; mret r
        end
  end.
Definition vfs_fstat (file : option nat) (stat : Z) : M W (Z * vfs_stat_t) :=
  let refuse e := r ← fail e; mret (r, zero_stat) in
  match file with
  | None => refuse VFS_ERR_INVAL
  | Some i =>
      f ← gets (fun v => file_at v i);
      if negb (f_in_use f) || (stat =? 0) then refuse VFS_ERR_INVAL
      else match f_node f with None => refuse VFS_ERR_BADF | Some n => stat_node n end
  end.

(** A question about the node of a path. *)
Definition ask_node (path : option (list Z)) (test : vfs_node -> bool) : M W bool :=
  node ← vfs_lookup path;
  match node with
  | None => mret false
  | Some n => b ← gets (fun v => test (node_at v n)); vfs_unref_node n;; mret b
  end.
Definition vfs_exists (path : option (list Z)) : M W bool := ask_node path (fun _ => true).
Definition vfs_is_directory (path : option (list Z)) : M W bool := ask_node path (fun n => bool_decide (n_type n = VFS_NODE_DIRECTORY)).
Definition vfs_is_file (path : option (list Z)) : M W bool := ask_node path (fun n => bool_decide (n_type n = VFS_NODE_FILE)).

(** ** Initialisation *)

(** The count of the pool of types and the directory entry are static in functions and stay. *)
Definition cleared_tables v : vfs W :=
  mk_vfs None (repeat zero_mount (Z.to_nat VFS_MAX_MOUNTS)) 0 (repeat zero_file (Z.to_nat VFS_MAX_OPEN_FILES))
    (repeat zero_dir VFS_MAX_OPEN_DIRS) [] (v_type_count v) VFS_OK true (v_dirent v)
    (repeat zero_node VFS_NODE_POOL_SIZE) (repeat false VFS_NODE_POOL_SIZE) (v_world v).
Definition vfs_init : M W Z := modify cleared_tables;; mret VFS_OK.
End Ops.
