(* ===== verification/FatVfs.v ===== *)
(** * FAT32 under the virtual file system (fs/fat32/fat32.c)

    The callbacks of fat32_vfs_ops, as operations on the state of the virtual file system
    whose world holds the mounted volumes, the file handles and the pages. A pointer to a
    volume or a handle is the address of its page; following one that points to nothing
    gives no result. *)
From S2P Require Import Prelude Memory PageAlloc Ring Chain Block VfsBase Fat FatName FatDir VfsPath Vfs VfsOps.

Definition VMM_KERNEL_PHYS_MAP : Z := 0xFFFF800000000000.

(** [fat32_file_t], less the members that are only cleared. *)
Record fat32_file := mk_ffile {
  ff_fs : Z; ff_entry : list Z; ff_first_cluster : Z; ff_current_cluster : Z; ff_is_dir : bool;
}.
Definition ff_set_entry (e : list Z) (f : fat32_file) : fat32_file :=
  mk_ffile (ff_fs f) e (ff_first_cluster f) (ff_current_cluster f) (ff_is_dir f).

(** The volumes, the handles and the devices by address, and the page allocator. *)
Record fat_world (D P : Type) := mk_world {
  w_volumes : Z -> option (fat32_fs D);
  w_handles : Z -> option fat32_file;
  w_devices : Z -> D;
  w_pages : P;
}.
Arguments mk_world {D P}.
Arguments w_volumes {D P}.
Arguments w_handles {D P}.
Arguments w_devices {D P}.
Arguments w_pages {D P}.

(** A zero byte ends a C string. *)
Fixpoint cstr (l : list Z) : list Z :=
  match l with
  | [] => []
  | c :: l' => if c =? 0 then [] else c :: cstr l'
  end.
(** "." or ".." *)
Definition is_dots (name : list Z) : bool :=
  (nth 0 name 0 =? DOT) && ((nth 1 name 0 =? 0) || ((nth 1 name 0 =? DOT) && (nth 2 name 0 =? 0))).
Definition entry_type (e : list Z) : vfs_node_type := if has_attr e FAT32_ATTR_DIRECTORY then VFS_NODE_DIRECTORY else VFS_NODE_FILE.
Definition entry_permissions (e : list Z) : Z :=
  let p := Z.lor (Z.lor VFS_S_IRUSR VFS_S_IRGRP) VFS_S_IROTH in
  let p := if has_attr e FAT32_ATTR_READ_ONLY then p else Z.lor p (Z.lor (Z.lor VFS_S_IWUSR VFS_S_IWGRP) VFS_S_IWOTH) in
  if has_attr e FAT32_ATTR_DIRECTORY then Z.lor p (Z.lor (Z.lor VFS_S_IXUSR VFS_S_IXGRP) VFS_S_IXOTH) else p.
Definition root_permissions : Z :=
  Z.lor (Z.lor (Z.lor (Z.lor (Z.lor (Z.lor VFS_S_IRUSR VFS_S_IWUSR) VFS_S_IXUSR) VFS_S_IRGRP) VFS_S_IXGRP) VFS_S_IROTH) VFS_S_IXOTH.

Section FatVfs.
Context {D P : Type} `{BlockDevice D} `{PageAllocator P}.
Abbreviation world := (fat_world D P).
Implicit Types v : vfs world.
Implicit Types fs : fat32_fs D.

Definition set_volume (a : Z) (fs : option (fat32_fs D)) (w : world) : world :=
  mk_world (upd (w_volumes w) a fs) (w_handles w) (w_devices w) (w_pages w).
Definition set_handle (a : Z) (f : option fat32_file) (w : world) : world :=
  mk_world (w_volumes w) (upd (w_handles w) a f) (w_devices w) (w_pages w).
Definition set_device (a : Z) (d : D) (w : world) : world := mk_world (w_volumes w) (w_handles w) (upd (w_devices w) a d) (w_pages w).
Definition set_wpages (p : P) (w : world) : world := mk_world (w_volumes w) (w_handles w) (w_devices w) p.
Definition in_world (f : world -> world) v : vfs world := put_world (f (v_world v)) v.

(** An operation on the volume at an address. *)
Definition on_volume {A} (a : Z) (f : fat32_fs D -> option (fat32_fs D * A)) : M world A := fun v =>
  fs ← w_volumes (v_world v) a;
  '(fs, r) ← f fs;
  Some (in_world (set_volume a (Some fs)) v, r).
Definition handle_at (a : Z) : M world fat32_file := fun v => f ← w_handles (v_world v) a; Some (v, f).
(** [pmm_alloc_page], [pmm_free_page] *)
Definition alloc_page : M world Z := fun v =>
  let '(a, p) := pa_alloc 1 (w_pages (v_world v)) in Some (in_world (set_wpages p) v, a).
Definition free_page (a : Z) : M world unit := modify (in_world (fun w => set_wpages (pa_free a 1 (w_pages w)) w)).

(** The volume of a node's mount. *)
Definition mount_volume v (node : nat) : Z := match n_mount (node_at v node) with Some i => m_fs_data (mount_at v i) | None => 0 end.

Definition fat32_vfs_open (node : nat) (flags : Z) : M world Z :=
  a ← gets (fun v => mount_volume v node);
  on_volume a (fun fs => Some (fs, if fs_readonly fs && flag flags (Z.lor VFS_O_WRONLY VFS_O_RDWR) then VFS_ERR_ROFS else VFS_OK)).
Definition fat32_vfs_close (node : nat) : M world Z :=
  n ← gets (fun v => node_at v node);
  match n_mount n with
  | Some i =>
      if n_dirty n then
        a ← gets (fun v => m_fs_data (mount_at v i));
        on_volume a (fun fs => Some (fat32_sync fs));;
        mret VFS_OK
      else mret VFS_OK
  | None => mret VFS_OK
  end.
Definition fat32_vfs_read (node : nat) (size offset : Z) : M world (Z * list Z) :=
  a ← gets (fun v => n_fs_data (node_at v node));
  if a =? 0 then mret (VFS_ERR_INVAL, [])
  else
    file ← handle_at a;
    on_volume (ff_fs file) (fun fs => '(fs, r, data) ← fat32_read_file (ff_entry file) offset size fs; Some (fs, (r, data))).
Definition fat32_vfs_write (node : nat) (buf : list Z) (offset : Z) : M world Z :=
  a ← gets (fun v => n_fs_data (node_at v node));
  if a =? 0 then mret VFS_ERR_INVAL
  else
    file ← handle_at a;
    '(entry, r) ← on_volume (ff_fs file) (fun fs => '(fs, e, r) ← fat32_write_file (ff_entry file) buf offset fs; Some (fs, (e, r)));
    modify (in_world (set_handle a (Some (ff_set_entry entry file))));;
    (if 0 <? r then modify (fun v => set_node node (node_set_dirty true (node_set_size (de_file_size entry) (node_at v node))) v) else mret tt);;
    mret r.

(** [do ... while (1)]: the entry at [index] or behind it that is not "." or "..". *)
Definition readdir_round (cluster : Z) (s : fat32_fs D * Z) : (fat32_fs D * Z) + option (fat32_fs D * option (list Z)) :=
  let '(fs, index) := s in
  match fat32_read_dir_entry cluster index fs with
  | None => inr None
  | Some (fs, r, hit) =>
      match hit with
      | Some e => if negb (r =? 0) then inr (Some (fs, None))
                  else if is_dots (fat32_format_short_name e) then inl (fs, u32 (index + 1)) else inr (Some (fs, Some e))
      | None => inr (Some (fs, None))
      end
  end.
Definition fat32_vfs_readdir (dir : nat) (index : Z) : M world (option vfs_dirent) :=
  n ← gets (fun v => node_at v dir);
  if negb (bool_decide (n_type n = VFS_NODE_DIRECTORY)) || (n_fs_data n =? 0) then mret None
  else
    file ← handle_at (n_fs_data n);
    entry ← on_volume (ff_fs file) (fun fs => r ← loop (readdir_round (ff_first_cluster file)) (fs, index); r);
    mret ((fun e => mk_dirent (fat32_entry_cluster e) (entry_type e) (take (Z.to_nat VFS_NAME_MAX) (cstr (fat32_format_short_name e)))) <$> entry).

(** The node and the handle of an entry. *)
Definition node_of_entry (e : list Z) (mount : option nat) (dir : nat) (handle : Z) : vfs_node :=
  mk_node (take (Z.to_nat VFS_NAME_MAX) (cstr (fat32_format_short_name e))) (entry_type e) (entry_permissions e) 0 0 (fat32_entry_cluster e)
    (de_file_size e) 0 0 0 0 mount (Some dir) handle 1 false.
Definition handle_of_entry (fs : Z) (e : list Z) : fat32_file :=
  mk_ffile fs e (fat32_entry_cluster e) (fat32_entry_cluster e) (has_attr e FAT32_ATTR_DIRECTORY).
Definition fat32_vfs_finddir (dir : nat) (name : list Z) : M world (option nat) :=
  n ← gets (fun v => node_at v dir);
  if negb (bool_decide (n_type n = VFS_NODE_DIRECTORY)) || (n_fs_data n =? 0) then mret None
  else
    file ← handle_at (n_fs_data n);
    hit ← on_volume (ff_fs file) (fun fs => '(fs, r, hit) ← fat32_find_entry_in_dir (ff_first_cluster file) name fs;
                                            Some (fs, if negb (r =? 0) then None else fst <$> hit));
    match hit with
    | None => mret None
    | Some e =>
        node ← vfs_alloc_node;
        match node with
        | None => mret None
        | Some i =>
            page ← alloc_page;
            if page =? 0 then vfs_free_node i;; mret None
            else
              modify (in_world (set_handle (page + VMM_KERNEL_PHYS_MAP) (Some (handle_of_entry (ff_fs file) e))));;
              modify (set_node i (node_of_entry e (n_mount n) dir (page + VMM_KERNEL_PHYS_MAP)));;
              mret (Some i)
        end
    end.
Definition fat32_vfs_stat (node : nat) : M world (Z * vfs_stat_t) :=
  n ← gets (fun v => node_at v node);
  (** The size of a cluster when the node has a handle. *)
  blksize ← (if n_fs_data n =? 0 then mret 512
             else file ← handle_at (n_fs_data n); on_volume (ff_fs file) (fun fs => Some (fs, bytes_per_cluster fs)));
  mret (VFS_OK, mk_stat (n_inode n) (n_permissions n) 1 0 0 (n_size n) blksize (u64 (n_size n + 511) / 512) (n_atime n) (n_mtime n) (n_ctime n) (n_type n)).

(** The handle of a directory to change, [None] for the error return. *)
Definition parent_handle (parent : nat) : M world (option fat32_file) :=
  n ← gets (fun v => node_at v parent);
  if negb (bool_decide (n_type n = VFS_NODE_DIRECTORY)) || (n_fs_data n =? 0) then mret None
  else file ← handle_at (n_fs_data n); mret (Some file).
Definition create_with (attr : Z) (parent : nat) (name : list Z) : M world Z :=
  file ← parent_handle parent;
  match file with
  | None => mret VFS_ERR_INVAL
  | Some file => on_volume (ff_fs file) (fun fs => '(fs, r, _) ← fat32_create_entry (ff_first_cluster file) name attr fs; Some (fs, r))
  end.
Definition fat32_vfs_mkdir (parent : nat) (name : list Z) (permissions : Z) : M world Z := create_with FAT32_ATTR_DIRECTORY parent name.
Definition fat32_vfs_create (parent : nat) (name : list Z) (permissions : Z) : M world Z := create_with FAT32_ATTR_ARCHIVE parent name.
Definition fat32_vfs_unlink (parent : nat) (name : list Z) : M world Z :=
  file ← parent_handle parent;
  match file with
  | None => mret VFS_ERR_INVAL
  | Some file => on_volume (ff_fs file) (fat32_delete_entry (ff_first_cluster file) name)
  end.

(** Unmounting a volume: its device is left to its address. *)
Definition unmount_volume (a device : Z) : M world Z := fun v =>
  let w := v_world v in
  fs ← w_volumes w a;
  let '(fs, p, r) := fat32_unmount fs (w_pages w) in
  Some (in_world (fun w => set_wpages p (set_device device (fs_dev fs) (set_volume a None w))) v, r).
Definition root_handle (fs : Z) (root : Z) : fat32_file :=
  mk_ffile fs (fat32_entry_set_cluster root (splice 11 [FAT32_ATTR_DIRECTORY] (repeat 0 32))) root root true.
Definition fat32_vfs_mount (mount : nat) (device : Z) : M world Z :=
  if device =? 0 then mret VFS_ERR_INVAL
  else
    mounted ← (fun v => let '(r, p) := fat32_mount (w_devices (v_world v) device) (w_pages (v_world v)) in Some (in_world (set_wpages p) v, r));
    match mounted with
    | None => mret VFS_ERR_IO
    | Some fs =>
        let a := fs_phys fs + VMM_KERNEL_PHYS_MAP in
        modify (in_world (set_volume a (Some fs)));;
        modify (fun v => set_mount mount (mount_set_fs_data a (mount_at v mount)) v);;
        root ← vfs_alloc_node;
        match root with
        | None => unmount_volume a device;; mret VFS_ERR_NOMEM
        | Some i =>
            page ← alloc_page;
            if page =? 0 then vfs_free_node i;; unmount_volume a device;; mret VFS_ERR_NOMEM
            else
              let h := page + VMM_KERNEL_PHYS_MAP in
              modify (in_world (set_handle h (Some (root_handle a (root_cluster fs)))));;
              modify (set_node i (mk_node [slash] VFS_NODE_DIRECTORY root_permissions 0 0 (root_cluster fs) 0 0 0 0 0 (Some mount) None h 1 false));;
              modify (fun v => set_mount mount (mount_set_root (Some i) (mount_at v mount)) v);;
              mret VFS_OK
        end
    end.
Definition fat32_vfs_unmount (mount : nat) : M world Z :=
  m ← gets (fun v => mount_at v mount);
  if m_fs_data m =? 0 then mret VFS_ERR_INVAL
  else
    (match m_root m with
     | None => mret tt
     | Some i =>
         h ← gets (fun v => n_fs_data (node_at v i));
         (if negb (h =? 0) then free_page (h - VMM_KERNEL_PHYS_MAP) else mret tt);;
         vfs_free_node i;;
         modify (fun v => set_mount mount (mount_set_root None (mount_at v mount)) v)
     end);;
    r ← unmount_volume (m_fs_data m) (m_device m);
    modify (fun v => set_mount mount (mount_set_fs_data 0 (mount_at v mount)) v);;
    mret r.

(** The table [fat32_vfs_ops] and its address. *)
Definition FAT32_OPS : Z := 0x1000.
Definition fat32_vfs_ops : vfs_ops world :=
  mk_ops world (Some fat32_vfs_open) (Some fat32_vfs_close) (Some fat32_vfs_read) (Some fat32_vfs_write) None None
    (Some fat32_vfs_readdir) (Some fat32_vfs_finddir) (Some fat32_vfs_mkdir) None (Some fat32_vfs_create) (Some fat32_vfs_unlink) None
    (Some fat32_vfs_stat) (Some fat32_vfs_mount) (Some fat32_vfs_unmount).
Definition fat32_ops_at (a : Z) : vfs_ops world := if a =? FAT32_OPS then fat32_vfs_ops else no_ops.
(** "fat32" *)
Definition fat32_init : M world Z := vfs_register_fs (Some [102; 97; 116; 51; 50]) FAT32_OPS.
End FatVfs.
