(* ===== verification/VfsInv.v ===== *)
(** * The virtual file system: who holds which node (fs/vfs/vfs.c)

    Open files, open directories and mount points hold nodes of the pool. Every handle and
    every mount point refers to a node that is in use, and the count of a node is at least
    the number of those that refer to it, whatever calls are made, as long as no file system
    is unmounted while a directory is open, which vfs_unmount does not check. The last part
    finds the mount of a path. *)
From S2P Require Import Prelude Memory PageAlloc Ring Chain Block VfsBase Fat FatName FatDir VfsPath Vfs VfsOps FatVfs.

(** ** Counting *)

(** 1 for the node that is referred to. *)
Definition one (r : option nat) (i : nat) : Z := match r with Some n => if (n =? i)%nat then 1 else 0 | None => 0 end.
Definition count {A} (g : A -> option nat) (l : list A) (i : nat) : Z := foldr (fun x c => one (g x) i + c) 0 l.
(** What an open file, an open directory and a mount refer to. *)
Definition file_ref (f : vfs_file) : option nat := if f_in_use f then f_node f else None.
Definition dir_ref (d : vfs_dir) : option nat := if d_in_use d then d_node d else None.
(** How many open files, open directories and mounts refer to a node. *)
Definition holders {W} (v : vfs W) (i : nat) : Z := count file_ref (v_files v) i + count dir_ref (v_dirs v) i + count m_root (v_mounts v) i.

Lemma one_range r i : 0 <= one r i <= 1.
Proof. unfold one. destruct r as [n|]; [destruct (n =? i)%nat|]; lia. Qed.
Lemma one_self n : one (Some n) n = 1.
Proof. unfold one. by rewrite Nat.eqb_refl. Qed.
Lemma one_other n i : n <> i -> one (Some n) i = 0.
Proof. intros Hn. unfold one. by rewrite (proj2 (Nat.eqb_neq _ _) Hn). Qed.
Lemma count_cons {A} (g : A -> option nat) x l i : count g (x :: l) i = one (g x) i + count g l i.
Proof. done. Qed.
Lemma count_nonneg {A} (g : A -> option nat) l i : 0 <= count g l i.
Proof. induction l as [|x l IH]; [done|]. cbn. pose proof (one_range (g x) i). fold (count g l i). lia. Qed.
Lemma count_at {A} (g : A -> option nat) l k z i : g z = None -> one (g (nth k l z)) i <= count g l i.
Proof.
  intros Hz. revert k. induction l as [|x l IH]; intros k; [destruct k; cbn; by rewrite Hz|]. cbn [count foldr]. fold (count g l i).
  pose proof (one_range (g x) i). pose proof (count_nonneg g l i). destruct k as [|k]; cbn [nth]; [lia|]. specialize (IH k). lia.
Qed.
Lemma holds_insert {A} (g : A -> option nat) l k x z i : g z = None -> count g (<[k := x]> l) i <= count g l i - one (g (nth k l z)) i + one (g x) i.
Proof.
  intros Hz. pose proof (one_range (g x) i) as Hx. revert k. induction l as [|y l IH]; intros k; [rewrite list_insert_ge by (simpl; lia); replace (nth k [] z) with z by (by destruct k); rewrite Hz; change (one None i) with 0; lia|]. destruct k as [|k].
  - change (count g (x :: l) i <= count g (y :: l) i - one (g y) i + one (g x) i). rewrite !count_cons. lia.
  - specialize (IH k). change (count g (y :: <[k := x]> l) i <= count g (y :: l) i - one (g (nth k l z)) i + one (g x) i). rewrite !count_cons. lia.
Qed.
Lemma count_repeat {A} (g : A -> option nat) x n i : g x = None -> count g (repeat x n) i = 0.
Proof. intros Hx. induction n as [|n IH]; [done|]. cbn. by rewrite Hx. Qed.
(** A reference that nobody has. *)
Lemma count_zero {A} (g : A -> option nat) l i : (forall k x, l !! k = Some x -> g x <> Some i) -> count g l i = 0.
Proof.
  induction l as [|x l IH]; intros Hl; [done|]. cbn. fold (count g l i). rewrite IH by (intros k y Hk; apply (Hl (S k) y Hk)). pose proof (Hl 0%nat x eq_refl) as Hx.
  destruct (g x) as [n|]; [|done]. rewrite one_other; [done|congruence].
Qed.
Lemma first_index_lt {A} (p : A -> bool) l i : first_index p l = Some i -> (i < length l)%nat /\ exists x, l !! i = Some x /\ p x = true.
Proof.
  revert i. induction l as [|x l IH]; intros i; cbn [first_index]; [done|]. destruct (p x) eqn:Ep; [intros [= <-]; split; [simpl; lia|by exists x]|].
  destruct (first_index p l) as [j|]; [|done]. intros [= <-]. destruct (IH j eq_refl) as [Hj Hx]. split; [simpl; lia|done].
Qed.
Lemma nth_at {A} (l : list A) i x z : l !! i = Some x -> nth i l z = x.
Proof. intros Hi. by rewrite (nth_lookup l i z), Hi. Qed.
Lemma nth_insert {A} (l : list A) i j x z : nth j (<[i := x]> l) z = if (i =? j)%nat && (j <? length l)%nat then x else nth j l z.
Proof.
  rewrite !nth_lookup. destruct (Nat.eqb_spec i j) as [->|Hij]; cbn [andb]; [|by rewrite list_lookup_insert_ne].
  destruct (Nat.ltb_spec j (length l)); [by rewrite list_lookup_insert_eq|]. by rewrite list_insert_ge by lia.
Qed.

(** ** The invariant *)

Section Own.
Context {W : Type}.
Implicit Types v : vfs W.

(** [d] counts the references to a node that a running operation has, or owes when it is
    negative; no count exceeds [N]. *)
Record own (N : Z) (d : nat -> Z) v : Prop := mk_own {
  ow_pool : length (v_nodes v) = length (v_used v);
  ow_count : forall i, holders v i + d i <= n_ref_count (node_at v i) <= N /\ 0 <= n_ref_count (node_at v i);
  ow_used : forall i, 0 < holders v i + d i -> v_used v !! i = Some true;
  ow_root : forall m i, m_root (mount_at v m) = Some i -> n_mount (node_at v i) = Some m;
}.
Definition owned (N : Z) v : Prop := own N (fun _ => 0) v.

Lemma holders_nonneg v i : 0 <= holders v i.
Proof. unfold holders. pose proof (count_nonneg file_ref (v_files v) i). pose proof (count_nonneg dir_ref (v_dirs v) i). pose proof (count_nonneg m_root (v_mounts v) i). lia. Qed.
Lemma holders_file v k : file_ref (file_at v k) <> None -> forall i, one (file_ref (file_at v k)) i <= holders v i.
Proof. intros _ i. pose proof (count_at file_ref (v_files v) k zero_file i eq_refl). pose proof (count_nonneg dir_ref (v_dirs v) i). pose proof (count_nonneg m_root (v_mounts v) i). unfold holders, file_at. lia. Qed.
Lemma holders_mount v m i : one (m_root (mount_at v m)) i <= holders v i.
Proof. pose proof (count_at m_root (v_mounts v) m zero_mount i eq_refl). pose proof (count_nonneg dir_ref (v_dirs v) i). pose proof (count_nonneg file_ref (v_files v) i). unfold holders, mount_at. lia. Qed.
Lemma own_le N N' d d' v : own N d v -> N <= N' -> (forall i, d' i <= d i) -> own N' d' v.
Proof.
  intros [P C U R] HN Hd. split; [done| | |done].
  - intros i. specialize (C i). specialize (Hd i). lia.
  - intros i Hi. apply U. specialize (Hd i). lia.
Qed.
(** What does not matter to the holders. *)
Record same v v' : Prop := mk_same {
  sm_files : v_files v' = v_files v;
  sm_dirs : v_dirs v' = v_dirs v;
  sm_mounts : v_mounts v' = v_mounts v;
  sm_used : v_used v' = v_used v;
  sm_nodes : length (v_nodes v') = length (v_nodes v);
  sm_node : forall i, n_ref_count (node_at v' i) = n_ref_count (node_at v i) /\ n_mount (node_at v' i) = n_mount (node_at v i);
}.
Lemma same_refl v : same v v.
Proof. by split. Qed.
Lemma same_trans v v1 v2 : same v v1 -> same v1 v2 -> same v v2.
Proof. intros [A1 A2 A3 A4 A5 A6] [B1 B2 B3 B4 B5 B6]. split; try congruence. intros i. destruct (A6 i), (B6 i). split; congruence. Qed.
Lemma same_holders v v' i : same v v' -> holders v' i = holders v i.
Proof. intros [A1 A2 A3 _ _ _]. unfold holders. by rewrite A1, A2, A3. Qed.
Lemma own_same N d v v' : same v v' -> own N d v -> own N d v'.
Proof.
  intros S [P C U R]. pose proof (fun i => same_holders v v' i S) as E. destruct S as [A1 A2 A3 A4 A5 A6]. split.
  - congruence.
  - intros i. rewrite E. destruct (A6 i) as [-> _]. apply C.
  - intros i. rewrite E, A4. apply U.
  - intros m i. unfold mount_at. rewrite A3. intros Hm. destruct (A6 i) as [_ ->]. by apply R.
Qed.
Lemma same_put_node i n v : n_ref_count n = n_ref_count (node_at v i) -> n_mount n = n_mount (node_at v i) -> same v (set_node i n v).
Proof.
  intros Hr Hm. split; try done; [apply length_insert|]. intros j. unfold node_at, set_node. cbn. rewrite nth_insert. destruct (Nat.eqb_spec i j) as [<-|]; cbn [andb]; [|done]. by destruct (_ <? _)%nat.
Qed.
Lemma same_world w v : same v (put_world w v).
Proof. by split. Qed.

(** *** The tables change *)

Lemma own_set_file N d k f v : own N d v -> own N (fun i => d i + one (file_ref (file_at v k)) i - one (file_ref f) i) (set_file k f v).
Proof.
  intros [P C U R]. assert (forall i, holders (set_file k f v) i <= holders v i - one (file_ref (file_at v k)) i + one (file_ref f) i) as Hh.
  { intros i. unfold holders. cbn [set_file put_files v_files v_dirs v_mounts]. pose proof (holds_insert file_ref (v_files v) k f zero_file i eq_refl). unfold file_at. lia. }
  split; [done| | |done].
  - intros i. change (node_at (set_file k f v) i) with (node_at v i). specialize (C i). specialize (Hh i). cbn beta. lia.
  - intros i Hi. apply U. specialize (Hh i). cbn beta in Hi. lia.
Qed.
Lemma own_set_dir N d k x v : own N d v -> own N (fun i => d i + one (dir_ref (dir_at v k)) i - one (dir_ref x) i) (set_dir k x v).
Proof.
  intros [P C U R]. assert (forall i, holders (set_dir k x v) i <= holders v i - one (dir_ref (dir_at v k)) i + one (dir_ref x) i) as Hh.
  { intros i. unfold holders. cbn [set_dir put_dirs v_files v_dirs v_mounts]. pose proof (holds_insert dir_ref (v_dirs v) k x zero_dir i eq_refl). unfold dir_at. lia. }
  split; [done| | |done].
  - intros i. change (node_at (set_dir k x v) i) with (node_at v i). specialize (C i). specialize (Hh i). cbn beta. lia.
  - intros i Hi. apply U. specialize (Hh i). cbn beta in Hi. lia.
Qed.
Lemma own_set_mount N d k m v : own N d v -> (forall r, m_root m = Some r -> n_mount (node_at v r) = Some k) ->
  own N (fun i => d i + one (m_root (mount_at v k)) i - one (m_root m) i) (set_mount k m v).
Proof.
  intros [P C U R] Hr. assert (forall i, holders (set_mount k m v) i <= holders v i - one (m_root (mount_at v k)) i + one (m_root m) i) as Hh.
  { intros i. unfold holders. cbn [set_mount put_mounts v_files v_dirs v_mounts]. pose proof (holds_insert m_root (v_mounts v) k m zero_mount i eq_refl). unfold mount_at. lia. }
  split; [done| | |].
  - intros i. change (node_at (set_mount k m v) i) with (node_at v i). specialize (C i). specialize (Hh i). cbn beta. lia.
  - intros i Hi. apply U. specialize (Hh i). cbn beta in Hi. lia.
  - intros j i. change (node_at (set_mount k m v) i) with (node_at v i). unfold mount_at, set_mount. cbn. rewrite nth_insert. destruct (Nat.eqb_spec k j) as [<-|]; cbn [andb]; [|apply R].
    destruct (_ <? _)%nat; [apply Hr|apply R].
Qed.
Lemma own_keep_mount N d k m v : own N d v -> m_root m = m_root (mount_at v k) -> own N d (set_mount k m v).
Proof. intros O E. eapply own_le; [apply (own_set_mount N d k m v O)|lia|]; [intros r Hr; apply (ow_root _ _ _ O); congruence|]. intros i. cbn beta. rewrite E. lia. Qed.
Lemma own_clear_mount N d k m v : own N d v -> m_root m = None -> own N d (set_mount k m v).
Proof.
  intros O E. eapply own_le; [apply (own_set_mount N d k m v O)|lia|]; [intros r Hr; congruence|]. intros i. cbn beta. rewrite E. change (one None i) with 0. pose proof (one_range (m_root (mount_at v k)) i). lia.
Qed.
(** A node, and its flag. *)
Lemma own_node N N' d d' i n v : own N d v -> N <= N' -> (i < length (v_nodes v))%nat -> (forall j, j <> i -> d' j <= d j) ->
  holders v i + d' i <= n_ref_count n <= N' -> 0 <= n_ref_count n -> (0 < holders v i + d' i -> v_used v !! i = Some true) -> (forall m, m_root (mount_at v m) = Some i -> n_mount n = Some m) ->
  own N' d' (set_node i n v).
Proof.
  intros [P C U R] HN Hi Hd Hc H0 Hu Hr. set (v' := set_node _ _ _). assert (forall j, node_at v' j = if (i =? j)%nat then n else node_at v j) as En.
  { intros j. unfold node_at, v', set_node. cbn. rewrite nth_insert. destruct (Nat.eqb_spec i j) as [<-|]; [|done]. by rewrite (proj2 (Nat.ltb_lt _ _)) by lia. }
  split.
  - cbn. by rewrite length_insert.
  - intros j. change (holders v' j) with (holders v j). rewrite En. destruct (Nat.eqb_spec i j) as [<-|Hij]; [lia|]. specialize (C j). specialize (Hd j ltac:(done)). lia.
  - intros j Hj. change (holders v' j) with (holders v j) in Hj. change (v_used v') with (v_used v). destruct (decide (i = j)) as [<-|Hij]; [by apply Hu|]. apply U. specialize (Hd j ltac:(done)). lia.
  - intros m j Hm. rewrite En. destruct (Nat.eqb_spec i j) as [<-|Hij]; [by apply Hr|by apply R].
Qed.
Lemma own_flag N d d' i b v : own N d v -> (forall j, d' j <= d j) -> (b = false -> holders v i + d' i <= 0) -> own N d' (put_used (<[i := b]> (v_used v)) v).
Proof.
  intros O Hd Hb. destruct (own_le N N d d' v O ltac:(lia) Hd) as [P C U R]. split; [cbn; by rewrite length_insert|done| |done].
  intros j Hj. change (holders (put_used (<[i := b]> (v_used v)) v) j) with (holders v j) in Hj. change (v_used (put_used (<[i := b]> (v_used v)) v)) with (<[i := b]> (v_used v)).
  pose proof (U j Hj) as Hu. destruct (decide (i = j)) as [<-|Hij]; [|by rewrite list_lookup_insert_ne]. destruct b; [rewrite list_lookup_insert_eq; [done|]; by apply lookup_lt_Some in Hu|]. specialize (Hb eq_refl). lia.
Qed.
Lemma own_range N d v i : own N d v -> 0 < n_ref_count (node_at v i) -> (i < length (v_nodes v))%nat.
Proof. intros O Hi. destruct (le_lt_dec (length (v_nodes v)) i) as [Hl|]; [|done]. unfold node_at in Hi. rewrite nth_overflow in Hi by done. cbn in Hi. lia. Qed.

(** ** Computations *)

(** Whatever a computation returns has a property; nothing is said when it does not. *)
Definition wp {A} (m : M W A) (Q : A -> vfs W -> Prop) v : Prop := match m v with Some (v', x) => Q x v' | None => True end.
Lemma wp_ret {A} (x : A) Q v : Q x v -> wp (mret x) Q v.
Proof. done. Qed.
Lemma wp_bind {A B} (m : M W A) (k : A -> M W B) Q v : wp m (fun x v' => wp (k x) Q v') v -> wp (m ≫= k) Q v.
Proof. unfold wp, mbind, M_bind. by destruct (m v) as [[v' x]|]. Qed.
Lemma wp_gets {A B} (f : vfs W -> A) (k : A -> M W B) Q v : wp (k (f v)) Q v -> wp (gets f ≫= k) Q v.
Proof. done. Qed.
Lemma wp_modify {B} (f : vfs W -> vfs W) (k : unit -> M W B) Q v : wp (k tt) Q (f v) -> wp (modify f ≫= k) Q v.
Proof. done. Qed.
Lemma wp_mono {A} (m : M W A) (Q R : A -> vfs W -> Prop) v : wp m Q v -> (forall x v', Q x v' -> R x v') -> wp m R v.
Proof. unfold wp. destruct (m v) as [[v' x]|]; auto. Qed.
Lemma wp_seq {A B} (m : M W A) (k : A -> M W B) (R : A -> vfs W -> Prop) Q v : wp m R v -> (forall x v', R x v' -> wp (k x) Q v') -> wp (m ≫= k) Q v.
Proof. intros Hm Hk. apply wp_bind. by apply (wp_mono m R). Qed.

Lemma same_error e v : same v (put_error e v).
Proof. by split. Qed.
Lemma wp_fail N d e v : own N d v -> wp (fail e) (fun _ v' => own N d v') v.
Proof. intros O. exact (own_same N d v _ (same_error e v) O). Qed.
Lemma wp_fail_null {A} N d e v : own N d v -> wp (fail_null e : M W (option A)) (fun r v' => r = None /\ own N d v') v.
Proof. intros O. split; [done|]. exact (own_same N d v _ (same_error e v) O). Qed.

(** *** Nodes *)

Definition nonneg (d : nat -> Z) : Prop := forall i, 0 <= d i.
Definition plus (d : nat -> Z) (r : option nat) : nat -> Z := fun i => d i + one r i.
Definition minus (d : nat -> Z) (r : option nat) : nat -> Z := fun i => d i - one r i.
Lemma plus_nonneg d r : nonneg d -> nonneg (plus d r).
Proof. intros Hd i. unfold plus. specialize (Hd i). pose proof (one_range r i). lia. Qed.
Lemma own_plus_none N d v : own N d v -> own N (plus d None) v.
Proof. intros O. eapply own_le; [exact O|lia|]. intros i. unfold plus. cbn. lia. Qed.

(** A new node: nobody has it. *)
Lemma alloc_own N d v : own N d v -> 1 <= N -> nonneg d ->
  wp vfs_alloc_node (fun r v' => own N (plus d r) v' /\ v_mounts v' = v_mounts v /\ (forall n, r = Some n -> holders v' n = 0 /\ d n = 0 /\ (n < length (v_nodes v'))%nat)) v.
Proof.
  intros O HN Hd. unfold vfs_alloc_node. apply wp_gets. destruct (first_index negb (v_used v)) as [i|] eqn:Ei; [|apply wp_ret; split; [by apply own_plus_none|done]].
  apply first_index_lt in Ei as (Hi & b & Eb & Hb). destruct b; [done|]. assert (holders v i = 0 /\ d i = 0) as [Hh Hz].
  { pose proof (holders_nonneg v i). specialize (Hd i). pose proof (ow_used _ _ _ O i) as Hu. destruct (Z.ltb_spec 0 (holders v i + d i)) as [Hlt|]; [specialize (Hu Hlt); congruence|lia]. }
  apply wp_modify, wp_modify, wp_ret. set (v1 := put_used _ v). assert (own N d v1) as O1 by (apply (own_flag N d d); [done|done|done]). assert (i < length (v_nodes v1))%nat as Hl by (cbn; rewrite (ow_pool _ _ _ O); done).
  split; [|split; [done|]; intros n [= <-]; split; [exact Hh|]; split; [done|]; cbn; rewrite length_insert; exact Hl].
  apply (own_node N N d); [done|lia|done| | |done| |].
  - intros j Hj. unfold plus. rewrite one_other by done. lia.
  - unfold plus. rewrite one_self. change (holders v1 i) with (holders v i). cbn. lia.
  - intros _. change (v_used v1) with (<[i := true]> (v_used v)). by apply list_lookup_insert_eq.
  - intros m Hm. exfalso. pose proof (holders_mount v m i) as H1. change (mount_at v1 m) with (mount_at v m) in Hm. rewrite Hm, one_self in H1. lia.
Qed.
Lemma ref_own N d i v : own N d v -> N + 1 < 2 ^ 32 -> v_used v !! i = Some true -> wp (vfs_ref_node i) (fun _ v' => own (N + 1) (plus d (Some i)) v') v.
Proof.
  intros O HN Hu. pose proof (ow_count _ _ _ O i) as Hc. unfold vfs_ref_node. change (own (N + 1) (plus d (Some i)) (set_node i (node_set_ref (u32 (n_ref_count (node_at v i) + 1)) (node_at v i)) v)). rewrite u32_id by lia.
  apply (own_node N (N + 1) d); [done|lia|rewrite (ow_pool _ _ _ O); by apply lookup_lt_Some in Hu| | |cbn; lia|done|intros m Hm; exact (ow_root _ _ _ O m i Hm)].
  - intros j Hj. unfold plus. rewrite one_other by done. lia.
  - unfold plus. rewrite one_self. cbn. lia.
Qed.
(** Letting a node go; it is free when that was the last reference. *)
Lemma unref_own N d i v : own N d v -> wp (vfs_unref_node i) (fun _ v' => own N (minus d (Some i)) v' /\ v_files v' = v_files v /\ v_dirs v' = v_dirs v) v.
Proof.
  intros O. unfold vfs_unref_node. apply wp_modify. cbv beta zeta. pose proof (ow_count _ _ _ O i) as Hc. set (v1 := if 0 <? _ then _ else v).
  assert (own N (minus d (Some i)) v1 /\ v_files v1 = v_files v /\ v_dirs v1 = v_dirs v) as (O1 & E1 & E2).
  { unfold v1. destruct (Z.ltb_spec 0 (n_ref_count (node_at v i))) as [Hp|Hp].
    - split; [|done]. apply (own_node N N d); [done|lia|by apply (own_range N d)| | |cbn; lia| |intros m Hm; exact (ow_root _ _ _ O m i Hm)].
      + intros j Hj. unfold minus. rewrite one_other by done. lia.
      + unfold minus. rewrite one_self. cbn. lia.
      + unfold minus. rewrite one_self. intros Hb. apply (ow_used _ _ _ O). lia.
    - split; [|done]. eapply own_le; [exact O|lia|]. intros j. unfold minus. pose proof (one_range (Some i) j). lia. }
  clearbody v1. apply wp_gets. destruct (Z.eqb_spec (n_ref_count (node_at v1 i)) 0) as [Hz|]; [|done].
  split; [|done]. apply (own_flag N (minus d (Some i))); [done|done|]. intros _. pose proof (ow_count _ _ _ O1 i). lia.
Qed.
End Own.

(** ** What the operations of a file system keep to *)

Definition opt {A} (P : A -> Prop) (o : option A) : Prop := match o with Some f => P f | None => True end.
(** It changes neither handles, mounts nor the references to nodes. *)
Definition quiet {W A} (m : M W A) : Prop := forall v, wp m (fun _ v' => same v v') v.
Record ops_own {W} (o : vfs_ops W) : Prop := mk_ops_own {
  oo_open : opt (fun f => forall n x, quiet (f n x)) (op_open o);
  oo_close : opt (fun f => forall n, quiet (f n)) (op_close o);
  oo_read : opt (fun f => forall n x y, quiet (f n x y)) (op_read o);
  oo_write : opt (fun f => forall n x y, quiet (f n x y)) (op_write o);
  oo_truncate : opt (fun f => forall n x, quiet (f n x)) (op_truncate o);
  oo_sync : opt (fun f => forall n, quiet (f n)) (op_sync o);
  oo_readdir : opt (fun f => forall n x, quiet (f n x)) (op_readdir o);
  oo_mkdir : opt (fun f => forall n x y, quiet (f n x y)) (op_mkdir o);
  oo_rmdir : opt (fun f => forall n x, quiet (f n x)) (op_rmdir o);
  oo_create : opt (fun f => forall n x y, quiet (f n x y)) (op_create o);
  oo_unlink : opt (fun f => forall n x, quiet (f n x)) (op_unlink o);
  oo_rename : opt (fun f => forall n x m y, quiet (f n x m y)) (op_rename o);
  oo_stat : opt (fun f => forall n, quiet (f n)) (op_stat o);
  (** The node that is found is the caller's. *)
  oo_finddir : opt (fun f => forall n t N d v, own N d v -> 1 <= N -> nonneg d -> wp (f n t) (fun r v' => own N (plus d r) v') v) (op_finddir o);
  oo_mount : opt (fun f => forall i dev N v, owned N v -> 1 <= N -> m_root (mount_at v i) = None -> wp (f i dev) (fun _ v' => owned N v') v) (op_mount o);
  oo_unmount : opt (fun f => forall i N v, owned N v -> Forall (fun x => d_in_use x = false) (v_dirs v) -> existsb (file_on i v) (v_files v) = false -> wp (f i) (fun _ v' => owned N v') v) (op_unmount o);
}.

Section Ops.
Context {W : Type} (ops_at : Z -> vfs_ops W) (Hops : forall a, ops_own (ops_at a)).
Implicit Types v : vfs W.

Lemma op_keeps {A} (P : A -> Prop) sel mount v : (forall o, ops_own o -> opt P (sel o)) -> opt P (mount_op ops_at sel mount v).
Proof. intros Hs. unfold mount_op. destruct mount as [i|]; [|done]. simpl. destruct (_ =? 0); [done|]. apply Hs, Hops. Qed.
Lemma quiet_own {A} (m : M W A) N d v : quiet m -> own N d v -> wp m (fun _ v' => own N d v') v.
Proof. intros Hm O. apply (wp_mono m (fun _ v' => same v v')); [apply Hm|]. intros _ v' S. by apply (own_same N d v). Qed.
Lemma own_trade N d d' v : own N d v -> (forall i, d' i <= d i) -> own N d' v.
Proof. intros O Hd. by apply (own_le N N d). Qed.
Lemma own_more N N' d v : own N d v -> N <= N' -> own N' d v.
Proof. intros O HN. by apply (own_le N N' d d). Qed.
Lemma unref_back N d n v : own N (plus d (Some n)) v -> wp (vfs_unref_node n) (fun _ v' => own N d v') v.
Proof. intros O. apply (wp_mono _ _ _ v (unref_own N _ n v O)). intros _ v' (O' & _ & _). apply (own_trade N _ _ v' O'). intros i. unfold minus, plus. lia. Qed.
(** Letting a node go and failing. *)
Lemma release_fail N d n e v : own N (plus d (Some n)) v -> wp (vfs_unref_node n;; fail e) (fun _ v' => own N d v') v.
Proof. intros O. apply (wp_seq _ _ _ _ v (unref_back N d n v O)). intros _ v' O'. by apply wp_fail. Qed.
Lemma release_null {A} N d n e v : own N (plus d (Some n)) v -> wp (vfs_unref_node n;; fail_null e : M W (option A)) (fun r v' => r = None /\ own N d v') v.
Proof. intros O. apply (wp_seq _ _ _ _ v (unref_back N d n v O)). intros _ v' O'. by apply wp_fail_null. Qed.
Lemma null_plus N (m : M W (option nat)) d v : wp m (fun r v' => r = None /\ own N d v') v -> wp m (fun r v' => own N (plus d r) v') v.
Proof. intros Hm. apply (wp_mono m _ _ v Hm). intros r v' [-> O]. by apply own_plus_none. Qed.

(** ** Paths *)

Lemma walk_own m tokens N d n v : own N (plus d (Some n)) v -> 1 <= N -> nonneg d -> wp (walk ops_at m tokens n) (fun r v' => own N (plus d r) v') v.
Proof.
  intros O HN Hd. revert n v O. induction tokens as [|t tokens IH]; intros n v O; cbn [walk]; [by apply wp_ret|]. apply wp_gets. destruct (negb _); [by apply null_plus, release_null|].
  apply wp_gets. pose proof (op_keeps _ op_finddir (Some m) v (fun o Ho => oo_finddir o Ho)) as Hop. apply (wp_seq _ _ (fun r v' => own N (plus (plus d (Some n)) r) v')).
  { destruct (mount_op _ _ _ _) as [f|]; [apply Hop; [done|done|by apply plus_nonneg]|by apply wp_ret, own_plus_none]. }
  intros next v1 O1. assert (own N (plus (plus d next) (Some n)) v1) as O1' by (apply (own_trade _ _ _ _ O1); intros i; unfold plus; lia).
  apply (wp_seq _ _ _ _ v1 (unref_back N _ n v1 O1')). intros _ v2 O2. destruct next as [x|]; [by apply IH|]. apply null_plus. apply wp_fail_null. apply (own_trade _ _ _ _ O2). intros i. unfold plus. cbn. lia.
Qed.
Lemma lookup_own path N d v : own N d v -> 1 <= N -> N + 1 < 2 ^ 32 -> nonneg d -> wp (vfs_lookup ops_at path) (fun r v' => own (N + 1) (plus d r) v') v.
Proof.
  intros O HN HM Hd. assert (own (N + 1) d v) as Om by (apply (own_more N); [done|lia]). assert (forall e, wp (fail_null e) (fun r v' => own (N + 1) (plus d r) v') v) as Hf by (intros e; apply null_plus; by apply wp_fail_null).
  unfold vfs_lookup. destruct path as [path|]; [|apply Hf]. destruct (vfs_normalize_path path) as [p|]; [|apply Hf]. unfold vfs_get_mount. destruct (vfs_normalize_path p) as [p'|]; [|apply Hf].
  apply wp_gets. destruct (best_mount _ _ _ _ _) as [i|]; [|apply Hf]. apply wp_gets. destruct (m_root (mount_at v i)) as [n|] eqn:En; [|apply Hf].
  assert (v_used v !! n = Some true) as Hu.
  { apply (ow_used _ _ _ O). pose proof (holders_mount v i n) as Hh. rewrite En, one_self in Hh. specialize (Hd n). lia. }
  assert (wp (vfs_ref_node n;; mret (Some n)) (fun r v' => own (N + 1) (plus d r) v') v) as Hr by (by apply (wp_seq _ _ _ _ v (ref_own N d n v O HM Hu))).
  destruct (_ || _); [exact Hr|]. destruct (match drop _ _ with [] => [] | c :: r => _ end) as [|x r]; [exact Hr|]. apply (wp_seq _ _ _ _ v (ref_own N d n v O HM Hu)). intros _ v1 O1. apply walk_own; [done|lia|done].
Qed.

(** ** Files *)

(** A call keeps the invariant; it takes at most three references. *)
Definition fair {A} (m : M W A) : Prop := forall N v, owned N v -> 1 <= N -> N + 3 < 2 ^ 32 -> wp m (fun _ v' => owned (N + 3) v') v.
Lemma finish {A} N N' (m : M W A) v : wp m (fun _ v' => owned N v') v -> N <= N' -> wp m (fun _ v' => owned N' v') v.
Proof. intros Hm HN. apply (wp_mono m _ _ v Hm). intros _ v' O. by apply (own_more N). Qed.
Lemma fair_fail e : fair (fail e).
Proof. intros N v O H1 H3. eapply finish; [by apply wp_fail|lia]. Qed.
Lemma fair_ret {A} (x : A) : fair (mret x).
Proof. intros N v O H1 H3. eapply finish; [by apply wp_ret|lia]. Qed.
Lemma fair_same {A} (f : vfs W -> vfs W) (x : A) : (forall v, same v (f v)) -> fair (modify f;; mret x).
Proof. intros Hf N v O H1 H3. apply wp_modify, wp_ret. apply (own_more N); [|lia]. by apply (own_same N _ v). Qed.
Lemma fair_refuse {A} (x : A) e : fair (r ← fail e; mret (r, x) : M W (Z * A)).
Proof. intros N v O H1 H3. apply (wp_seq _ _ _ _ v (fair_fail e N v O H1 H3)). intros r v' O'. by apply wp_ret. Qed.
(** A file that refers to what it referred to. *)
Lemma own_keep_file N d k f v : own N d v -> file_ref f = file_ref (file_at v k) -> own N d (set_file k f v).
Proof. intros O E. apply (own_trade _ _ _ _ (own_set_file N d k f v O)). intros i. rewrite E. lia. Qed.
Lemma offset_ref o f : file_ref (file_set_offset o f) = file_ref f.
Proof. done. Qed.

Lemma close_fair file : fair (vfs_close ops_at file).
Proof.
  intros N v O H1 H3. unfold vfs_close. destruct file as [i|]; [|by apply fair_fail]. apply wp_gets. destruct (f_in_use (file_at v i)) eqn:Eu; cbn [negb]; [|by apply fair_fail].
  destruct (1 <? _). { apply wp_modify, wp_ret. apply (own_more N); [|lia]. apply own_keep_file; [done|]. unfold file_ref. by rewrite Eu. }
  assert (file_ref (file_at v i) = f_node (file_at v i)) as Er by (unfold file_ref; by rewrite Eu).
  apply (wp_seq _ _ (fun _ v' => own N (minus (fun _ => 0) (f_node (file_at v i))) v' /\ v_files v' = v_files v)).
  - destruct (f_node (file_at v i)) as [n|] eqn:En; [|apply wp_ret; split; [|done]; apply (own_trade _ _ _ _ O); intros j; unfold minus; cbn; lia].
    apply wp_gets. pose proof (op_keeps _ op_close (n_mount (node_at v n)) v (fun o Ho => oo_close o Ho)) as Hop.
    apply (wp_seq _ _ (fun _ v' => same v v')); [destruct (mount_op _ _ _ _) as [c|]; [apply Hop|by apply wp_ret, same_refl]|]. intros r v1 S.
    apply (wp_seq _ _ _ _ v1 (unref_own N _ n v1 (own_same N _ v v1 S O))). intros _ v2 (O2 & E2 & _). apply wp_ret. split; [done|]. rewrite E2. apply S.
  - intros r v1 [O1 E1]. apply wp_modify, wp_ret. apply (own_more N); [|lia]. assert (file_at v1 i = file_at v i) as Ef by (unfold file_at; by rewrite E1).
    apply (own_trade _ _ _ _ (own_set_file N _ i _ v1 O1)). intros j. rewrite Ef, Er. unfold minus. cbn. lia.
Qed.
Lemma read_fair file buf size : fair (vfs_read ops_at file buf size).
Proof.
  intros N v O H1 H3. unfold vfs_read. cbn zeta. destruct file as [i|]; [|by apply fair_refuse]. apply wp_gets. destruct (_ || _); [by apply fair_refuse|]. destruct (f_node (file_at v i)) as [n|]; [|by apply fair_refuse].
  apply wp_gets. destruct (_ =? VFS_O_WRONLY); [by apply fair_refuse|]. destruct (bool_decide _); [by apply fair_refuse|]. destruct (_ <=? _); [by apply fair_ret|]. apply wp_gets.
  match goal with |- context [mount_op ops_at op_read ?m v] => pose proof (op_keeps _ op_read m v (fun o Ho => oo_read o Ho)) as Hop end. destruct (mount_op _ _ _ _) as [rd|]; [|by apply fair_refuse].
  apply (wp_seq _ _ _ _ v (quiet_own _ N _ v (Hop _ _ _) O)). intros [r data] v1 O1. destruct (0 <? r); [apply wp_modify|]; apply wp_ret; (apply (own_more N); [|lia]); [by apply own_keep_file|done].
Qed.
Lemma write_fair file buf : fair (vfs_write ops_at file buf).
Proof.
  intros N v O H1 H3. unfold vfs_write. destruct file as [i|]; [|by apply fair_fail]. destruct buf as [data|]; [|by apply fair_fail]. apply wp_gets. destruct (negb _); [by apply fair_fail|].
  destruct (f_node (file_at v i)) as [n|]; [|by apply fair_fail]. apply wp_gets, wp_gets. destruct (_ =? 0); [by apply fair_fail|]. destruct (bool_decide _); [by apply fair_fail|]. destruct (is_readonly _ v); [by apply fair_fail|].
  apply (wp_seq _ _ (fun _ v' => owned N v')); [destruct (flag _ _); [by apply own_keep_file|by apply wp_ret]|]. clear O. intros _ v1 O1. apply wp_gets.
  match goal with |- context [mount_op ops_at op_write ?m v1] => pose proof (op_keeps _ op_write m v1 (fun o Ho => oo_write o Ho)) as Hop end. destruct (mount_op _ _ _ _) as [wr|]; [|by apply fair_fail].
  apply wp_gets. apply (wp_seq _ _ _ _ v1 (quiet_own _ N _ v1 (Hop _ _ _) O1)). intros r v2 O2. apply (wp_seq _ _ (fun _ v' => owned N v')); [|intros _ v3 O3; apply wp_ret; apply (own_more N); [done|lia]].
  destruct (0 <? r); [|by apply wp_ret]. apply wp_modify, wp_modify. cbv beta zeta. set (v3 := set_file _ _ v2). assert (owned N v3) as O3 by (by apply own_keep_file). clearbody v3.
  set (v4 := if _ <? _ then _ else v3). assert (owned N v4) as O4 by (unfold v4; destruct (_ <? _); [|done]; apply (own_same N _ v3); [by apply same_put_node|done]). clearbody v4.
  apply (own_same N _ v4); [by apply same_put_node|done].
Qed.
Lemma seek_fair file offset whence : fair (vfs_seek file offset whence : M W Z).
Proof.
  intros N v O H1 H3. unfold vfs_seek. destruct file as [i|]; [|by apply fair_fail]. apply wp_gets. destruct (negb _); [by apply fair_fail|]. destruct (f_node (file_at v i)) as [n|]; [|by apply fair_fail].
  apply wp_gets. destruct (if whence =? VFS_SEEK_SET then _ else _) as [o|]; [|by apply fair_fail]. destruct (o <? 0); [by apply fair_fail|]. apply wp_modify, wp_ret. apply (own_more N); [|lia]. by apply own_keep_file.
Qed.
Lemma tell_fair file : fair (vfs_tell file : M W Z).
Proof. intros N v O H1 H3. unfold vfs_tell. destruct file as [i|]; [|by apply fair_fail]. apply wp_gets. destruct (negb _); [by apply fair_fail|by apply fair_ret]. Qed.
Lemma quiet_fair {A} (m : M W A) : quiet m -> fair m.
Proof. intros Hm N v O H1 H3. eapply finish; [by apply quiet_own|lia]. Qed.
Lemma truncate_fair file size : fair (vfs_truncate ops_at file size).
Proof.
  intros N v O H1 H3. unfold vfs_truncate. apply wp_gets. destruct (open_node file v) as [n|]; [|by apply fair_fail]. apply wp_gets, wp_gets. pose proof (op_keeps _ op_truncate (n_mount (node_at v n)) v (fun o Ho => oo_truncate o Ho)) as Hop.
  destruct (is_readonly _ _); [by apply fair_fail|]. destruct (mount_op _ _ _ _) as [f|]; [by apply quiet_fair|by apply fair_fail].
Qed.
Lemma sync_fair file : fair (vfs_sync ops_at file).
Proof.
  intros N v O H1 H3. unfold vfs_sync. apply wp_gets. destruct (open_node file v) as [n|]; [|by apply fair_fail]. apply wp_gets. pose proof (op_keeps _ op_sync (n_mount (node_at v n)) v (fun o Ho => oo_sync o Ho)) as Hop.
  destruct (mount_op _ _ _ _) as [f|]; [by apply quiet_fair|by apply fair_ret].
Qed.

Abbreviation zero := (fun _ : nat => 0).
Lemma zero_nonneg : nonneg zero.
Proof. intros i. lia. Qed.
(** The node that vfs_open opens, or its creation. *)
Lemma open_found path p flags N v : owned N v -> 1 <= N -> N + 3 < 2 ^ 32 ->
  wp (found ← vfs_lookup ops_at path;
      match found with
      | Some n => mret (inl (Some n))
      | None =>
          if flag flags VFS_O_CREAT then
            parent ← vfs_lookup ops_at (Some (vfs_parent_path p));
            match parent with
            | None => mret (inr VFS_ERR_NOENT)
            | Some pn =>
                op ← gets (fun v => mount_op ops_at op_create (n_mount (node_at v pn)) v);
                match op with
                | None => vfs_unref_node pn;; mret (inr VFS_ERR_NOSYS)
                | Some create =>
                    result ← create pn (vfs_basename p) (Z.lor VFS_S_IRUSR VFS_S_IWUSR);
                    vfs_unref_node pn;;
                    if negb (result =? VFS_OK) then mret (inr result)
                    else n ← vfs_lookup ops_at path; mret (inl n)
                end
            end
          else mret (inl None)
      end : M W (option nat + Z))
     (fun r v' => own (N + 3) (plus zero (match r with inl n => n | inr _ => None end)) v') v.
Proof.
  intros O H1 H3. apply (wp_seq _ _ _ _ v (lookup_own path N zero v O H1 ltac:(lia) zero_nonneg)). intros [n|] v1 O1; [apply wp_ret; apply (own_more _ _ _ _ O1); lia|].
  assert (owned (N + 1) v1) as O1' by (apply (own_trade _ _ _ _ O1); intros i; unfold plus; cbn; lia). destruct (flag _ _); [|apply wp_ret; apply (own_more _ _ _ _ O1); lia].
  apply (wp_seq _ _ _ _ v1 (lookup_own _ (N + 1) zero v1 O1' ltac:(lia) ltac:(lia) zero_nonneg)). intros [pn|] v2 O2; [|apply wp_ret; apply (own_more _ _ _ _ O2); lia]. apply wp_gets.
  pose proof (op_keeps _ op_create (n_mount (node_at v2 pn)) v2 (fun o Ho => oo_create o Ho)) as Hop. destruct (mount_op _ _ _ _) as [create|].
  - apply (wp_seq _ _ _ _ v2 (quiet_own _ _ _ v2 (Hop _ _ _) O2)). intros result v3 O3. apply (wp_seq _ _ _ _ v3 (unref_back _ _ _ v3 O3)). intros _ v4 O4.
    destruct (negb _); [apply wp_ret; apply (own_more (N + 1 + 1)); [by apply own_plus_none|lia]|]. apply (wp_seq _ _ _ _ v4 (lookup_own path _ zero v4 O4 ltac:(lia) ltac:(lia) zero_nonneg)). intros n v5 O5. apply wp_ret. apply (own_more _ _ _ _ O5). lia.
  - apply (wp_seq _ _ _ _ v2 (unref_back _ _ _ v2 O2)). intros _ v3 O3. apply wp_ret. apply (own_more (N + 1 + 1)); [by apply own_plus_none|lia].
Qed.
Lemma wp_assoc {A B C} (m : M W A) (k : A -> M W B) (h : B -> M W C) Q v : wp ((m ≫= k) ≫= h) Q v -> wp (m ≫= fun x => k x ≫= h) Q v.
Proof. unfold wp, mbind, M_bind. by destruct (m v) as [[v' x]|]. Qed.
Lemma fail_null_fair {A} e : fair (fail_null e : M W (option A)).
Proof. intros N v O H1 H3. apply (wp_mono _ _ _ v (wp_fail_null N zero e v O)). intros r v' [_ O']. apply (own_more N); [done|lia]. Qed.
Lemma null_done {A} N (e : Z) v : owned N v -> wp (fail_null e : M W (option A)) (fun _ v' => owned N v') v.
Proof. intros O. apply (wp_mono _ _ _ v (wp_fail_null N zero e v O)). by intros r v' [_ O']. Qed.
Lemma drop_null {A} N n e v : own N (plus zero (Some n)) v -> wp (vfs_unref_node n;; fail_null e : M W (option A)) (fun _ v' => owned N v') v.
Proof. intros O. apply (wp_mono _ _ _ v (release_null N zero n e v O)). by intros r v' [_ O']. Qed.
(** The caller's reference becomes that of the handle. *)
Lemma own_open_file N n k flags v f : own N (plus zero (Some n)) v -> v_files v !! k = Some f -> f_in_use f = false -> owned N (set_file k (mk_vfile (Some n) 0 flags 1 true) v).
Proof.
  intros O Hk Hf. apply (own_trade _ _ _ _ (own_set_file N _ k _ v O)). intros i. unfold plus. unfold file_at. rewrite (nth_at _ _ _ zero_file Hk). unfold file_ref. rewrite Hf. cbn. lia.
Qed.
Lemma open_fair path flags : fair (vfs_open ops_at path flags).
Proof.
  intros N v O H1 H3. unfold vfs_open. destruct path as [p|]; [|by apply fail_null_fair]. apply wp_assoc. apply (wp_seq _ _ _ _ v (open_found (Some p) p flags N v O H1 H3)). clear O v. set (N3 := N + 3) in *.
  intros [[n|]|e] v O; [|apply null_done; apply (own_trade _ _ _ _ O); intros i; unfold plus; cbn; lia..]. apply wp_gets. destruct (_ && _); [by apply drop_null|]. destruct (_ && _); [by apply drop_null|].
  apply wp_gets. destruct (first_index _ (v_files v)) as [i|] eqn:Ei; [|by apply drop_null]. apply first_index_lt in Ei as (Hi & f & Ef & Hf). apply negb_true_iff in Hf. apply wp_modify.
  set (v1 := set_file _ _ v). assert (owned N3 v1) as O1 by (by apply (own_open_file N3 n i flags v f)). assert (file_at v1 i = mk_vfile (Some n) 0 flags 1 true) as Ef1.
  { unfold file_at, v1, set_file. cbn. by rewrite nth_insert, Nat.eqb_refl, (proj2 (Nat.ltb_lt _ _) Hi). }
  clearbody v1. apply wp_gets. pose proof (op_keeps _ op_open (n_mount (node_at v1 n)) v1 (fun o Ho => oo_open o Ho)) as Hop.
  apply (wp_seq _ _ (fun _ v' => same v1 v')); [destruct (mount_op _ _ _ _) as [g|]; [apply Hop|by apply wp_ret, same_refl]|]. intros result v2 S2. pose proof (own_same N3 _ v1 v2 S2 O1) as O2.
  assert (file_at v2 i = file_at v1 i) as Ef2 by (unfold file_at; by rewrite (sm_files _ _ S2)). rewrite Ef1 in Ef2. clear S2 Hop O1 Ef1. destruct (negb _).
  - apply wp_modify. cbv beta zeta. rewrite Ef2. cbn [f_node f_offset f_flags f_ref_count]. apply drop_null. apply (own_trade _ _ _ _ (own_set_file N3 _ i _ v2 O2)). intros j. rewrite Ef2. unfold plus. cbn. lia.
  - apply (wp_seq _ _ (fun _ v' => owned N3 v')).
    + destruct (_ && _); [|by apply wp_ret]. apply wp_gets. pose proof (op_keeps _ op_truncate (n_mount (node_at v2 n)) v2 (fun o Ho => oo_truncate o Ho)) as Ht.
      apply (wp_seq _ _ (fun _ v' => owned N3 v')); [|intros _ v3 O3; apply (own_same N3 _ v3); [by apply same_put_node|done]]. destruct (mount_op _ _ _ _) as [t|]; [|by apply wp_ret].
      apply (wp_seq _ _ _ _ v2 (quiet_own _ N3 _ v2 (Ht _ _) O2)). intros x v3 O3. by apply wp_ret.
    + intros _ v3 O3. destruct (flag _ _); [apply wp_modify; apply wp_ret; by apply own_keep_file|by apply wp_ret].
Qed.

(** ** Directories and names *)

Lemma opendir_fair path : fair (vfs_opendir ops_at path).
Proof.
  intros N v O H1 H3. unfold vfs_opendir. destruct path as [p|]; [|by apply fail_null_fair]. apply (wp_seq _ _ _ _ v (lookup_own (Some p) N zero v O H1 ltac:(lia) zero_nonneg)). clear O v. intros [n|] v O.
  - assert (own (N + 3) (plus zero (Some n)) v) as O3 by (apply (own_more _ _ _ _ O); lia). apply wp_gets. destruct (negb _); [by apply drop_null|]. apply wp_gets. destruct (first_index _ (v_dirs v)) as [i|] eqn:Ei; [|by apply drop_null].
    apply first_index_lt in Ei as (Hi & x & Ex & Hx). apply negb_true_iff in Hx. apply wp_modify, wp_ret. apply (own_trade _ _ _ _ (own_set_dir _ _ i _ v O3)). intros j. unfold plus, dir_at. rewrite (nth_at _ _ _ zero_dir Ex). unfold dir_ref. rewrite Hx. cbn. lia.
  - apply wp_ret. apply (own_le (N + 1) (N + 3) (plus zero None)); [done|lia|]. intros i. unfold plus. cbn. lia.
Qed.
Lemma readdir_fair dir : fair (vfs_readdir ops_at dir).
Proof.
  intros N v O H1 H3. unfold vfs_readdir. apply wp_gets. destruct (dir ≫= _) as [[i n]|]; [|by apply fail_null_fair]. apply wp_gets. pose proof (op_keeps _ op_readdir (n_mount (node_at v n)) v (fun o Ho => oo_readdir o Ho)) as Hop.
  destruct (mount_op _ _ _ _) as [rd|]; [|by apply fail_null_fair]. apply wp_gets. apply (wp_seq _ _ _ _ v (quiet_own _ N _ v (Hop _ _) O)). intros [e|] v1 O1; [|apply wp_ret; apply (own_more N); [done|lia]].
  apply wp_modify, wp_modify, wp_ret. cbv beta zeta. set (v2 := put_dirent e v1). assert (owned N v2) as O2 by (apply (own_same N _ v1); [by split|done]). apply (own_more N); [|lia].
  apply (own_trade _ _ _ _ (own_set_dir N _ i _ v2 O2)). intros j. unfold dir_ref. cbn. lia.
Qed.
Lemma closedir_fair dir : fair (vfs_closedir dir : M W Z).
Proof.
  intros N v O H1 H3. unfold vfs_closedir. destruct dir as [i|]; [|by apply fair_fail]. apply wp_gets. destruct (d_in_use (dir_at v i)) eqn:Eu; cbn [negb]; [|by apply fair_fail].
  apply (wp_seq _ _ (fun _ v' => own N (minus zero (d_node (dir_at v i))) v' /\ v_dirs v' = v_dirs v)).
  - destruct (d_node (dir_at v i)) as [n|]; [|apply wp_ret; split; [|done]; apply (own_trade _ _ _ _ O); intros j; unfold minus; cbn; lia]. apply (wp_mono _ _ _ v (unref_own N _ n v O)). by intros _ v' (? & _ & ?).
  - intros _ v1 [O1 E1]. apply wp_modify, wp_ret. apply (own_more N); [|lia]. apply (own_trade _ _ _ _ (own_set_dir N _ i _ v1 O1)). intros j. assert (dir_at v1 i = dir_at v i) as -> by (unfold dir_at; by rewrite E1).
    unfold dir_ref at 1. rewrite Eu. unfold minus. cbn. lia.
Qed.
Lemma on_parent_own {A} (P : A -> Prop) sel (call : A -> M W Z) pn N v : (forall o, ops_own o -> opt P (sel o)) -> (forall f, P f -> quiet (call f)) -> own N (plus zero (Some pn)) v ->
  wp (on_parent ops_at sel call pn) (fun _ v' => owned N v') v.
Proof.
  intros Hsel Hcall O. unfold on_parent. apply wp_gets. pose proof (op_keeps P sel (n_mount (node_at v pn)) v Hsel) as Hop. destruct (mount_op _ _ _ _) as [f|]; [|by apply release_fail]. apply wp_gets.
  destruct (is_readonly _ _); [by apply release_fail|]. apply (wp_seq _ _ _ _ v (quiet_own _ N _ v (Hcall f Hop) O)). intros r v1 O1. apply (wp_seq _ _ _ _ v1 (unref_back N zero pn v1 O1)). intros _ v2 O2. by apply wp_ret.
Qed.
(** The parent's operation on a name. *)
Lemma parent_own {A} (P : A -> Prop) sel (call : nat -> A -> M W Z) p N v : (forall o, ops_own o -> opt P (sel o)) -> (forall n f, P f -> quiet (call n f)) -> owned N v -> 1 <= N -> N + 1 < 2 ^ 32 ->
  wp (parent ← vfs_lookup ops_at (Some (vfs_parent_path p)); match parent with None => fail VFS_ERR_NOENT | Some pn => on_parent ops_at sel (call pn) pn end) (fun _ v' => owned (N + 1) v') v.
Proof.
  intros Hsel Hcall O H1 H2. apply (wp_seq _ _ _ _ v (lookup_own _ N zero v O H1 H2 zero_nonneg)). intros [pn|] v1 O1; [apply (on_parent_own P); [done|apply Hcall|done]|].
  apply wp_fail. apply (own_trade _ _ _ _ O1). intros i. unfold plus. cbn. lia.
Qed.
Lemma make_entry_fair sel path mode : (forall o : vfs_ops W, ops_own o -> opt (fun f => forall n x y, quiet (f n x y)) (sel o)) -> fair (make_entry ops_at sel path mode).
Proof.
  intros Hsel N v O H1 H3. unfold make_entry. destruct path as [p|]; [|by apply fair_fail]. apply (wp_seq _ _ _ _ v (lookup_own (Some p) N zero v O H1 ltac:(lia) zero_nonneg)). intros r v1 O1.
  assert (owned (N + 1) v1) as O1' by (apply (own_trade _ _ _ _ O1); intros i; unfold plus; pose proof (one_range r i); lia). destruct r as [n|]; [eapply finish; [by apply wp_fail|lia]|].
  apply (wp_seq _ _ _ _ v1 (lookup_own _ (N + 1) zero v1 O1' ltac:(lia) ltac:(lia) zero_nonneg)). intros [pn|] v2 O2.
  - apply (finish (N + 1 + 1)); [|lia]. apply wp_gets. destruct (negb _); [by apply release_fail|]. apply (on_parent_own _ sel _ pn _ v2 Hsel); [|done]. intros f Hf. apply Hf.
  - apply (finish (N + 1 + 1)); [|lia]. apply wp_fail. apply (own_trade _ _ _ _ O2). intros i. unfold plus. cbn. lia.
Qed.
Lemma rmdir_fair path : fair (vfs_rmdir ops_at path).
Proof.
  intros N v O H1 H3. unfold vfs_rmdir. destruct path as [p|]; [|by apply fair_fail]. destruct (bool_decide _); [by apply fair_fail|]. apply (finish (N + 1)); [|lia].
  apply (parent_own _ op_rmdir (fun pn f => f pn (vfs_basename p)) p N v (fun o Ho => oo_rmdir o Ho)); [|done|done|lia]. intros n f Hf. apply Hf.
Qed.
Lemma unlink_fair path : fair (vfs_unlink ops_at path).
Proof.
  intros N v O H1 H3. unfold vfs_unlink. destruct path as [p|]; [|by apply fair_fail]. apply (wp_seq _ _ _ _ v (lookup_own (Some p) N zero v O H1 ltac:(lia) zero_nonneg)). intros [n|] v1 O1.
  - apply wp_gets. apply (wp_seq _ _ _ _ v1 (unref_back _ _ _ v1 O1)). intros _ v2 O2. destruct (is_dir_node n v1); [eapply finish; [by apply wp_fail|lia]|]. apply (finish (N + 1 + 1)); [|lia].
    apply (parent_own _ op_unlink (fun pn f => f pn (vfs_basename p)) p (N + 1) v2 (fun o Ho => oo_unlink o Ho)); [|done|lia|lia]. intros m f Hf. apply Hf.
  - apply (finish (N + 1)); [|lia]. apply wp_fail. apply (own_trade _ _ _ _ O1). intros i. unfold plus. cbn. lia.
Qed.
Lemma rename_fair oldpath newpath : fair (vfs_rename ops_at oldpath newpath).
Proof.
  intros N v O H1 H3. unfold vfs_rename. destruct oldpath as [o|]; [|by apply fair_fail]. destruct newpath as [n|]; [|by apply fair_fail]. cbn zeta. apply (wp_seq _ _ _ _ v (lookup_own _ N zero v O H1 ltac:(lia) zero_nonneg)). intros [op|] v1 O1;
    [|apply (finish (N + 1)); [|lia]; apply wp_fail; apply (own_trade _ _ _ _ O1); intros i; unfold plus; cbn; lia].
  apply (wp_seq _ _ _ _ v1 (lookup_own _ (N + 1) _ v1 O1 ltac:(lia) ltac:(lia) (plus_nonneg _ (Some op) zero_nonneg))). intros [np|] v2 O2;
    [|apply (finish (N + 1 + 1)); [|lia]; apply release_fail; apply (own_trade _ _ _ _ O2); intros i; unfold plus; cbn; lia].
  assert (own (N + 3) (plus (plus zero (Some np)) (Some op)) v2) as O3 by (apply (own_le _ (N + 3) _ (plus (plus zero (Some np)) (Some op)) _ O2); [lia|]; intros i; unfold plus; lia).
  assert (forall e v', own (N + 3) (plus (plus zero (Some np)) (Some op)) v' -> wp (vfs_unref_node op;; vfs_unref_node np;; fail e) (fun _ v'' => owned (N + 3) v'') v') as Hrel.
  { intros e v' O'. apply (wp_seq _ _ _ _ v' (unref_back _ _ _ v' O')). intros _ v'' O''. by apply release_fail. }
  apply wp_gets, wp_gets. destruct (negb _); [by apply Hrel|]. apply wp_gets, wp_gets. pose proof (op_keeps _ op_rename (n_mount (node_at v2 op)) v2 (fun o Ho => oo_rename o Ho)) as Hop. destruct (mount_op _ _ _ _) as [f|]; [|by apply Hrel].
  destruct (is_readonly _ _); [by apply Hrel|]. apply (wp_seq _ _ _ _ v2 (quiet_own _ _ _ v2 (Hop _ _ _ _) O3)). intros r v3 O4. apply (wp_seq _ _ _ _ v3 (unref_back _ _ _ v3 O4)). intros _ v4 O5.
  apply (wp_seq _ _ _ _ v4 (unref_back _ _ _ v4 O5)). intros _ v5 O6. by apply wp_ret.
Qed.
Lemma stat_node_quiet n : quiet (stat_node ops_at n).
Proof.
  intros v. unfold stat_node. apply wp_gets. pose proof (op_keeps _ op_stat (n_mount (node_at v n)) v (fun o Ho => oo_stat o Ho)) as Hop. destruct (mount_op _ _ _ _) as [f|]; [apply Hop|]. apply wp_gets, wp_ret, same_refl.
Qed.
Lemma none_back N r v : own N (plus zero r) v -> owned N v.
Proof. intros O. apply (own_trade _ _ _ _ O). intros i. unfold plus. pose proof (one_range r i). lia. Qed.
Lemma stat_fair path stat : fair (vfs_stat ops_at path stat).
Proof.
  intros N v O H1 H3. unfold vfs_stat. destruct path as [p|]; [|by apply fair_refuse]. destruct (stat =? 0); [by apply fair_refuse|]. apply (wp_seq _ _ _ _ v (lookup_own (Some p) N zero v O H1 ltac:(lia) zero_nonneg)). intros [n|] v1 O1; (apply (finish (N + 1)); [|lia]).
  - apply (wp_seq _ _ _ _ v1 (quiet_own _ _ _ v1 (stat_node_quiet n) O1)). intros r v2 O2. apply (wp_seq _ _ _ _ v2 (unref_back _ _ _ v2 O2)). intros _ v3 O3. by apply wp_ret.
  - apply wp_ret. by apply (none_back _ None).
Qed.
Lemma fstat_fair file stat : fair (vfs_fstat ops_at file stat).
Proof.
  intros N v O H1 H3. unfold vfs_fstat. cbn zeta. destruct file as [i|]; [|by apply fair_refuse]. apply wp_gets. destruct (_ || _); [by apply fair_refuse|]. destruct (f_node _) as [n|]; [|by apply fair_refuse]. apply quiet_fair; [apply stat_node_quiet|done..].
Qed.
Lemma ask_fair path test : fair (ask_node ops_at path test).
Proof.
  intros N v O H1 H3. unfold ask_node. apply (wp_seq _ _ _ _ v (lookup_own path N zero v O H1 ltac:(lia) zero_nonneg)). intros [n|] v1 O1; (apply (finish (N + 1)); [|lia]).
  - apply wp_gets. apply (wp_seq _ _ _ _ v1 (unref_back _ _ _ v1 O1)). intros _ v2 O2. by apply wp_ret.
  - apply wp_ret. by apply (none_back _ None).
Qed.

(** ** Mounting *)

Lemma mount_fair path type device : fair (vfs_mount ops_at path type device).
Proof.
  intros N v O H1 H3. unfold vfs_mount. destruct path as [p|]; [|by apply fair_fail]. destruct type as [t|]; [|by apply fair_fail]. destruct (vfs_normalize_path p) as [p'|]; [|by apply fair_fail]. apply wp_gets.
  destruct (head _) as [ft|]; [|by apply fair_fail]. apply wp_gets. destruct (existsb _ _); [by apply fair_fail|]. apply wp_gets. destruct (first_index _ _) as [i|] eqn:Ei; [|by apply fair_fail]. apply first_index_lt in Ei as (Hi & _). apply wp_modify.
  set (v1 := set_mount _ _ v). assert (owned N v1) as O1 by (by apply own_clear_mount).
  assert (m_root (mount_at v1 i) = None) as Er by (unfold mount_at, v1, set_mount; cbn; by rewrite nth_insert, Nat.eqb_refl, (proj2 (Nat.ltb_lt _ _) Hi)). clearbody v1. apply wp_gets.
  pose proof (op_keeps _ op_mount (Some i) v1 (fun o Ho => oo_mount o Ho)) as Hop. apply (finish N); [|lia]. apply (wp_seq _ _ (fun _ v' => owned N v')); [destruct (mount_op _ _ _ _) as [f|]; [by apply Hop|by apply wp_ret]|]. intros r v2 O2. destruct (negb _).
  - apply wp_modify. apply wp_fail. by apply own_keep_mount.
  - apply wp_modify. set (v3 := put_mounts _ _ v2). assert (owned N v3) as O3 by (apply (own_same N _ v2); [by split|done]). clearbody v3. destruct (bool_decide _); [|by apply wp_ret]. apply wp_modify, wp_ret. apply (own_same N _ v3); [by split|done].
Qed.
(** While a directory is open nothing may be unmounted: vfs_unmount asks for files only. *)
Lemma unmount_own path N v : owned N v -> Forall (fun x => d_in_use x = false) (v_dirs v) -> wp (vfs_unmount ops_at path) (fun _ v' => owned N v') v.
Proof.
  intros O Hd. unfold vfs_unmount. destruct path as [p|]; [|by apply wp_fail]. destruct (vfs_normalize_path p) as [p'|]; [|by apply wp_fail]. apply wp_gets. destruct (first_index _ _) as [i|]; [|by apply wp_fail]. apply wp_gets.
  destruct (existsb _ _) eqn:Eb; [by apply wp_fail|]. apply wp_gets. pose proof (op_keeps _ op_unmount (Some i) v (fun o Ho => oo_unmount o Ho)) as Hop.
  apply (wp_seq _ _ (fun _ v' => owned N v')); [destruct (mount_op _ _ _ _) as [f|]; [by apply Hop|by apply wp_ret]|]. intros r v1 O1. destruct (negb _); [by apply wp_fail|]. apply wp_modify, wp_modify, wp_modify, wp_ret.
  set (v2 := if bool_decide _ then _ else v1). assert (owned N v2) as O2 by (unfold v2; case_bool_decide; [apply (own_same N _ v1); [by split|done]|done]). clearbody v2.
  set (v3 := set_mount _ _ v2). assert (owned N v3) as O3 by (by apply own_keep_mount). apply (own_same N _ v3); [by split|done].
Qed.

Lemma cleared_owned N v : 0 <= N -> owned N (cleared_tables v).
Proof.
  intros HN. assert (forall i, holders (cleared_tables v) i = 0) as Hh by (intros i; unfold holders, cleared_tables; cbn [v_files v_dirs v_mounts]; by rewrite !count_repeat).
  assert (forall i, node_at (cleared_tables v) i = zero_node) as Hn by (intros i; apply nth_repeat). split; [unfold cleared_tables; cbn [v_nodes v_used]; by rewrite !repeat_length| | |].
  - intros i. rewrite Hh, Hn. cbn. lia.
  - intros i. rewrite Hh. cbn. lia.
  - intros m i. unfold mount_at, cleared_tables. cbn [v_mounts]. by rewrite nth_repeat.
Qed.
Lemma init_fair : fair (vfs_init : M W Z).
Proof. intros N v O H1 H3. apply cleared_owned. lia. Qed.
Lemma register_fair name ops : fair (vfs_register_fs name ops : M W Z).
Proof.
  apply quiet_fair. intros v. unfold vfs_register_fs. destruct name as [n|]; [|apply wp_ret, same_refl]. destruct (ops =? 0); [apply wp_ret, same_refl|]. apply wp_gets. destruct (head _); [apply wp_ret, same_refl|].
  apply wp_gets. destruct (16 <=? _); [apply wp_ret, same_refl|by apply wp_modify, wp_ret].
Qed.
Lemma unregister_fair name : fair (vfs_unregister_fs name : M W Z).
Proof. apply quiet_fair. intros v. unfold vfs_unregister_fs. destruct name as [n|]; [|apply wp_ret, same_refl]. apply wp_gets. destruct (drop_fstype _ _); [by apply wp_modify, wp_ret|apply wp_ret, same_refl]. Qed.
End Ops.

(** ** FAT32 *)

Section FatOwn.
Context {D P : Type} `{BlockDevice D} `{PageAllocator P}.
Abbreviation world := (fat_world D P).
Implicit Types v : vfs world.

Lemma in_world_same (f : world -> world) v : same v (in_world f v).
Proof. apply same_world. Qed.
Lemma quiet_ret {A} (x : A) : quiet (mret x : M world A).
Proof. intros v. apply same_refl. Qed.
Lemma quiet_gets {A B} (f : vfs world -> A) (k : A -> M world B) : (forall x, quiet (k x)) -> quiet (gets f ≫= k).
Proof. intros Hk v. apply Hk. Qed.
Lemma quiet_seq {A B} (m : M world A) (k : A -> M world B) : quiet m -> (forall x, quiet (k x)) -> quiet (m ≫= k).
Proof. intros Hm Hk v. apply (wp_seq _ _ _ _ v (Hm v)). intros x v1 S1. apply (wp_mono _ _ _ v1 (Hk x v1)). intros y v2 S2. by apply (same_trans v v1). Qed.
Lemma quiet_volume {A} a (f : fat32_fs D -> option (fat32_fs D * A)) : quiet (on_volume a f : M world A).
Proof. intros v. unfold wp, on_volume. destruct (w_volumes (v_world v) a) as [fs|]; [|done]. cbn. destruct (f fs) as [[fs' r]|]; [|done]. cbn. apply same_world. Qed.
Lemma quiet_handle a : quiet (handle_at a : M world fat32_file).
Proof. intros v. unfold wp, handle_at. destruct (w_handles (v_world v) a); [|done]. apply same_refl. Qed.
Lemma quiet_page : quiet (alloc_page : M world Z).
Proof. intros v. unfold wp, alloc_page. destruct (pa_alloc 1 _) as [a p]. apply same_world. Qed.
Lemma quiet_world (f : world -> world) : quiet (modify (in_world f) : M world unit).
Proof. intros v. apply same_world. Qed.
Lemma quiet_unmount a d : quiet (unmount_volume a d : M world Z).
Proof. intros v. unfold wp, unmount_volume. destruct (w_volumes (v_world v) a) as [fs|]; [|done]. cbn. destruct (fat32_unmount fs (w_pages (v_world v))) as [[fs' p] r]. apply same_world. Qed.
Lemma quiet_parent n : quiet (parent_handle n : M world (option fat32_file)).
Proof. apply quiet_gets. intros x. destruct (_ || _); [apply quiet_ret|]. apply quiet_seq; [apply quiet_handle|]. intros f. apply quiet_ret. Qed.
Create HintDb quiet discriminated.
#[local] Hint Resolve quiet_ret quiet_volume quiet_handle quiet_page quiet_world quiet_unmount quiet_parent : quiet.

(** A fresh node that is filled in or given back. *)
Lemma fresh_node N d i n v : own N (plus d (Some i)) v -> 1 <= N -> holders v i = 0 -> d i = 0 -> (i < length (v_nodes v))%nat -> n_ref_count n = 1 -> own N (plus d (Some i)) (set_node i n v).
Proof.
  intros O HN Hh Hz Hi Hr. apply (own_node N N (plus d (Some i))); [done|lia|done|done| |lia| |].
  - unfold plus. rewrite one_self, Hr. lia.
  - apply (ow_used _ _ _ O).
  - intros m Hm. exfalso. pose proof (holders_mount v m i) as H1. rewrite Hm, one_self in H1. lia.
Qed.
Lemma fresh_free N d i v : own N (plus d (Some i)) v -> holders v i = 0 -> d i = 0 -> own N d (put_used (<[i := false]> (v_used v)) v).
Proof. intros O Hh Hz. apply (own_flag N (plus d (Some i))); [done| |intros _; lia]. intros j. unfold plus. pose proof (one_range (Some i) j). lia. Qed.
Lemma finddir_own n t N d v : own N d v -> 1 <= N -> nonneg d -> wp (fat32_vfs_finddir n t : M world (option nat)) (fun r v' => own N (plus d r) v') v.
Proof.
  intros O HN Hd. unfold fat32_vfs_finddir. apply wp_gets. destruct (_ || _); [by apply wp_ret, own_plus_none|]. apply (wp_seq _ _ _ _ v (quiet_own _ N d v (quiet_handle _) O)). clear O. intros f v1 O.
  apply (wp_seq _ _ _ _ v1 (quiet_own _ N d v1 (quiet_volume _ _) O)). clear O. intros [e|] v2 O; [|by apply wp_ret, own_plus_none]. apply (wp_seq _ _ _ _ v2 (alloc_own N d v2 O HN Hd)). clear O. intros [i|] v3 (O & _ & Hf); [|by apply wp_ret].
  destruct (Hf i eq_refl) as (Hh & Hz & Hi). clear Hf. apply (wp_seq _ _ _ _ v3 (quiet_page v3)). intros page v4 S4. pose proof (own_same _ _ _ _ S4 O) as O4. rewrite <- (same_holders _ _ i S4) in Hh. rewrite <- (sm_nodes _ _ S4) in Hi. clear S4 O.
  destruct (page =? 0); [apply wp_modify, wp_ret; apply own_plus_none; by apply fresh_free|]. apply wp_modify, wp_modify, wp_ret. apply fresh_node; [|done|done|done|done|done]. apply (own_same _ _ v4); [apply same_world|done].
Qed.
Lemma fat_mount_own i dev N v : owned N v -> 1 <= N -> m_root (mount_at v i) = None -> wp (fat32_vfs_mount i dev : M world Z) (fun _ v' => owned N v') v.
Proof.
  intros O HN Hr. unfold fat32_vfs_mount. destruct (dev =? 0); [by apply wp_ret|]. apply (wp_seq _ _ (fun _ v' => same v v')).
  { unfold wp. destruct (fat32_mount _ _) as [r p]. apply same_world. }
  intros [fs|] v1 S1; [|apply wp_ret; by apply (own_same _ _ v)]. cbn zeta. pose proof (own_same _ _ _ _ S1 O) as O1. assert (m_root (mount_at v1 i) = None) as Hr1 by (unfold mount_at; by rewrite (sm_mounts _ _ S1)). clear S1 O Hr v.
  apply wp_modify. set (v2 := in_world _ v1). assert (owned N v2) as O2 by (apply (own_same _ _ v1); [apply same_world|done]). assert (m_root (mount_at v2 i) = None) as Hr2 by done. clearbody v2. clear O1 Hr1 v1. apply wp_modify.
  set (v3 := set_mount _ _ v2). assert (owned N v3) as O3 by (by apply own_keep_mount). assert (m_root (mount_at v3 i) = None) as Hr3 by (unfold mount_at, v3, set_mount; cbn; rewrite nth_insert; by destruct (_ && _)).
  clearbody v3. clear O2 Hr2 v2. apply (wp_seq _ _ _ _ v3 (alloc_own N _ v3 O3 HN zero_nonneg)). intros [r|] v4 (O4 & Em & Hf).
  2:{ apply (wp_seq _ _ _ _ v4 (quiet_own _ N _ v4 (quiet_unmount _ _) O4)). intros x v5 O5. apply wp_ret. by apply (none_back _ None). }
  destruct (Hf r eq_refl) as (Hh & Hz & Hl). clear Hf. assert (m_root (mount_at v4 i) = None) as Hr4 by (unfold mount_at; by rewrite Em). clear O3 Hr3 Em v3. apply (wp_seq _ _ _ _ v4 (quiet_page v4)). intros page v5 S5.
  pose proof (own_same _ _ _ _ S5 O4) as O5. rewrite <- (same_holders _ _ r S5) in Hh. rewrite <- (sm_nodes _ _ S5) in Hl. assert (m_root (mount_at v5 i) = None) as Hr5 by (unfold mount_at; by rewrite (sm_mounts _ _ S5)). clear S5 O4 Hr4 v4. destruct (page =? 0).
  - apply wp_modify. set (v6 := put_used _ v5). assert (owned N v6) as O6 by (by apply fresh_free). apply (wp_seq _ _ _ _ v6 (quiet_own _ N _ v6 (quiet_unmount _ _) O6)). intros x v7 O7. by apply wp_ret.
  - apply wp_modify, wp_modify, wp_modify, wp_ret. set (v6 := in_world _ v5). assert (own N (plus (fun _ => 0) (Some r)) v6) as O6 by (apply (own_same _ _ v5); [apply same_world|done]). set (node := mk_node _ _ _ _ _ _ _ _ _ _ _ _ _ _ _ _).
    assert (own N (plus (fun _ => 0) (Some r)) (set_node r node v6)) as O7 by (by apply fresh_node). eapply own_trade; [apply (own_set_mount N _ i _ _ O7)|].
    { intros r' Er. injection Er as <-. unfold node_at, set_node. cbn [put_nodes v_nodes]. rewrite nth_insert, Nat.eqb_refl. change (length (v_nodes v6)) with (length (v_nodes v5)). by rewrite (proj2 (Nat.ltb_lt _ _) Hl). }
    intros j. change (mount_at (set_node r node v6) i) with (mount_at v5 i). rewrite Hr5. unfold plus. cbn [one m_root mount_set_root]. lia.
Qed.
(** The root belongs to the mount alone when no file and no directory is open on it. *)
Lemma root_alone N i r v : owned N v -> Forall (fun x => d_in_use x = false) (v_dirs v) -> existsb (file_on i v) (v_files v) = false -> m_root (mount_at v i) = Some r -> holders v r <= 1.
Proof.
  intros O Hd Hf Hr. pose proof (ow_root _ _ _ O) as R. unfold holders. rewrite (count_zero file_ref), (count_zero dir_ref).
  - assert (forall l k, (forall j x, l !! j = Some x -> m_root x = Some r -> k + j = i)%nat -> count m_root l r <= 1) as Hc.
    { induction l as [|x l IH]; intros k Hk; [cbn; lia|]. rewrite count_cons. assert (count m_root l r <= 1) as Hl by (apply (IH (S k)); intros j y Hj Hy; specialize (Hk (S j) y Hj Hy); lia).
      destruct (decide (m_root x = Some r)) as [Ex|Ex]; [|destruct (m_root x) as [y|]; [rewrite one_other by congruence|]; cbn; lia].
      rewrite Ex, one_self. rewrite (count_zero m_root l r); [lia|]. intros j y Hj Hy. pose proof (Hk 0%nat x eq_refl Ex). pose proof (Hk (S j) y Hj Hy). lia. }
    pose proof (Hc (v_mounts v) 0%nat) as H1. apply H1. intros j x Hj Hx. cbn. assert (mount_at v j = x) as Ej by (unfold mount_at; by apply nth_at). pose proof (R j r ltac:(by rewrite Ej)) as R1. pose proof (R i r Hr). congruence.
  - intros k x Hk. unfold dir_ref. rewrite Forall_lookup in Hd. by rewrite (Hd k x Hk).
  - intros k x Hk Hx. unfold file_ref in Hx. destruct (f_in_use x) eqn:Eu; [|done]. assert (existsb (file_on i v) (v_files v) = true); [|congruence]. apply existsb_exists. exists x. split; [apply list_elem_of_In; by apply list_elem_of_lookup_2 in Hk|].
    unfold file_on. rewrite Eu, Hx. cbn. apply bool_decide_eq_true_2. by apply R.
Qed.
Lemma fat_unmount_own i N v : owned N v -> Forall (fun x => d_in_use x = false) (v_dirs v) -> existsb (file_on i v) (v_files v) = false -> wp (fat32_vfs_unmount i : M world Z) (fun _ v' => owned N v') v.
Proof.
  intros O Hd Hf. unfold fat32_vfs_unmount. apply wp_gets. destruct (_ =? 0); [by apply wp_ret|]. apply (wp_seq _ _ (fun _ v' => owned N v')).
  - destruct (m_root (mount_at v i)) as [r|] eqn:Er; [|by apply wp_ret]. pose proof (root_alone N i r v O Hd Hf Er) as Hh. apply wp_gets. apply (wp_seq _ _ (fun _ v' => same v v')); [destruct (negb _); [apply quiet_world|apply wp_ret, same_refl]|].
    intros _ v1 S1. pose proof (own_same _ _ _ _ S1 O) as O1. rewrite <- (same_holders _ _ r S1) in Hh. assert (m_root (mount_at v1 i) = Some r) as Er1 by (unfold mount_at; by rewrite (sm_mounts _ _ S1)). apply wp_modify.
    set (v2 := put_used _ v1). assert (own N (minus (fun _ => 0) (Some r)) v2) as O2 by (apply (own_flag N (fun _ => 0)); [done|intros j; unfold minus; pose proof (one_range (Some r) j); lia|]; intros _; unfold minus; rewrite one_self; lia).
    eapply own_trade; [apply (own_set_mount N _ i (mount_set_root None (mount_at v2 i)) v2 O2); by intros|]. intros j. change (mount_at v2 i) with (mount_at v1 i). rewrite Er1. unfold minus. cbn [one m_root mount_set_root]. lia.
  - intros _ v1 O1. apply (wp_seq _ _ _ _ v1 (quiet_own _ N _ v1 (quiet_unmount _ _) O1)). intros x v2 O2. apply wp_modify, wp_ret. by apply own_keep_mount.
Qed.

Lemma fat_write_quiet n data off : quiet (fat32_vfs_write n data off : M world Z).
Proof.
  apply quiet_gets. intros a. destruct (a =? 0); [auto with quiet|]. apply quiet_seq; [auto with quiet|]. intros f. apply quiet_seq; [auto with quiet|]. intros [e r]. apply quiet_seq; [auto with quiet|]. intros _.
  apply quiet_seq; [|auto with quiet]. destruct (0 <? r); [|auto with quiet]. intros v. by apply same_put_node.
Qed.
Lemma fat32_ops_own a : ops_own (fat32_ops_at a : vfs_ops world).
Proof.
  unfold fat32_ops_at. destruct (a =? FAT32_OPS); [|by split]. split; try exact Logic.I; cbn.
  - intros n flags. apply quiet_gets. auto with quiet.
  - intros n. apply quiet_gets. intros node. destruct (n_mount node) as [i|]; [|auto with quiet]. destruct (n_dirty node); [|auto with quiet]. apply quiet_gets. intros x. apply quiet_seq; auto with quiet.
  - intros n size off. apply quiet_gets. intros x. destruct (x =? 0); [auto with quiet|]. apply quiet_seq; auto with quiet.
  - apply fat_write_quiet.
  - intros n index. apply quiet_gets. intros node. destruct (_ || _); [auto with quiet|]. apply quiet_seq; [auto with quiet|]. intros f. apply quiet_seq; auto with quiet.
  - intros n name perm. apply quiet_seq; [auto with quiet|]. intros [f|]; auto with quiet.
  - intros n name perm. apply quiet_seq; [auto with quiet|]. intros [f|]; auto with quiet.
  - intros n name. apply quiet_seq; [auto with quiet|]. intros [f|]; auto with quiet.
  - intros n. apply quiet_gets. intros node. apply quiet_seq; [|auto with quiet]. destruct (_ =? 0); [auto with quiet|]. apply quiet_seq; auto with quiet.
  - apply finddir_own.
  - apply fat_mount_own.
  - apply fat_unmount_own.
Qed.
End FatOwn.

(** ** Sequences of calls *)

(** A call of the interface (vfs.h). *)
Inductive vfs_call :=
| Cinit | Cregister (name : option (list Z)) (ops : Z) | Cunregister (name : option (list Z))
| Cmount (path type : option (list Z)) (device : Z) | Cunmount (path : option (list Z))
| Copen (path : option (list Z)) (flags : Z) | Cclose (file : option nat) | Cread (file : option nat) (buf size : Z)
| Cwrite (file : option nat) (buf : option (list Z)) | Cseek (file : option nat) (offset whence : Z) | Ctell (file : option nat)
| Ctruncate (file : option nat) (size : Z) | Csync (file : option nat)
| Copendir (path : option (list Z)) | Creaddir (dir : option nat) | Cclosedir (dir : option nat)
| Cmkdir (path : option (list Z)) (mode : Z) | Crmdir (path : option (list Z)) | Ccreate (path : option (list Z)) (mode : Z)
| Cunlink (path : option (list Z)) | Crename (oldpath newpath : option (list Z))
| Cstat (path : option (list Z)) (stat : Z) | Cfstat (file : option nat) (stat : Z)
| Cexists (path : option (list Z)) | Cis_directory (path : option (list Z)) | Cis_file (path : option (list Z)).

(** What a call returns: a number, or a file or directory handle. *)
Inductive vfs_result := Rnum (n : Z) | Rfile (f : option nat) | Rdir (d : option nat).

Section Calls.
Context {W : Type} (ops_at : Z -> vfs_ops W).

Definition num (m : M W Z) : M W vfs_result := r ← m; mret (Rnum r).
Definition bool_num (m : M W bool) : M W vfs_result := r ← m; mret (Rnum (Z.b2z r)).
Definition fst_num {A} (m : M W (Z * A)) : M W vfs_result := r ← m; mret (Rnum (fst r)).
Definition run_call (c : vfs_call) : M W vfs_result :=
  match c with
  | Cinit => num vfs_init
  | Cregister name ops => num (vfs_register_fs name ops)
  | Cunregister name => num (vfs_unregister_fs name)
  | Cmount path type device => num (vfs_mount ops_at path type device)
  | Cunmount path => num (vfs_unmount ops_at path)
  | Copen path flags => r ← vfs_open ops_at path flags; mret (Rfile r)
  | Cclose file => num (vfs_close ops_at file)
  | Cread file buf size => fst_num (vfs_read ops_at file buf size)
  | Cwrite file buf => num (vfs_write ops_at file buf)
  | Cseek file offset whence => num (vfs_seek file offset whence)
  | Ctell file => num (vfs_tell file)
  | Ctruncate file size => num (vfs_truncate ops_at file size)
  | Csync file => num (vfs_sync ops_at file)
  | Copendir path => r ← vfs_opendir ops_at path; mret (Rdir r)
  | Creaddir dir => r ← vfs_readdir ops_at dir; mret (Rnum (Z.b2z (bool_decide (is_Some r))))
  | Cclosedir dir => num (vfs_closedir dir)
  | Cmkdir path mode => num (vfs_mkdir ops_at path mode)
  | Crmdir path => num (vfs_rmdir ops_at path)
  | Ccreate path mode => num (vfs_create ops_at path mode)
  | Cunlink path => num (vfs_unlink ops_at path)
  | Crename oldpath newpath => num (vfs_rename ops_at oldpath newpath)
  | Cstat path stat => fst_num (vfs_stat ops_at path stat)
  | Cfstat file stat => fst_num (vfs_fstat ops_at file stat)
  | Cexists path => bool_num (vfs_exists ops_at path)
  | Cis_directory path => bool_num (vfs_is_directory ops_at path)
  | Cis_file path => bool_num (vfs_is_file ops_at path)
  end.
Fixpoint run_calls (l : list vfs_call) : M W (list vfs_result) :=
  match l with
  | [] => mret []
  | c :: l' => r ← run_call c; rs ← run_calls l'; mret (r :: rs)
  end.
(** Nothing is unmounted while a directory is open. *)
Definition allowed (c : vfs_call) (v : vfs W) : bool := match c with Cunmount _ => forallb (fun d => negb (d_in_use d)) (v_dirs v) | _ => true end.
Fixpoint all_allowed (l : list vfs_call) (v : vfs W) : bool :=
  match l with
  | [] => true
  | c :: l' => allowed c v && match run_call c v with Some (v', _) => all_allowed l' v' | None => true end
  end.

Context (Hops : forall a, ops_own (ops_at a)).
Lemma fair_map {A B} (m : M W A) (f : A -> B) : fair m -> fair (r ← m; mret (f r) : M W B).
Proof. intros Hm N v O H1 H3. apply (wp_seq _ _ _ _ v (Hm N v O H1 H3)). intros x v' O'. by apply wp_ret. Qed.
Lemma call_own c N v : allowed c v = true -> owned N v -> 1 <= N -> N + 3 < 2 ^ 32 -> wp (run_call c) (fun _ v' => owned (N + 3) v') v.
Proof.
  intros Ha. assert (fair (run_call c) \/ exists p, c = Cunmount p) as [Hf|(p & ->)]; [|by apply Hf|].
  - destruct c; try (by right; eexists); left; cbn [run_call]; unfold num, bool_num, fst_num; apply fair_map;
      first [apply init_fair|apply register_fair|apply unregister_fair|by apply mount_fair|by apply open_fair|by apply close_fair|by apply read_fair|by apply write_fair|apply seek_fair|apply tell_fair|by apply truncate_fair
        |by apply sync_fair|by apply opendir_fair|by apply readdir_fair|apply closedir_fair|by apply rmdir_fair|by apply unlink_fair|by apply rename_fair|by apply stat_fair|by apply fstat_fair|by apply ask_fair
        |apply make_entry_fair; [done|]; intros o Ho; apply Ho].
  - intros O H1 H3. cbn [run_call]. unfold num. cbn [allowed] in Ha. apply (finish N); [|lia]. eapply wp_seq; [apply (unmount_own ops_at Hops p N v O)|intros x v' O'; by apply wp_ret].
    apply Forall_forall. intros x Hx. rewrite forallb_forall in Ha. apply negb_true_iff, Ha. by apply list_elem_of_In.
Qed.
Lemma calls_own l : forall N v, all_allowed l v = true -> owned N v -> 1 <= N -> N + 3 * Z.of_nat (length l) < 2 ^ 32 -> wp (run_calls l) (fun _ v' => owned (N + 3 * Z.of_nat (length l)) v') v.
Proof.
  induction l as [|c l IH]; intros N v Ha O H1 H3; cbn [run_calls]; [apply wp_ret; by rewrite Z.add_0_r|]. cbn [all_allowed length] in *. apply andb_prop in Ha as [Hc Hl].
  pose proof (call_own c N v Hc O H1 ltac:(lia)) as Hw. unfold wp, mbind, M_bind in *. destruct (run_call c v) as [[v1 r]|]; [|done]. specialize (IH (N + 3) v1 Hl Hw ltac:(lia) ltac:(lia)). unfold wp in IH.
  destruct (run_calls l v1) as [[v2 rs]|]; [|done]. cbn. apply (own_more _ _ _ _ IH). lia.
Qed.
End Calls.

(** C22: no handle dangles. After vfs_init, in every sequence of calls of the interface with
    FAT32 as the file system (below 2^32 / 3 of them, and no call of vfs_unmount while a
    directory is open, for which it does not look), every open file, every open directory
    and every mount point refers to a node of the pool that is in use; the reference count
    of a node is at least the number of those that refer to it; and the pool never hands out
    a node that one of them still refers to. Every path through lookup, open, create,
    rename, their failures included, lets go of nothing that it did not take. *)
Theorem vfs_handles_hold_nodes {D P : Type} `{BlockDevice D} `{PageAllocator P} (v v1 v2 : vfs (fat_world D P)) r l rs :
  vfs_init v = Some (v1, r) -> all_allowed fat32_ops_at l v1 = true -> 3 * Z.of_nat (length l) < 2 ^ 32 - 1 -> run_calls fat32_ops_at l v1 = Some (v2, rs) ->
  (forall n, holders v2 n <= n_ref_count (node_at v2 n)) /\
  (forall n k, file_ref (file_at v2 k) = Some n \/ dir_ref (dir_at v2 k) = Some n \/ m_root (mount_at v2 k) = Some n -> v_used v2 !! n = Some true /\ 1 <= n_ref_count (node_at v2 n)) /\
  (forall v3 n, vfs_alloc_node v2 = Some (v3, Some n) -> holders v2 n = 0).
Proof.
  intros Hi Ha Hl Hr. assert (v1 = cleared_tables v) as -> by (unfold vfs_init, mbind, M_bind, modify, mret, M_ret in Hi; congruence).
  pose proof (calls_own fat32_ops_at fat32_ops_own l 1 _ Ha (cleared_owned 1 v ltac:(lia)) ltac:(lia) ltac:(lia)) as Hw. unfold wp in Hw. rewrite Hr in Hw. destruct Hw as [HP C U R].
  split; [intros n; specialize (C n); lia|]. split.
  - intros n k Hk. assert (1 <= holders v2 n) as Hh.
    { pose proof (count_at file_ref (v_files v2) k zero_file n eq_refl). pose proof (count_at dir_ref (v_dirs v2) k zero_dir n eq_refl). pose proof (count_at m_root (v_mounts v2) k zero_mount n eq_refl).
      pose proof (count_nonneg file_ref (v_files v2) n). pose proof (count_nonneg dir_ref (v_dirs v2) n). pose proof (count_nonneg m_root (v_mounts v2) n). unfold holders, file_at, dir_at, mount_at in *.
      destruct Hk as [Hk|[Hk|Hk]]; rewrite Hk, one_self in *; lia. }
    specialize (C n). split; [apply U|]; lia.
  - intros v3 n E. unfold vfs_alloc_node, mbind, M_bind, gets, modify, mret, M_ret in E. destruct (first_index negb (v_used v2)) as [i|] eqn:Ei; [|done]. injection E as _ <-.
    apply first_index_lt in Ei as (_ & b & Eb & Hb). destruct b; [done|]. pose proof (holders_nonneg v2 i). destruct (Z.ltb_spec 0 (holders v2 i)) as [Hp|]; [|lia]. rewrite (U i) in Eb by lia. done.
Qed.

(** ** The virtual file system: which mount a path belongs to (fs/vfs/vfs.c)

    The test on the text of the mount points is a test on lists of names, and
    vfs_get_mount finds the mount with the longest such list. *)

Lemma split_slash_app a b : split_slash (a ++ slash :: b) =
  (fst (split_slash a), snd (split_slash a) ++ fst (split_slash b) :: snd (split_slash b)).
Proof.
  induction a as [|c a IH]; cbn [app split_slash].
  - by destruct (split_slash b).
  - rewrite IH. destruct (split_slash a) as [t r]. cbn [fst snd]. by destruct (c =? slash).
Qed.
Lemma components_app a b : components (a ++ slash :: b) = components a ++ components b.
Proof.
  unfold components. rewrite split_slash_app. destruct (split_slash a) as [t r], (split_slash b) as [t' r']. cbn [fst snd].
  by rewrite <- filter_app.
Qed.
Lemma text_app l0 l1 : l0 <> [] -> path_text (l0 ++ l1) = path_text l0 ++ concat (map (cons slash) l1).
Proof. intros H. destruct l0 as [|x l0]; [done|]. unfold path_text. cbn [app]. by rewrite app_comm_cons, map_app, concat_app. Qed.
Lemma text_root l : take 1 (path_text l) = [slash].
Proof. by destruct l. Qed.

(** A mount covers a path when its names are the first of the path's. *)
Lemma covers_prefix m l0 l : m_path m = path_text l0 -> Forall plain l0 -> Forall plain l -> (0 ∉ path_text l) ->
  mount_covers m (path_text l) = true <-> l0 `prefix_of` l.
Proof.
  intros Em H0 Hl Hz. unfold mount_covers. rewrite Em. set (n := length (path_text l0)). rewrite andb_true_iff, bool_decide_eq_true. split.
  - intros [Ht He]. destruct l0 as [|x l0]; [apply prefix_nil|]. set (l0' := x :: l0) in *.
    pose proof (take_drop n (path_text l)) as Es. rewrite Ht in Es. destruct (drop n (path_text l)) as [|c rest] eqn:Ed.
    + rewrite app_nil_r in Es. exists []. rewrite app_nil_r, <- (components_text l), <- Es by done. by apply components_text.
    + assert (nth n (path_text l) 0 = c) as Ec by (rewrite <- Es; by apply nth_middle). rewrite Ec in He.
      assert (c <> 0) as Hc0 by (intros ->; apply Hz; rewrite <- Es; apply elem_of_app; right; apply list_elem_of_here).
      assert (2 <= n)%nat as Hn by (subst n l0'; apply Forall_cons in H0 as [(Hx & _) _]; destruct x; [done|]; cbn; lia).
      assert (c = slash) as -> by lia. exists (components rest). rewrite <- (components_text l), <- Es, components_app by done. by rewrite components_text.
  - intros [l1 ->]. destruct l0 as [|x l0]; [subst n; cbn [path_text length]; rewrite text_root; split; [done|lia]|].
    rewrite text_app by done. subst n. rewrite take_app_length. split; [done|]. rewrite app_nth2, Nat.sub_diag by lia. destruct l1; cbn; lia.
Qed.
Lemma prefix_text_length l0 l1 l : l0 `prefix_of` l -> l1 `prefix_of` l -> Forall plain l ->
  (length (path_text l0) <= length (path_text l1))%nat -> (length l0 <= length l1)%nat.
Proof.
  intros [k0 E0] [k1 E1] Hp Hle. destruct (le_lt_dec (length l0) (length l1)) as [|Hlt]; [done|exfalso].
  assert (exists k, l0 = l1 ++ k /\ k <> []) as (k & -> & Hk).
  { exists (drop (length l1) l0). split; [|intros Hd; apply (f_equal length) in Hd; rewrite length_drop in Hd; cbn in Hd; lia].
    transitivity (take (length l1) l0 ++ drop (length l1) l0); [by rewrite take_drop|]. f_equal.
    transitivity (take (length l1) (l0 ++ k0)); [by rewrite take_app_le by lia|]. by rewrite <- E0, E1, take_app_length. }
  destruct k as [|x k]; [done|]. rewrite E0 in Hp. apply Forall_app in Hp as [Hp _]. apply Forall_app in Hp as [_ Hp]. apply Forall_cons in Hp as [(Hx & _) _].
  destruct x as [|c x]; [done|]. destruct l1 as [|y l1]; [cbn in Hle; lia|]. rewrite text_app, length_app in Hle by done. cbn in Hle. lia.
Qed.

(** The search for the longest mount point. *)
Definition candidate (normalized : list Z) (m : vfs_mount_t) : bool := m_active m && mount_covers m normalized.
Lemma best_mount_ok p l : forall i len best,
  (best_mount p l i len best = best /\ (forall j m, l !! j = Some m -> candidate p m = true -> (length (m_path m) <= len)%nat)) \/
  (exists k b, best_mount p l i len best = Some (i + k)%nat /\ l !! k = Some b /\ candidate p b = true /\ (len < length (m_path b))%nat /\
    forall j m, l !! j = Some m -> candidate p m = true -> (length (m_path m) <= length (m_path b))%nat).
Proof.
  induction l as [|m l IH]; intros i len best; [by left|]. cbn [best_mount]. fold (candidate p m).
  destruct (candidate p m && (len <? length (m_path m))%nat) eqn:E.
  - apply andb_prop in E as [Ec El]. apply Nat.ltb_lt in El. right. destruct (IH (S i) (length (m_path m)) (Some i)) as [[E1 H1]|(k & b & E1 & Hk & Hc & Hl & H1)].
    + exists 0%nat, m. rewrite E1, Nat.add_0_r. do 4 (split; [done|]). intros [|j] m' Hj Hm; [by injection Hj as <-|by apply (H1 j)].
    + exists (S k), b. rewrite E1. split; [f_equal; lia|]. do 2 (split; [done|]). split; [lia|].
      intros [|j] m' Hj Hm; [injection Hj as <-; lia|by apply (H1 j)].
  - assert (candidate p m = true -> (length (m_path m) <= len)%nat) as Hm.
    { intros Hm. rewrite Hm in E. cbn in E. by apply Nat.ltb_ge in E. }
    destruct (IH (S i) len best) as [[E1 H1]|(k & b & E1 & Hk & Hc & Hl & H1)].
    + left. split; [done|]. intros [|j] m' Hj Hc; [injection Hj as <-; auto|by apply (H1 j)].
    + right. exists (S k), b. rewrite E1. split; [f_equal; lia|]. do 3 (split; [done|]).
      intros [|j] m' Hj Hc'; [injection Hj as <-; specialize (Hm Hc'); lia|by apply (H1 j)].
Qed.

Section Resolve.
Context {W : Type}.
Implicit Types v : vfs W.

(** The active mounts that are looked at, by the names of their mount points; their paths
    are normalised ones, as vfs_mount stores them. *)
Definition mounted v (i : nat) (names : list (list Z)) : Prop :=
  exists m, take (Z.to_nat (v_mount_count v)) (v_mounts v) !! i = Some m /\ m_active m = true /\ m_path m = path_text names /\ Forall plain names.
Definition mounts_named v : Prop :=
  forall i m, take (Z.to_nat (v_mount_count v)) (v_mounts v) !! i = Some m -> m_active m = true -> exists names, mounted v i names.

(** vfs_get_mount resolves a path to the mount whose mount point is its longest prefix
    by whole names: the names of the mount point are the first of the path's, no active
    mount among the first vfs_mount_count has more of them, and the result is NULL only if
    the path does not normalise or no mount point is a prefix. The state is unchanged. *)
Theorem vfs_get_mount_longest v path : mounts_named v -> (0 ∉ path_text (resolve path)) ->
  exists r, vfs_get_mount (Some path) v = Some (v, r) /\
    match r with
    | Some i => exists names, mounted v i names /\ names `prefix_of` resolve path /\
        forall j other, mounted v j other -> other `prefix_of` resolve path -> (length other <= length names)%nat
    | None => vfs_normalize_path path = None \/ forall j other, mounted v j other -> ~ other `prefix_of` resolve path
    end.
Proof.
  intros Hn Hz. unfold vfs_get_mount. destruct (vfs_normalize_path path) as [p|] eqn:Ep; [|exists None; split; [done|by left]].
  apply normalize_some in Ep as (-> & _ & _). pose proof (resolve_plain path) as Hp. set (l := resolve path) in *.
  set (ms := take (Z.to_nat (v_mount_count v)) (v_mounts v)). eexists. split; [reflexivity|]. fold ms.
  assert (forall j other, mounted v j other -> exists m, ms !! j = Some m /\ m_path m = path_text other /\
            (other `prefix_of` l <-> candidate (path_text l) m = true)) as Hm.
  { intros j other (m & Hj & Ha & Ho & Hpl). exists m. do 2 (split; [done|]). unfold candidate. rewrite Ha. cbn [andb]. symmetry. by apply covers_prefix. }
  destruct (best_mount_ok (path_text l) ms 0 0 None) as [[-> H1]|(k & b & -> & Hk & Hc & _ & H1)].
  - right. intros j other Hj Ho. destruct (Hm j other Hj) as (m & Hjm & Em & Hi). specialize (H1 j m Hjm (proj1 Hi Ho)).
    rewrite Em in H1. destruct other; cbn in H1; lia.
  - cbn [Nat.add]. assert (m_active b = true) as Hb by (unfold candidate in Hc; by apply andb_prop in Hc as [? _]).
    destruct (Hn k b Hk Hb) as [names Hnm]. exists names. split; [done|]. destruct (Hm k names Hnm) as (b' & Hk' & Eb & Hi).
    assert (b' = b) as -> by congruence. split; [by apply Hi|]. intros j other Hj Ho. destruct (Hm j other Hj) as (m & Hjm & Em & Hi').
    specialize (H1 j m Hjm (proj1 Hi' Ho)). rewrite Em, Eb in H1. apply (prefix_text_length other names l); [done|by apply Hi|done|done].
Qed.
End Resolve.
