(* ===== verification/VfsFile.v ===== *)
(** * An open file on FAT32 is a sequence of bytes with a position

    The refinement that ties the layers together: vfs_read, vfs_write and vfs_seek on a file
    of a mounted FAT32 volume, through fat32_vfs_read and fat32_vfs_write, the cluster
    chain, the table and its cache and the block device, behave as reads and writes of one
    sequence of bytes. *)
From S2P Require Import Prelude Memory PageAlloc Ring Chain Block VfsBase Fat FatTable FatAlloc FatFile FatWrite FatName FatDir FatDirProps FatSync VfsPath Vfs VfsOps FatVfs.

(** ** The abstract file *)

Inductive file_op := Fread (size : Z) | Fwrite (data : list Z) | Fseek (offset whence : Z).
(** The result, and the bytes for a read. *)
Definition file_result : Type := Z * list Z.
Record afile := mk_afile { a_bytes : list Z; a_pos : Z }.
Definition a_size (f : afile) : Z := Z.of_nat (length (a_bytes f)).

(** Where a seek goes to. *)
Definition a_target (f : afile) (offset whence : Z) : option Z :=
  if whence =? VFS_SEEK_SET then Some offset
  else if whence =? VFS_SEEK_CUR then Some (a_pos f + offset)
  else if whence =? VFS_SEEK_END then Some (a_size f + offset) else None.
(** One operation on a file that may hold [limit] bytes; [append] is the flag of the handle.
    [None]: the operation is outside of what is promised (a write that starts behind the
    end or does not fit, an offset that is no int64_t). *)
Definition a_step (limit : Z) (append : bool) (op : file_op) (f : afile) : option (afile * file_result) :=
  match op with
  | Fread size =>
      if (0 <=? size) && (size <? 2 ^ 62) then
        let data := take (Z.to_nat size) (drop (Z.to_nat (a_pos f)) (a_bytes f)) in
        Some (mk_afile (a_bytes f) (a_pos f + Z.of_nat (length data)), (Z.of_nat (length data), data))
      else None
  | Fwrite data =>
      let pos := if append then a_size f else a_pos f in
      let n := Z.of_nat (length data) in
      if (0 <? n) && forallb (fun b => (0 <=? b) && (b <? 256)) data && (pos <=? a_size f) && (pos + n <=? limit) && (pos + n <? 2 ^ 32) then
        Some (mk_afile (take (Z.to_nat pos) (a_bytes f) ++ data ++ drop (Z.to_nat pos + length data) (a_bytes f)) (pos + n), (n, []))
      else None
  | Fseek offset whence =>
      if (- 2 ^ 62 <=? offset) && (offset <? 2 ^ 62) then
        match a_target f offset whence with
        | Some t => if t <? 0 then Some (f, (VFS_ERR_INVAL, []))
                    else if t <? 2 ^ 62 then Some (mk_afile (a_bytes f) t, (t, [])) else None
        | None => Some (f, (VFS_ERR_INVAL, []))
        end
      else None
  end.
Fixpoint a_run (limit : Z) (append : bool) (l : list file_op) (f : afile) : option (afile * list file_result) :=
  match l with
  | [] => Some (f, [])
  | op :: l' => '(f1, r) ← a_step limit append op f; '(f2, rs) ← a_run limit append l' f1; Some (f2, r :: rs)
  end.

(** ** The code *)

Section File.
Context {D P : Type} `{BlockDeviceLaws D} `{PageAllocator P}.
Abbreviation world := (fat_world D P).
Implicit Types v : vfs world.
Implicit Types fs : fat32_fs D.

(** [buf] is the address of the buffer for reads. *)
Definition file_step (i : nat) (buf : Z) (op : file_op) : M world file_result :=
  match op with
  | Fread size => vfs_read fat32_ops_at (Some i) buf size
  | Fwrite data => r ← vfs_write fat32_ops_at (Some i) (Some data); mret (r, [])
  | Fseek offset whence => r ← vfs_seek (Some i) offset whence; mret (r, [])
  end.
Fixpoint file_run (i : nat) (buf : Z) (l : list file_op) : M world (list file_result) :=
  match l with
  | [] => mret []
  | op :: l' => r ← file_step i buf op; rs ← file_run i buf l'; mret (r :: rs)
  end.

(** File [i] of the table is open for reading and writing on node [n] of mount [k], which is
    of type FAT32, with the handle [h] at [a], whose volume is [fs]. *)
Record opened v (append : bool) (i n k : nat) (a : Z) (h : fat32_file) fs (size pos : Z) : Prop := mk_opened {
  od_file : (i < length (v_files v))%nat /\ f_in_use (file_at v i) = true /\ f_node (file_at v i) = Some n /\ f_offset (file_at v i) = pos;
  od_flags : Z.land (f_flags (file_at v i)) VFS_O_RDWR = VFS_O_RDWR /\ flag (f_flags (file_at v i)) VFS_O_APPEND = append;
  od_node : (n < length (v_nodes v))%nat /\ n_type (node_at v n) = VFS_NODE_FILE /\ n_mount (node_at v n) = Some k /\ n_size (node_at v n) = size;
  od_mount : m_ops (mount_at v k) = FAT32_OPS /\ m_readonly (mount_at v k) = false;
  od_handle : n_fs_data (node_at v n) = a /\ a <> 0 /\ w_handles (v_world v) a = Some h;
  od_volume : w_volumes (v_world v) (ff_fs h) = Some fs;
}.
(** The file [f] is what the open file [i] shows; it may grow to [limit] bytes. *)
Definition shows v (i : nat) (limit : Z) (append : bool) (f : afile) : Prop :=
  exists n k a h fs T C l, opened v append i n k a h fs (a_size f) (a_pos f) /\ vol fs T C /\ file fs T (ff_entry h) l /\
    a_bytes f = file_bytes C (ff_entry h) l /\ limit = Z.of_nat (length l + length (frees fs T)) * bytes_per_cluster fs /\ 0 <= a_pos f < 2 ^ 62.

Lemma nth_insert_at {A} (l : list A) i x d : (i < length l)%nat -> nth i (<[i := x]> l) d = x.
Proof. intros Hi. apply nth_lookup_Some. by apply list_lookup_insert_eq. Qed.
Lemma file_set_at v i f : (i < length (v_files v))%nat -> file_at (set_file i f v) i = f.
Proof. intros Hi. unfold file_at, set_file. cbn. by apply nth_insert_at. Qed.
Lemma node_set_at v i n : (i < length (v_nodes v))%nat -> node_at (set_node i n v) i = n.
Proof. intros Hi. unfold node_at, set_node. cbn. by apply nth_insert_at. Qed.

Lemma to_int64_id x : - 2 ^ 63 <= x < 2 ^ 63 -> to_int64 x = x.
Proof.
  intros Hx. unfold to_int64, u64. pose proof (Z.div_mod x (2 ^ 64)). pose proof (Z.mod_pos_bound x (2 ^ 64)). cbn zeta.
  destruct (Z.ltb_spec (x mod 2 ^ 64) (2 ^ 63)); lia.
Qed.

(** The position moves. *)
Lemma opened_move v app i n k a h fs size pos p : opened v app i n k a h fs size pos ->
  opened (set_file i (file_set_offset p (file_at v i)) v) app i n k a h fs size p.
Proof.
  intros [(F1 & F2 & F3 & F4) [G1 G2] N M Hh V]. split; try done; rewrite ?file_set_at by done; try done.
  split; [|done]. unfold set_file. cbn. by rewrite length_insert.
Qed.
(** The error number is set. *)
Lemma opened_error v app i n k a h fs size pos e : opened v app i n k a h fs size pos -> opened (put_error e v) app i n k a h fs size pos.
Proof. by intros []. Qed.

Lemma flags_ok x : Z.land x VFS_O_RDWR = VFS_O_RDWR ->
  (Z.land x VFS_O_RDWR =? VFS_O_WRONLY) = false /\ (Z.land x (Z.lor VFS_O_WRONLY VFS_O_RDWR) =? 0) = false.
Proof. intros E. change (Z.lor VFS_O_WRONLY VFS_O_RDWR) with VFS_O_RDWR. by rewrite E. Qed.

Lemma show_seek v i buf limit app f offset whence f' r : shows v i limit app f -> a_step limit app (Fseek offset whence) f = Some (f', r) ->
  exists v', file_step i buf (Fseek offset whence) v = Some (v', r) /\ shows v' i limit app f'.
Proof.
  intros (n & k & a & h & fs & T & C & l & Ho & Hv & Hf & Eb & El & Hp) Hs. pose proof Ho as [(F1 & F2 & F3 & F4) _ (N1 & N2 & N3 & N4) _ _ _].
  pose proof (file_bytes_length fs T C _ l Hv Hf) as Hlen. pose proof (file_size_range _ (fi_entry _ _ _ _ Hf)) as Hsz.
  assert (0 <= a_size f < 2 ^ 32) as Hz by (unfold a_size; rewrite Eb; lia).
  cbn [a_step] in Hs. destruct ((_ <=? offset) && _) eqn:Er; [|done]. apply andb_prop in Er as [Er1 Er2].
  cbn [file_step]. unfold vfs_seek, mbind, M_bind, gets. rewrite F2. cbn [negb]. rewrite F3, F4, N4.
  rewrite !to_int64_id by lia. fold (a_target f offset whence). destruct (a_target f offset whence) as [t|] eqn:Et.
  - destruct (t <? 0) eqn:E0; [|destruct (t <? 2 ^ 62) eqn:E1; [|done]]; injection Hs as <- <-.
    + eexists. split; [reflexivity|]. exists n, k, a, h, fs, T, C, l. split; [by apply opened_error|done].
    + eexists. split; [reflexivity|]. exists n, k, a, h, fs, T, C, l. split; [by eapply opened_move|]. cbn. do 4 (split; [done|]). lia.
  - injection Hs as <- <-. eexists. split; [reflexivity|]. exists n, k, a, h, fs, T, C, l. split; [by apply opened_error|done].
Qed.

(** Volumes alike have the same files and the same free clusters. *)
Lemma file_alike fs fs' T e l : alike fs fs' -> file fs T e l -> file fs' T e l.
Proof.
  intros [Hs _] [F1 F2 F3 F4]. split; try done.
  - destruct l as [|c l]; [done|]. destruct F3 as [F3 E]. split; [|done]. by eapply chain_ext; [exact Hs| |exact F3].
  - by rewrite (bpc_shape fs fs' Hs).
Qed.
Lemma frees_alike fs fs' T : alike fs fs' -> frees fs' T = frees fs T.
Proof. intros [Hs Hh]. injection Hh as _ E _. unfold frees, alloc_start, max_cluster. by rewrite E, (ss_total _ _ Hs). Qed.

(** The volume changes under the handle. *)
Lemma opened_volume v app i n k a h fs size pos fs' : opened v app i n k a h fs size pos ->
  opened (in_world (set_volume (ff_fs h) (Some fs')) v) app i n k a h fs' size pos.
Proof. intros [F G N M Hh V]. split; try done. cbn. by rewrite upd_same. Qed.
Lemma opened_op v app i n k a h fs size pos {A} (sel : vfs_ops world -> option A) : opened v app i n k a h fs size pos ->
  mount_op fat32_ops_at sel (n_mount (node_at v n)) v = sel fat32_vfs_ops.
Proof. intros [_ _ (_ & _ & -> & _) [M _] _ _]. unfold mount_op. cbn. by rewrite M. Qed.

Lemma vfs_read_at v app i n k a h fs size pos len : opened v app i n k a h fs size pos ->
  fat32_vfs_read n len pos v =
  ('(fs', r, data) ← fat32_read_file (ff_entry h) pos len fs; Some (in_world (set_volume (ff_fs h) (Some fs')) v, (r, data))).
Proof.
  intros [_ _ _ _ (Ha & Hn & Hh) V]. unfold fat32_vfs_read, mbind, M_bind, gets, handle_at, on_volume. rewrite Ha, (proj2 (Z.eqb_neq _ _) Hn).
  cbn. rewrite Hh. cbn. rewrite V. cbn. destruct (fat32_read_file _ _ _ _) as [[[fs' r] data]|]; done.
Qed.
Lemma show_read v i buf limit app f size f' r : buf <> 0 -> shows v i limit app f -> a_step limit app (Fread size) f = Some (f', r) ->
  exists v', file_step i buf (Fread size) v = Some (v', r) /\ shows v' i limit app f'.
Proof.
  intros Hbuf (n & k & a & h & fs & T & C & l & Ho & Hv & Hf & Eb & El & Hp) Hs. pose proof Ho as [(F1 & F2 & F3 & F4) [G1 _] (N1 & N2 & N3 & N4) _ _ _].
  pose proof (file_bytes_length fs T C _ l Hv Hf) as Hlen. pose proof (file_size_range _ (fi_entry _ _ _ _ Hf)) as Hsz.
  assert (0 <= a_size f < 2 ^ 32) as Hz by (unfold a_size; rewrite Eb; lia).
  cbn [a_step] in Hs. destruct ((_ <=? size) && _) eqn:Er; [|done]. apply andb_prop in Er as [Er1 Er2]. cbn zeta in Hs. apply Z.leb_le in Er1. apply Z.ltb_lt in Er2.
  set (data := take _ _) in Hs. injection Hs as <- <-. cbn [file_step]. unfold vfs_read, mbind, M_bind, gets.
  rewrite F2, (proj2 (Z.eqb_neq _ _) Hbuf). cbn [negb orb]. rewrite F3, (proj1 (flags_ok _ G1)), N2. cbn [bool_decide]. rewrite F4, N4.
  rewrite bool_decide_false by done. destruct (Z.leb_spec (a_size f) (a_pos f)).
  - assert (data = []) as -> by (subst data; rewrite drop_ge by (unfold a_size in *; lia); apply take_nil).
    exists v. split; [done|]. exists n, k, a, h, fs, T, C, l. cbn [length a_bytes a_pos]. rewrite Z.add_0_r. done.
  - rewrite (opened_op _ _ _ _ _ _ _ _ _ _ op_read Ho). cbn [op_read fat32_vfs_ops].
    set (len := if _ <? _ then _ else size). rewrite (vfs_read_at _ _ _ _ _ _ _ _ _ _ len Ho).
    assert (0 <= len /\ a_pos f + len < 2 ^ 64 /\ take (Z.to_nat len) (drop (Z.to_nat (a_pos f)) (a_bytes f)) = data) as (L1 & L2 & L3).
    { subst len. unfold u64. rewrite Z.mod_small by lia. destruct (Z.ltb_spec (a_size f) (a_pos f + size)); [|repeat split; lia].
      split; [lia|]. split; [lia|]. subst data. rewrite !take_ge by (rewrite length_drop; unfold a_size in *; lia). done. }
    destruct (read_ok fs T C (ff_entry h) l (a_pos f) len Hv Hf) as (fs' & -> & Hv' & Hsh); [lia..|]. rewrite <- Eb, L3. cbn.
    assert (0 < Z.of_nat (length data) \/ data = []) as Hd by (destruct data; [by right|left; cbn; lia]).
    pose proof (opened_volume _ _ _ _ _ _ _ _ _ _ fs' Ho) as Ho'.
    assert (length data <= length (a_bytes f) - Z.to_nat (a_pos f))%nat as Hdl by (subst data; rewrite length_take, length_drop; lia).
    exists (if 0 <? Z.of_nat (length data) then set_file i (file_set_offset (a_pos f + Z.of_nat (length data)) (file_at v i)) (in_world (set_volume (ff_fs h) (Some fs')) v)
            else in_world (set_volume (ff_fs h) (Some fs')) v). split.
    + destruct (0 <? Z.of_nat (length data)); [|done]. cbn. do 4 f_equal. unfold set_file, file_at in *. cbn. rewrite F4. f_equal. f_equal. f_equal.
      unfold u64, a_size in *. rewrite Z.mod_small by lia. done.
    + exists n, k, a, h, fs', T, C, l. cbn [a_bytes a_pos a_size]. split; [|split; [done|split; [by eapply file_alike|split; [done|split]]]].
      * destruct Hd as [Hd| ->]; [|cbn [length Z.ltb Z.compare]; rewrite Z.add_0_r; done].
        rewrite (proj2 (Z.ltb_lt _ _) Hd). by eapply (opened_move _ _ _ _ _ _ _ _ _ _ _ Ho').
      * rewrite El, (frees_alike fs fs') by done. f_equal. symmetry. by apply bpc_shape, Hsh.
      * unfold a_size in *. lia.
Qed.

(** What fat32_vfs_write leaves: the volume, the entry in the handle, the node's size. *)
Definition after_write v (n : nat) (a : Z) (h : fat32_file) fs' (e' : list Z) : vfs world :=
  let v1 := in_world (set_handle a (Some (ff_set_entry e' h))) (in_world (set_volume (ff_fs h) (Some fs')) v) in
  set_node n (node_set_dirty true (node_set_size (de_file_size e') (node_at v1 n))) v1.
Lemma vfs_write_at v app i n k a h fs size pos p data fs' e' r : opened v app i n k a h fs size pos ->
  fat32_write_file (ff_entry h) data p fs = Some (fs', e', r) -> 0 < r ->
  fat32_vfs_write n data p v = Some (after_write v n a h fs' e', r).
Proof.
  intros [_ _ _ _ (Ha & Hn & Hh) V] E Hr. unfold fat32_vfs_write, mbind, M_bind, gets, handle_at, on_volume. rewrite Ha, (proj2 (Z.eqb_neq _ _) Hn).
  cbn. rewrite Hh. cbn. rewrite V. cbn. rewrite E. cbn. by rewrite (proj2 (Z.ltb_lt 0 r)) by done.
Qed.
Lemma opened_written v app i n k a h fs size pos fs' e' : opened v app i n k a h fs size pos ->
  opened (after_write v n a h fs' e') app i n k a (ff_set_entry e' h) fs' (de_file_size e') pos.
Proof.
  intros [F G (N1 & N2 & N3 & N4) M (Ha & Hn & Hh) V]. unfold after_write. set (v1 := in_world _ _).
  split; try done; rewrite ?node_set_at by done; try done.
  - split; [unfold set_node; cbn; by rewrite length_insert|done].
  - do 2 (split; [done|]). cbn. by rewrite upd_same.
  - cbn. by rewrite upd_same.
Qed.
Lemma opened_dirty v app i n k a h fs size pos : opened v app i n k a h fs size pos ->
  opened (set_node n (node_set_dirty true (node_at v n)) v) app i n k a h fs size pos.
Proof.
  intros [F G (N1 & N2 & N3 & N4) M (Ha & Hn & Hh) V]. split; try done; rewrite ?node_set_at by done; try done.
  split; [unfold set_node; cbn; by rewrite length_insert|done].
Qed.
Lemma opened_pos v app i n k a h fs size pos : opened v app i n k a h fs size pos -> f_offset (file_at v i) = pos /\ n_size (node_at v n) = size.
Proof. intros [(_ & _ & _ & F) _ (_ & _ & _ & N) _ _ _]. done. Qed.

(** A write at a position that is reached, with what it leaves. *)
Lemma show_write_at v app i n k a h fs size pos data fs' e' : opened v app i n k a h fs size pos ->
  let p := if app then size else pos in let len := Z.of_nat (length data) in
  fat32_write_file (ff_entry h) data p fs = Some (fs', e', len) -> 0 < len -> p + len <= de_file_size e' -> 0 <= p -> de_file_size e' < 2 ^ 32 ->
  exists v', vfs_write fat32_ops_at (Some i) (Some data) v = Some (v', len) /\
    opened v' app i n k a (ff_set_entry e' h) fs' (de_file_size e') (p + len).
Proof.
  intros Ho p len E Hlen Hsz Hp Hmax. pose proof Ho as [(F1 & F2 & F3 & F4) [G1 G2] (N1 & N2 & N3 & N4) [_ M2] _ _].
  unfold vfs_write, mbind, M_bind, gets. rewrite F2. cbn [negb]. rewrite F3, (proj2 (flags_ok _ G1)), N2, bool_decide_false by done.
  rewrite N3. unfold is_readonly. rewrite M2. rewrite <- N3. rewrite G2, N4.
  assert (exists v1, (if app then modify (set_file i (file_set_offset size (file_at v i))) else mret tt) v = Some (v1, tt) /\ opened v1 app i n k a h fs size p
            /\ mount_op fat32_ops_at op_write (n_mount (node_at v n)) v1 = Some fat32_vfs_write) as (v1 & -> & Ho1 & Eop).
  { unfold p. destruct app; [exists (set_file i (file_set_offset size (file_at v i)) v)|exists v].
    - split; [done|]. split; [by eapply opened_move|]. exact (opened_op _ _ _ _ _ _ _ _ _ _ op_write (opened_move _ _ _ _ _ _ _ _ _ _ size Ho)).
    - split; [done|]. split; [done|]. exact (opened_op _ _ _ _ _ _ _ _ _ _ op_write Ho). }
  rewrite Eop. destruct (opened_pos _ _ _ _ _ _ _ _ _ _ Ho1) as [Eo _]. rewrite Eo.
  rewrite (vfs_write_at _ _ _ _ _ _ _ _ _ _ p data fs' e' len Ho1 E Hlen). rewrite (proj2 (Z.ltb_lt 0 len)) by done. unfold modify. cbn iota beta.
  pose proof (opened_written _ _ _ _ _ _ _ _ _ _ fs' e' Ho1) as Ho2. set (v2 := after_write _ _ _ _ _ _) in *.
  destruct (opened_pos _ _ _ _ _ _ _ _ _ _ Ho2) as [Eo2 _]. rewrite Eo2. unfold u64. rewrite Z.mod_small by lia.
  pose proof (opened_move _ _ _ _ _ _ _ _ _ _ (p + len) Ho2) as Ho3. set (v3 := set_file _ _ _) in *.
  destruct (opened_pos _ _ _ _ _ _ _ _ _ _ Ho3) as [Eo3 En3]. rewrite Eo3, En3, (proj2 (Z.ltb_ge _ _)) by lia.
  eexists. split; [reflexivity|]. by apply opened_dirty.
Qed.

Lemma bytes_test data : forallb (fun b => (0 <=? b) && (b <? 256)) data = true -> bytes data.
Proof. intros Ht. apply Forall_forall. intros x Hx%list_elem_of_In. rewrite forallb_forall in Ht. specialize (Ht x Hx). unfold is_byte. lia. Qed.
Lemma show_write v i buf limit app f data f' r : shows v i limit app f -> a_step limit app (Fwrite data) f = Some (f', r) ->
  exists v', file_step i buf (Fwrite data) v = Some (v', r) /\ shows v' i limit app f'.
Proof.
  intros (n & k & a & h & fs & T & C & l & Ho & Hv & Hf & Eb & El & Hp) Hs.
  pose proof (file_bytes_length fs T C _ l Hv Hf) as Hlen. pose proof (bpc_pos fs (vo_ok _ _ _ Hv)) as Hbp.
  assert (a_size f = de_file_size (ff_entry h)) as Esz by (unfold a_size; by rewrite Eb).
  cbn [a_step] in Hs. cbn zeta in Hs. set (p := if app then a_size f else a_pos f) in *. set (len := Z.of_nat (length data)) in *.
  destruct ((0 <? len) && _ && _ && _ && _) eqn:Et; [|done]. rewrite !andb_true_iff in Et. destruct Et as ((((T1 & T2) & T3) & T4) & T5).
  apply Z.ltb_lt in T1, T5. apply Z.leb_le in T3, T4. injection Hs as <- <-.
  assert (0 <= p) as Hp0 by (unfold p, a_size; destruct app; lia).
  destruct (write_ok fs T C (ff_entry h) l p data Hv Hf) as (fs' & T' & C' & e' & new & E & [W1 W2 W3 W4 W5]);
    [by apply bytes_test|intros ->; done|lia|done| |].
  { unfold clusters_for. assert ((p + len + bytes_per_cluster fs - 1) / bytes_per_cluster fs < Z.of_nat (length l + length (frees fs T)) + 1); [|unfold len in *; lia].
    apply Z.div_lt_upper_bound; lia. }
  rewrite <- Eb in W5. pose proof (file_bytes_length fs' T' C' e' _ W1 W3) as Hl'. rewrite W5 in Hl'. pose proof Hl' as Hl2.
  rewrite !length_app, length_take, length_drop in Hl2. fold len in E. pose proof (file_size_range _ (fi_entry _ _ _ _ W3)) as Hr'.
  destruct (show_write_at v app i n k a h fs (a_size f) (a_pos f) data fs' e' Ho E) as (v' & Ev & Ho'); [done|unfold a_size in *; lia|done|lia|].
  cbn [file_step]. unfold mbind, M_bind. rewrite Ev. exists v'. split; [done|].
  exists n, k, a, (ff_set_entry e' h), fs', T', C', (l ++ new). cbn [a_bytes a_pos ff_entry ff_set_entry]. unfold a_size at 1. cbn [a_bytes].
  rewrite Hl'. do 4 (split; [done|]). split; [|lia]. rewrite El, (gr_frees _ _ _ _ _ _ W2), !length_app, (bpc_shape fs fs' (gr_shape _ _ _ _ _ _ W2)). f_equal. lia.
Qed.

Lemma show_step v i buf limit app op f f' r : buf <> 0 -> shows v i limit app f -> a_step limit app op f = Some (f', r) ->
  exists v', file_step i buf op v = Some (v', r) /\ shows v' i limit app f'.
Proof. intros Hb. destruct op; [by apply show_read|by apply show_write|by apply show_seek]. Qed.

(** C3: an open file on a mounted FAT32 volume behaves as a sequence of bytes with a
    position: every sequence of vfs_read, vfs_write and vfs_seek that the abstract file
    allows returns, with the same results, and ends with the same bytes and position, up to
    the size the free clusters allow, for handles with and without O_APPEND. *)
Theorem vfs_file_refines v i buf limit app l : buf <> 0 -> forall f f' rs, shows v i limit app f -> a_run limit app l f = Some (f', rs) ->
  exists v', file_run i buf l v = Some (v', rs) /\ shows v' i limit app f'.
Proof.
  intros Hb. revert v. induction l as [|op l IH]; intros v f f' rs Hs Hr; [injection Hr as <- <-; by exists v|].
  cbn [a_run] in Hr. apply bind_Some in Hr as ([f1 r] & E1 & Hr). apply bind_Some in Hr as ([f2 rs'] & E2 & Hr). injection Hr as <- <-.
  destruct (show_step v i buf limit app op f f1 r Hb Hs E1) as (v1 & Ev1 & Hs1). destruct (IH v1 f1 f2 rs' Hs1 E2) as (v2 & Ev2 & Hs2).
  exists v2. split; [|done]. cbn [file_run]. unfold mbind, M_bind. rewrite Ev1, Ev2. done.
Qed.

(** A write does not change the directory the file is in: when the written file is closed,
    which flushes the volume, its directory entry still has the size and the first cluster
    from before. The new ones are only in the handle. *)
Theorem fat_write_leaves_entry fs T C e l off data d dl name : vol fs T C -> layout_ok fs -> file fs T e l -> bytes data -> data <> [] ->
  0 <= off <= de_file_size e -> off + Z.of_nat (length data) < 2 ^ 32 ->
  clusters_for fs (off + Z.of_nat (length data)) - Z.of_nat (length l) <= Z.of_nat (length (frees fs T)) ->
  chain fs T (d :: dl) -> (forall x, x ∈ d :: dl -> x ∉ l) ->
  exists fs1 e1 fs2 fs3 hit, fat32_write_file e data off fs = Some (fs1, e1, Z.of_nat (length data)) /\ fat32_sync fs1 = (fs2, 0) /\
    fat32_find_entry_in_dir d name fs2 = Some (fs3, find_result hit, hit) /\ fst <$> hit = find_slots name (dir_slots fs C (d :: dl)).
Proof.
  intros Hv Hlay Hf Hb Hne Ho Hend Hfree Hd Hdis.
  destruct (write_ok fs T C e l off data Hv Hf Hb Hne Ho Hend Hfree) as (fs1 & T1 & C1 & e1 & new & E & [W1 W2 W3 W4 W5]).
  pose proof (gr_shape _ _ _ _ _ _ W2) as Hs1. destruct (sync_ok fs1 T1 C1 W1 (layout_shape _ _ Hs1 Hlay)) as (fs2 & Es & [S1 _ S3 _ _ _]).
  assert (forall x, x ∈ d :: dl -> x ∉ l ++ new) as Hout.
  { intros x Hx [Hl|Hn]%elem_of_app; [by apply (Hdis x)|]. apply (chain_nonfree fs T _ x (vo_ok _ _ _ Hv) Hd Hx).
    apply (elem_frees fs). rewrite (gr_frees _ _ _ _ _ _ W2). apply elem_of_app. by left. }
  assert (same_shape fs fs2) as Hs2 by (by transitivity fs1).
  destruct (find_ok fs2 T1 C1 d dl name S1) as (fs3 & hit & Ef & Eh & _).
  { eapply chain_ext; [exact Hs2| |exact Hd]. intros x Hx. by apply (gr_table _ _ _ _ _ _ W2), Hout. }
  exists fs1, e1, fs2, fs3, hit. do 3 (split; [done|]). rewrite Eh. f_equal. unfold dir_slots, entries_per_cluster. rewrite (bpc_shape fs fs2 Hs2).
  f_equal. apply map_ext_in. intros x Hx%list_elem_of_In. by rewrite W4 by (by apply Hout).
Qed.
End File.
