(* ===== verification/FatDemo.v ===== *)
(** * FAT32: a small volume

    A disk of seven sectors with four clusters: the root directory, which holds the file
    A.TXT of one cluster, and two free clusters. It shows that the hypotheses of the
    contracts hold together. *)
From S2P Require Import Prelude Memory PageAlloc Ring Chain Block VfsBase Fat FatTable FatAlloc FatFile FatWrite FatName FatDir FatDirProps FatDelete FatSync VfsPath Vfs VfsOps FatVfs VfsInv VfsFile.
Definition demo_sector (l : list Z) : list Z := l ++ repeat 0 (512 - length l).
(** 512-byte sectors, one per cluster; two reserved sectors, one FAT of one sector. *)
Definition demo_boot : list Z :=
  splice 510 (le16 FAT32_BOOT_SIGNATURE) (splice 48 (le16 1) (splice 44 (le32 2) (splice 36 (le32 1) (splice 32 (le32 7)
    (splice 16 [1] (splice 14 (le16 2) (splice 13 [1] (splice 11 (le16 512) (repeat 0 512))))))))).
Definition demo_fsinfo : list Z :=
  splice 508 (le32 FAT32_FSINFO_TRAIL_SIG) (splice 492 (le32 4) (splice 488 (le32 2) (splice 484 (le32 FAT32_FSINFO_STRUC_SIG)
    (splice 0 (le32 FAT32_FSINFO_LEAD_SIG) (repeat 0 512))))).
Definition demo_fat : list Z := demo_sector (le32 0x0FFFFFF8 ++ le32 FAT32_CLUSTER_EOF ++ le32 FAT32_CLUSTER_EOF ++ le32 FAT32_CLUSTER_EOF).
(** "A.TXT", "b.txt", and "hello" *)
Definition demo_name : list Z := [65; 46; 84; 88; 84].
Definition demo_other : list Z := [98; 46; 116; 120; 116].
Definition demo_text : list Z := [104; 101; 108; 108; 111].
Definition demo_entry : list Z := set_file_size 5 (fat32_entry_set_cluster 3 (new_entry (fat32_to_short_name demo_name) FAT32_ATTR_ARCHIVE)).
Definition demo_disk : ram_disk :=
  [demo_boot; demo_fsinfo; demo_fat; demo_sector demo_entry; demo_sector demo_text; demo_sector []; demo_sector []].
Definition demo_fs : fat32_fs ram_disk :=
  set_fsinfo_dirty true (set_mounted true false (set_pages 4096 8192 (set_hints 2 4 (geometry (set_bpb demo_boot (zero_fs demo_disk)))))).
Definition demo_T : Z -> Z := fat_at demo_fs.
Definition demo_C : Z -> list Z := cluster_at demo_fs.

Lemma demo_vol : vol demo_fs demo_T demo_C.
Proof.
  split; [|done|done]. split; [split; vm_compute; done| |split|done|done].
  - split; [|vm_compute; done]. assert (Forall (fun s => length s = 512%nat /\ forallb (fun b => (0 <=? b) && (b <? 256)) s = true) demo_disk) as Hd
      by (repeat constructor). eapply Forall_impl; [exact Hd|]. intros s [Hl Hb]. split; [done|]. apply Forall_forall. intros x Hx%list_elem_of_In.
    rewrite forallb_forall in Hb. specialize (Hb x Hx). unfold is_byte. lia.
  - done.
  - intros i j ei ej Hi Hj Hv. do 16 (destruct i as [|i]; [by injection Hi as <-|]). done.
  - intros i e Hi Hv. do 16 (destruct i as [|i]; [by injection Hi as <-|]). done.
  - intros i e Hi Hv. do 16 (destruct i as [|i]; [by injection Hi as <-|]). done.
Qed.
Lemma demo_root : chain demo_fs demo_T [2].
Proof. split; [split; done|]. by split. Qed.
Lemma demo_chain : chain demo_fs demo_T [3].
Proof. split; [split; done|]. by split. Qed.
Lemma demo_file : file demo_fs demo_T demo_entry [3].
Proof.
  split; [|done|split; [apply demo_chain|done]|vm_compute; done]. split; [done|].
  assert (forallb (fun b => (0 <=? b) && (b <? 256)) demo_entry = true) as Hb by done. apply Forall_forall. intros x Hx%list_elem_of_In.
  rewrite forallb_forall in Hb. specialize (Hb x Hx). unfold is_byte. lia.
Qed.
Lemma demo_layout : layout_ok demo_fs.
Proof. by split. Qed.
Lemma demo_boot_ok : boot_ok demo_fs.
Proof.
  split.
  - reflexivity.
  - vm_compute. reflexivity.
  - unfold demo_fs, geometry. cbn [set_fsinfo_dirty set_mounted set_pages set_hints set_geometry set_bpb zero_fs fs_bpb].
    reflexivity.
Qed.

(** ** The contracts on the small volume *)

Lemma fat_alloc_contract_witness : exists fs' r, fat32_alloc_cluster demo_fs = Some (fs', r) /\ same_shape demo_fs fs' /\
  (r = 0 <-> forall c, valid_cluster demo_fs c -> demo_T c <> FAT32_CLUSTER_FREE).
Proof.
  destruct (fat_alloc_contract demo_fs demo_T demo_C demo_vol) as (fs' & r & E & Hs & Hr & _); [split; done|]. exists fs', r. exact (conj E (conj Hs Hr)).
Defined.

Lemma fat_free_contract_witness : exists fs', fat32_free_chain 3 demo_fs = Some (fs', 0) /\ NoDup [3] /\
  vol fs' (fun x => if bool_decide (x ∈ [3]) then FAT32_CLUSTER_FREE else demo_T x) demo_C.
Proof.
  destruct (fat_free_contract demo_fs demo_T demo_C 3 [] demo_vol demo_chain) as (fs' & E & Hn & Hv & _). exists fs'. exact (conj E (conj Hn Hv)).
Defined.

(** Six hundred bytes from the third on: the file grows by a cluster. *)
Definition demo_data : list Z := repeat 65 600.
Lemma demo_data_bytes : bytes demo_data.
Proof. apply Forall_forall. intros x Hx%list_elem_of_In. apply repeat_spec in Hx as ->. unfold is_byte. lia. Qed.

Lemma fat_write_contract_witness : exists fs' T' C' e' new, fat32_write_file demo_entry demo_data 2 demo_fs = Some (fs', e', Z.of_nat (length demo_data)) /\
  vol fs' T' C' /\ file fs' T' e' ([3] ++ new).
Proof.
  destruct (fat_write_contract demo_fs demo_T demo_C demo_entry [3] 2 demo_data demo_vol demo_file demo_data_bytes) as (fs' & T' & C' & e' & new & E & Hv & Hf & _);
    [done|vm_compute; done|vm_compute; done|vm_compute; done|]. exists fs', T', C', e', new. exact (conj E (conj Hv Hf)).
Defined.

Lemma fat_write_read_witness : exists fs1 e1 fs2, fat32_write_file demo_entry demo_data 2 demo_fs = Some (fs1, e1, Z.of_nat (length demo_data)) /\
  fat32_read_file e1 2 (Z.of_nat (length demo_data)) fs1 = Some (fs2, Z.of_nat (length demo_data), demo_data).
Proof.
  destruct (fat_write_read demo_fs demo_T demo_C demo_entry [3] 2 demo_data demo_vol demo_file demo_data_bytes) as (fs1 & e1 & fs2 & fs3 & E & R & _);
    [done|vm_compute; done|vm_compute; done|vm_compute; done|]. exists fs1, e1, fs2. exact (conj E R).
Defined.

Lemma demo_other_nonzero x : x ∈ demo_other -> x <> 0.
Proof. unfold demo_other. rewrite !elem_of_cons. intros [->|[->|[->|[->|[->|Hx]]]]]; try done. by apply not_elem_of_nil in Hx. Qed.
Lemma demo_other_83 : name_83 demo_other [98] [116; 120; 116].
Proof. split; [split; [simpl; lia|by repeat constructor]|split; [simpl; lia|by repeat constructor]|done]. Qed.

Lemma fat_name_found_again_witness :
  fat32_strcmp_83 demo_other (new_entry (fat32_to_short_name demo_other) FAT32_ATTR_ARCHIVE) = 0 <-> exists base ext, name_83 demo_other base ext.
Proof.
  destruct (fat_name_found_again demo_other FAT32_ATTR_ARCHIVE) as [Hn _]; [split; done|exact demo_other_nonzero|]. exact Hn.
Defined.

Lemma fat_find_contract_witness : exists fs' hit, fat32_find_entry_in_dir 2 demo_name demo_fs =
  Some (fs', match hit with Some _ => 0 | None => VFS_ERR_NOENT end, hit) /\
  fst <$> hit = find_slots demo_name (dir_slots demo_fs demo_C [2]) /\ vol fs' demo_T demo_C.
Proof. exact (fat_find_contract demo_fs demo_T demo_C 2 [] demo_name demo_vol demo_root). Defined.

Lemma demo_ended : ended (dir_slots demo_fs demo_C [2]).
Proof. vm_compute. repeat constructor. Qed.
Lemma demo_free : free_index (dir_slots demo_fs demo_C [2]) = Some 1%nat.
Proof. vm_compute. reflexivity. Qed.

Lemma fat_create_then_find_witness : exists fs1 C1 e, fat32_create_entry 2 demo_other FAT32_ATTR_ARCHIVE demo_fs = Some (fs1, 0, e) /\ vol fs1 demo_T C1 /\
  exists fs2 k, fat32_find_entry_in_dir 2 demo_other fs1 = Some (fs2, 0, Some (e, k)).
Proof.
  destruct (fat_create_then_find demo_fs demo_T demo_C 2 [] demo_other [98] [116; 120; 116] FAT32_ATTR_ARCHIVE 1 demo_vol demo_root demo_other_83)
    as (fs1 & C1 & e & E & Hv & _ & _ & _ & _ & _ & Hf & _); [split; done|done|exact demo_ended|exact demo_free|vm_compute; reflexivity|].
  exists fs1, C1, e. exact (conj E (conj Hv Hf)).
Defined.

Lemma fat_delete_contract_witness : exists fs' C', fat32_delete_entry 2 demo_name demo_fs = Some (fs', 0) /\
  find_slots demo_name (dir_slots fs' C' [2]) = None.
Proof.
  destruct (fat_delete_contract demo_fs demo_T demo_C 2 [] demo_name 0 demo_entry [3] demo_vol demo_root demo_ended)
    as (fs' & C' & E & _ & _ & _ & Hf & _); [vm_compute; reflexivity|vm_compute; reflexivity| |].
  { split; [vm_compute; reflexivity|]. split; [exact demo_chain|]. intros y [->|Hy]%elem_of_cons; [|by apply not_elem_of_nil in Hy].
    intros [Hy|Hy]%elem_of_cons; [done|by apply not_elem_of_nil in Hy]. }
  exists fs', C'. split; [exact E|]. rewrite Hf. vm_compute. reflexivity.
Defined.

Lemma fat_mkdir_contract_witness : exists fs' C' e dot, fat32_create_entry 2 demo_other FAT32_ATTR_DIRECTORY demo_fs = Some (fs', 0, e) /\
  fat32_entry_cluster e = 4 /\ find_slots [DOT] (dir_slots fs' C' [4]) = Some dot.
Proof.
  destruct (fat_mkdir_contract demo_fs demo_T demo_C 2 [] demo_other FAT32_ATTR_DIRECTORY 1 4 [5] demo_vol demo_root)
    as (fs' & C' & e & dot & dd & E & _ & Ec & _ & _ & _ & _ & _ & Hf & _); [split; done|done|exact demo_free|vm_compute; reflexivity|].
  exists fs', C', e, dot. exact (conj E (conj Ec Hf)).
Defined.

Lemma fat_sync_durable_witness : exists fs', fat32_sync demo_fs = (fs', 0) /\ vol fs' demo_T demo_C /\
  (forall c, in_table demo_fs c -> disk_entry demo_fs (fs_dev fs') c = demo_T c).
Proof.
  destruct (fat_sync_durable demo_fs demo_T demo_C demo_vol demo_layout) as (fs' & E & Hv & Hd & _). exists fs'. exact (conj E (conj Hv Hd)).
Defined.

(** Pages one behind the other. *)
#[export] Instance demo_pages : PageAllocator Z := {
  pa_alloc n s := (s, s + n * PAGE_SIZE);
  pa_free _ _ s := s;
  pa_used s p := p <? s / PAGE_SIZE;
  pa_managed _ _ := true;
  pa_wf s := 0 < s;
}.
Lemma fat_remount_witness : exists fs1 fs2 pa1, fat32_unmount demo_fs 65536 = (fs1, 65536, 0) /\ fat32_mount (fs_dev fs1) 65536 = (Some fs2, pa1) /\
  vol fs2 demo_T demo_C /\ root_cluster fs2 = root_cluster demo_fs.
Proof.
  destruct (fat_remount demo_fs demo_T demo_C 65536 demo_vol demo_layout demo_boot_ok) as (fs1 & pa1 & E & Hm).
  assert (pa1 = 65536) as ->.
  { pose proof (f_equal (fun x => snd (fst x)) E) as E2. unfold fat32_unmount in E2. change (negb (fs_mounted demo_fs)) with false in E2.
    destruct (fat32_sync demo_fs) as [f r]. destruct (negb (cluster_buf_phys f =? 0)); exact (eq_sym E2). }
  destruct (Hm 65536 69632 69632 73728 eq_refl ltac:(lia)) as (fs2 & E2 & Hv & Hr); [vm_compute; reflexivity|lia|].
  exists fs1, fs2, 73728. exact (conj E (conj E2 (conj Hv Hr))).
Defined.

(** ** The virtual file system over the small volume

    A state in which the file A.TXT of the volume of [FatDemo] is open, and the states
    that show that the hypotheses of the theorems on the virtual file system hold. *)

Definition demo_volume_at : Z := 0x4000.
Definition demo_handle_at : Z := 0x5000.
Definition demo_handle : fat32_file := handle_of_entry demo_volume_at demo_entry.
Definition demo_world : fat_world ram_disk Z :=
  mk_world (upd (fun _ => None) demo_volume_at (Some demo_fs)) (upd (fun _ => None) demo_handle_at (Some demo_handle)) (fun _ => demo_disk) 65536.
Definition demo_mount : vfs_mount_t := mk_mount [slash] [102; 97; 116; 51; 50] None FAT32_OPS 1 demo_volume_at false true.
Definition demo_node : vfs_node := node_of_entry demo_entry (Some 0%nat) 0 demo_handle_at.
(** One mount at "/", one open file on the one node. *)
Definition demo_vfs : vfs (fat_world ram_disk Z) :=
  mk_vfs (Some 0%nat) [demo_mount] 1 [mk_vfile (Some 0%nat) 0 VFS_O_RDWR 1 true] [] [] 0 VFS_OK true (mk_dirent 0 VFS_NODE_NONE [])
    [demo_node] [true] demo_world.

Definition demo_afile : afile := mk_afile demo_text 0.
Lemma demo_bytes : file_bytes demo_C demo_entry [3] = demo_text.
Proof. vm_compute. reflexivity. Qed.
Lemma demo_shows : shows demo_vfs 0 1536 false demo_afile.
Proof.
  exists 0%nat, 0%nat, demo_handle_at, demo_handle, demo_fs, demo_T, demo_C, [3]. split; [|split; [exact demo_vol|split; [exact demo_file|split; [exact (eq_sym demo_bytes)|split]]]].
  - split; [repeat split; cbn; lia|done|repeat split; cbn; lia|done|done|done].
  - vm_compute. reflexivity.
  - cbn. lia.
Qed.
(** Read the file, append to it, and read it again. *)
Definition demo_ops : list file_op := [Fread 10; Fseek 0 VFS_SEEK_END; Fwrite [33; 33]; Fseek 1 VFS_SEEK_SET; Fread 10; Fseek (-9) VFS_SEEK_CUR].
Definition demo_afile2 : afile := mk_afile (demo_text ++ [33; 33]) 7.
Lemma demo_abstract : a_run 1536 false demo_ops demo_afile =
  Some (demo_afile2, [(5, demo_text); (5, []); (2, []); (1, []); (6, [101; 108; 108; 111; 33; 33]); (VFS_ERR_INVAL, [])]).
Proof. vm_compute. reflexivity. Qed.
Lemma vfs_file_refines_witness : exists v', file_run 0 0x9000 demo_ops demo_vfs =
    Some (v', [(5, demo_text); (5, []); (2, []); (1, []); (6, [101; 108; 108; 111; 33; 33]); (VFS_ERR_INVAL, [])]) /\ shows v' 0 1536 false demo_afile2.
Proof.
  exact (vfs_file_refines demo_vfs 0 0x9000 1536 false demo_ops ltac:(discriminate) demo_afile demo_afile2 _ demo_shows demo_abstract).
Defined.

(** "/a/b", and mounts at "/" and "/a" *)
Definition demo_path : list Z := [47; 97; 47; 98].
Definition demo_vfs2 : vfs unit :=
  mk_vfs None [mk_mount [slash] [] None 0 0 0 false true; mk_mount [slash; 97] [] None 0 0 0 false true] 2 [] [] [] 0 VFS_OK true
    (mk_dirent 0 VFS_NODE_NONE []) [] [] tt.
Lemma demo_mounts_named : mounts_named demo_vfs2.
Proof.
  intros i m Hi _. destruct i as [|[|i]]; [injection Hi as <-|injection Hi as <-|done].
  - exists []. eexists. by repeat split.
  - exists [[97]]. eexists. do 3 (split; [done|]). apply Forall_singleton. split; [done|]. split; [|done]. intros c Hc.
    apply list_elem_of_singleton in Hc as ->. done.
Qed.
Lemma demo_path_text : 0 ∉ path_text (resolve demo_path).
Proof. change (0 ∉ [47; 97; 47; 98]). rewrite !not_elem_of_cons. do 4 (split; [done|]). apply not_elem_of_nil. Qed.
Lemma vfs_get_mount_longest_witness : vfs_get_mount (Some demo_path) demo_vfs2 = Some (demo_vfs2, Some 1%nat) /\
  exists names, mounted demo_vfs2 1 names /\ names `prefix_of` resolve demo_path.
Proof.
  destruct (vfs_get_mount_longest demo_vfs2 demo_path demo_mounts_named) as (r & E & Hr); [exact demo_path_text|].
  assert (vfs_get_mount (Some demo_path) demo_vfs2 = Some (demo_vfs2, Some 1%nat)) as E1 by reflexivity. split; [exact E1|].
  assert (r = Some 1%nat) as -> by congruence. destruct Hr as (names & Hm & Hp & _). exact (ex_intro _ names (conj Hm Hp)).
Defined.

(** *** Calls from an empty state on: the volume is mounted at "/", a directory and the file
    A.TXT are opened, "b.txt" is created, everything is closed and unmounted. *)
Definition fat32_name : list Z := [102; 97; 116; 51; 50].
Definition file_path : list Z := slash :: demo_name.
Definition open_both : list vfs_call :=
  [Cregister (Some fat32_name) FAT32_OPS; Cmount (Some [slash]) (Some fat32_name) 1; Copendir (Some [slash]); Copen (Some file_path) VFS_O_RDWR; Ccreate (Some (slash :: demo_other)) 0;
   Copen (Some [slash; 120]) VFS_O_RDONLY].
Definition close_both : list vfs_call := [Cclose (Some 0%nat); Cclosedir (Some 0%nat); Cunmount (Some [slash])].
Definition run_demo (l : list vfs_call) : option (vfs (fat_world ram_disk Z) * list vfs_result) := run_calls fat32_ops_at l (cleared_tables demo_vfs).
Definition demo_end (l : list vfs_call) : vfs (fat_world ram_disk Z) := match run_demo l with Some (v, _) => v | None => demo_vfs end.
Lemma open_both_runs : run_calls fat32_ops_at open_both (cleared_tables demo_vfs) = Some (demo_end open_both, [Rnum 0; Rnum 0; Rdir (Some 0%nat); Rfile (Some 0%nat); Rnum 0; Rfile None]).
Proof. vm_compute. reflexivity. Qed.
Lemma close_both_runs : run_calls fat32_ops_at (open_both ++ close_both) (cleared_tables demo_vfs) = Some (demo_end (open_both ++ close_both), [Rnum 0; Rnum 0; Rdir (Some 0%nat); Rfile (Some 0%nat); Rnum 0; Rfile None; Rnum 0; Rnum 0; Rnum 0]).
Proof. vm_compute. reflexivity. Qed.
Lemma demo_init : vfs_init demo_vfs = Some (cleared_tables demo_vfs, VFS_OK).
Proof. reflexivity. Qed.
Lemma open_both_allowed : all_allowed fat32_ops_at open_both (cleared_tables demo_vfs) = true.
Proof. vm_compute. reflexivity. Qed.
Lemma close_both_allowed : all_allowed fat32_ops_at (open_both ++ close_both) (cleared_tables demo_vfs) = true.
Proof. vm_compute. reflexivity. Qed.
Lemma open_both_refs : dir_ref (dir_at (demo_end open_both) 0) = Some 0%nat /\ file_ref (file_at (demo_end open_both) 0) = Some 1%nat /\ m_root (mount_at (demo_end open_both) 0) = Some 0%nat.
Proof. split; [|split]; vm_compute; reflexivity. Qed.
Lemma vfs_handles_hold_nodes_witness : v_used (demo_end open_both) !! 0%nat = Some true /\ v_used (demo_end open_both) !! 1%nat = Some true /\ (forall n, holders (demo_end (open_both ++ close_both)) n <= n_ref_count (node_at (demo_end (open_both ++ close_both)) n)).
Proof.
  pose proof (vfs_handles_hold_nodes demo_vfs _ _ _ _ _ demo_init open_both_allowed eq_refl open_both_runs) as (_ & Hu & _).
  pose proof (vfs_handles_hold_nodes demo_vfs _ _ _ _ _ demo_init close_both_allowed eq_refl close_both_runs) as (Hc & _).
  destruct open_both_refs as (H1 & H2 & _). split; [exact (proj1 (Hu 0%nat 0%nat (or_intror (or_introl H1))))|]. split; [exact (proj1 (Hu 1%nat 0%nat (or_introl H2)))|exact Hc].
Defined.

(** vfs_unmount with a directory open: it succeeds, the open directory keeps a node that is
    free, and after the next mount two handles hold the node with one reference. *)
Definition unmount_open : list vfs_call := [Cregister (Some fat32_name) FAT32_OPS; Cmount (Some [slash]) (Some fat32_name) 1; Copendir (Some [slash]); Cunmount (Some [slash])].
Lemma vfs_unmount_frees_held_node : let v := demo_end unmount_open in
  (exists v', run_demo unmount_open = Some (v', [Rnum 0; Rnum 0; Rdir (Some 0%nat); Rnum VFS_OK])) /\ dir_ref (dir_at v 0) = Some 0%nat /\ v_used v !! 0%nat = Some false /\
  let v' := demo_end (unmount_open ++ [Cmount (Some [slash]) (Some fat32_name) 1]) in holders v' 0 = 2 /\ n_ref_count (node_at v' 0) = 1.
Proof. cbn zeta. split; [eexists; vm_compute; reflexivity|]. split; [|split; [|split]]; vm_compute; reflexivity. Qed.
