(* ===== verification/Dhcp.v ===== *)
(** * The DHCP client (net/dhcp/dhcp.c)

    The messages and their options, the state of the client with its lease, the calls, the
    timer, and the configuration loop. The client runs over the UDP sockets of [Udp]; the
    time is a field of the state that the environment moves. Addresses in messages and in
    the lease are in network byte order, as in the code. *)
From S2P Require Import Prelude Memory Ring Netbuf Net Chain Udp.

Definition DHCP_SERVER_PORT : Z := 67.
Definition DHCP_CLIENT_PORT : Z := 68.
Definition DHCP_PACKET_MIN_SIZE : Z := 236.
Definition DHCP_PACKET_MAX_SIZE : Z := 576.
Definition DHCP_OPTIONS_MAX_SIZE : Z := 340.
Definition DHCP_OP_REQUEST : Z := 1.
Definition DHCP_OP_REPLY : Z := 2.
Definition DHCP_HTYPE_ETHERNET : Z := 1.
Definition DHCP_HLEN_ETHERNET : Z := 6.
Definition DHCP_FLAG_BROADCAST : Z := 0x8000.
Definition DHCP_MSG_DISCOVER : Z := 1.
Definition DHCP_MSG_OFFER : Z := 2.
Definition DHCP_MSG_REQUEST : Z := 3.
Definition DHCP_MSG_ACK : Z := 5.
Definition DHCP_MSG_NAK : Z := 6.
Definition DHCP_MSG_RELEASE : Z := 7.
Definition DHCP_OPT_PAD : Z := 0.
Definition DHCP_OPT_SUBNET_MASK : Z := 1.
Definition DHCP_OPT_ROUTER : Z := 3.
Definition DHCP_OPT_DNS_SERVER : Z := 6.
Definition DHCP_OPT_DOMAIN_NAME : Z := 15.
Definition DHCP_OPT_BROADCAST : Z := 28.
Definition DHCP_OPT_REQUESTED_IP : Z := 50.
Definition DHCP_OPT_LEASE_TIME : Z := 51.
Definition DHCP_OPT_MSG_TYPE : Z := 53.
Definition DHCP_OPT_SERVER_ID : Z := 54.
Definition DHCP_OPT_PARAM_REQUEST : Z := 55.
Definition DHCP_OPT_RENEWAL_TIME : Z := 58.
Definition DHCP_OPT_REBINDING_TIME : Z := 59.
Definition DHCP_OPT_CLIENT_ID : Z := 61.
Definition DHCP_OPT_END : Z := 255.
Definition DHCP_OK : Z := 0.
Definition DHCP_ERR_INVALID : Z := -2.
Definition DHCP_ERR_TIMEOUT : Z := -3.
Definition DHCP_ERR_NAK : Z := -4.
Definition DHCP_ERR_NETWORK : Z := -5.
Definition DHCP_ERR_NO_LEASE : Z := -6.
Definition DHCP_ERR_NOT_INIT : Z := -7.
Definition DHCP_DISCOVER_TIMEOUT : Z := 4.
Definition DHCP_REQUEST_TIMEOUT : Z := 4.
Definition DHCP_MAX_RETRIES : Z := 4.
Definition DHCP_DEFAULT_LEASE : Z := 86400.

Inductive dhcp_state :=
| DHCP_STATE_INIT | DHCP_STATE_SELECTING | DHCP_STATE_REQUESTING | DHCP_STATE_BOUND
| DHCP_STATE_RENEWING | DHCP_STATE_REBINDING | DHCP_STATE_REBOOTING | DHCP_STATE_INIT_REBOOT.
#[export] Instance dhcp_state_eq_dec : EqDecision dhcp_state.
Proof. solve_decision. Defined.
Abbreviation in_state s t := (bool_decide (s = t)).

Record dhcp_lease := mk_lease {
  ip_addr : Z; subnet_mask : Z; gateway : Z; dns_server : Z; dns_server2 : Z; broadcast : Z; lease_server : Z;
  lease_time : Z; renewal_time : Z; rebind_time : Z; obtained_time : Z; lease_valid : bool }.
Definition zero_lease : dhcp_lease := mk_lease 0 0 0 0 0 0 0 0 0 0 0 false.
Record dhcp_client := mk_client {
  cl_state : dhcp_state; cl_lease : dhcp_lease; cl_xid : Z; cl_mac : list Z; cl_retries : Z; timeout_time : Z; cl_initialized : bool }.
Definition zero_client : dhcp_client := mk_client DHCP_STATE_INIT zero_lease 0 (repeat 0 6) 0 0 false.

(** The client, the seed, the socket (an address), the clock, and the UDP sockets. *)
Record dhcp (H : Type) := mk_dhcp { g_dhcp_client : dhcp_client; g_rand_seed : Z; g_dhcp_socket : Z; dh_ticks : Z; dh_udp : udp H }.
Arguments mk_dhcp {H}.
Arguments g_dhcp_client {H}.
Arguments g_rand_seed {H}.
Arguments g_dhcp_socket {H}.
Arguments dh_ticks {H}.
Arguments dh_udp {H}.

(** ** Messages *)

(** One option as it is appended. *)
Definition dhcp_add_option (code len : Z) (data : list Z) : list Z :=
  if negb (code =? DHCP_OPT_PAD) && negb (code =? DHCP_OPT_END) then code :: len :: (if 0 <? len then take (Z.to_nat len) data else [])
  else [code].
Definition dhcp_add_option_byte (code value : Z) : list Z := dhcp_add_option code 1 [value].
Definition dhcp_add_option_ip (code ip : Z) : list Z := dhcp_add_option code 4 (le32 ip).

(** The fields before the options; the server and file names are zero. *)
Definition dhcp_packet (op htype hlen hops xid secs flags ciaddr yiaddr siaddr giaddr : Z) (chaddr : list Z) : list Z :=
  [op; htype; hlen; hops] ++ le32 xid ++ le16 secs ++ le16 flags ++ le32 ciaddr ++ le32 yiaddr ++ le32 siaddr ++ le32 giaddr ++
  chaddr ++ repeat 0 10 ++ repeat 0 64 ++ repeat 0 128.
Definition dhcp_build_header (c : dhcp_client) (flags ciaddr : Z) : list Z :=
  dhcp_packet DHCP_OP_REQUEST DHCP_HTYPE_ETHERNET DHCP_HLEN_ETHERNET 0 (htonl (cl_xid c)) 0 flags ciaddr 0 0 0 (cl_mac c).
Definition magic_cookie : list Z := [0x63; 0x82; 0x53; 0x63].
Definition client_id (c : dhcp_client) : list Z := dhcp_add_option DHCP_OPT_CLIENT_ID 7 (DHCP_HTYPE_ETHERNET :: cl_mac c).
Definition params : list Z :=
  [DHCP_OPT_SUBNET_MASK; DHCP_OPT_ROUTER; DHCP_OPT_DNS_SERVER; DHCP_OPT_DOMAIN_NAME; DHCP_OPT_BROADCAST; DHCP_OPT_LEASE_TIME;
   DHCP_OPT_RENEWAL_TIME; DHCP_OPT_REBINDING_TIME].
Definition param_request : list Z := dhcp_add_option DHCP_OPT_PARAM_REQUEST 8 params.

(** The bytes of the packet that count; their number is the result of the C functions. *)
Definition dhcp_build_discover (c : dhcp_client) : list Z :=
  dhcp_build_header c (htons DHCP_FLAG_BROADCAST) 0 ++ magic_cookie ++
  dhcp_add_option_byte DHCP_OPT_MSG_TYPE DHCP_MSG_DISCOVER ++ client_id c ++ param_request ++ [DHCP_OPT_END].
Definition dhcp_build_request (c : dhcp_client) (offered_ip server_ip : Z) : list Z :=
  let s := cl_state c in
  let renewing := in_state s DHCP_STATE_RENEWING || in_state s DHCP_STATE_REBINDING in
  (if renewing then dhcp_build_header c 0 (ip_addr (cl_lease c)) else dhcp_build_header c (htons DHCP_FLAG_BROADCAST) 0) ++ magic_cookie ++
  dhcp_add_option_byte DHCP_OPT_MSG_TYPE DHCP_MSG_REQUEST ++ client_id c ++
  (if in_state s DHCP_STATE_SELECTING || in_state s DHCP_STATE_INIT_REBOOT || in_state s DHCP_STATE_REBOOTING
   then dhcp_add_option_ip DHCP_OPT_REQUESTED_IP offered_ip else []) ++
  (if in_state s DHCP_STATE_SELECTING then dhcp_add_option_ip DHCP_OPT_SERVER_ID server_ip else []) ++
  param_request ++ [DHCP_OPT_END].
Definition dhcp_build_release (c : dhcp_client) : list Z :=
  dhcp_build_header c 0 (ip_addr (cl_lease c)) ++ magic_cookie ++
  dhcp_add_option_byte DHCP_OPT_MSG_TYPE DHCP_MSG_RELEASE ++ dhcp_add_option_ip DHCP_OPT_SERVER_ID (lease_server (cl_lease c)) ++
  client_id c ++ [DHCP_OPT_END].

(** One option that was read: [data] are its bytes. *)
Definition set_mask (v : Z) (l : dhcp_lease) : dhcp_lease :=
  mk_lease (ip_addr l) v (gateway l) (dns_server l) (dns_server2 l) (broadcast l) (lease_server l) (lease_time l) (renewal_time l) (rebind_time l) (obtained_time l) (lease_valid l).
Definition set_router (v : Z) (l : dhcp_lease) : dhcp_lease :=
  mk_lease (ip_addr l) (subnet_mask l) v (dns_server l) (dns_server2 l) (broadcast l) (lease_server l) (lease_time l) (renewal_time l) (rebind_time l) (obtained_time l) (lease_valid l).
Definition set_dns (v w : Z) (l : dhcp_lease) : dhcp_lease :=
  mk_lease (ip_addr l) (subnet_mask l) (gateway l) v w (broadcast l) (lease_server l) (lease_time l) (renewal_time l) (rebind_time l) (obtained_time l) (lease_valid l).
Definition set_broadcast (v : Z) (l : dhcp_lease) : dhcp_lease :=
  mk_lease (ip_addr l) (subnet_mask l) (gateway l) (dns_server l) (dns_server2 l) v (lease_server l) (lease_time l) (renewal_time l) (rebind_time l) (obtained_time l) (lease_valid l).
Definition set_lease_server (v : Z) (l : dhcp_lease) : dhcp_lease :=
  mk_lease (ip_addr l) (subnet_mask l) (gateway l) (dns_server l) (dns_server2 l) (broadcast l) v (lease_time l) (renewal_time l) (rebind_time l) (obtained_time l) (lease_valid l).
Definition set_times (t t1 t2 : Z) (l : dhcp_lease) : dhcp_lease :=
  mk_lease (ip_addr l) (subnet_mask l) (gateway l) (dns_server l) (dns_server2 l) (broadcast l) (lease_server l) t t1 t2 (obtained_time l) (lease_valid l).

Definition process_option (code : Z) (data : list Z) (r : dhcp_lease * Z) : dhcp_lease * Z :=
  let '(l, msg_type) := r in
  let opt_len := Z.of_nat (length data) in
  let word := get32 data 0 in
  if code =? DHCP_OPT_MSG_TYPE then (l, if 1 <=? opt_len then byte_at data 0 else msg_type)
  else if opt_len <? 4 then r
  else if code =? DHCP_OPT_SUBNET_MASK then (set_mask word l, msg_type)
  else if code =? DHCP_OPT_ROUTER then (set_router word l, msg_type)
  else if code =? DHCP_OPT_DNS_SERVER then (set_dns word (if 8 <=? opt_len then get32 data 4 else dns_server2 l) l, msg_type)
  else if code =? DHCP_OPT_BROADCAST then (set_broadcast word l, msg_type)
  else if code =? DHCP_OPT_LEASE_TIME then (set_times (ntohl word) (renewal_time l) (rebind_time l) l, msg_type)
  else if code =? DHCP_OPT_SERVER_ID then (set_lease_server word l, msg_type)
  else if code =? DHCP_OPT_RENEWAL_TIME then (set_times (lease_time l) (ntohl word) (rebind_time l) l, msg_type)
  else if code =? DHCP_OPT_REBINDING_TIME then (set_times (lease_time l) (renewal_time l) (ntohl word) l, msg_type)
  else r.
(** The loop: what is left to read, the lease and the message type. *)
Definition option_round (st : list Z * (dhcp_lease * Z)) : (list Z * (dhcp_lease * Z)) + (dhcp_lease * Z) :=
  let '(l, r) := st in
  match l with
  | [] => inr r
  | code :: l =>
      if code =? DHCP_OPT_PAD then inl (l, r)
      else if code =? DHCP_OPT_END then inr r
      else
        match l with
        | [] => inr r
        | opt_len :: l =>
            if Z.of_nat (length l) <? opt_len then inr r
            else inl (drop (Z.to_nat opt_len) l, process_option code (take (Z.to_nat opt_len) l) r)
        end
  end.
(** [options] are the [len] bytes that are read; the lease and the type on success. *)
Definition dhcp_parse_options (options : list Z) (r : dhcp_lease * Z) : option (dhcp_lease * Z) :=
  if (Z.of_nat (length options) <? 4) || negb (bool_decide (take 4 options = magic_cookie)) then None
  else loop option_round (drop 4 options, r).

(** ** The client *)

Section Dhcp.
Context {H : Type} `{KernelHeap H}.
Variable hw_result : list Z -> Z.
Variable fresh : Z -> Z.
Implicit Types d : dhcp H.

Definition set_client (c : dhcp_client) d : dhcp H := mk_dhcp c (g_rand_seed d) (g_dhcp_socket d) (dh_ticks d) (dh_udp d).
Definition set_dh_udp (u : udp H) d : dhcp H := mk_dhcp (g_dhcp_client d) (g_rand_seed d) (g_dhcp_socket d) (dh_ticks d) u.
Definition on_client (f : dhcp_client -> dhcp_client) d : dhcp H := set_client (f (g_dhcp_client d)) d.
Definition with_state (s : dhcp_state) (c : dhcp_client) : dhcp_client := mk_client s (cl_lease c) (cl_xid c) (cl_mac c) (cl_retries c) (timeout_time c) (cl_initialized c).
Definition with_lease (l : dhcp_lease) (c : dhcp_client) : dhcp_client := mk_client (cl_state c) l (cl_xid c) (cl_mac c) (cl_retries c) (timeout_time c) (cl_initialized c).
Definition with_xid (x : Z) (c : dhcp_client) : dhcp_client := mk_client (cl_state c) (cl_lease c) x (cl_mac c) (cl_retries c) (timeout_time c) (cl_initialized c).
Definition with_retries (n : Z) (c : dhcp_client) : dhcp_client := mk_client (cl_state c) (cl_lease c) (cl_xid c) (cl_mac c) n (timeout_time c) (cl_initialized c).
Definition with_timeout (t : Z) (c : dhcp_client) : dhcp_client := mk_client (cl_state c) (cl_lease c) (cl_xid c) (cl_mac c) (cl_retries c) t (cl_initialized c).
Definition on_unet (f : net -> net) d : dhcp H := set_dh_udp (set_unet (f (ud_net (dh_udp d))) (dh_udp d)) d.

Definition dhcp_rand d : dhcp H * Z :=
  let seed := u32 (g_rand_seed d * 1103515245 + 12345) in
  (mk_dhcp (g_dhcp_client d) seed (g_dhcp_socket d) (dh_ticks d) (dh_udp d), Z.land (Z.shiftr seed 16) 0x7FFFFFFF).
Definition dhcp_generate_xid d : dhcp H * Z :=
  dhcp_rand (mk_dhcp (g_dhcp_client d) (Z.lxor (g_rand_seed d) (u32 (dh_ticks d))) (g_dhcp_socket d) (dh_ticks d) (dh_udp d)).

Definition dhcp_init d : dhcp H * Z :=
  let mac := local_mac (ud_net (dh_udp d)) in
  let c := mk_client DHCP_STATE_INIT zero_lease 0 mac 0 0 false in
  let '(u, p) := udp_bind DHCP_CLIENT_PORT (dh_udp d) in
  let d := mk_dhcp c (g_rand_seed d) p (dh_ticks d) u in
  if p =? NULL then (d, DHCP_ERR_NETWORK)
  else
    let d := set_dh_udp (udp_set_broadcast p true (dh_udp d)) d in
    (on_client (fun c => mk_client DHCP_STATE_INIT (cl_lease c) (cl_xid c) (cl_mac c) (cl_retries c) (timeout_time c) true) d, DHCP_OK).

Definition dhcp_send_packet (packet : list Z) (dest_ip : Z) d : dhcp H * Z :=
  let '(u, sent) := udp_send hw_result fresh dest_ip DHCP_SERVER_PORT DHCP_CLIENT_PORT (Some packet) (Z.of_nat (length packet)) (dh_udp d) in
  (set_dh_udp u d, if sent <? 0 then DHCP_ERR_NETWORK else DHCP_OK).
Definition dhcp_discover d : dhcp H * Z :=
  if negb (cl_initialized (g_dhcp_client d)) then (d, DHCP_ERR_NOT_INIT)
  else
    let '(d, xid) := dhcp_generate_xid d in
    let d := on_client (with_xid xid) d in
    let '(d, ret) := dhcp_send_packet (dhcp_build_discover (g_dhcp_client d)) IP_ADDR_BROADCAST d in
    if ret <? 0 then (d, ret)
    else (on_client (fun c => with_timeout (u64 (dh_ticks d + DHCP_DISCOVER_TIMEOUT * 1000)) (with_retries 0 (with_state DHCP_STATE_SELECTING c))) d, DHCP_OK).
Definition dhcp_request (offered_ip server_ip : Z) d : dhcp H * Z :=
  if negb (cl_initialized (g_dhcp_client d)) then (d, DHCP_ERR_NOT_INIT)
  else
    let c := g_dhcp_client d in
    let dest_ip := if in_state (cl_state c) DHCP_STATE_RENEWING then ntohl server_ip else IP_ADDR_BROADCAST in
    let '(d, ret) := dhcp_send_packet (dhcp_build_request c offered_ip server_ip) dest_ip d in
    if ret <? 0 then (d, ret)
    else
      let d := if in_state (cl_state c) DHCP_STATE_SELECTING then on_client (with_state DHCP_STATE_REQUESTING) d else d in
      (on_client (with_timeout (u64 (dh_ticks d + DHCP_REQUEST_TIMEOUT * 1000))) d, DHCP_OK).

(** No address, no lease, initial state. *)
Definition reset_interface d : dhcp H := on_unet (fun n => ip_set_gateway 0 (ip_set_netmask 0 (ip_set_addr 0 n))) d.
Definition drop_lease d : dhcp H := reset_interface (on_client (fun c => with_state DHCP_STATE_INIT (with_lease zero_lease c)) d).
Definition dhcp_release d : dhcp H * Z :=
  let c := g_dhcp_client d in
  if negb (cl_initialized c) then (d, DHCP_ERR_NOT_INIT)
  else if negb (lease_valid (cl_lease c)) then (d, DHCP_ERR_NO_LEASE)
  else
    let '(d, _) := dhcp_send_packet (dhcp_build_release c) (ntohl (lease_server (cl_lease c))) d in
    (drop_lease d, DHCP_OK).
Definition dhcp_renew d : dhcp H * Z :=
  let c := g_dhcp_client d in
  if negb (cl_initialized c) then (d, DHCP_ERR_NOT_INIT)
  else if negb (lease_valid (cl_lease c)) then (d, DHCP_ERR_NO_LEASE)
  else
    let d := on_client (fun c => with_retries 0 (with_state DHCP_STATE_RENEWING c)) d in
    dhcp_request (ip_addr (cl_lease (g_dhcp_client d))) (lease_server (cl_lease (g_dhcp_client d))) d.
Definition dhcp_get_lease d : option dhcp_lease :=
  let c := g_dhcp_client d in if negb (cl_initialized c) || negb (lease_valid (cl_lease c)) then None else Some (cl_lease c).
Definition dhcp_apply_lease (l : dhcp_lease) d : dhcp H * Z :=
  if negb (lease_valid l) then (d, DHCP_ERR_INVALID)
  else (on_unet (fun n => ip_set_gateway (ntohl (gateway l)) (ip_set_netmask (ntohl (subnet_mask l)) (ip_set_addr (ntohl (ip_addr l)) n))) d, DHCP_OK).

(** The lease of an ACK, from the options that were read. *)
Definition ack_lease (yiaddr now : Z) (l : dhcp_lease) : dhcp_lease :=
  let t := if lease_time l =? 0 then DHCP_DEFAULT_LEASE else lease_time l in
  let t1 := if renewal_time l =? 0 then t / 2 else renewal_time l in
  let t2 := if rebind_time l =? 0 then u32 (t * 7) / 8 else rebind_time l in
  mk_lease yiaddr (subnet_mask l) (gateway l) (dns_server l) (dns_server2 l) (broadcast l) (lease_server l) t t1 t2 now true.
(** [buf] is the memory from the packet on; [len] bytes of it were received. The options
    are read up to four bytes behind them. *)
Definition dhcp_input (buf : list Z) (len : Z) d : dhcp H * Z :=
  let c := g_dhcp_client d in
  if negb (cl_initialized c) then (d, DHCP_ERR_NOT_INIT)
  else if len <? DHCP_PACKET_MIN_SIZE then (d, DHCP_ERR_INVALID)
  else if negb (byte_at buf 0 =? DHCP_OP_REPLY) then (d, DHCP_ERR_INVALID)
  else if negb (ntohl (get32 buf 4) =? cl_xid c) then (d, DHCP_ERR_INVALID)
  else if negb (bool_decide (take 6 (drop 28 buf) = cl_mac c)) then (d, DHCP_ERR_INVALID)
  else
    let opt_len := len - DHCP_PACKET_MIN_SIZE in
    let opt_len := if DHCP_OPTIONS_MAX_SIZE <? opt_len then DHCP_OPTIONS_MAX_SIZE else opt_len in
    let yiaddr := get32 buf 16 in
    match dhcp_parse_options (take (Z.to_nat (opt_len + 4)) (drop (Z.to_nat DHCP_PACKET_MIN_SIZE) buf)) (zero_lease, 0) with
    | None => (d, DHCP_ERR_INVALID)
    | Some (lease, msg_type) =>
        if msg_type =? DHCP_MSG_OFFER then
          if in_state (cl_state c) DHCP_STATE_SELECTING then
            let '(d, ret) := dhcp_request yiaddr (lease_server lease) d in if ret <? 0 then (d, ret) else (d, DHCP_OK)
          else (d, DHCP_OK)
        else if msg_type =? DHCP_MSG_ACK then
          if in_state (cl_state c) DHCP_STATE_REQUESTING || in_state (cl_state c) DHCP_STATE_RENEWING ||
             in_state (cl_state c) DHCP_STATE_REBINDING || in_state (cl_state c) DHCP_STATE_REBOOTING
          then
            let lease := ack_lease yiaddr (dh_ticks d) lease in
            let d := on_client (fun c => with_state DHCP_STATE_BOUND (with_lease lease c)) d in
            (fst (dhcp_apply_lease (cl_lease (g_dhcp_client d)) d), DHCP_OK)
          else (d, DHCP_OK)
        else if msg_type =? DHCP_MSG_NAK then (drop_lease d, DHCP_ERR_NAK)
        else (d, DHCP_OK)
    end.

Definition dhcp_get_state d : dhcp_state := cl_state (g_dhcp_client d).
Definition dhcp_is_configured d : bool :=
  let c := g_dhcp_client d in cl_initialized c && in_state (cl_state c) DHCP_STATE_BOUND && lease_valid (cl_lease c).

(** The request for the lease as it is stored. *)
Definition request_lease d : dhcp H := fst (dhcp_request (ip_addr (cl_lease (g_dhcp_client d))) (lease_server (cl_lease (g_dhcp_client d))) d).
Definition retry_tick (now : Z) d : dhcp H :=
  if timeout_time (g_dhcp_client d) <=? now then
    let d := on_client (fun c => with_retries (u8 (cl_retries c + 1)) c) d in
    let c := g_dhcp_client d in
    if DHCP_MAX_RETRIES <=? cl_retries c then
      on_client (with_state (if lease_valid (cl_lease c) then DHCP_STATE_REBINDING else DHCP_STATE_INIT)) d
    else if in_state (cl_state c) DHCP_STATE_SELECTING then fst (dhcp_discover d)
    else request_lease d
  else d.
Definition bound_tick (now : Z) d : dhcp H :=
  let l := cl_lease (g_dhcp_client d) in
  if lease_valid l then
    let lease_elapsed := u64 (now - obtained_time l) / 1000 in
    if lease_time l <=? lease_elapsed then drop_lease d
    else if rebind_time l <=? lease_elapsed then request_lease (on_client (fun c => with_retries 0 (with_state DHCP_STATE_REBINDING c)) d)
    else if renewal_time l <=? lease_elapsed then fst (dhcp_renew d)
    else d
  else d.
Definition dhcp_timer_tick d : dhcp H :=
  if negb (cl_initialized (g_dhcp_client d)) then d
  else
    let now := dh_ticks d in
    match cl_state (g_dhcp_client d) with
    | DHCP_STATE_SELECTING | DHCP_STATE_REQUESTING | DHCP_STATE_RENEWING | DHCP_STATE_REBINDING => retry_tick now d
    | DHCP_STATE_BOUND => bound_tick now d
    | _ => d
    end.

(** The configuration loop. Each round starts after the environment has moved: time has
    passed and packets may have arrived ([env], one function for each round). [recv_buf] is
    the buffer on the stack, [buf] its address. The result is [None] when the environment
    ends before the call does. *)
Fixpoint configure_loop (env : list (dhcp H -> dhcp H)) (buf deadline : Z) (recv_buf : list Z) d : dhcp H * option Z :=
  match env with
  | [] => (d, None)
  | e :: env =>
      let d := e d in
      if negb (dh_ticks d <? deadline) then (d, Some DHCP_ERR_TIMEOUT)
      else
        let '(u, recv_len, got) := udp_recvfrom (g_dhcp_socket d) buf DHCP_PACKET_MAX_SIZE (dh_udp d) in
        let d := set_dh_udp u d in
        let recv_buf := match got with Some (bytes, _, _) => bytes ++ drop (length bytes) recv_buf | None => recv_buf end in
        let d := if 0 <? recv_len then fst (dhcp_input recv_buf recv_len d) else d in
        if in_state (cl_state (g_dhcp_client d)) DHCP_STATE_BOUND then (d, Some DHCP_OK)
        else
          let d := dhcp_timer_tick d in
          if in_state (cl_state (g_dhcp_client d)) DHCP_STATE_INIT then
            let '(d, ret) := dhcp_discover d in
            if ret <? 0 then (d, Some ret) else configure_loop env buf deadline recv_buf d
          else configure_loop env buf deadline recv_buf d
  end.
Definition dhcp_configure (env : list (dhcp H -> dhcp H)) (buf timeout_ms : Z) (recv_buf : list Z) d : dhcp H * option Z :=
  let '(d, ret) := if negb (cl_initialized (g_dhcp_client d)) then dhcp_init d else (d, DHCP_OK) in
  if ret <? 0 then (d, Some ret)
  else
    let deadline := u64 (dh_ticks d + timeout_ms) in
    let '(d, ret) := dhcp_discover d in
    if ret <? 0 then (d, Some ret) else configure_loop env buf deadline recv_buf d.
End Dhcp.
