(* ===== verification/DhcpProps.v ===== *)
(** * DHCP: options, the handshake and the lease (net/dhcp/dhcp.c)

    Options are read back as they were written. A server's offer leads to a request and its
    acknowledgement to a lease with the values it sent, applied to the interface. Whatever
    calls, packets and ticks follow each other, a valid lease is the configuration of the
    interface. *)
From S2P Require Import Prelude Memory Ring Netbuf Net Checksum Packets Chain Udp UdpProps Dhcp.

(** ** Options *)

(** An option: its code and its bytes. *)
Record dopt := mk_dopt { o_code : Z; o_data : list Z }.
Definition dopt_ok (o : dopt) : Prop := o_code o <> DHCP_OPT_PAD /\ o_code o <> DHCP_OPT_END /\ Z.of_nat (length (o_data o)) <= 255.
Definition opt_bytes (o : dopt) : list Z := dhcp_add_option (o_code o) (Z.of_nat (length (o_data o))) (o_data o).
Definition opts_bytes (l : list dopt) : list Z := concat (map opt_bytes l).
Definition process_all (l : list dopt) (r : dhcp_lease * Z) : dhcp_lease * Z := foldl (fun r o => process_option (o_code o) (o_data o) r) r l.

Lemma opt_bytes_val o : dopt_ok o -> opt_bytes o = o_code o :: Z.of_nat (length (o_data o)) :: o_data o.
Proof.
  intros (H1 & H2 & _). unfold opt_bytes, dhcp_add_option. rewrite (proj2 (Z.eqb_neq _ _) H1), (proj2 (Z.eqb_neq _ _) H2). cbn [negb andb]. do 2 f_equal.
  destruct (o_data o) as [|b l] eqn:E; [done|]. rewrite (proj2 (Z.ltb_lt _ _)) by (simpl; lia). by rewrite Nat2Z.id, take_ge.
Qed.
Lemma option_round_ok o rest r : dopt_ok o -> option_round (opt_bytes o ++ rest, r) = inl (rest, process_option (o_code o) (o_data o) r).
Proof.
  intros Ho. rewrite (opt_bytes_val o Ho). destruct Ho as (H1 & H2 & _). cbn [app option_round]. rewrite (proj2 (Z.eqb_neq _ _) H1), (proj2 (Z.eqb_neq _ _) H2).
  rewrite length_app, (proj2 (Z.ltb_ge _ _)) by lia. by rewrite Nat2Z.id, take_app_length, drop_app_length.
Qed.
Lemma options_round_all opts rest r n : Forall dopt_ok opts ->
  while_nat (length opts + n) option_round (opts_bytes opts ++ rest, r) = while_nat n option_round (rest, process_all opts r).
Proof.
  intros Ho. revert r. induction Ho as [|o opts Ho _ IH]; intros r; [done|]. cbn [length Nat.add]. rewrite while_nat_S. unfold opts_bytes. cbn [map concat].
  rewrite <- app_assoc, option_round_ok by done. apply IH.
Qed.
Lemma opts_bytes_length opts : Forall dopt_ok opts -> (2 * length opts <= length (opts_bytes opts))%nat.
Proof.
  induction 1 as [|o opts Ho _ IH]; [done|]. unfold opts_bytes in *. cbn [map concat]. rewrite length_app, (opt_bytes_val o Ho). simpl. lia.
Qed.
(** The cookie, options and the end mark are read as these options, whatever follows. *)
Lemma parse_options_ok opts rest r : Forall dopt_ok opts -> Z.of_nat (length (opts_bytes opts)) < 2 ^ 32 ->
  dhcp_parse_options (magic_cookie ++ opts_bytes opts ++ DHCP_OPT_END :: rest) r = Some (process_all opts r).
Proof.
  intros Ho Hl. pose proof (opts_bytes_length opts Ho) as Hn. unfold dhcp_parse_options. rewrite (proj2 (Z.ltb_ge _ _)) by (rewrite length_app; simpl; lia).
  rewrite bool_decide_eq_true_2 by done. cbn [negb orb]. change (drop 4 (magic_cookie ++ ?l)) with l. unfold loop.
  rewrite (while_pos_enough _ ADDRESSES (length opts + 1) _ (process_all opts r)); [done| |unfold ADDRESSES; lia].
  by rewrite (options_round_all opts _ r 1 Ho).
Qed.
(** The options of any message, terminated or not, are read in finitely many rounds. *)
Lemma parse_options_total options r : Z.of_nat (length options) < 2 ^ 48 ->
  4 <= Z.of_nat (length options) -> take 4 options = magic_cookie -> is_Some (dhcp_parse_options options r).
Proof.
  intros Hl H4 Hc. unfold dhcp_parse_options. rewrite (proj2 (Z.ltb_ge _ _)) by lia. rewrite bool_decide_eq_true_2 by done. cbn [negb orb].
  destruct (loop_rule (fun st => Z.of_nat (length (fst st)) < 2 ^ 48) (fun _ => True) (fun st : list Z * (dhcp_lease * Z) => length (fst st)) option_round (drop 4 options, r)) as (x & -> & _); [| | |by eexists].
  - cbn [fst]. rewrite length_drop. lia.
  - cbn [fst]. rewrite length_drop. lia.
  - intros [l r'] Hst. cbn [fst] in *. unfold option_round. destruct l as [|c l]; [done|]. cbn [length] in *. destruct (c =? DHCP_OPT_PAD); [cbn [fst]; lia|]. destruct (c =? DHCP_OPT_END); [done|].
    destruct l as [|n l]; [done|]. destruct (_ <? n); [done|]. cbn [fst length] in *. rewrite length_drop. lia.
Qed.

(** ** Messages as the standard has them *)

(** A number in network order, and the number that bytes in network order stand for. *)
Definition be4 (x : Z) : list Z := [x / 2 ^ 24 mod 256; x / 2 ^ 16 mod 256; x / 2 ^ 8 mod 256; x mod 256].
Definition be_val (l : list Z) : Z := foldl (fun a b => a * 256 + b) 0 l.
(** What a server sends: the fields before the options, as bytes, the options in any order,
    and whatever follows the end mark. *)
Record server_msg := mk_server_msg {
  sm_hops : Z; sm_secs : list Z; sm_flags : list Z; sm_ciaddr : list Z; sm_yiaddr : list Z; sm_siaddr : list Z; sm_giaddr : list Z;
  sm_pad : list Z; sm_names : list Z; sm_opts : list dopt; sm_tail : list Z }.
Definition tlv (o : dopt) : list Z := o_code o :: Z.of_nat (length (o_data o)) :: o_data o.
Definition tlvs (l : list dopt) : list Z := concat (map tlv l).
Definition server_header (xid : Z) (mac : list Z) (m : server_msg) : list Z :=
  [2; 1; 6; sm_hops m] ++ be4 xid ++ sm_secs m ++ sm_flags m ++ sm_ciaddr m ++ sm_yiaddr m ++ sm_siaddr m ++ sm_giaddr m ++ mac ++ sm_pad m ++ sm_names m.
Definition server_bytes (xid : Z) (mac : list Z) (m : server_msg) : list Z := server_header xid mac m ++ [99; 130; 83; 99] ++ tlvs (sm_opts m) ++ 255 :: sm_tail m.
(** Its fields have their sizes, its type is [t], no option is sent twice, and the options
    fit into the part of the packet that the client reads. *)
Record server_msg_ok (t : Z) (m : server_msg) : Prop := mk_server_msg_ok {
  so_sizes : length (sm_secs m) = 2%nat /\ length (sm_flags m) = 2%nat /\ length (sm_ciaddr m) = 4%nat /\ length (sm_yiaddr m) = 4%nat /\ length (sm_siaddr m) = 4%nat /\
             length (sm_giaddr m) = 4%nat /\ length (sm_pad m) = 10%nat /\ length (sm_names m) = 192%nat;
  so_yiaddr : bytes (sm_yiaddr m);
  so_type : mk_dopt 53 [t] ∈ sm_opts m;
  so_once : NoDup (map o_code (sm_opts m));
  so_opts : Forall dopt_ok (sm_opts m);
  so_bytes : Forall (fun o => bytes (o_data o)) (sm_opts m);
  so_length : Z.of_nat (length (tlvs (sm_opts m))) + 5 <= DHCP_OPTIONS_MAX_SIZE;
}.
(** The bytes of the option with a code; the four bytes of an address, and the seconds. *)
Fixpoint value (code : Z) (opts : list dopt) : option (list Z) :=
  match opts with
  | [] => None
  | o :: opts => if o_code o =? code then Some (o_data o) else value code opts
  end.
Definition four (d : option (list Z)) : list Z := match d with Some d => if (4 <=? length d)%nat then take 4 d else [0; 0; 0; 0] | None => [0; 0; 0; 0] end.
Definition address (code : Z) (opts : list dopt) : list Z := four (value code opts).
Definition seconds (code : Z) (opts : list dopt) : Z := be_val (address code opts).
Definition second_address (code : Z) (opts : list dopt) : list Z := match value code opts with Some d => if (8 <=? length d)%nat then take 4 (drop 4 d) else [0; 0; 0; 0] | None => [0; 0; 0; 0] end.
(** The REQUEST for an address, to a server. *)
Definition request_bytes (xid : Z) (mac ip server : list Z) : list Z :=
  [1; 1; 6; 0] ++ be4 xid ++ [0; 0] ++ [0x80; 0] ++ repeat 0 16 ++ mac ++ repeat 0 202 ++ [99; 130; 83; 99] ++
  [53; 1; 3] ++ [61; 7; 1] ++ mac ++ [50; 4] ++ ip ++ [54; 4] ++ server ++ [55; 8; 1; 3; 6; 15; 28; 51; 58; 59] ++ [255].

Lemma four_bytes d : Forall is_byte (default [] d) -> length (four d) = 4%nat /\ bytes (four d).
Proof.
  intros Hb. assert (bytes [0; 0; 0; 0]) as H0 by (repeat constructor; unfold is_byte; lia). unfold four. destruct d as [d|]; [|done]. destruct (Nat.leb_spec 4 (length d)); [|done]. split; [rewrite length_take; lia|]. apply Forall_take, Hb.
Qed.
Lemma value_bytes code opts : Forall (fun o => bytes (o_data o)) opts -> bytes (default [] (value code opts)).
Proof. induction 1 as [|o opts Ho _ IH]; cbn; [constructor|]. by destruct (_ =? code). Qed.
Lemma address_bytes code opts : Forall (fun o => bytes (o_data o)) opts -> length (address code opts) = 4%nat /\ bytes (address code opts).
Proof. intros Ho. by apply four_bytes, value_bytes. Qed.
Ltac split4 l := let a := fresh "a" in let b := fresh "b" in let c := fresh "c" in let d := fresh "d" in destruct l as [|a [|b [|c [|d [|]]]]]; try done.
Lemma le32_get32 l : length l = 4%nat -> bytes l -> le32 (get32 l 0) = l.
Proof.
  intros Hl Hb. split4 l. repeat (apply Forall_cons in Hb as [? Hb]). unfold is_byte in *. unfold le32, get32, get16, byte_at. cbn [nth Nat.add]. unfold u8. rewrite !Z.shiftr_div_pow2 by lia. repeat f_equal; dlia.
Qed.
Lemma ntohl_be_val l : length l = 4%nat -> bytes l -> ntohl (get32 l 0) = be_val l.
Proof.
  intros Hl Hb. pose proof (get32_range l 0 Hb) as Hr. unfold ntohl. rewrite htonl_val by done. split4 l. repeat (apply Forall_cons in Hb as [? Hb]). unfold is_byte in *.
  unfold get32, get16, byte_at, be_val, word_of in *. cbn [nth Nat.add foldl] in *. unfold u8 in *. dlia.
Qed.
Lemma be4_htonl x : 0 <= x < 2 ^ 32 -> le32 (htonl x) = be4 x.
Proof.
  intros Hx. rewrite htonl_val by done. destruct (word_bytes x Hx) as (B0 & B1 & B2 & B3). destruct (word_of_inj_bytes _ _ _ _ B0 B1 B2 B3) as (_ & E0 & E1 & E2 & E3). set (w := word_of _ _ _ _) in *. unfold le32, be4, u8. rewrite !Z.shiftr_div_pow2 by lia. change (2 ^ 8) with 256 in *.
  rewrite E0, E1, E2, E3. unfold is_byte in *. by rewrite !(Z.mod_small (x / 2 ^ 24)), !(Z.mod_small (x mod 256)) by lia.
Qed.
Lemma get32_take4 l : (4 <= length l)%nat -> get32 (take 4 l) 0 = get32 l 0.
Proof. intros Hl. destruct l as [|a [|b [|c [|d l]]]]; cbn in Hl; try lia. done. Qed.
Lemma get32_skip4 l : (8 <= length l)%nat -> get32 (take 4 (drop 4 l)) 0 = get32 l 4.
Proof. intros Hl. do 8 (destruct l as [|? l]; [cbn in Hl; lia|]). done. Qed.

(** *** What the client makes of the options *)

(** A field that one option sets: after all options it is what that option makes of it. *)
Lemma field_of {A} (f : dhcp_lease * Z -> A) code g opts r :
  (forall c data r, c <> code -> f (process_option c data r) = f r) -> (forall data r, f (process_option code data r) = g data (f r)) -> NoDup (map o_code opts) ->
  f (process_all opts r) = match value code opts with Some d => g d (f r) | None => f r end.
Proof.
  intros H1 H2. revert r. induction opts as [|o opts IH]; intros r Hn; [done|]. cbn [map] in Hn. apply NoDup_cons in Hn as [Hno Hn]. unfold process_all. cbn [foldl value]. fold (process_all opts (process_option (o_code o) (o_data o) r)). rewrite IH by done. destruct (Z.eqb_spec (o_code o) code) as [<-|Hne]; [|by rewrite H1].
  assert (value (o_code o) opts = None) as ->; [|by rewrite H2]. clear -Hno. induction opts as [|p opts IH]; [done|]. cbn [map] in Hno. apply not_elem_of_cons in Hno as [Hne Hno]. cbn [value]. rewrite (proj2 (Z.eqb_neq _ _)) by congruence. by apply IH.
Qed.
(** Such a field with the word of the option, unless it is too short. *)
Lemma word_field (f : dhcp_lease -> Z) code opts : f zero_lease = 0 ->
  (forall c data r, c <> code -> f (fst (process_option c data r)) = f (fst r)) -> (forall data r, f (fst (process_option code data r)) = if Z.of_nat (length data) <? 4 then f (fst r) else get32 data 0) -> NoDup (map o_code opts) ->
  f (fst (process_all opts (zero_lease, 0))) = get32 (address code opts) 0.
Proof.
  intros H0 H1 H2 Hn. rewrite (field_of (fun r => f (fst r)) code (fun data x => if Z.of_nat (length data) <? 4 then x else get32 data 0)); [|done|done|done]. cbn [fst]. unfold address, four. destruct (value code opts) as [d|]; [|done]. destruct (Z.ltb_spec (Z.of_nat (length d)) 4), (Nat.leb_spec 4 (length d)); try lia; [done|]. by rewrite get32_take4 by lia.
Qed.
Lemma time_field (f : dhcp_lease -> Z) code opts : f zero_lease = 0 -> Forall (fun o => bytes (o_data o)) opts ->
  (forall c data r, c <> code -> f (fst (process_option c data r)) = f (fst r)) -> (forall data r, f (fst (process_option code data r)) = if Z.of_nat (length data) <? 4 then f (fst r) else ntohl (get32 data 0)) -> NoDup (map o_code opts) ->
  f (fst (process_all opts (zero_lease, 0))) = seconds code opts.
Proof.
  intros H0 Hb H1 H2 Hn. rewrite (field_of (fun r => f (fst r)) code (fun data x => if Z.of_nat (length data) <? 4 then x else ntohl (get32 data 0))); [|done|done|done]. cbn [fst]. unfold seconds. destruct (address_bytes code opts Hb) as [L B]. rewrite <- ntohl_be_val by done. unfold address, four. destruct (value code opts) as [d|]; [|done]. destruct (Z.ltb_spec (Z.of_nat (length d)) 4), (Nat.leb_spec 4 (length d)); try lia; [done|]. by rewrite get32_take4 by lia.
Qed.
Ltac option_cases := intros; unfold process_option; match goal with r : (dhcp_lease * Z)%type |- _ => destruct r as [? ?] end; repeat case_if; zbool; try done; exfalso; first [congruence|lia].
(** The lease that the options of a message carry. *)
Record carries (opts : list dopt) (l : dhcp_lease) : Prop := mk_carries {
  ca_mask : subnet_mask l = get32 (address 1 opts) 0;
  ca_router : gateway l = get32 (address 3 opts) 0;
  ca_dns : dns_server l = get32 (address 6 opts) 0;
  ca_dns2 : dns_server2 l = get32 (second_address 6 opts) 0;
  ca_broadcast : broadcast l = get32 (address 28 opts) 0;
  ca_server : lease_server l = get32 (address 54 opts) 0;
  ca_time : lease_time l = seconds 51 opts;
  ca_renew : renewal_time l = seconds 58 opts;
  ca_rebind : rebind_time l = seconds 59 opts;
}.
Lemma options_carry opts : NoDup (map o_code opts) -> Forall (fun o => bytes (o_data o)) opts -> carries opts (fst (process_all opts (zero_lease, 0))).
Proof.
  intros Hn Hb. split.
  - apply word_field; [done|option_cases|option_cases|done].
  - apply word_field; [done|option_cases|option_cases|done].
  - apply word_field; [done|option_cases|option_cases|done].
  - rewrite (field_of (fun r => dns_server2 (fst r)) 6 (fun data x => if Z.of_nat (length data) <? 8 then x else get32 data 4)); [|option_cases|option_cases|done]. cbn [fst]. unfold second_address. destruct (value 6 opts) as [d|]; [|done]. destruct (Z.ltb_spec (Z.of_nat (length d)) 8), (Nat.leb_spec 8 (length d)); try lia; [done|]. by rewrite get32_skip4 by lia.
  - apply word_field; [done|option_cases|option_cases|done].
  - apply word_field; [done|option_cases|option_cases|done].
  - apply time_field; [done|done|option_cases|option_cases|done].
  - apply time_field; [done|done|option_cases|option_cases|done].
  - apply time_field; [done|done|option_cases|option_cases|done].
Qed.
Lemma options_type opts t : NoDup (map o_code opts) -> mk_dopt 53 [t] ∈ opts -> snd (process_all opts (zero_lease, 0)) = t.
Proof.
  intros Hn Ht. rewrite (field_of snd 53 (fun data x => if 1 <=? Z.of_nat (length data) then byte_at data 0 else x)); [|option_cases|intros data [l x]; done|done]. assert (value 53 opts = Some [t]) as ->; [|done]. induction opts as [|o opts IH]; [by apply not_elem_of_nil in Ht|]. cbn [map] in Hn. apply NoDup_cons in Hn as [Hno Hn]. cbn [value].
  apply elem_of_cons in Ht as [<-|Ht]; [done|]. destruct (Z.eqb_spec (o_code o) 53) as [E|]; [|by apply IH]. exfalso. apply Hno. rewrite E. change 53 with (o_code (mk_dopt 53 [t])). by apply (list_elem_of_fmap_2 o_code).
Qed.

Section Message.
Context (t xid : Z) (mac : list Z) (m : server_msg) (junk : list Z).
Hypothesis Hok : server_msg_ok t m.
Hypothesis Hmac : length mac = 6%nat.
Hypothesis Hxid : 0 <= xid < 2 ^ 32.
Let packet := server_bytes xid mac m.
Let buf := packet ++ junk.

Lemma server_header_length : length (server_header xid mac m) = 236%nat.
Proof. destruct Hok as [(S1 & S2 & S3 & S4 & S5 & S6 & S7 & S8) _ _ _ _ _ _]. unfold server_header. rewrite !length_app, S1, S2, S3, S4, S5, S6, S7, S8, Hmac. done. Qed.
Lemma packet_length : Z.of_nat (length packet) = 236 + (5 + Z.of_nat (length (tlvs (sm_opts m)))) + Z.of_nat (length (sm_tail m)).
Proof. unfold packet, server_bytes. rewrite !length_app, server_header_length. cbn [length]. lia. Qed.
Lemma message_fields : byte_at buf 0 = DHCP_OP_REPLY /\ ntohl (get32 buf 4) = xid /\ get32 buf 16 = get32 (sm_yiaddr m) 0 /\ take 6 (drop 28 buf) = mac.
Proof.
  destruct Hok as [(S1 & S2 & S3 & S4 & S5 & S6 & S7 & S8) _ _ _ _ _ _]. split; [done|]. unfold buf, packet, server_bytes, server_header. rewrite <- be4_htonl by done. split; [by apply (get32_le32 xid)|].
  destruct (sm_secs m) as [|? [|? [|]]]; try done. destruct (sm_flags m) as [|? [|? [|]]]; try done. split4 (sm_ciaddr m). split4 (sm_yiaddr m). split4 (sm_siaddr m). split4 (sm_giaddr m). split; [done|]. rewrite <- !app_assoc. cbn [app le32 drop]. by apply take_app_length'.
Qed.
Lemma tlvs_opts : tlvs (sm_opts m) = opts_bytes (sm_opts m).
Proof. pose proof (so_opts _ _ Hok) as Ho. unfold tlvs, opts_bytes. f_equal. induction Ho as [|o opts Ho _ IH]; [done|]. cbn [map]. by rewrite IH, opt_bytes_val. Qed.
Lemma message_options : let opt_len := Z.of_nat (length packet) - DHCP_PACKET_MIN_SIZE in
  let opt_len := if DHCP_OPTIONS_MAX_SIZE <? opt_len then DHCP_OPTIONS_MAX_SIZE else opt_len in
  exists l, dhcp_parse_options (take (Z.to_nat (opt_len + 4)) (drop (Z.to_nat DHCP_PACKET_MIN_SIZE) buf)) (zero_lease, 0) = Some (l, t) /\ carries (sm_opts m) l.
Proof.
  cbn zeta. rewrite packet_length. pose proof (so_length _ _ Hok) as Hl. change (Z.to_nat DHCP_PACKET_MIN_SIZE) with 236%nat. unfold buf, packet, server_bytes. rewrite <- app_assoc, <- server_header_length, drop_app_length. rewrite <- !app_assoc. set (body := [99; 130; 83; 99] ++ tlvs (sm_opts m)).
  assert (([99; 130; 83; 99] ++ tlvs (sm_opts m) ++ (255 :: sm_tail m) ++ junk) = body ++ 255 :: (sm_tail m ++ junk)) as -> by (unfold body; by rewrite <- app_assoc). set (n := Z.to_nat _). assert (length body < n)%nat as Hn.
  { unfold n, body, DHCP_PACKET_MIN_SIZE. rewrite length_app. cbn [length]. destruct (Z.ltb_spec DHCP_OPTIONS_MAX_SIZE (236 + (5 + Z.of_nat (length (tlvs (sm_opts m)))) + Z.of_nat (length (sm_tail m)) - 236)); lia. }
  rewrite take_app_ge by lia. destruct (n - length body)%nat as [|k] eqn:Ek; [lia|]. cbn [take]. unfold body. rewrite tlvs_opts, <- app_assoc. change [99; 130; 83; 99] with magic_cookie. change 255 with DHCP_OPT_END.
  rewrite tlvs_opts in Hl. rewrite parse_options_ok; [|apply (so_opts _ _ Hok)|unfold DHCP_OPTIONS_MAX_SIZE in Hl; lia]. exists (fst (process_all (sm_opts m) (zero_lease, 0))). split.
  - f_equal. rewrite <- (options_type (sm_opts m) t (so_once _ _ Hok) (so_type _ _ Hok)). apply surjective_pairing.
  - apply options_carry; [apply (so_once _ _ Hok)|apply (so_bytes _ _ Hok)].
Qed.
End Message.

(** ** Sending does not change the configuration of the interface *)

Definition ip_conf (n : net) : list Z * Z * Z * Z := (local_mac n, local_ip n, local_netmask n, local_gateway n).
Section Conf.
Variable hw_result : list Z -> Z.
Variable fresh : Z -> Z.
Lemma eth_send_conf dest ty data len n : ip_conf (fst (eth_send hw_result dest ty data len n)) = ip_conf n.
Proof. unfold eth_send. destruct (negb _); [done|]. destruct (_ && _); [done|]. by destruct (ETH_DATA_MAX <? _). Qed.
Lemma arp_request_conf ip n : ip_conf (fst (arp_request hw_result ip n)) = ip_conf n.
Proof. unfold arp_request. destruct (negb _); [done|]. apply eth_send_conf. Qed.
Lemma arp_lookup_conf ip n : ip_conf (fst (arp_lookup hw_result ip n)) = ip_conf n.
Proof.
  unfold arp_lookup. destruct (negb _); [done|]. destruct (arp_cache_find ip n) as [i|].
  - destruct (ae_state _); cbn [fst]; try done; apply arp_request_conf.
  - destruct (arp_cache_alloc n) as [i|]; cbn [fst]; rewrite arp_request_conf; done.
Qed.
Lemma ip_send_conf dest proto data len n : ip_conf (fst (ip_send hw_result fresh dest proto data len n)) = ip_conf n.
Proof.
  unfold ip_send. destruct (negb _); [done|]. destruct (_ <? len); [done|]. cbn zeta. destruct (next_hop dest (next_ip_id n)) as [[mac|hop]|]; [rewrite eth_send_conf; done| |done].
  pose proof (arp_lookup_conf hop (next_ip_id n)) as Hc. destruct (arp_lookup hw_result hop (next_ip_id n)) as [n' [mac|]]; cbn [fst] in *; [rewrite eth_send_conf|]; rewrite Hc; done.
Qed.
Context {H : Type} `{KernelHeap H}.
Lemma udp_send_conf ip dp sp data len (u : udp H) : ip_conf (ud_net (fst (udp_send hw_result fresh ip dp sp data len u))) = ip_conf (ud_net u).
Proof.
  unfold udp_send. destruct (negb _); [done|]. destruct (_ && _); [done|]. destruct (_ <? len); [done|]. destruct (kh_malloc _ _) as [h p]. destruct (p =? NULL); [done|]. cbn zeta.
  pose proof (ip_send_conf ip IP_PROTO_UDP (Some (build_datagram (local_ip (ud_net u)) ip sp dp (take (Z.to_nat len) (default [] data)))) (UDP_HEADER_LEN + len) (ud_net u)) as Hc.
  cbn [set_uheap ud_net]. destruct (ip_send _ _ _ _ _ _ _) as [n r]. cbn [fst] in Hc. by destruct (r <? 0).
Qed.
End Conf.

(** ** A broadcast goes out *)

(** The frame that carries a message to all hosts. *)
Definition broadcast_frame (n : net) (packet : list Z) : list Z :=
  frame_of n ETH_BROADCAST_MAC ETH_TYPE_IPV4
    (ip_header (IP_HEADER_MIN + (UDP_HEADER_LEN + Z.of_nat (length packet))) (ip_id_counter n) IP_PROTO_UDP (local_ip n) IP_ADDR_BROADCAST ++
     build_datagram (local_ip n) IP_ADDR_BROADCAST DHCP_CLIENT_PORT DHCP_SERVER_PORT packet).

Section Client.
Context {H : Type} `{KernelHeap H}.
Variable hw_result : list Z -> Z.
Variable fresh : Z -> Z.
Implicit Types d : dhcp H.

(** The stack is up, the heap has a block for the message and the card takes the frame. *)
Record sendable d (packet : list Z) : Prop := mk_sendable {
  sn_up : udp_initialized (dh_udp d) = true /\ ip_initialized (ud_net (dh_udp d)) = true /\ eth_initialized (ud_net (dh_udp d)) = true;
  sn_heap : snd (kh_malloc (UDP_HEADER_LEN + Z.of_nat (length packet)) (ud_heap (dh_udp d))) <> NULL;
  sn_card : 0 <= hw_result (broadcast_frame (ud_net (dh_udp d)) packet);
}.
(** What remains the same when a message is sent, and what is logged. *)
Record sent_by d d' (packet : list Z) : Prop := mk_sent_by {
  sb_client : g_dhcp_client d' = g_dhcp_client d;
  sb_ticks : dh_ticks d' = dh_ticks d;
  sb_conf : ip_conf (ud_net (dh_udp d')) = ip_conf (ud_net (dh_udp d));
  sb_frames : tx_frames (ud_net (dh_udp d')) = tx_frames (ud_net (dh_udp d)) ++ [broadcast_frame (ud_net (dh_udp d)) packet];
}.
Lemma send_broadcast d packet : sendable d packet -> Z.of_nat (length packet) <= DHCP_PACKET_MAX_SIZE ->
  exists d', dhcp_send_packet hw_result fresh packet IP_ADDR_BROADCAST d = (d', DHCP_OK) /\ sent_by d d' packet.
Proof.
  intros [(Hu & Hi & He) Hh Hc] Hl. unfold DHCP_PACKET_MAX_SIZE in Hl. unfold dhcp_send_packet. pose proof (udp_send_conf hw_result fresh IP_ADDR_BROADCAST DHCP_SERVER_PORT DHCP_CLIENT_PORT (Some packet) (Z.of_nat (length packet)) (dh_udp d)) as Hconf.
  unfold udp_send in *. rewrite Hu in *. cbn [negb] in *. rewrite bool_decide_eq_true_2 in * by (by eexists). cbn [negb andb] in *.
  rewrite (proj2 (Z.ltb_ge UDP_MAX_PAYLOAD _)) in * by (unfold UDP_MAX_PAYLOAD, UDP_MAX_DATAGRAM, UDP_HEADER_LEN; lia). cbn zeta in *.
  destruct (kh_malloc _ (ud_heap (dh_udp d))) as [h p]. cbn [snd] in Hh. rewrite (proj2 (Z.eqb_neq _ _) Hh) in *. cbn [set_uheap ud_net default from_option id] in *. rewrite Nat2Z.id, take_ge in * by lia.
  set (dg := build_datagram _ _ _ _ packet) in *. assert (Z.of_nat (length dg) = UDP_HEADER_LEN + Z.of_nat (length packet)) as Hdl by (change (length dg) with (8 + length packet)%nat; unfold UDP_HEADER_LEN; lia).
  assert (ip_send hw_result fresh IP_ADDR_BROADCAST IP_PROTO_UDP (Some dg) (UDP_HEADER_LEN + Z.of_nat (length packet)) (ud_net (dh_udp d)) =
    (log_tx (broadcast_frame (ud_net (dh_udp d)) packet) (next_ip_id (ud_net (dh_udp d))), hw_result (broadcast_frame (ud_net (dh_udp d)) packet))) as Es.
  { unfold ip_send. rewrite Hi. cbn [negb]. rewrite (proj2 (Z.ltb_ge _ _)) by (unfold IP_MTU_DEFAULT, IP_HEADER_MIN, UDP_HEADER_LEN; lia). cbn zeta. rewrite <- Hdl, Nat2Z.id, take_ge by lia.
    unfold next_hop, ip_is_broadcast. rewrite Z.eqb_refl. set (hdr := ip_header _ _ _ _ _). assert (length hdr = 20%nat) as Hh20 by done.
    replace (IP_HEADER_MIN + Z.of_nat (length dg)) with (Z.of_nat (length (hdr ++ dg))) by (rewrite length_app, Hh20; unfold IP_HEADER_MIN; lia).
    rewrite eth_send_frame by (try done; rewrite length_app, Hh20; unfold ETH_DATA_MAX, UDP_HEADER_LEN in *; lia). unfold broadcast_frame. rewrite <- Hdl. done. }
  rewrite Es in *. rewrite (proj2 (Z.ltb_ge _ _)) in * by done. cbn [fst] in Hconf. eexists. split; [rewrite (proj2 (Z.ltb_ge _ _)) by lia; reflexivity|]. by split.
Qed.

(** ** Offer and acknowledgement *)

Lemma request_message c ip server : length (cl_mac c) = 6%nat -> cl_state c = DHCP_STATE_SELECTING ->
  dhcp_build_request c ip server = dhcp_build_header c (htons DHCP_FLAG_BROADCAST) 0 ++ magic_cookie ++
    opts_bytes [mk_dopt DHCP_OPT_MSG_TYPE [DHCP_MSG_REQUEST]; mk_dopt DHCP_OPT_CLIENT_ID (DHCP_HTYPE_ETHERNET :: cl_mac c);
                mk_dopt DHCP_OPT_REQUESTED_IP (le32 ip); mk_dopt DHCP_OPT_SERVER_ID (le32 server); mk_dopt DHCP_OPT_PARAM_REQUEST params] ++ [DHCP_OPT_END].
Proof.
  intros Hm Hs. unfold dhcp_build_request. rewrite Hs. cbn [bool_decide decide orb]. unfold opts_bytes. cbn [map concat]. rewrite app_nil_r.
  assert (opt_bytes (mk_dopt DHCP_OPT_CLIENT_ID (DHCP_HTYPE_ETHERNET :: cl_mac c)) = client_id c) as -> by (unfold opt_bytes, client_id; cbn [o_data o_code length]; by rewrite Hm).
  rewrite <- !app_assoc. reflexivity.
Qed.
Lemma build_header_length c flags ciaddr : length (cl_mac c) = 6%nat -> length (dhcp_build_header c flags ciaddr) = 236%nat.
Proof. intros Hm. unfold dhcp_build_header, dhcp_packet. rewrite !length_app, Hm. done. Qed.
Lemma client_id_length c : length (cl_mac c) = 6%nat -> length (client_id c) = 9%nat.
Proof. intros Hm. unfold client_id, dhcp_add_option. cbn [DHCP_OPT_CLIENT_ID DHCP_OPT_PAD DHCP_OPT_END Z.eqb Pos.eqb negb andb Z.ltb Z.compare]. cbn [length]. rewrite length_take. cbn [length]. rewrite Hm. done. Qed.
Lemma build_request_length c ip server : length (cl_mac c) = 6%nat -> Z.of_nat (length (dhcp_build_request c ip server)) <= DHCP_PACKET_MAX_SIZE.
Proof.
  intros Hm. unfold dhcp_build_request, DHCP_PACKET_MAX_SIZE. rewrite !length_app, client_id_length by done.
  assert (forall b : bool, length (if b then dhcp_build_header c 0 (ip_addr (cl_lease c)) else dhcp_build_header c (htons DHCP_FLAG_BROADCAST) 0) = 236%nat) as -> by (intros []; by apply build_header_length).
  assert (forall (b : bool) code x, length (if b then dhcp_add_option_ip code x else []) <= 6)%nat as Hi.
  { intros [] code x; [|simpl; lia]. unfold dhcp_add_option_ip, dhcp_add_option. destruct (_ && _); simpl; lia. }
  pose proof (Hi (in_state (cl_state c) DHCP_STATE_SELECTING || in_state (cl_state c) DHCP_STATE_INIT_REBOOT || in_state (cl_state c) DHCP_STATE_REBOOTING) DHCP_OPT_REQUESTED_IP ip).
  pose proof (Hi (in_state (cl_state c) DHCP_STATE_SELECTING) DHCP_OPT_SERVER_ID server).
  change (length (dhcp_add_option_byte DHCP_OPT_MSG_TYPE DHCP_MSG_REQUEST)) with 3%nat. change (length param_request) with 10%nat. change (length magic_cookie) with 4%nat. cbn [length]. lia.
Qed.

(** In the state of a client that has an offer, the message is the REQUEST of the standard. *)
Lemma request_is_standard c ip server : length (cl_mac c) = 6%nat -> cl_state c = DHCP_STATE_SELECTING -> 0 <= cl_xid c < 2 ^ 32 -> length ip = 4%nat -> bytes ip -> length server = 4%nat -> bytes server ->
  dhcp_build_request c (get32 ip 0) (get32 server 0) = request_bytes (cl_xid c) (cl_mac c) ip server.
Proof.
  intros Hm Hs Hx Li Bi Lv Bv. rewrite request_message by done. rewrite !le32_get32 by done. unfold dhcp_build_header, dhcp_packet, request_bytes. rewrite be4_htonl by done. unfold opts_bytes. cbn [map concat].
  rewrite !opt_bytes_val by (split; [done|]; split; [done|]; cbn [o_data length]; rewrite ?Hm, ?Li, ?Lv; by vm_compute). cbn [o_code o_data length]. rewrite Hm, Li, Lv, <- !app_assoc. reflexivity.
Qed.
Lemma request_sent d ip server : cl_initialized (g_dhcp_client d) = true -> cl_state (g_dhcp_client d) = DHCP_STATE_SELECTING -> length (cl_mac (g_dhcp_client d)) = 6%nat ->
  sendable d (dhcp_build_request (g_dhcp_client d) ip server) ->
  exists d', dhcp_request hw_result fresh ip server d = (d', DHCP_OK) /\ dh_ticks d' = dh_ticks d /\ ip_conf (ud_net (dh_udp d')) = ip_conf (ud_net (dh_udp d)) /\
    tx_frames (ud_net (dh_udp d')) = tx_frames (ud_net (dh_udp d)) ++ [broadcast_frame (ud_net (dh_udp d)) (dhcp_build_request (g_dhcp_client d) ip server)] /\
    g_dhcp_client d' = with_timeout (u64 (dh_ticks d + DHCP_REQUEST_TIMEOUT * 1000)) (with_state DHCP_STATE_REQUESTING (g_dhcp_client d)).
Proof.
  intros Hi Hs Hm Hsend. unfold dhcp_request. rewrite Hi, Hs. cbn [negb bool_decide decide]. destruct (send_broadcast d _ Hsend (build_request_length _ ip server Hm)) as (d1 & E & [S1 S2 S3 S4]).
  change (if in_state DHCP_STATE_SELECTING DHCP_STATE_RENEWING then ntohl server else IP_ADDR_BROADCAST) with IP_ADDR_BROADCAST. rewrite E. change (DHCP_OK <? 0) with false. cbn iota.
  change (in_state DHCP_STATE_SELECTING DHCP_STATE_SELECTING) with true. cbn iota. eexists. split; [reflexivity|]. cbn. rewrite S1, S2. done.
Qed.
(** What is done with a reply that is for this client. *)
Definition on_reply (msg_type yiaddr : Z) (lease : dhcp_lease) d : dhcp H * Z :=
  let c := g_dhcp_client d in
  if msg_type =? DHCP_MSG_OFFER then
    if in_state (cl_state c) DHCP_STATE_SELECTING then
      let '(d, ret) := dhcp_request hw_result fresh yiaddr (lease_server lease) d in if ret <? 0 then (d, ret) else (d, DHCP_OK)
    else (d, DHCP_OK)
  else if msg_type =? DHCP_MSG_ACK then
    if in_state (cl_state c) DHCP_STATE_REQUESTING || in_state (cl_state c) DHCP_STATE_RENEWING ||
       in_state (cl_state c) DHCP_STATE_REBINDING || in_state (cl_state c) DHCP_STATE_REBOOTING
    then
      let lease := ack_lease yiaddr (dh_ticks d) lease in
      let d := on_client (fun c => with_state DHCP_STATE_BOUND (with_lease lease c)) d in
      (fst (dhcp_apply_lease (cl_lease (g_dhcp_client d)) d), DHCP_OK)
    else (d, DHCP_OK)
  else if msg_type =? DHCP_MSG_NAK then (drop_lease d, DHCP_ERR_NAK)
  else (d, DHCP_OK).
Lemma input_cases buf len d : dhcp_input hw_result fresh buf len d = (d, snd (dhcp_input hw_result fresh buf len d)) \/
  (cl_initialized (g_dhcp_client d) = true /\ exists t l, dhcp_input hw_result fresh buf len d = on_reply t (get32 buf 16) l d).
Proof.
  unfold dhcp_input. destruct (cl_initialized (g_dhcp_client d)); cbn [negb]; [|by left]. destruct (len <? _); [by left|]. destruct (negb _); [by left|]. destruct (negb _); [by left|].
  destruct (negb _); [by left|]. cbn zeta. destruct (dhcp_parse_options _ _) as [[l t]|]; [|by left]. right. split; [done|]. by exists t, l.
Qed.
Lemma input_message t m junk d : cl_initialized (g_dhcp_client d) = true -> server_msg_ok t m -> length (cl_mac (g_dhcp_client d)) = 6%nat -> 0 <= cl_xid (g_dhcp_client d) < 2 ^ 32 ->
  let packet := server_bytes (cl_xid (g_dhcp_client d)) (cl_mac (g_dhcp_client d)) m in
  exists l, dhcp_input hw_result fresh (packet ++ junk) (Z.of_nat (length packet)) d = on_reply t (get32 (sm_yiaddr m) 0) l d /\ carries (sm_opts m) l.
Proof.
  intros Hi Hok Hm Hx packet. pose proof (packet_length t _ _ m Hok Hm : Z.of_nat (length packet) = _) as Hl. destruct (message_fields t _ _ m junk Hok Hm Hx) as (F1 & F2 & F3 & F4).
  destruct (message_options t (cl_xid (g_dhcp_client d)) _ m junk Hok Hm) as (l & F5 & F6). exists l. split; [|done]. fold packet in F1, F2, F3, F4, F5. unfold dhcp_input. rewrite Hi, F1, F2, F3, F4, !Z.eqb_refl. cbn [negb].
  rewrite bool_decide_eq_true_2 by done. cbn [negb]. rewrite (proj2 (Z.ltb_ge _ DHCP_PACKET_MIN_SIZE)) by (unfold DHCP_PACKET_MIN_SIZE; lia). cbn zeta in F5. cbn zeta. by rewrite F5.
Qed.

(** The lease that a message grants at a time: the addresses byte by byte as they were sent
    (zero when the option is missing), the time of the lease (a day when there is none),
    half of it until renewing and seven eighths until rebinding unless these are sent. *)
Definition granted_time (m : server_msg) : Z := if seconds 51 (sm_opts m) =? 0 then 86400 else seconds 51 (sm_opts m).
Record granted (m : server_msg) (now : Z) (l : dhcp_lease) : Prop := mk_granted {
  gr_ip : le32 (ip_addr l) = sm_yiaddr m;
  gr_mask : le32 (subnet_mask l) = address 1 (sm_opts m);
  gr_router : le32 (gateway l) = address 3 (sm_opts m);
  gr_dns : le32 (dns_server l) = address 6 (sm_opts m);
  gr_dns2 : le32 (dns_server2 l) = second_address 6 (sm_opts m);
  gr_broadcast : le32 (broadcast l) = address 28 (sm_opts m);
  gr_server : le32 (lease_server l) = address 54 (sm_opts m);
  gr_time : lease_time l = granted_time m;
  gr_renew : renewal_time l = if seconds 58 (sm_opts m) =? 0 then granted_time m / 2 else seconds 58 (sm_opts m);
  gr_rebind : rebind_time l = if seconds 59 (sm_opts m) =? 0 then granted_time m * 7 / 8 else seconds 59 (sm_opts m);
  gr_valid : obtained_time l = now /\ lease_valid l = true;
}.
Lemma second_address_bytes code opts : Forall (fun o => bytes (o_data o)) opts -> length (second_address code opts) = 4%nat /\ bytes (second_address code opts).
Proof.
  intros Ho. assert (bytes [0; 0; 0; 0]) as Hz by (repeat constructor; unfold is_byte; lia). pose proof (value_bytes code opts Ho) as Hb. unfold second_address. destruct (value code opts) as [v|]; [|done]. destruct (Nat.leb_spec 8 (length v)); [|done].
  split; [rewrite length_take, length_drop; lia|]. by apply Forall_take, Forall_drop.
Qed.
Lemma seconds_nonneg code opts : Forall (fun o => bytes (o_data o)) opts -> 0 <= seconds code opts.
Proof. intros Ho. destruct (address_bytes code opts Ho) as [L B]. unfold seconds. rewrite <- ntohl_be_val by done. apply htonl_range. by apply get32_range. Qed.
Lemma ack_granted t m now l : server_msg_ok t m -> carries (sm_opts m) l -> (seconds 59 (sm_opts m) = 0 -> granted_time m * 7 < 2 ^ 32) -> granted m now (ack_lease (get32 (sm_yiaddr m) 0) now l).
Proof.
  intros Hok [C1 C2 C3 C4 C5 C6 C7 C8 C9] Ht. pose proof (so_bytes _ _ Hok) as Hb. destruct (so_sizes _ _ Hok) as (_ & _ & _ & Sy & _). pose proof (so_yiaddr _ _ Hok) as By.
  assert (forall code, le32 (get32 (address code (sm_opts m)) 0) = address code (sm_opts m)) as Ha by (intros code; destruct (address_bytes code _ Hb); by apply le32_get32).
  assert (0 <= granted_time m) as Hz by (pose proof (seconds_nonneg 51 _ Hb); unfold granted_time; case_if; lia).
  split; cbn [ack_lease ip_addr subnet_mask gateway dns_server dns_server2 broadcast lease_server lease_time renewal_time rebind_time obtained_time lease_valid]; rewrite ?C1, ?C2, ?C3, ?C4, ?C5, ?C6, ?C7, ?C8, ?C9, ?Ha; try done.
  - by apply le32_get32.
  - destruct (second_address_bytes 6 _ Hb). by apply le32_get32.
  - change DHCP_DEFAULT_LEASE with 86400. fold (granted_time m). destruct (Z.eqb_spec (seconds 59 (sm_opts m)) 0); [|done]. by rewrite u32_id by lia.
Qed.

(** C37: offer and acknowledgement configure the host. A client that has sent its DISCOVER
    gets an offer with its transaction identifier and hardware address: any flags, server
    and file names, options in any order. It broadcasts exactly one frame, whose payload is
    the REQUEST of the standard, byte by byte, for the offered address and to the server
    that the offer names, and waits. The acknowledgement then makes it BOUND with the lease
    that this message grants: address, mask, router, both name servers, broadcast address
    and server as the bytes sent, the time of the lease, and the times for renewing and
    rebinding, sent or computed (for times whose sevenfold fits into 32 bits). The interface
    gets that address, mask and gateway. Bytes behind the packets do not matter. *)
Theorem dhcp_handshake d m junk m' junk' :
  let c := g_dhcp_client d in
  let request := request_bytes (cl_xid c) (cl_mac c) (sm_yiaddr m) (address 54 (sm_opts m)) in
  let offer := server_bytes (cl_xid c) (cl_mac c) m in
  let ack := server_bytes (cl_xid c) (cl_mac c) m' in
  cl_initialized c = true -> cl_state c = DHCP_STATE_SELECTING -> 0 <= cl_xid c < 2 ^ 32 -> length (cl_mac c) = 6%nat ->
  server_msg_ok 2 m -> server_msg_ok 5 m' -> (seconds 59 (sm_opts m') = 0 -> granted_time m' * 7 < 2 ^ 32) -> sendable d request ->
  exists d1 d2 l,
    dhcp_input hw_result fresh (offer ++ junk) (Z.of_nat (length offer)) d = (d1, DHCP_OK) /\
    dhcp_get_state d1 = DHCP_STATE_REQUESTING /\ tx_frames (ud_net (dh_udp d1)) = tx_frames (ud_net (dh_udp d)) ++ [broadcast_frame (ud_net (dh_udp d)) request] /\
    dhcp_input hw_result fresh (ack ++ junk') (Z.of_nat (length ack)) d1 = (d2, DHCP_OK) /\
    tx_frames (ud_net (dh_udp d2)) = tx_frames (ud_net (dh_udp d1)) /\
    dhcp_get_state d2 = DHCP_STATE_BOUND /\ dhcp_get_lease d2 = Some l /\ granted m' (dh_ticks d) l /\
    local_mac (ud_net (dh_udp d2)) = local_mac (ud_net (dh_udp d)) /\ local_ip (ud_net (dh_udp d2)) = be_val (sm_yiaddr m') /\
    local_netmask (ud_net (dh_udp d2)) = be_val (address 1 (sm_opts m')) /\ local_gateway (ud_net (dh_udp d2)) = be_val (address 3 (sm_opts m')).
Proof.
  intros c request offer ack Hi Hs Hx Hm R1 R2 Ht Hsend. pose proof (so_bytes _ _ R1) as Hb. destruct (so_sizes _ _ R1) as (_ & _ & _ & Sy & _). pose proof (so_yiaddr _ _ R1) as By.
  destruct (address_bytes 54 _ Hb) as [L54 B54]. pose proof (request_is_standard c _ _ Hm Hs Hx Sy By L54 B54 : _ = request) as Er. rewrite <- Er in Hsend.
  destruct (request_sent d _ _ Hi Hs Hm Hsend) as (d1 & E1 & Et & Ec & Ef & Ecl). fold c in Ef. rewrite Er in Ef.
  destruct (input_message 2 m junk d Hi R1 Hm Hx) as (l & Eo & Cl). fold c offer in Eo.
  destruct (input_message 5 m' junk' d1) as (l' & Ea & Cl'); [by rewrite Ecl|done|by rewrite Ecl|by rewrite Ecl|]. rewrite Ecl in Ea. cbn [with_timeout with_state cl_xid cl_mac] in Ea. fold c ack in Ea.
  exists d1. do 2 eexists. split; [rewrite Eo; unfold on_reply; fold c; rewrite Hs, (ca_server _ _ Cl), E1; reflexivity|]. split; [unfold dhcp_get_state; by rewrite Ecl|]. split; [exact Ef|].
  split; [rewrite Ea; unfold on_reply; rewrite Ecl; reflexivity|]. split; [done|]. unfold dhcp_get_state, dhcp_get_lease. cbn. rewrite Ecl, Et. cbn. unfold c in Hi. rewrite Hi. cbn. split; [done|]. split; [reflexivity|].
  split; [by apply (ack_granted 5)|]. unfold ip_conf in Ec. injection Ec as -> _ _ _. rewrite (ca_mask _ _ Cl'), (ca_router _ _ Cl'). pose proof (so_bytes _ _ R2) as Hb'.
  split; [done|]. split_and!; apply ntohl_be_val; try apply (address_bytes _ _ Hb'); [apply (so_sizes _ _ R2)|apply (so_yiaddr _ _ R2)].
Qed.

(** ** A valid lease is the configuration of the interface *)

Definition holds_lease (s : dhcp_state) : Prop := s = DHCP_STATE_BOUND \/ s = DHCP_STATE_RENEWING \/ s = DHCP_STATE_REBINDING.
Record lease_inv d : Prop := mk_lease_inv {
  li_state : holds_lease (cl_state (g_dhcp_client d)) -> lease_valid (cl_lease (g_dhcp_client d)) = true;
  li_reached : cl_state (g_dhcp_client d) <> DHCP_STATE_REBOOTING /\ cl_state (g_dhcp_client d) <> DHCP_STATE_INIT_REBOOT;
  li_valid : lease_valid (cl_lease (g_dhcp_client d)) = true ->
    let l := cl_lease (g_dhcp_client d) in let n := ud_net (dh_udp d) in
    cl_initialized (g_dhcp_client d) = true /\ lease_time l <> 0 /\
    local_ip n = ntohl (ip_addr l) /\ local_netmask n = ntohl (subnet_mask l) /\ local_gateway n = ntohl (gateway l);
}.
(** The lease, the initialisation and the configuration stay; the state may change. *)
Record lease_kept d d' : Prop := mk_lease_kept {
  lk_lease : cl_lease (g_dhcp_client d') = cl_lease (g_dhcp_client d);
  lk_init : cl_initialized (g_dhcp_client d') = cl_initialized (g_dhcp_client d);
  lk_conf : ip_conf (ud_net (dh_udp d')) = ip_conf (ud_net (dh_udp d));
}.
Lemma kept_refl d : lease_kept d d.
Proof. by split. Qed.
Lemma kept_trans d d' d'' : lease_kept d d' -> lease_kept d' d'' -> lease_kept d d''.
Proof. intros [A B C] [A' B' C']. split; congruence. Qed.
Lemma kept_inv d d' : lease_inv d -> lease_kept d d' -> (holds_lease (cl_state (g_dhcp_client d')) -> lease_valid (cl_lease (g_dhcp_client d)) = true) ->
  cl_state (g_dhcp_client d') <> DHCP_STATE_REBOOTING /\ cl_state (g_dhcp_client d') <> DHCP_STATE_INIT_REBOOT -> lease_inv d'.
Proof.
  intros [I1 I2 I3] [K1 K2 K3] Hs Hr. split; [by rewrite K1|done|]. rewrite K1, K2. intros Hv. cbn zeta. destruct (I3 Hv) as (V1 & V2 & V3 & V4 & V5).
  unfold ip_conf in K3. injection K3 as _ -> -> ->. done.
Qed.
Lemma kept_same d d' : lease_inv d -> lease_kept d d' -> cl_state (g_dhcp_client d') = cl_state (g_dhcp_client d) -> lease_inv d'.
Proof. intros I K E. apply (kept_inv d d' I K); rewrite E; apply I. Qed.

Lemma send_frame packet ip d : let d' := fst (dhcp_send_packet hw_result fresh packet ip d) in g_dhcp_client d' = g_dhcp_client d /\ lease_kept d d' /\ dh_ticks d' = dh_ticks d.
Proof.
  cbn zeta. unfold dhcp_send_packet. pose proof (udp_send_conf hw_result fresh ip DHCP_SERVER_PORT DHCP_CLIENT_PORT (Some packet) (Z.of_nat (length packet)) (dh_udp d)) as Hc.
  destruct (udp_send _ _ _ _ _ _ _ _) as [u r]. cbn [fst] in *. by split.
Qed.
Lemma request_frame ip server d : let d' := fst (dhcp_request hw_result fresh ip server d) in lease_kept d d' /\
  (cl_state (g_dhcp_client d') = cl_state (g_dhcp_client d) \/ (cl_state (g_dhcp_client d) = DHCP_STATE_SELECTING /\ cl_state (g_dhcp_client d') = DHCP_STATE_REQUESTING)).
Proof.
  cbn zeta. unfold dhcp_request. destruct (negb _); [split; [apply kept_refl|by left]|]. cbn zeta. set (dest := if in_state _ _ then _ else _).
  pose proof (send_frame (dhcp_build_request (g_dhcp_client d) ip server) dest d) as Hs. destruct (dhcp_send_packet _ _ _ _ _) as [d1 r]. destruct Hs as (E & K & _). cbn [fst] in *.
  destruct (r <? 0); cbn [fst]; [split; [done|left; by rewrite E]|]. destruct K as [K1 K2 K3]. destruct (bool_decide_reflect (cl_state (g_dhcp_client d) = DHCP_STATE_SELECTING)) as [Es|_].
  - split; [split; cbn; done|]. right. by split.
  - split; [split; cbn; done|]. left. cbn. by rewrite E.
Qed.
Lemma discover_frame d : let d' := fst (dhcp_discover hw_result fresh d) in lease_kept d d' /\
  (cl_state (g_dhcp_client d') = cl_state (g_dhcp_client d) \/ cl_state (g_dhcp_client d') = DHCP_STATE_SELECTING).
Proof.
  cbn zeta. unfold dhcp_discover. destruct (negb _); [split; [apply kept_refl|by left]|]. unfold dhcp_generate_xid, dhcp_rand. cbn zeta.
  match goal with |- context [dhcp_send_packet _ _ ?p ?i ?x] => pose proof (send_frame p i x) as Hs; destruct (dhcp_send_packet hw_result fresh p i x) as [d1 r] end.
  destruct Hs as (E & [K1 K2 K3] & _). cbn [fst] in *. cbn in K1, K2, K3, E. destruct (r <? 0); cbn [fst]; [split; [by split|left; by rewrite E]|]. split; [by split|by right].
Qed.
Lemma dropped_inv d : lease_inv (drop_lease d).
Proof. split; [cbn; by intros [?|[?|?]]|done|done]. Qed.
Lemma init_inv d : lease_inv (fst (dhcp_init d)).
Proof.
  unfold dhcp_init. destruct (udp_bind _ _) as [u p]. destruct (p =? NULL); (split; cbn; [by intros [?|[?|?]]|done|done]).
Qed.
Lemma request_inv ip server d : lease_inv d -> lease_inv (fst (dhcp_request hw_result fresh ip server d)).
Proof.
  intros I. destruct (request_frame ip server d) as [K [Es|[_ Es]]]; [by apply (kept_same d)|]. apply (kept_inv d); [done|done|rewrite Es; by intros [?|[?|?]]|by rewrite Es].
Qed.
Lemma discover_inv d : lease_inv d -> lease_inv (fst (dhcp_discover hw_result fresh d)).
Proof.
  intros I. destruct (discover_frame d) as [K [Es|Es]]; [by apply (kept_same d)|]. apply (kept_inv d); [done|done|rewrite Es; by intros [?|[?|?]]|by rewrite Es].
Qed.
(** Moving to a state that holds a lease, while there is one. *)
Lemma moved_inv s n d : lease_inv d -> lease_valid (cl_lease (g_dhcp_client d)) = true -> s = DHCP_STATE_RENEWING \/ s = DHCP_STATE_REBINDING ->
  lease_inv (on_client (fun c => with_retries n (with_state s c)) d).
Proof. intros I Hv Hs. apply (kept_inv d); [done|by split|done|]. cbn. by destruct Hs as [-> | ->]. Qed.
Lemma renew_inv d : lease_inv d -> lease_inv (fst (dhcp_renew hw_result fresh d)).
Proof.
  intros I. unfold dhcp_renew. destruct (negb _); [done|]. destruct (lease_valid _) eqn:Ev; cbn [negb]; [|done]. apply request_inv, moved_inv; auto.
Qed.
Lemma release_inv d : lease_inv d -> lease_inv (fst (dhcp_release hw_result fresh d)).
Proof. intros I. unfold dhcp_release. destruct (negb _); [done|]. destruct (negb _); [done|]. destruct (dhcp_send_packet _ _ _ _ _) as [d1 r]. apply dropped_inv. Qed.
Lemma ack_inv yiaddr l d : cl_initialized (g_dhcp_client d) = true ->
  let lease := ack_lease yiaddr (dh_ticks d) l in let d := on_client (fun c => with_state DHCP_STATE_BOUND (with_lease lease c)) d in
  lease_inv (fst (dhcp_apply_lease (cl_lease (g_dhcp_client d)) d)).
Proof. intros Hi. cbn zeta. unfold dhcp_apply_lease. cbn. split; cbn; [done|done|]. intros _. split; [done|]. split; [|done]. destruct (Z.eqb_spec (lease_time l) 0); [done|done]. Qed.
Lemma input_inv buf len d : lease_inv d -> lease_inv (fst (dhcp_input hw_result fresh buf len d)).
Proof.
  intros I. destruct (input_cases buf len d) as [->|(Hi & t & l & ->)]; [done|]. unfold on_reply. cbn zeta. destruct (t =? DHCP_MSG_OFFER).
  - destruct (in_state _ _); [|done]. pose proof (request_inv (get32 buf 16) (lease_server l) d I) as Hr. destruct (dhcp_request _ _ _ _ _) as [d1 r]. by destruct (r <? 0).
  - destruct (t =? DHCP_MSG_ACK); [destruct (_ || _); [by apply ack_inv|done]|]. destruct (t =? DHCP_MSG_NAK); [apply dropped_inv|done].
Qed.
Lemma retry_inv now d : lease_inv d -> lease_inv (retry_tick hw_result fresh now d).
Proof.
  intros I. unfold retry_tick. destruct (_ <=? now); [|done]. cbn zeta. set (d1 := on_client _ d). assert (lease_inv d1) as I1 by (by apply (kept_same d)).
  destruct (DHCP_MAX_RETRIES <=? _).
  - destruct (lease_valid (cl_lease (g_dhcp_client d1))) eqn:Ev; (apply (kept_inv d1); [done|by split| |done]); [done|cbn; by intros [?|[?|?]]].
  - destruct (in_state _ _); [by apply discover_inv|by apply request_inv].
Qed.
Lemma bound_inv now d : lease_inv d -> lease_inv (bound_tick hw_result fresh now d).
Proof.
  intros I. unfold bound_tick. cbn zeta. destruct (lease_valid _) eqn:Ev; [|done]. destruct (lease_time _ <=? _); [apply dropped_inv|]. destruct (rebind_time _ <=? _).
  - apply request_inv, moved_inv; auto.
  - destruct (renewal_time _ <=? _); [by apply renew_inv|done].
Qed.
Lemma tick_inv d : lease_inv d -> lease_inv (dhcp_timer_tick hw_result fresh d).
Proof. intros I. unfold dhcp_timer_tick. destruct (negb _); [done|]. cbn zeta. destruct (cl_state _); try done; first [by apply retry_inv|by apply bound_inv]. Qed.

(** What happens around the client: time passes and other traffic uses the stack, without
    touching the client or the configuration. *)
Definition outside (e : dhcp H -> dhcp H) : Prop :=
  forall d, g_dhcp_client (e d) = g_dhcp_client d /\ ip_conf (ud_net (dh_udp (e d))) = ip_conf (ud_net (dh_udp d)).
Lemma outside_inv e d : outside e -> lease_inv d -> lease_inv (e d).
Proof. intros He I. destruct (He d) as [E C]. apply (kept_same d); [done|split; [by rewrite E..|done]|by rewrite E]. Qed.
Lemma recvfrom_net p buf n (u : udp H) : ud_net (fst (fst (udp_recvfrom p buf n u))) = ud_net u.
Proof.
  unfold udp_recvfrom. destruct (_ || _); [done|]. destruct (_ || _); [done|]. unfold dequeue_datagram. destruct (us_recv_head _ =? NULL) eqn:E; [done|]. cbn zeta. by destruct (_ =? NULL).
Qed.
Lemma loop_inv env buf deadline recv_buf d : Forall outside env -> lease_inv d -> lease_inv (fst (configure_loop hw_result fresh env buf deadline recv_buf d)).
Proof.
  intros Henv. revert recv_buf d. induction Henv as [|e env He _ IH]; intros recv_buf d I; cbn [configure_loop]; [done|]. pose proof (outside_inv e d He I) as I1. set (d1 := e d) in *. cbn zeta.
  destruct (negb _); [done|]. pose proof (recvfrom_net (g_dhcp_socket d1) buf DHCP_PACKET_MAX_SIZE (dh_udp d1)) as Hu. destruct (udp_recvfrom _ _ _ _) as [[u n] got]. cbn [fst] in Hu.
  assert (lease_inv (set_dh_udp u d1)) as I2 by (apply (kept_same d1); [done|split; [done|done|cbn; by rewrite Hu]|done]). set (rb := match got with Some _ => _ | None => _ end).
  set (d2 := if 0 <? n then _ else _). assert (lease_inv d2) as I3 by (unfold d2; destruct (0 <? n); [by apply input_inv|done]). destruct (in_state (cl_state (g_dhcp_client d2)) _); [done|].
  pose proof (tick_inv d2 I3) as I4. set (d3 := dhcp_timer_tick _ _ d2) in *. destruct (in_state _ _); [|by apply IH]. pose proof (discover_inv d3 I4) as I5. destruct (dhcp_discover _ _ d3) as [d4 r].
  destruct (r <? 0); [done|by apply IH].
Qed.

Inductive dhcp_call :=
| DInit | DDiscover | DRequest (ip server : Z) | DRelease | DRenew | DInput (buf : list Z) (len : Z) | DTick
| DOutside (e : dhcp H -> dhcp H) | DConfigure (env : list (dhcp H -> dhcp H)) (buf timeout_ms : Z) (recv_buf : list Z).
Definition run_dhcp (d : dhcp H) (c : dhcp_call) : dhcp H :=
  match c with
  | DInit => fst (dhcp_init d)
  | DDiscover => fst (dhcp_discover hw_result fresh d)
  | DRequest ip server => fst (dhcp_request hw_result fresh ip server d)
  | DRelease => fst (dhcp_release hw_result fresh d)
  | DRenew => fst (dhcp_renew hw_result fresh d)
  | DInput buf len => fst (dhcp_input hw_result fresh buf len d)
  | DTick => dhcp_timer_tick hw_result fresh d
  | DOutside e => e d
  | DConfigure env buf t rb => fst (dhcp_configure hw_result fresh env buf t rb d)
  end.
Definition dhcp_call_ok (c : dhcp_call) : Prop :=
  match c with
  | DOutside e => outside e
  | DConfigure env _ _ _ => Forall outside env
  | _ => True
  end.
Lemma dhcp_call_inv d c : dhcp_call_ok c -> lease_inv d -> lease_inv (run_dhcp d c).
Proof.
  intros Hc I. destruct c as [| |ip server| | |buf len| |e|env buf t rb]; cbn [run_dhcp].
  - apply init_inv.
  - by apply discover_inv.
  - by apply request_inv.
  - by apply release_inv.
  - by apply renew_inv.
  - by apply input_inv.
  - by apply tick_inv.
  - by apply outside_inv.
  - unfold dhcp_configure. assert (lease_inv (fst (if negb (cl_initialized (g_dhcp_client d)) then dhcp_init d else (d, DHCP_OK)))) as I1 by (destruct (negb _); [apply init_inv|done]).
    destruct (if negb _ then dhcp_init d else (d, DHCP_OK)) as [d1 r]. cbn [fst] in I1. destruct (r <? 0); [done|]. cbn zeta. pose proof (discover_inv d1 I1) as I2.
    destruct (dhcp_discover _ _ d1) as [d2 r2]. destruct (r2 <? 0); [done|]. by apply loop_inv.
Qed.

(** in every sequence of calls, packets of any content, timer ticks, elapsing time and
    configuration runs, a client that is bound, renewing or rebinding holds a valid lease,
    and a valid lease is what the interface is configured with: address, netmask and
    gateway. *)
Theorem dhcp_lease_configured d calls : g_dhcp_client d = zero_client -> Forall dhcp_call_ok calls -> lease_inv (foldl run_dhcp d calls).
Proof.
  intros Hz Hc. assert (lease_inv d) as I by (split; rewrite Hz; [by intros [?|[?|?]]|done|done]). clear Hz. revert d I.
  induction Hc as [|c calls Hc _ IH]; intros d I; [done|]. cbn [foldl]. by apply IH, dhcp_call_inv.
Qed.

(** ** Faults *)

(** A repeated REQUEST asks for no address and names no server: the offer was not kept. *)
Lemma dhcp_retry_forgets_offer c ip server : cl_state c = DHCP_STATE_REQUESTING -> dhcp_build_request c ip server = dhcp_build_request c 0 0.
Proof. intros Hs. unfold dhcp_build_request. by rewrite Hs. Qed.
(** While the client is renewing or rebinding, no tick ends the lease, whatever the time is. *)
Lemma dhcp_expired_lease_kept d : cl_state (g_dhcp_client d) = DHCP_STATE_RENEWING \/ cl_state (g_dhcp_client d) = DHCP_STATE_REBINDING -> lease_valid (cl_lease (g_dhcp_client d)) = true ->
  let d' := dhcp_timer_tick hw_result fresh d in lease_kept d d' /\ (cl_state (g_dhcp_client d') = DHCP_STATE_RENEWING \/ cl_state (g_dhcp_client d') = DHCP_STATE_REBINDING).
Proof.
  intros Hs Hv. cbn zeta. unfold dhcp_timer_tick. destruct (negb _); [split; [apply kept_refl|done]|]. cbn zeta.
  assert (lease_kept d (retry_tick hw_result fresh (dh_ticks d) d) /\ (cl_state (g_dhcp_client (retry_tick hw_result fresh (dh_ticks d) d)) = DHCP_STATE_RENEWING \/
            cl_state (g_dhcp_client (retry_tick hw_result fresh (dh_ticks d) d)) = DHCP_STATE_REBINDING)) as Hr; [|by destruct Hs as [E|E]; rewrite E].
  unfold retry_tick. destruct (_ <=? _); [|split; [apply kept_refl|done]]. cbn zeta. destruct (DHCP_MAX_RETRIES <=? _); [cbn; rewrite Hv; split; [by split|by right]|].
  set (d1 := on_client _ d). assert (cl_state (g_dhcp_client d1) = cl_state (g_dhcp_client d)) as E1 by done.
  assert (in_state (cl_state (g_dhcp_client d1)) DHCP_STATE_SELECTING = false) as -> by (apply bool_decide_eq_false; rewrite E1; by destruct Hs as [-> | ->]).
  destruct (request_frame (ip_addr (cl_lease (g_dhcp_client d1))) (lease_server (cl_lease (g_dhcp_client d1))) d1) as [K [E|[E _]]].
  - split; [by apply (kept_trans d d1)|]. unfold request_lease. by rewrite E.
  - exfalso. rewrite E1 in E. destruct Hs as [Hs|Hs]; congruence.
Qed.
(** An unanswered DISCOVER is repeated for ever: each repetition clears the count. *)
Lemma dhcp_discover_never_gives_up d d' : cl_initialized (g_dhcp_client d) = true -> cl_state (g_dhcp_client d) = DHCP_STATE_SELECTING -> cl_retries (g_dhcp_client d) = 0 ->
  timeout_time (g_dhcp_client d) <= dh_ticks d -> dhcp_discover hw_result fresh (on_client (with_retries 1) d) = (d', DHCP_OK) ->
  dhcp_timer_tick hw_result fresh d = d' /\ cl_state (g_dhcp_client d') = DHCP_STATE_SELECTING /\ cl_retries (g_dhcp_client d') = 0.
Proof.
  intros Hi Hs Hr Ht Hd. split.
  - unfold dhcp_timer_tick. rewrite Hi, Hs. cbn [negb]. unfold retry_tick. rewrite (proj2 (Z.leb_le _ _) Ht). cbn zeta. unfold on_client at 1 2 3. cbn. rewrite Hr, Hs. cbn. unfold on_client in *. rewrite Hr. change (u8 (0 + 1)) with 1. by rewrite Hd.
  - unfold dhcp_discover in Hd. cbn in Hd. rewrite Hi in Hd. cbn [negb] in Hd. destruct (dhcp_send_packet _ _ _ _ _) as [d1 r]. destruct (r <? 0) eqn:E; [injection Hd as <- ->; by vm_compute in E|]. by injection Hd as <-.
Qed.
(** The four bytes behind the packet decide: here the packet has no options at all. *)
Lemma dhcp_reads_past_packet d : let c := g_dhcp_client d in cl_initialized c = true -> 0 <= cl_xid c < 2 ^ 32 -> length (cl_mac c) = 6%nat ->
  let packet := dhcp_packet DHCP_OP_REPLY DHCP_HTYPE_ETHERNET DHCP_HLEN_ETHERNET 0 (htonl (cl_xid c)) 0 0 0 0 0 0 (cl_mac c) in
  length packet = 236%nat /\ dhcp_input hw_result fresh (packet ++ magic_cookie) 236 d = (d, DHCP_OK) /\ dhcp_input hw_result fresh (packet ++ [0; 0; 0; 0]) 236 d = (d, DHCP_ERR_INVALID).
Proof.
  intros c Hi Hx Hm packet. assert (length packet = 236%nat) as Hl by (unfold packet, dhcp_packet; rewrite !length_app, Hm; done). split; [done|].
  assert (forall l, ntohl (get32 (packet ++ l) 4) = cl_xid c) as F2 by (intros l; by apply (get32_le32 (cl_xid c))).
  assert (forall l, take 6 (drop 28 (packet ++ l)) = cl_mac c) as F4.
  { intros l. unfold packet, dhcp_packet. rewrite <- !app_assoc. cbn [app le32 le16 drop]. by apply take_app_length'. }
  assert (forall l, drop (Z.to_nat DHCP_PACKET_MIN_SIZE) (packet ++ l) = l) as F5 by (intros l; change (Z.to_nat DHCP_PACKET_MIN_SIZE) with 236%nat; by rewrite <- Hl, drop_app_length).
  unfold dhcp_input. fold c. rewrite Hi. cbn [negb]. change (236 <? DHCP_PACKET_MIN_SIZE) with false. cbn iota. rewrite !F2, !F4, !F5, Z.eqb_refl, bool_decide_eq_true_2 by done.
  change (byte_at (packet ++ magic_cookie) 0) with DHCP_OP_REPLY. change (byte_at (packet ++ [0; 0; 0; 0]) 0) with DHCP_OP_REPLY.
  assert (dhcp_parse_options [99; 130; 83; 99] (zero_lease, 0) = Some (zero_lease, 0)) as E1 by (vm_compute; reflexivity).
  assert (dhcp_parse_options [0; 0; 0; 0] (zero_lease, 0) = None) as E2 by (vm_compute; reflexivity).
  split; cbn zeta; rewrite Z.eqb_refl; cbn [negb]; change (Z.to_nat _) with 4%nat.
  - change (take 4 magic_cookie) with [99; 130; 83; 99]. by rewrite E1.
  - change (take 4 [0; 0; 0; 0]) with [0; 0; 0; 0]. by rewrite E2, Z.eqb_refl.
Qed.
End Client.

(** Missing times are filled in so that renewing comes before rebinding and rebinding before
    the end, for leases of less than 2^32 / 7 seconds. *)
Lemma dhcp_default_times yiaddr now l : 0 < lease_time l -> lease_time l * 7 < 2 ^ 32 -> renewal_time l = 0 -> rebind_time l = 0 ->
  let l' := ack_lease yiaddr now l in renewal_time l' <= rebind_time l' < lease_time l' \/ lease_time l' = 1.
Proof.
  intros H1 H2 H3 H4. unfold ack_lease. cbn. rewrite H3, H4, !Z.eqb_refl, (proj2 (Z.eqb_neq (lease_time l) 0)) by lia. rewrite u32_id by lia. dlia.
Qed.
(** For the infinite lease the product wraps, and rebinding comes long before renewing. *)
Example dhcp_infinite_lease_wraps : let l := ack_lease 0 0 (set_times 0xFFFFFFFF 0 0 zero_lease) in rebind_time l = 0x1FFFFFFF /\ renewal_time l = 0x7FFFFFFF.
Proof. split; reflexivity. Qed.

(** ** Concrete input *)

Definition card_ok : list Z -> Z := fun _ => 0.
Definition no_bytes : Z -> Z := fun _ => 0.
Definition boot_dhcp : dhcp arena := mk_dhcp zero_client 0x12345678 0 5000 idle_udp.
Definition client_up : dhcp arena := run_dhcp card_ok no_bytes boot_dhcp DInit.
Definition selecting : dhcp arena := run_dhcp card_ok no_bytes client_up DDiscover.
Lemma dhcp_lease_configured_witness : lease_inv (foldl (run_dhcp card_ok no_bytes) boot_dhcp [DInit; DDiscover; DTick]).
Proof. apply (dhcp_lease_configured card_ok no_bytes boot_dhcp [DInit; DDiscover; DTick]); [reflexivity|]. repeat (apply Forall_cons; split; [exact Logic.I|]). constructor. Defined.
Definition demo_msg (t : Z) : server_msg :=
  mk_server_msg 0 [0; 0] [0x80; 0] [0; 0; 0; 0] [192; 168; 1; 7] [192; 168; 1; 1] [0; 0; 0; 0] (repeat 0 10) (repeat 0 192)
    [mk_dopt 54 [192; 168; 1; 1]; mk_dopt 53 [t]; mk_dopt 51 [0; 0; 14; 16]; mk_dopt 1 [255; 255; 255; 0]; mk_dopt 3 [192; 168; 1; 1]] [0; 0].
Lemma demo_msg_ok t : is_byte t -> server_msg_ok t (demo_msg t).
Proof.
  intros Ht. split; cbn [sm_opts sm_yiaddr demo_msg].
  - done.
  - repeat (apply Forall_cons; split; [by vm_compute|]). constructor.
  - apply list_elem_of_lookup. by exists 1%nat.
  - apply (bool_decide_unpack _). by vm_compute.
  - repeat (apply Forall_cons; split; [split; [discriminate|]; split; [discriminate|]; by vm_compute|]). constructor.
  - repeat (apply Forall_cons; split; [cbn [o_data]; repeat (apply Forall_cons; split; [first [exact Ht|by vm_compute]|]); constructor|]). constructor.
  - by vm_compute.
Qed.
Lemma selecting_ok : cl_initialized (g_dhcp_client selecting) = true /\ cl_state (g_dhcp_client selecting) = DHCP_STATE_SELECTING /\ 0 <= cl_xid (g_dhcp_client selecting) < 2 ^ 32 /\
  length (cl_mac (g_dhcp_client selecting)) = 6%nat /\ sendable card_ok selecting (request_bytes (cl_xid (g_dhcp_client selecting)) (cl_mac (g_dhcp_client selecting)) [192; 168; 1; 7] [192; 168; 1; 1]).
Proof. split_and!; [by vm_compute..|]. split; [by vm_compute|by vm_compute|by unfold card_ok]. Qed.
Lemma dhcp_handshake_witness : exists (d2 : dhcp arena) l, dhcp_get_state d2 = DHCP_STATE_BOUND /\ dhcp_get_lease d2 = Some l /\ renewal_time l = 1800 /\ rebind_time l = 3150 /\
  local_ip (ud_net (dh_udp d2)) = 0xC0A80107 /\ local_netmask (ud_net (dh_udp d2)) = 0xFFFFFF00.
Proof.
  destruct selecting_ok as (S1 & S2 & S3 & S4 & S5). assert (is_byte 2) as is_byte_2 by (unfold is_byte; lia). assert (is_byte 5) as is_byte_5 by (unfold is_byte; lia).
  destruct (dhcp_handshake card_ok no_bytes selecting (demo_msg 2) [] (demo_msg 5) [] S1 S2 S3 S4 (demo_msg_ok 2 is_byte_2) (demo_msg_ok 5 is_byte_5) (fun _ => eq_refl) S5) as (d1 & d2 & l & _ & _ & _ & _ & _ & Hs & Hl & G & _ & Hip & Hmask & _).
  exists d2, l. split; [exact Hs|]. split; [exact Hl|]. split; [exact (gr_renew _ _ _ G)|]. split; [exact (gr_rebind _ _ _ G)|]. split; [exact Hip|exact Hmask].
Defined.
