(* ===== verification/Socket.v ===== *)
(** * BSD sockets (net/socket/socket.c)

    The table of sockets over the TCP sockets of [Tcp] and the network of [Net], the ring
    buffers, descriptors and ports, and the calls of the interface. A pointer to a socket is
    its index in the table. A call returns the state and its result, -1 on failure with the
    code in [socket_errno]. *)
From S2P Require Import Prelude Memory Ring Netbuf Net IpText Chain Tcp Udp.

Definition AF_INET : Z := 2.
Definition SOCK_STREAM : Z := 1.
Definition SOCK_DGRAM : Z := 2.
Definition SOCK_RAW : Z := 3.
Definition IPPROTO_TCP : Z := 6.
Definition IPPROTO_UDP : Z := 17.
Definition IPPROTO_RAW : Z := 255.
Definition SOL_SOCKET : Z := 1.
Definition SOL_TCP : Z := 6.
Definition SO_REUSEADDR : Z := 2.
Definition SO_TYPE : Z := 3.
Definition SO_ERROR : Z := 4.
Definition SO_BROADCAST : Z := 6.
Definition SO_SNDBUF : Z := 7.
Definition SO_RCVBUF : Z := 8.
Definition SO_KEEPALIVE : Z := 9.
Definition SO_RCVTIMEO : Z := 20.
Definition SO_SNDTIMEO : Z := 21.
Definition MSG_PEEK : Z := 0x02.
Definition SHUT_RD : Z := 0.
Definition SHUT_WR : Z := 1.
Definition SHUT_RDWR : Z := 2.
Definition INADDR_NONE : Z := 0xFFFFFFFF.
Definition SOCKET_MAX_COUNT : Z := 256.
Definition SOCKET_BACKLOG_MAX : Z := 128.
Definition SOCKET_BUFFER_SIZE : Z := 65536.
Definition SOCKET_FD_BASE : Z := 1000.
Definition SOCKET_FLAG_NONBLOCK : Z := BIT 0.
Definition EDESTADDRREQ : Z := 89.
Definition ENOPROTOOPT : Z := 92.
Definition EPROTONOSUPPORT : Z := 93.
Definition ESOCKTNOSUPPORT : Z := 94.
Definition EOPNOTSUPP : Z := 95.
Definition EAFNOSUPPORT : Z := 97.
Definition EADDRINUSE : Z := 98.
Definition ENETUNREACH : Z := 101.
Definition ECONNRESET : Z := 104.
Definition EISCONN : Z := 106.
Definition ENOTCONN : Z := 107.
Definition ETIMEDOUT : Z := 110.
Definition ECONNREFUSED : Z := 111.
Definition EINVAL : Z := 22.
Definition ENOMEM : Z := 12.
Definition EBADF : Z := 9.
Definition EAGAIN : Z := 11.
Definition EWOULDBLOCK : Z := EAGAIN.
Definition TCP_ERR_TIMEOUT : Z := -5.
Definition TCP_ERR_CLOSED : Z := -9.
Definition sizeof_sockaddr_in : Z := 16.
Definition sizeof_int : Z := 4.
Definition sizeof_pointer : Z := 8.

Inductive socket_state :=
| SOCKET_STATE_UNBOUND | SOCKET_STATE_BOUND | SOCKET_STATE_LISTENING | SOCKET_STATE_CONNECTING
| SOCKET_STATE_CONNECTED | SOCKET_STATE_CLOSING | SOCKET_STATE_CLOSED.
#[export] Instance socket_state_eq_dec : EqDecision socket_state.
Proof. solve_decision. Defined.

(** The port and the address are in network byte order. *)
Record sockaddr_in := mk_addr { sin_family : Z; sin_port : Z; sin_addr : Z; sin_zero : list Z }.
Definition zero_addr : sockaddr_in := mk_addr 0 0 0 (repeat 0 8).
(** [sb_ptr] is the address of the buffer, NULL when there is none. *)
Record socket_buffer := mk_sbuf { sb_ptr : Z; sb_data : Z -> Z; sb_capacity : Z; sb_head : Z; sb_tail : Z; sb_count : Z }.
Definition zero_buffer : socket_buffer := mk_sbuf NULL (fun _ => 0) 0 0 0 0.
Record socket_t := mk_socket {
  so_fd : Z;
  so_domain : Z;
  so_type : Z;
  so_protocol : Z;
  so_state : socket_state;
  so_error : Z;
  so_flags : Z;
  so_local : sockaddr_in;
  so_remote : sockaddr_in;
  so_bound : bool;
  so_send_buffer : socket_buffer;
  so_recv_buffer : socket_buffer;
  so_backlog : Z;
  so_accept_queue : Z;
  so_accept_queue_len : Z;
  so_parent : option Z;
  so_reuse_addr : bool;
  so_broadcast : bool;
  so_keepalive : bool;
  so_send_timeout : Z;
  so_recv_timeout : Z;
  so_bytes_sent : Z;
  so_bytes_recv : Z;
  so_packets_sent : Z;
  so_packets_recv : Z;
  so_owner_pid : Z;
  so_proto_data : Z;
  so_in_use : bool;
}.
Definition zero_socket : socket_t :=
  mk_socket 0 0 0 0 SOCKET_STATE_UNBOUND 0 0 zero_addr zero_addr false zero_buffer zero_buffer 0 0 0 None false false false 0 0 0 0 0 0 0 0 false.
Definition set_so_ident (d : Z) (t : Z) (p : Z) (s : socket_t) : socket_t :=
  mk_socket (so_fd s) d t p (so_state s) (so_error s) (so_flags s) (so_local s) (so_remote s) (so_bound s) (so_send_buffer s) (so_recv_buffer s)
    (so_backlog s) (so_accept_queue s) (so_accept_queue_len s) (so_parent s) (so_reuse_addr s) (so_broadcast s) (so_keepalive s) (so_send_timeout s)
    (so_recv_timeout s) (so_bytes_sent s) (so_bytes_recv s) (so_packets_sent s) (so_packets_recv s) (so_owner_pid s) (so_proto_data s) (so_in_use s).
Definition set_so_state (v : socket_state) (s : socket_t) : socket_t :=
  mk_socket (so_fd s) (so_domain s) (so_type s) (so_protocol s) v (so_error s) (so_flags s) (so_local s) (so_remote s) (so_bound s) (so_send_buffer s)
    (so_recv_buffer s) (so_backlog s) (so_accept_queue s) (so_accept_queue_len s) (so_parent s) (so_reuse_addr s) (so_broadcast s) (so_keepalive s)
    (so_send_timeout s) (so_recv_timeout s) (so_bytes_sent s) (so_bytes_recv s) (so_packets_sent s) (so_packets_recv s) (so_owner_pid s)
    (so_proto_data s) (so_in_use s).
Definition set_so_error (v : Z) (s : socket_t) : socket_t :=
  mk_socket (so_fd s) (so_domain s) (so_type s) (so_protocol s) (so_state s) v (so_flags s) (so_local s) (so_remote s) (so_bound s) (so_send_buffer s)
    (so_recv_buffer s) (so_backlog s) (so_accept_queue s) (so_accept_queue_len s) (so_parent s) (so_reuse_addr s) (so_broadcast s) (so_keepalive s)
    (so_send_timeout s) (so_recv_timeout s) (so_bytes_sent s) (so_bytes_recv s) (so_packets_sent s) (so_packets_recv s) (so_owner_pid s)
    (so_proto_data s) (so_in_use s).
Definition set_so_bind (a : sockaddr_in) (b : bool) (s : socket_t) : socket_t :=
  mk_socket (so_fd s) (so_domain s) (so_type s) (so_protocol s) (so_state s) (so_error s) (so_flags s) a (so_remote s) b (so_send_buffer s)
    (so_recv_buffer s) (so_backlog s) (so_accept_queue s) (so_accept_queue_len s) (so_parent s) (so_reuse_addr s) (so_broadcast s) (so_keepalive s)
    (so_send_timeout s) (so_recv_timeout s) (so_bytes_sent s) (so_bytes_recv s) (so_packets_sent s) (so_packets_recv s) (so_owner_pid s)
    (so_proto_data s) (so_in_use s).
Definition set_so_remote (v : sockaddr_in) (s : socket_t) : socket_t :=
  mk_socket (so_fd s) (so_domain s) (so_type s) (so_protocol s) (so_state s) (so_error s) (so_flags s) (so_local s) v (so_bound s) (so_send_buffer s)
    (so_recv_buffer s) (so_backlog s) (so_accept_queue s) (so_accept_queue_len s) (so_parent s) (so_reuse_addr s) (so_broadcast s) (so_keepalive s)
    (so_send_timeout s) (so_recv_timeout s) (so_bytes_sent s) (so_bytes_recv s) (so_packets_sent s) (so_packets_recv s) (so_owner_pid s)
    (so_proto_data s) (so_in_use s).
Definition set_so_send_buffer (v : socket_buffer) (s : socket_t) : socket_t :=
  mk_socket (so_fd s) (so_domain s) (so_type s) (so_protocol s) (so_state s) (so_error s) (so_flags s) (so_local s) (so_remote s) (so_bound s) v
    (so_recv_buffer s) (so_backlog s) (so_accept_queue s) (so_accept_queue_len s) (so_parent s) (so_reuse_addr s) (so_broadcast s) (so_keepalive s)
    (so_send_timeout s) (so_recv_timeout s) (so_bytes_sent s) (so_bytes_recv s) (so_packets_sent s) (so_packets_recv s) (so_owner_pid s)
    (so_proto_data s) (so_in_use s).
Definition set_so_recv_buffer (v : socket_buffer) (s : socket_t) : socket_t :=
  mk_socket (so_fd s) (so_domain s) (so_type s) (so_protocol s) (so_state s) (so_error s) (so_flags s) (so_local s) (so_remote s) (so_bound s)
    (so_send_buffer s) v (so_backlog s) (so_accept_queue s) (so_accept_queue_len s) (so_parent s) (so_reuse_addr s) (so_broadcast s) (so_keepalive s)
    (so_send_timeout s) (so_recv_timeout s) (so_bytes_sent s) (so_bytes_recv s) (so_packets_sent s) (so_packets_recv s) (so_owner_pid s)
    (so_proto_data s) (so_in_use s).
Definition set_so_queue (n : Z) (p : Z) (k : Z) (s : socket_t) : socket_t :=
  mk_socket (so_fd s) (so_domain s) (so_type s) (so_protocol s) (so_state s) (so_error s) (so_flags s) (so_local s) (so_remote s) (so_bound s)
    (so_send_buffer s) (so_recv_buffer s) n p k (so_parent s) (so_reuse_addr s) (so_broadcast s) (so_keepalive s) (so_send_timeout s)
    (so_recv_timeout s) (so_bytes_sent s) (so_bytes_recv s) (so_packets_sent s) (so_packets_recv s) (so_owner_pid s) (so_proto_data s) (so_in_use s).
Definition set_so_parent (v : option Z) (s : socket_t) : socket_t :=
  mk_socket (so_fd s) (so_domain s) (so_type s) (so_protocol s) (so_state s) (so_error s) (so_flags s) (so_local s) (so_remote s) (so_bound s)
    (so_send_buffer s) (so_recv_buffer s) (so_backlog s) (so_accept_queue s) (so_accept_queue_len s) v (so_reuse_addr s) (so_broadcast s)
    (so_keepalive s) (so_send_timeout s) (so_recv_timeout s) (so_bytes_sent s) (so_bytes_recv s) (so_packets_sent s) (so_packets_recv s)
    (so_owner_pid s) (so_proto_data s) (so_in_use s).
Definition set_so_reuse (v : bool) (s : socket_t) : socket_t :=
  mk_socket (so_fd s) (so_domain s) (so_type s) (so_protocol s) (so_state s) (so_error s) (so_flags s) (so_local s) (so_remote s) (so_bound s)
    (so_send_buffer s) (so_recv_buffer s) (so_backlog s) (so_accept_queue s) (so_accept_queue_len s) (so_parent s) v (so_broadcast s) (so_keepalive s)
    (so_send_timeout s) (so_recv_timeout s) (so_bytes_sent s) (so_bytes_recv s) (so_packets_sent s) (so_packets_recv s) (so_owner_pid s)
    (so_proto_data s) (so_in_use s).
Definition set_so_broadcast (v : bool) (s : socket_t) : socket_t :=
  mk_socket (so_fd s) (so_domain s) (so_type s) (so_protocol s) (so_state s) (so_error s) (so_flags s) (so_local s) (so_remote s) (so_bound s)
    (so_send_buffer s) (so_recv_buffer s) (so_backlog s) (so_accept_queue s) (so_accept_queue_len s) (so_parent s) (so_reuse_addr s) v
    (so_keepalive s) (so_send_timeout s) (so_recv_timeout s) (so_bytes_sent s) (so_bytes_recv s) (so_packets_sent s) (so_packets_recv s)
    (so_owner_pid s) (so_proto_data s) (so_in_use s).
Definition set_so_keepalive (v : bool) (s : socket_t) : socket_t :=
  mk_socket (so_fd s) (so_domain s) (so_type s) (so_protocol s) (so_state s) (so_error s) (so_flags s) (so_local s) (so_remote s) (so_bound s)
    (so_send_buffer s) (so_recv_buffer s) (so_backlog s) (so_accept_queue s) (so_accept_queue_len s) (so_parent s) (so_reuse_addr s) (so_broadcast s)
    v (so_send_timeout s) (so_recv_timeout s) (so_bytes_sent s) (so_bytes_recv s) (so_packets_sent s) (so_packets_recv s) (so_owner_pid s)
    (so_proto_data s) (so_in_use s).
Definition set_so_timeouts (v : Z) (w : Z) (s : socket_t) : socket_t :=
  mk_socket (so_fd s) (so_domain s) (so_type s) (so_protocol s) (so_state s) (so_error s) (so_flags s) (so_local s) (so_remote s) (so_bound s)
    (so_send_buffer s) (so_recv_buffer s) (so_backlog s) (so_accept_queue s) (so_accept_queue_len s) (so_parent s) (so_reuse_addr s) (so_broadcast s)
    (so_keepalive s) v w (so_bytes_sent s) (so_bytes_recv s) (so_packets_sent s) (so_packets_recv s) (so_owner_pid s) (so_proto_data s) (so_in_use s).
Definition set_so_sent (v : Z) (w : Z) (s : socket_t) : socket_t :=
  mk_socket (so_fd s) (so_domain s) (so_type s) (so_protocol s) (so_state s) (so_error s) (so_flags s) (so_local s) (so_remote s) (so_bound s)
    (so_send_buffer s) (so_recv_buffer s) (so_backlog s) (so_accept_queue s) (so_accept_queue_len s) (so_parent s) (so_reuse_addr s) (so_broadcast s)
    (so_keepalive s) (so_send_timeout s) (so_recv_timeout s) v (so_bytes_recv s) w (so_packets_recv s) (so_owner_pid s) (so_proto_data s)
    (so_in_use s).
Definition set_so_received (v : Z) (w : Z) (s : socket_t) : socket_t :=
  mk_socket (so_fd s) (so_domain s) (so_type s) (so_protocol s) (so_state s) (so_error s) (so_flags s) (so_local s) (so_remote s) (so_bound s)
    (so_send_buffer s) (so_recv_buffer s) (so_backlog s) (so_accept_queue s) (so_accept_queue_len s) (so_parent s) (so_reuse_addr s) (so_broadcast s)
    (so_keepalive s) (so_send_timeout s) (so_recv_timeout s) (so_bytes_sent s) v (so_packets_sent s) w (so_owner_pid s) (so_proto_data s)
    (so_in_use s).
Definition set_so_proto (v : Z) (s : socket_t) : socket_t :=
  mk_socket (so_fd s) (so_domain s) (so_type s) (so_protocol s) (so_state s) (so_error s) (so_flags s) (so_local s) (so_remote s) (so_bound s)
    (so_send_buffer s) (so_recv_buffer s) (so_backlog s) (so_accept_queue s) (so_accept_queue_len s) (so_parent s) (so_reuse_addr s) (so_broadcast s)
    (so_keepalive s) (so_send_timeout s) (so_recv_timeout s) (so_bytes_sent s) (so_bytes_recv s) (so_packets_sent s) (so_packets_recv s)
    (so_owner_pid s) v (so_in_use s).
Definition set_so_slot (v : Z) (b : bool) (s : socket_t) : socket_t :=
  mk_socket v (so_domain s) (so_type s) (so_protocol s) (so_state s) (so_error s) (so_flags s) (so_local s) (so_remote s) (so_bound s)
    (so_send_buffer s) (so_recv_buffer s) (so_backlog s) (so_accept_queue s) (so_accept_queue_len s) (so_parent s) (so_reuse_addr s) (so_broadcast s)
    (so_keepalive s) (so_send_timeout s) (so_recv_timeout s) (so_bytes_sent s) (so_bytes_recv s) (so_packets_sent s) (so_packets_recv s)
    (so_owner_pid s) (so_proto_data s) b.

(** ** Ring buffers *)

Definition socket_buffer_write (b : socket_buffer) (data : list Z) : socket_buffer * Z :=
  let len := Z.of_nat (length data) in
  if (sb_ptr b =? NULL) || (len =? 0) then (b, 0)
  else
    let available := u64 (sb_capacity b - sb_count b) in
    let len := if available <? len then available else len in
    let '(d, tl) := ring_in (take (Z.to_nat len) data) (sb_capacity b) (sb_data b) (sb_tail b) in
    (mk_sbuf (sb_ptr b) d (sb_capacity b) (sb_head b) tl (u64 (sb_count b + len)), len).
(** The buffer, the bytes and their number. *)
Definition socket_buffer_read (b : socket_buffer) (len : Z) (peek : bool) : socket_buffer * list Z * Z :=
  if (sb_ptr b =? NULL) || (sb_count b =? 0) || (len =? 0) then (b, [], 0)
  else
    let to_read := if len <? sb_count b then len else sb_count b in
    let '(l, hd) := ring_out (Z.to_nat to_read) (sb_capacity b) (sb_data b) (sb_head b) in
    (if peek then b else mk_sbuf (sb_ptr b) (sb_data b) (sb_capacity b) hd (sb_tail b) (u64 (sb_count b - to_read)), l, to_read).

(** ** Addresses as text *)

Fixpoint aton_loop (cp : list Z) (result octet dots digits : Z) : option Z :=
  match cp with
  | [] => if (digits =? 0) || negb (dots =? 3) then None else Some (htonl (Z.lor (u32 (Z.shiftl result 8)) octet))
  | c :: cp =>
      if (CHAR_0 <=? c) && (c <=? CHAR_9) then
        let octet := octet * 10 + (c - CHAR_0) in
        if 255 <? octet then None else aton_loop cp result octet dots (digits + 1)
      else if c =? CHAR_DOT then
        if (digits =? 0) || (3 <=? dots) then None else aton_loop cp (Z.lor (u32 (Z.shiftl result 8)) octet) 0 (dots + 1) 0
      else None
  end.
(** The address when the text is one. *)
Definition inet_aton (cp : list Z) : option Z := aton_loop cp 0 0 0 0.
Definition inet_ntoa (addr : Z) : list Z :=
  let host_addr := ntohl addr in
  let text i := octet_chars (u8 (Z.shiftr host_addr (8 * i))) ++ (if 0 <? i then [CHAR_DOT] else []) in
  text 3 ++ text 2 ++ text 1 ++ text 0.
Definition inet_addr (cp : list Z) : Z := default INADDR_NONE (inet_aton cp).

(** ** The table *)

Record sockets (H : Type) := mk_sockets {
  socket_table : Z -> socket_t; next_socket_fd : Z; socket_errno : Z; socket_initialized : bool; next_ephemeral : Z; so_tcp : tcp H }.
Arguments mk_sockets {H}.
Arguments socket_table {H}.
Arguments next_socket_fd {H}.
Arguments socket_errno {H}.
Arguments socket_initialized {H}.
Arguments next_ephemeral {H}.
Arguments so_tcp {H}.

(** [sockfd - SOCKET_FD_BASE], -1 outside the table. *)
Definition fd_to_index (sockfd : Z) : Z :=
  let index := sockfd - SOCKET_FD_BASE in if (index <? 0) || (SOCKET_MAX_COUNT <=? index) then -1 else index.
Definition slots : list Z := seqZ 0 SOCKET_MAX_COUNT.

Section Sockets.
Context {H : Type} `{KernelHeap H}.
Variable hw_result : list Z -> Z.
Variable fresh : Z -> Z.
Implicit Types s : sockets H.

Definition set_table (t : Z -> socket_t) s : sockets H := mk_sockets t (next_socket_fd s) (socket_errno s) (socket_initialized s) (next_ephemeral s) (so_tcp s).
Definition on_socket (i : Z) (f : socket_t -> socket_t) s : sockets H := set_table (upd (socket_table s) i (f (socket_table s i))) s.
Definition set_so_tcp (t : tcp H) s : sockets H := mk_sockets (socket_table s) (next_socket_fd s) (socket_errno s) (socket_initialized s) (next_ephemeral s) t.
Definition set_so_heap (h : H) s : sockets H := set_so_tcp (set_theap h (so_tcp s)) s.
Definition set_next_ephemeral (v : Z) s : sockets H := mk_sockets (socket_table s) (next_socket_fd s) (socket_errno s) (socket_initialized s) v (so_tcp s).
Definition socket_set_errno (e : Z) s : sockets H := mk_sockets (socket_table s) (next_socket_fd s) e (socket_initialized s) (next_ephemeral s) (so_tcp s).
Definition socket_get_errno s : Z := socket_errno s.
(** [socket_set_errno(e); return -1;] *)
Definition fail (e : Z) s : sockets H * Z := (socket_set_errno e s, -1).

Definition socket_buffer_init (b : socket_buffer) (capacity : Z) (h : H) : socket_buffer * H * Z :=
  let '(h, p) := kh_malloc capacity h in
  if p =? NULL then (mk_sbuf NULL (sb_data b) (sb_capacity b) (sb_head b) (sb_tail b) (sb_count b), h, -1)
  else (mk_sbuf p fresh capacity 0 0 0, h, 0).
Definition socket_buffer_free (b : socket_buffer) (h : H) : socket_buffer * H :=
  (mk_sbuf NULL (sb_data b) 0 0 0 0, if sb_ptr b =? NULL then h else kh_free (sb_ptr b) h).

Definition port_in_use (port type : Z) s : bool :=
  existsb (fun i => let k := socket_table s i in so_in_use k && so_bound k && (so_type k =? type) && (ntohs (sin_port (so_local k)) =? port)) slots.
Definition ephemeral_attempt (type : Z) s : sockets H + (sockets H * Z) :=
  let port := next_ephemeral s in
  let next := u16 (port + 1) in
  let s := set_next_ephemeral (if 65535 <? next then 49152 else next) s in
  if negb (port_in_use port type s) then inr (s, port) else inl s.
Definition allocate_ephemeral_port (type : Z) s : sockets H * Z :=
  match while_pos 16384 (ephemeral_attempt type) s with inr r => r | inl s => (s, 0) end.
Definition find_socket_by_local (port type : Z) s : option Z :=
  find (fun i => let k := socket_table s i in so_in_use k && (so_type k =? type) && so_bound k && (sin_port (so_local k) =? htons port)) slots.

Definition socket_init s : sockets H :=
  if socket_initialized s then s
  else mk_sockets (fun _ => set_so_slot (-1) false zero_socket) SOCKET_FD_BASE 0 true (next_ephemeral s) (so_tcp s).
Definition socket_alloc s : sockets H * option Z :=
  match find (fun i => negb (so_in_use (socket_table s i))) slots with
  | Some i =>
      let s' := on_socket i (fun _ => set_so_slot (next_socket_fd s) true zero_socket) s in
      (mk_sockets (socket_table s') (next_socket_fd s + 1) (socket_errno s') (socket_initialized s') (next_ephemeral s') (so_tcp s'), Some i)
  | None => (s, None)
  end.
Definition socket_free (i : Z) s : sockets H :=
  let k := socket_table s i in
  let '(b1, h) := socket_buffer_free (so_send_buffer k) (tc_heap (so_tcp s)) in
  let '(b2, h) := socket_buffer_free (so_recv_buffer k) h in
  let h := if so_accept_queue k =? NULL then h else kh_free (so_accept_queue k) h in
  let s := set_so_heap h s in
  let s := if negb (so_proto_data k =? NULL) && (so_type k =? SOCK_STREAM) then set_so_tcp (tcp_socket_destroy (so_proto_data k) (so_tcp s)) s else s in
  on_socket i (fun k => set_so_slot (-1) false (set_so_proto NULL (set_so_queue (so_backlog k) NULL (so_accept_queue_len k) (set_so_recv_buffer b2 (set_so_send_buffer b1 k))))) s.
Definition socket_get (sockfd : Z) s : option Z :=
  let index := fd_to_index sockfd in
  if index <? 0 then None else if negb (so_in_use (socket_table s index)) then None else Some index.

(** ** Creating, binding, listening *)

(** The two buffers in turn; whether both could be allocated. *)
Definition init_buffers (i : Z) s : sockets H * bool :=
  let '(b, h, r) := socket_buffer_init (so_send_buffer (socket_table s i)) SOCKET_BUFFER_SIZE (tc_heap (so_tcp s)) in
  let s := on_socket i (set_so_send_buffer b) (set_so_heap h s) in
  if r <? 0 then (s, false)
  else
    let '(b, h, r) := socket_buffer_init (so_recv_buffer (socket_table s i)) SOCKET_BUFFER_SIZE (tc_heap (so_tcp s)) in
    (on_socket i (set_so_recv_buffer b) (set_so_heap h s), negb (r <? 0)).

Definition default_protocol (type protocol : Z) : Z :=
  if protocol =? 0 then if type =? SOCK_STREAM then IPPROTO_TCP else if type =? SOCK_DGRAM then IPPROTO_UDP else if type =? SOCK_RAW then IPPROTO_RAW else protocol
  else protocol.
Definition socket (domain type protocol : Z) s : sockets H * Z :=
  if negb (domain =? AF_INET) then fail EAFNOSUPPORT s
  else if negb (type =? SOCK_STREAM) && negb (type =? SOCK_DGRAM) && negb (type =? SOCK_RAW) then fail ESOCKTNOSUPPORT s
  else
    let protocol := default_protocol type protocol in
    if (type =? SOCK_STREAM) && negb (protocol =? IPPROTO_TCP) then fail EPROTONOSUPPORT s
    else if (type =? SOCK_DGRAM) && negb (protocol =? IPPROTO_UDP) then fail EPROTONOSUPPORT s
    else
      match socket_alloc s with
      | (s, None) => fail ENOMEM s
      | (s, Some i) =>
          let s := on_socket i (set_so_ident domain type protocol) s in
          let '(s, ok) := init_buffers i s in
          if negb ok then fail ENOMEM (socket_free i s)
          else if type =? SOCK_STREAM then
            let '(t, p) := tcp_socket_create fresh (so_tcp s) in
            let s := set_so_tcp t s in
            if p =? NULL then fail ENOMEM (socket_free i s)
            else let s := on_socket i (set_so_proto p) s in (s, so_fd (socket_table s i))
          else (s, so_fd (socket_table s i))
      end.

Definition bind (sockfd : Z) (sin : sockaddr_in) (addrlen : Z) s : sockets H * Z :=
  match socket_get sockfd s with
  | None => fail EBADF s
  | Some i =>
      let k := socket_table s i in
      if addrlen <? sizeof_sockaddr_in then fail EINVAL s
      else if negb (sin_family sin =? AF_INET) then fail EAFNOSUPPORT s
      else
        let port := ntohs (sin_port sin) in
        if so_bound k then fail EINVAL s
        else if negb (port =? 0) && negb (so_reuse_addr k) && port_in_use port (so_type k) s then fail EADDRINUSE s
        else
          let '(s, port) := if port =? 0 then allocate_ephemeral_port (so_type k) s else (s, port) in
          if port =? 0 then fail EADDRINUSE s
          else
            let local := mk_addr (sin_family sin) (htons port) (sin_addr sin) (sin_zero sin) in
            let s := on_socket i (fun k => set_so_state SOCKET_STATE_BOUND (set_so_bind local true k)) s in
            if (so_type k =? SOCK_STREAM) && negb (so_proto_data k =? NULL) then
              let '(t, ret) := tcp_bind (so_proto_data k) port (so_tcp s) in
              let s := set_so_tcp t s in
              if negb (ret =? TCP_OK) then fail EADDRINUSE (on_socket i (fun k => set_so_state SOCKET_STATE_UNBOUND (set_so_bind local false k)) s)
              else (s, 0)
            else (s, 0)
  end.

Definition clamp_backlog (backlog : Z) : Z :=
  let backlog := if backlog <=? 0 then 1 else backlog in if SOCKET_BACKLOG_MAX <? backlog then SOCKET_BACKLOG_MAX else backlog.
Definition listen (sockfd backlog : Z) s : sockets H * Z :=
  match socket_get sockfd s with
  | None => fail EBADF s
  | Some i =>
      let k := socket_table s i in
      if negb (so_type k =? SOCK_STREAM) then fail EOPNOTSUPP s
      else if negb (so_bound k) then fail EINVAL s
      else
        let backlog := clamp_backlog backlog in
        let '(h, q) := kh_malloc (sizeof_pointer * backlog) (tc_heap (so_tcp s)) in
        let s := set_so_heap h s in
        if q =? NULL then fail ENOMEM (on_socket i (fun k => set_so_queue (so_backlog k) NULL (so_accept_queue_len k) k) s)
        else
          let s := on_socket i (set_so_queue backlog q 0) s in
          let '(s, ret) := if negb (so_proto_data k =? NULL) then let '(t, ret) := tcp_listen (so_proto_data k) backlog (so_tcp s) in (set_so_tcp t s, ret) else (s, TCP_OK) in
          if negb (ret =? TCP_OK) then
            fail EINVAL (on_socket i (set_so_queue backlog NULL 0) (set_so_heap (kh_free q (tc_heap (so_tcp s))) s))
          else (on_socket i (set_so_state SOCKET_STATE_LISTENING) s, 0)
  end.

(** The address that is returned when [room], the bytes the caller offers for it, suffice
    ([None] for a NULL pointer). *)
Definition give_addr (room : option Z) (a : sockaddr_in) : option sockaddr_in :=
  match room with Some n => if sizeof_sockaddr_in <=? n then Some a else None | None => None end.
Definition accept (sockfd : Z) (room : option Z) s : sockets H * Z * option sockaddr_in :=
  let no r := (r, None) in
  match socket_get sockfd s with
  | None => no (fail EBADF s)
  | Some i =>
      let k := socket_table s i in
      if negb (bool_decide (so_state k = SOCKET_STATE_LISTENING)) then no (fail EINVAL s)
      else
        let '(t, client) := tcp_accept hw_result fresh (so_proto_data k) (so_tcp s) in
        let s := set_so_tcp t s in
        if client =? NULL then no (if flag_on (so_flags k) SOCKET_FLAG_NONBLOCK then fail EWOULDBLOCK s else fail EAGAIN s)
        else
          match socket_alloc s with
          | (s, None) => no (fail ENOMEM (set_so_tcp (tcp_socket_destroy client (so_tcp s)) s))
          | (s, Some j) =>
              let c := tc_sock (so_tcp s) client in
              let local := mk_addr AF_INET (htons (sk_local_port c)) (htonl (sk_local_ip c)) (repeat 0 8) in
              let remote := mk_addr AF_INET (htons (sk_remote_port c)) (htonl (sk_remote_ip c)) (repeat 0 8) in
              let s := on_socket j (fun k => set_so_remote remote (set_so_bind local true (set_so_parent (Some i) (set_so_proto client
                         (set_so_state SOCKET_STATE_CONNECTED (set_so_ident AF_INET SOCK_STREAM IPPROTO_TCP k)))))) s in
              let '(s, ok) := init_buffers j s in
              if negb ok then no (fail ENOMEM (socket_free j s))
              else (s, so_fd (socket_table s j), give_addr room remote)
          end
  end.

(** ** Connecting, sending and receiving *)

(** A port for a socket that has none; whether one was found. *)
Definition auto_bind (i : Z) (st : socket_state) s : sockets H * bool :=
  if so_bound (socket_table s i) then (s, true)
  else
    let '(s, port) := allocate_ephemeral_port (so_type (socket_table s i)) s in
    if port =? 0 then (s, false)
    else
      (on_socket i (fun k => set_so_state st (set_so_bind (mk_addr AF_INET (htons port) (htonl (ip_get_addr (tc_net (so_tcp s)))) (sin_zero (so_local k))) true k)) s, true).
Definition connect (sockfd : Z) (sin : sockaddr_in) (addrlen : Z) s : sockets H * Z :=
  match socket_get sockfd s with
  | None => fail EBADF s
  | Some i =>
      let k := socket_table s i in
      if addrlen <? sizeof_sockaddr_in then fail EINVAL s
      else if negb (sin_family sin =? AF_INET) then fail EAFNOSUPPORT s
      else if bool_decide (so_state k = SOCKET_STATE_CONNECTED) then fail EISCONN s
      else
        let '(s, ok) := auto_bind i (so_state k) s in
        if negb ok then fail EADDRINUSE s
        else
          let s := on_socket i (set_so_remote sin) s in
          if so_type k =? SOCK_STREAM then
            let p := so_proto_data k in
            if p =? NULL then fail EINVAL s
            else
              let t := so_tcp s in
              let t := if bound (tc_sock t p) then t else fst (tcp_bind p (ntohs (sin_port (so_local (socket_table s i)))) t) in
              let s := on_socket i (set_so_state SOCKET_STATE_CONNECTING) s in
              let '(t, ret) := tcp_connect hw_result fresh p (ntohl (sin_addr sin)) (ntohs (sin_port sin)) t in
              let s := set_so_tcp t s in
              if negb (ret =? TCP_OK) then
                fail (if ret =? TCP_ERR_TIMEOUT then ETIMEDOUT else ECONNREFUSED) (on_socket i (set_so_state SOCKET_STATE_UNBOUND) s)
              else (on_socket i (set_so_state SOCKET_STATE_CONNECTED) s, 0)
          else if so_type k =? SOCK_DGRAM then (on_socket i (set_so_state SOCKET_STATE_CONNECTED) s, 0)
          else (s, 0)
  end.

Definition count_sent (n : Z) (k : socket_t) : socket_t := set_so_sent (u64 (so_bytes_sent k + n)) (u64 (so_packets_sent k + 1)) k.
Definition count_received (n : Z) (k : socket_t) : socket_t := set_so_received (u64 (so_bytes_recv k + n)) (u64 (so_packets_recv k + 1)) k.

(** [send] and [sendto] call each other: each is a function of the other. [buf] are the
    bytes to send, [None] for NULL; [dest] is the address with its length. *)
Definition send_with (sendto : Z -> option (list Z) -> Z -> option (sockaddr_in * Z) -> sockets H -> sockets H * Z)
    (sockfd : Z) (buf : option (list Z)) (flags : Z) s : sockets H * Z :=
  match socket_get sockfd s with
  | None => fail EBADF s
  | Some i =>
      let k := socket_table s i in
      match buf with
      | None | Some [] => (s, 0)
      | Some data =>
          if negb (bool_decide (so_state k = SOCKET_STATE_CONNECTED)) then fail ENOTCONN s
          else if so_type k =? SOCK_STREAM then
            if so_proto_data k =? NULL then fail ENOTCONN s
            else
              let '(t, sent) := tcp_send hw_result fresh (so_proto_data k) buf (so_tcp s) in
              let s := set_so_tcp t s in
              if sent <? 0 then fail (if sent =? TCP_ERR_WOULDBLOCK then EWOULDBLOCK else if sent =? TCP_ERR_NOTCONN then ENOTCONN else ECONNRESET) s
              else (on_socket i (count_sent sent) s, sent)
          else if so_type k =? SOCK_DGRAM then sendto sockfd buf flags (Some (so_remote k, sizeof_sockaddr_in)) s
          else (on_socket i (count_sent 0) s, 0)
      end
  end.
(** The datagram that is handed to the network. *)
Definition sendto_packet (src_port dst_port : Z) (data : list Z) : list Z :=
  le16 src_port ++ le16 dst_port ++ le16 (htons (u16 (8 + Z.of_nat (length data)))) ++ le16 0 ++ data.
Definition sendto_with (send : Z -> option (list Z) -> Z -> sockets H -> sockets H * Z)
    (sockfd : Z) (buf : option (list Z)) (flags : Z) (dest_addr : option (sockaddr_in * Z)) s : sockets H * Z :=
  match socket_get sockfd s with
  | None => fail EBADF s
  | Some i =>
      let k := socket_table s i in
      match buf with
      | None | Some [] => (s, 0)
      | Some data =>
          let target :=
            match dest_addr with
            | Some (a, addrlen) => if addrlen <? sizeof_sockaddr_in then inr EINVAL else inl a
            | None => if bool_decide (so_state k = SOCKET_STATE_CONNECTED) then inl (so_remote k) else inr EDESTADDRREQ
            end in
          match target with
          | inr e => fail e s
          | inl dest =>
              let '(s, ok) := auto_bind i SOCKET_STATE_BOUND s in
              if negb ok then fail EADDRINUSE s
              else if so_type k =? SOCK_DGRAM then
                let udp_len := 8 + Z.of_nat (length data) in
                let '(h, packet) := kh_malloc udp_len (tc_heap (so_tcp s)) in
                let s := set_so_heap h s in
                if packet =? NULL then fail ENOMEM s
                else
                  let bytes := sendto_packet (sin_port (so_local (socket_table s i))) (sin_port dest) data in
                  let '(n, ret) := ip_send hw_result fresh (ntohl (sin_addr dest)) IP_PROTO_UDP (Some bytes) udp_len (tc_net (so_tcp s)) in
                  let s := set_so_tcp (set_tnet n (so_tcp s)) s in
                  let s := set_so_heap (kh_free packet (tc_heap (so_tcp s))) s in
                  if ret <? 0 then fail ENETUNREACH s else (on_socket i (count_sent (Z.of_nat (length data))) s, Z.of_nat (length data))
              else if so_type k =? SOCK_STREAM then send sockfd buf flags s
              else fail EOPNOTSUPP s
          end
      end
  end.
(** The type of a socket decides which of the two does the work, so that one call of the
    other is enough; [send_eq] and [sendto_eq] are the recursive equations. *)
Definition send : Z -> option (list Z) -> Z -> sockets H -> sockets H * Z := send_with (sendto_with (fun _ _ _ s => (s, -1))).
Definition sendto : Z -> option (list Z) -> Z -> option (sockaddr_in * Z) -> sockets H -> sockets H * Z := sendto_with (send_with (fun _ _ _ _ s => (s, -1))).

(** What a receiving call gives: the state, the result, the bytes that were stored, the
    address that was stored. *)
Definition recv_result : Type := sockets H * Z * list Z * option sockaddr_in.
Definition got (r : sockets H * Z) : recv_result := (fst r, snd r, [], None).
(** [buf] is the address of the buffer. *)
Definition recv_with (recvfrom : Z -> Z -> Z -> Z -> option Z -> sockets H -> recv_result) (sockfd buf len flags : Z) s : recv_result :=
  match socket_get sockfd s with
  | None => got (fail EBADF s)
  | Some i =>
      let k := socket_table s i in
      if (buf =? NULL) || (len =? 0) then got (s, 0)
      else if negb (bool_decide (so_state k = SOCKET_STATE_CONNECTED)) && (so_type k =? SOCK_STREAM) then got (fail ENOTCONN s)
      else if so_type k =? SOCK_STREAM then
        let p := so_proto_data k in
        if p =? NULL then got (fail ENOTCONN s)
        else
          let '(b, l, received) := socket_buffer_read (so_recv_buffer k) len (flag_on flags MSG_PEEK) in
          let s := on_socket i (set_so_recv_buffer b) s in
          if received =? 0 then
            let '(t, l, received) := tcp_recv p buf len (so_tcp s) in
            let s := set_so_tcp t s in
            if received <? 0 then
              if received =? TCP_ERR_WOULDBLOCK then got (fail EWOULDBLOCK s) else if received =? TCP_ERR_CLOSED then got (s, 0) else got (fail ECONNRESET s)
            else (if 0 <? received then on_socket i (count_received received) s else s, received, l, None)
          else (if 0 <? received then on_socket i (count_received received) s else s, received, l, None)
      else if so_type k =? SOCK_DGRAM then recvfrom sockfd buf len flags None s
      else got (s, 0)
  end.
Definition recvfrom_with (recv : Z -> Z -> Z -> Z -> sockets H -> recv_result) (sockfd buf len flags : Z) (room : option Z) s : recv_result :=
  match socket_get sockfd s with
  | None => got (fail EBADF s)
  | Some i =>
      let k := socket_table s i in
      if (buf =? NULL) || (len =? 0) then got (s, 0)
      else if so_type k =? SOCK_DGRAM then
        let '(b, l, received) := socket_buffer_read (so_recv_buffer k) len (flag_on flags MSG_PEEK) in
        let s := on_socket i (set_so_recv_buffer b) s in
        if received =? 0 then got (if flag_on (so_flags k) SOCKET_FLAG_NONBLOCK then fail EWOULDBLOCK s else fail EAGAIN s)
        else (if 0 <? received then on_socket i (count_received received) s else s, received, l, give_addr room (so_remote k))
      else if so_type k =? SOCK_STREAM then
        let '(s, received, l, _) := recv sockfd buf len flags s in
        (s, received, l, if 0 <? received then give_addr room (so_remote (socket_table s i)) else None)
      else got (s, 0)
  end.
Definition recv : Z -> Z -> Z -> Z -> sockets H -> recv_result := recv_with (recvfrom_with (fun _ _ _ _ s => got (s, -1))).
Definition recvfrom : Z -> Z -> Z -> Z -> option Z -> sockets H -> recv_result := recvfrom_with (recv_with (fun _ _ _ _ _ s => got (s, -1))).

(** ** Closing *)

Definition socket_close (sockfd : Z) s : sockets H * Z :=
  match socket_get sockfd s with
  | None => fail EBADF s
  | Some i =>
      let k := socket_table s i in
      let s := if (so_type k =? SOCK_STREAM) && negb (so_proto_data k =? NULL) then set_so_tcp (fst (tcp_close hw_result fresh (so_proto_data k) (so_tcp s))) s else s in
      (socket_free i (on_socket i (set_so_state SOCKET_STATE_CLOSED) s), 0)
  end.
Definition shutdown (sockfd how : Z) s : sockets H * Z :=
  match socket_get sockfd s with
  | None => fail EBADF s
  | Some i =>
      let k := socket_table s i in
      if negb (how =? SHUT_RD) && negb (how =? SHUT_WR) && negb (how =? SHUT_RDWR) then fail EINVAL s
      else if negb (so_type k =? SOCK_STREAM) then fail EOPNOTSUPP s
      else
        let s := if negb (so_proto_data k =? NULL) && ((how =? SHUT_WR) || (how =? SHUT_RDWR)) then set_so_tcp (fst (tcp_close hw_result fresh (so_proto_data k) (so_tcp s))) s else s in
        (if how =? SHUT_RDWR then on_socket i (set_so_state SOCKET_STATE_CLOSING) s else s, 0)
  end.

(** ** Options and addresses *)

(** [optval] is the word at the pointer, [None] for NULL. *)
Definition setsockopt (sockfd level optname : Z) (optval : option Z) (optlen : Z) s : sockets H * Z :=
  match socket_get sockfd s with
  | None => fail EBADF s
  | Some i =>
      match optval with
      | None => fail EINVAL s
      | Some v =>
          let set f := if sizeof_int <=? optlen then (on_socket i f s, 0) else fail EINVAL s in
          if level =? SOL_SOCKET then
            if optname =? SO_REUSEADDR then set (set_so_reuse (negb (v =? 0)))
            else if optname =? SO_BROADCAST then set (set_so_broadcast (negb (v =? 0)))
            else if optname =? SO_KEEPALIVE then set (set_so_keepalive (negb (v =? 0)))
            else if optname =? SO_RCVTIMEO then set (fun k => set_so_timeouts (so_send_timeout k) v k)
            else if optname =? SO_SNDTIMEO then set (fun k => set_so_timeouts v (so_recv_timeout k) k)
            else if (optname =? SO_SNDBUF) || (optname =? SO_RCVBUF) then (s, 0)
            else fail ENOPROTOOPT s
          else if (level =? SOL_TCP) && (so_type (socket_table s i) =? SOCK_STREAM) then fail ENOPROTOOPT s
          else fail EINVAL s
      end
  end.
(** [room] is the length the caller offers, [None] when a pointer is NULL; besides the
    result, the word that was stored. *)
Definition getsockopt (sockfd level optname : Z) (room : option Z) s : sockets H * Z * option Z :=
  let no r := (r, None) in
  match socket_get sockfd s with
  | None => no (fail EBADF s)
  | Some i =>
      match room with
      | None => no (fail EINVAL s)
      | Some optlen =>
          let k := socket_table s i in
          let give v s' := if sizeof_int <=? optlen then (s', 0, Some v) else no (fail EINVAL s) in
          if level =? SOL_SOCKET then
            if optname =? SO_TYPE then give (so_type k) s
            else if optname =? SO_ERROR then give (so_error k) (on_socket i (set_so_error 0) s)
            else if optname =? SO_REUSEADDR then give (if so_reuse_addr k then 1 else 0) s
            else if optname =? SO_BROADCAST then give (if so_broadcast k then 1 else 0) s
            else if optname =? SO_KEEPALIVE then give (if so_keepalive k then 1 else 0) s
            else if optname =? SO_SNDBUF then give (sb_capacity (so_send_buffer k)) s
            else if optname =? SO_RCVBUF then give (sb_capacity (so_recv_buffer k)) s
            else no (fail ENOPROTOOPT s)
          else no (fail EINVAL s)
      end
  end.
Definition getsockname (sockfd : Z) (room : option Z) s : sockets H * Z * option sockaddr_in :=
  match socket_get sockfd s with
  | None => (fail EBADF s, None)
  | Some i =>
      match give_addr room (so_local (socket_table s i)) with
      | None => (fail EINVAL s, None)
      | Some a => (s, 0, Some a)
      end
  end.
Definition getpeername (sockfd : Z) (room : option Z) s : sockets H * Z * option sockaddr_in :=
  match socket_get sockfd s with
  | None => (fail EBADF s, None)
  | Some i =>
      let k := socket_table s i in
      if negb (bool_decide (is_Some room)) then (fail EINVAL s, None)
      else if negb (bool_decide (so_state k = SOCKET_STATE_CONNECTED)) then (fail ENOTCONN s, None)
      else
        match give_addr room (so_remote k) with
        | None => (fail EINVAL s, None)
        | Some a => (s, 0, Some a)
        end
  end.

(** Data that arrives for the socket; NULL pointers are [None]. *)
Definition socket_deliver (sock : option Z) (data : option (list Z)) (src_addr : option sockaddr_in) s : sockets H * Z :=
  match sock, data with
  | Some i, Some (x :: l) =>
      let s := match src_addr with Some a => if so_type (socket_table s i) =? SOCK_DGRAM then on_socket i (set_so_remote a) s else s | None => s end in
      let '(b, written) := socket_buffer_write (so_recv_buffer (socket_table s i)) (x :: l) in
      let s := on_socket i (set_so_recv_buffer b) s in
      (if 0 <? written then on_socket i (count_received written) s else s, written)
  | _, _ => (s, -1)
  end.
End Sockets.
