(* ===== verification/SocketProps.v ===== *)
(** * What the BSD sockets promise (net/socket/socket.c)

    The calls that are defined through each other satisfy the equations of the code; ports
    of the same type are exclusive; descriptors lead to their sockets until one is closed;
    a receive buffer is a queue of bytes; addresses survive the text form. *)
From S2P Require Import Prelude Memory Ring Netbuf Net Checksum Packets IpText Chain Tcp TcpRing TcpInv Udp Socket.

Section Calls.
Context {H : Type} `{KernelHeap H}.
Variable hw_result : list Z -> Z.
Variable fresh : Z -> Z.
Implicit Types s : sockets H.

Lemma table_on_socket i j f s : socket_table (on_socket i f s) j = if j =? i then f (socket_table s i) else socket_table s j.
Proof. done. Qed.

(** ** The calls that call each other *)

Lemma allocate_table type s : socket_table (fst (allocate_ephemeral_port type s)) = socket_table s.
Proof.
  unfold allocate_ephemeral_port.
  pose proof (while_pos_ind (fun x => socket_table x = socket_table s) (fun r => socket_table (fst r) = socket_table s) (ephemeral_attempt type) 16384 s eq_refl) as Hw.
  destruct (while_pos _ _ _) as [x|r]; apply Hw; intros y Hy; unfold ephemeral_attempt; by destruct (negb _).
Qed.
Lemma auto_bind_frame i st s : let s' := fst (auto_bind i st s) in
  (forall j, so_in_use (socket_table s' j) = so_in_use (socket_table s j)) /\ forall j, so_type (socket_table s' j) = so_type (socket_table s j).
Proof.
  cbn zeta. unfold auto_bind. destruct (so_bound _); [done|]. pose proof (allocate_table (so_type (socket_table s i)) s) as Ht.
  destruct (allocate_ephemeral_port _ s) as [s1 p]. cbn [fst] in Ht. destruct (p =? 0); cbn [fst]; rewrite ?Ht; [done|].
  split; intros j; rewrite table_on_socket, Ht; destruct (Z.eqb_spec j i) as [->|]; done.
Qed.
Lemma get_frame fd s s' : (forall j, so_in_use (socket_table s' j) = so_in_use (socket_table s j)) -> socket_get fd s' = socket_get fd s.
Proof. intros E. unfold socket_get. by rewrite E. Qed.

(** [send], [sendto], [recv] and [recvfrom] satisfy the recursive equations of the code. *)
Lemma send_eq fd buf flags s : send hw_result fresh fd buf flags s = send_with hw_result fresh (sendto hw_result fresh) fd buf flags s.
Proof.
  unfold send, sendto, send_with. destruct (socket_get fd s) as [i|] eqn:E; [|done]. cbn zeta. destruct buf as [[|x l]|]; [done| |done].
  destruct (negb _); [done|]. destruct (so_type _ =? SOCK_STREAM) eqn:Es; [done|]. destruct (so_type _ =? SOCK_DGRAM) eqn:Ed; [|done].
  unfold sendto_with. rewrite E. cbn zeta. destruct (sizeof_sockaddr_in <? _); [done|]. destruct (auto_bind _ _ _) as [s1 ok]. by rewrite Ed.
Qed.
Lemma sendto_eq fd buf flags dest s : sendto hw_result fresh fd buf flags dest s = sendto_with hw_result fresh (send hw_result fresh) fd buf flags dest s.
Proof.
  unfold send, sendto, sendto_with. destruct (socket_get fd s) as [i|] eqn:E; [|done]. cbn zeta. destruct buf as [[|x l]|]; [done| |done].
  destruct (match dest with Some _ => _ | None => _ end) as [a|e]; [|done]. pose proof (auto_bind_frame i SOCKET_STATE_BOUND s) as [F1 F2].
  destruct (auto_bind _ _ _) as [s1 ok]. cbn [fst] in F1, F2. destruct (negb ok); [done|].
  destruct (so_type _ =? SOCK_DGRAM); [done|]. destruct (so_type _ =? SOCK_STREAM) eqn:Es; [|done].
  unfold send_with. rewrite (get_frame fd s s1 F1), E. cbn zeta. rewrite F2, Es. destruct (negb _); [done|]. by destruct (so_proto_data _ =? NULL).
Qed.
Lemma recv_eq fd buf len flags s : recv fd buf len flags s = recv_with (recvfrom (H:=H)) fd buf len flags s.
Proof.
  unfold recv, recvfrom, recv_with. destruct (socket_get fd s) as [i|] eqn:E; [|done]. cbn zeta. destruct (_ || _) eqn:Ez; [done|].
  destruct (_ && _); [done|]. destruct (so_type _ =? SOCK_STREAM) eqn:Es; [done|]. destruct (so_type _ =? SOCK_DGRAM) eqn:Ed; [|done].
  unfold recvfrom_with. rewrite E, Ez. cbn zeta. by rewrite Ed.
Qed.
Lemma recvfrom_eq fd buf len flags room s : recvfrom fd buf len flags room s = recvfrom_with (recv (H:=H)) fd buf len flags room s.
Proof.
  unfold recv, recvfrom, recvfrom_with. destruct (socket_get fd s) as [i|] eqn:E; [|done]. cbn zeta. destruct (_ || _) eqn:Ez; [done|].
  destruct (so_type _ =? SOCK_DGRAM); [done|]. destruct (so_type _ =? SOCK_STREAM) eqn:Es; [|done].
  unfold recv_with. rewrite E, Ez. cbn zeta. by rewrite Es.
Qed.

(** ** Ports *)

(** What a socket claims: its type and port, once it is bound by itself. *)
Definition port_of (k : socket_t) : Z := ntohs (sin_port (so_local k)).
Definition claim (k : socket_t) : option (Z * Z) := if so_in_use k && so_bound k && negb (bool_decide (is_Some (so_parent k))) then Some (so_type k, port_of k) else None.
(** No two sockets claim the same; none has SO_REUSEADDR. *)
Record ports_inv s : Prop := mk_ports_inv {
  pi_excl : forall i j v, 0 <= i < SOCKET_MAX_COUNT -> 0 <= j < SOCKET_MAX_COUNT -> claim (socket_table s i) = Some v -> claim (socket_table s j) = Some v -> i = j;
  pi_reuse : forall i, so_in_use (socket_table s i) = true -> so_reuse_addr (socket_table s i) = false;
  pi_next : 0 <= next_ephemeral s < 65536 }.

(** A socket may change if it keeps its claim or gives it up. *)
Definition tame (k k' : socket_t) : Prop := (claim k' = claim k \/ claim k' = None) /\ (so_in_use k' = true -> so_reuse_addr k' = false \/ (so_in_use k = true /\ so_reuse_addr k' = so_reuse_addr k)).
Lemma inv_tame i k' s : ports_inv s -> tame (socket_table s i) k' -> ports_inv (on_socket i (fun _ => k') s).
Proof.
  intros [I1 I2 I3] [T1 T2]. split; [|intros j; rewrite table_on_socket; destruct (Z.eqb_spec j i) as [->|]; [intros Hu; destruct (T2 Hu) as [?|[? ->]]; auto|auto]|done].
  assert (forall j v, claim (socket_table (on_socket i (fun _ => k') s) j) = Some v -> claim (socket_table s j) = Some v) as Hc.
  { intros j v. rewrite table_on_socket. destruct (Z.eqb_spec j i) as [->|]; [|done]. destruct T1 as [-> | ->]; done. }
  intros a b v Ha Hb Ea Eb. apply (I1 a b v); auto.
Qed.
Lemma inv_step i f s : ports_inv s -> (forall k, tame k (f k)) -> ports_inv (on_socket i f s).
Proof. intros I T. by apply (inv_tame i (f (socket_table s i))). Qed.
Lemma inv_same s s' : socket_table s' = socket_table s -> next_ephemeral s' = next_ephemeral s -> ports_inv s -> ports_inv s'.
Proof. intros E1 E2 [I1 I2 I3]. split; rewrite ?E1, ?E2; done. Qed.
Lemma tame_view k k' : claim k' = claim k -> so_in_use k' = so_in_use k -> so_reuse_addr k' = so_reuse_addr k -> tame k k'.
Proof. intros E1 E2 E3. split; [by left|]. rewrite E2, E3. intros E. by right. Qed.
Lemma inv_tcp t s : ports_inv s -> ports_inv (set_so_tcp t s).
Proof. by apply inv_same. Qed.
Lemma inv_heap h s : ports_inv s -> ports_inv (set_so_heap h s).
Proof. by apply inv_same. Qed.
Lemma inv_fail e s : ports_inv s -> ports_inv (fst (fail e s)).
Proof. by apply inv_same. Qed.

(** A port that is not in use is claimed by nobody. *)
Lemma port_free port type s : port_in_use port type s = false -> forall i, 0 <= i < SOCKET_MAX_COUNT -> claim (socket_table s i) <> Some (type, port).
Proof.
  intros E i Hi Hc. assert (In i slots) as Hin by (apply list_elem_of_In, elem_of_seqZ; lia).
  assert (port_in_use port type s = true) as E'; [|congruence]. apply existsb_exists. exists i. split; [done|]. unfold claim, port_of in Hc.
  destruct (_ && _) eqn:Eb in Hc; [|done]. injection Hc as E1 E2. apply andb_true_iff in Eb as [Eb _]. apply andb_true_iff in Eb as [E3 E4]. cbn zeta beta. by rewrite E1, E2, E3, E4, !Z.eqb_refl.
Qed.
Lemma inv_claim i k' s : ports_inv s -> 0 <= i < SOCKET_MAX_COUNT -> so_reuse_addr k' = false -> (forall j, 0 <= j < SOCKET_MAX_COUNT -> claim (socket_table s j) <> claim k') ->
  ports_inv (on_socket i (fun _ => k') s).
Proof.
  intros [I1 I2 I3] Hi Hr Hf. split; [|intros j; rewrite table_on_socket; destruct (Z.eqb_spec j i) as [->|]; auto|done].
  intros a b v Ha Hb. rewrite !table_on_socket. destruct (Z.eqb_spec a i) as [->|Na], (Z.eqb_spec b i) as [->|Nb]; intros Ea Eb; [done| | |by apply (I1 a b v)].
  - destruct (Hf b Hb). congruence.
  - destruct (Hf a Ha). congruence.
Qed.
(** The search for an ephemeral port keeps the table and finds a free port. *)
Lemma allocate_ok type s : ports_inv s -> let '(s', p) := allocate_ephemeral_port type s in
  ports_inv s' /\ socket_table s' = socket_table s /\ so_tcp s' = so_tcp s /\ 0 <= p < 65536 /\ (p <> 0 -> port_in_use p type s = false).
Proof.
  intros I. unfold allocate_ephemeral_port.
  pose proof (while_pos_ind (fun x => ports_inv x /\ socket_table x = socket_table s /\ so_tcp x = so_tcp s)
    (fun '(x, p) => ports_inv x /\ socket_table x = socket_table s /\ so_tcp x = so_tcp s /\ 0 <= p < 65536 /\ port_in_use p type s = false)
    (ephemeral_attempt type) 16384 s (conj I (conj eq_refl eq_refl))) as Hw.
  assert (forall x, ports_inv x /\ socket_table x = socket_table s /\ so_tcp x = so_tcp s -> match ephemeral_attempt type x with
    | inl y => ports_inv y /\ socket_table y = socket_table s /\ so_tcp y = so_tcp s
    | inr (y, p) => ports_inv y /\ socket_table y = socket_table s /\ so_tcp y = so_tcp s /\ 0 <= p < 65536 /\ port_in_use p type s = false end) as Hs.
  { intros x ([I1 I2 I3] & E & Et). unfold ephemeral_attempt. cbn zeta. set (nx := if 65535 <? _ then _ else _).
    assert (0 <= nx < 65536) as Hn by (unfold nx, u16; pose proof (Z.mod_pos_bound (next_ephemeral x + 1) (2 ^ 16)); repeat case_if; lia).
    assert (ports_inv (set_next_ephemeral nx x)) as I' by (by split).
    assert (port_in_use (next_ephemeral x) type (set_next_ephemeral nx x) = port_in_use (next_ephemeral x) type s) as Ep by (unfold port_in_use; cbn; by rewrite E).
    rewrite Ep. destruct (port_in_use _ _ s) eqn:Eu; cbn [negb]; split_and!; done || lia. }
  destruct (while_pos _ _ _) as [x|[x p]].
  - destruct Hw as (I' & E1 & E2); [intros y Hy; specialize (Hs y Hy); by destruct (ephemeral_attempt type y) as [?|[? ?]]|]. do 3 (split; [done|]). split; [lia|done].
  - destruct Hw as (I' & E1 & E2 & Hp & Hf); [intros y Hy; specialize (Hs y Hy); by destruct (ephemeral_attempt type y) as [?|[? ?]]|]. by do 4 (split; [done|]).
Qed.

Lemma get_some fd s i : socket_get fd s = Some i -> 0 <= i < SOCKET_MAX_COUNT /\ so_in_use (socket_table s i) = true.
Proof.
  unfold socket_get, fd_to_index. destruct (_ || _) eqn:E; [done|]. apply orb_false_iff in E as [E1 E2]. zbool. destruct (_ <? 0); [done|].
  destruct (so_in_use _) eqn:Eu; [|done]. intros [= <-]. split; [lia|done].
Qed.
Lemma alloc_some s s' i : socket_alloc s = (s', Some i) -> 0 <= i < SOCKET_MAX_COUNT /\ so_in_use (socket_table s i) = false /\
  (forall j, 0 <= j < i -> so_in_use (socket_table s j) = true) /\ s' = mk_sockets (upd (socket_table s) i (set_so_slot (next_socket_fd s) true zero_socket)) (next_socket_fd s + 1)
    (socket_errno s) (socket_initialized s) (next_ephemeral s) (so_tcp s).
Proof.
  unfold socket_alloc. assert (forall n b i, find (fun i => negb (so_in_use (socket_table s i))) (seqZ b (Z.of_nat n)) = Some i ->
    b <= i < b + Z.of_nat n /\ so_in_use (socket_table s i) = false /\ forall j, b <= j < i -> so_in_use (socket_table s j) = true) as Hf.
  { induction n as [|n IH]; intros b j; [done|]. rewrite seqZ_cons by lia. cbn [find]. replace (Z.pred (Z.of_nat (S n))) with (Z.of_nat n) by lia.
    destruct (so_in_use (socket_table s b)) eqn:Eb; cbn [negb]; [|intros [= <-]; split_and!; [lia..|done|lia]]. intros Hj. apply IH in Hj as (H1 & H2 & H3). split; [lia|]. split; [done|].
    intros x Hx. destruct (decide (x = b)) as [->|]; [done|]. apply H3. lia. }
  specialize (Hf 256%nat 0 i). change (Z.of_nat 256) with SOCKET_MAX_COUNT in Hf. fold slots in Hf. destruct (find _ slots) as [x|] eqn:Ef; [|done]. intros [= <- ->]. destruct Hf as (H1 & H2 & H3); [done|]. split; [done|]. split; [done|]. by split.
Qed.
Lemma alloc_inv s : ports_inv s -> ports_inv (fst (socket_alloc s)).
Proof.
  intros I. unfold socket_alloc. destruct (find _ _) as [i|]; [|done]. cbn [fst].
  apply (inv_same (on_socket i (fun _ => set_so_slot (next_socket_fd s) true zero_socket) s)); [done|done|]. apply inv_tame; [done|]. split; [by right|by left].
Qed.
Lemma free_inv i s : ports_inv s -> ports_inv (socket_free i s).
Proof.
  intros I. unfold socket_free. cbn zeta. destruct (socket_buffer_free _ _) as [b1 h1]. destruct (socket_buffer_free _ _) as [b2 h2].
  apply inv_step; [|intros k; split; [by right|done]]. destruct (_ && _); [apply inv_tcp|]; by apply inv_heap.
Qed.

Ltac sock :=
  repeat first
    [ assumption | apply inv_fail | apply inv_tcp | apply inv_heap | apply free_inv | apply inv_step; [|intros ?; apply tame_view; reflexivity] ].

(** A new socket claims nothing before it is bound. *)
Lemma inv_new s s1 i f : socket_alloc s = (s1, Some i) -> ports_inv s1 -> claim (f (set_so_slot (next_socket_fd s) true zero_socket)) = None ->
  so_reuse_addr (f (set_so_slot (next_socket_fd s) true zero_socket)) = false -> ports_inv (on_socket i f s1).
Proof.
  intros E I Hc Hr. apply alloc_some in E as (_ & _ & _ & ->). set (k := set_so_slot _ true zero_socket) in *.
  apply (inv_tame i (f k)) in I; [|split; [by right|by left]]. revert I. apply inv_same; [|done]. cbn. by rewrite upd_same.
Qed.
Lemma buffers_inv i s : ports_inv s -> ports_inv (fst (init_buffers fresh i s)).
Proof.
  intros I. unfold init_buffers. destruct (socket_buffer_init _ _ _ _) as [[b h] r]. cbn zeta. destruct (r <? 0); [cbn [fst]; sock|].
  destruct (socket_buffer_init _ _ _ _) as [[b' h'] r']. cbn [fst]. sock.
Qed.
Lemma socket_inv domain type protocol s : ports_inv s -> ports_inv (fst (socket fresh domain type protocol s)).
Proof.
  intros I. unfold socket. destruct (negb (domain =? _)); [sock|]. destruct (negb _ && negb _ && negb _); [sock|]. cbn zeta.
  do 2 (destruct (_ && negb _); [sock|]). pose proof (alloc_inv s I) as I1. destruct (socket_alloc s) as [s1 [i|]] eqn:Ea; cbn [fst] in I1; [|sock].
  set (s2 := on_socket i _ s1). assert (ports_inv s2) as I2 by (apply (inv_new s s1 i _ Ea I1); done). pose proof (buffers_inv i s2 I2) as I3.
  destruct (init_buffers fresh i s2) as [s3 ok]. cbn [fst] in I3. destruct (negb ok); [sock|]. destruct (type =? SOCK_STREAM); [|done].
  destruct (tcp_socket_create _ _) as [t p]. destruct (p =? NULL); [sock|]. cbn [fst]. sock.
Qed.

(** Binding socket [i] to a free port. *)
Lemma inv_bound i a st port s : ports_inv s -> 0 <= i < SOCKET_MAX_COUNT -> so_in_use (socket_table s i) = true -> ntohs (sin_port a) = port ->
  port_in_use port (so_type (socket_table s i)) s = false -> ports_inv (on_socket i (fun k => set_so_state st (set_so_bind a true k)) s).
Proof.
  intros I Hi Hu Hp Hf. set (k := socket_table s i) in *. change (ports_inv (on_socket i (fun _ => set_so_state st (set_so_bind a true k)) s)).
  destruct (so_parent k) as [q|] eqn:Eq.
  - apply inv_tame; [done|]. split; [right; unfold claim; cbn; rewrite Eq; by rewrite andb_false_r|]. intros _. by right.
  - apply inv_claim; [done|done|by apply (pi_reuse s I)|]. intros j Hj. unfold claim at 2. cbn. rewrite Hu, Eq. cbn. unfold port_of. cbn. rewrite Hp. by apply port_free.
Qed.
(** Binding and its failure in the layer below. *)
Lemma bind_inv fd sin addrlen s : 0 <= sin_port sin < 65536 -> ports_inv s -> ports_inv (fst (bind fd sin addrlen s)).
Proof.
  intros Hr I. unfold bind. destruct (socket_get fd s) as [i|] eqn:E; [|sock]. apply get_some in E as [Hi Hu]. cbn zeta.
  set (k := socket_table s i) in *. destruct (addrlen <? _); [sock|]. destruct (negb (sin_family sin =? _)); [sock|]. destruct (so_bound k); [sock|].
  rewrite (pi_reuse s I i Hu : so_reuse_addr k = false). cbn [negb]. rewrite andb_true_r.
  assert (0 <= ntohs (sin_port sin) < 65536) as Hp by (by apply htons_range). set (port := ntohs (sin_port sin)) in *.
  destruct (negb (port =? 0) && port_in_use port (so_type k) s) eqn:Ep; [sock|].
  set (r := if port =? 0 then _ else _). assert (let '(s1, p) := r in ports_inv s1 /\ socket_table s1 = socket_table s /\ so_tcp s1 = so_tcp s /\ 0 <= p < 65536 /\ (p <> 0 -> port_in_use p (so_type k) s = false)) as Hr1.
  { unfold r. destruct (Z.eqb_spec port 0) as [E0|E0]; [by apply allocate_ok|]. cbn [negb andb] in Ep. split_and!; done || lia. }
  destruct r as [s1 p]. destruct Hr1 as (I1 & Et & _ & Hp1 & Hf). destruct (Z.eqb_spec p 0) as [E0|E0]; [sock|]. specialize (Hf E0).
  set (local := mk_addr _ (htons p) _ _). set (s2 := on_socket i _ s1).
  assert (ports_inv s2) as I2.
  { apply (inv_bound i local _ p); [done|done|by rewrite Et|by apply ntohs_htons|]. rewrite Et. fold k. unfold port_in_use in *. by rewrite Et. }
  destruct ((so_type k =? SOCK_STREAM) && _); [|exact I2]. destruct (tcp_bind _ _ _) as [t ret]. destruct (ret =? TCP_OK); cbn [negb fst]; [sock|]. apply inv_fail. apply inv_step; [sock|]. intros k0. split; [right; unfold claim; cbn; by rewrite andb_false_r|]. intros Hk. by right.
Qed.
Lemma listen_inv fd n s : ports_inv s -> ports_inv (fst (listen fd n s)).
Proof.
  intros I. unfold listen. destruct (socket_get fd s) as [i|]; [|sock]. cbn zeta. do 2 (destruct (negb _); [sock|]). destruct (kh_malloc _ _) as [h q].
  destruct (q =? NULL); [sock|]. set (s1 := on_socket i _ _). assert (ports_inv s1) as I1 by (unfold s1; sock).
  destruct (negb (so_proto_data _ =? NULL)).
  - destruct (tcp_listen _ _ _) as [t ret]. destruct (negb _); [|cbn [fst]]; sock.
  - cbn [fst]. sock.
Qed.
Lemma socket_accept_inv fd room s : ports_inv s -> ports_inv (fst (fst (accept hw_result fresh fd room s))).
Proof.
  intros I. unfold accept. destruct (socket_get fd s) as [i|]; [|cbn [fst]; sock]. cbn zeta. destruct (negb _); [cbn [fst]; sock|].
  destruct (tcp_accept _ _ _ _) as [t client]. set (s1 := set_so_tcp t s). assert (ports_inv s1) as I1 by (by apply inv_tcp).
  destruct (client =? NULL); [destruct (flag_on _ _); cbn [fst]; sock|]. pose proof (alloc_inv s1 I1) as I2. destruct (socket_alloc s1) as [s2 [j|]] eqn:Ea; cbn [fst] in I2; [|cbn [fst]; sock].
  set (s3 := on_socket j _ s2). assert (ports_inv s3) as I3 by (apply (inv_new s1 s2 j _ Ea I2); done). pose proof (buffers_inv j s3 I3) as I4.
  destruct (init_buffers fresh j s3) as [s4 ok]. cbn [fst] in I4. destruct ok; cbn [negb fst]; sock.
Qed.
Lemma auto_bind_inv i st s : ports_inv s -> 0 <= i < SOCKET_MAX_COUNT -> so_in_use (socket_table s i) = true -> ports_inv (fst (auto_bind i st s)).
Proof.
  intros I Hi Hu. unfold auto_bind. destruct (so_bound _); [done|]. pose proof (allocate_ok (so_type (socket_table s i)) s I) as Ha.
  destruct (allocate_ephemeral_port _ s) as [s1 p]. destruct Ha as (I1 & Et & _ & Hp & Hf). destruct (Z.eqb_spec p 0) as [E0|E0]; [done|]. cbn [fst].
  set (a := fun k => mk_addr AF_INET (htons p) (htonl (ip_get_addr (tc_net (so_tcp s1)))) (sin_zero (so_local k))).
  change (ports_inv (on_socket i (fun k => set_so_state st (set_so_bind (a (socket_table s1 i)) true k)) s1)).
  apply (inv_bound i _ _ p); [done|done|by rewrite Et|by apply ntohs_htons|]. rewrite Et. specialize (Hf E0). unfold port_in_use in *. by rewrite Et.
Qed.
Lemma connect_inv fd sin addrlen s : ports_inv s -> ports_inv (fst (connect hw_result fresh fd sin addrlen s)).
Proof.
  intros I. unfold connect. destruct (socket_get fd s) as [i|] eqn:E; [|sock]. apply get_some in E as [Hi Hu]. cbn zeta. destruct (addrlen <? _); [sock|].
  destruct (negb (sin_family sin =? _)); [sock|]. destruct (bool_decide _); [sock|]. pose proof (auto_bind_inv i (so_state (socket_table s i)) s I Hi Hu) as I1.
  destruct (auto_bind _ _ s) as [s1 ok]. cbn [fst] in I1. destruct (negb ok); [sock|]. set (s2 := on_socket i _ s1). assert (ports_inv s2) as I2 by (unfold s2; sock).
  destruct (_ =? SOCK_STREAM); [|destruct (_ =? SOCK_DGRAM); cbn [fst]; sock]. destruct (so_proto_data _ =? NULL); [sock|].
  destruct (tcp_connect _ _ _ _ _ _) as [t ret]. destruct (ret =? TCP_OK); cbn [negb fst]; sock.
Qed.
Lemma send_with_inv other fd buf flags s : (forall fd buf flags dest s, ports_inv s -> ports_inv (fst (other fd buf flags dest s))) ->
  ports_inv s -> ports_inv (fst (send_with hw_result fresh other fd buf flags s)).
Proof.
  intros Ho I. unfold send_with. destruct (socket_get fd s) as [i|]; [|sock]. cbn zeta. destruct buf as [[|x l]|]; [done| |done]. destruct (negb _); [sock|].
  destruct (_ =? SOCK_STREAM); [|destruct (_ =? SOCK_DGRAM); [by apply Ho|cbn [fst]; sock]]. destruct (so_proto_data _ =? NULL); [sock|].
  destruct (tcp_send _ _ _ _ _) as [t sent]. destruct (sent <? 0); cbn [fst]; sock.
Qed.
Lemma sendto_with_inv other fd buf flags dest s : (forall fd buf flags s, ports_inv s -> ports_inv (fst (other fd buf flags s))) ->
  ports_inv s -> ports_inv (fst (sendto_with hw_result fresh other fd buf flags dest s)).
Proof.
  intros Ho I. unfold sendto_with. destruct (socket_get fd s) as [i|] eqn:E; [|sock]. apply get_some in E as [Hi Hu]. cbn zeta. destruct buf as [[|x l]|]; [done| |done].
  destruct (match dest with Some _ => _ | None => _ end) as [a|e]; [|sock]. pose proof (auto_bind_inv i SOCKET_STATE_BOUND s I Hi Hu) as I1.
  destruct (auto_bind _ _ s) as [s1 ok]. cbn [fst] in I1. destruct (negb ok); [sock|]. destruct (_ =? SOCK_DGRAM).
  - destruct (kh_malloc _ _) as [h p]. destruct (p =? NULL); [sock|]. destruct (ip_send _ _ _ _ _ _ _) as [n ret]. destruct (ret <? 0); cbn [fst]; sock.
  - destruct (_ =? SOCK_STREAM); [by apply Ho|sock].
Qed.
Lemma recv_with_inv other fd buf len flags s : (forall fd buf len flags room s, ports_inv s -> ports_inv (fst (fst (fst (other fd buf len flags room s))))) ->
  ports_inv s -> ports_inv (fst (fst (fst (recv_with other fd buf len flags s)))).
Proof.
  intros Ho I. unfold recv_with, got. destruct (socket_get fd s) as [i|]; [|cbn [fst]; sock]. cbn zeta. destruct (_ || _); [done|]. destruct (_ && _); [cbn [fst]; sock|].
  destruct (_ =? SOCK_STREAM); [|destruct (_ =? SOCK_DGRAM); [by apply Ho|done]]. destruct (so_proto_data _ =? NULL); [cbn [fst]; sock|].
  destruct (socket_buffer_read _ _ _) as [[b l] n]. destruct (n =? 0); [|destruct (0 <? n); cbn [fst]; sock].
  destruct (tcp_recv _ _ _ _) as [[t l'] n']. destruct (n' <? 0); [|destruct (0 <? n'); cbn [fst]; sock]. repeat (destruct (n' =? _)); cbn [fst]; sock.
Qed.
Lemma recvfrom_with_inv other fd buf len flags room s : (forall fd buf len flags s, ports_inv s -> ports_inv (fst (fst (fst (other fd buf len flags s))))) ->
  ports_inv s -> ports_inv (fst (fst (fst (recvfrom_with other fd buf len flags room s)))).
Proof.
  intros Ho I. unfold recvfrom_with, got. destruct (socket_get fd s) as [i|]; [|cbn [fst]; sock]. cbn zeta. destruct (_ || _); [done|].
  destruct (_ =? SOCK_DGRAM).
  - destruct (socket_buffer_read _ _ _) as [[b l] n]. destruct (n =? 0); [destruct (flag_on _ _)|destruct (0 <? n)]; cbn [fst]; sock.
  - destruct (_ =? SOCK_STREAM); [|done]. specialize (Ho fd buf len flags s I). by destruct (other fd buf len flags s) as [[[s1 n] l] a].
Qed.
Lemma close_inv fd s : ports_inv s -> ports_inv (fst (socket_close hw_result fresh fd s)).
Proof. intros I. unfold socket_close. destruct (socket_get fd s) as [i|]; [|sock]. cbn zeta. destruct (_ && _); cbn [fst]; sock. Qed.
Lemma shutdown_inv fd how s : ports_inv s -> ports_inv (fst (shutdown hw_result fresh fd how s)).
Proof.
  intros I. unfold shutdown. destruct (socket_get fd s) as [i|]; [|sock]. cbn zeta. destruct (negb _ && negb _ && negb _); [sock|]. destruct (negb (so_type _ =? _)); [sock|].
  destruct (_ && _); destruct (how =? SHUT_RDWR); cbn [fst]; sock.
Qed.
Lemma setopt_inv fd level optname v len s : optname <> SO_REUSEADDR -> ports_inv s -> ports_inv (fst (setsockopt fd level optname v len s)).
Proof.
  intros Hn I. unfold setsockopt. destruct (socket_get fd s) as [i|]; [|sock]. destruct v as [v|]; [|sock]. cbn zeta. rewrite (proj2 (Z.eqb_neq optname SO_REUSEADDR)) by done.
  destruct (level =? SOL_SOCKET); [|destruct (_ && _); sock]. repeat (case_if; [destruct (sizeof_int <=? len); cbn [fst]; sock|]).
  repeat case_if; cbn [fst]; sock.
Qed.
Lemma getopt_inv fd level optname room s : ports_inv s -> ports_inv (fst (fst (getsockopt fd level optname room s))).
Proof.
  intros I. unfold getsockopt. destruct (socket_get fd s) as [i|]; [|cbn [fst]; sock]. destruct room as [n|]; [|cbn [fst]; sock]. cbn zeta.
  destruct (level =? SOL_SOCKET); [|cbn [fst]; sock]. repeat (case_if; [destruct (sizeof_int <=? n); cbn [fst]; sock|]). cbn [fst]; sock.
Qed.
Lemma deliver_inv sock data a s : ports_inv s -> ports_inv (fst (socket_deliver sock data a s)).
Proof.
  intros I. unfold socket_deliver. destruct sock as [i|]; [|done]. destruct data as [[|x l]|]; [done| |done].
  set (s1 := match a with Some _ => _ | None => _ end). assert (ports_inv s1) as I1 by (unfold s1; destruct a; [destruct (_ =? _); sock|done]).
  destruct (socket_buffer_write _ _) as [b n]. cbn zeta. destruct (0 <? n); cbn [fst]; sock.
Qed.

(** A call of the interface; [CTcp] stands for anything that happens in the layer below:
    segments that arrive, timers. *)
Inductive socket_call :=
| CSocket (domain type protocol : Z) | CBind (fd : Z) (sin : sockaddr_in) (addrlen : Z) | CListen (fd backlog : Z) | CAccept (fd : Z) (room : option Z)
| CConnect (fd : Z) (sin : sockaddr_in) (addrlen : Z) | CSend (fd : Z) (buf : option (list Z)) (flags : Z)
| CSendto (fd : Z) (buf : option (list Z)) (flags : Z) (dest : option (sockaddr_in * Z)) | CRecv (fd buf len flags : Z)
| CRecvfrom (fd buf len flags : Z) (room : option Z) | CClose (fd : Z) | CShutdown (fd how : Z) | CSetsockopt (fd level optname : Z) (v : option Z) (len : Z)
| CGetsockopt (fd level optname : Z) (room : option Z) | CGetsockname (fd : Z) (room : option Z) | CGetpeername (fd : Z) (room : option Z)
| CDeliver (sock : option Z) (data : option (list Z)) (src : option sockaddr_in) | CTcp (f : tcp H -> tcp H).
Definition run_socket s (c : socket_call) : sockets H :=
  match c with
  | CSocket d t p => fst (socket fresh d t p s)
  | CBind fd a n => fst (bind fd a n s)
  | CListen fd n => fst (listen fd n s)
  | CAccept fd room => fst (fst (accept hw_result fresh fd room s))
  | CConnect fd a n => fst (connect hw_result fresh fd a n s)
  | CSend fd buf flags => fst (send hw_result fresh fd buf flags s)
  | CSendto fd buf flags dest => fst (sendto hw_result fresh fd buf flags dest s)
  | CRecv fd buf len flags => fst (fst (fst (recv fd buf len flags s)))
  | CRecvfrom fd buf len flags room => fst (fst (fst (recvfrom fd buf len flags room s)))
  | CClose fd => fst (socket_close hw_result fresh fd s)
  | CShutdown fd how => fst (shutdown hw_result fresh fd how s)
  | CSetsockopt fd level optname v len => fst (setsockopt fd level optname v len s)
  | CGetsockopt fd level optname room => fst (fst (getsockopt fd level optname room s))
  | CGetsockname fd room => fst (fst (getsockname fd room s))
  | CGetpeername fd room => fst (fst (getpeername fd room s))
  | CDeliver k data src => fst (socket_deliver k data src s)
  | CTcp f => set_so_tcp (f (so_tcp s)) s
  end.
(** The port of an address has 16 bits, and nobody sets SO_REUSEADDR. *)
Definition exclusive_call (c : socket_call) : Prop :=
  match c with CBind _ a _ => 0 <= sin_port a < 65536 | CSetsockopt _ _ optname _ _ => optname <> SO_REUSEADDR | _ => True end.

Lemma call_inv s c : exclusive_call c -> ports_inv s -> ports_inv (run_socket s c).
Proof.
  intros Hc I. destruct c; cbn [run_socket].
  - by apply socket_inv.
  - by apply bind_inv.
  - by apply listen_inv.
  - by apply socket_accept_inv.
  - by apply connect_inv.
  - apply send_with_inv; [|done]. intros. apply sendto_with_inv; [|done]. done.
  - apply sendto_with_inv; [|done]. intros. apply send_with_inv; [|done]. done.
  - apply recv_with_inv; [|done]. intros. apply recvfrom_with_inv; [|done]. done.
  - apply recvfrom_with_inv; [|done]. intros. apply recv_with_inv; [|done]. done.
  - by apply close_inv.
  - by apply shutdown_inv.
  - by apply setopt_inv.
  - by apply getopt_inv.
  - unfold getsockname. destruct (socket_get _ _); [destruct (give_addr _ _)|]; cbn [fst]; sock.
  - unfold getpeername. destruct (socket_get _ _); [cbn zeta; repeat (destruct (negb _); [cbn [fst]; sock|]); destruct (give_addr _ _)|]; cbn [fst]; sock.
  - by apply deliver_inv.
  - by apply inv_tcp.
Qed.

Lemma run_inv s calls : Forall exclusive_call calls -> ports_inv s -> ports_inv (foldl run_socket s calls).
Proof. intros Hc. revert s. induction Hc as [|c calls Hc _ IH]; intros s I; [done|]. cbn [foldl]. by apply IH, call_inv. Qed.

(** C39: in every sequence of calls on a fresh table, with any traffic below, two different
    sockets of the same type that were bound by a call of their own, by hand or
    automatically, never have the same port, as long as SO_REUSEADDR is not used. *)
Theorem socket_ports_exclusive s calls i j : socket_initialized s = false -> 0 <= next_ephemeral s < 65536 -> Forall exclusive_call calls ->
  let s' := foldl run_socket (socket_init s) calls in
  let bound k := so_in_use k = true /\ so_bound k = true /\ so_parent k = None in
  0 <= i < SOCKET_MAX_COUNT -> 0 <= j < SOCKET_MAX_COUNT -> i <> j -> bound (socket_table s' i) -> bound (socket_table s' j) ->
  so_type (socket_table s' i) = so_type (socket_table s' j) -> port_of (socket_table s' i) <> port_of (socket_table s' j).
Proof.
  intros Hi Hn Hc s' bd Ri Rj Hne (U1 & B1 & P1) (U2 & B2 & P2) Et Ep. assert (ports_inv s') as I.
  { apply run_inv; [done|]. unfold socket_init. rewrite Hi. by split. }
  apply Hne, (pi_excl s' I i j (so_type (socket_table s' i), port_of (socket_table s' i))); [done|done| |].
  - unfold claim. by rewrite U1, B1, P1.
  - unfold claim. by rewrite U2, B2, P2, Et, Ep.
Qed.

(** ** Descriptors *)

(** [n] sockets are open and none was ever closed: slot and descriptor agree. *)
Record fds_inv (n : Z) s : Prop := mk_fds_inv {
  fi_next : next_socket_fd s = SOCKET_FD_BASE + n; fi_range : 0 <= n <= SOCKET_MAX_COUNT;
  fi_slots : forall i, 0 <= i < SOCKET_MAX_COUNT -> so_in_use (socket_table s i) = (i <? n);
  fi_fds : forall i, 0 <= i < n -> so_fd (socket_table s i) = SOCKET_FD_BASE + i }.
(** Slots and descriptors are the same in both states. *)
Definition same_slots s s' : Prop := next_socket_fd s' = next_socket_fd s /\ forall i, so_in_use (socket_table s' i) = so_in_use (socket_table s i) /\ so_fd (socket_table s' i) = so_fd (socket_table s i).
Lemma same_slots_inv n s s' : same_slots s s' -> fds_inv n s -> fds_inv n s'.
Proof. intros [E1 E2] [I1 I2 I3 I4]. split; [by rewrite E1|done|intros i Hi; rewrite (proj1 (E2 i)); auto|intros i Hi; rewrite (proj2 (E2 i)); auto]. Qed.
Lemma same_slots_on i f s : (forall k, so_in_use (f k) = so_in_use k /\ so_fd (f k) = so_fd k) -> same_slots s (on_socket i f s).
Proof. intros Hf. split; [done|]. intros j. rewrite table_on_socket. destruct (Z.eqb_spec j i) as [->|]; [apply Hf|done]. Qed.
Lemma same_slots_trans s s1 s2 : same_slots s s1 -> same_slots s1 s2 -> same_slots s s2.
Proof. intros [E1 E2] [E3 E4]. split; [congruence|]. intros i. destruct (E2 i), (E4 i). split; congruence. Qed.
Lemma buffers_slots i s : same_slots s (fst (init_buffers fresh i s)).
Proof.
  unfold init_buffers. destruct (socket_buffer_init _ _ _ _) as [[b h] r]. cbn zeta. set (s1 := on_socket i _ _).
  assert (same_slots s s1) as E1 by (apply (same_slots_on i (set_so_send_buffer b) (set_so_heap h s)); done).
  destruct (r <? 0); [done|]. destruct (socket_buffer_init _ _ _ _) as [[b' h'] r']. apply (same_slots_trans s s1); [done|].
  apply (same_slots_on i (set_so_recv_buffer b') (set_so_heap h' s1)). done.
Qed.
(** What a successful [socket] does to the slots. *)
Lemma socket_slots domain type protocol s s' fd : socket fresh domain type protocol s = (s', fd) -> fd <> -1 ->
  exists i s1, socket_alloc s = (s1, Some i) /\ same_slots s1 s' /\ fd = so_fd (socket_table s1 i).
Proof.
  intros E Hfd. unfold socket in E. destruct (negb (domain =? _)); [by injection E as _ <-|]. destruct (negb _ && negb _ && negb _); [by injection E as _ <-|]. cbn zeta in E.
  do 2 (destruct (_ && negb _); [by injection E as _ <-|]). destruct (socket_alloc s) as [s1 [i|]]; [|by injection E as _ <-]. exists i, s1. split; [done|].
  set (s2 := on_socket i _ s1) in E. assert (same_slots s1 s2) as E1 by (by apply same_slots_on). pose proof (same_slots_trans _ _ _ E1 (buffers_slots i s2)) as E2.
  destruct (init_buffers fresh i s2) as [s3 ok]. cbn [fst] in E2. destruct ok; cbn [negb] in E; [|by injection E as _ <-]. destruct (type =? SOCK_STREAM).
  - destruct (tcp_socket_create _ _) as [t p]. destruct (p =? NULL); [by injection E as _ <-|]. injection E as <- <-. assert (same_slots s1 (on_socket i (set_so_proto p) (set_so_tcp t s3))) as E3.
    { apply (same_slots_trans s1 s3); [done|]. by apply (same_slots_on i (set_so_proto p) (set_so_tcp t s3)). }
    split; [done|]. by destruct (proj2 E3 i).
  - injection E as <- <-. split; [done|]. by destruct (proj2 E2 i).
Qed.
(** The next slot is the next descriptor, and the descriptor leads to it. *)
Lemma socket_next_fd n domain type protocol s s' fd : fds_inv n s -> socket fresh domain type protocol s = (s', fd) -> fd <> -1 ->
  fd = SOCKET_FD_BASE + n /\ fds_inv (n + 1) s' /\ socket_get fd s' = Some n.
Proof.
  intros [I1 I2 I3 I4] E Hfd. destruct (socket_slots _ _ _ _ _ _ E Hfd) as (i & s1 & Ea & Es & ->). destruct (alloc_some _ _ _ Ea) as (Hi & Hu & Hb & ->).
  rewrite I3 in Hu by done. zbool. assert (i = n) as ->.
  { destruct (Z.lt_total i n) as [?|[?|Hlt]]; [lia|done|]. specialize (Hb n ltac:(lia)). rewrite I3 in Hb by lia. zbool. lia. }
  assert (fds_inv (n + 1) s') as I'.
  { apply (same_slots_inv _ _ _ Es). split; cbn; [lia|lia| |].
    - intros j Hj. unfold upd. destruct (Z.eqb_spec j n) as [->|]; [symmetry; apply Z.ltb_lt; lia|]. rewrite I3 by done. destruct (Z.ltb_spec j n), (Z.ltb_spec j (n + 1)); lia || done.
    - intros j Hj. unfold upd. destruct (Z.eqb_spec j n) as [->|]; [done|]. apply I4. lia. }
  cbn. rewrite upd_same. cbn. rewrite I1. split; [done|]. split; [done|]. unfold socket_get, fd_to_index. replace (SOCKET_FD_BASE + n - SOCKET_FD_BASE) with n by lia.
  rewrite (proj2 (Z.ltb_ge n 0)), (proj2 (Z.leb_gt SOCKET_MAX_COUNT n)) by lia. cbn [orb]. rewrite (proj2 (Z.ltb_ge n 0)) by lia. rewrite (fi_slots _ _ I') by lia. by rewrite (proj2 (Z.ltb_lt n (n + 1))) by lia.
Qed.
(** Once a socket has been closed, the next one gets a descriptor that leads nowhere. *)
Lemma socket_reopened_lost n fd domain type protocol s s1 s' fd' : fds_inv n s -> n < SOCKET_MAX_COUNT -> socket_close hw_result fresh fd s = (s1, 0) ->
  socket fresh domain type protocol s1 = (s', fd') -> fd' <> -1 -> socket_get fd' s' = None.
Proof.
  intros [I1 I2 I3 I4] Hn Ec E Hfd. unfold socket_close in Ec. destruct (socket_get fd s) as [i|] eqn:Eg; [|done]. apply get_some in Eg as [Hi Hu]. rewrite I3 in Hu by done. zbool.
  injection Ec as Ec. assert (next_socket_fd s1 = SOCKET_FD_BASE + n /\ (forall j, 0 <= j < SOCKET_MAX_COUNT -> so_in_use (socket_table s1 j) = (j <? n) && negb (j =? i))) as [N1 U1].
  { subst s1. unfold socket_free. cbn zeta. destruct (socket_buffer_free _ _) as [b1 h1]. destruct (socket_buffer_free _ _) as [b2 h2].
    split; [repeat case_match; done|]. intros j Hj. rewrite table_on_socket. destruct (Z.eqb_spec j i) as [->|]; [by rewrite andb_false_r|]. cbn [negb]. rewrite andb_true_r, <- I3 by done.
    transitivity (so_in_use (socket_table (on_socket i (set_so_state SOCKET_STATE_CLOSED) s) j)); [by repeat case_match|]. rewrite table_on_socket. by rewrite (proj2 (Z.eqb_neq j i)). }
  destruct (socket_slots _ _ _ _ _ _ E Hfd) as (k & s2 & Ea & Es & ->). destruct (alloc_some _ _ _ Ea) as (Hk & Hu1 & Hb & ->). cbn. rewrite upd_same. cbn. rewrite N1.
  assert (k = i) as ->.
  { rewrite U1 in Hu1 by done. destruct (Z.eqb_spec k i) as [|Nk]; [done|]. cbn [negb] in Hu1. rewrite andb_true_r in Hu1. zbool. specialize (Hb i ltac:(lia)). rewrite U1, Z.eqb_refl, andb_false_r in Hb by done. done. }
  unfold socket_get, fd_to_index. replace (SOCKET_FD_BASE + n - SOCKET_FD_BASE) with n by lia. rewrite (proj2 (Z.ltb_ge n 0)), (proj2 (Z.leb_gt SOCKET_MAX_COUNT n)) by lia. cbn [orb].
  rewrite (proj2 (Z.ltb_ge n 0)) by lia. rewrite (proj1 (proj2 Es n)). cbn. unfold upd. rewrite (proj2 (Z.eqb_neq n i)) by lia. rewrite U1 by lia. by rewrite Z.ltb_irrefl.
Qed.

(** ** Receive buffers *)

(** The buffer as one of TCP's, which writes at its head. *)
Definition as_ring (b : socket_buffer) : tcp_ring_buffer := mk_ring (sb_ptr b) (sb_data b) (sb_capacity b) (sb_tail b) (sb_head b) (sb_count b).
Definition of_ring (rb : tcp_ring_buffer) : socket_buffer := mk_sbuf (rb_buffer rb) (rb_data rb) (rb_size rb) (rb_tail rb) (rb_head rb) (rb_used rb).
Definition buffer_ok (b : socket_buffer) : Prop := sb_ptr b <> NULL /\ ring_ok (as_ring b).
Definition buffer_bytes (b : socket_buffer) : list Z := rb_contents (as_ring b).
Definition buffer_room (b : socket_buffer) : nat := ring_room (as_ring b).

Lemma write_as_ring b l : buffer_ok b -> l <> [] -> socket_buffer_write b l = (of_ring (fst (ring_buffer_write (as_ring b) l)), snd (ring_buffer_write (as_ring b) l)).
Proof.
  intros [Hp [Hs Hu Ht Hh]] Hl. cbn in Hs, Hu, Ht, Hh. unfold socket_buffer_write, ring_buffer_write, ring_buffer_space. cbn [as_ring rb_size rb_used rb_data rb_head].
  rewrite (proj2 (Z.eqb_neq _ _) Hp). destruct (Z.eqb_spec (Z.of_nat (length l)) 0) as [E|_]; [destruct l; [done|cbn in E; lia]|]. cbn [orb]. set (a := u64 _).
  assert ((if a <? Z.of_nat (length l) then a else Z.of_nat (length l)) = Z.min (Z.of_nat (length l)) a) as -> by (destruct (Z.ltb_spec a (Z.of_nat (length l))); lia).
  by destruct (ring_in _ _ _ _) as [d tl].
Qed.
Lemma buffer_write_ok b l : buffer_ok b -> let '(b', n) := socket_buffer_write b l in
  buffer_ok b' /\ n = Z.of_nat (min (length l) (buffer_room b)) /\ buffer_bytes b' = buffer_bytes b ++ take (Z.to_nat n) l.
Proof.
  intros Hb. destruct (decide (l = [])) as [->|Hl].
  { unfold socket_buffer_write. rewrite orb_true_r. by rewrite take_nil, app_nil_r. }
  rewrite write_as_ring by done. destruct Hb as [Hp Hr]. pose proof (ring_write_ok (as_ring b) l Hr) as Hw. destruct (ring_buffer_write (as_ring b) l) as [rb n].
  destruct Hw as (Hr' & _ & Hb' & Hn & _ & Hc). destruct Hr as [Hs Hu _ _]. cbn [fst snd] in *. cbn in Hn, Hb', Hs, Hu. destruct rb. split; [split; [cbn in *; by rewrite Hb'|done]|].
  assert (n = Z.of_nat (length l `min` buffer_room b)) as En by (unfold buffer_room, ring_room; cbn; lia). split; [done|]. unfold buffer_bytes. change (as_ring (of_ring ?x)) with x. rewrite Hc. f_equal.
  rewrite En, Nat2Z.id. unfold buffer_room. destruct (Nat.min_spec (length l) (ring_room (as_ring b))) as [[? ->]|[? ->]]; [|done]. by rewrite !take_ge by lia.
Qed.
Lemma buffer_read_ok b len peek : buffer_ok b -> 0 <= len -> let '(b', l, n) := socket_buffer_read b len peek in
  buffer_ok b' /\ n = Z.of_nat (length l) /\ l = take (Z.to_nat len) (buffer_bytes b) /\ buffer_bytes b' = if peek then buffer_bytes b else drop (Z.to_nat len) (buffer_bytes b).
Proof.
  intros [Hp Hr] Hl. unfold socket_buffer_read. rewrite (proj2 (Z.eqb_neq _ _) Hp). cbn [orb]. pose proof (length_rb_contents (as_ring b)) as Hlen. cbn in Hlen. fold (buffer_bytes b) in Hlen.
  destruct Hr as [Hs Hu Ht Hh] eqn:Er. clear Er. cbn in Hs, Hu, Ht, Hh.
  destruct (Z.eqb_spec (sb_count b) 0) as [E0|E0]; cbn [orb].
  { assert (buffer_bytes b = []) as E by (apply nil_length_inv; lia). rewrite E, take_nil, drop_nil. by destruct peek. }
  destruct (Z.eqb_spec len 0) as [->|E1]; [by destruct peek|].
  pose proof (ring_read_ok (as_ring b) len ltac:(done) Hl) as Hrd. unfold ring_buffer_read, ring_buffer_used in Hrd. cbn [as_ring rb_used rb_size rb_data rb_tail rb_buffer rb_head] in Hrd.
  assert ((if len <? sb_count b then len else sb_count b) = Z.min len (sb_count b)) as -> by (destruct (Z.ltb_spec len (sb_count b)); lia).
  destruct (ring_out _ _ _ _) as [l hd]. destruct Hrd as (Hr' & _ & _ & Hn & _ & Ht' & Hd' & _). split; [by destruct peek|]. split; [done|]. split; [done|]. by destruct peek.
Qed.

Definition received s i : list Z := buffer_bytes (so_recv_buffer (socket_table s i)).
(** A datagram socket with its buffer, as descriptor [fd]. *)
Definition dgram_socket fd i s : Prop := socket_get fd s = Some i /\ so_type (socket_table s i) = SOCK_DGRAM /\ buffer_ok (so_recv_buffer (socket_table s i)).
Lemma dgram_on fd i f s : dgram_socket fd i s -> (forall k, so_in_use (f k) = so_in_use k /\ so_type (f k) = so_type k) -> buffer_ok (so_recv_buffer (f (socket_table s i))) ->
  dgram_socket fd i (on_socket i f s).
Proof.
  intros (E1 & E2 & E3) Hf Hb. split; [|rewrite table_on_socket, Z.eqb_refl; split; [by rewrite (proj2 (Hf _))|done]].
  rewrite (get_frame fd s); [done|]. intros j. rewrite table_on_socket. destruct (Z.eqb_spec j i) as [->|]; [apply Hf|done].
Qed.
Lemma socket_deliver_ok fd i data src s : dgram_socket fd i s -> data <> [] -> let '(s', n) := socket_deliver (Some i) (Some data) src s in
  dgram_socket fd i s' /\ n = Z.of_nat (min (length data) (buffer_room (so_recv_buffer (socket_table s i)))) /\ received s' i = received s i ++ take (Z.to_nat n) data /\
  so_remote (socket_table s' i) = default (so_remote (socket_table s i)) src.
Proof.
  intros D Hd. unfold socket_deliver. destruct data as [|x l]; [done|]. set (s1 := match src with Some _ => _ | None => _ end).
  assert (dgram_socket fd i s1 /\ so_recv_buffer (socket_table s1 i) = so_recv_buffer (socket_table s i) /\ so_remote (socket_table s1 i) = default (so_remote (socket_table s i)) src) as (D1 & Eb & Er).
  { unfold s1. destruct src as [a|]; [|done]. rewrite (proj1 (proj2 D)). cbn. destruct D as (? & ? & ?). rewrite upd_same. split; [|done]. apply (dgram_on fd i (set_so_remote a)); done. }
  pose proof (buffer_write_ok (so_recv_buffer (socket_table s1 i)) (x :: l) (proj2 (proj2 D1))) as Hw. destruct (socket_buffer_write _ _) as [b n]. destruct Hw as (Hb & Hn & Hc). cbn zeta.
  assert (dgram_socket fd i (on_socket i (set_so_recv_buffer b) s1)) as D2 by (by apply dgram_on). rewrite Eb in Hn, Hc.
  unfold received. destruct (0 <? n); rewrite ?table_on_socket, ?Z.eqb_refl; (split; [|by split]); [by apply dgram_on; [| |apply D2]|done].
Qed.
Lemma recvfrom_ok fd i buf len flags room s : dgram_socket fd i s -> buf <> NULL -> 0 < len -> received s i <> [] ->
  let '(s', n, l, a) := recvfrom fd buf len flags room s in dgram_socket fd i s' /\ n = Z.of_nat (length l) /\ l = take (Z.to_nat len) (received s i) /\
    received s' i = (if flag_on flags MSG_PEEK then received s i else drop (Z.to_nat len) (received s i)) /\ a = give_addr room (so_remote (socket_table s i)).
Proof.
  intros D Hb Hl Hne. destruct D as (E1 & E2 & E3) eqn:ED. clear ED. unfold recvfrom, recvfrom_with. rewrite E1, E2. cbn zeta. rewrite (proj2 (Z.eqb_neq buf NULL)), (proj2 (Z.eqb_neq len 0)) by (done || lia). cbn [orb].
  change (SOCK_DGRAM =? SOCK_DGRAM) with true. cbn iota. pose proof (buffer_read_ok (so_recv_buffer (socket_table s i)) len (flag_on flags MSG_PEEK) E3 ltac:(lia)) as Hr.
  destruct (socket_buffer_read _ _ _) as [[b l] n]. destruct Hr as (Hb' & Hn & Hlt & Hc). fold (received s i) in Hlt, Hc.
  assert (0 < n) as Hpos. { rewrite Hn, Hlt, length_take. destruct (received s i); [done|]. cbn. lia. }
  rewrite (proj2 (Z.eqb_neq n 0)), (proj2 (Z.ltb_lt 0 n)) by lia.
  assert (dgram_socket fd i (on_socket i (set_so_recv_buffer b) s)) as D2 by (by apply dgram_on). split; [by apply dgram_on; [| |apply D2]|].
  do 2 (split; [done|]). split; [|done]. unfold received. rewrite !table_on_socket, !Z.eqb_refl. done.
Qed.
Lemma recvfrom_nothing fd i buf len flags room s : dgram_socket fd i s -> received s i = [] \/ buf = NULL \/ len = 0 -> 0 <= len ->
  let '(s', n, l, a) := recvfrom fd buf len flags room s in dgram_socket fd i s' /\ l = [] /\ received s' i = received s i.
Proof.
  intros D Hz Hl. destruct D as (E1 & E2 & E3) eqn:ED. clear ED. unfold recvfrom, recvfrom_with. rewrite E1, E2. cbn zeta. destruct (_ || _) eqn:Eo; [done|].
  change (SOCK_DGRAM =? SOCK_DGRAM) with true. cbn iota. pose proof (buffer_read_ok (so_recv_buffer (socket_table s i)) len (flag_on flags MSG_PEEK) E3 Hl) as Hr.
  destruct (socket_buffer_read _ _ _) as [[b l] n]. destruct Hr as (Hb' & Hn & Hlt & Hc). fold (received s i) in Hlt, Hc.
  destruct Hz as [Hz|Hz]; [|exfalso; apply orb_false_iff in Eo as [Eo1 Eo2]; zbool; destruct Hz; done]. rewrite Hz, take_nil in Hlt. subst l. cbn in Hn. subst n. cbn [Z.eqb].
  assert (dgram_socket fd i (on_socket i (set_so_recv_buffer b) s)) as D2 by (by apply dgram_on). change (0 =? 0) with true. cbn iota.
  assert (received (on_socket i (set_so_recv_buffer b) s) i = received s i) as E. { unfold received at 1. rewrite table_on_socket, Z.eqb_refl. cbn. rewrite Hc, Hz, drop_nil. by destruct (flag_on _ _). }
  destruct (flag_on (so_flags _) _); cbn; done.
Qed.

Inductive queue_op := QDeliver (data : list Z) (src : option sockaddr_in) | QRecv (buf len flags : Z) (room : option Z).
Definition queue_op_ok (o : queue_op) : Prop := match o with QDeliver data _ => data <> [] | QRecv _ len _ _ => 0 <= len end.
(** The state, the bytes that were accepted and the bytes that were taken. *)
Definition run_queue (fd i : Z) (st : sockets H * list Z * list Z) (o : queue_op) : sockets H * list Z * list Z :=
  let '(s, accepted, taken) := st in
  match o with
  | QDeliver data src => let '(s, n) := socket_deliver (Some i) (Some data) src s in (s, accepted ++ take (Z.to_nat n) data, taken)
  | QRecv buf len flags room => let '(s, n, l, _) := recvfrom fd buf len flags room s in (s, accepted, if flag_on flags MSG_PEEK then taken else taken ++ l)
  end.

(** a datagram socket is a queue of bytes: for every sequence of deliveries and receive
    calls, what was in the buffer followed by what was accepted is what was taken followed
    by what is in the buffer; peeking takes nothing. *)
Theorem socket_bytes_fifo fd i ops s : dgram_socket fd i s -> Forall queue_op_ok ops ->
  let '(s', accepted, taken) := foldl (run_queue fd i) (s, [], []) ops in dgram_socket fd i s' /\ received s i ++ accepted = taken ++ received s' i.
Proof.
  clear hw_result fresh.
  intros D Ho. assert (forall st, dgram_socket fd i (fst (fst st)) -> received s i ++ snd (fst st) = snd st ++ received (fst (fst st)) i ->
    let '(s', accepted, taken) := foldl (run_queue fd i) st ops in dgram_socket fd i s' /\ received s i ++ accepted = taken ++ received s' i) as Hg; [|by apply Hg; [|rewrite app_nil_r]].
  clear D. induction Ho as [|o ops Ho _ IH]; intros [[s1 acc] tk] D E; cbn [fst snd] in *; [done|]. cbn [foldl]. apply IH; clear IH.
  - destruct o as [data src|buf len flags room]; cbn [run_queue].
    + pose proof (socket_deliver_ok fd i data src s1 D Ho) as Hd. destruct (socket_deliver _ _ _ _) as [s2 n]. apply Hd.
    + destruct (decide (received s1 i = [] \/ buf = NULL \/ len = 0)) as [Hz|Hz].
      * pose proof (recvfrom_nothing fd i buf len flags room s1 D Hz Ho) as Hr. destruct (recvfrom _ _ _ _ _ _) as [[[s2 n] l] a]. apply Hr.
      * pose proof (recvfrom_ok fd i buf len flags room s1 D ltac:(tauto) ltac:(cbn in Ho; lia) ltac:(tauto)) as Hr. destruct (recvfrom _ _ _ _ _ _) as [[[s2 n] l] a]. apply Hr.
  - destruct o as [data src|buf len flags room]; cbn [run_queue].
    + pose proof (socket_deliver_ok fd i data src s1 D Ho) as Hd. destruct (socket_deliver _ _ _ _) as [s2 n]. destruct Hd as (_ & _ & Hc & _). cbn [fst snd]. by rewrite Hc, !app_assoc, E.
    + destruct (decide (received s1 i = [] \/ buf = NULL \/ len = 0)) as [Hz|Hz].
      * pose proof (recvfrom_nothing fd i buf len flags room s1 D Hz Ho) as Hr. destruct (recvfrom _ _ _ _ _ _) as [[[s2 n] l] a]. destruct Hr as (_ & -> & Hc). cbn [fst snd]. rewrite Hc, app_nil_r. by destruct (flag_on _ _).
      * pose proof (recvfrom_ok fd i buf len flags room s1 D ltac:(tauto) ltac:(cbn in Ho; lia) ltac:(tauto)) as Hr. destruct (recvfrom _ _ _ _ _ _) as [[[s2 n] l] a]. destruct Hr as (_ & _ & Hl & Hc & _). cbn [fst snd]. rewrite Hc.
        destruct (flag_on _ _); [done|]. by rewrite <- app_assoc, Hl, take_drop.
Qed.

(** ** Faults *)

(** Two datagrams are read as one, with the address of the second. *)
Lemma socket_datagrams_merge fd i d1 d2 a1 a2 buf s : dgram_socket fd i s -> received s i = [] -> d1 <> [] -> d2 <> [] -> buf <> NULL ->
  (length d1 + length d2 <= buffer_room (so_recv_buffer (socket_table s i)))%nat ->
  let s1 := fst (socket_deliver (Some i) (Some d1) (Some a1) s) in
  let s2 := fst (socket_deliver (Some i) (Some d2) (Some a2) s1) in
  buffer_room (so_recv_buffer (socket_table s1 i)) = (buffer_room (so_recv_buffer (socket_table s i)) - length d1)%nat ->
  exists s3, recvfrom fd buf (Z.of_nat (length d1 + length d2)) 0 (Some sizeof_sockaddr_in) s2 = (s3, Z.of_nat (length d1 + length d2), d1 ++ d2, Some a2).
Proof.
  intros D Hr N1 N2 Hb Hl s1 s2 Hroom. pose proof (socket_deliver_ok fd i d1 (Some a1) s D N1) as H1. unfold s2, s1 in *. destruct (socket_deliver _ (Some d1) _ s) as [x1 n1]. cbn [fst] in *. destruct H1 as (D1 & En1 & R1 & _).
  pose proof (socket_deliver_ok fd i d2 (Some a2) x1 D1 N2) as H2. destruct (socket_deliver _ (Some d2) _ x1) as [x2 n2]. cbn [fst] in *. destruct H2 as (D2 & En2 & R2 & A2).
  rewrite Hroom in En2. rewrite R1, Hr in R2. rewrite En1, Nat2Z.id, take_ge in R2 by lia. rewrite En2, Nat2Z.id, take_ge in R2 by lia. cbn [app] in R2.
  assert (received x2 i <> []) as Hne by (rewrite R2; by destruct d1).
  pose proof (recvfrom_ok fd i buf (Z.of_nat (length d1 + length d2)) 0 (Some sizeof_sockaddr_in) x2 D2 Hb ltac:(destruct d1; [done|cbn; lia]) Hne) as H3.
  destruct (recvfrom _ _ _ _ _ _) as [[[s3 n] l] a]. destruct H3 as (_ & -> & -> & _ & ->). exists s3. rewrite Nat2Z.id, take_ge by (rewrite R2, length_app; lia). rewrite R2, length_app, A2. done.
Qed.
(** A socket whose TCP socket is closed, listening or connecting is destroyed twice. *)
Lemma socket_close_destroys_twice fd i s : socket_get fd s = Some i -> let k := socket_table s i in
  so_type k = SOCK_STREAM -> so_proto_data k <> NULL -> sk_state (tc_sock (so_tcp s) (so_proto_data k)) = TCP_STATE_LISTEN ->
  let t1 := tcp_socket_destroy (so_proto_data k) (tcp_set_state (so_proto_data k) TCP_STATE_CLOSED (so_tcp s)) in
  exists h, so_tcp (fst (socket_close hw_result fresh fd s)) = tcp_socket_destroy (so_proto_data k) (set_theap h t1).
Proof.
  intros Hg k Ht Hp Hs t1. unfold socket_close. rewrite Hg. cbn zeta. fold k. rewrite Ht. change (SOCK_STREAM =? SOCK_STREAM) with true. rewrite (proj2 (Z.eqb_neq _ _) Hp). cbn [andb negb fst].
  unfold tcp_close. rewrite (proj2 (Z.eqb_neq _ _) Hp), Hs. cbn [fst]. unfold socket_free. cbn. rewrite upd_same. cbn. fold k. rewrite Ht. change (SOCK_STREAM =? SOCK_STREAM) with true.
  rewrite (proj2 (Z.eqb_neq _ _) Hp). cbn. by eexists.
Qed.
(** [connect] reports success while the handshake has only begun, and [send] then fails. *)
Lemma tcp_connect_syn_sent p ip port (t t' : tcp H) : tcp_connect hw_result fresh p ip port t = (t', TCP_OK) -> sk_state (tc_sock t' p) = TCP_STATE_SYN_SENT.
Proof.
  unfold tcp_connect. destruct (p =? NULL); [done|]. destruct (negb _); [done|]. destruct (if bound _ then _ else _) as [t1 r]. destruct (negb (r =? TCP_OK)) eqn:Er; [intros [= _ E]; rewrite E in Er; done|].
  cbn zeta. destruct (tcp_generate_isn _) as [t2 isn]. set (t3 := tcp_set_state p TCP_STATE_SYN_SENT _). assert (sk_state (tc_sock t3 p) = TCP_STATE_SYN_SENT) as E3 by (unfold t3; apply set_state_state).
  pose proof (send_segment_state hw_result fresh p TCP_FLAG_SYN [] t3 p) as Es. destruct (tcp_send_segment _ _ _ _ _ _) as [t4 r4]. cbn [fst] in Es.
  destruct (r4 =? 0) eqn:E4; cbn [negb]; [intros [= <-]; by rewrite Es|intros [= _ E]; by rewrite E in E4].
Qed.
(** The first 16384 ephemeral ports can be given out; then the counter wraps to 0, which is
    taken for a failure, and to the well-known ports. *)
Lemma socket_ephemeral_wraps type s : next_ephemeral s = 0 -> port_in_use 0 type s = false -> allocate_ephemeral_port type s = (set_next_ephemeral 1 s, 0).
Proof.
  intros E1 E2. unfold allocate_ephemeral_port. assert (ephemeral_attempt type s = inr (set_next_ephemeral 1 s, 0)) as Ea.
  { unfold ephemeral_attempt. rewrite E1. cbn zeta. change (u16 (0 + 1)) with 1. change (65535 <? 1) with false. cbn iota. assert (port_in_use 0 type (set_next_ephemeral 1 s) = false) as -> by done. done. }
  rewrite (while_pos_enough (ephemeral_attempt type) 16384 1 s (set_next_ephemeral 1 s, 0)); [done| |lia]. cbn. by rewrite Ea.
Qed.
End Calls.

(** ** Addresses as text *)

Lemma aton_digits g s r o dots k : Forall digit g -> 0 <= o -> number o g <= 255 -> aton_loop (g ++ s) r o dots k = aton_loop s r (number o g) dots (k + Z.of_nat (length g)).
Proof.
  revert o k. induction g as [|c g IH]; intros o k Hg Ho Hn; [cbn; by rewrite Z.add_0_r|]. apply Forall_cons in Hg as [Hc Hg]. pose proof Hc as Hc'. unfold digit in Hc'.
  change (number o (c :: g)) with (number (o * 10 + (c - CHAR_0)) g) in *. pose proof (number_le (o * 10 + (c - CHAR_0)) g Hg ltac:(unfold CHAR_0 in *; lia)). cbn [app aton_loop].
  rewrite (proj2 (Z.leb_le CHAR_0 c)), (proj2 (Z.leb_le c CHAR_9)) by lia. cbn [andb]. rewrite (proj2 (Z.ltb_ge 255 _)) by lia. rewrite IH; [|done|unfold CHAR_0 in *; lia|done]. f_equal. cbn. lia.
Qed.
Lemma octet_chars_length v : 0 < Z.of_nat (length (octet_chars v)).
Proof. unfold octet_chars. repeat case_if; cbn; lia. Qed.
(** One octet with the dot behind it. *)
Lemma aton_octet v s r dots : 0 <= v <= 255 -> dots < 3 -> aton_loop (octet_chars v ++ [CHAR_DOT] ++ s) r 0 dots 0 = aton_loop s (Z.lor (u32 (Z.shiftl r 8)) v) 0 (dots + 1) 0.
Proof.
  intros Hv Hd. destruct (octet_chars_ok v Hv) as [Hg Hn]. rewrite aton_digits; [|done|lia|lia]. rewrite Hn. cbn [app aton_loop]. change ((CHAR_0 <=? CHAR_DOT) && (CHAR_DOT <=? CHAR_9)) with false.
  pose proof (octet_chars_length v). rewrite Z.eqb_refl, (proj2 (Z.eqb_neq _ 0)), (proj2 (Z.leb_gt 3 dots)) by lia. done.
Qed.
Lemma aton_last v r : 0 <= v <= 255 -> aton_loop (octet_chars v) r 0 3 0 = Some (htonl (Z.lor (u32 (Z.shiftl r 8)) v)).
Proof.
  intros Hv. destruct (octet_chars_ok v Hv) as [Hg Hn]. rewrite <- (app_nil_r (octet_chars v)), aton_digits; [|done|lia|lia]. rewrite Hn. cbn [aton_loop]. pose proof (octet_chars_length v).
  by rewrite (proj2 (Z.eqb_neq _ 0)) by lia.
Qed.
(** every address is printed as text that is read back as the same address. *)
Theorem inet_text_roundtrip addr : 0 <= addr < 2 ^ 32 -> inet_aton (inet_ntoa addr) = Some addr /\ inet_addr (inet_ntoa addr) = addr.
Proof.
  intros Ha. assert (inet_aton (inet_ntoa addr) = Some addr) as E; [|unfold inet_addr; by rewrite E].
  unfold inet_aton, inet_ntoa. cbn zeta. set (h := ntohl addr). assert (0 <= h < 2 ^ 32) as Hh by (by apply htonl_range).
  assert (forall n, 0 <= u8 n <= 255) as Hu by (intros n; unfold u8; pose proof (Z.mod_pos_bound n (2 ^ 8)); lia).
  change (0 <? 3) with true. change (0 <? 2) with true. change (0 <? 1) with true. change (0 <? 0) with false. cbn iota. rewrite app_nil_r, <- !app_assoc.
  rewrite !aton_octet by (apply Hu || lia). change (0 + 1 + 1 + 1) with 3. rewrite aton_last by apply Hu. f_equal. rewrite !Z.shiftr_div_pow2 by lia. unfold u8.
  change (8 * 3) with 24. change (8 * 2) with 16. change (8 * 1) with 8. change (8 * 0) with 0. change (2 ^ 0) with 1. rewrite Z.div_1_r.
  rewrite (append_octet 0) by dlia. rewrite (append_octet (0 * 256 + _)) by dlia. rewrite (append_octet ((0 * 256 + _) * 256 + _)) by dlia. rewrite (append_octet (((0 * 256 + _) * 256 + _) * 256 + _)) by dlia.
  transitivity (htonl h); [f_equal; dlia|]. unfold h. by apply ntohl_htonl.
Qed.
Lemma inet_text_roundtrip_witness : inet_aton (inet_ntoa 0x0100007F) = Some 0x0100007F.
Proof. apply (inet_text_roundtrip 0x0100007F). lia. Defined.

(** ** Concrete input *)

Definition quiet_card : list Z -> Z := fun _ => 0.
Definition blank : Z -> Z := fun _ => 0.
Definition demo_tcp : tcp arena := mk_tcp (fun _ => zero_sock) (fun _ => mk_pending 0 0 0 0 0) 0 49152 0 zero_tcp_stats 0 blank_net net_heap.
Definition boot_sockets : sockets arena := mk_sockets (fun _ => zero_socket) 0 0 false 49152 demo_tcp.
Definition peer : sockaddr_in := mk_addr AF_INET (htons 53) (htonl 0x08080808) (repeat 0 8).
Definition demo_calls : list (socket_call (H:=arena)) :=
  [CSocket AF_INET SOCK_DGRAM 0; CSocket AF_INET SOCK_DGRAM 0; CConnect 1000 peer 16; CBind 1001 (mk_addr AF_INET 0 0 (repeat 0 8)) 16].
Definition two_bound : sockets arena := foldl (run_socket quiet_card blank) (socket_init boot_sockets) demo_calls.
Lemma socket_ports_exclusive_witness : port_of (socket_table two_bound 0) <> port_of (socket_table two_bound 1).
Proof.
  apply (socket_ports_exclusive quiet_card blank boot_sockets demo_calls 0 1).
  - reflexivity.
  - cbn; lia.
  - repeat (apply Forall_cons; split; [cbn; try exact Logic.I; lia|]). constructor.
  - unfold SOCKET_MAX_COUNT; lia.
  - unfold SOCKET_MAX_COUNT; lia.
  - discriminate.
  - split; [|split]; vm_compute; reflexivity.
  - split; [|split]; vm_compute; reflexivity.
  - vm_compute; reflexivity.
Defined.
Definition inbox : sockets arena := fst (socket blank AF_INET SOCK_DGRAM 0 (socket_init boot_sockets)).
Lemma inbox_dgram : dgram_socket 1000 0 inbox.
Proof. split; [vm_compute; reflexivity|]. split; [vm_compute; reflexivity|]. split; [vm_compute; discriminate|]. split; vm_compute; (split; discriminate || reflexivity) || reflexivity. Qed.
Lemma socket_bytes_fifo_witness :
  let '(s', accepted, taken) := foldl (run_queue 1000 0) (inbox, [], []) [QDeliver [1; 2; 3] None; QRecv 64 2 0 None; QDeliver [4] (Some peer)] in
  received inbox 0 ++ accepted = taken ++ received s' 0.
Proof.
  assert (Forall queue_op_ok [QDeliver [1; 2; 3] None; QRecv 64 2 0 None; QDeliver [4] (Some peer)]) as Ho by (repeat (apply Forall_cons; split; [cbn; lia || discriminate|]); constructor).
  pose proof (socket_bytes_fifo 1000 0 _ inbox inbox_dgram Ho) as Hq. destruct (foldl _ _ _) as [[s' accepted] taken]. exact (proj2 Hq).
Defined.
