(* ===== verification/Vga.v ===== *)
(** * The text screen (kernel/vga.c)

    The cells of the screen, the position of the next character, the colour, and what the
    hardware cursor was told. A character is a signed byte, as [char] is. The theorems say
    which calls are defined, that these write nothing outside the 2000 cells, what a line of text does to the
    screen, and that numbers are printed in their base. *)
From Stdlib Require Import String.
From S2P Require Import Prelude Ring Auth.
Close Scope string_scope.

Definition VGA_WIDTH : Z := 80.
Definition VGA_HEIGHT : Z := 25.
Definition VGA_COLOR_BLACK : Z := 0.
Definition VGA_COLOR_LIGHT_GRAY : Z := 7.
Definition VGA_COLOR_DARK_GRAY : Z := 8.
Definition VGA_COLOR_WHITE : Z := 15.
Definition vga_color (fg bg : Z) : Z := u8 (Z.lor fg (Z.shiftl bg 4)).
Definition vga_entry (c color : Z) : Z := Z.lor (u8 c) (Z.shiftl color 8).

Record vga := mk_vga { vga_buffer : Z -> Z; vga_x : Z; vga_y : Z; current_color : Z; hw_pos : Z; hw_cursor : bool }.
Implicit Types v : vga.
(** [vga_buffer[i] = e] *)
Definition put_cell (i e : Z) v : vga := mk_vga (upd (vga_buffer v) i e) (vga_x v) (vga_y v) (current_color v) (hw_pos v) (hw_cursor v).
Definition set_pos (x y : Z) v : vga := mk_vga (vga_buffer v) x y (current_color v) (hw_pos v) (hw_cursor v).

Definition vga_update_cursor v : vga :=
  let pos := u16 (vga_y v * VGA_WIDTH + vga_x v) in
  mk_vga (vga_buffer v) (vga_x v) (vga_y v) (current_color v) (Z.lor (Z.land pos 0xFF) (Z.shiftl (Z.land (Z.shiftr pos 8) 0xFF) 8)) (hw_cursor v).
Definition vga_enable_cursor (enable : bool) v : vga := mk_vga (vga_buffer v) (vga_x v) (vga_y v) (current_color v) (hw_pos v) enable.
Definition vga_set_color (fg bg : Z) v : vga := mk_vga (vga_buffer v) (vga_x v) (vga_y v) (vga_color fg bg) (hw_pos v) (hw_cursor v).
Definition vga_clear v : vga :=
  let blank := vga_entry 32 (current_color v) in
  vga_update_cursor (set_pos 0 0 (for_range 0 (VGA_WIDTH * VGA_HEIGHT) (fun i v => put_cell i blank v) v)).
Definition vga_init v : vga := vga_enable_cursor true (vga_clear (vga_set_color VGA_COLOR_LIGHT_GRAY VGA_COLOR_BLACK v)).
Definition vga_scroll v : vga :=
  let v := for_range 0 (VGA_WIDTH * (VGA_HEIGHT - 1)) (fun i v => put_cell i (vga_buffer v (i + VGA_WIDTH)) v) v in
  let blank := vga_entry 32 (current_color v) in
  for_range (VGA_WIDTH * (VGA_HEIGHT - 1)) (VGA_WIDTH * VGA_HEIGHT) (fun i v => put_cell i blank v) v.

(** What the character itself does, before wrapping and scrolling. *)
Definition put_char (c : Z) v : vga :=
  if c =? 10 then set_pos 0 (vga_y v + 1) v
  else if c =? 13 then set_pos 0 (vga_y v) v
  else if c =? 9 then
    let x := Z.land (vga_x v + 8) (Z.lnot 7) in
    if VGA_WIDTH <=? x then set_pos 0 (vga_y v + 1) v else set_pos x (vga_y v) v
  else if c =? 8 then
    if 0 <? vga_x v then
      let v := set_pos (vga_x v - 1) (vga_y v) v in put_cell (vga_y v * VGA_WIDTH + vga_x v) (vga_entry 32 (current_color v)) v
    else v
  else if 32 <=? c then
    let v := put_cell (vga_y v * VGA_WIDTH + vga_x v) (vga_entry c (current_color v)) v in set_pos (vga_x v + 1) (vga_y v) v
  else v.
Definition vga_putc (c : Z) v : vga :=
  let v := put_char c v in
  let v := if VGA_WIDTH <=? vga_x v then set_pos 0 (vga_y v + 1) v else v in
  let v := if VGA_HEIGHT <=? vga_y v then let v := vga_scroll v in set_pos (vga_x v) (VGA_HEIGHT - 1) v else v in
  vga_update_cursor v.
(** [str] are the characters before the terminating zero. *)
Definition vga_puts (str : list Z) v : vga := foldl (fun v c => vga_putc c v) v str.
Definition vga_set_cursor (x y : Z) v : vga :=
  if (0 <=? x) && (x <? VGA_WIDTH) && (0 <=? y) && (y <? VGA_HEIGHT) then vga_update_cursor (set_pos x y v) else v.
Definition vga_get_cursor_x v : Z := vga_x v.
Definition vga_get_cursor_y v : Z := vga_y v.

(** ** Numbers and formats *)

Definition digit_char (d : Z) : Z := if d <? 10 then 48 + d else 55 + d.
(** The digits, the last one first; a 64-bit number has at most 64 of them. *)
Fixpoint uint_digits (n : nat) (value base : Z) : list Z :=
  match n with
  | O => []
  | S n => if 0 <? value then digit_char (value mod base) :: uint_digits n (value / base) base else []
  end.
(** [char buffer[65]]: writing a 66th character leaves the buffer, and the result is [None]. *)
Definition NUMBER_BUFFER : Z := 65.
Definition uint_text (value base width pad : Z) : option (list Z) :=
  let digits := if value =? 0 then [48] else uint_digits 64 value base in
  let buffer := digits ++ repeat pad (Z.to_nat width - length digits) in
  if Z.of_nat (length buffer) <=? NUMBER_BUFFER then Some (rev buffer) else None.
Definition vga_print_uint (value base width pad : Z) v : option vga := text ← uint_text value base width pad; Some (vga_puts text v).
Definition vga_print_int (value width pad : Z) v : option vga :=
  if value <? 0 then vga_print_uint (u64 (- value)) 10 (if 0 <? width then width - 1 else width) pad (vga_putc 45 v)
  else vga_print_uint (u64 value) 10 width pad v.

(** An argument: the register with an integer, or a string ([None] for NULL). An argument
    that is missing or of the other kind makes the call undefined: [None]. *)
Inductive vga_arg := AInt (x : Z) | AStr (s : option (list Z)).
Definition arg_int (args : list vga_arg) : option (Z * list vga_arg) := match args with AInt x :: r => Some (x, r) | _ => None end.
Definition arg_str (args : list vga_arg) : option (option (list Z) * list vga_arg) := match args with AStr s :: r => Some (s, r) | _ => None end.
Definition is_digit_char (c : Z) : bool := (48 <=? c) && (c <=? 57).
(** The width is an [int]; one that does not fit is undefined. *)
Fixpoint parse_width (fmt : list Z) (width : Z) : option (list Z * Z) :=
  match fmt with
  | c :: r =>
      if is_digit_char c then let width := width * 10 + (c - 48) in if width <? 2 ^ 31 then parse_width r width else None
      else Some (fmt, width)
  | [] => Some (fmt, width)
  end.
(** The flag, the width and the length modifiers after a percent sign. *)
Definition parse_spec (fmt : list Z) : option (list Z * Z * Z * Z) :=
  let '(fmt, pad) := match fmt with 48 :: r => (r, 48) | _ => (fmt, 32) end in
  '(fmt, width) ← parse_width fmt 0;
  Some match fmt with
  | 108 :: 108 :: r => (r, width, pad, 2)
  | 108 :: r => (r, width, pad, 1)
  | _ => (fmt, width, pad, 0)
  end.
(** The value of a register as [int], [long], their unsigned types, or [char]. *)
Definition signed (w x : Z) : Z := let x := x mod 2 ^ w in if x <? 2 ^ (w - 1) then x else x - 2 ^ w.
Definition as_signed (is_long x : Z) : Z := if 1 <=? is_long then signed 64 x else signed 32 x.
Definition as_unsigned (is_long x : Z) : Z := if 1 <=? is_long then u64 x else u32 x.
Definition conversion (c width pad is_long : Z) (args : list vga_arg) v : option (vga * list vga_arg) :=
  if (c =? 100) || (c =? 105) then '(x, args) ← arg_int args; v ← vga_print_int (as_signed is_long x) width pad v; Some (v, args)
  else if c =? 117 then '(x, args) ← arg_int args; v ← vga_print_uint (as_unsigned is_long x) 10 width pad v; Some (v, args)
  else if (c =? 120) || (c =? 88) then '(x, args) ← arg_int args; v ← vga_print_uint (as_unsigned is_long x) 16 width pad v; Some (v, args)
  else if c =? 112 then '(x, args) ← arg_int args; v ← vga_print_uint (u64 x) 16 16 48 (vga_puts (str "0x"%string) v); Some (v, args)
  else if c =? 115 then '(s, args) ← arg_str args; Some (vga_puts (default (str "(null)"%string) s) v, args)
  else if c =? 99 then '(x, args) ← arg_int args; Some (vga_putc (signed 8 x) v, args)
  else if c =? 37 then Some (vga_putc 37 v, args)
  else Some (vga_putc c (vga_putc 37 v), args).
(** The format with the zero at its end is [fmt ++ [0]]; a percent sign at its end makes
    the loop skip the zero, and what lies behind it is not known: [None]. *)
Fixpoint printf_loop (n : nat) (fmt : list Z) (args : list vga_arg) v : option vga :=
  match n with
  | O => None
  | S n =>
      match fmt with
      | [] => Some v
      | c :: r =>
          if negb (c =? 37) then printf_loop n r args (vga_putc c v)
          else
            '(rest, width, pad, is_long) ← parse_spec r;
            match rest with
            | [] => None
            | c :: rest => '(v, args) ← conversion c width pad is_long args v; printf_loop n rest args v
            end
      end
  end.
Definition vga_printf (fmt : list Z) (args : list vga_arg) v : option vga := printf_loop (S (length fmt)) fmt args v.

(** ** The screen stays in its bounds *)

Definition inside v : Prop := 0 <= vga_x v < VGA_WIDTH /\ 0 <= vga_y v < VGA_HEIGHT.
(** The cells outside the screen are as they were. *)
Definition outside_kept v v' : Prop := forall i, ~ 0 <= i < VGA_WIDTH * VGA_HEIGHT -> vga_buffer v' i = vga_buffer v i.
Definition stays v v' : Prop := (inside v -> inside v') /\ outside_kept v v'.

Lemma stays_trans v1 v2 v3 : stays v1 v2 -> stays v2 v3 -> stays v1 v3.
Proof. intros [I1 O1] [I2 O2]. split; [auto|]. intros i Hi. by rewrite O2, O1. Qed.
Lemma put_cell_kept i e v : 0 <= i < VGA_WIDTH * VGA_HEIGHT -> outside_kept v (put_cell i e v).
Proof. intros Hi j Hj. cbn. apply upd_other. lia. Qed.
Lemma fill_kept lo hi (g : Z -> vga -> vga) v : 0 <= lo -> hi <= VGA_WIDTH * VGA_HEIGHT -> (forall i x, exists e, g i x = put_cell i e x) -> let v' := for_range lo hi g v in
  outside_kept v v' /\ vga_x v' = vga_x v /\ vga_y v' = vga_y v /\ current_color v' = current_color v.
Proof.
  intros Hl Hh Hg. cbn zeta. apply (for_range_rel (fun x => outside_kept v x /\ vga_x x = vga_x v /\ vga_y x = vga_y v /\ current_color x = current_color v)); [by split_and!|].
  intros j x Hj (O & E1 & E2 & E3). destruct (Hg j x) as [e ->]. split; [|by split_and!]. intros i Hi. rewrite put_cell_kept by lia. by apply O.
Qed.
Lemma update_stays v : stays v (vga_update_cursor v).
Proof. by split. Qed.
Lemma clear_stays v : inside (vga_clear v) /\ outside_kept v (vga_clear v).
Proof.
  unfold vga_clear. cbn zeta. split; [by split|].
  pose proof (fill_kept 0 (VGA_WIDTH * VGA_HEIGHT) (fun i x => put_cell i (vga_entry 32 (current_color v)) x) v) as Hf. generalize dependent (for_range 0 (VGA_WIDTH * VGA_HEIGHT) (fun i x => put_cell i (vga_entry 32 (current_color v)) x) v).
  intros x Hf. destruct Hf as [O _]; [lia|lia|by eexists|]. exact O.
Qed.
Lemma scroll_kept v : outside_kept v (vga_scroll v) /\ vga_x (vga_scroll v) = vga_x v /\ vga_y (vga_scroll v) = vga_y v /\ current_color (vga_scroll v) = current_color v.
Proof.
  unfold vga_scroll. cbn zeta. pose proof (fill_kept 0 (VGA_WIDTH * (VGA_HEIGHT - 1)) (fun i x => put_cell i (vga_buffer x (i + VGA_WIDTH)) x) v) as H1.
  generalize dependent (for_range 0 (VGA_WIDTH * (VGA_HEIGHT - 1)) (fun i x => put_cell i (vga_buffer x (i + VGA_WIDTH)) x) v). intros v1 H1.
  destruct H1 as (O1 & E1 & E2 & E3); [lia|unfold VGA_WIDTH, VGA_HEIGHT; lia|by eexists|].
  pose proof (fill_kept (VGA_WIDTH * (VGA_HEIGHT - 1)) (VGA_WIDTH * VGA_HEIGHT) (fun i x => put_cell i (vga_entry 32 (current_color v1)) x) v1) as H2.
  generalize dependent (for_range (VGA_WIDTH * (VGA_HEIGHT - 1)) (VGA_WIDTH * VGA_HEIGHT) (fun i x => put_cell i (vga_entry 32 (current_color v1)) x) v1). intros v2 H2.
  destruct H2 as (O2 & F1 & F2 & F3); [unfold VGA_WIDTH, VGA_HEIGHT; lia|lia|by eexists|].
  split; [intros i Hi; by rewrite O2, O1|]. by rewrite F1, F2, F3.
Qed.
Lemma tab_stop x : 0 <= x -> Z.land (x + 8) (Z.lnot 7) = (x / 8 + 1) * 8.
Proof.
  intros Hx. rewrite <- Z.ldiff_land. change 7 with (Z.ones 3). rewrite Z.ldiff_ones_r, Z.shiftr_div_pow2, Z.shiftl_mul_pow2 by lia. change (2 ^ 3) with 8.
  replace (x + 8) with (x + 1 * 8) by lia. by rewrite Z.div_add by lia.
Qed.
Lemma put_char_stays c v : inside v -> let v' := put_char c v in outside_kept v v' /\ 0 <= vga_x v' <= VGA_WIDTH /\ 0 <= vga_y v' <= VGA_HEIGHT.
Proof.
  intros [Hx Hy]. unfold put_char. unfold VGA_WIDTH, VGA_HEIGHT in *.
  assert (0 <= vga_y v * 80 + vga_x v < 80 * 25) as Hi by lia. rewrite tab_stop by lia.
  repeat case_if; cbn [vga_x vga_y set_pos put_cell] in *; (split; [intros i Hi'; cbn; try done; apply upd_other; unfold VGA_WIDTH, VGA_HEIGHT in Hi'; lia|dlia]).
Qed.
Lemma putc_stays c v : inside v -> inside (vga_putc c v) /\ outside_kept v (vga_putc c v).
Proof.
  intros I. destruct (put_char_stays c v I) as (O & Hx & Hy). unfold vga_putc. cbn zeta. set (v1 := put_char c v) in *. set (v2 := if VGA_WIDTH <=? vga_x v1 then _ else _).
  assert (outside_kept v v2 /\ 0 <= vga_x v2 < VGA_WIDTH /\ 0 <= vga_y v2 <= VGA_HEIGHT + 1) as (O2 & Hx2 & Hy2).
  { unfold v2. unfold VGA_WIDTH, VGA_HEIGHT in *. destruct (Z.leb_spec 80 (vga_x v1)); cbn; (split; [done|lia]). }
  destruct (scroll_kept v2) as (O3 & E1 & E2 & _). generalize dependent (vga_scroll v2). intros v3 O3 E1 E2. destruct (Z.leb_spec VGA_HEIGHT (vga_y v2)).
  - split; [split; cbn; [by rewrite E1|by unfold VGA_HEIGHT]|]. intros i Hi. cbn. by rewrite O3, O2.
  - split; [split; cbn; [done|lia]|]. done.
Qed.
Lemma puts_stays l v : inside v -> inside (vga_puts l v) /\ outside_kept v (vga_puts l v).
Proof.
  unfold vga_puts. revert v. induction l as [|c l IH]; intros v I; [done|]. cbn [foldl]. destruct (putc_stays c v I) as [I1 O1]. destruct (IH _ I1) as [I2 O2].
  split; [done|]. intros i Hi. by rewrite O2, O1.
Qed.

(** ** Formats that are defined *)

(** What a conversion needs: an argument of its kind, and for a number no more than the 65
    characters of the buffer. *)
Definition is_number (c : Z) : bool := (c =? 100) || (c =? 105) || (c =? 117) || (c =? 120) || (c =? 88).
Definition takes_int (c : Z) : bool := is_number c || (c =? 112) || (c =? 99).
Definition args_ok (c width is_long : Z) (args : list vga_arg) : bool :=
  match args with
  | AInt x :: _ => negb (c =? 115) && (negb (is_number c) || (width <=? NUMBER_BUFFER) || (((c =? 100) || (c =? 105)) && (as_signed is_long x <? 0) && (width <=? NUMBER_BUFFER + 1)))
  | AStr _ :: _ => negb (takes_int c)
  | [] => negb (takes_int c) && negb (c =? 115)
  end.
Definition args_left (c : Z) (args : list vga_arg) : list vga_arg := if takes_int c || (c =? 115) then tail args else args.
Fixpoint format_ok (n : nat) (fmt : list Z) (args : list vga_arg) : bool :=
  match n, fmt with
  | O, _ => false
  | S n, [] => true
  | S n, c :: r =>
      if negb (c =? 37) then format_ok n r args
      else match parse_spec r with
           | Some (c :: rest, width, _, is_long) => args_ok c width is_long args && format_ok n rest (args_left c args)
           | _ => false
           end
  end.
Definition printf_ok (fmt : list Z) (args : list vga_arg) : bool := format_ok (S (length fmt)) fmt args.

(** ** No call leaves the screen *)

Definition moved_inside v v' : Prop := inside v' /\ outside_kept v v'.
Lemma moved_inside_trans v1 v2 v3 : moved_inside v1 v2 -> moved_inside v2 v3 -> moved_inside v1 v3.
Proof. intros [_ O1] [I2 O2]. split; [done|]. intros i Hi. by rewrite O2, O1. Qed.
Lemma digits_length n value base : 2 <= base -> 0 <= value < base ^ Z.of_nat n -> forall m, (n <= m)%nat -> (length (uint_digits m value base) <= n)%nat.
Proof.
  intros Hb. revert value. induction n as [|n IH]; intros value Hv m Hm.
  - change (base ^ Z.of_nat 0) with 1 in Hv. assert (value = 0) as -> by lia. by destruct m.
  - destruct m as [|m]; [cbn; lia|]. cbn [uint_digits]. destruct (0 <? value); [|cbn; lia]. cbn [length]. apply le_n_S, IH; [|lia].
    rewrite Nat2Z.inj_succ, Z.pow_succ_r in Hv by lia. split; [apply Z.div_pos; lia|]. apply Z.div_lt_upper_bound; lia.
Qed.
Lemma digits_fit value base : 10 <= base -> 0 <= value < 2 ^ 64 -> (1 <= length (if (value =? 0)%Z then [48%Z] else uint_digits 64 value base) <= 20)%nat.
Proof.
  intros Hb Hv. destruct (Z.eqb_spec value 0); [cbn; lia|]. split.
  - cbn [uint_digits]. rewrite (proj2 (Z.ltb_lt 0 value)) by lia. cbn [length]. lia.
  - apply digits_length; [lia| |lia]. split; [lia|]. apply (Z.lt_le_trans _ (10 ^ 20)); [lia|]. apply Z.pow_le_mono_l. lia.
Qed.
(** A number is printed exactly when its width fits the buffer. *)
Lemma print_uint_defined value base width pad v : 10 <= base -> 0 <= value < 2 ^ 64 -> inside v ->
  match vga_print_uint value base width pad v with Some v' => width <= NUMBER_BUFFER /\ moved_inside v v' | None => NUMBER_BUFFER < width end.
Proof.
  intros Hb Hv I. unfold vga_print_uint, uint_text. cbn zeta. pose proof (digits_fit value base Hb Hv) as Hd. generalize dependent (if value =? 0 then [48] else uint_digits 64 value base). intros d Hd.
  unfold NUMBER_BUFFER. destruct (Z.leb_spec (Z.of_nat (length (d ++ repeat pad (Z.to_nat width - length d)))) 65) as [Hl|Hl]; rewrite length_app, repeat_length in Hl; cbn [mbind option_bind].
  - split; [lia|]. by apply puts_stays.
  - lia.
Qed.
Lemma print_int_defined x width pad v : - 2 ^ 63 <= x < 2 ^ 63 -> inside v ->
  match vga_print_int x width pad v with Some v' => (width <= NUMBER_BUFFER \/ x < 0 /\ width <= NUMBER_BUFFER + 1) /\ moved_inside v v' | None => NUMBER_BUFFER < width /\ (x < 0 -> NUMBER_BUFFER + 1 < width) end.
Proof.
  intros Hx I. unfold vga_print_int. destruct (Z.ltb_spec x 0) as [Hn|Hn].
  - assert (moved_inside v (vga_putc 45 v)) as M by (by apply putc_stays). assert (0 <= u64 (- x) < 2 ^ 64) as Hu by (apply Z.mod_pos_bound; lia). pose proof (print_uint_defined (u64 (- x)) 10 (if 0 <? width then width - 1 else width) pad _ ltac:(lia) Hu (proj1 M)) as Hp.
    unfold NUMBER_BUFFER in *. destruct (vga_print_uint _ _ _ _ _); destruct (Z.ltb_spec 0 width); [destruct Hp as [Hw M2]; split; [lia|by apply (moved_inside_trans _ _ _ M)]..|lia|lia].
  - assert (0 <= u64 x < 2 ^ 64) as Hu by (apply Z.mod_pos_bound; lia). pose proof (print_uint_defined (u64 x) 10 width pad v ltac:(lia) Hu I) as Hp. destruct (vga_print_uint _ _ _ _ _); [destruct Hp; split; [by left|done]|]. split; [done|lia].
Qed.
Lemma as_signed_range is_long x : - 2 ^ 63 <= as_signed is_long x < 2 ^ 63.
Proof.
  unfold as_signed, signed. cbn zeta. case_if.
  - pose proof (Z.mod_pos_bound x (2 ^ 64)). change (2 ^ (64 - 1)) with (2 ^ 63). case_if; lia.
  - pose proof (Z.mod_pos_bound x (2 ^ 32)). change (2 ^ (32 - 1)) with (2 ^ 31). case_if; lia.
Qed.
Lemma as_unsigned_range is_long x : 0 <= as_unsigned is_long x < 2 ^ 64.
Proof. unfold as_unsigned, u64, u32. case_if; [apply Z.mod_pos_bound; lia|]. pose proof (Z.mod_pos_bound x (2 ^ 32)). lia. Qed.
(** Some conversion of one argument, from what the printing of the number says. *)
Lemma conversion_defined c width pad is_long args v : inside v ->
  match conversion c width pad is_long args v with
  | Some (v', args') => args_ok c width is_long args = true /\ args' = args_left c args /\ moved_inside v v'
  | None => args_ok c width is_long args = false
  end.
Proof.
  intros I. unfold conversion, args_ok, args_left, takes_int, is_number. destruct (Z.eqb_spec c 100) as [->|N1]; [|destruct (Z.eqb_spec c 105) as [->|N2]; [|destruct (Z.eqb_spec c 117) as [->|N3]; [|destruct (Z.eqb_spec c 120) as [->|N4]; [|destruct (Z.eqb_spec c 88) as [->|N5]; [|destruct (Z.eqb_spec c 112) as [->|N6]; [|destruct (Z.eqb_spec c 115) as [->|N7]; [|destruct (Z.eqb_spec c 99) as [->|N8]]]]]]]]; cbn [orb].
  1-2: destruct args as [|[x|s] args]; [done| |done]; pose proof (print_int_defined (as_signed is_long x) width pad v (as_signed_range _ _) I) as Hp; cbn; destruct (vga_print_int _ _ _ _); cbn; [split; [|by destruct Hp]|]; lia.
  1-3: destruct args as [|[x|s] args]; [done| |done]; cbn [arg_int mbind option_bind]; match goal with |- context [vga_print_uint ?a ?b ?w ?p ?u] => pose proof (print_uint_defined a b w p u ltac:(lia) (as_unsigned_range _ _) I) as Hp end; cbn; destruct (vga_print_uint _ _ _ _ _); cbn; [split; [|by destruct Hp]|]; lia.
  - destruct args as [|[x|s] args]; [done| |done]. assert (moved_inside v (vga_puts (str "0x"%string) v)) as M by (by apply puts_stays). cbn [arg_int mbind option_bind]. pose proof (print_uint_defined (u64 x) 16 16 48 _ ltac:(lia) (Z.mod_pos_bound x (2 ^ 64) ltac:(lia)) (proj1 M)) as Hp. destruct (vga_print_uint _ _ _ _ _); cbn; [|unfold NUMBER_BUFFER in Hp; lia]. split; [done|]. split; [done|]. apply (moved_inside_trans _ _ _ M), Hp.
  - destruct args as [|[x|s] args]; [done|done|]. cbn. split; [done|]. split; [done|]. by apply puts_stays.
  - destruct args as [|[x|s] args]; [done| |done]. cbn. split; [done|]. split; [done|]. by apply putc_stays.
  - assert (match args with [] => true | AInt x :: _ => true | AStr _ :: _ => true end = true) as E by (by destruct args as [|[]]). destruct (Z.eqb_spec c 37) as [->|N9]; (split; [by destruct args as [|[]]|]); (split; [done|]).
    + by apply putc_stays.
    + assert (moved_inside v (vga_putc 37 v)) as M by (by apply putc_stays). apply (moved_inside_trans _ _ _ M). apply putc_stays, M.
Qed.
Lemma printf_defined n fmt args v : inside v -> match printf_loop n fmt args v with Some v' => format_ok n fmt args = true /\ moved_inside v v' | None => format_ok n fmt args = false end.
Proof.
  revert fmt args v. induction n as [|n IH]; intros fmt args v I; [done|]. cbn [printf_loop format_ok]. destruct fmt as [|c r]; [done|]. destruct (negb _).
  - assert (moved_inside v (vga_putc c v)) as M by (by apply putc_stays). specialize (IH r args _ (proj1 M)). destruct (printf_loop _ _ _ _); [|done]. split; [apply IH|]. by apply (moved_inside_trans _ _ _ M), IH.
  - destruct (parse_spec r) as [[[[rest width] pad] lg]|]; [|done]. cbn [mbind option_bind]. destruct rest as [|c' rest]; [done|]. pose proof (conversion_defined c' width pad lg args v I) as Hc.
    destruct (conversion c' width pad lg args v) as [[v1 args1]|]; cbn; [|by rewrite Hc]. destruct Hc as (Ha & -> & M). rewrite Ha. cbn [andb]. specialize (IH rest (args_left c' args) _ (proj1 M)). destruct (printf_loop _ _ _ _); [|done]. split; [apply IH|]. by apply (moved_inside_trans _ _ _ M), IH.
Qed.

(** The calls of the screen; [None] when one of them is undefined. *)
Inductive vga_call := VInit | VClear | VColor (fg bg : Z) | VPutc (c : Z) | VPuts (s : list Z) | VCursor (x y : Z) | VEnable (b : bool) | VPrintf (fmt : list Z) (args : list vga_arg).
Definition run_vga v (c : vga_call) : option vga :=
  match c with
  | VInit => Some (vga_init v) | VClear => Some (vga_clear v) | VColor fg bg => Some (vga_set_color fg bg v) | VPutc c => Some (vga_putc c v) | VPuts s => Some (vga_puts s v)
  | VCursor x y => Some (vga_set_cursor x y v) | VEnable b => Some (vga_enable_cursor b v)
  | VPrintf fmt args => vga_printf fmt args v
  end.
Fixpoint run_screen v (calls : list vga_call) : option vga :=
  match calls with [] => Some v | c :: calls => v ← run_vga v c; run_screen v calls end.
Definition call_ok (c : vga_call) : bool := match c with VPrintf fmt args => printf_ok fmt args | _ => true end.
Lemma vga_call_defined v c : inside v -> match run_vga v c with Some v' => call_ok c = true /\ moved_inside v v' | None => call_ok c = false end.
Proof.
  intros I. destruct c; cbn [run_vga call_ok].
  - split; [done|]. unfold vga_init. destruct (clear_stays (vga_set_color VGA_COLOR_LIGHT_GRAY VGA_COLOR_BLACK v)) as [I1 O1]. generalize dependent (vga_clear (vga_set_color VGA_COLOR_LIGHT_GRAY VGA_COLOR_BLACK v)). intros x I1 O1. split; [exact I1|]. intros i Hi. by apply (O1 i).
  - split; [done|]. apply clear_stays.
  - done.
  - split; [done|]. by apply putc_stays.
  - split; [done|]. by apply puts_stays.
  - split; [done|]. unfold vga_set_cursor. destruct (_ && _) eqn:E; [|done]. rewrite !andb_true_iff in E. destruct E as [[[E1 E2] E3] E4]. zbool. split; [split; cbn; lia|done].
  - done.
  - by apply printf_defined.
Qed.
(** C32: A sequence of calls of the text screen is defined exactly when every format that is
    printed is complete, has arguments of the kinds it asks for, and gives no number more than
    the 65 characters of its buffer; the position then stays on the screen, and only the
    80 * 25 cells of the screen are ever written. *)
Theorem vga_stays_inside v calls : inside v ->
  match run_screen v calls with Some v' => forallb call_ok calls = true /\ inside v' /\ outside_kept v v' | None => forallb call_ok calls = false end.
Proof.
  revert v. induction calls as [|c calls IH]; intros v I; [done|]. cbn [run_screen forallb]. pose proof (vga_call_defined v c I) as Hc. destruct (run_vga v c) as [v1|]; cbn; [|by rewrite Hc].
  destruct Hc as [-> M]. cbn [andb]. specialize (IH v1 (proj1 M)). destruct (run_screen v1 calls) as [v'|]; [|done]. destruct IH as [E M2]. split; [done|]. exact (moved_inside_trans _ _ _ M M2).
Qed.

(** ** Text and numbers *)

(** A text that fits into the row appears there, and nothing else changes. *)
Lemma vga_puts_row l v : inside v -> Forall (fun c => 32 <= c < 128) l -> vga_x v + Z.of_nat (length l) < VGA_WIDTH -> let v' := vga_puts l v in
  vga_x v' = vga_x v + Z.of_nat (length l) /\ vga_y v' = vga_y v /\ current_color v' = current_color v /\
  (forall i c, l !! i = Some c -> vga_buffer v' (vga_y v * VGA_WIDTH + vga_x v + Z.of_nat i) = vga_entry c (current_color v)) /\
  forall j, ~ vga_y v * VGA_WIDTH + vga_x v <= j < vga_y v * VGA_WIDTH + vga_x v + Z.of_nat (length l) -> vga_buffer v' j = vga_buffer v j.
Proof.
  cbn zeta. unfold vga_puts. revert v. induction l as [|c l IH]; intros v [Hx Hy] Hl Hw; [cbn; split_and!; done || lia|].
  apply Forall_cons in Hl as [Hc Hl]. cbn [foldl]. cbn [length] in *.
  assert (vga_putc c v = vga_update_cursor (set_pos (vga_x v + 1) (vga_y v) (put_cell (vga_y v * VGA_WIDTH + vga_x v) (vga_entry c (current_color v)) v))) as E.
  { unfold vga_putc, put_char. rewrite !(proj2 (Z.eqb_neq c _)) by lia. rewrite (proj2 (Z.leb_le 32 c)) by lia. cbn zeta. cbn [vga_x vga_y set_pos put_cell].
    rewrite (proj2 (Z.leb_gt VGA_WIDTH _)) by lia. cbn [vga_x vga_y set_pos put_cell]. by rewrite (proj2 (Z.leb_gt VGA_HEIGHT _)) by lia. }
  rewrite E. destruct (IH (vga_update_cursor (set_pos (vga_x v + 1) (vga_y v) (put_cell (vga_y v * VGA_WIDTH + vga_x v) (vga_entry c (current_color v)) v)))) as (E1 & E2 & E3 & E4 & E5); [split; cbn; lia|done|cbn; lia|].
  cbn [vga_x vga_y current_color vga_update_cursor set_pos put_cell] in *. split_and!; [lia|done|done| |].
  - intros [|i] d Hi; cbn in Hi.
    + injection Hi as ->. rewrite E5 by lia. cbn. rewrite Z.add_0_r. apply upd_same.
    + replace (vga_y v * VGA_WIDTH + vga_x v + Z.of_nat (S i)) with (vga_y v * VGA_WIDTH + (vga_x v + 1) + Z.of_nat i) by lia. by apply E4.
  - intros j Hj. rewrite E5 by lia. cbn. apply upd_other. lia.
Qed.

(** The number that a text in a base stands for. *)
Definition char_digit (c : Z) : Z := if c <? 58 then c - 48 else c - 55.
Definition read_number (base : Z) (l : list Z) : Z := foldl (fun a c => a * base + char_digit c) 0 l.
Lemma read_snoc base l c : read_number base (l ++ [c]) = read_number base l * base + char_digit c.
Proof. unfold read_number. by rewrite foldl_app. Qed.
Lemma char_digit_char d : 0 <= d < 16 -> char_digit (digit_char d) = d.
Proof. intros Hd. unfold char_digit, digit_char. repeat case_if; lia. Qed.
Lemma uint_digits_ok n value base : 2 <= base <= 16 -> 0 <= value < 2 ^ Z.of_nat n -> read_number base (rev (uint_digits n value base)) = value /\ (0 < value -> uint_digits n value base <> []).
Proof.
  intros Hb. revert value. induction n as [|n IH]; intros value Hv; [change (2 ^ Z.of_nat 0) with 1 in Hv; cbn; split; lia|]. cbn [uint_digits]. destruct (Z.ltb_spec 0 value) as [Hp|Hp]; [|cbn; split; [lia|intros ?; lia]].
  split; [|done]. cbn [rev]. rewrite read_snoc. assert (0 <= value / base < 2 ^ Z.of_nat n) as Hq.
  { rewrite Nat2Z.inj_succ, Z.pow_succ_r in Hv by lia. split; [apply Z.div_pos; lia|]. apply Z.div_lt_upper_bound; nia. }
  rewrite (proj1 (IH _ Hq)), char_digit_char by (pose proof (Z.mod_pos_bound value base); lia). pose proof (Z.div_mod value base). lia.
Qed.
(** A number that fits the buffer is printed as padding followed by its digits in the base, the
    first one not needed left out, and is padded to the width. *)
Theorem vga_number_roundtrip value base width pad : 0 <= value < 2 ^ 64 -> 10 <= base <= 16 -> width <= NUMBER_BUFFER -> exists digits,
  uint_text value base width pad = Some (repeat pad (Z.to_nat width - length digits) ++ digits) /\ read_number base digits = value /\ digits <> [].
Proof.
  intros Hv Hb Hw. unfold uint_text. cbn zeta. pose proof (digits_fit value base ltac:(lia) Hv) as Hd. set (d := if value =? 0 then [48] else uint_digits 64 value base) in *. exists (rev d). rewrite rev_app_distr, length_rev, length_app, repeat_length.
  unfold NUMBER_BUFFER in *. rewrite (proj2 (Z.leb_le _ 65)) by lia. rewrite rev_repeat. split; [done|]. unfold d. destruct (Z.eqb_spec value 0) as [->|]; [done|]. destruct (uint_digits_ok 64 value base ltac:(lia) Hv) as [E N].
  split; [done|]. intros E'. apply N; [lia|]. apply (f_equal (@rev Z)) in E'. by rewrite rev_involutive in E'.
Qed.
Lemma vga_number_roundtrip_witness : exists digits, uint_text 255 16 4 48 = Some (repeat 48 (Z.to_nat 4 - length digits) ++ digits) /\ read_number 16 digits = 255.
Proof. destruct (vga_number_roundtrip 255 16 4 48) as (digits & E1 & E2 & _); [lia|lia|unfold NUMBER_BUFFER; lia|]. exists digits. exact (conj E1 E2). Defined.
Definition blank_screen : vga := mk_vga (fun _ => 0) 0 0 0 0 false.
Definition demo_calls : list vga_call := [VPutc 65; VPutc 10; VCursor 79 24; VPrintf [37; 48; 52; 88; 10] [AInt 255]].
Lemma vga_stays_inside_witness : is_Some (run_screen blank_screen demo_calls) /\
  match run_screen blank_screen demo_calls with Some v' => forallb call_ok demo_calls = true /\ inside v' /\ outside_kept blank_screen v' | None => forallb call_ok demo_calls = false end.
Proof.
  split; [pose proof (vga_stays_inside blank_screen demo_calls) as H; destruct (run_screen blank_screen demo_calls); [by eexists|]|apply (vga_stays_inside blank_screen demo_calls)]; [|split; cbn; unfold VGA_WIDTH, VGA_HEIGHT; lia].
  assert (forallb call_ok demo_calls = true) as E by reflexivity. rewrite H in E; [done|split; cbn; unfold VGA_WIDTH, VGA_HEIGHT; lia].
Defined.

(** ** Faults *)

(** A format that ends with a percent sign is read beyond its end. *)
Lemma vga_percent_end_overreads fmt args v : (forall c, c ∈ fmt -> c <> 37) -> vga_printf (fmt ++ [37]) args v = None.
Proof.
  unfold vga_printf. rewrite length_app. cbn [length]. replace (S (length fmt + 1)) with (length fmt + 2)%nat by lia. revert v. induction fmt as [|c fmt IH]; intros v Hc; [done|].
  cbn [length app Nat.add printf_loop]. rewrite (proj2 (Z.eqb_neq c 37)) by (apply Hc; left). cbn [negb]. apply IH. intros d Hd. apply Hc. by right.
Qed.
(** The buffer for the digits has 65 bytes, and the width is not limited. *)
Lemma vga_width_overflows value base width pad v : 10 <= base -> 0 <= value < 2 ^ 64 -> 65 < width -> vga_print_uint value base width pad v = None.
Proof.
  intros Hb Hv Hw. unfold vga_print_uint, uint_text. cbn zeta. rewrite length_app, repeat_length. pose proof (digits_fit value base Hb Hv). unfold NUMBER_BUFFER. by rewrite (proj2 (Z.leb_gt _ 65)) by lia.
Qed.
