(* ===== verification/Editor.v ===== *)
(** * The text editor (apps/text_editor/editor.c)

    Lines as growing buffers, the text and its cursor, files, search, the keyboard, and the
    text screen. Lines and the array of lines are blocks of the kernel heap. Files are
    reached through an interface of five calls that stands for the virtual file system.
    The pointer to the editor is not NULL, and neither are the lines that are used, unless
    a comment says otherwise. *)
From Stdlib Require Import String.
From S2P Require Import Prelude Memory PageAlloc Heap Ring Auth Chain VfsBase Vga.
Close Scope string_scope.

Definition EDITOR_MAX_FILENAME : Z := 256.
Definition EDITOR_MAX_LINES : Z := 65536.
Definition EDITOR_MAX_LINE_LENGTH : Z := 4096.
Definition EDITOR_TAB_WIDTH : Z := 4.
Definition EDITOR_INITIAL_CAPACITY : Z := 1024.
Definition EDITOR_STATUS_HEIGHT : Z := 1.
Definition sizeof_line : Z := 24.
Definition sizeof_line_ptr : Z := 8.
Definition sizeof_editor : Z := 1144.
Definition KEY_F : Z := 70.
Definition KEY_G : Z := 71.
Definition KEY_N : Z := 78.
Definition KEY_Q : Z := 81.
Definition KEY_S : Z := 83.
Definition KEY_ESCAPE : Z := 128.
Definition KEY_BACKSPACE : Z := 129.
Definition KEY_TAB : Z := 130.
Definition KEY_ENTER : Z := 131.
Definition KEY_F3 : Z := 143.
Definition KEY_HOME : Z := 153.
Definition KEY_END : Z := 154.
Definition KEY_DELETE : Z := 156.
Definition KEY_PAGEUP : Z := 157.
Definition KEY_PAGEDOWN : Z := 158.
Definition KEY_UP : Z := 159.
Definition KEY_DOWN : Z := 160.
Definition KEY_LEFT : Z := 161.
Definition KEY_RIGHT : Z := 162.
Definition MOD_CTRL : Z := Z.lor 0x04 0x08.
Definition NL : Z := 10.
Definition CR : Z := 13.
Definition SPACE : Z := 32.
Definition TAB : Z := 9.

Inductive editor_state := EDITOR_STATE_NORMAL | EDITOR_STATE_SEARCH | EDITOR_STATE_GOTO | EDITOR_STATE_SAVE_AS | EDITOR_STATE_CONFIRM_QUIT.

(** ** What the editor calls *)

(** [krealloc(ptr, size)]: the heap and the new block, NULL on failure; the editor keeps the
    bytes itself. *)
Class KernelRealloc (H : Type) := kh_realloc : Z -> Z -> H -> H * Z.
#[export] Instance heap_realloc {S} `{PageAllocator S} : KernelRealloc (heap S) := fun p size h => or_fail h NULL (krealloc h p size).
#[export] Instance arena_realloc : KernelRealloc arena := fun p size a => kh_malloc size a.

(** The calls of the virtual file system; a handle is an address. *)
Class FileStore (F : Type) := {
  (** [vfs_open(name, flags)] *)
  file_open : list Z -> Z -> F -> F * option Z;
  (** [st_size] of [vfs_fstat], [None] on failure *)
  file_size : Z -> F -> option Z;
  (** [vfs_read(file, buf, size)]: the result and the bytes that were stored *)
  file_read : Z -> Z -> F -> F * Z * list Z;
  (** [vfs_write(file, bytes, length)] *)
  file_write : Z -> list Z -> F -> F * Z;
  (** [vfs_close(file)] *)
  file_close : Z -> F -> F;
}.

(** ** Lines *)

(** The address of the structure (NULL for a NULL pointer), the address of its block, the
    bytes of the block, and the two sizes. *)
Record line := mk_line { ln_ptr : Z; ln_data : Z; ln_bytes : list Z; ln_length : Z; ln_capacity : Z }.
Definition null_line : line := mk_line NULL NULL [] 0 0.
(** [memmove(data + dst, data + src, n)] *)
Definition move_bytes (dst src n : Z) (l : list Z) : list Z := splice (Z.to_nat dst) (take (Z.to_nat n) (drop (Z.to_nat src) l)) l.
(** [data[i] = v] *)
Definition put_byte (i v : Z) (l : list Z) : list Z := <[Z.to_nat i := v]> l.
(** [n] bytes that were never written, from offset [lo] on. *)
Definition raw_bytes (fresh : Z -> Z) (lo n : Z) : list Z := map fresh (seqZ lo n).

(** [while (new_capacity < needed_capacity) new_capacity *= 2;] *)
Fixpoint double_until (rounds : nat) (new needed : Z) : Z :=
  match rounds with
  | O => new
  | S rounds => if new <? needed then double_until rounds (u64 (new * 2)) needed else new
  end.

Record editor (H : Type) := mk_editor {
  ed_filename : list Z;
  has_filename : bool;
  modified : bool;
  readonly : bool;
  lines : list line;
  lines_ptr : Z;
  lines_capacity : Z;
  cursor_x : Z;
  cursor_y : Z;
  scroll_x : Z;
  scroll_y : Z;
  screen_width : Z;
  screen_height : Z;
  text_area_height : Z;
  ed_state : editor_state;
  ed_running : bool;
  input_buffer : list Z;
  status_message : list Z;
  search_query : list Z;
  search_match_line : Z;
  search_match_col : Z;
  text_color : Z;
  status_color : Z;
  line_num_color : Z;
  show_line_numbers : bool;
  line_num_width : Z;
  ed_heap : H;
}.
Arguments mk_editor {H}.
Arguments ed_filename {H}.
Arguments has_filename {H}.
Arguments modified {H}.
Arguments readonly {H}.
Arguments lines {H}.
Arguments lines_ptr {H}.
Arguments lines_capacity {H}.
Arguments cursor_x {H}.
Arguments cursor_y {H}.
Arguments scroll_x {H}.
Arguments scroll_y {H}.
Arguments screen_width {H}.
Arguments screen_height {H}.
Arguments text_area_height {H}.
Arguments ed_state {H}.
Arguments ed_running {H}.
Arguments input_buffer {H}.
Arguments status_message {H}.
Arguments search_query {H}.
Arguments search_match_line {H}.
Arguments search_match_col {H}.
Arguments text_color {H}.
Arguments status_color {H}.
Arguments line_num_color {H}.
Arguments show_line_numbers {H}.
Arguments line_num_width {H}.
Arguments ed_heap {H}.

Section Editor.
Context {H F : Type} `{KernelHeap H} `{KernelRealloc H} `{FileStore F}.
Variable fresh : Z -> Z.
Implicit Types e : editor H.

(** [content] are the [length] bytes; the empty list for NULL. *)
Definition line_create (content : list Z) (h : H) : H * line :=
  let length := Z.of_nat (length content) in
  let '(h, p) := kh_malloc sizeof_line h in
  if p =? NULL then (h, null_line)
  else
    let capacity := if EDITOR_INITIAL_CAPACITY <=? length then length + 1 else EDITOR_INITIAL_CAPACITY in
    let '(h, d) := kh_malloc capacity h in
    if d =? NULL then (kh_free p h, null_line)
    else (h, mk_line p d (content ++ 0 :: raw_bytes fresh (length + 1) (capacity - length - 1)) length capacity).
Definition line_destroy (l : line) (h : H) : H :=
  if ln_ptr l =? NULL then h else kh_free (ln_ptr l) (if ln_data l =? NULL then h else kh_free (ln_data l) h).
Definition line_ensure_capacity (l : line) (needed_capacity : Z) (h : H) : H * line * bool :=
  if ln_ptr l =? NULL then (h, l, false)
  else if needed_capacity <=? ln_capacity l then (h, l, true)
  else
    let new_capacity := double_until 64 (ln_capacity l) needed_capacity in
    if (EDITOR_MAX_LINE_LENGTH <? new_capacity) && (EDITOR_MAX_LINE_LENGTH <? needed_capacity) then (h, l, false)
    else
      let new_capacity := if EDITOR_MAX_LINE_LENGTH <? new_capacity then EDITOR_MAX_LINE_LENGTH else new_capacity in
      let '(h, d) := kh_realloc (ln_data l) new_capacity h in
      if d =? NULL then (h, l, false)
      else (h, mk_line (ln_ptr l) d (ln_bytes l ++ raw_bytes fresh (ln_capacity l) (new_capacity - ln_capacity l)) (ln_length l) new_capacity, true).
Definition line_insert_char (l : line) (pos c : Z) (h : H) : H * line * bool :=
  if (ln_ptr l =? NULL) || (ln_length l <? pos) then (h, l, false)
  else
    let '(h, l, ok) := line_ensure_capacity l (ln_length l + 2) h in
    if negb ok then (h, l, false)
    else (h, mk_line (ln_ptr l) (ln_data l) (put_byte pos c (move_bytes (pos + 1) pos (ln_length l - pos + 1) (ln_bytes l))) (ln_length l + 1) (ln_capacity l), true).
Definition line_delete_char (l : line) (pos : Z) : line :=
  if (ln_ptr l =? NULL) || (ln_length l <=? pos) then l
  else mk_line (ln_ptr l) (ln_data l) (move_bytes pos (pos + 1) (ln_length l - pos) (ln_bytes l)) (ln_length l - 1) (ln_capacity l).
(** [memcpy(l->data + l->length, other->data, other->length)] and the new end. *)
Definition line_append (l other : line) : line :=
  let n := ln_length l + ln_length other in
  mk_line (ln_ptr l) (ln_data l) (put_byte n 0 (splice (Z.to_nat (ln_length l)) (take (Z.to_nat (ln_length other)) (ln_bytes other)) (ln_bytes l))) n (ln_capacity l).
(** The line ends at [n], with a zero behind it. *)
Definition line_truncate (n : Z) (l : line) : line := mk_line (ln_ptr l) (ln_data l) (put_byte n 0 (ln_bytes l)) n (ln_capacity l).

(** ** The lines of the editor *)

Definition set_file (n : list Z) (h : bool) (m : bool) e : editor H :=
  mk_editor n h m (readonly e) (lines e) (lines_ptr e) (lines_capacity e) (cursor_x e) (cursor_y e) (scroll_x e) (scroll_y e) (screen_width e)
    (screen_height e) (text_area_height e) (ed_state e) (ed_running e) (input_buffer e) (status_message e) (search_query e) (search_match_line e)
    (search_match_col e) (text_color e) (status_color e) (line_num_color e) (show_line_numbers e) (line_num_width e) (ed_heap e).
Definition set_modified (v : bool) e : editor H :=
  mk_editor (ed_filename e) (has_filename e) v (readonly e) (lines e) (lines_ptr e) (lines_capacity e) (cursor_x e) (cursor_y e) (scroll_x e)
    (scroll_y e) (screen_width e) (screen_height e) (text_area_height e) (ed_state e) (ed_running e) (input_buffer e) (status_message e)
    (search_query e) (search_match_line e) (search_match_col e) (text_color e) (status_color e) (line_num_color e) (show_line_numbers e)
    (line_num_width e) (ed_heap e).
Definition set_lines (v : list line) e : editor H :=
  mk_editor (ed_filename e) (has_filename e) (modified e) (readonly e) v (lines_ptr e) (lines_capacity e) (cursor_x e) (cursor_y e) (scroll_x e)
    (scroll_y e) (screen_width e) (screen_height e) (text_area_height e) (ed_state e) (ed_running e) (input_buffer e) (status_message e)
    (search_query e) (search_match_line e) (search_match_col e) (text_color e) (status_color e) (line_num_color e) (show_line_numbers e)
    (line_num_width e) (ed_heap e).
Definition set_array (p : Z) (c : Z) e : editor H :=
  mk_editor (ed_filename e) (has_filename e) (modified e) (readonly e) (lines e) p c (cursor_x e) (cursor_y e) (scroll_x e) (scroll_y e)
    (screen_width e) (screen_height e) (text_area_height e) (ed_state e) (ed_running e) (input_buffer e) (status_message e) (search_query e)
    (search_match_line e) (search_match_col e) (text_color e) (status_color e) (line_num_color e) (show_line_numbers e) (line_num_width e) (ed_heap e).
Definition set_cursor (x : Z) (y : Z) e : editor H :=
  mk_editor (ed_filename e) (has_filename e) (modified e) (readonly e) (lines e) (lines_ptr e) (lines_capacity e) x y (scroll_x e) (scroll_y e)
    (screen_width e) (screen_height e) (text_area_height e) (ed_state e) (ed_running e) (input_buffer e) (status_message e) (search_query e)
    (search_match_line e) (search_match_col e) (text_color e) (status_color e) (line_num_color e) (show_line_numbers e) (line_num_width e) (ed_heap e).
Definition set_scroll (x : Z) (y : Z) e : editor H :=
  mk_editor (ed_filename e) (has_filename e) (modified e) (readonly e) (lines e) (lines_ptr e) (lines_capacity e) (cursor_x e) (cursor_y e) x y
    (screen_width e) (screen_height e) (text_area_height e) (ed_state e) (ed_running e) (input_buffer e) (status_message e) (search_query e)
    (search_match_line e) (search_match_col e) (text_color e) (status_color e) (line_num_color e) (show_line_numbers e) (line_num_width e) (ed_heap e).
Definition set_ed_state (v : editor_state) e : editor H :=
  mk_editor (ed_filename e) (has_filename e) (modified e) (readonly e) (lines e) (lines_ptr e) (lines_capacity e) (cursor_x e) (cursor_y e)
    (scroll_x e) (scroll_y e) (screen_width e) (screen_height e) (text_area_height e) v (ed_running e) (input_buffer e) (status_message e)
    (search_query e) (search_match_line e) (search_match_col e) (text_color e) (status_color e) (line_num_color e) (show_line_numbers e)
    (line_num_width e) (ed_heap e).
Definition set_running (v : bool) e : editor H :=
  mk_editor (ed_filename e) (has_filename e) (modified e) (readonly e) (lines e) (lines_ptr e) (lines_capacity e) (cursor_x e) (cursor_y e)
    (scroll_x e) (scroll_y e) (screen_width e) (screen_height e) (text_area_height e) (ed_state e) v (input_buffer e) (status_message e)
    (search_query e) (search_match_line e) (search_match_col e) (text_color e) (status_color e) (line_num_color e) (show_line_numbers e)
    (line_num_width e) (ed_heap e).
Definition set_input (v : list Z) e : editor H :=
  mk_editor (ed_filename e) (has_filename e) (modified e) (readonly e) (lines e) (lines_ptr e) (lines_capacity e) (cursor_x e) (cursor_y e)
    (scroll_x e) (scroll_y e) (screen_width e) (screen_height e) (text_area_height e) (ed_state e) (ed_running e) v (status_message e)
    (search_query e) (search_match_line e) (search_match_col e) (text_color e) (status_color e) (line_num_color e) (show_line_numbers e)
    (line_num_width e) (ed_heap e).
Definition set_message (v : list Z) e : editor H :=
  mk_editor (ed_filename e) (has_filename e) (modified e) (readonly e) (lines e) (lines_ptr e) (lines_capacity e) (cursor_x e) (cursor_y e)
    (scroll_x e) (scroll_y e) (screen_width e) (screen_height e) (text_area_height e) (ed_state e) (ed_running e) (input_buffer e) v (search_query e)
    (search_match_line e) (search_match_col e) (text_color e) (status_color e) (line_num_color e) (show_line_numbers e) (line_num_width e) (ed_heap e).
Definition set_query (v : list Z) e : editor H :=
  mk_editor (ed_filename e) (has_filename e) (modified e) (readonly e) (lines e) (lines_ptr e) (lines_capacity e) (cursor_x e) (cursor_y e)
    (scroll_x e) (scroll_y e) (screen_width e) (screen_height e) (text_area_height e) (ed_state e) (ed_running e) (input_buffer e) (status_message e)
    v (search_match_line e) (search_match_col e) (text_color e) (status_color e) (line_num_color e) (show_line_numbers e) (line_num_width e)
    (ed_heap e).
Definition set_match (l : Z) (c : Z) e : editor H :=
  mk_editor (ed_filename e) (has_filename e) (modified e) (readonly e) (lines e) (lines_ptr e) (lines_capacity e) (cursor_x e) (cursor_y e)
    (scroll_x e) (scroll_y e) (screen_width e) (screen_height e) (text_area_height e) (ed_state e) (ed_running e) (input_buffer e) (status_message e)
    (search_query e) l c (text_color e) (status_color e) (line_num_color e) (show_line_numbers e) (line_num_width e) (ed_heap e).
Definition set_ed_heap (h : H) e : editor H :=
  mk_editor (ed_filename e) (has_filename e) (modified e) (readonly e) (lines e) (lines_ptr e) (lines_capacity e) (cursor_x e) (cursor_y e)
    (scroll_x e) (scroll_y e) (screen_width e) (screen_height e) (text_area_height e) (ed_state e) (ed_running e) (input_buffer e) (status_message e)
    (search_query e) (search_match_line e) (search_match_col e) (text_color e) (status_color e) (line_num_color e) (show_line_numbers e)
    (line_num_width e) h.
Definition num_lines e : Z := Z.of_nat (length (lines e)).
Definition line_at e (y : Z) : line := default null_line (lines e !! Z.to_nat y).
Definition put_line (y : Z) (l : line) e : editor H := set_lines (<[Z.to_nat y := l]> (lines e)) e.
Definition editor_set_status (message : list Z) e : editor H := set_message (take 255 message) e.

Definition editor_insert_line (pos : Z) (l : line) e : editor H * bool :=
  if (ln_ptr l =? NULL) || (num_lines e <? pos) then (e, false)
  else if EDITOR_MAX_LINES <=? num_lines e then (e, false)
  else
    let insert e := (set_lines (take (Z.to_nat pos) (lines e) ++ l :: drop (Z.to_nat pos) (lines e)) e, true) in
    if lines_capacity e <=? num_lines e then
      let new_capacity := lines_capacity e * 2 in
      let '(h, p) := kh_realloc (lines_ptr e) (new_capacity * sizeof_line_ptr) (ed_heap e) in
      let e := set_ed_heap h e in
      if p =? NULL then (e, false) else insert (set_array p new_capacity e)
    else insert e.
Definition editor_remove_line (pos : Z) e : editor H :=
  if num_lines e <=? pos then e
  else set_lines (take (Z.to_nat pos) (lines e) ++ drop (Z.to_nat pos + 1) (lines e)) (set_ed_heap (line_destroy (line_at e pos) (ed_heap e)) e).

(** The new editor, or none when memory is short. *)
Definition editor_init (h : H) : H * option (editor H) :=
  let '(h, p) := kh_malloc sizeof_editor h in
  if p =? NULL then (h, None)
  else
    let '(h, a) := kh_malloc (256 * sizeof_line_ptr) h in
    if a =? NULL then (kh_free p h, None)
    else
      let '(h, first_line) := line_create [] h in
      if ln_ptr first_line =? NULL then (kh_free p (kh_free a h), None)
      else
        (h, Some (mk_editor [] false false false [first_line] a 256 0 0 0 0 VGA_WIDTH VGA_HEIGHT (VGA_HEIGHT - EDITOR_STATUS_HEIGHT)
                    EDITOR_STATE_NORMAL true [] [] [] 0 0 (vga_color VGA_COLOR_WHITE VGA_COLOR_BLACK) (vga_color VGA_COLOR_BLACK VGA_COLOR_LIGHT_GRAY)
                    (vga_color VGA_COLOR_DARK_GRAY VGA_COLOR_BLACK) true 5 h)).
Definition destroy_lines (ls : list line) (h : H) : H := foldl (fun h l => line_destroy l h) h ls.
(** [self] is the address of the editor. *)
Definition editor_destroy (self : Z) e : H :=
  let h := if lines_ptr e =? NULL then ed_heap e else kh_free (lines_ptr e) (destroy_lines (lines e) (ed_heap e)) in
  kh_free self h.
(** The result of [line_create] is stored without a check. *)
Definition editor_new e : editor H :=
  let h := destroy_lines (lines e) (ed_heap e) in
  let '(h, l) := line_create [] h in
  let e := set_lines [l] (set_ed_heap h e) in
  editor_set_status (str "New file"%string) (set_scroll 0 0 (set_cursor 0 0 (set_file [] false false e))).

(** ** Files *)

Definition drop_cr (l : list Z) : list Z := match last l with Some c => if c =? CR then take (length l - 1) l else l | None => l end.
(** The loop up to the terminating zero: [cur] are the bytes from [start] to [ptr]. *)
Fixpoint parse_lines (buffer cur : list Z) : list (list Z) :=
  match buffer with
  | [] => if (length cur =? 0)%nat then [] else [drop_cr cur]
  | c :: rest =>
      if c =? 0 then if (length cur =? 0)%nat then [] else [drop_cr cur]
      else if c =? NL then drop_cr cur :: parse_lines rest []
      else parse_lines rest (cur ++ [c])
  end.
(** [line = line_create(start, len); if (line) editor_insert_line(editor, editor->num_lines, line);] *)
Definition add_line e (text : list Z) : editor H :=
  let '(h, l) := line_create text (ed_heap e) in
  let e := set_ed_heap h e in
  if ln_ptr l =? NULL then e else fst (editor_insert_line (num_lines e) l e).

Definition editor_open (filename : list Z) e (f : F) : editor H * F * Z :=
  match file_open filename VFS_O_RDONLY f with
  | (f, None) => (editor_set_status (str "Failed to open file"%string) e, f, VFS_ERR_NOENT)
  | (f, Some file) =>
      match file_size file f with
      | None => (e, file_close file f, VFS_ERR_IO)
      | Some size =>
          let '(e, f, buffer) :=
            if 0 <? size then
              let '(h, b) := kh_malloc (size + 1) (ed_heap e) in
              let e := set_ed_heap h e in
              if b =? NULL then (e, f, inr VFS_ERR_NOMEM)
              else
                let '(f, bytes_read, bytes) := file_read file size f in
                if bytes_read <? 0 then (set_ed_heap (kh_free b h) e, f, inr bytes_read) else (e, f, inl (b, bytes))
            else (e, f, inl (NULL, [])) in
          let f := file_close file f in
          match buffer with
          | inr err => (e, f, err)
          | inl (b, bytes) =>
              let e := set_lines [] (set_ed_heap (destroy_lines (lines e) (ed_heap e)) e) in
              let e := if 0 <? size then let e := foldl add_line e (parse_lines bytes []) in set_ed_heap (kh_free b (ed_heap e)) e else e in
              let e := if num_lines e =? 0 then add_line e [] else e in
              let e := set_scroll 0 0 (set_cursor 0 0 (set_file (take 255 filename) true false e)) in
              (editor_set_status (str "File opened"%string) e, f, VFS_OK)
          end
      end
  end.

(** Lines from index [i] on; a negative result of a write of text ends the loop. *)
Fixpoint save_lines (file i total : Z) (ls : list line) (f : F) : F * option Z :=
  match ls with
  | [] => (f, None)
  | l :: ls =>
      let '(f, written) := if 0 <? ln_length l then file_write file (take (Z.to_nat (ln_length l)) (ln_bytes l)) f else (f, 0) in
      if written <? 0 then (f, Some written)
      else
        let f := if (i <? total - 1) || (0 <? ln_length l) then fst (file_write file [NL] f) else f in
        save_lines file (i + 1) total ls f
  end.
Definition editor_save_as (filename : list Z) e (f : F) : editor H * F * Z :=
  match file_open filename (Z.lor (Z.lor VFS_O_WRONLY VFS_O_CREAT) VFS_O_TRUNC) f with
  | (f, None) => (editor_set_status (str "Failed to save file"%string) e, f, VFS_ERR_IO)
  | (f, Some file) =>
      let '(f, err) := save_lines file 0 (num_lines e) (lines e) f in
      let f := file_close file f in
      match err with
      | Some r => (e, f, r)
      | None => (editor_set_status (str "File saved"%string) (set_file (take 255 filename) true false e), f, VFS_OK)
      end
  end.
Definition editor_save e (f : F) : editor H * F * Z :=
  if negb (has_filename e) then (editor_set_status (str "No filename - use Save As"%string) e, f, VFS_ERR_INVAL)
  else editor_save_as (ed_filename e) e f.

(** ** Editing *)

Definition clamp_x (len : Z) e : editor H := if len <? cursor_x e then set_cursor len (cursor_y e) e else e.
Definition editor_insert_char (c : Z) e : editor H :=
  if num_lines e <=? cursor_y e then e
  else
    let l := line_at e (cursor_y e) in
    let e := clamp_x (ln_length l) e in
    let '(h, l, ok) := line_insert_char l (cursor_x e) c (ed_heap e) in
    let e := put_line (cursor_y e) l (set_ed_heap h e) in
    if ok then set_modified true (set_cursor (cursor_x e + 1) (cursor_y e) e) else e.
(** Line [y] gets the text of line [y + 1], if it has any and there is room. *)
Definition join_lines (y : Z) e : editor H :=
  let l := line_at e y in
  let next := line_at e (y + 1) in
  if 0 <? ln_length next then
    let '(h, l, ok) := line_ensure_capacity l (ln_length l + ln_length next + 1) (ed_heap e) in
    put_line y (if ok then line_append l next else l) (set_ed_heap h e)
  else e.
Definition editor_delete_char e : editor H :=
  if 0 <? cursor_x e then
    let l := line_at e (cursor_y e) in
    let e := set_cursor (cursor_x e - 1) (cursor_y e) e in
    set_modified true (put_line (cursor_y e) (line_delete_char l (cursor_x e)) e)
  else if 0 <? cursor_y e then
    let y := cursor_y e in
    let e := set_cursor (ln_length (line_at e (y - 1))) y e in
    let e := editor_remove_line y (join_lines (y - 1) e) in
    set_modified true (set_cursor (cursor_x e) (cursor_y e - 1) e)
  else e.
Definition editor_delete_char_forward e : editor H :=
  if num_lines e <=? cursor_y e then e
  else
    let y := cursor_y e in
    let l := line_at e y in
    if cursor_x e <? ln_length l then set_modified true (put_line y (line_delete_char l (cursor_x e)) e)
    else if y <? num_lines e - 1 then set_modified true (editor_remove_line (y + 1) (join_lines y e))
    else e.
Definition editor_newline e : editor H :=
  if num_lines e <=? cursor_y e then e
  else
    let l := line_at e (cursor_y e) in
    let e := clamp_x (ln_length l) e in
    let split_pos := cursor_x e in
    let '(h, new_line) := line_create (take (Z.to_nat (ln_length l - split_pos)) (drop (Z.to_nat split_pos) (ln_bytes l))) (ed_heap e) in
    let e := set_ed_heap h e in
    if ln_ptr new_line =? NULL then e
    else
      let e := put_line (cursor_y e) (line_truncate split_pos l) e in
      match editor_insert_line (cursor_y e + 1) new_line e with
      | (e, false) => set_ed_heap (line_destroy new_line (ed_heap e)) e
      | (e, true) => set_modified true (set_cursor 0 (cursor_y e + 1) e)
      end.
Definition editor_insert_tab e : editor H := for_range 0 EDITOR_TAB_WIDTH (fun _ e => editor_insert_char SPACE e) e.
Definition editor_delete_line e : editor H :=
  if num_lines e <=? 1 then
    if num_lines e =? 1 then set_modified true (set_cursor 0 (cursor_y e) (put_line 0 (line_truncate 0 (line_at e 0)) e)) else e
  else
    let e := editor_remove_line (cursor_y e) e in
    let e := if num_lines e <=? cursor_y e then set_cursor (cursor_x e) (num_lines e - 1) e else e in
    set_modified true (clamp_x (ln_length (line_at e (cursor_y e))) e).

(** ** The cursor *)

Definition editor_scroll_to_cursor e : editor H :=
  let e := if cursor_y e <? scroll_y e then set_scroll (scroll_x e) (cursor_y e) e else e in
  let e := if scroll_y e + text_area_height e <=? cursor_y e then set_scroll (scroll_x e) (cursor_y e - text_area_height e + 1) e else e in
  let text_width := if show_line_numbers e then screen_width e - line_num_width e else screen_width e in
  let e := if cursor_x e <? scroll_x e then set_scroll (cursor_x e) (scroll_y e) e else e in
  if scroll_x e + text_width <=? cursor_x e then set_scroll (cursor_x e - text_width + 1) (scroll_y e) e else e.
Definition editor_move_cursor (dx dy : Z) e : editor H :=
  let y := cursor_y e + dy in
  let y := if y <? 0 then 0 else y in
  let y := if num_lines e <=? y then num_lines e - 1 else y in
  let len := ln_length (line_at e y) in
  let x := cursor_x e + dx in
  let e :=
    if x <? 0 then if 0 <? y then set_cursor (ln_length (line_at e (y - 1))) (y - 1) e else set_cursor 0 y e
    else if len <? x then if y <? num_lines e - 1 then set_cursor 0 (y + 1) e else set_cursor len y e
    else set_cursor x y e in
  editor_scroll_to_cursor e.
Definition editor_home e : editor H := editor_scroll_to_cursor (set_cursor 0 (cursor_y e) e).
Definition editor_end e : editor H :=
  if cursor_y e <? num_lines e then editor_scroll_to_cursor (set_cursor (ln_length (line_at e (cursor_y e))) (cursor_y e) e) else e.
Definition editor_page_up e : editor H :=
  let y := cursor_y e - text_area_height e in
  let e := set_cursor (cursor_x e) (if y <? 0 then 0 else y) e in
  editor_scroll_to_cursor (clamp_x (ln_length (line_at e (cursor_y e))) e).
Definition editor_page_down e : editor H :=
  let y := cursor_y e + text_area_height e in
  let e := set_cursor (cursor_x e) (if num_lines e <=? y then num_lines e - 1 else y) e in
  editor_scroll_to_cursor (clamp_x (ln_length (line_at e (cursor_y e))) e).
Definition editor_goto_line (line_num : Z) e : editor H :=
  let target := line_num - 1 in
  let target := if target <? 0 then 0 else target in
  let target := if num_lines e <=? target then num_lines e - 1 else target in
  editor_scroll_to_cursor (set_cursor 0 target e).
Definition editor_goto_start e : editor H := editor_scroll_to_cursor (set_cursor 0 0 e).
Definition editor_goto_end e : editor H :=
  if num_lines e =? 0 then e
  else let y := num_lines e - 1 in editor_scroll_to_cursor (set_cursor (ln_length (line_at e y)) y e).

(** ** Search *)

(** [line->data[j + k] == query[k]] for every [k]. *)
Definition match_at (l : line) (query : list Z) (j : Z) : bool := bool_decide (take (length query) (drop (Z.to_nat j) (ln_bytes l)) = query).
(** The first match at [j], [j + 1], ..., [n] positions in all. *)
Fixpoint first_match (n : nat) (l : line) (query : list Z) (j : Z) : option Z :=
  match n with
  | O => None
  | S n => if match_at l query j then Some j else first_match n l query (j + 1)
  end.
(** The first match at [j], [j - 1], ..., 0. *)
Fixpoint last_match (n : nat) (l : line) (query : list Z) (j : Z) : option Z :=
  match n with
  | O => None
  | S n => if match_at l query j then Some j else last_match n l query (j - 1)
  end.
Definition found_at (line_idx j : Z) e : editor H :=
  editor_set_status (str "Found"%string) (editor_scroll_to_cursor (set_match line_idx j (set_cursor j line_idx e))).
(** The lines [i], [i + 1], ... of the search, [n] of them. *)
Fixpoint search_forward (n : nat) (i : Z) e : option (Z * Z) :=
  match n with
  | O => None
  | S n =>
      let line_idx := (cursor_y e + i) mod num_lines e in
      let l := line_at e line_idx in
      let search_start := if i =? 0 then cursor_x e + 1 else 0 in
      match first_match (Z.to_nat (ln_length l - Z.of_nat (length (search_query e)) - search_start + 1)) l (search_query e) search_start with
      | Some j => Some (line_idx, j)
      | None => search_forward n (i + 1) e
      end
  end.
Definition editor_find_next e : editor H * bool :=
  match search_query e with
  | [] => (e, false)
  | _ =>
      match search_forward (Z.to_nat (num_lines e)) 0 e with
      | Some (line_idx, j) => (found_at line_idx j e, true)
      | None => (editor_set_status (str "Not found"%string) e, false)
      end
  end.
Fixpoint search_backward (n : nat) (i : Z) e : option (Z * Z) :=
  match n with
  | O => None
  | S n =>
      let line_idx := (cursor_y e - i + num_lines e) mod num_lines e in
      let l := line_at e line_idx in
      let search_end := if i =? 0 then cursor_x e - 1 else ln_length l - Z.of_nat (length (search_query e)) in
      match last_match (Z.to_nat (search_end + 1)) l (search_query e) search_end with
      | Some j => Some (line_idx, j)
      | None => search_backward n (i + 1) e
      end
  end.
Definition editor_find_prev e : editor H * bool :=
  match search_query e with
  | [] => (e, false)
  | _ =>
      match search_backward (Z.to_nat (num_lines e)) 0 e with
      | Some (line_idx, j) => (found_at line_idx j e, true)
      | None => (editor_set_status (str "Not found"%string) e, false)
      end
  end.

(** ** The keyboard *)

(** [int] arithmetic wraps on the machine. *)
Definition int_wrap (x : Z) : Z := if 2 ^ 31 <=? u32 x then u32 x - 2 ^ 32 else u32 x.
Definition parse_input_number e : Z :=
  foldl (fun result c => if (48 <=? c) && (c <=? 57) then int_wrap (int_wrap (result * 10) + (c - 48)) else result) 0 (input_buffer e).
Definition editor_start_search e : editor H := editor_set_status (str "Search: "%string) (set_input [] (set_ed_state EDITOR_STATE_SEARCH e)).
Definition prompt (text : list Z) (st : editor_state) e : editor H := editor_set_status text (set_input [] (set_ed_state st e)).
Definition to_normal e : editor H := editor_set_status [] (set_ed_state EDITOR_STATE_NORMAL e).
(** [char msg[64] = "...: "; strcat(msg, editor->input_buffer); editor_set_status(editor, msg);].
    A message that does not fit, with its zero, is written past the end of the buffer on the
    stack: [None]. *)
Definition PROMPT_BUFFER : Z := 64.
Definition show_prompt (text : list Z) e : option (editor H) :=
  let msg := text ++ input_buffer e in if Z.of_nat (length msg) <? PROMPT_BUFFER then Some (editor_set_status msg e) else None.
(** The editing of a prompt: a key that is neither Enter nor Escape. *)
Definition edit_prompt (text : list Z) (accepts : Z -> bool) (key ascii : Z) e : option (editor H) :=
  let show := show_prompt text in
  if (key =? KEY_BACKSPACE) && (0 <? Z.of_nat (length (input_buffer e))) then show (set_input (take (length (input_buffer e) - 1) (input_buffer e)) e)
  else if accepts ascii && (Z.of_nat (length (input_buffer e)) <? 255) then show (set_input (input_buffer e ++ [ascii]) e)
  else Some e.
Definition is_digit (c : Z) : bool := (48 <=? c) && (c <=? 57).
Definition printable (c : Z) : bool := (32 <=? c) && (c <? 127).

Definition goto_key (key ascii : Z) e : option (editor H) :=
  if key =? KEY_ENTER then
    let line_num := parse_input_number e in Some (to_normal (if 0 <? line_num then editor_goto_line line_num e else e))
  else if key =? KEY_ESCAPE then Some (to_normal e)
  else edit_prompt (str "Go to line: "%string) is_digit key ascii e.
Definition search_key (key ascii : Z) e : option (editor H) :=
  if key =? KEY_ENTER then Some (fst (editor_find_next (set_ed_state EDITOR_STATE_NORMAL (set_query (take 255 (input_buffer e)) e))))
  else if key =? KEY_ESCAPE then Some (to_normal e)
  else edit_prompt (str "Search: "%string) printable key ascii e.
Definition save_as_key (key ascii : Z) e (f : F) : option (editor H * F) :=
  if key =? KEY_ENTER then
    let '(e, f) := if 0 <? Z.of_nat (length (input_buffer e)) then let '(e, f, _) := editor_save_as (input_buffer e) e f in (e, f) else (e, f) in
    Some (set_ed_state EDITOR_STATE_NORMAL e, f)
  else if key =? KEY_ESCAPE then Some (to_normal e, f)
  else e ← edit_prompt (str "Save as: "%string) printable key ascii e; Some (e, f).
Definition quit_key (key ascii : Z) e : editor H :=
  if (ascii =? 121) || (ascii =? 89) then set_running false e
  else if (ascii =? 110) || (ascii =? 78) || (key =? KEY_ESCAPE) then to_normal e
  else e.

(** The shortcuts; [None] when the key is none of them. *)
Definition ctrl_key (key : Z) e (f : F) : option (editor H * F) :=
  if key =? KEY_Q then
    Some (if modified e then editor_set_status (str "Unsaved changes! Quit? (y/n)"%string) (set_ed_state EDITOR_STATE_CONFIRM_QUIT e) else set_running false e, f)
  else if key =? KEY_S then
    Some (if has_filename e then let '(e, f, _) := editor_save e f in (e, f) else (prompt (str "Save as: "%string) EDITOR_STATE_SAVE_AS e, f))
  else if key =? KEY_G then Some (prompt (str "Go to line: "%string) EDITOR_STATE_GOTO e, f)
  else if key =? KEY_F then Some (editor_start_search e, f)
  else if key =? KEY_N then Some (if modified e then editor_set_status (str "Save first! (Ctrl+S)"%string) e else editor_new e, f)
  else if key =? KEY_HOME then Some (editor_goto_start e, f)
  else if key =? KEY_END then Some (editor_goto_end e, f)
  else None.
Definition plain_key (key ascii : Z) e : editor H :=
  if key =? KEY_UP then editor_move_cursor 0 (-1) e
  else if key =? KEY_DOWN then editor_move_cursor 0 1 e
  else if key =? KEY_LEFT then editor_move_cursor (-1) 0 e
  else if key =? KEY_RIGHT then editor_move_cursor 1 0 e
  else if key =? KEY_HOME then editor_home e
  else if key =? KEY_END then editor_end e
  else if key =? KEY_PAGEUP then editor_page_up e
  else if key =? KEY_PAGEDOWN then editor_page_down e
  else if key =? KEY_BACKSPACE then editor_delete_char e
  else if key =? KEY_DELETE then editor_delete_char_forward e
  else if key =? KEY_ENTER then editor_newline e
  else if key =? KEY_TAB then editor_insert_tab e
  else if key =? KEY_ESCAPE then editor_set_status (str "^S:Save ^Q:Quit ^G:Goto ^F:Find"%string) e
  else if key =? KEY_F3 then fst (editor_find_next e)
  else if printable ascii then editor_insert_char ascii e
  else e.
Definition editor_handle_key (key modifiers ascii : Z) e (f : F) : option (editor H * F) :=
  match ed_state e with
  | EDITOR_STATE_GOTO => e ← goto_key key ascii e; Some (e, f)
  | EDITOR_STATE_SEARCH => e ← search_key key ascii e; Some (e, f)
  | EDITOR_STATE_SAVE_AS => save_as_key key ascii e f
  | EDITOR_STATE_CONFIRM_QUIT => Some (quit_key key ascii e, f)
  | EDITOR_STATE_NORMAL =>
      match (if negb (Z.land modifiers MOD_CTRL =? 0) then ctrl_key key e f else None) with
      | Some r => Some r
      | None => Some (plain_key key ascii e, f)
      end
  end.
(** What the keyboard gives: the key, the modifiers, the character and whether it is a press. *)
Record key_event := mk_key { keycode : Z; key_modifiers : Z; key_ascii : Z; pressed : bool }.
Definition editor_process_input (event : option key_event) e (f : F) : option (editor H * F) :=
  match event with
  | Some k => if pressed k then editor_handle_key (keycode k) (key_modifiers k) (key_ascii k) e f else Some (e, f)
  | None => Some (e, f)
  end.

(** ** The screen *)

Definition cell_at (y x c color : Z) (s : vga) : vga := put_cell (y * VGA_WIDTH + x) (vga_entry c color) s.
Definition clear_row (y color : Z) e (s : vga) : vga := for_range 0 (screen_width e) (fun x s => cell_at y x SPACE color s) s.
(** The characters [text] from column [x] on. *)
Fixpoint put_text (y x color : Z) (text : list Z) (s : vga) : vga :=
  match text with
  | [] => s
  | c :: text => put_text y (x + 1) color text (cell_at y x c color s)
  end.

Definition editor_char_width (c col : Z) : Z := if c =? TAB then EDITOR_TAB_WIDTH - Z.rem col EDITOR_TAB_WIDTH else 1.
Fixpoint screen_to_offset (text : list Z) (i col screen_col : Z) : Z :=
  match text with
  | [] => i
  | c :: text => let width := editor_char_width c col in if screen_col <? col + width then i else screen_to_offset text (i + 1) (col + width) screen_col
  end.
Definition line_text (l : line) : list Z := take (Z.to_nat (ln_length l)) (ln_bytes l).
Definition editor_screen_to_offset (l : line) (screen_col : Z) : Z := if ln_ptr l =? NULL then 0 else screen_to_offset (line_text l) 0 0 screen_col.
Definition editor_offset_to_screen (l : line) (offset : Z) : Z :=
  if ln_ptr l =? NULL then 0 else foldl (fun col c => col + editor_char_width c col) 0 (take (Z.to_nat offset) (line_text l)).

(** The digits of a number, the last one first; 16 is the size of the buffer. *)
Fixpoint digits_rev (n : nat) (num : Z) : list Z :=
  match n with
  | O => []
  | S n => if 0 <? num then (48 + num mod 10) :: digits_rev n (num / 10) else []
  end.
Definition number_text (num : Z) : list Z := if num =? 0 then [48] else rev (digits_rev 16 num).
Definition gutter_text (num : Z) e : list Z :=
  let digits := number_text num in
  let padding := line_num_width e - 1 - Z.of_nat (length digits) in
  repeat SPACE (Z.to_nat padding) ++ digits ++ [SPACE].
(** [n] columns of a tab, while the screen has room. *)
Fixpoint draw_tab (n : nat) (y : Z) (st : Z * Z * vga) e : Z * Z * vga :=
  let '(x, col, s) := st in
  match n with
  | O => st
  | S n =>
      if x <? screen_width e then
        draw_tab n y (if scroll_x e <=? col then (x + 1, col + 1, cell_at y x SPACE (text_color e) s) else (x, col + 1, s)) e
      else st
  end.
Fixpoint draw_chars (y : Z) (text : list Z) (st : Z * Z * vga) e : Z * Z * vga :=
  let '(x, col, s) := st in
  match text with
  | [] => st
  | c :: text =>
      if x <? screen_width e then
        draw_chars y text
          (if c =? TAB then draw_tab (Z.to_nat (EDITOR_TAB_WIDTH - Z.rem col EDITOR_TAB_WIDTH)) y st e
           else if scroll_x e <=? col then (x + 1, col + 1, cell_at y x c (text_color e) s) else (x, col + 1, s)) e
      else st
  end.
Definition draw_row (y : Z) e (s : vga) : vga :=
  let line_idx := scroll_y e + y in
  let s := clear_row y (text_color e) e s in
  if num_lines e <=? line_idx then if show_line_numbers e then cell_at y 0 126 (line_num_color e) s else s
  else
    let s := if show_line_numbers e then put_text y 0 (line_num_color e) (take (Z.to_nat (line_num_width e)) (gutter_text (line_idx + 1) e)) s else s in
    let text_start_x := if show_line_numbers e then line_num_width e else 0 in
    snd (draw_chars y (line_text (line_at e line_idx)) (text_start_x, 0, s) e).

Definition status_text e : list Z :=
  let name := take 30 (if has_filename e then ed_filename e else str "[New File]"%string) in
  let status := name ++ (if modified e then str " [+]"%string else []) in
  let status := status ++ repeat SPACE (40 - length status) in
  status ++ take (60 - length status) (status_message e).
Definition position_text e : list Z :=
  str "Ln "%string ++ number_text (cursor_y e + 1) ++ str ", "%string ++ str "Col "%string ++ number_text (cursor_x e + 1).
Definition editor_draw_status e (s : vga) : vga :=
  let status_y := text_area_height e in
  let s := clear_row status_y (status_color e) e s in
  let pos_info := position_text e in
  let right_pos := screen_width e - Z.of_nat (length pos_info) - 1 in
  let s := put_text status_y right_pos (status_color e) pos_info s in
  put_text status_y 0 (status_color e) (take (Z.to_nat (right_pos - 1)) (status_text e)) s.
Definition editor_update_cursor e (s : vga) : vga :=
  let screen_x := cursor_x e - scroll_x e + (if show_line_numbers e then line_num_width e else 0) in
  let screen_y := cursor_y e - scroll_y e in
  if (0 <=? screen_x) && (screen_x <? screen_width e) && (0 <=? screen_y) && (screen_y <? text_area_height e)
  then vga_enable_cursor true (vga_set_cursor screen_x screen_y s)
  else vga_enable_cursor false s.
Definition editor_draw e (s : vga) : vga :=
  editor_update_cursor e (editor_draw_status e (for_range 0 (text_area_height e) (fun y s => draw_row y e s) s)).

(** The main loop over the events that arrive, one for each round; the state at the end. *)
Fixpoint editor_loop (events : list (option key_event)) e (f : F) (s : vga) : option (editor H * F * vga) :=
  if negb (ed_running e) then Some (e, f, s)
  else
    match events with
    | [] => Some (e, f, s)
    | k :: events => let s := editor_draw e s in '(e, f) ← editor_process_input k e f; editor_loop events e f s
    end.
Definition editor_run (events : list (option key_event)) e (f : F) (s : vga) : option (editor H * F * vga) :=
  let s := vga_enable_cursor true (vga_clear s) in
  '(e, f, s) ← editor_loop events (editor_set_status (str "^S:Save ^Q:Quit ^G:Goto ^F:Find"%string) e) f s;
  Some (e, f, vga_set_cursor 0 0 (vga_enable_cursor true (vga_clear s))).
End Editor.
