(* ===== verification/EditorProps.v ===== *)
(** * What the text editor promises (apps/text_editor/editor.c)

    Lines are zero-terminated texts inside their blocks; the editor is a buffer of text with
    a position in it, and every key keeps it well formed; the bytes of a
    saved text are read back as its lines; a search stops at occurrences. *)
From Stdlib Require Import String.
From S2P Require Import Prelude Memory PageAlloc Pmm Heap HeapSpec Ring Auth Chain VfsBase Vga Editor.
Close Scope string_scope.

(** ** Lines *)

(** The line holds the text [t], with a zero behind it, inside its block. *)
Record line_is (l : line) (t : list Z) : Prop := mk_line_is {
  li_ptr : ln_ptr l <> NULL; li_len : ln_length l = Z.of_nat (length t);
  li_bytes : exists slack, ln_bytes l = t ++ 0 :: slack; li_cap : Z.of_nat (length (ln_bytes l)) = ln_capacity l /\ ln_capacity l <= 2 ^ 40 }.

Lemma line_is_text l t : line_is l t -> line_text l = t.
Proof. intros [_ Hl [slack Hb] _]. unfold line_text. rewrite Hl, Hb, Nat2Z.id. by rewrite take_app_length. Qed.
Lemma line_is_room l t : line_is l t -> Z.of_nat (length t) + 1 <= ln_capacity l.
Proof. intros [_ _ [slack Hb] [Hc _]]. rewrite Hb, length_app in Hc. cbn in Hc. lia. Qed.

Lemma double_until_ok n new needed : 0 < new < 2 ^ 62 -> 0 <= needed < 2 ^ 62 -> needed <= new * 2 ^ Z.of_nat n -> needed <= double_until n new needed /\ new <= double_until n new needed.
Proof.
  revert new. induction n as [|n IH]; intros new Hn Hd Hp; cbn [double_until]; [change (2 ^ Z.of_nat 0) with 1 in Hp; lia|].
  destruct (Z.ltb_spec new needed) as [Hlt|]; [|lia]. rewrite Nat2Z.inj_succ, Z.pow_succ_r in Hp by lia. rewrite u64_id by lia.
  destruct (decide (new * 2 < 2 ^ 62)) as [Hs|Hs]; [destruct (IH (new * 2)); lia|]. destruct n; cbn [double_until]; [lia|]. rewrite (proj2 (Z.ltb_ge (new * 2) needed)) by lia. lia.
Qed.

Section Lines.
Context {H : Type} `{KernelHeap H} `{KernelRealloc H}.
Variable fresh : Z -> Z.

Lemma length_raw_bytes lo n : Z.of_nat (length (raw_bytes fresh lo n)) = Z.max 0 n.
Proof. unfold raw_bytes. rewrite length_map, length_seqZ. lia. Qed.
Lemma create_ok content (h h' : H) l : Z.of_nat (length content) < 2 ^ 40 -> line_create fresh content h = (h', l) -> l = null_line \/ line_is l content.
Proof.
  intros Hc. unfold line_create. cbn zeta. destruct (kh_malloc sizeof_line h) as [h1 p]. destruct (Z.eqb_spec p NULL) as [|Hp]; [intros [= _ <-]; by left|].
  set (cap := if EDITOR_INITIAL_CAPACITY <=? _ then _ else _). assert (Z.of_nat (length content) + 1 <= cap <= 2 ^ 40) as Hcap by (unfold cap, EDITOR_INITIAL_CAPACITY; destruct (Z.leb_spec 1024 (Z.of_nat (length content))); lia).
  destruct (kh_malloc cap h1) as [h2 d]. destruct (d =? NULL); [intros [= _ <-]; by left|]. intros [= _ <-]. right. split; cbn; [done|done|by eexists|]. rewrite length_app. cbn [length]. pose proof (length_raw_bytes (Z.of_nat (length content) + 1) (cap - Z.of_nat (length content) - 1)). lia.
Qed.
Lemma ensure_ok l t needed (h : H) : line_is l t -> 0 <= needed < 2 ^ 60 -> let '(h', l', ok) := line_ensure_capacity fresh l needed h in
  line_is l' t /\ (ok = true -> needed <= ln_capacity l').
Proof.
  intros L Hn. pose proof (line_is_room l t L) as Hroom. pose proof L as [Hp Hl [slack Hb] [Hc1 Hc2]]. unfold line_ensure_capacity. rewrite (proj2 (Z.eqb_neq _ _) Hp). destruct (Z.leb_spec needed (ln_capacity l)) as [|Hlt]; [done|]. cbn zeta.
  set (nc := double_until 64 (ln_capacity l) needed). destruct (double_until_ok 64 (ln_capacity l) needed) as [D1 D2]; [lia|lia|change (2 ^ Z.of_nat 64) with (2 ^ 64); nia|]. fold nc in D1, D2.
  destruct (_ && _) eqn:Eb; [done|]. set (nc' := if EDITOR_MAX_LINE_LENGTH <? nc then _ else _). assert (needed <= nc' /\ ln_capacity l <= nc' <= 4096) as [N1 N2].
  { unfold nc'. apply andb_false_iff in Eb. unfold EDITOR_MAX_LINE_LENGTH in *. destruct (Z.ltb_spec 4096 nc); destruct Eb; zbool; lia. }
  destruct (kh_realloc _ nc' h) as [h1 d]. destruct (d =? NULL); [done|]. split; [|done]. split; cbn; [done|done|exists (slack ++ raw_bytes fresh (ln_capacity l) (nc' - ln_capacity l)); rewrite Hb, <- app_assoc; done|].
  rewrite length_app, Nat2Z.inj_add, length_raw_bytes, Hc1. lia.
Qed.
(** The moves inside the block. *)
Lemma insert_bytes a b c x slack : let pos := Z.of_nat (length a) in
  put_byte pos c (move_bytes (pos + 1) pos (Z.of_nat (length b) + 1) ((a ++ b) ++ 0 :: x :: slack)) = (a ++ c :: b) ++ 0 :: slack.
Proof.
  cbn zeta. unfold put_byte, move_bytes, splice. replace (Z.to_nat (Z.of_nat (length a) + 1)) with (S (length a)) by lia. replace (Z.to_nat (Z.of_nat (length b) + 1)) with (S (length b)) by lia. rewrite Nat2Z.id, <- !app_assoc.
  rewrite (drop_app_length a). assert (take (S (length b)) (b ++ 0 :: x :: slack) = b ++ [0]) as ->.
  { change (b ++ 0 :: x :: slack) with (b ++ [0] ++ x :: slack). rewrite app_assoc. apply take_app_length'. rewrite length_app. cbn. lia. }
  assert (drop (S (length a) + length (b ++ [0])) (a ++ b ++ 0 :: x :: slack) = slack) as ->.
  { replace (a ++ b ++ 0 :: x :: slack) with ((a ++ b ++ [0; x]) ++ slack) by (by rewrite <- !app_assoc). apply drop_app_length'. rewrite !length_app. cbn. lia. }
  assert (exists y, take (S (length a)) (a ++ b ++ 0 :: x :: slack) = a ++ [y]) as [y ->].
  { destruct (b ++ 0 :: x :: slack) as [|y r] eqn:E; [by destruct b|]. exists y. change (a ++ y :: r) with (a ++ [y] ++ r). rewrite app_assoc. apply take_app_length'. rewrite length_app. cbn. lia. }
  rewrite <- !app_assoc. cbn [app]. rewrite insert_app_r_alt by lia. by rewrite Nat.sub_diag.
Qed.
Lemma insert_char_ok l t pos c (h : H) : line_is l t -> (pos <= length t)%nat -> let '(h', l', ok) := line_insert_char fresh l (Z.of_nat pos) c h in
  line_is l' (if ok then take pos t ++ c :: drop pos t else t).
Proof.
  intros L Hp. unfold line_insert_char. pose proof L as [Hl0 Hl _ [_ Hcap]]. rewrite (proj2 (Z.eqb_neq _ _) Hl0), Hl, (proj2 (Z.ltb_ge _ _)) by lia. cbn [orb].
  pose proof (line_is_room l t L). pose proof (ensure_ok l t (Z.of_nat (length t) + 2) h L ltac:(lia)) as He. destruct (line_ensure_capacity _ _ _ _) as [[h1 l1] ok]. destruct He as [L1 Hok]. destruct ok; cbn [negb]; [|done].
  specialize (Hok eq_refl). destruct L1 as [P1 Q1 [slack B1] [C1 C2]]. rewrite Q1, B1. rewrite B1, length_app in C1. cbn [length] in C1. destruct slack as [|x slack]; [cbn in C1; lia|].
  assert (put_byte (Z.of_nat pos) c (move_bytes (Z.of_nat pos + 1) (Z.of_nat pos) (Z.of_nat (length t) - Z.of_nat pos + 1) (t ++ 0 :: x :: slack)) = (take pos t ++ c :: drop pos t) ++ 0 :: slack) as ->.
  { pose proof (insert_bytes (take pos t) (drop pos t) c x slack) as Hi. cbn zeta in Hi. rewrite take_drop, length_take, length_drop in Hi. rewrite <- Hi. do 2 f_equal; lia. }
  split; cbn; [done| |by eexists|].
  - rewrite length_app. cbn. rewrite length_take, length_drop. lia.
  - rewrite !length_app. cbn. rewrite length_take, length_drop. cbn in C1. lia.
Qed.
Lemma delete_char_ok l t pos : line_is l t -> (pos < length t)%nat -> line_is (line_delete_char l (Z.of_nat pos)) (take pos t ++ drop (S pos) t).
Proof.
  intros [P1 Q1 [slack B1] [C1 C2]] Hp. unfold line_delete_char. rewrite (proj2 (Z.eqb_neq _ _) P1), Q1, (proj2 (Z.leb_gt _ _)) by lia. cbn [orb]. unfold move_bytes.
  assert (exists slack', splice (Z.to_nat (Z.of_nat pos)) (take (Z.to_nat (Z.of_nat (length t) - Z.of_nat pos)) (drop (Z.to_nat (Z.of_nat pos + 1)) (ln_bytes l))) (ln_bytes l) = (take pos t ++ drop (S pos) t) ++ 0 :: slack') as [slack' Es].
  { unfold splice. rewrite B1, Nat2Z.id. replace (Z.to_nat (Z.of_nat pos + 1)) with (S pos) by lia. rewrite drop_app_le by lia. rewrite take_app_le by lia.
    set (b := drop (S pos) t). assert (length b = length t - S pos)%nat as Hb by (unfold b; by rewrite length_drop). replace (Z.to_nat (Z.of_nat (length t) - Z.of_nat pos)) with (S (length b)) by lia.
    assert (take (S (length b)) (b ++ 0 :: slack) = b ++ [0]) as -> by (change (b ++ 0 :: slack) with (b ++ [0] ++ slack); rewrite app_assoc; apply take_app_length'; rewrite length_app; cbn; lia).
    eexists. rewrite <- !app_assoc. cbn [app]. done. }
  split; cbn; [done|rewrite length_app, length_take, length_drop; lia|by exists slack'|]. rewrite splice_length; [done|]. rewrite length_take, length_drop, B1, length_app. cbn. lia.
Qed.
Lemma append_ok l t o u : line_is l t -> line_is o u -> Z.of_nat (length t) + Z.of_nat (length u) + 1 <= ln_capacity l -> line_is (line_append l o) (t ++ u).
Proof.
  intros [P1 Q1 [slack B1] [C1 C2]] [P2 Q2 [slack2 B2] _] Hc. unfold line_append. rewrite Q1, Q2, B1, B2, !Nat2Z.id. assert (take (length u) (u ++ 0 :: slack2) = u) as -> by apply take_app_length.
  unfold put_byte, splice. rewrite take_app_length. rewrite B1, length_app in C1. cbn [length] in C1. replace (Z.to_nat (Z.of_nat (length t) + Z.of_nat (length u))) with (length t + length u)%nat by lia.
  rewrite drop_app_ge by lia. replace (length t + length u - length t)%nat with (length u) by lia. set (r := drop (length u) (0 :: slack)). destruct r as [|y r'] eqn:Er.
  { apply (f_equal length) in Er. unfold r in Er. rewrite length_drop in Er. cbn in Er. lia. }
  assert (length (@cons Z 0%Z slack) = length u + S (length r'))%nat as Hlen by (unfold r in Er; apply (f_equal length) in Er; rewrite length_drop in Er; cbn in *; lia).
  rewrite (app_assoc t u), insert_app_r_alt by (rewrite length_app; lia). rewrite length_app, Nat.sub_diag. cbn [list_insert insert]. split; cbn.
  - done.
  - rewrite length_app. lia.
  - by eexists.
  - rewrite !length_app. cbn in *. lia.
Qed.
Lemma truncate_ok l t n : line_is l t -> (n <= length t)%nat -> line_is (line_truncate (Z.of_nat n) l) (take n t).
Proof.
  intros [P1 Q1 [slack B1] [C1 C2]] Hn. unfold line_truncate, put_byte. rewrite Nat2Z.id. split; cbn; [done|rewrite length_take; lia| |by rewrite length_insert].
  rewrite B1. destruct (decide (n = length t)) as [->|Hne].
  - rewrite insert_app_r_alt, Nat.sub_diag by lia. rewrite take_ge by lia. by eexists.
  - rewrite insert_app_l by lia. exists (drop (S n) t ++ 0 :: slack). rewrite insert_take_drop by lia. by rewrite <- app_assoc.
Qed.
End Lines.

(** ** Text with a position *)

(** The lines before a line, each with its newline, and the lines behind it. *)
Definition pre (a : list (list Z)) : list Z := concat (map (fun l => l ++ [NL]) a).
Definition post (b : list (list Z)) : list Z := concat (map (fun l => NL :: l) b).
Lemma pre_snoc a l : pre (a ++ [l]) = pre a ++ l ++ [NL].
Proof. unfold pre. rewrite map_app, concat_app. cbn. by rewrite app_nil_r. Qed.
Lemma post_cons l b : post (l :: b) = NL :: l ++ post b.
Proof. done. Qed.
Lemma take_mid {A} (p l q : list A) x : (x <= length l)%nat -> take (length p + x) (p ++ l ++ q) = p ++ take x l.
Proof. intros Hx. rewrite take_app_ge by lia. replace (length p + x - length p)%nat with x by lia. by rewrite take_app_le. Qed.
Lemma drop_mid {A} (p l q : list A) x : (x <= length l)%nat -> drop (length p + x) (p ++ l ++ q) = drop x l ++ q.
Proof. intros Hx. rewrite drop_app_ge by lia. replace (length p + x - length p)%nat with x by lia. by rewrite drop_app_le. Qed.

(** What the keys do to a text with a position. *)
Inductive edit := EInsert (c : Z) | ENewline | EBackspace | EDelete | ELeft | ERight | EStart | EFinish.
Definition insert_at (c : Z) (t : list Z) (o : nat) : list Z := take o t ++ c :: drop o t.
Definition remove_at (t : list Z) (o : nat) : list Z := take o t ++ drop (S o) t.
Definition buffer_edit (k : edit) (st : list Z * nat) : list Z * nat :=
  let '(t, o) := st in
  match k with
  | EInsert c => (insert_at c t o, S o)
  | ENewline => (insert_at NL t o, S o)
  | EBackspace => if (o =? 0)%nat then st else (remove_at t (o - 1), (o - 1)%nat)
  | EDelete => if (o <? length t)%nat then (remove_at t o, o) else st
  | ELeft => (t, (o - 1)%nat)
  | ERight => (t, Nat.min (S o) (length t))
  | EStart => (t, O)
  | EFinish => (t, length t)
  end.

(** The text of lines does not depend on where the cursor is. *)
Lemma text_lines a l b f r : a ++ l :: b = f :: r -> pre a ++ l ++ post b = f ++ post r.
Proof. revert l f r. induction a as [|s a IH]; intros l f r [= -> <-]; [done|]. unfold pre. cbn. rewrite <- !app_assoc. f_equal. destruct (a ++ l :: b) as [|g q] eqn:E; [by destruct a|]. rewrite post_cons. cbn. f_equal. by apply IH. Qed.
Lemma insert_text c a l x b : (x <= length l)%nat -> insert_at c (pre a ++ l ++ post b) (length (pre a) + x) = pre a ++ (take x l ++ c :: drop x l) ++ post b.
Proof. intros Hx. unfold insert_at. rewrite take_mid, drop_mid by done. by rewrite <- !app_assoc. Qed.
Lemma newline_text a l x b : (x <= length l)%nat -> insert_at NL (pre a ++ l ++ post b) (length (pre a) + x) = pre (a ++ [take x l]) ++ drop x l ++ post b.
Proof. intros Hx. rewrite insert_text by done. by rewrite pre_snoc, <- !app_assoc. Qed.
Lemma remove_text a l x b : (x < length l)%nat -> remove_at (pre a ++ l ++ post b) (length (pre a) + x) = pre a ++ (take x l ++ drop (S x) l) ++ post b.
Proof. intros Hx. unfold remove_at. rewrite <- Nat.add_succ_r, take_mid, drop_mid by lia. by rewrite <- !app_assoc. Qed.
Lemma join_text a l n b : remove_at (pre a ++ l ++ post (n :: b)) (length (pre a) + length l) = pre a ++ (l ++ n) ++ post b.
Proof.
  unfold remove_at. rewrite take_mid, firstn_all by done. rewrite post_cons. replace (pre a ++ l ++ NL :: n ++ post b) with ((pre a ++ l ++ [NL]) ++ n ++ post b) by (by rewrite <- !app_assoc).
  rewrite drop_app_length' by (rewrite !length_app; cbn; lia). by rewrite <- !app_assoc.
Qed.
Lemma length_pre_snoc a l : length (pre (a ++ [l])) = S (length (pre a) + length l).
Proof. rewrite pre_snoc, !length_app. cbn. lia. Qed.

(** A file system that keeps, beside what it does, the bytes that it was asked to write. *)
Record recorded (G : Type) := mk_recorded { rec_files : G; rec_bytes : list Z }.
Arguments mk_recorded {G}.
Arguments rec_files {G}.
Arguments rec_bytes {G}.
#[export] Instance recorded_store {G} `{FileStore G} : FileStore (recorded G) := {|
  file_open name flags r := let '(f, h) := file_open name flags (rec_files r) in (mk_recorded f (rec_bytes r), h);
  file_size h r := file_size h (rec_files r);
  file_read h size r := let '(f, n, bs) := file_read h size (rec_files r) in (mk_recorded f (rec_bytes r), n, bs);
  file_write h bs r := let '(f, n) := file_write h bs (rec_files r) in (mk_recorded f (rec_bytes r ++ bs), n);
  file_close h r := mk_recorded (file_close h (rec_files r)) (rec_bytes r) |}.

Section Buffer.
Context {H F : Type} `{KernelHeap H} `{KernelRealloc H} `{FileStore F}.
Variable fresh : Z -> Z.
Implicit Types e : editor H.

(** The lines are [a], then [l] with the cursor before its character [x], then [b]. *)
Definition zip e (a : list (list Z)) (l : list Z) (x : nat) (b : list (list Z)) : Prop :=
  (exists A L B, lines e = A ++ L :: B /\ Forall2 line_is A a /\ line_is L l /\ Forall2 line_is B b) /\
  cursor_y e = Z.of_nat (length a) /\ cursor_x e = Z.of_nat x /\ (x <= length l)%nat /\ 256 <= lines_capacity e <= 2 ^ 40 /\ 0 <= text_area_height e.
Definition shows e (t : list Z) (o : nat) : Prop := exists a l x b, zip e a l x b /\ t = pre a ++ l ++ post b /\ o = (length (pre a) + x)%nat.

Definition run_edit (k : edit) e : editor H :=
  match k with
  | EInsert c => editor_insert_char fresh c e
  | ENewline => editor_newline fresh e
  | EBackspace => editor_delete_char fresh e
  | EDelete => editor_delete_char_forward fresh e
  | ELeft => editor_move_cursor (-1) 0 e
  | ERight => editor_move_cursor 1 0 e
  | EStart => editor_goto_start e
  | EFinish => editor_goto_end e
  end.
(** The limits of the editor are not reached: lines of 4096 bytes, 65536 lines. *)
Definition fits (k : edit) e : Prop :=
  match k with
  | EInsert _ => ln_length (line_at e (cursor_y e)) + 2 <= EDITOR_MAX_LINE_LENGTH
  | ENewline => num_lines e < EDITOR_MAX_LINES
  | EBackspace => cursor_x e = 0 -> ln_length (line_at e (cursor_y e - 1)) + ln_length (line_at e (cursor_y e)) + 1 <= EDITOR_MAX_LINE_LENGTH
  | EDelete => cursor_x e = ln_length (line_at e (cursor_y e)) -> ln_length (line_at e (cursor_y e)) + ln_length (line_at e (cursor_y e + 1)) + 1 <= EDITOR_MAX_LINE_LENGTH
  | _ => True
  end.

Lemma line_at_app e A L B : lines e = A ++ L :: B -> line_at e (Z.of_nat (length A)) = L.
Proof. intros E. unfold line_at. rewrite E, Nat2Z.id. by rewrite list_lookup_middle. Qed.
Lemma put_line_app e A L B L' : lines e = A ++ L :: B -> lines (put_line (Z.of_nat (length A)) L' e) = A ++ L' :: B.
Proof. intros E. unfold put_line. cbn. rewrite E, Nat2Z.id. rewrite insert_app_r_alt by lia. by rewrite Nat.sub_diag. Qed.
(** Scrolling leaves text and cursor alone. *)
Lemma scroll_frame e : let e' := editor_scroll_to_cursor e in lines e' = lines e /\ cursor_x e' = cursor_x e /\ cursor_y e' = cursor_y e /\ lines_capacity e' = lines_capacity e /\ text_area_height e' = text_area_height e.
Proof. unfold editor_scroll_to_cursor. cbn zeta. repeat case_match; done. Qed.
Lemma zip_scroll e a l x b : zip e a l x b -> zip (editor_scroll_to_cursor e) a l x b.
Proof. unfold zip. destruct (scroll_frame e) as (-> & -> & -> & -> & ->). done. Qed.

(** The state of a zipper, with the lines around the cursor. *)
Lemma zip_num e a l x b : zip e a l x b -> num_lines e = Z.of_nat (length a + S (length b)).
Proof. intros ((A & L & B & E & FA & FL & FB) & _). unfold num_lines. rewrite E, length_app. cbn. apply Forall2_length in FA, FB. lia. Qed.
Lemma zip_cur e a l x b : zip e a l x b -> line_is (line_at e (cursor_y e)) l.
Proof. intros ((A & L & B & E & FA & FL & FB) & Hy & _). rewrite Hy, <- (Forall2_length _ _ _ FA). by rewrite (line_at_app e A L B). Qed.
(** The line under the cursor is replaced. *)
Lemma zip_put e a l x b L' l' x' : zip e a l x b -> line_is L' l' -> (x' <= length l')%nat -> zip (set_cursor (Z.of_nat x') (cursor_y e) (put_line (cursor_y e) L' e)) a l' x' b.
Proof.
  intros ((A & L & B & E & FA & FL & FB) & Hy & Hx & Hxl & Hc) HL Hx'. split; [|by do 3 (split; [done|])]. exists A, L', B. split; [|done]. cbn. rewrite Hy, <- (Forall2_length _ _ _ FA). by apply (put_line_app e A L B).
Qed.
Lemma zip_same e e' a l x b : lines e' = lines e -> cursor_x e' = cursor_x e -> cursor_y e' = cursor_y e -> lines_capacity e' = lines_capacity e -> text_area_height e' = text_area_height e -> zip e a l x b -> zip e' a l x b.
Proof. unfold zip. intros -> -> -> -> ->. done. Qed.
Lemma clamp_zip e a l x b : zip e a l x b -> clamp_x (ln_length (line_at e (cursor_y e))) e = e.
Proof. intros W. pose proof W as (_ & _ & Hx & Hxl & _). pose proof (zip_cur _ _ _ _ _ W) as [_ Hl _ _]. unfold clamp_x. by rewrite Hl, Hx, (proj2 (Z.ltb_ge _ _)) by lia. Qed.

(** An inserted character; the line is unchanged when it is refused. *)
Lemma insert_char_zip c e a l x b : zip e a l x b -> let e' := editor_insert_char fresh c e in
  zip e' a (take x l ++ c :: drop x l) (S x) b \/ (zip e' a l x b /\ snd (line_insert_char fresh (line_at e (cursor_y e)) (cursor_x e) c (ed_heap e)) = false).
Proof.
  intros W. cbn zeta. pose proof (zip_num _ _ _ _ _ W) as Hn. pose proof (zip_cur _ _ _ _ _ W) as Hl. unfold editor_insert_char. pose proof (clamp_zip _ _ _ _ _ W) as Ec.
  pose proof W as (_ & Hy & Hx & Hxl & _). rewrite (proj2 (Z.leb_gt _ _)) by lia. cbn zeta. rewrite Ec. rewrite Hx.
  pose proof (insert_char_ok fresh (line_at e (cursor_y e)) l x c (ed_heap e) Hl Hxl) as Hi. destruct (line_insert_char _ _ _ _ _) as [[h l'] ok].
  assert (zip (set_ed_heap h e) a l x b) as Z1 by (by apply (zip_same e)). destruct ok.
  - left. replace (cursor_x (put_line (cursor_y e) l' (set_ed_heap h e)) + 1) with (Z.of_nat (S x)) by (cbn; lia).
    apply (zip_put _ _ _ _ _ l' (take x l ++ c :: drop x l) (S x)) in Z1; [|done|rewrite length_app; cbn; rewrite length_take, length_drop; lia]. revert Z1. by apply zip_same.
  - right. split; [|done]. apply (zip_put _ _ _ _ _ l' l x) in Z1; [|done|done]. revert Z1. apply zip_same; done.
Qed.
Lemma remove_zip_fwd e a l x n b : zip e a l x (n :: b) -> zip (editor_remove_line (cursor_y e + 1) e) a l x b.
Proof.
  intros W. pose proof (zip_num _ _ _ _ _ W) as Hn. destruct W as ((A & L & B & E & FA & FL & FB) & Hy & Hx & Hxl & Hc). unfold editor_remove_line. rewrite (proj2 (Z.leb_gt _ _)) by (cbn in Hn; lia).
  apply Forall2_cons_inv_r in FB as (N & B' & HN & FB & ->). split; [|by do 3 (split; [done|])]. exists A, L, B'. split; [|done]. cbn. rewrite E, Hy, <- (Forall2_length _ _ _ FA).
  replace (Z.to_nat (Z.of_nat (length A) + 1)) with (length A + 1)%nat by lia. rewrite take_app_ge, drop_app_ge by lia. replace (length A + 1 - length A)%nat with 1%nat by lia. replace (length A + 1 + 1 - length A)%nat with 2%nat by lia. cbn. by rewrite <- app_assoc.
Qed.
(** Joining: the line gets the text of the next one when its block can hold both. *)
Lemma join_zip e a l x n b : zip e a l x (n :: b) -> let e' := join_lines fresh (cursor_y e) e in
  zip e' a (l ++ n) x (n :: b) \/ (zip e' a l x (n :: b) /\ snd (line_ensure_capacity fresh (line_at e (cursor_y e)) (Z.of_nat (length l) + Z.of_nat (length n) + 1) (ed_heap e)) = false).
Proof.
  intros W. cbn zeta. pose proof (zip_cur _ _ _ _ _ W) as Hl. pose proof W as ((A & L & B & E & FA & FL & FB) & Hy & Hx & Hxl & Hc).
  apply Forall2_cons_inv_r in FB as (N & B' & HN & FB & ->). assert (line_at e (cursor_y e + 1) = N) as EN.
  { rewrite Hy, <- (Forall2_length _ _ _ FA). replace (Z.of_nat (length A) + 1) with (Z.of_nat (length (A ++ [L]))) by (rewrite length_app; cbn; lia). apply (line_at_app e (A ++ [L]) N B'). by rewrite <- app_assoc. }
  unfold join_lines. rewrite EN. pose proof Hl as [_ Hl1 _ [_ Hl2]]. pose proof HN as [_ Hn1 _ [_ Hn2]]. pose proof (line_is_room _ _ Hl). pose proof (line_is_room _ _ HN). rewrite Hn1.
  destruct (Z.ltb_spec 0 (Z.of_nat (length n))) as [Hpos|Hz].
  - rewrite Hl1. pose proof (ensure_ok fresh (line_at e (cursor_y e)) l (Z.of_nat (length l) + Z.of_nat (length n) + 1) (ed_heap e) Hl ltac:(lia)) as He. destruct (line_ensure_capacity _ _ _ _) as [[h l'] ok]. destruct He as [L' Hok].
    assert (zip (set_ed_heap h e) a l x (n :: b)) as Z1 by (by apply (zip_same e)). destruct ok.
    + left. apply (zip_put _ _ _ _ _ (line_append l' N) (l ++ n) x) in Z1; [|apply append_ok; [done|done|by apply Hok]|rewrite length_app; lia]. revert Z1. apply zip_same; done.
    + right. split; [|done]. apply (zip_put _ _ _ _ _ l' l x) in Z1; [|done|done]. revert Z1. apply zip_same; done.
  - left. assert (n = []) as -> by (apply nil_length_inv; lia). by rewrite app_nil_r.
Qed.
(** Joining and removing lines do not look at the cursor. *)
Lemma join_cursor y cx cy e : join_lines fresh y (set_cursor cx cy e) = set_cursor cx cy (join_lines fresh y e).
Proof. unfold join_lines, line_at, put_line. cbn. destruct (0 <? _); [|done]. by destruct (line_ensure_capacity _ _ _ _) as [[h l] ok]. Qed.
Lemma remove_cursor pos cx cy e : editor_remove_line pos (set_cursor cx cy e) = set_cursor cx cy (editor_remove_line pos e).
Proof. unfold editor_remove_line, num_lines, line_at. cbn. by destruct (_ <=? pos). Qed.
(** The cursor at the end of the line before. *)
Lemma zip_prev e a p l x b : zip e (a ++ [p]) l x b -> zip (set_cursor (Z.of_nat (length p)) (cursor_y e - 1) e) a p (length p) (l :: b).
Proof.
  intros ((A & L & B & E & FA & FL & FB) & Hy & Hx & Hxl & Hc). apply Forall2_app_inv_r in FA as (A' & P & FA & FP & ->). apply Forall2_cons_inv_r in FP as (P' & ? & HP & HN & ->). apply Forall2_nil_inv_r in HN as ->.
  split; [|cbn; rewrite Hy, length_app; cbn; split_and!; lia]. exists A', P', (L :: B). split; [cbn; by rewrite E, <- app_assoc|]. split; [done|]. split; [done|]. by constructor.
Qed.
Lemma zip_next e a l x n b : zip e a l x (n :: b) -> zip (set_cursor 0 (cursor_y e + 1) e) (a ++ [l]) n 0 b.
Proof.
  intros ((A & L & B & E & FA & FL & FB) & Hy & Hx & Hxl & Hc). apply Forall2_cons_inv_r in FB as (N & B' & HN & FB & ->).
  split; [|cbn; rewrite Hy, length_app; cbn; split_and!; lia]. exists (A ++ [L]), N, B'. split; [cbn; by rewrite E, <- app_assoc|]. split; [|done]. apply Forall2_app; [done|]. by constructor.
Qed.
Lemma line_at_prev e a p l x b : zip e (a ++ [p]) l x b -> line_is (line_at e (cursor_y e - 1)) p.
Proof. intros W. apply zip_prev in W. by apply zip_cur in W. Qed.
Lemma line_at_next e a l x n b : zip e a l x (n :: b) -> line_is (line_at e (cursor_y e + 1)) n.
Proof. intros W. apply zip_next in W. by apply zip_cur in W. Qed.

(** Inserting the line [n] behind the cursor's line. *)
Lemma insert_line_zip e a l x b N n e' ok : zip e a l x b -> line_is N n -> editor_insert_line (cursor_y e + 1) N e = (e', ok) ->
  (ok = true /\ zip e' a l x (n :: b)) \/ (ok = false /\ zip e' a l x b).
Proof.
  intros W HN. pose proof (zip_num _ _ _ _ _ W) as Hn. pose proof W as ((A & L & B & E & FA & FL & FB) & Hy & Hx & Hxl & Hc). unfold editor_insert_line. destruct HN as [HN0 HN1 HN2 HN3] eqn:EN. clear EN.
  rewrite (proj2 (Z.eqb_neq _ _) HN0), (proj2 (Z.ltb_ge _ _)) by lia. cbn [orb]. destruct (Z.leb_spec EDITOR_MAX_LINES (num_lines e)) as [|Hm]; [intros [= <- <-]; by right|]. cbn zeta.
  assert (forall e1, zip e1 a l x b -> cursor_y e1 = cursor_y e -> zip (set_lines (take (Z.to_nat (cursor_y e + 1)) (lines e1) ++ N :: drop (Z.to_nat (cursor_y e + 1)) (lines e1)) e1) a l x (n :: b)) as Hins.
  { intros e1 ((A1 & L1 & B1 & E1 & FA1 & FL1 & FB1) & Hy1 & Hx1 & _ & Hc1) Ey. split; [|by do 3 (split; [done|])]. exists A1, L1, (N :: B1). split; [|split; [done|]; split; [done|]; by constructor].
    cbn. rewrite E1, Hy, <- (Forall2_length _ _ _ FA1). replace (Z.to_nat (Z.of_nat (length A1) + 1)) with (length A1 + 1)%nat by lia. rewrite take_app_ge, drop_app_ge by lia. replace (length A1 + 1 - length A1)%nat with 1%nat by lia. cbn. by rewrite <- app_assoc. }
  destruct (Z.leb_spec (lines_capacity e) (num_lines e)) as [Hle|]; [|intros [= <- <-]; left; split; [done|]; by apply Hins].
  destruct (kh_realloc _ _ _) as [h p]. assert (zip (set_ed_heap h e) a l x b) as W1 by (by apply (zip_same e)). destruct (p =? NULL); [intros [= <- <-]; by right|]. intros [= <- <-]. left. split; [done|].
  apply (Hins (set_array p (lines_capacity e * 2) (set_ed_heap h e))); [|done]. destruct W1 as (? & ? & ? & ? & ? & ?). split; [done|]. cbn. do 3 (split; [done|]). unfold EDITOR_MAX_LINES in Hm. lia.
Qed.
(** A newline: done, refused for want of memory, or the rest of the line is lost. *)
Lemma newline_zip e a l x b : zip e a l x b -> let e' := editor_newline fresh e in
  zip e' (a ++ [take x l]) (drop x l) 0 b \/
  (zip e' a l x b /\ snd (line_create fresh (drop x l) (ed_heap e)) = null_line) \/
  (zip e' a (take x l) x b /\ exists e2 N, line_is N (drop x l) /\ zip e2 a (take x l) x b /\ snd (editor_insert_line (cursor_y e2 + 1) N e2) = false /\
    lines_ptr e2 = lines_ptr e /\ lines_capacity e2 = lines_capacity e /\ num_lines e2 = num_lines e /\ ed_heap e2 = fst (line_create fresh (drop x l) (ed_heap e))).
Proof.
  intros W. cbn zeta. pose proof (zip_num _ _ _ _ _ W) as Hn. pose proof (zip_cur _ _ _ _ _ W) as Hl. pose proof (clamp_zip _ _ _ _ _ W) as Ec. pose proof W as (_ & Hy & Hx & Hxl & _).
  unfold editor_newline. rewrite (proj2 (Z.leb_gt _ _)) by lia. cbn zeta. rewrite Ec, Hx.
  assert (take (Z.to_nat (ln_length (line_at e (cursor_y e)) - Z.of_nat x)) (drop (Z.to_nat (Z.of_nat x)) (ln_bytes (line_at e (cursor_y e)))) = drop x l) as ->.
  { destruct Hl as [_ Q [slack B] _]. rewrite Q, B, Nat2Z.id, drop_app_le by lia. replace (Z.to_nat (Z.of_nat (length l) - Z.of_nat x)) with (length (drop x l)) by (rewrite length_drop; lia). apply take_app_length. }
  pose proof (line_is_room _ _ Hl) as Hr. pose proof Hl as [_ _ _ [_ Hcap]]. destruct (line_create fresh (drop x l) (ed_heap e)) as [h N] eqn:EN. assert (zip (set_ed_heap h e) a l x b) as W1 by (by apply (zip_same e)).
  destruct (create_ok fresh (drop x l) (ed_heap e) h N ltac:(rewrite length_drop; lia) EN) as [->|HN]; [right; left; split; [by rewrite Z.eqb_refl|done]|]. rewrite (proj2 (Z.eqb_neq _ _) (li_ptr _ _ HN)).
  change (cursor_y (set_ed_heap h e)) with (cursor_y e). set (e2 := put_line (cursor_y e) (line_truncate (Z.of_nat x) (line_at e (cursor_y e))) (set_ed_heap h e)). assert (zip e2 a (take x l) x b) as W2.
  { apply (zip_put _ _ _ _ _ (line_truncate (Z.of_nat x) (line_at e (cursor_y e))) (take x l) x) in W1; [|by apply truncate_ok|rewrite length_take; lia]. revert W1. by apply zip_same. }
  destruct (editor_insert_line (cursor_y e2 + 1) N e2) as [e3 ok] eqn:E3.
  destruct (insert_line_zip _ _ _ _ _ _ _ _ _ W2 HN E3) as [[-> W3]|[-> W3]].
  - left. apply zip_next in W3. revert W3. by apply zip_same.
  - right. right. split; [revert W3; by apply zip_same|]. exists e2, N. rewrite E3. do 5 (split; [done|]). split; [unfold num_lines; cbn; by rewrite length_insert|done].
Qed.

(** The cursor anywhere on the text. *)
Lemma zip_any e a l x b a' l' x' b' : zip e a l x b -> a ++ l :: b = a' ++ l' :: b' -> (x' <= length l')%nat ->
  zip (set_cursor (Z.of_nat x') (Z.of_nat (length a')) e) a' l' x' b'.
Proof.
  intros ((A & L & B & E & FA & FL & FB) & _ & _ & _ & Hc) Eq Hx. assert (Forall2 line_is (A ++ L :: B) (a' ++ l' :: b')) as F' by (rewrite <- Eq; apply Forall2_app; [done|by constructor]).
  apply Forall2_app_inv_r in F' as (A' & R & FA' & FR & Er). apply Forall2_cons_inv_r in FR as (L' & B' & HL & FB' & ->).
  split; [|by do 3 (split; [done|])]. exists A', L', B'. cbn. by rewrite E, Er.
Qed.
(** A deletion inside the line. *)
Lemma delete_zip e a l x b y : zip e a l x b -> (y < length l)%nat -> (y <= x)%nat ->
  zip (set_cursor (Z.of_nat y) (cursor_y e) (put_line (cursor_y e) (line_delete_char (line_at e (cursor_y e)) (Z.of_nat y)) e)) a (take y l ++ drop (S y) l) y b.
Proof.
  intros W Hy Hyx. pose proof (zip_cur _ _ _ _ _ W) as Hl. eapply zip_put; [done|by apply delete_char_ok|]. rewrite length_app, length_take. lia.
Qed.
(** Backspace at the start of a line. *)
Lemma backspace_zip e a p l b : zip e (a ++ [p]) l 0 b -> let e' := editor_delete_char fresh e in zip e' a (p ++ l) (length p) b \/
  (zip e' a p (length p) b /\ snd (line_ensure_capacity fresh (line_at e (cursor_y e - 1)) (Z.of_nat (length p) + Z.of_nat (length l) + 1) (ed_heap e)) = false).
Proof.
  intros W. cbn zeta. pose proof (zip_prev _ _ _ _ _ _ W) as W1. pose proof (line_at_prev _ _ _ _ _ _ W) as [_ Hp _ _]. pose proof W as (_ & Hy & Hx & _). rewrite length_app in Hy. cbn [length] in Hy.
  unfold editor_delete_char. rewrite Hx, (proj2 (Z.ltb_lt 0 (cursor_y e))) by lia. cbn [Z.ltb Z.compare]. rewrite Hp. set (y := cursor_y e) in *. set (n := Z.of_nat (length p)) in *.
  pose proof (join_zip _ _ _ _ _ _ W1) as J. cbn zeta in J. change (cursor_y (set_cursor n (y - 1) e)) with (y - 1) in J. rewrite join_cursor in J. rewrite join_cursor, remove_cursor. cbn zeta.
  assert (forall l' e1, zip (set_cursor n (y - 1) e1) a l' (length p) (l :: b) ->
    zip (set_modified true (set_cursor n (y - 1) (editor_remove_line y e1))) a l' (length p) b) as Hdel.
  { intros l' e1 J1. apply remove_zip_fwd in J1. change (cursor_y (set_cursor n (y - 1) e1)) with (y - 1) in J1. rewrite remove_cursor in J1. replace (y - 1 + 1) with y in J1 by lia. revert J1. by apply zip_same. }
  destruct J as [J|[J Hf]]; [left|right; split; [|done]]; by apply Hdel in J.
Qed.
(** Delete at the end of a line. *)
Lemma delete_end_zip e a l n b : zip e a l (length l) (n :: b) -> let e' := editor_delete_char_forward fresh e in zip e' a (l ++ n) (length l) b \/
  (zip e' a l (length l) b /\ snd (line_ensure_capacity fresh (line_at e (cursor_y e)) (Z.of_nat (length l) + Z.of_nat (length n) + 1) (ed_heap e)) = false).
Proof.
  intros W. cbn zeta. pose proof (zip_num _ _ _ _ _ W) as Hn. pose proof (zip_cur _ _ _ _ _ W) as [_ Hl _ _]. pose proof W as (_ & Hy & Hx & _). cbn in Hn.
  unfold editor_delete_char_forward. rewrite Hx, Hl, Z.ltb_irrefl, (proj2 (Z.leb_gt _ _)), (proj2 (Z.ltb_lt _ _)) by lia. cbn zeta.
  assert (cursor_y (join_lines fresh (cursor_y e) e) = cursor_y e) as Ey by (unfold join_lines, put_line; destruct (0 <? _); [|done]; by destruct (line_ensure_capacity _ _ _ _) as [[h' l'] ok]).
  destruct (join_zip _ _ _ _ _ _ W) as [J|[J Hf]]; [left|right; split; [|done]]; apply remove_zip_fwd in J; rewrite Ey in J; (revert J; by apply zip_same).
Qed.

(** *** Moves *)

Lemma left_zip e a l x b : zip e a l x b -> let e' := editor_move_cursor (-1) 0 e in
  match x with
  | S x => zip e' a l x b
  | O => match a with [] => zip e' a l 0 b | _ => forall r p, a = r ++ [p] -> zip e' r p (length p) (l :: b) end
  end.
Proof.
  intros W. cbn zeta. pose proof (zip_num _ _ _ _ _ W) as Hn. pose proof (zip_cur _ _ _ _ _ W) as [_ Hl _ _]. pose proof W as (_ & Hy & Hx & Hxl & _).
  unfold editor_move_cursor. cbn zeta. replace (cursor_y e + 0) with (cursor_y e) by lia. rewrite (proj2 (Z.ltb_ge (cursor_y e) 0)), (proj2 (Z.leb_gt (num_lines e) (cursor_y e))) by lia. rewrite Hl, Hx.
  destruct x as [|x].
  - change (Z.of_nat 0 + -1 <? 0) with true. cbv iota. destruct a as [|s a]; [rewrite Hy; change (0 <? Z.of_nat (length (@nil (list Z)))) with false; cbv iota; apply zip_scroll; by apply (zip_any e [] l 0 b [] l 0 b)|]. intros r p E.
    rewrite (proj2 (Z.ltb_lt 0 (cursor_y e))) by (rewrite Hy; cbn; lia). apply zip_scroll. rewrite E in W. pose proof (line_at_prev _ _ _ _ _ _ W) as [_ -> _ _]. by apply zip_prev in W.
  - rewrite (proj2 (Z.ltb_ge _ 0)), (proj2 (Z.ltb_ge (Z.of_nat (length l)) _)) by lia. apply zip_scroll. rewrite Hy. replace (Z.of_nat (S x) + -1) with (Z.of_nat x) by lia. eapply zip_any; [done|done|lia].
Qed.
Lemma right_zip e a l x b : zip e a l x b -> let e' := editor_move_cursor 1 0 e in
  if (x <? length l)%nat then zip e' a l (S x) b else match b with [] => zip e' a l x b | n :: b => zip e' (a ++ [l]) n 0 b end.
Proof.
  intros W. cbn zeta. pose proof (zip_num _ _ _ _ _ W) as Hn. pose proof (zip_cur _ _ _ _ _ W) as [_ Hl _ _]. pose proof W as (_ & Hy & Hx & Hxl & _).
  unfold editor_move_cursor. cbn zeta. replace (cursor_y e + 0) with (cursor_y e) by lia. rewrite (proj2 (Z.ltb_ge (cursor_y e) 0)), (proj2 (Z.leb_gt (num_lines e) (cursor_y e))) by lia. rewrite Hl, Hx.
  rewrite (proj2 (Z.ltb_ge _ 0)) by lia. destruct (Nat.ltb_spec x (length l)) as [Hlt|Hge].
  - rewrite (proj2 (Z.ltb_ge (Z.of_nat (length l)) _)) by lia. apply zip_scroll. rewrite Hy. replace (Z.of_nat x + 1) with (Z.of_nat (S x)) by lia. by eapply zip_any.
  - rewrite (proj2 (Z.ltb_lt (Z.of_nat (length l)) _)) by lia. destruct b as [|n b]; cbn in Hn.
    + rewrite (proj2 (Z.ltb_ge (cursor_y e) _)) by lia. apply zip_scroll. assert (x = length l) as -> by lia. rewrite Hy. by eapply zip_any.
    + rewrite (proj2 (Z.ltb_lt (cursor_y e) _)) by lia. apply zip_scroll. by eapply zip_next.
Qed.
Lemma start_zip e a l x b : zip e a l x b -> exists f r, a ++ l :: b = f :: r /\ zip (editor_goto_start e) [] f 0 r.
Proof.
  intros W. destruct (a ++ l :: b) as [|f r] eqn:E; [by destruct a|]. exists f, r. split; [done|]. unfold editor_goto_start. apply zip_scroll. apply (zip_any e a l x b [] f 0 r); [done|done|lia].
Qed.
Lemma finish_zip e a l x b : zip e a l x b -> exists i n, a ++ l :: b = i ++ [n] /\ zip (editor_goto_end e) i n (length n) [].
Proof.
  intros W. pose proof (zip_num _ _ _ _ _ W) as Hn. destruct (exists_last (l := a ++ l :: b)) as (i & n & E); [by destruct a|]. exists i, n. split; [done|]. unfold editor_goto_end. rewrite (proj2 (Z.eqb_neq _ _)) by lia. cbn zeta. apply zip_scroll.
  pose proof (zip_any e a l x b i n (length n) [] W E ltac:(lia)) as W1. pose proof (zip_cur _ _ _ _ _ W1) as [_ Hl _ _]. cbn in Hl. assert (num_lines e - 1 = Z.of_nat (length i)) as ->.
  { apply (f_equal length) in E. rewrite !length_app in E. cbn in E. lia. }
  change (line_at e (Z.of_nat (length i))) with (line_at (set_cursor (Z.of_nat (length n)) (Z.of_nat (length i)) e) (Z.of_nat (length i))). by rewrite Hl.
Qed.

(** ** The editor is a buffer *)

Lemma shows_zip e a l x b t o : zip e a l x b -> t = pre a ++ l ++ post b -> o = (length (pre a) + x)%nat -> shows e t o.
Proof. intros W -> ->. by exists a, l, x, b. Qed.
Lemma shows_left e t o : shows e t o -> shows (editor_move_cursor (-1) 0 e) t (o - 1).
Proof.
  intros (a & l & x & b & W & -> & ->). pose proof (left_zip _ _ _ _ _ W) as W'. cbn zeta in W'. destruct x as [|x]; [|eapply shows_zip; [done|done|lia]].
  destruct a as [|s a]; [eapply shows_zip; [done|done|cbn; lia]|]. destruct (exists_last (l := s :: a)) as (r & p & E); [done|]. eapply shows_zip; [by eapply W'| |]; rewrite E.
  - by rewrite pre_snoc, post_cons, <- !app_assoc.
  - rewrite length_pre_snoc. lia.
Qed.
Lemma shows_right e t o : shows e t o -> shows (editor_move_cursor 1 0 e) t (Nat.min (S o) (length t)).
Proof.
  intros (a & l & x & b & W & -> & ->). pose proof (right_zip _ _ _ _ _ W) as W'. pose proof W as (_ & _ & _ & Hxl & _). cbn zeta in W'. destruct (Nat.ltb_spec x (length l)).
  - eapply shows_zip; [done|done|]. rewrite !length_app. lia.
  - destruct b as [|n b]; (eapply shows_zip; [done| |]).
    + done.
    + rewrite !length_app. change (length (post [])) with O. lia.
    + by rewrite pre_snoc, post_cons, <- !app_assoc.
    + rewrite length_pre_snoc, post_cons, !length_app. cbn [length]. rewrite length_app. lia.
Qed.
Lemma shows_start e t o : shows e t o -> shows (editor_goto_start e) t 0.
Proof. intros (a & l & x & b & W & -> & ->). destruct (start_zip _ _ _ _ _ W) as (f & r & E & W'). eapply shows_zip; [done| |done]. by apply text_lines. Qed.
Lemma shows_finish e t o : shows e t o -> shows (editor_goto_end e) t (length t).
Proof.
  intros (a & l & x & b & W & -> & ->). destruct (finish_zip _ _ _ _ _ W) as (i & n & E & W'). assert (pre a ++ l ++ post b = pre i ++ n ++ post []) as Et.
  { destruct (a ++ l :: b) as [|f r] eqn:Ef; [by destruct a|]. rewrite (text_lines a l b f r Ef). by rewrite (text_lines i n [] f r (eq_sym E)). }
  rewrite Et. eapply shows_zip; [done|done|]. rewrite !length_app. cbn. lia.
Qed.

(** *** Memory

    What an edit asks of the heap, as the answers to its own requests. A line that is too small
    asks for a larger block, a new line for two blocks, and a full array of lines for a larger
    one. *)
Definition grown (l : line) (needed : Z) : Z := let n := double_until 64 (ln_capacity l) needed in if EDITOR_MAX_LINE_LENGTH <? n then EDITOR_MAX_LINE_LENGTH else n.
Definition grow_served (l : line) (needed : Z) (h : H) : Prop := ln_capacity l < needed -> snd (kh_realloc (ln_data l) (grown l needed) h) <> NULL.
Definition array_served e (h : H) : Prop := lines_capacity e <= num_lines e -> snd (kh_realloc (lines_ptr e) (lines_capacity e * 2 * sizeof_line_ptr) h) <> NULL.
Definition line_served (length : Z) e : Prop :=
  let '(h1, p) := kh_malloc sizeof_line (ed_heap e) in
  let '(h2, d) := kh_malloc (if EDITOR_INITIAL_CAPACITY <=? length then length + 1 else EDITOR_INITIAL_CAPACITY) h1 in
  p <> NULL /\ d <> NULL /\ array_served e h2.
Definition served (k : edit) e : Prop :=
  let y := cursor_y e in
  let l := line_at e y in
  match k with
  | EInsert _ => grow_served l (ln_length l + 2) (ed_heap e)
  | ENewline => line_served (ln_length l - cursor_x e) e
  | EBackspace => cursor_x e = 0 -> 0 < y -> grow_served (line_at e (y - 1)) (ln_length (line_at e (y - 1)) + ln_length l + 1) (ed_heap e)
  | EDelete => cursor_x e = ln_length l -> y < num_lines e - 1 -> grow_served l (ln_length l + ln_length (line_at e (y + 1)) + 1) (ed_heap e)
  | _ => True
  end.

Lemma ensure_served l t needed (h : H) : line_is l t -> 0 <= needed <= EDITOR_MAX_LINE_LENGTH -> grow_served l needed h -> snd (line_ensure_capacity fresh l needed h) = true.
Proof.
  intros L Hn Hg. destruct L as [Hp _ _ _]. unfold line_ensure_capacity. rewrite (proj2 (Z.eqb_neq _ _) Hp). destruct (Z.leb_spec needed (ln_capacity l)) as [|Hlt]; [done|]. cbn zeta.
  rewrite (proj2 (Z.ltb_ge EDITOR_MAX_LINE_LENGTH needed)), andb_false_r by lia. specialize (Hg Hlt). unfold grown in Hg. cbn zeta in Hg. destruct (kh_realloc _ _ h) as [h' d]. cbn [snd] in Hg. by rewrite (proj2 (Z.eqb_neq _ _) Hg).
Qed.
Lemma insert_served l t pos c (h : H) : line_is l t -> (pos <= length t)%nat -> ln_length l + 2 <= EDITOR_MAX_LINE_LENGTH -> grow_served l (ln_length l + 2) h -> snd (line_insert_char fresh l (Z.of_nat pos) c h) = true.
Proof.
  intros L Hp Hn Hg. unfold line_insert_char. pose proof L as [Hl0 Hl _ _]. rewrite (proj2 (Z.eqb_neq _ _) Hl0), (proj2 (Z.ltb_ge _ _)) by lia. cbn [orb].
  pose proof (ensure_served l t (ln_length l + 2) h L ltac:(lia) Hg) as He. destruct (line_ensure_capacity _ _ _ _) as [[h1 l1] ok]. cbn [snd] in He. by rewrite He.
Qed.
Lemma create_served t e : Z.of_nat (length t) < 2 ^ 40 -> line_served (Z.of_nat (length t)) e -> let '(h', l) := line_create fresh t (ed_heap e) in line_is l t /\ array_served e h'.
Proof.
  intros Ht Hs. destruct (line_create fresh t (ed_heap e)) as [h' l] eqn:E. unfold line_served in Hs. pose proof (create_ok fresh t (ed_heap e) h' l Ht E) as Hc. unfold line_create in E. cbn zeta in E.
  destruct (kh_malloc sizeof_line (ed_heap e)) as [h1 p]. destruct (kh_malloc _ h1) as [h2 d]. destruct Hs as (Hp & Hd & Ha). rewrite (proj2 (Z.eqb_neq _ _) Hp), (proj2 (Z.eqb_neq _ _) Hd) in E. injection E as <- <-. split; [|done]. destruct Hc as [Hc|Hc]; [|done]. by injection Hc.
Qed.
Lemma insert_line_served e pos N n : line_is N n -> 0 <= pos <= num_lines e -> num_lines e < EDITOR_MAX_LINES -> array_served e (ed_heap e) -> snd (editor_insert_line pos N e) = true.
Proof.
  intros [HN _ _ _] Hp Hm Ha. unfold editor_insert_line. rewrite (proj2 (Z.eqb_neq _ _) HN), (proj2 (Z.ltb_ge _ _)), (proj2 (Z.leb_gt _ _)) by lia. cbn [orb]. cbn zeta. destruct (Z.leb_spec (lines_capacity e) (num_lines e)) as [Hle|]; [|done].
  specialize (Ha Hle). destruct (kh_realloc _ _ _) as [h p]. cbn [snd] in Ha. by rewrite (proj2 (Z.eqb_neq _ _) Ha).
Qed.
Lemma shows_newline e t o : shows e t o -> fits ENewline e -> served ENewline e -> shows (editor_newline fresh e) (insert_at NL t o) (S o).
Proof.
  intros (a & l & x & b & W & -> & ->) Hf Hsv. pose proof W as (_ & _ & Hx & Hxl & _). pose proof (zip_cur _ _ _ _ _ W) as Hl. pose proof (line_is_room _ _ Hl). pose proof Hl as [_ Hlen _ [_ Hcap]]. cbn [served] in Hsv. cbv zeta in Hsv. rewrite Hlen, Hx in Hsv. replace (Z.of_nat (length l) - Z.of_nat x) with (Z.of_nat (length (drop x l))) in Hsv by (rewrite length_drop; lia).
  pose proof (create_served (drop x l) e ltac:(rewrite length_drop; lia) Hsv) as Hc. destruct (newline_zip _ _ _ _ _ W) as [W'|[[_ E]|[_ (e2 & N & HN & W2 & E & E1 & E2 & E3 & E4)]]].
  - eapply shows_zip; [done|by apply newline_text|]. rewrite length_pre_snoc, length_take. lia.
  - destruct (line_create fresh (drop x l) (ed_heap e)) as [h N]. cbn in E. subst N. by destruct Hc as [[Hc _ _ _] _].
  - pose proof (zip_num _ _ _ _ _ W). pose proof W2 as (_ & Hy2 & _). pose proof (zip_num _ _ _ _ _ W2). cbn in Hf. destruct (line_create fresh (drop x l) (ed_heap e)) as [h N']. destruct Hc as [_ Ha]. cbn in E4. rewrite (insert_line_served e2 _ N (drop x l)) in E; [done|done|lia|lia|]. unfold array_served in *. by rewrite E1, E2, E3, E4.
Qed.
Lemma shows_insert c e t o : shows e t o -> fits (EInsert c) e -> served (EInsert c) e -> shows (editor_insert_char fresh c e) (insert_at c t o) (S o).
Proof.
  intros (a & l & x & b & W & -> & ->) Hf Hsv. pose proof W as (_ & _ & Hx & Hxl & _). pose proof (zip_cur _ _ _ _ _ W) as Hl. destruct (insert_char_zip c _ _ _ _ _ W) as [W'|[_ E]].
  - eapply shows_zip; [done|by apply insert_text|lia].
  - rewrite Hx, (insert_served _ l) in E; done.
Qed.
Lemma shows_backspace e t o : shows e t o -> fits EBackspace e -> served EBackspace e -> shows (editor_delete_char fresh e) (fst (buffer_edit EBackspace (t, o))) (snd (buffer_edit EBackspace (t, o))).
Proof.
  intros (a & l & x & b & W & -> & ->) Hf Hsv. pose proof W as (_ & Hy & Hx & Hxl & _). destruct x as [|x].
  - destruct (decide (a = [])) as [->|Ha].
    + cbn. unfold editor_delete_char. rewrite Hx, Hy. cbn. by eapply shows_zip.
    + destruct (exists_last Ha) as (r & p & ->). cbn [buffer_edit]. rewrite length_pre_snoc. cbn [Nat.eqb Nat.add fst snd]. pose proof (line_at_prev _ _ _ _ _ _ W) as Hp. pose proof (zip_cur _ _ _ _ _ W) as [_ Hl _ _]. pose proof Hp as [_ Hp1 _ _].
      destruct (backspace_zip _ _ _ _ _ W) as [W'|[_ E]].
      * eapply shows_zip; [done| |lia]. rewrite <- join_text. rewrite pre_snoc, post_cons, <- !app_assoc. cbn [app]. f_equal. lia.
      * cbn in Hf. specialize (Hf Hx). cbn [served] in Hsv. cbv zeta in Hsv. rewrite length_app in Hy. cbn [length] in Hy. specialize (Hsv Hx ltac:(lia)). rewrite Hl, Hp1 in Hf, Hsv. rewrite (ensure_served _ p) in E; [done|done|lia|done].
  - cbn [buffer_edit]. rewrite Nat.add_succ_r. cbn [Nat.eqb fst snd]. unfold editor_delete_char. rewrite (proj2 (Z.ltb_lt 0 _)) by lia. cbn zeta. replace (cursor_x e - 1) with (Z.of_nat x) by lia.
    replace (S (length (pre a) + x) - 1)%nat with (length (pre a) + x)%nat by lia. eapply shows_zip; [|by rewrite remove_text by lia|done]. pose proof (delete_zip _ _ _ _ _ x W ltac:(lia) ltac:(lia)) as W'. revert W'. by apply zip_same.
Qed.
Lemma shows_delete e t o : shows e t o -> fits EDelete e -> served EDelete e -> shows (editor_delete_char_forward fresh e) (fst (buffer_edit EDelete (t, o))) (snd (buffer_edit EDelete (t, o))).
Proof.
  intros (a & l & x & b & W & -> & ->) Hf Hsv. pose proof W as (_ & Hy & Hx & Hxl & _). pose proof (zip_cur _ _ _ _ _ W) as Hl. pose proof Hl as [_ Hl1 _ _]. pose proof (zip_num _ _ _ _ _ W) as Hn. cbn [buffer_edit]. destruct (decide (x < length l)%nat) as [Hlt|Hge].
  - rewrite (proj2 (Nat.ltb_lt _ _)) by (rewrite !length_app; lia). cbn [fst snd]. eapply shows_zip; [|by rewrite remove_text by lia|done]. unfold editor_delete_char_forward.
    rewrite (proj2 (Z.leb_gt (num_lines e) _)) by lia. cbn zeta. rewrite (proj2 (Z.ltb_lt (cursor_x e) _)) by lia. pose proof (delete_zip _ _ _ _ _ x W ltac:(lia) ltac:(lia)) as W'. rewrite Hx. revert W'. apply zip_same; done.
  - assert (x = length l) as -> by lia. destruct b as [|n b].
    + rewrite (proj2 (Nat.ltb_ge _ _)) by (rewrite !length_app; cbn; lia). unfold editor_delete_char_forward. rewrite (proj2 (Z.leb_gt (num_lines e) _)) by lia. cbn zeta. rewrite Hx, Hl1, Z.ltb_irrefl, (proj2 (Z.ltb_ge _ _)) by (cbn in Hn; lia). by eapply shows_zip.
    + rewrite (proj2 (Nat.ltb_lt _ _)) by (rewrite post_cons, !length_app; cbn; lia). cbn [fst snd]. destruct (delete_end_zip _ _ _ _ _ W) as [W'|[_ E]].
      * eapply shows_zip; [done|by apply join_text|done].
      * pose proof (line_at_next _ _ _ _ _ _ W) as [_ Hn1 _ _]. cbn in Hf. cbn [served] in Hsv. cbv zeta in Hsv. rewrite Hx, Hl1, Hn1 in Hf, Hsv. cbn [length] in Hn. rewrite (ensure_served _ l) in E; [done|done|specialize (Hf eq_refl); lia|apply Hsv; [done|lia]].
Qed.

(** C26: The editor refines a text with a position in it: when the heap serves the requests that
    an edit makes and no limit of the editor is reached, a typed character, Enter, Backspace,
    Delete, the moves left and right and to both ends of the text do to the text of the lines,
    joined by newlines, and to the offset of the cursor what they do to a plain text with a
    position. *)
Theorem editor_is_buffer k e t o : shows e t o -> fits k e -> served k e -> let '(t', o') := buffer_edit k (t, o) in shows (run_edit k e) t' o'.
Proof.
  intros Hs Hf Hsv. destruct k; cbn [buffer_edit run_edit].
  - by apply shows_insert.
  - by apply shows_newline.
  - pose proof (shows_backspace e t o Hs Hf Hsv) as Hb. revert Hb. cbn [buffer_edit]. by destruct (o =? 0)%nat.
  - pose proof (shows_delete e t o Hs Hf Hsv) as Hd. revert Hd. cbn [buffer_edit]. by destruct (o <? length t)%nat.
  - by apply shows_left.
  - by apply shows_right.
  - by eapply shows_start.
  - by eapply shows_finish.
Qed.

(** ** Every key keeps the editor well formed *)

Definition well e : Prop := exists a l x b, zip e a l x b.
Lemma well_same e e' : lines e' = lines e -> cursor_x e' = cursor_x e -> cursor_y e' = cursor_y e -> lines_capacity e' = lines_capacity e -> text_area_height e' = text_area_height e -> well e -> well e'.
Proof. intros E1 E2 E3 E4 E5 (a & l & x & b & W). exists a, l, x, b. by apply (zip_same e). Qed.
Lemma well_scroll e : well e -> well (editor_scroll_to_cursor e).
Proof. intros (a & l & x & b & W). exists a, l, x, b. by apply zip_scroll. Qed.
Lemma well_num e : well e -> 0 < num_lines e /\ 0 <= cursor_y e < num_lines e /\ 0 <= text_area_height e /\ 0 <= cursor_x e <= ln_length (line_at e (cursor_y e)).
Proof. intros (a & l & x & b & W). pose proof (zip_num _ _ _ _ _ W). pose proof (zip_cur _ _ _ _ _ W) as [_ Hl _ _]. destruct W as (_ & Hy & Hx & Hxl & _ & Ht). lia. Qed.
Lemma well_lines e y : well e -> 0 <= y < num_lines e -> exists a l b, line_is (line_at e y) l /\ y = Z.of_nat (length a) /\ forall x, (x <= length l)%nat -> zip (set_cursor (Z.of_nat x) y e) a l x b.
Proof.
  intros (a & l & x & b & W) Hy. pose proof (zip_num _ _ _ _ _ W) as Hn. destruct (lookup_lt_is_Some_2 (a ++ l :: b) (Z.to_nat y)) as [l' El]; [rewrite length_app; cbn; lia|].
  pose proof (take_drop_middle _ _ _ El) as Ez. assert (y = Z.of_nat (length (take (Z.to_nat y) (a ++ l :: b)))) as Ey by (apply lookup_lt_Some in El; rewrite length_take; lia).
  exists (take (Z.to_nat y) (a ++ l :: b)), l', (drop (S (Z.to_nat y)) (a ++ l :: b)). assert (forall x', (x' <= length l')%nat -> zip (set_cursor (Z.of_nat x') y e) (take (Z.to_nat y) (a ++ l :: b)) l' x' (drop (S (Z.to_nat y)) (a ++ l :: b))) as Hz.
  { intros x' Hx'. rewrite Ey at 1. by eapply zip_any. }
  split; [|done]. pose proof (zip_cur _ _ _ _ _ (Hz O ltac:(lia))) as Hl. exact Hl.
Qed.
Lemma well_goto e x y : well e -> 0 <= y < num_lines e -> 0 <= x <= ln_length (line_at e y) -> well (set_cursor x y e).
Proof.
  intros W Hy Hx. destruct (well_lines e y W Hy) as (a & l & b & [_ Hl _ _] & _ & Hz). exists a, l, (Z.to_nat x), b. specialize (Hz (Z.to_nat x) ltac:(lia)). by rewrite Z2Nat.id in Hz by lia.
Qed.
Lemma well_len e y : well e -> 0 <= y < num_lines e -> 0 <= ln_length (line_at e y).
Proof. intros W Hy. destruct (well_lines e y W Hy) as (a & l & b & [_ Hl _ _] & _). lia. Qed.
Lemma well_insert c e : well e -> well (editor_insert_char fresh c e).
Proof. intros (a & l & x & b & W). destruct (insert_char_zip c _ _ _ _ _ W) as [W'|[W' _]]; by eexists _, _, _, _. Qed.
Lemma well_newline e : well e -> well (editor_newline fresh e).
Proof. intros (a & l & x & b & W). destruct (newline_zip _ _ _ _ _ W) as [W'|[[W' _]|[W' _]]]; by eexists _, _, _, _. Qed.
Lemma well_tab e : well e -> well (editor_insert_tab fresh e).
Proof. intros W. unfold editor_insert_tab. change (for_range 0 EDITOR_TAB_WIDTH ?f e) with (f 3 (f 2 (f 1 (f 0 e)))). by do 4 apply well_insert. Qed.
Lemma well_backspace e : well e -> well (editor_delete_char fresh e).
Proof.
  intros (a & l & x & b & W). pose proof W as (_ & Hy & Hx & Hxl & _). destruct x as [|x].
  - destruct (decide (a = [])) as [->|Ha]; [unfold editor_delete_char; rewrite Hx, Hy; by exists [], l, O, b|].
    destruct (exists_last Ha) as (r & p & ->). destruct (backspace_zip _ _ _ _ _ W) as [W'|[W' _]]; by eexists _, _, _, _.
  - unfold editor_delete_char. rewrite (proj2 (Z.ltb_lt 0 _)) by lia. cbn zeta. replace (cursor_x e - 1) with (Z.of_nat x) by lia.
    eexists _, _, _, _. pose proof (delete_zip _ _ _ _ _ x W ltac:(lia) ltac:(lia)) as W'. revert W'. by apply zip_same.
Qed.
Lemma well_delete e : well e -> well (editor_delete_char_forward fresh e).
Proof.
  intros (a & l & x & b & W). pose proof W as (_ & Hy & Hx & Hxl & _). pose proof (zip_cur _ _ _ _ _ W) as [_ Hl _ _]. pose proof (zip_num _ _ _ _ _ W) as Hn. destruct (decide (x < length l)%nat) as [Hlt|Hge].
  - unfold editor_delete_char_forward. rewrite (proj2 (Z.leb_gt (num_lines e) _)) by lia. cbn zeta. rewrite (proj2 (Z.ltb_lt (cursor_x e) _)) by lia. rewrite Hx.
    eexists _, _, _, _. pose proof (delete_zip _ _ _ _ _ x W ltac:(lia) ltac:(lia)) as W'. revert W'. by apply zip_same.
  - assert (x = length l) as -> by lia. destruct b as [|n b]; [|destruct (delete_end_zip _ _ _ _ _ W) as [W'|[W' _]]; by eexists _, _, _, _].
    unfold editor_delete_char_forward. rewrite (proj2 (Z.leb_gt (num_lines e) _)) by lia. cbn zeta. rewrite Hx, Hl, Z.ltb_irrefl, (proj2 (Z.ltb_ge _ _)) by (cbn in Hn; lia). by eexists _, _, _, _.
Qed.
Lemma well_move dx dy e : well e -> well (editor_move_cursor dx dy e).
Proof.
  intros W. pose proof (well_num e W) as (Hn & Hy & _). unfold editor_move_cursor. cbn zeta. set (y0 := if cursor_y e + dy <? 0 then 0 else _). set (y := if num_lines e <=? y0 then _ else y0).
  assert (0 <= y < num_lines e) as Hyr. { unfold y, y0. destruct (Z.ltb_spec (cursor_y e + dy) 0); destruct (Z.leb_spec (num_lines e) (if cursor_y e + dy <? 0 then 0 else cursor_y e + dy)); repeat case_match; zbool; lia. }
  pose proof (well_len e y W Hyr). apply well_scroll. destruct (Z.ltb_spec (cursor_x e + dx) 0).
  - destruct (Z.ltb_spec 0 y); apply well_goto; try done; try lia. split; [apply well_len; [done|lia]|lia].
  - destruct (Z.ltb_spec (ln_length (line_at e y)) (cursor_x e + dx)); [|apply well_goto; [done|done|lia]].
    destruct (Z.ltb_spec y (num_lines e - 1)); apply well_goto; try done; try lia. split; [lia|apply well_len; [done|lia]].
Qed.
Lemma well_clamp e x y : well e -> 0 <= y < num_lines e -> 0 <= x -> well (clamp_x (ln_length (line_at (set_cursor x y e) (cursor_y (set_cursor x y e)))) (set_cursor x y e)).
Proof.
  intros W Hy Hx. pose proof (well_len e y W Hy). unfold clamp_x. cbn. change (line_at (set_cursor x y e) y) with (line_at e y). destruct (Z.ltb_spec (ln_length (line_at e y)) x).
  - apply (well_goto e (ln_length (line_at e y)) y); [done|done|lia].
  - apply well_goto; [done|done|lia].
Qed.
Lemma well_page_up e : well e -> well (editor_page_up e).
Proof. intros W. pose proof (well_num e W) as (Hn & Hy & Ht & Hx). unfold editor_page_up. cbn zeta. apply well_scroll, well_clamp; [done| |lia]. destruct (Z.ltb_spec (cursor_y e - text_area_height e) 0); lia. Qed.
Lemma well_page_down e : well e -> well (editor_page_down e).
Proof. intros W. pose proof (well_num e W) as (Hn & Hy & Ht & Hx). unfold editor_page_down. cbn zeta. apply well_scroll, well_clamp; [done| |lia]. destruct (Z.leb_spec (num_lines e) (cursor_y e + text_area_height e)); lia. Qed.
Lemma well_goto_line n e : well e -> well (editor_goto_line n e).
Proof.
  intros W. pose proof (well_num e W) as (Hn & _). unfold editor_goto_line. cbn zeta. set (t := if num_lines e <=? _ then _ else _). assert (0 <= t < num_lines e) as Ht by (unfold t; repeat case_match; zbool; lia).
  apply well_scroll, well_goto; [done|done|]. pose proof (well_len e t W Ht). lia.
Qed.

(** *** Search *)

(** The query is in line [y] at column [x]. *)
Definition occurs e (y x : Z) : Prop := 0 <= x /\ x + Z.of_nat (length (search_query e)) <= ln_length (line_at e y) /\ match_at (line_at e y) (search_query e) x = true.
Lemma first_match_spec n l q j : match first_match n l q j with
  | Some k => j <= k < j + Z.of_nat n /\ match_at l q k = true /\ forall k', j <= k' < k -> match_at l q k' = false
  | None => forall k', j <= k' < j + Z.of_nat n -> match_at l q k' = false
  end.
Proof.
  revert j. induction n as [|n IH]; intros j; cbn [first_match]; [lia|]. destruct (match_at l q j) eqn:E; [split; [lia|]; split; [done|lia]|]. specialize (IH (j + 1)).
  destruct (first_match n l q (j + 1)) as [k|]; [destruct IH as (I1 & I2 & I3); split; [lia|]; split; [done|]|]; intros k' Hk; (destruct (decide (k' = j)) as [->|]; [done|]); [apply I3|apply IH]; lia.
Qed.
(** The positions the search looks at: in the line of the cursor, those behind it. *)
Definition ahead e (k x : Z) : Prop := k = 0 -> cursor_x e < x.
Definition line_from e (k : Z) : Z := (cursor_y e + k) mod num_lines e.
Lemma search_forward_spec n i e : 0 <= i -> 0 <= cursor_x e -> match search_forward n i e with
  | Some (y, x) => exists k, i <= k < i + Z.of_nat n /\ y = line_from e k /\ occurs e y x /\ ahead e k x /\
      forall k' x', i <= k' -> k' < k \/ k' = k /\ x' < x -> ahead e k' x' -> ~ occurs e (line_from e k') x'
  | None => forall k x, i <= k < i + Z.of_nat n -> ahead e k x -> ~ occurs e (line_from e k) x
  end.
Proof.
  intros Hi Hx. revert i Hi. induction n as [|n IH]; intros i Hi; cbn [search_forward]; [lia|]. fold (line_from e i). cbn zeta. set (l := line_at e (line_from e i)). set (s := if i =? 0 then cursor_x e + 1 else 0).
  assert (0 <= s /\ forall x, 0 <= x -> ahead e i x <-> s <= x) as [Hs Ha] by (unfold s, ahead; destruct (Z.eqb_spec i 0); split; intros; lia). set (cnt := Z.to_nat _). pose proof (first_match_spec cnt l (search_query e) s) as Hf.
  assert (forall x, occurs e (line_from e i) x -> ahead e i x -> s <= x < s + Z.of_nat cnt /\ match_at l (search_query e) x = true) as Ho.
  { intros x (O1 & O2 & O3) Hax. apply Ha in Hax; [|done]. fold l in O2, O3. unfold cnt. split; [lia|done]. }
  destruct (first_match cnt l (search_query e) s) as [j|].
  - destruct Hf as (F1 & F2 & F3). exists i. split; [lia|]. split; [done|]. split; [split; [lia|]; split; [|done]; fold l; unfold cnt in F1; lia|]. split; [apply Ha; lia|].
    intros k' x' Hk [?|[-> Hlt]] Hax Hoc; [lia|]. destruct (Ho x' Hoc Hax) as [O1 O2]. rewrite F3 in O2; [done|lia].
  - specialize (IH (i + 1) ltac:(lia)). assert (forall x, ahead e i x -> ~ occurs e (line_from e i) x) as Hno by (intros x Hax Hoc; destruct (Ho x Hoc Hax) as [O1 O2]; by rewrite Hf in O2).
    destruct (search_forward n (i + 1) e) as [[y x]|].
    + destruct IH as (k & K1 & K2 & K3 & K4 & K5). exists k. split; [lia|]. do 3 (split; [done|]). intros k' x' Hk Hor Hax. destruct (decide (k' = i)) as [->|]; [by apply Hno|]. apply K5; [lia|done|done].
    + intros k x Hk Hax. destruct (decide (k = i)) as [->|]; [by apply Hno|]. apply IH; [lia|done].
Qed.
Lemma found_frame y x e : let e' := found_at y x e in lines e' = lines e /\ cursor_x e' = x /\ cursor_y e' = y /\ lines_capacity e' = lines_capacity e /\ text_area_height e' = text_area_height e.
Proof. unfold found_at, editor_set_status. cbn zeta. pose proof (scroll_frame (set_match y x (set_cursor x y e))) as Hs. cbn zeta in Hs. cbn -[editor_scroll_to_cursor]. by destruct Hs as (-> & -> & -> & -> & ->). Qed.
(** A search moves the cursor to the next occurrence of the query: when it finds one,
    the cursor stands on an occurrence and none lies between, in the order of the search
    (behind the cursor, then the lines below, then from the top); when it finds none, the
    cursor stays, and neither another line nor the rest of the line of the cursor has one. *)
Theorem search_finds_next e : search_query e <> [] -> 0 < num_lines e -> 0 <= cursor_x e -> let '(e', found) := editor_find_next e in
  if found then exists k, 0 <= k < num_lines e /\ cursor_y e' = line_from e k /\ occurs e (cursor_y e') (cursor_x e') /\ lines e' = lines e /\
    forall k' x, 0 <= k' -> k' < k \/ k' = k /\ x < cursor_x e' -> ahead e k' x -> ~ occurs e (line_from e k') x
  else lines e' = lines e /\ cursor_x e' = cursor_x e /\ cursor_y e' = cursor_y e /\ forall k x, 0 <= k < num_lines e -> ahead e k x -> ~ occurs e (line_from e k) x.
Proof.
  intros Hq Hn Hx. unfold editor_find_next. destruct (search_query e) as [|c q] eqn:Eq; [done|]. pose proof (search_forward_spec (Z.to_nat (num_lines e)) 0 e ltac:(lia) Hx) as Hs. rewrite Z2Nat.id in Hs by lia.
  destruct (search_forward (Z.to_nat (num_lines e)) 0 e) as [[y x]|]; [|done]. destruct (found_frame y x e) as (-> & -> & -> & _). destruct Hs as (k & K1 & -> & K3 & K4 & K5). exists k. by do 4 (split; [done|]).
Qed.
Lemma well_find e : well e -> well (fst (editor_find_next e)).
Proof.
  intros W. pose proof (well_num e W) as (Hn & Hy & Ht & Hx). unfold editor_find_next. destruct (search_query e) as [|c q] eqn:Eq; [done|]. pose proof (search_forward_spec (Z.to_nat (num_lines e)) 0 e ltac:(lia) ltac:(lia)) as Hs.
  destruct (search_forward (Z.to_nat (num_lines e)) 0 e) as [[y x]|]; cbn [fst]; [|revert W; by apply well_same]. destruct Hs as (k & _ & Ey & (O1 & O2 & _) & _). pose proof (found_frame y x e) as (F1 & F2 & F3 & F4 & F5).
  assert (well (set_cursor x y e)) as W'. { apply well_goto; [done| |lia]. rewrite Ey. apply Z.mod_pos_bound. lia. }
  revert W'. by apply well_same.
Qed.

(** *** Keys *)

Lemma well_home e : well e -> well (editor_home e).
Proof. intros W. pose proof (well_num e W) as (Hn & Hy & _). apply well_scroll, well_goto; [done|done|]. pose proof (well_len e _ W Hy). lia. Qed.
Lemma well_end e : well e -> well (editor_end e).
Proof. intros W. pose proof (well_num e W) as (Hn & Hy & _). unfold editor_end. case_match; [|done]. apply well_scroll, well_goto; [done|done|]. pose proof (well_len e _ W Hy). lia. Qed.
Lemma well_plain key ascii e : well e -> well (plain_key fresh key ascii e).
Proof.
  intros W. unfold plain_key.
  do 4 (destruct (key =? _); [by apply well_move|]). destruct (key =? _); [by apply well_home|]. destruct (key =? _); [by apply well_end|]. destruct (key =? _); [by apply well_page_up|].
  destruct (key =? _); [by apply well_page_down|]. destruct (key =? _); [by apply well_backspace|]. destruct (key =? _); [by apply well_delete|]. destruct (key =? _); [by apply well_newline|].
  destruct (key =? _); [by apply well_tab|]. destruct (key =? _); [revert W; by apply well_same|]. destruct (key =? _); [by apply well_find|]. destruct (printable ascii); [by apply well_insert|done].
Qed.
(** The length of the text of a prompt after a key, if the key edits it. *)
Definition prompt_length (accepts : Z -> bool) (key ascii : Z) e : option Z :=
  let n := Z.of_nat (length (input_buffer e)) in
  if (key =? KEY_ENTER) || (key =? KEY_ESCAPE) then None
  else if (key =? KEY_BACKSPACE) && (0 <? n) then Some (n - 1)
  else if accepts ascii && (n <? 255) then Some (n + 1)
  else None.
(** The key makes the message of a prompt longer than its 64 bytes. *)
Definition overruns (key ascii : Z) e : bool :=
  let over label n := match n with Some n => 64 <=? Z.of_nat (length (str label)) + n | None => false end in
  match ed_state e with
  | EDITOR_STATE_GOTO => over "Go to line: "%string (prompt_length is_digit key ascii e)
  | EDITOR_STATE_SEARCH => over "Search: "%string (prompt_length printable key ascii e)
  | EDITOR_STATE_SAVE_AS => over "Save as: "%string (prompt_length printable key ascii e)
  | _ => false
  end.
Lemma well_prompt text accepts key ascii e : well e -> (key =? KEY_ENTER) = false -> (key =? KEY_ESCAPE) = false ->
  let over := match prompt_length accepts key ascii e with Some n => 64 <=? Z.of_nat (length text) + n | None => false end in
  match edit_prompt text accepts key ascii e with Some e' => over = false /\ well e' | None => over = true end.
Proof.
  intros W K1 K2. cbn zeta. unfold edit_prompt, prompt_length, show_prompt, PROMPT_BUFFER. rewrite K1, K2. cbn zeta. cbn [orb]. destruct ((key =? KEY_BACKSPACE) && (0 <? Z.of_nat (length (input_buffer e)))) eqn:E1; [|destruct (accepts ascii && (Z.of_nat (length (input_buffer e)) <? 255)); [|done]]; cbn [input_buffer set_input].
  - apply andb_true_iff in E1 as [_ E1]. zbool. rewrite length_app, length_take. destruct (Z.ltb_spec (Z.of_nat (length text + Nat.min (length (input_buffer e) - 1) (length (input_buffer e)))) 64).
    + split; [lia|]. revert W. by apply well_same.
    + lia.
  - rewrite !length_app. cbn [length]. destruct (Z.ltb_spec (Z.of_nat (length text + (length (input_buffer e) + 1))) 64).
    + split; [lia|]. revert W. by apply well_same.
    + lia.
Qed.
Lemma well_normal e : well e -> well (to_normal e).
Proof. by apply well_same. Qed.
Lemma save_as_frame name e (f : F) : let '(e', _, _) := editor_save_as name e f in lines e' = lines e /\ cursor_x e' = cursor_x e /\ cursor_y e' = cursor_y e /\ lines_capacity e' = lines_capacity e /\ text_area_height e' = text_area_height e.
Proof. unfold editor_save_as. destruct (file_open _ _ _) as [f1 [file|]]; [|done]. destruct (save_lines _ _ _ _ _) as [f2 [err|]]; done. Qed.
Lemma well_save_as name e (f : F) : well e -> well (fst (fst (editor_save_as name e f))).
Proof. intros W. pose proof (save_as_frame name e f) as Hs. destruct (editor_save_as name e f) as [[e' f'] r]. destruct Hs as (S1 & S2 & S3 & S4 & S5). cbn. by apply (well_same e). Qed.
Lemma well_save e (f : F) : well e -> well (fst (fst (editor_save e f))).
Proof. intros W. unfold editor_save. destruct (negb (has_filename e)); [revert W; by apply well_same|by apply well_save_as]. Qed.
Lemma well_new e : 256 <= lines_capacity e <= 2 ^ 40 -> 0 <= text_area_height e -> well (editor_new fresh e) \/ lines (editor_new fresh e) = [null_line].
Proof.
  intros Hc Ht. unfold editor_new. destruct (line_create fresh [] _) as [h l] eqn:El. destruct (create_ok fresh [] _ h l ltac:(done) El) as [->|Hl]; [by right|]. left. exists [], [], O, []. split; [exists [], l, []; done|]. cbn. split_and!; lia.
Qed.
Lemma well_ctrl key e (f : F) : well e -> match ctrl_key fresh key e f with Some (e', _) => well e' \/ (key = KEY_N /\ lines e' = [null_line]) | None => True end.
Proof.
  intros W. pose proof W as (a & l & x & b & Wz). pose proof Wz as (_ & _ & _ & _ & Hcap & Ht). unfold ctrl_key.
  destruct (key =? KEY_Q); [left; destruct (modified e); revert W; by apply well_same|].
  destruct (key =? KEY_S); [destruct (has_filename e); [|left; revert W; by apply well_same]; pose proof (well_save e f W) as Hs; destruct (editor_save e f) as [[e' f'] r]; by left|].
  destruct (key =? KEY_G); [left; revert W; by apply well_same|]. destruct (key =? KEY_F); [left; revert W; by apply well_same|].
  destruct (Z.eqb_spec key KEY_N) as [->|]; [destruct (modified e); [left; revert W; by apply well_same|]; destruct (well_new e Hcap Ht); auto|].
  destruct (key =? KEY_HOME); [left; destruct (start_zip _ _ _ _ _ Wz) as (? & ? & _ & W'); by eexists _, _, _, _|].
  destruct (key =? KEY_END); [left; destruct (finish_zip _ _ _ _ _ Wz) as (? & ? & _ & W'); by eexists _, _, _, _|done].
Qed.
Lemma well_save_key key ascii e (f : F) : well e -> ed_state e = EDITOR_STATE_SAVE_AS ->
  match save_as_key key ascii e f with Some (e', _) => overruns key ascii e = false /\ well e' | None => overruns key ascii e = true end.
Proof.
  intros W St. unfold save_as_key, overruns. rewrite St. destruct (key =? KEY_ENTER) eqn:K1.
  - assert (prompt_length printable key ascii e = None) as -> by (unfold prompt_length; by rewrite K1). destruct (0 <? _); [|split; [done|]; revert W; by apply well_same]. pose proof (well_save_as (input_buffer e) e f W) as Hs. destruct (editor_save_as (input_buffer e) e f) as [[e' f'] r]. split; [done|]. cbn in Hs |- *. revert Hs. by apply well_same.
  - destruct (key =? KEY_ESCAPE) eqn:K2; [split; [unfold prompt_length; by rewrite K2, orb_true_r|by apply well_normal]|]. pose proof (well_prompt (str "Save as: "%string) printable key ascii e W K1 K2) as Hp. destruct (edit_prompt _ _ _ _ _); [done|]. exact Hp.
Qed.
(** C27: Every key keeps the editor well formed, whatever memory and files do: there is a line,
    every line is a zero-terminated text inside its block, the cursor stands on a line and
    not behind its end. There are two exceptions. Ctrl+N leaves a NULL line when no memory is
    left for the first one. A key that makes the message of a prompt longer than the 64
    bytes of its buffer, which are exactly the keys for which [overruns] holds, has no
    defined result. *)
Theorem editor_key_invariant key modifiers ascii e (f : F) : well e ->
  match editor_handle_key fresh key modifiers ascii e f with
  | Some (e', _) => overruns key ascii e = false /\ (well e' \/ (key = KEY_N /\ lines e' = [null_line]))
  | None => overruns key ascii e = true
  end.
Proof.
  intros W. unfold editor_handle_key. destruct (ed_state e) eqn:St.
  - assert (overruns key ascii e = false) as Ho by (unfold overruns; by rewrite St). pose proof (well_ctrl key e f W) as Hc. destruct (negb _); [|split; [done|]; left; by apply well_plain]. destruct (ctrl_key fresh key e f) as [[e' f']|]; [done|]. split; [done|]. left. by apply well_plain.
  - unfold search_key, overruns. rewrite St. destruct (key =? KEY_ENTER) eqn:K1; [cbn; split; [unfold prompt_length; by rewrite K1|]; left; apply well_find; revert W; by apply well_same|]. destruct (key =? KEY_ESCAPE) eqn:K2; [cbn; split; [unfold prompt_length; by rewrite K2, orb_true_r|]; left; by apply well_normal|].
    pose proof (well_prompt (str "Search: "%string) printable key ascii e W K1 K2) as Hp. destruct (edit_prompt _ _ _ _ _); [|exact Hp]. destruct Hp as [H1' H2']. exact (conj H1' (or_introl H2')).
  - unfold goto_key, overruns. rewrite St. destruct (key =? KEY_ENTER) eqn:K1; [cbn; split; [unfold prompt_length; by rewrite K1|]; left; apply well_normal; case_match; [by apply well_goto_line|done]|]. destruct (key =? KEY_ESCAPE) eqn:K2; [cbn; split; [unfold prompt_length; by rewrite K2, orb_true_r|]; left; by apply well_normal|].
    pose proof (well_prompt (str "Go to line: "%string) is_digit key ascii e W K1 K2) as Hp. destruct (edit_prompt _ _ _ _ _); [|exact Hp]. destruct Hp as [H1' H2']. exact (conj H1' (or_introl H2')).
  - pose proof (well_save_key key ascii e f W St) as Hs. destruct (save_as_key key ascii e f) as [[e' f']|]; [|done]. destruct Hs as [H1' H2']. exact (conj H1' (or_introl H2')).
  - split; [unfold overruns; by rewrite St|]. left. unfold quit_key. repeat case_match; try done; revert W; by apply well_same.
Qed.

(** ** Files *)

(** A line that survives a file: no newline and no zero in it, no carriage return at its end. *)
Definition clean (l : list Z) : Prop := ~ NL ∈ l /\ ~ 0 ∈ l /\ last l <> Some CR.
(** The lines a file keeps: an empty last line is not written. *)
Definition kept_lines (ls : list (list Z)) : list (list Z) := match last ls with Some [] => removelast ls | _ => ls end.
Lemma kept_snoc a l : kept_lines (a ++ [l]) = if decide (l = []) then a else a ++ [l].
Proof. unfold kept_lines. rewrite last_snoc. destruct l as [|c l]; cbn; [apply removelast_last|done]. Qed.
Lemma kept_Forall (P : list Z -> Prop) ts : Forall P ts -> Forall P (kept_lines ts).
Proof. intros Hf. destruct (decide (ts = [])) as [->|Hne]; [done|]. destruct (exists_last Hne) as (a & l & ->). rewrite kept_snoc. apply Forall_app in Hf as [Ha Hl]. case_decide; [done|]. by apply Forall_app. Qed.
Lemma kept_length ts : (length (kept_lines ts) <= length ts)%nat.
Proof. destruct (decide (ts = [])) as [->|Hne]; [done|]. destruct (exists_last Hne) as (a & l & ->). rewrite kept_snoc. case_decide; rewrite ?length_app; lia. Qed.
Lemma kept_cons l ts : ts <> [] \/ l <> [] -> kept_lines (l :: ts) = l :: kept_lines ts.
Proof. intros Hor. unfold kept_lines. destruct ts as [|t ts]; [cbn; destruct l; [naive_solver|done]|]. change (last (l :: t :: ts)) with (last (t :: ts)). by destruct (last (t :: ts)) as [[|c r]|]. Qed.
Lemma parse_line l cur rest : ~ NL ∈ l -> ~ 0 ∈ l -> parse_lines (l ++ NL :: rest) cur = drop_cr (cur ++ l) :: parse_lines rest [].
Proof.
  revert cur. induction l as [|c l IH]; intros cur Hn Hz; [cbn; by rewrite app_nil_r|]. rewrite not_elem_of_cons in Hn, Hz. cbn [app parse_lines]. rewrite (proj2 (Z.eqb_neq c 0)), (proj2 (Z.eqb_neq c NL)) by naive_solver.
  rewrite IH by naive_solver. by rewrite <- app_assoc.
Qed.
Lemma parse_pre ls : Forall clean ls -> parse_lines (pre ls) [] = ls.
Proof.
  induction 1 as [|l ls (Hn & Hz & Hc) _ IH]; [done|]. unfold pre in *. cbn [map concat]. rewrite <- app_assoc. cbn [app]. rewrite parse_line by done. rewrite IH. f_equal. cbn. unfold drop_cr. destruct (last l) as [c|]; [|done]. case_match; [zbool; subst; by destruct Hc|done].
Qed.

(** *** Writing *)

Lemma recorded_write {G} `{FileStore G} h bs (r : recorded G) : rec_bytes (fst (file_write h bs r)) = rec_bytes r ++ bs.
Proof. cbn. by destruct (file_write h bs (rec_files r)). Qed.
Lemma save_lines_bytes {G} `{FileStore G} file i total ls ts (f f' : recorded G) : Forall2 line_is ls ts -> i + Z.of_nat (length ts) = total -> save_lines file i total ls f = (f', None) ->
  rec_bytes f' = rec_bytes f ++ pre (kept_lines ts).
Proof.
  intros Hl. revert i f. induction Hl as [|L l ls ts HL Hl IH]; intros i f Hi; cbn [save_lines]; [intros [= <-]; by rewrite app_nil_r|]. cbn [length] in Hi. pose proof HL as [_ Q [slack B] _]. rewrite Q, B, Nat2Z.id, take_app_length.
  set (w1 := if 0 <? Z.of_nat (length l) then file_write file l f else (f, 0)). assert (rec_bytes (fst w1) = rec_bytes f ++ l) as E1.
  { unfold w1. destruct (Z.ltb_spec 0 (Z.of_nat (length l))); [apply recorded_write|]. assert (l = []) as -> by (apply nil_length_inv; lia). by rewrite app_nil_r. }
  destruct w1 as [f1 w]. cbn [fst] in E1. destruct (w <? 0); [done|]. cbn zeta. set (nl := (i <? total - 1) || (0 <? Z.of_nat (length l))). assert ((nl = true /\ (ts <> [] \/ l <> [])) \/ (nl = false /\ ts = [] /\ l = [])) as Hnl.
  { unfold nl. destruct (Z.ltb_spec i (total - 1)); [left; split; [done|]; left; intros ->; cbn in Hi; lia|]. destruct (Z.ltb_spec 0 (Z.of_nat (length l))) as [Hl0|]; [left; split; [done|]; right; by intros ->|]. right. split; [done|]. split; apply nil_length_inv; lia. }
  destruct Hnl as [[-> Hor]|(-> & -> & ->)].
  - intros E. rewrite (IH (i + 1) _ ltac:(lia) E), recorded_write, E1, (kept_cons _ _ Hor). unfold pre. cbn [map concat]. by rewrite <- !app_assoc.
  - apply Forall2_nil_inv_r in Hl as ->. cbn. intros [= <-]. by rewrite E1.
Qed.

(** *** Reading *)

(** What reading lines asks of the heap: each line what a new line asks for, when its turn
    comes; a file with content also a buffer. *)
Definition lines_served (ts : list (list Z)) e : Prop := forall i t, ts !! i = Some t -> line_served (Z.of_nat (length t)) (foldl (add_line fresh) e (take i ts)).
Definition open_served (c : list Z) e : Prop :=
  let emptied h := set_lines [] (set_ed_heap (destroy_lines (lines e) h) e) in
  match c with
  | [] => lines_served [[]] (emptied (ed_heap e))
  | _ => let '(h, b) := kh_malloc (Z.of_nat (length c) + 1) (ed_heap e) in b <> NULL /\ lines_served (parse_lines c []) (emptied h)
  end.
Lemma add_line_ok e t : Z.of_nat (length t) < 2 ^ 40 -> num_lines e < EDITOR_MAX_LINES -> line_served (Z.of_nat (length t)) e ->
  exists N, lines (add_line fresh e t) = lines e ++ [N] /\ line_is N t.
Proof.
  intros Ht Hn Hs. unfold add_line. pose proof (create_served t e Ht Hs) as HN. destruct (line_create fresh t (ed_heap e)) as [h N]. destruct HN as [HN Ha]. exists N.
  rewrite (proj2 (Z.eqb_neq _ _) (li_ptr _ _ HN)). set (e1 := set_ed_heap h e). pose proof (insert_line_served e1 (num_lines e1) N t HN ltac:(unfold num_lines; lia) Hn Ha) as Hi.
  unfold editor_insert_line in Hi |- *. rewrite (proj2 (Z.eqb_neq _ _) (li_ptr _ _ HN)), Z.ltb_irrefl in Hi |- *. cbn [orb] in Hi |- *. change (num_lines e) with (num_lines e1) in Hn. rewrite (proj2 (Z.leb_gt EDITOR_MAX_LINES _) Hn) in Hi |- *. cbn zeta in Hi |- *.
  assert (forall e2 : editor H, lines e2 = lines e -> take (Z.to_nat (num_lines e1)) (lines e2) ++ N :: drop (Z.to_nat (num_lines e1)) (lines e2) = lines e ++ [N]) as Ht2.
  { intros e2 ->. unfold num_lines. cbn. rewrite Nat2Z.id, firstn_all, drop_all. done. }
  destruct (Z.leb_spec (lines_capacity e1) (num_lines e1)); [|cbn -[num_lines]; split; [by apply Ht2|done]].
  destruct (kh_realloc _ _ _) as [h2 p]. destruct (p =? NULL); [done|]. cbn -[num_lines]. split; [by apply (Ht2 (set_ed_heap h2 e1))|done].
Qed.
Lemma add_lines_ok ts e : Forall (fun t => Z.of_nat (length t) < 2 ^ 40) ts -> num_lines e + Z.of_nat (length ts) <= EDITOR_MAX_LINES -> lines_served ts e ->
  exists Ns, lines (foldl (add_line fresh) e ts) = lines e ++ Ns /\ Forall2 line_is Ns ts.
Proof.
  intros Hf. revert e. induction Hf as [|t ts Ht Hf IH]; intros e Hn Hs; cbn [foldl length] in *; [exists []; by rewrite app_nil_r|]. destruct (add_line_ok e t Ht ltac:(lia) (Hs O t eq_refl)) as (N & E1 & HN).
  destruct (IH (add_line fresh e t)) as (Ns & E2 & HNs); [unfold num_lines in *; rewrite E1, length_app; cbn; lia|intros i u Hi; exact (Hs (S i) u Hi)|]. exists (N :: Ns). rewrite E2, E1, <- app_assoc. split; [done|]. by constructor.
Qed.
Lemma open_spec {G} `{FileStore G} name c e (g g1 g2 : G) h : file_open name VFS_O_RDONLY g = (g1, Some h) -> file_size h g1 = Some (Z.of_nat (length c)) -> file_read h (Z.of_nat (length c)) g1 = (g2, Z.of_nat (length c), c) ->
  (c <> [] -> parse_lines c [] <> []) -> Z.of_nat (length (parse_lines c [])) <= EDITOR_MAX_LINES -> Forall (fun t => Z.of_nat (length t) < 2 ^ 40) (parse_lines c []) -> open_served c e ->
  exists e' g', editor_open fresh name e g = (e', g', VFS_OK) /\ modified e' = false /\ cursor_x e' = 0 /\ cursor_y e' = 0 /\
    Forall2 line_is (lines e') (if (length (parse_lines c []) =? 0)%nat then [[]] else parse_lines c []).
Proof.
  intros Eo Es Er Hne Hm Hb Hs. unfold editor_open. rewrite Eo, Es. unfold open_served in Hs. destruct c as [|c0 c].
  - cbn [length parse_lines Nat.eqb]. change (0 <? Z.of_nat 0) with false. cbv iota beta. eexists _, _. split; [done|]. cbn [modified cursor_x cursor_y editor_set_status set_message set_scroll set_cursor set_file lines]. do 3 (split; [done|]).
    set (e0 := set_lines [] _) in *. change (num_lines e0 =? 0) with true. cbv iota. destruct (add_line_ok e0 []) as (N & -> & HN); [done|done|exact (Hs O [] eq_refl)|]. by constructor.
  - set (cs := c0 :: c) in *. rewrite (proj2 (Z.ltb_lt 0 (Z.of_nat (length cs)))) by (unfold cs; cbn [length]; lia). destruct (kh_malloc _ _) as [h1 p]. destruct Hs as [Hp Hs]. rewrite (proj2 (Z.eqb_neq _ _) Hp), Er, (proj2 (Z.ltb_ge _ 0)) by lia.
    set (e0 := set_lines [] _). destruct (add_lines_ok (parse_lines cs []) e0 Hb ltac:(done) Hs) as (Ns & EN & HNs). cbn [lines e0 set_lines app] in EN. set (e2 := foldl (add_line fresh) e0 (parse_lines cs [])) in *.
    eexists _, _. split; [done|]. cbn [modified cursor_x cursor_y editor_set_status set_message set_scroll set_cursor set_file lines]. do 3 (split; [done|]).
    unfold num_lines. cbn [lines set_ed_heap]. rewrite EN. pose proof (Forall2_length _ _ _ HNs) as Hlen. destruct (parse_lines cs []) as [|t ts] eqn:Et; [by destruct Hne|]. destruct Ns as [|N Ns]; [done|]. cbn [length Nat.eqb] in *. rewrite (proj2 (Z.eqb_neq _ _)) by lia. cbn [lines set_ed_heap]. by rewrite EN.
Qed.
End Buffer.

(** ** Examples *)

(** A heap that never runs out. *)
Record endless := mk_endless { next_block : Z }.
#[export] Instance endless_heap : KernelHeap endless := {|
  kh_malloc size h := (mk_endless (next_block h + 1), Z.abs (next_block h) + 1);
  kh_calloc count size h := (mk_endless (next_block h + 1), Z.abs (next_block h) + 1);
  kh_free p h := h;
  kh_live h p := 0 < p <= Z.abs (next_block h);
  kh_wf h := True |}.
#[export] Instance endless_realloc : KernelRealloc endless := fun p size h => kh_malloc size h.

(** A block of eight bytes with a text. *)
Definition small_line (p : Z) (t : list Z) : line := mk_line p (p + 1) (t ++ repeat 0 (8 - length t)) (Z.of_nat (length t)) 8.
Definition small_on {H} (h : H) (ts : list (list Z)) (x y : Z) (q : list Z) : editor H :=
  mk_editor [] false false false (map (small_line 100) ts) 50 256 x y 0 0 80 25 24 EDITOR_STATE_NORMAL true [] [] q 0 0 7 7 7 true 5 h.
Definition small_editor : list (list Z) -> Z -> Z -> list Z -> editor endless := small_on (mk_endless 0).
Lemma small_line_is p t : p <> NULL -> (length t < 8)%nat -> line_is (small_line p t) t.
Proof.
  intros Hp Ht. split; cbn; [done|done| |rewrite length_app, repeat_length; lia]. exists (repeat 0 (7 - length t)). by replace (8 - length t)%nat with (S (7 - length t)) by lia.
Qed.
Lemma small_zip a l x b q : Forall (fun t => length t < 8)%nat (a ++ l :: b) -> (x <= length l)%nat -> zip (small_editor (a ++ l :: b) (Z.of_nat x) (Z.of_nat (length a)) q) a l x b.
Proof.
  intros Hf Hx. apply Forall_app in Hf as [Ha Hf]. apply Forall_cons in Hf as [Hl Hb]. assert (forall ts, Forall (fun t => length t < 8)%nat ts -> Forall2 line_is (map (small_line 100) ts) ts) as Hm by (induction 1; constructor; [by apply small_line_is|done]).
  split; [|cbn; split_and!; lia]. exists (map (small_line 100) a), (small_line 100 l), (map (small_line 100) b). cbn. rewrite map_app. split; [done|]. split; [by apply Hm|]. split; [by apply small_line_is|by apply Hm].
Qed.
(** A new editor on the kernel's own heap: Enter splits its empty line, with two blocks more. *)
Lemma init_shows {H : Type} `{KernelHeap H} `{KernelRealloc H} fresh (h h' : H) e : editor_init fresh h = (h', Some e) -> shows e [] 0.
Proof.
  unfold editor_init. destruct (kh_malloc sizeof_editor h) as [h1 p]. destruct (p =? NULL); [done|]. destruct (kh_malloc _ h1) as [h2 a]. destruct (a =? NULL); [done|]. destruct (line_create fresh [] h2) as [h3 l] eqn:El. destruct (create_ok fresh [] h2 h3 l ltac:(done) El) as [->|Hl]; [done|].
  rewrite (proj2 (Z.eqb_neq _ _) (li_ptr _ _ Hl)). intros [= <- <-]. exists [], [], O, []. split; [|done]. split; [|cbn; unfold VGA_HEIGHT, EDITOR_STATUS_HEIGHT; split_and!; lia]. exists [], l, []. done.
Qed.
Lemma editor_is_buffer_witness : match editor_init (fun _ => 0) demo_heap with (_, Some e) => shows (run_edit (fun _ => 0) ENewline e) [NL] 1 | _ => False end.
Proof.
  assert (match editor_init (fun _ => 0) demo_heap with (_, Some e) => fits ENewline e /\ served ENewline e | _ => False end) as Hs by (vm_compute; split; [done|]; split; [done|]; split; [done|intros Hc; by destruct Hc]).
  destruct (editor_init (fun _ => 0) demo_heap) as [h' [e|]] eqn:E; [|done]. destruct Hs as [Hf Hs]. exact (editor_is_buffer (fun _ => 0) ENewline e [] 0 (init_shows _ _ _ _ E) Hf Hs).
Defined.
(** A store of one file; its only handle is 1. *)
Record one_file := mk_one_file { of_name : list Z; of_bytes : list Z }.
#[export] Instance one_file_store : FileStore one_file := {|
  file_open name flags f := if flags =? VFS_O_RDONLY then (f, if decide (of_name f = name) then Some 1 else None) else (mk_one_file name [], Some 1);
  file_size h f := Some (Z.of_nat (length (of_bytes f)));
  file_read h size f := (f, Z.of_nat (length (take (Z.to_nat size) (of_bytes f))), take (Z.to_nat size) (of_bytes f));
  file_write h bs f := (mk_one_file (of_name f) (of_bytes f ++ bs), Z.of_nat (length bs));
  file_close h f := f |}.
(** Three lines, saved to that file and read back by a new editor on the kernel's own heap. *)
Definition three_lines : editor (heap pmm) := small_on demo_heap [[97]; []; [98]] 0 0 [].
Definition three_bytes : list Z := [97; 10; 10; 98; 10].
Lemma editor_key_invariant_witness : match editor_handle_key (fun _ => 0) KEY_ENTER 0 0 (small_editor [[97; 98]; [99]] 1 0 []) (mk_one_file [] []) with Some (e', _) => well e' | None => False end.
Proof.
  pose proof (editor_key_invariant (fun _ => 0) KEY_ENTER 0 0 (small_editor [[97; 98]; [99]] 1 0 []) (mk_one_file [] [])) as Hk. destruct (editor_handle_key _ _ _ _ _ _) as [[e' f']|].
  - destruct Hk as [_ [Hk|[Hk _]]]; [|exact Hk|discriminate Hk]. exists [], [97; 98], 1%nat, [[99]]. apply (small_zip [] [97; 98] 1 [[99]]); [repeat constructor|cbn; lia].
  - assert (overruns KEY_ENTER 0 (small_editor [[97; 98]; [99]] 1 0 []) = true) as E; [|discriminate E]. apply Hk. exists [], [97; 98], 1%nat, [[99]]. apply (small_zip [] [97; 98] 1 [[99]]); [repeat constructor|cbn; lia].
Defined.
Lemma search_finds_next_witness : let e := small_editor [[97; 98]; [99; 98]] 1 0 [98] in occurs e (cursor_y (fst (editor_find_next e))) (cursor_x (fst (editor_find_next e))) /\ cursor_y (fst (editor_find_next e)) = 1.
Proof.
  intros e. pose proof (search_finds_next e ltac:(done) ltac:(done) ltac:(done)) as Hs. assert (snd (editor_find_next e) = true /\ cursor_y (fst (editor_find_next e)) = 1) as [Hf Hy] by (split; reflexivity).
  destruct (editor_find_next e) as [e' found]. cbn in Hf, Hy. subst found. destruct Hs as (k & _ & _ & Ho & _). exact (conj Ho Hy).
Defined.

(** ** Faults *)

(** Joining two lines that are too long together drops the second one. *)
Lemma long_join_loses {H : Type} `{KernelHeap H} `{KernelRealloc H} fresh (e : editor H) a p l b : zip e (a ++ [p]) l 0 b ->
  ln_capacity (line_at e (cursor_y e - 1)) <= EDITOR_MAX_LINE_LENGTH < Z.of_nat (length p) + Z.of_nat (length l) + 1 -> l <> [] ->
  lines (editor_delete_char fresh e) = take (length a + 1) (lines e) ++ drop (length a + 2) (lines e).
Proof.
  intros W Hlen Hne. pose proof (line_at_prev _ _ _ _ _ _ W) as Hp. pose proof (zip_cur _ _ _ _ _ W) as [_ Hl _ [_ Hlc]]. pose proof (line_is_room _ _ Hp) as Hroom. pose proof (line_is_room _ _ (zip_cur _ _ _ _ _ W)) as Hroom2. pose proof (zip_num _ _ _ _ _ W) as Hn. pose proof W as (_ & Hy & Hx & _). rewrite length_app in Hy, Hn. cbn [length] in Hy, Hn.
  destruct l as [|c l]; [done|]. unfold editor_delete_char. rewrite Hx, (proj2 (Z.ltb_lt 0 (cursor_y e))) by lia. change (0 <? Z.of_nat 0) with false. cbv iota zeta. rewrite join_cursor, remove_cursor. cbn [lines set_modified set_cursor].
  destruct (lookup_lt_is_Some_2 (lines e) (Z.to_nat (cursor_y e - 1))) as [L0 EL]; [unfold num_lines in Hn; lia|]. pose proof Hp as [Hpp Hp1 _ _].
  assert (line_ensure_capacity fresh (line_at e (cursor_y e - 1)) (ln_length (line_at e (cursor_y e - 1)) + ln_length (line_at e (cursor_y e - 1 + 1)) + 1) (ed_heap e) = (ed_heap e, line_at e (cursor_y e - 1), false)) as Hens.
  { replace (cursor_y e - 1 + 1) with (cursor_y e) by lia. unfold line_ensure_capacity. rewrite (proj2 (Z.eqb_neq _ _) Hpp), Hp1, Hl, (proj2 (Z.leb_gt _ (ln_capacity _))) by lia. cbn zeta.
    destruct (double_until_ok 64 (ln_capacity (line_at e (cursor_y e - 1))) (Z.of_nat (length p) + Z.of_nat (length (c :: l)) + 1)) as [D1 D2]; [unfold EDITOR_MAX_LINE_LENGTH in *; lia|unfold EDITOR_MAX_LINE_LENGTH in *; lia|unfold EDITOR_MAX_LINE_LENGTH in *; change (2 ^ Z.of_nat 64) with (2 ^ 64); nia|].
    rewrite (proj2 (Z.ltb_lt EDITOR_MAX_LINE_LENGTH (double_until _ _ _))), (proj2 (Z.ltb_lt EDITOR_MAX_LINE_LENGTH _)) by lia. done. }
  assert (lines (join_lines fresh (cursor_y e - 1) e) = lines e) as Ej.
  { unfold join_lines. rewrite Hens. replace (cursor_y e - 1 + 1) with (cursor_y e) by lia. rewrite Hl, (proj2 (Z.ltb_lt 0 _)) by (cbn; lia). cbn. apply list_insert_id. unfold line_at. rewrite EL. done. }
  unfold editor_remove_line, num_lines. rewrite Ej, (proj2 (Z.leb_gt _ _)) by (unfold num_lines in Hn; lia). cbn [lines set_lines]. rewrite Hy. f_equal; f_equal; lia.
Qed.
(** The cursor moves down past a shorter line: from the end of the first line it comes to
    the start of the third one. *)
Lemma down_skips_line : let e := editor_move_cursor 0 1 (small_editor [[97; 98; 99]; [100]; [101]] 3 0 []) in (cursor_x e, cursor_y e) = (0, 2).
Proof. done. Qed.
(** The search never looks before the cursor in its own line. *)
Lemma search_misses_line_start : snd (editor_find_next (small_editor [[97; 98]] 1 0 [97])) = false.
Proof. done. Qed.
(** The message of a prompt is built in 64 bytes, but a prompt takes 255 characters: with 60
    typed, one more character is written past the end of the buffer. *)
Lemma prompt_overruns_message (e : editor endless) (f : one_file) : ed_state e = EDITOR_STATE_SEARCH -> length (input_buffer e) = 60%nat -> editor_handle_key (fun _ => 0) 65 0 97 e f = None.
Proof.
  intros St Hl. unfold editor_handle_key. rewrite St. unfold search_key, edit_prompt, show_prompt. change (65 =? KEY_ENTER) with false. change (65 =? KEY_ESCAPE) with false. change (65 =? KEY_BACKSPACE) with false. cbv iota zeta. cbn [andb]. rewrite Hl. change (printable 97 && (Z.of_nat 60 <? 255)) with true. cbv iota.
  cbn [input_buffer set_input]. rewrite !length_app, Hl. done.
Qed.
(** Ctrl+N without memory leaves a NULL line behind. *)
Record starved := mk_starved {}.
#[export] Instance starved_heap : KernelHeap starved := {| kh_malloc size h := (h, NULL); kh_calloc count size h := (h, NULL); kh_free p h := h; kh_live h p := False; kh_wf h := True |}.
Lemma new_without_memory (e : editor starved) : lines (editor_new (fun _ => 0) e) = [null_line].
Proof. done. Qed.
