(* ===== verification/Terminal.v ===== *)
(** * The terminal emulator (apps/terminal/terminal.c)

    A screen of cells with a cursor, escape sequences, a buffer of lines that scrolled off,
    the line that is typed, drawing, resizing. Lines are blocks of the kernel heap. What the
    compositor returns for a new window and what the frame buffer says of itself are
    arguments; drawing gives the list of calls that draw; a command for the shell is a
    result. The pointer to the terminal is not NULL. *)
From Stdlib Require Import String.
From S2P Require Import Prelude Memory PageAlloc Heap Ring Auth Chain VfsBase Vga Editor.
Close Scope string_scope.

Definition TERMINAL_DEFAULT_WIDTH : Z := 80.
Definition TERMINAL_DEFAULT_HEIGHT : Z := 25.
Definition TERMINAL_MAX_WIDTH : Z := 256.
Definition TERMINAL_MAX_HEIGHT : Z := 128.
Definition TERMINAL_SCROLLBACK_LINES : Z := 1000.
Definition TERMINAL_INPUT_BUFFER_SIZE : Z := 256.
Definition TERMINAL_ESCAPE_BUFFER_SIZE : Z := 32.
Definition TERMINAL_TAB_WIDTH : Z := 8.
Definition TERMINAL_CHAR_WIDTH : Z := 8.
Definition TERMINAL_CHAR_HEIGHT : Z := 16.
Definition ANSI_COLOR_BLACK : Z := 0.
Definition ANSI_COLOR_WHITE : Z := 7.
Definition ANSI_COLOR_MAX : Z := 16.
Definition ATTR_BOLD : Z := 1.
Definition ATTR_UNDERLINE : Z := 2.
Definition ATTR_BLINK : Z := 4.
Definition ATTR_INVERSE : Z := 8.
Definition ATTR_HIDDEN : Z := 16.
Definition MOD_SHIFT : Z := Z.lor 0x01 0x02.
Definition sizeof_cell : Z := 4.
Definition sizeof_terminal_line : Z := 16.
Definition sizeof_terminal : Z := 456.
Definition default_palette : list Z :=
  [0xFF000000; 0xFFAA0000; 0xFF00AA00; 0xFFAA5500; 0xFF0000AA; 0xFFAA00AA; 0xFF00AAAA; 0xFFAAAAAA;
   0xFF555555; 0xFFFF5555; 0xFF55FF55; 0xFFFFFF55; 0xFF5555FF; 0xFFFF55FF; 0xFF55FFFF; 0xFFFFFFFF].

Inductive esc_state := ESC_STATE_NORMAL | ESC_STATE_ESCAPE | ESC_STATE_CSI | ESC_STATE_OSC.
Record cell := mk_cell { ch : Z; cell_fg : Z; cell_bg : Z; cell_attr : Z }.
(** A line of the screen: the address of its cells, the cells, and whether it has changed. *)
Record tline := mk_tline { cells_at : Z; cells : list cell; dirty : bool }.
(** A line that scrolled off: the address of its cells (NULL before the first use), how many
    cells the block has, and the cells. *)
Record sb_line := mk_sb { sb_at : Z; sb_room : Z; sb_cells : list cell }.
Record win := mk_win { win_x : Z; win_y : Z; win_width : Z; win_height : Z; win_title : list Z }.

Record terminal (H : Type) := mk_terminal {
  t_width : Z;
  t_height : Z;
  t_x : Z;
  t_y : Z;
  t_visible : bool;
  t_blink : bool;
  buffer : list tline;
  buffer_at : Z;
  scrollback : Z -> sb_line;
  scrollback_at : Z;
  scrollback_size : Z;
  scrollback_count : Z;
  scrollback_head : Z;
  scroll_offset : Z;
  t_fg : Z;
  t_bg : Z;
  t_attr : Z;
  default_fg : Z;
  default_bg : Z;
  t_esc : esc_state;
  esc_buffer : list Z;
  input_bytes : list Z;
  input_length : Z;
  input_pos : Z;
  t_window : option win;
  fullscreen : bool;
  needs_redraw : bool;
  t_running : bool;
  echo_enabled : bool;
  line_mode : bool;
  insert_mode : bool;
  saved_x : Z;
  saved_y : Z;
  palette : list Z;
  t_heap : H;
}.
Arguments mk_terminal {H}.
Arguments t_width {H}.
Arguments t_height {H}.
Arguments t_x {H}.
Arguments t_y {H}.
Arguments t_visible {H}.
Arguments t_blink {H}.
Arguments buffer {H}.
Arguments buffer_at {H}.
Arguments scrollback {H}.
Arguments scrollback_at {H}.
Arguments scrollback_size {H}.
Arguments scrollback_count {H}.
Arguments scrollback_head {H}.
Arguments scroll_offset {H}.
Arguments t_fg {H}.
Arguments t_bg {H}.
Arguments t_attr {H}.
Arguments default_fg {H}.
Arguments default_bg {H}.
Arguments t_esc {H}.
Arguments esc_buffer {H}.
Arguments input_bytes {H}.
Arguments input_length {H}.
Arguments input_pos {H}.
Arguments t_window {H}.
Arguments fullscreen {H}.
Arguments needs_redraw {H}.
Arguments t_running {H}.
Arguments echo_enabled {H}.
Arguments line_mode {H}.
Arguments insert_mode {H}.
Arguments saved_x {H}.
Arguments saved_y {H}.
Arguments palette {H}.
Arguments t_heap {H}.

Section Terminal.
Context {H : Type} `{KernelHeap H}.
(** What a block holds that was never written. *)
Variable raw : Z -> cell.
Implicit Types t : terminal H.

Definition at_cursor (v0 : Z) (v1 : Z) t : terminal H :=
  mk_terminal (t_width t) (t_height t) v0 v1 (t_visible t) (t_blink t) (buffer t) (buffer_at t) (scrollback t) (scrollback_at t) (scrollback_size t)
    (scrollback_count t) (scrollback_head t) (scroll_offset t) (t_fg t) (t_bg t) (t_attr t) (default_fg t) (default_bg t) (t_esc t) (esc_buffer t)
    (input_bytes t) (input_length t) (input_pos t) (t_window t) (fullscreen t) (needs_redraw t) (t_running t) (echo_enabled t) (line_mode t)
    (insert_mode t) (saved_x t) (saved_y t) (palette t) (t_heap t).
Definition set_visible (v0 : bool) t : terminal H :=
  mk_terminal (t_width t) (t_height t) (t_x t) (t_y t) v0 (t_blink t) (buffer t) (buffer_at t) (scrollback t) (scrollback_at t) (scrollback_size t)
    (scrollback_count t) (scrollback_head t) (scroll_offset t) (t_fg t) (t_bg t) (t_attr t) (default_fg t) (default_bg t) (t_esc t) (esc_buffer t)
    (input_bytes t) (input_length t) (input_pos t) (t_window t) (fullscreen t) (needs_redraw t) (t_running t) (echo_enabled t) (line_mode t)
    (insert_mode t) (saved_x t) (saved_y t) (palette t) (t_heap t).
Definition set_blink (v0 : bool) t : terminal H :=
  mk_terminal (t_width t) (t_height t) (t_x t) (t_y t) (t_visible t) v0 (buffer t) (buffer_at t) (scrollback t) (scrollback_at t) (scrollback_size t)
    (scrollback_count t) (scrollback_head t) (scroll_offset t) (t_fg t) (t_bg t) (t_attr t) (default_fg t) (default_bg t) (t_esc t) (esc_buffer t)
    (input_bytes t) (input_length t) (input_pos t) (t_window t) (fullscreen t) (needs_redraw t) (t_running t) (echo_enabled t) (line_mode t)
    (insert_mode t) (saved_x t) (saved_y t) (palette t) (t_heap t).
Definition set_rows (v0 : list tline) t : terminal H :=
  mk_terminal (t_width t) (t_height t) (t_x t) (t_y t) (t_visible t) (t_blink t) v0 (buffer_at t) (scrollback t) (scrollback_at t) (scrollback_size t)
    (scrollback_count t) (scrollback_head t) (scroll_offset t) (t_fg t) (t_bg t) (t_attr t) (default_fg t) (default_bg t) (t_esc t) (esc_buffer t)
    (input_bytes t) (input_length t) (input_pos t) (t_window t) (fullscreen t) (needs_redraw t) (t_running t) (echo_enabled t) (line_mode t)
    (insert_mode t) (saved_x t) (saved_y t) (palette t) (t_heap t).
Definition set_back (v0 : Z -> sb_line) (v1 : Z) (v2 : Z) t : terminal H :=
  mk_terminal (t_width t) (t_height t) (t_x t) (t_y t) (t_visible t) (t_blink t) (buffer t) (buffer_at t) v0 (scrollback_at t) (scrollback_size t) v1
    v2 (scroll_offset t) (t_fg t) (t_bg t) (t_attr t) (default_fg t) (default_bg t) (t_esc t) (esc_buffer t) (input_bytes t) (input_length t)
    (input_pos t) (t_window t) (fullscreen t) (needs_redraw t) (t_running t) (echo_enabled t) (line_mode t) (insert_mode t) (saved_x t) (saved_y t)
    (palette t) (t_heap t).
Definition set_offset (v0 : Z) t : terminal H :=
  mk_terminal (t_width t) (t_height t) (t_x t) (t_y t) (t_visible t) (t_blink t) (buffer t) (buffer_at t) (scrollback t) (scrollback_at t)
    (scrollback_size t) (scrollback_count t) (scrollback_head t) v0 (t_fg t) (t_bg t) (t_attr t) (default_fg t) (default_bg t) (t_esc t) (esc_buffer
    t) (input_bytes t) (input_length t) (input_pos t) (t_window t) (fullscreen t) (needs_redraw t) (t_running t) (echo_enabled t) (line_mode t)
    (insert_mode t) (saved_x t) (saved_y t) (palette t) (t_heap t).
Definition set_pen (v0 : Z) (v1 : Z) (v2 : Z) t : terminal H :=
  mk_terminal (t_width t) (t_height t) (t_x t) (t_y t) (t_visible t) (t_blink t) (buffer t) (buffer_at t) (scrollback t) (scrollback_at t)
    (scrollback_size t) (scrollback_count t) (scrollback_head t) (scroll_offset t) v0 v1 v2 (default_fg t) (default_bg t) (t_esc t) (esc_buffer t)
    (input_bytes t) (input_length t) (input_pos t) (t_window t) (fullscreen t) (needs_redraw t) (t_running t) (echo_enabled t) (line_mode t)
    (insert_mode t) (saved_x t) (saved_y t) (palette t) (t_heap t).
Definition set_esc (v0 : esc_state) (v1 : list Z) t : terminal H :=
  mk_terminal (t_width t) (t_height t) (t_x t) (t_y t) (t_visible t) (t_blink t) (buffer t) (buffer_at t) (scrollback t) (scrollback_at t)
    (scrollback_size t) (scrollback_count t) (scrollback_head t) (scroll_offset t) (t_fg t) (t_bg t) (t_attr t) (default_fg t) (default_bg t) v0 v1
    (input_bytes t) (input_length t) (input_pos t) (t_window t) (fullscreen t) (needs_redraw t) (t_running t) (echo_enabled t) (line_mode t)
    (insert_mode t) (saved_x t) (saved_y t) (palette t) (t_heap t).
Definition set_typed (v0 : list Z) (v1 : Z) (v2 : Z) t : terminal H :=
  mk_terminal (t_width t) (t_height t) (t_x t) (t_y t) (t_visible t) (t_blink t) (buffer t) (buffer_at t) (scrollback t) (scrollback_at t)
    (scrollback_size t) (scrollback_count t) (scrollback_head t) (scroll_offset t) (t_fg t) (t_bg t) (t_attr t) (default_fg t) (default_bg t) (t_esc
    t) (esc_buffer t) v0 v1 v2 (t_window t) (fullscreen t) (needs_redraw t) (t_running t) (echo_enabled t) (line_mode t) (insert_mode t) (saved_x t)
    (saved_y t) (palette t) (t_heap t).
Definition set_redraw (v0 : bool) t : terminal H :=
  mk_terminal (t_width t) (t_height t) (t_x t) (t_y t) (t_visible t) (t_blink t) (buffer t) (buffer_at t) (scrollback t) (scrollback_at t)
    (scrollback_size t) (scrollback_count t) (scrollback_head t) (scroll_offset t) (t_fg t) (t_bg t) (t_attr t) (default_fg t) (default_bg t) (t_esc
    t) (esc_buffer t) (input_bytes t) (input_length t) (input_pos t) (t_window t) (fullscreen t) v0 (t_running t) (echo_enabled t) (line_mode t)
    (insert_mode t) (saved_x t) (saved_y t) (palette t) (t_heap t).
Definition set_t_running (v0 : bool) t : terminal H :=
  mk_terminal (t_width t) (t_height t) (t_x t) (t_y t) (t_visible t) (t_blink t) (buffer t) (buffer_at t) (scrollback t) (scrollback_at t)
    (scrollback_size t) (scrollback_count t) (scrollback_head t) (scroll_offset t) (t_fg t) (t_bg t) (t_attr t) (default_fg t) (default_bg t) (t_esc
    t) (esc_buffer t) (input_bytes t) (input_length t) (input_pos t) (t_window t) (fullscreen t) (needs_redraw t) v0 (echo_enabled t) (line_mode t)
    (insert_mode t) (saved_x t) (saved_y t) (palette t) (t_heap t).
Definition set_saved (v0 : Z) (v1 : Z) t : terminal H :=
  mk_terminal (t_width t) (t_height t) (t_x t) (t_y t) (t_visible t) (t_blink t) (buffer t) (buffer_at t) (scrollback t) (scrollback_at t)
    (scrollback_size t) (scrollback_count t) (scrollback_head t) (scroll_offset t) (t_fg t) (t_bg t) (t_attr t) (default_fg t) (default_bg t) (t_esc
    t) (esc_buffer t) (input_bytes t) (input_length t) (input_pos t) (t_window t) (fullscreen t) (needs_redraw t) (t_running t) (echo_enabled t)
    (line_mode t) (insert_mode t) v0 v1 (palette t) (t_heap t).
Definition set_screen (v0 : Z) (v1 : Z) (v2 : list tline) (v3 : Z) t : terminal H :=
  mk_terminal v0 v1 (t_x t) (t_y t) (t_visible t) (t_blink t) v2 v3 (scrollback t) (scrollback_at t) (scrollback_size t) (scrollback_count t)
    (scrollback_head t) (scroll_offset t) (t_fg t) (t_bg t) (t_attr t) (default_fg t) (default_bg t) (t_esc t) (esc_buffer t) (input_bytes t)
    (input_length t) (input_pos t) (t_window t) (fullscreen t) (needs_redraw t) (t_running t) (echo_enabled t) (line_mode t) (insert_mode t) (saved_x
    t) (saved_y t) (palette t) (t_heap t).
Definition set_palette (v0 : list Z) t : terminal H :=
  mk_terminal (t_width t) (t_height t) (t_x t) (t_y t) (t_visible t) (t_blink t) (buffer t) (buffer_at t) (scrollback t) (scrollback_at t)
    (scrollback_size t) (scrollback_count t) (scrollback_head t) (scroll_offset t) (t_fg t) (t_bg t) (t_attr t) (default_fg t) (default_bg t) (t_esc
    t) (esc_buffer t) (input_bytes t) (input_length t) (input_pos t) (t_window t) (fullscreen t) (needs_redraw t) (t_running t) (echo_enabled t)
    (line_mode t) (insert_mode t) (saved_x t) (saved_y t) v0 (t_heap t).
Definition set_window (v0 : option win) (v1 : bool) t : terminal H :=
  mk_terminal (t_width t) (t_height t) (t_x t) (t_y t) (t_visible t) (t_blink t) (buffer t) (buffer_at t) (scrollback t) (scrollback_at t)
    (scrollback_size t) (scrollback_count t) (scrollback_head t) (scroll_offset t) (t_fg t) (t_bg t) (t_attr t) (default_fg t) (default_bg t) (t_esc
    t) (esc_buffer t) (input_bytes t) (input_length t) (input_pos t) v0 v1 (needs_redraw t) (t_running t) (echo_enabled t) (line_mode t) (insert_mode
    t) (saved_x t) (saved_y t) (palette t) (t_heap t).
Definition set_t_heap (v0 : H) t : terminal H :=
  mk_terminal (t_width t) (t_height t) (t_x t) (t_y t) (t_visible t) (t_blink t) (buffer t) (buffer_at t) (scrollback t) (scrollback_at t)
    (scrollback_size t) (scrollback_count t) (scrollback_head t) (scroll_offset t) (t_fg t) (t_bg t) (t_attr t) (default_fg t) (default_bg t) (t_esc
    t) (esc_buffer t) (input_bytes t) (input_length t) (input_pos t) (t_window t) (fullscreen t) (needs_redraw t) (t_running t) (echo_enabled t)
    (line_mode t) (insert_mode t) (saved_x t) (saved_y t) (palette t) v0.

(** ** Cells and rows *)

Definition raw_cells (n : Z) : list cell := map raw (seqZ 0 n).
Definition blank t : cell := mk_cell 32 (t_fg t) (t_bg t) 0.
Definition row_at t (y : Z) : tline := default (mk_tline NULL [] false) (buffer t !! Z.to_nat y).
Definition cells_of t (y : Z) : list cell := cells (row_at t y).
(** The row gets other cells and is marked as changed. *)
Definition put_row (y : Z) (cs : list cell) t : terminal H := set_rows (<[Z.to_nat y := mk_tline (cells_at (row_at t y)) cs true]> (buffer t)) t.
(** [for (x = lo; x < hi; x++) terminal_clear_cell(term, &cells[x]);] *)
Definition clear_cells (lo hi : Z) (b : cell) (cs : list cell) : list cell := for_range lo hi (fun x cs => <[Z.to_nat x := b]> cs) cs.
Definition clear_row_part (y lo hi : Z) t : terminal H := put_row y (clear_cells lo hi (blank t) (cells_of t y)) t.
Definition clear_rows (lo hi : Z) t : terminal H := for_range lo hi (fun y t => clear_row_part y 0 (t_width t) t) t.
Definition terminal_put_char_at (x y c : Z) t : terminal H :=
  if (x <? 0) || (t_width t <=? x) || (y <? 0) || (t_height t <=? y) then t
  else put_row y (<[Z.to_nat x := mk_cell c (t_fg t) (t_bg t) (t_attr t)]> (cells_of t y)) t.

Definition terminal_clear t : terminal H := set_redraw true (at_cursor 0 0 (clear_rows 0 (t_height t) t)).
Definition terminal_clear_to_end t : terminal H :=
  let t := clear_row_part (t_y t) (u32 (t_x t)) (t_width t) t in set_redraw true (clear_rows (u32 (t_y t) + 1) (t_height t) t).
Definition terminal_clear_to_start t : terminal H :=
  let t := clear_rows 0 (u32 (t_y t)) t in set_redraw true (clear_row_part (t_y t) 0 (Z.min (u32 (t_x t) + 1) (t_width t)) t).
Definition terminal_clear_line (mode : Z) t : terminal H :=
  let '(lo, hi) := if mode =? 0 then (u32 (t_x t), t_width t) else if mode =? 1 then (0, u32 (u32 (t_x t) + 1)) else (0, t_width t) in
  set_redraw true (clear_row_part (t_y t) lo (Z.min hi (t_width t)) t).

(** ** The cursor, colours *)

Definition terminal_set_cursor (x y : Z) t : terminal H :=
  let x := if x <? 0 then 0 else x in
  let y := if y <? 0 then 0 else y in
  let x := if t_width t <=? x then t_width t - 1 else x in
  let y := if t_height t <=? y then t_height t - 1 else y in
  at_cursor x y t.
Definition terminal_move_cursor (dx dy : Z) t : terminal H := terminal_set_cursor (int_wrap (t_x t + dx)) (int_wrap (t_y t + dy)) t.
Definition terminal_save_cursor t : terminal H := set_saved (t_x t) (t_y t) t.
Definition terminal_restore_cursor t : terminal H := terminal_set_cursor (saved_x t) (saved_y t) t.
Definition terminal_set_cursor_visible (v : bool) t : terminal H := set_visible v t.
Definition terminal_set_color (fg bg : Z) t : terminal H :=
  set_pen (if fg <? ANSI_COLOR_MAX then fg else t_fg t) (if bg <? ANSI_COLOR_MAX then bg else t_bg t) (t_attr t) t.
Definition terminal_set_attributes (a : Z) t : terminal H := set_pen (t_fg t) (t_bg t) a t.
Definition terminal_reset_attributes t : terminal H := set_pen (default_fg t) (default_bg t) 0 t.
Definition terminal_set_palette_color (index color : Z) t : terminal H :=
  if ANSI_COLOR_MAX <=? index then t else set_redraw true (set_palette (<[Z.to_nat index := color]> (palette t)) t).

(** ** Scrolling *)

(** One line goes to the scrollback; the copy has the width of the screen, whatever the
    size of the block. *)
Definition save_line (y : Z) t : terminal H :=
  let i := (u32 (scrollback_head t + scrollback_count t)) mod scrollback_size t in
  let l := scrollback t i in
  let '(h, l) :=
    if sb_at l =? NULL then let '(h, p) := kh_malloc (t_width t * sizeof_cell) (t_heap t) in (h, if p =? NULL then l else mk_sb p (t_width t) (raw_cells (t_width t)))
    else (t_heap t, l) in
  let t := set_t_heap h t in
  if sb_at l =? NULL then t
  else
    let row := cells_of t y in
    let l := mk_sb (sb_at l) (sb_room l) (row ++ drop (length row) (sb_cells l)) in
    if scrollback_count t <? scrollback_size t then set_back (upd (scrollback t) i l) (scrollback_count t + 1) (scrollback_head t) t
    else set_back (upd (scrollback t) i l) (scrollback_count t) (u32 (scrollback_head t + 1) mod scrollback_size t) t.
Definition scroll_lines (n : Z) t : Z := if (n <=? 0) || (t_height t <? n) then t_height t else n.
Definition terminal_scroll_up (n : Z) t : terminal H :=
  let n := scroll_lines n t in
  let t := for_range 0 n save_line t in
  let t := for_range 0 (t_height t - n) (fun y t => put_row y (cells_of t (y + n)) t) t in
  set_redraw true (clear_rows (t_height t - n) (t_height t) t).
(** The loop runs down: [i] counts its rounds. *)
Definition terminal_scroll_down (n : Z) t : terminal H :=
  let n := scroll_lines n t in
  let t := for_range 0 (t_height t - n) (fun i t => let y := t_height t - 1 - i in put_row y (cells_of t (y - n)) t) t in
  set_redraw true (clear_rows 0 n t).
Definition terminal_scroll (n : Z) t : terminal H :=
  if n =? 0 then t else if 0 <? n then terminal_scroll_up n t else terminal_scroll_down (int_wrap (- n)) t.
Definition terminal_scroll_view (n : Z) t : terminal H :=
  let o := int_wrap (scroll_offset t + n) in
  let o := if o <? 0 then 0 else o in
  set_redraw true (set_offset (if scrollback_count t <? o then scrollback_count t else o) t).
Definition terminal_scroll_to_bottom t : terminal H := if scroll_offset t =? 0 then t else set_redraw true (set_offset 0 t).

(** ** Control characters *)

Definition terminal_new_line t : terminal H :=
  let y := t_y t + 1 in
  if t_height t <=? y then terminal_scroll 1 (at_cursor 0 (t_height t - 1) t) else at_cursor 0 y t.
Definition terminal_carriage_return t : terminal H := at_cursor 0 (t_y t) t.
Definition tab_step (_ : Z) t : terminal H := if t_x t <? t_width t then at_cursor (t_x t + 1) (t_y t) (terminal_put_char_at (t_x t) (t_y t) 32 t) else t.
(** The loop writes one column in each round, up to the tab stop or the edge. *)
Definition terminal_tab t : terminal H :=
  let next_tab := (Z.quot (t_x t) TERMINAL_TAB_WIDTH + 1) * TERMINAL_TAB_WIDTH in
  let t := for_range (t_x t) next_tab tab_step t in
  if t_width t <=? t_x t then terminal_new_line t else t.
Definition terminal_backspace t : terminal H :=
  if 0 <? t_x t then
    let t := at_cursor (t_x t - 1) (t_y t) t in
    let t := terminal_put_char_at (t_x t) (t_y t) 32 t in
    put_row (t_y t) (cells_of t (t_y t)) t
  else t.
Definition terminal_process_control (c : Z) t : terminal H :=
  if c =? 10 then terminal_new_line t
  else if c =? 13 then terminal_carriage_return t
  else if c =? 9 then terminal_tab t
  else if c =? 8 then terminal_backspace t
  else if c =? 12 then terminal_clear t
  else t.

(** ** Escape sequences *)

(** The number at the start of a string that starts with a digit, and the rest. *)
Fixpoint parse_digits (p : list Z) (value : Z) : Z * list Z :=
  match p with
  | c :: r => if is_digit c then parse_digits r (int_wrap (int_wrap (value * 10) + (c - 48))) else (value, p)
  | [] => (value, [])
  end.
Definition terminal_parse_int (p : list Z) (default_val : Z) : Z * list Z :=
  match p with c :: _ => if is_digit c then parse_digits p 0 else (default_val, p) | [] => (default_val, p) end.
(** Every round takes a character; [n] is the length of the sequence. *)
Fixpoint parse_params (n : nat) (p params : list Z) : list Z * list Z :=
  match n, p with
  | S n, c :: r =>
      if (16 <=? Z.of_nat (length params)) || (c =? 0) then (params, p)
      else if is_digit c then let '(v, r) := terminal_parse_int p 1 in parse_params n r (params ++ [v])
      else if c =? 59 then parse_params n r (if (length params =? 0)%nat then [1] else params)
      else (params, p)
  | _, _ => (params, p)
  end.
Definition clear_attr (a : Z) t : terminal H := terminal_set_attributes (Z.land (t_attr t) (Z.lnot a)) t.
Definition set_attr (a : Z) t : terminal H := terminal_set_attributes (Z.lor (t_attr t) a) t.
Definition sgr_code t (code : Z) : terminal H :=
  if code =? 0 then terminal_reset_attributes t
  else if code =? 1 then set_attr ATTR_BOLD t
  else if code =? 4 then set_attr ATTR_UNDERLINE t
  else if code =? 5 then set_attr ATTR_BLINK t
  else if code =? 7 then set_attr ATTR_INVERSE t
  else if code =? 8 then set_attr ATTR_HIDDEN t
  else if code =? 22 then clear_attr ATTR_BOLD t
  else if code =? 24 then clear_attr ATTR_UNDERLINE t
  else if code =? 25 then clear_attr ATTR_BLINK t
  else if code =? 27 then clear_attr ATTR_INVERSE t
  else if code =? 28 then clear_attr ATTR_HIDDEN t
  else if (30 <=? code) && (code <=? 37) then set_pen (code - 30) (t_bg t) (t_attr t) t
  else if code =? 39 then set_pen (default_fg t) (t_bg t) (t_attr t) t
  else if (40 <=? code) && (code <=? 47) then set_pen (t_fg t) (code - 40) (t_attr t) t
  else if code =? 49 then set_pen (t_fg t) (default_bg t) (t_attr t) t
  else if (90 <=? code) && (code <=? 97) then set_pen (code - 90 + 8) (t_bg t) (t_attr t) t
  else if (100 <=? code) && (code <=? 107) then set_pen (t_fg t) (code - 100 + 8) (t_attr t) t
  else t.
(** The command of a sequence: its final character and its parameters. *)
Definition csi_command (final : Z) (params : list Z) t : terminal H * bool :=
  let n := default 1 (params !! 0%nat) in
  let m := default 1 (params !! 1%nat) in
  if final =? 65 then (terminal_move_cursor 0 (int_wrap (- n)) t, true)
  else if final =? 66 then (terminal_move_cursor 0 n t, true)
  else if final =? 67 then (terminal_move_cursor n 0 t, true)
  else if final =? 68 then (terminal_move_cursor (int_wrap (- n)) 0 t, true)
  else if final =? 69 then (terminal_move_cursor 0 n (at_cursor 0 (t_y t) t), true)
  else if final =? 70 then (terminal_move_cursor 0 (int_wrap (- n)) (at_cursor 0 (t_y t) t), true)
  else if final =? 71 then (terminal_set_cursor (int_wrap (n - 1)) (t_y t) t, true)
  else if (final =? 72) || (final =? 102) then (terminal_set_cursor (int_wrap (m - 1)) (int_wrap (n - 1)) t, true)
  else if final =? 74 then
    (if n =? 0 then terminal_clear_to_end t else if n =? 1 then terminal_clear_to_start t else if (n =? 2) || (n =? 3) then terminal_clear t else t, true)
  else if final =? 75 then (terminal_clear_line (default 0 (params !! 0%nat)) t, true)
  else if final =? 83 then (terminal_scroll n t, true)
  else if final =? 84 then (terminal_scroll (int_wrap (- n)) t, true)
  else if final =? 109 then (match params with [] => terminal_reset_attributes t | _ => foldl sgr_code t params end, true)
  else if final =? 115 then (terminal_save_cursor t, true)
  else if final =? 117 then (terminal_restore_cursor t, true)
  else if (final =? 110) || (final =? 104) || (final =? 108) then (t, true)
  else (t, false).
(** [seq] is the string; its end reads as 0. *)
Definition terminal_parse_csi (seq : list Z) t : terminal H * bool :=
  let '(params, p) := parse_params (length seq) seq [] in csi_command (default 0 (p !! 0%nat)) params t.
Definition terminal_process_escape (seq : list Z) t : terminal H * bool := terminal_parse_csi seq t.

Definition is_final (c : Z) : bool := ((65 <=? c) && (c <=? 90)) || ((97 <=? c) && (c <=? 122)) || (c =? 64).
Definition normal_char (c : Z) t : terminal H :=
  if c =? 27 then set_esc ESC_STATE_ESCAPE [] t
  else if c <? 32 then terminal_process_control c t
  else
    let t := terminal_put_char_at (t_x t) (t_y t) c t in
    let t := at_cursor (t_x t + 1) (t_y t) t in
    if t_width t <=? t_x t then terminal_new_line t else t.
Definition escape_char (c : Z) t : terminal H :=
  let normal t := set_esc ESC_STATE_NORMAL (esc_buffer t) t in
  if c =? 91 then set_esc ESC_STATE_CSI (esc_buffer t) t
  else if c =? 93 then set_esc ESC_STATE_OSC (esc_buffer t) t
  else if c =? 55 then normal (terminal_save_cursor t)
  else if c =? 56 then normal (terminal_restore_cursor t)
  else if c =? 99 then normal (terminal_reset_attributes (terminal_clear t))
  else normal t.
(** The characters of the sequence so far, as many as the buffer takes. *)
Definition keep_char (c : Z) t : list Z := if Z.of_nat (length (esc_buffer t)) <? TERMINAL_ESCAPE_BUFFER_SIZE - 1 then esc_buffer t ++ [c] else esc_buffer t.
Definition csi_char (c : Z) t : terminal H :=
  let t := set_esc ESC_STATE_CSI (keep_char c t) t in
  if is_final c then set_esc ESC_STATE_NORMAL [] (fst (terminal_process_escape (esc_buffer t) t)) else t.
Definition osc_char (c : Z) t : terminal H := if c =? 7 then set_esc ESC_STATE_NORMAL (esc_buffer t) t else set_esc ESC_STATE_OSC (keep_char c t) t.
(** A [char] is signed: from -128 to 127. *)
Definition terminal_process_char (c : Z) t : terminal H :=
  match t_esc t with
  | ESC_STATE_NORMAL => normal_char c t
  | ESC_STATE_ESCAPE => escape_char c t
  | ESC_STATE_CSI => csi_char c t
  | ESC_STATE_OSC => osc_char c t
  end.
Definition terminal_putc (c : Z) t : terminal H := terminal_process_char c t.
Definition terminal_puts (s : list Z) t : terminal H := foldl (fun t c => terminal_putc c t) t s.

(** ** Formatted output *)

(** [do { num[i++] = digit(val % base); val /= base; } while (val > 0 && i < 31);], the
    last digit first. *)
Fixpoint number_digits (n : nat) (val base : Z) (digit : Z -> Z) : list Z :=
  match n with
  | O => []
  | S n => let val' := Z.quot val base in digit (Z.rem val base) :: (if 0 <? val' then number_digits n val' base digit else [])
  end.
Definition lower_digit (d : Z) : Z := if d <? 10 then 48 + d else 87 + d.
Definition upper_digit (d : Z) : Z := if d <? 10 then 48 + d else 55 + d.
Definition decimal_digit (d : Z) : Z := 48 + d.
(** The next argument; a missing one is taken for zero or NULL. *)
Definition next_int (args : list vga_arg) : Z * list vga_arg := match args with AInt x :: r => (x, r) | _ :: r => (0, r) | [] => (0, []) end.
Definition next_str (args : list vga_arg) : option (list Z) * list vga_arg := match args with AStr s :: r => (s, r) | _ :: r => (None, r) | [] => (None, []) end.
(** The text of a conversion and the arguments that are left; a character that is none gives
    itself behind a percent sign. *)
Definition printf_item (c : Z) (args : list vga_arg) : list Z * list vga_arg :=
  if c =? 115 then let '(s, args) := next_str args in (default (str "(null)"%string) s, args)
  else if (c =? 100) || (c =? 105) then
    let '(x, args) := next_int args in
    let val := int_wrap x in
    ((if val <? 0 then [45] else []) ++ rev (number_digits 31 (if val <? 0 then int_wrap (- val) else val) 10 decimal_digit), args)
  else if c =? 117 then let '(x, args) := next_int args in (rev (number_digits 31 (u32 x) 10 decimal_digit), args)
  else if c =? 120 then let '(x, args) := next_int args in (rev (number_digits 31 (u32 x) 16 lower_digit), args)
  else if c =? 88 then let '(x, args) := next_int args in (rev (number_digits 31 (u32 x) 16 upper_digit), args)
  else if c =? 99 then let '(x, args) := next_int args in ([if 128 <=? u8 x then u8 x - 256 else u8 x], args)
  else if c =? 37 then ([37], args)
  else ([37; c], args).
(** The bytes before the first zero. *)
Fixpoint c_string (s : list Z) : list Z := match s with c :: r => if c =? 0 then [] else c :: c_string r | [] => [] end.
Definition PRINTF_ROOM : nat := 1023.
(** The text in the buffer of 1024 bytes, cut where it is full; [None] when the format is read
    behind its end. *)
Fixpoint printf_text (fmt : list Z) (args : list vga_arg) (out : list Z) : option (list Z) :=
  if (PRINTF_ROOM <=? length out)%nat then Some out
  else
    match fmt with
    | [] => Some out
    | c :: r =>
        if c =? 37 then
          match r with
          | [] => None
          | d :: r => let '(s, args) := printf_item d args in printf_text r args (out ++ take (PRINTF_ROOM - length out) s)
          end
        else printf_text r args (out ++ [c])
    end.
Definition terminal_printf (fmt : list Z) (args : list vga_arg) t : option (terminal H * Z) :=
  out ← printf_text fmt args []; Some (terminal_puts (c_string out) t, Z.of_nat (length out)).

(** ** The line that is typed *)

Definition type_char (c : Z) t : terminal H :=
  let t := terminal_scroll_to_bottom t in
  let b := if insert_mode t && (input_pos t <? input_length t) then move_bytes (input_pos t + 1) (input_pos t) (input_length t - input_pos t) (input_bytes t) else input_bytes t in
  let b := put_byte (input_pos t) c b in
  let pos := input_pos t + 1 in
  let len := (if input_length t <? pos then pos else input_length t) + 1 in
  let t := set_typed (put_byte len 0 b) len pos t in
  if echo_enabled t then terminal_putc c t else t.
Definition erase_before t : terminal H :=
  if 0 <? input_pos t then
    let b := move_bytes (input_pos t - 1) (input_pos t) (input_length t - input_pos t) (input_bytes t) in
    let len := input_length t - 1 in
    let t := set_typed (put_byte len 0 b) len (input_pos t - 1) t in
    if echo_enabled t then terminal_backspace t else t
  else t.
Definition erase_under t : terminal H :=
  if input_pos t <? input_length t then
    let b := move_bytes (input_pos t) (input_pos t + 1) (input_length t - input_pos t) (input_bytes t) in
    let len := input_length t - 1 in
    set_typed (put_byte len 0 b) len (input_pos t) t
  else t.
(** The result is true for Enter. *)
Definition terminal_handle_input (k : key_event) t : terminal H * bool :=
  let shift := negb (Z.land (key_modifiers k) MOD_SHIFT =? 0) in
  if negb (pressed k) then (t, false)
  else if keycode k =? KEY_UP then (if shift then terminal_scroll_view 1 t else t, false)
  else if keycode k =? KEY_DOWN then (if shift then terminal_scroll_view (-1) t else t, false)
  else if keycode k =? KEY_PAGEUP then (terminal_scroll_view (Z.quot (t_height t) 2) t, false)
  else if keycode k =? KEY_PAGEDOWN then (terminal_scroll_view (Z.quot (- t_height t) 2) t, false)
  else if keycode k =? KEY_HOME then (if shift then set_redraw true (set_offset (scrollback_count t) t) else t, false)
  else if keycode k =? KEY_END then (if shift then terminal_scroll_to_bottom t else t, false)
  else if keycode k =? KEY_BACKSPACE then (erase_before t, false)
  else if keycode k =? KEY_DELETE then (erase_under t, false)
  else if keycode k =? KEY_ENTER then (if echo_enabled t then terminal_putc 10 t else t, true)
  else if keycode k =? KEY_LEFT then (if 0 <? input_pos t then set_typed (input_bytes t) (input_length t) (input_pos t - 1) t else t, false)
  else if keycode k =? KEY_RIGHT then (if input_pos t <? input_length t then set_typed (input_bytes t) (input_length t) (input_pos t + 1) t else t, false)
  else if printable (key_ascii k) then (if input_length t <? TERMINAL_INPUT_BUFFER_SIZE - 1 then type_char (key_ascii k) t else t, false)
  else (t, false).

(** ** Drawing *)

Inductive draw_call :=
| DrawPixel (x y color : Z) (* dest_buffer[y * width + x] of the window *)
| DrawChar (x y c fg bg : Z) (* fb_draw_char *)
| FillRect (x y w h color : Z) (* fb_fill_rect *)
| Present (x y w h : Z). (* compositor_invalidate and compositor_render *)
Definition cell_colors t (c : cell) : Z * Z :=
  let fg := default 0 (palette t !! Z.to_nat (Z.land (cell_fg c) 0x0F)) in
  let bg := default 0 (palette t !! Z.to_nat (Z.land (cell_bg c) 0x0F)) in
  let '(fg, bg) := if negb (Z.land (cell_attr c) ATTR_INVERSE =? 0) then (bg, fg) else (fg, bg) in
  (if negb (Z.land (cell_attr c) ATTR_BOLD =? 0) then default 0 (palette t !! Z.to_nat (Z.land (cell_fg c) 0x07 + 8)) else fg, bg).
(** The background of a character cell, as far as it lies in the window. *)
Definition cell_pixels (w : win) (px py bg : Z) : list draw_call :=
  cy ← seqZ 0 TERMINAL_CHAR_HEIGHT; cx ← seqZ 0 TERMINAL_CHAR_WIDTH;
  let x := px + cx in
  let y := py + cy in
  if (0 <=? x) && (x <? win_width w) && (0 <=? y) && (y <? win_height w) then [DrawPixel x y bg] else [].
Definition draw_cell t (x line : Z) (c : cell) : list draw_call :=
  let '(fg, bg) := cell_colors t c in
  let px := x * TERMINAL_CHAR_WIDTH in
  let py := line * TERMINAL_CHAR_HEIGHT in
  let glyph := if ch c =? 0 then 32 else ch c in
  match t_window t with
  | Some w => cell_pixels w px py bg ++ [DrawChar (win_x w + px) (win_y w + py) glyph fg bg]
  | None => [DrawChar px py glyph fg bg]
  end.
(** [fb_ready] is whether the frame buffer is initialised. *)
Definition terminal_draw_line (fb_ready : bool) t (line : Z) : list draw_call :=
  if (line <? 0) || (t_height t <=? line) then []
  else if (match t_window t with Some _ => false | None => negb (fullscreen t && fb_ready) end) then []
  else x ← seqZ 0 (t_width t); draw_cell t x line (default (blank t) (cells_of t line !! Z.to_nat x)).
Definition terminal_draw_cursor t : list draw_call :=
  if t_visible t then
    let px := t_x t * TERMINAL_CHAR_WIDTH + (match t_window t with Some w => win_x w | None => 0 end) in
    let py := t_y t * TERMINAL_CHAR_HEIGHT + (match t_window t with Some w => win_y w | None => 0 end) in
    [FillRect px (py + TERMINAL_CHAR_HEIGHT - 2) TERMINAL_CHAR_WIDTH 2 (default 0 (palette t !! Z.to_nat (t_fg t)))]
  else [].
Definition mark_drawn (l : tline) : tline := mk_tline (cells_at l) (cells l) false.
Definition terminal_draw (fb_ready : bool) t : terminal H * list draw_call :=
  if negb (needs_redraw t) && negb (existsb dirty (buffer t)) then (t, [])
  else
    let calls := y ← seqZ 0 (t_height t); if needs_redraw t || dirty (row_at t y) then terminal_draw_line fb_ready t y else [] in
    let cursor := if t_visible t && t_blink t && (scroll_offset t =? 0) then terminal_draw_cursor t else [] in
    let present := match t_window t with Some w => [Present (win_x w) (win_y w) (win_width w) (win_height w)] | None => [] end in
    (set_redraw false (set_rows (map mark_drawn (buffer t)) t), calls ++ cursor ++ present).
Definition terminal_blink_cursor t : terminal H :=
  let t := set_blink (negb (t_blink t)) t in
  if (0 <=? t_y t) && (t_y t <? t_height t) then put_row (t_y t) (cells_of t (t_y t)) t else t.

(** ** Lines of input and commands *)

(** The loop over the events that arrive; [None] while it waits for more. *)
Fixpoint getline_loop (fb_ready : bool) (events : list key_event) t : option (terminal H * list key_event) :=
  if negb (t_running t) then Some (t, events)
  else
    match events with
    | [] => None
    | k :: events => let '(t, done) := terminal_handle_input k t in if done then Some (t, events) else getline_loop fb_ready events (fst (terminal_draw fb_ready t))
    end.
Definition terminal_getline (fb_ready : bool) (max_length : Z) (events : list key_event) t : option (terminal H * list Z * list key_event) :=
  '(t, events) ← getline_loop fb_ready events (set_typed (put_byte 0 0 (input_bytes t)) 0 0 t);
  let copy_len := if max_length <=? input_length t then max_length - 1 else input_length t in
  Some (set_typed (input_bytes t) 0 0 t, take (Z.to_nat copy_len) (input_bytes t), events).
Fixpoint terminal_getchar (events : list key_event) t : option (Z * list key_event) :=
  if negb (t_running t) then Some (-1, events)
  else
    match events with
    | [] => None
    | k :: events =>
        if pressed k && printable (key_ascii k) then Some (key_ascii k, events)
        else if pressed k && (keycode k =? KEY_ENTER) then Some (10, events)
        else terminal_getchar events t
    end.
Definition terminal_stop t : terminal H := set_t_running false t.
Fixpoint skip_spaces (s : list Z) : list Z := match s with c :: r => if c =? 32 then skip_spaces r else s | [] => [] end.
(** [Some command] is what is passed to [shell_execute]. *)
Definition terminal_execute (command : list Z) t : terminal H * option (list Z) :=
  let command := skip_spaces (c_string command) in
  if (length command =? 0)%nat then (t, None)
  else if bool_decide (command = str "exit"%string) || bool_decide (command = str "quit"%string) then (terminal_stop t, None)
  else if bool_decide (command = str "clear"%string) then (terminal_clear t, None)
  else (t, Some command).
Definition CYAN_TITLE : list Z := [27] ++ str "[1;36mAAAos Terminal"%string ++ [27] ++ str "[0m"%string ++ [10].
Definition PROMPT : list Z := [27] ++ str "[1;32maaos>"%string ++ [27] ++ str "[0m "%string.
(** Rounds of the main loop, as long as there are events; the commands for the shell. *)
Fixpoint run_loop (n : nat) (fb_ready : bool) (events : list key_event) t : terminal H * list (list Z) :=
  match n with
  | O => (t, [])
  | S n =>
      if negb (t_running t) then (t, [])
      else
        let t := terminal_puts PROMPT t in
        match terminal_getline fb_ready TERMINAL_INPUT_BUFFER_SIZE events t with
        | None => (t, [])
        | Some (t, command, events) =>
            let '(t, c) := if (0 <? length command)%nat then terminal_execute command t else (t, None) in
            let '(t, cs) := run_loop n fb_ready events t in (t, match c with Some c => c :: cs | None => cs end)
        end
  end.
Definition terminal_run (n : nat) (fb_ready : bool) (events : list key_event) t : terminal H * list (list Z) :=
  let t := terminal_puts CYAN_TITLE (set_t_running true t) in
  run_loop n fb_ready events (terminal_puts (str "Type 'help' for available commands."%string ++ [10; 10]) t).

(** ** Creation, destruction, resizing *)

(** The blocks of [n] rows of [width] cells; on failure those that were had are freed. *)
Fixpoint alloc_rows (n : nat) (width : Z) (h : H) (rows : list tline) : H * option (list tline) :=
  match n with
  | O => (h, Some rows)
  | S n =>
      let '(h, p) := kh_malloc (width * sizeof_cell) h in
      if p =? NULL then (foldr (fun l h => kh_free (cells_at l) h) h rows, None)
      else alloc_rows n width h (rows ++ [mk_tline p (raw_cells width) true])
  end.
Definition free_rows (rows : list tline) (h : H) : H := foldl (fun h l => kh_free (cells_at l) h) h rows.
Definition checked (v limit dflt : Z) : Z := if (v =? 0) || (limit <? v) then dflt else v.
Definition terminal_create (width_chars height_chars : Z) (h : H) : H * option (Z * terminal H) :=
  let width := checked width_chars TERMINAL_MAX_WIDTH TERMINAL_DEFAULT_WIDTH in
  let height := checked height_chars TERMINAL_MAX_HEIGHT TERMINAL_DEFAULT_HEIGHT in
  let '(h, self) := kh_malloc sizeof_terminal h in
  if self =? NULL then (h, None)
  else
    let '(h, b) := kh_malloc (height * sizeof_terminal_line) h in
    if b =? NULL then (kh_free self h, None)
    else
      match alloc_rows (Z.to_nat height) width h [] with
      | (h, None) => (kh_free self (kh_free b h), None)
      | (h, Some rows) =>
          let '(h, sb) := kh_malloc (TERMINAL_SCROLLBACK_LINES * sizeof_terminal_line) h in
          if sb =? NULL then (kh_free self (kh_free b (free_rows rows h)), None)
          else
            let t := mk_terminal width height 0 0 true true rows b (fun _ => mk_sb NULL 0 []) sb TERMINAL_SCROLLBACK_LINES 0 0 0
                       ANSI_COLOR_WHITE ANSI_COLOR_BLACK 0 ANSI_COLOR_WHITE ANSI_COLOR_BLACK ESC_STATE_NORMAL [] (repeat 0 256) 0 0
                       None false true false true true true 0 0 default_palette h in
            (h, Some (self, terminal_clear t))
      end.
(** [self] is the address of the terminal; the window, if any, is destroyed by the compositor. *)
Definition terminal_destroy (self : Z) t : H * option win :=
  let h := if buffer_at t =? NULL then t_heap t else kh_free (buffer_at t) (foldl (fun h l => if cells_at l =? NULL then h else kh_free (cells_at l) h) (t_heap t) (buffer t)) in
  let h := if scrollback_at t =? NULL then h
           else kh_free (scrollback_at t) (for_range 0 (scrollback_size t) (fun i h => if sb_at (scrollback t i) =? NULL then h else kh_free (sb_at (scrollback t i)) h) h) in
  (kh_free self h, t_window t).
(** [made] is what compositor_create_window returns for the size in pixels. *)
Definition terminal_create_windowed (width_chars height_chars : Z) (made : Z -> Z -> option win) (h : H) : H * option (Z * terminal H) :=
  match terminal_create width_chars height_chars h with
  | (h, None) => (h, None)
  | (h, Some (self, t)) =>
      match made (u32 (width_chars * TERMINAL_CHAR_WIDTH)) (u32 (height_chars * TERMINAL_CHAR_HEIGHT)) with
      | None => (fst (terminal_destroy self t), None)
      | Some w => (h, Some (self, set_redraw true (set_window (Some w) false t)))
      end
  end.
(** [fb] is the size of the frame buffer, if it is initialised. *)
Definition terminal_create_fullscreen (fb : option (Z * Z)) (h : H) : H * option (Z * terminal H) :=
  match fb with
  | None => (h, None)
  | Some (w, ht) =>
      match terminal_create (w / TERMINAL_CHAR_WIDTH) (ht / TERMINAL_CHAR_HEIGHT) h with
      | (h, None) => (h, None)
      | (h, Some (self, t)) => (h, Some (self, set_redraw true (set_window None true t)))
      end
  end.
(** A row of the new screen: blank, with the start of the old row over it. *)
Definition resized_row t (new_width : Z) (y : Z) (l : tline) : tline :=
  let fresh_cells := clear_cells 0 new_width (blank t) (cells l) in
  let kept := take (Z.to_nat (Z.min (t_width t) new_width)) (cells_of t y) in
  mk_tline (cells_at l) (if y <? t_height t then kept ++ drop (length kept) fresh_cells else fresh_cells) true.
Definition terminal_resize (new_width new_height : Z) t : terminal H * Z :=
  if (new_width =? 0) || (new_height =? 0) then (t, -1)
  else
    let new_width := Z.min new_width TERMINAL_MAX_WIDTH in
    let new_height := Z.min new_height TERMINAL_MAX_HEIGHT in
    if (new_width =? t_width t) && (new_height =? t_height t) then (t, 0)
    else
      let '(h, b) := kh_malloc (new_height * sizeof_terminal_line) (t_heap t) in
      if b =? NULL then (set_t_heap h t, -1)
      else
        match alloc_rows (Z.to_nat new_height) new_width h [] with
        | (h, None) => (set_t_heap (kh_free b h) t, -1)
        | (h, Some rows) =>
            let rows := imap (fun y l => resized_row t new_width (Z.of_nat y) l) rows in
            let h := kh_free (buffer_at t) (free_rows (buffer t) h) in
            let x := if new_width <=? t_x t then new_width - 1 else t_x t in
            let y := if new_height <=? t_y t then new_height - 1 else t_y t in
            (set_redraw true (at_cursor x y (set_screen new_width new_height rows b (set_t_heap h t))), 0)
        end.
Definition WINDOW_TITLE_MAX_LEN : Z := 128.
Definition terminal_set_title (title : list Z) t : terminal H :=
  match t_window t with
  | Some w => set_window (Some (mk_win (win_x w) (win_y w) (win_width w) (win_height w) (take (Z.to_nat (WINDOW_TITLE_MAX_LEN - 1)) title))) (fullscreen t) t
  | None => t
  end.

(** ** The rest *)

(** The flag of the subsystem. *)
Definition terminal_init (initialized : bool) : bool := true.
Definition terminal_shutdown (initialized : bool) : bool := false.
Definition terminal_get_window t : option win := t_window t.
(** A line of its own: the address of the structure and the line. No code calls these two. *)
Definition terminal_alloc_line (width : Z) (h : H) : H * option (Z * tline) :=
  let '(h, p) := kh_malloc sizeof_terminal_line h in
  if p =? NULL then (h, None)
  else
    let '(h, c) := kh_malloc (width * sizeof_cell) h in
    if c =? NULL then (kh_free p h, None) else (h, Some (p, mk_tline c (raw_cells width) true)).
Definition terminal_free_line (self : Z) (l : tline) (h : H) : H :=
  if self =? NULL then h else kh_free self (if cells_at l =? NULL then h else kh_free (cells_at l) h).
End Terminal.
