(* ===== verification/TerminalProps.v ===== *)
(** * What the terminal emulator promises (apps/terminal/terminal.c)

    Whatever is printed, typed or resized, every access stays inside the screen; lines that
    scroll off are kept in order; a cursor address arrives where it says. *)
From Stdlib Require Import String.
From S2P Require Import Prelude Memory PageAlloc Heap Ring Auth Chain VfsBase Vga Editor EditorProps Terminal.
Close Scope string_scope.

Section Safety.
Context {H : Type} `{KernelHeap H}.
Variable raw : Z -> cell.
Implicit Types t : terminal H.

(** A screen of [w] by [h] cells with the cursor at [x], [y]. Unless it was [resized], every
    block of the scrollback has a cell for every column. *)
Record shape (resized : bool) (w h x y : Z) t : Prop := mk_shape {
  sh_width : t_width t = w; sh_height : t_height t = h; sh_x : t_x t = x; sh_y : t_y t = y;
  sh_rows : Z.of_nat (length (buffer t)) = h; sh_cells : Forall (fun l => Z.of_nat (length (cells l)) = w) (buffer t);
  sh_size : scrollback_size t = TERMINAL_SCROLLBACK_LINES; sh_count : 0 <= scrollback_count t <= TERMINAL_SCROLLBACK_LINES;
  sh_head : 0 <= scrollback_head t < TERMINAL_SCROLLBACK_LINES; sh_offset : 0 <= scroll_offset t <= scrollback_count t;
  sh_back : resized = false -> forall i, sb_at (scrollback t i) <> NULL -> sb_room (scrollback t i) = w /\ Z.of_nat (length (sb_cells (scrollback t i))) = w;
  sh_pen : (0 <= t_fg t < ANSI_COLOR_MAX) /\ (0 <= t_bg t < ANSI_COLOR_MAX) /\ (0 <= default_fg t < ANSI_COLOR_MAX) /\ (0 <= default_bg t < ANSI_COLOR_MAX);
  sh_palette : Z.of_nat (length (palette t)) = ANSI_COLOR_MAX; sh_esc : Z.of_nat (length (esc_buffer t)) < TERMINAL_ESCAPE_BUFFER_SIZE;
  sh_input : Z.of_nat (length (input_bytes t)) = TERMINAL_INPUT_BUFFER_SIZE; sh_typed : 0 <= input_pos t <= input_length t /\ input_length t <= TERMINAL_INPUT_BUFFER_SIZE }.
Definition size_ok (w h : Z) : Prop := (0 < w <= TERMINAL_MAX_WIDTH) /\ (0 < h <= TERMINAL_MAX_HEIGHT).
Definition term_ok (resized : bool) t : Prop := exists w h x y, size_ok w h /\ 0 <= x < w /\ 0 <= y < h /\ shape resized w h x y t.

Lemma length_raw_cells n : length (raw_cells raw n) = Z.to_nat n.
Proof. unfold raw_cells. by rewrite length_map, length_seqZ. Qed.

Section Fixed.
Context (rs : bool) (w h : Z).
Notation shaped := (shape rs w h).
Implicit Types x y : Z.

Lemma shape_at x y x' y' t : shaped x y t -> shaped x' y' (at_cursor x' y' t).
Proof. intros []. by split. Qed.
Lemma shape_rows x y t rows : shaped x y t -> Z.of_nat (length rows) = h -> Forall (fun l => Z.of_nat (length (cells l)) = w) rows -> shaped x y (set_rows rows t).
Proof. intros [] ? ?. by split. Qed.
Lemma shape_redraw x y t b : shaped x y t -> shaped x y (set_redraw b t).
Proof. intros []. by split. Qed.
Lemma shape_pen x y t fg bg a : shaped x y t -> 0 <= fg < ANSI_COLOR_MAX -> 0 <= bg < ANSI_COLOR_MAX -> shaped x y (set_pen fg bg a t).
Proof. intros [] ? ?. split; try done. cbn. naive_solver. Qed.
Lemma shape_offset x y t o : shaped x y t -> 0 <= o <= scrollback_count t -> shaped x y (set_offset o t).
Proof. intros [] ?. by split. Qed.
Lemma shape_esc x y t s b : shaped x y t -> Z.of_nat (length b) < TERMINAL_ESCAPE_BUFFER_SIZE -> shaped x y (set_esc s b t).
Proof. intros [] ?. by split. Qed.
Lemma shape_typed x y t b l p : shaped x y t -> Z.of_nat (length b) = TERMINAL_INPUT_BUFFER_SIZE -> 0 <= p <= l -> l <= TERMINAL_INPUT_BUFFER_SIZE -> shaped x y (set_typed b l p t).
Proof. intros [] ? ? ?. by split. Qed.
Lemma shape_saved x y t a b : shaped x y t -> shaped x y (set_saved a b t).
Proof. intros []. by split. Qed.
Lemma shape_visible x y t b : shaped x y t -> shaped x y (set_visible b t).
Proof. intros []. by split. Qed.
Lemma shape_blink x y t b : shaped x y t -> shaped x y (set_blink b t).
Proof. intros []. by split. Qed.
Lemma shape_running x y t b : shaped x y t -> shaped x y (set_t_running b t).
Proof. intros []. by split. Qed.
Lemma shape_window x y t v f : shaped x y t -> shaped x y (set_window v f t).
Proof. intros []. by split. Qed.
Lemma shape_palette x y t p : shaped x y t -> Z.of_nat (length p) = ANSI_COLOR_MAX -> shaped x y (set_palette p t).
Proof. intros [] ?. by split. Qed.
Lemma shape_heap x y t g : shaped x y t -> shaped x y (set_t_heap g t).
Proof. intros []. by split. Qed.

(** A row that exists has a cell for every column. *)
Lemma row_length x y t i : shaped x y t -> 0 <= i < h -> Z.of_nat (length (cells_of t i)) = w.
Proof.
  intros [] Hi. unfold cells_of, row_at. destruct (lookup_lt_is_Some_2 (buffer t) (Z.to_nat i)) as [l El]; [lia|]. rewrite El. cbn. by apply (Forall_lookup_1 _ _ _ _ sh_cells0 El).
Qed.
Lemma shape_put_row x y t i cs : shaped x y t -> Z.of_nat (length cs) = w -> shaped x y (put_row i cs t).
Proof. intros Hs Hc. pose proof Hs as []. apply shape_rows; [done|by rewrite length_insert|]. apply Forall_insert; done. Qed.
Lemma clear_cells_length lo hi b cs : length (clear_cells lo hi b cs) = length cs.
Proof. unfold clear_cells. apply (for_range_rel (fun l => length l = length cs)); [done|]. intros j l _ Hl. by rewrite length_insert. Qed.
Lemma shape_clear_part x y t i lo hi : shaped x y t -> 0 <= i < h -> shaped x y (clear_row_part i lo hi t).
Proof. intros Hs Hi. apply shape_put_row; [done|]. rewrite clear_cells_length. by eapply row_length. Qed.
Lemma shape_clear_rows x y t lo hi : shaped x y t -> 0 <= lo -> hi <= h -> shaped x y (clear_rows lo hi t).
Proof. intros Hs Hlo Hhi. unfold clear_rows. apply (for_range_rel (shaped x y)); [done|]. intros j t' Hj Hs'. apply shape_clear_part; [done|lia]. Qed.
Lemma shape_put_char x y t cx cy c : shaped x y t -> shaped x y (terminal_put_char_at cx cy c t).
Proof.
  intros Hs. unfold terminal_put_char_at. destruct (_ || _) eqn:E; [done|]. zbool. pose proof Hs as [Hw Hh _ _ _ _ _ _ _ _ _ _ _ _ _ _]. apply shape_put_row; [done|]. rewrite length_insert. eapply row_length; [done|]. zbool. lia.
Qed.

(** *** Clearing *)

Context (Hsize : size_ok w h).
Lemma shape_clear x y t : shaped x y t -> shaped 0 0 (terminal_clear t).
Proof. intros Hs. unfold terminal_clear. eapply shape_redraw, shape_at, shape_clear_rows; [done|lia|]. rewrite (sh_height _ _ _ _ _ _ Hs). lia. Qed.
Lemma shape_clear_end x y t : shaped x y t -> 0 <= x < w -> 0 <= y < h -> shaped x y (terminal_clear_to_end t).
Proof.
  intros Hs Hx Hy. destruct Hsize as [? ?]. unfold TERMINAL_MAX_HEIGHT in *. unfold terminal_clear_to_end. cbn zeta. set (t1 := clear_row_part _ _ _ t). assert (shaped x y t1) as Hs1 by (apply shape_clear_part; [done|]; rewrite (sh_y _ _ _ _ _ _ Hs); lia).
  apply shape_redraw, shape_clear_rows; [done| |rewrite (sh_height _ _ _ _ _ _ Hs1); lia]. rewrite (sh_y _ _ _ _ _ _ Hs1), u32_id by lia. lia.
Qed.
Lemma shape_clear_start x y t : shaped x y t -> 0 <= x < w -> 0 <= y < h -> shaped x y (terminal_clear_to_start t).
Proof.
  intros Hs Hx Hy. destruct Hsize as [? ?]. unfold TERMINAL_MAX_HEIGHT in *. unfold terminal_clear_to_start. cbn zeta. set (t1 := clear_rows _ _ t). assert (shaped x y t1) as Hs1 by (apply shape_clear_rows; [done|lia|rewrite (sh_y _ _ _ _ _ _ Hs), u32_id by lia; lia]).
  apply shape_redraw, shape_clear_part; [done|]. rewrite (sh_y _ _ _ _ _ _ Hs1). lia.
Qed.
Lemma shape_clear_line x y t m : shaped x y t -> 0 <= y < h -> shaped x y (terminal_clear_line m t).
Proof. intros Hs Hy. unfold terminal_clear_line. destruct (if m =? 0 then _ else _) as [lo hi]. apply shape_redraw, shape_clear_part; [done|]. by rewrite (sh_y _ _ _ _ _ _ Hs). Qed.

(** *** Scrolling *)

Lemma shape_save_line x y t i : shaped x y t -> 0 <= i < h -> shaped x y (save_line raw i t).
Proof.
  intros Hs Hi. unfold save_line. cbn zeta. set (k := _ mod scrollback_size t). destruct (if sb_at (scrollback t k) =? NULL then _ else _) as [g l] eqn:El. apply (shape_heap _ _ _ g) in Hs as Hs1. destruct (Z.eqb_spec (sb_at l) NULL) as [|Hl]; [done|].
  assert (rs = false -> sb_room l = w /\ Z.of_nat (length (cells_of (set_t_heap g t) i ++ drop (length (cells_of (set_t_heap g t) i)) (sb_cells l))) = w) as Hroom.
  { intros Hrs. pose proof (row_length _ _ _ i Hs1 Hi) as Hrow. rewrite length_app, length_drop. destruct (Z.eqb_spec (sb_at (scrollback t k)) NULL) as [Hn|Hn].
    - destruct (kh_malloc _ _) as [g' p]. destruct (p =? NULL); injection El as <- <-; [done|]. cbn. rewrite (sh_width _ _ _ _ _ _ Hs), length_raw_cells. lia.
    - injection El as <- <-. destruct (sh_back _ _ _ _ _ _ Hs Hrs k Hn) as [R1 R2]. split; [done|]. lia. }
  destruct Hs1. set (l' := mk_sb _ _ _). assert (rs = false -> forall j, sb_at (upd (scrollback t) k l' j) <> NULL -> sb_room (upd (scrollback t) k l' j) = w /\ Z.of_nat (length (sb_cells (upd (scrollback t) k l' j))) = w) as Hback.
  { intros Hrs j. destruct (decide (j = k)) as [->|]; [rewrite upd_same; intros _; by apply Hroom|]. rewrite upd_other by done. by apply sh_back0. }
  cbn in sh_count0, sh_size0, sh_head0, sh_offset0. cbn [scrollback_count scrollback_size scrollback set_t_heap scrollback_head]. rewrite sh_size0. destruct (Z.ltb_spec (scrollback_count t) TERMINAL_SCROLLBACK_LINES); split; try done; cbn; try lia. apply Z.mod_pos_bound. done.
Qed.
Lemma scroll_lines_ok x y t n : shaped x y t -> 0 < scroll_lines n t <= h.
Proof.
  intros Hs. unfold scroll_lines. rewrite (sh_height _ _ _ _ _ _ Hs). destruct Hsize as [_ ?]. unfold TERMINAL_MAX_HEIGHT in *. destruct (Z.leb_spec n 0); cbn [orb]; [lia|]. destruct (Z.ltb_spec h n); lia.
Qed.
Lemma shape_scroll_up x y t n : shaped x y t -> shaped x y (terminal_scroll_up raw n t).
Proof.
  intros Hs. pose proof (scroll_lines_ok _ _ _ n Hs) as Hn. unfold terminal_scroll_up. cbn zeta. set (m := scroll_lines n t) in *. set (t1 := for_range 0 m _ t). assert (shaped x y t1) as S1 by (apply (for_range_rel (shaped x y)); [done|]; intros j t' Hj Ht'; apply shape_save_line; [done|lia]).
  set (t2 := for_range 0 _ _ t1). assert (shaped x y t2) as S2.
  { apply (for_range_rel (shaped x y)); [done|]. intros j t' Hj Ht'. rewrite (sh_height _ _ _ _ _ _ S1) in Hj. apply shape_put_row; [done|]. eapply row_length; [done|lia]. }
  rewrite (sh_height _ _ _ _ _ _ S2). apply shape_redraw, shape_clear_rows; [done|lia|lia].
Qed.
Lemma shape_scroll_down x y t n : shaped x y t -> shaped x y (terminal_scroll_down n t).
Proof.
  intros Hs. pose proof (scroll_lines_ok _ _ _ n Hs) as Hn. unfold terminal_scroll_down. cbn zeta. set (m := scroll_lines n t) in *. apply shape_redraw, shape_clear_rows; [|lia|lia].
  apply (for_range_rel (shaped x y)); [done|]. intros j t' Hj Ht'. rewrite (sh_height _ _ _ _ _ _ Hs) in Hj. rewrite (sh_height _ _ _ _ _ _ Ht'). apply shape_put_row; [done|]. eapply row_length; [done|lia].
Qed.
Lemma shape_scroll x y t n : shaped x y t -> shaped x y (terminal_scroll raw n t).
Proof. intros Hs. unfold terminal_scroll. destruct (n =? 0); [done|]. destruct (0 <? n); [by apply shape_scroll_up|by apply shape_scroll_down]. Qed.
Lemma shape_view x y t n : shaped x y t -> shaped x y (terminal_scroll_view n t).
Proof.
  intros Hs. unfold terminal_scroll_view. cbn zeta. apply shape_redraw, shape_offset; [done|]. pose proof (sh_count _ _ _ _ _ _ Hs). set (o := int_wrap _). destruct (Z.ltb_spec o 0); [destruct (Z.ltb_spec (scrollback_count t) 0); lia|]. destruct (Z.ltb_spec (scrollback_count t) o); lia.
Qed.
Lemma shape_bottom x y t : shaped x y t -> shaped x y (terminal_scroll_to_bottom t).
Proof. intros Hs. unfold terminal_scroll_to_bottom. case_match; [done|]. apply shape_redraw, shape_offset; [done|]. pose proof (sh_count _ _ _ _ _ _ Hs). lia. Qed.

(** *** Characters *)

(** The cursor is on the screen. *)
Definition placed t : Prop := exists x y, 0 <= x < w /\ 0 <= y < h /\ shaped x y t.
Lemma placed_here x y t : shaped x y t -> 0 <= x < w -> 0 <= y < h -> placed t.
Proof. intros Hs Hx Hy. exists x, y. by do 2 (split; [done|]). Qed.
Lemma placed_set_cursor x y t a b : shaped x y t -> placed (terminal_set_cursor a b t).
Proof.
  intros Hs. destruct Hsize as [? ?]. unfold terminal_set_cursor. cbn zeta. rewrite (sh_width _ _ _ _ _ _ Hs), (sh_height _ _ _ _ _ _ Hs). eexists _, _. split; [|split; [|by eapply shape_at]].
  - destruct (Z.ltb_spec a 0); [destruct (Z.leb_spec w 0); lia|]. destruct (Z.leb_spec w a); lia.
  - destruct (Z.ltb_spec b 0); [destruct (Z.leb_spec h 0); lia|]. destruct (Z.leb_spec h b); lia.
Qed.
Lemma placed_new_line x y t : shaped x y t -> 0 <= y < h -> placed (terminal_new_line raw t).
Proof.
  intros Hs Hy. destruct Hsize as [? ?]. unfold terminal_new_line. cbn zeta. rewrite (sh_height _ _ _ _ _ _ Hs), (sh_y _ _ _ _ _ _ Hs). destruct (Z.leb_spec h (y + 1)).
  - exists 0, (h - 1). split; [lia|]. split; [lia|]. apply shape_scroll. by eapply shape_at.
  - exists 0, (y + 1). split; [lia|]. split; [lia|]. by eapply shape_at.
Qed.
Lemma shape_tab_step x y t : shaped x y t -> 0 <= x <= w -> exists x', 0 <= x' <= w /\ shaped x' y (tab_step 0 t).
Proof.
  intros Hs Hx. unfold tab_step. rewrite (sh_x _ _ _ _ _ _ Hs), (sh_width _ _ _ _ _ _ Hs). destruct (Z.ltb_spec x w); [|by exists x]. exists (x + 1). split; [lia|]. rewrite (sh_y _ _ _ _ _ _ Hs). by eapply shape_at, shape_put_char.
Qed.
Lemma placed_tab x y t : shaped x y t -> 0 <= x < w -> 0 <= y < h -> placed (terminal_tab raw t).
Proof.
  intros Hs Hx Hy. unfold terminal_tab. cbn zeta. set (t1 := for_range _ _ _ t). assert (exists x', 0 <= x' <= w /\ shaped x' y t1) as (x' & Hx' & S1).
  { apply (for_range_rel (fun t => exists x', 0 <= x' <= w /\ shaped x' y t)); [exists x; split; [lia|done]|]. intros j t' _ (x' & Hx' & Ht'). by apply (shape_tab_step x'). }
  rewrite (sh_width _ _ _ _ _ _ S1), (sh_x _ _ _ _ _ _ S1). destruct (Z.leb_spec w x'); [by eapply placed_new_line|]. exists x', y. split; [lia|]. by split.
Qed.
Lemma placed_backspace x y t : shaped x y t -> 0 <= x < w -> 0 <= y < h -> placed (terminal_backspace t).
Proof.
  intros Hs Hx Hy. unfold terminal_backspace. rewrite (sh_x _ _ _ _ _ _ Hs), (sh_y _ _ _ _ _ _ Hs). destruct (Z.ltb_spec 0 x); [|by apply (placed_here x y)].
  cbn zeta. set (t1 := terminal_put_char_at _ _ _ _). assert (shaped (x - 1) y t1) as S1 by (by eapply shape_put_char, shape_at). exists (x - 1), y. split; [lia|]. split; [done|]. rewrite (sh_y _ _ _ _ _ _ S1). apply shape_put_row; [done|]. by eapply row_length.
Qed.
Lemma placed_control c x y t : shaped x y t -> 0 <= x < w -> 0 <= y < h -> placed (terminal_process_control raw c t).
Proof.
  intros Hs Hx Hy. destruct Hsize as [? ?]. unfold terminal_process_control. destruct (c =? 10); [by eapply placed_new_line|]. destruct (c =? 13); [exists 0, y; unfold terminal_carriage_return; rewrite (sh_y _ _ _ _ _ _ Hs); split; [lia|]; split; [done|]; by eapply shape_at|].
  destruct (c =? 9); [by eapply placed_tab|]. destruct (c =? 8); [by eapply placed_backspace|]. destruct (c =? 12); [exists 0, 0; split; [lia|]; split; [lia|]; by eapply shape_clear|]. by apply (placed_here x y).
Qed.

(** *** Escape sequences *)

Lemma shape_sgr x y t c : shaped x y t -> shaped x y (sgr_code t c).
Proof.
  intros Hs. pose proof (sh_pen _ _ _ _ _ _ Hs) as (P1 & P2 & P3 & P4). unfold sgr_code, set_attr, clear_attr, terminal_set_attributes, terminal_reset_attributes. unfold ANSI_COLOR_MAX in *.
  repeat (destruct (c =? _); [by apply shape_pen|]).
  destruct (_ && _) eqn:E1; [zbool; apply shape_pen; [done|unfold ANSI_COLOR_MAX; lia|done]|]. destruct (c =? 39); [by apply shape_pen|].
  destruct ((40 <=? c) && (c <=? 47)) eqn:E2; [zbool; apply shape_pen; [done|done|unfold ANSI_COLOR_MAX; lia]|]. destruct (c =? 49); [by apply shape_pen|].
  destruct ((90 <=? c) && (c <=? 97)) eqn:E3; [zbool; apply shape_pen; [done|unfold ANSI_COLOR_MAX; lia|done]|].
  destruct ((100 <=? c) && (c <=? 107)) eqn:E4; [zbool; apply shape_pen; [done|done|unfold ANSI_COLOR_MAX; lia]|done].
Qed.
Lemma shape_sgrs x y t cs : shaped x y t -> shaped x y (foldl sgr_code t cs).
Proof. revert t. induction cs as [|c cs IH]; intros t Hs; [done|]. cbn. by apply IH, shape_sgr. Qed.
Lemma placed_csi f ps x y t : shaped x y t -> 0 <= x < w -> 0 <= y < h -> placed (fst (csi_command raw f ps t)).
Proof.
  intros Hs Hx Hy. destruct Hsize as [? ?]. pose proof (sh_pen _ _ _ _ _ _ Hs) as (P1 & P2 & P3 & P4). unfold csi_command. cbn zeta. unfold terminal_move_cursor.
  do 4 (destruct (f =? _); [by apply (placed_set_cursor x y)|]). destruct (f =? 69); [by eapply (placed_set_cursor 0 _), shape_at|]. destruct (f =? 70); [by eapply (placed_set_cursor 0 _), shape_at|]. destruct (f =? 71); [by apply (placed_set_cursor x y)|].
  destruct (_ || _); [by apply (placed_set_cursor x y)|]. destruct (f =? 74).
  { cbn [fst]. set (n := default 1 _). destruct (n =? 0); [apply (placed_here x y); [by apply shape_clear_end|done|done]|]. destruct (n =? 1); [apply (placed_here x y); [by apply shape_clear_start|done|done]|].
    destruct (_ || _); [|by apply (placed_here x y)]. apply (placed_here 0 0); [by eapply shape_clear|lia|lia]. }
  destruct (f =? 75); [apply (placed_here x y); [by apply shape_clear_line|done|done]|]. do 2 (destruct (f =? _); [apply (placed_here x y); [by apply shape_scroll|done|done]|]).
  destruct (f =? 109); [apply (placed_here x y); [|done|done]; cbn [fst]; destruct ps; [by apply shape_pen|by apply shape_sgrs]|].
  destruct (f =? 115); [apply (placed_here x y); [by apply shape_saved|done|done]|]. destruct (f =? 117); [by apply (placed_set_cursor x y)|]. destruct (_ || _); by apply (placed_here x y).
Qed.
Lemma keep_length x y c t : shaped x y t -> Z.of_nat (length (keep_char c t)) < TERMINAL_ESCAPE_BUFFER_SIZE.
Proof. intros Hs. pose proof (sh_esc _ _ _ _ _ _ Hs). unfold keep_char. case_if; [rewrite length_app; cbn; lia|done]. Qed.
Lemma placed_esc s b t : placed t -> Z.of_nat (length b) < TERMINAL_ESCAPE_BUFFER_SIZE -> placed (set_esc s b t).
Proof. intros (x & y & Hx & Hy & Hs) Hb. apply (placed_here x y); [by apply shape_esc|done|done]. Qed.
Lemma placed_esc_same s t : placed t -> placed (set_esc s (esc_buffer t) t).
Proof. intros P. pose proof P as (x & y & Hx & Hy & Hs). apply placed_esc; [done|]. apply (sh_esc _ _ _ _ _ _ Hs). Qed.
Lemma placed_putc c t : placed t -> placed (terminal_putc raw c t).
Proof.
  intros P. pose proof P as (x & y & Hx & Hy & Hs). destruct Hsize as [? ?]. unfold terminal_putc, terminal_process_char. destruct (t_esc t).
  - unfold normal_char. destruct (c =? 27); [by apply placed_esc|]. destruct (c <? 32); [by eapply placed_control|]. cbn zeta. set (t1 := terminal_put_char_at _ _ _ _). assert (shaped x y t1) as S1 by (by apply shape_put_char). rewrite (sh_x _ _ _ _ _ _ S1), (sh_y _ _ _ _ _ _ S1).
    apply (shape_at _ _ (x + 1) y) in S1. rewrite (sh_width _ _ _ _ _ _ S1), (sh_x _ _ _ _ _ _ S1). destruct (Z.leb_spec w (x + 1)); [by eapply placed_new_line|]. apply (placed_here (x + 1) y); [done|lia|done].
  - unfold escape_char. cbn zeta. destruct (c =? 91); [by apply placed_esc_same|]. destruct (c =? 93); [by apply placed_esc_same|]. destruct (c =? 55); [apply placed_esc_same, (placed_here x y); [by apply shape_saved|done|done]|].
    destruct (c =? 56); [by apply placed_esc_same, (placed_set_cursor x y)|]. destruct (c =? 99); [|by apply placed_esc_same]. apply placed_esc_same. apply (shape_clear x y) in Hs as S1. pose proof (sh_pen _ _ _ _ _ _ S1) as (P1 & P2 & P3 & P4). apply (placed_here 0 0); [by apply shape_pen|lia|lia].
  - unfold csi_char. cbn zeta. pose proof (keep_length _ _ c _ Hs) as Hk. assert (placed (set_esc ESC_STATE_CSI (keep_char c t) t)) as P1 by (by apply placed_esc). destruct (is_final c); [|done]. apply placed_esc; [|done].
    unfold terminal_process_escape, terminal_parse_csi. destruct (parse_params _ _ _) as [ps p]. destruct P1 as (x1 & y1 & Hx1 & Hy1 & S1). by apply (placed_csi _ _ x1 y1).
  - unfold osc_char. pose proof (keep_length _ _ c _ Hs) as Hk. destruct (c =? 7); [by apply placed_esc_same|by apply placed_esc].
Qed.
Lemma placed_puts s t : placed t -> placed (terminal_puts raw s t).
Proof. revert t. induction s as [|c s IH]; intros t P; [done|]. unfold terminal_puts. cbn. by apply IH, placed_putc. Qed.

(** *** Typing *)

Lemma put_byte_length i c (b : list Z) : length (put_byte i c b) = length b.
Proof. apply length_insert. Qed.
Lemma move_bytes_length d i n (b : list Z) : 0 <= d -> 0 <= n -> d + n <= Z.of_nat (length b) -> length (move_bytes d i n b) = length b.
Proof. intros Hd Hn0 Hn. unfold move_bytes. apply splice_length. rewrite length_take. lia. Qed.
Lemma placed_type c t : placed t -> input_length t < TERMINAL_INPUT_BUFFER_SIZE - 1 -> placed (type_char raw c t).
Proof.
  intros (x & y & Hx & Hy & Hs) Hl. unfold type_char. cbn zeta. apply shape_bottom in Hs as S1. set (t1 := terminal_scroll_to_bottom t) in *. assert (input_length t1 = input_length t) as El by (unfold t1, terminal_scroll_to_bottom; by destruct (_ =? 0)). pose proof (sh_input _ _ _ _ _ _ S1) as Hi. pose proof (sh_typed _ _ _ _ _ _ S1) as Ht.
  unfold TERMINAL_INPUT_BUFFER_SIZE in *. set (len := (if _ <? _ then _ else _) + 1). assert (input_pos t1 + 1 <= len <= 256) as Hlen by (unfold len; destruct (Z.ltb_spec (input_length t1) (input_pos t1 + 1)); lia).
  set (t2 := set_typed _ _ _ _). assert (placed t2) as P2.
  { apply (placed_here x y); [|done|done]. apply shape_typed; unfold TERMINAL_INPUT_BUFFER_SIZE; [done| |lia|lia]. rewrite !put_byte_length. destruct (_ && _) eqn:E; [|done]. zbool. rewrite move_bytes_length by lia. done. }
  destruct (echo_enabled t2); [by apply placed_putc|done].
Qed.
Lemma placed_erase_before t : placed t -> placed (erase_before t).
Proof.
  intros P. pose proof P as (x & y & Hx & Hy & Hs). unfold erase_before. pose proof (sh_input _ _ _ _ _ _ Hs) as Hi. pose proof (sh_typed _ _ _ _ _ _ Hs) as Ht. destruct (Z.ltb_spec 0 (input_pos t)); [|done]. cbn zeta. set (t2 := set_typed _ _ _ _). assert (shaped x y t2) as P2.
  { unfold TERMINAL_INPUT_BUFFER_SIZE in *. apply shape_typed; unfold TERMINAL_INPUT_BUFFER_SIZE; [done| |lia|lia]. rewrite put_byte_length, move_bytes_length by lia. done. }
  destruct (echo_enabled t2); [by eapply placed_backspace|by apply (placed_here x y)].
Qed.
Lemma placed_erase_under t : placed t -> placed (erase_under t).
Proof.
  intros P. pose proof P as (x & y & Hx & Hy & Hs). unfold erase_under. pose proof (sh_input _ _ _ _ _ _ Hs) as Hi. pose proof (sh_typed _ _ _ _ _ _ Hs) as Ht. destruct (Z.ltb_spec (input_pos t) (input_length t)); [|done]. cbn zeta. apply (placed_here x y); [|done|done].
  unfold TERMINAL_INPUT_BUFFER_SIZE in *. apply shape_typed; unfold TERMINAL_INPUT_BUFFER_SIZE; [done| |lia|lia]. rewrite put_byte_length, move_bytes_length by lia. done.
Qed.
Lemma placed_same (f : terminal H -> terminal H) t : placed t -> (forall x y, shaped x y t -> shaped x y (f t)) -> placed (f t).
Proof. intros (x & y & Hx & Hy & Hs) Hf. apply (placed_here x y); [by apply Hf|done|done]. Qed.
Lemma placed_key k t : placed t -> placed (fst (terminal_handle_input raw k t)).
Proof.
  intros P. unfold terminal_handle_input. cbn zeta. set (sh := negb (_ =? 0)). destruct (negb (pressed k)); [done|].
  do 2 (destruct (keycode k =? _); [cbn [fst]; destruct sh; [apply (placed_same _ _ P); intros x y; apply shape_view|done]|]).
  do 2 (destruct (keycode k =? _); [apply (placed_same _ _ P); intros x y; apply shape_view|]).
  destruct (keycode k =? _); [cbn [fst]; destruct sh; [apply (placed_same (fun t => set_redraw true (set_offset (scrollback_count t) t)) _ P); intros x y Hs; apply shape_redraw, shape_offset; [done|]; pose proof (sh_count _ _ _ _ _ _ Hs); lia|done]|].
  destruct (keycode k =? _); [cbn [fst]; destruct sh; [apply (placed_same _ _ P); intros x y; apply shape_bottom|done]|].
  destruct (keycode k =? _); [by apply placed_erase_before|]. destruct (keycode k =? _); [by apply placed_erase_under|].
  destruct (keycode k =? _); [cbn [fst]; destruct (echo_enabled t); [by apply placed_putc|done]|].
  destruct (keycode k =? _); [cbn [fst]; destruct (Z.ltb_spec 0 (input_pos t)); [apply (placed_same (fun t => set_typed _ _ _ t) _ P); intros x y Hs; pose proof (sh_typed _ _ _ _ _ _ Hs); apply shape_typed; [done|apply (sh_input _ _ _ _ _ _ Hs)|lia|lia]|done]|].
  destruct (keycode k =? _); [cbn [fst]; destruct (Z.ltb_spec (input_pos t) (input_length t)); [apply (placed_same (fun t => set_typed _ _ _ t) _ P); intros x y Hs; pose proof (sh_typed _ _ _ _ _ _ Hs); apply shape_typed; [done|apply (sh_input _ _ _ _ _ _ Hs)|lia|lia]|done]|].
  destruct (printable (key_ascii k)); [cbn [fst]; destruct (Z.ltb_spec (input_length t) (TERMINAL_INPUT_BUFFER_SIZE - 1)); [by apply placed_type|done]|done].
Qed.
Lemma placed_draw fb t : placed t -> placed (fst (terminal_draw fb t)).
Proof.
  intros P. unfold terminal_draw. destruct (_ && _); [done|]. cbn [fst]. apply (placed_same (fun t => set_redraw false (set_rows (map mark_drawn (buffer t)) t)) _ P). intros x y Hs. pose proof Hs as []. apply shape_redraw, shape_rows; [done|by rewrite length_map|].
  apply Forall_map. eapply Forall_impl; [exact sh_cells0|done].
Qed.
Lemma placed_blink t : placed t -> placed (terminal_blink_cursor t).
Proof.
  intros P. apply (placed_same _ _ P). intros x y Hs. unfold terminal_blink_cursor. apply (shape_blink _ _ _ (negb (t_blink t))) in Hs. cbn zeta. set (t1 := set_blink _ t) in *. destruct (_ && _) eqn:E; [|done]. zbool. apply shape_put_row; [done|]. eapply row_length; [done|]. rewrite (sh_height _ _ _ _ _ _ Hs) in *. lia.
Qed.
End Fixed.

(** *** Every call *)

Lemma alloc_rows_ok n wd (g g' : H) rows rows' : 0 <= wd -> alloc_rows raw n wd g rows = (g', Some rows') -> Forall (fun l => Z.of_nat (length (cells l)) = wd) rows ->
  length rows' = (length rows + n)%nat /\ Forall (fun l => Z.of_nat (length (cells l)) = wd) rows'.
Proof.
  intros Hw. revert g rows. induction n as [|n IH]; intros g rows; cbn [alloc_rows]; [intros [= <- <-] ?; split; [lia|done]|]. destruct (kh_malloc _ g) as [g1 p]. destruct (p =? NULL); [done|]. intros E Hf.
  apply IH in E as [E1 E2]; [|apply Forall_app; split; [done|]; constructor; [cbn; rewrite length_raw_cells; lia|done]]. split; [|done]. rewrite E1, length_app. cbn. lia.
Qed.
Lemma resized_length t nw y l : 0 <= nw -> Z.of_nat (length (cells l)) = nw -> Z.of_nat (length (cells (resized_row t nw y l))) = nw.
Proof. intros Hn Hl. unfold resized_row. cbn. destruct (y <? t_height t); [|by rewrite clear_cells_length]. rewrite length_app, length_drop, clear_cells_length, length_take. lia. Qed.
Lemma resize_ok rs nw nh t : 0 <= nw -> 0 <= nh -> term_ok rs t -> term_ok true (fst (terminal_resize raw nw nh t)).
Proof.
  intros Hnw Hnh (w & h & x & y & Hsz & Hx & Hy & Hs). assert (shape true w h x y t) as Hs' by (destruct Hs; by split).
  assert (forall g, term_ok true (set_t_heap g t)) as Hsame by (intros g; exists w, h, x, y; do 3 (split; [done|]); by apply shape_heap). unfold terminal_resize.
  destruct (Z.eqb_spec nw 0) as [|Hw0]; [exists w, h, x, y; by do 3 (split; [done|])|]. destruct (Z.eqb_spec nh 0) as [|Hh0]; [exists w, h, x, y; by do 3 (split; [done|])|]. cbn [orb]. cbn zeta. unfold TERMINAL_MAX_WIDTH, TERMINAL_MAX_HEIGHT in *.
  set (w' := Z.min nw 256). set (h' := Z.min nh 128). assert (0 < w' <= 256 /\ 0 < h' <= 128) as [Hw' Hh'] by lia.
  destruct (_ && _); [exists w, h, x, y; by do 3 (split; [done|])|]. destruct (kh_malloc _ _) as [g b]. destruct (b =? NULL); [apply Hsame|]. destruct (alloc_rows raw (Z.to_nat h') w' g []) as [g2 [rows|]] eqn:Er; [|apply Hsame].
  apply alloc_rows_ok in Er as [R1 R2]; [|lia|done]. cbn [length Nat.add] in R1. cbn [fst]. destruct Hs'. eexists w', h', _, _. split; [done|]. split; [|split; [|apply shape_redraw; split; try done]].
  - cbn. destruct (Z.leb_spec w' (t_x t)); lia.
  - cbn. destruct (Z.leb_spec h' (t_y t)); lia.
  - cbn. rewrite length_imap. lia.
  - cbn. apply Forall_lookup_2. intros i l. rewrite list_lookup_imap. destruct (rows !! i) as [l0|] eqn:El; [|done]. intros [= <-]. apply resized_length; [lia|]. by apply (Forall_lookup_1 _ _ _ _ R2 El).
Qed.

Inductive term_call :=
| TPutc (c : Z) | TPuts (s : list Z) | TPrintf (fmt : list Z) (args : list vga_arg) | TClear | TClearEnd | TClearStart | TClearLine (mode : Z)
| TSetCursor (x y : Z) | TMoveCursor (dx dy : Z) | TSave | TRestore | TVisible (v : bool) | TColor (fg bg : Z) | TAttributes (a : Z) | TReset | TPalette (i c : Z)
| TScroll (n : Z) | TView (n : Z) | TBottom | TKey (k : key_event) | TDraw (fb : bool) | TBlink | TExecute (c : list Z) | TStop | TTitle (s : list Z) | TResize (w h : Z).
Definition run_call t (c : term_call) : terminal H :=
  match c with
  | TPutc c => terminal_putc raw c t | TPuts s => terminal_puts raw s t
  | TPrintf fmt args => match terminal_printf raw fmt args t with Some (t, _) => t | None => t end
  | TClear => terminal_clear t | TClearEnd => terminal_clear_to_end t | TClearStart => terminal_clear_to_start t | TClearLine m => terminal_clear_line m t
  | TSetCursor x y => terminal_set_cursor x y t | TMoveCursor dx dy => terminal_move_cursor dx dy t | TSave => terminal_save_cursor t | TRestore => terminal_restore_cursor t
  | TVisible v => terminal_set_cursor_visible v t | TColor fg bg => terminal_set_color (u8 fg) (u8 bg) t | TAttributes a => terminal_set_attributes a t
  | TReset => terminal_reset_attributes t | TPalette i c => terminal_set_palette_color i c t | TScroll n => terminal_scroll raw n t | TView n => terminal_scroll_view n t
  | TBottom => terminal_scroll_to_bottom t | TKey k => fst (terminal_handle_input raw k t) | TDraw fb => fst (terminal_draw fb t) | TBlink => terminal_blink_cursor t
  | TExecute c => fst (terminal_execute c t) | TStop => terminal_stop t | TTitle s => terminal_set_title s t | TResize w h => fst (terminal_resize raw (u32 w) (u32 h) t)
  end.
Definition is_resize (c : term_call) : bool := match c with TResize _ _ => true | _ => false end.
Lemma call_ok rs w h x y t c : size_ok w h -> 0 <= x < w -> 0 <= y < h -> shape rs w h x y t -> is_resize c = false -> placed rs w h (run_call t c).
Proof.
  intros Hsz Hx Hy Hs Hc. pose proof (placed_here rs w h x y t Hs Hx Hy) as P. pose proof (sh_pen _ _ _ _ _ _ Hs) as (P1 & P2 & P3 & P4). assert (0 <= 0 < w /\ 0 <= 0 < h) as [Zx Zy] by lia.
  assert (forall t', shape rs w h x y t' -> placed rs w h t') as Hk by (intros t' Ht'; by apply (placed_here rs w h x y)).
  destruct c; cbn [run_call]; try done.
  - by apply placed_putc.
  - by apply placed_puts.
  - unfold terminal_printf. destruct (printf_text fmt args []) as [out|]; [by apply placed_puts|done].
  - apply (placed_here _ _ _ 0 0); [by eapply shape_clear|done|done].
  - by apply Hk, shape_clear_end.
  - by apply Hk, shape_clear_start.
  - by apply Hk, shape_clear_line.
  - by eapply placed_set_cursor.
  - by eapply placed_set_cursor.
  - by apply Hk, shape_saved.
  - by eapply placed_set_cursor.
  - by apply Hk, shape_visible.
  - apply Hk, shape_pen; [done| |]; (case_if; [unfold u8, ANSI_COLOR_MAX in *; pose proof (Z.mod_pos_bound fg (2 ^ 8)); pose proof (Z.mod_pos_bound bg (2 ^ 8)); lia|done]).
  - by apply Hk, shape_pen.
  - by apply Hk, shape_pen.
  - unfold terminal_set_palette_color. case_if; [done|]. apply Hk, shape_redraw, shape_palette; [done|]. rewrite length_insert. apply (sh_palette _ _ _ _ _ _ Hs).
  - by apply Hk, shape_scroll.
  - by apply Hk, shape_view.
  - by apply Hk, shape_bottom.
  - by apply placed_key.
  - by apply placed_draw.
  - by apply placed_blink.
  - unfold terminal_execute. cbn zeta. destruct (_ =? 0)%nat; [done|]. destruct (_ || _); [by apply Hk, shape_running|]. destruct (bool_decide _); [|done]. apply (placed_here _ _ _ 0 0); [by eapply shape_clear|done|done].
  - by apply Hk, shape_running.
  - unfold terminal_set_title. destruct (t_window t); [by apply Hk, shape_window|done].
Qed.
(** Whatever a terminal is made to print, draw or do, and whatever is typed, its screen
    keeps its size, the cursor stays on it, colours stay in the palette, the escape buffer
    and the scrollback keep their bounds; a resize only changes the size. Without a resize
    every block of the scrollback has room for the lines that are copied into it. *)
Theorem terminal_invariant calls t : term_ok false t -> term_ok (existsb is_resize calls) (foldl run_call t calls).
Proof.
  intros Hok. change (existsb is_resize calls) with (false || existsb is_resize calls). revert Hok. generalize false as rs. revert t. induction calls as [|c calls IH]; intros t rs Hok; cbn [foldl existsb]; [by rewrite orb_false_r|].
  rewrite orb_assoc. apply IH. destruct Hok as (w & h & x & y & Hsz & Hx & Hy & Hs). destruct (is_resize c) eqn:Ec.
  - destruct c; try done. rewrite orb_true_r. apply (resize_ok rs); [unfold u32; apply Z.mod_pos_bound; done|unfold u32; apply Z.mod_pos_bound; done|]. exists w, h, x, y. by do 3 (split; [done|]).
  - rewrite orb_false_r. destruct (call_ok rs w h x y t c Hsz Hx Hy Hs Ec) as (x' & y' & Hx' & Hy' & Hs'). exists w, h, x', y'. by do 3 (split; [done|]).
Qed.
(** A new terminal has the invariant. *)
Lemma create_term_ok wc hc (g g' : H) self t : 0 <= wc -> 0 <= hc -> terminal_create raw wc hc g = (g', Some (self, t)) -> term_ok false t.
Proof.
  intros Hw Hh. unfold terminal_create. cbn zeta. set (w := checked wc _ _). set (h := checked hc _ _). assert (size_ok w h) as Hsz by (unfold size_ok, w, h, checked; unfold TERMINAL_MAX_WIDTH, TERMINAL_MAX_HEIGHT, TERMINAL_DEFAULT_WIDTH, TERMINAL_DEFAULT_HEIGHT; split; case_if; lia).
  destruct (kh_malloc sizeof_terminal g) as [g1 s]. destruct (s =? NULL); [done|]. destruct (kh_malloc _ g1) as [g2 b]. destruct (b =? NULL); [done|]. destruct (alloc_rows raw (Z.to_nat h) w g2 []) as [g3 [rows|]] eqn:Er; [|done].
  destruct (kh_malloc _ g3) as [g4 sb]. destruct (sb =? NULL); [done|]. intros [= <- <- <-]. destruct Hsz as [Hsw Hsh]. apply alloc_rows_ok in Er as [R1 R2]; [|lia|done]. cbn [length Nat.add] in R1. exists w, h, 0, 0. split; [done|]. split; [lia|]. split; [lia|]. apply (shape_clear false w h 0 0). split; cbn; try done; try lia.
Qed.
End Safety.

(** ** Lines that scroll off *)

Section History.
Context {H : Type} `{KernelHeap H}.
Variable raw : Z -> cell.
Implicit Types t : terminal H.

(** The lines of the scrollback, the oldest first. *)
Definition history t : list (list cell) := map (fun k => sb_cells (scrollback t ((scrollback_head t + k) mod scrollback_size t))) (seqZ 0 (scrollback_count t)).
(** The last [n] elements. *)
Definition lastn {A} (n : nat) (l : list A) : list A := drop (length l - n) l.
Definition BACK : nat := Z.to_nat TERMINAL_SCROLLBACK_LINES.
(** There is a block for the next line of the scrollback: one from an earlier line, or one that
    the heap gives now. *)
Definition has_room t : bool :=
  negb (sb_at (scrollback t ((scrollback_head t + scrollback_count t) mod scrollback_size t)) =? NULL) || negb (snd (kh_malloc (t_width t * sizeof_cell) (t_heap t)) =? NULL).
(** Of the first [n] rows of the screen, those that find room when their turn comes. *)
Definition rows_with_room (n : Z) t : list Z := List.filter (fun i => has_room (for_range 0 i (save_line raw) t)) (seqZ 0 n).

Lemma mod_same_small a b n : 0 < n -> 0 <= b - a < n -> a mod n = b mod n -> a = b.
Proof. intros Hn Hab E. pose proof (Z.div_mod a n ltac:(lia)). pose proof (Z.div_mod b n ltac:(lia)). assert (n * (b / n - a / n) = b - a) by lia. assert (b / n - a / n = 0) by nia. lia. Qed.
Lemma lastn_snoc {A} n (l : list A) a : (length l <= n)%nat -> (0 < n)%nat -> lastn n (l ++ [a]) = if (length l <? n)%nat then l ++ [a] else drop 1 l ++ [a].
Proof.
  intros Hl Hn. unfold lastn. rewrite length_app. cbn [length]. destruct (Nat.ltb_spec (length l) n); [by replace (length l + 1 - n)%nat with O by lia|]. replace (length l + 1 - n)%nat with 1%nat by lia. by rewrite drop_app_le by lia.
Qed.
Lemma lastn_lastn {A} n (l m : list A) : lastn n (lastn n l ++ m) = lastn n (l ++ m).
Proof.
  unfold lastn. destruct (Nat.le_gt_cases (length l) n) as [Hl|Hl].
  - replace (length l - n)%nat with O by lia. done.
  - rewrite !length_app, length_drop. replace (length l - (length l - n) + length m - n)%nat with (length m) by lia. replace (length l + length m - n)%nat with (length l - n + length m)%nat by lia. rewrite <- drop_drop, (drop_app_le l) by lia. done.
Qed.
Lemma for_range_step {S} (f : Z -> S -> S) lo hi s : lo <= hi -> for_range lo (hi + 1) f s = f hi (for_range lo hi f s).
Proof.
  intros Hl. unfold for_range. replace (Z.to_nat (hi + 1 - lo)) with (Datatypes.S (Z.to_nat (hi - lo))) by lia. replace hi with (lo + Z.of_nat (Z.to_nat (hi - lo))) at 2 by lia. generalize (Z.to_nat (hi - lo)) as n. clear Hl. intros n. revert lo s.
  induction n as [|n IH]; intros lo s; cbn [iter_up]; [by rewrite Z.add_0_r|]. cbn [iter_up] in IH. rewrite IH. f_equal. lia.
Qed.
(** A saved line is the youngest; the oldest is given up when the scrollback is full. A line
    without room is lost. *)
Lemma save_line_history w h x y t i : shape false w h x y t -> size_ok w h -> 0 <= i < h -> let t' := save_line raw i t in
  history t' = lastn BACK (history t ++ if has_room t then [cells_of t i] else []) /\ buffer t' = buffer t /\ t_height t' = t_height t /\ t_fg t' = t_fg t /\ t_bg t' = t_bg t /\ t_width t' = t_width t.
Proof.
  intros Hs Hsz Hi. cbn zeta. unfold save_line. cbn zeta. set (k := _ mod scrollback_size t). destruct (if sb_at (scrollback t k) =? NULL then _ else _) as [g l] eqn:El.
  pose proof (row_length _ _ _ _ _ _ i Hs Hi) as Hrow. pose proof (sh_size _ _ _ _ _ _ Hs) as Hsize. pose proof (sh_count _ _ _ _ _ _ Hs) as Hc. pose proof (sh_head _ _ _ _ _ _ Hs) as Hh. assert (k = (scrollback_head t + scrollback_count t) mod 1000) as Hk by (unfold k; rewrite Hsize; unfold TERMINAL_SCROLLBACK_LINES in *; rewrite u32_id by lia; done).
  assert (if has_room t then sb_at l <> NULL /\ Z.of_nat (length (sb_cells l)) = w else sb_at l = NULL) as Hroom.
  { unfold has_room. rewrite Hsize. unfold TERMINAL_SCROLLBACK_LINES. rewrite <- Hk. destruct Hsz as [[Hw _] _]. destruct (Z.eqb_spec (sb_at (scrollback t k)) NULL) as [Hn|Hn]; cbn [negb orb]; [|injection El as <- <-; split; [done|]; by apply (sh_back _ _ _ _ _ _ Hs)].
    rewrite (sh_width _ _ _ _ _ _ Hs) in *. destruct (kh_malloc _ _) as [g' p]. cbn [snd]. injection El as <- <-. destruct (Z.eqb_spec p NULL); cbn [negb]; [done|]. split; [done|]. cbn. rewrite length_raw_cells. lia. }
  destruct (has_room t); [|rewrite Hroom, Z.eqb_refl, app_nil_r; split; [|done]; unfold lastn; replace (length (history t) - BACK)%nat with O; [done|]; unfold history; rewrite length_map, length_seqZ; unfold BACK; lia]. destruct Hroom as [Hl Hlen].
  rewrite (proj2 (Z.eqb_neq _ _) Hl). change (cells_of (set_t_heap g t) i) with (cells_of t i). set (row := cells_of t i) in *. replace (row ++ drop (length row) (sb_cells l)) with row by (rewrite drop_ge by lia; by rewrite app_nil_r).
  assert (length (history t) = Z.to_nat (scrollback_count t)) as Hlh by (unfold history; by rewrite length_map, length_seqZ). unfold TERMINAL_SCROLLBACK_LINES in *.
  rewrite lastn_snoc by (rewrite ?Hlh; unfold BACK, TERMINAL_SCROLLBACK_LINES; lia). cbn [scrollback_count set_t_heap scrollback_size scrollback scrollback_head]. rewrite Hlh, Hsize. destruct (Z.ltb_spec (scrollback_count t) 1000) as [Hlt|Hge].
  - rewrite (proj2 (Nat.ltb_lt _ _)) by (unfold BACK, TERMINAL_SCROLLBACK_LINES; lia). split; [|done]. unfold history. cbn [scrollback scrollback_count scrollback_head scrollback_size set_back set_t_heap]. rewrite Hsize, seqZ_app by lia. rewrite map_app. cbn [seqZ map]. f_equal.
    + apply map_ext_in. intros j Hj. apply list_elem_of_In, elem_of_seqZ in Hj. rewrite upd_other; [done|]. rewrite Hk. intros E. apply mod_same_small in E; lia.
    + change (seqZ (0 + scrollback_count t) 1) with [0 + scrollback_count t]. cbn [map]. rewrite Z.add_0_l, <- Hk, upd_same. done.
  - assert (scrollback_count t = 1000) as Hc' by lia. rewrite (proj2 (Nat.ltb_ge _ _)) by (unfold BACK, TERMINAL_SCROLLBACK_LINES; lia). split; [|done]. unfold history. cbn [scrollback scrollback_count scrollback_head scrollback_size set_back set_t_heap]. rewrite Hsize, Hc', u32_id by lia.
    assert (k = scrollback_head t) as Hk' by (rewrite Hk, Hc', <- Zplus_mod_idemp_r, Z_mod_same_full, Z.add_0_r, Z.mod_small; lia).
    change (seqZ 0 1000) with (seqZ 0 (999 + 1)) at 1. rewrite seqZ_app by lia. rewrite map_app. f_equal.
    + change (seqZ 0 1000) with (0 :: seqZ 1 999). cbn [map drop]. replace (seqZ 1 999) with (map (Z.add 1) (seqZ 0 999)) by (by rewrite (fmap_add_seqZ 1 0)). rewrite map_map. apply map_ext_in. intros j Hj. apply list_elem_of_In, elem_of_seqZ in Hj.
      rewrite Zplus_mod_idemp_l. rewrite upd_other; [by replace (scrollback_head t + 1 + j) with (scrollback_head t + (1 + j)) by lia|]. rewrite Hk'. rewrite <- (Z.mod_small (scrollback_head t) 1000) at 2 by lia. intros E. symmetry in E. apply mod_same_small in E; lia.
    + change (seqZ (0 + 999) 1) with [999]. cbn [map]. rewrite Zplus_mod_idemp_l. replace ((scrollback_head t + 1 + 999) mod 1000) with k; [by rewrite upd_same|]. rewrite Hk'. replace (scrollback_head t + 1 + 999) with (scrollback_head t + 1 * 1000) by lia. rewrite Z_mod_plus_full, Z.mod_small; lia.
Qed.
Lemma save_lines_history w h x y t n : shape false w h x y t -> size_ok w h -> 0 <= n <= h -> let t' := for_range 0 n (save_line raw) t in
  history t' = lastn BACK (history t ++ map (cells_of t) (rows_with_room n t)) /\ shape false w h x y t' /\ buffer t' = buffer t /\ t_fg t' = t_fg t /\ t_bg t' = t_bg t.
Proof.
  intros Hs Hsz Hn. cbn zeta. enough (for_range 0 n (save_line raw) t = for_range 0 n (save_line raw) t /\ history (for_range 0 n (save_line raw) t) = lastn BACK (history t ++ map (cells_of t) (rows_with_room n t)) /\ shape false w h x y (for_range 0 n (save_line raw) t) /\ buffer (for_range 0 n (save_line raw) t) = buffer t /\ t_fg (for_range 0 n (save_line raw) t) = t_fg t /\ t_bg (for_range 0 n (save_line raw) t) = t_bg t) as [_ He] by done.
  apply (for_range_ind (fun j t' => t' = for_range 0 j (save_line raw) t /\ history t' = lastn BACK (history t ++ map (cells_of t) (rows_with_room j t)) /\ shape false w h x y t' /\ buffer t' = buffer t /\ t_fg t' = t_fg t /\ t_bg t' = t_bg t)); [lia| |].
  - split; [by rewrite for_range_empty|]. split; [|split; [exact Hs|by split_and!]]. unfold rows_with_room. cbn [seqZ List.filter map]. rewrite app_nil_r. unfold lastn. replace (length (history t) - BACK)%nat with O; [done|]. unfold history. rewrite length_map, length_seqZ. pose proof (sh_count _ _ _ _ _ _ Hs). unfold BACK. lia.
  - intros j t' Hj (E0 & E1 & S1 & E2 & E3 & E4). destruct (save_line_history _ _ _ _ _ j S1 Hsz ltac:(lia)) as (F1 & F2 & _ & F3 & F4 & _). split; [rewrite E0; symmetry; apply for_range_step; lia|]. split; [|split; [apply shape_save_line; [done|lia]|split_and!; congruence]].
    rewrite F1, E1, lastn_lastn. rewrite <- app_assoc. do 2 f_equal. unfold rows_with_room. rewrite seqZ_app by lia. rewrite List.filter_app, map_app. f_equal. change (seqZ (0 + j) 1) with [0 + j]. rewrite Z.add_0_l. cbn [List.filter]. rewrite <- E0. destruct (has_room t'); [|done]. cbn [map]. unfold cells_of, row_at. by rewrite E2.
Qed.
Lemma put_row_cells t i cs j : 0 <= i < Z.of_nat (length (buffer t)) -> 0 <= j -> cells_of (put_row i cs t) j = if decide (j = i) then cs else cells_of t j.
Proof.
  intros Hi Hj. unfold cells_of, row_at, put_row. cbn. destruct (decide (j = i)) as [->|]; [by rewrite list_lookup_insert_eq by lia|]. by rewrite list_lookup_insert_ne by lia.
Qed.
Lemma lookup_repeat {A} (b : A) n i : (i < n)%nat -> repeat b n !! i = Some b.
Proof. revert i. induction n as [|n IH]; intros [|i] Hi; cbn; [lia|lia|done|]. apply IH. lia. Qed.
Lemma clear_cells_all w b cs : Z.of_nat (length cs) = w -> clear_cells 0 w b cs = repeat b (Z.to_nat w).
Proof.
  intros Hw. unfold clear_cells. assert (forall i, 0 <= i < w -> for_range 0 w (fun x cs => <[Z.to_nat x := b]> cs) cs !! Z.to_nat i = Some b) as Hl.
  { apply (for_range_ind (fun j l => length l = length cs /\ forall i, 0 <= i < j -> l !! Z.to_nat i = Some b) (fun x cs => <[Z.to_nat x := b]> cs) 0 w cs); [lia|split; [done|lia]|]. intros j l Hj [L1 L2]. split; [by rewrite length_insert|]. intros i Hi.
    destruct (decide (i = j)) as [->|]; [by rewrite list_lookup_insert_eq by lia|]. rewrite list_lookup_insert_ne by lia. apply L2. lia. }
  apply list_eq. intros i. destruct (decide (i < Z.to_nat w)%nat) as [Hi|Hi].
  - rewrite <- (Nat2Z.id i), Hl by lia. symmetry. rewrite Nat2Z.id. by apply lookup_repeat.
  - pose proof (clear_cells_length 0 w b cs) as Hlen. unfold clear_cells in Hlen. rewrite !lookup_ge_None_2; [done|rewrite repeat_length; lia|lia].
Qed.
Lemma clear_rows_cells w h x y t lo : shape false w h x y t -> size_ok w h -> 0 <= lo <= h -> let t' := clear_rows lo h t in
  forall i, 0 <= i < h -> cells_of t' i = if i <? lo then cells_of t i else repeat (blank t) (Z.to_nat w).
Proof.
  intros Hs Hsz Hlo. cbn zeta. unfold clear_rows.
  enough (forall i, 0 <= i < h -> cells_of (for_range lo h (fun y t => clear_row_part y 0 (t_width t) t) t) i = if (i <? lo) || (h <=? i) then cells_of t i else repeat (blank t) (Z.to_nat w)) as He.
  { intros i Hi. rewrite He by done. rewrite (proj2 (Z.leb_gt h i)) by lia. by rewrite orb_false_r. }
  apply (for_range_ind (fun j t' => shape false w h x y t' /\ blank t' = blank t /\ forall i, 0 <= i < h -> cells_of t' i = if (i <? lo) || (j <=? i) then cells_of t i else repeat (blank t) (Z.to_nat w)) (fun y t => clear_row_part y 0 (t_width t) t) lo h t); [lia| |].
  - split; [done|]. split; [done|]. intros i Hi. destruct (Z.ltb_spec i lo); [done|]. by rewrite (proj2 (Z.leb_le lo i)) by lia.
  - intros j t' Hj (S1 & B1 & C1). split; [apply shape_clear_part; [done|lia]|]. split; [done|]. intros i Hi. unfold clear_row_part. rewrite put_row_cells by (rewrite ?(sh_rows _ _ _ _ _ _ S1); lia). destruct (decide (i = j)) as [->|Hne].
    + rewrite (sh_width _ _ _ _ _ _ S1), clear_cells_all, B1 by (eapply row_length; [done|lia]). rewrite (proj2 (Z.ltb_ge j lo)), (proj2 (Z.leb_gt (j + 1) j)) by lia. done.
    + rewrite C1 by done. destruct (Z.ltb_spec i lo); [done|]. cbn [orb]. destruct (Z.leb_spec j i); destruct (Z.leb_spec (j + 1) i); done || lia.
Qed.
(** C30: The first rows of the screen become the youngest lines of the scrollback when the screen
    scrolls, whatever the heap does: every row for which there is a block, from an earlier
    line or from the heap, is appended in order, a row is lost only when the heap refuses a
    block for it, and the last thousand lines are kept. The other rows move up, and the rows
    below are blank in the current colours. *)
Theorem terminal_scroll_history n t : term_ok false t -> 0 < n <= t_height t -> let t' := terminal_scroll raw n t in
  history t' = lastn BACK (history t ++ map (cells_of t) (rows_with_room n t)) /\ t_x t' = t_x t /\ t_y t' = t_y t /\
  forall i, 0 <= i < t_height t -> cells_of t' i = if i <? t_height t - n then cells_of t (i + n) else repeat (blank t) (Z.to_nat (t_width t)).
Proof.
  intros (w & h & x & y & Hsz & Hx & Hy & Hs) Hn. cbn zeta. pose proof (sh_height _ _ _ _ _ _ Hs) as Hh. rewrite Hh, (sh_width _ _ _ _ _ _ Hs) in *. unfold terminal_scroll. rewrite (proj2 (Z.eqb_neq n 0)), (proj2 (Z.ltb_lt 0 n)) by lia.
  pose proof (shape_scroll_up raw _ _ _ Hsz _ _ _ n Hs) as S'. unfold terminal_scroll_up in *. cbn zeta in *. unfold scroll_lines in *. rewrite Hh, (proj2 (Z.leb_gt n 0)), (proj2 (Z.ltb_ge h n)) in * by lia. cbn [orb] in *.
  destruct (save_lines_history _ _ _ _ _ n Hs Hsz ltac:(lia)) as (E1 & S1 & E2 & E3 & E4). set (t1 := for_range 0 n (save_line raw) t) in *. rewrite (sh_height _ _ _ _ _ _ S1) in *.
  set (t2 := for_range 0 (h - n) _ t1) in *. assert (shape false w h x y t2 /\ history t2 = history t1 /\ blank t2 = blank t1 /\ forall i, 0 <= i < h -> cells_of t2 i = if i <? h - n then cells_of t1 (i + n) else cells_of t1 i) as (S2 & H2 & B2 & C2).
  { apply (for_range_ind (fun j t' => shape false w h x y t' /\ history t' = history t1 /\ blank t' = blank t1 /\ forall i, 0 <= i < h -> cells_of t' i = if i <? j then cells_of t1 (i + n) else cells_of t1 i)); [lia| |].
    - do 3 (split; [done|]). intros i Hi. by rewrite (proj2 (Z.ltb_ge i 0)) by lia.
    - intros j t' Hj (S3 & H3 & B3 & C3). split; [apply shape_put_row; [done|]; eapply row_length; [done|lia]|]. do 2 (split; [done|]). intros i Hi. rewrite put_row_cells by (rewrite ?(sh_rows _ _ _ _ _ _ S3); lia). destruct (decide (i = j)) as [->|].
      + rewrite C3 by lia. rewrite (proj2 (Z.ltb_ge (j + n) j)), (proj2 (Z.ltb_lt j (j + 1))) by lia. done.
      + rewrite C3 by done. destruct (Z.ltb_spec i j); destruct (Z.ltb_spec i (j + 1)); done || lia. }
  rewrite (sh_height _ _ _ _ _ _ S2) in *. rewrite (sh_x _ _ _ _ _ _ Hs), (sh_y _ _ _ _ _ _ Hs). split; [|split; [apply (sh_x _ _ _ _ _ _ S')|split; [apply (sh_y _ _ _ _ _ _ S')|]]].
  - change (history (set_redraw true (clear_rows (h - n) h t2))) with (history (clear_rows (h - n) h t2)). rewrite <- E1, <- H2. unfold clear_rows. apply (for_range_rel (fun t' => history t' = history t2)); [done|]. intros j t' _ Ht. by rewrite <- Ht.
  - intros i Hi. change (cells_of (set_redraw true (clear_rows (h - n) h t2)) i) with (cells_of (clear_rows (h - n) h t2) i). rewrite (clear_rows_cells _ _ _ _ _ _ S2 Hsz) by lia. destruct (Z.ltb_spec i (h - n)).
    + rewrite C2 by lia. rewrite (proj2 (Z.ltb_lt i (h - n))) by lia. unfold cells_of, row_at. by rewrite E2.
    + rewrite B2. unfold blank. by rewrite E3, E4.
Qed.
End History.

(** ** Cursor addresses *)

Section Addresses.
Context {H : Type} `{KernelHeap H}.
Variable raw : Z -> cell.
Implicit Types t : terminal H.

Definition decimal (n : Z) : list Z := rev (number_digits 31 n 10 decimal_digit).
Lemma parse_digits_app ds rest v : Forall (fun c => is_digit c = true) ds -> parse_digits (ds ++ rest) v = parse_digits rest (foldl (fun v c => int_wrap (int_wrap (v * 10) + (c - 48))) v ds).
Proof. intros Hd. revert v. induction Hd as [|c ds Hc _ IH]; intros v; [done|]. cbn [app parse_digits foldl]. by rewrite Hc, IH. Qed.
Lemma decimal_parses n : 0 < n <= 256 -> Forall (fun c => is_digit c = true) (decimal n) /\ foldl (fun v c => int_wrap (int_wrap (v * 10) + (c - 48))) 0 (decimal n) = n /\ (0 < length (decimal n) <= 3)%nat.
Proof.
  intros Hn. assert (forallb (fun n => forallb is_digit (decimal n) && (foldl (fun v c => int_wrap (int_wrap (v * 10) + (c - 48))) 0 (decimal n) =? n) && (0 <? length (decimal n))%nat && (length (decimal n) <=? 3)%nat) (seqZ 1 256) = true) as Ha by (vm_compute; reflexivity).
  rewrite forallb_forall in Ha. specialize (Ha n ltac:(apply list_elem_of_In, elem_of_seqZ; lia)). apply andb_true_iff in Ha as [Ha A4]. apply andb_true_iff in Ha as [Ha A3]. apply andb_true_iff in Ha as [A1 A2].
  apply Z.eqb_eq in A2. apply Nat.ltb_lt in A3. apply Nat.leb_le in A4. split; [|split; [done|lia]]. apply Forall_forall. intros c Hc. rewrite forallb_forall in A1. apply A1. by apply list_elem_of_In.
Qed.
(** A number at the start of the rest of a sequence is a parameter. *)
Lemma parse_param n rest ps k : 0 < n <= 256 -> is_digit (default 0 (rest !! 0%nat)) = false -> (length ps < 16)%nat -> parse_params (S k) (decimal n ++ rest) ps = parse_params k rest (ps ++ [n]).
Proof.
  intros Hn Hr Hps. destruct (decimal_parses n Hn) as (D1 & D2 & D3). destruct (decimal n) as [|c ds] eqn:Ed; [cbn in D3; lia|]. rewrite Forall_cons in D1. destruct D1 as [Hc D1]. cbn [app parse_params]. assert ((16 <=? Z.of_nat (length ps)) || (c =? 0) = false) as ->.
  { unfold is_digit in Hc. apply orb_false_iff. split; [lia|]. zbool. lia. }
  rewrite Hc. unfold terminal_parse_int. rewrite Hc. change (c :: ds ++ rest) with ((c :: ds) ++ rest). rewrite parse_digits_app, D2 by (by constructor). destruct rest as [|d rest]; cbn [parse_digits]; [done|]. cbn in Hr. by rewrite Hr.
Qed.
Lemma parse_separator rest ps k : (0 < length ps < 16)%nat -> parse_params (S k) (59 :: rest) ps = parse_params k rest ps.
Proof. intros Hps. cbn [parse_params]. assert ((16 <=? Z.of_nat (length ps)) || (59 =? 0) = false) as -> by (apply orb_false_iff; split; [lia|done]). change (is_digit 59) with false. change (59 =? 59) with true. cbv iota. by rewrite (proj2 (Nat.eqb_neq _ _)) by lia. Qed.
(** What is collected while a sequence is read. *)
Lemma puts_csi s b t : Forall (fun c => is_final c = false) s -> (length b + length s < 32)%nat -> terminal_puts raw s (set_esc ESC_STATE_CSI b t) = set_esc ESC_STATE_CSI (b ++ s) t.
Proof.
  intros Hf. revert b. induction Hf as [|c s Hc _ IH]; intros b Hl; [by rewrite app_nil_r|]. cbn [length] in Hl. unfold terminal_puts. cbn [foldl]. change (foldl _ ?t s) with (terminal_puts raw s t). replace (b ++ c :: s) with ((b ++ [c]) ++ s) by (by rewrite <- app_assoc). rewrite <- IH by (rewrite length_app; cbn; lia). f_equal.
  unfold terminal_putc, terminal_process_char. cbn [t_esc set_esc]. unfold csi_char. rewrite Hc. unfold keep_char. cbn [esc_buffer set_esc]. unfold TERMINAL_ESCAPE_BUFFER_SIZE. by rewrite (proj2 (Z.ltb_lt _ _)) by lia.
Qed.
Definition cursor_format : list Z := [27; 91; 37; 100; 59; 37; 100; 72].
Lemma int_arg n args : 0 < n <= 256 -> printf_item 100 (AInt n :: args) = (decimal n, args).
Proof. intros Hn. unfold printf_item. change (100 =? 115) with false. change ((100 =? 100) || (100 =? 105)) with true. cbv iota. cbn [next_int]. assert (int_wrap n = n) as -> by (unfold int_wrap; rewrite u32_id by lia; by rewrite (proj2 (Z.leb_gt _ _)) by lia). by rewrite (proj2 (Z.ltb_ge n 0)) by lia. Qed.
Lemma printf_plain c r args out : (length out < PRINTF_ROOM)%nat -> c <> 37 -> printf_text (c :: r) args out = printf_text r args (out ++ [c]).
Proof. intros Ho Hc. cbn [printf_text]. by rewrite (proj2 (Nat.leb_gt _ _) Ho), (proj2 (Z.eqb_neq _ _) Hc). Qed.
Lemma printf_conv c r args out s args' : (length out + length s < PRINTF_ROOM)%nat -> printf_item c args = (s, args') -> printf_text (37 :: c :: r) args out = printf_text r args' (out ++ s).
Proof. intros Ho E. cbn [printf_text]. rewrite (proj2 (Nat.leb_gt _ _)) by lia. change (37 =? 37) with true. cbv iota. rewrite E. by rewrite take_ge by lia. Qed.
Lemma printf_end args out : printf_text [] args out = Some out.
Proof. cbn [printf_text]. by case_match. Qed.
Lemma cursor_text r c : 0 < r <= 256 -> 0 < c <= 256 -> printf_text cursor_format [AInt r; AInt c] [] = Some ([27; 91] ++ decimal r ++ [59] ++ decimal c ++ [72]).
Proof.
  intros Hr Hc. destruct (decimal_parses r Hr) as (_ & _ & Lr). destruct (decimal_parses c Hc) as (_ & _ & Lc). unfold cursor_format. assert (forall n, (n < 20)%nat -> (n < PRINTF_ROOM)%nat) as Hroom by (unfold PRINTF_ROOM; lia).
  do 2 (rewrite printf_plain by (done || apply Hroom; cbn [length app]; lia)). rewrite (printf_conv 100 _ _ _ (decimal r) [AInt c]); [|apply Hroom; cbn [length app]; lia|by apply int_arg]. rewrite printf_plain by (done || apply Hroom; rewrite length_app; cbn [length app]; lia).
  rewrite (printf_conv 100 _ _ _ (decimal c) []); [|apply Hroom; rewrite !length_app; cbn [length app]; lia|by apply int_arg]. rewrite printf_plain by (done || apply Hroom; rewrite !length_app; cbn [length app]; lia). rewrite printf_end. f_equal. cbn [app]. by rewrite <- !app_assoc.
Qed.
(** A text without zeros is printed whole. *)
Lemma c_string_all s : Forall (fun c => c <> 0) s -> c_string s = s.
Proof. induction 1 as [|c s Hc _ IH]; [done|]. cbn. by rewrite (proj2 (Z.eqb_neq _ _) Hc), IH. Qed.
Lemma digits_plain n : 0 < n <= 256 -> Forall (fun c => is_final c = false /\ c <> 0) (decimal n).
Proof. intros Hn. destruct (decimal_parses n Hn) as (D & _). eapply Forall_impl; [exact D|]. intros c Hc. cbn beta in Hc. unfold is_digit in Hc. unfold is_final. zbool. split; [|lia]. apply orb_false_iff; split; [apply orb_false_iff; split; lia|lia]. Qed.
(** Printing and parsing agree on cursor addresses: a program that prints "ESC [ row ; column H"
    with terminal_printf puts the cursor on that row and column of the screen, counted from
    one, and changes nothing else. *)
Theorem terminal_cursor_address r c t : term_ok false t -> t_esc t = ESC_STATE_NORMAL -> 0 < r <= t_height t -> 0 < c <= t_width t ->
  exists n, terminal_printf raw cursor_format [AInt r; AInt c] t = Some (set_esc ESC_STATE_NORMAL [] (at_cursor (c - 1) (r - 1) t), n).
Proof.
  intros (w & h & x & y & [Hw Hh] & _ & _ & Hs) He Hr Hc. rewrite (sh_height _ _ _ _ _ _ Hs) in Hr. rewrite (sh_width _ _ _ _ _ _ Hs) in Hc. unfold TERMINAL_MAX_WIDTH, TERMINAL_MAX_HEIGHT in *. assert (0 < r <= 256) as Hr' by lia. assert (0 < c <= 256) as Hc' by lia.
  unfold terminal_printf. rewrite cursor_text by done. cbn [mbind option_bind]. eexists. repeat f_equal. set (s := decimal r ++ [59] ++ decimal c). replace ([27; 91] ++ decimal r ++ [59] ++ decimal c ++ [72]) with ([27; 91] ++ s ++ [72]) by (unfold s; by rewrite <- !app_assoc).
  assert (Forall (fun c => is_final c = false /\ c <> 0) s) as Hp by (unfold s; apply Forall_app; split; [by apply digits_plain|]; constructor; [done|by apply digits_plain]).
  rewrite c_string_all by (apply Forall_app; split; [by repeat constructor|]; apply Forall_app; split; [eapply Forall_impl; [exact Hp|tauto]|by repeat constructor]).
  destruct (decimal_parses r Hr') as (_ & _ & Lr). destruct (decimal_parses c Hc') as (_ & _ & Lc). assert (length s <= 7)%nat as Ls by (unfold s; rewrite !length_app; cbn [length app]; lia).
  unfold terminal_puts. rewrite !foldl_app. cbn [foldl]. assert (terminal_putc raw 91 (terminal_putc raw 27 t) = set_esc ESC_STATE_CSI [] t) as -> by (unfold terminal_putc at 2, terminal_process_char; rewrite He; done).
  change (foldl (fun t c => terminal_putc raw c t) (set_esc ESC_STATE_CSI [] t) s) with (terminal_puts raw s (set_esc ESC_STATE_CSI [] t)). rewrite puts_csi by (eapply Forall_impl; [exact Hp|tauto] || cbn [length app]; lia). cbn [app].
  unfold terminal_putc, terminal_process_char. cbn [t_esc set_esc]. unfold csi_char. change (is_final 72) with true. cbv iota zeta. unfold keep_char. cbn [esc_buffer set_esc]. unfold TERMINAL_ESCAPE_BUFFER_SIZE. rewrite (proj2 (Z.ltb_lt _ _)) by lia.
  unfold terminal_process_escape, terminal_parse_csi. assert (parse_params (length (s ++ [72])) (s ++ [72]) [] = ([r; c], [72])) as ->.
  { unfold s. assert (exists k, length ((decimal r ++ [59] ++ decimal c) ++ [72]) = S (S (S (S k)))) as [k ->] by (exists (length (decimal r) + length (decimal c) - 2)%nat; rewrite !length_app; cbn [length app]; lia). rewrite <- !app_assoc. rewrite parse_param by (done || cbn [length app]; lia).
    cbn [app]. rewrite parse_separator by (cbn; lia). rewrite parse_param by (done || cbn [length app]; lia). done. }
  cbn [default lookup list_lookup]. unfold csi_command. cbn [default lookup list_lookup]. cbn -[terminal_set_cursor int_wrap set_esc at_cursor].
  assert (int_wrap (c - 1) = c - 1) as -> by (unfold int_wrap; rewrite u32_id by lia; by rewrite (proj2 (Z.leb_gt _ _)) by lia). assert (int_wrap (r - 1) = r - 1) as -> by (unfold int_wrap; rewrite u32_id by lia; by rewrite (proj2 (Z.leb_gt _ _)) by lia).
  unfold terminal_set_cursor. cbn [t_width t_height set_esc]. rewrite (sh_height _ _ _ _ _ _ Hs), (sh_width _ _ _ _ _ _ Hs). rewrite (proj2 (Z.ltb_ge (c - 1) 0)), (proj2 (Z.ltb_ge (r - 1) 0)), (proj2 (Z.leb_gt w (c - 1))), (proj2 (Z.leb_gt h (r - 1))) by lia. done.
Qed.
End Addresses.

(** ** Examples *)

Definition no_cell : Z -> cell := fun _ => mk_cell 0 0 0 0.
Definition blank_row (w : nat) : tline := mk_tline 7 (repeat (mk_cell 32 7 0 0) w) true.
(** A screen of three columns and two rows. *)
Definition tiny : terminal endless :=
  mk_terminal 3 2 0 0 true true [blank_row 3; blank_row 3] 5 (fun _ => mk_sb NULL 0 []) 6 1000 0 0 0 7 0 0 7 0 ESC_STATE_NORMAL [] (repeat 0 256) 0 0 None true true true true true true 0 0
    default_palette (mk_endless 0).
Lemma tiny_ok : term_ok false tiny.
Proof. exists 3, 2, 0, 0. split; [unfold size_ok, TERMINAL_MAX_WIDTH, TERMINAL_MAX_HEIGHT; lia|]. split; [lia|]. split; [lia|]. split; try done. by repeat constructor. Qed.
Lemma terminal_invariant_witness : term_ok false (foldl (run_call no_cell) tiny [TPuts [65; 66; 67; 68]; TScroll 5; TMoveCursor (-9) 9; TColor 1 200]).
Proof. exact (terminal_invariant no_cell [TPuts [65; 66; 67; 68]; TScroll 5; TMoveCursor (-9) 9; TColor 1 200] tiny tiny_ok). Defined.
Lemma terminal_scroll_history_witness : let t := terminal_puts no_cell [65; 10; 66] tiny in length (history (terminal_scroll no_cell 1 t)) = 1%nat /\ cells_of (terminal_scroll no_cell 1 t) 0 = cells_of t 1.
Proof.
  intros t. assert (term_ok false t) as Hok by exact (terminal_invariant no_cell [TPuts [65; 10; 66]] tiny tiny_ok). assert (t_height t = 2) as Eh by reflexivity.
  destruct (terminal_scroll_history no_cell 1 t Hok ltac:(lia)) as (Hh & _ & _ & Hc). split; [rewrite Hh; reflexivity|]. specialize (Hc 0 ltac:(lia)). rewrite Eh in Hc. exact Hc.
Defined.
Lemma terminal_cursor_address_witness : exists n, terminal_printf no_cell cursor_format [AInt 2; AInt 3] tiny = Some (set_esc ESC_STATE_NORMAL [] (at_cursor 2 1 tiny), n).
Proof. exact (terminal_cursor_address no_cell 2 3 tiny tiny_ok eq_refl ltac:(cbn; lia) ltac:(cbn; lia)). Defined.

(** ** Faults *)

(** A typed character counts twice at the end of the line, so that a line takes a byte
    of the line that was typed before it: after "xyz", the line "a" is read as "ay". *)
Definition press (c : Z) : key_event := mk_key 0 0 c true.
Definition enter_key : key_event := mk_key KEY_ENTER 0 0 true.
Lemma typed_line_takes_stale_byte : exists t1 t2, terminal_getline no_cell false 256 [press 120; press 121; press 122; enter_key] tiny = Some (t1, [120; 121; 122; 0], []) /\
  terminal_getline no_cell false 256 [press 97; enter_key] t1 = Some (t2, [97; 121], []).
Proof. eexists _, _. split; [vm_compute; reflexivity|]. vm_compute. reflexivity. Qed.
(** With 254 characters and the cursor behind them, the next one stores its zero behind the
    buffer of 256 bytes. *)
Lemma typed_line_overruns {H} `{KernelHeap H} raw c (t : terminal H) : input_pos t = 254 -> input_length t = 254 -> echo_enabled t = false -> input_length (type_char raw c t) = TERMINAL_INPUT_BUFFER_SIZE.
Proof.
  intros Hp Hl He. unfold type_char. cbn zeta. assert (input_length (terminal_scroll_to_bottom t) = 254 /\ input_pos (terminal_scroll_to_bottom t) = 254 /\ echo_enabled (terminal_scroll_to_bottom t) = false) as (E1 & E2 & E3) by (unfold terminal_scroll_to_bottom; by destruct (_ =? 0)).
  cbn [echo_enabled set_typed]. rewrite E3. cbn [input_length set_typed]. by rewrite E1, E2.
Qed.
(** After the screen has become wider, a line that scrolls off is copied over the end of
    a block that was allocated for the narrow one. *)
Lemma wider_screen_overruns {H} `{KernelHeap H} raw (t : terminal H) y : let k := u32 (scrollback_head t + scrollback_count t) mod scrollback_size t in
  sb_at (scrollback t k) <> NULL -> sb_room (scrollback t k) < Z.of_nat (length (cells_of t y)) -> let l := scrollback (save_line raw y t) k in sb_room l < Z.of_nat (length (sb_cells l)).
Proof.
  cbn zeta. intros Hk Hr. unfold save_line. cbn zeta. rewrite (proj2 (Z.eqb_neq _ _) Hk). rewrite (proj2 (Z.eqb_neq _ _) Hk). change (cells_of (set_t_heap (t_heap t) t) y) with (cells_of t y). case_if; cbn [scrollback set_back]; rewrite upd_same; cbn; rewrite length_app; lia.
Qed.
(** "ESC [ J" without a parameter clears the screen up to the cursor instead of from it on. *)
Lemma erase_default_clears_start {H} `{KernelHeap H} raw (t : terminal H) : terminal_parse_csi raw [74] t = (terminal_clear_to_start t, true).
Proof. done. Qed.
(** The view does not follow the scroll offset. *)
Lemma view_not_drawn {H} `{KernelHeap H} fb o (t : terminal H) y : terminal_draw_line fb (set_offset o t) y = terminal_draw_line fb t y.
Proof. done. Qed.
(** The smallest number is printed as "-(". *)
Lemma printf_smallest : printf_text [37; 100] [AInt (- 2 ^ 31)] [] = Some [45; 40].
Proof. done. Qed.
