(* ===== verification/Rtc.v ===== *)
(** * The real-time clock (drivers/timer/rtc.c)

    The registers of the clock in all its modes, the calendar, the conversion to and from
    Unix time, and time as text. The registers are a function; what the hardware holds at
    the moments it is read is an argument. *)
From Stdlib Require Import String.
From S2P Require Import Prelude Memory Ring Auth.
Close Scope string_scope.

Definition RTC_REG_SECONDS : Z := 0x00.
Definition RTC_REG_MINUTES : Z := 0x02.
Definition RTC_REG_HOURS : Z := 0x04.
Definition RTC_REG_WEEKDAY : Z := 0x06.
Definition RTC_REG_DAY : Z := 0x07.
Definition RTC_REG_MONTH : Z := 0x08.
Definition RTC_REG_YEAR : Z := 0x09.
Definition RTC_REG_STATUS_A : Z := 0x0A.
Definition RTC_REG_STATUS_B : Z := 0x0B.
Definition RTC_REG_STATUS_C : Z := 0x0C.
Definition RTC_REG_STATUS_D : Z := 0x0D.
Definition RTC_REG_CENTURY : Z := 0x32.
Definition RTC_SRA_UIP : Z := 0x80.
Definition RTC_SRB_SET : Z := 0x80.
Definition RTC_SRB_PIE : Z := 0x40.
Definition RTC_SRB_DM : Z := 0x04.
Definition RTC_SRB_24H : Z := 0x02.
Definition RTC_SRC_PF : Z := 0x40.

Record rtc_time := mk_time { tm_year : Z; tm_month : Z; tm_day : Z; tm_hour : Z; tm_minute : Z; tm_second : Z; tm_weekday : Z }.
(** The registers, and what the driver found out about them. *)
Definition cmos : Type := Z -> Z.
Record rtc := mk_rtc { rtc_is_binary_mode : bool; rtc_is_24hour_mode : bool; rtc_initialized : bool; rtc_century_register : Z; has_callback : bool }.

Definition bcd_to_binary (bcd : Z) : Z := u8 (Z.shiftr bcd 4 * 10 + Z.land bcd 0x0F).
Definition binary_to_bcd (b : Z) : Z := u8 (Z.lor (Z.shiftl (b / 10) 4) (b mod 10)).
Definition rtc_read_register (reg : Z) (m : cmos) : Z := m reg.
Definition rtc_write_register (reg value : Z) (m : cmos) : cmos := upd m reg value.
(** [rtc_wait_for_update]: the registers as they are when no update is going on; the list is
    what the loop finds, one set of registers for each of its rounds. *)
Fixpoint rtc_wait_for_update (seen : list cmos) : option (cmos * list cmos) :=
  match seen with
  | [] => None
  | m :: seen => if negb (Z.land (rtc_read_register RTC_REG_STATUS_A m) RTC_SRA_UIP =? 0) then rtc_wait_for_update seen else Some (m, seen)
  end.

Definition rtc_init (m : cmos) (r : rtc) : rtc :=
  let status_b := rtc_read_register RTC_REG_STATUS_B m in
  mk_rtc (negb (Z.land status_b RTC_SRB_DM =? 0)) (negb (Z.land status_b RTC_SRB_24H =? 0)) true RTC_REG_CENTURY (has_callback r).

(** ** The calendar *)

Definition rtc_days_in_month : list Z := [31; 28; 31; 30; 31; 30; 31; 31; 30; 31; 30; 31].
Definition rtc_is_leap_year (year : Z) : bool := (year mod 4 =? 0) && negb (year mod 100 =? 0) || (year mod 400 =? 0).
Definition rtc_days_in_month_func (month year : Z) : Z :=
  if (month <? 1) || (12 <? month) then 0
  else if (month =? 2) && rtc_is_leap_year year then 29
  else default 0 (rtc_days_in_month !! Z.to_nat (month - 1)).
(** The arithmetic is on [int]: the remainder has the sign of the dividend. *)
Definition rtc_calculate_weekday (year month day : Z) : Z :=
  let '(m, y) := if month <? 3 then (month + 12, year - 1) else (month, year) in
  let k := Z.rem y 100 in
  let j := Z.quot y 100 in
  let h := Z.rem (day + Z.quot (13 * (m + 1)) 5 + k + Z.quot k 4 + Z.quot j 4 - 2 * j) 7 in
  u8 (Z.rem (h + 6) 7 + 1).
Definition year_days (year : Z) : Z := if rtc_is_leap_year year then 366 else 365.
Definition rtc_time_to_unix (t : rtc_time) : Z :=
  if tm_year t <? 1970 then 0
  else
    let days := for_range 1970 (tm_year t) (fun year days => u64 (days + year_days year)) 0 in
    let days := for_range 1 (tm_month t) (fun month days => u64 (days + rtc_days_in_month_func month (tm_year t))) days in
    let days := u64 (days + (tm_day t - 1)) in
    let timestamp := u64 (u64 (u64 (days * 24) * 60) * 60) in
    let timestamp := u64 (timestamp + tm_hour t * 60 * 60) in
    let timestamp := u64 (timestamp + tm_minute t * 60) in
    u64 (timestamp + tm_second t).
(** The loops take at most as many rounds as there are days. *)
Fixpoint year_loop (n : nat) (days year : Z) : Z * Z :=
  match n with
  | O => (days, year)
  | S n => if year_days year <=? days then year_loop n (days - year_days year) (u16 (year + 1)) else (days, year)
  end.
Fixpoint month_loop (n : nat) (days month year : Z) : Z * Z :=
  match n with
  | O => (days, month)
  | S n => if rtc_days_in_month_func month year <=? days then month_loop n (days - rtc_days_in_month_func month year) (u8 (month + 1)) year else (days, month)
  end.
Definition rtc_unix_to_time (timestamp : Z) : rtc_time :=
  let days := timestamp / (24 * 60 * 60) in
  let seconds_in_day := timestamp mod (24 * 60 * 60) in
  let '(days, year) := year_loop (Z.to_nat days) days 1970 in
  let '(days, month) := month_loop (Z.to_nat days) days 1 year in
  let day := u8 (days + 1) in
  mk_time year month day (u8 (seconds_in_day / 3600)) (u8 (seconds_in_day mod 3600 / 60)) (u8 (seconds_in_day mod 60)) (rtc_calculate_weekday year month day).

(** ** Reading and setting the clock *)

Record raw_time := mk_raw { r_second : Z; r_minute : Z; r_hour : Z; r_day : Z; r_month : Z; r_year : Z }.
#[global] Instance raw_time_eq_dec : EqDecision raw_time.
Proof. solve_decision. Defined.
Definition read_raw (m : cmos) : raw_time :=
  mk_raw (rtc_read_register RTC_REG_SECONDS m) (rtc_read_register RTC_REG_MINUTES m) (rtc_read_register RTC_REG_HOURS m)
    (rtc_read_register RTC_REG_DAY m) (rtc_read_register RTC_REG_MONTH m) (rtc_read_register RTC_REG_YEAR m).
(** Two readings in a row that agree; [n] bounds the rounds by the number of moments. *)
Fixpoint read_stable (n : nat) (seen : list cmos) (r : rtc) : option (raw_time * Z * Z) :=
  match n with
  | O => None
  | S n =>
      '(m, seen) ← rtc_wait_for_update seen;
      let first := read_raw m in
      let weekday := rtc_read_register RTC_REG_WEEKDAY m in
      let century := if rtc_century_register r =? 0 then 20 else rtc_read_register (rtc_century_register r) m in
      '(m, seen) ← rtc_wait_for_update seen;
      if bool_decide (first = read_raw m) then Some (first, weekday, century) else read_stable n seen r
  end.
Definition from_12hour (pm : bool) (hour : Z) : Z := if pm && negb (hour =? 12) then hour + 12 else if negb pm && (hour =? 12) then 0 else hour.
Definition decode (r : rtc) (v : Z) : Z := if rtc_is_binary_mode r then v else bcd_to_binary v.
Definition decode_hour (r : rtc) (hour : Z) : Z :=
  if rtc_is_24hour_mode r then decode r hour else from_12hour (negb (Z.land hour 0x80 =? 0)) (decode r (Z.land hour 0x7F)).
(** [None] while the clock has not been read. *)
Definition rtc_get_time (seen : list cmos) (r : rtc) : option rtc_time :=
  '(raw, weekday, century) ← read_stable (length seen) seen r;
  let century := if rtc_century_register r =? 0 then century else decode r century in
  let year := decode r (r_year raw) in
  let year := if negb (rtc_century_register r =? 0) && (19 <=? century) && (century <=? 21) then century * 100 + year
              else if 80 <? year then 1900 + year else 2000 + year in
  let month := decode r (r_month raw) in
  let day := decode r (r_day raw) in
  let weekday := decode r weekday in
  Some (mk_time year month day (decode_hour r (r_hour raw)) (decode r (r_minute raw)) (decode r (r_second raw))
          (if (weekday <? 1) || (7 <? weekday) then rtc_calculate_weekday year month day else weekday)).

Definition encode (r : rtc) (v : Z) : Z := if rtc_is_binary_mode r then v else binary_to_bcd v.
Definition to_12hour (hour : Z) : Z :=
  let h := if hour =? 0 then 12 else if 12 <? hour then hour - 12 else hour in if 12 <=? hour then Z.lor h 0x80 else h.
Definition encode_hour (r : rtc) (hour : Z) : Z :=
  let hour := if rtc_is_24hour_mode r then hour else to_12hour hour in
  if rtc_is_binary_mode r then hour else Z.lor (Z.land hour 0x80) (binary_to_bcd (Z.land hour 0x7F)).
Definition rtc_set_time (t : rtc_time) (r : rtc) (m : cmos) : cmos * Z :=
  if (tm_month t <? 1) || (12 <? tm_month t) || (tm_day t <? 1) || (31 <? tm_day t) || (23 <? tm_hour t) || (59 <? tm_minute t) || (59 <? tm_second t) then (m, -1)
  else
    let weekday := if (tm_weekday t <? 1) || (7 <? tm_weekday t) then rtc_calculate_weekday (tm_year t) (tm_month t) (tm_day t) else tm_weekday t in
    let status_b := rtc_read_register RTC_REG_STATUS_B m in
    let m := rtc_write_register RTC_REG_STATUS_B (Z.lor status_b RTC_SRB_SET) m in
    let m := rtc_write_register RTC_REG_SECONDS (encode r (tm_second t)) m in
    let m := rtc_write_register RTC_REG_MINUTES (encode r (tm_minute t)) m in
    let m := rtc_write_register RTC_REG_HOURS (encode_hour r (tm_hour t)) m in
    let m := rtc_write_register RTC_REG_DAY (encode r (tm_day t)) m in
    let m := rtc_write_register RTC_REG_MONTH (encode r (tm_month t)) m in
    let m := rtc_write_register RTC_REG_YEAR (encode r (u8 (tm_year t mod 100))) m in
    let m := rtc_write_register RTC_REG_WEEKDAY (encode r weekday) m in
    let m := if rtc_century_register r =? 0 then m else rtc_write_register (rtc_century_register r) (encode r (u8 (tm_year t / 100))) m in
    (rtc_write_register RTC_REG_STATUS_B (Z.land status_b (Z.lnot RTC_SRB_SET)) m, 0).
Definition rtc_get_unix_timestamp (seen : list cmos) (r : rtc) : option Z := t ← rtc_get_time seen r; Some (rtc_time_to_unix t).

Definition rtc_enable_periodic_interrupt (rate : Z) (m : cmos) : cmos * Z :=
  if (rate <? 3) || (15 <? rate) then (m, -1)
  else
    let m := rtc_write_register RTC_REG_STATUS_A (Z.lor (Z.land (rtc_read_register RTC_REG_STATUS_A m) 0xF0) rate) m in
    (rtc_write_register RTC_REG_STATUS_B (Z.lor (rtc_read_register RTC_REG_STATUS_B m) RTC_SRB_PIE) m, 0).
Definition rtc_disable_periodic_interrupt (m : cmos) : cmos * Z :=
  (rtc_write_register RTC_REG_STATUS_B (Z.land (rtc_read_register RTC_REG_STATUS_B m) (Z.lnot RTC_SRB_PIE)) m, 0).
(** Whether the callback is called. *)
Definition rtc_interrupt_handler (m : cmos) (r : rtc) : bool := negb (Z.land (rtc_read_register RTC_REG_STATUS_C m) RTC_SRC_PF =? 0) && has_callback r.

(** ** Time as text *)

Definition rtc_weekday_names : list (list Z) := map str ["Sunday"; "Monday"; "Tuesday"; "Wednesday"; "Thursday"; "Friday"; "Saturday"]%string.
Definition rtc_month_names : list (list Z) :=
  map str ["January"; "February"; "March"; "April"; "May"; "June"; "July"; "August"; "September"; "October"; "November"; "December"]%string.
Definition rtc_weekday_abbrev : list (list Z) := map (take 3) rtc_weekday_names.
Definition rtc_month_abbrev : list (list Z) := map (take 3) rtc_month_names.
(** [str_copy]: as much as there is room for before the terminating zero. *)
Definition str_copy (out : list Z) (max : Z) (src : list Z) : list Z := out ++ take (Z.to_nat (max - 1) - length out) src.
(** [do { buf[i++] = '0' + num % 10; num /= 10; } while (num > 0 && i < 11);] *)
Fixpoint low_digits (n : nat) (num : Z) : list Z :=
  match n with
  | O => []
  | S n => (48 + num mod 10) :: (if 0 <? num / 10 then low_digits n (num / 10) else [])
  end.
Definition format_number (out : list Z) (max num : Z) (width : nat) : list Z :=
  let digits := low_digits 11 num in str_copy out max (repeat 48 (width - length digits) ++ rev digits).
Definition name_at (names : list (list Z)) (i : Z) : list Z := if (1 <=? i) then default [] (names !! Z.to_nat (i - 1)) else [].
Definition format_item (t : rtc_time) (out : list Z) (max c : Z) : list Z :=
  if c =? 89 then format_number out max (tm_year t) 4
  else if c =? 109 then format_number out max (tm_month t) 2
  else if c =? 100 then format_number out max (tm_day t) 2
  else if c =? 72 then format_number out max (tm_hour t) 2
  else if c =? 77 then format_number out max (tm_minute t) 2
  else if c =? 83 then format_number out max (tm_second t) 2
  else if c =? 97 then str_copy out max (name_at rtc_weekday_abbrev (tm_weekday t))
  else if c =? 65 then str_copy out max (name_at rtc_weekday_names (tm_weekday t))
  else if c =? 98 then str_copy out max (name_at rtc_month_abbrev (tm_month t))
  else if c =? 66 then str_copy out max (name_at rtc_month_names (tm_month t))
  else if c =? 37 then out ++ [37]
  else str_copy (out ++ [37]) max [c].
Fixpoint format_loop (t : rtc_time) (max : Z) (fmt out : list Z) : list Z :=
  if max - 1 <=? Z.of_nat (length out) then out
  else
    match fmt with
    | [] => out
    | c :: r => match c =? 37, r with true, d :: r => format_loop t max r (format_item t out max d) | _, _ => format_loop t max r (out ++ [c]) end
    end.
(** The text, without the zero behind it; [None] for an error. *)
Definition rtc_format_time_custom (t : rtc_time) (max : Z) (fmt : list Z) : option (list Z) := if max =? 0 then None else Some (format_loop t max fmt []).
Definition rtc_format_time (t : rtc_time) (max : Z) : option (list Z) := rtc_format_time_custom t max (str "%Y-%m-%d %H:%M:%S"%string).

(** ** Days and dates *)

(** The days before the first of a year since 1970, and before the first of a month. *)
Definition days_before_year (y : Z) : Z := for_range 1970 y (fun year days => days + year_days year) 0.
Definition days_before_month (m y : Z) : Z := for_range 1 m (fun month days => days + rtc_days_in_month_func month y) 0.
Definition day_number (t : rtc_time) : Z := days_before_year (tm_year t) + days_before_month (tm_month t) (tm_year t) + (tm_day t - 1).
Record valid_date (t : rtc_time) : Prop := mk_valid_date {
  vd_year : 1970 <= tm_year t < 2 ^ 16; vd_month : 1 <= tm_month t <= 12; vd_day : 1 <= tm_day t <= rtc_days_in_month_func (tm_month t) (tm_year t) }.
Record valid_time (t : rtc_time) : Prop := mk_valid_time {
  vt_date : valid_date t; vt_hour : 0 <= tm_hour t < 24; vt_minute : 0 <= tm_minute t < 60; vt_second : 0 <= tm_second t < 60 }.
(** Leap years up to and including [y]. *)
Definition leaps (y : Z) : Z := y / 4 - y / 100 + y / 400.
Lemma leap_step y : (if rtc_is_leap_year y then 1 else 0) = leaps y - leaps (y - 1).
Proof.
  unfold rtc_is_leap_year, leaps. assert (forall n, 0 < n -> y / n - (y - 1) / n = if y mod n =? 0 then 1 else 0) as Hd.
  { intros n Hn. destruct (Z.eqb_spec (y mod n) 0) as [E|E].
    - apply Z.mod_divide in E as [q ->]; [|lia]. rewrite Z.div_mul by lia. replace (q * n - 1) with ((q - 1) * n + (n - 1)) by lia. rewrite Z.div_add_l by lia. rewrite (Z.div_small (n - 1)); lia.
    - pose proof (Z.mod_pos_bound y n Hn). pose proof (Z.div_mod y n ltac:(lia)). rewrite <- (Z.div_unique (y - 1) n (y / n) (y mod n - 1)); lia. }
  pose proof (Hd 4 ltac:(lia)). pose proof (Hd 100 ltac:(lia)). pose proof (Hd 400 ltac:(lia)).
  destruct (Z.eqb_spec (y mod 4) 0), (Z.eqb_spec (y mod 100) 0), (Z.eqb_spec (y mod 400) 0); cbn [andb orb negb]; dlia.
Qed.
Lemma days_before_year_closed y : 1970 <= y -> days_before_year y = 365 * (y - 1970) + leaps (y - 1) - leaps 1969.
Proof.
  intros Hy. unfold days_before_year. apply (for_range_ind (fun j d => d = 365 * (j - 1970) + leaps (j - 1) - leaps 1969)); [lia|reflexivity|]. intros j d Hj ->. unfold year_days. pose proof (leap_step j) as L. replace (j + 1 - 1) with j by lia. destruct (rtc_is_leap_year j); lia.
Qed.
Lemma days_before_month_table m y : 1 <= m <= 12 -> days_before_month m y = default 0 ([0; 31; 59; 90; 120; 151; 181; 212; 243; 273; 304; 334] !! Z.to_nat (m - 1)) + (if (2 <? m) && rtc_is_leap_year y then 1 else 0).
Proof.
  intros Hm. assert (m = 1 \/ m = 2 \/ m = 3 \/ m = 4 \/ m = 5 \/ m = 6 \/ m = 7 \/ m = 8 \/ m = 9 \/ m = 10 \/ m = 11 \/ m = 12) as Hc by lia.
  unfold days_before_month, for_range, rtc_days_in_month_func. repeat destruct Hc as [->|Hc]; subst; destruct (rtc_is_leap_year y); reflexivity.
Qed.
Lemma rem_week x : Z.rem (Z.rem x 7 + 6) 7 = (x + 6) mod 7.
Proof. Z.to_euclidean_division_equations. lia. Qed.
(** The terms of the formula that depend on the year. *)
Lemma year_terms y : 0 <= y -> Z.rem y 100 + Z.quot (Z.rem y 100) 4 + Z.quot (Z.quot y 100) 4 - 2 * Z.quot y 100 = y + leaps y - 126 * (y / 100).
Proof.
  intros Hy. rewrite (Z.rem_mod_nonneg y 100), (Z.quot_div_nonneg y 100) by lia. rewrite (Z.quot_div_nonneg (y mod 100) 4), (Z.quot_div_nonneg (y / 100) 4) by dlia.
  unfold leaps. replace (y / 400) with (y / 100 / 4) by (rewrite Z.div_div by lia; done). replace (y / 4) with (y / 100 * 25 + y mod 100 / 4) by dlia. dlia.
Qed.
Lemma mod7_same a b q : a = b + q * 7 -> a mod 7 = b mod 7.
Proof. intros ->. by rewrite Z.mod_add. Qed.
(** The terms that depend on the month. *)
Lemma month_terms m : 1 <= m <= 12 -> exists c,
  Z.quot (13 * ((if m <? 3 then m + 12 else m) + 1)) 5 - default 0 ([0; 31; 59; 90; 120; 151; 181; 212; 243; 273; 304; 334] !! Z.to_nat (m - 1)) + (if m <? 3 then -1 else 0) = c * 7 - 719530.
Proof.
  intros Hm. assert (m = 1 \/ m = 2 \/ m = 3 \/ m = 4 \/ m = 5 \/ m = 6 \/ m = 7 \/ m = 8 \/ m = 9 \/ m = 10 \/ m = 11 \/ m = 12) as Hc by lia.
  repeat destruct Hc as [->|Hc]; subst; [exists 102795|exists 102791|exists 102783|exists 102779|exists 102775|exists 102771|exists 102767|exists 102763|exists 102759|exists 102755|exists 102751|exists 102747]; reflexivity.
Qed.
(** The formula for the day of the week agrees with counting days: on every valid date from
    1970 on it is the day of the week that the number of days since Thursday, the first of
    January 1970, gives, with Sunday as 1. *)
Theorem rtc_weekday_counts_days t : valid_date t -> rtc_calculate_weekday (tm_year t) (tm_month t) (tm_day t) = (day_number t + 4) mod 7 + 1.
Proof.
  intros [Hy Hm Hd]. unfold day_number. rewrite days_before_year_closed, days_before_month_table by lia. unfold rtc_calculate_weekday. destruct t as [y m d h mi s wd]. cbn [tm_year tm_month tm_day] in *. clear h mi s wd Hd.
  set (Y := if m <? 3 then y - 1 else y). set (M := if m <? 3 then m + 12 else m). replace (if m <? 3 then (m + 12, y - 1) else (m, y)) with (M, Y) by (unfold M, Y; by destruct (m <? 3)). rewrite rem_week.
  assert (0 <= Y) as HY by (unfold Y; destruct (m <? 3); lia). pose proof (year_terms Y HY) as Ht. set (q := Z.quot (13 * (M + 1)) 5).
  match goal with |- u8 ((?x + 6) mod 7 + 1) = _ => replace x with (d + q + Y + leaps Y - 126 * (Y / 100)) by (unfold q; lia) end. clear Ht.
  set (tab := default 0 (_ !! _)). set (lp := if rtc_is_leap_year y then 1 else 0) in *.
  assert (leaps Y = leaps (y - 1) + (if 2 <? m then lp else 0) /\ exists c, q - tab + Y - y = c * 7 - 719530) as [HL [c Hq]].
  { pose proof (leap_step y) as L. fold lp in L. destruct (month_terms m Hm) as [c Hc]. fold M q tab in Hc. split; [unfold Y; destruct (Z.ltb_spec m 3), (Z.ltb_spec 2 m); lia|]. exists c. unfold Y. destruct (m <? 3); lia. }
  replace (if (2 <? m) && rtc_is_leap_year y then 1 else 0) with (if 2 <? m then lp else 0) by (unfold lp; by destruct (2 <? m)). set (lq := if 2 <? m then lp else 0) in *. rewrite HL. change (leaps 1969) with 477.
  rewrite u8_id by (pose proof (Z.mod_pos_bound (d + q + Y + (leaps (y - 1) + lq) - 126 * (Y / 100) + 6) 7); lia). f_equal. apply (mod7_same _ _ (c - 52 * y - 18 * (Y / 100))). lia.
Qed.

(** ** Unix time *)

Lemma for_range_snoc {S} lo hi (f : Z -> S -> S) s : lo <= hi -> for_range lo (hi + 1) f s = f hi (for_range lo hi f s).
Proof.
  intros Hle. unfold for_range. replace (Z.to_nat (hi + 1 - lo)) with (Datatypes.S (Z.to_nat (hi - lo))) by lia. assert (forall n i s, iter_up (Datatypes.S n) i f s = f (i + Z.of_nat n) (iter_up n i f s)) as Hi.
  { induction n as [|n IH]; intros i x; [cbn; by rewrite Z.add_0_r|]. change (iter_up (Datatypes.S (Datatypes.S n)) i f x) with (iter_up (Datatypes.S n) (i + 1) f (f i x)). rewrite IH. cbn [iter_up]. f_equal. lia. }
  rewrite Hi. f_equal. lia.
Qed.
Lemma dby_succ y : 1970 <= y -> days_before_year (y + 1) = days_before_year y + year_days y.
Proof. intros Hy. unfold days_before_year. by rewrite for_range_snoc by lia. Qed.
Lemma dbm_succ m y : 1 <= m -> days_before_month (m + 1) y = days_before_month m y + rtc_days_in_month_func m y.
Proof. intros Hm. unfold days_before_month. by rewrite for_range_snoc by lia. Qed.
Lemma year_days_bound y : 365 <= year_days y <= 366.
Proof. unfold year_days. case_match; lia. Qed.
Lemma month_days_bound m y : 1 <= m <= 12 -> 28 <= rtc_days_in_month_func m y <= 31.
Proof.
  intros Hm. unfold rtc_days_in_month_func. assert (m = 1 \/ m = 2 \/ m = 3 \/ m = 4 \/ m = 5 \/ m = 6 \/ m = 7 \/ m = 8 \/ m = 9 \/ m = 10 \/ m = 11 \/ m = 12) as Hc by lia.
  repeat destruct Hc as [->|Hc]; subst; destruct (rtc_is_leap_year y); vm_compute; split; discriminate.
Qed.
Lemma dbm_year y : days_before_month 13 y = year_days y.
Proof. change 13 with (12 + 1). rewrite dbm_succ, days_before_month_table by lia. unfold rtc_days_in_month_func, year_days. destruct (rtc_is_leap_year y); reflexivity. Qed.
(** Both counts grow. *)
Lemma dby_mono a b : 1970 <= a <= b -> days_before_year a <= days_before_year b.
Proof.
  intros [Ha Hb]. replace b with (a + Z.of_nat (Z.to_nat (b - a))) by lia. generalize (Z.to_nat (b - a)) as n. induction n as [|n IH]; [replace (a + Z.of_nat 0) with a by lia; lia|].
  replace (a + Z.of_nat (S n)) with (a + Z.of_nat n + 1) by lia. rewrite dby_succ by lia. pose proof (year_days_bound (a + Z.of_nat n)). lia.
Qed.
Lemma dbm_mono a b y : 1 <= a <= b -> b <= 13 -> days_before_month a y <= days_before_month b y.
Proof.
  intros [Ha Hb] H13. replace b with (a + Z.of_nat (Z.to_nat (b - a))) by lia. assert (Z.of_nat (Z.to_nat (b - a)) <= 13 - a) as Hn by lia. revert Hn. generalize (Z.to_nat (b - a)) as n. induction n as [|n IH]; intros Hn; [replace (a + Z.of_nat 0) with a by lia; lia|].
  replace (a + Z.of_nat (S n)) with (a + Z.of_nat n + 1) by lia. rewrite dbm_succ by lia. pose proof (month_days_bound (a + Z.of_nat n) y ltac:(lia)). specialize (IH ltac:(lia)). lia.
Qed.
Lemma dby_bound y : 1970 <= y <= 2 ^ 16 -> 0 <= days_before_year y < 2 ^ 25.
Proof. intros Hy. rewrite days_before_year_closed by lia. unfold leaps. change (1969 / 4 - 1969 / 100 + 1969 / 400) with 477. dlia. Qed.

(** The loops find the year and the month. *)
Lemma year_loop_finds k n y0 r : 1970 <= y0 -> y0 + Z.of_nat k < 2 ^ 16 -> let y := y0 + Z.of_nat k in let days := days_before_year y - days_before_year y0 + r in
  0 <= r < year_days y -> (Z.to_nat days <= n)%nat -> year_loop n days y0 = (r, y).
Proof.
  revert n y0. induction k as [|k IH]; intros n y0 Hy Hk; cbn zeta.
  - replace (y0 + Z.of_nat 0) with y0 by lia. replace (days_before_year y0 - days_before_year y0 + r) with r by lia. intros Hr Hn. destruct n as [|n]; cbn [year_loop]; [done|]. by rewrite (proj2 (Z.leb_gt _ _)) by lia.
  - intros Hr Hn. pose proof (dby_succ y0 Hy) as Hs. pose proof (dby_mono (y0 + 1) (y0 + Z.of_nat (S k)) ltac:(lia)) as Hm. pose proof (year_days_bound y0). destruct n as [|n]; [lia|]. cbn [year_loop]. rewrite (proj2 (Z.leb_le (year_days y0) _)) by lia. rewrite u16_id by lia.
    replace (y0 + Z.of_nat (S k)) with (y0 + 1 + Z.of_nat k) in * by lia. replace (days_before_year (y0 + 1 + Z.of_nat k) - days_before_year y0 + r - year_days y0) with (days_before_year (y0 + 1 + Z.of_nat k) - days_before_year (y0 + 1) + r) by lia. apply IH; lia.
Qed.
Lemma month_loop_finds k n m0 y r : 1 <= m0 -> m0 + Z.of_nat k <= 12 -> let m := m0 + Z.of_nat k in let days := days_before_month m y - days_before_month m0 y + r in
  0 <= r < rtc_days_in_month_func m y -> (Z.to_nat days <= n)%nat -> month_loop n days m0 y = (r, m).
Proof.
  revert n m0. induction k as [|k IH]; intros n m0 Hy Hk; cbn zeta.
  - replace (m0 + Z.of_nat 0) with m0 by lia. replace (days_before_month m0 y - days_before_month m0 y + r) with r by lia. intros Hr Hn. destruct n as [|n]; cbn [month_loop]; [done|]. by rewrite (proj2 (Z.leb_gt _ _)) by lia.
  - intros Hr Hn. pose proof (dbm_succ m0 y Hy) as Hs. pose proof (dbm_mono (m0 + 1) (m0 + Z.of_nat (S k)) y ltac:(lia) ltac:(lia)) as Hm. pose proof (month_days_bound m0 y ltac:(lia)). destruct n as [|n]; [lia|]. cbn [month_loop]. rewrite (proj2 (Z.leb_le (rtc_days_in_month_func m0 y) _)) by lia. rewrite u8_id by lia.
    replace (m0 + Z.of_nat (S k)) with (m0 + 1 + Z.of_nat k) in * by lia. replace (days_before_month (m0 + 1 + Z.of_nat k) y - days_before_month m0 y + r - rtc_days_in_month_func m0 y) with (days_before_month (m0 + 1 + Z.of_nat k) y - days_before_month (m0 + 1) y + r) by lia. apply IH; lia.
Qed.
Lemma dbm_bound m y : 1 <= m <= 13 -> 0 <= days_before_month m y <= 366.
Proof. intros Hm. pose proof (dbm_mono 1 m y ltac:(lia) ltac:(lia)). pose proof (dbm_mono m 13 y ltac:(lia) ltac:(lia)) as H13. rewrite dbm_year in H13. pose proof (year_days_bound y). change (days_before_month 1 y) with 0 in *. lia. Qed.
(** Nothing wraps for valid times. *)
Lemma time_to_unix_value t : valid_time t -> rtc_time_to_unix t = day_number t * 86400 + tm_hour t * 3600 + tm_minute t * 60 + tm_second t.
Proof.
  intros [[Hy Hm Hd] Hh Hmi Hs]. unfold rtc_time_to_unix. rewrite (proj2 (Z.ltb_ge _ _)) by lia. cbn zeta. pose proof (month_days_bound _ (tm_year t) Hm). pose proof (dby_bound (tm_year t) ltac:(lia)) as By. pose proof (dbm_bound (tm_month t) (tm_year t) ltac:(lia)) as Bm.
  assert (for_range 1970 (tm_year t) (fun year days => u64 (days + year_days year)) 0 = days_before_year (tm_year t)) as ->.
  { apply (for_range_ind (fun j d => d = days_before_year j)); [lia|done|]. intros j d Hj ->. rewrite dby_succ by lia. pose proof (dby_bound j ltac:(lia)). pose proof (year_days_bound j). by rewrite u64_id by lia. }
  assert (for_range 1 (tm_month t) (fun month days => u64 (days + rtc_days_in_month_func month (tm_year t))) (days_before_year (tm_year t)) = days_before_year (tm_year t) + days_before_month (tm_month t) (tm_year t)) as ->.
  { apply (for_range_ind (fun j d => d = days_before_year (tm_year t) + days_before_month j (tm_year t))); [lia|change (days_before_month 1 (tm_year t)) with 0; lia|]. intros j d Hj ->. rewrite dbm_succ by lia. pose proof (dbm_bound j (tm_year t) ltac:(lia)). pose proof (month_days_bound j (tm_year t) ltac:(lia)). rewrite u64_id by lia. lia. }
  unfold day_number. set (D := _ + _ + (tm_day t - 1)). assert (0 <= D < 2 ^ 26) as HD by (unfold D; lia). rewrite (u64_id D), (u64_id (D * 24)), (u64_id (D * 24 * 60)), (u64_id (D * 24 * 60 * 60)), (u64_id (D * 24 * 60 * 60 + tm_hour t * 60 * 60)) by lia. rewrite (u64_id (_ + tm_minute t * 60)) by lia. rewrite u64_id by lia. lia.
Qed.
Lemma unix_time_back t : valid_time t -> tm_weekday t = rtc_calculate_weekday (tm_year t) (tm_month t) (tm_day t) -> rtc_unix_to_time (rtc_time_to_unix t) = t.
Proof.
  intros V Hw. rewrite time_to_unix_value by done. destruct V as [[Hy Hm Hd] Hh Hmi Hs]. unfold rtc_unix_to_time. change (24 * 60 * 60) with 86400. set (sec := tm_hour t * 3600 + tm_minute t * 60 + tm_second t). assert (0 <= sec < 86400) as Hsec by (unfold sec; lia).
  replace (day_number t * 86400 + tm_hour t * 3600 + tm_minute t * 60 + tm_second t) with (day_number t * 86400 + sec) by (unfold sec; lia). rewrite Z.div_add_l, (Z.div_small sec), Z.add_0_r by lia. rewrite Z.add_comm, Z.mod_add, (Z.mod_small sec) by lia.
  pose proof (month_days_bound _ (tm_year t) Hm). set (r := days_before_month (tm_month t) (tm_year t) + (tm_day t - 1)). assert (0 <= r < year_days (tm_year t)) as Hr.
  { unfold r. pose proof (dbm_bound (tm_month t) (tm_year t) ltac:(lia)). pose proof (dbm_succ (tm_month t) (tm_year t) ltac:(lia)). pose proof (dbm_mono (tm_month t + 1) 13 (tm_year t) ltac:(lia) ltac:(lia)) as H13. rewrite dbm_year in H13. lia. }
  pose proof (year_loop_finds (Z.to_nat (tm_year t - 1970)) (Z.to_nat (day_number t)) 1970 r ltac:(lia) ltac:(lia)) as Yl. cbn zeta in Yl. replace (1970 + Z.of_nat (Z.to_nat (tm_year t - 1970))) with (tm_year t) in Yl by lia. change (days_before_year 1970) with 0 in Yl.
  replace (days_before_year (tm_year t) - 0 + r) with (day_number t) in Yl by (unfold day_number, r; lia). rewrite Yl by (done || lia).
  pose proof (month_loop_finds (Z.to_nat (tm_month t - 1)) (Z.to_nat r) 1 (tm_year t) (tm_day t - 1) ltac:(lia) ltac:(lia)) as Ml. cbn zeta in Ml. replace (1 + Z.of_nat (Z.to_nat (tm_month t - 1))) with (tm_month t) in Ml by lia. change (days_before_month 1 (tm_year t)) with 0 in Ml.
  replace (days_before_month (tm_month t) (tm_year t) - 0 + (tm_day t - 1)) with r in Ml by (unfold r; lia). rewrite Ml by lia. rewrite !u8_id by (unfold sec; dlia). replace (tm_day t - 1 + 1) with (tm_day t) by lia. rewrite <- Hw. destruct t as [y m d h mi s w]. cbn in *. f_equal; unfold sec; dlia.
Qed.
(** Unix time can be turned back: a valid time from 1970 on, with its day of the week, is
    the time that its number of seconds since 1970 is converted to. *)
Theorem rtc_unix_roundtrip t : valid_time t -> tm_weekday t = rtc_calculate_weekday (tm_year t) (tm_month t) (tm_day t) -> rtc_unix_to_time (rtc_time_to_unix t) = t.
Proof. apply unix_time_back. Qed.
(** The year and the month a day lies in. *)
Lemma find_year d : 0 <= d < days_before_year (2 ^ 16) -> exists y, 1970 <= y < 2 ^ 16 /\ days_before_year y <= d < days_before_year y + year_days y.
Proof.
  intros [H0' H1']. revert H1'. replace (2 ^ 16) with (1970 + Z.of_nat (Z.to_nat (2 ^ 16 - 1970))) at 1 by lia. assert (Z.of_nat (Z.to_nat (2 ^ 16 - 1970)) <= 2 ^ 16 - 1970) as Hn by lia. revert Hn. generalize (Z.to_nat (2 ^ 16 - 1970)) as n.
  induction n as [|n IH]; intros Hn Hd; [change (1970 + Z.of_nat 0) with 1970 in Hd; change (days_before_year 1970) with 0 in Hd; lia|]. destruct (Z.lt_ge_cases d (days_before_year (1970 + Z.of_nat n))) as [|Hge]; [apply IH; lia|].
  exists (1970 + Z.of_nat n). split; [lia|]. replace (1970 + Z.of_nat (S n)) with (1970 + Z.of_nat n + 1) in Hd by lia. rewrite dby_succ in Hd by lia. lia.
Qed.
Lemma find_month d y : 0 <= d < year_days y -> exists m, 1 <= m <= 12 /\ days_before_month m y <= d < days_before_month m y + rtc_days_in_month_func m y.
Proof.
  rewrite <- dbm_year. intros [H0' H1']. revert H1'. change 13 with (1 + Z.of_nat 12). assert (Z.of_nat 12 <= 12) as Hn by lia. revert Hn. generalize 12%nat as n.
  induction n as [|n IH]; intros Hn Hd; [change (1 + Z.of_nat 0) with 1 in Hd; change (days_before_month 1 y) with 0 in Hd; lia|]. destruct (Z.lt_ge_cases d (days_before_month (1 + Z.of_nat n) y)) as [|Hge]; [apply IH; lia|].
  exists (1 + Z.of_nat n). split; [lia|]. replace (1 + Z.of_nat (S n)) with (1 + Z.of_nat n + 1) in Hd by lia. rewrite dbm_succ in Hd by lia. lia.
Qed.
(** Every number of seconds since 1970, up to the end of the year 65535, is converted to a
    valid time that has exactly that number of seconds. *)
Theorem rtc_unix_exact ts : 0 <= ts < 86400 * days_before_year (2 ^ 16) -> valid_time (rtc_unix_to_time ts) /\ rtc_time_to_unix (rtc_unix_to_time ts) = ts.
Proof.
  intros Hts. assert (0 <= ts / 86400 < days_before_year (2 ^ 16)) as Hd by (generalize dependent (days_before_year (2 ^ 16)); intros; dlia). destruct (find_year _ Hd) as (y & Hy & Hdy). clear Hd. destruct (find_month (ts / 86400 - days_before_year y) y ltac:(lia)) as (m & Hm & Hdm).
  set (d := ts / 86400 - days_before_year y - days_before_month m y + 1). set (t := mk_time y m d (ts mod 86400 / 3600) (ts mod 3600 / 60) (ts mod 60) (rtc_calculate_weekday y m d)).
  assert (valid_time t) as V by (split; cbn; [split; cbn; unfold d; lia| | |]; clear -ts; dlia). assert (rtc_time_to_unix t = ts) as E by (rewrite time_to_unix_value by done; unfold day_number, t, d; cbn [tm_year tm_month tm_day tm_hour tm_minute tm_second]; clear; dlia).
  rewrite <- E at 1 2. rewrite unix_time_back by done. done.
Qed.

(** ** The registers *)

Lemma bcd_back v : 0 <= v < 100 -> bcd_to_binary (binary_to_bcd v) = v.
Proof.
  intros Hv. assert (forallb (fun v => bcd_to_binary (binary_to_bcd v) =? v) (seqZ 0 100) = true) as Ha by reflexivity. rewrite forallb_forall in Ha. apply Z.eqb_eq, Ha. apply list_elem_of_In, elem_of_seqZ. lia.
Qed.
Lemma decode_encode r v : 0 <= v < 100 -> decode r (encode r v) = v.
Proof. intros Hv. unfold decode, encode. destruct (rtc_is_binary_mode r); [done|by apply bcd_back]. Qed.
Lemma hour_back r h : 0 <= h < 24 -> decode_hour r (encode_hour r h) = h.
Proof.
  intros Hh. assert (forallb (fun h => decode_hour r (encode_hour r h) =? h) (seqZ 0 24) = true) as Ha by (destruct r as [[] [] i c b]; reflexivity). rewrite forallb_forall in Ha. apply Z.eqb_eq, Ha. apply list_elem_of_In, elem_of_seqZ. lia.
Qed.
(** In every mode of the clock, binary or BCD, with 24 or 12 hours, the time that was set is
    the time that is read back, for the years from 1900 to 2199. *)
Theorem rtc_set_then_get t r m : 1900 <= tm_year t < 2200 -> 1 <= tm_month t <= 12 -> 1 <= tm_day t <= 31 -> 0 <= tm_hour t < 24 -> 0 <= tm_minute t < 60 -> 0 <= tm_second t < 60 -> 1 <= tm_weekday t <= 7 ->
  rtc_century_register r = RTC_REG_CENTURY -> Z.land (m RTC_REG_STATUS_A) RTC_SRA_UIP = 0 ->
  let '(m', err) := rtc_set_time t r m in err = 0 /\ rtc_get_time [m'; m'] r = Some t.
Proof.
  intros Hy Hm Hd Hh Hmi Hs Hw Hc Ha. unfold rtc_set_time. rewrite (proj2 (Z.ltb_ge (tm_month t) 1)), (proj2 (Z.ltb_ge 12 _)), (proj2 (Z.ltb_ge (tm_day t) 1)), (proj2 (Z.ltb_ge 31 _)), (proj2 (Z.ltb_ge 23 _)), (proj2 (Z.ltb_ge 59 (tm_minute t))), (proj2 (Z.ltb_ge 59 (tm_second t))) by lia. cbn [orb]. cbn zeta.
  rewrite (proj2 (Z.ltb_ge (tm_weekday t) 1)), (proj2 (Z.ltb_ge 7 _)) by lia. cbn [orb]. rewrite Hc. change (RTC_REG_CENTURY =? 0) with false. cbv iota. split; [done|]. set (m' := rtc_write_register RTC_REG_STATUS_B _ _).
  assert (read_raw m' = mk_raw (encode r (tm_second t)) (encode r (tm_minute t)) (encode_hour r (tm_hour t)) (encode r (tm_day t)) (encode r (tm_month t)) (encode r (u8 (tm_year t mod 100)))) as Er by reflexivity.
  assert (m' RTC_REG_WEEKDAY = encode r (tm_weekday t) /\ m' RTC_REG_CENTURY = encode r (u8 (tm_year t / 100)) /\ m' RTC_REG_STATUS_A = m RTC_REG_STATUS_A) as (Ew & Ec & Es) by (split_and!; reflexivity).
  assert (forall seen, rtc_wait_for_update (m' :: seen) = Some (m', seen)) as Hwait by (intros seen; cbn [rtc_wait_for_update]; unfold rtc_read_register; by rewrite Es, Ha). clearbody m'.
  unfold rtc_get_time. cbn [length read_stable]. rewrite Hwait. cbn [mbind option_bind]. rewrite Hwait. cbn [mbind option_bind]. rewrite bool_decide_true by done. cbn [mbind option_bind]. unfold rtc_read_register. rewrite Hc, Ew. change (RTC_REG_CENTURY =? 0) with false. cbv iota. rewrite Ec, Er. cbn [r_year r_month r_day r_hour r_minute r_second negb].
  rewrite (u8_id (tm_year t / 100)), (u8_id (tm_year t mod 100)) by dlia. rewrite !decode_encode, hour_back by (lia || dlia).
  rewrite (proj2 (Z.leb_le 19 _)), (proj2 (Z.leb_le _ 21)) by dlia. cbn [andb]. rewrite (proj2 (Z.ltb_ge (tm_weekday t) 1)), (proj2 (Z.ltb_ge 7 _)) by lia. cbn [orb]. f_equal. destruct t as [y mo d h mi s w]. cbn. f_equal. pose proof (Z.div_mod y 100 ltac:(lia)). lia.
Qed.

(** ** Text *)

Lemma str_copy_room out max src : Z.of_nat (length out) <= max - 1 -> Z.of_nat (length (str_copy out max src)) <= max - 1.
Proof. intros Ho. unfold str_copy. rewrite length_app, length_take. lia. Qed.
Lemma format_item_room t out max c : Z.of_nat (length out) < max - 1 -> Z.of_nat (length (format_item t out max c)) <= max - 1.
Proof.
  intros Ho. unfold format_item, format_number. cbn zeta. repeat (destruct (c =? _); [apply str_copy_room; lia|]). destruct (c =? 37); [rewrite length_app; cbn; lia|]. apply str_copy_room. rewrite length_app. cbn. lia.
Qed.
(** A time of any content, in any format, fits its buffer: the text and the zero behind it take at
    most the size that was given. *)
Theorem rtc_format_fits t max fmt out : 0 < max -> rtc_format_time_custom t max fmt = Some out -> Z.of_nat (length out) + 1 <= max.
Proof.
  intros Hm. unfold rtc_format_time_custom. case_match; [done|]. intros [= <-]. enough (forall n fmt out, (length fmt <= n)%nat -> Z.of_nat (length out) <= max - 1 -> Z.of_nat (length (format_loop t max fmt out)) <= max - 1) as He by (specialize (He (length fmt) fmt [] ltac:(lia) ltac:(cbn; lia)); lia).
  induction n as [|n IH]; intros [|c r] out0 Hn Ho; cbn [length] in Hn; try lia; cbn [format_loop]; (destruct (Z.leb_spec (max - 1) (Z.of_nat (length out0))); [done|]); [done|done|].
  assert (Z.of_nat (length (format_loop t max r (out0 ++ [c]))) <= max - 1) as Hp by (apply IH; [lia|rewrite length_app; cbn; lia]). destruct (c =? 37); [|done]. destruct r as [|d r]; [done|]. cbn [length] in Hn. apply IH; [lia|]. by apply format_item_room.
Qed.

(** ** Examples *)

Definition leap_day : rtc_time := mk_time 2024 2 29 23 59 58 5.
Lemma leap_day_valid : valid_time leap_day.
Proof. split; [split|..]; cbn; try lia. vm_compute. split; discriminate. Qed.
Lemma rtc_weekday_counts_days_witness : rtc_calculate_weekday 2024 2 29 = (day_number leap_day + 4) mod 7 + 1 /\ rtc_calculate_weekday 2024 2 29 = 5.
Proof. exact (conj (rtc_weekday_counts_days leap_day (vt_date _ leap_day_valid)) eq_refl). Defined.
Lemma rtc_unix_roundtrip_witness : rtc_unix_to_time (rtc_time_to_unix leap_day) = leap_day.
Proof. exact (rtc_unix_roundtrip leap_day leap_day_valid eq_refl). Defined.
Lemma rtc_unix_exact_witness : rtc_time_to_unix (rtc_unix_to_time 1000000000) = 1000000000.
Proof.
  refine (proj2 (rtc_unix_exact 1000000000 _)). rewrite days_before_year_closed by lia. split; [discriminate|reflexivity].
Defined.
Lemma rtc_set_then_get_witness : let '(m', err) := rtc_set_time leap_day (mk_rtc false false true RTC_REG_CENTURY false) (fun _ => 0) in err = 0 /\ rtc_get_time [m'; m'] (mk_rtc false false true RTC_REG_CENTURY false) = Some leap_day.
Proof. exact (rtc_set_then_get leap_day (mk_rtc false false true RTC_REG_CENTURY false) (fun _ => 0) ltac:(cbn; lia) ltac:(cbn; lia) ltac:(cbn; lia) ltac:(cbn; lia) ltac:(cbn; lia) ltac:(cbn; lia) ltac:(cbn; lia) eq_refl eq_refl). Defined.
Lemma rtc_format_fits_witness : Z.of_nat (length (str "2024-02-29 23"%string)) + 1 <= 14.
Proof. exact (rtc_format_fits leap_day 14 (str "%Y-%m-%d %H:%M:%S"%string) (str "2024-02-29 23"%string) eq_refl eq_refl). Defined.
(** A day that a month does not have is set without complaint. *)
Lemma rtc_sets_february_31 r m : snd (rtc_set_time (mk_time 2023 2 31 0 0 0 1) r m) = 0.
Proof. done. Qed.
