(* ===== verification/Keyboard.v ===== *)
(** * The keyboard (drivers/input/keyboard.c)

    Scan codes become events with modifiers and characters, which wait in a ring. What the
    keyboard controller answers is an argument, and the bytes the driver sends to it are a
    list. *)
From Stdlib Require Import String.
From S2P Require Import Prelude Memory PageAlloc Heap Ring Chain VfsBase Auth Vga Editor EditorProps Terminal.

Definition KEY_LCTRL : Z := 132.
Definition KEY_RCTRL : Z := 133.
Definition KEY_LSHIFT : Z := 134.
Definition KEY_RSHIFT : Z := 135.
Definition KEY_LALT : Z := 136.
Definition KEY_RALT : Z := 137.
Definition KEY_CAPSLOCK : Z := 138.
Definition KEY_NUMLOCK : Z := 139.
Definition KEY_SCROLLLOCK : Z := 140.
Definition KEY_INSERT : Z := 155.
Definition KEY_PAUSE : Z := 164.
Definition KEY_MAX : Z := 181.
Definition MOD_LSHIFT : Z := 0x01.
Definition MOD_RSHIFT : Z := 0x02.
Definition MOD_LCTRL : Z := 0x04.
Definition MOD_RCTRL : Z := 0x08.
Definition MOD_LALT : Z := 0x10.
Definition MOD_RALT : Z := 0x20.
Definition MOD_CAPSLOCK : Z := 0x40.
Definition MOD_NUMLOCK : Z := 0x80.
Definition MOD_SCROLLLOCK : Z := 0x100.
Definition LED_SCROLLLOCK : Z := 0x01.
Definition LED_NUMLOCK : Z := 0x02.
Definition LED_CAPSLOCK : Z := 0x04.
Definition SCANCODE_RELEASE : Z := 0x80.
Definition SCANCODE_EXTENDED : Z := 0xE0.
Definition SCANCODE_EXTENDED2 : Z := 0xE1.
Definition KEYBOARD_BUFFER_SIZE : Z := 256.
Definition PS2_CONFIG_INT1 : Z := 0x01.
Definition PS2_CONFIG_INT2 : Z := 0x02.
Definition PS2_CONFIG_TRANSLATE : Z := 0x40.
Definition KB_CMD_SET_LEDS : Z := 0xED.
Definition KB_CMD_ENABLE : Z := 0xF4.
Definition KB_CMD_RESET : Z := 0xFF.
Definition KB_ACK : Z := 0xFA.
Definition KB_RESEND : Z := 0xFE.

Definition scancode_ascii_normal : list Z :=
  [0; 0; 49; 50; 51; 52; 53; 54; 55; 56; 57; 48; 45; 61; 8; 9;
   113; 119; 101; 114; 116; 121; 117; 105; 111; 112; 91; 93; 10; 0; 97; 115;
   100; 102; 103; 104; 106; 107; 108; 59; 39; 96; 0; 92; 122; 120; 99; 118;
   98; 110; 109; 44; 46; 47; 0; 42; 0; 32; 0; 0; 0; 0; 0; 0;
   0; 0; 0; 0; 0; 0; 0; 55; 56; 57; 45; 52; 53; 54; 43; 49;
   50; 51; 48; 46; 0; 0; 0; 0; 0; 0; 0; 0; 0; 0; 0; 0;
   0; 0; 0; 0; 0; 0; 0; 0; 0; 0; 0; 0; 0; 0; 0; 0;
   0; 0; 0; 0; 0; 0; 0; 0; 0; 0; 0; 0; 0; 0; 0; 0].
Definition scancode_ascii_shift : list Z :=
  [0; 0; 33; 64; 35; 36; 37; 94; 38; 42; 40; 41; 95; 43; 8; 9;
   81; 87; 69; 82; 84; 89; 85; 73; 79; 80; 123; 125; 10; 0; 65; 83;
   68; 70; 71; 72; 74; 75; 76; 58; 34; 126; 0; 124; 90; 88; 67; 86;
   66; 78; 77; 60; 62; 63; 0; 42; 0; 32; 0; 0; 0; 0; 0; 0;
   0; 0; 0; 0; 0; 0; 0; 55; 56; 57; 45; 52; 53; 54; 43; 49;
   50; 51; 48; 46; 0; 0; 0; 0; 0; 0; 0; 0; 0; 0; 0; 0;
   0; 0; 0; 0; 0; 0; 0; 0; 0; 0; 0; 0; 0; 0; 0; 0;
   0; 0; 0; 0; 0; 0; 0; 0; 0; 0; 0; 0; 0; 0; 0; 0].
Definition scancode_to_keycode : list Z :=
  [0; 128; 49; 50; 51; 52; 53; 54; 55; 56; 57; 48; 45; 61; 129; 130;
   81; 87; 69; 82; 84; 89; 85; 73; 79; 80; 91; 93; 131; 132; 65; 83;
   68; 70; 71; 72; 74; 75; 76; 59; 39; 96; 134; 92; 90; 88; 67; 86;
   66; 78; 77; 44; 46; 47; 135; 178; 136; 32; 138; 141; 142; 143; 144; 145;
   146; 147; 148; 149; 150; 139; 140; 172; 173; 174; 177; 169; 170; 171; 176; 166;
   167; 168; 165; 175; 0; 0; 0; 151; 152; 0; 0; 0; 0; 0; 0; 0;
   0; 0; 0; 0; 0; 0; 0; 0; 0; 0; 0; 0; 0; 0; 0; 0;
   0; 0; 0; 0; 0; 0; 0; 0; 0; 0; 0; 0; 0; 0; 0; 0].
Definition extended_scancode_to_keycode : list Z :=
  [0; 0; 0; 0; 0; 0; 0; 0; 0; 0; 0; 0; 0; 0; 0; 0;
   0; 0; 0; 0; 0; 0; 0; 0; 0; 0; 0; 0; 180; 133; 0; 0;
   0; 0; 0; 0; 0; 0; 0; 0; 0; 0; 0; 0; 0; 0; 0; 0;
   0; 0; 0; 0; 0; 179; 0; 163; 137; 0; 0; 0; 0; 0; 0; 0;
   0; 0; 0; 0; 0; 0; 0; 153; 159; 157; 0; 161; 0; 162; 0; 154;
   160; 158; 155; 156; 0; 0; 0; 0; 0; 0; 0; 0; 0; 0; 0; 0;
   0; 0; 0; 0; 0; 0; 0; 0; 0; 0; 0; 0; 0; 0; 0; 0;
   0; 0; 0; 0; 0; 0; 0; 0; 0; 0; 0; 0; 0; 0; 0; 0].

Record kb_event := mk_kb_event { ev_keycode : Z; ev_scancode : Z; ev_modifiers : Z; ev_pressed : bool; ev_extended : bool; ev_ascii : Z }.
Record keyboard := mk_keyboard {
  event_buffer : Z -> kb_event;
  buffer_head : Z;
  buffer_tail : Z;
  current_modifiers : Z;
  key_pressed_state : Z -> bool;
  expecting_extended : bool;
  expecting_extended2 : bool;
  led_state : Z;
  keyboard_initialized : bool;
  (** The bytes that were sent to the data port, the last one first, and the answers that are
      still to come: [None] when the controller does not answer in time. *)
  sent : list Z;
  answers : list (option Z);
}.
Implicit Types k : keyboard.

(** ** Setters *)

Definition set_kb_ring (v0 : Z -> kb_event) (v1 : Z) (v2 : Z) k : keyboard :=
  mk_keyboard v0 v1 v2 (current_modifiers k) (key_pressed_state k) (expecting_extended k) (expecting_extended2 k) (led_state k) (keyboard_initialized
    k) (sent k) (answers k).
Definition set_mods (v0 : Z) k : keyboard :=
  mk_keyboard (event_buffer k) (buffer_head k) (buffer_tail k) v0 (key_pressed_state k) (expecting_extended k) (expecting_extended2 k) (led_state k)
    (keyboard_initialized k) (sent k) (answers k).
Definition set_pressed (v0 : Z -> bool) k : keyboard :=
  mk_keyboard (event_buffer k) (buffer_head k) (buffer_tail k) (current_modifiers k) v0 (expecting_extended k) (expecting_extended2 k) (led_state k)
    (keyboard_initialized k) (sent k) (answers k).
Definition set_expect (v0 : bool) (v1 : bool) k : keyboard :=
  mk_keyboard (event_buffer k) (buffer_head k) (buffer_tail k) (current_modifiers k) (key_pressed_state k) v0 v1 (led_state k) (keyboard_initialized
    k) (sent k) (answers k).
Definition set_led (v0 : Z) k : keyboard :=
  mk_keyboard (event_buffer k) (buffer_head k) (buffer_tail k) (current_modifiers k) (key_pressed_state k) (expecting_extended k) (expecting_extended2
    k) v0 (keyboard_initialized k) (sent k) (answers k).
Definition set_kb_ready (v0 : bool) k : keyboard :=
  mk_keyboard (event_buffer k) (buffer_head k) (buffer_tail k) (current_modifiers k) (key_pressed_state k) (expecting_extended k) (expecting_extended2
    k) (led_state k) v0 (sent k) (answers k).
Definition set_port (v0 : list Z) (v1 : list (option Z)) k : keyboard :=
  mk_keyboard (event_buffer k) (buffer_head k) (buffer_tail k) (current_modifiers k) (key_pressed_state k) (expecting_extended k) (expecting_extended2
    k) (led_state k) (keyboard_initialized k) v0 v1.

(** ** The controller *)

Definition ps2_send_data (data : Z) k : keyboard := set_port (data :: sent k) (answers k) k.
Definition next_answer k : option Z * keyboard :=
  match answers k with [] => (None, k) | a :: r => (a, set_port (sent k) r k) end.
(** The command is sent up to three times, until it is acknowledged. *)
Fixpoint send_rounds (retries : nat) (cmd : Z) k : keyboard * bool :=
  match retries with
  | O => (k, false)
  | S retries => let '(a, k) := next_answer (ps2_send_data cmd k) in if bool_decide (a = Some KB_ACK) then (k, true) else send_rounds retries cmd k
  end.
Definition keyboard_send_cmd (cmd : Z) k : keyboard * bool := send_rounds 3 cmd k.
Definition has_mod k (m : Z) : bool := negb (Z.land (current_modifiers k) m =? 0).
Definition update_leds k : keyboard :=
  let leds := (if has_mod k MOD_SCROLLLOCK then LED_SCROLLLOCK else 0) in
  let leds := if has_mod k MOD_NUMLOCK then Z.lor leds LED_NUMLOCK else leds in
  let leds := if has_mod k MOD_CAPSLOCK then Z.lor leds LED_CAPSLOCK else leds in
  if leds =? led_state k then k else ps2_send_data leds (fst (keyboard_send_cmd KB_CMD_SET_LEDS (set_led leds k))).

(** ** Events *)

Definition ring_next (i : Z) : Z := Z.land (i + 1) (KEYBOARD_BUFFER_SIZE - 1).
Definition buffer_add_event (e : kb_event) k : keyboard :=
  if ring_next (buffer_head k) =? buffer_tail k then k else set_kb_ring (upd (event_buffer k) (buffer_head k) e) (ring_next (buffer_head k)) (buffer_tail k) k.
Definition buffer_get_event k : keyboard * option kb_event :=
  if buffer_head k =? buffer_tail k then (k, None)
  else (set_kb_ring (event_buffer k) (buffer_head k) (ring_next (buffer_tail k)) k, Some (event_buffer k (buffer_tail k))).
Definition is_lower (c : Z) : bool := (97 <=? c) && (c <=? 122).
Definition is_upper (c : Z) : bool := (65 <=? c) && (c <=? 90).
Definition scancode_to_ascii (scancode modifiers : Z) : Z :=
  if 128 <=? scancode then 0
  else
    let shift := negb (Z.land modifiers MOD_SHIFT =? 0) in
    let capslock := negb (Z.land modifiers MOD_CAPSLOCK =? 0) in
    let c := default 0 ((if shift then scancode_ascii_shift else scancode_ascii_normal) !! Z.to_nat scancode) in
    if capslock && is_lower c then c - 97 + 65 else if capslock && is_upper c then c - 65 + 97 else c.

Definition hold (m : Z) (release : bool) (k : keyboard) : keyboard :=
  set_mods (if release then Z.land (current_modifiers k) (Z.lnot m) else Z.lor (current_modifiers k) m) k.
Definition toggle (m : Z) (release : bool) (k : keyboard) : keyboard := if release then k else update_leds (set_mods (Z.lxor (current_modifiers k) m) k).
Definition update_modifiers (keycode : Z) (release : bool) k : keyboard :=
  if keycode =? KEY_LSHIFT then hold MOD_LSHIFT release k
  else if keycode =? KEY_RSHIFT then hold MOD_RSHIFT release k
  else if keycode =? KEY_LCTRL then hold MOD_LCTRL release k
  else if keycode =? KEY_RCTRL then hold MOD_RCTRL release k
  else if keycode =? KEY_LALT then hold MOD_LALT release k
  else if keycode =? KEY_RALT then hold MOD_RALT release k
  else if keycode =? KEY_CAPSLOCK then toggle MOD_CAPSLOCK release k
  else if keycode =? KEY_NUMLOCK then toggle MOD_NUMLOCK release k
  else if keycode =? KEY_SCROLLLOCK then toggle MOD_SCROLLLOCK release k
  else k.
(** The key of a scan code, after the prefixes. *)
Definition find_keycode (key_scancode : Z) k : Z * keyboard :=
  if expecting_extended k then (default 0 (extended_scancode_to_keycode !! Z.to_nat key_scancode), set_expect false (expecting_extended2 k) k)
  else if expecting_extended2 k then (KEY_PAUSE, set_expect (expecting_extended k) false k)
  else (default 0 (scancode_to_keycode !! Z.to_nat key_scancode), k).
(** The event of a scan code; a prefix has none. *)
Definition decode_scancode (scancode : Z) k : keyboard * option kb_event :=
  let is_release := negb (Z.land scancode SCANCODE_RELEASE =? 0) in
  let key_scancode := Z.land scancode 0x7F in
  if scancode =? SCANCODE_EXTENDED then (set_expect true (expecting_extended2 k) k, None)
  else if scancode =? SCANCODE_EXTENDED2 then (set_expect (expecting_extended k) true k, None)
  else
    let '(keycode, k) := find_keycode key_scancode k in
    let k := update_modifiers keycode is_release k in
    let k := if keycode <? KEY_MAX then set_pressed (upd (key_pressed_state k) keycode (negb is_release)) k else k in
    let extended := scancode =? SCANCODE_EXTENDED in
    let ascii := if negb extended && negb is_release then scancode_to_ascii key_scancode (current_modifiers k) else 0 in
    (k, Some (mk_kb_event keycode scancode (current_modifiers k) (negb is_release) extended ascii)).
Definition process_scancode (scancode : Z) k : keyboard :=
  match decode_scancode scancode k with (k, Some e) => buffer_add_event e k | (k, None) => k end.
(** The interrupt: one byte from the data port. *)
Definition keyboard_handler (scancode : Z) k : keyboard := process_scancode scancode k.

(** ** The calls *)

(** [config] and [config'] are the configuration as it is read at the start and after the
    tests, [self_test] and [port_test] what the two tests of the controller give; the commands
    to the keyboard take their answers from the list. *)
Definition keyboard_init (config config' self_test port_test : Z) k : keyboard * bool :=
  let config := Z.land config (Z.lnot (Z.lor (Z.lor PS2_CONFIG_INT1 PS2_CONFIG_INT2) PS2_CONFIG_TRANSLATE)) in
  let k := ps2_send_data config k in
  if negb (self_test =? 0x55) then (k, false)
  else
    let k := ps2_send_data config k in
    if negb (port_test =? 0) then (k, false)
    else
      let k := ps2_send_data (Z.lor config' PS2_CONFIG_INT1) k in
      let '(k, acked) := keyboard_send_cmd KB_CMD_RESET k in
      let k := if acked then snd (next_answer k) else k in
      let '(k, _) := keyboard_send_cmd KB_CMD_ENABLE k in
      let k := set_pressed (fun _ => false) (set_expect false false (set_mods MOD_NUMLOCK (set_kb_ring (event_buffer k) 0 0 k))) in
      (set_kb_ready true (update_leds k), true).
(** The byte that waits in the controller, if one does. *)
Definition keyboard_get_scancode (output : option Z) : Z := default 0 output.
Definition keyboard_has_input k : bool := negb (buffer_head k =? buffer_tail k).
Definition keyboard_poll_event k : keyboard * option kb_event := buffer_get_event k.
(** [keyboard_get_event]: as [keyboard_poll_event], once there is an event. *)
Definition keyboard_get_event k : option (keyboard * kb_event) :=
  match buffer_get_event k with (k, Some e) => Some (k, e) | _ => None end.
(** The first pressed key with a character; [None] when the events run out before. *)
Fixpoint getchar_rounds (n : nat) k : keyboard * option Z :=
  match n with
  | O => (k, None)
  | S n =>
      match buffer_get_event k with
      | (k, None) => (k, None)
      | (k, Some e) => if ev_pressed e && negb (ev_ascii e =? 0) then (k, Some (ev_ascii e)) else getchar_rounds n k
      end
  end.
Definition keyboard_getchar k : keyboard * option Z := getchar_rounds (Z.to_nat KEYBOARD_BUFFER_SIZE) k.
Definition keyboard_get_modifiers k : Z := current_modifiers k.
Definition keyboard_is_key_pressed (keycode : Z) k : bool := if KEY_MAX <=? keycode then false else key_pressed_state k keycode.
Definition led_mod (leds led m : Z) (mods : Z) : Z := if negb (Z.land leds led =? 0) then Z.lor mods m else Z.land mods (Z.lnot m).
Definition keyboard_set_leds (leds : Z) k : keyboard :=
  update_leds (set_mods (led_mod leds LED_CAPSLOCK MOD_CAPSLOCK (led_mod leds LED_NUMLOCK MOD_NUMLOCK (led_mod leds LED_SCROLLLOCK MOD_SCROLLLOCK (current_modifiers k)))) k).
Definition keyboard_flush k : keyboard := set_kb_ring (event_buffer k) 0 0 k.
(** The names of the keys, by key code. *)
Definition key_names : list (Z * list Z) :=
  [
   (0, str "NONE"); (128, str "ESCAPE"); (129, str "BACKSPACE"); (130, str "TAB"); (131, str "ENTER"); (132, str "LCTRL"); (133, str "RCTRL"); (134, str "LSHIFT");
   (135, str "RSHIFT"); (136, str "LALT"); (137, str "RALT"); (138, str "CAPSLOCK"); (139, str "NUMLOCK"); (140, str "SCROLLLOCK"); (141, str "F1"); (142, str "F2");
   (143, str "F3"); (144, str "F4"); (145, str "F5"); (146, str "F6"); (147, str "F7"); (148, str "F8"); (149, str "F9"); (150, str "F10");
   (151, str "F11"); (152, str "F12"); (153, str "HOME"); (154, str "END"); (155, str "INSERT"); (156, str "DELETE"); (157, str "PAGEUP"); (158, str "PAGEDOWN");
   (159, str "UP"); (160, str "DOWN"); (161, str "LEFT"); (162, str "RIGHT"); (32, str "SPACE"); (163, str "PRINTSCREEN"); (164, str "PAUSE")]%string.
Definition keyboard_keycode_name (keycode : Z) : list Z :=
  if (65 <=? keycode) && (keycode <=? 90) then [65 + (keycode - 65)]
  else if (48 <=? keycode) && (keycode <=? 57) then [48 + (keycode - 48)]
  else match find (fun '(c, _) => c =? keycode) key_names with Some (_, n) => n | None => str "UNKNOWN"%string end.

(** ** The ring is a queue *)

Definition kb_ring_ok k : Prop := (0 <= buffer_head k < KEYBOARD_BUFFER_SIZE) /\ (0 <= buffer_tail k < KEYBOARD_BUFFER_SIZE).
Definition kb_waiting k : Z := (buffer_head k - buffer_tail k) mod KEYBOARD_BUFFER_SIZE.
(** The events that wait, the oldest first. *)
Definition pending k : list kb_event := map (fun i => event_buffer k ((buffer_tail k + i) mod KEYBOARD_BUFFER_SIZE)) (seqZ 0 (kb_waiting k)).
Lemma ring_next_mod i : 0 <= i < 256 -> ring_next i = (i + 1) mod 256.
Proof. intros Hi. unfold ring_next. change (KEYBOARD_BUFFER_SIZE - 1) with (Z.ones 8). by rewrite Z.land_ones by lia. Qed.
Lemma add_event_pending e k : kb_ring_ok k -> kb_ring_ok (buffer_add_event e k) /\ pending (buffer_add_event e k) = if kb_waiting k <? KEYBOARD_BUFFER_SIZE - 1 then pending k ++ [e] else pending k.
Proof.
  intros [Hh Ht]. unfold KEYBOARD_BUFFER_SIZE in *. unfold buffer_add_event. rewrite ring_next_mod by done. assert (kb_waiting k = (buffer_head k - buffer_tail k) mod 256) as Hw by done. destruct (Z.eqb_spec ((buffer_head k + 1) mod 256) (buffer_tail k)) as [E|E].
  - split; [done|]. rewrite (proj2 (Z.ltb_ge _ _)); [done|]. rewrite Hw. dlia.
  - rewrite (proj2 (Z.ltb_lt _ _)) by (rewrite Hw; dlia). split; [split; cbn; unfold KEYBOARD_BUFFER_SIZE; [apply Z.mod_pos_bound|]; lia|]. unfold pending, kb_waiting, KEYBOARD_BUFFER_SIZE. cbn [buffer_head buffer_tail event_buffer set_kb_ring].
    replace (((buffer_head k + 1) mod 256 - buffer_tail k) mod 256) with ((buffer_head k - buffer_tail k) mod 256 + 1) by dlia. rewrite seqZ_app by (pose proof (Z.mod_pos_bound (buffer_head k - buffer_tail k) 256); lia). rewrite map_app. f_equal.
    + apply map_ext_in. intros i Hi. apply list_elem_of_In, elem_of_seqZ in Hi. rewrite upd_other; [done|]. dlia.
    + change (seqZ (0 + (buffer_head k - buffer_tail k) mod 256) 1) with [0 + (buffer_head k - buffer_tail k) mod 256]. cbn [map]. replace ((buffer_tail k + (0 + (buffer_head k - buffer_tail k) mod 256)) mod 256) with (buffer_head k) by dlia. by rewrite upd_same.
Qed.
Lemma get_event_pending k : kb_ring_ok k -> let '(k', e) := buffer_get_event k in kb_ring_ok k' /\ match e with Some e => pending k = e :: pending k' | None => k' = k /\ pending k = [] end.
Proof.
  intros [Hh Ht]. unfold KEYBOARD_BUFFER_SIZE in *. unfold buffer_get_event. destruct (Z.eqb_spec (buffer_head k) (buffer_tail k)) as [E|E].
  - split; [done|]. split; [done|]. unfold pending, kb_waiting. by rewrite E, Z.sub_diag.
  - rewrite ring_next_mod by done. split; [split; cbn; unfold KEYBOARD_BUFFER_SIZE; [lia|apply Z.mod_pos_bound; lia]|]. unfold pending, kb_waiting, KEYBOARD_BUFFER_SIZE. cbn [buffer_head buffer_tail event_buffer set_kb_ring].
    replace ((buffer_head k - buffer_tail k) mod 256) with (1 + (buffer_head k - (buffer_tail k + 1) mod 256) mod 256) by dlia. rewrite seqZ_app by (try apply Z.mod_pos_bound; lia). rewrite map_app. change (seqZ 0 1) with [0]. cbn [map app]. f_equal; [by rewrite Z.add_0_r, Z.mod_small by lia|].
    replace (seqZ (0 + 1) ((buffer_head k - (buffer_tail k + 1) mod 256) mod 256)) with (map (Z.add 1) (seqZ 0 ((buffer_head k - (buffer_tail k + 1) mod 256) mod 256))) by (by rewrite (fmap_add_seqZ 1 0)). rewrite map_map. apply map_ext. intros i. f_equal. rewrite Zplus_mod_idemp_l. f_equal. lia.
Qed.
(** Decoding does not look at the ring, and leaves it alone. *)
Lemma ring_same k : set_kb_ring (event_buffer k) (buffer_head k) (buffer_tail k) k = k.
Proof. by destruct k. Qed.
Lemma send_ring f h t n cmd k : send_rounds n cmd (set_kb_ring f h t k) = let '(k', b) := send_rounds n cmd k in (set_kb_ring f h t k', b).
Proof.
  revert k. induction n as [|n IH]; intros k; cbn [send_rounds]; [done|]. unfold next_answer. cbn [answers ps2_send_data set_port set_kb_ring]. destruct (answers k) as [|a r].
  - destruct (bool_decide _); [done|]. apply (IH (ps2_send_data cmd k)).
  - destruct (bool_decide _); [done|]. apply (IH (set_port (cmd :: sent k) r (ps2_send_data cmd k))).
Qed.
Lemma leds_ring f h t k : update_leds (set_kb_ring f h t k) = set_kb_ring f h t (update_leds k).
Proof.
  unfold update_leds. cbn zeta. change (has_mod (set_kb_ring f h t k)) with (has_mod k). change (led_state (set_kb_ring f h t k)) with (led_state k). case_match; [done|]. unfold keyboard_send_cmd. match goal with |- context [set_led ?l (set_kb_ring f h t k)] => change (set_led l (set_kb_ring f h t k)) with (set_kb_ring f h t (set_led l k)) end. rewrite send_ring. by destruct (send_rounds _ _ _).
Qed.
Lemma modifiers_ring f h t c r k : update_modifiers c r (set_kb_ring f h t k) = set_kb_ring f h t (update_modifiers c r k).
Proof. unfold update_modifiers. do 6 (destruct (c =? _); [done|]). unfold toggle. do 3 (destruct (c =? _); [destruct r; [done|]; apply (leds_ring f h t (set_mods (Z.lxor (current_modifiers k) _) k))|]). done. Qed.
Lemma decode_ring f h t sc k : decode_scancode sc (set_kb_ring f h t k) = let '(k', e) := decode_scancode sc k in (set_kb_ring f h t k', e).
Proof.
  unfold decode_scancode. cbn zeta. destruct (sc =? SCANCODE_EXTENDED); [done|]. destruct (sc =? SCANCODE_EXTENDED2); [done|]. set (rel := negb (_ =? 0)).
  assert (find_keycode (Z.land sc 0x7F) (set_kb_ring f h t k) = let '(c, k') := find_keycode (Z.land sc 0x7F) k in (c, set_kb_ring f h t k')) as -> by (unfold find_keycode; cbn; by repeat case_match).
  destruct (find_keycode _ k) as [c k1]. rewrite modifiers_ring. by destruct (c <? KEY_MAX).
Qed.
(** A keyboard whose ring is set aside. *)
Definition no_ring k : keyboard := set_kb_ring (fun _ => mk_kb_event 0 0 0 false false 0) 0 0 k.
Lemma decode_no_ring sc k : decode_scancode sc (no_ring k) = let '(k', e) := decode_scancode sc k in (no_ring k', e).
Proof. apply decode_ring. Qed.
Lemma decode_keeps_ring sc k : let '(k', _) := decode_scancode sc k in event_buffer k' = event_buffer k /\ buffer_head k' = buffer_head k /\ buffer_tail k' = buffer_tail k.
Proof. pose proof (decode_ring (event_buffer k) (buffer_head k) (buffer_tail k) sc k) as E. rewrite ring_same in E. destruct (decode_scancode sc k) as [k' e]. injection E as ->. done. Qed.

(** Scan codes arrive and events are taken, in any order. *)
Inductive kb_step := Scan (sc : Z) | Take.
Fixpoint run_steps (steps : list kb_step) k : keyboard * list kb_event :=
  match steps with
  | [] => (k, [])
  | Scan sc :: steps => run_steps steps (keyboard_handler sc k)
  | Take :: steps => let '(k, e) := keyboard_poll_event k in let '(k, outs) := run_steps steps k in (k, option_list e ++ outs)
  end.
(** The same against a list of at most 255 events. *)
Definition push (e : kb_event) (q : list kb_event) : list kb_event := if Z.of_nat (length q) <? KEYBOARD_BUFFER_SIZE - 1 then q ++ [e] else q.
Fixpoint queue_steps (steps : list kb_step) (k : keyboard) (q : list kb_event) : list kb_event * list kb_event :=
  match steps with
  | [] => (q, [])
  | Scan sc :: steps => let '(k, e) := decode_scancode sc k in queue_steps steps k (from_option (fun e => push e q) q e)
  | Take :: steps => let '(q', outs) := queue_steps steps k (tail q) in (q', option_list (head q) ++ outs)
  end.
Lemma pending_length k : Z.of_nat (length (pending k)) = kb_waiting k.
Proof. unfold pending. rewrite length_map, length_seqZ, Z2Nat.id; [done|]. apply Z.mod_pos_bound. done. Qed.
Lemma scancode_pending sc k : kb_ring_ok k -> let '(k', e) := decode_scancode sc k in kb_ring_ok (process_scancode sc k) /\ pending (process_scancode sc k) = from_option (fun e => push e (pending k)) (pending k) e /\ no_ring (process_scancode sc k) = no_ring k'.
Proof.
  intros Hr. unfold process_scancode. pose proof (decode_keeps_ring sc k) as Hk. destruct (decode_scancode sc k) as [k1 e]. destruct Hk as (E1 & E2 & E3). assert (kb_ring_ok k1) as R1 by (unfold kb_ring_ok; by rewrite E2, E3). assert (pending k1 = pending k) as P1 by (unfold pending, kb_waiting; by rewrite E1, E2, E3). destruct e as [e|]; [|done].
  destruct (add_event_pending e k1 R1) as [R2 P2]. split; [done|]. split; [cbn [from_option]; rewrite P2; unfold push; by rewrite <- P1, pending_length|]. unfold buffer_add_event. by destruct (_ =? _).
Qed.
Lemma queue_no_ring steps k q : queue_steps steps (no_ring k) q = queue_steps steps k q.
Proof.
  revert k q. induction steps as [|[sc|] steps IH]; intros k q; cbn [queue_steps]; [done|..].
  - rewrite decode_no_ring. destruct (decode_scancode sc k). apply IH.
  - by rewrite IH.
Qed.
(** C33: Readers see the keyboard as a queue of at most 255 events: whatever the interleaving of
    interrupts and readers, the events that are taken and the ones that still wait are those of
    a list to which every decoded event is appended, unless 255 events wait, and from whose
    front the readers take. *)
Theorem keyboard_is_queue steps k : kb_ring_ok k -> let '(k', outs) := run_steps steps k in kb_ring_ok k' /\ queue_steps steps k (pending k) = (pending k', outs).
Proof.
  revert k. induction steps as [|[sc|] steps IH]; intros k Hr; cbn [run_steps queue_steps]; [done|..].
  - pose proof (scancode_pending sc k Hr) as Hs. destruct (decode_scancode sc k) as [k1 e]. destruct Hs as (R1 & P1 & N1). specialize (IH (process_scancode sc k) R1). unfold keyboard_handler. destruct (run_steps steps (process_scancode sc k)) as [k' outs]. by rewrite <- P1, <- queue_no_ring, <- N1, queue_no_ring.
  - unfold keyboard_poll_event. pose proof (get_event_pending k Hr) as G. destruct (buffer_get_event k) as [k1 e] eqn:E1. assert (no_ring k1 = no_ring k) as N1 by (unfold buffer_get_event in E1; destruct (_ =? _); injection E1 as <- _; reflexivity). destruct G as [R1 G]. specialize (IH k1 R1). rewrite <- queue_no_ring, N1, queue_no_ring in IH. destruct (run_steps steps k1) as [k' outs]. destruct IH as [R2 E]. split; [done|].
    destruct e as [e|]; [rewrite G; cbn; by rewrite E|]. destruct G as [-> G]. rewrite G in E |- *. cbn. by rewrite E.
Qed.

(** ** Modifiers are the keys that are held *)

Definition held : list (Z * Z) := [(0, KEY_LSHIFT); (1, KEY_RSHIFT); (2, KEY_LCTRL); (3, KEY_RCTRL); (4, KEY_LALT); (5, KEY_RALT)].
Definition leds_of (m : Z) : Z := Z.b2z (Z.testbit m 8) + 2 * Z.b2z (Z.testbit m 7) + 4 * Z.b2z (Z.testbit m 6).
Definition keys_match (m : Z) (pressed : Z -> bool) : Prop := forall j c, (j, c) ∈ held -> Z.testbit m j = pressed c.
(** The last bytes that the keyboard was sent are the command for the LEDs and the locks that
    are on, and the driver knows them. *)
Definition leds_told k : Prop := led_state k = leds_of (current_modifiers k) /\ exists r, sent k = leds_of (current_modifiers k) :: KB_CMD_SET_LEDS :: r.
Definition mods_ok k : Prop := 0 <= current_modifiers k < 512 /\ keys_match (current_modifiers k) (key_pressed_state k) /\ leds_told k.

Definition set_bit (i : Z) (b : bool) (m : Z) : Z := if b then Z.lor m (2 ^ i) else Z.land m (Z.lnot (2 ^ i)).
(** On the nine bits that are used everything is a finite table. *)
Definition below9 : list Z := seqZ 0 9.
Lemma check_below9 (P : Z -> bool) i : forallb P below9 = true -> 0 <= i < 9 -> P i = true.
Proof. intros H Hi. rewrite forallb_forall in H. apply H, list_elem_of_In, elem_of_seqZ. lia. Qed.
Lemma check_below512 (P : Z -> bool) m : forallb P (seqZ 0 512) = true -> 0 <= m < 512 -> P m = true.
Proof. intros H Hi. rewrite forallb_forall in H. apply H, list_elem_of_In, elem_of_seqZ. lia. Qed.
Definition bit_table (m i : Z) (b : bool) : bool :=
  let m' := set_bit i b m in (0 <=? m') && (m' <? 512) && forallb (fun j => Bool.eqb (Z.testbit m' j) (if j =? i then b else Z.testbit m j)) below9 && (Z.lxor m (2 ^ i) =? set_bit i (negb (Z.testbit m i)) m).
Lemma bit_table_true : forallb (fun m => forallb (fun i => bit_table m i true && bit_table m i false) below9) (seqZ 0 512) = true.
Proof. vm_compute. reflexivity. Qed.
Lemma set_bit_spec m i b : 0 <= m < 512 -> 0 <= i < 9 -> 0 <= set_bit i b m < 512 /\ (forall j, 0 <= j < 9 -> Z.testbit (set_bit i b m) j = if j =? i then b else Z.testbit m j) /\ Z.lxor m (2 ^ i) = set_bit i (negb (Z.testbit m i)) m.
Proof.
  intros Hm Hi. pose proof (check_below9 _ i (check_below512 _ m bit_table_true Hm) Hi) as Ht. cbn beta in Ht. apply andb_true_iff in Ht as [Ht Hf].
  assert (bit_table m i b = true) as T by (by destruct b). unfold bit_table in T. cbn zeta in T. apply andb_true_iff in T as [T T4]. apply andb_true_iff in T as [T T3]. apply andb_true_iff in T as [T1 T2]. apply Z.leb_le in T1. apply Z.ltb_lt in T2. apply Z.eqb_eq in T4.
  split; [lia|]. split; [|done]. intros j Hj. by apply Bool.eqb_prop, (check_below9 _ j T3 Hj).
Qed.
Lemma mod_flag m i : 0 <= m < 512 -> 0 <= i < 9 -> negb (Z.land m (2 ^ i) =? 0) = Z.testbit m i.
Proof.
  intros Hm Hi. apply Bool.eqb_prop. refine (check_below9 (fun i => Bool.eqb (negb (Z.land m (2 ^ i) =? 0)) (Z.testbit m i)) i _ Hi).
  refine (check_below512 (fun m => forallb (fun i => Bool.eqb (negb (Z.land m (2 ^ i) =? 0)) (Z.testbit m i)) below9) m _ Hm). vm_compute. reflexivity.
Qed.
Lemma send_cmd_frame n cmd k : let k' := fst (send_rounds n cmd k) in current_modifiers k' = current_modifiers k /\ key_pressed_state k' = key_pressed_state k /\ led_state k' = led_state k /\
  (expecting_extended k' = expecting_extended k /\ expecting_extended2 k' = expecting_extended2 k) /\ (n <> O -> exists r, sent k' = cmd :: r).
Proof.
  revert k. induction n as [|n IH]; intros k; cbn [send_rounds]; [done|]. unfold next_answer. cbn [answers ps2_send_data set_port].
  assert (forall k1, current_modifiers k1 = current_modifiers k -> key_pressed_state k1 = key_pressed_state k -> led_state k1 = led_state k -> expecting_extended k1 = expecting_extended k -> expecting_extended2 k1 = expecting_extended2 k -> (exists r, sent k1 = cmd :: r) ->
    let k' := fst (send_rounds n cmd k1) in current_modifiers k' = current_modifiers k /\ key_pressed_state k' = key_pressed_state k /\ led_state k' = led_state k /\ (expecting_extended k' = expecting_extended k /\ expecting_extended2 k' = expecting_extended2 k) /\ exists r, sent k' = cmd :: r) as Hn.
  { intros k1 <- <- <- <- <- Hr. cbn zeta in *. destruct (IH k1) as (-> & -> & -> & Hx & Hs). do 4 (split; [done|]). destruct n as [|n]; [exact Hr|by apply Hs]. }
  cbn zeta in *. destruct (answers k) as [|a r]; (destruct (bool_decide _); [cbn; split_and!; try done; intros _; by eexists|]).
  all: match goal with |- context [send_rounds _ _ ?x] => destruct (Hn x) as (-> & -> & -> & [-> ->] & Hs) end; [done || by eexists..|]; split_and!; try done; by intros _.
Qed.
(** When the driver knew what it had told before, or had told nothing yet. *)
Lemma leds_frame k : 0 <= current_modifiers k < 512 -> let k' := update_leds k in
  current_modifiers k' = current_modifiers k /\ key_pressed_state k' = key_pressed_state k /\ led_state k' = leds_of (current_modifiers k) /\
  (expecting_extended k' = expecting_extended k /\ expecting_extended2 k' = expecting_extended2 k) /\
  (led_state k <> leds_of (current_modifiers k) \/ (exists r, sent k = led_state k :: KB_CMD_SET_LEDS :: r) -> exists r, sent k' = leds_of (current_modifiers k) :: KB_CMD_SET_LEDS :: r).
Proof.
  intros Hm. cbn zeta. unfold update_leds, has_mod. cbn zeta. change MOD_SCROLLLOCK with (2 ^ 8). change MOD_NUMLOCK with (2 ^ 7). change MOD_CAPSLOCK with (2 ^ 6). rewrite !mod_flag by lia. match goal with |- context [?l =? led_state k] => assert (l = leds_of (current_modifiers k)) as -> by (unfold leds_of; by repeat destruct (Z.testbit _ _)) end.
  destruct (Z.eqb_spec (leds_of (current_modifiers k)) (led_state k)) as [E|_]; [split_and!; try done; intros [Hn|Hr]; [by destruct Hn|by rewrite E]|]. unfold keyboard_send_cmd. pose proof (send_cmd_frame 3 KB_CMD_SET_LEDS (set_led (leds_of (current_modifiers k)) k)) as Hs. cbn zeta in Hs. destruct (send_rounds 3 _ _) as [k2 b]. cbn [fst] in *.
  destruct Hs as (S1 & S2 & S3 & S4 & S5). destruct S5 as [r Er]; [done|]. cbn in S1, S2, S3, S4. cbn. split_and!; try apply S4; try done. intros _. exists r. by rewrite Er.
Qed.
Lemma hold_bit i r k : hold (2 ^ i) r k = set_mods (set_bit i (negb r) (current_modifiers k)) k.
Proof. by destruct r. Qed.
(** One modifier bit follows its key; the other bits stay. *)
Definition bit_moved (m m' c : Z) (r : bool) : Prop := forall j d, (j, d) ∈ held -> Z.testbit m' j = if c =? d then negb r else Z.testbit m j.
Lemma held_cases j d : (j, d) ∈ held -> d = 134 + j /\ 0 <= j < 2 \/ d = 130 + j /\ 2 <= j < 4 \/ d = 132 + j /\ 4 <= j < 6.
Proof. unfold held, KEY_LSHIFT, KEY_RSHIFT, KEY_LCTRL, KEY_RCTRL, KEY_LALT, KEY_RALT. rewrite !elem_of_cons, elem_of_nil. intros H. destruct_or! H; injection H as -> ->; lia. Qed.
Lemma moved_hold i d c r m : (i, d) ∈ held -> c = d -> 0 <= m < 512 -> bit_moved m (set_bit i (negb r) m) c r.
Proof.
  intros Hi -> Hm j e Hj. apply held_cases in Hi, Hj. destruct (set_bit_spec m i (negb r) Hm) as (_ & Hb & _); [lia|]. rewrite Hb by lia. destruct (Z.eqb_spec j i), (Z.eqb_spec d e); try done; lia.
Qed.
Lemma moved_none i b c r m : 6 <= i < 9 -> (forall j d, (j, d) ∈ held -> c <> d) -> 0 <= m < 512 -> bit_moved m (set_bit i b m) c r.
Proof.
  intros Hi Hc Hm j e Hj. pose proof (Hc j e Hj). apply held_cases in Hj. destruct (set_bit_spec m i b Hm) as (_ & Hb & _); [lia|]. rewrite Hb by lia. destruct (Z.eqb_spec j i), (Z.eqb_spec c e); try done; lia.
Qed.
(** A lock bit changes when its key is pressed. *)
Definition locks : list (Z * Z) := [(6, KEY_CAPSLOCK); (7, KEY_NUMLOCK); (8, KEY_SCROLLLOCK)].
Definition locked (m m' c : Z) (r : bool) : Prop := forall j d, (j, d) ∈ locks -> Z.testbit m' j = if (c =? d) && negb r then negb (Z.testbit m j) else Z.testbit m j.
Lemma locks_cases j d : (j, d) ∈ locks -> d = 132 + j /\ 6 <= j < 9.
Proof. unfold locks, KEY_CAPSLOCK, KEY_NUMLOCK, KEY_SCROLLLOCK. rewrite !elem_of_cons, elem_of_nil. intros H. destruct_or! H; injection H as -> ->; lia. Qed.
Definition same_expect k k' : Prop := expecting_extended k' = expecting_extended k /\ expecting_extended2 k' = expecting_extended2 k.
Definition moves k k' c r : Prop :=
  0 <= current_modifiers k' < 512 /\ bit_moved (current_modifiers k) (current_modifiers k') c r /\ locked (current_modifiers k) (current_modifiers k') c r /\ key_pressed_state k' = key_pressed_state k /\ leds_told k' /\ same_expect k k'.
Lemma leds_told_same k k' : leds_of (current_modifiers k') = leds_of (current_modifiers k) -> led_state k' = led_state k -> sent k' = sent k -> leds_told k -> leds_told k'.
Proof. unfold leds_told. by intros -> -> ->. Qed.
Lemma moves_hold i d c r k : (i, d) ∈ held -> c = d -> mods_ok k -> moves k (hold (2 ^ i) r k) c r.
Proof.
  intros Hi Hc (Hm & Hk & Hl). rewrite hold_bit. pose proof (held_cases i d Hi) as Hd. destruct (set_bit_spec (current_modifiers k) i (negb r) Hm) as (Hr & Hb & _); [lia|]. split; [exact Hr|]. split; [by apply (moved_hold i d)|]. split; [|split; [done|split; [|done]]].
  - intros j d' Hj. apply locks_cases in Hj. cbn [current_modifiers set_mods]. rewrite Hb by lia. rewrite (proj2 (Z.eqb_neq j i)), (proj2 (Z.eqb_neq c d')) by lia. done.
  - revert Hl. apply leds_told_same; [|done|done]. cbn [current_modifiers set_mods]. unfold leds_of. rewrite !Hb by lia. by rewrite !(proj2 (Z.eqb_neq _ i)) by lia.
Qed.
Lemma moves_toggle i c r k : (i, c) ∈ locks -> mods_ok k -> moves k (toggle (2 ^ i) r k) c r.
Proof.
  intros Hi (Hm & Hk & Hl). pose proof (locks_cases i c Hi) as Hic. assert (forall j d, (j, d) ∈ held -> c <> d) as Hc by (intros j d Hj; apply held_cases in Hj; lia). unfold toggle. destruct r.
  - split; [done|]. split; [intros j d Hj; by rewrite (proj2 (Z.eqb_neq _ _) (Hc j d Hj))|]. split; [intros j d Hj; by rewrite andb_false_r|]. split; [done|]. by split.
  - destruct (set_bit_spec (current_modifiers k) i (negb (Z.testbit (current_modifiers k) i)) Hm) as (Hr & Hb & ->); [lia|]. destruct (leds_frame (set_mods (set_bit i (negb (Z.testbit (current_modifiers k) i)) (current_modifiers k)) k) Hr) as (E1 & E2 & E3 & E4 & E5). cbn zeta in *. unfold moves, leds_told. rewrite E1, E2, E3. split; [exact Hr|]. split; [apply moved_none; [lia|done|done]|].
    split; [|split; [done|split; [split; [done|]|exact E4]]].
    + intros j d Hj. apply locks_cases in Hj. cbn [current_modifiers set_mods]. rewrite Hb by lia. cbn [negb]. rewrite andb_true_r. destruct (Z.eqb_spec j i) as [->|], (Z.eqb_spec c d); done || lia.
    + apply E5. right. destruct Hl as [Hl1 Hl2]. cbn [led_state set_mods sent]. by rewrite Hl1.
Qed.
Lemma update_modifiers_moves c r k : mods_ok k -> moves k (update_modifiers c r k) c r.
Proof.
  intros H. unfold update_modifiers.
  destruct (Z.eqb_spec c KEY_LSHIFT); [by apply (moves_hold 0 KEY_LSHIFT); [left|..]|]. destruct (Z.eqb_spec c KEY_RSHIFT); [by apply (moves_hold 1 KEY_RSHIFT); [do 1 right; left|..]|]. destruct (Z.eqb_spec c KEY_LCTRL); [by apply (moves_hold 2 KEY_LCTRL); [do 2 right; left|..]|]. destruct (Z.eqb_spec c KEY_RCTRL); [by apply (moves_hold 3 KEY_RCTRL); [do 3 right; left|..]|]. destruct (Z.eqb_spec c KEY_LALT); [by apply (moves_hold 4 KEY_LALT); [do 4 right; left|..]|]. destruct (Z.eqb_spec c KEY_RALT); [by apply (moves_hold 5 KEY_RALT); [do 5 right; left|..]|].
  destruct (Z.eqb_spec c KEY_CAPSLOCK) as [->|]; [apply (moves_toggle 6); [left|done]|]. destruct (Z.eqb_spec c KEY_NUMLOCK) as [->|]; [apply (moves_toggle 7); [right; left|done]|]. destruct (Z.eqb_spec c KEY_SCROLLLOCK) as [->|]; [apply (moves_toggle 8); [do 2 right; left|done]|].
  destruct H as (Hm & _ & Hl). split; [done|]. split; [|split; [|by split]].
  - intros j d Hj. rewrite (proj2 (Z.eqb_neq c d)); [done|]. apply held_cases in Hj. unfold KEY_LSHIFT, KEY_RSHIFT, KEY_LCTRL, KEY_RCTRL, KEY_LALT, KEY_RALT in *. lia.
  - intros j d Hj. rewrite (proj2 (Z.eqb_neq c d)); [done|]. apply locks_cases in Hj. unfold KEY_CAPSLOCK, KEY_NUMLOCK, KEY_SCROLLLOCK in *. lia.
Qed.
Lemma mods_frame k k' : current_modifiers k' = current_modifiers k -> key_pressed_state k' = key_pressed_state k -> led_state k' = led_state k -> sent k' = sent k -> mods_ok k -> mods_ok k'.
Proof. unfold mods_ok, leds_told. by intros -> -> -> ->. Qed.

(** *** What the keys do, from the bytes *)

(** The codes in what arrives: a byte with the prefix that was seen before it, 0 for none; a call
    that sets the LEDs stands for itself. *)
Inductive kb_call := CScan (sc : Z) | CPoll | CGetchar | CLeds (leds : Z) | CFlush.
Inductive token := Code (prefix byte : Z) | SetLeds (leds : Z).
#[export] Instance token_eq_dec : EqDecision token.
Proof. solve_decision. Defined.
Fixpoint tokens (e0 e1 : bool) (calls : list kb_call) : list token :=
  match calls with
  | [] => []
  | CScan b :: calls =>
      if b =? 0xE0 then tokens true e1 calls
      else if b =? 0xE1 then tokens e0 true calls
      else if e0 then Code 0xE0 b :: tokens false e1 calls
      else if e1 then Code 0xE1 b :: tokens false false calls
      else Code 0 b :: tokens false false calls
  | CLeds leds :: calls => SetLeds leds :: tokens e0 e1 calls
  | _ :: calls => tokens e0 e1 calls
  end.
(** The modifier keys of scan code set 1: the bit, the key, the code of a press and of a
    release. *)
Definition modifier_codes : list (Z * Z * token * token) :=
  [(0, KEY_LSHIFT, Code 0 0x2A, Code 0 0xAA); (1, KEY_RSHIFT, Code 0 0x36, Code 0 0xB6); (2, KEY_LCTRL, Code 0 0x1D, Code 0 0x9D);
   (3, KEY_RCTRL, Code 0xE0 0x1D, Code 0xE0 0x9D); (4, KEY_LALT, Code 0 0x38, Code 0 0xB8); (5, KEY_RALT, Code 0xE0 0x38, Code 0xE0 0xB8)].
(** A key is down from the code of its press to the code of its release. *)
Definition down_after (press release : token) (before : bool) (ts : list token) : bool :=
  foldl (fun down t => if decide (t = press) then true else if decide (t = release) then false else down) before ts.
(** The locks: the bit, the code of a press, and the bit of the LED. *)
Definition lock_codes : list (Z * token * Z) := [(6, Code 0 0x3A, 2); (7, Code 0 0x45, 1); (8, Code 0 0x46, 0)].
(** A lock changes with every press, and is what the LEDs are set to. *)
Definition lock_after (press : token) (led : Z) (before : bool) (ts : list token) : bool :=
  foldl (fun on t => if decide (t = press) then negb on else match t with SetLeds leds => Z.testbit leds led | _ => on end) before ts.

(** The key of a code, from the driver's tables. *)
Definition code_key (prefix b : Z) : Z :=
  if prefix =? 0xE0 then default 0 (extended_scancode_to_keycode !! Z.to_nat (Z.land b 0x7F)) else if prefix =? 0xE1 then KEY_PAUSE else default 0 (scancode_to_keycode !! Z.to_nat (Z.land b 0x7F)).
Definition releases (b : Z) : bool := negb (Z.land b SCANCODE_RELEASE =? 0).
Definition same_bool (a b : bool) : bool := Bool.eqb a b.
(** The tables give each modifier key to its two codes, and each lock to the code of its press. *)
Definition code_table (prefix b : Z) : bool :=
  forallb (fun '(_, c, press, release) => same_bool ((code_key prefix b =? c) && negb (releases b)) (bool_decide (Code prefix b = press)) && same_bool ((code_key prefix b =? c) && releases b) (bool_decide (Code prefix b = release))) modifier_codes &&
  forallb (fun '((j, press, _), (_, c)) => same_bool ((code_key prefix b =? c) && negb (releases b)) (bool_decide (Code prefix b = press))) (combine lock_codes locks).
Lemma code_table_true prefix b : prefix ∈ [0; 0xE0; 0xE1] -> 0 <= b < 256 -> code_table prefix b = true.
Proof.
  intros Hp Hb. assert (forallb (fun p => forallb (code_table p) (seqZ 0 256)) [0; 0xE0; 0xE1] = true) as Ht by (vm_compute; reflexivity). rewrite forallb_forall in Ht. apply list_elem_of_In in Hp. specialize (Ht _ Hp). rewrite forallb_forall in Ht. apply Ht, list_elem_of_In, elem_of_seqZ. lia.
Qed.
(** What a program may do with the keyboard, beside the interrupts. *)
Definition run_kb_call k (c : kb_call) : keyboard :=
  match c with
  | CScan sc => keyboard_handler sc k
  | CPoll => fst (keyboard_poll_event k)
  | CGetchar => fst (keyboard_getchar k)
  | CLeds leds => keyboard_set_leds leds k
  | CFlush => keyboard_flush k
  end.
Lemma get_event_mods k : mods_ok k -> mods_ok (fst (buffer_get_event k)).
Proof. unfold buffer_get_event. by destruct (_ =? _). Qed.
Lemma getchar_mods n k : mods_ok k -> mods_ok (fst (getchar_rounds n k)).
Proof.
  revert k. induction n as [|n IH]; intros k H; cbn [getchar_rounds]; [done|]. pose proof (get_event_mods k H) as H1. destruct (buffer_get_event k) as [k1 [e|]]; [|done]. destruct (ev_pressed e && _); [done|]. by apply IH.
Qed.
Lemma led_mod_bit leds l i m : led_mod leds l (2 ^ i) m = set_bit i (negb (Z.land leds l =? 0)) m.
Proof. unfold led_mod, set_bit. done. Qed.
(** The prefix that applies to the next byte. *)
Definition prefix_of k : Z := if expecting_extended k then 0xE0 else if expecting_extended2 k then 0xE1 else 0.
Lemma prefix_cases k : prefix_of k ∈ [0; 0xE0; 0xE1].
Proof. unfold prefix_of. repeat case_match; [right; left|do 2 right; left|left]. Qed.
(** One byte that is no prefix. *)
Lemma decode_code sc k : mods_ok k -> sc <> 0xE0 -> sc <> 0xE1 -> let k' := fst (decode_scancode sc k) in
  mods_ok k' /\ bit_moved (current_modifiers k) (current_modifiers k') (code_key (prefix_of k) sc) (releases sc) /\ locked (current_modifiers k) (current_modifiers k') (code_key (prefix_of k) sc) (releases sc) /\
  expecting_extended k' = false /\ expecting_extended2 k' = expecting_extended k && expecting_extended2 k.
Proof.
  intros H N0 N1. cbn zeta. unfold decode_scancode. cbn zeta. rewrite (proj2 (Z.eqb_neq sc SCANCODE_EXTENDED) N0), (proj2 (Z.eqb_neq sc SCANCODE_EXTENDED2) N1). fold (releases sc). destruct (find_keycode (Z.land sc 0x7F) k) as [c k1] eqn:Ek.
  assert (c = code_key (prefix_of k) sc /\ current_modifiers k1 = current_modifiers k /\ mods_ok k1 /\ expecting_extended k1 = false /\ expecting_extended2 k1 = expecting_extended k && expecting_extended2 k) as (-> & Em & H1 & X1 & X2).
  { unfold find_keycode in Ek. unfold code_key, prefix_of. destruct (expecting_extended k) eqn:Ex; [|destruct (expecting_extended2 k) eqn:Ex2]; injection Ek as <- <-; split_and!; try done. }
  set (c := code_key _ _) in *. destruct (update_modifiers_moves c (releases sc) k1 H1) as (Hm & Hb & Hlk & Hp & Hl & X3 & X4). destruct H1 as (_ & Hk & _). cbn [fst]. set (k2 := update_modifiers c (releases sc) k1) in *. set (k3 := if c <? KEY_MAX then _ else k2).
  assert (current_modifiers k3 = current_modifiers k2 /\ led_state k3 = led_state k2 /\ sent k3 = sent k2 /\ expecting_extended k3 = expecting_extended k2 /\ expecting_extended2 k3 = expecting_extended2 k2) as (F1 & F2 & F3 & F4 & F5) by (unfold k3; by destruct (c <? KEY_MAX)). rewrite F4, F5, X3, X4. rewrite Em in Hb, Hlk. split; [|by rewrite F1].
  split; [by rewrite F1|]. split; [|revert Hl; apply leds_told_same; by rewrite ?F1]. intros j d Hj. unfold k3. destruct (Z.ltb_spec c KEY_MAX) as [Hc|Hc]; cbn [set_pressed current_modifiers key_pressed_state]; rewrite (Hb j d Hj), Hp; rewrite Em in Hk; rewrite (Hk j d Hj).
  - destruct (Z.eqb_spec c d) as [->|Hne]; [by rewrite upd_same|]. rewrite upd_other; [done|congruence].
  - apply held_cases in Hj. rewrite (proj2 (Z.eqb_neq c d)); [done|]. unfold KEY_MAX in Hc. lia.
Qed.
Lemma modifier_code_held j c press release : (j, c, press, release) ∈ modifier_codes -> (j, c) ∈ held /\ 0 <= j < 6.
Proof. unfold modifier_codes, held. rewrite !elem_of_cons, !elem_of_nil. intros H. destruct_or! H; injection H as -> -> -> ->; (split; [tauto|lia]). Qed.
Lemma lock_code_key j press led : (j, press, led) ∈ lock_codes -> 6 <= j < 9 /\ led = 8 - j /\ exists c, (j, c) ∈ locks /\ ((j, press, led), (j, c)) ∈ combine lock_codes locks.
Proof.
  unfold lock_codes, locks. cbn [combine]. rewrite !elem_of_cons, !elem_of_nil. intros H. destruct_or! H; injection H as -> -> ->; (split; [lia|]); (split; [lia|]); eexists; (split; [rewrite !elem_of_cons; eauto|rewrite !elem_of_cons; eauto]).
Qed.
(** What a code does to the bit of a modifier key, and to a lock. *)
Lemma code_moves_bit sc k m' j c press release : 0 <= sc < 256 -> (j, c, press, release) ∈ modifier_codes -> bit_moved (current_modifiers k) m' (code_key (prefix_of k) sc) (releases sc) ->
  Z.testbit m' j = down_after press release (Z.testbit (current_modifiers k) j) [Code (prefix_of k) sc].
Proof.
  intros Hs Hj Hb. destruct (modifier_code_held _ _ _ _ Hj) as [Hh _]. rewrite (Hb j c Hh). pose proof (code_table_true (prefix_of k) sc (prefix_cases k) Hs) as Ht. unfold code_table in Ht. apply andb_true_iff in Ht as [Ht _]. rewrite forallb_forall in Ht. apply list_elem_of_In in Hj. specialize (Ht _ Hj). cbv beta iota in Ht. apply andb_true_iff in Ht as [T1 T2]. apply Bool.eqb_prop in T1, T2.
  cbn [down_after foldl]. destruct (_ =? c); cbn [andb] in T1, T2; destruct (releases sc); cbn [negb] in *; symmetry in T1, T2; apply bool_decide_eq_true in T1 || apply bool_decide_eq_false in T1; apply bool_decide_eq_true in T2 || apply bool_decide_eq_false in T2; repeat case_decide; done.
Qed.
Lemma code_moves_lock sc k m' j press led : 0 <= sc < 256 -> (j, press, led) ∈ lock_codes -> locked (current_modifiers k) m' (code_key (prefix_of k) sc) (releases sc) ->
  Z.testbit m' j = lock_after press led (Z.testbit (current_modifiers k) j) [Code (prefix_of k) sc].
Proof.
  intros Hs Hj Hb. destruct (lock_code_key _ _ _ Hj) as (_ & _ & c & Hc & Hin). rewrite (Hb j c Hc). pose proof (code_table_true (prefix_of k) sc (prefix_cases k) Hs) as Ht. unfold code_table in Ht. apply andb_true_iff in Ht as [_ Ht]. rewrite forallb_forall in Ht. apply list_elem_of_In in Hin. specialize (Ht _ Hin). cbv beta iota in Ht. apply Bool.eqb_prop in Ht.
  cbn [lock_after foldl]. rewrite Ht. case_bool_decide; by case_decide.
Qed.
Lemma set_leds_bits leds k : mods_ok k -> 0 <= leds < 256 -> let k' := keyboard_set_leds leds k in
  mods_ok k' /\ (expecting_extended k' = expecting_extended k /\ expecting_extended2 k' = expecting_extended2 k) /\
  (forall j, 0 <= j < 6 -> Z.testbit (current_modifiers k') j = Z.testbit (current_modifiers k) j) /\ (forall j, 6 <= j < 9 -> Z.testbit (current_modifiers k') j = Z.testbit leds (8 - j)).
Proof.
  intros (Hm & Hk & Hl) Hb. cbn zeta. unfold keyboard_set_leds. change MOD_CAPSLOCK with (2 ^ 6). change MOD_NUMLOCK with (2 ^ 7). change MOD_SCROLLLOCK with (2 ^ 8). change LED_CAPSLOCK with (2 ^ 2). change LED_NUMLOCK with (2 ^ 1). change LED_SCROLLLOCK with (2 ^ 0). rewrite !led_mod_bit, !mod_flag by lia.
  set (m1 := set_bit 8 _ _). destruct (set_bit_spec (current_modifiers k) 8 (Z.testbit leds 0) Hm) as (H1 & B1 & _); [lia|]. fold m1 in H1, B1. set (m2 := set_bit 7 _ m1). destruct (set_bit_spec m1 7 (Z.testbit leds 1) H1) as (H2 & B2 & _); [lia|]. fold m2 in H2, B2. set (m3 := set_bit 6 _ m2). destruct (set_bit_spec m2 6 (Z.testbit leds 2) H2) as (H3 & B3 & _); [lia|]. fold m3 in H3, B3.
  assert (forall j, 0 <= j < 6 -> Z.testbit m3 j = Z.testbit (current_modifiers k) j) as Hlow by (intros j Hj; rewrite B3, B2, B1 by lia; by rewrite !(proj2 (Z.eqb_neq j _)) by lia).
  destruct (leds_frame (set_mods m3 k) H3) as (E1 & E2 & E3 & E4 & E5). cbn zeta in *. split; [|split; [exact E4|rewrite E1; split; [exact Hlow|]]].
  - unfold mods_ok, leds_told. rewrite E1, E2, E3. split; [done|]. split; [|split; [done|]].
    + intros j d Hj. cbn [current_modifiers set_mods key_pressed_state]. rewrite Hlow; [by apply Hk|]. apply held_cases in Hj. lia.
    + apply E5. right. destruct Hl as [Hl1 Hl2]. cbn [led_state set_mods sent]. by rewrite Hl1.
  - intros j Hj. cbn [current_modifiers set_mods]. rewrite B3, B2, B1 by lia. destruct (Z.eqb_spec j 6) as [->|]; [done|]. destruct (Z.eqb_spec j 7) as [->|]; [done|]. by assert (j = 8) as -> by lia.
Qed.
(** The arguments are bytes. *)
Definition call_bytes (c : kb_call) : Prop := match c with CScan b | CLeds b => 0 <= b < 256 | _ => True end.
Lemma get_event_frame k : let k' := fst (buffer_get_event k) in current_modifiers k' = current_modifiers k /\ expecting_extended k' = expecting_extended k /\ expecting_extended2 k' = expecting_extended2 k.
Proof. cbn zeta. unfold buffer_get_event. by destruct (_ =? _). Qed.
Lemma getchar_frame n k : let k' := fst (getchar_rounds n k) in current_modifiers k' = current_modifiers k /\ expecting_extended k' = expecting_extended k /\ expecting_extended2 k' = expecting_extended2 k.
Proof.
  cbn zeta. revert k. induction n as [|n IH]; intros k; cbn [getchar_rounds]; [done|]. pose proof (get_event_frame k) as (E1 & E2 & E3). destruct (buffer_get_event k) as [k1 [e|]]; cbn [fst] in *; [|done]. destruct (ev_pressed e && _); cbn [fst]; [done|]. destruct (IH k1) as (-> & -> & ->). done.
Qed.
(** [k'] is what [k] becomes when the codes [ts] arrive. *)
Definition follows k k' (ts : list token) : Prop :=
  mods_ok k' /\
  (forall j c press release, (j, c, press, release) ∈ modifier_codes -> Z.testbit (current_modifiers k') j = down_after press release (Z.testbit (current_modifiers k) j) ts) /\
  (forall j press led, (j, press, led) ∈ lock_codes -> Z.testbit (current_modifiers k') j = lock_after press led (Z.testbit (current_modifiers k) j) ts).
Lemma follows_none k k' : mods_ok k' -> current_modifiers k' = current_modifiers k -> follows k k' [].
Proof. intros H E. split; [done|]. rewrite E. done. Qed.
Lemma follows_app k1 k2 k3 ts us : follows k1 k2 ts -> follows k2 k3 us -> follows k1 k3 (ts ++ us).
Proof.
  intros (_ & A1 & A2) (H & B1 & B2). split; [done|]. split.
  - intros j c press release Hj. rewrite (B1 _ _ _ _ Hj), (A1 _ _ _ _ Hj). unfold down_after. by rewrite foldl_app.
  - intros j press led Hj. rewrite (B2 _ _ _ Hj), (A2 _ _ _ Hj). unfold lock_after. by rewrite foldl_app.
Qed.
Lemma call_follows k c calls : mods_ok k -> call_bytes c -> exists ts, follows k (run_kb_call k c) ts /\
  tokens (expecting_extended k) (expecting_extended2 k) (c :: calls) = ts ++ tokens (expecting_extended (run_kb_call k c)) (expecting_extended2 (run_kb_call k c)) calls.
Proof.
  intros H Hb. destruct c as [sc| | |leds|]; cbn [run_kb_call tokens call_bytes] in *.
  - unfold keyboard_handler, process_scancode. assert (forall e k1, let k' := buffer_add_event e k1 in current_modifiers k' = current_modifiers k1 /\ expecting_extended k' = expecting_extended k1 /\ expecting_extended2 k' = expecting_extended2 k1 /\ (mods_ok k1 -> mods_ok k')) as Ha by (intros e k1; cbn zeta; unfold buffer_add_event; by destruct (_ =? _)).
    destruct (Z.eqb_spec sc 0xE0) as [->|N0]; [exists []; split; [by apply follows_none|done]|]. destruct (Z.eqb_spec sc 0xE1) as [->|N1]; [exists []; split; [by apply follows_none|done]|].
    destruct (decode_code sc k H N0 N1) as (H1 & Hm & Hl & X1 & X2). destruct (decode_scancode sc k) as [k1 e] eqn:Ed. cbn [fst] in *. assert (follows k k1 [Code (prefix_of k) sc]) as Hf by (split; [done|]; split; [intros; by apply (code_moves_bit sc k (current_modifiers k1) j c)|intros; by apply code_moves_lock]).
    exists [Code (prefix_of k) sc]. assert (forall k2, current_modifiers k2 = current_modifiers k1 -> expecting_extended k2 = expecting_extended k1 -> expecting_extended2 k2 = expecting_extended2 k1 -> mods_ok k2 -> follows k k2 [Code (prefix_of k) sc] /\
      (if expecting_extended k then Code 0xE0 sc :: tokens false (expecting_extended2 k) calls else if expecting_extended2 k then Code 0xE1 sc :: tokens false false calls else Code 0 sc :: tokens false false calls) = [Code (prefix_of k) sc] ++ tokens (expecting_extended k2) (expecting_extended2 k2) calls) as Hk2.
    { intros k2 E1 E2 E3 H2. split; [split; [done|]; rewrite E1; apply Hf|]. rewrite E2, E3, X1, X2. unfold prefix_of. by destruct (expecting_extended k), (expecting_extended2 k). }
    destruct e as [e|]; [destruct (Ha e k1) as (A1 & A2 & A3 & A4); apply Hk2; auto|by apply Hk2].
  - pose proof (get_event_frame k) as (E1 & E2 & E3). unfold keyboard_poll_event. rewrite E2, E3. exists []. split; [|done]. apply follows_none; [by apply get_event_mods|done].
  - pose proof (getchar_frame (Z.to_nat KEYBOARD_BUFFER_SIZE) k) as (E1 & E2 & E3). unfold keyboard_getchar. cbn zeta in E1, E2, E3. rewrite E2, E3. exists []. split; [|done]. apply follows_none; [by apply getchar_mods|done].
  - destruct (set_leds_bits leds k H Hb) as (H1 & [E2 E3] & Hlow & Hhigh). rewrite E2, E3. exists [SetLeds leds]. split; [|done]. split; [done|]. split.
    + intros j c press release Hj. destruct (modifier_code_held _ _ _ _ Hj) as [_ Hj6]. rewrite Hlow by done. cbn. unfold modifier_codes in Hj. rewrite !elem_of_cons, elem_of_nil in Hj. destruct_or! Hj; injection Hj as -> -> -> ->; done.
    + intros j press led Hj. destruct (lock_code_key _ _ _ Hj) as (Hj6 & -> & _). rewrite Hhigh by done. cbn. unfold lock_codes in Hj. rewrite !elem_of_cons, elem_of_nil in Hj. destruct_or! Hj; injection Hj as -> -> _; done.
  - exists []. split; [by apply follows_none|done].
Qed.
Lemma calls_follow calls k : mods_ok k -> Forall call_bytes calls -> follows k (foldl run_kb_call k calls) (tokens (expecting_extended k) (expecting_extended2 k) calls).
Proof.
  intros H Hb. revert k H. induction Hb as [|c calls Hc _ IH]; intros k H; [by apply follows_none|]. cbn [foldl]. destruct (call_follows k c calls H Hc) as (ts & Hf & ->). apply (follows_app _ (run_kb_call k c)); [done|]. apply IH, Hf.
Qed.
Lemma init_mods config config' self_test port_test k k' : led_state k = 0 -> keyboard_init config config' self_test port_test k = (k', true) ->
  mods_ok k' /\ current_modifiers k' = MOD_NUMLOCK /\ expecting_extended k' = false /\ expecting_extended2 k' = false.
Proof.
  intros Hled. unfold keyboard_init. cbn zeta. destruct (negb (self_test =? 85)); [done|]. destruct (negb (port_test =? 0)); [done|]. unfold keyboard_send_cmd. set (k0 := ps2_send_data _ _). pose proof (send_cmd_frame 3 KB_CMD_RESET k0) as (_ & _ & L1 & _). cbn zeta in L1. destruct (send_rounds 3 KB_CMD_RESET k0) as [k1 acked]. cbn [fst] in L1. set (k1' := if acked then _ else _).
  assert (led_state k1' = 0) as L2 by (unfold k1', next_answer; destruct acked; [destruct (answers k1)|]; cbn; rewrite L1; exact Hled). pose proof (send_cmd_frame 3 KB_CMD_ENABLE k1') as (_ & _ & L3 & _). cbn zeta in L3. destruct (send_rounds 3 KB_CMD_ENABLE k1') as [k2 b]. cbn [fst] in L3. intros [= <-].
  set (k3 := set_pressed _ _). assert (current_modifiers k3 = MOD_NUMLOCK) as Em by done. assert (0 <= current_modifiers k3 < 512) as Hm by (rewrite Em; vm_compute; split; congruence). destruct (leds_frame k3 Hm) as (E1 & E2 & E3 & [E4 E5] & E6). cbn zeta in *. assert (led_state k3 = 0) as L4 by (cbn; by rewrite L3).
  destruct E6 as [r Er]; [left; rewrite L4, Em; vm_compute; congruence|]. split_and!; [split; [|split; [|split]]|..]; cbn [set_kb_ready current_modifiers key_pressed_state led_state sent expecting_extended expecting_extended2].
  - by rewrite E1.
  - intros j d Hj. rewrite E1, E2, Em. apply held_cases in Hj. cbn. assert (forallb (fun j => negb (Z.testbit MOD_NUMLOCK j)) (seqZ 0 6) = true) as Hz by done. rewrite forallb_forall in Hz. apply negb_true_iff, Hz, list_elem_of_In, elem_of_seqZ. lia.
  - by rewrite E1, E3.
  - exists r. by rewrite E1, Er.
  - by rewrite E1.
  - by rewrite E4.
  - by rewrite E5.
Qed.
(** C34: The modifiers follow the keyboard. Once it is started, after any bytes and any calls: the
    bit of each Shift, Control and Alt key is set exactly when the code of its press, in scan
    code set 1, came after the last code of its release, and [keyboard_is_key_pressed] agrees;
    the lock bits start with Num Lock on, change with each press of their keys and are
    overwritten by [keyboard_set_leds]; no other bit is set; and the last bytes that were sent
    to the keyboard are the command for the LEDs and the LEDs of the locks that are on. *)
Theorem keyboard_modifiers_held config config' self_test port_test k k' calls :
  led_state k = 0 -> keyboard_init config config' self_test port_test k = (k', true) -> Forall call_bytes calls ->
  let k'' := foldl run_kb_call k' calls in
  let ts := tokens false false calls in
  (forall j c press release, (j, c, press, release) ∈ modifier_codes -> Z.testbit (keyboard_get_modifiers k'') j = down_after press release false ts /\ keyboard_is_key_pressed c k'' = down_after press release false ts) /\
  (forall j press led, (j, press, led) ∈ lock_codes -> Z.testbit (keyboard_get_modifiers k'') j = lock_after press led (j =? 7) ts) /\
  0 <= keyboard_get_modifiers k'' < 512 /\ exists r, sent k'' = leds_of (keyboard_get_modifiers k'') :: KB_CMD_SET_LEDS :: r.
Proof.
  intros Hled Hi Hb. cbn zeta. destruct (init_mods _ _ _ _ _ _ Hled Hi) as (Hk & Em & X1 & X2). pose proof (calls_follow calls k' Hk Hb) as ((Hm & Hkeys & _ & Hl) & F1 & F2). rewrite X1, X2, Em in F1, F2. unfold keyboard_get_modifiers. split; [|split; [|done]].
  - intros j c press release Hj. destruct (modifier_code_held _ _ _ _ Hj) as [Hh Hj6]. pose proof (F1 _ _ _ _ Hj) as E. replace (Z.testbit MOD_NUMLOCK j) with false in E by (assert (forallb (fun j => negb (Z.testbit MOD_NUMLOCK j)) (seqZ 0 6) = true) as Hz by done; rewrite forallb_forall in Hz; symmetry; apply negb_true_iff, Hz, list_elem_of_In, elem_of_seqZ; lia).
    split; [done|]. unfold keyboard_is_key_pressed. apply held_cases in Hh as Hc. rewrite (proj2 (Z.leb_gt KEY_MAX c)) by (unfold KEY_MAX; lia). rewrite <- (Hkeys j c Hh). done.
  - intros j press led Hj. rewrite (F2 _ _ _ Hj). destruct (lock_code_key _ _ _ Hj) as (Hj6 & _). f_equal. destruct (Z.eqb_spec j 7) as [->|]; [done|]. destruct (Z.eq_dec j 6) as [->|]; [done|]. by assert (j = 8) as -> by lia.
Qed.

(** ** Characters *)

(** What the shifted and the plain table have to do with each other. *)
Definition letter_ok (sc : Z) (shift caps : bool) : bool :=
  let m := (if shift then MOD_LSHIFT else 0) + (if caps then MOD_CAPSLOCK else 0) in
  let plain := default 0 (scancode_ascii_normal !! Z.to_nat sc) in
  let shifted := default 0 (scancode_ascii_shift !! Z.to_nat sc) in
  scancode_to_ascii sc m =? (if is_lower plain then (if xorb shift caps then plain - 32 else plain) else if shift then shifted else plain).
Lemma ascii_flags sc m m' : negb (Z.land m MOD_SHIFT =? 0) = negb (Z.land m' MOD_SHIFT =? 0) -> negb (Z.land m MOD_CAPSLOCK =? 0) = negb (Z.land m' MOD_CAPSLOCK =? 0) -> scancode_to_ascii sc m = scancode_to_ascii sc m'.
Proof. unfold scancode_to_ascii. cbn zeta. by intros -> ->. Qed.
(** A letter key gives the capital exactly when either Shift is held or Caps Lock is on and not
    both; on every other key Caps Lock and the other modifiers change nothing, and Shift
    selects the upper sign of the key. *)
Theorem keyboard_letter_case sc m : 0 <= sc < 128 ->
  let shift := negb (Z.land m MOD_SHIFT =? 0) in
  let caps := negb (Z.land m MOD_CAPSLOCK =? 0) in
  let plain := default 0 (scancode_ascii_normal !! Z.to_nat sc) in
  let shifted := default 0 (scancode_ascii_shift !! Z.to_nat sc) in
  scancode_to_ascii sc m = if is_lower plain then (if xorb shift caps then plain - 32 else plain) else if shift then shifted else plain.
Proof.
  intros Hs shift caps plain shifted. assert (forallb (fun sc => letter_ok sc true true && letter_ok sc true false && letter_ok sc false true && letter_ok sc false false) (seqZ 0 128) = true) as Ht by (vm_compute; reflexivity).
  rewrite forallb_forall in Ht. specialize (Ht sc ltac:(apply list_elem_of_In, elem_of_seqZ; lia)). cbn beta in Ht. rewrite !andb_true_iff in Ht. destruct Ht as [[[T1 T2] T3] T4].
  assert (letter_ok sc shift caps = true) as T by (destruct shift, caps; done). apply Z.eqb_eq in T. fold plain shifted in T. rewrite <- T. apply ascii_flags; fold shift caps; by destruct shift, caps.
Qed.

(** ** At work *)

(** A keyboard that acknowledges everything, just started. *)
Definition fresh_keyboard : keyboard := mk_keyboard (fun _ => mk_kb_event 0 0 0 false false 0) 0 0 0 (fun _ => false) false false 0 false [] (repeat (Some KB_ACK) 40).
Definition started : keyboard := fst (keyboard_init 0x65 0x24 0x55 0 fresh_keyboard).
Lemma keyboard_is_queue_witness : kb_ring_ok started /\ (let '(k', outs) := run_steps [Scan 0x2A; Scan 0x1E; Take; Scan 0x9E; Take; Take; Take] started in kb_ring_ok k' /\ queue_steps [Scan 0x2A; Scan 0x1E; Take; Scan 0x9E; Take; Take; Take] started (pending started) = (pending k', outs)) /\ map ev_ascii (snd (run_steps [Scan 0x2A; Scan 0x1E; Take; Scan 0x9E; Take; Take; Take] started)) = [0; 65; 0].
Proof. split; [by vm_compute|]. split; [apply (keyboard_is_queue [Scan 0x2A; Scan 0x1E; Take; Scan 0x9E; Take; Take; Take] started); by vm_compute|by vm_compute]. Defined.
(** Left Shift down, Caps Lock set, Right Control down, Left Shift up. *)
Definition demo_keys : list kb_call := [CScan 0x2A; CLeds LED_CAPSLOCK; CScan 0xE0; CScan 0x1D; CPoll; CScan 0xAA].
Lemma keyboard_modifiers_held_witness : keyboard_init 0x65 0x24 0x55 0 fresh_keyboard = (started, true) /\ Z.testbit (keyboard_get_modifiers (foldl run_kb_call started demo_keys)) 3 = true /\
  keyboard_get_modifiers (foldl run_kb_call started demo_keys) = Z.lor MOD_RCTRL MOD_CAPSLOCK /\ exists r, sent (foldl run_kb_call started demo_keys) = LED_CAPSLOCK :: KB_CMD_SET_LEDS :: r.
Proof.
  assert (keyboard_init 0x65 0x24 0x55 0 fresh_keyboard = (started, true)) as E by (vm_compute; reflexivity). split; [exact E|]. assert (keyboard_get_modifiers (foldl run_kb_call started demo_keys) = Z.lor MOD_RCTRL MOD_CAPSLOCK) as Em by (vm_compute; reflexivity).
  destruct (keyboard_modifiers_held 0x65 0x24 0x55 0 fresh_keyboard started demo_keys eq_refl E) as (H1 & _ & _ & H4); [repeat constructor; vm_compute; congruence|]. split; [rewrite (proj1 (H1 3 KEY_RCTRL (Code 0xE0 0x1D) (Code 0xE0 0x9D) ltac:(do 3 right; left))); reflexivity|]. split; [exact Em|]. rewrite Em in H4. exact H4.
Defined.
Lemma keyboard_letter_case_witness : 0 <= 0x1E < 128 /\ scancode_to_ascii 0x1E (Z.lor MOD_RSHIFT MOD_CAPSLOCK) = 97.
Proof. split; [lia|]. rewrite (keyboard_letter_case 0x1E (Z.lor MOD_RSHIFT MOD_CAPSLOCK)) by lia. reflexivity. Defined.

(** ** Where the code does not do what it means to *)

(** The Up key (E0 48) is not marked as extended and comes with the character 8: the test is
    made on the byte after the prefix, which is never the prefix. *)
Lemma arrow_key_types_digit : let e := nth 0 (pending (keyboard_handler 0x48 (keyboard_handler 0xE0 started))) (mk_kb_event 0 0 0 false false 0) in
  ev_keycode e = 159 /\ ev_extended e = false /\ ev_ascii e = 56.
Proof. by vm_compute. Qed.
Lemma never_extended sc k : match snd (decode_scancode sc k) with Some e => ev_extended e = false | None => True end.
Proof. unfold decode_scancode. cbn zeta. destruct (sc =? SCANCODE_EXTENDED); [done|]. destruct (sc =? SCANCODE_EXTENDED2); [done|]. by destruct (find_keycode _ _). Qed.
(** The Pause key (E1 1D 45 E1 9D C5) also switches Num Lock, because only one byte after the
    prefix is skipped. *)
Lemma pause_key_toggles_numlock : has_mod started MOD_NUMLOCK = true /\ has_mod (foldl (fun k sc => keyboard_handler sc k) started [0xE1; 0x1D; 0x45; 0xE1; 0x9D; 0xC5]) MOD_NUMLOCK = false.
Proof. by vm_compute. Qed.
(** The translation to the scan codes that the tables are for is switched off and stays off: no
    configuration that is written has the bit, when the controller keeps what is written. *)
Lemma translation_stays_off : Z.land (nth 2 (rev (sent (fst (keyboard_init 0x65 0x24 0x55 0 fresh_keyboard)))) 0) PS2_CONFIG_TRANSLATE = 0 /\ firstn 3 (rev (sent started)) = [0x24; 0x24; 0x25].
Proof. by vm_compute. Qed.
(** The name tells a key from every other key that has a name. *)
Lemma key_names_distinct : forallb (fun c => forallb (fun d => bool_decide (keyboard_keycode_name c <> keyboard_keycode_name d) || (c =? d) || bool_decide (keyboard_keycode_name c = str "UNKNOWN"%string)) (seqZ 0 181)) (seqZ 0 181) = true.
Proof. vm_compute. reflexivity. Qed.
